(* ===== verification/_CoqProject ===== *)
-Q . S2P
Prelude.v
Ring.v
CStr.v
StrSearch.v
Float754.v
Inet.v
Clock.v
HostAlloc.v
SpoolDir.v
Config.v
Spool.v
Events.v
PerfSample.v
NfFlow.v
Nflog.v
TcpParse.v
Table.v
TcpStats.v
SynWindow.v
TcpEmit.v
TcpInv.v
Nfct.v
FlowEntry.v
FlowTable.v
FlowAcct.v
AgentData.v
Agent.v
AgentConfig.v
Icmp.v
LivePing.v
TraceProbe.v
LiveTrace.v
AgentRun.v
Base64.v
HttpRead.v
HttpPost.v
AgentEgress.v
IpcRequest.v
IpcServer.v
IpcClient.v
AgentLoop.v
AgentLoopUv.v
AgentMain.v
Genl.v
WifiStats.v
LiveArping.v
ChQuery.v
CtlMain.v
Forensicsd.v
Ingest.v
GatewayStub.v
Strtod.v
LuaApi.v
LuaBind.v
LuaRepl.v
LuaMain.v
CtlLua.v
CtlLuaMain.v
Harness.v
