(* ===== verification/Prelude.v ===== *)
(** * A verification of the netforensics CPE agent

    netforensics (sources under src/) watches home routers: an agent on the router
    (src/agent/, headers in src/include/) measures latency, TCP health and flows, keeps the
    results as NDJSON lines in a bounded spool, and flushes them to standard output, a file
    or an HTTP collector; it answers a control client (cpe_ctl) on a Unix socket, and the
    same client lists past flows from the collector's database; both run Lua scripts over
    their operations.  A smaller stand-alone daemon
    (src/cpe/forensicsd.c) prints conntrack and Wi-Fi events as they come, and collectors at
    the core join the router's flows with IPFIX records (src/src/flow_correlate.c).  This
    library models these programs as executable Rocq functions translated from the C text,
    and proves what makes them correct.

    ** Conventions

    - A C integer is a [Z]; every operation that can wrap goes through [u8], [u16], [u32],
      [u64] of this file ([in_u32 z] and the like are the ranges).  Array indexes and
      lengths that cannot wrap are [nat].  [size_t] is 64 bits unless a width is a parameter
      ([FlowAcct.feed_and_apply], [Config.parse_u32], [Forensicsd.done_scan],
      [ChQuery.ce_bits]).
    - A C string is a [string] without its terminator; [snprintf] and friends ([CStr]) cut
      to the buffer's size.  JSON templates are written with apostrophes and turned into
      double quotes by [CStr.lit].
    - Code that reads received buffers runs in [chk]: [Oob] is a read outside the buffer.
      "Memory safe" below means that the result is [Safe].
    - C structs are records with functional update [r <| field := v |>]; an array with a
      count is the list of its live entries, except where slots can be holes.
    - What the kernel and the libraries may answer is stated where it is assumed:
      [TcpEmit.recv_ok] (NFLOG datagrams padded to four bytes), [FlowAcct.io_ok] (conntrack
      datagrams of bytes), [FlowTable.time_ok] (a clock below 2^64 - 1),
      [Events.nfct_event_ok] (event fields within their types), [AgentRun.config_ok]
      (loaded configurations without negative sizes), [HttpPost.send_ok] and
      [HttpPost.handshake_ends] (a send takes no more than it is given, the TLS handshake
      ends); [AgentLoop.loop_env_ok], [IpcRequest.ipc_env_ok] and [LuaBind.lua_env_ok]
      collect them.
    - Loops that are not structural take fuel; each such function is called with enough
      (the buffer's length plus one for walks over a buffer, the number of scripted answers
      plus one for drains, the source's own bound for event pulls), and the theorems prove
      the result, not only its shape: running out of fuel is [Oob], or is excluded by the
      theorem.
    - Code outside src/ is an argument: the diagnostic library is the classes
      [Events.EventSource], [FlowAcct.NfctLib], [AgentData.PingLib], [NfFlow.NfLib],
      [WifiStats.WifiLib], [Forensicsd.EventText], [Ingest.BmpLib],
      [Ingest.IpfixLib]; the virtual clock is [Harness.SimLib]; the Lua interpreter is
      [LuaApi.LuaLib] and [LuaApi.LuaLoad], a script the tree of its calls into C; mbedTLS is
      [HttpPost.tls_env]; YAML parsing is [Config.yaml_parse]; [qsort] is [TcpEmit.QSort] with
      its documented laws; the file system is [SpoolDir.FileSystem]; clocks, sockets and allocators are
      environment records whose fields are the answers of the calls.

    ** The files

    Foundations: [Prelude] (integers, records, checked reads, list lemmas, reachability
    [star]); [CStr] (C strings, printf integers, strtoul); [StrSearch]
    (searching in texts put together from pieces); [Float754] (IEEE arithmetic,
    [%.pf] and [%g]); [Strtod] (reading floating-point numbers); [Inet] (byte order, inet_ntop, inet_pton); [Ring] (circular buffers as lists);
    [Clock] (time stamps: the three [iso_now] and [mono_ms]).

    Agent infrastructure: [HostAlloc] (agent/host_alloc.c), [SpoolDir]
    (agent/spool_util.c), [Config] (include/cpe_agent_config.h, agent/config_defaults.c,
    agent/config_yaml.c), [Spool] (event queue, line spool and flush of
    agent/agent_core.c; the interface [LineSink] is all that line producers see).

    Flow observations: [Events] (the library's conntrack events), [PerfSample]
    (agent/perf_sample.c), [NfFlow] (src/flow_correlate.c).

    TCP health: [Nflog] (src/nflog_netlink.c: open, receive, walk), [TcpParse] (packet
    parsing and prefixes), [Table] (the least-used-entry table both statistics share),
    [TcpStats] (per-packet aggregation), [SynWindow] (retransmitted SYNs), [TcpEmit] (the
    socket life cycle, polling, NDJSON rows, the tick), [TcpInv] (the invariant of every
    operation) - together agent/tcp_stats.c.

    Flow accounting: [Nfct] (src/nfct_netlink.c), [FlowEntry] (rows, identifiers, NDJSON),
    [FlowTable] (the table and what an event does to it), [FlowAcct] (datagrams, sockets,
    samples, the tick) - together agent/flow_acct.c.

    The agent: [AgentData] (stored results), [Agent] (struct cpe_agent and the operations
    of agent/agent_core.c that are not in [Spool]), [AgentConfig] (what applying and
    reloading a configuration does), [AgentRun] (flush, feed, samples, traces, and the
    invariant of all reachable agents).

    Measurements: [Icmp] (packets and checksums), [LivePing] (agent/live_ping.c),
    [TraceProbe] and [LiveTrace] (agent/live_trace.c: the probes, then hops, table and
    lines), [LiveArping] (agent/live_arping.c), [Genl] (src/nl80211_netlink.c), [WifiStats]
    (agent/wifi_stats.c).

    Egress: [Base64] and [HttpPost] (agent/tls_egress.c: URLs, authentication, the request
    over a plain or a TLS connection), [AgentEgress] (the agent's flush over HTTP);
    [HttpRead] is the reader of HTTP requests against which the requests of [HttpPost] and
    [ChQuery] are judged, a specification and no model of source code.

    Control: [IpcRequest] (agent/ipc_server.c: the requests), [IpcServer] (the same file:
    the socket, clients, framing; its interface to the requests is the class
    [IpcServer.LineHandler]), [IpcClient] (agent/ipc_client.c), [ChQuery]
    (agent/ctl_ch_query.c: the database query, the response, the table), [CtlMain]
    (agent/ctl_main.c: the command line of cpe_ctl).

    Scripting: [LuaApi] (values, argument checks, C functions with errors, chunks),
    [LuaBind] (agent/lua_bind.c: the agent's functions, loading and running), [LuaRepl]
    (agent/lua_repl.c: the prompt), [LuaMain] (agent/main.c of a build with Lua), [CtlLua]
    (agent/ctl_lua.c: the client's functions, its reading of the daemon's JSON, its prompt),
    [CtlLuaMain] (agent/ctl_main.c of a build with Lua).

    Processes: [AgentLoop] (agent/agent_loop_poll.c), [AgentLoopUv] (the callbacks of
    agent/agent_loop.c, the same loop over libuv), [AgentMain] (agent/main.c), [Forensicsd]
    (cpe/forensicsd.c).

    Harnesses: [Harness] (agent/agent_fuzz.c, agent/agent_sim.c, agent/harness_driver.c,
    fuzz/fuzz_cpe_agent.c: the fuzzer's entry, the drive by virtual time, the local tool).

    Gateway: [Ingest] (src/bmp_ingest.c, src/ipfix_ingest.c and their demos: messages
    to observations), [GatewayStub] (src/gateway_stub_main.c: the lab sink of the agents'
    requests, over [HttpPost]'s request text).

    The agent's operations meet in [AgentRun.agent_inv]: [AgentLoop] runs any number of
    rounds of ticks, requests ([IpcServer] over [IpcRequest]) and reloads on an agent that
    [Agent] created and [AgentConfig] configured, and [AgentMain] starts and ends that loop;
    [IpcClient] and [IpcServer] are composed through the bytes they exchange, as are
    [CtlMain] and [IpcRequest] through the request line and [CtlLua] and [IpcRequest]
    through the response's JSON.

    ** What is proved

    - The agent as a whole: from creation, any sequence of its operations keeps
      [AgentRun.agent_inv], and in every reachable state both periodic ticks are memory
      safe and return ([agent_reachable_safe]); a flush hands over every line it removes
      ([emit_flush_hands_over]); the exact outcomes of applying and reloading a
      configuration ([apply_config_outcomes], [apply_config_in_force],
      [reload_config_spec]).
    - The spool and event queue refine bounded queues (drop-oldest, drop-newest), batches
      are maximal prefixes and lose nothing.
    - Configurations built by the loader are well-formed; validation accepts exactly the
      valid ones; the precedence of the TLS keys.
    - Parsing is safe on every input and decodes what an encoder writes (NFLOG messages,
      IPv4 and IPv6 packets with any extension chain, conntrack datagrams); where a bound
      check is wrong the theorem exhibits the overrun ([nflog_walk_control_overrun],
      [feed_bound_check]).
    - Aggregation is exact as long as the tables do not overflow and never over-counts
      after; the SYN window is the sixty-four-entry window of tuples; the emitted rows are
      the busiest ones.
    - The flow table keeps its books under every event; deltas telescope; samples are the
      busiest flows; the eviction and identifier-only DESTROY behaviours are pinned down.
    - The matcher joins exactly the observations of the same translated flow.
    - Probes report what the network answered and nothing else: a ping's reply
      ([live_ping_reports]), a trace's hops and their order ([run_trace_table]), an ARP reply
      ([arping_reports]), the stations of a dump up to the table's size
      ([wifi_dump_reports]); the family of the nl80211 socket is the one the kernel named
      ([nl80211_open_resolves]).
    - An HTTP flush sends each batch as one request, from which a reader of HTTP recovers
      the path, the configured credentials and exactly the lines, and removes the lines only
      after a success ([http_flush_delivers], [http_post_delivers]); Base64 is the standard
      encoding.
    - The control socket: every request is answered safely and keeps the agent's invariant,
      a poll never leaks a descriptor, and what a client sends is what the handler sees, what
      the handler answers is what the client gets ([ipc_exchange]); [ctl_request_read] says
      that the requests cpe_ctl writes are the ones the daemon reads.
    - Past flows: cpe_ctl makes its request for one SELECT over identifiers, which is what
      the server reads as long as no option holds a line end ([query_sends_select]; with one
      it is not, [user_ends_head]), and a listing shows exactly the rows of the server's chunked
      answer ([history_shows_rows]); exit codes and messages agree ([ctl_errors_reported]),
      but for an answer with a false chunk size, which is copied out of bounds.
    - The event loops run round after round without leaving the invariant and stop when told
      ([agent_loop_runs], [uv_loop_runs]), and the process exits with what it opened closed
      ([main_exits], [lua_main_exits]); likewise [forensicsd_closes] and
      [wifi_dump_reads_to_end] for the stand-alone daemon.
    - Scripts: none breaks the agent ([lua_scripts_safe]); a setting made from Lua is exact
      and read back ([lua_setting_reads_back]); a prompt evaluates the lines of its session
      once, in order ([repl_session]); what a script of the control client reads are the
      daemon's numbers ([script_reads_stats]).
    - No input of the fuzzer breaks the agent, and the drive by virtual time runs the ticks it
      was asked for ([fuzz_input_safe], [sim_drive_ticks]).
    - At the gateway, collecting from BMP messages keeps every event ([bmp_collect_keeps]) and
      collecting flows accounts for every record ([ipfix_collect_accounts]); what the stub
      prints of a request is the part of the body in its first piece
      ([stub_prints_first_piece]).

    ** Not modelled

    The test programs (src/tests/) drive the operations; src/third_party/ is vendored code, the Lua interpreter and linenoise among it: how a script is compiled
    and what it computes between its calls is its own.  Of the agents'
    standard error output only that of cpe_ctl, forensicsd, gateway_stub and the prompts is
    modelled. *)

From Stdlib Require Export ZArith Lia.
From stdpp Require Export strings base decidable numbers option list.


#[global] Set Default Goal Selector "!".

(** ** Machine integers

    A w-bit unsigned integer is a [Z] in [0, 2^w); every C operation that can
    wrap is followed by one of these truncations. *)
Definition u8 (z : Z) : Z := (z mod 256)%Z.
Definition u16 (z : Z) : Z := (z mod 65536)%Z.
Definition u32 (z : Z) : Z := (z mod 4294967296)%Z.
Definition u64 (z : Z) : Z := (z mod 18446744073709551616)%Z.

Definition in_u8 (z : Z) : Prop := (0 <= z < 256)%Z.
Definition in_u16 (z : Z) : Prop := (0 <= z < 65536)%Z.
Definition in_u32 (z : Z) : Prop := (0 <= z < 4294967296)%Z.
Definition in_u64 (z : Z) : Prop := (0 <= z < 18446744073709551616)%Z.

Create HintDb nf.

(** [word_lia]: linear arithmetic modulo the width truncations. *)
Ltac word_lia :=
  unfold u8, u16, u32, u64, in_u8, in_u16, in_u32, in_u64 in *;
  Z.div_mod_to_equations; lia.

Lemma u8_range z : in_u8 (u8 z).
Proof. word_lia. Qed.
Lemma u16_range z : in_u16 (u16 z).
Proof. word_lia. Qed.
Lemma u32_range z : in_u32 (u32 z).
Proof. word_lia. Qed.
Lemma u64_range z : in_u64 (u64 z).
Proof. word_lia. Qed.
Lemma u8_id z : in_u8 z -> u8 z = z.
Proof. intros; apply Z.mod_small; word_lia. Qed.
Lemma u16_id z : in_u16 z -> u16 z = z.
Proof. intros; apply Z.mod_small; word_lia. Qed.
Lemma u32_id z : in_u32 z -> u32 z = z.
Proof. intros; apply Z.mod_small; word_lia. Qed.
Lemma u64_id z : in_u64 z -> u64 z = z.
Proof. intros; apply Z.mod_small; word_lia. Qed.
#[export] Hint Resolve u8_range u16_range u32_range u64_range : nf.

(** C truth values: [truthy] reads an [int] as a condition, [c_bool] is the
    [int] a comparison yields. *)
Definition truthy (z : Z) : bool := negb (z =? 0)%Z.
Definition c_bool (b : bool) : Z := if b then 1%Z else 0%Z.

(** [dflt x d] is the C idiom [x ? x : d]. *)
Definition dflt (x d : Z) : Z := if truthy x then x else d.

Lemma truthy_c_bool b : truthy (c_bool b) = b.
Proof. by destruct b. Qed.
Lemma truthy_spec z : truthy z = true <-> z <> 0%Z.
Proof. unfold truthy. rewrite negb_true_iff, Z.eqb_neq. done. Qed.
Lemma dflt_nonzero x d : d <> 0%Z -> dflt x d <> 0%Z.
Proof.
  unfold dflt. intros Hd. destruct (truthy x) eqn:E; [|done].
  by apply truthy_spec.
Qed.

(** ** Functional record update: [r <| field := v |>]

    A record type declares one [Eta] instance (its eta expansion); the setter
    of a field is computed from it by [derive_setter]. *)
Class Eta (R : Type) := eta_expand : R -> R.
Class Setter {R T : Type} (proj : R -> T) := set_field : T -> R -> R.

Ltac derive_setter :=
  lazymatch goal with
  | |- @Setter ?R ?T ?f =>
      let inst := constr:(_ : Eta R) in
      let v := fresh "v" in
      let r := fresh "r" in
      intros v r;
      let body := eval hnf in (inst r) in
      lazymatch eval pattern f in body with
      | ?g _ => let t := eval cbv beta in (g (fun _ => v)) in exact t
      end
  end.
#[export] Hint Extern 0 (Setter _) => derive_setter : typeclass_instances.

Declare Scope nf_scope.
Delimit Scope nf_scope with nf.
#[global] Open Scope nf_scope.
Notation "r <| f := v |>" := (set_field (proj := f) v r)
  (at level 1, left associativity, f at level 9, v at level 200,
   format "r  <| f  :=  v |>") : nf_scope.

(** ** Checked memory reads

    Code that walks a received buffer reads [buf[i]] with computed indexes.
    [chk A] is the result of such code: [Oob] is a read outside the buffer
    (undefined behaviour in C), [Safe a] a normal return. *)
Inductive chk (A : Type) : Type :=
  | Safe (a : A)
  | Oob.
Arguments Safe {A} a.
Arguments Oob {A}.

#[export] Instance chk_ret : MRet chk := fun A a => Safe a.
#[export] Instance chk_bind : MBind chk := fun A B k m =>
  match m with Safe a => k a | Oob => Oob end.

(** One byte of a buffer. *)
Definition rd (b : list Z) (i : nat) : chk Z :=
  match b !! i with Some x => Safe x | None => Oob end.

Definition bytes (b : list Z) : Prop := Forall in_u8 b.

Lemma rd_safe (b : list Z) i : (i < length b)%nat -> exists x, rd b i = Safe x /\ b !! i = Some x.
Proof.
  intros H. apply lookup_lt_is_Some_2 in H as [x Hx].
  exists x. unfold rd. by rewrite Hx.
Qed.
Lemma rd_byte (b : list Z) i x : bytes b -> rd b i = Safe x -> in_u8 x.
Proof.
  unfold rd. intros Hb. destruct (b !! i) as [y|] eqn:E; [|done].
  intros [= <-]. by eapply Forall_lookup_1 in Hb.
Qed.
Lemma rd_app_l (b c : list Z) i : (i < length b)%nat -> rd (b ++ c) i = rd b i.
Proof. intros. unfold rd. by rewrite lookup_app_l. Qed.
Lemma rd_app_r (b c : list Z) i : (length b <= i)%nat -> rd (b ++ c) i = rd c (i - length b).
Proof. intros. unfold rd. by rewrite lookup_app_r. Qed.

(** [step_rd] performs the next checked read of the goal, leaving its bound. *)
Ltac step_rd :=
  match goal with
  | |- context [rd ?b ?i] =>
      let x := fresh "x" in let H := fresh "Hrd" in let L := fresh "Hlk" in
      destruct (rd_safe b i) as (x & H & L); [|rewrite H; cbn [mbind chk_bind]]
  end.

(** Go past a checked read that succeeded. *)
Ltac chk_step := cbn [mbind chk_bind mret chk_ret].

(** [safe_with P r]: the code returned normally with a result in [P]. *)
Definition safe_with {A} (P : A -> Prop) (r : chk A) : Prop := exists a, r = Safe a /\ P a.

Lemma safe_bind {A B} (m : chk A) (k : A -> chk B) (P : A -> Prop) (Q : B -> Prop) :
  safe_with P m -> (forall a, P a -> safe_with Q (k a)) -> safe_with Q (m ≫= k).
Proof. intros (a & -> & Ha) H. by apply H. Qed.
Lemma safe_ret {A} (P : A -> Prop) (a : A) : P a -> safe_with P (mret a).
Proof. intros. by exists a. Qed.

(** ** Lists *)
Section lists.
Context {A : Type}.

(** The last [n] elements. *)
Definition lastn (n : nat) (l : list A) : list A := drop (length l - n) l.

Lemma length_lastn n l : length (lastn n l) = Nat.min n (length l).
Proof. unfold lastn. rewrite length_drop. lia. Qed.
Lemma lastn_all n l : length l <= n -> lastn n l = l.
Proof. intros. unfold lastn. replace (length l - n) with 0 by lia. done. Qed.
Lemma lastn_app_lastn n l k : lastn n (lastn n l ++ k) = lastn n (l ++ k).
Proof.
  unfold lastn. rewrite !length_app, length_drop.
  destruct (decide (length l <= n)) as [Hle|Hgt].
  { replace (length l - n) with 0 by lia. rewrite drop_0. f_equal. lia. }
  rewrite <- drop_app_le by lia. rewrite drop_drop. f_equal. lia.
Qed.
Lemma lastn_snoc_full n l x :
  length l = n -> 0 < n -> lastn n (l ++ [x]) = tail l ++ [x].
Proof.
  intros Hl Hn. unfold lastn. rewrite length_app; simpl.
  replace (length l + 1 - n) with 1 by lia.
  destruct l; simpl in *; [lia|]. done.
Qed.
Lemma lastn_suffix n l : lastn n l `suffix_of` l.
Proof. exists (take (length l - n) l). unfold lastn. by rewrite take_drop. Qed.

Lemma NoDup_fmap_eq {B} (f : A -> B) (l : list A) i j x y :
  NoDup (f <$> l) -> l !! i = Some x -> l !! j = Some y -> f x = f y -> i = j.
Proof.
  intros Hnd Hi Hj Hf. eapply NoDup_lookup; [exact Hnd| |].
  - by rewrite list_lookup_fmap, Hi.
  - by rewrite list_lookup_fmap, Hj; simpl; rewrite <- Hf.
Qed.

Lemma NoDup_insert (l : list A) i x : NoDup l -> x ∉ l -> NoDup (<[i := x]> l).
Proof.
  rewrite !NoDup_alt. intros Hnd Hx j k y Hj Hk.
  rewrite list_lookup_insert_Some in Hj, Hk.
  destruct Hj as [(-> & -> & _)|[? Hj]], Hk as [(-> & Hy & _)|[? Hk]]; try done.
  - exfalso. apply Hx. by eapply list_elem_of_lookup_2.
  - subst. exfalso. apply Hx. by eapply list_elem_of_lookup_2.
  - by eapply Hnd.
Qed.

(** Index of the first element satisfying [p]. *)
Fixpoint find_index (p : A -> bool) (l : list A) : option nat :=
  match l with
  | [] => None
  | x :: l' => if p x then Some 0 else S <$> find_index p l'
  end.

Lemma find_index_Some p l i :
  find_index p l = Some i ->
  exists x, l !! i = Some x /\ p x = true /\
    forall j y, j < i -> l !! j = Some y -> p y = false.
Proof.
  revert i. induction l as [|x l IH]; intros i; simpl; [done|].
  destruct (p x) eqn:Hp.
  - intros [= <-]. exists x. repeat split; [done|]. lia.
  - destruct (find_index p l) as [k|]; simpl; [|done]. intros [= <-].
    destruct (IH k eq_refl) as (y & Hy & Hpy & Hmin). exists y.
    repeat split; [done|done|]. intros [|j] z Hj Hz; simplify_eq/=; [done|].
    eapply Hmin; [|exact Hz]. lia.
Qed.
Lemma find_index_None p l :
  find_index p l = None <-> forall i x, l !! i = Some x -> p x = false.
Proof.
  induction l as [|x l IH]; simpl.
  - split; [intros _ i x Hx; by rewrite lookup_nil in Hx|done].
  - destruct (p x) eqn:Hp.
    + split; [done|]. intros H. specialize (H 0 x eq_refl). congruence.
    + rewrite fmap_None, IH. split.
      * intros H [|i] y; simpl; [intros [= <-]; done|apply H].
      * intros H i y Hy. apply (H (S i) y Hy).
Qed.
End lists.

(** Sum of an integer measure over a list. *)
Definition zsum {A} (f : A -> Z) (l : list A) : Z := foldr (fun x a => f x + a)%Z 0%Z l.

Lemma zsum_cons {A} (f : A -> Z) x l : zsum f (x :: l) = (f x + zsum f l)%Z.
Proof. done. Qed.
Lemma zsum_app {A} (f : A -> Z) l k : zsum f (l ++ k) = (zsum f l + zsum f k)%Z.
Proof. induction l; simpl; lia. Qed.
Lemma zsum_nonneg {A} (f : A -> Z) l :
  (forall x, x ∈ l -> 0 <= f x)%Z -> (0 <= zsum f l)%Z.
Proof.
  induction l as [|x l IH]; intros H; simpl; [lia|].
  assert (0 <= f x)%Z by (apply H; left).
  assert (0 <= zsum f l)%Z by (apply IH; intros; apply H; by right). lia.
Qed.
Lemma zsum_fmap {A B} (f : B -> Z) (g : A -> B) l : zsum f (g <$> l) = zsum (fun x => f (g x)) l.
Proof. induction l as [|x l IH]; [done|]. exact (f_equal (Z.add (f (g x))) IH). Qed.
Lemma zsum_ext {A} (f g : A -> Z) l : (forall x, x ∈ l -> f x = g x) -> zsum f l = zsum g l.
Proof.
  induction l as [|x l IH]; intros H; simpl; [done|].
  rewrite (H x) by left. f_equal. apply IH. intros. apply H. by right.
Qed.
Lemma zsum_le {A} (f g : A -> Z) l :
  (forall x, x ∈ l -> f x <= g x)%Z -> (zsum f l <= zsum g l)%Z.
Proof.
  induction l as [|x l IH]; intros H; simpl; [lia|].
  pose proof (H x ltac:(left)). assert (zsum f l <= zsum g l)%Z by (apply IH; intros; apply H; by right).
  lia.
Qed.
Lemma zsum_const {A} (c : Z) (l : list A) : zsum (fun _ => c) l = (c * Z.of_nat (length l))%Z.
Proof. induction l; simpl; lia. Qed.
Lemma zsum_insert {A} (f : A -> Z) l i x y :
  l !! i = Some x -> zsum f (<[i := y]> l) = (zsum f l - f x + f y)%Z.
Proof.
  revert i. induction l as [|z l IH]; intros [|i] H; simplify_eq/=; [lia|].
  rewrite (IH _ H). lia.
Qed.
Lemma zsum_elem_le {A} (f : A -> Z) l x :
  (forall y, y ∈ l -> 0 <= f y)%Z -> x ∈ l -> (f x <= zsum f l)%Z.
Proof.
  induction l as [|z l IH]; intros Hpos Hx; [by apply elem_of_nil in Hx|].
  apply elem_of_cons in Hx as [->|Hx]; simpl.
  - assert (0 <= zsum f l)%Z by (apply zsum_nonneg; intros; apply Hpos; by right). lia.
  - assert (f x <= zsum f l)%Z by (apply IH; [intros; apply Hpos; by right|done]).
    assert (0 <= f z)%Z by (apply Hpos; left). lia.
Qed.

(** Reflexive transitive closure, for the step relations of the components. *)
Inductive star {S : Type} (R : S -> S -> Prop) : S -> S -> Prop :=
  | star_refl s : star R s s
  | star_step s t u : R s t -> star R t u -> star R s u.

Lemma star_invariant {S} (R : S -> S -> Prop) (I : S -> Prop) :
  (forall s t, I s -> R s t -> I t) -> forall s t, star R s t -> I s -> I t.
Proof. intros Hstep s t H. induction H; eauto. Qed.
