(* ===== verification/Ring.v ===== *)
(** * Circular buffers

    The event queue and the line spool of [src/agent/agent_core.c] are the same
    data structure: an array, a head index, a tail index and a count, all
    advanced modulo the array's size.  This file gives that structure its
    abstract reading (the list of live elements, oldest first) once, and the
    lemmas that relate the index arithmetic of the C code to list operations. *)

From S2P Require Import Prelude.

Section ring.
Context {A : Type} `{!Inhabited A}.
Implicit Types (buf : list A) (head tail cnt k : nat) (x : A).

(** The live elements, oldest first. *)
Definition ring_view buf head cnt : list A :=
  (fun i => buf !!! ((head + i) `mod` length buf)) <$> seq 0 cnt.

Record ring_wf buf head tail cnt : Prop := {
  ring_cap_pos : 0 < length buf;
  ring_head_lt : head < length buf;
  ring_cnt_le : cnt <= length buf;
  ring_tail_eq : tail = (head + cnt) `mod` length buf;
}.

Lemma length_ring_view buf head cnt : length (ring_view buf head cnt) = cnt.
Proof. unfold ring_view. by rewrite length_fmap, length_seq. Qed.

Lemma ring_view_lookup buf head cnt i :
  i < cnt -> ring_view buf head cnt !! i = Some (buf !!! ((head + i) `mod` length buf)).
Proof.
  intros Hi. unfold ring_view. rewrite list_lookup_fmap, lookup_seq_lt by done. done.
Qed.

Lemma ring_tail_lt buf head tail cnt : ring_wf buf head tail cnt -> tail < length buf.
Proof. intros []. subst. apply Nat.mod_upper_bound. lia. Qed.

(** Distinct offsets below the capacity designate distinct cells. *)
Lemma ring_offset_inj head i j cap :
  i < cap -> j < cap -> (head + i) `mod` cap = (head + j) `mod` cap -> i = j.
Proof.
  intros Hi Hj Heq.
  pose proof (Nat.div_mod_eq (head + i) cap). pose proof (Nat.div_mod_eq (head + j) cap).
  assert ((head + i) `div` cap = (head + j) `div` cap) by nia. nia.
Qed.

(** Writing at the tail and counting one more element appends it. *)
Lemma ring_view_push buf head tail cnt x :
  ring_wf buf head tail cnt -> cnt < length buf ->
  ring_view (<[tail := x]> buf) head (S cnt) = ring_view buf head cnt ++ [x].
Proof.
  intros Hwf Hlt. pose proof (ring_tail_lt _ _ _ _ Hwf) as Ht. destruct Hwf as [Hc Hh Hn ->].
  unfold ring_view. rewrite seq_S, fmap_app, length_insert. simpl. f_equal.
  - apply list_fmap_ext. intros i j Hij. apply lookup_seq in Hij as [-> Hij].
    apply list_lookup_total_insert_ne. intros E. simpl in E.
    apply ring_offset_inj in E; lia.
  - by rewrite list_lookup_total_insert_eq.
Qed.

(** Dropping [k] elements advances the head by [k]. *)
Lemma ring_view_drop buf head cnt k :
  k <= cnt ->
  ring_view buf ((head + k) `mod` length buf) (cnt - k) = drop k (ring_view buf head cnt).
Proof.
  intros Hk. apply list_eq. intros i. rewrite lookup_drop.
  destruct (decide (i < cnt - k)) as [Hi|Hi].
  - rewrite !ring_view_lookup by lia. do 2 f_equal.
    rewrite Nat.Div0.add_mod_idemp_l. f_equal. lia.
  - rewrite !lookup_ge_None_2; [done| |]; rewrite length_ring_view; lia.
Qed.

Lemma ring_view_cons buf head cnt :
  0 < cnt -> head < length buf ->
  ring_view buf head cnt =
    (buf !!! head) :: ring_view buf ((head + 1) `mod` length buf) (cnt - 1).
Proof.
  intros Hc Hh. rewrite ring_view_drop by lia.
  destruct (ring_view buf head cnt) as [|y l] eqn:E.
  { apply (f_equal length) in E. rewrite length_ring_view in E. simpl in E. lia. }
  simpl. rewrite drop_0. f_equal.
  assert (H : ring_view buf head cnt !! 0 = Some y) by by rewrite E.
  rewrite ring_view_lookup in H by lia. injection H as <-.
  rewrite Nat.add_0_r, Nat.mod_small by done. done.
Qed.

Lemma ring_wf_push buf head tail cnt x :
  ring_wf buf head tail cnt -> cnt < length buf ->
  ring_wf (<[tail := x]> buf) head ((tail + 1) `mod` length buf) (S cnt).
Proof.
  intros [Hc Hh Hn ->] Hlt. constructor; rewrite ?length_insert; try lia.
  rewrite Nat.Div0.add_mod_idemp_l. f_equal. lia.
Qed.

Lemma ring_wf_drop buf head tail cnt k :
  ring_wf buf head tail cnt -> k <= cnt ->
  ring_wf buf ((head + k) `mod` length buf) tail (cnt - k).
Proof.
  intros [Hc Hh Hn ->] Hk. constructor; try lia.
  - apply Nat.mod_upper_bound. lia.
  - rewrite Nat.Div0.add_mod_idemp_l. f_equal. lia.
Qed.

Lemma ring_view_ext buf buf' head cnt :
  buf = buf' -> ring_view buf head cnt = ring_view buf' head cnt.
Proof. by intros ->. Qed.
End ring.
