(* ===== verification/CStr.v ===== *)
(** * C strings and the printf/strtoul family

    A NUL-terminated string held in a [char x[N]] is a [string] of length below
    [N] with no NUL inside.  [snprintf] keeps the first [N-1] characters and
    returns the untruncated length; the conversions used by the sources
    ([%u], [%llu], [%08x], [%02x], [%0wd]) and [strtoul] are defined here, with
    the length bounds and the print/parse round trip the formatters rely on. *)

From S2P Require Import Prelude.
From Stdlib Require Import Ascii.

(** ** Truncation *)
Fixpoint str_take (n : nat) (s : string) : string :=
  match n, s with
  | S n', String c s' => String c (str_take n' s')
  | _, _ => EmptyString
  end.

Fixpoint str_drop (n : nat) (s : string) : string :=
  match n, s with
  | S n', String _ s' => str_drop n' s'
  | _, _ => s
  end.

Abbreviation strlen := String.length.

(** The pieces of a text put together. *)
Fixpoint concat_str (cs : list string) : string :=
  match cs with [] => EmptyString | c :: cs' => c +:+ concat_str cs' end.

Lemma strlen_app (s t : string) : strlen (s +:+ t) = strlen s + strlen t.
Proof. induction s as [|c s IH]; simpl; [done|]. by rewrite IH. Qed.
Lemma str_app_cons c (s t : string) : String c s +:+ t = String c (s +:+ t).
Proof. reflexivity. Qed.
Lemma str_app_assoc (s t u : string) : (s +:+ t) +:+ u = s +:+ (t +:+ u).
Proof. induction s as [|c s IH]; [done|]. by rewrite !str_app_cons, IH. Qed.
Lemma str_app_nil_r (s : string) : s +:+ EmptyString = s.
Proof. induction s as [|c s IH]; [done|]. by rewrite str_app_cons, IH. Qed.
Lemma strlen_take n s : strlen (str_take n s) = Nat.min n (strlen s).
Proof. revert s. induction n as [|n IH]; intros [|c s]; simpl; [done..|]. by rewrite IH. Qed.
Lemma str_take_all n s : strlen s <= n -> str_take n s = s.
Proof.
  revert s. induction n as [|n IH]; intros [|c s]; simpl; intros; [done|lia|done|].
  rewrite IH; [done|lia].
Qed.
Lemma str_take_take n m s : str_take n (str_take m s) = str_take (Nat.min n m) s.
Proof. revert m s. induction n as [|n IH]; intros [|m] [|c s]; simpl; [done..|]. by rewrite IH. Qed.

(** The C idiom [x[0] != '\0']. *)
Definition nonempty (s : string) : bool :=
  match s with EmptyString => false | String _ _ => true end.
(** The C idiom [x[0] ? x : d]. *)
Definition str_dflt (s d : string) : string := if nonempty s then s else d.
(** [strcmp(a, b) == 0]. *)
Definition streq (a b : string) : bool := String.eqb a b.

Lemma streq_true a b : streq a b = true <-> a = b.
Proof. apply String.eqb_eq. Qed.
Lemma streq_false a b : streq a b = false <-> a <> b.
Proof. apply String.eqb_neq. Qed.
Lemma nonempty_spec s : nonempty s = true <-> s <> EmptyString.
Proof. destruct s; simpl; split; intros H; try congruence; done. Qed.

(** The bytes of a string. *)
Definition str_bytes (s : string) : list Z :=
  (fun c => Z.of_N (Ascii.N_of_ascii c)) <$> String.list_ascii_of_string s.
Lemma length_str_bytes s : length (str_bytes s) = strlen s.
Proof. unfold str_bytes. rewrite length_fmap. by induction s as [|c s IH]; simpl; [|f_equal]. Qed.
Lemma str_bytes_bytes s : bytes (str_bytes s).
Proof.
  unfold str_bytes. apply Forall_fmap, Forall_true. intros c.
  pose proof (Ascii.N_ascii_bounded c). simpl. unfold in_u8. lia.
Qed.

(** [snprintf(buf, n, ...)] of an expansion [s]: the return value is the full
    length, the buffer holds what fits. *)
Definition snprintf (n : nat) (s : string) : Z * string :=
  (Z.of_nat (strlen s), str_take (n - 1) s).
(** The buffer alone. *)
Definition snprintf_s (n : nat) (s : string) : string := str_take (n - 1) s.
(** The idiom [n = snprintf(...); if (n < 0 || n >= buflen) return -1; return n;] *)
Definition snprintf_checked (buflen : nat) (s : string) : Z * string :=
  let '(n, b) := snprintf buflen s in
  if (n <? 0)%Z || (Z.of_nat buflen <=? n)%Z then ((-1)%Z, b) else (n, b).

Lemma snprintf_s_fits n s : strlen s < n -> snprintf_s n s = s.
Proof. intros. apply str_take_all. lia. Qed.
Lemma snprintf_s_length n s : 0 < n -> strlen (snprintf_s n s) < n.
Proof. intros. unfold snprintf_s. rewrite strlen_take. lia. Qed.
Lemma snprintf_checked_ok n s :
  strlen s < n -> snprintf_checked n s = (Z.of_nat (strlen s), s).
Proof.
  intros H. unfold snprintf_checked, snprintf.
  rewrite str_take_all by lia.
  destruct (_ || _) eqn:E; [|done]. apply orb_true_iff in E. lia.
Qed.
Lemma snprintf_checked_overflow n s :
  n <= strlen s -> snprintf_checked n s = ((-1)%Z, str_take (n - 1) s).
Proof.
  intros H. unfold snprintf_checked, snprintf.
  destruct (_ || _) eqn:E; [done|]. apply orb_false_iff in E. lia.
Qed.

(** ** Searching *)

(** [strchr], as an offset. *)
Fixpoint chr_index (c : ascii) (s : string) : option nat :=
  match s with
  | EmptyString => None
  | String d s' => if Ascii.eqb d c then Some 0 else option_map S (chr_index c s')
  end.

(** The text up to a NUL, and up to the end of a line. *)
Fixpoint until (stop : ascii -> bool) (s : string) : string :=
  match s with
  | EmptyString => EmptyString
  | String c s' => if stop c then EmptyString else String c (until stop s')
  end.
Definition cstr : string -> string := until (fun c => Ascii.eqb c "000").
Definition cr : ascii := ascii_of_nat 13.
Definition lf : ascii := ascii_of_nat 10.
Definition one_line : string -> string := until (fun c => Ascii.eqb c cr || Ascii.eqb c lf).

Lemma strlen_until stop s : strlen (until stop s) <= strlen s.
Proof. induction s as [|c s IH]; simpl; [lia|]. destruct (stop c); simpl; lia. Qed.
(** The character does not occur. *)
Definition free (c : ascii) (s : string) : Prop := chr_index c s = None.

Lemma chr_index_app_none c h t : free c h -> chr_index c (h +:+ t) = option_map (Nat.add (strlen h)) (chr_index c t).
Proof.
  unfold free. induction h as [|d h IH]; [intros _; change (EmptyString +:+ t) with t; by destruct (chr_index c t)|].
  rewrite str_app_cons. cbn [chr_index]. destruct (Ascii.eqb d c); [done|].
  destruct (chr_index c h); [done|]. intros _. rewrite IH by done. by destruct (chr_index c t).
Qed.
Lemma chr_index_app c h t : free c h -> chr_index c (h +:+ String c t) = Some (strlen h).
Proof.
  intros Hf. rewrite chr_index_app_none by done. cbn [chr_index]. rewrite Ascii.eqb_refl.
  cbn [option_map]. by rewrite Nat.add_0_r.
Qed.
Lemma str_take_app h t : str_take (strlen h) (h +:+ t) = h.
Proof. induction h as [|d h IH]; [by destruct t|]. rewrite str_app_cons. cbn [str_take String.length]. by rewrite IH. Qed.
Lemma str_drop_app h t : str_drop (strlen h) (h +:+ t) = t.
Proof. induction h as [|d h IH]; [by destruct t|]. exact IH. Qed.
Lemma str_drop_app_S h d t : str_drop (strlen h + 1) (h +:+ String d t) = t.
Proof. induction h as [|e h IH]; [by destruct t|]. exact IH. Qed.

Lemma str_take_drop n s : s = str_take n s +:+ str_drop n s.
Proof.
  revert s. induction n as [|n IH]; intros [|c s]; [done..|].
  cbn [str_take str_drop]. rewrite str_app_cons. by rewrite <- IH.
Qed.
Lemma strlen_drop n s : strlen (str_drop n s) = strlen s - n.
Proof. revert s. induction n as [|n IH]; intros [|c s]; simpl; [done..|]. by rewrite IH. Qed.

(** ** JSON literals

    The C format strings are full of escaped double quotes.  [lit] turns every
    apostrophe of a template into a double quote; no template of the sources
    contains an apostrophe. *)
Definition quote : ascii := ascii_of_nat 34.
Fixpoint lit (s : string) : string :=
  match s with
  | EmptyString => EmptyString
  | String c s' => String (if Ascii.eqb c "'" then quote else c) (lit s')
  end.
Lemma strlen_lit s : strlen (lit s) = strlen s.
Proof. induction s as [|c s IH]; simpl; [done|]. by rewrite IH. Qed.

Create Rewrite HintDb slen.
#[export] Hint Rewrite strlen_app strlen_lit : slen.

(** ** Printing integers *)
Definition digit_char (d : Z) : ascii :=
  ascii_of_nat (if (d <? 10)%Z then 48 + Z.to_nat d else 87 + Z.to_nat d).

Fixpoint digits_acc (base : Z) (fuel : nat) (n : Z) (acc : string) : string :=
  match fuel with
  | O => acc
  | S f =>
      let acc' := String (digit_char (n mod base)%Z) acc in
      if (n / base =? 0)%Z then acc' else digits_acc base f (n / base)%Z acc'
  end.

(** Enough digits for [n] in any base from two on: one per bit, plus one. *)
Definition digit_fuel (n : Z) : nat := S (Z.to_nat (Z.log2 n)).

(** [%u], [%llu] *)
Definition fmt_u (n : Z) : string := digits_acc 10 (digit_fuel n) n EmptyString.
(** [%x] *)
Definition fmt_x (n : Z) : string := digits_acc 16 (digit_fuel n) n EmptyString.

Fixpoint zeros (n : nat) : string :=
  match n with O => EmptyString | S n' => String "0" (zeros n') end.
Definition pad0 (w : nat) (s : string) : string := zeros (w - strlen s) +:+ s.

(** [%0wd] of an [int] *)
Definition fmt_0d (w : nat) (n : Z) : string :=
  if (n <? 0)%Z then String "-" (pad0 (w - 1) (fmt_u (- n)%Z)) else pad0 w (fmt_u n).
(** [%d] *)
Definition fmt_d (n : Z) : string := fmt_0d 0 n.
(** [%0wx] *)
Definition fmt_0x (w : nat) (n : Z) : string := pad0 w (fmt_x n).
(** ["%02x:%02x:%02x:%02x:%02x:%02x"] *)
Definition mac_text (mac : list Z) : string :=
  fmt_0x 2 (mac !!! 0) +:+ ":" +:+ fmt_0x 2 (mac !!! 1) +:+ ":" +:+ fmt_0x 2 (mac !!! 2) +:+ ":" +:+
  fmt_0x 2 (mac !!! 3) +:+ ":" +:+ fmt_0x 2 (mac !!! 4) +:+ ":" +:+ fmt_0x 2 (mac !!! 5).
(** [x ? "true" : "false"] *)
Definition json_bool (z : Z) : string := if truthy z then "true" else "false".

Lemma strlen_zeros n : strlen (zeros n) = n.
Proof. induction n; simpl; [done|]. by f_equal. Qed.
Lemma strlen_pad0 w s : strlen (pad0 w s) = Nat.max w (strlen s).
Proof. unfold pad0. rewrite strlen_app, strlen_zeros. lia. Qed.

Lemma digits_acc_length base fuel n acc k :
  (2 <= base)%Z -> (0 <= n < base ^ Z.of_nat (S k))%Z ->
  strlen (digits_acc base fuel n acc) <= S k + strlen acc.
Proof.
  intros Hb. revert n acc k. induction fuel as [|f IH]; intros n acc k Hn; simpl; [lia|].
  destruct (n / base =? 0)%Z eqn:E; simpl; [lia|].
  destruct k as [|k].
  { rewrite Z.pow_1_r in Hn. apply Z.eqb_neq in E. rewrite Z.div_small in E by lia. done. }
  etrans; [apply (IH _ _ k)|simpl; lia].
  split; [apply Z.div_pos; lia|]. apply Z.div_lt_upper_bound; [lia|].
  replace (Z.of_nat (S (S k))) with (Z.succ (Z.of_nat (S k))) in Hn by lia.
  rewrite Z.pow_succ_r in Hn by lia. lia.
Qed.

Lemma strlen_fmt_u n k : (0 <= n < 10 ^ Z.of_nat (S k))%Z -> strlen (fmt_u n) <= S k.
Proof.
  intros H. unfold fmt_u.
  pose proof (digits_acc_length 10 (digit_fuel n) n EmptyString k ltac:(lia) H). simpl in *. lia.
Qed.
Lemma strlen_fmt_x n k : (0 <= n < 16 ^ Z.of_nat (S k))%Z -> strlen (fmt_x n) <= S k.
Proof.
  intros H. unfold fmt_x.
  pose proof (digits_acc_length 16 (digit_fuel n) n EmptyString k ltac:(lia) H). simpl in *. lia.
Qed.
Lemma digits_acc_nonempty base fuel n acc :
  strlen acc < strlen (digits_acc base (S fuel) n acc).
Proof.
  revert n acc. induction fuel as [|f IH]; intros n acc; simpl.
  - destruct (_ =? 0)%Z; simpl; lia.
  - destruct (n / base =? 0)%Z; [simpl; lia|]. etrans; [|apply IH]. simpl. lia.
Qed.
Lemma fmt_u_nonempty n : 0 < strlen (fmt_u n).
Proof.
  unfold fmt_u, digit_fuel.
  pose proof (digits_acc_nonempty 10 (Z.to_nat (Z.log2 n)) n EmptyString) as H.
  simpl strlen at 1 in H. exact H.
Qed.

(** Width-specific bounds used by the NDJSON size lemmas. *)
Lemma strlen_fmt_u8 n : in_u8 n -> strlen (fmt_u n) <= 3.
Proof. intros. apply strlen_fmt_u. simpl. word_lia. Qed.
Lemma strlen_fmt_u16 n : in_u16 n -> strlen (fmt_u n) <= 5.
Proof. intros. apply strlen_fmt_u. simpl. word_lia. Qed.
Lemma strlen_fmt_u32 n : in_u32 n -> strlen (fmt_u n) <= 10.
Proof. intros. apply strlen_fmt_u. simpl. word_lia. Qed.
Lemma strlen_fmt_u64 n : in_u64 n -> strlen (fmt_u n) <= 20.
Proof. intros. apply strlen_fmt_u. simpl. word_lia. Qed.
Lemma strlen_fmt_0d_exact w n :
  (0 <= n < 10 ^ Z.of_nat (S w))%Z -> strlen (fmt_0d (S w) n) = S w.
Proof.
  intros H. unfold fmt_0d. destruct (n <? 0)%Z eqn:E; [lia|].
  rewrite strlen_pad0. pose proof (strlen_fmt_u n w H). lia.
Qed.

(** ** Reading integers: [strtoul] and [strtoull] in base ten *)
Definition is_space (c : ascii) : bool :=
  let n := nat_of_ascii c in (n =? 32) || ((9 <=? n) && (n <=? 13)).
Definition digit_val (c : ascii) : option Z :=
  let n := nat_of_ascii c in
  if (48 <=? n) && (n <=? 57) then Some (Z.of_nat (n - 48)) else None.

Fixpoint skip_space (s : string) : string :=
  match s with
  | String c s' => if is_space c then skip_space s' else s
  | EmptyString => s
  end.
Definition scan_sign (s : string) : bool * string :=
  match s with
  | String "-" s' => (true, s')
  | String "+" s' => (false, s')
  | _ => (false, s)
  end.
(** Value of the longest digit prefix, starting from [acc], and the rest. *)
Fixpoint scan_digits (s : string) (acc : Z) : Z * string :=
  match s with
  | EmptyString => (acc, s)
  | String c s' =>
      match digit_val c with
      | Some d => scan_digits s' (acc * 10 + d)%Z
      | None => (acc, s)
      end
  end.

(** [strtoul(s, &end, 10)] where [unsigned long] has [w] bits: the value, and
    [None] when [end == s] (no conversion) or [Some rest] with [end] at [rest].
    An overflow saturates; a minus sign negates modulo [2^w]. *)
Definition strtoul (w : Z) (s : string) : Z * option string :=
  let '(neg, s2) := scan_sign (skip_space s) in
  match s2 with
  | String c _ =>
      match digit_val c with
      | None => (0%Z, None)
      | Some _ =>
          let '(v, rest) := scan_digits s2 0 in
          ((if (2 ^ w - 1 <? v)%Z then 2 ^ w - 1
            else if neg then (- v) mod 2 ^ w else v)%Z, Some rest)
      end
  | EmptyString => (0%Z, None)
  end.

(** [atoi]: the value of [strtol], as an [int]. *)
Definition to_int (z : Z) : Z := ((z + 2147483648) mod 4294967296 - 2147483648)%Z.
Definition atoi (w : Z) (s : string) : Z :=
  let '(neg, s2) := scan_sign (skip_space s) in
  let '(v, _) := scan_digits s2 0 in
  to_int (if neg then Z.max (- v) (- 2 ^ (w - 1)) else Z.min v (2 ^ (w - 1) - 1)).

(** The same in base sixteen, an optional "0x" included. *)
Definition hex_val (c : ascii) : option Z :=
  let n := nat_of_ascii c in
  if (48 <=? n) && (n <=? 57) then Some (Z.of_nat (n - 48))
  else if (65 <=? n) && (n <=? 70) then Some (Z.of_nat (n - 55))
  else if (97 <=? n) && (n <=? 102) then Some (Z.of_nat (n - 87)) else None.
Fixpoint scan_hex (s : string) (acc : Z) : Z * string :=
  match s with
  | EmptyString => (acc, s)
  | String c s' => match hex_val c with Some d => scan_hex s' (acc * 16 + d)%Z | None => (acc, s) end
  end.
(** The digits after a prefix that is followed by one. *)
Definition skip_0x (s : string) : string :=
  match s with
  | String "0" (String x (String d _ as s')) =>
      if (Ascii.eqb x "x" || Ascii.eqb x "X") && match hex_val d with Some _ => true | None => false end then s' else s
  | _ => s
  end.
Definition strtoul16 (w : Z) (s : string) : Z * option string :=
  let '(neg, s2) := scan_sign (skip_space s) in
  match skip_0x s2 with
  | String c _ as s3 =>
      match hex_val c with
      | None => (0%Z, None)
      | Some _ =>
          let '(v, rest) := scan_hex s3 0 in
          ((if (2 ^ w - 1 <? v)%Z then 2 ^ w - 1
            else if neg then (- v) mod 2 ^ w else v)%Z, Some rest)
      end
  | EmptyString => (0%Z, None)
  end.

(** The digits are taken from the text, and the value is in range. *)
Lemma scan_hex_takes s acc :
  (0 <= acc)%Z -> strlen (scan_hex s acc).2 <= strlen s /\ (0 <= (scan_hex s acc).1)%Z.
Proof.
  revert acc. induction s as [|c s IH]; intros acc Ha; [done|]. cbn [scan_hex]. destruct (hex_val c) as [d|] eqn:E; [|done].
  assert (0 <= d)%Z.
  { unfold hex_val in E. repeat (destruct (_ && _); [injection E as <-; lia|]). done. }
  destruct (IH (acc * 16 + d)%Z ltac:(lia)). cbn [String.length]. split; [lia|done].
Qed.
Lemma strtoul16_takes w s v rest :
  (0 <= w)%Z -> strtoul16 w s = (v, Some rest) -> strlen rest < strlen s /\ (0 <= v < 2 ^ w)%Z.
Proof.
  intros Hw. unfold strtoul16. destruct (scan_sign (skip_space s)) as [neg s2] eqn:Es.
  assert (H2 : strlen s2 <= strlen s).
  { assert (Hsp : strlen (skip_space s) <= strlen s).
    { clear. induction s as [|c s IH]; [done|]. cbn [skip_space]. destruct (is_space c); cbn [String.length]; lia. }
    assert (Hsg : strlen (scan_sign (skip_space s)).2 <= strlen (skip_space s)).
    { unfold scan_sign. destruct (skip_space s) as [|c t]; [done|]. repeat case_match; cbn [snd String.length]; lia. }
    rewrite Es in Hsg. cbn [snd] in Hsg. lia. }
  assert (H3 : strlen (skip_0x s2) <= strlen s2).
  { unfold skip_0x. repeat case_match; cbn [String.length]; lia. }
  destruct (skip_0x s2) as [|c t]; [done|]. destruct (hex_val c) as [d|] eqn:Eh; [|done].
  assert (0 <= d)%Z.
  { unfold hex_val in Eh. repeat (destruct (_ && _); [injection Eh as <-; lia|]). done. }
  destruct (scan_hex_takes t (0 * 16 + d) ltac:(lia)) as [Hl Hv]. cbn [scan_hex]. rewrite Eh.
  destruct (scan_hex t (0 * 16 + d)) as [x r]. cbn [fst snd String.length] in *. intros [= <- <-].
  assert (0 < 2 ^ w)%Z by (apply Z.pow_pos_nonneg; lia). split; [lia|].
  destruct (Z.ltb_spec (2 ^ w - 1) x); [lia|]. destruct neg; [apply Z.mod_pos_bound; lia|lia].
Qed.

Lemma digit_char_val d : (0 <= d < 10)%Z -> digit_val (digit_char d) = Some d.
Proof.
  intros Hd.
  assert (d = 0 \/ d = 1 \/ d = 2 \/ d = 3 \/ d = 4 \/ d = 5 \/ d = 6 \/ d = 7 \/ d = 8 \/ d = 9)%Z
    as H by lia.
  repeat (destruct H as [->|H]; [reflexivity|]). by subst.
Qed.

Lemma scan_digits_acc fuel n acc :
  (0 <= n < 2 ^ Z.of_nat (S fuel))%Z ->
  scan_digits (digits_acc 10 (S fuel) n acc) 0 = scan_digits acc n /\
  (exists c s, digits_acc 10 (S fuel) n acc = String c s /\ digit_val c <> None).
Proof.
  revert n acc. induction fuel as [|f IH]; intros n acc Hn.
  - assert (n = 0 \/ n = 1)%Z as [->| ->] by (simpl in Hn; lia); simpl; eauto.
  - assert (Hd : digit_val (digit_char (n mod 10)) = Some (n mod 10)%Z).
    { apply digit_char_val. apply Z.mod_pos_bound. lia. }
    cbn [digits_acc]. destruct (n / 10 =? 0)%Z eqn:E.
    + apply Z.eqb_eq in E. split.
      * cbn [scan_digits]. rewrite Hd. f_equal. pose proof (Z.div_mod n 10). lia.
      * eexists _, _. split; [done|]. by rewrite Hd.
    + destruct (IH (n / 10)%Z (String (digit_char (n mod 10)) acc)) as [IH1 IH2].
      { split; [apply Z.div_pos; lia|]. apply Z.div_lt_upper_bound; [lia|].
        replace (Z.of_nat (S (S f))) with (Z.succ (Z.of_nat (S f))) in Hn by lia.
        rewrite Z.pow_succ_r in Hn by lia. lia. }
      split; [|exact IH2]. etrans; [exact IH1|].
      cbn [scan_digits]. rewrite Hd. f_equal. pose proof (Z.div_mod n 10). lia.
Qed.

Lemma digit_fuel_enough n : (0 <= n)%Z -> (0 <= n < 2 ^ Z.of_nat (digit_fuel n))%Z.
Proof.
  intros Hn. split; [done|]. unfold digit_fuel. rewrite Nat2Z.inj_succ, Z2Nat.id by apply Z.log2_nonneg.
  destruct (decide (n = 0)%Z) as [->|Hz]; [done|]. apply Z.log2_spec. lia.
Qed.
(** Reading back what [%u] printed. *)
Lemma scan_fmt_u n :
  (0 <= n)%Z -> scan_digits (fmt_u n) 0 = (n, EmptyString) /\ exists c s, fmt_u n = String c s /\ digit_val c <> None.
Proof. intros Hn. by apply (scan_digits_acc (Z.to_nat (Z.log2 n)) n EmptyString), digit_fuel_enough. Qed.

(** The number, saturated at [ULONG_MAX]. *)
Lemma strtoul_fmt_u w n :
  (0 <= n)%Z ->
  strtoul w (fmt_u n) = ((if 2 ^ w - 1 <? n then 2 ^ w - 1 else n)%Z, Some EmptyString).
Proof.
  intros Hn. destruct (scan_fmt_u n Hn) as [Hs (c & s & Hc & Hv)]. rewrite Hc in *. unfold strtoul.
  assert (is_space c = false /\ scan_sign (String c s) = (false, String c s)) as [Hsp Hsg].
  { destruct c as [[] [] [] [] [] [] [] []]; try (exfalso; apply Hv; reflexivity);
      split; reflexivity. }
  cbn [skip_space]. rewrite Hsp, Hsg. destruct (digit_val c); [|done].
  rewrite Hs. done.
Qed.

(** A caller's error buffer: [None] for a NULL or empty one. *)
Definition errbuf : Type := option (nat * string).
Definition err_set (e : errbuf) (s : string) : errbuf :=
  match e with Some (n, _) => Some (n, snprintf_s n s) | None => None end.
Definition err_text (e : errbuf) : string :=
  match e with Some (_, s) => s | None => EmptyString end.

(** A fallback no longer than the field keeps the field's bound. *)
Lemma strlen_str_dflt s d n : strlen s < n -> strlen d < n -> strlen (str_dflt s d) < n.
Proof. unfold str_dflt. by destruct (nonempty s). Qed.

(** Printed numbers and cut strings stay folded under [simpl]. *)
#[global] Arguments fmt_u : simpl never.
#[global] Arguments fmt_x : simpl never.
#[global] Arguments fmt_0d : simpl never.
#[global] Arguments fmt_0x : simpl never.
#[global] Arguments str_take : simpl nomatch.
#[global] Arguments lit : simpl nomatch.
