(* ===== verification/StrSearch.v ===== *)
(** * Searching in strings

    Cutting a concatenation, the characters of a string, [String.prefix] and [String.index]
    on texts that are put together from pieces: the lemmas the HTTP and JSON readers share. *)

From S2P Require Import Prelude CStr.
From Stdlib Require Import Ascii.

(** ** Cutting *)
Lemma str_take_app_le n s t : n <= strlen s -> str_take n (s +:+ t) = str_take n s.
Proof.
  revert s. induction n as [|n IH]; intros [|c s] Hn; cbn [String.length] in Hn; try done; [lia|].
  rewrite str_app_cons. cbn [str_take]. by rewrite IH by lia.
Qed.
Lemma str_take_app_plus k s t : str_take (strlen s + k) (s +:+ t) = s +:+ str_take k t.
Proof. induction s as [|c s IH]; [done|]. rewrite !str_app_cons. cbn [String.length Nat.add str_take]. by rewrite IH. Qed.
Lemma digits_acc_app base fuel n acc t : digits_acc base fuel n acc +:+ t = digits_acc base fuel n (acc +:+ t).
Proof.
  revert n acc. induction fuel as [|f IH]; intros n acc; cbn [digits_acc]; [done|].
  destruct (n / base =? 0)%Z; [done|]. apply IH.
Qed.

(** ** Characters *)
Fixpoint str_forall (p : ascii -> bool) (s : string) : bool :=
  match s with EmptyString => true | String c s' => p c && str_forall p s' end.
Lemma str_forall_weaken (p q : ascii -> bool) s :
  (forall c, p c = true -> q c = true) -> str_forall p s = true -> str_forall q s = true.
Proof.
  intros Hpq. induction s as [|c s IH]; [done|]. cbn [str_forall]. intros [Hc Hs]%andb_true_iff.
  by rewrite (Hpq _ Hc), IH.
Qed.
Lemma str_forall_app p s t : str_forall p (s +:+ t) = str_forall p s && str_forall p t.
Proof. induction s as [|c s IH]; [done|]. rewrite str_app_cons. cbn [str_forall]. by rewrite IH, andb_assoc. Qed.
Lemma str_forall_free p c s : p c = false -> str_forall p s = true -> free c s.
Proof.
  unfold free. intros Hp. induction s as [|d s IH]; [done|]. cbn [str_forall chr_index]. intros [Hd Hs]%andb_true_iff.
  destruct (Ascii.eqb_spec d c); [congruence|]. by rewrite IH.
Qed.
Lemma free_app c s t : free c s -> free c t -> free c (s +:+ t).
Proof. unfold free. intros Hs Ht. by rewrite chr_index_app_none, Ht. Qed.
Lemma free_more c d s : d <> c -> free c s -> free c (String d s).
Proof. unfold free. intros Hd Hs. cbn [chr_index]. destruct (Ascii.eqb_spec d c); [done|]. by rewrite Hs. Qed.
Lemma cstr_app_nonul h t : free "000" h -> cstr (h +:+ t) = h +:+ cstr t.
Proof.
  unfold free, cstr. induction h as [|c h IH]; [done|]. cbn [chr_index]. rewrite !str_app_cons. cbn [until].
  destruct (Ascii.eqb c "000"); [done|]. destruct (chr_index "000" h); [done|]. intros _. by rewrite IH.
Qed.

(** [strrchr], as an offset. *)
Fixpoint chr_rindex (c : ascii) (s : string) : option nat :=
  match s with
  | EmptyString => None
  | String d s' =>
      match chr_rindex c s' with
      | Some i => Some (S i)
      | None => if Ascii.eqb d c then Some 0 else None
      end
  end.
Lemma chr_rindex_free c s : free c s -> chr_rindex c s = None.
Proof.
  unfold free. induction s as [|d s IH]; [done|]. cbn [chr_index chr_rindex]. destruct (Ascii.eqb d c); [done|].
  destruct (chr_index c s); [done|]. intros _. by rewrite IH.
Qed.
Lemma chr_rindex_app c h t : free c t -> chr_rindex c (h +:+ String c t) = Some (strlen h).
Proof.
  intros Hf. induction h as [|d h IH].
  - change (EmptyString +:+ String c t) with (String c t). cbn [chr_rindex]. by rewrite chr_rindex_free, Ascii.eqb_refl.
  - rewrite str_app_cons. cbn [chr_rindex]. by rewrite IH.
Qed.
Lemma free_take c n s : free c s -> free c (str_take n s).
Proof.
  unfold free. revert n. induction s as [|d s IH]; intros [|n]; [done..|]. cbn [chr_index str_take].
  destruct (Ascii.eqb d c); [done|]. destruct (chr_index c s); [done|]. intros _. by rewrite IH.
Qed.
Lemma free_drop c n s : free c s -> free c (str_drop n s).
Proof.
  unfold free. revert n. induction s as [|d s IH]; intros [|n]; [done..|]. cbn [chr_index str_drop].
  destruct (Ascii.eqb d c); [done|]. destruct (chr_index c s); [done|]. intros _. by apply IH.
Qed.
Lemma cstr_free s : free "000" s -> cstr s = s.
Proof. intros Hf. rewrite <- (str_app_nil_r s) at 1. rewrite cstr_app_nonul by done. apply str_app_nil_r. Qed.
(** Printed numbers are digits. *)
Lemma free_fmt_u c n : nat_of_ascii c < 48 -> free c (fmt_u n).
Proof.
  intros Hc.
  assert (Hd : forall k, (0 <= k < 10)%Z -> digit_char k <> c).
  { intros k Hk E. apply (f_equal nat_of_ascii) in E. unfold digit_char in E.
    rewrite (proj2 (Z.ltb_lt k 10)), nat_ascii_embedding in E by lia. lia. }
  assert (forall fuel m acc, free c acc -> free c (digits_acc 10 fuel m acc)) as H.
  { induction fuel as [|f IH]; intros m acc Ha; cbn [digits_acc]; [done|].
    assert (free c (String (digit_char (m mod 10)) acc)) by (apply free_more; [apply Hd, Z.mod_pos_bound; lia|done]).
    destruct (_ =? 0)%Z; [done|]. by apply IH. }
  by apply H.
Qed.

(** ** Prefixes *)
Lemma prefix_app s t : String.prefix s (s +:+ t) = true.
Proof.
  induction s as [|c s IH]; [by destruct t|]. rewrite str_app_cons. cbn [String.prefix].
  destruct (ascii_dec c c); done.
Qed.
Lemma prefix_other q pat c s : q <> c -> String.prefix (String q pat) (String c s) = false.
Proof. intros Hq. cbn [String.prefix]. by destruct (ascii_dec q c). Qed.
Lemma prefix_until q key a s b :
  free q key -> free q s -> String.prefix (key +:+ String q a) (s +:+ String q b) = true ->
  key = s /\ String.prefix a b = true.
Proof.
  unfold free. revert s. induction key as [|c key IH]; intros [|d s]; rewrite ?str_app_cons; cbn [chr_index]; intros Hk Hs.
  - change (String.prefix (EmptyString +:+ String q a) (EmptyString +:+ String q b)) with
      (if ascii_dec q q then String.prefix a b else false). by destruct (ascii_dec q q).
  - change (EmptyString +:+ String q a) with (String q a). cbn [String.prefix].
    destruct (ascii_dec q d) as [->|]; [|done]. by rewrite Ascii.eqb_refl in Hs.
  - change (EmptyString +:+ String q b) with (String q b). cbn [String.prefix].
    destruct (ascii_dec c q) as [->|]; [|done]. by rewrite Ascii.eqb_refl in Hk.
  - cbn [String.prefix]. destruct (ascii_dec c d) as [->|]; [|done]. intros Hp.
    destruct (Ascii.eqb d q); [done|]. destruct (chr_index q key) eqn:Ek, (chr_index q s) eqn:Es; try done.
    destruct (IH s eq_refl Es Hp) as [-> ?]. done.
Qed.

(** ** The first occurrence *)
Lemma index_step pat c s :
  String.prefix pat (String c s) = false -> String.index 0 pat (String c s) = option_map S (String.index 0 pat s).
Proof. intros Hp. cbn [String.index]. rewrite Hp. by destruct (String.index 0 pat s). Qed.
Lemma index_step1 pat c s :
  String.prefix pat (String c s) = false -> String.index 0 pat (String c s) = option_map (Nat.add 1) (String.index 0 pat s).
Proof. apply index_step. Qed.
Lemma add_add a b (o : option nat) : option_map (Nat.add a) (option_map (Nat.add b) o) = option_map (Nat.add (a + b)) o.
Proof. destruct o; simpl; [|done]. f_equal. lia. Qed.
Lemma index_free q pat s t :
  free q s -> String.index 0 (String q pat) (s +:+ t) = option_map (Nat.add (strlen s)) (String.index 0 (String q pat) t).
Proof.
  unfold free. induction s as [|c s IH].
  { intros _. change (EmptyString +:+ t) with t. by destruct (String.index 0 (String q pat) t). }
  cbn [chr_index]. destruct (Ascii.eqb_spec c q) as [|Hc]; [done|]. destruct (chr_index q s) eqn:E; [done|]. intros _.
  rewrite str_app_cons, index_step.
  - rewrite IH by done. by destruct (String.index 0 (String q pat) t).
  - cbn [String.prefix]. destruct (ascii_dec q c); [by subst|done].
Qed.
Lemma index_here pat t : String.index 0 pat (pat +:+ t) = Some 0.
Proof.
  destruct pat as [|c pat]; [by destruct t|]. rewrite str_app_cons. cbn [String.index].
  change (String.prefix (String c pat) (String c (pat +:+ t))) with
    (if ascii_dec c c then String.prefix pat (pat +:+ t) else false).
  destruct (ascii_dec c c); [|done]. by rewrite prefix_app.
Qed.
