(* ===== verification/Float754.v ===== *)
(** * Binary floating point

    The rates of the flow accounting and the samples are C [double]s, losses
    are [float]s.  They are modelled by the computable IEEE-754 semantics of the
    [SpecFloat] module (round to nearest even): [double] is precision 53 with
    exponent bound 1024, [float] precision 24 with bound 128.  [fmt_f] is
    printf's [%.pf]: the exact binary value rounded half-to-even to [p] decimals. *)

From S2P Require Import Prelude CStr.
From Stdlib Require Import SpecFloat.

Abbreviation double := spec_float.
Abbreviation float := spec_float.

Definition d_add : double -> double -> double := SFadd 53 1024.
Definition d_mul : double -> double -> double := SFmul 53 1024.
Definition d_div : double -> double -> double := SFdiv 53 1024.
Definition d_ltb : double -> double -> bool := SFltb.
Definition f_div : float -> float -> float := SFdiv 24 128.

(** [(double)z] of an integer, and the constants [m * 2^e] of the sources. *)
Definition d_of_Z (z : Z) : double := binary_normalize 53 1024 z 0 false.
Definition d_const (m e : Z) : double := binary_normalize 53 1024 m e false.
Definition f_const (m e : Z) : float := binary_normalize 24 128 m e false.

(** Conversions between the two formats. *)
Definition f_of_d (x : double) : float :=
  match x with S754_finite s m e => binary_round 24 128 s m e | _ => x end.
Definition d_of_f (x : float) : double :=
  match x with S754_finite s m e => binary_round 53 1024 s m e | _ => x end.

Definition d_zero : double := S754_zero false.
Definition f_zero : float := S754_zero false.

(** ** [%.pf] *)
Definition round_half_even (num den : Z) : Z :=
  let q := (num / den)%Z in
  let r := (num mod den)%Z in
  match (2 * r ?= den)%Z with
  | Lt => q
  | Gt => (q + 1)%Z
  | Eq => if Z.even q then q else (q + 1)%Z
  end.

(** Nearest integer to [m * 2^e * 10^p]. *)
Definition scaled (p : nat) (m : positive) (e : Z) : Z :=
  let n := (Z.pos m * 10 ^ Z.of_nat p)%Z in
  if (0 <=? e)%Z then (n * 2 ^ e)%Z else round_half_even n (2 ^ (- e))%Z.

Definition fmt_fixed (p : nat) (k : Z) : string :=
  fmt_u (k / 10 ^ Z.of_nat p)%Z +:+
  (if p =? 0 then EmptyString
   else "."%string +:+ pad0 p (fmt_u (k mod 10 ^ Z.of_nat p)%Z)).

Definition fmt_sign (s : bool) : string := if s then "-"%string else EmptyString.

Definition fmt_f (p : nat) (x : double) : string :=
  match x with
  | S754_nan => "nan"%string
  | S754_infinity s => fmt_sign s +:+ "inf"%string
  | S754_zero s => fmt_sign s +:+ fmt_fixed p 0
  | S754_finite s m e => fmt_sign s +:+ fmt_fixed p (scaled p m e)
  end.

Example fmt_f_half : fmt_f 3 (d_const 29 (-1)) = "14.500"%string.
Proof. vm_compute. reflexivity. Qed.
Example fmt_f_third : fmt_f 4 (d_div (d_of_Z 1) (d_of_Z 3)) = "0.3333"%string.
Proof. vm_compute. reflexivity. Qed.

(** ** [%.pg]

    [p] significant digits, in the fixed or the exponent style, without trailing zeros. *)

(** Largest [k] with [10^k * den <= num], from 0; least [k] with [den <= num * 10^k]. *)
Fixpoint exp_up (fuel : nat) (num den : Z) (k : Z) : Z :=
  match fuel with O => k | S f => if (den * 10 <=? num)%Z then exp_up f num (den * 10) (k + 1)%Z else k end.
Fixpoint exp_down (fuel : nat) (num den : Z) (k : Z) : Z :=
  match fuel with O => k | S f => if (num <? den)%Z then exp_down f (num * 10)%Z den (k + 1)%Z else k end.
Definition dec_exp (num den : Z) : Z :=
  if (den <=? num)%Z then exp_up (S (Z.to_nat (Z.log2 num))) num den 0
  else (- exp_down (S (Z.to_nat (Z.log2 den))) num den 0)%Z.

Fixpoint strip_end (c : Ascii.ascii) (s : string) : string :=
  match s with
  | EmptyString => EmptyString
  | String d s' =>
      match strip_end c s' with
      | EmptyString => if Ascii.eqb d c then EmptyString else String d EmptyString
      | t => String d t
      end
  end.
Definition strip_fraction (s : string) : string :=
  match chr_index (Ascii.ascii_of_nat 46) s with
  | Some i => let t := strip_end (Ascii.ascii_of_nat 48) s in if strlen t =? i + 1 then str_take i t else t
  | None => s
  end.
Definition fmt_exp (x : Z) : string := (if (x <? 0)%Z then "e-" else "e+")%string +:+ pad0 2 (fmt_u (Z.abs x)).

Definition fmt_g_pos (p : nat) (num den : Z) : string :=
  let x := dec_exp num den in
  let k := (Z.of_nat p - 1 - x)%Z in
  let d := if (0 <=? k)%Z then round_half_even (num * 10 ^ k) den else round_half_even num (den * 10 ^ (- k)) in
  let '(x, d) := if (d =? 10 ^ Z.of_nat p)%Z then ((x + 1)%Z, (d / 10)%Z) else (x, d) in
  if (-4 <=? x)%Z && (x <? Z.of_nat p)%Z
  then strip_fraction (fmt_fixed (Z.to_nat (Z.of_nat p - 1 - x)) d)
  else strip_fraction (fmt_fixed (p - 1) d) +:+ fmt_exp x.
Definition fmt_g (p : nat) (x : double) : string :=
  match x with
  | S754_nan => "nan"%string
  | S754_infinity s => fmt_sign s +:+ "inf"%string
  | S754_zero s => fmt_sign s +:+ "0"%string
  | S754_finite s m e =>
      fmt_sign s +:+ (if (0 <=? e)%Z then fmt_g_pos p (Z.pos m * 2 ^ e) 1 else fmt_g_pos p (Z.pos m) (2 ^ (- e)))
  end.

Example fmt_g_samples :
  [fmt_g 6 (d_const 29 (-1)); fmt_g 6 (d_of_Z 1000000); fmt_g 6 (d_of_Z 999999); fmt_g 6 (d_of_Z 123456789);
   fmt_g 6 (d_div (d_of_Z 1) (d_of_Z 3)); fmt_g 6 (d_div (d_of_Z 1) (d_of_Z 10000)); fmt_g 6 (d_div (d_of_Z 1) (d_of_Z 100000));
   fmt_g 6 (d_div (d_of_Z 9999999) (d_of_Z 10)); fmt_g 6 (d_of_Z 0); fmt_g 6 (d_of_Z (-5))] =
  ["14.5"; "1e+06"; "999999"; "1.23457e+08"; "0.333333"; "0.0001"; "1e-05"; "1e+06"; "0"; "-5"]%string.
Proof. vm_compute. reflexivity. Qed.

(** ** The order on numbers

    [SFcompare] is the lexicographic comparison of an integer key, so the
    numbers (everything but NaN) are totally preordered by it. *)
Definition is_num (x : double) : bool := match x with S754_nan => false | _ => true end.

Definition fkey (x : double) : Z * Z * Z :=
  match x with
  | S754_nan => (3, 0, 0)
  | S754_infinity s => (if s then -2 else 2, 0, 0)
  | S754_zero _ => (0, 0, 0)
  | S754_finite false m e => (1, e, Z.pos m)
  | S754_finite true m e => (-1, - e, Z.neg m)
  end%Z.

Definition klt (a b : Z * Z * Z) : Prop :=
  (a.1.1 < b.1.1 \/ (a.1.1 = b.1.1 /\
    (a.1.2 < b.1.2 \/ (a.1.2 = b.1.2 /\ a.2 < b.2))))%Z.

Lemma d_ltb_key x y :
  is_num x = true -> is_num y = true -> d_ltb x y = true <-> klt (fkey x) (fkey y).
Proof.
  unfold d_ltb, SFltb, klt. intros Hx Hy.
  destruct x as [[]|[]| |[] mx ex]; try discriminate Hx;
    destruct y as [[]|[]| |[] my ey]; try discriminate Hy; simpl;
    try (split; [discriminate|lia]); try (split; [lia|reflexivity]).
  all: destruct (Z.compare_spec ex ey); simpl;
    try (split; [discriminate|lia]); try (split; [lia|reflexivity]).
  all: fold (Pos.compare mx my); destruct (Pos.compare_spec mx my); simpl;
    try (split; [discriminate|lia]); split; [lia|reflexivity].
Qed.

Section order.
Variables x y z : double.
Hypotheses (Hx : is_num x = true) (Hy : is_num y = true) (Hz : is_num z = true).

Lemma d_ltb_irrefl : d_ltb x x = false.
Proof. apply not_true_is_false. rewrite d_ltb_key by done. unfold klt. lia. Qed.
Lemma d_ltb_trans : d_ltb x y = true -> d_ltb y z = true -> d_ltb x z = true.
Proof. rewrite !d_ltb_key by done. unfold klt. lia. Qed.
Lemma d_ltb_asym : d_ltb x y = true -> d_ltb y x = false.
Proof.
  intros H. apply not_true_is_false. revert H. rewrite !d_ltb_key by done. unfold klt. lia.
Qed.
(** Negated comparison is transitive: [not (x < y)] is the order [y <= x]. *)
Lemma d_nltb_trans : d_ltb x y = false -> d_ltb y z = false -> d_ltb x z = false.
Proof.
  intros H1 H2. apply not_true_is_false. intros H3.
  apply not_true_iff_false in H1, H2. rewrite d_ltb_key in H1, H2, H3 by done.
  unfold klt in *. lia.
Qed.
End order.

#[global] Arguments fmt_f : simpl never.
#[global] Arguments d_add : simpl never.
#[global] Arguments d_mul : simpl never.
#[global] Arguments d_div : simpl never.
#[global] Arguments d_ltb : simpl never.
#[global] Arguments f_div : simpl never.
#[global] Arguments d_of_Z : simpl never.
