(* ===== verification/Inet.v ===== *)
(** * Internet addresses: byte order and the inet_ntop / inet_pton pair

    Addresses move through the sources in three forms: bytes of a packet, the
    integer [s_addr] of a [struct in_addr] (network order, as a little-endian
    host reads it) and dotted text.  The library functions the sources call are
    defined here after the C library's documented behaviour, with the round trip
    and length facts the aggregation depends on. *)

From S2P Require Import Prelude CStr.
From Stdlib Require Import Ascii.

(** ** Byte order (little-endian host) *)
Definition byte_at (i : Z) (z : Z) : Z := (Z.shiftr z (8 * i) mod 256)%Z.

(** A 16-bit word in network order. *)
Definition be16 (v : Z) : list Z := [byte_at 1 v; byte_at 0 v].
(** Bytes of a 32-bit word in memory order. *)
Definition le_bytes32 (z : Z) : list Z := [byte_at 0 z; byte_at 1 z; byte_at 2 z; byte_at 3 z].
Definition le_word32 (b0 b1 b2 b3 : Z) : Z := (b0 + b1 * 256 + b2 * 65536 + b3 * 16777216)%Z.
Definition be_word32 (b0 b1 b2 b3 : Z) : Z := le_word32 b3 b2 b1 b0.
Definition le_word16 (b0 b1 : Z) : Z := (b0 + b1 * 256)%Z.
Definition be_word16 (b0 b1 : Z) : Z := le_word16 b1 b0.

(** [htonl] and [ntohl] are the same byte swap, as are [htons] and [ntohs]. *)
Definition htonl (z : Z) : Z := be_word32 (byte_at 0 z) (byte_at 1 z) (byte_at 2 z) (byte_at 3 z).
Definition ntohl : Z -> Z := htonl.
Definition htons (z : Z) : Z := be_word16 (byte_at 0 z) (byte_at 1 z).
Definition ntohs : Z -> Z := htons.

Lemma byte_at_range i z : in_u8 (byte_at i z).
Proof. unfold byte_at. word_lia. Qed.
#[export] Hint Resolve byte_at_range : nf.

Lemma byte_at_0 z : byte_at 0 z = (z mod 256)%Z.
Proof. reflexivity. Qed.
Lemma byte_at_1 z : byte_at 1 z = (z / 256 mod 256)%Z.
Proof. unfold byte_at. by rewrite Z.shiftr_div_pow2. Qed.
Lemma byte_at_2 z : byte_at 2 z = (z / 65536 mod 256)%Z.
Proof. unfold byte_at. by rewrite Z.shiftr_div_pow2. Qed.
Lemma byte_at_3 z : byte_at 3 z = (z / 16777216 mod 256)%Z.
Proof. unfold byte_at. by rewrite Z.shiftr_div_pow2. Qed.

(** [byte_arith] turns byte extractions into divisions by constants. *)
Ltac byte_arith :=
  unfold le_bytes32, le_word32, be_word32, le_word16, be_word16 in *;
  rewrite ?byte_at_0, ?byte_at_1, ?byte_at_2, ?byte_at_3 in *.

Lemma le_word32_bytes b0 b1 b2 b3 :
  in_u8 b0 -> in_u8 b1 -> in_u8 b2 -> in_u8 b3 ->
  le_bytes32 (le_word32 b0 b1 b2 b3) = [b0; b1; b2; b3].
Proof.
  intros. byte_arith. unfold in_u8 in *.
  repeat f_equal; Z.div_mod_to_equations; lia.
Qed.
Lemma le_word32_range b0 b1 b2 b3 :
  in_u8 b0 -> in_u8 b1 -> in_u8 b2 -> in_u8 b3 -> in_u32 (le_word32 b0 b1 b2 b3).
Proof. intros. unfold le_word32. word_lia. Qed.
Lemma le_bytes32_word z :
  in_u32 z -> le_word32 (byte_at 0 z) (byte_at 1 z) (byte_at 2 z) (byte_at 3 z) = z.
Proof. intros. byte_arith. unfold in_u32 in *. Z.div_mod_to_equations; lia. Qed.

Lemma htonl_be_word b0 b1 b2 b3 :
  in_u8 b0 -> in_u8 b1 -> in_u8 b2 -> in_u8 b3 ->
  ntohl (le_word32 b0 b1 b2 b3) = be_word32 b0 b1 b2 b3.
Proof.
  intros H0 H1 H2 H3. pose proof (le_word32_bytes b0 b1 b2 b3 H0 H1 H2 H3) as E.
  unfold le_bytes32 in E. unfold ntohl, htonl. congruence.
Qed.
Lemma htonl_range z : in_u32 (htonl z).
Proof. apply le_word32_range; apply byte_at_range. Qed.
Lemma ntohl_htonl z : in_u32 z -> ntohl (htonl z) = z.
Proof.
  intros. unfold ntohl. unfold htonl at 2. unfold be_word32 at 1.
  fold ntohl. rewrite (htonl_be_word _ _ _ _) by apply byte_at_range.
  unfold be_word32. by apply le_bytes32_word.
Qed.

(** ** [inet_ntop(AF_INET, ...)] on the four bytes of the address *)
Definition dot : string := "."%string.
Definition inet_ntop4 (b0 b1 b2 b3 : Z) : string :=
  fmt_u b0 +:+ dot +:+ fmt_u b1 +:+ dot +:+ fmt_u b2 +:+ dot +:+ fmt_u b3.
(** ... and on the integer [s_addr]. *)
Definition inet_ntop4_addr (s_addr : Z) : string :=
  inet_ntop4 (byte_at 0 s_addr) (byte_at 1 s_addr) (byte_at 2 s_addr) (byte_at 3 s_addr).

(** ** [inet_pton(AF_INET, ...)]: exactly four decimal octets, no leading zero.
    [done] holds the octets already read, [cur] the one being read. *)
Fixpoint inet_pton4_go (s : string) (octets : list Z) (cur : option Z) : option (list Z) :=
  match s with
  | EmptyString =>
      match cur with
      | Some v => if length octets =? 3 then Some (octets ++ [v]) else None
      | None => None
      end
  | String c s' =>
      match digit_val c with
      | Some d =>
          match cur with
          | None => inet_pton4_go s' octets (Some d)
          | Some v =>
              if (v =? 0)%Z || (255 <? v * 10 + d)%Z then None
              else inet_pton4_go s' octets (Some (v * 10 + d)%Z)
          end
      | None =>
          match cur with
          | Some v =>
              if Ascii.eqb c "." && negb (length octets =? 3)
              then inet_pton4_go s' (octets ++ [v]) None else None
          | None => None
          end
      end
  end.
Definition inet_pton4 (s : string) : option Z :=
  match inet_pton4_go s [] None with
  | Some [b0; b1; b2; b3] => Some (le_word32 b0 b1 b2 b3)
  | _ => None
  end.

Lemma u8_In v : in_u8 v -> v ∈ (Z.of_nat <$> seq 0 256).
Proof.
  intros [H1 H2]. apply list_elem_of_fmap. exists (Z.to_nat v). split; [lia|].
  apply elem_of_seq. lia.
Qed.

(** Every printed octet is read back, whatever follows it. *)
Lemma pton4_go_octet v r l :
  in_u8 v -> inet_pton4_go (fmt_u v +:+ r) l None = inet_pton4_go r l (Some v).
Proof.
  intros Hv%u8_In. revert Hv.
  set (P := fun v => inet_pton4_go (fmt_u v +:+ r) l None = inet_pton4_go r l (Some v)).
  change (v ∈ (Z.of_nat <$> seq 0 256) -> P v).
  assert (HF : Forall P (Z.of_nat <$> seq 0 256)).
  { match goal with |- Forall _ ?k => let k' := eval vm_compute in k in change (Forall P k') end.
    repeat (constructor; [reflexivity|]). constructor. }
  rewrite Forall_forall in HF. intros Hv. by apply HF.
Qed.

Lemma pton4_go_dot v r l :
  length l < 3 -> inet_pton4_go (dot +:+ r) l (Some v) = inet_pton4_go r (l ++ [v]) None.
Proof. intros Hl. do 3 (destruct l as [|? l]; [reflexivity|]). simpl in Hl. lia. Qed.

Lemma inet_pton4_ntop4 b0 b1 b2 b3 :
  in_u8 b0 -> in_u8 b1 -> in_u8 b2 -> in_u8 b3 ->
  inet_pton4 (inet_ntop4 b0 b1 b2 b3) = Some (le_word32 b0 b1 b2 b3).
Proof.
  intros. unfold inet_pton4, inet_ntop4.
  do 3 (rewrite pton4_go_octet by done; rewrite pton4_go_dot by (simpl; lia)).
  rewrite <- (str_app_nil_r (fmt_u b3)), pton4_go_octet by done. reflexivity.
Qed.
Lemma inet_pton4_ntop4_addr a : in_u32 a -> inet_pton4 (inet_ntop4_addr a) = Some a.
Proof.
  intros. unfold inet_ntop4_addr. rewrite inet_pton4_ntop4 by apply byte_at_range.
  by rewrite le_bytes32_word.
Qed.

Lemma strlen_ntop4 b0 b1 b2 b3 :
  in_u8 b0 -> in_u8 b1 -> in_u8 b2 -> in_u8 b3 -> strlen (inet_ntop4 b0 b1 b2 b3) <= 15.
Proof.
  intros. unfold inet_ntop4, dot. rewrite !strlen_app. simpl.
  pose proof (strlen_fmt_u8 b0). pose proof (strlen_fmt_u8 b1).
  pose proof (strlen_fmt_u8 b2). pose proof (strlen_fmt_u8 b3). intuition lia.
Qed.
Lemma strlen_ntop4_addr a : strlen (inet_ntop4_addr a) <= 15.
Proof. apply strlen_ntop4; apply byte_at_range. Qed.

(** ** [inet_ntop(AF_INET6, ...)]: longest run of zero words compressed *)
Definition words16 (b : list Z) : list Z :=
  (fun i => be_word16 (b !!! (2 * i)) (b !!! (2 * i + 1))) <$> seq 0 8.

Definition better (best : option (nat * nat)) (cur : nat * nat) : option (nat * nat) :=
  match best with
  | Some (_, bl) => if bl <? cur.2 then Some cur else best
  | None => Some cur
  end.

Fixpoint zero_run (ws : list Z) (i : nat) (cur best : option (nat * nat)) : option (nat * nat) :=
  match ws with
  | [] => match cur with Some c => better best c | None => best end
  | w :: ws' =>
      if (w =? 0)%Z then
        zero_run ws' (S i) (match cur with Some (b, l) => Some (b, S l) | None => Some (i, 1) end) best
      else zero_run ws' (S i) None (match cur with Some c => better best c | None => best end)
  end.
Definition best_run (ws : list Z) : option (nat * nat) :=
  match zero_run ws 0 None None with
  | Some (b, l) => if l <? 2 then None else Some (b, l)
  | None => None
  end.

Definition colon : string := ":"%string.
Fixpoint ntop6_go (b : list Z) (ws : list Z) (run : option (nat * nat)) (idx : list nat) : string :=
  match idx with
  | [] => match run with Some (rb, rl) => if rb + rl =? 8 then colon else EmptyString
                       | None => EmptyString end
  | i :: rest =>
      match run with
      | Some (rb, rl) =>
          if (rb <=? i) && (i <? rb + rl) then
            (if i =? rb then colon else EmptyString) +:+ ntop6_go b ws run rest
          else if (i =? 6) && (rb =? 0) && ((rl =? 6) || ((rl =? 5) && (ws !!! 5%nat =? 65535)%Z))
          then colon +:+ inet_ntop4 (b !!! 12) (b !!! 13) (b !!! 14) (b !!! 15)
          else (if i =? 0 then EmptyString else colon) +:+ fmt_x (ws !!! i)
               +:+ ntop6_go b ws run rest
      | None => (if i =? 0 then EmptyString else colon) +:+ fmt_x (ws !!! i)
                +:+ ntop6_go b ws run rest
      end
  end.
Definition inet_ntop6 (b : list Z) : string :=
  ntop6_go b (words16 b) (best_run (words16 b)) (seq 0 8).

Example ntop6_doc : inet_ntop6 [32;1;13;184;0;0;0;0;0;0;0;0;0;0;0;1]%Z = "2001:db8::1"%string.
Proof. vm_compute. reflexivity. Qed.
Example ntop6_mapped :
  inet_ntop6 [0;0;0;0;0;0;0;0;0;0;255;255;192;0;2;33]%Z = "::ffff:192.0.2.33"%string.
Proof. vm_compute. reflexivity. Qed.

Lemma lookup_total_byte (b : list Z) i : bytes b -> in_u8 (b !!! i).
Proof.
  intros Hb. destruct (b !! i) as [x|] eqn:E.
  - rewrite (list_lookup_total_correct _ _ _ E). by eapply Forall_lookup_1.
  - rewrite list_lookup_total_alt, E. unfold in_u8. simpl. lia.
Qed.
Lemma words16_range b i : bytes b -> in_u16 (words16 b !!! i).
Proof.
  intros Hb. unfold words16. destruct (decide (i < 8)).
  - erewrite list_lookup_total_correct; [|rewrite list_lookup_fmap, lookup_seq_lt by done; done].
    pose proof (lookup_total_byte b (2 * (0 + i)) Hb).
    pose proof (lookup_total_byte b (2 * (0 + i) + 1) Hb).
    unfold be_word16, le_word16. word_lia.
  - rewrite list_lookup_total_alt, lookup_ge_None_2; [unfold in_u16; simpl; lia|].
    rewrite length_fmap, length_seq. lia.
Qed.

(** Every word costs at most a colon and four digits; the embedded IPv4 tail
    replaces the last two words. *)
Lemma strlen_ntop6_go b run n i :
  bytes b -> i + n = 8 ->
  strlen (ntop6_go b (words16 b) run (seq i n)) <= 5 * n + (if 2 <=? n then 7 else 1).
Proof.
  intros Hb. assert (Hw : forall k, strlen (fmt_x (words16 b !!! k)) <= 4).
  { intros k. apply strlen_fmt_x. pose proof (words16_range b k Hb). simpl. word_lia. }
  assert (Hc : forall c : bool, strlen (if c then EmptyString else colon) <= 1)
    by (intros []; simpl; lia).
  assert (Hc' : forall c : bool, strlen (if c then colon else EmptyString) <= 1)
    by (intros []; simpl; lia).
  revert i. induction n as [|n IH]; intros i Hn; cbn [seq ntop6_go].
  { destruct run as [[rb rl]|]; [apply Hc'|simpl; lia]. }
  specialize (IH (S i) ltac:(lia)). specialize (Hw i).
  assert (Hstep : (if 2 <=? n then 7 else 1) <= (if 2 <=? S n then 7 else 1)).
  { destruct (2 <=? n) eqn:E1, (2 <=? S n) eqn:E2; try lia.
    apply Nat.leb_le in E1. apply Nat.leb_gt in E2. lia. }
  destruct run as [[rb rl]|].
  - destruct (_ && _).
    { rewrite strlen_app. specialize (Hc' (i =? rb)). lia. }
    destruct ((i =? 6) && _ && _) eqn:Hv4.
    { assert (n = 1) as ->. { apply andb_true_iff in Hv4 as [Hv4 _].
        apply andb_true_iff in Hv4 as [Hv4 _]. apply Nat.eqb_eq in Hv4. lia. }
      rewrite strlen_app. pose proof (strlen_ntop4 (b !!! 12) (b !!! 13) (b !!! 14) (b !!! 15)
        ltac:(by apply lookup_total_byte) ltac:(by apply lookup_total_byte)
        ltac:(by apply lookup_total_byte) ltac:(by apply lookup_total_byte)). simpl. lia. }
    rewrite !strlen_app. specialize (Hc (i =? 0)). lia.
  - rewrite !strlen_app. specialize (Hc (i =? 0)). lia.
Qed.

(** The text of an address always fits the 48-byte buffers of the sources. *)
Lemma strlen_ntop6 b : bytes b -> strlen (inet_ntop6 b) <= 47.
Proof. intros Hb. apply (strlen_ntop6_go b (best_run (words16 b)) 8 0 Hb eq_refl). Qed.

#[global] Arguments inet_ntop4 : simpl never.
#[global] Arguments inet_ntop4_addr : simpl never.
#[global] Arguments inet_ntop6 : simpl never.
#[global] Arguments byte_at : simpl never.
