(* ===== verification/Clock.v ===== *)
(** * Clocks and timestamps

    Every emitted line carries an ISO-8601 timestamp and every rate a monotonic
    millisecond count.  The three [iso_now] functions ([agent_core.c],
    [tcp_stats.c], [flow_acct.c]) differ in what they clamp; each is modelled.
    The clock itself is an input: a [clock] is one reading of the two system
    clocks, [None] where [clock_gettime] fails. *)

From S2P Require Import Prelude CStr.

Record clock := {
  clk_realtime : option (Z * Z);   (* CLOCK_REALTIME: (tv_sec, tv_nsec) *)
  clk_monotonic : option (Z * Z);  (* CLOCK_MONOTONIC *)
}.

(** The fields of [struct tm] the sources print. *)
Record tm := {
  tm_sec : Z; tm_min : Z; tm_hour : Z; tm_mday : Z; tm_mon : Z; tm_year : Z;
}.

(** [gmtime_r]: broken-down UTC time of the proleptic Gregorian calendar; [None]
    when the year does not fit an [int]. *)
Definition gmtime_r (t : Z) : option tm :=
  (let days := t / 86400 in
   let rem := t mod 86400 in
   let z := days + 719468 in
   let era := z / 146097 in
   let doe := z mod 146097 in
   let yoe := (doe - doe / 1460 + doe / 36524 - doe / 146096) / 365 in
   let doy := doe - (365 * yoe + yoe / 4 - yoe / 100) in
   let mp := (5 * doy + 2) / 153 in
   let d := doy - (153 * mp + 2) / 5 + 1 in
   let m := if mp <? 10 then mp + 3 else mp - 9 in
   let y := yoe + era * 400 + (if m <=? 2 then 1 else 0) in
   if (-2147483648 <=? y - 1900) && (y - 1900 <=? 2147483647) then
     Some {| tm_sec := rem mod 60; tm_min := rem / 60 mod 60; tm_hour := rem / 3600;
             tm_mday := d; tm_mon := m - 1; tm_year := y - 1900 |}
   else None)%Z.

Example gmtime_epoch :
  gmtime_r 0 = Some {| tm_sec := 0; tm_min := 0; tm_hour := 0;
                       tm_mday := 1; tm_mon := 0; tm_year := 70 |}.
Proof. reflexivity. Qed.
Example gmtime_leap :
  gmtime_r 951782400 = Some {| tm_sec := 0; tm_min := 0; tm_hour := 0;
                               tm_mday := 29; tm_mon := 1; tm_year := 100 |}.
Proof. reflexivity. Qed.

Definition iso_epoch : string := "1970-01-01T00:00:00.000Z"%string.

(** ["%04d-%02d-%02dT%02d:%02d:%02d.%03dZ"] *)
Definition iso_format (y mo d h mi s ms : Z) : string :=
  fmt_0d 4 y +:+ "-"%string +:+ fmt_0d 2 mo +:+ "-"%string +:+ fmt_0d 2 d +:+ "T"%string +:+
  fmt_0d 2 h +:+ ":"%string +:+ fmt_0d 2 mi +:+ ":"%string +:+ fmt_0d 2 s +:+ "."%string +:+
  fmt_0d 3 ms +:+ "Z"%string.

Definition clamp (lo hi x : Z) : Z := if (x <? lo)%Z then lo else if (hi <? x)%Z then hi else x.

Module AgentCoreClock.
(** [iso_now] of agent_core.c: only the year is clamped. *)
Definition iso_now (clk : clock) (n : nat) : string :=
  match clk_realtime clk with
  | None => snprintf_s n iso_epoch
  | Some (sec, nsec) =>
      let ms := (nsec ÷ 1000000)%Z in
      match gmtime_r sec with
      | None => snprintf_s n iso_epoch
      | Some t =>
          let y := (tm_year t + 1900)%Z in
          let y := if (y <? 0)%Z then 0%Z else y in
          let y := if (9999 <? y)%Z then 9999%Z else y in
          snprintf_s n (iso_format y (tm_mon t + 1) (tm_mday t) (tm_hour t)
                          (tm_min t) (tm_sec t) ms)
      end
  end.
End AgentCoreClock.

Module TcpClock.
(** [iso_now] of tcp_stats.c: every field is clamped. *)
Definition iso_now (clk : clock) (n : nat) : string :=
  match clk_realtime clk with
  | None => snprintf_s n iso_epoch
  | Some (sec, nsec) =>
      let ms := clamp 0 999 (nsec ÷ 1000000) in
      match gmtime_r sec with
      | None => snprintf_s n iso_epoch
      | Some t =>
          snprintf_s n
            (iso_format (clamp 0 9999 (tm_year t + 1900)) (clamp 1 12 (tm_mon t + 1))
               (clamp 1 31 (tm_mday t)) (clamp 0 23 (tm_hour t)) (clamp 0 59 (tm_min t))
               (clamp 0 60 (tm_sec t)) ms)
      end
  end.
End TcpClock.

Module FlowClock.
(** [iso_now] of flow_acct.c: a buffer below 25 bytes is left as it is ([old]);
    the year and the milliseconds are clamped. *)
Definition iso_now (clk : clock) (old : string) (n : nat) : string :=
  if n <? 25 then old else
  match clk_realtime clk with
  | None => snprintf_s n iso_epoch
  | Some (sec, nsec) =>
      let ms := (nsec ÷ 1000000)%Z in
      let ms := if (ms <? 0)%Z then 0%Z else ms in
      let ms := if (999 <? ms)%Z then 999%Z else ms in
      match gmtime_r sec with
      | None => snprintf_s n iso_epoch
      | Some t =>
          let y := (tm_year t + 1900)%Z in
          let y := if (y <? 0)%Z then 0%Z else y in
          let y := if (9999 <? y)%Z then 9999%Z else y in
          snprintf_s n (iso_format y (tm_mon t + 1) (tm_mday t) (tm_hour t)
                          (tm_min t) (tm_sec t) ms)
      end
  end.
End FlowClock.

(** [mono_ms] of tcp_stats.c and flow_acct.c (identical): 0 on failure. *)
Definition mono_ms (clk : clock) : Z :=
  match clk_monotonic clk with
  | None => 0%Z
  | Some (sec, nsec) => u64 (u64 (u64 sec * 1000) + u64 nsec / 1000000)%Z
  end.

Lemma mono_ms_range clk : in_u64 (mono_ms clk).
Proof. unfold mono_ms. destruct (clk_monotonic clk) as [[]|]; word_lia. Qed.

(** ** Field ranges *)

(** What the fixed-width formats need: no field has more than two digits.  (The
    day of the year is only bounded loosely: that is enough.) *)
Record tm_ok (t : tm) : Prop := {
  tm_sec_ok : (0 <= tm_sec t < 60)%Z;
  tm_min_ok : (0 <= tm_min t < 60)%Z;
  tm_hour_ok : (0 <= tm_hour t < 24)%Z;
  tm_mday_ok : (1 <= tm_mday t <= 31)%Z;
  tm_mon_ok : (0 <= tm_mon t <= 12)%Z;
}.

Lemma doy_range_aux doe yoe a b c y4 y100 :
  (0 <= doe < 146097 -> a = doe / 1460 -> b = doe / 36524 -> c = doe / 146096 ->
   yoe = (doe - a + b - c) / 365 -> y4 = yoe / 4 -> y100 = yoe / 100 ->
   -10 <= doe - (365 * yoe + y4 - y100) <= 370)%Z.
Proof. intros. Z.div_mod_to_equations. lia. Qed.
Lemma doy_range doe :
  (0 <= doe < 146097)%Z ->
  let yoe := ((doe - doe / 1460 + doe / 36524 - doe / 146096) / 365)%Z in
  (-10 <= doe - (365 * yoe + yoe / 4 - yoe / 100) <= 370)%Z.
Proof. intros. cbv zeta. by eapply doy_range_aux. Qed.
Lemma mday_range doy :
  let mp := ((5 * doy + 2) / 153)%Z in (1 <= doy - (153 * mp + 2) / 5 + 1 <= 31)%Z.
Proof. cbv zeta. Z.div_mod_to_equations. lia. Qed.

Lemma gmtime_r_ok t r : gmtime_r t = Some r -> tm_ok r.
Proof.
  unfold gmtime_r. cbv zeta.
  pose proof (doy_range ((t / 86400 + 719468) mod 146097) ltac:(apply Z.mod_pos_bound; lia)) as Hdoy.
  cbv zeta in Hdoy.
  match type of Hdoy with (_ <= ?d <= _)%Z => set (doy := d) in * end.
  pose proof (mday_range doy) as Hd. cbv zeta in Hd.
  destruct (_ && _); [|done]. intros [= <-]. constructor; cbn [tm_sec tm_min tm_hour tm_mday tm_mon].
  - apply Z.mod_pos_bound. lia.
  - apply Z.mod_pos_bound. lia.
  - pose proof (Z.mod_pos_bound t 86400). Z.div_mod_to_equations. lia.
  - exact Hd.
  - clearbody doy. clear Hd. destruct (_ <? 10)%Z eqn:E; Z.div_mod_to_equations; lia.
Qed.

Definition clock_ok (clk : clock) : Prop :=
  forall sec nsec, clk_realtime clk = Some (sec, nsec) -> (0 <= nsec < 1000000000)%Z.

Lemma iso_format_length y mo d h mi s ms :
  (0 <= y <= 9999)%Z -> (0 <= mo <= 99)%Z -> (0 <= d <= 99)%Z -> (0 <= h <= 99)%Z ->
  (0 <= mi <= 99)%Z -> (0 <= s <= 99)%Z -> (0 <= ms <= 999)%Z ->
  strlen (iso_format y mo d h mi s ms) = 24.
Proof.
  intros. unfold iso_format. rewrite !strlen_app.
  rewrite (strlen_fmt_0d_exact 3 y), (strlen_fmt_0d_exact 2 ms), !(strlen_fmt_0d_exact 1)
    by (simpl; lia). reflexivity.
Qed.

Ltac clamp_bounds :=
  unfold clamp; repeat match goal with |- context [if (?a <? ?b)%Z then _ else _] =>
    destruct (Z.ltb_spec a b) end; try lia.

(** A timestamp is 24 characters, whatever the clock says. *)
Lemma agent_iso_now_length clk n :
  clock_ok clk -> 25 <= n -> strlen (AgentCoreClock.iso_now clk n) = 24.
Proof.
  intros Hc Hn. unfold AgentCoreClock.iso_now.
  destruct (clk_realtime clk) as [[sec nsec]|] eqn:E;
    [|rewrite snprintf_s_fits; [done|simpl; lia]].
  destruct (gmtime_r sec) as [t|] eqn:Et; [|rewrite snprintf_s_fits; [done|simpl; lia]].
  apply gmtime_r_ok in Et as []. specialize (Hc _ _ E).
  assert (0 <= nsec ÷ 1000000 <= 999)%Z.
  { rewrite Z.quot_div_nonneg by lia. Z.div_mod_to_equations. lia. }
  assert (H24 : strlen (iso_format
    (let y := (tm_year t + 1900)%Z in let y := if (y <? 0)%Z then 0%Z else y in
     if (9999 <? y)%Z then 9999%Z else y)
    (tm_mon t + 1) (tm_mday t) (tm_hour t) (tm_min t) (tm_sec t) (nsec ÷ 1000000)) = 24).
  { apply iso_format_length; cbv zeta; clamp_bounds. }
  cbv zeta in *. rewrite snprintf_s_fits by lia. exact H24.
Qed.

Lemma tcp_iso_now_length clk n : 25 <= n -> strlen (TcpClock.iso_now clk n) = 24.
Proof.
  intros Hn. unfold TcpClock.iso_now.
  destruct (clk_realtime clk) as [[sec nsec]|];
    [|rewrite snprintf_s_fits; [done|simpl; lia]].
  destruct (gmtime_r sec) as [t|]; [|rewrite snprintf_s_fits; [done|simpl; lia]].
  cbv zeta. rewrite snprintf_s_fits; rewrite iso_format_length; try lia; clamp_bounds.
Qed.

Lemma flow_iso_now_length clk old n : 25 <= n -> strlen (FlowClock.iso_now clk old n) = 24.
Proof.
  intros Hn. unfold FlowClock.iso_now.
  destruct (n <? 25) eqn:En; [apply Nat.ltb_lt in En; lia|].
  destruct (clk_realtime clk) as [[sec nsec]|];
    [|rewrite snprintf_s_fits; [done|simpl; lia]].
  destruct (gmtime_r sec) as [t|] eqn:Et; [|rewrite snprintf_s_fits; [done|simpl; lia]].
  apply gmtime_r_ok in Et as [].
  cbv zeta. rewrite snprintf_s_fits; rewrite iso_format_length; try lia; clamp_bounds.
Qed.
