(* ===== verification/HostAlloc.v ===== *)
(** * The allocation gate (src/agent/host_alloc.c)

    Every agent-owned buffer goes through these functions, which keep four
    process-wide counters.  [calloc] and [realloc] are inputs: the pointer they
    return, [None] for NULL. *)

From S2P Require Import Prelude.

(** A non-NULL heap pointer. *)
Definition addr := Z.

Record alloc_stats := {
  g_allocs : Z;
  g_reallocs : Z;
  g_frees : Z;
  g_bytes : Z;
}.
#[export] Instance eta_alloc_stats : Eta alloc_stats := fun s => {|
  g_allocs := g_allocs s; g_reallocs := g_reallocs s; g_frees := g_frees s; g_bytes := g_bytes s |}.

Definition cpe_host_alloc_reset_stats : alloc_stats :=
  {| g_allocs := 0; g_reallocs := 0; g_frees := 0; g_bytes := 0 |}.
Definition cpe_host_alloc_count (s : alloc_stats) : Z := g_allocs s.
Definition cpe_host_realloc_count (s : alloc_stats) : Z := g_reallocs s.
Definition cpe_host_free_count (s : alloc_stats) : Z := g_frees s.
Definition cpe_host_bytes_outstanding (s : alloc_stats) : Z := g_bytes s.

Definition cpe_host_alloc (calloc : Z -> option addr) (n : Z) (s : alloc_stats)
    : option addr * alloc_stats :=
  if (n =? 0)%Z then (None, s)
  else match calloc n with
  | None => (None, s)
  | Some p => (Some p, s <| g_allocs := u64 (g_allocs s + 1) |> <| g_bytes := u64 (g_bytes s + n) |>)
  end.

Definition cpe_host_free (p : option addr) (s : alloc_stats) : alloc_stats :=
  match p with
  | None => s
  | Some _ => s <| g_frees := u64 (g_frees s + 1) |>
  end.

Definition cpe_host_realloc (calloc : Z -> option addr) (realloc : addr -> Z -> option addr)
    (p : option addr) (n : Z) (s : alloc_stats) : option addr * alloc_stats :=
  if (n =? 0)%Z then (None, cpe_host_free p s)
  else match p with
  | None => cpe_host_alloc calloc n s
  | Some a =>
      match realloc a n with
      | None => (None, s)
      | Some q => (Some q, s <| g_reallocs := u64 (g_reallocs s + 1) |>)
      end
  end.

(** ** A run of the gate against a heap of live blocks *)
Inductive alloc_op :=
  | OpAlloc (n : Z) (res : option addr)
  | OpRealloc (p : addr) (n : Z) (res : option addr)
  | OpFree (p : addr).

(** The heap: live blocks with their sizes. *)
Definition heap := list (addr * Z).
Definition heap_remove (p : addr) (h : heap) : heap := filter (fun b => b.1 <> p) h.
Definition heap_bytes (h : heap) : Z := zsum snd h.

Definition alloc_step (o : alloc_op) (st : alloc_stats * heap) : alloc_stats * heap :=
  let '(s, h) := st in
  match o with
  | OpAlloc n res =>
      match cpe_host_alloc (fun _ => res) n s with
      | (Some p, s') => (s', (p, n) :: h)
      | (None, s') => (s', h)
      end
  | OpRealloc p n res =>
      match cpe_host_realloc (fun _ => res) (fun _ _ => res) (Some p) n s with
      | (Some q, s') => (s', (q, n) :: heap_remove p h)
      | (None, s') => (s', if (n =? 0)%Z then heap_remove p h else h)
      end
  | OpFree p => (cpe_host_free (Some p) s, heap_remove p h)
  end.

Definition alloc_run (os : list alloc_op) : alloc_stats * heap :=
  foldl (fun st o => alloc_step o st) (cpe_host_alloc_reset_stats, []) os.

(** Bytes handed out by the successful [OpAlloc]s of a run. *)
Definition alloc_bytes (o : alloc_op) : Z :=
  match o with OpAlloc n (Some _) => n | _ => 0%Z end.

Lemma alloc_step_bytes o st :
  g_bytes (alloc_step o st).1 = u64 (g_bytes st.1 + alloc_bytes o) \/
  (g_bytes (alloc_step o st).1 = g_bytes st.1 /\ alloc_bytes o = 0%Z).
Proof.
  destruct st as [s h]. destruct o as [n [p|]|p n res|p]; simpl.
  - unfold cpe_host_alloc. destruct (n =? 0)%Z eqn:E; simpl; [right; lia|left; done].
  - unfold cpe_host_alloc. destruct (n =? 0)%Z; simpl; by right.
  - unfold cpe_host_realloc. destruct (n =? 0)%Z; [simpl; by right|].
    destruct res; simpl; by right.
  - by right.
Qed.

(** The byte counter is cumulative, not outstanding: after any sequence of
    allocations, reallocations and frees it equals the total of all successful
    allocations (modulo 2^64).  Frees and reallocations never change it, so
    [cpe_host_bytes_outstanding] disagrees with the live heap as soon as anything
    has been freed. *)
Theorem bytes_counter_is_cumulative os :
  g_bytes (alloc_run os).1 = u64 (zsum alloc_bytes os).
Proof.
  unfold alloc_run. rewrite <- (rev_involutive os).
  generalize (rev os). clear os. intros os.
  induction os as [|o os IH]; [done|]. simpl rev.
  rewrite foldl_app. simpl. set (st := foldl _ _ (rev os)) in *.
  rewrite zsum_app. simpl.
  destruct (alloc_step_bytes o st) as [->|[-> ->]].
  - rewrite IH. unfold u64. rewrite Zplus_mod_idemp_l. f_equal. lia.
  - rewrite IH. f_equal. lia.
Qed.

Example bytes_outstanding_after_free :
  let st := alloc_run [OpAlloc 1024 (Some 7%Z); OpFree 7%Z] in
  cpe_host_bytes_outstanding st.1 = 1024%Z /\ heap_bytes st.2 = 0%Z.
Proof. split; reflexivity. Qed.
