(* ===== verification/SpoolDir.v ===== *)
(** * Spool directories (src/agent/spool_util.c)

    [mkdir -p] over a path held in a 512-byte buffer.  The file system is a
    parameter: a state with a [mkdir] that answers 0, [EEXIST] or another error. *)

From S2P Require Import Prelude CStr.
From Stdlib Require Import Ascii.

Inductive mkdir_result := MkOk | MkExist | MkError.

Class FileSystem (FS : Type) := {
  fs_mkdir : string -> FS -> mkdir_result * FS;
  fs_exists : string -> FS -> Prop;
}.
(** What the callers rely on: after 0 or EEXIST the path exists, and nothing that
    existed disappears. *)
Class FileSystemLaws (FS : Type) `{FileSystem FS} := {
  fs_mkdir_exists p s r s' : fs_mkdir p s = (r, s') -> r <> MkError -> fs_exists p s';
  fs_mkdir_mono p q s r s' : fs_mkdir p s = (r, s') -> fs_exists q s -> fs_exists q s';
}.

Definition PATH_BUF := 512.
Definition is_slash (c : ascii) : bool := Ascii.eqb c "/".

(** Indexes [i >= 1] of the slashes: the loop [for (i = 1; i < len; i++)]. *)
Fixpoint slash_indexes (s : string) (i : nat) : list nat :=
  match s with
  | EmptyString => []
  | String c s' => (if is_slash c && (1 <=? i) then [i] else []) ++ slash_indexes s' (S i)
  end.
(** The successive contents of [tmp] at the [mkdir] calls. *)
Definition mkdir_paths (dir : string) : list string :=
  ((fun i => str_take i dir) <$> slash_indexes dir 0) ++ [dir].

(** Position of the last slash ([strrchr]). *)
Fixpoint last_slash (s : string) (i : nat) : option nat :=
  match s with
  | EmptyString => None
  | String c s' =>
      match last_slash s' (S i) with
      | Some k => Some k
      | None => if is_slash c then Some i else None
      end
  end.

Section spool_dir.
Context {FS : Type} `{!FileSystem FS}.

Fixpoint mkdir_all (paths : list string) (s : FS) : Z * FS :=
  match paths with
  | [] => (0%Z, s)
  | p :: paths' =>
      match fs_mkdir p s with
      | (MkError, s') => ((-1)%Z, s')
      | (_, s') => mkdir_all paths' s'
      end
  end.

Definition cpe_spool_ensure_dir (dir : option string) (s : FS) : Z * FS :=
  match dir with
  | None => ((-1)%Z, s)
  | Some d =>
      if negb (nonempty d) then ((-1)%Z, s)
      else if PATH_BUF <=? strlen d then ((-1)%Z, s)
      else mkdir_all (mkdir_paths d) s
  end.

Definition cpe_spool_ensure_parent_dir (file_path : option string) (s : FS) : Z * FS :=
  match file_path with
  | None => ((-1)%Z, s)
  | Some f =>
      if negb (nonempty f) then ((-1)%Z, s)
      else if PATH_BUF <=? strlen f then ((-1)%Z, s)
      else match last_slash f 0 with
           | None | Some O => (0%Z, s)          (* cwd or root file *)
           | Some i => cpe_spool_ensure_dir (Some (str_take i f)) s
           end
  end.

Context `{!FileSystemLaws FS}.

Lemma mkdir_all_mono paths s s' rc q :
  mkdir_all paths s = (rc, s') -> fs_exists q s -> fs_exists q s'.
Proof.
  revert s. induction paths as [|p paths IH]; intros s; simpl; [by intros [= <- <-]|].
  destruct (fs_mkdir p s) as [[] s1] eqn:E; intros H Hq;
    pose proof (fs_mkdir_mono _ _ _ _ _ E Hq) as H1; [by eapply IH..|].
  by injection H as <- <-.
Qed.

Lemma mkdir_all_exists paths s s' p :
  mkdir_all paths s = (0%Z, s') -> p ∈ paths -> fs_exists p s'.
Proof.
  revert s. induction paths as [|p0 paths IH]; intros s; simpl; [by intros _ H%elem_of_nil|].
  destruct (fs_mkdir p0 s) as [r s1] eqn:E. intros H Hp.
  destruct r; [| |done];
    (apply elem_of_cons in Hp as [->|Hp]; [|by eapply IH];
     eapply mkdir_all_mono; [exact H|]; by eapply fs_mkdir_exists).
Qed.

Lemma slash_indexes_spec d i j :
  j ∈ slash_indexes d i <-> exists k, j = i + k /\ 1 <= j /\ String.get k d = Some "/"%char.
Proof.
  revert i. induction d as [|c d IH]; intros i; simpl.
  - split; [by intros H%elem_of_nil|by intros (k & _ & _ & ?)].
  - rewrite elem_of_app, IH. split.
    + intros [H|(k & -> & H1 & Hk)].
      * destruct (is_slash c) eqn:Ec; simpl in H; [|by apply elem_of_nil in H].
        destruct i as [|i]; [by apply elem_of_nil in H|].
        apply list_elem_of_singleton in H as ->.
        exists 0. apply Ascii.eqb_eq in Ec as ->. split; [lia|]. split; [lia|done].
      * exists (S k). split; [lia|]. split; [lia|done].
    + intros ([|k] & -> & H1 & Hk).
      * left. simpl in Hk. injection Hk as ->. simpl.
        destruct i; [lia|]. apply list_elem_of_singleton. lia.
      * right. exists k. split; [lia|]. split; [lia|done].
Qed.

(** When [cpe_spool_ensure_dir] reports success, the directory and every
    proper prefix of its path that ends before a slash exist. *)
Theorem ensure_dir_creates_all d s s' :
  cpe_spool_ensure_dir (Some d) s = (0%Z, s') ->
  fs_exists d s' /\
  forall i, 1 <= i -> String.get i d = Some "/"%char -> fs_exists (str_take i d) s'.
Proof.
  unfold cpe_spool_ensure_dir. destruct (negb _); [done|]. destruct (_ <=? _); [done|].
  intros H. split.
  - eapply mkdir_all_exists; [exact H|]. apply elem_of_app. right. by apply list_elem_of_singleton.
  - intros i Hi Hs. eapply mkdir_all_exists; [exact H|].
    apply elem_of_app. left. apply list_elem_of_fmap. exists i. split; [done|].
    apply slash_indexes_spec. by exists i.
Qed.
End spool_dir.

(** A file system for the witness: the set of existing paths; [mkdir] needs the
    parent, like the real one. *)
Definition parent (p : string) : string :=
  match last_slash p 0 with Some i => str_take i p | None => EmptyString end.
Definition one_of_path (p : string) (s : list string) : bool := existsb (streq p) s.
#[export] Instance list_fs : FileSystem (list string) := {|
  fs_mkdir p s :=
    if one_of_path p s then (MkExist, s)
    else if negb (nonempty (parent p)) || one_of_path (parent p) s then (MkOk, p :: s)
    else (MkError, s);
  fs_exists p s := p ∈ s;
|}.
#[export] Instance list_fs_laws : FileSystemLaws (list string).
Proof.
  split.
  - intros p s r s'. simpl. destruct (one_of_path p s) eqn:E.
    + intros [= <- <-] _. apply existsb_exists in E as (x & Hx & E%streq_true). subst.
      by apply list_elem_of_In.
    + destruct (_ || _); intros [= <- <-]; [intros _; left|done].
  - intros p q s r s'. simpl. destruct (one_of_path p s); [by intros [= <- <-]|].
    destruct (_ || _); intros [= <- <-]; [by right|done].
Qed.

Lemma ensure_dir_creates_all_witness :
  exists s', cpe_spool_ensure_dir (Some "/var/spool/nf"%string) (@nil string) = (0%Z, s') /\
    "/var/spool/nf"%string ∈ s' /\ "/var/spool"%string ∈ s'.
Proof.
  eexists. split; [vm_compute; reflexivity|].
  destruct (ensure_dir_creates_all (FS := list string) "/var/spool/nf"%string []
    ["/var/spool/nf"; "/var/spool"; "/var"]%string) as [H1 H2]; [vm_compute; reflexivity|].
  split; [exact H1|]. exact (H2 10 ltac:(lia) eq_refl).
Defined.
