(* ===== verification/Config.v ===== *)
(** * Agent configuration

    [cpe_agent_config_t] (src/include/cpe_agent_config.h), its defaults and
    validation (src/agent/config_defaults.c) and the YAML loader
    (src/agent/config_yaml.c).  The YAML parser itself is the sibling libyaml
    wrapper, which is not part of the repository: the loader is parameterised by
    what that library answers for a document. *)

From S2P Require Import Prelude CStr.

Definition CPE_CFG_ROUTER_ID_MAX := 64.
Definition CPE_CFG_PATH_MAX := 256.
Definition CPE_CFG_TARGET_MAX := 64.
Definition CPE_CFG_IFACE_MAX := 32.
Definition CPE_CFG_MODE_MAX := 16.
Definition CPE_CFG_URL_MAX := 256.
Definition CPE_CFG_USER_MAX := 64.
Definition CPE_CFG_PASS_MAX := 128.
Definition CPE_CFG_SPOOL_DEFAULT : Z := 256.

Record cpe_agent_config := {
  router_id : string;
  emit_mode : string;
  spool_path : string;
  spool_max_lines : Z;
  demo_target : string;
  arping_if : string;
  wifi_if : string;
  demo_interval_ms : Z;
  sample_interval_ms : Z;
  probe_timeout_ms : Z;
  demo_mode : Z;
  https_url : string;
  egress_user : string;
  egress_password : string;
  tls_ca_file : string;
  tls_cert_file : string;
  tls_key_file : string;
  egress_tls_insecure : Z;
  tcp_stats_enabled : Z;
  tcp_nflog_group : Z;
  tcp_nflog_size : Z;
  tcp_emit_interval_ms : Z;
  tcp_emit_top_n : Z;
  tcp_prefix_len : Z;
  flow_acct_enabled : Z;
  flow_join_update : Z;
  flow_emit_destroy : Z;
  flow_emit_new : Z;
  flow_poll_interval_ms : Z;
  flow_dump_interval_ms : Z;
  flow_sample_emit_ms : Z;
  flow_sample_top_n : Z;
  flow_max_flows : Z;
  ipc_socket : string;
  openai_proxy_url : string;
  postgres_proxy_url : string;
  generation : Z;
}.

#[export] Instance eta_config : Eta cpe_agent_config := fun c => {|
  router_id := router_id c; emit_mode := emit_mode c; spool_path := spool_path c;
  spool_max_lines := spool_max_lines c; demo_target := demo_target c;
  arping_if := arping_if c; wifi_if := wifi_if c;
  demo_interval_ms := demo_interval_ms c; sample_interval_ms := sample_interval_ms c;
  probe_timeout_ms := probe_timeout_ms c; demo_mode := demo_mode c;
  https_url := https_url c; egress_user := egress_user c;
  egress_password := egress_password c; tls_ca_file := tls_ca_file c;
  tls_cert_file := tls_cert_file c; tls_key_file := tls_key_file c;
  egress_tls_insecure := egress_tls_insecure c;
  tcp_stats_enabled := tcp_stats_enabled c; tcp_nflog_group := tcp_nflog_group c;
  tcp_nflog_size := tcp_nflog_size c; tcp_emit_interval_ms := tcp_emit_interval_ms c;
  tcp_emit_top_n := tcp_emit_top_n c; tcp_prefix_len := tcp_prefix_len c;
  flow_acct_enabled := flow_acct_enabled c; flow_join_update := flow_join_update c;
  flow_emit_destroy := flow_emit_destroy c; flow_emit_new := flow_emit_new c;
  flow_poll_interval_ms := flow_poll_interval_ms c;
  flow_dump_interval_ms := flow_dump_interval_ms c;
  flow_sample_emit_ms := flow_sample_emit_ms c; flow_sample_top_n := flow_sample_top_n c;
  flow_max_flows := flow_max_flows c; ipc_socket := ipc_socket c;
  openai_proxy_url := openai_proxy_url c; postgres_proxy_url := postgres_proxy_url c;
  generation := generation c |}.

(** ** Defaults and validation (config_defaults.c) *)
Definition CPE_SPOOL_PERF_DEFAULT : string := "/var/spool/netforensics/cpe_perf.ndjson".
Definition CPE_SPOOL_MAX_LINES_HARD : Z := 1024.

(** [cpe_agent_config_defaults]: everything not named is zeroed by the memset. *)
Definition cpe_agent_config_defaults : cpe_agent_config := {|
  router_id := snprintf_s CPE_CFG_ROUTER_ID_MAX "cpe-lab-1";
  emit_mode := snprintf_s CPE_CFG_MODE_MAX "stdout";
  spool_path := snprintf_s CPE_CFG_PATH_MAX CPE_SPOOL_PERF_DEFAULT;
  spool_max_lines := CPE_CFG_SPOOL_DEFAULT;
  demo_target := snprintf_s CPE_CFG_TARGET_MAX "1.1.1.1";
  arping_if := EmptyString;
  wifi_if := EmptyString;
  demo_interval_ms := 5000;
  sample_interval_ms := 5000;
  probe_timeout_ms := 1000;
  demo_mode := 1;
  https_url := EmptyString;
  egress_user := EmptyString;
  egress_password := EmptyString;
  tls_ca_file := EmptyString;
  tls_cert_file := EmptyString;
  tls_key_file := EmptyString;
  egress_tls_insecure := 1;
  tcp_stats_enabled := 0;
  tcp_nflog_group := 5;
  tcp_nflog_size := 60;
  tcp_emit_interval_ms := 10000;
  tcp_emit_top_n := 20;
  tcp_prefix_len := 24;
  flow_acct_enabled := 0;
  flow_join_update := 1;
  flow_emit_destroy := 1;
  flow_emit_new := 0;
  flow_poll_interval_ms := 200;
  flow_dump_interval_ms := 200;
  flow_sample_emit_ms := 2000;
  flow_sample_top_n := 32;
  flow_max_flows := 1024;
  ipc_socket := snprintf_s CPE_CFG_PATH_MAX "/var/run/netforensics/cpe_agent.sock";
  openai_proxy_url := EmptyString;
  postgres_proxy_url := EmptyString;
  generation := 0;
|}.

(** [cpe_agent_config_validate]: 0, or -1 with a message; [None] is a NULL [c]. *)
Definition cpe_agent_config_validate (c : option cpe_agent_config) (err : errbuf) : Z * errbuf :=
  match c with
  | None => ((-1)%Z, err_set err "null config")
  | Some c =>
      if negb (nonempty (router_id c)) then ((-1)%Z, err_set err "router_id empty")
      else if negb (streq (emit_mode c) "stdout") && negb (streq (emit_mode c) "spool") &&
              negb (streq (emit_mode c) "http") && negb (streq (emit_mode c) "https")
      then ((-1)%Z, err_set err "emit.mode must be stdout|spool|http|https")
      else if streq (emit_mode c) "spool" && negb (nonempty (spool_path c))
      then ((-1)%Z, err_set err "emit.mode=spool requires emit.path")
      else if (streq (emit_mode c) "http" || streq (emit_mode c) "https") &&
              negb (nonempty (https_url c))
      then ((-1)%Z, err_set err ("emit.mode=" +:+ emit_mode c +:+ " requires egress.url"))
      else if (spool_max_lines c =? 0)%Z then ((-1)%Z, err_set err "spool_max_lines must be > 0")
      else if (CPE_SPOOL_MAX_LINES_HARD <? spool_max_lines c)%Z
      then ((-1)%Z, err_set err ("spool_max_lines exceeds hard cap " +:+ fmt_u CPE_SPOOL_MAX_LINES_HARD))
      else if (demo_interval_ms c =? 0)%Z && (sample_interval_ms c =? 0)%Z
      then ((-1)%Z, err_set err "interval_ms must be > 0")
      else if negb (nonempty (demo_target c)) then ((-1)%Z, err_set err "probe target empty")
      else (0%Z, err)
  end.

(** ** Scalar parsers (config_yaml.c); [None] for a -1 return *)
Definition one_of (s : string) (l : list string) : bool := existsb (streq s) l.

Definition parse_bool (s : string) : option Z :=
  if one_of s ["1"; "true"; "True"; "yes"; "on"]%string then Some 1%Z
  else if one_of s ["0"; "false"; "False"; "no"; "off"]%string then Some 0%Z
  else None.

(** [lw] is the width of [unsigned long] (64 on LP64, 32 on the ILP32 targets the
    repository cross-compiles for). *)
Definition parse_u32 (lw : Z) (s : string) : option Z :=
  match strtoul lw s with
  | (_, None) => None                                   (* end == s *)
  | (v, Some rest) =>
      if nonempty rest || (4294967295 <? v)%Z then None else Some (u32 v)
  end.

(** [strtoull] is 64 bits wide everywhere; the cast to [size_t] has [lw] bits. *)
Definition parse_size (lw : Z) (s : string) : option Z :=
  match strtoul 64 s with
  | (_, None) => None
  | (v, Some rest) => if nonempty rest then None else Some (v mod 2 ^ lw)%Z
  end.

Definition copy_str (dst_sz : nat) (src : string) : option string :=
  if (dst_sz =? 0) || (dst_sz <? strlen src + 1) then None else Some src.

(** ** [apply_scalar]: one configuration key *)
Section apply_scalar.
Variable lw : Z.
Variables (c : cpe_agent_config) (key val : string) (err : errbuf).

(** The macro [FAIL(msg)]. *)
Definition scalar_fail (msg : string) : Z * cpe_agent_config * errbuf :=
  ((-1)%Z, c, err_set err (key +:+ ": " +:+ msg)).
Definition scalar_done (c' : cpe_agent_config) : Z * cpe_agent_config * errbuf := (0%Z, c', err).

Definition scalar_str (n : nat) (upd : string -> cpe_agent_config) :=
  match copy_str n val with
  | Some s => scalar_done (upd s)
  | None => scalar_fail "too long"
  end.
Definition scalar_bool (upd : Z -> cpe_agent_config) :=
  match parse_bool val with
  | Some iv => scalar_done (upd iv)
  | None => scalar_fail "invalid bool"
  end.
(** [parse_u32(val, &u32) != 0 || bad(u32)] *)
Definition scalar_u32 (bad : Z -> bool) (upd : Z -> cpe_agent_config) :=
  match parse_u32 lw val with
  | Some v => if bad v then scalar_fail "invalid" else scalar_done (upd v)
  | None => scalar_fail "invalid"
  end.
Definition is_zero (v : Z) : bool := (v =? 0)%Z.
Definition never (v : Z) : bool := false.
Definition outside (hi v : Z) : bool := (v =? 0)%Z || (hi <? v)%Z.

(** The keys from [tcp_stats] on: a second half of the function's [if] chain. *)
Definition apply_scalar_stats : Z * cpe_agent_config * errbuf :=
  if one_of key ["tcp_stats.enabled"; "tcp_stats_enabled"]%string
  then scalar_bool (fun iv => c <| tcp_stats_enabled := iv |>)
  else if one_of key ["tcp_stats.nflog_group"; "tcp_nflog_group"]%string
  then scalar_u32 (outside 65535) (fun v => c <| tcp_nflog_group := u16 v |>)
  else if one_of key ["tcp_stats.nflog_size"; "tcp_nflog_size"]%string
  then scalar_u32 is_zero (fun v => c <| tcp_nflog_size := v |>)
  else if one_of key ["tcp_stats.emit_interval_ms"; "tcp_emit_interval_ms"]%string
  then scalar_u32 is_zero (fun v => c <| tcp_emit_interval_ms := v |>)
  else if one_of key ["tcp_stats.emit_top_n"; "tcp_emit_top_n"]%string
  then scalar_u32 is_zero (fun v => c <| tcp_emit_top_n := v |>)
  else if one_of key ["flow_acct.enabled"; "flow_acct_enabled"]%string
  then scalar_bool (fun iv => c <| flow_acct_enabled := iv |>)
  else if one_of key ["flow_acct.join_update"]%string
  then scalar_bool (fun iv => c <| flow_join_update := iv |>)
  else if one_of key ["flow_acct.emit_destroy"]%string
  then scalar_bool (fun iv => c <| flow_emit_destroy := iv |>)
  else if one_of key ["flow_acct.emit_new"]%string
  then scalar_bool (fun iv => c <| flow_emit_new := iv |>)
  else if one_of key ["flow_acct.poll_interval_ms"]%string
  then scalar_u32 is_zero (fun v => c <| flow_poll_interval_ms := v |>)
  else if one_of key ["flow_acct.dump_interval_ms"]%string
  then scalar_u32 never (fun v => c <| flow_dump_interval_ms := v |>)
  else if one_of key ["flow_acct.sample_emit_ms"]%string
  then scalar_u32 is_zero (fun v => c <| flow_sample_emit_ms := v |>)
  else if one_of key ["flow_acct.sample_top_n"]%string
  then scalar_u32 is_zero (fun v => c <| flow_sample_top_n := v |>)
  else if one_of key ["flow_acct.max_flows"]%string
  then scalar_u32 is_zero (fun v => c <| flow_max_flows := v |>)
  else if one_of key ["tcp_stats.prefix_len"; "tcp_prefix_len"]%string
  then scalar_u32 (outside 32) (fun v => c <| tcp_prefix_len := u8 v |>)
  else if one_of key ["ipc.socket"; "ipc_socket"; "ipc.path"]%string
  then scalar_str CPE_CFG_PATH_MAX (fun s => c <| ipc_socket := s |>)
  else if one_of key ["proxies.openai_url"; "openai_proxy_url"]%string
  then scalar_str CPE_CFG_URL_MAX (fun s => c <| openai_proxy_url := s |>)
  else if one_of key ["proxies.postgres_url"; "postgres_proxy_url"]%string
  then scalar_str CPE_CFG_URL_MAX (fun s => c <| postgres_proxy_url := s |>)
  else scalar_done c.

Definition apply_scalar : Z * cpe_agent_config * errbuf :=
  if one_of key ["router_id"]%string
  then scalar_str CPE_CFG_ROUTER_ID_MAX (fun s => c <| router_id := s |>)
  else if one_of key ["emit.mode"; "emit_mode"]%string
  then scalar_str CPE_CFG_MODE_MAX (fun s => c <| emit_mode := s |>)
  else if one_of key ["emit.path"; "spool.path"; "spool_path"]%string
  then scalar_str CPE_CFG_PATH_MAX (fun s => c <| spool_path := s |>)
  else if one_of key ["spool.max_lines"; "spool_max_lines"]%string
  then match parse_size lw val with
       | Some sz => if is_zero sz then scalar_fail "invalid"
                    else scalar_done (c <| spool_max_lines := sz |>)
       | None => scalar_fail "invalid"
       end
  else if one_of key ["demo.target"; "demo_target"]%string
  then scalar_str CPE_CFG_TARGET_MAX (fun s => c <| demo_target := s |>)
  else if one_of key ["arping.if"; "arping_if"; "arping.iface"; "iface"]%string
  then scalar_str CPE_CFG_IFACE_MAX (fun s => c <| arping_if := s |>)
  else if one_of key ["wifi.if"; "wifi_if"; "wifi.iface"]%string
  then scalar_str CPE_CFG_IFACE_MAX (fun s => c <| wifi_if := s |>)
  else if one_of key ["demo.interval_ms"; "demo_interval_ms"; "sample.interval_ms";
                      "sample_interval_ms"]%string
  then scalar_u32 is_zero
         (fun v => c <| demo_interval_ms := v |> <| sample_interval_ms := v |>)
  else if one_of key ["demo.enabled"; "demo_mode"]%string
  then scalar_bool (fun iv => c <| demo_mode := iv |>)
  else if one_of key ["demo.timeout_ms"; "probe.timeout_ms"; "probe_timeout_ms"]%string
  then scalar_u32 is_zero (fun v => c <| probe_timeout_ms := v |>)
  else if one_of key ["egress.url"; "https_url"]%string
  then scalar_str CPE_CFG_URL_MAX (fun s => c <| https_url := s |>)
  else if one_of key ["egress.username"; "egress.user"; "egress_user"]%string
  then scalar_str CPE_CFG_USER_MAX (fun s => c <| egress_user := s |>)
  else if one_of key ["egress.password"; "egress_password"]%string
  then scalar_str CPE_CFG_PASS_MAX (fun s => c <| egress_password := s |>)
  else if one_of key ["egress.ca_file"; "tls_ca_file"]%string
  then scalar_str CPE_CFG_PATH_MAX (fun s =>
         let c' := c <| tls_ca_file := s |> in
         (* CA present: prefer verification unless tls_insecure is set later *)
         if nonempty s then c' <| egress_tls_insecure := 0%Z |> else c')
  else if one_of key ["egress.cert_file"; "tls_cert_file"]%string
  then scalar_str CPE_CFG_PATH_MAX (fun s => c <| tls_cert_file := s |>)
  else if one_of key ["egress.key_file"; "tls_key_file"]%string
  then scalar_str CPE_CFG_PATH_MAX (fun s => c <| tls_key_file := s |>)
  else if one_of key ["egress.tls_insecure"; "egress.insecure"]%string
  then scalar_bool (fun iv => c <| egress_tls_insecure := iv |>)
  else apply_scalar_stats.
End apply_scalar.

(** The keys the loader looks up, in this order. *)
Definition g_paths : list string :=
  ["router_id"; "emit.mode"; "emit_mode"; "emit.path"; "spool.path"; "spool_path";
   "spool.max_lines"; "spool_max_lines"; "demo.target"; "demo_target"; "arping.if";
   "arping_if"; "arping.iface"; "iface"; "wifi.if"; "wifi_if"; "wifi.iface";
   "demo.interval_ms"; "demo_interval_ms"; "sample.interval_ms"; "sample_interval_ms";
   "demo.enabled"; "demo_mode"; "demo.timeout_ms"; "probe.timeout_ms"; "probe_timeout_ms";
   "egress.url"; "https_url"; "egress.username"; "egress.user"; "egress_user";
   "egress.password"; "egress_password"; "egress.ca_file"; "tls_ca_file";
   "egress.cert_file"; "tls_cert_file"; "egress.key_file"; "tls_key_file";
   "egress.tls_insecure"; "egress.insecure"; "tcp_stats.enabled"; "tcp_stats_enabled";
   "tcp_stats.nflog_group"; "tcp_nflog_group"; "tcp_stats.nflog_size"; "tcp_nflog_size";
   "tcp_stats.emit_interval_ms"; "tcp_emit_interval_ms"; "tcp_stats.emit_top_n";
   "tcp_emit_top_n"; "tcp_stats.prefix_len"; "tcp_prefix_len"; "flow_acct.enabled";
   "flow_acct_enabled"; "flow_acct.join_update"; "flow_acct.emit_destroy";
   "flow_acct.emit_new"; "flow_acct.poll_interval_ms"; "flow_acct.dump_interval_ms";
   "flow_acct.sample_emit_ms"; "flow_acct.sample_top_n"; "flow_acct.max_flows";
   "ipc.socket"; "ipc_socket"; "ipc.path"; "proxies.openai_url"; "openai_proxy_url";
   "proxies.postgres_url"; "postgres_proxy_url"]%string.

(** ** The loader

    What libyaml answers for one document: whether a context could be created,
    how many bytes it consumed, the events it then yields ([Some msg] for an
    error event), and its scalar lookup. *)
Record yaml_parse := {
  yaml_created : bool;
  yaml_consumed : nat;
  yaml_events : list (option string);
  yaml_lookup_scalar : string -> option string;
}.

(** [lookup]: absent and empty scalars are the same. *)
Definition lookup (y : yaml_parse) (path : string) : option string :=
  match yaml_lookup_scalar y path with
  | Some v => if nonempty v then Some v else None
  | None => None
  end.

(** The event loop: the first error event, if any. *)
Fixpoint first_yaml_error (evs : list (option string)) : option string :=
  match evs with
  | [] => None
  | Some msg :: _ => Some msg
  | None :: evs' => first_yaml_error evs'
  end.

(** The scalar loop over [g_paths]. *)
Fixpoint load_scalars (lw : Z) (y : yaml_parse) (paths : list string)
    (c : cpe_agent_config) (err : errbuf) : Z * cpe_agent_config * errbuf :=
  match paths with
  | [] => (0%Z, c, err)
  | p :: paths' =>
      match lookup y p with
      | None => load_scalars lw y paths' c err
      | Some val =>
          let '(rc, c', err') := apply_scalar lw c p val err in
          if (rc =? 0)%Z then load_scalars lw y paths' c' err' else ((-1)%Z, c', err')
      end
  end.

Definition load_from_ctx (lw : Z) (y : yaml_parse) (c : cpe_agent_config) (err : errbuf)
    : Z * cpe_agent_config * errbuf :=
  match first_yaml_error (yaml_events y) with
  | Some msg => ((-1)%Z, c, err_set err ("yaml parse: " +:+ str_dflt msg "error"))
  | None => load_scalars lw y g_paths c err
  end.

(** [cpe_agent_config_load_yaml_buf]: [yaml] is the library, [text] the document
    ([None] for a NULL pointer). *)
Definition cpe_agent_config_load_yaml_buf (lw : Z) (yaml : string -> yaml_parse)
    (text : option string) (err : errbuf) : Z * cpe_agent_config * errbuf :=
  let out := cpe_agent_config_defaults in
  match text with
  | None => (0%Z, out, err)
  | Some t =>
      if strlen t =? 0 then (0%Z, out, err)
      else
        let y := yaml t in
        if negb (yaml_created y) then ((-1)%Z, out, err_set err "yaml_create failed")
        else if yaml_consumed y =? 0 then ((-1)%Z, out, err_set err "yaml_feed_input consumed 0")
        else load_from_ctx lw y out err
  end.

(** *** Reading the file: a buffer that doubles until the next chunk fits *)
Fixpoint grow_cap (lw : Z) (fuel : nat) (ncap need : Z) : option Z :=
  if (ncap <? need)%Z then
    match fuel with
    | O => None
    | S f => grow_cap lw f ((ncap * 2) mod 2 ^ lw)%Z need
    end
  else Some ncap.

Inductive read_result :=
  | ReadDone (buf : option string) (cap : Z)   (* [None]: [buf] still NULL *)
  | ReadOom
  | ReadDiverged.

(** [chunks] are the successive [fread] results; [realloc_ok n] says whether
    [realloc] of [n] bytes succeeds. *)
Fixpoint read_loop (lw : Z) (realloc_ok : Z -> bool) (chunks : list string)
    (buf : option string) (cap : Z) : read_result :=
  match chunks with
  | [] => ReadDone buf cap
  | ch :: chunks' =>
      let len := match buf with Some s => Z.of_nat (strlen s) | None => 0%Z end in
      let nr := Z.of_nat (strlen ch) in
      let append := Some (match buf with Some s => s +:+ ch | None => ch end) in
      if (cap <? len + nr + 1)%Z then
        let ncap0 := if (cap =? 0)%Z then 8192%Z else ((cap * 2) mod 2 ^ lw)%Z in
        match grow_cap lw (Z.to_nat lw) ncap0 (len + nr + 1) with
        | None => ReadDiverged
        | Some ncap =>
            if realloc_ok ncap then read_loop lw realloc_ok chunks' append ncap
            else ReadOom
        end
      else read_loop lw realloc_ok chunks' append cap
  end.

(** [cpe_agent_config_load_yaml_path]; [None] as configuration: [*out] was not
    written. *)
Definition cpe_agent_config_load_yaml_path (lw : Z) (yaml : string -> yaml_parse)
    (fopen : string -> option (list string)) (realloc_ok : Z -> bool)
    (path : option string) (err : errbuf) : Z * option cpe_agent_config * errbuf :=
  match path with
  | None => ((-1)%Z, None, err_set err "null args")
  | Some p =>
      match fopen p with
      | None => ((-1)%Z, None, err_set err ("cannot open " +:+ p))
      | Some chunks =>
          match read_loop lw realloc_ok chunks None 0 with
          | ReadOom | ReadDiverged => ((-1)%Z, None, err_set err "oom reading config")
          | ReadDone None _ => (0%Z, Some cpe_agent_config_defaults, err)
          | ReadDone (Some text) _ =>
              let '(rc, c, err') := cpe_agent_config_load_yaml_buf lw yaml (Some text) err in
              (rc, Some c, err')
          end
      end
  end.

(** ** The type invariant of a configuration *)
Definition fits (n : nat) (s : string) : Prop := strlen s < n.

Record config_wf (c : cpe_agent_config) : Prop := {
  wf_router_id : fits CPE_CFG_ROUTER_ID_MAX (router_id c);
  wf_emit_mode : fits CPE_CFG_MODE_MAX (emit_mode c);
  wf_spool_path : fits CPE_CFG_PATH_MAX (spool_path c);
  wf_spool_max_lines : in_u64 (spool_max_lines c);
  wf_demo_target : fits CPE_CFG_TARGET_MAX (demo_target c);
  wf_ifs : fits CPE_CFG_IFACE_MAX (arping_if c) /\ fits CPE_CFG_IFACE_MAX (wifi_if c);
  wf_demo_interval : in_u32 (demo_interval_ms c);
  wf_sample_interval : in_u32 (sample_interval_ms c);
  wf_probe_timeout : in_u32 (probe_timeout_ms c);
  wf_https_url : fits CPE_CFG_URL_MAX (https_url c);
  wf_egress_user : fits CPE_CFG_USER_MAX (egress_user c);
  wf_egress_password : fits CPE_CFG_PASS_MAX (egress_password c);
  wf_tls_files : fits CPE_CFG_PATH_MAX (tls_ca_file c) /\
    fits CPE_CFG_PATH_MAX (tls_cert_file c) /\ fits CPE_CFG_PATH_MAX (tls_key_file c);
  wf_nflog_group : in_u16 (tcp_nflog_group c);
  wf_nflog_size : in_u32 (tcp_nflog_size c);
  wf_tcp_emit_interval : in_u32 (tcp_emit_interval_ms c);
  wf_tcp_emit_top_n : in_u32 (tcp_emit_top_n c);
  wf_tcp_prefix_len : (0 <= tcp_prefix_len c <= 32)%Z;
  wf_flow_intervals : in_u32 (flow_poll_interval_ms c) /\ in_u32 (flow_dump_interval_ms c) /\
    in_u32 (flow_sample_emit_ms c);
  wf_flow_sizes : in_u32 (flow_sample_top_n c) /\ in_u32 (flow_max_flows c);
  wf_ipc_socket : fits CPE_CFG_PATH_MAX (ipc_socket c);
  wf_proxies : fits CPE_CFG_URL_MAX (openai_proxy_url c) /\
    fits CPE_CFG_URL_MAX (postgres_proxy_url c);
  wf_generation : in_u64 (generation c);
}.

Lemma copy_str_fits n src s : copy_str n src = Some s -> s = src /\ fits n s.
Proof.
  unfold copy_str, fits. destruct (_ || _) eqn:E; [done|]. intros [= <-].
  apply orb_false_iff in E as [E1 E2]. apply Nat.ltb_ge in E2. split; [done|lia].
Qed.
Lemma parse_u32_range lw s v : parse_u32 lw s = Some v -> in_u32 v.
Proof.
  unfold parse_u32. destruct (strtoul lw s) as [x [rest|]]; [|done].
  destruct (_ || _); [done|]. intros [= <-]. apply u32_range.
Qed.
Lemma parse_size_range lw s v : (0 < lw <= 64)%Z -> parse_size lw s = Some v -> in_u64 v.
Proof.
  intros Hlw. unfold parse_size. destruct (strtoul 64 s) as [x [rest|]]; [|done].
  destruct (nonempty rest); [done|]. intros [= <-].
  pose proof (Z.mod_pos_bound x (2 ^ lw) ltac:(apply Z.pow_pos_nonneg; lia)).
  assert (2 ^ lw <= 2 ^ 64)%Z by (apply Z.pow_le_mono_r; lia).
  unfold in_u64. change (2 ^ 64)%Z with 18446744073709551616%Z in *. lia.
Qed.

Lemma defaults_wf : config_wf cpe_agent_config_defaults.
Proof.
  constructor; unfold fits, in_u16, in_u32, in_u64; repeat split; cbn; try lia;
    try (apply Nat.ltb_lt; reflexivity); by vm_compute.
Qed.

(** [scalar_cases H tac]: [H] is an equation on the result of [apply_scalar];
    runs [tac] on the branch of every key, and on the unknown-key branch. *)
Ltac scalar_cases H tac :=
  unfold apply_scalar, apply_scalar_stats in H;
  repeat match type of H with
  | (if one_of ?k ?l then _ else _) = _ =>
      let Hk := fresh "Hkey" in
      destruct (one_of k l) eqn:Hk; [clear - H Hk; revert H|];
      [cbv beta delta [scalar_str scalar_bool scalar_u32 scalar_done scalar_fail];
       repeat case_match; let E := fresh "Hres" in intros E; simplify_eq; tac |]
  end; unfold scalar_done in H; simplify_eq; tac.

(** One case per key: the field written is in range, the others are kept. *)
Lemma apply_scalar_wf lw c key val err rc c' err' :
  (0 < lw <= 64)%Z -> config_wf c -> apply_scalar lw c key val err = (rc, c', err') ->
  config_wf c'.
Proof.
  intros Hlw Hwf H. revert Hlw Hwf.
  scalar_cases H ltac:(intros Hlw Hwf; try exact Hwf;
    repeat match goal with
    | H : copy_str _ _ = Some _ |- _ => apply copy_str_fits in H as [-> H]
    | H : parse_u32 _ _ = Some _ |- _ => apply parse_u32_range in H
    | H : parse_size _ _ = Some _ |- _ => apply parse_size_range in H; [|done]
    | H : outside _ _ = false |- _ => apply orb_false_iff in H as [? H]
    end; destruct Hwf; constructor; cbn; try tauto;
    rewrite ?u16_id, ?u8_id by word_lia; word_lia).
Qed.

Lemma load_scalars_wf lw y paths c err rc c' err' :
  (0 < lw <= 64)%Z -> config_wf c -> load_scalars lw y paths c err = (rc, c', err') ->
  config_wf c'.
Proof.
  intros Hlw. revert c err. induction paths as [|p paths IH]; intros c err Hwf; simpl.
  { intros [= <- <- <-]. done. }
  destruct (lookup y p) as [v|]; [|by apply IH].
  destruct (apply_scalar lw c p v err) as [[rc1 c1] e1] eqn:E.
  pose proof (apply_scalar_wf _ _ _ _ _ _ _ _ Hlw Hwf E) as Hwf1.
  destruct (rc1 =? 0)%Z; [by apply IH|]. intros [= <- <- <-]. done.
Qed.

Lemma load_scalars_app lw y p1 p2 c err :
  load_scalars lw y (p1 ++ p2) c err =
    let '(rc, c1, e1) := load_scalars lw y p1 c err in
    if (rc =? 0)%Z then load_scalars lw y p2 c1 e1 else (rc, c1, e1).
Proof.
  revert c err. induction p1 as [|p p1 IH]; intros c err; simpl; [done|].
  destruct (lookup y p); [|apply IH].
  destruct (apply_scalar _ _ _ _ _) as [[rc1 c1] e1]. destruct (rc1 =? 0)%Z; [apply IH|done].
Qed.

(** Only four keys write [egress_tls_insecure]. *)
Definition tls_keys : list string :=
  ["egress.ca_file"; "tls_ca_file"; "egress.tls_insecure"; "egress.insecure"]%string.

Lemma one_of_In k l : one_of k l = true <-> In k l.
Proof.
  unfold one_of. rewrite existsb_exists. split.
  - intros (x & Hx & E%streq_true). by subst.
  - intros H. exists k. split; [done|]. by apply streq_true.
Qed.

Lemma apply_scalar_keeps_insecure lw c key val err rc c' err' :
  one_of key tls_keys = false -> apply_scalar lw c key val err = (rc, c', err') ->
  egress_tls_insecure c' = egress_tls_insecure c.
Proof.
  intros Hk H. revert Hk.
  scalar_cases H ltac:(intros Hk; try reflexivity; exfalso;
    apply not_true_iff_false in Hk; apply Hk, one_of_In;
    match goal with E : one_of _ _ = true |- _ => apply one_of_In in E; simpl in *; tauto end).
Qed.

Lemma load_scalars_keeps_insecure lw y paths c err rc c' err' :
  forallb (fun p => negb (one_of p tls_keys)) paths = true ->
  load_scalars lw y paths c err = (rc, c', err') ->
  egress_tls_insecure c' = egress_tls_insecure c.
Proof.
  revert c err. induction paths as [|p paths IH]; intros c err Hp; simpl.
  { intros [= <- <- <-]. done. }
  simpl in Hp. apply andb_true_iff in Hp as [Hp1%negb_true_iff Hp2].
  destruct (lookup y p) as [v|]; [|by apply IH].
  destruct (apply_scalar lw c p v err) as [[rc1 c1] e1] eqn:E.
  apply apply_scalar_keeps_insecure in E; [|done].
  destruct (rc1 =? 0)%Z; [|intros [= <- <- <-]; done].
  intros H. rewrite <- E. by eapply IH.
Qed.

(** The setting the TLS keys of a document ask for. *)
Definition tls_explicit (y : yaml_parse) : option Z :=
  match lookup y "egress.insecure" with
  | Some v => parse_bool v
  | None => match lookup y "egress.tls_insecure" with Some v => parse_bool v | None => None end
  end.
Definition tls_setting (y : yaml_parse) : Z :=
  match tls_explicit y with
  | Some v => v
  | None =>
      match lookup y "egress.ca_file", lookup y "tls_ca_file" with
      | None, None => 1%Z
      | _, _ => 0%Z
      end
  end.

(** Loading the four keys in isolation, from the default setting. *)
Lemma lookup_nonempty y p v : lookup y p = Some v -> nonempty v = true.
Proof. unfold lookup. destruct (yaml_lookup_scalar y p) as [w|]; [|done]. by case_match; intros [= <-]. Qed.

Lemma ca_key_step lw y c err rc c' err' p :
  one_of p ["egress.ca_file"; "tls_ca_file"]%string = true ->
  load_scalars lw y [p] c err = (rc, c', err') -> rc = 0%Z ->
  egress_tls_insecure c' = match lookup y p with Some _ => 0%Z | None => egress_tls_insecure c end.
Proof.
  intros Hp. simpl. destruct (lookup y p) as [v|] eqn:E; [|intros [= <- <- <-]; done].
  apply lookup_nonempty in E.
  assert (Ha : apply_scalar lw c p v err = scalar_str c p v err CPE_CFG_PATH_MAX (fun s =>
    let c' := c <| tls_ca_file := s |> in
    if nonempty s then c' <| egress_tls_insecure := 0%Z |> else c')).
  { apply one_of_In in Hp. destruct Hp as [<-|[<-|[]]]; reflexivity. }
  rewrite Ha. unfold scalar_str, copy_str. destruct (_ || _); cbn -[nonempty].
  - intros [= <- <- <-]. done.
  - rewrite E. intros [= <- <- <-]. done.
Qed.

Lemma insecure_key_step lw y c err rc c' err' p :
  one_of p ["egress.tls_insecure"; "egress.insecure"]%string = true ->
  load_scalars lw y [p] c err = (rc, c', err') -> rc = 0%Z ->
  match lookup y p with
  | Some v => parse_bool v = Some (egress_tls_insecure c')
  | None => egress_tls_insecure c' = egress_tls_insecure c
  end.
Proof.
  intros Hp. simpl. destruct (lookup y p) as [v|] eqn:E; [|intros [= <- <- <-]; done].
  assert (Ha : apply_scalar lw c p v err =
    scalar_bool c p v err (fun iv => c <| egress_tls_insecure := iv |>)).
  { apply one_of_In in Hp. destruct Hp as [<-|[<-|[]]]; reflexivity. }
  rewrite Ha. unfold scalar_bool. destruct (parse_bool v) as [b|]; cbn.
  - intros [= <- <- <-]. done.
  - intros [= <- <- <-]. done.
Qed.

Lemma load_split lw y p1 p2 c err c' err' :
  load_scalars lw y (p1 ++ p2) c err = (0%Z, c', err') ->
  exists c1 e1, load_scalars lw y p1 c err = (0%Z, c1, e1) /\
    load_scalars lw y p2 c1 e1 = (0%Z, c', err').
Proof.
  rewrite load_scalars_app. destruct (load_scalars lw y p1 c err) as [[rc c1] e1].
  destruct (rc =? 0)%Z eqn:E; [|intros [= -> -> ->]; done].
  apply Z.eqb_eq in E as ->. eauto.
Qed.

(** A successfully loaded document leaves certificate checking in the state
    its own keys ask for, whatever the order of the keys in the document: an
    explicit egress.insecure (or else egress.tls_insecure) decides; without one,
    the presence of a CA file turns verification on, and its absence leaves the
    insecure default. *)
Theorem load_tls_precedence lw y err c' err' :
  load_from_ctx lw y cpe_agent_config_defaults err = (0%Z, c', err') ->
  egress_tls_insecure c' = tls_setting y.
Proof.
  unfold load_from_ctx. destruct (first_yaml_error (yaml_events y)); [done|].
  change g_paths with (take 33 g_paths ++ ["egress.ca_file"%string] ++ ["tls_ca_file"%string] ++
    take 4 (drop 35 g_paths) ++ ["egress.tls_insecure"%string] ++ ["egress.insecure"%string] ++
    drop 41 g_paths).
  intros (c1 & e1 & H1 & H)%load_split. apply load_scalars_keeps_insecure in H1; [|reflexivity].
  apply load_split in H as (c2 & e2 & H2 & H). eapply ca_key_step in H2; [|reflexivity..].
  apply load_split in H as (c3 & e3 & H3 & H). eapply ca_key_step in H3; [|reflexivity..].
  apply load_split in H as (c4 & e4 & H4 & H). apply load_scalars_keeps_insecure in H4; [|reflexivity].
  apply load_split in H as (c5 & e5 & H5 & H). eapply insecure_key_step in H5; [|reflexivity..].
  apply load_split in H as (c6 & e6 & H6 & H). eapply insecure_key_step in H6; [|reflexivity..].
  apply load_scalars_keeps_insecure in H; [|reflexivity].
  unfold tls_setting, tls_explicit. rewrite H. clear H.
  change (egress_tls_insecure cpe_agent_config_defaults) with 1%Z in H1.
  destruct (lookup y "egress.insecure"), (lookup y "egress.tls_insecure"),
    (lookup y "egress.ca_file"), (lookup y "tls_ca_file");
    repeat match goal with H : parse_bool _ = _ |- _ => rewrite H end; congruence.
Qed.

Definition sample_yaml (kvs : list (string * string)) : yaml_parse := {|
  yaml_created := true; yaml_consumed := 1; yaml_events := [None; None];
  yaml_lookup_scalar := fun k =>
    match find (fun kv => streq (fst kv) k) kvs with Some kv => Some (snd kv) | None => None end |}.

Lemma load_tls_precedence_witness :
  let y := sample_yaml [("egress.tls_insecure", "yes"); ("egress.ca_file", "/etc/ca.pem")]%string in
  let r := load_from_ctx 64 y cpe_agent_config_defaults None in
  r.1.1 = 0%Z /\ egress_tls_insecure r.1.2 = 1%Z.
Proof.
  intros y r. split; [vm_compute; reflexivity|].
  refine (eq_trans (load_tls_precedence 64 y None r.1.2 r.2 _) _); vm_compute; reflexivity.
Defined.

Lemma load_buf_wf lw yaml text err rc c err' :
  (0 < lw <= 64)%Z ->
  cpe_agent_config_load_yaml_buf lw yaml text err = (rc, c, err') -> config_wf c.
Proof.
  intros Hlw. unfold cpe_agent_config_load_yaml_buf, load_from_ctx.
  generalize defaults_wf. generalize cpe_agent_config_defaults as d. intros d Hd.
  destruct text as [t|]; [|intros [= <- <- <-]; exact Hd].
  destruct (strlen t =? 0); [intros [= <- <- <-]; exact Hd|].
  destruct (negb _); [intros [= <- <- <-]; exact Hd|].
  destruct (yaml_consumed _ =? 0); [intros [= <- <- <-]; exact Hd|].
  destruct (first_yaml_error _); [intros [= <- <- <-]; exact Hd|].
  by apply load_scalars_wf.
Qed.

(** C38: The loader only ever builds well-formed configurations: whatever the
    document, every string field fits its C buffer and every number its integer
    type (the prefix length at most 32), on the error paths too. *)
Theorem load_yaml_buf_wf lw yaml text err rc c err' :
  (0 < lw <= 64)%Z ->
  cpe_agent_config_load_yaml_buf lw yaml text err = (rc, c, err') -> config_wf c.
Proof. exact (load_buf_wf lw yaml text err rc c err'). Qed.

Lemma load_yaml_buf_wf_witness :
  let yaml := fun _ => sample_yaml [("tcp_stats.prefix_len", "16"); ("iface", "br-lan")]%string in
  let r := cpe_agent_config_load_yaml_buf 64 yaml (Some "x"%string) None in
  tcp_prefix_len r.1.2 = 16%Z /\ config_wf r.1.2.
Proof.
  intros yaml r. split; [vm_compute; reflexivity|].
  refine (load_yaml_buf_wf 64 yaml (Some "x"%string) None 0%Z r.1.2 None _ _); [lia|].
  vm_compute. reflexivity.
Defined.

(** What a valid configuration is. *)
Record config_valid (c : cpe_agent_config) : Prop := {
  valid_router : router_id c <> EmptyString;
  valid_mode : In (emit_mode c) ["stdout"; "spool"; "http"; "https"]%string;
  valid_spool : emit_mode c = "spool"%string -> spool_path c <> EmptyString;
  valid_url : emit_mode c = "http"%string \/ emit_mode c = "https"%string ->
    https_url c <> EmptyString;
  valid_lines : (1 <= spool_max_lines c <= 1024)%Z;
  valid_interval : demo_interval_ms c <> 0%Z \/ sample_interval_ms c <> 0%Z;
  valid_target : demo_target c <> EmptyString;
}.

Lemma nonempty_false s : negb (nonempty s) = true <-> s = EmptyString.
Proof. destruct s; simpl; split; congruence. Qed.

Lemma validate_cases c err :
  (0 <= spool_max_lines c)%Z ->
  (fst (cpe_agent_config_validate (Some c) err) = 0%Z <-> config_valid c) /\
  (fst (cpe_agent_config_validate (Some c) err) <> 0%Z ->
    fst (cpe_agent_config_validate (Some c) err) = (-1)%Z /\
    forall n, err = Some (n, EmptyString) -> 1 < n ->
      err_text (snd (cpe_agent_config_validate (Some c) err)) <> EmptyString).
Proof.
  intros Hl. unfold cpe_agent_config_validate, CPE_SPOOL_MAX_LINES_HARD.
  assert (Herr : forall m, m <> EmptyString -> forall n, err = Some (n, EmptyString) -> 1 < n ->
    err_text (err_set err m) <> EmptyString).
  { intros m Hm n -> Hn. destruct n as [|[|n]]; [lia..|]. destruct m; [done|].
    unfold err_text, err_set, snprintf_s. simpl. congruence. }
  destruct (negb (nonempty (router_id c))) eqn:E1; simpl.
  { apply nonempty_false in E1. split; [split; [done|intros []; done]|].
    intros _. split; [done|]. by apply Herr. }
  assert (Hm : forall a, streq (emit_mode c) a = true <-> emit_mode c = a) by (intros; apply streq_true).
  destruct (negb (streq (emit_mode c) "stdout") && _ && _ && _) eqn:E2; simpl.
  { rewrite !andb_true_iff, !negb_true_iff, !streq_false in E2.
    split; [split; [done|intros [? Hin]; simpl in Hin; intuition congruence]|].
    intros _. split; [done|]. by apply Herr. }
  destruct (streq (emit_mode c) "spool" && _) eqn:E3; simpl.
  { apply andb_true_iff in E3 as [E3%streq_true E3'%nonempty_false].
    split; [split; [done|intros []; intuition congruence]|].
    intros _. split; [done|]. by apply Herr. }
  destruct ((streq (emit_mode c) "http" || _) && _) eqn:E4; simpl.
  { apply andb_true_iff in E4 as [E4 E4'%nonempty_false].
    rewrite orb_true_iff, !streq_true in E4.
    split; [split; [done|intros []; intuition congruence]|].
    intros _. split; [done|]. by apply Herr. }
  destruct (spool_max_lines c =? 0)%Z eqn:E5; simpl.
  { split; [split; [done|intros []; lia]|]. intros _. split; [done|]. by apply Herr. }
  destruct (1024 <? spool_max_lines c)%Z eqn:E6; simpl.
  { split; [split; [done|intros []; lia]|]. intros _. split; [done|]. by apply Herr. }
  destruct ((demo_interval_ms c =? 0)%Z && _) eqn:E7; simpl.
  { split; [split; [done|intros []; lia]|]. intros _. split; [done|]. by apply Herr. }
  destruct (negb (nonempty (demo_target c))) eqn:E8; simpl.
  { apply nonempty_false in E8. split; [split; [done|intros []; done]|].
    intros _. split; [done|]. by apply Herr. }
  split; [split; [intros _|done]|done].
  constructor; try lia.
  - intros E. apply nonempty_false in E. congruence.
  - rewrite !andb_false_iff, !negb_false_iff, !streq_true in E2. simpl. intuition congruence.
  - intros E. rewrite E in E3. intros E'%nonempty_false. rewrite E' in E3. done.
  - intros E. rewrite andb_false_iff, orb_false_iff, !streq_false in E4.
    intros E'%nonempty_false. intuition congruence.
  - intros E. apply nonempty_false in E. congruence.
Qed.

(** Validation accepts exactly the valid configurations: a router id, one of
    the four emit modes with what that mode needs, a ring of 1 to 1024 lines, a
    sample period and a probe target; any other configuration gets -1 and, when
    the caller gave a buffer, a message. *)
Theorem validate_spec c err :
  (0 <= spool_max_lines c)%Z ->
  (fst (cpe_agent_config_validate (Some c) err) = 0%Z <-> config_valid c) /\
  (fst (cpe_agent_config_validate (Some c) err) <> 0%Z ->
    fst (cpe_agent_config_validate (Some c) err) = (-1)%Z /\
    forall n, err = Some (n, EmptyString) -> 1 < n ->
      err_text (snd (cpe_agent_config_validate (Some c) err)) <> EmptyString).
Proof. exact (validate_cases c err). Qed.

Lemma validate_spec_witness :
  fst (cpe_agent_config_validate (Some cpe_agent_config_defaults) None) = 0%Z /\
  config_valid cpe_agent_config_defaults.
Proof.
  split; [reflexivity|].
  destruct (validate_spec cpe_agent_config_defaults None) as [[H _] _]; [vm_compute; congruence|].
  apply H. reflexivity.
Defined.

(** [parse_u32] on a printed decimal number, for both widths of [unsigned
    long] the repository is built for: numbers below 2^32 are read back exactly;
    larger ones are refused where [unsigned long] has 64 bits, but where it has
    32 bits [strtoul] saturates and the loader silently takes 4294967295. *)
Theorem parse_u32_by_width lw n :
  (0 <= n)%Z -> lw = 64%Z \/ lw = 32%Z ->
  parse_u32 lw (fmt_u n) =
    if (n <? 4294967296)%Z then Some n
    else if (lw =? 32)%Z then Some 4294967295%Z else None.
Proof.
  intros Hn Hlw. unfold parse_u32. rewrite strtoul_fmt_u by done. cbn [nonempty orb].
  destruct Hlw as [-> | ->].
  - change (64 =? 32)%Z with false. change (2 ^ 64 - 1)%Z with 18446744073709551615%Z.
    destruct (Z.ltb_spec n 4294967296), (Z.ltb_spec 18446744073709551615 n); try lia.
    + destruct (Z.ltb_spec 4294967295 n); [lia|]. by rewrite u32_id by word_lia.
    + destruct (Z.ltb_spec 4294967295 18446744073709551615); [done|lia].
    + destruct (Z.ltb_spec 4294967295 n); [done|lia].
  - change (32 =? 32)%Z with true. change (2 ^ 32 - 1)%Z with 4294967295%Z.
    destruct (Z.ltb_spec n 4294967296), (Z.ltb_spec 4294967295 n); try lia.
    + destruct (Z.ltb_spec 4294967295 n); [lia|]. by rewrite u32_id by word_lia.
    + destruct (Z.ltb_spec 4294967295 4294967295); [lia|]. by rewrite u32_id by word_lia.
Qed.

Lemma parse_u32_by_width_witness :
  parse_u32 64 (fmt_u 99999999999) = None /\ parse_u32 32 (fmt_u 99999999999) = Some 4294967295%Z.
Proof.
  split; [apply (parse_u32_by_width 64); lia|apply (parse_u32_by_width 32); lia].
Defined.

(** Doubling reaches the need without wrapping, within the fuel. *)
Lemma grow_cap_spec lw fuel ncap need :
  (0 < lw)%Z -> (0 < ncap)%Z -> (need <= 2 ^ (lw - 1))%Z -> (need <= ncap * 2 ^ Z.of_nat fuel)%Z ->
  exists r, grow_cap lw fuel ncap need = Some r /\ (need <= r)%Z /\ (0 < r)%Z.
Proof.
  intros Hlw. revert ncap. induction fuel as [|f IH]; intros ncap Hc Hn Hf; simpl.
  - destruct (ncap <? need)%Z eqn:E; [simpl in Hf; lia|]. exists ncap. split; [done|lia].
  - destruct (ncap <? need)%Z eqn:E; [|exists ncap; split; [done|lia]].
    assert (Hp : (2 ^ lw = 2 * 2 ^ (lw - 1))%Z).
    { rewrite <- Z.pow_succ_r by lia. f_equal. lia. }
    rewrite Z.mod_small by lia. apply IH; [lia..|].
    rewrite Nat2Z.inj_succ, Z.pow_succ_r in Hf by lia. lia.
Qed.

(** The buffer's next size holds what is read. *)
Lemma grown_cap_spec lw cap need :
  (14 <= lw)%Z -> (0 <= cap < need)%Z -> (need <= 2 ^ (lw - 1))%Z ->
  exists r, grow_cap lw (Z.to_nat lw) (if (cap =? 0)%Z then 8192 else (cap * 2) mod 2 ^ lw)%Z need = Some r /\ (need <= r)%Z /\ (0 < r)%Z.
Proof.
  intros Hlw Hc Hn. set (first := (if (cap =? 0)%Z then 8192 else (cap * 2) mod 2 ^ lw)%Z).
  assert (Hp : (2 ^ lw = 2 * 2 ^ (lw - 1))%Z) by (rewrite <- Z.pow_succ_r by lia; f_equal; lia).
  assert (Hf : (1 <= first)%Z).
  { subst first. destruct (Z.eqb_spec cap 0); [lia|]. rewrite Z.mod_small by lia. lia. }
  destruct (grow_cap_spec lw (Z.to_nat lw) first need) as (r & Hr & Hge & Hpos); [lia..| |].
  - assert (2 ^ (lw - 1) <= 2 ^ Z.of_nat (Z.to_nat lw))%Z by (apply Z.pow_le_mono_r; lia). nia.
  - exists r. by split.
Qed.
Lemma read_loop_spec lw chunks buf cap :
  (14 <= lw)%Z -> (0 <= cap)%Z ->
  let have := match buf with Some s => s | None => EmptyString end in
  (cap = 0%Z <-> buf = None) ->
  (forall s, buf = Some s -> (Z.of_nat (strlen s) + 1 <= cap)%Z) ->
  (Z.of_nat (strlen have + strlen (concat_str chunks)) + 1 <= 2 ^ (lw - 1))%Z ->
  exists cap', read_loop lw (fun _ => true) chunks buf cap =
      ReadDone (match chunks with [] => buf | _ => Some (have +:+ concat_str chunks) end) cap' /\
    (chunks <> [] -> (Z.of_nat (strlen have + strlen (concat_str chunks)) + 1 <= cap')%Z).
Proof.
  intros Hlw. revert buf cap. induction chunks as [|ch chunks IH]; intros buf cap Hc have H0 Hb Ht.
  { exists cap. split; [done|done]. }
  cbn [read_loop concat_str] in *.
  rewrite strlen_app in Ht.
  assert (Hhave : (match buf with Some s => Z.of_nat (strlen s) | None => 0 end)%Z
    = Z.of_nat (strlen have)) by (subst have; by destruct buf).
  assert (Happ : match buf with Some s => s +:+ ch | None => ch end = have +:+ ch)
    by (subst have; by destruct buf).
  rewrite Hhave, Happ.
  assert (Hnext : forall cap1, (0 < cap1)%Z -> (Z.of_nat (strlen have + strlen ch) + 1 <= cap1)%Z ->
    exists cap', read_loop lw (fun _ => true) chunks (Some (have +:+ ch)) cap1 =
      ReadDone (Some (have +:+ (ch +:+ concat_str chunks))) cap' /\
      (Z.of_nat (strlen have + strlen (ch +:+ concat_str chunks)) + 1 <= cap')%Z).
  { intros cap1 Hpos Hfit.
    destruct (IH (Some (have +:+ ch)) cap1) as (cap' & Hr & Hf); [lia|split; [lia|done]| | |].
    - intros s [= <-]. rewrite strlen_app. lia.
    - rewrite strlen_app. lia.
    - destruct chunks as [|ch2 chunks].
      + cbn in Hr. injection Hr as <-. exists cap1. split.
        * cbn. by rewrite str_app_nil_r.
        * cbn. rewrite str_app_nil_r. lia.
      + exists cap'. rewrite Hr, str_app_assoc. split; [done|].
        specialize (Hf ltac:(done)). rewrite !strlen_app in *. lia. }
  destruct (cap <? _)%Z eqn:E.
  - destruct (grown_cap_spec lw cap (Z.of_nat (strlen have) + Z.of_nat (strlen ch) + 1)) as (r & Hr & Hge & Hpos); [lia..|].
    rewrite Hr. destruct (Hnext r) as (cap' & Hrr & Hf); [lia|lia|]. exists cap'. split; [exact Hrr|intros _; exact Hf].
  - destruct (Hnext cap) as (cap' & Hrr & Hf); [|lia|].
    + destruct (decide (cap = 0)%Z); [subst; lia|lia].
    + exists cap'. split; [exact Hrr|intros _; exact Hf].
Qed.

(** Reading a configuration file: with memory available, the doubling buffer
    always grows enough (the doubling loop ends, no [size_t] wrap), holds the
    chunks in order, and keeps room for the terminating NUL the loader writes
    after the last byte. *)
Theorem read_loop_complete lw chunks :
  (14 <= lw)%Z -> chunks <> [] ->
  (Z.of_nat (strlen (concat_str chunks)) + 1 <= 2 ^ (lw - 1))%Z ->
  exists cap, read_loop lw (fun _ => true) chunks None 0 = ReadDone (Some (concat_str chunks)) cap /\
    (Z.of_nat (strlen (concat_str chunks)) < cap)%Z.
Proof.
  intros Hlw Hne Ht.
  destruct (read_loop_spec lw chunks None 0) as (cap & Hr & Hf); [done|lia|done|done|done|].
  exists cap. rewrite Hr. destruct chunks; [done|]. split; [done|]. specialize (Hf Hne).
  simpl in *. lia.
Qed.

Lemma read_loop_complete_witness :
  exists cap, read_loop 64 (fun _ => true) ["router_id: "; "cpe-7"]%string None 0 =
      ReadDone (Some "router_id: cpe-7"%string) cap /\ (16 < cap)%Z.
Proof.
  destruct (read_loop_complete 64 ["router_id: "; "cpe-7"]%string) as (cap & Hr & Hc);
    [lia|done|vm_compute; congruence|].
  exists cap. split; [exact Hr|exact Hc].
Defined.
