(* ===== verification/Spool.v ===== *)
(** * Event queue and line spool (src/agent/agent_core.c)

    The two circular buffers of the agent with their operations: the 16-entry
    event queue that drops the newest event when full, and the NDJSON spool that
    drops the oldest line when full.  Both are proved to implement bounded
    queues; other components only see the spool through [LineSink]. *)

From S2P Require Import Prelude CStr Ring HostAlloc.

Definition CPE_EVENT_Q := 16.
Definition CPE_NDJSON_LINE_MAX := 768.
Definition CPE_SPOOL_LINE := CPE_NDJSON_LINE_MAX.
Definition CPE_NEED_SLOTS := 4.

(** ** Events *)
Inductive cpe_agent_event_type :=
  | CPE_AGENT_EVENT_NONE
  | CPE_AGENT_EVENT_CONFIG_APPLIED
  | CPE_AGENT_EVENT_CONFIG_REJECTED
  | CPE_AGENT_EVENT_NEED_ALLOC
  | CPE_AGENT_EVENT_SAMPLE_READY
  | CPE_AGENT_EVENT_SPOOL_DROP.

#[export] Instance event_type_eq_dec : EqDecision cpe_agent_event_type.
Proof. solve_decision. Defined.

(** The C enumeration value. *)
Definition event_type_code (t : cpe_agent_event_type) : Z :=
  match t with
  | CPE_AGENT_EVENT_NONE => 0
  | CPE_AGENT_EVENT_CONFIG_APPLIED => 1
  | CPE_AGENT_EVENT_CONFIG_REJECTED => 2
  | CPE_AGENT_EVENT_NEED_ALLOC => 3
  | CPE_AGENT_EVENT_SAMPLE_READY => 4
  | CPE_AGENT_EVENT_SPOOL_DROP => 5
  end.

(** [cpe_agent_event_type_name] takes the integer, so it has a default case. *)
Definition cpe_agent_event_type_name (t : Z) : string :=
  (if t =? 0 then "NONE"
   else if t =? 1 then "CONFIG_APPLIED"
   else if t =? 2 then "CONFIG_REJECTED"
   else if t =? 3 then "NEED_ALLOC"
   else if t =? 4 then "SAMPLE_READY"
   else if t =? 5 then "SPOOL_DROP"
   else "UNKNOWN")%Z.

Record cpe_agent_event := {
  ev_type : cpe_agent_event_type;
  ev_reason : string;        (* char reason[128] *)
  ev_need_bytes : Z;
  ev_slot : Z;
}.
Definition event_zero : cpe_agent_event :=
  {| ev_type := CPE_AGENT_EVENT_NONE; ev_reason := EmptyString; ev_need_bytes := 0; ev_slot := 0 |}.
#[export] Instance event_inhabited : Inhabited cpe_agent_event := populate event_zero.

Record cpe_buf_slot := {
  slot_used : Z;
  slot_ptr : option addr;
  slot_len : Z;
  slot_need : Z;
  slot_waiting : Z;
}.
#[export] Instance eta_buf_slot : Eta cpe_buf_slot := fun s => {|
  slot_used := slot_used s; slot_ptr := slot_ptr s; slot_len := slot_len s;
  slot_need := slot_need s; slot_waiting := slot_waiting s |}.
Definition slot_zero : cpe_buf_slot :=
  {| slot_used := 0; slot_ptr := None; slot_len := 0; slot_need := 0; slot_waiting := 0 |}.
#[export] Instance slot_inhabited : Inhabited cpe_buf_slot := populate slot_zero.

(** ** The queue fields of [struct cpe_agent].  [spool] is the pointer with the
    lines behind it, [None] when NULL. *)
Record queues := {
  eq_buf : list cpe_agent_event;
  eq_head : nat;
  eq_tail : nat;
  eq_cnt : nat;
  spool : option (addr * list string);
  spool_cap : nat;
  spool_head : nat;
  spool_tail : nat;
  spool_cnt : nat;
  spool_drops : Z;
  slots : list cpe_buf_slot;
}.
#[export] Instance eta_queues : Eta queues := fun q => {|
  eq_buf := eq_buf q; eq_head := eq_head q; eq_tail := eq_tail q; eq_cnt := eq_cnt q;
  spool := spool q; spool_cap := spool_cap q; spool_head := spool_head q;
  spool_tail := spool_tail q; spool_cnt := spool_cnt q; spool_drops := spool_drops q;
  slots := slots q |}.

(** The state [calloc] leaves: all fields zero. *)
Definition queues_zero : queues := {|
  eq_buf := replicate CPE_EVENT_Q event_zero; eq_head := 0; eq_tail := 0; eq_cnt := 0;
  spool := None; spool_cap := 0; spool_head := 0; spool_tail := 0; spool_cnt := 0;
  spool_drops := 0; slots := replicate CPE_NEED_SLOTS slot_zero |}.

Definition eq_push (q : queues) (type : cpe_agent_event_type) (reason : option string)
    (need_bytes slot : Z) : Z * queues :=
  if CPE_EVENT_Q <=? eq_cnt q then ((-1)%Z, q)
  else
    let e := {| ev_type := type;
                ev_reason := match reason with Some r => snprintf_s 128 r | None => EmptyString end;
                ev_need_bytes := need_bytes; ev_slot := slot |} in
    (0%Z, q <| eq_buf := <[eq_tail q := e]> (eq_buf q) |>
            <| eq_tail := (eq_tail q + 1) `mod` CPE_EVENT_Q |>
            <| eq_cnt := S (eq_cnt q) |>).

(** [cpe_agent_next_event]: 1 and the event, or 0. *)
Definition cpe_agent_next_event (q : queues) : Z * option cpe_agent_event * queues :=
  if eq_cnt q =? 0 then (0%Z, None, q)
  else (1%Z, Some (eq_buf q !!! eq_head q),
        q <| eq_head := (eq_head q + 1) `mod` CPE_EVENT_Q |> <| eq_cnt := eq_cnt q - 1 |>).

(** ** Allocation of the spool *)
Definition free_spool (q : queues) (h : alloc_stats) : queues * alloc_stats :=
  let h' := cpe_host_free (fst <$> spool q) h in
  (q <| spool := None |> <| spool_cap := 0 |> <| spool_head := 0 |>
     <| spool_tail := 0 |> <| spool_cnt := 0 |>, h').

(** The allocation half of [ensure_spool]: [calloc] returns zeroed memory, that is
    empty lines. *)
Definition spool_alloc (calloc : Z -> option addr) (q : queues) (h : alloc_stats) (cap : nat)
    : Z * queues * alloc_stats :=
  let bytes := u64 (Z.of_nat cap * Z.of_nat CPE_SPOOL_LINE) in
  match cpe_host_alloc calloc bytes h with
  | (None, h') =>
      ((-1)%Z, snd (eq_push q CPE_AGENT_EVENT_NEED_ALLOC (Some "spool"%string) bytes 0), h')
  | (Some nb, h') =>
      (0%Z, q <| spool := Some (nb, replicate cap EmptyString) |> <| spool_cap := cap |>
              <| slots := <[0 := (slots q !!! 0) <| slot_used := 1%Z |>
                   <| slot_ptr := Some nb |> <| slot_len := bytes |>
                   <| slot_waiting := 0%Z |> ]> (slots q) |>, h')
  end.

Definition ensure_spool (calloc : Z -> option addr) (q : queues) (h : alloc_stats) (cap : nat)
    : Z * queues * alloc_stats :=
  let cap := if cap =? 0 then 256 else cap in
  if (match spool q with Some _ => true | None => false end) && (spool_cap q =? cap)
  then (0%Z, q, h)
  else let '(q1, h1) := free_spool q h in spool_alloc calloc q1 h1 cap.

(** [cpe_agent_provide_buffer]; [mem] are the lines the caller's memory holds. *)
Definition cpe_agent_provide_buffer (q : queues) (slot : Z) (ptr : option addr) (len : Z)
    (mem : list string) : Z * queues :=
  match ptr with
  | None => ((-1)%Z, q)
  | Some p =>
      if (Z.of_nat CPE_NEED_SLOTS <=? slot)%Z || (len =? 0)%Z then ((-1)%Z, q)
      else
        let i := Z.to_nat slot in
        let sl := slots q !!! i in
        if negb (truthy (slot_waiting sl)) then ((-1)%Z, q)
        else
          let q1 := q <| slots := <[i := sl <| slot_ptr := Some p |> <| slot_len := len |>
                                        <| slot_used := 1%Z |> <| slot_waiting := 0%Z |> ]> (slots q) |> in
          if (slot =? 0)%Z then
            let q2 := q1 <| spool := Some (p, mem) |>
                         <| spool_cap := Z.to_nat (len / Z.of_nat CPE_SPOOL_LINE) |> in
            if spool_cap q2 =? 0 then ((-1)%Z, q2) else (0%Z, q2)
          else (0%Z, q1)
  end.

(** ** Spool operations *)
Definition cpe_agent_spool_push_line (q : queues) (line : string) : Z * queues :=
  match spool q with
  | None => ((-1)%Z, q)
  | Some (p, buf) =>
      if spool_cap q =? 0 then ((-1)%Z, q)
      else
        let n := if CPE_SPOOL_LINE <=? strlen line then CPE_SPOOL_LINE - 1 else strlen line in
        let q1 :=
          if spool_cap q <=? spool_cnt q then
            (* drop oldest *)
            snd (eq_push (q <| spool_head := (spool_head q + 1) `mod` spool_cap q |>
                            <| spool_cnt := spool_cnt q - 1 |>
                            <| spool_drops := u64 (spool_drops q + 1) |>)
                   CPE_AGENT_EVENT_SPOOL_DROP (Some "full"%string) 0 0)
          else q in
        (0%Z, q1 <| spool := Some (p, <[spool_tail q1 := str_take n line]> buf) |>
                 <| spool_tail := (spool_tail q1 + 1) `mod` spool_cap q1 |>
                 <| spool_cnt := S (spool_cnt q1) |>)
  end.

Definition cpe_agent_spool_depth (q : queues) : nat := spool_cnt q.
Definition cpe_agent_spool_drops (q : queues) : Z := spool_drops q.

(** The stored line at an index of the ring. *)
Definition spool_line (q : queues) (i : nat) : string :=
  match spool q with Some (_, buf) => buf !!! i | None => EmptyString end.

Definition newline : string := String (Ascii.ascii_of_nat 10) EmptyString.

(** [cpe_agent_spool_flush]: [fprintf_ok k] says whether the [k]-th print of the
    call succeeds, [fflush_ok] whether the final flush does.  Besides the return
    value it yields what was printed. *)
Fixpoint flush_loop (fprintf_ok : nat -> bool) (fuel : nat) (k : nat) (q : queues)
    (out : list string) : option nat * queues * list string :=
  if spool_cnt q =? 0 then (Some k, q, out)
  else match fuel with
  | O => (None, q, out)
  | S f =>
      if fprintf_ok k then
        flush_loop fprintf_ok f (S k)
          (q <| spool_head := (spool_head q + 1) `mod` spool_cap q |>
             <| spool_cnt := spool_cnt q - 1 |>)
          (out ++ [spool_line q (spool_head q) +:+ newline])
      else (None, q, out)
  end.
Definition cpe_agent_spool_flush (fprintf_ok : nat -> bool) (fflush_ok : bool) (q : queues)
    : Z * queues * list string :=
  match spool q with
  | None => ((-1)%Z, q, [])
  | Some _ =>
      match flush_loop fprintf_ok (spool_cnt q) 0 q [] with
      | (None, q', out) => ((-1)%Z, q', out)
      | (Some written, q', out) =>
          if fflush_ok then (Z.of_nat written, q', out) else ((-1)%Z, q', out)
      end
  end.

(** The batch of the HTTP branch of [cpe_agent_emit_flush]: as many pending lines
    as fit the [8 * 768] byte body, from the head, without removing them. *)
Definition BODY_SIZE := 8 * CPE_NDJSON_LINE_MAX.
Fixpoint batch_loop (fuel : nat) (q : queues) (i : nat) (body : string) (n : nat) : string * nat :=
  match fuel with
  | O => (body, n)
  | S f =>
      if (i <? spool_cnt q) && (strlen body + CPE_NDJSON_LINE_MAX <? BODY_SIZE) then
        let idx := (spool_head q + i) `mod` spool_cap q in
        let l := spool_line q idx in
        if BODY_SIZE <=? strlen body + strlen l + 2 then (body, n)
        else batch_loop f q (S i) (body +:+ l +:+ newline) (S n)
      else (body, n)
  end.
Definition http_batch (q : queues) : string * nat := batch_loop (spool_cnt q) q 0 EmptyString 0.

(** After a successful POST of [n] lines. *)
Definition drop_sent (q : queues) (n : nat) : queues :=
  q <| spool_head := (spool_head q + n) `mod` spool_cap q |> <| spool_cnt := spool_cnt q - n |>.

(** ** Abstract view and invariant *)
Definition events (q : queues) : list cpe_agent_event := ring_view (eq_buf q) (eq_head q) (eq_cnt q).
Definition spool_lines (q : queues) : list string :=
  match spool q with Some (_, buf) => buf | None => [] end.
Definition pending (q : queues) : list string :=
  ring_view (spool_lines q) (spool_head q) (spool_cnt q).

(** What a line becomes when stored. *)
Definition stored (line : string) : string := str_take (CPE_SPOOL_LINE - 1) line.

Record queues_wf (q : queues) : Prop := {
  wf_eq_len : length (eq_buf q) = CPE_EVENT_Q;
  wf_eq : ring_wf (eq_buf q) (eq_head q) (eq_tail q) (eq_cnt q);
  wf_spool_len : length (spool_lines q) = spool_cap q;
  wf_spool : spool q <> None ->
    ring_wf (spool_lines q) (spool_head q) (spool_tail q) (spool_cnt q);
  wf_spool_none : spool q = None -> spool_cnt q = 0;
  wf_line_len : Forall (fun l => strlen l < CPE_SPOOL_LINE) (spool_lines q);
  wf_drops : in_u64 (spool_drops q);
  wf_slots_len : length (slots q) = CPE_NEED_SLOTS;
}.

(** ** The event queue *)
Lemma queues_zero_wf : queues_wf queues_zero.
Proof.
  constructor; try done. constructor; simpl; lia.
Qed.

Definition mk_event type reason need_bytes slot : cpe_agent_event :=
  {| ev_type := type;
     ev_reason := match reason with Some r => snprintf_s 128 r | None => EmptyString end;
     ev_need_bytes := need_bytes; ev_slot := slot |}.

(** Only the event fields of [q] may differ in [q']. *)
Definition same_spool (q q' : queues) : Prop :=
  spool q' = spool q /\ spool_cap q' = spool_cap q /\ spool_head q' = spool_head q /\
  spool_tail q' = spool_tail q /\ spool_cnt q' = spool_cnt q /\
  spool_drops q' = spool_drops q /\ slots q' = slots q.

Lemma same_spool_refl q : same_spool q q.
Proof. by repeat split. Qed.
Lemma same_spool_pending q q' : same_spool q q' -> pending q' = pending q.
Proof. unfold pending, spool_lines. by intros (-> & _ & -> & _ & -> & _). Qed.

Lemma eq_push_same_spool q t r nb s : same_spool q (snd (eq_push q t r nb s)).
Proof. unfold eq_push. destruct (_ <=? _); by repeat split. Qed.

Lemma queues_wf_same_spool q q' :
  queues_wf q -> same_spool q q' -> length (eq_buf q') = CPE_EVENT_Q ->
  ring_wf (eq_buf q') (eq_head q') (eq_tail q') (eq_cnt q') -> queues_wf q'.
Proof.
  intros [] (E1 & E2 & E3 & E4 & E5 & E6 & E7) Hl Hr.
  constructor; unfold spool_lines in *; rewrite ?E1, ?E2, ?E3, ?E4, ?E5, ?E6, ?E7; auto.
Qed.

Lemma length_events q : length (events q) = eq_cnt q.
Proof. apply length_ring_view. Qed.

Lemma eq_push_spec q t r nb s :
  queues_wf q ->
  let '(rc, q') := eq_push q t r nb s in
  queues_wf q' /\ same_spool q q' /\
  events q' = (if CPE_EVENT_Q <=? length (events q) then events q
               else events q ++ [mk_event t r nb s]) /\
  rc = (if CPE_EVENT_Q <=? length (events q) then (-1)%Z else 0%Z).
Proof.
  intros Hwf. unfold eq_push. rewrite length_events.
  destruct (CPE_EVENT_Q <=? eq_cnt q) eqn:E.
  { split; [done|]. split; [apply same_spool_refl|done]. }
  apply Nat.leb_gt in E. pose proof (wf_eq_len _ Hwf) as Hl. rewrite <- Hl in E.
  assert (Hr := ring_wf_push _ _ _ _ (mk_event t r nb s) (wf_eq _ Hwf) E).
  rewrite Hl in Hr.
  split; [|split; [by repeat split|split; [|done]]].
  - eapply queues_wf_same_spool; [exact Hwf|by repeat split|cbn; by rewrite length_insert|exact Hr].
  - unfold events. cbn. apply ring_view_push; [apply Hwf|done].
Qed.

Lemma eq_push_wf q t r nb s : queues_wf q -> queues_wf (snd (eq_push q t r nb s)).
Proof.
  intros Hwf. pose proof (eq_push_spec q t r nb s Hwf) as H.
  destruct (eq_push q t r nb s). apply H.
Qed.
#[export] Hint Resolve eq_push_wf queues_zero_wf eq_push_same_spool : nf.

Lemma events_bound q : queues_wf q -> length (events q) <= CPE_EVENT_Q.
Proof.
  intros Hwf. unfold events. rewrite length_ring_view, <- (wf_eq_len _ Hwf). apply Hwf.
Qed.

(** The event queue is a bounded FIFO of sixteen events: a push appends the
    event unless the queue is full, in which case the new event is the one lost
    (return -1, nothing changes); a pull returns exactly the oldest event, and 0
    only when there is none. *)
Theorem event_queue_fifo q t r nb s :
  queues_wf q ->
  (let '(rc, q') := eq_push q t r nb s in
   queues_wf q' /\
   (length (events q) < CPE_EVENT_Q -> rc = 0%Z /\ events q' = events q ++ [mk_event t r nb s]) /\
   (length (events q) = CPE_EVENT_Q -> rc = (-1)%Z /\ q' = q)) /\
  (let '(rc, e, q') := cpe_agent_next_event q in
   queues_wf q' /\
   match events q with
   | [] => rc = 0%Z /\ e = None /\ q' = q
   | x :: rest => rc = 1%Z /\ e = Some x /\ events q' = rest
   end).
Proof.
  intros Hwf. split.
  - pose proof (eq_push_spec q t r nb s Hwf) as H.
    destruct (eq_push q t r nb s) as [rc q'] eqn:Ep. destruct H as (Hw & _ & He & Hrc).
    split; [done|]. split; intros Hlen.
    + destruct (_ <=? _) eqn:E; [apply Nat.leb_le in E; lia|]. done.
    + destruct (_ <=? _) eqn:E; [|apply Nat.leb_gt in E; lia]. split; [done|].
      unfold eq_push in Ep. unfold events in Hlen. rewrite length_ring_view in Hlen.
      rewrite Hlen in Ep. simpl in Ep. congruence.
  - unfold cpe_agent_next_event. destruct (eq_cnt q =? 0) eqn:E.
    + apply Nat.eqb_eq in E. split; [done|]. unfold events. rewrite E. done.
    + apply Nat.eqb_neq in E. pose proof (wf_eq_len _ Hwf) as Hl.
      pose proof (ring_wf_drop _ _ _ _ 1 (wf_eq _ Hwf) ltac:(lia)) as Hr.
      rewrite Hl in Hr. split.
      * eapply queues_wf_same_spool; [exact Hwf|by repeat split|done|exact Hr].
      * unfold events. rewrite ring_view_cons by (try apply Hwf; lia).
        rewrite Hl. by repeat split.
Qed.

Lemma event_queue_fifo_witness :
  let q := snd (eq_push queues_zero CPE_AGENT_EVENT_SAMPLE_READY (Some "x"%string) 0 0) in
  let '(rc, e, q') := cpe_agent_next_event q in
  rc = 1%Z /\ e = Some (mk_event CPE_AGENT_EVENT_SAMPLE_READY (Some "x"%string) 0 0) /\ events q' = [].
Proof.
  destruct (event_queue_fifo (snd (eq_push queues_zero CPE_AGENT_EVENT_SAMPLE_READY (Some "x"%string) 0 0))
    CPE_AGENT_EVENT_NONE None 0 0) as [_ H]; [apply eq_push_wf, queues_zero_wf|].
  apply H.
Defined.

(** ** The spool *)
Lemma stored_take line :
  str_take (if CPE_SPOOL_LINE <=? strlen line then CPE_SPOOL_LINE - 1 else strlen line) line
  = stored line.
Proof.
  unfold stored. destruct (_ <=? _) eqn:E; [done|]. apply Nat.leb_gt in E.
  rewrite !str_take_all; [done|unfold CPE_SPOOL_LINE, CPE_NDJSON_LINE_MAX in *; lia|lia].
Qed.
Lemma stored_length line : strlen (stored line) < CPE_SPOOL_LINE.
Proof. unfold stored. rewrite strlen_take. unfold CPE_SPOOL_LINE, CPE_NDJSON_LINE_MAX. lia. Qed.
Lemma stored_short line : strlen line < CPE_SPOOL_LINE -> stored line = line.
Proof. intros. apply str_take_all. lia. Qed.

Lemma length_pending q : length (pending q) = spool_cnt q.
Proof. apply length_ring_view. Qed.
Lemma pending_bound q : queues_wf q -> length (pending q) <= spool_cap q.
Proof.
  intros Hwf. rewrite length_pending. destruct (spool q) eqn:E.
  - rewrite <- (wf_spool_len _ Hwf). apply (wf_spool _ Hwf). congruence.
  - rewrite (wf_spool_none _ Hwf E). lia.
Qed.

(** Writing one line at the tail of a ring with room. *)
Lemma write_line_spec q p buf line :
  queues_wf q -> spool q = Some (p, buf) -> spool_cnt q < spool_cap q ->
  strlen line < CPE_SPOOL_LINE ->
  let q' := q <| spool := Some (p, <[spool_tail q := line]> buf) |>
              <| spool_tail := (spool_tail q + 1) `mod` spool_cap q |>
              <| spool_cnt := S (spool_cnt q) |> in
  queues_wf q' /\ pending q' = pending q ++ [line].
Proof.
  intros Hwf Hs Hlt Hline. pose proof (wf_spool_len _ Hwf) as Hl.
  pose proof (wf_spool _ Hwf ltac:(congruence)) as Hr.
  unfold spool_lines in Hl, Hr. rewrite Hs in Hl, Hr. rewrite <- Hl in Hlt.
  split.
  - destruct Hwf. constructor; unfold spool_lines in *; cbn; try done.
    + by rewrite length_insert.
    + intros _. rewrite <- Hl. by apply ring_wf_push.
    + apply Forall_insert; [|done]. rewrite Hs in *. done.
  - unfold pending, spool_lines. cbn. rewrite Hs. by apply ring_view_push.
Qed.

(** Dropping the [k] oldest lines. *)
Lemma drop_lines_spec q k :
  queues_wf q -> spool q <> None -> k <= spool_cnt q ->
  let q' := q <| spool_head := (spool_head q + k) `mod` spool_cap q |>
              <| spool_cnt := spool_cnt q - k |> in
  queues_wf q' /\ pending q' = drop k (pending q).
Proof.
  intros Hwf Hs Hk. pose proof (wf_spool _ Hwf Hs) as Hr. pose proof (wf_spool_len _ Hwf) as Hl.
  split.
  - destruct Hwf. constructor; cbn; try done.
    intros _. rewrite <- Hl. by apply ring_wf_drop.
  - unfold pending. cbn. unfold spool_lines in *. cbn. rewrite <- Hl. by apply ring_view_drop.
Qed.

(** One push is the push of a bounded drop-oldest queue. *)
Lemma spool_push_spec q line :
  queues_wf q -> spool_cap q <> 0 ->
  let '(rc, q') := cpe_agent_spool_push_line q line in
  rc = 0%Z /\ queues_wf q' /\ spool_cap q' = spool_cap q /\
  pending q' = lastn (spool_cap q) (pending q ++ [stored line]) /\
  spool_drops q' = (if length (pending q) <? spool_cap q then spool_drops q
                    else u64 (spool_drops q + 1)).
Proof.
  intros Hwf Hcap. unfold cpe_agent_spool_push_line.
  destruct (spool q) as [[p buf]|] eqn:Hs.
  2:{ pose proof (wf_spool_len _ Hwf) as Hl. unfold spool_lines in Hl. rewrite Hs in Hl. simpl in Hl. lia. }
  destruct (spool_cap q =? 0) eqn:E0; [apply Nat.eqb_eq in E0; lia|]. clear E0.
  rewrite stored_take. pose proof (pending_bound _ Hwf) as Hb. rewrite length_pending in *.
  destruct (spool_cap q <=? spool_cnt q) eqn:Efull.
  - apply Nat.leb_le in Efull.
    destruct (drop_lines_spec q 1 Hwf ltac:(congruence) ltac:(lia)) as [Hw1 Hp1].
    cbn zeta in *.
    set (q1 := q <| spool_head := (spool_head q + 1) `mod` spool_cap q |>
                 <| spool_cnt := spool_cnt q - 1 |>) in *.
    assert (Hw2 : queues_wf (q1 <| spool_drops := u64 (spool_drops q + 1) |>)).
    { destruct Hw1. constructor; try done. cbn. apply u64_range. }
    set (q2 := q1 <| spool_drops := u64 (spool_drops q + 1) |>) in *.
    pose proof (eq_push_wf q2 CPE_AGENT_EVENT_SPOOL_DROP (Some "full"%string) 0 0 Hw2) as Hw3.
    pose proof (eq_push_same_spool q2 CPE_AGENT_EVENT_SPOOL_DROP (Some "full"%string) 0 0) as Hsame.
    set (q3 := snd (eq_push q2 _ _ _ _)) in *.
    change (snd (eq_push (q1 <| spool_drops := u64 (spool_drops q + 1) |>) _ _ _ _)) with q3.
    pose proof (same_spool_pending _ _ Hsame) as Hp3.
    destruct Hsame as (S1 & S2 & S3 & S4 & S5 & S6 & S7).
    assert (Hs3 : spool q3 = Some (p, buf)) by (rewrite S1; exact Hs).
    destruct (write_line_spec q3 p buf (stored line) Hw3 Hs3) as [Hw4 Hp4].
    { rewrite S2, S5. cbn. lia. }
    { apply stored_length. }
    cbn zeta in Hw4, Hp4. split; [done|]. split; [exact Hw4|]. split; [cbn; rewrite S2; done|].
    split.
    2:{ rewrite (proj2 (Nat.ltb_ge _ _) Efull). exact S6. }
    rewrite Hp4, Hp3. change (pending q2) with (pending q1). rewrite Hp1.
    rewrite lastn_snoc_full by (rewrite ?length_pending; lia).
    by destruct (pending q).
  - apply Nat.leb_gt in Efull.
    destruct (write_line_spec q p buf (stored line) Hwf Hs Efull (stored_length line)) as [Hw Hp].
    cbn zeta in *. split; [done|]. split; [exact Hw|]. split; [done|]. split.
    + rewrite Hp, lastn_all; [done|]. rewrite length_app, length_pending. simpl. lia.
    + by rewrite (proj2 (Nat.ltb_lt _ _) Efull).
Qed.


(** Without a spool, or with one of no lines, nothing is stored. *)
Lemma spool_push_no_cap q line :
  queues_wf q -> spool_cap q = 0 -> cpe_agent_spool_push_line q line = ((-1)%Z, q).
Proof.
  intros Hwf H. unfold cpe_agent_spool_push_line.
  destruct (spool q) as [[p buf]|]; [|done]. by rewrite H.
Qed.

(** ** Creating and resizing the spool *)
Lemma free_spool_wf q h : queues_wf q -> queues_wf (fst (free_spool q h)).
Proof. intros []. constructor; try done. Qed.

Definition has_spool (q : queues) : bool := match spool q with Some _ => true | None => false end.

Lemma ensure_spool_spec calloc q h cap :
  queues_wf q ->
  let '(rc, q', h') := ensure_spool calloc q h cap in
  let cap := if cap =? 0 then 256 else cap in
  queues_wf q' /\ spool_drops q' = spool_drops q /\
  (rc = 0%Z /\ has_spool q' = true /\ spool_cap q' = cap \/
   rc = (-1)%Z /\ has_spool q' = false /\ spool_cap q' = 0) /\
  (has_spool q = true /\ spool_cap q = cap /\ rc = 0%Z /\ q' = q \/
   ~ (has_spool q = true /\ spool_cap q = cap) /\ pending q' = []).
Proof.
  intros Hwf. unfold ensure_spool. set (c := if cap =? 0 then 256 else cap).
  assert (Hc : 0 < c) by (unfold c; destruct (Nat.eqb_spec cap 0); lia).
  change (match spool q with Some _ => true | None => false end) with (has_spool q).
  destruct (has_spool q && (spool_cap q =? c)) eqn:E.
  { apply andb_true_iff in E as [E1 E2]. apply Nat.eqb_eq in E2. split_and!; auto. }
  assert (Hne : ~ (has_spool q = true /\ spool_cap q = c)).
  { intros [E1 E2]. rewrite E1, E2, Nat.eqb_refl in E. done. }
  pose proof (free_spool_wf q h Hwf) as Hf.
  unfold spool_alloc. destruct (free_spool q h) as [q1 h1] eqn:Efree.
  assert (Hq1 : spool q1 = None /\ spool_cap q1 = 0 /\ spool_cnt q1 = 0 /\
    spool_drops q1 = spool_drops q /\ spool_head q1 = 0 /\ spool_tail q1 = 0).
  { unfold free_spool in Efree. by injection Efree as <- <-. }
  destruct Hq1 as (N1 & N2 & N3 & N4 & N5 & N6). simpl in Hf.
  destruct (cpe_host_alloc _ _ _) as [[nb|] h2].
  - split.
    + destruct Hf. constructor; cbn; try done; rewrite ?N3, ?N5, ?N6.
      * by rewrite length_replicate.
      * intros _. constructor; rewrite ?length_replicate; try lia. by rewrite Nat.Div0.mod_0_l.
      * apply Forall_replicate. unfold CPE_SPOOL_LINE, CPE_NDJSON_LINE_MAX. simpl. lia.
      * by rewrite length_insert.
    + split; [done|]. split; [by left|]. right. split; [done|].
      apply length_zero_iff_nil. rewrite length_pending. done.
  - pose proof (eq_push_same_spool q1 CPE_AGENT_EVENT_NEED_ALLOC (Some "spool"%string)
      (u64 (Z.of_nat c * Z.of_nat CPE_SPOOL_LINE)) 0) as Hss.
    split; [by apply eq_push_wf|]. destruct Hss as (S1 & S2 & S3 & S4 & S5 & S6 & S7).
    split; [by rewrite S6|]. split.
    + right. split; [done|]. unfold has_spool. rewrite S1, N1, S2. done.
    + right. split; [done|]. apply length_zero_iff_nil. rewrite length_pending, S5. done.
Qed.

(** ** The interface the line producers use

    The flow, TCP and performance components only push lines; they are written
    against this interface, whose laws are those of a drop-oldest queue. *)
Class LineSink (S : Type) := {
  sink_push : S -> string -> Z * S;
  sink_pending : S -> list string;
  sink_cap : S -> nat;
  sink_wf : S -> Prop;
}.
Class LineSinkLaws (S : Type) `{!LineSink S} := {
  sink_push_wf s l : sink_wf s -> sink_wf (snd (sink_push s l));
  sink_push_cap s l : sink_wf s -> sink_cap (snd (sink_push s l)) = sink_cap s;
  sink_push_rc s l : sink_wf s ->
    fst (sink_push s l) = if sink_cap s =? 0 then (-1)%Z else 0%Z;
  sink_push_pending s l : sink_wf s ->
    sink_pending (snd (sink_push s l)) = lastn (sink_cap s) (sink_pending s ++ [stored l]);
  sink_pending_bound s : sink_wf s -> length (sink_pending s) <= sink_cap s;
}.

Section sink.
Context {Q : Type} `{LineSinkLaws Q}.

(** Several pushes whose results are ignored. *)
Definition sink_push_all (s : Q) (ls : list string) : Q :=
  foldl (fun s l => snd (sink_push s l)) s ls.

Lemma sink_push_all_spec s ls :
  sink_wf s ->
  sink_wf (sink_push_all s ls) /\ sink_cap (sink_push_all s ls) = sink_cap s /\
  sink_pending (sink_push_all s ls) = lastn (sink_cap s) (sink_pending s ++ (stored <$> ls)).
Proof.
  revert s. induction ls as [|l ls IH]; intros s Hwf; simpl.
  - rewrite app_nil_r, lastn_all; [done|]. by apply sink_pending_bound.
  - destruct (IH (snd (sink_push s l)) (sink_push_wf _ _ Hwf)) as (H1 & H2 & H3).
    rewrite sink_push_cap in H2, H3 by done. split; [done|]. split; [done|].
    rewrite H3, sink_push_pending, lastn_app_lastn, <- app_assoc by done. done.
Qed.

Lemma sink_push_all_app s ls ks :
  sink_push_all s (ls ++ ks) = sink_push_all (sink_push_all s ls) ks.
Proof. apply foldl_app. Qed.
End sink.

#[export] Instance queues_sink : LineSink queues := {|
  sink_push := cpe_agent_spool_push_line;
  sink_pending := pending;
  sink_cap := spool_cap;
  sink_wf := queues_wf;
|}.

#[export] Instance queues_sink_laws : LineSinkLaws queues.
Proof.
  assert (Hcase : forall q l, queues_wf q ->
    let '(rc, q') := cpe_agent_spool_push_line q l in
    queues_wf q' /\ spool_cap q' = spool_cap q /\
    rc = (if spool_cap q =? 0 then (-1)%Z else 0%Z) /\
    pending q' = lastn (spool_cap q) (pending q ++ [stored l])).
  { intros q l Hwf. destruct (spool_cap q =? 0) eqn:E.
    - apply Nat.eqb_eq in E. rewrite spool_push_no_cap by done.
      pose proof (pending_bound _ Hwf) as Hb. rewrite E in *.
      split; [done|]. split; [done|]. split; [done|].
      unfold lastn. rewrite Nat.sub_0_r, drop_all. destruct (pending q); simpl in *; [done|lia].
    - apply Nat.eqb_neq in E. pose proof (spool_push_spec q l Hwf E) as Hs.
      destruct (cpe_agent_spool_push_line q l). tauto. }
  split; intros q; intros; simpl in *;
    try (specialize (Hcase q l ltac:(done)); destruct (cpe_agent_spool_push_line q l); simpl; tauto).
  by apply pending_bound.
Qed.

(** C22: Pushing lines implements a bounded drop-oldest queue: on an allocated
    spool, after any sequence of pushes the pending lines are the last [capacity]
    of the old ones followed by the new ones (each cut to 767 bytes), in order, and
    the 64-bit drop counter has grown by exactly the number of lines lost. *)
Theorem spool_push_refines q ls :
  queues_wf q -> spool_cap q <> 0 ->
  let q' := sink_push_all q ls in
  queues_wf q' /\ spool_cap q' = spool_cap q /\
  pending q' = lastn (spool_cap q) (pending q ++ (stored <$> ls)) /\
  spool_drops q' = u64 (spool_drops q +
    Z.of_nat (length (pending q) + length ls - spool_cap q)).
Proof.
  cbn zeta. revert q. induction ls as [|l ls IH]; intros q Hwf Hcap.
  - pose proof (pending_bound _ Hwf). simpl. rewrite app_nil_r, lastn_all by done.
    split; [done|]. split; [done|]. split; [done|].
    replace (_ - _) with 0 by lia. rewrite Z.add_0_r. symmetry. apply u64_id, Hwf.
  - pose proof (spool_push_spec q l Hwf Hcap) as Hs. pose proof (pending_bound _ Hwf) as Hb.
    simpl. destruct (cpe_agent_spool_push_line q l) as [rc q1]. simpl.
    destruct Hs as (_ & Hwf1 & Hcap1 & Hp1 & Hd1).
    destruct (IH q1 Hwf1 ltac:(lia)) as (H1 & H2 & H3 & H4).
    split; [done|]. split; [lia|]. split.
    + rewrite H3, Hp1, Hcap1, lastn_app_lastn, <- app_assoc. done.
    + rewrite H4, Hp1, Hd1, Hcap1, length_lastn, length_app. simpl.
      destruct (length (pending q) <? spool_cap q) eqn:E.
      * apply Nat.ltb_lt in E. do 2 f_equal. lia.
      * apply Nat.ltb_ge in E. unfold u64. rewrite Zplus_mod_idemp_l. f_equal. lia.
Qed.

(** A concrete spool of four lines, for the instances below. *)
Definition spool4 : queues :=
  snd (fst (ensure_spool (fun _ => Some 4096%Z) queues_zero cpe_host_alloc_reset_stats 4)).
Lemma spool4_wf : queues_wf spool4.
Proof.
  exact (proj1 (ensure_spool_spec (fun _ => Some 4096%Z) queues_zero cpe_host_alloc_reset_stats 4
    queues_zero_wf)).
Qed.
Definition spool4_ab : queues := sink_push_all spool4 ["a"; "b"]%string.
Lemma spool4_ab_wf : queues_wf spool4_ab.
Proof. exact (proj1 (sink_push_all_spec spool4 ["a"; "b"]%string spool4_wf)). Qed.

Lemma spool_push_refines_witness :
  let q' := sink_push_all spool4_ab ["c"; "d"; "e"]%string in
  pending q' = ["b"; "c"; "d"; "e"]%string /\ spool_drops q' = 1%Z.
Proof.
  destruct (spool_push_refines spool4_ab ["c"; "d"; "e"]%string spool4_ab_wf) as (_ & _ & Hp & Hd); [done|].
  split; [refine (eq_trans Hp _)|refine (eq_trans Hd _)]; vm_compute; reflexivity.
Defined.

(** ** Flushing *)

(** A flush that printed [m] lines. *)
Lemma flush_loop_spec ok fuel k q out :
  queues_wf q -> spool q <> None -> fuel = spool_cnt q ->
  let '(r, q', out') := flush_loop ok fuel k q out in
  exists m, m <= length (pending q) /\
    (forall i, i < m -> ok (k + i) = true) /\
    (m < length (pending q) -> ok (k + m) = false) /\
    r = (if m =? length (pending q) then Some (k + m) else None) /\
    queues_wf q' /\ spool_cap q' = spool_cap q /\ pending q' = drop m (pending q) /\
    out' = out ++ ((fun l => l +:+ newline) <$> take m (pending q)).
Proof.
  revert k q out. induction fuel as [|f IH]; intros k q out Hwf Hs Hf;
    rewrite length_pending in *; simpl; rewrite <- Hf; simpl.
  - exists 0. assert (pending q = []) as -> by (apply length_zero_iff_nil; by rewrite length_pending).
    rewrite app_nil_r, Nat.add_0_r. repeat (split; [done || lia|]). done.
  - destruct (ok k) eqn:Hk.
    2:{ exists 0. rewrite drop_0, Nat.add_0_r, app_nil_r.
        repeat (split; [done || lia|]). done. }
    destruct (drop_lines_spec q 1 Hwf Hs ltac:(lia)) as [Hw1 Hp1]. cbn zeta in Hw1, Hp1.
    rewrite <- Hf in Hw1, Hp1. cbn [Nat.sub] in *.
    assert (Hhd : pending q = spool_line q (spool_head q) :: drop 1 (pending q)).
    { pose proof (wf_spool _ Hwf Hs) as Hr. pose proof (wf_spool_len _ Hwf) as Hl.
      rewrite <- Hp1. unfold pending, spool_line. rewrite ring_view_cons by (try apply Hr; lia).
      unfold spool_lines in *. cbn. rewrite <- Hf, <- Hl. destruct (spool q) as [[]|]; [|done].
      by do 2 f_equal. }
    specialize (IH (S k) _ (out ++ [spool_line q (spool_head q) +:+ newline]) Hw1 Hs).
    rewrite length_pending in IH. specialize (IH ltac:(cbn; lia)).
    match type of IH with context [spool_cnt ?x] => change (spool_cnt x) with (f - 0) in IH end.
    replace (f - 0) with f in * by lia.
    destruct (flush_loop _ _ _ _ _) as [[r q'] out'].
    destruct IH as (m & Hm & Hall & Hfail & Hr & Hw & Hc & Hp & Ho).
    exists (S m). split; [lia|]. split; [|split; [|split; [|split; [done|split; [done|split]]]]].
    + intros [|i] Hi; [by rewrite Nat.add_0_r|]. rewrite <- Nat.add_succ_comm. apply Hall. lia.
    + intros Hi. rewrite <- Nat.add_succ_comm. apply Hfail. lia.
    + rewrite Hr. simpl. by rewrite <- Nat.add_succ_comm.
    + rewrite Hp, Hp1, drop_drop; done.
    + rewrite Ho, Hp1, <- app_assoc. f_equal. rewrite Hhd at 2. done.
Qed.

(** A flush prints the pending lines oldest first, each followed by one
    newline, and removes exactly the lines it printed: it stops at the first failing
    print with -1 and keeps the line that failed and all later ones; when every print
    succeeds the spool is empty and the result is the number of lines (or -1 when
    only the final [fflush] failed). *)
Theorem spool_flush_prints_prefix ok fflush_ok q :
  queues_wf q -> spool q <> None ->
  let '(rc, q', out) := cpe_agent_spool_flush ok fflush_ok q in
  exists m, m <= length (pending q) /\
    (forall i, i < m -> ok i = true) /\ (m < length (pending q) -> ok m = false) /\
    out = (fun l => l +:+ newline) <$> take m (pending q) /\
    pending q' = drop m (pending q) /\ queues_wf q' /\
    rc = (if (m =? length (pending q)) && fflush_ok then Z.of_nat m else (-1)%Z).
Proof.
  intros Hwf Hs. unfold cpe_agent_spool_flush.
  destruct (spool q) as [sp|] eqn:Hsp; [|done]. rewrite <- Hsp in Hs.
  pose proof (flush_loop_spec ok (spool_cnt q) 0 q [] Hwf Hs eq_refl) as H.
  destruct (flush_loop _ _ _ _ _) as [[r q'] out].
  destruct H as (m & Hm & Hall & Hfail & -> & Hw & _ & Hp & ->). simpl in *.
  destruct (m =? length (pending q)) eqn:E; [destruct fflush_ok|];
    exists m; repeat (split; [done|]); rewrite E; done.
Qed.

Lemma spool_flush_prints_prefix_witness :
  let '(rc, q', out) := cpe_agent_spool_flush (fun i => i <? 1) true spool4_ab in
  exists m, m <= length (pending spool4_ab) /\
    (forall i, i < m -> (i <? 1) = true) /\ (m < length (pending spool4_ab) -> (m <? 1) = false) /\
    out = (fun l => l +:+ newline) <$> take m (pending spool4_ab) /\
    pending q' = drop m (pending spool4_ab) /\ queues_wf q' /\
    rc = (if (m =? length (pending spool4_ab)) && true then Z.of_nat m else (-1)%Z).
Proof.
  exact (spool_flush_prints_prefix (fun i => i <? 1) true spool4_ab spool4_ab_wf ltac:(done)).
Defined.

(** ** The HTTP batch *)

(** The body for a list of lines: each line with its newline. *)
Definition body_of (ls : list string) : string :=
  foldr (fun l acc => l +:+ newline +:+ acc) EmptyString ls.
Lemma body_of_app ls ks : body_of (ls ++ ks) = body_of ls +:+ body_of ks.
Proof. induction ls as [|l ls IH]; simpl; [done|]. by rewrite IH, !str_app_assoc. Qed.
Lemma strlen_body_snoc ls l : strlen (body_of (ls ++ [l])) = strlen (body_of ls) + strlen l + 1.
Proof. rewrite body_of_app, strlen_app. simpl. rewrite !strlen_app. simpl. lia. Qed.

Lemma spool_line_pending q i :
  queues_wf q -> spool q <> None -> i < spool_cnt q ->
  pending q !! i = Some (spool_line q ((spool_head q + i) `mod` spool_cap q)).
Proof.
  intros Hwf Hs Hi. unfold pending. rewrite ring_view_lookup by done.
  pose proof (wf_spool_len _ Hwf) as Hl. unfold spool_line, spool_lines in *.
  destruct (spool q) as [[p buf]|]; [|done]. by rewrite <- Hl.
Qed.

Lemma pending_line_len q i l :
  queues_wf q -> pending q !! i = Some l -> strlen l < CPE_SPOOL_LINE.
Proof.
  intros Hwf Hl. assert (Hi : i < spool_cnt q).
  { rewrite <- length_pending. by eapply lookup_lt_Some. }
  destruct (decide (spool q = None)) as [E|E]; [by rewrite (wf_spool_none _ Hwf E) in Hi; lia|].
  pose proof (wf_spool _ Hwf E) as [Hc Hh Hn _].
  unfold pending in Hl. rewrite ring_view_lookup in Hl by done. injection Hl as <-.
  apply (Forall_lookup_total_1 _ _ _ (wf_line_len _ Hwf)). apply Nat.mod_upper_bound. lia.
Qed.

(** Where the batch stops: after [n] lines. *)
Definition batch_end (q : queues) (n : nat) : Prop :=
  n = length (pending q) \/ BODY_SIZE <= strlen (body_of (take n (pending q))) + CPE_NDJSON_LINE_MAX \/
  exists l, pending q !! n = Some l /\
    BODY_SIZE <= strlen (body_of (take n (pending q))) + strlen l + 2.

Lemma batch_loop_spec q fuel i :
  queues_wf q -> spool q <> None -> i <= spool_cnt q -> spool_cnt q - i <= fuel ->
  strlen (body_of (take i (pending q))) < BODY_SIZE ->
  exists n, batch_loop fuel q i (body_of (take i (pending q))) i
      = (body_of (take n (pending q)), n) /\
    i <= n <= length (pending q) /\ strlen (body_of (take n (pending q))) < BODY_SIZE /\
    batch_end q n.
Proof.
  intros Hwf Hs. revert i. induction fuel as [|f IH]; intros i Hi Hf Hb;
    rewrite length_pending; cbn [batch_loop].
  { exists i. split; [done|]. split; [lia|]. split; [done|]. left. rewrite length_pending. lia. }
  destruct (i <? spool_cnt q) eqn:E1; cbn [andb].
  2:{ apply Nat.ltb_ge in E1. exists i. split; [done|]. split; [lia|]. split; [done|].
      left. rewrite length_pending. lia. }
  apply Nat.ltb_lt in E1.
  destruct (_ + CPE_NDJSON_LINE_MAX <? BODY_SIZE) eqn:E2.
  2:{ apply Nat.ltb_ge in E2. exists i. split; [done|]. split; [lia|]. split; [done|]. by right; left. }
  pose proof (spool_line_pending q i Hwf Hs E1) as Hlk.
  set (l := spool_line q _) in *.
  destruct (BODY_SIZE <=? strlen (body_of (take i (pending q))) + strlen l + 2) eqn:E3.
  { apply Nat.leb_le in E3. exists i. split; [done|]. split; [lia|]. split; [done|].
    right; right. by exists l. }
  apply Nat.leb_gt in E3.
  assert (Hsnoc : take (S i) (pending q) = take i (pending q) ++ [l]) by by apply take_S_r.
  destruct (IH (S i)) as (n & Heq & Hn & Hlt & Hend); [lia|lia| |].
  { rewrite Hsnoc, strlen_body_snoc. lia. }
  exists n. rewrite length_pending in Hn. split; [|split; [lia|done]].
  rewrite <- Heq. f_equal. rewrite Hsnoc, body_of_app. simpl. by rewrite str_app_nil_r.
Qed.

Lemma http_batch_spec q :
  queues_wf q -> spool q <> None ->
  let '(body, n) := http_batch q in
  body = body_of (take n (pending q)) /\ n <= length (pending q) /\
  strlen body < BODY_SIZE /\ batch_end q n /\ (pending q <> [] -> 1 <= n).
Proof.
  intros Hwf Hs. unfold http_batch.
  destruct (batch_loop_spec q (spool_cnt q) 0 Hwf Hs) as (n & Hb & Hn & Hlt & Hend);
    [lia|lia|vm_compute; lia|].
  simpl take in Hb. simpl body_of in Hb. rewrite Hb.
  split; [done|]. split; [lia|]. split; [done|]. split; [done|].
  intros Hne. destruct n; [|lia]. exfalso.
  destruct Hend as [H|[H|(l & Hl & H)]].
  - by destruct (pending q).
  - vm_compute in H. lia.
  - apply pending_line_len in Hl; [|done].
    change (strlen (body_of (take 0 (pending q)))) with 0 in H.
    unfold BODY_SIZE, CPE_SPOOL_LINE, CPE_NDJSON_LINE_MAX in *. lia.
Qed.

Lemma drop_sent_spec q n :
  queues_wf q -> spool q <> None -> n <= length (pending q) ->
  queues_wf (drop_sent q n) /\ pending (drop_sent q n) = drop n (pending q).
Proof. intros Hwf Hs Hn. apply drop_lines_spec; [done..|]. by rewrite <- length_pending. Qed.

(** The HTTP batch is a maximal prefix of the spool: its body is the [n]
    oldest lines, each with its newline, it stays below the 6144-byte buffer with
    room for the terminator, it ends only when no line is left or less than a full
    line's room remains, it is never empty when a line is pending, and the step
    after a successful POST removes exactly those [n] lines. *)
Theorem http_batch_maximal q :
  queues_wf q -> spool q <> None ->
  let '(body, n) := http_batch q in
  body = body_of (take n (pending q)) /\ n <= length (pending q) /\
  strlen body < BODY_SIZE /\
  (n < length (pending q) -> BODY_SIZE <= strlen body + CPE_NDJSON_LINE_MAX + 1) /\
  (pending q <> [] -> 1 <= n) /\
  queues_wf (drop_sent q n) /\ pending (drop_sent q n) = drop n (pending q).
Proof.
  intros Hwf Hs. pose proof (http_batch_spec q Hwf Hs) as H.
  destruct (http_batch q) as [body n]. destruct H as (-> & Hn & Hlt & Hend & Hpos).
  split; [done|]. split; [done|]. split; [done|]. split; [|split; [done|by apply drop_sent_spec]].
  intros Hmore. destruct Hend as [He|[He|(l & Hl & He)]]; [lia|lia|].
  apply pending_line_len in Hl; [|done]. unfold CPE_SPOOL_LINE in Hl. lia.
Qed.

Lemma http_batch_maximal_witness :
  let '(body, n) := http_batch spool4_ab in
  body = "a" +:+ newline +:+ "b" +:+ newline /\ n = 2 /\ pending (drop_sent spool4_ab n) = [].
Proof.
  pose proof (http_batch_maximal spool4_ab spool4_ab_wf ltac:(done)) as H.
  destruct (http_batch spool4_ab) as [body n] eqn:E. vm_compute in E. injection E as <- <-.
  split; [reflexivity|]. split; [reflexivity|].
  exact (proj2 (proj2 (proj2 (proj2 (proj2 (proj2 H)))))).
Defined.

(** Repeated successful batches: the bodies posted, in order. *)
Fixpoint http_drain (fuel : nat) (q : queues) : list string * queues :=
  match fuel with
  | O => ([], q)
  | S f =>
      if spool_cnt q =? 0 then ([], q)
      else let '(body, n) := http_batch q in
           let '(bodies, q') := http_drain f (drop_sent q n) in (body :: bodies, q')
  end.

(** C35: Batching loses and reorders nothing and always terminates: as long as
    every POST succeeds, at most one batch per pending line empties the spool, and
    the bodies concatenated are the pending lines in order, each with its newline. *)
Theorem http_drain_complete q :
  queues_wf q -> spool q <> None ->
  let '(bodies, q') := http_drain (spool_cnt q) q in
  pending q' = [] /\ foldr String.app EmptyString bodies = body_of (pending q) /\
  length bodies <= length (pending q).
Proof.
  intros Hwf Hs. remember (spool_cnt q) as fuel eqn:Hf.
  assert (Hle : spool_cnt q <= fuel) by lia. clear Hf. revert q Hwf Hs Hle.
  induction fuel as [|f IH]; intros q Hwf Hs Hle; simpl.
  { assert (pending q = []) as ->; [|done]. apply length_zero_iff_nil. rewrite length_pending. lia. }
  destruct (spool_cnt q =? 0) eqn:E.
  { apply Nat.eqb_eq in E. assert (pending q = []) as ->; [|simpl; split_and!; [done..|lia]].
    apply length_zero_iff_nil. by rewrite length_pending. }
  apply Nat.eqb_neq in E. pose proof (http_batch_spec q Hwf Hs) as Hb.
  destruct (http_batch q) as [body n]. destruct Hb as (-> & Hn & _ & _ & Hpos).
  assert (1 <= n). { apply Hpos. rewrite <- length_zero_iff_nil, length_pending. done. }
  destruct (drop_sent_spec q n Hwf Hs Hn) as [Hw Hp].
  specialize (IH (drop_sent q n) Hw Hs). rewrite length_pending in Hn.
  specialize (IH ltac:(simpl; lia)).
  destruct (http_drain f (drop_sent q n)) as [bodies q']. destruct IH as (H1 & H2 & H3).
  split; [done|]. rewrite Hp in H2, H3. split.
  - simpl. rewrite H2, <- body_of_app, take_drop. done.
  - simpl. rewrite length_drop in H3. rewrite length_pending in *. lia.
Qed.

Lemma http_drain_complete_witness :
  let '(bodies, q') := http_drain 2 spool4_ab in
  pending q' = [] /\ foldr String.app EmptyString bodies = body_of (pending spool4_ab) /\
  length bodies <= length (pending spool4_ab).
Proof. exact (http_drain_complete spool4_ab spool4_ab_wf ltac:(done)). Defined.

(** ** Reachable states *)

(** Every operation of this file, as the rest of the agent may interleave them. *)
Inductive queue_step : queues -> queues -> Prop :=
  | qs_event q t r nb s : queue_step q (snd (eq_push q t r nb s))
  | qs_next q : queue_step q (snd (cpe_agent_next_event q))
  | qs_free q h : queue_step q (fst (free_spool q h))
  | qs_ensure q calloc h cap : queue_step q (snd (fst (ensure_spool calloc q h cap)))
  | qs_provide q slot ptr len mem : queue_step q (snd (cpe_agent_provide_buffer q slot ptr len mem))
  | qs_push q l : queue_step q (snd (cpe_agent_spool_push_line q l))
  | qs_flush q ok ff : queue_step q (snd (fst (cpe_agent_spool_flush ok ff q)))
  | qs_sent q n : spool q <> None -> n <= length (pending q) -> queue_step q (drop_sent q n).

Definition not_waiting (q : queues) : Prop := Forall (fun s => slot_waiting s = 0%Z) (slots q).
Definition queues_inv (q : queues) : Prop := queues_wf q /\ not_waiting q.

Lemma provide_buffer_refused q slot ptr len mem :
  queues_inv q -> cpe_agent_provide_buffer q slot ptr len mem = ((-1)%Z, q).
Proof.
  intros [Hwf Hw]. unfold cpe_agent_provide_buffer. destruct ptr; [|done].
  destruct (_ || _) eqn:E; [done|]. apply orb_false_iff in E as [E _]. apply Z.leb_gt in E.
  rewrite (Forall_lookup_total_1 _ _ _ Hw); [done|].
  rewrite (wf_slots_len _ Hwf). unfold CPE_NEED_SLOTS in *. lia.
Qed.

Lemma next_event_wf q : queues_wf q -> queues_wf (snd (cpe_agent_next_event q)).
Proof.
  intros Hwf. unfold cpe_agent_next_event. destruct (eq_cnt q =? 0) eqn:E; [done|].
  apply Nat.eqb_neq in E. pose proof (wf_eq_len _ Hwf) as Hl.
  pose proof (ring_wf_drop _ _ _ _ 1 (wf_eq _ Hwf) ltac:(lia)) as Hr. rewrite Hl in Hr.
  eapply queues_wf_same_spool; [exact Hwf|by repeat split|done|exact Hr].
Qed.

Lemma flush_loop_slots ok fuel k q out : slots (snd (fst (flush_loop ok fuel k q out))) = slots q.
Proof.
  revert k q out. induction fuel as [|f IH]; intros k q out; simpl; destruct (_ =? 0); try done.
  destruct (ok k); [|done]. by rewrite IH.
Qed.

Lemma eq_push_slots q t r nb s : slots (snd (eq_push q t r nb s)) = slots q.
Proof. apply eq_push_same_spool. Qed.
Lemma push_line_slots q l : slots (snd (cpe_agent_spool_push_line q l)) = slots q.
Proof.
  unfold cpe_agent_spool_push_line. destruct (spool q) as [[]|]; [|done].
  destruct (_ =? 0); [done|]. destruct (_ <=? spool_cnt q); [|done]. exact (eq_push_slots
    (q <| spool_head := (spool_head q + 1) `mod` spool_cap q |> <| spool_cnt := spool_cnt q - 1 |>
       <| spool_drops := u64 (spool_drops q + 1) |>) CPE_AGENT_EVENT_SPOOL_DROP (Some "full"%string) 0 0).
Qed.
Lemma ensure_spool_waiting calloc q h cap :
  not_waiting q -> not_waiting (snd (fst (ensure_spool calloc q h cap))).
Proof.
  intros Hw. unfold ensure_spool. destruct (_ && _); [done|]. unfold spool_alloc, free_spool.
  destruct (cpe_host_alloc _ _ _) as [[nb|] h2]; unfold not_waiting; simpl; [|by rewrite eq_push_slots].
  by apply Forall_insert.
Qed.

Lemma queue_step_inv q q' : queues_inv q -> queue_step q q' -> queues_inv q'.
Proof.
  intros Hi Hst. pose proof Hi as [Hwf Hw]. unfold not_waiting in Hw.
  destruct Hst; try (split; [|unfold not_waiting]).
  - by apply eq_push_wf.
  - by rewrite eq_push_slots.
  - by apply next_event_wf.
  - unfold cpe_agent_next_event. by destruct (_ =? 0).
  - by apply free_spool_wf.
  - done.
  - pose proof (ensure_spool_spec calloc q h cap Hwf) as H.
    destruct (ensure_spool _ _ _ _) as [[]]. apply H.
  - by apply ensure_spool_waiting.
  - by rewrite provide_buffer_refused.
  - by rewrite provide_buffer_refused.
  - exact (sink_push_wf q l Hwf).
  - by rewrite push_line_slots.
  - destruct (decide (spool q = None)) as [E|E].
    { unfold cpe_agent_spool_flush. by rewrite E. }
    unfold cpe_agent_spool_flush. pose proof (flush_loop_spec ok (spool_cnt q) 0 q [] Hwf E eq_refl) as H.
    destruct (spool q); [|done]. destruct (flush_loop _ _ _ _ _) as [[[] q'] out].
    all: destruct H as (m & _ & _ & _ & _ & H & _); by destruct ff.
  - unfold cpe_agent_spool_flush. destruct (spool q); [|done].
    pose proof (flush_loop_slots ok (spool_cnt q) 0 q []) as H.
    destruct (flush_loop _ _ _ _ _) as [[[] q'] out]; simpl in H; destruct ff; simpl; by rewrite H.
  - by apply drop_sent_spec.
  - done.
Qed.

Lemma push_all_star q ls : star queue_step q (sink_push_all q ls).
Proof.
  revert q. induction ls as [|l ls IH]; intros q; [apply star_refl|].
  eapply star_step; [apply qs_push|]. apply IH.
Qed.

Lemma queues_reachable_inv q : star queue_step queues_zero q -> queues_inv q.
Proof.
  intros H. refine (star_invariant queue_step queues_inv queue_step_inv _ _ H _).
  split; [apply queues_zero_wf|]. by repeat constructor.
Qed.

(** In every state the agent can reach, by any interleaving of the queue and
    spool operations, the queue and spool invariant holds (indices below the
    capacities, counts within them, every stored line terminated within its 768
    bytes) and [cpe_agent_provide_buffer] refuses every buffer and changes nothing:
    no operation ever marks a slot as waiting. *)
Theorem queues_reachable_safe q :
  star queue_step queues_zero q ->
  queues_wf q /\
  (spool q <> None -> spool_head q < spool_cap q /\ spool_tail q < spool_cap q) /\
  forall slot ptr len mem, cpe_agent_provide_buffer q slot ptr len mem = ((-1)%Z, q).
Proof.
  intros H. pose proof (queues_reachable_inv q H) as Hi. destruct Hi as [Hwf Hw].
  split; [done|]. split; [|intros; by apply provide_buffer_refused].
  intros Hs. rewrite <- (wf_spool_len _ Hwf). pose proof (wf_spool _ Hwf Hs) as Hr.
  split; [apply Hr|by eapply ring_tail_lt].
Qed.

Lemma queues_reachable_safe_witness : cpe_agent_provide_buffer spool4_ab 0 (Some 64%Z) 768 [EmptyString] = ((-1)%Z, spool4_ab).
Proof.
  refine (proj2 (proj2 (queues_reachable_safe spool4_ab _)) _ _ _ _).
  eapply star_step; [exact (qs_ensure queues_zero (fun _ => Some 4096%Z) cpe_host_alloc_reset_stats 4)|].
  exact (push_all_star spool4 ["a"; "b"]%string).
Defined.

(** Resizing the spool: asking for the capacity it has keeps every pending
    line; any other capacity discards all of them, and the drop counter does not
    count them. *)
Theorem ensure_spool_resize calloc q h cap :
  queues_wf q -> cap <> 0 ->
  let '(rc, q', _) := ensure_spool calloc q h cap in
  queues_wf q' /\
  (spool_cap q = cap -> rc = 0%Z /\ pending q' = pending q) /\
  (spool_cap q <> cap -> pending q' = []) /\
  (rc = 0%Z -> spool_cap q' = cap) /\ (rc <> 0%Z -> spool q' = None) /\
  spool_drops q' = spool_drops q.
Proof.
  intros Hwf Hcap. pose proof (ensure_spool_spec calloc q h cap Hwf) as H.
  destruct (ensure_spool _ _ _ _) as [[rc q'] h']. cbn zeta in H.
  rewrite (proj2 (Nat.eqb_neq _ _) Hcap) in H. destruct H as (Hw & Hd & Hrc & Hkeep).
  assert (Hsp : spool_cap q = cap -> has_spool q = true).
  { intros E. pose proof (wf_spool_len _ Hwf) as Hl. unfold spool_lines in Hl. unfold has_spool.
    destruct (spool q); [done|]. simpl in Hl. lia. }
  split; [done|]. split; [|split; [|split; [|split; [|done]]]].
  - intros E. destruct Hkeep as [(_ & _ & -> & ->)|[Hn _]]; [done|]. exfalso. auto.
  - intros E. destruct Hkeep as [(_ & ? & _)|[_ ?]]; done.
  - intros E. by destruct Hrc as [(_ & _ & ?)|(-> & _)].
  - intros E. destruct Hrc as [(-> & _)|(_ & Hn & _)]; [done|].
    unfold has_spool in Hn. by destruct (spool q').
Qed.

Lemma ensure_spool_resize_witness :
  let '(rc, q', _) := ensure_spool (fun _ => Some 8192%Z) spool4_ab cpe_host_alloc_reset_stats 8 in
  rc = 0%Z /\ pending spool4_ab = ["a"; "b"]%string /\ pending q' = [] /\ spool_drops q' = 0%Z.
Proof.
  pose proof (ensure_spool_resize (fun _ => Some 8192%Z) spool4_ab cpe_host_alloc_reset_stats 8
    spool4_ab_wf ltac:(done)) as H.
  destruct (ensure_spool _ _ _ _) as [[rc q'] h'] eqn:E.
  destruct H as (_ & _ & Hp & _ & _ & Hd).
  assert (Hrc : rc = fst (fst (ensure_spool (fun _ => Some 8192%Z) spool4_ab cpe_host_alloc_reset_stats 8)))
    by by rewrite E.
  split; [exact Hrc|]. split; [vm_compute; reflexivity|].
  split; [apply Hp; vm_compute; discriminate|exact Hd].
Defined.
