(* ===== verification/Events.v ===== *)
(** * Events pulled from the diagnostic library

    The agent pulls events from two external contexts ([ping_ctx], [nfct_ctx])
    with loops of the form [while (next_event(ctx, &ev) == 1)].  The library is not
    part of the sources: a context is an abstract type with a [next_event] that takes one
    event from a finite queue, so it eventually runs dry ([EventSource]).  [nfct_event] has the fields of
    [nfct_event_t] that the sources read. *)

From S2P Require Import Prelude.

Class EventSource (C E : Type) := {
  next_event : C -> option E * C;   (* [Some e] when the call returns 1 *)
  queued : C -> nat;                (* a bound on the events left *)
  next_event_decreases c e c' : next_event c = (Some e, c') -> queued c' < queued c;
}.
(** A concrete source runs dry. *)
Ltac runs_dry := intros c e c' H; cbn in *; first [discriminate H | destruct c; simplify_eq/=; lia].

Section pull.
Context {C E : Type} `{!EventSource C E}.

Fixpoint pull_fuel (fuel : nat) (c : C) : list E * C :=
  match fuel with
  | O => ([], c)
  | S f =>
      match next_event c with
      | (None, c') => ([], c')
      | (Some e, c') => let '(es, c'') := pull_fuel f c' in (e :: es, c'')
      end
  end.

(** The events of one [while] loop, in order, and the context it leaves. *)
Definition pull_all (c : C) : list E * C := pull_fuel (S (queued c)) c.

(** The fuel of [pull_all] is enough: more changes nothing, so the loop ended
    because the source ran dry. *)
Lemma pull_fuel_enough c n m :
  queued c < n -> queued c < m -> pull_fuel n c = pull_fuel m c.
Proof.
  revert c m. induction n as [|n IH]; intros c [|m] Hn Hm; [lia..|]. simpl.
  destruct (next_event c) as [[e|] c'] eqn:E1; [|done].
  apply next_event_decreases in E1. rewrite (IH c' m) by lia. done.
Qed.
End pull.

(** ** Connection-tracking events *)
Inductive nfct_event_type := NFCT_EVENT_NEW | NFCT_EVENT_UPDATE | NFCT_EVENT_DESTROY | NFCT_EVENT_OTHER.

#[export] Instance nfct_event_type_eq_dec : EqDecision nfct_event_type.
Proof. solve_decision. Defined.

Record nfct_event := {
  nev_type : nfct_event_type;
  nev_is_destroy : Z;
  nev_has_id : Z;
  nev_id : Z;
  nev_has_lan : Z;
  nev_has_wan : Z;
  nev_has_counters : Z;
  nev_is_ipv6 : Z;
  nev_protocol : Z;
  nev_lan_src_ip : Z;        (* IPv4, host order *)
  nev_lan_dst_ip : Z;
  nev_wan_src_ip : Z;
  nev_lan_src_port : Z;
  nev_lan_dst_port : Z;
  nev_wan_src_port : Z;
  nev_lan_src_ip6 : list Z;  (* 16 bytes *)
  nev_lan_dst_ip6 : list Z;
  nev_wan_src_ip6 : list Z;
  nev_wan_dst_ip6 : list Z;
  nev_orig_packets : Z;
  nev_orig_bytes : Z;
  nev_reply_packets : Z;
  nev_reply_bytes : Z;
}.
#[export] Instance eta_nfct_event : Eta nfct_event := fun e => {|
  nev_type := nev_type e; nev_is_destroy := nev_is_destroy e; nev_has_id := nev_has_id e; nev_id := nev_id e;
  nev_has_lan := nev_has_lan e; nev_has_wan := nev_has_wan e; nev_has_counters := nev_has_counters e;
  nev_is_ipv6 := nev_is_ipv6 e; nev_protocol := nev_protocol e; nev_lan_src_ip := nev_lan_src_ip e;
  nev_lan_dst_ip := nev_lan_dst_ip e; nev_wan_src_ip := nev_wan_src_ip e; nev_lan_src_port := nev_lan_src_port e;
  nev_lan_dst_port := nev_lan_dst_port e; nev_wan_src_port := nev_wan_src_port e;
  nev_lan_src_ip6 := nev_lan_src_ip6 e; nev_lan_dst_ip6 := nev_lan_dst_ip6 e; nev_wan_src_ip6 := nev_wan_src_ip6 e;
  nev_wan_dst_ip6 := nev_wan_dst_ip6 e; nev_orig_packets := nev_orig_packets e; nev_orig_bytes := nev_orig_bytes e;
  nev_reply_packets := nev_reply_packets e; nev_reply_bytes := nev_reply_bytes e |}.

(** Sixteen zero bytes, an IPv6 address after [memset]. *)
Definition zero16 : list Z := replicate 16 0%Z.

Definition nfct_event_zero : nfct_event := {|
  nev_type := NFCT_EVENT_OTHER; nev_is_destroy := 0; nev_has_id := 0; nev_id := 0; nev_has_lan := 0; nev_has_wan := 0;
  nev_has_counters := 0; nev_is_ipv6 := 0; nev_protocol := 0; nev_lan_src_ip := 0; nev_lan_dst_ip := 0;
  nev_wan_src_ip := 0; nev_lan_src_port := 0; nev_lan_dst_port := 0; nev_wan_src_port := 0;
  nev_lan_src_ip6 := zero16; nev_lan_dst_ip6 := zero16; nev_wan_src_ip6 := zero16;
  nev_wan_dst_ip6 := zero16; nev_orig_packets := 0; nev_orig_bytes := 0; nev_reply_packets := 0;
  nev_reply_bytes := 0 |}.

Definition ip6_bytes (b : list Z) : Prop := length b = 16 /\ bytes b.

(** Every field within its C type. *)
Record nfct_event_ok (e : nfct_event) : Prop := {
  ok_id : in_u32 (nev_id e);
  ok_protocol : in_u8 (nev_protocol e);
  ok_lan_src_ip : in_u32 (nev_lan_src_ip e);
  ok_lan_dst_ip : in_u32 (nev_lan_dst_ip e);
  ok_wan_src_ip : in_u32 (nev_wan_src_ip e);
  ok_lan_src_port : in_u16 (nev_lan_src_port e);
  ok_lan_dst_port : in_u16 (nev_lan_dst_port e);
  ok_wan_src_port : in_u16 (nev_wan_src_port e);
  ok_lan_src_ip6 : ip6_bytes (nev_lan_src_ip6 e);
  ok_lan_dst_ip6 : ip6_bytes (nev_lan_dst_ip6 e);
  ok_wan_src_ip6 : ip6_bytes (nev_wan_src_ip6 e);
  ok_wan_dst_ip6 : ip6_bytes (nev_wan_dst_ip6 e);
  ok_orig_packets : in_u64 (nev_orig_packets e);
  ok_orig_bytes : in_u64 (nev_orig_bytes e);
  ok_reply_packets : in_u64 (nev_reply_packets e);
  ok_reply_bytes : in_u64 (nev_reply_bytes e);
}.

Lemma zero16_ok : ip6_bytes zero16.
Proof. split; [done|]. apply Forall_replicate. unfold in_u8. lia. Qed.
Lemma nfct_event_zero_ok : nfct_event_ok nfct_event_zero.
Proof. constructor; try apply zero16_ok; simpl; word_lia. Qed.
