(* ===== verification/PerfSample.v ===== *)
(** * Performance samples (src/agent/perf_sample.c)

    [cpe_perf_sample_t] and its NDJSON line.  [%.3f] and [%.4f] print binary64
    values exactly as [Float754.fmt_f] does. *)

From S2P Require Import Prelude CStr Float754.

Definition CPE_PERF_PROBE_MAX := 32.
Definition CPE_PERF_TARGET_MAX := 64.
Definition CPE_PERF_TS_MAX := 40.
Definition CPE_PERF_META_MAX := 128.

Record cpe_perf_sample := {
  ps_probe : string;
  ps_target : string;
  ps_rtt_ms : double;
  ps_loss : float;
  ps_ts_iso : string;
  ps_meta : string;
}.
#[export] Instance eta_perf_sample : Eta cpe_perf_sample := fun s => {|
  ps_probe := ps_probe s; ps_target := ps_target s; ps_rtt_ms := ps_rtt_ms s;
  ps_loss := ps_loss s; ps_ts_iso := ps_ts_iso s; ps_meta := ps_meta s |}.
Definition perf_sample_zero : cpe_perf_sample := {|
  ps_probe := EmptyString; ps_target := EmptyString; ps_rtt_ms := d_zero;
  ps_loss := f_zero; ps_ts_iso := EmptyString; ps_meta := EmptyString |}.

(** The expansion of the format string. *)
Definition perf_text (rid : string) (s : cpe_perf_sample) : string :=
  lit "{'type':'cpe_perf','ts':'" +:+ str_dflt (ps_ts_iso s) "1970-01-01T00:00:00.000Z" +:+
  lit "','router_id':'" +:+ rid +:+
  lit "','probe':'" +:+ str_dflt (ps_probe s) "ping" +:+
  lit "','target':'" +:+ ps_target s +:+
  lit "','rtt_ms':" +:+ fmt_f 3 (ps_rtt_ms s) +:+
  lit ",'loss':" +:+ fmt_f 4 (d_of_f (ps_loss s)) +:+
  lit ",'meta':" +:+ str_dflt (ps_meta s) "{}" +:+ lit "}".

Definition router_name (router_id : option string) : string :=
  match router_id with Some r => str_dflt r "unknown" | None => "unknown"%string end.

(** The return value and the buffer; the buffer is untouched (written here as
    the empty string) when [buflen] is below 32. *)
Definition cpe_perf_format_ndjson (router_id : option string) (s : cpe_perf_sample) (buflen : nat)
    : Z * string :=
  if buflen <? 32 then ((-1)%Z, EmptyString)
  else snprintf_checked buflen (perf_text (router_name router_id) s).

(** The strings fit their arrays. *)
Record perf_sample_wf (s : cpe_perf_sample) : Prop := {
  wf_probe : strlen (ps_probe s) < CPE_PERF_PROBE_MAX;
  wf_target : strlen (ps_target s) < CPE_PERF_TARGET_MAX;
  wf_ts : strlen (ps_ts_iso s) < CPE_PERF_TS_MAX;
  wf_meta : strlen (ps_meta s) < CPE_PERF_META_MAX;
}.

Lemma strlen_perf_text rid s :
  perf_sample_wf s ->
  strlen (perf_text rid s) <=
    strlen rid + strlen (fmt_f 3 (ps_rtt_ms s)) + strlen (fmt_f 4 (d_of_f (ps_loss s))) + 354.
Proof.
  intros [Hp Ht Hts Hm]. unfold perf_text. autorewrite with slen.
  pose proof (strlen_str_dflt _ "ping" _ Hp ltac:(simpl; unfold CPE_PERF_PROBE_MAX; lia)).
  pose proof (strlen_str_dflt _ "1970-01-01T00:00:00.000Z" _ Hts ltac:(simpl; unfold CPE_PERF_TS_MAX; lia)).
  pose proof (strlen_str_dflt _ "{}" _ Hm ltac:(simpl; unfold CPE_PERF_META_MAX; lia)).
  unfold CPE_PERF_PROBE_MAX, CPE_PERF_TARGET_MAX, CPE_PERF_TS_MAX, CPE_PERF_META_MAX in *.
  cbn [strlen String.length]. simpl String.length in *. lia.
Qed.

(** A performance line is written whole or refused: with at least 32 bytes
    the result is the length of the complete JSON text and the buffer holds exactly
    it, or -1 when it does not fit; and for a sample whose strings respect their
    arrays, a router id below 64 bytes and numbers of at most 300 printed characters
    together, the agent's 768-byte line buffer always suffices. *)
Theorem perf_format_whole rid s buflen :
  32 <= buflen ->
  let text := perf_text (router_name rid) s in
  cpe_perf_format_ndjson rid s buflen =
    (if strlen text <? buflen then (Z.of_nat (strlen text), text)
     else ((-1)%Z, str_take (buflen - 1) text)) /\
  (perf_sample_wf s -> strlen (router_name rid) < 64 ->
   strlen (fmt_f 3 (ps_rtt_ms s)) + strlen (fmt_f 4 (d_of_f (ps_loss s))) <= 300 ->
   768 <= buflen -> fst (cpe_perf_format_ndjson rid s buflen) = Z.of_nat (strlen text)).
Proof.
  intros Hb text.
  assert (Hrun : cpe_perf_format_ndjson rid s buflen =
    (if strlen text <? buflen then (Z.of_nat (strlen text), text)
     else ((-1)%Z, str_take (buflen - 1) text))).
  { unfold cpe_perf_format_ndjson. destruct (Nat.ltb_spec buflen 32); [lia|].
    fold text. destruct (Nat.ltb_spec (strlen text) buflen).
    - by apply snprintf_checked_ok.
    - by apply snprintf_checked_overflow. }
  split; [done|]. intros Hwf Hr Hn H768. rewrite Hrun.
  pose proof (strlen_perf_text (router_name rid) s Hwf) as Hl. fold text in Hl.
  destruct (Nat.ltb_spec (strlen text) buflen); [done|lia].
Qed.

Definition demo_sample : cpe_perf_sample := {|
  ps_probe := "ping"; ps_target := "1.1.1.1"; ps_rtt_ms := d_of_Z 5; ps_loss := f_zero;
  ps_ts_iso := "2026-01-01T00:00:00.000Z"; ps_meta := EmptyString |}.
Lemma perf_format_whole_witness :
  fst (cpe_perf_format_ndjson (Some "cpe-1"%string) demo_sample 768)
    = Z.of_nat (strlen (perf_text "cpe-1" demo_sample)).
Proof.
  refine (proj2 (perf_format_whole (Some "cpe-1"%string) demo_sample 768 _) _ _ _ _);
    [lia|constructor; vm_compute; lia|vm_compute; lia|vm_compute; lia|lia].
Defined.
