(* ===== verification/NfFlow.v ===== *)
(** * Flow observations and NAT correlation (src/src/flow_correlate.c)

    A CPE sees a flow before and after NAT; a core router exports it over IPFIX.
    This file models the unified observation, its two producers, the matcher that
    joins a CPE observation with a core one, and the NDJSON line.  The IPFIX record
    and the forensics-tuple accessors belong to the diagnostic library and are
    parameters ([NfLib]). *)

From S2P Require Import Prelude CStr Inet Events.

(** What [ipfix_record_flow_key] fills in ([ipfix_flow_key_t]). *)
Record ipfix_flow_key := {
  key_src_ipv4 : Z;
  key_dst_ipv4 : Z;
  key_src_port : Z;
  key_dst_port : Z;
  key_protocol : Z;
  key_has_start_ms : Z;
  key_flow_start_ms : Z;
  key_has_5tuple : Z;
}.

(** The library calls: [None] where they report failure. *)
Class NfLib (R : Type) := {
  ipfix_record_flow_key : R -> option ipfix_flow_key;
  nfct_event_forensics_tuple : nfct_event -> option (Z * Z * Z * Z * Z);
  nfct_event_forensics_tuple_v6 : nfct_event -> option (list Z * Z * list Z * Z * Z);
}.

Record nf_flow_obs := {
  ts_ms : Z;
  src_ip : Z;
  dst_ip : Z;
  src_port : Z;
  dst_port : Z;
  protocol : Z;
  wan_src_ip : Z;
  wan_src_port : Z;
  src_ip6 : list Z;
  dst_ip6 : list Z;
  wan_src_ip6 : list Z;
  wan_dst_ip6 : list Z;
  obs_router_id : string;
  from_cpe : Z;
  is_ipv6 : Z;
  is_destroy : Z;
  has_ct_id : Z;
  ct_id : Z;
  event : string;
}.
#[export] Instance eta_obs : Eta nf_flow_obs := fun o => {|
  ts_ms := ts_ms o; src_ip := src_ip o; dst_ip := dst_ip o; src_port := src_port o;
  dst_port := dst_port o; protocol := protocol o; wan_src_ip := wan_src_ip o;
  wan_src_port := wan_src_port o; src_ip6 := src_ip6 o; dst_ip6 := dst_ip6 o;
  wan_src_ip6 := wan_src_ip6 o; wan_dst_ip6 := wan_dst_ip6 o; obs_router_id := obs_router_id o;
  from_cpe := from_cpe o; is_ipv6 := is_ipv6 o; is_destroy := is_destroy o;
  has_ct_id := has_ct_id o; ct_id := ct_id o; event := event o |}.
Definition obs_zero : nf_flow_obs := {|
  ts_ms := 0; src_ip := 0; dst_ip := 0; src_port := 0; dst_port := 0; protocol := 0;
  wan_src_ip := 0; wan_src_port := 0; src_ip6 := zero16; dst_ip6 := zero16;
  wan_src_ip6 := zero16; wan_dst_ip6 := zero16; obs_router_id := EmptyString; from_cpe := 0;
  is_ipv6 := 0; is_destroy := 0; has_ct_id := 0; ct_id := 0; event := EmptyString |}.

(** [strncpy] into the zeroed 64-byte field. *)
Definition set_router (router_id : option string) (o : nf_flow_obs) : nf_flow_obs :=
  match router_id with Some r => o <| obs_router_id := str_take 63 r |> | None => o end.

Section nf_flow.
Context {R : Type} `{!NfLib R}.

Definition nf_obs_from_ipfix (rec : R) (router_id : option string) (fallback_ts_ms : Z)
    : Z * nf_flow_obs :=
  match ipfix_record_flow_key rec with
  | None => ((-1)%Z, obs_zero)
  | Some key =>
      let out := obs_zero <| src_ip := key_src_ipv4 key |> <| dst_ip := key_dst_ipv4 key |>
                   <| src_port := key_src_port key |> <| dst_port := key_dst_port key |>
                   <| protocol := key_protocol key |>
                   <| ts_ms := if truthy (key_has_start_ms key) then key_flow_start_ms key
                               else fallback_ts_ms |>
                   <| from_cpe := 0%Z |> in
      (if truthy (key_has_5tuple key) then 0%Z else (-1)%Z, set_router router_id out)
  end.

Definition nfct_event_text (t : nfct_event_type) : string :=
  match t with
  | NFCT_EVENT_NEW => "NEW"
  | NFCT_EVENT_UPDATE => "UPDATE"
  | NFCT_EVENT_DESTROY => "DESTROY"
  | NFCT_EVENT_OTHER => "PARTIAL"
  end%string.

Definition nf_obs_from_nfct (ev : nfct_event) (router_id : option string) (ts : Z)
    : Z * nf_flow_obs :=
  let destroy := truthy (nev_is_destroy ev) || bool_decide (nev_type ev = NFCT_EVENT_DESTROY) in
  let out := obs_zero <| ts_ms := ts |> <| from_cpe := 1%Z |>
               <| is_destroy := c_bool destroy |>
               <| has_ct_id := nev_has_id ev |> <| ct_id := nev_id ev |>
               <| event := nfct_event_text (nev_type ev) |> in
  let out := set_router router_id out in
  (* DESTROY may only carry the id *)
  if destroy && negb (truthy (nev_has_lan ev)) && negb (truthy (nev_has_wan ev))
       && truthy (nev_has_id ev)
  then (0%Z, out <| protocol := 0%Z |>)
  else if truthy (nev_is_ipv6 ev) then
    match nfct_event_forensics_tuple_v6 ev with
    | None => ((-1)%Z, out)
    | Some (lan, lp, wan, wp, proto) =>
        (0%Z, out <| is_ipv6 := 1%Z |> <| src_ip6 := lan |> <| wan_src_ip6 := wan |>
                <| dst_ip6 := nev_lan_dst_ip6 ev |> <| wan_dst_ip6 := nev_wan_dst_ip6 ev |>
                <| src_port := lp |> <| wan_src_port := wp |>
                <| dst_port := nev_lan_dst_port ev |> <| protocol := proto |>)
    end
  else
    match nfct_event_forensics_tuple ev with
    | None => ((-1)%Z, out)
    | Some (lan_ip, lan_port, wan_ip, wan_port, proto) =>
        (0%Z, out <| src_ip := lan_ip |> <| src_port := lan_port |>
                <| dst_ip := nev_lan_dst_ip ev |> <| dst_port := nev_lan_dst_port ev |>
                <| wan_src_ip := wan_ip |> <| wan_src_port := wan_port |>
                <| protocol := proto |>)
    end.

(** [memcmp(a, b, 16) == 0] *)
Definition same_ip6 (a b : list Z) : bool := bool_decide (a = b).

Definition nf_flows_correlate (cpe core : nf_flow_obs) (max_skew_ms : Z) : Z :=
  if negb (truthy (from_cpe cpe)) || truthy (from_cpe core) then (-1)%Z
  else if negb (is_ipv6 cpe =? is_ipv6 core)%Z then 0%Z
  else if negb (protocol cpe =? protocol core)%Z then 0%Z
  else
    let timed :=
      let dt := if (ts_ms core <? ts_ms cpe)%Z then (ts_ms cpe - ts_ms core)%Z
                else (ts_ms core - ts_ms cpe)%Z in
      if (max_skew_ms <? dt)%Z then 0%Z else 1%Z in
    if truthy (is_ipv6 cpe) then
      if negb (same_ip6 (wan_src_ip6 cpe) (src_ip6 core)) then 0%Z
      else if negb (wan_src_port cpe =? src_port core)%Z then 0%Z
      else
        let dst_zero := forallb (fun b => (b =? 0)%Z) (dst_ip6 cpe) in
        if negb dst_zero && negb (same_ip6 (dst_ip6 cpe) (dst_ip6 core)) then 0%Z
        else timed
    else
      if negb (wan_src_ip cpe =? src_ip core)%Z || negb (wan_src_port cpe =? src_port core)%Z
      then 0%Z
      else if truthy (dst_ip cpe) && truthy (dst_ip core) && negb (dst_ip cpe =? dst_ip core)%Z
      then 0%Z
      else timed.

(** ** The NDJSON line *)

(** [ipv6_hex]: eight hextets, no compression. *)
Definition ipv6_hex (a : list Z) (out_len : nat) : string :=
  let h i := fmt_0x 2 (a !!! i) in
  snprintf_s out_len
    (h 0 +:+ h 1 +:+ ":" +:+ h 2 +:+ h 3 +:+ ":" +:+ h 4 +:+ h 5 +:+ ":" +:+ h 6 +:+ h 7 +:+ ":" +:+
     h 8 +:+ h 9 +:+ ":" +:+ h 10 +:+ h 11 +:+ ":" +:+ h 12 +:+ h 13 +:+ ":" +:+ h 14 +:+ h 15)%string.

(** ["%u.%u.%u.%u:%u"] of a host-order address and a port. *)
Definition dotted (ip port : Z) : string :=
  inet_ntop4 (byte_at 3 ip) (byte_at 2 ip) (byte_at 1 ip) (byte_at 0 ip) +:+ colon +:+ fmt_u port.

(** The closing of a line, with the connection id when there is one. *)
Definition ct_suffix (obs : nf_flow_obs) : string :=
  if truthy (has_ct_id obs) then lit ",'ct_id':" +:+ fmt_u (ct_id obs) +:+ "}"%string else "}"%string.

Definition nf_obs_text (obs : nf_flow_obs) : string :=
  if truthy (from_cpe obs) then
    if truthy (is_destroy obs) && negb (truthy (src_port obs))
         && negb (truthy (wan_src_port obs)) && truthy (has_ct_id obs)
    then
      lit "{'type':'cpe_nat','event':'DESTROY','router':'" +:+ obs_router_id obs +:+
      lit "','ts':" +:+ fmt_u (ts_ms obs) +:+ lit ",'ct_id':" +:+ fmt_u (ct_id obs) +:+ "}"%string
    else
      lit "{'type':'cpe_nat','event':'" +:+ str_dflt (event obs) "NEW" +:+
      lit "','router':'" +:+ obs_router_id obs +:+ lit "','ts':" +:+ fmt_u (ts_ms obs) +:+
      (if truthy (is_ipv6 obs) then
         lit ",'ip_version':6,'lan':'[" +:+ ipv6_hex (src_ip6 obs) 48 +:+ "]:"%string +:+
         fmt_u (src_port obs) +:+
         lit "','wan':'[" +:+ ipv6_hex (wan_src_ip6 obs) 48 +:+ "]:"%string +:+
         fmt_u (wan_src_port obs)
       else
         lit ",'ip_version':4,'lan':'" +:+ dotted (src_ip obs) (src_port obs) +:+
         lit "','wan':'" +:+ dotted (wan_src_ip obs) (wan_src_port obs)) +:+
      lit "','proto':" +:+ fmt_u (protocol obs) +:+ ct_suffix obs
  else
    lit "{'type':'ipfix','router':'" +:+ obs_router_id obs +:+ lit "','ts':" +:+
    fmt_u (ts_ms obs) +:+ lit ",'flow':'" +:+ dotted (src_ip obs) (src_port obs) +:+ ">"%string +:+
    dotted (dst_ip obs) (dst_port obs) +:+ lit "','proto':" +:+ fmt_u (protocol obs) +:+ "}"%string.

(** The result and the buffer (untouched, written as the empty string, below 32
    bytes); [snprintf]'s own result is not looked at. *)
Definition nf_obs_format (obs : nf_flow_obs) (buflen : nat) : Z * string :=
  if buflen <? 32 then ((-1)%Z, EmptyString) else (0%Z, snprintf_s buflen (nf_obs_text obs)).
End nf_flow.

(** ** Correlation *)

(** What joins a CPE observation with a core one, within [skew] milliseconds. *)
Definition joined (cpe core : nf_flow_obs) (skew : Z) : Prop :=
  is_ipv6 cpe = is_ipv6 core /\ protocol cpe = protocol core /\
  wan_src_port cpe = src_port core /\ (Z.abs (ts_ms cpe - ts_ms core) <= skew)%Z /\
  if truthy (is_ipv6 cpe) then
    wan_src_ip6 cpe = src_ip6 core /\
    (Forall (fun b => b = 0%Z) (dst_ip6 cpe) \/ dst_ip6 cpe = dst_ip6 core)
  else
    wan_src_ip cpe = src_ip core /\
    (dst_ip cpe = 0%Z \/ dst_ip core = 0%Z \/ dst_ip cpe = dst_ip core).

Lemma truthy_false z : truthy z = false <-> z = 0%Z.
Proof. unfold truthy. rewrite negb_false_iff, Z.eqb_eq. done. Qed.

(** The last test of both families. *)
Lemma skew_test a b skew :
  (if (skew <? if (b <? a)%Z then (a - b)%Z else (b - a)%Z)%Z then 0%Z else 1%Z) =
  (if bool_decide (Z.abs (a - b) <= skew)%Z then 1%Z else 0%Z).
Proof.
  assert ((if (b <? a)%Z then (a - b)%Z else (b - a)%Z) = Z.abs (a - b)) as ->
    by (destruct (Z.ltb_spec b a); lia).
  case_bool_decide; destruct (Z.ltb_spec skew (Z.abs (a - b))); lia.
Qed.

Lemma dst_zero_spec l : forallb (fun b => (b =? 0)%Z) l = true <-> Forall (fun b => b = 0%Z) l.
Proof.
  induction l as [|b l IH]; simpl; [done|].
  rewrite andb_true_iff, Z.eqb_eq, IH, Forall_cons. done.
Qed.

Lemma correlate_01 cpe core skew :
  from_cpe cpe <> 0%Z -> from_cpe core = 0%Z ->
  nf_flows_correlate cpe core skew = 1%Z /\ joined cpe core skew \/
  nf_flows_correlate cpe core skew = 0%Z /\ ~ joined cpe core skew.
Proof.
  intros Hc Hk. unfold nf_flows_correlate, joined, same_ip6.
  rewrite (proj2 (truthy_spec _) Hc), (proj2 (truthy_false _) Hk). cbn [negb orb].
  destruct (Z.eqb_spec (is_ipv6 cpe) (is_ipv6 core)); cbn [negb]; [|right; split; [done|tauto]].
  destruct (Z.eqb_spec (protocol cpe) (protocol core)); cbn [negb]; [|right; split; [done|tauto]].
  rewrite skew_test. destruct (truthy (is_ipv6 cpe)) eqn:E6.
  - destruct (decide (wan_src_ip6 cpe = src_ip6 core)) as [E1|E1];
      [rewrite bool_decide_true by done|rewrite bool_decide_false by done];
      cbn [negb]; [|right; split; [done|tauto]].
    destruct (Z.eqb_spec (wan_src_port cpe) (src_port core)); cbn [negb]; [|right; split; [done|tauto]].
    pose proof (dst_zero_spec (dst_ip6 cpe)) as Hz.
    destruct (forallb _ _); cbn [negb andb].
    + case_bool_decide; [left|right]; split; tauto.
    + assert (~ Forall (fun b => b = 0%Z) (dst_ip6 cpe)) by (rewrite <- Hz; done).
      destruct (decide (dst_ip6 cpe = dst_ip6 core)) as [E2|E2];
        [rewrite (bool_decide_true (dst_ip6 cpe = dst_ip6 core)) by done
        |rewrite (bool_decide_false (dst_ip6 cpe = dst_ip6 core)) by done];
        cbn [negb]; [|right; split; [done|tauto]].
      case_bool_decide; [left|right]; split; tauto.
  - destruct (Z.eqb_spec (wan_src_ip cpe) (src_ip core)); cbn [negb orb];
      [|right; split; [done|tauto]].
    destruct (Z.eqb_spec (wan_src_port cpe) (src_port core)); cbn [negb];
      [|right; split; [done|tauto]].
    destruct (truthy (dst_ip cpe)) eqn:D1; cbn [andb].
    2:{ apply truthy_false in D1. case_bool_decide; [left|right]; split; tauto. }
    destruct (truthy (dst_ip core)) eqn:D2; cbn [andb].
    2:{ apply truthy_false in D2. case_bool_decide; [left|right]; split; tauto. }
    apply truthy_spec in D1, D2.
    destruct (Z.eqb_spec (dst_ip cpe) (dst_ip core)); cbn [negb]; [|right; split; [done|tauto]].
    case_bool_decide; [left|right]; split; tauto.
Qed.

(** The matcher answers 1 exactly for a CPE and a core observation of the
    same family, protocol and post-NAT source, whose destinations agree unless one is
    unknown, and whose timestamps are within the allowed skew in either direction; it
    answers 0 for every other such pair and -1 when the roles are wrong. *)
Theorem correlate_spec cpe core skew :
  (nf_flows_correlate cpe core skew = 1%Z <->
     from_cpe cpe <> 0%Z /\ from_cpe core = 0%Z /\ joined cpe core skew) /\
  (nf_flows_correlate cpe core skew = (-1)%Z <-> from_cpe cpe = 0%Z \/ from_cpe core <> 0%Z) /\
  In (nf_flows_correlate cpe core skew) [1; 0; -1]%Z.
Proof.
  destruct (decide (from_cpe cpe = 0%Z \/ from_cpe core <> 0%Z)) as [Hbad|Hok].
  - assert (nf_flows_correlate cpe core skew = (-1)%Z) as ->.
    { unfold nf_flows_correlate. destruct (negb _ || _) eqn:E; [done|].
      apply orb_false_iff in E as [E1 E2]. apply negb_false_iff, truthy_spec in E1.
      apply truthy_false in E2. tauto. }
    split; [split; [done|tauto]|]. split; [tauto|]. simpl. auto.
  - destruct (correlate_01 cpe core skew) as [[-> ?]|[-> ?]]; [lia|lia| |];
      assert (from_cpe cpe <> 0%Z /\ from_cpe core = 0%Z) by lia;
      (split; [split; [intros ?; first [done | tauto]|intros ?; first [done | tauto]]|]);
      (split; [split; [done|tauto]|]); simpl; auto.
Qed.

(** ** Producer and matcher together *)

Section producers.
Context {R : Type} `{!NfLib R}.

(** The event is not reduced to the id-only DESTROY observation. *)
Definition id_only_destroy (ev : nfct_event) : bool :=
  (truthy (nev_is_destroy ev) || bool_decide (nev_type ev = NFCT_EVENT_DESTROY)) &&
  negb (truthy (nev_has_lan ev)) && negb (truthy (nev_has_wan ev)) && truthy (nev_has_id ev).

Lemma from_nfct_v4 ev rid ts lan_ip lan_port wan_ip wan_port proto :
  id_only_destroy ev = false -> nev_is_ipv6 ev = 0%Z ->
  nfct_event_forensics_tuple ev = Some (lan_ip, lan_port, wan_ip, wan_port, proto) ->
  let '(rc, o) := nf_obs_from_nfct ev rid ts in
  rc = 0%Z /\ from_cpe o = 1%Z /\ is_ipv6 o = 0%Z /\ ts_ms o = ts /\ wan_src_ip o = wan_ip /\
  wan_src_port o = wan_port /\ dst_ip o = nev_lan_dst_ip ev /\ protocol o = proto.
Proof.
  intros Hid H6 Ht. unfold nf_obs_from_nfct. fold (id_only_destroy ev). rewrite Hid, H6. cbn [truthy Z.eqb negb].
  rewrite Ht. by destruct rid.
Qed.

Lemma from_nfct_v6 ev rid ts lan lp wan wp proto :
  id_only_destroy ev = false -> nev_is_ipv6 ev <> 0%Z ->
  nfct_event_forensics_tuple_v6 ev = Some (lan, lp, wan, wp, proto) ->
  let '(rc, o) := nf_obs_from_nfct ev rid ts in
  rc = 0%Z /\ from_cpe o = 1%Z /\ is_ipv6 o = 1%Z.
Proof.
  intros Hid H6 Ht. unfold nf_obs_from_nfct. fold (id_only_destroy ev).
  rewrite Hid, (proj2 (truthy_spec _) H6), Ht. by destruct rid.
Qed.

Lemma from_ipfix_ok rec key rid ts :
  ipfix_record_flow_key rec = Some key -> key_has_5tuple key <> 0%Z ->
  let '(rc, o) := nf_obs_from_ipfix rec rid ts in
  rc = 0%Z /\ from_cpe o = 0%Z /\ is_ipv6 o = 0%Z /\ protocol o = key_protocol key /\
  src_ip o = key_src_ipv4 key /\ src_port o = key_src_port key /\ dst_ip o = key_dst_ipv4 key /\
  ts_ms o = (if truthy (key_has_start_ms key) then key_flow_start_ms key else ts).
Proof.
  intros Hk H5. unfold nf_obs_from_ipfix. rewrite Hk, (proj2 (truthy_spec _) H5).
  by destruct rid.
Qed.

(** Joining NAT with the core: an IPv4 connection event and an IPFIX record
    with a full tuple correlate exactly when the event's WAN source address, port and
    protocol are the record's source and protocol, the inside destination is the
    record's or one of the two is zero, and the record's start (its export time when
    it has none) is within the skew of the event's time. *)
Theorem nat_join ev rec key r1 r2 ts fallback skew lan_ip lan_port wan_ip wan_port proto :
  id_only_destroy ev = false -> nev_is_ipv6 ev = 0%Z ->
  nfct_event_forensics_tuple ev = Some (lan_ip, lan_port, wan_ip, wan_port, proto) ->
  ipfix_record_flow_key rec = Some key -> key_has_5tuple key <> 0%Z ->
  let '(rc1, cpe) := nf_obs_from_nfct ev r1 ts in
  let '(rc2, core) := nf_obs_from_ipfix rec r2 fallback in
  rc1 = 0%Z /\ rc2 = 0%Z /\
  (nf_flows_correlate cpe core skew = 1%Z <->
     proto = key_protocol key /\ wan_ip = key_src_ipv4 key /\ wan_port = key_src_port key /\
     (nev_lan_dst_ip ev = 0%Z \/ key_dst_ipv4 key = 0%Z \/ nev_lan_dst_ip ev = key_dst_ipv4 key) /\
     (Z.abs (ts - (if truthy (key_has_start_ms key) then key_flow_start_ms key else fallback))
        <= skew)%Z).
Proof.
  intros Hid H6 Ht Hk H5.
  pose proof (from_nfct_v4 ev r1 ts _ _ _ _ _ Hid H6 Ht) as Hc.
  destruct (nf_obs_from_nfct ev r1 ts) as [rc1 cpe].
  pose proof (from_ipfix_ok rec key r2 fallback Hk H5) as Hi.
  destruct (nf_obs_from_ipfix rec r2 fallback) as [rc2 core].
  destruct Hc as (-> & C1 & C2 & C3 & C4 & C5 & C6 & C7).
  destruct Hi as (-> & I1 & I2 & I3 & I4 & I5 & I6 & I7).
  split; [done|]. split; [done|].
  destruct (correlate_01 cpe core skew) as [[-> Hj]|[-> Hj]]; [lia|done| |];
    unfold joined in Hj; rewrite C2, I2, C3, C4, C5, C6, C7, I3, I4, I5, I6, I7 in Hj;
    cbn [truthy Z.eqb negb] in Hj; split; try done; tauto.
Qed.

(** No IPv6 connection event ever correlates with an IPFIX record: the
    producer of core observations never marks them IPv6, so the matcher's IPv6 branch
    is unreachable from the two producers. *)
Theorem ipv6_never_joins ev rec key r1 r2 ts fallback skew lan lp wan wp proto :
  id_only_destroy ev = false -> nev_is_ipv6 ev <> 0%Z ->
  nfct_event_forensics_tuple_v6 ev = Some (lan, lp, wan, wp, proto) ->
  ipfix_record_flow_key rec = Some key -> key_has_5tuple key <> 0%Z ->
  nf_flows_correlate (snd (nf_obs_from_nfct ev r1 ts)) (snd (nf_obs_from_ipfix rec r2 fallback))
    skew = 0%Z.
Proof.
  intros Hid H6 Ht Hk H5.
  pose proof (from_nfct_v6 ev r1 ts _ _ _ _ _ Hid H6 Ht) as Hc.
  destruct (nf_obs_from_nfct ev r1 ts) as [rc1 cpe].
  pose proof (from_ipfix_ok rec key r2 fallback Hk H5) as Hi.
  destruct (nf_obs_from_ipfix rec r2 fallback) as [rc2 core].
  destruct Hc as (_ & C1 & C2). destruct Hi as (_ & I1 & I2 & _). simpl.
  destruct (correlate_01 cpe core skew) as [[_ Hj]|[? _]]; [lia|done| |done].
  unfold joined in Hj. rewrite C2, I2 in Hj. by destruct Hj.
Qed.

(** ** The line fits *)

(** The bounds of the C fields that the line prints. *)
Record obs_wf (o : nf_flow_obs) : Prop := {
  wf_ts_ms : in_u64 (ts_ms o);
  wf_src_port : in_u16 (src_port o);
  wf_dst_port : in_u16 (dst_port o);
  wf_protocol : in_u8 (protocol o);
  wf_wan_src_port : in_u16 (wan_src_port o);
  wf_router : strlen (obs_router_id o) < 64;
  wf_ct_id : in_u32 (ct_id o);
  wf_event : strlen (event o) < 16;
}.

#[local] Opaque inet_ntop4 fmt_u.
Lemma strlen_dotted ip port : in_u16 port -> strlen (dotted ip port) <= 21.
Proof.
  intros Hp. unfold dotted. rewrite !strlen_app.
  pose proof (strlen_ntop4 (byte_at 3 ip) (byte_at 2 ip) (byte_at 1 ip) (byte_at 0 ip)
    (byte_at_range _ _) (byte_at_range _ _) (byte_at_range _ _) (byte_at_range _ _)).
  pose proof (strlen_fmt_u16 _ Hp). simpl. lia.
Qed.
Lemma strlen_ipv6_hex a : strlen (ipv6_hex a 48) <= 47.
Proof. unfold ipv6_hex. cbv zeta. match goal with |- context [snprintf_s 48 ?s] =>
  pose proof (snprintf_s_length 48 s ltac:(lia)) end. lia. Qed.
Lemma strlen_ct_suffix o : in_u32 (ct_id o) -> strlen (ct_suffix o) <= 20.
Proof.
  intros H. unfold ct_suffix. destruct (truthy _); autorewrite with slen; [|simpl; lia].
  pose proof (strlen_fmt_u32 _ H). simpl. lia.
Qed.

#[local] Opaque ipv6_hex dotted ct_suffix str_dflt.
(** Every line is far below the 768-byte buffers. *)
Lemma strlen_obs_text o : obs_wf o -> strlen (nf_obs_text o) < 384.
Proof.
  intros [H1 H2 H3 H4 H5 H6 H7 H8]. unfold nf_obs_text.
  pose proof (strlen_fmt_u64 _ H1). pose proof (strlen_fmt_u32 _ H7).
  pose proof (strlen_fmt_u8 _ H4). pose proof (strlen_fmt_u16 _ H2). pose proof (strlen_fmt_u16 _ H5).
  pose proof (strlen_dotted (src_ip o) _ H2). pose proof (strlen_dotted (wan_src_ip o) _ H5).
  pose proof (strlen_dotted (dst_ip o) _ H3). pose proof (strlen_ipv6_hex (src_ip6 o)).
  pose proof (strlen_ipv6_hex (wan_src_ip6 o)). pose proof (strlen_ct_suffix o H7).
  assert (strlen (str_dflt (event o) "NEW") < 16)
    by (apply strlen_str_dflt; [done|simpl; lia]).
  destruct (truthy (from_cpe o)); [destruct (_ && _ && _ && _); [|destruct (truthy (is_ipv6 o))]|];
    autorewrite with slen; simpl String.length in *; lia.
Qed.

#[local] Transparent ipv6_hex dotted ct_suffix str_dflt inet_ntop4 fmt_u.
(** Formatting an observation: a buffer below 32 bytes is refused; otherwise
    the result is 0 whatever was lost, and the buffer holds the line cut to the
    buffer's size.  With the agent's 768-byte buffer nothing is ever lost: the buffer
    holds the complete JSON line. *)
Theorem obs_format_cut o buflen :
  obs_wf o ->
  (buflen < 32 -> fst (nf_obs_format o buflen) = (-1)%Z) /\
  (32 <= buflen -> nf_obs_format o buflen = (0%Z, str_take (buflen - 1) (nf_obs_text o))) /\
  (384 <= buflen -> nf_obs_format o buflen = (0%Z, nf_obs_text o)).
Proof.
  intros Hwf. pose proof (strlen_obs_text o Hwf) as Hl. unfold nf_obs_format.
  destruct (Nat.ltb_spec buflen 32); split_and!; intros; try lia; try done.
  rewrite snprintf_s_fits; [done|lia].
Qed.
End producers.

(** ** Instances *)

(** A library reading its IPFIX record and tuple from fixed values. *)
Definition key0 : ipfix_flow_key := {|
  key_src_ipv4 := 3405803777; key_dst_ipv4 := 134744072; key_src_port := 40000;
  key_dst_port := 443; key_protocol := 6; key_has_start_ms := 1;
  key_flow_start_ms := 1700000000000; key_has_5tuple := 1 |}.
#[local] Instance fixed_lib : NfLib unit := {|
  ipfix_record_flow_key := fun _ => Some key0;
  nfct_event_forensics_tuple := fun ev =>
    Some (nev_lan_src_ip ev, nev_lan_src_port ev, nev_wan_src_ip ev, nev_wan_src_port ev,
          nev_protocol ev);
  nfct_event_forensics_tuple_v6 := fun ev =>
    Some (nev_lan_src_ip6 ev, nev_lan_src_port ev, nev_wan_src_ip6 ev, nev_wan_src_port ev,
          nev_protocol ev);
|}.
Definition ev4 : nfct_event := nfct_event_zero <| nev_type := NFCT_EVENT_NEW |>
  <| nev_has_lan := 1%Z |> <| nev_lan_src_ip := 3232235777%Z |> <| nev_lan_dst_ip := 134744072%Z |>
  <| nev_wan_src_ip := 3405803777%Z |> <| nev_wan_src_port := 40000%Z |> <| nev_protocol := 6%Z |>.

Lemma nat_join_witness :
  nf_flows_correlate (snd (nf_obs_from_nfct ev4 (Some "cpe-1"%string) 1700000000050))
    (snd (nf_obs_from_ipfix tt None 0)) 1000 = 1%Z.
Proof.
  refine (proj2 (proj2 (proj2 (nat_join ev4 tt key0 (Some "cpe-1"%string) None 1700000000050 0 1000
    3232235777 0 3405803777 40000 6 _ _ _ _ _))) _); try reflexivity; [done|].
  repeat split; try (by right; right); vm_compute; congruence.
Defined.

Lemma ipv6_never_joins_witness :
  nf_flows_correlate (snd (nf_obs_from_nfct (ev4 <| nev_is_ipv6 := 1%Z |>) None 1700000000050))
    (snd (nf_obs_from_ipfix tt None 0)) 1000 = 0%Z.
Proof.
  apply (ipv6_never_joins (ev4 <| nev_is_ipv6 := 1%Z |>) tt key0 None None 1700000000050 0 1000
    zero16 0 zero16 40000 6); done.
Defined.

Lemma obs_format_cut_witness :
  nf_obs_format obs_zero 768 = (0%Z, nf_obs_text obs_zero).
Proof.
  refine (proj2 (proj2 (obs_format_cut obs_zero 768 _)) _); [|lia].
  constructor; vm_compute; first [lia | split; congruence].
Defined.
