(* ===== verification/Nflog.v ===== *)
(** * NFLOG netlink (src/src/nflog_netlink.c)

    The socket set-up messages and the walk over a received datagram.  The walk is
    modelled on checked memory: a pointer is the rest of the buffer from where it
    points, every byte read goes through [rd], and the counters [left] ([size_t]) and
    [rem] ([int]) are kept separately, as in the code, so that a wrong subtraction
    shows up as a read outside the buffer ([Oob]).  Multi-byte header fields are in
    host order, which is little-endian on the targets; the constants are those of the
    kernel's netlink headers. *)

From S2P Require Import Prelude CStr Inet.

Definition NLMSG_HDRLEN := 16.
Definition NLMSG_ERROR : Z := 2.
Definition NLMSG_DONE : Z := 3.
Definition NFNL_SUBSYS_ULOG : Z := 4.
Definition NFULNL_MSG_PACKET : Z := 0.
Definition NFULNL_MSG_CONFIG : Z := 1.
Definition NFULA_PACKET_HDR : Z := 1.
Definition NFULA_MARK : Z := 2.
Definition NFULA_TIMESTAMP : Z := 3.
Definition NFULA_PAYLOAD : Z := 9.
Definition NLA_TYPE_MASK : Z := 16383.
Definition NFLOG_NLA_HDRLEN := 4.
Definition NFLOG_GROUP_DEFAULT : Z := 5.
Definition NFLOG_COPY_RANGE_DEFAULT : Z := 60.

(** [NFLOG_NLA_ALIGN] and [NLMSG_ALIGN]: round up to a multiple of four. *)
Definition align4 (n : Z) : Z := Z.land (n + 3) (Z.lnot 3).

(** Conversion to [int]. *)
Definition i32 (z : Z) : Z := ((z + 2147483648) mod 4294967296 - 2147483648)%Z.

Definition rd16 (p : list Z) (i : nat) : chk Z :=
  b0 ← rd p i; b1 ← rd p (i + 1); mret (le_word16 b0 b1).
Definition rd32 (p : list Z) (i : nat) : chk Z :=
  b0 ← rd p i; b1 ← rd p (i + 1); b2 ← rd p (i + 2); b3 ← rd p (i + 3);
  mret (le_word32 b0 b1 b2 b3).
(** A region handed on by pointer and length. *)
Definition rd_slice (p : list Z) (i n : nat) : chk (list Z) :=
  if i + n <=? length p then Safe (take n (drop i p)) else Oob.
(** Eight bytes, most significant first. *)
Definition rd_be64 (p : list Z) (i : nat) : chk Z :=
  hi ← rd32 p i; lo ← rd32 p (i + 4); mret (ntohl hi * 4294967296 + ntohl lo)%Z.

(** ** One message's attributes *)

(** What the packet callback receives. *)
Record nflog_packet := {
  pk_payload : list Z;
  pk_hw_protocol : Z;
  pk_mark : Z;
  pk_ts_sec : Z;
  pk_ts_usec : Z;
}.
#[export] Instance eta_nflog_packet : Eta nflog_packet := fun p => {|
  pk_payload := pk_payload p; pk_hw_protocol := pk_hw_protocol p; pk_mark := pk_mark p;
  pk_ts_sec := pk_ts_sec p; pk_ts_usec := pk_ts_usec p |}.
(** The locals of [walk_packet_attrs]; an empty payload is the NULL pointer. *)
Definition packet_zero : nflog_packet := {|
  pk_payload := []; pk_hw_protocol := 0; pk_mark := 0; pk_ts_sec := 0; pk_ts_usec := 0 |}.

(** [nla_ok] reads the length only when the header is inside [remaining]; it yields
    that length, or [None]. *)
Definition nla_ok (nla : list Z) (remaining : Z) : chk (option Z) :=
  if (remaining <? 4)%Z then mret None
  else
    len ← rd16 nla 0;
    mret (if (4 <=? len)%Z && (len <=? remaining)%Z then Some len else None).
Definition nla_next (nla : list Z) (len remaining : Z) : list Z * Z :=
  (drop (Z.to_nat (align4 len)) nla, (remaining - align4 len)%Z).
Definition nla_len (len : Z) : Z := (len - Z.of_nat NFLOG_NLA_HDRLEN)%Z.

(** The [switch] on the attribute type. *)
Definition walk_attr (nla : list Z) (type dlen : Z) (a : nflog_packet) : chk nflog_packet :=
  if (type =? NFULA_PACKET_HDR)%Z then
    if (4 <=? dlen)%Z then v ← rd16 nla 4; mret (a <| pk_hw_protocol := ntohs v |>) else mret a
  else if (type =? NFULA_MARK)%Z then
    if (4 <=? dlen)%Z then v ← rd32 nla 4; mret (a <| pk_mark := ntohl v |>) else mret a
  else if (type =? NFULA_TIMESTAMP)%Z then
    if (16 <=? dlen)%Z then
      s ← rd_be64 nla 4; u ← rd_be64 nla 12;
      mret (a <| pk_ts_sec := s |> <| pk_ts_usec := u |>)
    else mret a
  else if (type =? NFULA_PAYLOAD)%Z then
    if (0 <? dlen)%Z then
      d ← rd_slice nla 4 (Z.to_nat dlen); mret (a <| pk_payload := d |>)
    else mret a
  else mret a.

Fixpoint walk_attrs_loop (fuel : nat) (nla : list Z) (rem : Z) (a : nflog_packet)
    : chk nflog_packet :=
  match fuel with
  | O => Oob
  | S f =>
      ok ← nla_ok nla rem;
      match ok with
      | None => mret a
      | Some len =>
          t ← rd16 nla 2;
          a' ← walk_attr nla (Z.land t NLA_TYPE_MASK) (nla_len len) a;
          let '(nla', rem') := nla_next nla len rem in
          walk_attrs_loop f nla' rem' a'
      end
  end.

(** The packet the callback is invoked with, if it is. *)
Definition walk_packet_attrs (attr : list Z) (attrlen : Z) : chk (option nflog_packet) :=
  a ← walk_attrs_loop (S (Z.to_nat attrlen)) attr attrlen packet_zero;
  mret (match pk_payload a with [] => None | _ => Some a end).

(** ** The datagram *)

(** [count] and the callback's invocations so far, in order.  Each round advances
    the pointer by at least sixteen bytes, so a fuel of the buffer's length plus one
    is only used up by a walk that has left the buffer. *)
Fixpoint walk_loop (fuel : nat) (p : list Z) (left count : Z) (out : list nflog_packet)
    : chk (Z * list nflog_packet) :=
  match fuel with
  | O => Oob
  | S f =>
      if (left <? 16)%Z then mret (count, out)
      else
        msglen ← rd32 p 0;
        if (msglen <? 16)%Z || (left <? msglen)%Z then mret (count, out)
        else
          type ← rd16 p 4;
          let step := align4 msglen in
          if (type =? NLMSG_DONE)%Z || (type =? NLMSG_ERROR)%Z then
            walk_loop f (drop (Z.to_nat step) p) (u64 (left - step)) count out
          else
            let subsys := Z.shiftr (Z.land type 65280) 8 in
            let msg := Z.land type 255 in
            r ← (if (subsys =? NFNL_SUBSYS_ULOG)%Z && (msg =? NFULNL_MSG_PACKET)%Z
                     && (20 <? msglen)%Z
                 then o ← walk_packet_attrs (drop 20 p) (i32 (msglen - 20));
                      mret ((count + 1)%Z, out ++ option_list o)
                 else mret (count, out));
            let '(count', out') := r in
            if (left <? step)%Z then mret (count', out')
            else walk_loop f (drop (Z.to_nat step) p) (left - step)%Z count' out'
  end.

(** The return value and the packets delivered to the callback. *)
Definition nflog_netlink_walk (buf : list Z) : chk (Z * list nflog_packet) :=
  if length buf <? 16 then mret ((-1)%Z, [])
  else walk_loop (S (length buf)) buf (Z.of_nat (length buf)) 0 [].

(** ** Receiving *)
Inductive recv_result :=
  | RecvData (d : list Z)
  | RecvAgain      (* EAGAIN / EWOULDBLOCK *)
  | RecvFailed
  | RecvEof.

(** A datagram consists of bytes. *)
Definition recv_bytes (r : recv_result) : Prop := match r with RecvData d => bytes d | _ => True end.

Definition nflog_netlink_recv (fd : Z) (r : recv_result) (buflen : nat) : Z * list Z :=
  if (fd <? 0)%Z || (buflen =? 0) then ((-1)%Z, [])
  else match r with
  | RecvData d =>
      let got := take buflen d in
      if length got =? 0 then ((-1)%Z, []) else (Z.of_nat (length got), got)
  | RecvAgain => (0%Z, [])
  | RecvFailed | RecvEof => ((-1)%Z, [])
  end.

(** ** Configuring the socket *)
Definition NFULA_CFG_CMD : Z := 1.
Definition NFULA_CFG_MODE : Z := 2.
Definition NFULNL_CFG_CMD_NONE : Z := 0.
Definition NFULNL_CFG_CMD_BIND : Z := 1.
Definition NFULNL_CFG_CMD_PF_BIND : Z := 3.
Definition NFULNL_COPY_PACKET : Z := 2.
Definition NLM_F_REQUEST : Z := 1.
Definition NFNETLINK_V0 : Z := 0.
Definition AF_UNSPEC : Z := 0.
Definition AF_INET : Z := 2.
Definition AF_INET6 : Z := 10.

(** Stores into a byte buffer. *)
Definition le_bytes16 (z : Z) : list Z := [byte_at 0 z; byte_at 1 z].
Definition put (i : nat) (bs : list Z) (buf : list Z) : list Z := list_inserts i bs buf.

(** The message of [nflog_send_cfg]. *)
Definition nflog_cfg_msg (group cmd family : Z) (extra : list Z) : list Z :=
  let buf := replicate 256 0%Z in
  let buf := put 4 (le_bytes16 (Z.lor (Z.shiftl NFNL_SUBSYS_ULOG 8) NFULNL_MSG_CONFIG)) buf in
  let buf := put 6 (le_bytes16 NLM_F_REQUEST) buf in
  let buf := put 8 (le_bytes32 1) buf in
  let buf := put 12 (le_bytes32 0) buf in
  let buf := put 16 [family] buf in
  let buf := put 17 [NFNETLINK_V0] buf in
  let buf := put 18 (le_bytes16 (htons group)) buf in
  let off := 20 in
  let buf := put (off + 2) (le_bytes16 NFULA_CFG_CMD) buf in
  let buf := put off (le_bytes16 5) buf in
  let buf := put (off + 4) [cmd] buf in
  let off := off + Z.to_nat (align4 5) in
  let '(buf, off) :=
    if (0 <? length extra) && (off + length extra <=? 256)
    then (put off extra buf, off + Z.to_nat (align4 (Z.of_nat (length extra))))
    else (buf, off) in
  take off (put 0 (le_bytes32 (Z.of_nat off)) buf).

(** The mode attribute of [nflog_set_mode]: 10 bytes of the 64-byte buffer. *)
Definition nflog_mode_attr (copy_range : Z) : list Z :=
  let attrbuf := replicate 64 0%Z in
  let attrbuf := put 2 (le_bytes16 NFULA_CFG_MODE) attrbuf in
  let attrbuf := put 0 (le_bytes16 10) attrbuf in
  let attrbuf := put 4 (le_bytes32 (htonl (dflt copy_range NFLOG_COPY_RANGE_DEFAULT))
                          ++ [NFULNL_COPY_PACKET; 0%Z]) attrbuf in
  take 10 attrbuf.

(** The kernel as the set-up sees it: [nl_sendto k m] is what [sendto] returns for
    the [k]-th message. *)
Record nl_env := {
  nl_socket : Z;
  nl_bind : Z;
  nl_sendto : nat -> list Z -> Z;
  nl_strerror : string;
}.

(** [nflog_send_cfg] as the [length sent]-th message of the socket. *)
Definition nflog_send_cfg (env : nl_env) (sent : list (list Z)) (group cmd family : Z)
    (extra : list Z) : Z * list (list Z) :=
  let m := nflog_cfg_msg group cmd family extra in
  let wr := nl_sendto env (length sent) m in
  (if (wr <? 0)%Z || negb (wr =? Z.of_nat (length m))%Z then (-1)%Z else 0%Z, sent ++ [m]).

Definition nflog_set_mode (env : nl_env) (sent : list (list Z)) (group copy_range : Z)
    : Z * list (list Z) :=
  nflog_send_cfg env sent group NFULNL_CFG_CMD_NONE AF_UNSPEC (nflog_mode_attr copy_range).

(** The outcome of [nflog_netlink_open]: the returned descriptor or -1, the error
    buffer, the messages sent, and whether the socket was closed again. *)
Record open_result := {
  op_fd : Z;
  op_err : errbuf;
  op_sent : list (list Z);
  op_closed : bool;
}.

Definition nflog_netlink_open (env : nl_env) (group copy_range : Z) (err : errbuf) : open_result :=
  let group := if (group =? 0)%Z then NFLOG_GROUP_DEFAULT else group in
  let fd := nl_socket env in
  let failed msg sent := {| op_fd := (-1)%Z; op_err := err_set err (msg +:+ nl_strerror env);
                            op_sent := sent; op_closed := true |} in
  if (fd <? 0)%Z then
    {| op_fd := (-1)%Z; op_err := err_set err ("socket(NETLINK_NETFILTER): " +:+ nl_strerror env);
       op_sent := []; op_closed := false |}
  else if negb (nl_bind env =? 0)%Z then failed "bind netlink: "%string []
  else
    let '(r1, sent) := nflog_send_cfg env [] 0 NFULNL_CFG_CMD_PF_BIND AF_INET [] in
    if negb (r1 =? 0)%Z then failed "NFLOG PF_BIND IPv4: "%string sent
    else
      (* IPv6 optional: the result is ignored *)
      let '(_, sent) := nflog_send_cfg env sent 0 NFULNL_CFG_CMD_PF_BIND AF_INET6 [] in
      let '(r3, sent) := nflog_send_cfg env sent group NFULNL_CFG_CMD_BIND AF_UNSPEC [] in
      if negb (r3 =? 0)%Z then
        {| op_fd := (-1)%Z;
           op_err := err_set err ("NFLOG BIND group " +:+ fmt_u group +:+ ": "%string +:+
                       nl_strerror env +:+ " (need CAP_NET_ADMIN?)"%string);
           op_sent := sent; op_closed := true |}
      else
        let '(r4, sent) := nflog_set_mode env sent group copy_range in
        if negb (r4 =? 0)%Z then failed "NFLOG MODE: "%string sent
        else {| op_fd := fd; op_err := err; op_sent := sent; op_closed := false |}.

(** ** Alignment *)
Lemma align4_mod n : (0 <= n)%Z -> align4 n = (n + 3 - (n + 3) mod 4)%Z.
Proof.
  intros Hn. unfold align4. change 3%Z with (Z.ones 2) at 2.
  rewrite <- Z.ldiff_land, Z.ldiff_ones_r by lia.
  rewrite Z.shiftl_mul_pow2, Z.shiftr_div_pow2 by lia. change (2 ^ 2)%Z with 4%Z.
  Z.div_mod_to_equations. lia.
Qed.
Lemma align4_spec n : (0 <= n)%Z -> (n <= align4 n < n + 4 /\ align4 n mod 4 = 0)%Z.
Proof. intros Hn. rewrite align4_mod by done. Z.div_mod_to_equations. lia. Qed.
Lemma align4_id n : (0 <= n)%Z -> (n mod 4 = 0)%Z -> align4 n = n.
Proof. intros Hn Hm. rewrite align4_mod by done. Z.div_mod_to_equations. lia. Qed.
(** Rounding up stays below any multiple of four. *)
Lemma align4_le n m : (0 <= n <= m)%Z -> (m mod 4 = 0)%Z -> (align4 n <= m)%Z.
Proof. intros Hn Hm. rewrite align4_mod by lia. Z.div_mod_to_equations. lia. Qed.

(** ** Memory safety of the walk *)
Lemma rd16_ok p i : i + 1 < length p -> exists v, rd16 p i = Safe v.
Proof. intros H. unfold rd16. do 2 (step_rd; [lia|]). by eexists. Qed.
Lemma rd32_ok p i : i + 3 < length p -> exists v, rd32 p i = Safe v.
Proof. intros H. unfold rd32. do 4 (step_rd; [lia|]). by eexists. Qed.
Lemma rd_be64_ok p i : i + 7 < length p -> exists v, rd_be64 p i = Safe v.
Proof.
  intros H. unfold rd_be64. destruct (rd32_ok p i) as [a ->]; [lia|].
  destruct (rd32_ok p (i + 4)) as [b Hb]; [lia|]. cbn. rewrite Hb. by eexists.
Qed.
Lemma rd_slice_ok p i n : i + n <= length p -> rd_slice p i n = Safe (take n (drop i p)).
Proof. intros H. unfold rd_slice. by rewrite (proj2 (Nat.leb_le _ _) H). Qed.

Lemma walk_attr_safe nla type len a :
  (4 <= len <= Z.of_nat (length nla))%Z -> exists a', walk_attr nla type (nla_len len) a = Safe a'.
Proof.
  intros Hl. unfold walk_attr, nla_len, NFLOG_NLA_HDRLEN.
  destruct (type =? _)%Z.
  { destruct (Z.leb_spec 4 (len - Z.of_nat 4)); [|by eexists].
    destruct (rd16_ok nla 4) as [v ->]; [lia|]. by eexists. }
  destruct (type =? _)%Z.
  { destruct (Z.leb_spec 4 (len - Z.of_nat 4)); [|by eexists].
    destruct (rd32_ok nla 4) as [v ->]; [lia|]. by eexists. }
  destruct (type =? _)%Z.
  { destruct (Z.leb_spec 16 (len - Z.of_nat 4)); [|by eexists].
    destruct (rd_be64_ok nla 4) as [v ->]; [lia|].
    destruct (rd_be64_ok nla 12) as [w Hw]; [lia|]. cbn. rewrite Hw. by eexists. }
  destruct (type =? _)%Z; [|by eexists].
  destruct (Z.ltb_spec 0 (len - Z.of_nat 4)); [|by eexists].
  rewrite rd_slice_ok by lia. by eexists.
Qed.

(** The attribute walk reads inside [attr] and ends, whatever its bytes. *)
Lemma walk_attrs_safe fuel nla rem a :
  (rem <= Z.of_nat (length nla))%Z -> Z.to_nat rem < fuel ->
  exists a', walk_attrs_loop fuel nla rem a = Safe a'.
Proof.
  revert nla rem a. induction fuel as [|f IH]; intros nla rem a Hr Hf; [lia|].
  cbn [walk_attrs_loop]. unfold nla_ok.
  destruct (Z.ltb_spec rem 4); [by eexists|].
  destruct (rd16_ok nla 0) as [len ->]; [lia|]. cbn.
  destruct (Z.leb_spec 4 len), (Z.leb_spec len rem); cbn; try by eexists.
  destruct (rd16_ok nla 2) as [t ->]; [lia|]. cbn.
  destruct (walk_attr_safe nla (Z.land t NLA_TYPE_MASK) len a) as [a' ->]; [lia|]. cbn.
  pose proof (align4_spec len ltac:(lia)). apply IH; [|lia]. rewrite length_drop. lia.
Qed.

Lemma walk_packet_attrs_safe attr n :
  (n <= Z.of_nat (length attr))%Z -> exists o, walk_packet_attrs attr n = Safe o.
Proof.
  intros Hn. unfold walk_packet_attrs.
  destruct (walk_attrs_safe (S (Z.to_nat n)) attr n packet_zero) as [a ->]; [done|lia|].
  by eexists.
Qed.

Lemma i32_id z : (0 <= z < 2147483648)%Z -> i32 z = z.
Proof. intros. unfold i32. rewrite Z.mod_small; lia. Qed.

(** What an iteration of the datagram walk may do to its results. *)
Definition walk_progress (count count' : Z) (out out' : list nflog_packet) (left : Z) : Prop :=
  exists k ps, count' = (count + k)%Z /\ out' = out ++ ps /\
    (Z.of_nat (length ps) <= k)%Z /\ (16 * k <= left)%Z.

Lemma walk_loop_safe fuel p count out :
  (Z.of_nat (length p) mod 4 = 0)%Z -> (Z.of_nat (length p) < 2147483648)%Z -> length p < fuel ->
  exists count' out', walk_loop fuel p (Z.of_nat (length p)) count out = Safe (count', out') /\
    walk_progress count count' out out' (Z.of_nat (length p)).
Proof.
  revert p count out. induction fuel as [|f IH]; intros p count out Hal Hmax Hf; [lia|].
  assert (Hstop : walk_progress count count out out (Z.of_nat (length p))).
  { exists 0%Z, []. rewrite app_nil_r. split_and!; simpl; done || lia. }
  cbn [walk_loop]. destruct (Z.ltb_spec (Z.of_nat (length p)) 16); [by eauto|].
  destruct (rd32_ok p 0) as [msglen ->]; [lia|]. chk_step.
  destruct (Z.ltb_spec msglen 16), (Z.ltb_spec (Z.of_nat (length p)) msglen); cbn [orb]; [by eauto..|].
  destruct (rd16_ok p 4) as [type ->]; [lia|]. chk_step.
  pose proof (align4_spec msglen ltac:(lia)) as Hs.
  pose proof (align4_le msglen _ ltac:(split; [lia|eassumption]) Hal) as Hle.
  assert (Hrest : Z.of_nat (length (drop (Z.to_nat (align4 msglen)) p)) =
    (Z.of_nat (length p) - align4 msglen)%Z) by (rewrite length_drop; lia).
  assert (Hnext : forall c o, exists count' out',
    walk_loop f (drop (Z.to_nat (align4 msglen)) p) (Z.of_nat (length p) - align4 msglen) c o
      = Safe (count', out') /\
    walk_progress c count' o out' (Z.of_nat (length p) - align4 msglen)).
  { intros c o. rewrite <- Hrest. apply IH; [rewrite Hrest|rewrite Hrest; lia|rewrite length_drop; lia].
    Z.div_mod_to_equations. lia. }
  destruct ((type =? NLMSG_DONE)%Z || (type =? NLMSG_ERROR)%Z).
  { rewrite u64_id by word_lia. destruct (Hnext count out) as (c' & o' & -> & k & ps & ? & ? & ? & ?).
    exists c', o'. split; [done|]. exists k, ps. split_and!; done || lia. }
  destruct (Z.ltb_spec (Z.of_nat (length p)) (align4 msglen)); [lia|].
  destruct (_ && _ && _) eqn:Epkt; chk_step.
  - apply andb_true_iff in Epkt as [_ Hlong]. apply Z.ltb_lt in Hlong.
    rewrite i32_id by lia.
    destruct (walk_packet_attrs_safe (drop 20 p) (msglen - 20)) as [o ->]; [rewrite length_drop; lia|].
    chk_step. destruct (Hnext (count + 1)%Z (out ++ option_list o)) as (c' & o' & -> & k & ps & ? & ? & ? & ?).
    exists c', o'. split; [done|]. exists (k + 1)%Z, (option_list o ++ ps).
    rewrite app_assoc, length_app. split_and!; try done; destruct o; simpl; lia.
  - destruct (Hnext count out) as (c' & o' & -> & k & ps & ? & ? & ? & ?).
    exists c', o'. split; [done|]. exists k, ps. split_and!; done || lia.
Qed.

(** The walk over any received datagram whose length is a multiple of four is
    memory safe and ends: whatever the bytes, every read lies inside the buffer, the
    count is -1 for a datagram shorter than one header and otherwise between the
    number of packets delivered and the number of headers that fit. *)
Theorem nflog_walk_safe buf :
  (Z.of_nat (length buf) mod 4 = 0)%Z -> (Z.of_nat (length buf) < 2147483648)%Z ->
  exists count out, nflog_netlink_walk buf = Safe (count, out) /\
    (if length buf <? 16 then count = (-1)%Z /\ out = []
     else (Z.of_nat (length out) <= count /\ 16 * count <= Z.of_nat (length buf))%Z).
Proof.
  intros Hal Hmax. unfold nflog_netlink_walk. destruct (length buf <? 16); [by eauto|].
  destruct (walk_loop_safe (S (length buf)) buf 0 [] Hal Hmax ltac:(lia))
    as (c & o & -> & k & ps & -> & -> & ? & ?).
  exists (0 + k)%Z, ([] ++ ps). split; [done|]. simpl. lia.
Qed.

Definition mark_only_msg : list Z :=
  [28; 0; 0; 0; 0; 4; 0; 0; 0; 0; 0; 0; 0; 0; 0; 0; 2; 0; 0; 5; 8; 0; 2; 0; 0; 0; 0; 9]%Z.
Lemma nflog_walk_safe_witness :
  exists count out, nflog_netlink_walk mark_only_msg = Safe (count, out) /\
    (Z.of_nat (length out) <= count /\ 16 * count <= 28)%Z.
Proof. exact (nflog_walk_safe mark_only_msg eq_refl eq_refl). Defined.

(** Past the end with bytes believed to remain, the next header read is outside. *)
Lemma walk_off_end fuel left count out :
  (16 <= left)%Z -> walk_loop fuel [] left count out = Oob.
Proof.
  intros H. destruct fuel; [done|]. cbn [walk_loop]. by destruct (Z.ltb_spec left 16); [lia|].
Qed.

(** A control message (DONE or ERROR) whose length is not a multiple of four
    and that ends the datagram makes the walk read past the buffer: the aligned
    length is subtracted from the unsigned remaining count without the check the
    other branch has, the count wraps around and the next header is read outside. *)
Theorem nflog_walk_control_overrun buf type :
  rd32 buf 0 = Safe (Z.of_nat (length buf)) -> rd16 buf 4 = Safe type ->
  type = NLMSG_DONE \/ type = NLMSG_ERROR ->
  16 <= length buf -> (Z.of_nat (length buf) mod 4 <> 0)%Z ->
  (Z.of_nat (length buf) < 4294967296)%Z ->
  nflog_netlink_walk buf = Oob.
Proof.
  intros Hlen Htype Hctl Hmin Hodd Hmax. unfold nflog_netlink_walk.
  destruct (Nat.ltb_spec (length buf) 16); [lia|].
  cbn [walk_loop].
  destruct (Z.ltb_spec (Z.of_nat (length buf)) 16); [lia|]. rewrite Hlen. cbn.
  destruct (Z.ltb_spec (Z.of_nat (length buf)) 16); [lia|].
  destruct (Z.ltb_spec (Z.of_nat (length buf)) (Z.of_nat (length buf))); [lia|]. cbn.
  rewrite Htype. cbn.
  assert (((type =? NLMSG_DONE)%Z || (type =? NLMSG_ERROR)%Z) = true) as ->
    by (destruct Hctl as [-> | ->]; done).
  pose proof (align4_spec (Z.of_nat (length buf)) ltac:(lia)) as [Hs Hm].
  assert (Z.of_nat (length buf) < align4 (Z.of_nat (length buf)))%Z.
  { destruct (decide (align4 (Z.of_nat (length buf)) = Z.of_nat (length buf))) as [E|E]; [|lia].
    rewrite E in Hm. done. }
  rewrite drop_ge by lia.
  apply walk_off_end. word_lia.
Qed.
Lemma nflog_walk_control_overrun_witness :
  nflog_netlink_walk [17; 0; 0; 0; 3; 0; 0; 0; 0; 0; 0; 0; 0; 0; 0; 0; 0]%Z = Oob.
Proof.
  apply (nflog_walk_control_overrun _ 3); [reflexivity|reflexivity|by left|simpl; lia|done|done].
Defined.

(** ** Functional correctness: datagrams as the kernel builds them *)

(** Zero bytes up to the next multiple of four. *)
Definition pad4 (n : nat) : list Z := replicate (Z.to_nat (align4 (Z.of_nat n)) - n) 0%Z.
Definition padded (b : list Z) : list Z := b ++ pad4 (length b).

(** An attribute (type, data) and a message. *)
Definition enc_attr (a : Z * list Z) : list Z :=
  padded (le_bytes16 (Z.of_nat (4 + length (snd a))) ++ le_bytes16 (fst a) ++ snd a).
Definition enc_attrs (l : list (Z * list Z)) : list Z := mjoin (enc_attr <$> l).

Inductive nl_msg :=
  | MPacket (hdr genmsg : list Z) (attrs : list (Z * list Z))
  | MOther (type : Z) (hdr body : list Z).
(** A message body that is a multiple of four bytes long keeps the datagram aligned;
    [padded] does it for the others. *)
Definition enc_raw (type : Z) (hdr body : list Z) : list Z :=
  padded (le_bytes32 (Z.of_nat (16 + length body)) ++ le_bytes16 type ++ hdr ++ body).
Definition enc_msg (m : nl_msg) : list Z :=
  match m with
  | MPacket hdr genmsg attrs => enc_raw 1024 hdr (genmsg ++ enc_attrs attrs)
  | MOther type hdr body => enc_raw type hdr body
  end.
Definition enc_msgs (l : list nl_msg) : list Z := mjoin (enc_msg <$> l).

(** Big-endian numbers. *)
Definition be_num (bs : list Z) : Z := foldl (fun n b => n * 256 + b)%Z 0%Z bs.

(** What an attribute contributes: too short ones are ignored, later ones win. *)
Definition interp (a : nflog_packet) (at_ : Z * list Z) : nflog_packet :=
  let '(type, d) := at_ in
  if (type =? NFULA_PACKET_HDR)%Z then
    if 4 <=? length d then a <| pk_hw_protocol := be_num (take 2 d) |> else a
  else if (type =? NFULA_MARK)%Z then
    if 4 <=? length d then a <| pk_mark := be_num (take 4 d) |> else a
  else if (type =? NFULA_TIMESTAMP)%Z then
    if 16 <=? length d
    then a <| pk_ts_sec := be_num (take 8 d) |> <| pk_ts_usec := be_num (take 8 (drop 8 d)) |>
    else a
  else if (type =? NFULA_PAYLOAD)%Z then
    if 0 <? length d then a <| pk_payload := d |> else a
  else a.
Definition delivered (m : nl_msg) : option nflog_packet :=
  match m with
  | MPacket _ _ attrs =>
      let a := foldl interp packet_zero attrs in
      match pk_payload a with [] => None | _ => Some a end
  | MOther _ _ _ => None
  end.
(** Messages counted: those that carry attributes. *)
Definition counted (m : nl_msg) : Z :=
  match m with MPacket _ _ (_ :: _) => 1%Z | _ => 0%Z end.

Definition attr_ok (a : Z * list Z) : Prop :=
  (0 <= fst a < 16384)%Z /\ bytes (snd a) /\ (Z.of_nat (4 + length (snd a)) < 65536)%Z.
Definition msg_ok (m : nl_msg) : Prop :=
  match m with
  | MPacket hdr genmsg attrs => length hdr = 10 /\ length genmsg = 4 /\ Forall attr_ok attrs
  | MOther type hdr body => in_u16 type /\ type <> 1024%Z /\ length hdr = 10
  end.

Lemma length_padded b : Z.of_nat (length (padded b)) = align4 (Z.of_nat (length b)).
Proof.
  unfold padded, pad4. rewrite length_app, length_replicate.
  pose proof (align4_spec (Z.of_nat (length b)) ltac:(lia)). lia.
Qed.
Lemma length_enc_attr a : Z.of_nat (length (enc_attr a)) = align4 (Z.of_nat (4 + length (snd a))).
Proof. unfold enc_attr. by rewrite length_padded. Qed.
Lemma enc_attrs_cons a l : enc_attrs (a :: l) = enc_attr a ++ enc_attrs l.
Proof. done. Qed.
Lemma enc_msgs_cons m l : enc_msgs (m :: l) = enc_msg m ++ enc_msgs l.
Proof. done. Qed.
Lemma enc_attrs_aligned l : (Z.of_nat (length (enc_attrs l)) mod 4 = 0)%Z.
Proof.
  induction l as [|a l IH]; [done|].
  rewrite enc_attrs_cons, length_app, Nat2Z.inj_add, length_enc_attr.
  rewrite Zplus_mod, IH, (proj2 (align4_spec _ (Nat2Z.is_nonneg _))). done.
Qed.

Lemma le_word16_bytes n : in_u16 n -> le_word16 (byte_at 0 n) (byte_at 1 n) = n.
Proof. intros. unfold le_word16. rewrite byte_at_0, byte_at_1. word_lia. Qed.
Lemma rd16_le n rest : in_u16 n -> rd16 (le_bytes16 n ++ rest) 0 = Safe n.
Proof. intros. cbn. f_equal. by apply le_word16_bytes. Qed.

(** Reads inside a list of known prefix. *)
Lemma rd16_here b0 b1 rest : rd16 (b0 :: b1 :: rest) 0 = Safe (le_word16 b0 b1).
Proof. done. Qed.
Lemma rd16_skip pre rest i : rd16 (pre ++ rest) (length pre + i) = rd16 rest i.
Proof.
  unfold rd16. rewrite !rd_app_r by lia.
  replace (length pre + i - length pre) with i by lia.
  replace (length pre + i + 1 - length pre) with (i + 1) by lia. done.
Qed.
Lemma rd32_skip pre rest i : rd32 (pre ++ rest) (length pre + i) = rd32 rest i.
Proof.
  unfold rd32. rewrite !rd_app_r by lia.
  replace (length pre + i - length pre) with i by lia.
  replace (length pre + i + 1 - length pre) with (i + 1) by lia.
  replace (length pre + i + 2 - length pre) with (i + 2) by lia.
  replace (length pre + i + 3 - length pre) with (i + 3) by lia. done.
Qed.
Lemma rd_be64_skip pre rest i : rd_be64 (pre ++ rest) (length pre + i) = rd_be64 rest i.
Proof. unfold rd_be64. by rewrite <- Nat.add_assoc, !rd32_skip. Qed.

Lemma ntohs_le b0 b1 : in_u8 b0 -> in_u8 b1 -> ntohs (le_word16 b0 b1) = (b0 * 256 + b1)%Z.
Proof.
  intros. unfold ntohs, htons, be_word16, le_word16. rewrite byte_at_0, byte_at_1. word_lia.
Qed.

(** Take the first bytes of a list known to have them, with their ranges. *)
Ltac uncons_bytes d :=
  let b := fresh "b" in
  destruct d as [|b d]; [cbn [length] in *; lia|];
  match goal with
  | H : bytes (_ :: _) |- _ =>
      let Hb := fresh "Hb" in
      apply Forall_cons in H as [Hb H]; change (Forall in_u8 d) with (bytes d) in H
  end.

Lemma be16_data d rest :
  bytes d -> 2 <= length d -> exists v, rd16 (d ++ rest) 0 = Safe v /\ ntohs v = be_num (take 2 d).
Proof.
  intros Hd Hl. do 2 uncons_bytes d. eexists. split; [reflexivity|].
  rewrite ntohs_le by done. unfold be_num. cbn -[Z.mul Z.add].
  rewrite take_0. cbn [foldl]. lia.
Qed.
Lemma be32_data d rest :
  bytes d -> 4 <= length d -> exists v, rd32 (d ++ rest) 0 = Safe v /\ ntohl v = be_num (take 4 d).
Proof.
  intros Hd Hl. do 4 uncons_bytes d. eexists. split; [reflexivity|].
  rewrite htonl_be_word by done. unfold be_num. cbn -[Z.mul Z.add be_word32].
  rewrite take_0. cbn [foldl]. unfold be_word32, le_word32. lia.
Qed.
Lemma be64_data d rest :
  bytes d -> 8 <= length d -> rd_be64 (d ++ rest) 0 = Safe (be_num (take 8 d)).
Proof.
  intros Hd Hl. do 8 uncons_bytes d. unfold rd_be64. cbn -[ntohl be_num Z.mul Z.add le_word32].
  rewrite !htonl_be_word by done. f_equal. unfold be_num.
  cbn -[Z.mul Z.add be_word32]. rewrite take_0. cbn [foldl]. unfold be_word32, le_word32. lia.
Qed.

(** The header of an encoded attribute, and what follows it. *)
Definition attr_hdr (n type : Z) : list Z := le_bytes16 n ++ le_bytes16 type.

Lemma walk_attr_enc n type d rest a :
  bytes d ->
  walk_attr (attr_hdr n type ++ d ++ rest) type (nla_len (Z.of_nat (4 + length d))) a =
    Safe (interp a (type, d)).
Proof.
  intros Hd. unfold walk_attr, interp, nla_len, NFLOG_NLA_HDRLEN.
  replace (Z.of_nat (4 + length d) - Z.of_nat 4)%Z with (Z.of_nat (length d)) by lia.
  set (nla := attr_hdr n type ++ d ++ rest).
  assert (E16 : rd16 nla 4 = rd16 (d ++ rest) 0) by exact (rd16_skip (attr_hdr n type) _ 0).
  assert (E32 : rd32 nla 4 = rd32 (d ++ rest) 0) by exact (rd32_skip (attr_hdr n type) _ 0).
  assert (E64 : rd_be64 nla 4 = rd_be64 (d ++ rest) 0) by exact (rd_be64_skip (attr_hdr n type) _ 0).
  assert (E64' : rd_be64 nla 12 = rd_be64 (d ++ rest) 8) by exact (rd_be64_skip (attr_hdr n type) _ 8).
  destruct (type =? NFULA_PACKET_HDR)%Z.
  { destruct (Z.leb_spec 4 (Z.of_nat (length d))), (Nat.leb_spec 4 (length d)); try lia; [|done].
    destruct (be16_data d rest Hd ltac:(lia)) as (v & Hv & Hn). rewrite E16, Hv. chk_step. by rewrite Hn. }
  destruct (type =? NFULA_MARK)%Z.
  { destruct (Z.leb_spec 4 (Z.of_nat (length d))), (Nat.leb_spec 4 (length d)); try lia; [|done].
    destruct (be32_data d rest Hd ltac:(lia)) as (v & Hv & Hn). rewrite E32, Hv. chk_step. by rewrite Hn. }
  destruct (type =? NFULA_TIMESTAMP)%Z.
  { destruct (Z.leb_spec 16 (Z.of_nat (length d))), (Nat.leb_spec 16 (length d)); try lia; [|done].
    rewrite E64, E64', be64_data by (done || lia). chk_step.
    assert (Hs : rd_be64 (d ++ rest) 8 = rd_be64 (drop 8 d ++ rest) 0).
    { rewrite <- (take_drop 8 d) at 1. rewrite <- app_assoc.
      pose proof (rd_be64_skip (take 8 d) (drop 8 d ++ rest) 0) as H'.
      rewrite length_take in H'. replace (8 `min` length d + 0) with 8 in H' by lia. exact H'. }
    rewrite Hs, be64_data; [done|by apply Forall_drop|rewrite length_drop; lia]. }
  destruct (type =? NFULA_PAYLOAD)%Z; [|done].
  destruct (Z.ltb_spec 0 (Z.of_nat (length d))), (Nat.ltb_spec 0 (length d)); try lia; [|done].
  rewrite rd_slice_ok by (unfold nla; rewrite !length_app; simpl; lia). chk_step.
  do 2 f_equal. unfold nla. rewrite Nat2Z.id, (drop_app_length' (attr_hdr n type)) by done.
  by rewrite take_app_length.
Qed.

(** The walk over encoded attributes folds their interpretations. *)
Lemma walk_attrs_enc fuel l rest a :
  Forall attr_ok l -> length (enc_attrs l) < fuel ->
  walk_attrs_loop fuel (enc_attrs l ++ rest) (Z.of_nat (length (enc_attrs l))) a =
    Safe (foldl interp a l).
Proof.
  revert fuel a. induction l as [|[type d] l IH]; intros [|f] a Hok Hf; [lia| |lia|].
  { cbn [walk_attrs_loop]. unfold nla_ok. by destruct (Z.ltb_spec (Z.of_nat (length (enc_attrs []))) 4). }
  apply Forall_cons in Hok as [(Ht & Hd & Hn) Hok]. simpl in Ht, Hd, Hn.
  rewrite enc_attrs_cons in *.
  set (n := Z.of_nat (4 + length d)).
  assert (He : enc_attr (type, d) = attr_hdr n type ++ d ++ pad4 (4 + length d)).
  { unfold enc_attr, padded, attr_hdr. cbn [snd fst]. rewrite !length_app. rewrite <- !app_assoc. done. }
  pose proof (length_enc_attr (type, d)) as Hlen. cbn [snd] in Hlen. fold n in Hlen.
  pose proof (align4_spec n ltac:(lia)) as [Hal _].
  rewrite length_app in *. rewrite Nat2Z.inj_add, Hlen.
  cbn [walk_attrs_loop]. unfold nla_ok.
  destruct (Z.ltb_spec (align4 n + Z.of_nat (length (enc_attrs l))) 4); [lia|].
  rewrite <- app_assoc. rewrite He. rewrite <- !app_assoc.
  assert (Ht0 : rd16 (attr_hdr n type ++ d ++ pad4 (4 + length d) ++ enc_attrs l ++ rest) 0 = Safe n).
  { unfold attr_hdr. rewrite <- app_assoc. apply rd16_le. unfold in_u16. lia. }
  rewrite Ht0. chk_step.
  destruct (Z.leb_spec 4 n), (Z.leb_spec n (align4 n + Z.of_nat (length (enc_attrs l)))); try lia.
  cbn [andb]. chk_step.
  assert (Ht2 : rd16 (attr_hdr n type ++ d ++ pad4 (4 + length d) ++ enc_attrs l ++ rest) 2 = Safe type).
  { unfold attr_hdr. rewrite <- app_assoc. refine (eq_trans (rd16_skip (le_bytes16 n) _ 0) _).
    apply rd16_le. unfold in_u16. lia. }
  rewrite Ht2. chk_step.
  assert (Z.land type NLA_TYPE_MASK = type) as ->.
  { change NLA_TYPE_MASK with (Z.ones 14). rewrite Z.land_ones by lia. apply Z.mod_small. lia. }
  pose proof (walk_attr_enc n type d (pad4 (4 + length d) ++ enc_attrs l ++ rest) a Hd) as Hwa.
  fold n in Hwa. rewrite Hwa. chk_step. unfold nla_next.
  replace (align4 n + Z.of_nat (length (enc_attrs l)) - align4 n)%Z with
    (Z.of_nat (length (enc_attrs l))) by lia.
  assert (Hdrop : drop (Z.to_nat (align4 n)) (enc_attr (type, d) ++ enc_attrs l ++ rest)
    = enc_attrs l ++ rest) by (apply drop_app_length'; lia).
  rewrite He in Hdrop. rewrite <- !app_assoc in Hdrop. rewrite Hdrop. by apply IH; [|lia].
Qed.

Lemma msg_type_split t :
  in_u16 t ->
  (Z.shiftr (Z.land t 65280) 8 =? NFNL_SUBSYS_ULOG)%Z && (Z.land t 255 =? NFULNL_MSG_PACKET)%Z
    = (t =? 1024)%Z.
Proof.
  intros Ht. rewrite Z.shiftr_land. change (Z.shiftr 65280 8) with (Z.ones 8).
  change 255%Z with (Z.ones 8). rewrite !Z.land_ones, Z.shiftr_div_pow2 by lia.
  change (2 ^ 8)%Z with 256%Z. unfold NFNL_SUBSYS_ULOG, NFULNL_MSG_PACKET.
  destruct (Z.eqb_spec (t / 256 mod 256) 4), (Z.eqb_spec (t mod 256) 0), (Z.eqb_spec t 1024);
    cbn [andb]; try done; exfalso; word_lia.
Qed.

(** The fields the walk reads of an encoded message followed by anything. *)
Lemma enc_raw_reads type hdr body rest :
  in_u16 type -> length hdr = 10 -> (Z.of_nat (length body) < 2147483648)%Z ->
  let p := enc_raw type hdr body ++ rest in
  let n := Z.of_nat (16 + length body) in
  rd32 p 0 = Safe n /\ rd16 p 4 = Safe type /\
  drop (Z.to_nat (align4 n)) p = rest /\
  Z.of_nat (length (enc_raw type hdr body)) = align4 n /\
  exists tl, drop 16 p = body ++ tl ++ rest.
Proof.
  intros Ht Hh Hb p n.
  assert (Hlen : Z.of_nat (length (enc_raw type hdr body)) = align4 n).
  { unfold enc_raw. rewrite length_padded. unfold n. do 2 f_equal.
    rewrite !length_app. simpl. lia. }
  assert (Hp : p = le_bytes32 n ++ le_bytes16 type ++ hdr ++ body ++
     pad4 (length (le_bytes32 n ++ le_bytes16 type ++ hdr ++ body)) ++ rest).
  { unfold p, enc_raw, padded. fold n. by rewrite <- !app_assoc. }
  split; [|split; [|split; [|split; [done|]]]].
  - rewrite Hp. cbn. f_equal. apply le_bytes32_word. unfold in_u32, n. lia.
  - rewrite Hp. refine (eq_trans (rd16_skip (le_bytes32 n) _ 0) _). by apply rd16_le.
  - unfold p. apply drop_app_length'. lia.
  - eexists. rewrite Hp. rewrite (app_assoc (le_bytes32 n)), (app_assoc _ hdr).
    apply drop_app_length'. rewrite !length_app, Hh. done.
Qed.

Lemma enc_msg_length m :
  msg_ok m -> (16 <= Z.of_nat (length (enc_msg m)))%Z /\
    (Z.of_nat (length (enc_msg m)) mod 4 = 0)%Z.
Proof.
  intros Hok. destruct m as [hdr g attrs|type hdr body]; cbn [enc_msg]; unfold enc_raw;
    rewrite length_padded; rewrite !length_app; cbn [length le_bytes32 le_bytes16];
    (split; [|apply align4_spec; lia]).
  - destruct Hok as (Hh & Hg & _). match goal with |- (_ <= align4 ?n)%Z =>
      pose proof (align4_spec n ltac:(lia)) end. rewrite Hh in *. lia.
  - destruct Hok as (_ & _ & Hh). match goal with |- (_ <= align4 ?n)%Z =>
      pose proof (align4_spec n ltac:(lia)) end. rewrite Hh in *. lia.
Qed.

Lemma length_enc_attrs_nil l : length (enc_attrs l) = 0 <-> l = [].
Proof.
  destruct l as [|a l]; [done|]. rewrite enc_attrs_cons, length_app. split; [|done].
  intros H. pose proof (length_enc_attr a) as Ha.
  pose proof (align4_spec (Z.of_nat (4 + length (snd a))) ltac:(lia)). lia.
Qed.

(** The packet branch of one iteration. *)
Lemma walk_packet_enc attrs tl :
  Forall attr_ok attrs ->
  walk_packet_attrs (enc_attrs attrs ++ tl) (Z.of_nat (length (enc_attrs attrs))) =
    Safe (let a := foldl interp packet_zero attrs in
          match pk_payload a with [] => None | _ => Some a end).
Proof.
  intros Hok. unfold walk_packet_attrs. rewrite walk_attrs_enc by (done || lia). done.
Qed.

(** The parts of a message. *)
Definition msg_type (m : nl_msg) : Z := match m with MPacket _ _ _ => 1024%Z | MOther t _ _ => t end.
Definition msg_hdr (m : nl_msg) : list Z := match m with MPacket h _ _ | MOther _ h _ => h end.
Definition msg_body (m : nl_msg) : list Z :=
  match m with MPacket _ g attrs => g ++ enc_attrs attrs | MOther _ _ b => b end.
Lemma enc_msg_raw m :
  msg_ok m -> enc_msg m = enc_raw (msg_type m) (msg_hdr m) (msg_body m) /\
    in_u16 (msg_type m) /\ length (msg_hdr m) = 10.
Proof. destruct m; cbn; intros; split_and!; try tauto; word_lia. Qed.

Lemma walk_msgs_enc l fuel count out :
  Forall msg_ok l -> (Z.of_nat (length (enc_msgs l)) < 2147483648)%Z ->
  length (enc_msgs l) < fuel ->
  walk_loop fuel (enc_msgs l) (Z.of_nat (length (enc_msgs l))) count out =
    Safe ((count + zsum counted l)%Z, out ++ omap delivered l).
Proof.
  revert fuel count out. induction l as [|m l IH]; intros [|f] count out Hok Hmax Hf; [lia| |lia|].
  { cbn. by rewrite Z.add_0_r, app_nil_r. }
  apply Forall_cons in Hok as [Hm Hok]. pose proof (enc_msg_length m Hm) as [Hmin _].
  rewrite enc_msgs_cons in *. rewrite length_app in Hmax, Hf.
  destruct (enc_msg_raw m Hm) as (Henc & Ht & Hh).
  set (type := msg_type m) in *. set (hdr := msg_hdr m) in *. set (body := msg_body m) in *.
  assert (Hraw : (Z.of_nat (length body) < 2147483648)%Z).
  { rewrite Henc in Hmax. unfold enc_raw, padded in Hmax. rewrite !length_app in Hmax. lia. }
  destruct (enc_raw_reads type hdr body (enc_msgs l) Ht Hh Hraw) as (R1 & R2 & R3 & R4 & tl & R5).
  rewrite <- Henc in R1, R2, R3, R4, R5. set (n := Z.of_nat (16 + length body)) in *.
  pose proof (align4_spec n ltac:(lia)) as [Hs _].
  cbn [walk_loop]. rewrite length_app, Nat2Z.inj_add, R4, R1. chk_step.
  destruct (Z.ltb_spec (align4 n + Z.of_nat (length (enc_msgs l))) 16); [lia|].
  destruct (Z.ltb_spec n 16), (Z.ltb_spec (align4 n + Z.of_nat (length (enc_msgs l))) n); try lia.
  cbn [orb]. rewrite R2. chk_step. rewrite R3.
  replace (align4 n + Z.of_nat (length (enc_msgs l)) - align4 n)%Z
    with (Z.of_nat (length (enc_msgs l))) by lia.
  assert (Hrest : forall c o, walk_loop f (enc_msgs l) (Z.of_nat (length (enc_msgs l))) c o =
    Safe ((c + zsum counted l)%Z, o ++ omap delivered l)) by (intros; apply IH; done || lia).
  destruct (Z.ltb_spec (align4 n + Z.of_nat (length (enc_msgs l))) (align4 n)); [lia|].
  rewrite msg_type_split by done.
  change (zsum counted (m :: l)) with (counted m + zsum counted l)%Z.
  assert (Hom : omap delivered (m :: l) = option_list (delivered m) ++ omap delivered l)
    by (cbn; by destruct (delivered m)).
  rewrite Hom. subst type.
  destruct m as [hdr' g attrs|type' hdr' body']; cbn [msg_type msg_body counted delivered] in *.
  - destruct Hm as (_ & Hg & Hattrs). cbn [Z.eqb Pos.eqb NLMSG_DONE NLMSG_ERROR orb andb].
    assert (Hn : n = (20 + Z.of_nat (length (enc_attrs attrs)))%Z)
      by (unfold n, body; rewrite length_app; lia).
    assert (Hd20 : drop 20 (enc_msg (MPacket hdr' g attrs) ++ enc_msgs l) =
      enc_attrs attrs ++ tl ++ enc_msgs l).
    { rewrite <- (drop_drop _ 4 16), R5. unfold body. rewrite <- app_assoc. by apply drop_app_length'. }
    destruct (Z.ltb_spec 20 n) as [Hlong|Hshort].
    + rewrite Hd20, i32_id by lia. replace (n - 20)%Z with (Z.of_nat (length (enc_attrs attrs))) by lia.
      rewrite walk_packet_enc by done. chk_step. rewrite Hrest.
      assert (attrs <> []) by (rewrite <- length_enc_attrs_nil; lia).
      destruct attrs as [|a0 attrs]; [done|]. rewrite <- app_assoc. do 2 f_equal. lia.
    + assert (attrs = []) as -> by (apply length_enc_attrs_nil; lia). chk_step. rewrite Hrest. done.
  - destruct Hm as (_ & Hne & _). destruct (Z.eqb_spec type' 1024); [done|]. cbn [andb]. chk_step.
    rewrite u64_id by word_lia. rewrite !Hrest. by destruct (_ || _).
Qed.

(** C33: Decoding: over any sequence of well-formed messages (packet messages with
    arbitrary attributes, and any other message, control messages included) the walk
    delivers, in order, exactly the packets that carry a payload, each with the last
    payload, protocol, mark and timestamp its attributes give (attributes too short
    for their type are ignored); its result counts the packet messages that carry
    any attribute, whether or not a payload was delivered. *)
Theorem nflog_walk_decodes l :
  Forall msg_ok l -> l <> [] -> (Z.of_nat (length (enc_msgs l)) < 2147483648)%Z ->
  nflog_netlink_walk (enc_msgs l) = Safe (zsum counted l, omap delivered l).
Proof.
  intros Hok Hne Hmax. unfold nflog_netlink_walk.
  assert (16 <= length (enc_msgs l)).
  { destruct l as [|m l]; [done|]. apply Forall_cons in Hok as [Hm _].
    rewrite enc_msgs_cons, length_app. pose proof (enc_msg_length m Hm). lia. }
  destruct (Nat.ltb_spec (length (enc_msgs l)) 16); [lia|].
  by rewrite walk_msgs_enc by (done || lia).
Qed.

(** A packet with a payload and a mark, a DONE, and a packet with a mark only. *)
Definition three_msgs : list nl_msg :=
  [MPacket (replicate 10 0%Z) [2; 0; 0; 5]%Z
     [(NFULA_PACKET_HDR, [8; 0; 0; 0]%Z); (NFULA_MARK, [0; 0; 0; 7]%Z); (NFULA_PAYLOAD, [69; 1; 2]%Z)];
   MOther NLMSG_DONE (replicate 10 0%Z) [0; 0; 0; 0]%Z;
   MPacket (replicate 10 0%Z) [2; 0; 0; 5]%Z [(NFULA_MARK, [0; 0; 0; 9]%Z)]].
Lemma nflog_walk_decodes_witness :
  nflog_netlink_walk (enc_msgs three_msgs) =
    Safe (2%Z, [{| pk_payload := [69; 1; 2]%Z; pk_hw_protocol := 2048; pk_mark := 7;
                   pk_ts_sec := 0; pk_ts_usec := 0 |}]).
Proof.
  refine (eq_trans (nflog_walk_decodes three_msgs _ _ _) _); [|done|done|reflexivity].
  repeat constructor; vm_compute; congruence.
Defined.

(** ** Set-up *)
Definition sends_ok (env : nl_env) (k : nat) (m : list Z) : bool :=
  let wr := nl_sendto env k m in
  negb ((wr <? 0)%Z || negb (wr =? Z.of_nat (length m))%Z).

(** The four messages of the set-up, in order. *)
Definition setup_msgs (group copy_range : Z) : list (list Z) :=
  let group := if (group =? 0)%Z then NFLOG_GROUP_DEFAULT else group in
  [nflog_cfg_msg 0 NFULNL_CFG_CMD_PF_BIND AF_INET [];
   nflog_cfg_msg 0 NFULNL_CFG_CMD_PF_BIND AF_INET6 [];
   nflog_cfg_msg group NFULNL_CFG_CMD_BIND AF_UNSPEC [];
   nflog_cfg_msg group NFULNL_CFG_CMD_NONE AF_UNSPEC (nflog_mode_attr copy_range)].

(** The mandatory steps of the set-up: the second message may fail. *)
Definition setup_ok (env : nl_env) (group copy_range : Z) : bool :=
  (nl_bind env =? 0)%Z &&
  match setup_msgs group copy_range with
  | [m0; _; m2; m3] => sends_ok env 0 m0 && sends_ok env 2 m2 && sends_ok env 3 m3
  | _ => false
  end.

Lemma send_cfg_rc env sent group cmd family extra :
  nflog_send_cfg env sent group cmd family extra =
    (if sends_ok env (length sent) (nflog_cfg_msg group cmd family extra) then 0%Z else (-1)%Z,
     sent ++ [nflog_cfg_msg group cmd family extra]).
Proof. unfold nflog_send_cfg, sends_ok. by destruct (_ || _). Qed.

(** Opening the NFLOG socket sends the four configuration messages in order
    (bind IPv4, bind IPv6, bind the group, copy mode; group 0 standing for 5) and
    returns the socket exactly when the socket, the bind and every mandatory message
    succeed; an IPv6 failure is ignored; on any other failure the result is -1, the
    socket is closed and no later message is sent. *)
Theorem nflog_open_sequence env group copy_range err :
  (0 <= nl_socket env)%Z ->
  let r := nflog_netlink_open env group copy_range err in
  op_sent r `prefix_of` setup_msgs group copy_range /\
  (setup_ok env group copy_range = true ->
     op_fd r = nl_socket env /\ op_closed r = false /\ op_err r = err /\
     op_sent r = setup_msgs group copy_range) /\
  (setup_ok env group copy_range = false -> op_fd r = (-1)%Z /\ op_closed r = true).
Proof.
  intros Hs. unfold nflog_netlink_open, nflog_set_mode, setup_ok, setup_msgs. cbv zeta.
  set (g := if (group =? 0)%Z then NFLOG_GROUP_DEFAULT else group). rewrite !send_cfg_rc.
  destruct (Z.ltb_spec (nl_socket env) 0); [lia|].
  destruct (nl_bind env =? 0)%Z; cbn [negb andb].
  2:{ split; [by eexists|done]. }
  cbn [length]. destruct (sends_ok env 0 _); cbn [Z.eqb negb andb app].
  2:{ split; [by eexists|done]. }
  cbn [length app]. destruct (sends_ok env 2 _); cbn [Z.eqb negb andb app].
  2:{ split; [by eexists|done]. }
  cbn [length app]. destruct (sends_ok env 3 _); cbn [Z.eqb negb andb app];
    (split; [by eexists|]); done.
Qed.

(** The mode message carries the requested snap length in network order, 60 by
    default, and announces its own length. *)
Definition env_ok : nl_env := {|
  nl_socket := 7; nl_bind := 0; nl_sendto := fun _ m => Z.of_nat (length m);
  nl_strerror := "ok"%string |}.
Lemma nflog_open_sequence_witness :
  op_fd (nflog_netlink_open env_ok 0 0 None) = 7%Z /\
  nth 3 (op_sent (nflog_netlink_open env_ok 0 0 None)) [] =
    [40; 0; 0; 0; 1; 4; 1; 0; 1; 0; 0; 0; 0; 0; 0; 0; 0; 0; 0; 5;
     5; 0; 1; 0; 0; 0; 0; 0; 10; 0; 2; 0; 0; 0; 0; 60; 2; 0; 0; 0]%Z.
Proof.
  destruct (nflog_open_sequence env_ok 0 0 None) as (_ & H & _); [done|].
  destruct (H ltac:(vm_compute; reflexivity)) as (H1 & _ & _ & H2).
  split; [exact H1|]. rewrite H2. vm_compute. reflexivity.
Defined.

(** ** The payloads delivered are bytes of the datagram *)
Definition packet_bytes (p : nflog_packet) : Prop := bytes (pk_payload p).

Lemma bytes_drop n (p : list Z) : bytes p -> bytes (drop n p).
Proof. apply Forall_drop. Qed.

Ltac chk_go := chk_step; unfold mret, chk_ret.

Lemma walk_attr_bytes nla type dlen a a' :
  bytes nla -> packet_bytes a -> walk_attr nla type dlen a = Safe a' -> packet_bytes a'.
Proof.
  intros Hn Ha. unfold walk_attr, packet_bytes in *.
  repeat match goal with |- context [if ?c then _ else _] => destruct c end;
    repeat match goal with |- context [mbind _ ?m] => destruct m eqn:?; chk_go; [|done] end;
    intros [= <-]; try done.
  unfold rd_slice in *. case_match; simplify_eq. simpl. by apply Forall_take, Forall_drop.
Qed.

Lemma walk_attrs_bytes fuel nla rem a a' :
  bytes nla -> packet_bytes a -> walk_attrs_loop fuel nla rem a = Safe a' -> packet_bytes a'.
Proof.
  revert nla rem a. induction fuel as [|f IH]; intros nla rem a Hn Ha; cbn [walk_attrs_loop]; [done|].
  destruct (nla_ok nla rem) as [[len|]|]; chk_go; [|intros [= <-]; exact Ha|discriminate].
  destruct (rd16 nla 2) as [t|]; chk_go; [|done].
  destruct (walk_attr nla _ _ a) as [a1|] eqn:E; chk_go; [|done].
  cbn [nla_next]. apply IH; [by apply bytes_drop|exact (walk_attr_bytes _ _ _ _ _ Hn Ha E)].
Qed.

Lemma walk_loop_bytes fuel p left count out count' out' :
  bytes p -> Forall packet_bytes out -> walk_loop fuel p left count out = Safe (count', out') ->
  Forall packet_bytes out'.
Proof.
  revert p left count out. induction fuel as [|f IH]; intros p left count out Hp Ho; cbn [walk_loop]; [done|].
  destruct (left <? 16)%Z; [by intros [= <- <-]|].
  destruct (rd32 p 0) as [n|]; chk_go; [|done].
  destruct (_ || _); [by intros [= <- <-]|].
  destruct (rd16 p 4) as [t|]; chk_go; [|done].
  destruct (_ || _); [apply IH; [by apply bytes_drop|done]|].
  destruct (_ && _ && _); chk_go.
  - unfold walk_packet_attrs. destruct (walk_attrs_loop _ _ _ _) as [a|] eqn:E; chk_go; [|done].
    apply walk_attrs_bytes in E; [|by apply bytes_drop|constructor].
    assert (Ho' : Forall packet_bytes
      (out ++ option_list match pk_payload a with [] => None | _ => Some a end)).
    { apply Forall_app. split; [done|]. destruct (pk_payload a) eqn:Ep; simpl; by repeat constructor. }
    destruct (left <? _)%Z; [by intros [= <- <-]|apply IH; [by apply bytes_drop|done]].
  - destruct (left <? _)%Z; [by intros [= <- <-]|apply IH; [by apply bytes_drop|done]].
Qed.

(** The walk as its callers need it: safe, and delivering bytes. *)
Lemma walk_deliver buf :
  bytes buf -> (Z.of_nat (length buf) mod 4 = 0)%Z -> (Z.of_nat (length buf) < 2147483648)%Z ->
  exists count out, nflog_netlink_walk buf = Safe (count, out) /\ Forall packet_bytes out.
Proof.
  intros Hb Hal Hmax. unfold nflog_netlink_walk. destruct (length buf <? 16); [by eauto|].
  destruct (walk_loop_safe (S (length buf)) buf 0 [] Hal Hmax ltac:(lia)) as (c & o & Hw & _).
  exists c, o. split; [done|]. by apply walk_loop_bytes in Hw; [| |constructor].
Qed.
