(* ===== verification/TcpParse.v ===== *)
(** * TCP/IP header parsing (src/agent/tcp_stats.c, first part)

    [cpe_tcp_parse_ip_packet] on checked memory: every header byte is read with
    [rd], so a length test that does not cover its reads would yield [Oob].
    Addresses in [uint32_t] are in network order on a little-endian host. *)

From S2P Require Import Prelude CStr Inet.

Definition IPPROTO_TCP : Z := 6.
Definition IPPROTO_HOPOPTS : Z := 0.
Definition IPPROTO_ROUTING : Z := 43.
Definition IPPROTO_FRAGMENT : Z := 44.
Definition IPPROTO_DSTOPTS : Z := 60.
Definition CPE_TCP_IP_MAX := 48.
Definition CPE_TCP_PREFIX_STR_MAX := 64.

Definition CPE_TCP_FLAG_FIN : Z := 1.
Definition CPE_TCP_FLAG_SYN : Z := 2.
Definition CPE_TCP_FLAG_RST : Z := 4.
Definition CPE_TCP_FLAG_ACK : Z := 16.

Record cpe_tcp_packet := {
  tp_src_ip : string;
  tp_dst_ip : string;
  tp_src_port : Z;
  tp_dst_port : Z;
  tp_flags : Z;
  tp_is_ipv6 : Z;
  tp_ip_len : Z;
  tp_seq : Z;
}.

(** [is_private_v4] on a network-order address. *)
Definition is_private_v4 (be_addr : Z) : bool :=
  (let a := ntohl be_addr in
   (Z.land a 4278190080 =? 167772160)           (* 10/8 *)
   || (Z.land a 4293918720 =? 2886729728)       (* 172.16/12 *)
   || (Z.land a 4294901760 =? 3232235520)       (* 192.168/16 *)
   || (Z.land a 4278190080 =? 2130706432)       (* 127/8 *)
   || (Z.land a 4294901760 =? 2851995648))%Z.   (* 169.254/16 *)

(** Network-order 16- and 32-bit fields. *)
Definition rd_be16 (p : list Z) (i : nat) : chk Z :=
  b0 ← rd p i; b1 ← rd p (i + 1); mret (be_word16 b0 b1).
Definition rd_be32 (p : list Z) (i : nat) : chk Z :=
  b0 ← rd p i; b1 ← rd p (i + 1); b2 ← rd p (i + 2); b3 ← rd p (i + 3);
  mret (be_word32 b0 b1 b2 b3).
Definition rd_ip4 (p : list Z) (i : nat) : chk string :=
  b0 ← rd p i; b1 ← rd p (i + 1); b2 ← rd p (i + 2); b3 ← rd p (i + 3);
  mret (inet_ntop4 b0 b1 b2 b3).
Fixpoint rd_bytes (p : list Z) (i n : nat) : chk (list Z) :=
  match n with
  | O => mret []
  | S n' => b ← rd p i; bs ← rd_bytes p (S i) n'; mret (b :: bs)
  end.

(** The TCP header fields at offset [th]. *)
Definition tcp_fields (pkt : list Z) (th : nat) (src dst : string) (ip_len is_ipv6 : Z)
    : chk (option cpe_tcp_packet) :=
  sport ← rd_be16 pkt th; dport ← rd_be16 pkt (th + 2); seq ← rd_be32 pkt (th + 4);
  flags ← rd pkt (th + 13);
  mret (Some {| tp_src_ip := src; tp_dst_ip := dst; tp_src_port := sport; tp_dst_port := dport;
                tp_flags := flags; tp_is_ipv6 := is_ipv6; tp_ip_len := ip_len; tp_seq := seq |}).

(** The loop over IPv6 extension headers: the protocol and offset it ends with.
    The offset grows by at least eight per round, so the packet's length is enough
    fuel. *)
Fixpoint ext_loop (fuel : nat) (pkt : list Z) (nx : Z) (off : nat) : chk (Z * nat) :=
  match fuel with
  | O => Oob
  | S f =>
      if negb (nx =? IPPROTO_TCP)%Z && (off + 8 <=? length pkt) then
        if (nx =? IPPROTO_HOPOPTS)%Z || (nx =? IPPROTO_ROUTING)%Z || (nx =? IPPROTO_DSTOPTS)%Z then
          ext_len ← rd pkt (off + 1); nx' ← rd pkt off;
          ext_loop f pkt nx' (off + (Z.to_nat ext_len + 1) * 8)
        else if (nx =? IPPROTO_FRAGMENT)%Z then
          nx' ← rd pkt off; ext_loop f pkt nx' (off + 8)
        else mret (nx, off)
      else mret (nx, off)
  end.

(** [None] is the result -1. *)
Definition cpe_tcp_parse_ip_packet (pkt : list Z) : chk (option cpe_tcp_packet) :=
  let len := length pkt in
  if len <? 20 then mret None
  else
    b0 ← rd pkt 0;
    let ver := Z.shiftr b0 4 in
    if (ver =? 4)%Z then
      let ihl := Z.to_nat (Z.land b0 15) in
      if (ihl <? 5) || (len <? ihl * 4) then mret None
      else
        proto ← rd pkt 9;
        if negb (proto =? IPPROTO_TCP)%Z then mret None
        else
          let ip_hdr_len := ihl * 4 in
          if len <? ip_hdr_len + 14 then mret None
          else
            src ← rd_ip4 pkt 12; dst ← rd_ip4 pkt 16; tot ← rd_be16 pkt 2;
            let ip_len := if (tot =? 0)%Z then u16 (Z.of_nat len) else tot in
            tcp_fields pkt ip_hdr_len src dst ip_len 0
    else if (ver =? 6)%Z then
      if len <? 40 + 14 then mret None
      else
        nx0 ← rd pkt 6;
        r ← ext_loop (S len) pkt nx0 40;
        let '(nx, off) := r in
        if negb (nx =? IPPROTO_TCP)%Z || (len <? off + 14) then mret None
        else
          src ← rd_bytes pkt 8 16; dst ← rd_bytes pkt 24 16; plen ← rd_be16 pkt 4;
          tcp_fields pkt off (inet_ntop6 src) (inet_ntop6 dst) (u16 (plen + 40)) 1
    else mret None.

(** ** Prefixes *)
Definition ip4_parse (s : string) : Z :=
  match inet_pton4 s with Some a => a | None => 0%Z end.

(** The mask of a prefix length in [1, 32]. *)
Definition prefix_mask (plen : Z) : Z :=
  if (plen =? 32)%Z then 4294967295%Z else u32 (Z.shiftl 4294967295 (32 - plen)).

Definition prefix_from_ip4 (be_addr plen : Z) (out_sz : nat) : string :=
  let host := ntohl be_addr in
  let plen := if (plen =? 0)%Z || (32 <? plen)%Z then 24%Z else plen in
  let net := Z.land host (prefix_mask plen) in
  let out := inet_ntop4_addr (htonl net) in
  if strlen out + 4 <? out_sz
  then out +:+ snprintf_s (out_sz - strlen out) ("/" +:+ fmt_u plen)%string
  else out.

(** ** Safety *)

Lemma rd_safe_byte p i : bytes p -> i < length p -> safe_with in_u8 (rd p i).
Proof.
  intros Hp Hi. destruct (rd_safe p i Hi) as (x & Hx & _). exists x. split; [done|].
  by eapply rd_byte.
Qed.
Lemma rd_be16_safe p i : bytes p -> i + 1 < length p -> safe_with in_u16 (rd_be16 p i).
Proof.
  intros Hp Hi. unfold rd_be16.
  apply (safe_bind _ _ in_u8); [apply rd_safe_byte; done || lia|]. intros b0 H0.
  apply (safe_bind _ _ in_u8); [apply rd_safe_byte; done || lia|]. intros b1 H1.
  apply safe_ret. unfold be_word16, le_word16. word_lia.
Qed.
Lemma rd_be32_safe p i : bytes p -> i + 3 < length p -> safe_with in_u32 (rd_be32 p i).
Proof.
  intros Hp Hi. unfold rd_be32.
  do 4 (apply (safe_bind _ _ in_u8); [apply rd_safe_byte; done || lia|]; intros ? ?).
  apply safe_ret. by apply le_word32_range.
Qed.
Lemma rd_ip4_safe p i :
  bytes p -> i + 3 < length p -> safe_with (fun s => strlen s < CPE_TCP_IP_MAX) (rd_ip4 p i).
Proof.
  intros Hp Hi. unfold rd_ip4.
  do 4 (apply (safe_bind _ _ in_u8); [apply rd_safe_byte; done || lia|]; intros ? ?).
  apply safe_ret. unfold CPE_TCP_IP_MAX.
  match goal with |- strlen (inet_ntop4 ?a ?b ?c ?d) < _ =>
    pose proof (strlen_ntop4 a b c d) end. intuition lia.
Qed.
Lemma rd_bytes_safe p i n :
  bytes p -> i + n <= length p -> safe_with (fun b => length b = n /\ bytes b) (rd_bytes p i n).
Proof.
  intros Hp. revert i. induction n as [|n IH]; intros i Hi; cbn [rd_bytes].
  { apply safe_ret. split; [done|constructor]. }
  apply (safe_bind _ _ in_u8); [apply rd_safe_byte; done || lia|]. intros b Hb.
  eapply safe_bind; [apply IH; lia|]. intros bs [Hl Hbs]. apply safe_ret.
  split; [simpl; lia|by constructor].
Qed.

(** Every field of a parsed packet within its C type. *)
Record packet_wf (p : cpe_tcp_packet) : Prop := {
  pwf_src : strlen (tp_src_ip p) < CPE_TCP_IP_MAX;
  pwf_dst : strlen (tp_dst_ip p) < CPE_TCP_IP_MAX;
  pwf_sport : in_u16 (tp_src_port p);
  pwf_dport : in_u16 (tp_dst_port p);
  pwf_flags : in_u8 (tp_flags p);
  pwf_v6 : tp_is_ipv6 p = 0%Z \/ tp_is_ipv6 p = 1%Z;
  pwf_len : in_u16 (tp_ip_len p);
  pwf_seq : in_u32 (tp_seq p);
}.
Definition result_wf (r : option cpe_tcp_packet) : Prop :=
  match r with Some p => packet_wf p | None => True end.

Lemma tcp_fields_safe pkt th src dst ip_len v6 :
  bytes pkt -> th + 13 < length pkt -> strlen src < CPE_TCP_IP_MAX -> strlen dst < CPE_TCP_IP_MAX ->
  in_u16 ip_len -> v6 = 0%Z \/ v6 = 1%Z ->
  safe_with result_wf (tcp_fields pkt th src dst ip_len v6).
Proof.
  intros Hp Ht Hs Hd Hl H6. unfold tcp_fields.
  eapply safe_bind; [apply rd_be16_safe; done || lia|]. intros sport ?.
  eapply safe_bind; [apply rd_be16_safe; done || lia|]. intros dport ?.
  eapply safe_bind; [apply rd_be32_safe; done || lia|]. intros seq ?.
  eapply safe_bind; [apply rd_safe_byte; done || lia|]. intros flags ?.
  apply safe_ret. by constructor.
Qed.

Lemma ext_loop_safe fuel pkt nx off :
  bytes pkt -> length pkt - off < 8 * fuel -> safe_with (fun _ => True) (ext_loop fuel pkt nx off).
Proof.
  intros Hp. revert nx off. induction fuel as [|f IH]; intros nx off Hf; [lia|]. cbn [ext_loop].
  destruct (negb _ && _) eqn:E; [|by apply safe_ret].
  apply andb_true_iff in E as [_ E]. apply Nat.leb_le in E.
  destruct (_ || _).
  { eapply safe_bind; [apply rd_safe_byte; done || lia|]. intros el Hel.
    eapply safe_bind; [apply rd_safe_byte; done || lia|]. intros nx' _. apply IH. lia. }
  destruct (_ =? _)%Z; [|by apply safe_ret].
  eapply safe_bind; [apply rd_safe_byte; done || lia|]. intros nx' _. apply IH. lia.
Qed.

Lemma parse_safe pkt :
  bytes pkt ->
  safe_with result_wf (cpe_tcp_parse_ip_packet pkt).
Proof.
  intros Hp. unfold cpe_tcp_parse_ip_packet.
  destruct (Nat.ltb_spec (length pkt) 20); [by apply safe_ret|].
  eapply safe_bind; [apply rd_safe_byte; done || lia|]. intros b0 Hb0.
  destruct (Z.shiftr b0 4 =? 4)%Z.
  { destruct (_ || _) eqn:Ei; [by apply safe_ret|]. apply orb_false_iff in Ei as [Ei _].
    apply Nat.ltb_ge in Ei.
    eapply safe_bind; [apply rd_safe_byte; done || lia|]. intros proto _.
    destruct (negb _); [by apply safe_ret|].
    destruct (Nat.ltb_spec (length pkt) (Z.to_nat (Z.land b0 15) * 4 + 14)); [by apply safe_ret|].
    eapply safe_bind; [apply rd_ip4_safe; done || lia|]. intros src Hs.
    eapply safe_bind; [apply rd_ip4_safe; done || lia|]. intros dst Hd.
    eapply safe_bind; [apply rd_be16_safe; done || lia|]. intros tot Ht.
    apply tcp_fields_safe; [done|lia|done|done| |by left].
    destruct (tot =? 0)%Z; [apply u16_range|done]. }
  destruct (Z.shiftr b0 4 =? 6)%Z; [|by apply safe_ret].
  destruct (Nat.ltb_spec (length pkt) (40 + 14)); [by apply safe_ret|].
  eapply safe_bind; [apply rd_safe_byte; done || lia|]. intros nx0 _.
  eapply safe_bind; [apply ext_loop_safe; [done|lia]|]. intros [nx off] _.
  destruct (negb _ || _) eqn:Eo; [by apply safe_ret|].
  apply orb_false_iff in Eo as [_ Eo]. apply Nat.ltb_ge in Eo.
  eapply safe_bind; [apply rd_bytes_safe; done || lia|]. intros src [_ Hs].
  eapply safe_bind; [apply rd_bytes_safe; done || lia|]. intros dst [_ Hd].
  eapply safe_bind; [apply rd_be16_safe; done || lia|]. intros plen _.
  pose proof (strlen_ntop6 src Hs). pose proof (strlen_ntop6 dst Hd).
  apply tcp_fields_safe; [done|lia|unfold CPE_TCP_IP_MAX; lia|unfold CPE_TCP_IP_MAX; lia
    |apply u16_range|by right].
Qed.

(** C32: Parsing any byte sequence is memory safe and ends: no header byte is read
    outside the packet, whatever header lengths and extension headers it announces,
    and every field of a packet it accepts is within its C type. *)
Theorem parse_ip_packet_safe pkt :
  bytes pkt ->
  exists r, cpe_tcp_parse_ip_packet pkt = Safe r /\ result_wf r.
Proof. exact (parse_safe pkt). Qed.

(** A SYN from 192.168.1.10:40000 to 8.8.8.8:443. *)
Definition syn_pkt : list Z :=
  [69; 0; 0; 60; 0; 0; 0; 0; 64; 6; 0; 0; 192; 168; 1; 10; 8; 8; 8; 8;
   156; 64; 1; 187; 0; 0; 0; 9; 0; 0; 0; 0; 80; 2]%Z.
Lemma parse_ip_packet_safe_witness :
  exists r, cpe_tcp_parse_ip_packet syn_pkt = Safe r /\ result_wf r.
Proof.
  apply (parse_ip_packet_safe syn_pkt). repeat constructor; vm_compute; congruence.
Defined.

(** ** Decoding packets built from their fields *)

Definition be32 (v : Z) : list Z := [byte_at 3 v; byte_at 2 v; byte_at 1 v; byte_at 0 v].

(** The first fourteen bytes of a TCP header; [ack] and [off] are not looked at. *)
Definition tcp_header (sport dport seq ack off flags : Z) : list Z :=
  be16 sport ++ be16 dport ++ be32 seq ++ be32 ack ++ [off; flags].
(** An IPv4 header with options. *)
Definition ipv4_header (ihl tos tot ident frag ttl sum : Z) (src dst opts : list Z) : list Z :=
  [64 + ihl; tos]%Z ++ be16 tot ++ be16 ident ++ be16 frag ++ [ttl; IPPROTO_TCP] ++ be16 sum ++
  src ++ dst ++ opts.

Lemma be16_word v : in_u16 v -> be_word16 (byte_at 1 v) (byte_at 0 v) = v.
Proof. intros. unfold be_word16, le_word16. rewrite byte_at_0, byte_at_1. word_lia. Qed.
Lemma be32_word v : in_u32 v -> be_word32 (byte_at 3 v) (byte_at 2 v) (byte_at 1 v) (byte_at 0 v) = v.
Proof. intros. unfold be_word32. by apply le_bytes32_word. Qed.

Lemma rd_skip (pre q : list Z) i : rd (pre ++ q) (length pre + i) = rd q i.
Proof. rewrite rd_app_r by lia. f_equal. lia. Qed.
(** [rd_skip] for the compound reads, at a known offset [n] of the packet. *)
Lemma tcp_fields_skip (pre q : list Z) n src dst l v6 :
  length pre = n ->
  tcp_fields (pre ++ q) n src dst l v6 = tcp_fields q 0 src dst l v6.
Proof.
  intros <-. unfold tcp_fields, rd_be16, rd_be32.
  rewrite <- !Nat.add_assoc. rewrite !rd_skip.
  replace (rd (pre ++ q) (length pre)) with (rd q 0); [done|].
  rewrite <- (rd_skip pre q 0). by rewrite Nat.add_0_r.
Qed.

Lemma tcp_fields_header sport dport seq ack off flags rest src dst l v6 :
  in_u16 sport -> in_u16 dport -> in_u32 seq ->
  tcp_fields (tcp_header sport dport seq ack off flags ++ rest) 0 src dst l v6 =
    Safe (Some {| tp_src_ip := src; tp_dst_ip := dst; tp_src_port := sport; tp_dst_port := dport;
                  tp_flags := flags; tp_is_ipv6 := v6; tp_ip_len := l; tp_seq := seq |}).
Proof.
  intros Hs Hd Hq. unfold tcp_fields. cbn -[be_word16 be_word32 byte_at].
  by rewrite !be16_word, be32_word.
Qed.

Lemma ihl_byte ihl : (5 <= ihl <= 15)%Z ->
  Z.shiftr (64 + ihl) 4 = 4%Z /\ Z.to_nat (Z.land (64 + ihl) 15) = Z.to_nat ihl.
Proof.
  intros H. change 15%Z with (Z.ones 4). rewrite Z.land_ones, Z.shiftr_div_pow2 by lia.
  change (2 ^ 4)%Z with 16%Z. split; [|f_equal]; Z.div_mod_to_equations; lia.
Qed.

Section ipv4.
Context (ihl tos tot ident frag ttl sum : Z) (s0 s1 s2 s3 d0 d1 d2 d3 : Z) (opts : list Z).
Context (sport dport seq ack off flags : Z) (rest : list Z).
Hypothesis Hihl : (5 <= ihl <= 15)%Z.
Hypothesis Hopts : length opts = Z.to_nat ihl * 4 - 20.
Hypothesis Htot : in_u16 tot.
Hypothesis Hsport : in_u16 sport.
Hypothesis Hdport : in_u16 dport.
Hypothesis Hseq : in_u32 seq.

Definition ipv4_packet : list Z :=
  ipv4_header ihl tos tot ident frag ttl sum [s0; s1; s2; s3] [d0; d1; d2; d3] opts ++
  tcp_header sport dport seq ack off flags ++ rest.

Lemma ipv4_header_length :
  length (ipv4_header ihl tos tot ident frag ttl sum [s0; s1; s2; s3] [d0; d1; d2; d3] opts)
    = Z.to_nat ihl * 4.
Proof. unfold ipv4_header. rewrite !length_app, Hopts. simpl. lia. Qed.

(** Decoding IPv4: a packet made of an IPv4 header of any length with any
    options, a TCP header and anything after it is accepted, and the addresses,
    ports, sequence number and flags are those it was made from; the length is the
    header's total length, or the captured length when that is zero. *)
Theorem parse_ipv4_decodes :
  cpe_tcp_parse_ip_packet ipv4_packet =
    Safe (Some {| tp_src_ip := inet_ntop4 s0 s1 s2 s3; tp_dst_ip := inet_ntop4 d0 d1 d2 d3;
                  tp_src_port := sport; tp_dst_port := dport; tp_flags := flags;
                  tp_is_ipv6 := 0;
                  tp_ip_len := if (tot =? 0)%Z then u16 (Z.of_nat (length ipv4_packet)) else tot;
                  tp_seq := seq |}).
Proof.
  destruct (ihl_byte ihl Hihl) as [Hv Hi].
  assert (Hlen : Z.to_nat ihl * 4 + 14 <= length ipv4_packet).
  { unfold ipv4_packet. rewrite !length_app, ipv4_header_length. simpl. lia. }
  unfold cpe_tcp_parse_ip_packet. cbv zeta.
  destruct (Nat.ltb_spec (length ipv4_packet) 20); [lia|].
  assert (R0 : rd ipv4_packet 0 = Safe (64 + ihl)%Z) by reflexivity.
  assert (R9 : rd ipv4_packet 9 = Safe IPPROTO_TCP) by reflexivity.
  assert (Rs : rd_ip4 ipv4_packet 12 = Safe (inet_ntop4 s0 s1 s2 s3)) by reflexivity.
  assert (Rd : rd_ip4 ipv4_packet 16 = Safe (inet_ntop4 d0 d1 d2 d3)) by reflexivity.
  assert (Rt : rd_be16 ipv4_packet 2 = Safe tot)
    by (refine (eq_trans (y := Safe (be_word16 (byte_at 1 tot) (byte_at 0 tot))) eq_refl _);
        by rewrite be16_word).
  assert (Rh : forall l, tcp_fields ipv4_packet (Z.to_nat ihl * 4) (inet_ntop4 s0 s1 s2 s3)
      (inet_ntop4 d0 d1 d2 d3) l 0 =
    Safe (Some {| tp_src_ip := inet_ntop4 s0 s1 s2 s3; tp_dst_ip := inet_ntop4 d0 d1 d2 d3;
                  tp_src_port := sport; tp_dst_port := dport; tp_flags := flags;
                  tp_is_ipv6 := 0; tp_ip_len := l; tp_seq := seq |})).
  { intros l. unfold ipv4_packet. rewrite tcp_fields_skip by apply ipv4_header_length.
    by apply tcp_fields_header. }
  rewrite R0. chk_step. rewrite Hv. cbn [Z.eqb Pos.eqb]. rewrite Hi.
  destruct (Nat.ltb_spec (Z.to_nat ihl) 5), (Nat.ltb_spec (length ipv4_packet) (Z.to_nat ihl * 4));
    try lia. cbn [orb].
  rewrite R9. chk_step. cbn [Z.eqb Pos.eqb negb IPPROTO_TCP].
  destruct (Nat.ltb_spec (length ipv4_packet) (Z.to_nat ihl * 4 + 14)); [lia|].
  rewrite Rs. chk_step. rewrite Rd. chk_step. rewrite Rt. chk_step. by rewrite Rh.
Qed.
End ipv4.

Lemma parse_ipv4_decodes_witness :
  cpe_tcp_parse_ip_packet syn_pkt =
    Safe (Some {| tp_src_ip := "192.168.1.10"; tp_dst_ip := "8.8.8.8"; tp_src_port := 40000;
                  tp_dst_port := 443; tp_flags := 2; tp_is_ipv6 := 0; tp_ip_len := 60;
                  tp_seq := 9 |}).
Proof.
  refine (eq_trans (parse_ipv4_decodes 5 0 60 0 0 64 0 192 168 1 10 8 8 8 8 [] 40000 443 9 0 80 2 []
    _ _ _ _ _ _) _); vm_compute; done || (split; congruence).
Defined.

(** ** IPv6 extension headers *)
Inductive ext :=
  | ExtOptions (type k : Z) (body : list Z)  (* hop-by-hop, routing, destination options *)
  | ExtFragment (body : list Z).
Definition ext_type (e : ext) : Z :=
  match e with ExtOptions t _ _ => t | ExtFragment _ => IPPROTO_FRAGMENT end.
Definition ext_ok (e : ext) : Prop :=
  match e with
  | ExtOptions t k body =>
      (t = IPPROTO_HOPOPTS \/ t = IPPROTO_ROUTING \/ t = IPPROTO_DSTOPTS) /\
      (0 <= k)%Z /\ length body = (Z.to_nat k + 1) * 8 - 2
  | ExtFragment body => length body = 7
  end.
(** The type of the first header of a chain that ends in TCP. *)
Definition next_type (es : list ext) : Z :=
  match es with e :: _ => ext_type e | [] => IPPROTO_TCP end.
Fixpoint enc_exts (es : list ext) : list Z :=
  match es with
  | [] => []
  | e :: es' =>
      (next_type es' :: match e with ExtOptions _ k body => k :: body | ExtFragment body => body end)
      ++ enc_exts es'
  end.

Lemma ext_loop_chain fuel es pre q :
  Forall ext_ok es -> 8 <= length q -> length (pre ++ enc_exts es ++ q) - length pre < 8 * fuel ->
  ext_loop fuel (pre ++ enc_exts es ++ q) (next_type es) (length pre) =
    Safe (IPPROTO_TCP, length pre + length (enc_exts es)).
Proof.
  revert es pre. induction fuel as [|f IH]; intros es pre Hok Hq Hf; [lia|].
  destruct es as [|e es].
  { cbn [ext_loop next_type enc_exts]. simpl. by rewrite Nat.add_0_r. }
  apply Forall_cons in Hok as [He Hok].
  set (hd := next_type es :: match e with ExtOptions _ k body => k :: body | ExtFragment body => body end).
  assert (Hpkt : pre ++ enc_exts (e :: es) ++ q = (pre ++ hd) ++ enc_exts es ++ q).
  { cbn [enc_exts]. fold hd. by rewrite <- !app_assoc. }
  assert (Hhd : 8 <= length hd).
  { unfold hd. destruct e; cbn in He |- *; lia. }
  specialize (IH es (pre ++ hd) Hok Hq). rewrite <- Hpkt, (length_app pre hd) in IH.
  assert (Hbound : length pre + 8 <= length (pre ++ enc_exts (e :: es) ++ q)).
  { rewrite Hpkt, !length_app. lia. }
  specialize (IH ltac:(lia)).
  assert (Hr0 : rd (pre ++ enc_exts (e :: es) ++ q) (length pre) = Safe (next_type es)).
  { rewrite Hpkt, <- app_assoc, <- (Nat.add_0_r (length pre)), rd_skip. done. }
  assert (Hl : length (enc_exts (e :: es)) = length hd + length (enc_exts es)).
  { cbn [enc_exts]. fold hd. by rewrite length_app. }
  cbn [ext_loop next_type]. rewrite (proj2 (Nat.leb_le _ _) Hbound).
  destruct e as [t k body|body]; cbn [ext_type ext_ok] in *.
  - destruct He as (Ht & Hk & Hb).
    assert (Hr1 : rd (pre ++ enc_exts (ExtOptions t k body :: es) ++ q) (length pre + 1) = Safe k).
    { rewrite Hpkt, <- app_assoc, rd_skip. done. }
    assert (Hlh : length hd = (Z.to_nat k + 1) * 8) by (unfold hd; cbn; lia).
    destruct Ht as [-> | [-> | ->]]; cbn [Z.eqb Pos.eqb negb andb orb IPPROTO_TCP IPPROTO_HOPOPTS
      IPPROTO_ROUTING IPPROTO_DSTOPTS]; rewrite Hr1; chk_step; rewrite Hr0; chk_step;
      rewrite <- Hlh, IH, Hl, Nat.add_assoc; done.
  - cbn [Z.eqb Pos.eqb negb andb orb IPPROTO_TCP IPPROTO_HOPOPTS IPPROTO_ROUTING IPPROTO_DSTOPTS
      IPPROTO_FRAGMENT]. rewrite Hr0. chk_step.
    assert (Hlh : length hd = 8) by (unfold hd; cbn; lia).
    rewrite <- Hlh, IH, Hl, Nat.add_assoc. done.
Qed.

Section ipv6.
Context (tc fl0 fl1 fl2 plen hop : Z) (src dst : list Z) (es : list ext).
Context (sport dport seq ack off flags : Z) (rest : list Z).
Hypothesis Htc : (0 <= tc < 16)%Z.
Hypothesis Hplen : in_u16 plen.
Hypothesis Hsrc : length src = 16.
Hypothesis Hdst : length dst = 16.
Hypothesis Hes : Forall ext_ok es.
Hypothesis Hsport : in_u16 sport.
Hypothesis Hdport : in_u16 dport.
Hypothesis Hseq : in_u32 seq.

Definition ipv6_header : list Z :=
  [96 + tc; fl0; fl1; fl2]%Z ++ be16 plen ++ [next_type es; hop] ++ src ++ dst.
Definition ipv6_packet : list Z :=
  ipv6_header ++ enc_exts es ++ tcp_header sport dport seq ack off flags ++ rest.

Lemma rd_bytes_mid (pre q bs : list Z) : rd_bytes (pre ++ bs ++ q) (length pre) (length bs) = Safe bs.
Proof.
  revert pre. induction bs as [|b bs IH]; intros pre; [done|]. cbn [length rd_bytes].
  replace (rd (pre ++ (b :: bs) ++ q) (length pre)) with (Safe b)
    by (rewrite <- (Nat.add_0_r (length pre)), rd_skip; done).
  chk_step. specialize (IH (pre ++ [b])). rewrite length_app in IH. cbn [length] in IH.
  rewrite Nat.add_1_r, <- app_assoc in IH. cbn [app] in *. by rewrite IH.
Qed.

Lemma ipv6_header_length : length ipv6_header = 40.
Proof. unfold ipv6_header. by rewrite !length_app, Hsrc, Hdst. Qed.
(** The two addresses, where the parser reads them. *)
Lemma ipv6_addresses : rd_bytes ipv6_packet 8 16 = Safe src /\ rd_bytes ipv6_packet 24 16 = Safe dst.
Proof.
  set (tail := enc_exts es ++ tcp_header sport dport seq ack off flags ++ rest).
  set (fixed := ([96 + tc; fl0; fl1; fl2] ++ be16 plen ++ [next_type es; hop])%Z).
  assert (Hps : ipv6_packet = fixed ++ src ++ dst ++ tail)
    by (unfold ipv6_packet, ipv6_header, fixed, tail; by rewrite <- !app_assoc).
  split.
  - rewrite Hps. pose proof (rd_bytes_mid fixed (dst ++ tail) src) as H. by rewrite Hsrc in H.
  - rewrite Hps, app_assoc. pose proof (rd_bytes_mid (fixed ++ src) tail dst) as H.
    by rewrite length_app, Hsrc, Hdst in H.
Qed.

(** C34: Decoding IPv6: a packet with any chain of hop-by-hop, routing,
    destination-option and fragment headers before its TCP header is accepted, and
    the addresses, ports, sequence number and flags are those it was made from; the
    length is the payload length plus 40, kept to sixteen bits. *)
Theorem parse_ipv6_decodes :
  cpe_tcp_parse_ip_packet ipv6_packet =
    Safe (Some {| tp_src_ip := inet_ntop6 src; tp_dst_ip := inet_ntop6 dst;
                  tp_src_port := sport; tp_dst_port := dport; tp_flags := flags;
                  tp_is_ipv6 := 1; tp_ip_len := u16 (plen + 40); tp_seq := seq |}).
Proof.
  pose proof ipv6_header_length as Hh. destruct ipv6_addresses as [Rs Rd].
  assert (Hlen : length ipv6_packet =
    40 + length (enc_exts es) + length (tcp_header sport dport seq ack off flags ++ rest)).
  { unfold ipv6_packet. rewrite !length_app, Hh. lia. }
  assert (Hth : 14 <= length (tcp_header sport dport seq ack off flags ++ rest))
    by (rewrite length_app; simpl; lia).
  assert (R0 : rd ipv6_packet 0 = Safe (96 + tc)%Z) by reflexivity.
  assert (R6 : rd ipv6_packet 6 = Safe (next_type es)) by reflexivity.
  assert (Rp : rd_be16 ipv6_packet 4 = Safe plen)
    by (refine (eq_trans (y := Safe (be_word16 (byte_at 1 plen) (byte_at 0 plen))) eq_refl _);
        by rewrite be16_word).
  assert (Re : ext_loop (S (length ipv6_packet)) ipv6_packet (next_type es) 40 =
    Safe (IPPROTO_TCP, 40 + length (enc_exts es))).
  { rewrite <- Hh. apply ext_loop_chain; [done|lia|]. fold ipv6_packet. lia. }
  assert (Rt : tcp_fields ipv6_packet (40 + length (enc_exts es)) (inet_ntop6 src) (inet_ntop6 dst)
      (u16 (plen + 40)) 1 =
    Safe (Some {| tp_src_ip := inet_ntop6 src; tp_dst_ip := inet_ntop6 dst;
                  tp_src_port := sport; tp_dst_port := dport; tp_flags := flags;
                  tp_is_ipv6 := 1; tp_ip_len := u16 (plen + 40); tp_seq := seq |})).
  { unfold ipv6_packet. rewrite app_assoc, tcp_fields_skip by (rewrite length_app; lia).
    by apply tcp_fields_header. }
  unfold cpe_tcp_parse_ip_packet. cbv zeta.
  destruct (Nat.ltb_spec (length ipv6_packet) 20); [lia|]. rewrite R0. chk_step.
  assert (Z.shiftr (96 + tc) 4 = 6%Z) as ->
    by (rewrite Z.shiftr_div_pow2 by lia; change (2 ^ 4)%Z with 16%Z; Z.div_mod_to_equations; lia).
  cbn [Z.eqb Pos.eqb]. destruct (Nat.ltb_spec (length ipv6_packet) (40 + 14)); [lia|].
  rewrite R6. chk_step. rewrite Re. chk_step. cbn [Z.eqb Pos.eqb negb IPPROTO_TCP orb].
  destruct (Nat.ltb_spec (length ipv6_packet) (40 + length (enc_exts es) + 14)); [lia|].
  rewrite Rs. chk_step. rewrite Rd. chk_step. rewrite Rp. chk_step. exact Rt.
Qed.
End ipv6.

Definition addr6 (b : Z) : list Z := [32; 1; 13; 184; 0; 0; 0; 0; 0; 0; 0; 0; 0; 0; 0; b]%Z.
Lemma parse_ipv6_decodes_witness :
  cpe_tcp_parse_ip_packet
    (ipv6_packet 0 0 0 0 28 64 (addr6 1) (addr6 2)
       [ExtOptions 0 0 (replicate 6 0%Z); ExtFragment (replicate 7 0%Z)]
       443 40000 7 0 80 18 []) =
    Safe (Some {| tp_src_ip := "2001:db8::1"; tp_dst_ip := "2001:db8::2"; tp_src_port := 443;
                  tp_dst_port := 40000; tp_flags := 18; tp_is_ipv6 := 1; tp_ip_len := 68;
                  tp_seq := 7 |}).
Proof.
  refine (eq_trans (parse_ipv6_decodes 0 0 0 0 28 64 (addr6 1) (addr6 2)
       [ExtOptions 0 0 (replicate 6 0%Z); ExtFragment (replicate 7 0%Z)]
       443 40000 7 0 80 18 [] _ _ _ _ _ _ _ _) _).
  1: lia. 1: unfold in_u16; lia. 1,2: reflexivity.
  2,3: unfold in_u16; lia. 2: unfold in_u32; lia. 2: vm_compute; reflexivity.
  constructor; [split_and!; [by left|lia|reflexivity]|]. by repeat constructor.
Defined.

(** ** Masks, private ranges and prefixes *)

(** Masking with the [32 - k] high bits clears the [k] low ones. *)
Lemma land_high_mask a k :
  in_u32 a -> (0 <= k <= 32)%Z -> Z.land a (4294967296 - 2 ^ k) = (a - a mod 2 ^ k)%Z.
Proof.
  intros Ha Hk.
  assert (Hm : (4294967296 - 2 ^ k)%Z = Z.shiftl (Z.ones (32 - k)) k).
  { rewrite Z.ones_equiv, Z.shiftl_mul_pow2, Z.mul_pred_l, <- Z.pow_add_r by lia.
    replace (32 - k + k)%Z with 32%Z by lia. done. }
  assert (Hl : (a - a mod 2 ^ k)%Z = Z.shiftl (Z.shiftr a k) k).
  { rewrite Z.shiftl_mul_pow2, Z.shiftr_div_pow2 by lia.
    pose proof (Z.div_mod a (2 ^ k) ltac:(lia)). lia. }
  rewrite Hm, Hl. apply Z.bits_inj'. intros i Hi.
  rewrite Z.land_spec, !Z.shiftl_spec by lia.
  destruct (Z.ltb_spec i k).
  { rewrite !(Z.testbit_neg_r _ (i - k)) by lia. by rewrite andb_false_r. }
  rewrite Z.shiftr_spec by lia. replace (i - k + k)%Z with i by lia.
  destruct (Z.ltb_spec i 32).
  { rewrite Z.ones_spec_low by lia. by rewrite andb_true_r. }
  assert (Z.testbit a i = false) as ->; [|done].
  destruct (decide (a = 0%Z)) as [->|]; [apply Z.bits_0|].
  apply Z.bits_above_log2; [word_lia|]. apply Z.log2_lt_pow2; [word_lia|].
  apply (Z.lt_le_trans _ (2 ^ 32)); [word_lia|]. apply Z.pow_le_mono_r; lia.
Qed.

(** The private, loopback and link-local IPv4 ranges, in host order. *)
Definition private_range (a : Z) : Prop :=
  (167772160 <= a <= 184549375 \/      (* 10.0.0.0 - 10.255.255.255 *)
   2886729728 <= a <= 2887778303 \/    (* 172.16.0.0 - 172.31.255.255 *)
   3232235520 <= a <= 3232301055 \/    (* 192.168.0.0 - 192.168.255.255 *)
   2130706432 <= a <= 2147483647 \/    (* 127.0.0.0 - 127.255.255.255 *)
   2851995648 <= a <= 2852061183)%Z.   (* 169.254.0.0 - 169.254.255.255 *)

Lemma is_private_v4_spec be_addr : is_private_v4 be_addr = true <-> private_range (ntohl be_addr).
Proof.
  unfold is_private_v4, private_range. cbv zeta. set (a := ntohl be_addr).
  assert (Ha : in_u32 a) by apply htonl_range.
  pose proof (land_high_mask a 24 Ha ltac:(lia)) as H24.
  pose proof (land_high_mask a 20 Ha ltac:(lia)) as H20.
  pose proof (land_high_mask a 16 Ha ltac:(lia)) as H16.
  change (4294967296 - 2 ^ 24)%Z with 4278190080%Z in H24.
  change (4294967296 - 2 ^ 20)%Z with 4293918720%Z in H20.
  change (4294967296 - 2 ^ 16)%Z with 4294901760%Z in H16.
  rewrite H24, H20, H16, !orb_true_iff, !Z.eqb_eq.
  change (2 ^ 24)%Z with 16777216%Z. change (2 ^ 20)%Z with 1048576%Z.
  change (2 ^ 16)%Z with 65536%Z. unfold in_u32 in Ha. clear H24 H20 H16.
  Z.div_mod_to_equations. lia.
Qed.

Lemma prefix_mask_spec plen :
  (1 <= plen <= 32)%Z -> prefix_mask plen = (4294967296 - 2 ^ (32 - plen))%Z.
Proof.
  intros Hp. unfold prefix_mask. destruct (Z.eqb_spec plen 32) as [->|]; [done|].
  rewrite Z.shiftl_mul_pow2 by lia. unfold u32.
  assert (H2 : (2 ^ (32 - plen) * 2 ^ plen = 4294967296)%Z).
  { rewrite <- Z.pow_add_r by lia. by replace (32 - plen + plen)%Z with 32%Z by lia. }
  assert (0 < 2 ^ (32 - plen))%Z by (apply Z.pow_pos_nonneg; lia).
  assert (1 < 2 ^ plen)%Z by (apply (Z.pow_gt_1 2 plen); lia).
  symmetry. apply (Z.mod_unique_pos _ _ (2 ^ (32 - plen) - 1)); nia.
Qed.

(** The network of an address in host order. *)
Definition network (a plen : Z) : Z := (a - a mod 2 ^ (32 - plen))%Z.

Lemma network_range a plen : in_u32 a -> (1 <= plen <= 32)%Z -> in_u32 (network a plen).
Proof.
  intros Ha Hp. unfold network. assert (0 < 2 ^ (32 - plen))%Z by (apply Z.pow_pos_nonneg; lia).
  pose proof (Z.mod_pos_bound a (2 ^ (32 - plen)) ltac:(lia)).
  pose proof (Z.mod_le a (2 ^ (32 - plen)) ltac:(word_lia) ltac:(lia)). word_lia.
Qed.

Lemma prefix_text be_addr plen :
  (1 <= plen <= 32)%Z ->
  prefix_from_ip4 be_addr plen CPE_TCP_PREFIX_STR_MAX =
    inet_ntop4_addr (htonl (network (ntohl be_addr) plen)) +:+ "/"%string +:+ fmt_u plen.
Proof.
  intros Hp. unfold prefix_from_ip4.
  destruct (Z.eqb_spec plen 0), (Z.ltb_spec 32 plen); try lia. cbn [orb].
  rewrite prefix_mask_spec, land_high_mask by (apply htonl_range || lia).
  fold (network (ntohl be_addr) plen). set (s := inet_ntop4_addr _).
  pose proof (strlen_ntop4_addr (htonl (network (ntohl be_addr) plen))) as Hl. fold s in Hl.
  unfold CPE_TCP_PREFIX_STR_MAX. destruct (Nat.ltb_spec (strlen s + 4) 64); [|lia].
  rewrite snprintf_s_fits; [done|].
  change (S (strlen (fmt_u plen)) < 64 - strlen s).
  pose proof (strlen_fmt_u8 plen ltac:(word_lia)). lia.
Qed.

Lemma str_app_inj_r (s s' t : string) : s +:+ t = s' +:+ t -> s = s'.
Proof.
  revert s'. induction s as [|c s IH]; intros [|c' s'] H; [done| | |].
  - apply (f_equal String.length) in H. rewrite !strlen_app in H. simpl in H. lia.
  - apply (f_equal String.length) in H. rewrite !strlen_app in H. simpl in H. lia.
  - rewrite !str_app_cons in H. injection H as -> H. f_equal. by apply IH.
Qed.

(** Prefix roll-up: for a mask of 1 to 32 bits, two addresses get the same
    prefix string exactly when they lie in the same network, and the string is the
    network's address, a slash and the mask length. *)
Theorem prefix_groups_by_network a b plen :
  in_u32 a -> in_u32 b -> (1 <= plen <= 32)%Z ->
  prefix_from_ip4 a plen CPE_TCP_PREFIX_STR_MAX =
    inet_ntop4_addr (htonl (network (ntohl a) plen)) +:+ "/"%string +:+ fmt_u plen /\
  (prefix_from_ip4 a plen CPE_TCP_PREFIX_STR_MAX = prefix_from_ip4 b plen CPE_TCP_PREFIX_STR_MAX <->
   (ntohl a / 2 ^ (32 - plen) = ntohl b / 2 ^ (32 - plen))%Z).
Proof.
  intros Ha Hb Hp. rewrite !prefix_text by done. split; [done|].
  assert (H2 : (0 < 2 ^ (32 - plen))%Z) by (apply Z.pow_pos_nonneg; lia).
  assert (Hn : forall x, network x plen = (2 ^ (32 - plen) * (x / 2 ^ (32 - plen)))%Z).
  { intros x. unfold network. pose proof (Z.div_mod x (2 ^ (32 - plen)) ltac:(lia)). lia. }
  split.
  - intros H. apply str_app_inj_r in H. apply (f_equal inet_pton4) in H.
    rewrite !inet_pton4_ntop4_addr in H by apply htonl_range. injection H as H.
    apply (f_equal ntohl) in H.
    rewrite !ntohl_htonl in H by (apply network_range; [apply htonl_range|done]).
    rewrite !Hn in H. nia.
  - intros H. by rewrite !Hn, H.
Qed.
Lemma prefix_groups_by_network_witness :
  prefix_from_ip4 (htonl 134744072) 24 CPE_TCP_PREFIX_STR_MAX =
  prefix_from_ip4 (htonl 134744200) 24 CPE_TCP_PREFIX_STR_MAX.
Proof.
  refine (proj2 (proj2 (prefix_groups_by_network (htonl 134744072) (htonl 134744200) 24 _ _ _)) _);
    [apply htonl_range|apply htonl_range|lia|vm_compute; reflexivity].
Defined.
