(* ===== verification/Table.v ===== *)
(** * Bounded keyed tables with eviction

    The remotes and the prefixes of the TCP statistics ([remote_index] and
    [prefix_index] of src/agent/tcp_stats.c) are kept by one algorithm: find the
    entry with the key, else append a new one, else clear and reuse the one with the
    lowest packet count.  This file states the algorithm once and proves what a
    sequence of updates through it computes: exact per-key sums as long as the number
    of distinct keys stays within the capacity, and an under-approximation after. *)

From S2P Require Import Prelude CStr.

Section table.
Context {A : Type} `{!Inhabited A} (key : A -> string) (pkts : A -> Z) (fresh : string -> A).

(** [best = 0; for (i = 1; ...) if (pkts[i] < pkts[best]) best = i;] *)
Fixpoint argmin (l : list A) (i best : nat) (best_v : Z) : nat :=
  match l with
  | [] => best
  | x :: l' => if (pkts x <? best_v)%Z then argmin l' (S i) i (pkts x) else argmin l' (S i) best best_v
  end.
Definition lowest (l : list A) : nat :=
  match l with [] => 0 | x :: l' => argmin l' 1 0 (pkts x) end.

(** The index of the entry for [k] and the table. *)
Definition table_index (cap : nat) (l : list A) (k : string) : nat * list A :=
  match find_index (fun x => streq (key x) k) l with
  | Some i => (i, l)
  | None =>
      if length l <? cap then (length l, l ++ [fresh k])
      else let best := lowest l in (best, <[best := fresh k]> l)
  end.

Lemma argmin_spec l pre best b :
  pre !! best = Some b -> Forall (fun y => pkts b <= pkts y)%Z pre ->
  exists b', (pre ++ l) !! argmin l (length pre) best (pkts b) = Some b' /\
    Forall (fun y => pkts b' <= pkts y)%Z (pre ++ l).
Proof.
  revert pre best b. induction l as [|x l IH]; intros pre best b Hb Hmin; simpl.
  { exists b. by rewrite app_nil_r. }
  replace (pre ++ x :: l) with ((pre ++ [x]) ++ l) by by rewrite <- app_assoc.
  replace (S (length pre)) with (length (pre ++ [x])) by (rewrite length_app; simpl; lia).
  destruct (Z.ltb_spec (pkts x) (pkts b)); apply IH.
  - by rewrite lookup_app_r, Nat.sub_diag by lia.
  - apply Forall_app. split; [|by constructor; [lia|constructor]].
    eapply Forall_impl; [exact Hmin|]. simpl. intros. lia.
  - apply lookup_app_l_Some. done.
  - apply Forall_app. split; [done|]. by constructor; [lia|constructor].
Qed.
Lemma lowest_spec l :
  l <> [] -> exists b, l !! lowest l = Some b /\ Forall (fun y => pkts b <= pkts y)%Z l.
Proof.
  destruct l as [|x l]; [done|]. intros _.
  apply (argmin_spec l [x] 0 x); [done|by constructor].
Qed.

(** ** Updates through the table *)
Context {P : Type} (cap : nat) (keyof : P -> option string) (upd : P -> A -> A).
Hypothesis cap_pos : 0 < cap.
Hypothesis key_fresh : forall p k, keyof p = Some k -> key (fresh k) = k.
Hypothesis key_upd : forall p a, key (upd p a) = key a.

(** One item: nothing when it has no key. *)
Definition tstep (l : list A) (p : P) : list A :=
  match keyof p with
  | None => l
  | Some k => let '(i, l1) := table_index cap l k in <[i := upd p (l1 !!! i)]> l1
  end.
Definition trun (ps : list P) : list A := foldl tstep [] ps.

(** The three ways an item reaches the table. *)
Inductive tcase (l : list A) (p : P) (k : string) : list A -> Prop :=
  | tcase_hit i x : l !! i = Some x -> key x = k -> tcase l p k (<[i := upd p x]> l)
  | tcase_new : k ∉ (key <$> l) -> length l < cap -> tcase l p k (l ++ [upd p (fresh k)])
  | tcase_evict i x : k ∉ (key <$> l) -> cap <= length l -> l !! i = Some x ->
      Forall (fun y => pkts x <= pkts y)%Z l -> tcase l p k (<[i := upd p (fresh k)]> l).

Lemma find_key_None l k : find_index (fun x => streq (key x) k) l = None -> k ∉ (key <$> l).
Proof.
  rewrite find_index_None. intros H Hin. apply list_elem_of_fmap in Hin as (x & -> & Hx).
  apply list_elem_of_lookup in Hx as [i Hi]. specialize (H i x Hi).
  apply streq_false in H. done.
Qed.

Lemma tstep_case l p k : keyof p = Some k -> tcase l p k (tstep l p).
Proof.
  intros Hk. unfold tstep. rewrite Hk. unfold table_index.
  destruct (find_index _ l) as [i|] eqn:Ef.
  { apply find_index_Some in Ef as (x & Hx & Hs & _). apply streq_true in Hs.
    rewrite (list_lookup_total_correct _ _ _ Hx). by eapply tcase_hit. }
  apply find_key_None in Ef. destruct (Nat.ltb_spec (length l) cap).
  - rewrite list_lookup_total_middle by done. rewrite insert_app_r_alt, Nat.sub_diag by lia.
    by apply tcase_new.
  - destruct (lowest_spec l) as (b & Hb & Hmin); [intros ->; simpl in *; lia|].
    rewrite list_lookup_total_insert_eq by by eapply lookup_lt_Some.
    rewrite list_insert_insert_eq. by eapply tcase_evict.
Qed.

Lemma fmap_insert_key (l : list A) (i : nat) x y :
  l !! i = Some x -> key y = key x -> key <$> <[i := y]> l = key <$> l.
Proof.
  intros Hx Hk. rewrite list_fmap_insert, Hk. apply list_insert_id.
  by rewrite list_lookup_fmap, Hx.
Qed.

(** ** Well-formedness *)
Definition table_wf (l : list A) : Prop := NoDup (key <$> l) /\ length l <= cap.

Lemma tstep_wf l p : table_wf l -> table_wf (tstep l p).
Proof.
  intros [Hnd Hlen]. destruct (keyof p) as [k|] eqn:Hk.
  2:{ unfold tstep. by rewrite Hk. }
  pose proof (key_fresh p k Hk) as Hf.
  destruct (tstep_case l p k Hk) as [i x Hx Hkx|Hnew Hlt|i x Hnew Hge Hx Hmin].
  - split; [|by rewrite length_insert]. by erewrite fmap_insert_key.
  - split; [|rewrite length_app; simpl; lia].
    rewrite fmap_app. apply NoDup_app. split; [done|]. split; [|apply NoDup_singleton].
    intros k' Hk' Hs. apply list_elem_of_singleton in Hs. simpl in Hs.
    rewrite key_upd, Hf in Hs. by subst.
  - split; [|by rewrite length_insert]. rewrite list_fmap_insert, key_upd, Hf.
    by apply NoDup_insert.
Qed.
Lemma trun_wf ps : table_wf (trun ps).
Proof.
  induction ps as [|p ps IH] using rev_ind; [split; [constructor|simpl; lia]|].
  unfold trun in *. rewrite foldl_app. by apply tstep_wf.
Qed.

(** The distinct keys, in order of first appearance. *)
Definition see (acc : list string) (p : P) : list string :=
  match keyof p with
  | Some k => if decide (k ∈ acc) then acc else acc ++ [k]
  | None => acc
  end.
Definition seen (ps : list P) : list string := foldl see [] ps.

Lemma seen_snoc ps p : seen (ps ++ [p]) = see (seen ps) p.
Proof. unfold seen. by rewrite foldl_app. Qed.
Lemma trun_snoc ps p : trun (ps ++ [p]) = tstep (trun ps) p.
Proof. unfold trun. by rewrite foldl_app. Qed.
Lemma length_see acc p : length acc <= length (see acc p).
Proof. unfold see. repeat case_match; rewrite ?length_app; lia. Qed.
Lemma seen_NoDup ps : NoDup (seen ps).
Proof.
  induction ps as [|p ps IH] using rev_ind; [constructor|]. rewrite seen_snoc. unfold see.
  destruct (keyof p) as [k|]; [|done]. destruct (decide _) as [|Hn]; [done|].
  apply NoDup_app. split; [done|]. split; [|apply NoDup_singleton].
  intros x Hx Hs. apply list_elem_of_singleton in Hs. by subst.
Qed.

(** Without eviction the table holds exactly the keys seen, in that order. *)
Lemma trun_seen ps : length (seen ps) <= cap -> key <$> trun ps = seen ps.
Proof.
  induction ps as [|p ps IH] using rev_ind; [done|]. rewrite seen_snoc, trun_snoc. intros Hl.
  pose proof (length_see (seen ps) p). specialize (IH ltac:(lia)).
  unfold see in *. destruct (keyof p) as [k|] eqn:Hk.
  2:{ unfold tstep. by rewrite Hk. }
  assert (Hlen : length (trun ps) = length (seen ps)) by (by rewrite <- IH, length_fmap).
  destruct (tstep_case (trun ps) p k Hk) as [i x Hx Hkx|Hnew Hlt|i x Hnew Hge Hx Hmin].
  - erewrite fmap_insert_key by (done || apply key_upd). rewrite decide_True; [done|].
    rewrite <- IH, <- Hkx. apply list_elem_of_fmap_2. by eapply list_elem_of_lookup_2.
  - rewrite decide_False by by rewrite <- IH. rewrite fmap_app, IH. simpl.
    by rewrite key_upd, (key_fresh _ _ Hk).
  - rewrite decide_False in Hl by by rewrite <- IH. rewrite length_app in Hl. simpl in Hl. lia.
Qed.

(** ** Sums kept in the entries *)
Section measure.
Context (m : A -> Z) (d : P -> Z) (W : Z).
Hypothesis m_fresh : forall k, m (fresh k) = 0%Z.
Hypothesis m_upd : forall p a, (0 <= m a < W)%Z -> m (upd p a) = ((m a + d p) mod W)%Z.
Hypothesis d_nonneg : forall p, (0 <= d p)%Z.

(** What the items with a key contribute, in all and to one key. *)
Definition keyed (p : P) : Z := match keyof p with Some _ => d p | None => 0%Z end.
Definition at_key (k : string) (p : P) : Z :=
  match keyof p with Some k' => if decide (k' = k) then d p else 0%Z | None => 0%Z end.

Lemma keyed_nonneg p : (0 <= keyed p)%Z.
Proof. unfold keyed. destruct (keyof p); [apply d_nonneg|lia]. Qed.
Lemma keyed_sum_nonneg ps : (0 <= zsum keyed ps)%Z.
Proof. apply zsum_nonneg. intros. apply keyed_nonneg. Qed.

Lemma Forall_nonneg_sum l a : Forall (fun a => 0 <= m a)%Z l -> a ∈ l -> (m a <= zsum m l)%Z.
Proof.
  intros Hl Ha. apply zsum_elem_le; [|done]. intros y Hy.
  by apply (proj1 (Forall_forall _ l) Hl).
Qed.

(** Whatever is evicted, the entries never claim more than was added. *)
Lemma trun_sum ps :
  (zsum keyed ps < W)%Z ->
  Forall (fun a => 0 <= m a)%Z (trun ps) /\ (zsum m (trun ps) <= zsum keyed ps)%Z.
Proof.
  induction ps as [|p ps IH] using rev_ind; [intros; split; [constructor|simpl; lia]|].
  rewrite trun_snoc, zsum_app. simpl. rewrite Z.add_0_r. intros HW.
  pose proof (keyed_nonneg p) as Hp. destruct (IH ltac:(lia)) as [Hpos Hsum]. clear IH.
  destruct (keyof p) as [k|] eqn:Hk.
  2:{ unfold tstep. rewrite Hk. split; [done|lia]. }
  assert (keyed p = d p) as Hd by (unfold keyed; by rewrite Hk).
  assert (Hf : m (upd p (fresh k)) = d p).
  { pose proof (keyed_sum_nonneg ps). rewrite m_upd, m_fresh, Z.add_0_l by (rewrite m_fresh; lia).
    apply Z.mod_small. lia. }
  destruct (tstep_case (trun ps) p k Hk) as [i x Hx Hkx|Hnew Hlt|i x Hnew Hge Hx Hmin].
  - assert (Hin : x ∈ trun ps) by by eapply list_elem_of_lookup_2.
    pose proof (Forall_nonneg_sum _ _ Hpos Hin).
    assert (0 <= m x)%Z by by eapply Forall_lookup_1 in Hpos.
    assert (Hu : m (upd p x) = (m x + d p)%Z) by (rewrite m_upd by lia; apply Z.mod_small; lia).
    split; [apply Forall_insert; [done|lia]|]. rewrite (zsum_insert _ _ _ _ _ Hx). lia.
  - split; [apply Forall_app; split; [done|constructor; [lia|constructor]]|].
    rewrite zsum_app. simpl. lia.
  - assert (0 <= m x)%Z by by eapply Forall_lookup_1 in Hpos.
    split; [apply Forall_insert; [done|lia]|]. rewrite (zsum_insert _ _ _ _ _ Hx). lia.
Qed.

Lemma at_key_unseen ps k : k ∉ seen ps -> zsum (at_key k) ps = 0%Z.
Proof.
  induction ps as [|p ps IH] using rev_ind; [done|]. rewrite seen_snoc, zsum_app. simpl.
  unfold see, at_key at 2. intros Hk. destruct (keyof p) as [k'|]; [|rewrite IH; done].
  destruct (decide (k' ∈ seen ps)).
  - rewrite IH by done. rewrite decide_False; [done|]. by intros ->.
  - rewrite elem_of_app, list_elem_of_singleton in Hk. rewrite IH by tauto.
    rewrite decide_False; [done|]. intros ->. tauto.
Qed.

(** While the distinct keys fit, every entry holds exactly its key's sum. *)
Lemma trun_exact ps :
  length (seen ps) <= cap -> (zsum keyed ps < W)%Z ->
  Forall (fun a => m a = zsum (at_key (key a)) ps) (trun ps).
Proof.
  induction ps as [|p ps IH] using rev_ind; [constructor|].
  rewrite seen_snoc, trun_snoc, zsum_app. simpl. rewrite Z.add_0_r. intros Hl HW.
  pose proof (length_see (seen ps) p). pose proof (keyed_nonneg p) as Hp.
  specialize (IH ltac:(lia) ltac:(lia)).
  pose proof (trun_sum ps ltac:(lia)) as [Hpos Hsum].
  pose proof (trun_seen ps ltac:(lia)) as Hseen. pose proof (trun_wf ps) as [Hnd _].
  destruct (keyof p) as [k|] eqn:Hk.
  2:{ unfold tstep. rewrite Hk. eapply Forall_impl; [exact IH|]. cbn. intros a Ha.
      rewrite zsum_app. simpl. unfold at_key at 2. rewrite Hk. lia. }
  assert (keyed p = d p) as Hd by (unfold keyed; by rewrite Hk).
  assert (Hother : forall a, key a <> k -> zsum (at_key (key a)) (ps ++ [p]) = zsum (at_key (key a)) ps).
  { intros a Hne. rewrite zsum_app. simpl. unfold at_key at 2. rewrite Hk, decide_False by congruence. lia. }
  assert (Hsame : zsum (at_key k) (ps ++ [p]) = (zsum (at_key k) ps + d p)%Z).
  { rewrite zsum_app. simpl. unfold at_key at 2. rewrite Hk, decide_True by done. lia. }
  unfold see in Hl. rewrite Hk in Hl.
  destruct (tstep_case (trun ps) p k Hk) as [i x Hx Hkx|Hnew Hlt|i x Hnew Hge Hx Hmin].
  - apply Forall_lookup. intros j a Ha. apply list_lookup_insert_Some in Ha.
    destruct Ha as [(-> & <- & _)|[Hne Ha]].
    + pose proof (Forall_nonneg_sum _ x Hpos ltac:(by eapply list_elem_of_lookup_2)).
      pose proof (Forall_lookup_1 _ _ _ _ Hpos Hx). cbn in *.
      rewrite key_upd, Hkx, Hsame, m_upd by lia. rewrite Z.mod_small by lia.
      by rewrite (Forall_lookup_1 _ _ _ _ IH Hx), Hkx.
    + rewrite Hother; [by apply (Forall_lookup_1 _ _ _ _ IH Ha)|].
      intros He. apply Hne. eapply NoDup_fmap_eq; [exact Hnd|done|done|congruence].
  - apply Forall_app. split.
    + apply Forall_forall. intros a Ha. rewrite Hother.
      * by apply (proj1 (Forall_forall _ _) IH).
      * intros <-. apply Hnew. by apply list_elem_of_fmap_2.
    + constructor; [|constructor]. pose proof (keyed_sum_nonneg ps).
      rewrite key_upd, (key_fresh _ _ Hk), Hsame, m_upd, m_fresh by (rewrite m_fresh; lia).
      rewrite at_key_unseen by by rewrite <- Hseen. rewrite Z.add_0_l. apply Z.mod_small. lia.
  - rewrite decide_False in Hl by by rewrite <- Hseen. rewrite length_app in Hl. simpl in Hl.
    rewrite <- Hseen, length_fmap in Hl. lia.
Qed.
End measure.
End table.

(** The distinct keys depend on the keys alone. *)
Lemma seen_fmap {P Q} (keyof : Q -> option string) (g : P -> Q) (l : list P) :
  seen keyof (g <$> l) = seen (fun p => keyof (g p)) l.
Proof.
  induction l as [|p l IH] using rev_ind; [done|].
  rewrite fmap_app, seen_snoc. simpl. rewrite seen_snoc, IH. done.
Qed.
