(* ===== verification/TcpStats.v ===== *)
(** * TCP control-plane aggregation (src/agent/tcp_stats.c, src/include/cpe_tcp_stats.h)

    The NFLOG statistics of one agent: totals, a table of remotes and a table of
    prefixes, and the window of recent SYNs that detects retransmissions.  The C
    tables are arrays with a count; only the entries below the count are ever read,
    and they are the lists here, so the counts are the lists' lengths. *)

From S2P Require Import Prelude CStr Inet Clock Table Nflog TcpParse.

Definition CPE_TCP_REMOTE_MAX := 256.
Definition CPE_TCP_PREFIX_MAX := 128.
Definition FLOW_WINDOW := 64.

Record cpe_tcp_remote := {
  tr_remote_ip : string;
  tr_local_ip : string;
  tr_remote_port : Z;
  tr_local_port : Z;
  tr_syn_count : Z;
  tr_fin_count : Z;
  tr_rst_count : Z;
  tr_pkt_count : Z;
  tr_syn_retrans : Z;
  tr_bytes_est : Z;
  tr_last_seen_ms : Z;
}.
#[export] Instance eta_remote : Eta cpe_tcp_remote := fun r => {|
  tr_remote_ip := tr_remote_ip r; tr_local_ip := tr_local_ip r;
  tr_remote_port := tr_remote_port r; tr_local_port := tr_local_port r;
  tr_syn_count := tr_syn_count r; tr_fin_count := tr_fin_count r;
  tr_rst_count := tr_rst_count r; tr_pkt_count := tr_pkt_count r;
  tr_syn_retrans := tr_syn_retrans r; tr_bytes_est := tr_bytes_est r;
  tr_last_seen_ms := tr_last_seen_ms r |}.

Record cpe_tcp_prefix := {
  tx_prefix : string;
  tx_remote_count : Z;
  tx_syn_count : Z;
  tx_fin_count : Z;
  tx_rst_count : Z;
  tx_pkt_count : Z;
  tx_syn_retrans : Z;
  tx_bytes_est : Z;
}.
#[export] Instance eta_prefix : Eta cpe_tcp_prefix := fun p => {|
  tx_prefix := tx_prefix p; tx_remote_count := tx_remote_count p;
  tx_syn_count := tx_syn_count p; tx_fin_count := tx_fin_count p;
  tx_rst_count := tx_rst_count p; tx_pkt_count := tx_pkt_count p;
  tx_syn_retrans := tx_syn_retrans p; tx_bytes_est := tx_bytes_est p |}.

Record cpe_tcp_snapshot := {
  sn_nflog_group : Z;
  sn_syn_total : Z;
  sn_fin_total : Z;
  sn_rst_total : Z;
  sn_pkt_total : Z;
  sn_syn_retrans_total : Z;
  sn_bytes_total : Z;
  sn_pkts_parsed : Z;
  sn_pkts_non_tcp : Z;
  sn_pkts_parse_fail : Z;
  sn_prefix_len : Z;
  sn_ts_iso : string;
  sn_remotes : list cpe_tcp_remote;
  sn_prefixes : list cpe_tcp_prefix;
}.
#[export] Instance eta_snapshot : Eta cpe_tcp_snapshot := fun s => {|
  sn_nflog_group := sn_nflog_group s; sn_syn_total := sn_syn_total s;
  sn_fin_total := sn_fin_total s; sn_rst_total := sn_rst_total s;
  sn_pkt_total := sn_pkt_total s; sn_syn_retrans_total := sn_syn_retrans_total s;
  sn_bytes_total := sn_bytes_total s; sn_pkts_parsed := sn_pkts_parsed s;
  sn_pkts_non_tcp := sn_pkts_non_tcp s; sn_pkts_parse_fail := sn_pkts_parse_fail s;
  sn_prefix_len := sn_prefix_len s; sn_ts_iso := sn_ts_iso s;
  sn_remotes := sn_remotes s; sn_prefixes := sn_prefixes s |}.
Definition sn_remote_count (s : cpe_tcp_snapshot) : nat := length (sn_remotes s).
Definition sn_prefix_count (s : cpe_tcp_snapshot) : nat := length (sn_prefixes s).

Record tcp_flow := {
  tf_sip : Z; tf_dip : Z; tf_sport : Z; tf_dport : Z; tf_seq : Z; tf_used : Z;
}.
#[export] Instance eta_tcp_flow : Eta tcp_flow := fun f => {|
  tf_sip := tf_sip f; tf_dip := tf_dip f; tf_sport := tf_sport f; tf_dport := tf_dport f;
  tf_seq := tf_seq f; tf_used := tf_used f |}.

Record cpe_tcp_state := {
  tcp_fd : Z;
  tcp_group : Z;
  tcp_copy_range : Z;
  tcp_enabled : Z;
  tcp_open_ok : Z;
  tcp_open_err : string;
  st_prefix_len : Z;
  st_emit_interval_ms : Z;
  st_emit_top_n : Z;
  tcp_last_emit_ms : Z;
  tcp_snap : cpe_tcp_snapshot;
  tcp_flows : list tcp_flow;
  tcp_flow_i : nat;
}.
#[export] Instance eta_tcp_state : Eta cpe_tcp_state := fun s => {|
  tcp_fd := tcp_fd s; tcp_group := tcp_group s; tcp_copy_range := tcp_copy_range s;
  tcp_enabled := tcp_enabled s; tcp_open_ok := tcp_open_ok s; tcp_open_err := tcp_open_err s;
  st_prefix_len := st_prefix_len s; st_emit_interval_ms := st_emit_interval_ms s;
  st_emit_top_n := st_emit_top_n s; tcp_last_emit_ms := tcp_last_emit_ms s;
  tcp_snap := tcp_snap s; tcp_flows := tcp_flows s; tcp_flow_i := tcp_flow_i s |}.

(** [memset] images. *)
Definition remote_zero : cpe_tcp_remote := {|
  tr_remote_ip := EmptyString; tr_local_ip := EmptyString; tr_remote_port := 0;
  tr_local_port := 0; tr_syn_count := 0; tr_fin_count := 0; tr_rst_count := 0;
  tr_pkt_count := 0; tr_syn_retrans := 0; tr_bytes_est := 0; tr_last_seen_ms := 0 |}.
Definition prefix_zero : cpe_tcp_prefix := {|
  tx_prefix := EmptyString; tx_remote_count := 0; tx_syn_count := 0; tx_fin_count := 0;
  tx_rst_count := 0; tx_pkt_count := 0; tx_syn_retrans := 0; tx_bytes_est := 0 |}.
Definition snapshot_zero : cpe_tcp_snapshot := {|
  sn_nflog_group := 0; sn_syn_total := 0; sn_fin_total := 0; sn_rst_total := 0;
  sn_pkt_total := 0; sn_syn_retrans_total := 0; sn_bytes_total := 0; sn_pkts_parsed := 0;
  sn_pkts_non_tcp := 0; sn_pkts_parse_fail := 0; sn_prefix_len := 0; sn_ts_iso := EmptyString;
  sn_remotes := []; sn_prefixes := [] |}.
Definition tcp_flow_zero : tcp_flow :=
  {| tf_sip := 0; tf_dip := 0; tf_sport := 0; tf_dport := 0; tf_seq := 0; tf_used := 0 |}.
Definition flows_zero : list tcp_flow := replicate FLOW_WINDOW tcp_flow_zero.
#[export] Instance remote_inhabited : Inhabited cpe_tcp_remote := populate remote_zero.
#[export] Instance prefix_inhabited : Inhabited cpe_tcp_prefix := populate prefix_zero.
#[export] Instance tcp_flow_inhabited : Inhabited tcp_flow := populate tcp_flow_zero.

Definition cpe_tcp_state_init : cpe_tcp_state := {|
  tcp_fd := -1; tcp_group := NFLOG_GROUP_DEFAULT; tcp_copy_range := NFLOG_COPY_RANGE_DEFAULT;
  tcp_enabled := 0; tcp_open_ok := 0; tcp_open_err := EmptyString; st_prefix_len := 24;
  st_emit_interval_ms := 10000; st_emit_top_n := 20; tcp_last_emit_ms := 0;
  tcp_snap := snapshot_zero <| sn_nflog_group := NFLOG_GROUP_DEFAULT |> <| sn_prefix_len := 24%Z |>;
  tcp_flows := flows_zero; tcp_flow_i := 0 |}.

(** ** Tables *)
Definition fresh_remote (ip : string) : cpe_tcp_remote :=
  remote_zero <| tr_remote_ip := snprintf_s CPE_TCP_IP_MAX ip |>.
Definition fresh_prefix (p : string) : cpe_tcp_prefix :=
  prefix_zero <| tx_prefix := snprintf_s CPE_TCP_PREFIX_STR_MAX p |>.

Definition remote_index (s : cpe_tcp_snapshot) (remote_ip : string) : nat * cpe_tcp_snapshot :=
  let '(i, l) := table_index tr_remote_ip tr_pkt_count fresh_remote CPE_TCP_REMOTE_MAX
                   (sn_remotes s) remote_ip in
  (i, s <| sn_remotes := l |>).
Definition prefix_index (s : cpe_tcp_snapshot) (prefix : string) : nat * cpe_tcp_snapshot :=
  let '(i, l) := table_index tx_prefix tx_pkt_count fresh_prefix CPE_TCP_PREFIX_MAX
                   (sn_prefixes s) prefix in
  (i, s <| sn_prefixes := l |>).

(** ** Retransmitted SYNs *)
Definition same_tuple (sip dip sport dport : Z) (f : tcp_flow) : bool :=
  truthy (tf_used f) && (tf_sip f =? sip)%Z && (tf_dip f =? dip)%Z &&
  (tf_sport f =? sport)%Z && (tf_dport f =? dport)%Z.

Definition flow_is_retrans (st : cpe_tcp_state) (sip dip sport dport seq : Z) : bool * cpe_tcp_state :=
  match find_index (same_tuple sip dip sport dport) (tcp_flows st) with
  | Some i =>
      (true, st <| tcp_flows := <[i := (tcp_flows st !!! i) <| tf_seq := seq |> ]> (tcp_flows st) |>)
  | None =>
      let f := {| tf_sip := sip; tf_dip := dip; tf_sport := sport; tf_dport := dport;
                  tf_seq := seq; tf_used := 1 |} in
      (false, st <| tcp_flows := <[tcp_flow_i st := f]> (tcp_flows st) |>
                 <| tcp_flow_i := (tcp_flow_i st + 1) `mod` FLOW_WINDOW |>)
  end.

(** ** One packet *)

(** [if (b) c++] on a 32-bit counter. *)
Definition bump (b : bool) (c : Z) : Z := if b then u32 (c + 1) else c.

(** Which end is local: (local ip, local port, remote ip, remote port). *)
Definition orient (pkt : cpe_tcp_packet) : string * Z * string * Z :=
  let sip := ip4_parse (tp_src_ip pkt) in
  let dip := ip4_parse (tp_dst_ip pkt) in
  let fwd := (snprintf_s CPE_TCP_IP_MAX (tp_src_ip pkt), tp_src_port pkt,
              snprintf_s CPE_TCP_IP_MAX (tp_dst_ip pkt), tp_dst_port pkt) in
  let rev := (snprintf_s CPE_TCP_IP_MAX (tp_dst_ip pkt), tp_dst_port pkt,
              snprintf_s CPE_TCP_IP_MAX (tp_src_ip pkt), tp_src_port pkt) in
  if negb (truthy (tp_is_ipv6 pkt)) && truthy sip && truthy dip then
    let sp := is_private_v4 sip in
    let dp := is_private_v4 dip in
    if sp && negb dp then fwd else if dp && negb sp then rev else fwd
  else fwd.

Definition flag_set (pkt : cpe_tcp_packet) (f : Z) : bool := truthy (Z.land (tp_flags pkt) f).
(** SYN alone, or SYN with ACK: either way SYN. *)
Definition is_syn (pkt : cpe_tcp_packet) : bool :=
  let s := flag_set pkt CPE_TCP_FLAG_SYN && negb (flag_set pkt CPE_TCP_FLAG_ACK) in
  if negb s && flag_set pkt CPE_TCP_FLAG_SYN then true else s.

(** What one packet does to its remote's entry ([retrans]: a repeated SYN). *)
Definition touch_remote (pkt : cpe_tcp_packet) (clk : clock) (retrans : bool) (r : cpe_tcp_remote)
    : cpe_tcp_remote :=
  let '(local_ip, lport, _, rport) := orient pkt in
  r <| tr_local_ip := snprintf_s CPE_TCP_IP_MAX local_ip |>
    <| tr_remote_port := rport |> <| tr_local_port := lport |>
    <| tr_pkt_count := u32 (tr_pkt_count r + 1) |>
    <| tr_bytes_est := u64 (tr_bytes_est r + tp_ip_len pkt) |>
    <| tr_last_seen_ms := mono_ms clk |>
    <| tr_syn_count := bump (is_syn pkt) (tr_syn_count r) |>
    <| tr_fin_count := bump (flag_set pkt CPE_TCP_FLAG_FIN) (tr_fin_count r) |>
    <| tr_rst_count := bump (flag_set pkt CPE_TCP_FLAG_RST) (tr_rst_count r) |>
    <| tr_syn_retrans := bump retrans (tr_syn_retrans r) |>.

(** And to its prefix's entry ([first]: the remote's count has just become one). *)
Definition touch_prefix (pkt : cpe_tcp_packet) (retrans first : bool) (p : cpe_tcp_prefix)
    : cpe_tcp_prefix :=
  p <| tx_pkt_count := u32 (tx_pkt_count p + 1) |>
    <| tx_bytes_est := u64 (tx_bytes_est p + tp_ip_len pkt) |>
    <| tx_syn_count := bump (is_syn pkt) (tx_syn_count p) |>
    <| tx_fin_count := bump (flag_set pkt CPE_TCP_FLAG_FIN) (tx_fin_count p) |>
    <| tx_rst_count := bump (flag_set pkt CPE_TCP_FLAG_RST) (tx_rst_count p) |>
    <| tx_syn_retrans := bump retrans (tx_syn_retrans p) |>
    <| tx_remote_count := bump first (tx_remote_count p) |>.

Definition remote_of (pkt : cpe_tcp_packet) : string := let '(_, _, remote_ip, _) := orient pkt in remote_ip.

(** The SYN window: whether the packet repeats a SYN, and the window after it. *)
Definition note_syn (st : cpe_tcp_state) (pkt : cpe_tcp_packet) : bool * cpe_tcp_state :=
  let sip := ip4_parse (tp_src_ip pkt) in
  let dip := ip4_parse (tp_dst_ip pkt) in
  if is_syn pkt && negb (truthy (tp_is_ipv6 pkt)) && truthy sip && truthy dip
  then flow_is_retrans st sip dip (tp_src_port pkt) (tp_dst_port pkt) (tp_seq pkt)
  else (false, st).

Definition apply_packet (st : cpe_tcp_state) (pkt : cpe_tcp_packet) (clk : clock) : cpe_tcp_state :=
  let remote_ip := remote_of pkt in
  let '(retrans, st) := note_syn st pkt in
  let s := tcp_snap st in
  let s := s <| sn_pkt_total := u32 (sn_pkt_total s + 1) |>
             <| sn_bytes_total := u64 (sn_bytes_total s + tp_ip_len pkt) |>
             <| sn_syn_total := bump (is_syn pkt) (sn_syn_total s) |>
             <| sn_fin_total := bump (flag_set pkt CPE_TCP_FLAG_FIN) (sn_fin_total s) |>
             <| sn_rst_total := bump (flag_set pkt CPE_TCP_FLAG_RST) (sn_rst_total s) |>
             <| sn_syn_retrans_total := bump retrans (sn_syn_retrans_total s) |> in
  let '(ri, s) := remote_index s remote_ip in
  let s := s <| sn_remotes := <[ri := touch_remote pkt clk retrans (sn_remotes s !!! ri)]>
                                (sn_remotes s) |> in
  let raddr := ip4_parse remote_ip in
  let s :=
    if negb (truthy (tp_is_ipv6 pkt)) && truthy raddr then
      let pfx := prefix_from_ip4 raddr (dflt (st_prefix_len st) 24) CPE_TCP_PREFIX_STR_MAX in
      let '(pi, s) := prefix_index s pfx in
      let first := (tr_pkt_count (sn_remotes s !!! ri) =? 1)%Z in
      s <| sn_prefixes := <[pi := touch_prefix pkt retrans first (sn_prefixes s !!! pi)]>
                            (sn_prefixes s) |>
    else s in
  st <| tcp_snap := s <| sn_ts_iso := TcpClock.iso_now clk 40 |> |>.

(** The NFLOG callback. *)
Definition on_nflog_payload (st : cpe_tcp_state) (payload : list Z) (clk : clock) : chk cpe_tcp_state :=
  let s := tcp_snap st in
  let s := s <| sn_pkts_parsed := u64 (sn_pkts_parsed s + 1) |> in
  let len := length payload in
  let failed := s <| sn_pkts_parse_fail := u64 (sn_pkts_parse_fail s + 1) |> in
  let non_tcp := s <| sn_pkts_non_tcp := u64 (sn_pkts_non_tcp s + 1) |> in
  r ← cpe_tcp_parse_ip_packet payload;
  match r with
  | Some pkt => mret (apply_packet (st <| tcp_snap := s |>) pkt clk)
  | None =>
      s' ← (if 1 <=? len then
              b0 ← rd payload 0;
              let ver := Z.shiftr b0 4 in
              is4 ← (if (ver =? 4)%Z && (10 <=? len)
                     then p ← rd payload 9; mret (negb (p =? IPPROTO_TCP)%Z) else mret false);
              if is4 : bool then mret non_tcp
              else
                is6 ← (if (ver =? 6)%Z && (7 <=? len)
                       then p ← rd payload 6; mret (negb (p =? IPPROTO_TCP)%Z) else mret false);
                mret (if is6 : bool then non_tcp else failed)
            else mret failed);
      mret (st <| tcp_snap := s' |>)
  end.

(** ** Runs *)

Definition tcp_run (st : cpe_tcp_state) (ps : list (cpe_tcp_packet * clock)) : cpe_tcp_state :=
  foldl (fun st '(pkt, clk) => apply_packet st pkt clk) st ps.

(** A packet with what its processing found out. *)
Record touch := { tc_pkt : cpe_tcp_packet; tc_clk : clock; tc_retrans : bool; tc_first : bool }.

Definition remote_key (t : touch) : option string := Some (remote_of (tc_pkt t)).
Definition remote_upd (t : touch) : cpe_tcp_remote -> cpe_tcp_remote :=
  touch_remote (tc_pkt t) (tc_clk t) (tc_retrans t).
Definition prefix_of_pkt (plen : Z) (pkt : cpe_tcp_packet) : option string :=
  let raddr := ip4_parse (remote_of pkt) in
  if negb (truthy (tp_is_ipv6 pkt)) && truthy raddr
  then Some (prefix_from_ip4 raddr (dflt plen 24) CPE_TCP_PREFIX_STR_MAX) else None.
Definition prefix_key (plen : Z) (t : touch) : option string := prefix_of_pkt plen (tc_pkt t).
Definition prefix_upd (t : touch) : cpe_tcp_prefix -> cpe_tcp_prefix :=
  touch_prefix (tc_pkt t) (tc_retrans t) (tc_first t).

Abbreviation remote_step :=
  (tstep tr_remote_ip tr_pkt_count fresh_remote CPE_TCP_REMOTE_MAX remote_key remote_upd).
Abbreviation prefix_step plen :=
  (tstep tx_prefix tx_pkt_count fresh_prefix CPE_TCP_PREFIX_MAX (prefix_key plen) prefix_upd).
Abbreviation remote_run :=
  (trun tr_remote_ip tr_pkt_count fresh_remote CPE_TCP_REMOTE_MAX remote_key remote_upd).
Abbreviation prefix_run plen :=
  (trun tx_prefix tx_pkt_count fresh_prefix CPE_TCP_PREFIX_MAX (prefix_key plen) prefix_upd).

Definition sees_first (st : cpe_tcp_state) (pkt : cpe_tcp_packet) (clk : clock) : bool :=
  let '(retrans, _) := note_syn st pkt in
  let '(ri, s) := remote_index (tcp_snap st) (remote_of pkt) in
  (tr_pkt_count (<[ri := touch_remote pkt clk retrans (sn_remotes s !!! ri)]> (sn_remotes s) !!! ri) =? 1)%Z.
Definition touch_of (st : cpe_tcp_state) (pkt : cpe_tcp_packet) (clk : clock) : touch :=
  {| tc_pkt := pkt; tc_clk := clk; tc_retrans := fst (note_syn st pkt);
     tc_first := sees_first st pkt clk |}.

(** The parts of the state a SYN note can change. *)
Lemma note_syn_frame st pkt :
  let '(_, st') := note_syn st pkt in
  tcp_snap st' = tcp_snap st /\ st_prefix_len st' = st_prefix_len st /\
  tcp_fd st' = tcp_fd st /\ tcp_enabled st' = tcp_enabled st.
Proof. unfold note_syn, flow_is_retrans. repeat case_match; simplify_eq; done. Qed.

(** One packet, described by its effect on each part of the snapshot. *)
Lemma apply_packet_effect st pkt clk :
  let st' := apply_packet st pkt clk in
  let t := touch_of st pkt clk in
  let s := tcp_snap st in let s' := tcp_snap st' in
  sn_pkt_total s' = u32 (sn_pkt_total s + 1) /\
  sn_bytes_total s' = u64 (sn_bytes_total s + tp_ip_len pkt) /\
  sn_syn_total s' = bump (is_syn pkt) (sn_syn_total s) /\
  sn_fin_total s' = bump (flag_set pkt CPE_TCP_FLAG_FIN) (sn_fin_total s) /\
  sn_rst_total s' = bump (flag_set pkt CPE_TCP_FLAG_RST) (sn_rst_total s) /\
  sn_syn_retrans_total s' = bump (tc_retrans t) (sn_syn_retrans_total s) /\
  sn_remotes s' = remote_step (sn_remotes s) t /\
  sn_prefixes s' = prefix_step (st_prefix_len st) (sn_prefixes s) t /\
  st_prefix_len st' = st_prefix_len st.
Proof.
  cbv zeta. unfold apply_packet, touch_of, sees_first.
  pose proof (note_syn_frame st pkt) as Hf.
  destruct (note_syn st pkt) as [retrans st1]. destruct Hf as (Hs & Hp & _).
  rewrite Hs, Hp. unfold tstep, remote_key, prefix_key, prefix_of_pkt, remote_index, prefix_index.
  cbn [tc_pkt tc_clk tc_retrans tc_first fst].
  cbn -[table_index orient remote_of prefix_from_ip4 touch_remote touch_prefix u32 u64 bump ip4_parse].
  destruct (table_index tr_remote_ip _ _ _ _ _) as [ri l].
  cbn -[table_index orient remote_of prefix_from_ip4 touch_remote touch_prefix u32 u64 bump ip4_parse].
  destruct (negb _ && _).
  - destruct (table_index tx_prefix _ _ _ _ _) as [pi k]. by split_and!.
  - by split_and!.
Qed.

Fixpoint touches (st : cpe_tcp_state) (ps : list (cpe_tcp_packet * clock)) : list touch :=
  match ps with
  | [] => []
  | (pkt, clk) :: ps' => touch_of st pkt clk :: touches (apply_packet st pkt clk) ps'
  end.
Lemma touches_pkts st ps : tc_pkt <$> touches st ps = fst <$> ps.
Proof. revert st. induction ps as [|[pkt clk] ps IH]; intros st; simpl; [done|]. by rewrite IH. Qed.

Lemma tcp_run_tables st ps :
  let s := tcp_snap st in let s' := tcp_snap (tcp_run st ps) in
  sn_remotes s' = foldl remote_step (sn_remotes s) (touches st ps) /\
  sn_prefixes s' = foldl (prefix_step (st_prefix_len st)) (sn_prefixes s) (touches st ps) /\
  st_prefix_len (tcp_run st ps) = st_prefix_len st.
Proof.
  cbv zeta. revert st. induction ps as [|[pkt clk] ps IH]; intros st; [done|].
  cbn [touches tcp_run foldl].
  destruct (apply_packet_effect st pkt clk) as (_ & _ & _ & _ & _ & _ & Hr & Hx & Hp).
  destruct (IH (apply_packet st pkt clk)) as (I1 & I2 & I3).
  rewrite <- Hr, <- Hx, <- Hp. done.
Qed.

(** The keys survive the fixed-size copies. *)
Lemma remote_of_cut pkt : snprintf_s CPE_TCP_IP_MAX (remote_of pkt) = remote_of pkt.
Proof.
  unfold remote_of, orient, snprintf_s. repeat case_match; simplify_eq; by rewrite str_take_take.
Qed.
Lemma remote_key_fresh t k : remote_key t = Some k -> tr_remote_ip (fresh_remote k) = k.
Proof. intros [= <-]. apply remote_of_cut. Qed.
Lemma remote_key_upd t r : tr_remote_ip (remote_upd t r) = tr_remote_ip r.
Proof. unfold remote_upd, touch_remote. by destruct (orient _) as [[[]]]. Qed.

Lemma strlen_prefix a plen :
  strlen (prefix_from_ip4 a plen CPE_TCP_PREFIX_STR_MAX) < CPE_TCP_PREFIX_STR_MAX.
Proof.
  unfold prefix_from_ip4. cbv zeta.
  match goal with |- context [inet_ntop4_addr ?x] => pose proof (strlen_ntop4_addr x) as Hl;
    set (s := inet_ntop4_addr x) in * end.
  unfold CPE_TCP_PREFIX_STR_MAX. destruct (_ <? _); [|lia]. rewrite strlen_app.
  match goal with |- context [snprintf_s ?n ?t] => pose proof (snprintf_s_length n t ltac:(lia)) end. lia.
Qed.
Lemma prefix_key_fresh plen t k : prefix_key plen t = Some k -> tx_prefix (fresh_prefix k) = k.
Proof.
  unfold prefix_key, prefix_of_pkt. destruct (_ && _); [|done]. intros [= <-].
  apply snprintf_s_fits, strlen_prefix.
Qed.
Lemma prefix_key_upd t p : tx_prefix (prefix_upd t p) = tx_prefix p.
Proof. done. Qed.

(** ** Totals *)
Lemma bump_add b c : in_u32 c -> bump b c = u32 (c + c_bool b).
Proof. intros Hc. destruct b; simpl; [done|]. rewrite Z.add_0_r. symmetry. by apply u32_id. Qed.
Lemma bump_range b c : in_u32 c -> in_u32 (bump b c).
Proof. intros. rewrite bump_add by done. apply u32_range. Qed.
Lemma u32_add_l a b : u32 (u32 a + b) = u32 (a + b).
Proof. unfold u32. by rewrite Zplus_mod_idemp_l. Qed.
Lemma u64_add_l a b : u64 (u64 a + b) = u64 (a + b).
Proof. unfold u64. by rewrite Zplus_mod_idemp_l. Qed.

(** Sums over the packets of a run. *)
Definition sum_pkts (f : cpe_tcp_packet -> Z) (ps : list (cpe_tcp_packet * clock)) : Z :=
  zsum (fun p => f (fst p)) ps.
Definition fin_of (pkt : cpe_tcp_packet) : Z := c_bool (flag_set pkt CPE_TCP_FLAG_FIN).
Definition rst_of (pkt : cpe_tcp_packet) : Z := c_bool (flag_set pkt CPE_TCP_FLAG_RST).
Definition syn_of (pkt : cpe_tcp_packet) : Z := c_bool (is_syn pkt).

(** The counters within their types. *)
Definition totals_wf (s : cpe_tcp_snapshot) : Prop :=
  in_u32 (sn_pkt_total s) /\ in_u32 (sn_syn_total s) /\ in_u32 (sn_fin_total s) /\
  in_u32 (sn_rst_total s) /\ in_u32 (sn_syn_retrans_total s) /\ in_u64 (sn_bytes_total s).

(** Totals: after any sequence of packets, from any counters, the packet, SYN
    (alone or with ACK), FIN and RST totals have grown by exactly the number of such
    packets and the byte total by the sum of the packets' lengths, modulo their 32-
    and 64-bit widths, whatever happened to the tables. *)
Theorem tcp_totals_count st ps :
  totals_wf (tcp_snap st) ->
  let s := tcp_snap st in let s' := tcp_snap (tcp_run st ps) in
  totals_wf s' /\
  sn_pkt_total s' = u32 (sn_pkt_total s + Z.of_nat (length ps)) /\
  sn_syn_total s' = u32 (sn_syn_total s + sum_pkts syn_of ps) /\
  sn_fin_total s' = u32 (sn_fin_total s + sum_pkts fin_of ps) /\
  sn_rst_total s' = u32 (sn_rst_total s + sum_pkts rst_of ps) /\
  sn_bytes_total s' = u64 (sn_bytes_total s + sum_pkts tp_ip_len ps).
Proof.
  cbv zeta. revert st. induction ps as [|[pkt clk] ps IH]; intros st Hwf; pose proof Hwf as (H1 & H2 & H3 & H4 & H5 & H6).
  { unfold sum_pkts. simpl. rewrite !Z.add_0_r, !u32_id, u64_id by done. by split_and!. }
  cbn [tcp_run foldl].
  destruct (apply_packet_effect st pkt clk) as (E1 & E2 & E3 & E4 & E5 & E6 & _).
  assert (Hwf' : totals_wf (tcp_snap (apply_packet st pkt clk))).
  { unfold totals_wf. rewrite E1, E2, E3, E4, E5, E6.
    split_and!; try apply u32_range; try apply u64_range; by apply bump_range. }
  destruct (IH (apply_packet st pkt clk) Hwf') as (W & I1 & I2 & I3 & I4 & I5). clear IH.
  unfold tcp_run in *. rewrite I1, I2, I3, I4, I5, E1, E2, E3, E4, E5, !bump_add by done.
  rewrite !u32_add_l, u64_add_l. unfold sum_pkts, syn_of, fin_of, rst_of. rewrite !zsum_cons. cbn [length fst].
  split_and!; try done; f_equal; lia.
Qed.

Definition syn_packet : cpe_tcp_packet := {|
  tp_src_ip := "192.168.1.10"; tp_dst_ip := "8.8.8.8"; tp_src_port := 40000; tp_dst_port := 443;
  tp_flags := 2; tp_is_ipv6 := 0; tp_ip_len := 60; tp_seq := 9 |}.
Definition fin_packet : cpe_tcp_packet := {|
  tp_src_ip := "8.8.4.4"; tp_dst_ip := "192.168.1.10"; tp_src_port := 443; tp_dst_port := 40000;
  tp_flags := 17; tp_is_ipv6 := 0; tp_ip_len := 52; tp_seq := 10 |}.
Definition clock0 : clock := {| clk_realtime := Some (0, 0)%Z; clk_monotonic := Some (5, 0)%Z |}.
Definition run3 : list (cpe_tcp_packet * clock) :=
  [(syn_packet, clock0); (syn_packet, clock0); (fin_packet, clock0)].
Lemma tcp_totals_count_witness :
  let s := tcp_snap (tcp_run cpe_tcp_state_init run3) in
  sn_pkt_total s = 3%Z /\ sn_syn_total s = 2%Z /\ sn_fin_total s = 1%Z /\ sn_bytes_total s = 172%Z.
Proof.
  destruct (tcp_totals_count cpe_tcp_state_init run3) as (_ & H1 & H2 & H3 & _ & H5).
  { repeat split; vm_compute; congruence. }
  split_and!; [exact H1|exact H2|exact H3|exact H5].
Defined.

(** ** The tables *)

(** The distinct remotes (prefixes) of a packet sequence, in order of appearance,
    and what the packets of one of them add up to. *)
Definition distinct_remotes (ps : list (cpe_tcp_packet * clock)) : list string :=
  seen (fun p => Some (remote_of p)) (fst <$> ps).
Definition distinct_prefixes (plen : Z) (ps : list (cpe_tcp_packet * clock)) : list string :=
  seen (prefix_of_pkt plen) (fst <$> ps).
Definition sum_at (keyof : cpe_tcp_packet -> option string) (k : string) (f : cpe_tcp_packet -> Z)
    (ps : list (cpe_tcp_packet * clock)) : Z :=
  sum_pkts (at_key keyof f k) ps.

(** No entry yet: the state after [init] or [reset]. *)
Definition tables_empty (st : cpe_tcp_state) : Prop :=
  sn_remotes (tcp_snap st) = [] /\ sn_prefixes (tcp_snap st) = [].

Lemma sum_touches (f : cpe_tcp_packet -> Z) st ps :
  zsum (fun t => f (tc_pkt t)) (touches st ps) = sum_pkts f ps.
Proof. unfold sum_pkts. by rewrite <- (zsum_fmap f tc_pkt), <- (zsum_fmap f fst), touches_pkts. Qed.
Lemma sum_pkts_nonneg f ps : (forall p, 0 <= f p)%Z -> (0 <= sum_pkts f ps)%Z.
Proof. intros H. apply zsum_nonneg. intros. apply H. Qed.

Lemma remote_max_pos : 0 < CPE_TCP_REMOTE_MAX.
Proof. apply Nat.ltb_lt. done. Qed.
Lemma prefix_max_pos : 0 < CPE_TCP_PREFIX_MAX.
Proof. apply Nat.ltb_lt. done. Qed.

Section measured.
Context (d : cpe_tcp_packet -> Z) (W : Z).
Hypothesis d_nonneg : forall p, (0 <= d p)%Z.

Lemma keyed_touches keyof st ps :
  zsum (keyed (fun t => keyof (tc_pkt t)) (fun t => d (tc_pkt t))) (touches st ps) =
    sum_pkts (keyed keyof d) ps.
Proof. exact (sum_touches (keyed keyof d) st ps). Qed.
Lemma keyed_le keyof ps : (sum_pkts (keyed keyof d) ps <= sum_pkts d ps)%Z.
Proof.
  apply zsum_le. intros p _. unfold keyed. destruct (keyof (fst p)); [lia|apply d_nonneg].
Qed.

Lemma remotes_measure (m : cpe_tcp_remote -> Z) st ps :
  (forall k, m (fresh_remote k) = 0)%Z ->
  (forall t r, 0 <= m r < W -> m (remote_upd t r) = (m r + d (tc_pkt t)) mod W)%Z ->
  tables_empty st -> (sum_pkts d ps < W)%Z ->
  let rs := sn_remotes (tcp_snap (tcp_run st ps)) in
  (zsum m rs <= sum_pkts d ps)%Z /\
  (length (distinct_remotes ps) <= CPE_TCP_REMOTE_MAX ->
   Forall (fun r => m r = sum_at (fun p => Some (remote_of p)) (tr_remote_ip r) d ps) rs).
Proof.
  intros Hf Hu [He _] HW. cbv zeta. rewrite (proj1 (tcp_run_tables st ps)), He.
  pose proof (keyed_le (fun p => Some (remote_of p)) ps).
  assert (Hk : zsum (keyed remote_key (fun t => d (tc_pkt t))) (touches st ps) =
    sum_pkts (keyed (fun p => Some (remote_of p)) d) ps)
    by exact (keyed_touches (fun p => Some (remote_of p)) st ps).
  split.
  - pose proof (trun_sum tr_remote_ip tr_pkt_count fresh_remote CPE_TCP_REMOTE_MAX remote_key
      remote_upd remote_max_pos m (fun t => d (tc_pkt t)) W Hf Hu
      (fun t => d_nonneg _) (touches st ps)) as Hs.
    rewrite Hk in Hs. destruct (Hs ltac:(lia)) as [_ Hs']. unfold trun in Hs'. lia.
  - intros Hd. unfold distinct_remotes in Hd. rewrite <- (touches_pkts st ps), seen_fmap in Hd.
    pose proof (trun_exact tr_remote_ip tr_pkt_count fresh_remote CPE_TCP_REMOTE_MAX remote_key
      remote_upd remote_max_pos remote_key_fresh remote_key_upd
      m (fun t => d (tc_pkt t)) W Hf Hu (fun t => d_nonneg _) (touches st ps) Hd) as Hx.
    rewrite Hk in Hx. specialize (Hx ltac:(lia)). eapply Forall_impl; [exact Hx|].
    cbn. intros r ->. unfold sum_at. rewrite <- (sum_touches _ st ps). done.
Qed.

Lemma prefixes_measure (m : cpe_tcp_prefix -> Z) st ps :
  (forall k, m (fresh_prefix k) = 0)%Z ->
  (forall t p, 0 <= m p < W -> m (prefix_upd t p) = (m p + d (tc_pkt t)) mod W)%Z ->
  tables_empty st -> (sum_pkts d ps < W)%Z ->
  let xs := sn_prefixes (tcp_snap (tcp_run st ps)) in
  let plen := st_prefix_len st in
  (zsum m xs <= sum_pkts d ps)%Z /\
  (length (distinct_prefixes plen ps) <= CPE_TCP_PREFIX_MAX ->
   Forall (fun x => m x = sum_at (prefix_of_pkt plen) (tx_prefix x) d ps) xs).
Proof.
  intros Hf Hu [_ He] HW. cbv zeta. set (plen := st_prefix_len st).
  rewrite (proj1 (proj2 (tcp_run_tables st ps))), He. fold plen.
  pose proof (keyed_le (prefix_of_pkt plen) ps).
  assert (Hk : zsum (keyed (prefix_key plen) (fun t => d (tc_pkt t))) (touches st ps) =
    sum_pkts (keyed (prefix_of_pkt plen) d) ps)
    by exact (keyed_touches (prefix_of_pkt plen) st ps).
  split.
  - pose proof (trun_sum tx_prefix tx_pkt_count fresh_prefix CPE_TCP_PREFIX_MAX (prefix_key plen)
      prefix_upd prefix_max_pos m (fun t => d (tc_pkt t)) W Hf Hu
      (fun t => d_nonneg _) (touches st ps)) as Hs.
    rewrite Hk in Hs. destruct (Hs ltac:(lia)) as [_ Hs']. unfold trun in Hs'. lia.
  - intros Hd. unfold distinct_prefixes in Hd. rewrite <- (touches_pkts st ps), seen_fmap in Hd.
    pose proof (trun_exact tx_prefix tx_pkt_count fresh_prefix CPE_TCP_PREFIX_MAX (prefix_key plen)
      prefix_upd prefix_max_pos (prefix_key_fresh plen) prefix_key_upd
      m (fun t => d (tc_pkt t)) W Hf Hu (fun t => d_nonneg _) (touches st ps) Hd) as Hx.
    rewrite Hk in Hx. specialize (Hx ltac:(lia)). eapply Forall_impl; [exact Hx|].
    cbn. intros r ->. unfold sum_at. rewrite <- (sum_touches _ st ps). done.
Qed.
End measured.

Definition packets_ok (ps : list (cpe_tcp_packet * clock)) : Prop :=
  Forall (fun p => in_u16 (tp_ip_len (fst p))) ps /\ (Z.of_nat (length ps) < 4294967296)%Z.

Definition one (pkt : cpe_tcp_packet) : Z := 1%Z.
(** The byte counters add lengths modulo 2^64. *)
Definition len64 (pkt : cpe_tcp_packet) : Z := u64 (tp_ip_len pkt).

Lemma c_bool_nonneg b : (0 <= c_bool b <= 1)%Z.
Proof. destruct b; simpl; lia. Qed.

Lemma sum_one_bound f ps :
  (forall p, f p <= 1)%Z -> packets_ok ps -> (sum_pkts f ps < 4294967296)%Z.
Proof.
  intros Hf [_ Hl]. apply Z.le_lt_trans with (Z.of_nat (length ps)); [|done].
  rewrite <- (Z.mul_1_l (Z.of_nat _)), <- zsum_const. apply zsum_le. intros p _. apply Hf.
Qed.
Lemma sum_len_bound ps : packets_ok ps -> (sum_pkts len64 ps < 18446744073709551616)%Z.
Proof.
  intros [Hok Hl]. apply Z.le_lt_trans with (65535 * Z.of_nat (length ps))%Z; [|lia].
  rewrite <- zsum_const. apply zsum_le. intros p Hp.
  pose proof (proj1 (Forall_forall _ _) Hok p Hp) as H. unfold len64. cbn in H. rewrite u64_id; word_lia.
Qed.
Lemma sum_at_len keyof k ps : packets_ok ps -> sum_at keyof k len64 ps = sum_at keyof k tp_ip_len ps.
Proof.
  intros [Hok _]. apply zsum_ext. intros p Hp.
  pose proof (proj1 (Forall_forall _ _) Hok p Hp) as H. cbn in H.
  unfold at_key, len64. rewrite u64_id by word_lia. done.
Qed.

(** The updates, measure by measure. *)
Lemma bump_mod b c : (0 <= c < 4294967296)%Z -> bump b c = ((c + c_bool b) mod 4294967296)%Z.
Proof. intros. by rewrite bump_add. Qed.
Lemma add_len64 c n : u64 (c + n) = ((c + u64 n) mod 18446744073709551616)%Z.
Proof. unfold u64. by rewrite Zplus_mod_idemp_r. Qed.
Lemma remote_upd_counts t r :
  tr_pkt_count (remote_upd t r) = u32 (tr_pkt_count r + 1) /\
  tr_syn_count (remote_upd t r) = bump (is_syn (tc_pkt t)) (tr_syn_count r) /\
  tr_fin_count (remote_upd t r) = bump (flag_set (tc_pkt t) CPE_TCP_FLAG_FIN) (tr_fin_count r) /\
  tr_rst_count (remote_upd t r) = bump (flag_set (tc_pkt t) CPE_TCP_FLAG_RST) (tr_rst_count r) /\
  tr_bytes_est (remote_upd t r) = u64 (tr_bytes_est r + tp_ip_len (tc_pkt t)).
Proof. unfold remote_upd, touch_remote. by destruct (orient _) as [[[]]]. Qed.

(** What a row of a table should hold for its key. *)
Definition counts_of (keyof : cpe_tcp_packet -> option string) (k : string)
    (ps : list (cpe_tcp_packet * clock)) : list Z :=
  [sum_at keyof k one ps; sum_at keyof k syn_of ps; sum_at keyof k fin_of ps;
   sum_at keyof k rst_of ps; sum_at keyof k tp_ip_len ps].
Definition remote_counts (r : cpe_tcp_remote) : list Z :=
  [tr_pkt_count r; tr_syn_count r; tr_fin_count r; tr_rst_count r; tr_bytes_est r].
Definition prefix_counts (x : cpe_tcp_prefix) : list Z :=
  [tx_pkt_count x; tx_syn_count x; tx_fin_count x; tx_rst_count x; tx_bytes_est x].

(** C26: Remotes: starting from empty tables, as long as at most 256 distinct remotes
    appear in fewer than 2^32 packets with lengths of 16 bits, the remote table is exact: it lists the distinct
    remotes in order of first appearance, and each row's packet, SYN, FIN, RST and byte
    counts are those of the packets whose remote end it is. *)
Theorem tcp_remotes_exact st ps :
  tables_empty st -> packets_ok ps -> length (distinct_remotes ps) <= CPE_TCP_REMOTE_MAX ->
  let rs := sn_remotes (tcp_snap (tcp_run st ps)) in
  tr_remote_ip <$> rs = distinct_remotes ps /\
  Forall (fun r => remote_counts r = counts_of (fun p => Some (remote_of p)) (tr_remote_ip r) ps) rs.
Proof.
  intros He Hok Hd. cbv zeta. split.
  { rewrite (proj1 (tcp_run_tables st ps)), (proj1 He). unfold distinct_remotes in *.
    rewrite <- (touches_pkts st ps), seen_fmap in *.
    exact (trun_seen tr_remote_ip tr_pkt_count fresh_remote CPE_TCP_REMOTE_MAX remote_key
      remote_upd remote_max_pos remote_key_fresh remote_key_upd (touches st ps) Hd). }
  pose proof (fun d W Hn m Hf Hu HW => proj2 (remotes_measure d W Hn m st ps Hf Hu He HW) Hd) as HM.
  assert (H1 := HM one 4294967296%Z ltac:(done) tr_pkt_count ltac:(done)
    ltac:(intros t r _; apply remote_upd_counts) (sum_one_bound one ps ltac:(done) Hok)).
  assert (H2 := HM syn_of 4294967296%Z ltac:(intros; apply c_bool_nonneg) tr_syn_count ltac:(done)
    ltac:(intros t r Hr; rewrite (proj1 (proj2 (remote_upd_counts t r))); by apply bump_mod)
    (sum_one_bound syn_of ps ltac:(intros; apply c_bool_nonneg) Hok)).
  assert (H3 := HM fin_of 4294967296%Z ltac:(intros; apply c_bool_nonneg) tr_fin_count ltac:(done)
    ltac:(intros t r Hr; rewrite (proj1 (proj2 (proj2 (remote_upd_counts t r)))); by apply bump_mod)
    (sum_one_bound fin_of ps ltac:(intros; apply c_bool_nonneg) Hok)).
  assert (H4 := HM rst_of 4294967296%Z ltac:(intros; apply c_bool_nonneg) tr_rst_count ltac:(done)
    ltac:(intros t r Hr; rewrite (proj1 (proj2 (proj2 (proj2 (remote_upd_counts t r))))); by apply bump_mod)
    (sum_one_bound rst_of ps ltac:(intros; apply c_bool_nonneg) Hok)).
  assert (H5 := HM len64 18446744073709551616%Z ltac:(intros; apply u64_range) tr_bytes_est ltac:(done)
    ltac:(intros t r Hr; rewrite (proj2 (proj2 (proj2 (proj2 (remote_upd_counts t r))))); apply add_len64)
    (sum_len_bound ps Hok)).
  apply Forall_forall. intros r Hr. rewrite Forall_forall in H1, H2, H3, H4, H5.
  unfold remote_counts, counts_of. rewrite (H1 r Hr), (H2 r Hr), (H3 r Hr), (H4 r Hr), (H5 r Hr) at 1.
  by rewrite sum_at_len.
Qed.
Lemma tcp_remotes_exact_witness :
  let rs := sn_remotes (tcp_snap (tcp_run cpe_tcp_state_init run3)) in
  tr_remote_ip <$> rs = ["8.8.8.8"; "8.8.4.4"]%string /\
  Forall (fun r => remote_counts r = counts_of (fun p => Some (remote_of p)) (tr_remote_ip r) run3) rs.
Proof.
  destruct (tcp_remotes_exact cpe_tcp_state_init run3) as [H1 H2];
    [done|split; [repeat constructor; vm_compute; congruence|vm_compute; reflexivity]
    |vm_compute; lia|].
  split; [refine (eq_trans H1 _); vm_compute; reflexivity|exact H2].
Defined.

Lemma prefix_upd_mod t x : (0 <= tx_pkt_count x < 4294967296)%Z ->
  tx_pkt_count (prefix_upd t x) = ((tx_pkt_count x + one (tc_pkt t)) mod 4294967296)%Z.
Proof. done. Qed.

(** Prefixes: as long as at most 128 distinct prefixes appear, the prefix
    table is exact: it lists the distinct prefixes of the IPv4 remotes in order of
    first appearance, and each row's packet, SYN, FIN, RST and byte counts are those
    of the packets whose remote lies in it; IPv6 packets appear in none. *)
Theorem tcp_prefixes_exact st ps :
  let plen := st_prefix_len st in
  tables_empty st -> packets_ok ps -> length (distinct_prefixes plen ps) <= CPE_TCP_PREFIX_MAX ->
  let xs := sn_prefixes (tcp_snap (tcp_run st ps)) in
  tx_prefix <$> xs = distinct_prefixes plen ps /\
  Forall (fun x => prefix_counts x = counts_of (prefix_of_pkt plen) (tx_prefix x) ps) xs.
Proof.
  cbv zeta. intros He Hok Hd. split.
  { rewrite (proj1 (proj2 (tcp_run_tables st ps))), (proj2 He). unfold distinct_prefixes in *.
    rewrite <- (touches_pkts st ps), seen_fmap in *.
    exact (trun_seen tx_prefix tx_pkt_count fresh_prefix CPE_TCP_PREFIX_MAX
      (prefix_key (st_prefix_len st)) prefix_upd prefix_max_pos (prefix_key_fresh _)
      prefix_key_upd (touches st ps) Hd). }
  pose proof (fun d W Hn m Hf Hu HW => proj2 (prefixes_measure d W Hn m st ps Hf Hu He HW) Hd) as HM.
  assert (H1 := HM one 4294967296%Z ltac:(done) tx_pkt_count ltac:(done) prefix_upd_mod
    (sum_one_bound one ps ltac:(done) Hok)).
  assert (H2 := HM syn_of 4294967296%Z ltac:(intros; apply c_bool_nonneg) tx_syn_count ltac:(done)
    ltac:(intros t r Hr; by apply bump_mod) (sum_one_bound syn_of ps ltac:(intros; apply c_bool_nonneg) Hok)).
  assert (H3 := HM fin_of 4294967296%Z ltac:(intros; apply c_bool_nonneg) tx_fin_count ltac:(done)
    ltac:(intros t r Hr; by apply bump_mod) (sum_one_bound fin_of ps ltac:(intros; apply c_bool_nonneg) Hok)).
  assert (H4 := HM rst_of 4294967296%Z ltac:(intros; apply c_bool_nonneg) tx_rst_count ltac:(done)
    ltac:(intros t r Hr; by apply bump_mod) (sum_one_bound rst_of ps ltac:(intros; apply c_bool_nonneg) Hok)).
  assert (H5 := HM len64 18446744073709551616%Z ltac:(intros; apply u64_range) tx_bytes_est ltac:(done)
    ltac:(intros t r Hr; apply add_len64) (sum_len_bound ps Hok)).
  apply Forall_forall. intros r Hr. rewrite Forall_forall in H1, H2, H3, H4, H5.
  unfold prefix_counts, counts_of. rewrite (H1 r Hr), (H2 r Hr), (H3 r Hr), (H4 r Hr), (H5 r Hr) at 1.
  by rewrite sum_at_len.
Qed.
Lemma tcp_prefixes_exact_witness :
  let xs := sn_prefixes (tcp_snap (tcp_run cpe_tcp_state_init run3)) in
  tx_prefix <$> xs = ["8.8.8.0/24"; "8.8.4.0/24"]%string /\
  Forall (fun x => prefix_counts x = counts_of (prefix_of_pkt 24) (tx_prefix x) run3) xs.
Proof.
  destruct (tcp_prefixes_exact cpe_tcp_state_init run3) as [H1 H2];
    [done|split; [repeat constructor; vm_compute; congruence|vm_compute; reflexivity]
    |vm_compute; lia|].
  split; [refine (eq_trans H1 _); vm_compute; reflexivity|exact H2].
Defined.

(** Bounded tables: over any sequence of fewer than 2^32 packets, however many
    remotes and prefixes appear, the tables never exceed 256 and 128 rows, no two
    rows share a key, and the rows never claim more packets than were seen: eviction
    only forgets. *)
Theorem tcp_tables_bounded st ps :
  tables_empty st -> packets_ok ps ->
  let s := tcp_snap (tcp_run st ps) in
  NoDup (tr_remote_ip <$> sn_remotes s) /\ sn_remote_count s <= CPE_TCP_REMOTE_MAX /\
  NoDup (tx_prefix <$> sn_prefixes s) /\ sn_prefix_count s <= CPE_TCP_PREFIX_MAX /\
  (zsum tr_pkt_count (sn_remotes s) <= Z.of_nat (length ps))%Z /\
  (zsum tx_pkt_count (sn_prefixes s) <= Z.of_nat (length ps))%Z.
Proof.
  intros He Hok. cbv zeta.
  assert (Hone : sum_pkts one ps = Z.of_nat (length ps))
    by (unfold sum_pkts, one; rewrite zsum_const; lia).
  pose proof (sum_one_bound one ps ltac:(done) Hok) as HW.
  pose proof (remotes_measure one 4294967296 ltac:(done) tr_pkt_count st ps ltac:(done)
    ltac:(intros t r _; apply remote_upd_counts) He HW) as [Hr _].
  pose proof (prefixes_measure one 4294967296 ltac:(done) tx_pkt_count st ps ltac:(done)
    prefix_upd_mod He HW) as [Hx _]. cbv zeta in Hr, Hx. rewrite Hone in Hr, Hx.
  destruct (tcp_run_tables st ps) as (Hrs & Hxs & _). cbv zeta in Hrs, Hxs.
  pose proof (trun_wf tr_remote_ip tr_pkt_count fresh_remote CPE_TCP_REMOTE_MAX remote_key
    remote_upd remote_max_pos remote_key_fresh remote_key_upd (touches st ps)) as [W1 W2].
  pose proof (trun_wf tx_prefix tx_pkt_count fresh_prefix CPE_TCP_PREFIX_MAX
    (prefix_key (st_prefix_len st)) prefix_upd prefix_max_pos (prefix_key_fresh _)
    prefix_key_upd (touches st ps)) as [W3 W4].
  unfold sn_remote_count, sn_prefix_count. destruct He as [E1 E2]. rewrite E1 in Hrs. rewrite E2 in Hxs.
  unfold trun in *. rewrite <- Hrs in W1, W2. rewrite <- Hxs in W3, W4. done.
Qed.
Lemma tcp_tables_bounded_witness :
  (zsum tr_pkt_count (sn_remotes (tcp_snap (tcp_run cpe_tcp_state_init run3))) <= 3)%Z.
Proof.
  apply (tcp_tables_bounded cpe_tcp_state_init run3); [done|].
  split; [repeat constructor; vm_compute; congruence|vm_compute; reflexivity].
Defined.
