(* ===== verification/SynWindow.v ===== *)
(** * The SYN retransmission window (flow_is_retrans of src/agent/tcp_stats.c)

    The 64-entry circular array is proved to implement a window of the last 64
    distinct connection attempts. *)

From S2P Require Import Prelude CStr Inet Clock Nflog TcpParse TcpStats.

(** A connection attempt. *)
Record tuple4 := { t_sip : Z; t_dip : Z; t_sport : Z; t_dport : Z }.
#[export] Instance tuple4_eq_dec : EqDecision tuple4.
Proof. solve_decision. Defined.

Definition tuple_of (f : tcp_flow) : tuple4 :=
  {| t_sip := tf_sip f; t_dip := tf_dip f; t_sport := tf_sport f; t_dport := tf_dport f |}.

(** The window: whether the attempt is in it, and the window after noting it. *)
Definition window_note (w : list tuple4) (t : tuple4) : bool * list tuple4 :=
  if decide (t ∈ w) then (true, w) else (false, lastn FLOW_WINDOW (w ++ [t])).

(** The array and index hold the window [w]: until the array is full the attempts
    are at its start and the rest is unused, then they start at the index. *)
Record holds (fs : list tcp_flow) (i : nat) (w : list tuple4) : Prop := {
  holds_len : length fs = FLOW_WINDOW;
  holds_case :
    (length w < FLOW_WINDOW /\ i = length w /\
     Forall (fun f => tf_used f = 1%Z) (take i fs) /\ tuple_of <$> take i fs = w /\
     Forall (fun f => tf_used f = 0%Z) (drop i fs)) \/
    (i < FLOW_WINDOW /\ Forall (fun f => tf_used f = 1%Z) fs /\
     tuple_of <$> (drop i fs ++ take i fs) = w);
}.

Lemma same_tuple_spec t f :
  same_tuple (t_sip t) (t_dip t) (t_sport t) (t_dport t) f = true <->
  tf_used f <> 0%Z /\ tuple_of f = t.
Proof.
  unfold same_tuple, tuple_of. rewrite !andb_true_iff, !Z.eqb_eq, truthy_spec.
  destruct t; simpl. split; [intros ((((? & ?) & ?) & ?) & ?); split; [done|congruence]|].
  intros [? [=]]. done.
Qed.

(** The used entries are exactly the window. *)
Lemma holds_In fs i w t :
  holds fs i w -> t ∈ w <-> exists j f, fs !! j = Some f /\ tf_used f <> 0%Z /\ tuple_of f = t.
Proof.
  intros [Hl [(Hlt & -> & Hu & Hw & Hn)|(Hi & Hu & Hw)]].
  - split.
    + rewrite <- Hw. intros (f & -> & Hf)%list_elem_of_fmap.
      pose proof (proj1 (Forall_forall _ _) Hu f Hf) as Hused.
      apply elem_of_take in Hf as (j & Hj & _). exists j, f. cbn in *. split; [done|]. split; [lia|done].
    + intros (j & f & Hj & Hne & <-). rewrite <- Hw. apply list_elem_of_fmap_2.
      destruct (decide (j < length w)).
      * apply elem_of_take. by exists j.
      * exfalso. apply Hne. apply (Forall_lookup_1 _ _ (j - length w) f Hn).
        rewrite lookup_drop. rewrite <- Hj. f_equal. lia.
  - split.
    + rewrite <- Hw. intros (f & -> & Hf)%list_elem_of_fmap.
      assert (Hin : f ∈ fs).
      { rewrite <- (take_drop i fs). rewrite elem_of_app in *. tauto. }
      pose proof (proj1 (Forall_forall _ _) Hu f Hin) as Hused.
      apply list_elem_of_lookup in Hin as [j Hj]. exists j, f. cbn in *. split; [done|]. split; [lia|done].
    + intros (j & f & Hj & _ & <-). rewrite <- Hw. apply list_elem_of_fmap_2.
      apply list_elem_of_lookup_2 in Hj. rewrite <- (take_drop i fs) in Hj.
      rewrite elem_of_app in *. tauto.
Qed.

(** Changing the sequence number of an entry does not matter. *)
Lemma holds_seq fs i w j f seq :
  holds fs i w -> fs !! j = Some f -> holds (<[j := f <| tf_seq := seq |> ]> fs) i w.
Proof.
  intros [Hl Hc] Hj.
  assert (Hfw : forall {B} (g : tcp_flow -> B), (forall f', g (f' <| tf_seq := seq |>) = g f') ->
    g <$> <[j := f <| tf_seq := seq |> ]> fs = g <$> fs).
  { intros B g Hg. rewrite list_fmap_insert, Hg. apply list_insert_id. by rewrite list_lookup_fmap, Hj. }
  assert (Ht := Hfw _ tuple_of ltac:(done)). assert (Hu := Hfw _ tf_used ltac:(done)).
  set (fs' := <[j := _]> fs) in *.
  assert (Huse : forall (P : Z -> Prop) l l', tf_used <$> l = tf_used <$> l' ->
    Forall (fun f => P (tf_used f)) l' -> Forall (fun f => P (tf_used f)) l).
  { intros P l l' He Hl'. rewrite <- (Forall_fmap tf_used P). rewrite He. by apply Forall_fmap. }
  constructor; [by unfold fs'; rewrite length_insert|].
  destruct Hc as [(Hlt & Hi & H1 & H2 & H3)|(Hi & H1 & H2)]; [left|right].
  - split_and!; [done|done| | |].
    + apply (Huse (fun z => z = 1%Z) _ (take i fs)); [|done]. by rewrite !fmap_take, Hu.
    + rewrite <- H2. by rewrite !fmap_take, Ht.
    + apply (Huse (fun z => z = 0%Z) _ (drop i fs)); [|done]. by rewrite !fmap_drop, Hu.
  - split_and!; [done| |].
    + by apply (Huse (fun z => z = 1%Z) _ fs).
    + rewrite <- H2, !fmap_app, !fmap_take, !fmap_drop, Ht. done.
Qed.

(** Writing a new attempt at the index. *)
(** What is before and behind a written slot. *)
Lemma written_slot (fs : list tcp_flow) i f :
  i < length fs ->
  <[i := f]> fs = take i fs ++ f :: drop (S i) fs /\
  take (S i) (<[i := f]> fs) = take i fs ++ [f] /\ drop (S i) (<[i := f]> fs) = drop (S i) fs.
Proof.
  intros Hi. assert (Hsplit : <[i := f]> fs = take i fs ++ f :: drop (S i) fs) by by apply insert_take_drop.
  split_and!; [done| |apply drop_insert_lt; lia].
  rewrite Hsplit, cons_middle, app_assoc. apply take_app_length'. rewrite length_app, length_take. simpl. lia.
Qed.
Lemma holds_new fs i w f :
  holds fs i w -> tf_used f = 1%Z ->
  holds (<[i := f]> fs) ((i + 1) `mod` FLOW_WINDOW) (lastn FLOW_WINDOW (w ++ [tuple_of f])).
Proof.
  intros [Hl Hc] Hf.
  assert (Hi : i < FLOW_WINDOW) by (destruct Hc as [(? & ? & _)|(? & _)]; lia).
  destruct (written_slot fs i f ltac:(lia)) as (Hsplit & HS & HD).
  assert (Htl : length (take i fs) = i) by (rewrite length_take; lia).
  constructor; [by rewrite length_insert|].
  destruct Hc as [(Hlt & Hiw & Hu & Hw & Hn)|(_ & Hu & Hw)].
  - (* still filling *)
    assert (Hlast : lastn FLOW_WINDOW (w ++ [tuple_of f]) = w ++ [tuple_of f]).
    { apply lastn_all. rewrite length_app. simpl. lia. }
    destruct (decide (S i = FLOW_WINDOW)) as [E|E].
    + right. replace (i + 1) with FLOW_WINDOW by lia. rewrite Nat.Div0.mod_same.
      assert (Hall : <[i := f]> fs = take i fs ++ [f]).
      { rewrite Hsplit, drop_ge by lia. done. }
      split_and!; [lia| |].
      * rewrite Hall. apply Forall_app. split; [done|by constructor].
      * rewrite Hlast, drop_0, take_0, app_nil_r, Hall, fmap_app, Hw. done.
    + left. rewrite Nat.mod_small by lia. rewrite Nat.add_1_r, HS, HD, Hlast.
      split_and!; [rewrite length_app; simpl; lia|rewrite length_app; simpl; lia| | |].
      * apply Forall_app. split; [done|by constructor].
      * by rewrite fmap_app, Hw.
      * rewrite <- Nat.add_1_r, <- drop_drop. by apply Forall_drop.
  - (* full: the oldest is overwritten *)
    right. assert (Hlw : length w = FLOW_WINDOW).
    { rewrite <- Hw, length_fmap, length_app, length_drop, length_take. lia. }
    rewrite lastn_snoc_full by (done || lia).
    assert (Htail : tail w = tuple_of <$> (drop (S i) fs ++ take i fs)).
    { rewrite <- Hw. destruct (drop i fs) as [|x l] eqn:E.
      - apply (f_equal length) in E. rewrite length_drop in E. simpl in E. lia.
      - assert (drop (S i) fs = l) as -> by (rewrite <- Nat.add_1_r, <- drop_drop, E; done). done. }
    assert (Hused : Forall (fun f => tf_used f = 1%Z) (<[i := f]> fs)) by (by apply Forall_insert).
    destruct (decide (S i = FLOW_WINDOW)) as [E|E].
    + replace (i + 1) with FLOW_WINDOW by lia. rewrite Nat.Div0.mod_same.
      split_and!; [lia|done|]. rewrite drop_0, take_0, app_nil_r, Htail, Hsplit, drop_ge by lia.
      by rewrite fmap_app.
    + rewrite Nat.mod_small, Nat.add_1_r by lia. split_and!; [lia|done|].
      rewrite HS, HD, Htail, app_assoc, fmap_app. done.
Qed.

Lemma flow_is_retrans_step st w t seq :
  holds (tcp_flows st) (tcp_flow_i st) w ->
  let '(r, st') := flow_is_retrans st (t_sip t) (t_dip t) (t_sport t) (t_dport t) seq in
  (r, snd (window_note w t)) = window_note w t /\
  holds (tcp_flows st') (tcp_flow_i st') (snd (window_note w t)) /\ tcp_snap st' = tcp_snap st.
Proof.
  intros Hh. unfold flow_is_retrans, window_note. pose proof (holds_In _ _ _ t Hh) as Hin.
  destruct (find_index _ _) as [j|] eqn:Ef.
  - apply find_index_Some in Ef as (f & Hf & Hs & _). apply same_tuple_spec in Hs.
    rewrite decide_True by (apply Hin; exists j, f; tauto). simpl.
    split; [done|]. split; [|done]. rewrite (list_lookup_total_correct _ _ _ Hf). by apply holds_seq.
  - rewrite find_index_None in Ef. rewrite decide_False.
    2:{ rewrite Hin. intros (j & f & Hj & Hs). apply same_tuple_spec in Hs.
        rewrite (Ef j f Hj) in Hs. done. }
    simpl. split; [done|]. split; [|done].
    pose proof (holds_new _ _ _ {| tf_sip := t_sip t; tf_dip := t_dip t; tf_sport := t_sport t;
      tf_dport := t_dport t; tf_seq := seq; tf_used := 1 |} Hh eq_refl) as H.
    unfold tuple_of in H. simpl in H. by destruct t.
Qed.

(** A sequence of SYNs (attempt, sequence number): the answers of the code and of
    the window. *)
Fixpoint note_all (st : cpe_tcp_state) (l : list (tuple4 * Z)) : list bool * cpe_tcp_state :=
  match l with
  | [] => ([], st)
  | (t, seq) :: l' =>
      let '(r, st1) := flow_is_retrans st (t_sip t) (t_dip t) (t_sport t) (t_dport t) seq in
      let '(rs, st2) := note_all st1 l' in (r :: rs, st2)
  end.
Fixpoint window_all (w : list tuple4) (l : list tuple4) : list bool * list tuple4 :=
  match l with
  | [] => ([], w)
  | t :: l' =>
      let '(r, w1) := window_note w t in
      let '(rs, w2) := window_all w1 l' in (r :: rs, w2)
  end.

Lemma init_holds st : tcp_flows st = flows_zero -> tcp_flow_i st = 0 ->
  holds (tcp_flows st) (tcp_flow_i st) [].
Proof.
  intros -> ->. constructor; [done|]. left. split_and!; [simpl; unfold FLOW_WINDOW; lia|done|constructor|done|].
  by apply Forall_replicate.
Qed.

(** C27: SYN retransmissions: from a fresh state, over any sequence of SYNs, the
    64-entry array answers exactly as a window of the last 64 distinct connection
    attempts: a SYN counts as a retransmission if and only if its attempt is in the
    window, and only a new attempt enters it, pushing out the oldest. *)
Theorem syn_window_refines st l :
  tcp_flows st = flows_zero -> tcp_flow_i st = 0 ->
  let '(rs, st') := note_all st l in
  (rs, snd (window_all [] (fst <$> l))) = window_all [] (fst <$> l) /\
  holds (tcp_flows st') (tcp_flow_i st') (snd (window_all [] (fst <$> l))) /\
  tcp_snap st' = tcp_snap st.
Proof.
  intros Hf Hi. pose proof (init_holds st Hf Hi) as Hh. clear Hf Hi.
  revert st Hh. generalize (@nil tuple4) as w.
  induction l as [|[t seq] l IH]; intros w st Hh; [done|]. cbn [note_all fmap list_fmap window_all fst].
  pose proof (flow_is_retrans_step st w t seq Hh) as Hs.
  destruct (flow_is_retrans st _ _ _ _ _) as [r st1]. destruct Hs as (Hr & Hh1 & Hsn).
  destruct (window_note w t) as [r' w1]. simpl in Hr, Hh1. injection Hr as ->.
  specialize (IH w1 st1 Hh1). destruct (note_all st1 l) as [rs st2]. destruct IH as (I1 & I2 & I3).
  change (list_fmap _ _ fst l) with (fst <$> l).
  destruct (window_all w1 (fst <$> l)) as [rs' w2]. simpl in *. injection I1 as ->.
  split; [done|]. split; [done|congruence].
Qed.
Definition tup (p : Z) : tuple4 := {| t_sip := 1; t_dip := 2; t_sport := p; t_dport := 443 |}.
Lemma syn_window_refines_witness :
  fst (note_all cpe_tcp_state_init [(tup 1, 5); (tup 2, 6); (tup 1, 7)]%Z) = [false; false; true].
Proof.
  pose proof (syn_window_refines cpe_tcp_state_init [(tup 1, 5); (tup 2, 6); (tup 1, 7)]%Z
    eq_refl eq_refl) as H.
  destruct (note_all _ _) as [rs st']. exact (f_equal fst (proj1 H)).
Defined.

(** ** Which end is the remote *)

(** The remote end: of an IPv4 packet with valid non-zero addresses it is the
    public address when exactly one of the two is private, loopback or link-local,
    and the destination otherwise; of an IPv6 packet it is always the destination. *)
Theorem remote_end pkt sip dip :
  tp_src_ip pkt = inet_ntop4_addr sip -> tp_dst_ip pkt = inet_ntop4_addr dip ->
  in_u32 sip -> in_u32 dip -> sip <> 0%Z -> dip <> 0%Z ->
  (tp_is_ipv6 pkt = 0%Z -> private_range (ntohl dip) -> ~ private_range (ntohl sip) ->
     remote_of pkt = tp_src_ip pkt) /\
  (tp_is_ipv6 pkt = 0%Z -> ~ private_range (ntohl dip) \/ private_range (ntohl sip) ->
     remote_of pkt = tp_dst_ip pkt) /\
  (tp_is_ipv6 pkt <> 0%Z -> remote_of pkt = tp_dst_ip pkt).
Proof.
  intros Hs Hd Us Ud Ns Nd. unfold remote_of, orient. rewrite Hs, Hd.
  unfold ip4_parse. rewrite !inet_pton4_ntop4_addr by done.
  rewrite (proj2 (truthy_spec sip) Ns), (proj2 (truthy_spec dip) Nd), !andb_true_r.
  pose proof (is_private_v4_spec sip) as Ps. pose proof (is_private_v4_spec dip) as Pd.
  assert (Hcut : forall a, snprintf_s CPE_TCP_IP_MAX (inet_ntop4_addr a) = inet_ntop4_addr a).
  { intros a. apply snprintf_s_fits. pose proof (strlen_ntop4_addr a). unfold CPE_TCP_IP_MAX. lia. }
  split; [|split].
  - intros -> Hp Hn. rewrite (proj2 Pd Hp).
    destruct (is_private_v4 sip); [tauto|]. apply Hcut.
  - intros -> Hc. destruct (is_private_v4 dip), (is_private_v4 sip); simpl; try apply Hcut.
    destruct Hc; [tauto|]. assert (false = true) by tauto. done.
  - intros H6. rewrite (proj2 (truthy_spec _) H6). apply Hcut.
Qed.
Lemma remote_end_witness : remote_of fin_packet = "8.8.4.4"%string.
Proof.
  refine (proj1 (remote_end fin_packet 67373064 167880896 _ _ _ _ _ _) _ _ _);
    try (vm_compute; reflexivity); try (unfold in_u32; lia); try done.
  - apply is_private_v4_spec. vm_compute. reflexivity.
  - rewrite <- is_private_v4_spec. vm_compute. discriminate.
Defined.
