(* ===== verification/TcpEmit.v ===== *)
(** * TCP statistics: lines, polling and the periodic tick (src/agent/tcp_stats.c)

    The loss heuristic, the three NDJSON line shapes, and the operations of
    [cpe_agent.h] on the TCP state: open, close, poll, feed, look-ups, reset, emit and
    tick.  The spool is any [LineSink]; the C library's [qsort] is a parameter with
    the order it promises ([QSortLaws]). *)

From S2P Require Import Prelude CStr Float754 Clock HostAlloc Config Spool Table Nflog TcpParse TcpStats.

Definition CPE_TCP_NDJSON_MAX := 640.

(** ** The loss hint *)
Definition cpe_tcp_loss_hint (syn fin rst syn_retrans : Z) : float :=
  let control := d_add (d_add (d_of_Z syn) (d_of_Z fin)) (d_of_Z rst) in
  if d_ltb control (d_of_Z 1) then f_zero
  else
    let bad := d_add (d_of_Z rst) (d_mul (d_const 1 (-1)) (d_of_Z syn_retrans)) in
    let h := f_of_d (d_div bad control) in
    if d_ltb h f_zero then f_zero
    else if d_ltb (f_const 1 0) h then f_const 1 0
    else h.

(** ** Lines *)
Definition tcp_head (ts rid : string) : string :=
  lit "{'type':'cpe_tcp','ts':'" +:+ ts +:+ lit "','router_id':'" +:+ rid.

Definition tcp_counts (syn fin rst retrans pkts bytes : Z) : string :=
  lit "'syn':" +:+ fmt_u syn +:+ lit ",'fin':" +:+ fmt_u fin +:+ lit ",'rst':" +:+ fmt_u rst +:+
  lit ",'syn_retrans':" +:+ fmt_u retrans +:+ lit ",'pkts':" +:+ fmt_u pkts +:+
  lit ",'bytes':" +:+ fmt_u bytes.

Definition remote_text (ts rid : string) (snap : cpe_tcp_snapshot) (r : cpe_tcp_remote) : string :=
  let loss := cpe_tcp_loss_hint (tr_syn_count r) (tr_fin_count r) (tr_rst_count r) (tr_syn_retrans r) in
  tcp_head ts rid +:+ lit "','scope':'remote','remote_ip':'" +:+ tr_remote_ip r +:+
  lit "','local_ip':'" +:+ tr_local_ip r +:+
  lit "','remote_port':" +:+ fmt_u (tr_remote_port r) +:+
  lit ",'local_port':" +:+ fmt_u (tr_local_port r) +:+ "," +:+
  tcp_counts (tr_syn_count r) (tr_fin_count r) (tr_rst_count r) (tr_syn_retrans r)
    (tr_pkt_count r) (tr_bytes_est r) +:+
  lit ",'loss_hint':" +:+ fmt_f 4 (d_of_f loss) +:+
  lit ",'nflog_group':" +:+ fmt_u (sn_nflog_group snap) +:+ "}".

Definition prefix_line_text (ts rid : string) (snap : cpe_tcp_snapshot) (p : cpe_tcp_prefix) : string :=
  let loss := cpe_tcp_loss_hint (tx_syn_count p) (tx_fin_count p) (tx_rst_count p) (tx_syn_retrans p) in
  tcp_head ts rid +:+ lit "','scope':'prefix','prefix':'" +:+ tx_prefix p +:+ lit "'," +:+
  tcp_counts (tx_syn_count p) (tx_fin_count p) (tx_rst_count p) (tx_syn_retrans p)
    (tx_pkt_count p) (tx_bytes_est p) +:+
  lit ",'remotes':" +:+ fmt_u (tx_remote_count p) +:+
  lit ",'loss_hint':" +:+ fmt_f 4 (d_of_f loss) +:+
  lit ",'nflog_group':" +:+ fmt_u (sn_nflog_group snap) +:+ "}".

Definition summary_text (ts rid : string) (s : cpe_tcp_snapshot) : string :=
  let loss := cpe_tcp_loss_hint (sn_syn_total s) (sn_fin_total s) (sn_rst_total s)
                (sn_syn_retrans_total s) in
  tcp_head ts rid +:+ lit "','scope':'summary'," +:+
  tcp_counts (sn_syn_total s) (sn_fin_total s) (sn_rst_total s) (sn_syn_retrans_total s)
    (sn_pkt_total s) (sn_bytes_total s) +:+
  lit ",'remotes':" +:+ fmt_u (Z.of_nat (sn_remote_count s)) +:+
  lit ",'prefixes':" +:+ fmt_u (Z.of_nat (sn_prefix_count s)) +:+
  lit ",'loss_hint':" +:+ fmt_f 4 (d_of_f loss) +:+
  lit ",'prefix_len':" +:+ fmt_u (sn_prefix_len s) +:+
  lit ",'nflog_group':" +:+ fmt_u (sn_nflog_group s) +:+
  lit ",'pkts_parsed':" +:+ fmt_u (sn_pkts_parsed s) +:+
  lit ",'pkts_non_tcp':" +:+ fmt_u (sn_pkts_non_tcp s) +:+
  lit ",'pkts_parse_fail':" +:+ fmt_u (sn_pkts_parse_fail s) +:+ "}".

(** The result and the buffer (written as empty when untouched). *)
Definition cpe_tcp_format_ndjson (router_id scope : option string) (snap : cpe_tcp_snapshot)
    (remote : option cpe_tcp_remote) (prefix : option cpe_tcp_prefix) (buflen : nat) : Z * string :=
  let rid := match router_id with Some r => str_dflt r "unknown" | None => "unknown"%string end in
  let sc := match scope with Some s => str_dflt s "summary" | None => "summary"%string end in
  if buflen <? 64 then ((-1)%Z, EmptyString)
  else
    let ts := str_dflt (sn_ts_iso snap) "1970-01-01T00:00:00.000Z" in
    let text :=
      match remote, prefix with
      | Some r, _ =>
          if streq sc "remote" then remote_text ts rid snap r
          else match prefix with
               | Some p => if streq sc "prefix" then prefix_line_text ts rid snap p
                           else summary_text ts rid snap
               | None => summary_text ts rid snap
               end
      | None, Some p =>
          if streq sc "prefix" then prefix_line_text ts rid snap p else summary_text ts rid snap
      | None, None => summary_text ts rid snap
      end in
    snprintf_checked buflen text.

(** ** Sorting *)
Class QSort := qsort : forall {A : Type}, (A -> A -> Z) -> list A -> list A.

(** What [qsort] promises for a comparison by a numeric key: a permutation of the
    array in non-descending comparison order. *)
Class QSortLaws `{QSort} := {
  qsort_perm {A} (cmp : A -> A -> Z) (l : list A) : qsort cmp l ≡ₚ l;
  qsort_sorted {A} (k : A -> Z) (cmp : A -> A -> Z) (l : list A) :
    (forall x y, cmp x y = if (k x <? k y)%Z then 1%Z else if (k y <? k x)%Z then (-1)%Z else 0%Z) ->
    forall i j x y, i < j -> qsort cmp l !! i = Some x -> qsort cmp l !! j = Some y -> (k y <= k x)%Z;
}.

Definition cmp_remote_pkts (a b : cpe_tcp_remote) : Z :=
  if (tr_pkt_count a <? tr_pkt_count b)%Z then 1%Z
  else if (tr_pkt_count b <? tr_pkt_count a)%Z then (-1)%Z else 0%Z.
Definition cmp_prefix_pkts (a b : cpe_tcp_prefix) : Z :=
  if (tx_pkt_count a <? tx_pkt_count b)%Z then 1%Z
  else if (tx_pkt_count b <? tx_pkt_count a)%Z then (-1)%Z else 0%Z.

(** ** Socket life cycle *)
Definition cpe_agent_tcp_open (env : nl_env) (cfg : cpe_agent_config) (st : cpe_tcp_state)
    : Z * cpe_tcp_state :=
  if (0 <=? tcp_fd st)%Z then (0%Z, st)
  else
    let group := dflt (tcp_nflog_group cfg) NFLOG_GROUP_DEFAULT in
    let plen := dflt (tcp_prefix_len cfg) 24 in
    let s := tcp_snap st in
    let st := st <| tcp_group := group |>
                 <| tcp_copy_range := dflt (tcp_nflog_size cfg) NFLOG_COPY_RANGE_DEFAULT |>
                 <| st_prefix_len := plen |>
                 <| st_emit_interval_ms := dflt (tcp_emit_interval_ms cfg) 10000 |>
                 <| st_emit_top_n := dflt (tcp_emit_top_n cfg) 20 |>
                 <| tcp_enabled := tcp_stats_enabled cfg |>
                 <| tcp_snap := s <| sn_nflog_group := group |> <| sn_prefix_len := plen |> |> in
    if negb (truthy (tcp_enabled st)) then (0%Z, st)
    else
      let r := nflog_netlink_open env (tcp_group st) (tcp_copy_range st) (Some (128, EmptyString)) in
      if (op_fd r <? 0)%Z then
        let err := err_text (op_err r) in
        let msg := if nonempty err then str_take 95 err else snprintf_s 96 "nflog open failed" in
        ((-1)%Z, st <| tcp_open_err := msg |> <| tcp_open_ok := 0%Z |>)
      else (0%Z, st <| tcp_fd := op_fd r |> <| tcp_open_ok := 1%Z |> <| tcp_open_err := EmptyString |>).

Definition cpe_agent_tcp_close (st : cpe_tcp_state) : cpe_tcp_state :=
  let st := if (0 <=? tcp_fd st)%Z then st <| tcp_fd := (-1)%Z |> else st in
  st <| tcp_open_ok := 0%Z |>.

(** ** Feeding packets *)
Fixpoint feed_packets (st : cpe_tcp_state) (pks : list nflog_packet) (clk : clock) : chk cpe_tcp_state :=
  match pks with
  | [] => mret st
  | p :: pks' => st' ← on_nflog_payload st (pk_payload p) clk; feed_packets st' pks' clk
  end.

(** [nflog_netlink_walk] with the callback [on_nflog_payload]. *)
Definition walk_into (st : cpe_tcp_state) (buf : list Z) (clk : clock) : chk (Z * cpe_tcp_state) :=
  r ← nflog_netlink_walk buf;
  st' ← feed_packets st (snd r) clk;
  mret (fst r, st').

Definition cpe_agent_tcp_feed_nflog (st : cpe_tcp_state) (nl_msg : list Z) (clk : clock)
    : chk (Z * cpe_tcp_state) :=
  if length nl_msg =? 0 then mret ((-1)%Z, st) else walk_into st nl_msg clk.

Definition cpe_agent_tcp_feed_payload (st : cpe_tcp_state) (ip_pkt : list Z) (clk : clock)
    : chk (Z * cpe_tcp_state) :=
  if length ip_pkt =? 0 then mret ((-1)%Z, st)
  else
    let s := tcp_snap st in
    let s := s <| sn_pkts_parsed := u64 (sn_pkts_parsed s + 1) |> in
    r ← cpe_tcp_parse_ip_packet ip_pkt;
    match r with
    | None =>
        mret ((-1)%Z, st <| tcp_snap := s <| sn_pkts_parse_fail := u64 (sn_pkts_parse_fail s + 1) |> |>)
    | Some pkt => mret (0%Z, apply_packet (st <| tcp_snap := s |>) pkt clk)
    end.

(** The receive loop: [rs] is what successive [recv] calls answer, nothing more
    once it is used up.  Yields the packet count, the state and the rest of [rs]. *)
Fixpoint poll_loop (limit : nat) (st : cpe_tcp_state) (rs : list recv_result) (clk : clock) (total : Z)
    : chk (Z * cpe_tcp_state * list recv_result) :=
  match limit with
  | O => mret (total, st, rs)
  | S limit' =>
      let r := match rs with r :: _ => r | [] => RecvAgain end in
      let '(rd, buf) := nflog_netlink_recv (tcp_fd st) r (Z.to_nat 8192) in
      if (rd <=? 0)%Z then mret (total, st, tail rs)
      else
        w ← walk_into st buf clk;
        let '(walked, st') := w in
        poll_loop limit' st' (tail rs) clk (if (0 <? walked)%Z then (total + walked)%Z else total)
  end.

Definition cpe_agent_tcp_poll (env : nl_env) (cfg : cpe_agent_config) (st : cpe_tcp_state)
    (rs : list recv_result) (clk : clock) (max_msgs : nat)
    : chk (Z * cpe_tcp_state * list recv_result) :=
  let limit := if max_msgs =? 0 then 64 else max_msgs in
  if negb (truthy (tcp_enabled st)) then mret (0%Z, st, rs)
  else
    let '(rc, st) := if (tcp_fd st <? 0)%Z then cpe_agent_tcp_open env cfg st else (0%Z, st) in
    if negb (rc =? 0)%Z then mret (0%Z, st, rs)   (* soft: no privileges yet *)
    else if (tcp_fd st <? 0)%Z then mret (0%Z, st, rs)
    else poll_loop limit st rs clk 0.

(** ** Queries *)
Definition cpe_agent_tcp_snapshot (st : cpe_tcp_state) : cpe_tcp_snapshot := tcp_snap st.
Definition cpe_agent_tcp_remote (st : cpe_tcp_state) (remote_ip : string) : option cpe_tcp_remote :=
  i ← find_index (fun r => streq (tr_remote_ip r) remote_ip) (sn_remotes (tcp_snap st));
  sn_remotes (tcp_snap st) !! i.
Definition cpe_agent_tcp_prefix (st : cpe_tcp_state) (prefix : string) : option cpe_tcp_prefix :=
  i ← find_index (fun p => streq (tx_prefix p) prefix) (sn_prefixes (tcp_snap st));
  sn_prefixes (tcp_snap st) !! i.
Definition cpe_agent_tcp_last_error (st : cpe_tcp_state) : option string :=
  if nonempty (tcp_open_err st) then Some (tcp_open_err st) else None.
Definition cpe_agent_tcp_fd (st : cpe_tcp_state) : Z := tcp_fd st.

Definition cpe_agent_tcp_reset (st : cpe_tcp_state) (clk : clock) : cpe_tcp_state :=
  let s := tcp_snap st in
  st <| tcp_snap := snapshot_zero <| sn_nflog_group := sn_nflog_group s |>
                      <| sn_prefix_len := sn_prefix_len s |>
                      <| sn_ts_iso := TcpClock.iso_now clk 40 |> |>
     <| tcp_flows := flows_zero |> <| tcp_flow_i := 0 |>.

(** ** Emitting *)
Section emit.
Context {Q : Type} `{!LineSink Q} `{!QSort}.

(** A row that does not format is skipped; a row is counted when the spool takes it. *)
Definition emit_row {A} (format : A -> Z * string) (acc : Z * Q) (x : A) : Z * Q :=
  let '(lines, q) := acc in
  let '(n, line) := format x in
  if (n <? 0)%Z then (lines, q)
  else let '(rc, q') := sink_push q line in (if (rc =? 0)%Z then (lines + 1)%Z else lines, q').
Definition emit_rows {A} (format : A -> Z * string) (acc : Z * Q) (l : list A) : Z * Q :=
  foldl (emit_row format) acc l.

(** The rows' lines as an emission formats them. *)
Definition remote_row (cfg : cpe_agent_config) (snap : cpe_tcp_snapshot) (r : cpe_tcp_remote) : Z * string :=
  cpe_tcp_format_ndjson (Some (router_id cfg)) (Some "remote"%string) snap (Some r) None CPE_TCP_NDJSON_MAX.
Definition prefix_row (cfg : cpe_agent_config) (snap : cpe_tcp_snapshot) (p : cpe_tcp_prefix) : Z * string :=
  cpe_tcp_format_ndjson (Some (router_id cfg)) (Some "prefix"%string) snap None (Some p) CPE_TCP_NDJSON_MAX.
Definition summary_row (cfg : cpe_agent_config) (snap : cpe_tcp_snapshot) : Z * string :=
  cpe_tcp_format_ndjson (Some (router_id cfg)) (Some "summary"%string) snap None None CPE_TCP_NDJSON_MAX.

Definition sorted_rows {A} (cmp : A -> A -> Z) (l : list A) : list A :=
  if 1 <? length l then qsort cmp l else l.

Definition cpe_agent_tcp_emit (cfg : cpe_agent_config) (st : cpe_tcp_state) (q : Q) (clk : clock)
    (top_n : Z) : Z * cpe_tcp_state * Q :=
  let s := tcp_snap st in
  let st := st <| tcp_snap := s <| sn_ts_iso := TcpClock.iso_now clk 40 |> |> in
  let snap := tcp_snap st in
  let '(n, line) := summary_row cfg snap in
  if (n <? 0)%Z then ((-1)%Z, st, q)
  else
    let '(rc, q) := sink_push q line in
    let lines := if (rc =? 0)%Z then 1%Z else 0%Z in
    let rem := take CPE_TCP_REMOTE_MAX (sn_remotes snap) in
    let top_n := if (top_n =? 0)%Z then dflt (st_emit_top_n st) 20 else top_n in
    let top := Z.to_nat (Z.min top_n (Z.of_nat (length rem))) in
    let '(lines, q) :=
      emit_rows (remote_row cfg snap) (lines, q) (take top (sorted_rows cmp_remote_pkts rem)) in
    let pfx := take CPE_TCP_PREFIX_MAX (sn_prefixes snap) in
    let '(lines, q) :=
      emit_rows (prefix_row cfg snap) (lines, q) (take (Nat.min top (length pfx)) (sorted_rows cmp_prefix_pkts pfx)) in
    (lines, st <| tcp_last_emit_ms := mono_ms clk |>, q).

Definition cpe_agent_tcp_tick (env : nl_env) (cfg : cpe_agent_config) (st : cpe_tcp_state) (q : Q)
    (rs : list recv_result) (clk : clock) : chk (Z * cpe_tcp_state * Q) :=
  if negb (truthy (tcp_stats_enabled cfg)) then mret (0%Z, st, q)
  else
    let plen := dflt (tcp_prefix_len cfg) (st_prefix_len st) in
    let s := tcp_snap st in
    let st := st <| tcp_enabled := 1%Z |> <| st_prefix_len := plen |>
                 <| tcp_snap := s <| sn_prefix_len := plen |>
                      <| sn_nflog_group := dflt (tcp_nflog_group cfg) (sn_nflog_group s) |> |>
                 <| st_emit_interval_ms := dflt (tcp_emit_interval_ms cfg) (st_emit_interval_ms st) |>
                 <| st_emit_top_n := dflt (tcp_emit_top_n cfg) (st_emit_top_n st) |> in
    p ← cpe_agent_tcp_poll env cfg st rs clk 128;
    let '(_, st, _) := p in
    let now := mono_ms clk in
    if (tcp_last_emit_ms st =? 0)%Z || (st_emit_interval_ms st <=? u64 (now - tcp_last_emit_ms st))%Z
    then mret (cpe_agent_tcp_emit cfg st q clk (st_emit_top_n st))
    else mret (0%Z, st, q).
End emit.

(** ** What feeding a datagram counts *)

(** How a batch of [n] payloads was classified: applied, not TCP, unparsable. *)
Definition classified (st st' : cpe_tcp_state) (applied non_tcp failed : Z) : Prop :=
  let s := tcp_snap st in let s' := tcp_snap st' in
  sn_pkts_parsed s' = u64 (sn_pkts_parsed s + (applied + non_tcp + failed)) /\
  sn_pkt_total s' = u32 (sn_pkt_total s + applied) /\
  sn_pkts_non_tcp s' = u64 (sn_pkts_non_tcp s + non_tcp) /\
  sn_pkts_parse_fail s' = u64 (sn_pkts_parse_fail s + failed).

(** The counters within their types. *)
Definition pkt_counters_wf (s : cpe_tcp_snapshot) : Prop :=
  in_u64 (sn_pkts_parsed s) /\ in_u32 (sn_pkt_total s) /\ in_u64 (sn_pkts_non_tcp s) /\
  in_u64 (sn_pkts_parse_fail s).

Lemma classified_refl st : pkt_counters_wf (tcp_snap st) -> classified st st 0 0 0.
Proof.
  intros (H1 & H2 & H3 & H4). unfold classified. cbv zeta.
  rewrite !Z.add_0_r, !u64_id, u32_id by done. done.
Qed.
Lemma classified_wf st st' a b c : classified st st' a b c -> pkt_counters_wf (tcp_snap st').
Proof.
  intros (H1 & H2 & H3 & H4). unfold pkt_counters_wf. rewrite H1, H2, H3, H4.
  refine (conj _ (conj _ (conj _ _))); auto with nf.
Qed.
Lemma classified_trans st1 st2 st3 a b c a' b' c' :
  classified st1 st2 a b c -> classified st2 st3 a' b' c' ->
  classified st1 st3 (a + a') (b + b') (c + c').
Proof.
  intros (H1 & H2 & H3 & H4) (I1 & I2 & I3 & I4). unfold classified. cbv zeta.
  rewrite I1, I2, I3, I4, H1, H2, H3, H4, !u64_add_l, u32_add_l. split_and!; f_equal; lia.
Qed.

Lemma apply_packet_pkts st pkt clk :
  let s := tcp_snap st in let s' := tcp_snap (apply_packet st pkt clk) in
  sn_pkts_parsed s' = sn_pkts_parsed s /\ sn_pkts_non_tcp s' = sn_pkts_non_tcp s /\
  sn_pkts_parse_fail s' = sn_pkts_parse_fail s /\ sn_nflog_group s' = sn_nflog_group s /\
  sn_prefix_len s' = sn_prefix_len s.
Proof.
  cbv zeta. unfold apply_packet, remote_index, prefix_index.
  pose proof (note_syn_frame st pkt) as Hf. destruct (note_syn st pkt) as [retrans st1].
  destruct Hf as (-> & _).
  destruct (table_index tr_remote_ip _ _ _ _ _) as [ri l]. destruct (negb _ && _).
  - destruct (table_index tx_prefix _ _ _ _ _) as [pi k]. by split_and!.
  - by split_and!.
Qed.

(** A rejected payload is counted once, as not TCP or as a failure. *)
Lemma reject_once {A} (payload : list Z) (non_tcp failed : A) :
  exists b : bool,
  (if 1 <=? length payload then
     b0 ← rd payload 0;
     let ver := Z.shiftr b0 4 in
     is4 ← (if (ver =? 4)%Z && (10 <=? length payload)
            then p ← rd payload 9; mret (negb (p =? IPPROTO_TCP)%Z) else mret false);
     if is4 : bool then mret non_tcp
     else
       is6 ← (if (ver =? 6)%Z && (7 <=? length payload)
              then p ← rd payload 6; mret (negb (p =? IPPROTO_TCP)%Z) else mret false);
       mret (if is6 : bool then non_tcp else failed)
   else mret failed) = Safe (if b then non_tcp else failed).
Proof.
  destruct (Nat.leb_spec 1 (length payload)); [|by exists false].
  destruct (rd_safe payload 0) as (b0 & -> & _); [lia|]. chk_step.
  assert (Hp : forall i g v, i < g -> exists q : bool,
    (if v && (g <=? length payload) then p ← rd payload i; mret (negb (p =? IPPROTO_TCP)%Z)
     else mret false) = Safe q).
  { intros i g v Hi. destruct v; [|by exists false].
    destruct (Nat.leb_spec g (length payload)); [|by exists false]. simpl.
    destruct (rd_safe payload i) as (x & -> & _); [lia|]. chk_step. by eexists. }
  destruct (Hp 9 10 (Z.shiftr b0 4 =? 4)%Z ltac:(lia)) as [q4 ->]. chk_step.
  destruct q4; [by exists true|].
  destruct (Hp 6 7 (Z.shiftr b0 4 =? 6)%Z ltac:(lia)) as [q6 ->]. chk_step. by exists q6.
Qed.

(** One payload: exactly one of the three outcomes. *)
Lemma on_nflog_payload_spec st payload clk :
  bytes payload -> pkt_counters_wf (tcp_snap st) ->
  safe_with (fun st' => exists a b c, classified st st' a b c /\
      (0 <= a)%Z /\ (0 <= b)%Z /\ (0 <= c)%Z /\ (a + b + c = 1)%Z)
    (on_nflog_payload st payload clk).
Proof.
  intros Hb (H1 & H2 & H3 & H4). unfold on_nflog_payload.
  eapply safe_bind; [by apply parse_safe|]. intros [pkt|] _.
  { apply safe_ret. exists 1%Z, 0%Z, 0%Z. split; [|lia].
    match goal with |- classified _ (apply_packet ?s _ _) _ _ _ => set (st1 := s) end.
    destruct (apply_packet_pkts st1 pkt clk) as (E1 & E2 & E3 & _).
    destruct (apply_packet_effect st1 pkt clk) as (E4 & _).
    unfold classified. cbv zeta. rewrite E1, E2, E3, E4.
    refine (conj eq_refl (conj eq_refl (conj _ _))); by rewrite Z.add_0_r, u64_id. }
  set (s := tcp_snap st) in *. set (s1 := s <| sn_pkts_parsed := _ |>).
  apply (safe_bind _ _ (fun s' => exists b : bool, s' =
    if b then s1 <| sn_pkts_non_tcp := u64 (sn_pkts_non_tcp s1 + 1) |>
    else s1 <| sn_pkts_parse_fail := u64 (sn_pkts_parse_fail s1 + 1) |>)).
  { destruct (reject_once payload (s1 <| sn_pkts_non_tcp := u64 (sn_pkts_non_tcp s1 + 1) |>)
      (s1 <| sn_pkts_parse_fail := u64 (sn_pkts_parse_fail s1 + 1) |>)) as [b Hq].
    eexists. split; [exact Hq|by exists b]. }
  intros s' [b ->]. apply safe_ret. destruct b.
  - exists 0%Z, 1%Z, 0%Z. split; [|lia]. refine (conj eq_refl (conj _ (conj eq_refl _)));
      rewrite Z.add_0_r; symmetry; by (apply u32_id || apply u64_id).
  - exists 0%Z, 0%Z, 1%Z. split; [|lia]. refine (conj eq_refl (conj _ (conj _ eq_refl)));
      rewrite Z.add_0_r; symmetry; by (apply u32_id || apply u64_id).
Qed.

Definition classified_total (st : cpe_tcp_state) (n : Z) (st' : cpe_tcp_state) : Prop :=
  exists a b c, classified st st' a b c /\ (0 <= a)%Z /\ (0 <= b)%Z /\ (0 <= c)%Z /\ (a + b + c = n)%Z.

Lemma feed_packets_spec st pks clk :
  Forall packet_bytes pks -> pkt_counters_wf (tcp_snap st) ->
  safe_with (classified_total st (Z.of_nat (length pks))) (feed_packets st pks clk).
Proof.
  intros Hb. revert st. induction Hb as [|p pks Hp Hb IH]; intros st Hwf; cbn [feed_packets].
  { apply safe_ret. exists 0%Z, 0%Z, 0%Z. split; [by apply classified_refl|simpl; lia]. }
  eapply safe_bind; [by apply on_nflog_payload_spec|].
  intros st1 (a & b & c & Hc & ? & ? & ? & ?).
  destruct (IH st1 (classified_wf _ _ _ _ _ Hc)) as (st2 & -> & a' & b' & c' & Hc' & ? & ? & ? & ?).
  eexists. split; [done|]. exists (a + a')%Z, (b + b')%Z, (c + c')%Z.
  split; [by eapply classified_trans|cbn [length]; lia].
Qed.

(** A datagram as the kernel delivers it: bytes, padded to four. *)
Definition datagram_ok (buf : list Z) : Prop :=
  bytes buf /\ (Z.of_nat (length buf) mod 4 = 0)%Z /\ (Z.of_nat (length buf) < 2147483648)%Z.

Lemma walk_into_spec st buf clk :
  datagram_ok buf -> pkt_counters_wf (tcp_snap st) ->
  exists count out st', walk_into st buf clk = Safe (count, st') /\
    nflog_netlink_walk buf = Safe (count, out) /\
    classified_total st (Z.of_nat (length out)) st'.
Proof.
  intros (Hb & Hal & Hmax) Hwf. unfold walk_into.
  destruct (walk_deliver buf Hb Hal Hmax) as (count & out & Hw & Ho). rewrite Hw. chk_step. cbn [fst snd].
  destruct (feed_packets_spec st out clk Ho Hwf) as (st' & -> & Hc). chk_step.
  by exists count, out, st'.
Qed.

(** C25: Feeding any four-byte-padded NFLOG datagram of bytes is memory safe, and it
    accounts for every payload the walk delivers exactly once: the parsed counter grows
    by the number of payloads and each of them is applied, counted as not TCP, or
    counted as a parse failure. *)
Theorem feed_nflog_accounts st buf clk :
  datagram_ok buf -> buf <> [] -> pkt_counters_wf (tcp_snap st) ->
  exists count out st', cpe_agent_tcp_feed_nflog st buf clk = Safe (count, st') /\
    nflog_netlink_walk buf = Safe (count, out) /\
    classified_total st (Z.of_nat (length out)) st'.
Proof.
  intros Hd Hne Hwf. unfold cpe_agent_tcp_feed_nflog.
  destruct (Nat.eqb_spec (length buf) 0) as [E|_]; [by apply length_zero_iff_nil in E|].
  by apply walk_into_spec.
Qed.

(** A datagram with the SYN, a UDP packet and a truncated one. *)
Definition three_payloads : list Z :=
  enc_msgs [MPacket (replicate 10 0%Z) (replicate 4 0%Z) [(9, syn_pkt)%Z];
            MPacket (replicate 10 0%Z) (replicate 4 0%Z) [(9, [69; 0; 0; 28; 0; 0; 0; 0; 64; 17])%Z];
            MPacket (replicate 10 0%Z) (replicate 4 0%Z) [(9, [69; 0])%Z]].
Lemma feed_nflog_accounts_witness :
  exists count out st', cpe_agent_tcp_feed_nflog cpe_tcp_state_init three_payloads clock0 = Safe (count, st') /\
    nflog_netlink_walk three_payloads = Safe (count, out) /\
    classified_total cpe_tcp_state_init (Z.of_nat (length out)) st'.
Proof.
  apply (feed_nflog_accounts cpe_tcp_state_init three_payloads clock0).
  - split; [|split; vm_compute; reflexivity]. unfold bytes.
    apply (bool_decide_unpack _). vm_compute. exact I.
  - discriminate.
  - repeat split; vm_compute; congruence.
Defined.
Example three_payloads_counted :
  match cpe_agent_tcp_feed_nflog cpe_tcp_state_init three_payloads clock0 with
  | Safe (n, st') => (n, sn_pkts_parsed (tcp_snap st'), sn_pkt_total (tcp_snap st'),
                      sn_pkts_non_tcp (tcp_snap st'), sn_pkts_parse_fail (tcp_snap st'))
  | Oob => (0, 0, 0, 0, 0)%Z
  end = (3, 3, 1, 1, 1)%Z.
Proof. vm_compute. reflexivity. Qed.

(** ** Emission *)

(** The rows that format, as the lines pushed. *)
Definition row_line {A} (format : A -> Z * string) (x : A) : option string :=
  let '(n, line) := format x in if (n <? 0)%Z then None else Some line.
Definition row_lines {A} (format : A -> Z * string) (l : list A) : list string :=
  omap (row_line format) l.

(** The rows an emission picks, and its lines after the summary. *)
Definition top_count (st : cpe_tcp_state) (top_n : Z) : nat :=
  Z.to_nat (Z.min (if (top_n =? 0)%Z then dflt (st_emit_top_n st) 20 else top_n)
                  (Z.of_nat (length (sn_remotes (tcp_snap st))))).

Section emit_spec.
Context {Q : Type} `{LineSinkLaws Q} `{QSortLaws}.

Lemma emit_rows_spec {A} (format : A -> Z * string) (l : list A) lines (q : Q) :
  sink_wf q ->
  emit_rows format (lines, q) l =
    ((lines + if (sink_cap q =? 0)%nat then 0 else Z.of_nat (length (row_lines format l)))%Z,
     sink_push_all q (row_lines format l)).
Proof.
  revert lines q. induction l as [|x l IH]; intros lines q Hwf; unfold emit_rows in *; cbn [foldl].
  { destruct (sink_cap q =? 0); by rewrite Z.add_0_r. }
  assert (Hrow : row_lines format (x :: l) =
    option_list (row_line format x) ++ row_lines format l)
    by (unfold row_lines; cbn; by destruct (row_line format x)).
  rewrite Hrow. clear Hrow. unfold emit_row at 2, row_line.
  destruct (format x) as [n line]. destruct (n <? 0)%Z; [by apply IH|].
  pose proof (sink_push_rc q line Hwf) as Hrc. pose proof (sink_push_wf q line Hwf) as Hwf'.
  pose proof (sink_push_cap q line Hwf) as Hcap. cbn [sink_push_all foldl] in *.
  destruct (sink_push q line) as [rc q1] eqn:E. cbn [fst snd] in *. rewrite IH, Hcap, Hrc by done.
  unfold sink_push_all. cbn [option_list app foldl length snd].
  f_equal; [destruct (sink_cap q =? 0); simpl; lia|simpl; by rewrite E].
Qed.

(** The chosen rows dominate the others. *)
Definition top_rows {A} (key : A -> Z) (n : nat) (l top : list A) : Prop :=
  length top = Nat.min n (length l) /\
  (forall i j x y, i < j -> top !! i = Some x -> top !! j = Some y -> (key y <= key x)%Z) /\
  exists rest, top ++ rest ≡ₚ l /\ Forall (fun r => Forall (fun t => key r <= key t)%Z top) rest.

Lemma sorted_rows_top {A} (key : A -> Z) (cmp : A -> A -> Z) n (l : list A) :
  (forall x y, cmp x y = if (key x <? key y)%Z then 1%Z else if (key y <? key x)%Z then (-1)%Z else 0%Z) ->
  top_rows key n l (take n (sorted_rows cmp l)).
Proof.
  intros Hcmp. unfold sorted_rows.
  assert (Hs : exists s, (if 1 <? length l then qsort cmp l else l) = s /\ s ≡ₚ l /\
    forall i j x y, i < j -> s !! i = Some x -> s !! j = Some y -> (key y <= key x)%Z).
  { destruct (Nat.ltb_spec 1 (length l)).
    - eexists. split; [done|]. split; [apply qsort_perm|]. by apply qsort_sorted.
    - exists l. split; [done|]. split; [done|]. intros i j x y Hij _ Hj.
      apply lookup_lt_Some in Hj. lia. }
  destruct Hs as (s & -> & Hp & Hsort). split; [|split].
  - by rewrite length_take, Hp.
  - intros i j x y Hij Hi Hj. apply lookup_take_Some in Hi as [Hi _], Hj as [Hj _]. by eapply Hsort.
  - exists (drop n s). split; [by rewrite take_drop|].
    apply Forall_lookup. intros j y Hj. rewrite lookup_drop in Hj.
    apply Forall_lookup. intros i x Hi. apply lookup_take_Some in Hi as [Hi Hn].
    eapply Hsort; [|exact Hi|exact Hj]. lia.
Qed.

(** The state after an emission at [clk]. *)
Definition stamped (st : cpe_tcp_state) (clk : clock) : cpe_tcp_state :=
  let s := tcp_snap st in st <| tcp_snap := s <| sn_ts_iso := TcpClock.iso_now clk 40 |> |>.

Definition emitted (cfg : cpe_agent_config) (st : cpe_tcp_state) (clk : clock) (top_n : Z)
    (lines : list string) : Prop :=
  let snap := tcp_snap (stamped st clk) in
  let n := top_count st top_n in
  exists rem pfx,
    top_rows tr_pkt_count n (sn_remotes snap) rem /\
    top_rows tx_pkt_count n (sn_prefixes snap) pfx /\
    lines = snd (summary_row cfg snap) :: row_lines (remote_row cfg snap) rem ++
              row_lines (prefix_row cfg snap) pfx.

Lemma emit_spec cfg st (q : Q) clk top_n :
  sink_wf q -> sn_remote_count (tcp_snap st) <= CPE_TCP_REMOTE_MAX ->
  sn_prefix_count (tcp_snap st) <= CPE_TCP_PREFIX_MAX ->
  (0 <= fst (summary_row cfg (tcp_snap (stamped st clk))))%Z ->
  exists lines, emitted cfg st clk top_n lines /\
    cpe_agent_tcp_emit cfg st q clk top_n =
      (if sink_cap q =? 0 then 0%Z else Z.of_nat (length lines),
       (stamped st clk) <| tcp_last_emit_ms := mono_ms clk |>, sink_push_all q lines).
Proof.
  intros Hwf Hr Hp Hsum. unfold sn_remote_count, sn_prefix_count in *.
  unfold emitted, cpe_agent_tcp_emit. fold (stamped st clk).
  set (snap := tcp_snap (stamped st clk)) in *.
  destruct (summary_row cfg snap) as [n line] eqn:Es. cbn [fst snd] in *.
  replace (n <? 0)%Z with false by (symmetry; by apply Z.ltb_ge).
  pose proof (sink_push_rc q line Hwf) as Hrc. pose proof (sink_push_wf q line Hwf) as Hwf1.
  pose proof (sink_push_cap q line Hwf) as Hcap.
  destruct (sink_push q line) as [rc q1] eqn:Eq. cbn [fst snd] in *.
  rewrite !(take_ge _ CPE_TCP_REMOTE_MAX), !(take_ge _ CPE_TCP_PREFIX_MAX) by done.
  change (st_emit_top_n (stamped st clk)) with (st_emit_top_n st).
  change (sn_remotes snap) with (sn_remotes (tcp_snap st)).
  fold (top_count st top_n).
  set (rem := take _ (sorted_rows cmp_remote_pkts _)).
  set (pfx := take _ (sorted_rows cmp_prefix_pkts _)).
  rewrite emit_rows_spec by done.
  destruct (sink_push_all_spec q1 (row_lines (remote_row cfg snap) rem) Hwf1) as (Hwf2 & Hcap2 & _).
  rewrite emit_rows_spec by done. rewrite Hcap2, Hcap, Hrc.
  exists (line :: row_lines (remote_row cfg snap) rem ++ row_lines (prefix_row cfg snap) pfx).
  split.
  - exists rem, pfx. split_and!; [by apply sorted_rows_top| |done].
    pose proof (sorted_rows_top tx_pkt_count cmp_prefix_pkts
      (Nat.min (top_count st top_n) (length (sn_prefixes snap))) (sn_prefixes snap) ltac:(done)) as (Hl & Hs2 & Hs3).
    split; [fold pfx in Hl; lia|done].
  - f_equal; [f_equal|].
    + destruct (sink_cap q =? 0); simpl; rewrite ?length_app; lia.
    + change (line :: ?l) with ([line] ++ l). rewrite !sink_push_all_app.
      unfold sink_push_all at 5. cbn [foldl]. by rewrite Eq.
Qed.
End emit_spec.

(** ** Polling keeps the emission clock *)

(** What polling may not touch once the socket settings are in place. *)
Definition emit_ctl (st : cpe_tcp_state) : Z * Z * Z := (tcp_last_emit_ms st, tcp_enabled st, st_emit_top_n st).

(** Whatever does not depend on the snapshot and the SYN window is not changed by
    packets. *)
Section frame.
Context {X : Type} (f : cpe_tcp_state -> X).
Hypothesis frame_snap : forall st s, f (st <| tcp_snap := s |>) = f st.
Hypothesis frame_flows : forall st l, f (st <| tcp_flows := l |>) = f st.
Hypothesis frame_flow_i : forall st i, f (st <| tcp_flow_i := i |>) = f st.

Lemma apply_packet_frame st pkt clk : f (apply_packet st pkt clk) = f st.
Proof.
  assert (Hn : forall b st1, note_syn st pkt = (b, st1) -> f st1 = f st).
  { unfold note_syn, flow_is_retrans. intros b st1.
    repeat case_match; intros; simplify_eq; by rewrite ?frame_flow_i, ?frame_flows. }
  unfold apply_packet. destruct (note_syn st pkt) as [b st1]. rewrite <- (Hn b st1 eq_refl).
  destruct (remote_index _ _) as [ri s]. destruct (_ && _); [destruct (prefix_index _ _) as [pi s']|];
    apply frame_snap.
Qed.
Lemma on_nflog_payload_frame st payload clk st' :
  on_nflog_payload st payload clk = Safe st' -> f st' = f st.
Proof.
  unfold on_nflog_payload. destruct (cpe_tcp_parse_ip_packet payload) as [[pkt|]|]; chk_step; [| |done].
  - unfold mret, chk_ret. intros [= <-]. by rewrite apply_packet_frame, frame_snap.
  - match goal with |- context [mbind _ ?m = _] => destruct m; chk_step end; [|done].
    intros [= <-]. apply frame_snap.
Qed.
Lemma feed_packets_frame st pks clk st' : feed_packets st pks clk = Safe st' -> f st' = f st.
Proof.
  revert st. induction pks as [|p pks IH]; intros st; cbn [feed_packets]; [by intros [= <-]|].
  destruct (on_nflog_payload st _ clk) as [st1|] eqn:E; chk_step; [|done].
  intros ->%IH. by eapply on_nflog_payload_frame.
Qed.
Lemma walk_into_frame st buf clk count st' : walk_into st buf clk = Safe (count, st') -> f st' = f st.
Proof.
  unfold walk_into. destruct (nflog_netlink_walk buf) as [r|]; chk_step; [|done].
  destruct (feed_packets st r.2 clk) as [st1|] eqn:E; chk_step; [|done].
  intros [= _ <-]. by eapply feed_packets_frame.
Qed.
Lemma poll_loop_frame limit st rs clk total total' st' rs' :
  poll_loop limit st rs clk total = Safe (total', st', rs') -> f st' = f st.
Proof.
  revert st rs total. induction limit as [|limit IH]; intros st rs total; cbn [poll_loop]; [by intros [= _ <- _]|].
  destruct (nflog_netlink_recv _ _ _) as [rd buf]. destruct (rd <=? 0)%Z; [by intros [= _ <- _]|].
  destruct (walk_into st buf clk) as [[walked st1]|] eqn:E; chk_step; [|done].
  intros ->%IH. by eapply walk_into_frame.
Qed.
End frame.

(** The socket only ever answers with padded datagrams. *)
Definition recv_ok (r : recv_result) : Prop :=
  match r with RecvData d => datagram_ok d | _ => True end.

Lemma recv_datagram fd r rd buf :
  recv_ok r -> nflog_netlink_recv fd r (Z.to_nat 8192) = (rd, buf) -> (0 < rd)%Z -> datagram_ok buf.
Proof.
  unfold nflog_netlink_recv. destruct (_ || _); [intros _ [= <- <-]; lia|].
  destruct r as [d| | |]; try (intros _ [= <- <-]; lia).
  intros (Hb & Hal & Hmax). destruct (_ =? 0); intros [= <- <-]; [lia|]. intros _.
  split; [by apply Forall_take|]. rewrite length_take. split; [|lia].
  destruct (Nat.min_spec (Z.to_nat 8192) (length d)) as [[_ ->]|[_ ->]]; [|done].
  by rewrite Z2Nat.id.
Qed.

Lemma poll_loop_spec limit st rs clk total :
  Forall recv_ok rs -> pkt_counters_wf (tcp_snap st) ->
  exists total' st' rs', poll_loop limit st rs clk total = Safe (total', st', rs') /\
    pkt_counters_wf (tcp_snap st') /\ emit_ctl st' = emit_ctl st /\
    st_emit_interval_ms st' = st_emit_interval_ms st.
Proof.
  revert st rs total. induction limit as [|limit IH]; intros st rs total Hrs Hwf; cbn [poll_loop].
  { eexists _, _, _. split; [done|]. done. }
  set (r := match rs with r :: _ => r | [] => RecvAgain end).
  assert (Hr : recv_ok r) by (destruct Hrs; done).
  assert (Ht : Forall recv_ok (tail rs)) by by apply Forall_tail.
  destruct (nflog_netlink_recv (tcp_fd st) r _) as [rd buf] eqn:E.
  destruct (Z.leb_spec rd 0); [eexists _, _, _; split; [done|]; done|].
  pose proof (recv_datagram _ _ _ _ Hr E ltac:(lia)) as Hd.
  destruct (walk_into_spec st buf clk Hd Hwf) as (count & out & st1 & Hw & Hn & a & b & c & Hc & _).
  rewrite Hw. chk_step.
  pose proof (walk_into_frame emit_ctl ltac:(done) ltac:(done) ltac:(done) _ _ _ _ _ Hw) as <-.
  pose proof (walk_into_frame st_emit_interval_ms ltac:(done) ltac:(done) ltac:(done) _ _ _ _ _ Hw) as <-.
  apply IH; [done|by eapply classified_wf].
Qed.

Lemma tcp_open_ctl env cfg st rc st' :
  cpe_agent_tcp_open env cfg st = (rc, st') ->
  tcp_last_emit_ms st' = tcp_last_emit_ms st /\
  (pkt_counters_wf (tcp_snap st) -> pkt_counters_wf (tcp_snap st')) /\
  (st_emit_interval_ms st = tcp_emit_interval_ms cfg -> tcp_emit_interval_ms cfg <> 0%Z ->
   st_emit_interval_ms st' = tcp_emit_interval_ms cfg).
Proof.
  unfold cpe_agent_tcp_open. destruct (0 <=? tcp_fd st)%Z; [by intros [= <- <-]|].
  cbv zeta. intros H.
  assert (Hst : tcp_last_emit_ms st' = tcp_last_emit_ms st /\
    (pkt_counters_wf (tcp_snap st) -> pkt_counters_wf (tcp_snap st')) /\
    st_emit_interval_ms st' = dflt (tcp_emit_interval_ms cfg) 10000).
  { revert H. destruct (negb _); [by intros [= <- <-]|]. destruct (_ <? 0)%Z; by intros [= <- <-]. }
  destruct Hst as (H1 & H2 & H3). split; [done|]. split; [done|]. intros _ Hne. rewrite H3.
  unfold dflt. by apply truthy_spec in Hne as ->.
Qed.

Lemma tcp_poll_spec env cfg st rs clk k :
  Forall recv_ok rs -> pkt_counters_wf (tcp_snap st) ->
  exists total st' rs', cpe_agent_tcp_poll env cfg st rs clk k = Safe (total, st', rs') /\
    pkt_counters_wf (tcp_snap st') /\ tcp_last_emit_ms st' = tcp_last_emit_ms st /\
    (st_emit_interval_ms st = tcp_emit_interval_ms cfg -> tcp_emit_interval_ms cfg <> 0%Z ->
     st_emit_interval_ms st' = tcp_emit_interval_ms cfg).
Proof.
  intros Hrs Hwf. unfold cpe_agent_tcp_poll.
  destruct (negb _); [eexists _, _, _; split; [done|]; done|].
  assert (Hopen : exists rc st1,
    (if (tcp_fd st <? 0)%Z then cpe_agent_tcp_open env cfg st else (0%Z, st)) = (rc, st1) /\
    tcp_last_emit_ms st1 = tcp_last_emit_ms st /\
    pkt_counters_wf (tcp_snap st1) /\
    (st_emit_interval_ms st = tcp_emit_interval_ms cfg -> tcp_emit_interval_ms cfg <> 0%Z ->
     st_emit_interval_ms st1 = tcp_emit_interval_ms cfg)).
  { destruct (_ <? 0)%Z; [|by exists 0%Z, st].
    destruct (cpe_agent_tcp_open env cfg st) as [rc st1] eqn:E.
    apply tcp_open_ctl in E as (H1 & H2 & H3). exists rc, st1. auto. }
  destruct Hopen as (rc & st1 & -> & Hl & Hw & Hi).
  destruct (negb _); [eexists _, _, _; split; [done|]; done|].
  destruct (_ <? 0)%Z; [eexists _, _, _; split; [done|]; done|].
  match goal with |- context [poll_loop ?n _ _ _ _] =>
    destruct (poll_loop_spec n st1 rs clk 0 Hrs Hw) as (total & st2 & rs2 & -> & Hw2 & Hc & Hi2) end.
  eexists _, _, _. split; [done|]. split; [done|]. unfold emit_ctl in Hc. injection Hc as -> _ _.
  split; [done|]. rewrite Hi2. done.
Qed.

(** A sort that keeps [qsort]'s promise, for concrete runs. *)
Section isort.
Context {A : Type} (cmp : A -> A -> Z).
Fixpoint isert (x : A) (l : list A) : list A :=
  match l with
  | [] => [x]
  | y :: l' => if (cmp x y <=? 0)%Z then x :: y :: l' else y :: isert x l'
  end.
Definition isort (l : list A) : list A := foldr isert [] l.

Lemma isert_perm x l : isert x l ≡ₚ x :: l.
Proof.
  induction l as [|y l IH]; simpl; [done|]. destruct (_ <=? _)%Z; [done|].
  rewrite IH. apply Permutation_swap.
Qed.
Lemma isort_perm l : isort l ≡ₚ l.
Proof. induction l as [|x l IH]; simpl; [done|]. by rewrite isert_perm, IH. Qed.

Context (k : A -> Z).
Hypothesis Hcmp :
  forall x y, cmp x y = if (k x <? k y)%Z then 1%Z else if (k y <? k x)%Z then (-1)%Z else 0%Z.
Definition descending (l : list A) : Prop :=
  forall i j x y, i < j -> l !! i = Some x -> l !! j = Some y -> (k y <= k x)%Z.

Lemma descending_cons x l : descending (x :: l) <-> Forall (fun y => k y <= k x)%Z l /\ descending l.
Proof.
  split.
  - intros H. split.
    + apply Forall_lookup. intros i y Hy. apply (H 0 (S i)); [lia|done|done].
    + intros i j y z Hij Hi Hj. apply (H (S i) (S j)); [lia|done|done].
  - intros [Hx Hl] [|i] [|j] y z Hij Hi Hj; [lia| |lia|].
    + injection Hi as <-. by eapply (Forall_lookup_1 _ _ _ _ Hx).
    + eapply (Hl i j); [lia|done|done].
Qed.
Lemma isert_sorted x l : descending l -> descending (isert x l).
Proof.
  induction l as [|y l IH]; intros Hs; simpl.
  { apply descending_cons. split; [constructor|]. intros i j ? ? ? Hi. by rewrite lookup_nil in Hi. }
  pose proof (Hcmp x y) as Hxy. apply descending_cons in Hs as [Hy Hl].
  destruct (Z.leb_spec (cmp x y) 0).
  - apply descending_cons. split; [|by apply descending_cons].
    assert (k y <= k x)%Z by (destruct (Z.ltb_spec (k x) (k y)); lia).
    constructor; [done|]. eapply Forall_impl; [exact Hy|]. simpl. intros; lia.
  - apply descending_cons. split; [|by apply IH]. rewrite isert_perm. constructor; [|done].
    destruct (Z.ltb_spec (k x) (k y)); [lia|]. destruct (Z.ltb_spec (k y) (k x)); lia.
Qed.
Lemma isort_sorted l : descending (isort l).
Proof.
  induction l as [|x l IH]; simpl; [|by apply isert_sorted].
  intros i j ? ? ? Hi. by rewrite lookup_nil in Hi.
Qed.
End isort.
Definition qsort_isort : QSort := fun A cmp l => isort cmp l.
Lemma qsort_isort_laws : @QSortLaws qsort_isort.
Proof.
  split; intros A; unfold qsort, qsort_isort.
  - intros. apply isort_perm.
  - intros k cmp l Hcmp. by apply isort_sorted.
Qed.

Section tick.
Context {Q : Type} `{LineSinkLaws Q} `{QSortLaws}.

(** An emission pushes the summary line, then the lines of the requested
    number of busiest remotes (20 by default, no row left out has more packets than a
    chosen one, busiest first), then those of as many busiest prefixes: the spool ends
    with those lines, its older lines dropped from the front when it is full, the
    result counts the lines pushed, and only the two time stamps change in the
    state. *)
Theorem tcp_emit_top_rows cfg st (q : Q) clk top_n :
  sink_wf q -> sn_remote_count (tcp_snap st) <= CPE_TCP_REMOTE_MAX ->
  sn_prefix_count (tcp_snap st) <= CPE_TCP_PREFIX_MAX ->
  (0 <= fst (summary_row cfg (tcp_snap (stamped st clk))))%Z -> sink_cap q <> 0 ->
  let '(rc, st', q') := cpe_agent_tcp_emit cfg st q clk top_n in
  exists lines, emitted cfg st clk top_n lines /\ rc = Z.of_nat (length lines) /\
    sink_wf q' /\ sink_pending q' = lastn (sink_cap q) (sink_pending q ++ (stored <$> lines)) /\
    st' = (stamped st clk) <| tcp_last_emit_ms := mono_ms clk |>.
Proof.
  intros Hwf Hr Hp Hs Hcap. destruct (emit_spec cfg st q clk top_n Hwf Hr Hp Hs) as (lines & He & ->).
  destruct (Nat.eqb_spec (sink_cap q) 0); [done|].
  destruct (sink_push_all_spec q lines Hwf) as (Hwf' & _ & Hpend). by exists lines.
Qed.

(** The settings a tick installs before it polls. *)
Definition tick_settings (cfg : cpe_agent_config) (st : cpe_tcp_state) : cpe_tcp_state :=
  let plen := dflt (tcp_prefix_len cfg) (st_prefix_len st) in
  let s := tcp_snap st in
  st <| tcp_enabled := 1%Z |> <| st_prefix_len := plen |>
     <| tcp_snap := s <| sn_prefix_len := plen |>
          <| sn_nflog_group := dflt (tcp_nflog_group cfg) (sn_nflog_group s) |> |>
     <| st_emit_interval_ms := dflt (tcp_emit_interval_ms cfg) (st_emit_interval_ms st) |>
     <| st_emit_top_n := dflt (tcp_emit_top_n cfg) (st_emit_top_n st) |>.

(** A tick is memory safe whatever padded datagrams the socket delivers, it
    emits when nothing was emitted yet or the configured interval has passed since the
    last emission (in 64-bit modular arithmetic), and otherwise it leaves the spool and
    the emission time alone. *)
Theorem tcp_tick_period env cfg st (q : Q) rs clk :
  truthy (tcp_stats_enabled cfg) = true -> tcp_emit_interval_ms cfg <> 0%Z ->
  Forall recv_ok rs -> pkt_counters_wf (tcp_snap st) ->
  let due := (tcp_last_emit_ms st =? 0)%Z ||
             (tcp_emit_interval_ms cfg <=? u64 (mono_ms clk - tcp_last_emit_ms st))%Z in
  exists total polled rest,
    cpe_agent_tcp_poll env cfg (tick_settings cfg st) rs clk 128 = Safe (total, polled, rest) /\
    cpe_agent_tcp_tick env cfg st q rs clk =
      Safe (if due then cpe_agent_tcp_emit cfg polled q clk (st_emit_top_n polled)
            else (0%Z, polled, q)) /\
    tcp_last_emit_ms polled = tcp_last_emit_ms st.
Proof.
  intros He Hi Hrs Hwf. cbv zeta. unfold cpe_agent_tcp_tick. rewrite He. cbn [negb].
  cbv zeta. fold (tick_settings cfg st).
  destruct (tcp_poll_spec env cfg (tick_settings cfg st) rs clk 128 Hrs Hwf)
    as (total & st' & rs' & Hpoll & _ & Hl & Hint). rewrite Hpoll. chk_step.
  assert (Hset : st_emit_interval_ms (tick_settings cfg st) = tcp_emit_interval_ms cfg).
  { cbn. unfold dflt. by apply truthy_spec in Hi as ->. }
  exists total, st', rs'. rewrite (Hint Hset Hi), Hl. split; [done|]. split; [|done].
  change (tcp_last_emit_ms (tick_settings cfg st)) with (tcp_last_emit_ms st).
  by destruct (_ || _).
Qed.
End tick.

Definition tcp_run3 : cpe_tcp_state := tcp_run cpe_tcp_state_init run3.
Definition tcp_cfg : cpe_agent_config := cpe_agent_config_defaults <| tcp_stats_enabled := 1%Z |>.

Lemma tcp_emit_top_rows_witness :
  let '(rc, st', q') := @cpe_agent_tcp_emit _ _ qsort_isort tcp_cfg tcp_run3 spool4_ab clock0 1 in
  exists lines, @emitted tcp_cfg tcp_run3 clock0 1 lines /\ rc = Z.of_nat (length lines) /\
    queues_wf q' /\ pending q' = lastn 4 (["a"; "b"]%string ++ (stored <$> lines)) /\
    st' = (stamped tcp_run3 clock0) <| tcp_last_emit_ms := mono_ms clock0 |>.
Proof.
  refine (@tcp_emit_top_rows _ _ _ qsort_isort qsort_isort_laws tcp_cfg tcp_run3 spool4_ab clock0 1
    spool4_ab_wf _ _ _ _); vm_compute; lia || discriminate.
Defined.

(** Nothing was emitted yet, so the first tick emits. *)
Definition due_first : bool :=
  (tcp_last_emit_ms tcp_run3 =? 0)%Z ||
  (tcp_emit_interval_ms tcp_cfg <=? u64 (mono_ms clock0 - tcp_last_emit_ms tcp_run3))%Z.
Lemma tcp_tick_period_witness :
  due_first = true /\
  exists total polled rest,
    cpe_agent_tcp_poll env_ok tcp_cfg (tick_settings tcp_cfg tcp_run3) [] clock0 128 = Safe (total, polled, rest) /\
    @cpe_agent_tcp_tick _ _ qsort_isort env_ok tcp_cfg tcp_run3 spool4_ab [] clock0 =
      Safe (if due_first
            then @cpe_agent_tcp_emit _ _ qsort_isort tcp_cfg polled spool4_ab clock0 (st_emit_top_n polled)
            else (0%Z, polled, spool4_ab)) /\
    tcp_last_emit_ms polled = tcp_last_emit_ms tcp_run3.
Proof.
  split; [vm_compute; reflexivity|].
  refine (@tcp_tick_period _ _ qsort_isort env_ok tcp_cfg tcp_run3 spool4_ab [] clock0 _ _ _ _);
    [vm_compute; reflexivity|vm_compute; discriminate|constructor|repeat split; vm_compute; congruence].
Defined.
