(* ===== verification/TcpInv.v ===== *)
(** * TCP statistics: the invariant of every operation

    [tcp_wf]: the packet counters are within their types, no remote or prefix has two
    rows, and the tables stay within their capacities.  Every operation of
    src/agent/tcp_stats.c keeps it, and keeps the spool it pushes into well-formed. *)

From S2P Require Import Prelude CStr Clock Config Spool Table Nflog TcpParse TcpStats TcpEmit.

Definition tables_wf (s : cpe_tcp_snapshot) : Prop :=
  table_wf tr_remote_ip CPE_TCP_REMOTE_MAX (sn_remotes s) /\
  table_wf tx_prefix CPE_TCP_PREFIX_MAX (sn_prefixes s).
Definition tcp_wf (st : cpe_tcp_state) : Prop :=
  pkt_counters_wf (tcp_snap st) /\ tables_wf (tcp_snap st).

Lemma tables_wf_nil s : sn_remotes s = [] -> sn_prefixes s = [] -> tables_wf s.
Proof. intros E1 E2. unfold tables_wf, table_wf. rewrite E1, E2. simpl. split; split; try constructor; lia. Qed.

Lemma tables_wf_eq s s' :
  sn_remotes s' = sn_remotes s -> sn_prefixes s' = sn_prefixes s -> tables_wf s -> tables_wf s'.
Proof. intros E1 E2. unfold tables_wf. by rewrite E1, E2. Qed.

Lemma tcp_init_wf : tcp_wf cpe_tcp_state_init.
Proof.
  split; [|by apply tables_wf_nil].
  repeat split; vm_compute; congruence.
Qed.

Lemma apply_packet_tables st pkt clk :
  tables_wf (tcp_snap st) -> tables_wf (tcp_snap (apply_packet st pkt clk)).
Proof.
  intros [Hr Hp]. destruct (apply_packet_effect st pkt clk) as (_ & _ & _ & _ & _ & _ & Er & Ep & _).
  unfold tables_wf. rewrite Er, Ep. split.
  - exact (tstep_wf tr_remote_ip tr_pkt_count fresh_remote CPE_TCP_REMOTE_MAX remote_key remote_upd
      remote_max_pos remote_key_fresh remote_key_upd _ _ Hr).
  - exact (tstep_wf tx_prefix tx_pkt_count fresh_prefix CPE_TCP_PREFIX_MAX (prefix_key _) prefix_upd
      prefix_max_pos (prefix_key_fresh _) prefix_key_upd _ _ Hp).
Qed.

Lemma bind_safe {A B} (f : A -> chk B) (a : A) : mbind f (Safe a) = f a.
Proof. done. Qed.

Lemma on_nflog_payload_tables st payload clk st' :
  on_nflog_payload st payload clk = Safe st' -> tables_wf (tcp_snap st) -> tables_wf (tcp_snap st').
Proof.
  intros H Hw. revert H. unfold on_nflog_payload. set (s := tcp_snap st). set (s1 := s <| sn_pkts_parsed := _ |>).
  destruct (cpe_tcp_parse_ip_packet payload) as [[pkt|]|]; [| |done].
  - chk_step. unfold mret, chk_ret. intros [= <-]. by apply apply_packet_tables.
  - rewrite bind_safe. destruct (reject_once payload (s1 <| sn_pkts_non_tcp := u64 (sn_pkts_non_tcp s1 + 1) |>)
      (s1 <| sn_pkts_parse_fail := u64 (sn_pkts_parse_fail s1 + 1) |>)) as [b Hq].
    cbv beta iota zeta. match goal with |- mbind _ ?m = _ -> _ => assert (Hm : m = _) by exact Hq; rewrite Hm end.
    rewrite bind_safe. intros [= <-]. by destruct b.
Qed.

Lemma feed_packets_tables st pks clk st' :
  feed_packets st pks clk = Safe st' -> tables_wf (tcp_snap st) -> tables_wf (tcp_snap st').
Proof.
  revert st. induction pks as [|p pks IH]; intros st; cbn [feed_packets]; [by intros [= <-]|].
  destruct (on_nflog_payload st _ clk) as [st1|] eqn:E; chk_step; [|done].
  intros H Hw. by eapply IH, on_nflog_payload_tables.
Qed.

Lemma walk_into_wf st buf clk :
  datagram_ok buf -> tcp_wf st ->
  safe_with (fun r => tcp_wf r.2) (walk_into st buf clk).
Proof.
  intros Hd [Hc Ht]. destruct (walk_into_spec st buf clk Hd Hc) as (count & out & st1 & Hw & Hn & a & b & c & Hcl & _).
  exists (count, st1). split; [done|]. split; [by eapply classified_wf|].
  unfold walk_into in Hw. rewrite Hn in Hw. chk_step. cbn [mbind chk_bind snd fst] in Hw.
  destruct (feed_packets st out clk) as [st2|] eqn:Ef; cbn in Hw; [|done]. injection Hw as ->.
  by eapply feed_packets_tables.
Qed.

Lemma poll_loop_wf limit st rs clk total :
  Forall recv_ok rs -> tcp_wf st ->
  safe_with (fun r => tcp_wf r.1.2) (poll_loop limit st rs clk total).
Proof.
  revert st rs total. induction limit as [|limit IH]; intros st rs total Hrs Hwf; cbn [poll_loop].
  { by eexists. }
  set (r := match rs with r :: _ => r | [] => RecvAgain end).
  assert (Hr : recv_ok r) by (destruct Hrs; done).
  assert (Ht : Forall recv_ok (tail rs)) by by apply Forall_tail.
  destruct (nflog_netlink_recv (tcp_fd st) r _) as [rd buf] eqn:E.
  destruct (Z.leb_spec rd 0); [by eexists|].
  pose proof (recv_datagram _ _ _ _ Hr E ltac:(lia)) as Hd.
  destruct (walk_into_wf st buf clk Hd Hwf) as ([walked st1] & -> & Hw). chk_step. by apply IH.
Qed.

Lemma tcp_open_wf env cfg st : tcp_wf st -> tcp_wf (cpe_agent_tcp_open env cfg st).2.
Proof.
  intros [Hc Ht]. unfold cpe_agent_tcp_open. destruct (0 <=? tcp_fd st)%Z; [done|].
  cbv zeta. destruct (negb _); [done|]. by destruct (_ <? 0)%Z.
Qed.
Lemma tcp_close_wf st : tcp_wf st -> tcp_wf (cpe_agent_tcp_close st).
Proof. unfold cpe_agent_tcp_close. by destruct (0 <=? tcp_fd st)%Z. Qed.

Lemma tcp_poll_wf env cfg st rs clk k :
  Forall recv_ok rs -> tcp_wf st ->
  safe_with (fun r => tcp_wf r.1.2) (cpe_agent_tcp_poll env cfg st rs clk k).
Proof.
  intros Hrs Hwf. unfold cpe_agent_tcp_poll. destruct (negb _); [by eexists|].
  pose proof (tcp_open_wf env cfg st Hwf) as Ho.
  assert (Hex : exists rc st1,
    (if (tcp_fd st <? 0)%Z then cpe_agent_tcp_open env cfg st else (0%Z, st)) = (rc, st1) /\ tcp_wf st1).
  { destruct (_ <? 0)%Z; [|by exists 0%Z, st].
    destruct (cpe_agent_tcp_open env cfg st) as [rc st1]. by exists rc, st1. }
  destruct Hex as (rc & st1 & -> & H1). destruct (negb _); [by eexists|].
  destruct (_ <? 0)%Z; [by eexists|]. by apply poll_loop_wf.
Qed.

Lemma tcp_reset_wf st clk : tcp_wf (cpe_agent_tcp_reset st clk).
Proof. split; [|by apply tables_wf_nil]. repeat split; vm_compute; congruence. Qed.

Lemma feed_payload_wf st pkt clk :
  bytes pkt -> tcp_wf st -> safe_with (fun r => tcp_wf r.2) (cpe_agent_tcp_feed_payload st pkt clk).
Proof.
  intros Hb [(H1 & H2 & H3 & H4) Ht]. unfold cpe_agent_tcp_feed_payload.
  destruct (_ =? 0); [by eexists|]. eapply safe_bind; [by apply parse_safe|].
  intros [p|] _; apply safe_ret; split; cbn [snd].
  - match goal with |- context [apply_packet ?s _ _] => set (st1 := s) end.
    destruct (apply_packet_pkts st1 p clk) as (E1 & E2 & E3 & _).
    destruct (apply_packet_effect st1 p clk) as (E4 & _).
    unfold pkt_counters_wf. rewrite E1, E2, E3, E4. refine (conj _ (conj _ (conj _ _))); try done;
      (apply u64_range || apply u32_range).
  - by apply apply_packet_tables.
  - refine (conj _ (conj _ (conj _ _))); cbn; try done; apply u64_range.
  - done.
Qed.

(** ** The group an open socket is bound to *)
Definition group_ok (cfg : cpe_agent_config) (st : cpe_tcp_state) : Prop :=
  (0 <= tcp_fd st)%Z -> tcp_group st = dflt (tcp_nflog_group cfg) 5.

Lemma tcp_open_group env cfg st :
  (tcp_fd st < 0)%Z -> (0 <= tcp_fd (snd (cpe_agent_tcp_open env cfg st)))%Z ->
  tcp_group (snd (cpe_agent_tcp_open env cfg st)) = dflt (tcp_nflog_group cfg) 5.
Proof.
  intros Hf. unfold cpe_agent_tcp_open. destruct (Z.leb_spec 0 (tcp_fd st)); [lia|].
  cbv zeta. destruct (negb _); [done|]. by destruct (_ <? 0)%Z.
Qed.

Lemma tcp_poll_group env cfg st rs clk k total st' rs' :
  cpe_agent_tcp_poll env cfg st rs clk k = Safe (total, st', rs') -> group_ok cfg st -> group_ok cfg st'.
Proof.
  unfold cpe_agent_tcp_poll. destruct (negb _); [by intros [= _ <- _]|]. intros H Hg.
  assert (Hex : exists rc st1,
    (if (tcp_fd st <? 0)%Z then cpe_agent_tcp_open env cfg st else (0%Z, st)) = (rc, st1) /\ group_ok cfg st1).
  { destruct (Z.ltb_spec (tcp_fd st) 0) as [Hf|]; [|by exists 0%Z, st].
    pose proof (tcp_open_group env cfg st Hf) as Ho.
    destruct (cpe_agent_tcp_open env cfg st) as [rc st1]. by exists rc, st1. }
  destruct Hex as (rc & st1 & E & H1). rewrite E in H.
  destruct (negb _); [by injection H as _ <- _|]. destruct (_ <? 0)%Z; [by injection H as _ <- _|].
  pose proof (poll_loop_frame (fun s => (tcp_fd s, tcp_group s)) ltac:(done) ltac:(done) ltac:(done)
    _ _ _ _ _ _ _ _ H) as Hf.
  injection Hf as E1 E2. unfold group_ok. by rewrite E1, E2.
Qed.

Section sinks.
Context {Q : Type} `{LineSinkLaws Q} `{!QSort}.

(** The sink is well-formed and has capacity [k]. *)
Definition sink_ok (k : nat) (q : Q) : Prop := sink_wf q /\ sink_cap q = k.

Lemma sink_push_ok k q l : sink_ok k q -> sink_ok k (sink_push q l).2.
Proof. intros [Hw <-]. split; [by apply sink_push_wf|by apply sink_push_cap]. Qed.

Lemma emit_rows_ok {A} k (format : A -> Z * string) l acc :
  sink_ok k acc.2 -> sink_ok k (emit_rows format acc l).2.
Proof.
  unfold emit_rows. revert acc. induction l as [|x l IH]; intros acc Hq; [done|]. cbn [foldl]. apply IH.
  destruct acc as [n q]. unfold emit_row. destruct (format x) as [m line]. destruct (m <? 0)%Z; [done|].
  pose proof (sink_push_ok k q line Hq). by destruct (sink_push q line).
Qed.

Lemma emit_ok k cfg st (q : Q) clk top_n :
  tcp_wf st -> sink_ok k q ->
  tcp_wf (cpe_agent_tcp_emit cfg st q clk top_n).1.2 /\ sink_ok k (cpe_agent_tcp_emit cfg st q clk top_n).2.
Proof.
  intros [Hc Ht] Hq. unfold cpe_agent_tcp_emit. destruct (summary_row cfg _) as [n line].
  destruct (n <? 0)%Z; [done|]. pose proof (sink_push_ok k q line Hq) as H1.
  destruct (sink_push q line) as [rc q1]. cbn [snd] in H1.
  match goal with |- context [emit_rows ?f ?a ?l] => pose proof (emit_rows_ok k f l a H1) as H2 end.
  destruct (emit_rows (remote_row cfg _) _ _) as [n2 q2]. cbn [snd] in H2.
  match goal with |- context [emit_rows ?f ?a ?l] => pose proof (emit_rows_ok k f l a H2) as H3 end.
  by destruct (emit_rows (prefix_row cfg _) _ _) as [n3 q3].
Qed.

Lemma emit_group cfg cfg' st (q : Q) clk top_n :
  group_ok cfg' (cpe_agent_tcp_emit cfg st q clk top_n).1.2 <-> group_ok cfg' st.
Proof.
  unfold cpe_agent_tcp_emit. destruct (summary_row cfg _) as [n line]. destruct (n <? 0)%Z; [done|].
  destruct (sink_push q line) as [rc q1]. destruct (emit_rows (remote_row cfg _) _ _) as [n2 q2].
  by destruct (emit_rows (prefix_row cfg _) _ _) as [n3 q3].
Qed.

Lemma emit_sock cfg st (q : Q) clk top_n :
  let st' := (cpe_agent_tcp_emit cfg st q clk top_n).1.2 in tcp_fd st' = tcp_fd st /\ tcp_enabled st' = tcp_enabled st.
Proof.
  unfold cpe_agent_tcp_emit. destruct (summary_row cfg _) as [n line]. destruct (n <? 0)%Z; [done|].
  destruct (sink_push q line) as [rc q1]. destruct (emit_rows (remote_row cfg _) _ _) as [n2 q2].
  by destruct (emit_rows (prefix_row cfg _) _ _) as [n3 q3].
Qed.

Lemma tcp_tick_group env cfg st (q : Q) rs clk n st' q' :
  cpe_agent_tcp_tick env cfg st q rs clk = Safe (n, st', q') -> group_ok cfg st -> group_ok cfg st'.
Proof.
  unfold cpe_agent_tcp_tick. destruct (negb _); [by intros [= _ <- _]|]. cbv zeta. intros Ht Hg.
  match type of Ht with context [cpe_agent_tcp_poll _ _ ?s _ _ _] => set (st0 := s) in * end.
  destruct (cpe_agent_tcp_poll env cfg st0 rs clk 128) as [[[total st1] rest]|] eqn:E; [|done].
  pose proof (tcp_poll_group _ _ _ _ _ _ _ _ _ E Hg) as H1. rewrite bind_safe in Ht.
  destruct (_ || _); [|by injection Ht as _ <- _].
  injection Ht as Ht. by rewrite <- (emit_group cfg cfg st1 q clk (st_emit_top_n st1)), Ht in H1.
Qed.

Lemma tcp_tick_wf k env cfg st (q : Q) rs clk :
  Forall recv_ok rs -> tcp_wf st -> sink_ok k q ->
  safe_with (fun r => tcp_wf r.1.2 /\ sink_ok k r.2) (cpe_agent_tcp_tick env cfg st q rs clk).
Proof.
  intros Hrs Hwf Hq. unfold cpe_agent_tcp_tick. destruct (negb _); [by eexists|]. cbv zeta.
  eapply safe_bind; [by apply tcp_poll_wf|]. intros [[total st1] rest] H1. cbn in H1.
  destruct (_ || _); [|by eexists].
  pose proof (emit_ok k cfg st1 q clk (st_emit_top_n st1) H1 Hq). by eexists.
Qed.
End sinks.
