(* ===== verification/Nfct.v ===== *)
(** * Connection-tracking sockets (src/src/nfct_netlink.c)

    Opening the event socket and the dump socket, receiving, and requesting a dump of
    the table.  The kernel's answers to [socket], [bind], [setsockopt] and [sendto]
    are the fields of [nfct_env]. *)

From S2P Require Import Prelude CStr Inet Nflog.

Definition NFNLGRP_CONNTRACK_NEW : Z := 1.
Definition NFNLGRP_CONNTRACK_UPDATE : Z := 2.
Definition NFNLGRP_CONNTRACK_DESTROY : Z := 3.
Definition NLM_F_DUMP : Z := 768.

Record nfct_env := {
  ct_socket : Z;
  ct_bind : Z;
  ct_join : Z -> Z;              (* setsockopt(NETLINK_ADD_MEMBERSHIP) of a group *)
  ct_sendto : nat -> list Z -> Z; (* the k-th message sent on a socket *)
  ct_strerror : string;
}.

(** The group [i] of [groups] whose membership fails first. *)
Fixpoint join_groups (env : nfct_env) (groups : list Z) : option Z :=
  match groups with
  | [] => None
  | g :: gs => if negb (ct_join env g =? 0)%Z then Some g else join_groups env gs
  end.

(** What an open leaves: the descriptor or -1, the error buffer, the groups joined and
    whether a socket was closed again. *)
Record nfct_open_result := {
  co_fd : Z;
  co_err : errbuf;
  co_groups : list Z;
  co_closed : bool;
}.

Definition nfct_netlink_open (env : nfct_env) (join_update : Z) (err : errbuf) : nfct_open_result :=
  let groups := [NFNLGRP_CONNTRACK_NEW; NFNLGRP_CONNTRACK_DESTROY; NFNLGRP_CONNTRACK_UPDATE] in
  let n_groups := if truthy join_update then 3 else 2 in
  let fd := ct_socket env in
  if (fd <? 0)%Z then
    {| co_fd := (-1)%Z; co_err := err_set err ("socket(NETLINK_NETFILTER): " +:+ ct_strerror env);
       co_groups := []; co_closed := false |}
  else if negb (ct_bind env =? 0)%Z then
    {| co_fd := (-1)%Z; co_err := err_set err ("bind netlink: " +:+ ct_strerror env);
       co_groups := []; co_closed := true |}
  else
    match join_groups env (take n_groups groups) with
    | Some g =>
        {| co_fd := (-1)%Z;
           co_err := err_set err ("NETLINK_ADD_MEMBERSHIP group " +:+ fmt_u g +:+ ": "%string +:+
                       ct_strerror env +:+ " (need CAP_NET_ADMIN?)"%string);
           co_groups := []; co_closed := true |}
    | None => {| co_fd := fd; co_err := err; co_groups := take n_groups groups; co_closed := false |}
    end.

Definition nfct_netlink_open_dump (env : nfct_env) (err : errbuf) : nfct_open_result :=
  let fd := ct_socket env in
  if (fd <? 0)%Z then
    {| co_fd := (-1)%Z; co_err := err_set err ("socket dump: " +:+ ct_strerror env);
       co_groups := []; co_closed := false |}
  else if negb (ct_bind env =? 0)%Z then
    {| co_fd := (-1)%Z; co_err := err_set err ("bind dump: " +:+ ct_strerror env);
       co_groups := []; co_closed := true |}
  else {| co_fd := fd; co_err := err; co_groups := []; co_closed := false |}.

(** Closing: the descriptor handed to [close], if there is one. *)
Definition nfct_netlink_close (fd : Z) : list Z := if (0 <=? fd)%Z then [fd] else [].
(** [fcntl] answers with the flags, then for the change. *)
Definition nfct_netlink_set_nonblock (getfl setfl fd : Z) : Z :=
  if (fd <? 0)%Z then (-1)%Z else if (getfl <? 0)%Z then (-1)%Z else setfl.

Definition nfct_netlink_recv (fd : Z) (r : recv_result) (buflen : nat) : Z * list Z :=
  if (fd <? 0)%Z || (buflen =? 0) then ((-1)%Z, [])
  else match r with
  | RecvData d =>
      let got := take buflen d in
      if length got =? 0 then ((-1)%Z, []) else (Z.of_nat (length got), got)
  | RecvAgain => (0%Z, [])
  | RecvFailed | RecvEof => ((-1)%Z, [])
  end.

(** The [nlmsghdr] and [nfgenmsg] of a table dump. *)
Definition dump_msg (family seq : Z) : list Z :=
  le_bytes32 20 ++ le_bytes16 (Z.lor (Z.shiftl 1 8) 1) ++ le_bytes16 (Z.lor NLM_F_REQUEST NLM_F_DUMP) ++
  le_bytes32 seq ++ le_bytes32 0 ++ [family; NFNETLINK_V0; 0%Z; 0%Z].

(** The result and the messages sent. *)
Definition nfct_netlink_dump_request (env : nfct_env) (dump_fd : Z) : Z * list (list Z) :=
  if (dump_fd <? 0)%Z then ((-1)%Z, [])
  else
    let req := dump_msg AF_INET 1 in
    if negb (ct_sendto env 0 req =? Z.of_nat (length req))%Z then ((-1)%Z, [req])
    else (0%Z, [req; dump_msg AF_INET6 2]).

(** ** What an open promises *)

Definition all_join (env : nfct_env) (groups : list Z) : bool :=
  forallb (fun g => (ct_join env g =? 0)%Z) groups.
Lemma join_groups_all env groups : join_groups env groups = None <-> all_join env groups = true.
Proof.
  induction groups as [|g gs IH]; simpl; [done|].
  destruct (ct_join env g =? 0)%Z; simpl; [done|split; discriminate].
Qed.

Definition ct_groups (join_update : Z) : list Z :=
  if truthy join_update then [1; 3; 2]%Z else [1; 3]%Z.

(** Opening the event socket succeeds exactly when the socket, the bind and
    every membership succeed; then the NEW and DESTROY groups are joined, UPDATE too
    when it was asked for, and the error text is untouched; otherwise the result is -1,
    no membership is reported, and the socket that was opened is closed again. *)
Theorem nfct_open_joins env join_update err :
  let r := nfct_netlink_open env join_update err in
  let ok := (0 <=? ct_socket env)%Z && (ct_bind env =? 0)%Z && all_join env (ct_groups join_update) in
  (ok = true -> co_fd r = ct_socket env /\ co_groups r = ct_groups join_update /\ co_err r = err /\
     co_closed r = false) /\
  (ok = false -> co_fd r = (-1)%Z /\ co_groups r = [] /\ co_closed r = (0 <=? ct_socket env)%Z).
Proof.
  cbv zeta. unfold nfct_netlink_open.
  assert (Ht : take (if truthy join_update then 3 else 2)
    [NFNLGRP_CONNTRACK_NEW; NFNLGRP_CONNTRACK_DESTROY; NFNLGRP_CONNTRACK_UPDATE] = ct_groups join_update)
    by (unfold ct_groups; by destruct (truthy join_update)).
  rewrite Ht. clear Ht. pose proof (join_groups_all env (ct_groups join_update)) as Hj.
  destruct (Z.leb_spec 0 (ct_socket env)), (Z.ltb_spec (ct_socket env) 0); try lia; simpl.
  - destruct (ct_bind env =? 0)%Z; simpl; [|done].
    destruct (join_groups env _) as [g|]; simpl.
    + destruct (all_join env _); [by pose proof (proj2 Hj eq_refl)|done].
    + by rewrite (proj1 Hj eq_refl).
  - done.
Qed.

Definition ct_env_ok : nfct_env := {|
  ct_socket := 7; ct_bind := 0; ct_join := fun _ => 0%Z;
  ct_sendto := fun _ m => Z.of_nat (length m); ct_strerror := "ok" |}.
Lemma nfct_open_joins_witness :
  co_groups (nfct_netlink_open ct_env_ok 1 None) = [1; 3; 2]%Z.
Proof. exact (proj1 (proj2 (proj1 (nfct_open_joins ct_env_ok 1 None) eq_refl))). Defined.
