(* ===== verification/FlowEntry.v ===== *)
(** * Flow accounting: entries and lines (src/agent/flow_acct.c, src/include/cpe_flow_acct.h)

    The table's rows and state, the 32-bit flow identifier, the row an event describes,
    the rates between two readings, and the NDJSON line of a row. *)

From S2P Require Import Prelude CStr Float754 Inet Clock Events Nflog Nfct.

Definition CPE_FLOW_IP_MAX := 48.
Definition CPE_FLOW_ID_MAX := 20.
Definition CPE_FLOW_STATE_MAX := 24.
Definition CPE_FLOW_MAX := 1024.

Record cpe_flow_entry := {
  fe_flow_id : string;
  fe_ct_id : Z;
  fe_has_ct_id : Z;
  fe_proto : Z;
  fe_ip_version : Z;
  fe_lan_ip : string;
  fe_lan_port : Z;
  fe_wan_ip : string;
  fe_wan_port : Z;
  fe_remote_ip : string;
  fe_remote_port : Z;
  fe_orig_pkts : Z;
  fe_orig_bytes : Z;
  fe_reply_pkts : Z;
  fe_reply_bytes : Z;
  fe_bytes_up : Z;
  fe_bytes_down : Z;
  fe_bytes_up_delta : Z;
  fe_bytes_down_delta : Z;
  fe_rate_up_bps : double;
  fe_rate_down_bps : double;
  fe_first_seen_ms : Z;
  fe_last_seen_ms : Z;
  fe_state : string;
  fe_alive : Z;
  fe_used : Z;
}.
#[export] Instance eta_flow_entry : Eta cpe_flow_entry := fun e => {|
  fe_flow_id := fe_flow_id e; fe_ct_id := fe_ct_id e; fe_has_ct_id := fe_has_ct_id e;
  fe_proto := fe_proto e; fe_ip_version := fe_ip_version e; fe_lan_ip := fe_lan_ip e;
  fe_lan_port := fe_lan_port e; fe_wan_ip := fe_wan_ip e; fe_wan_port := fe_wan_port e;
  fe_remote_ip := fe_remote_ip e; fe_remote_port := fe_remote_port e;
  fe_orig_pkts := fe_orig_pkts e; fe_orig_bytes := fe_orig_bytes e;
  fe_reply_pkts := fe_reply_pkts e; fe_reply_bytes := fe_reply_bytes e;
  fe_bytes_up := fe_bytes_up e; fe_bytes_down := fe_bytes_down e;
  fe_bytes_up_delta := fe_bytes_up_delta e; fe_bytes_down_delta := fe_bytes_down_delta e;
  fe_rate_up_bps := fe_rate_up_bps e; fe_rate_down_bps := fe_rate_down_bps e;
  fe_first_seen_ms := fe_first_seen_ms e; fe_last_seen_ms := fe_last_seen_ms e;
  fe_state := fe_state e; fe_alive := fe_alive e; fe_used := fe_used e |}.

(** [memset] image. *)
Definition flow_entry_zero : cpe_flow_entry := {|
  fe_flow_id := EmptyString; fe_ct_id := 0; fe_has_ct_id := 0; fe_proto := 0; fe_ip_version := 0;
  fe_lan_ip := EmptyString; fe_lan_port := 0; fe_wan_ip := EmptyString; fe_wan_port := 0;
  fe_remote_ip := EmptyString; fe_remote_port := 0; fe_orig_pkts := 0; fe_orig_bytes := 0;
  fe_reply_pkts := 0; fe_reply_bytes := 0; fe_bytes_up := 0; fe_bytes_down := 0;
  fe_bytes_up_delta := 0; fe_bytes_down_delta := 0; fe_rate_up_bps := d_zero;
  fe_rate_down_bps := d_zero; fe_first_seen_ms := 0; fe_last_seen_ms := 0; fe_state := EmptyString;
  fe_alive := 0; fe_used := 0 |}.
#[export] Instance flow_entry_inhabited : Inhabited cpe_flow_entry := populate flow_entry_zero.

Record cpe_flow_state := {
  fs_fd : Z;
  fs_dump_fd : Z;
  fs_enabled : Z;
  fs_open_ok : Z;
  fs_join_update : Z;
  fs_emit_destroy : Z;
  fs_emit_new : Z;
  fs_emit_nat : Z;
  fs_poll_interval_ms : Z;
  fs_dump_interval_ms : Z;
  fs_sample_emit_ms : Z;
  fs_sample_top_n : Z;
  fs_max_flows : Z;
  fs_last_dump_ms : Z;
  fs_last_sample_ms : Z;
  fs_last_tick_ms : Z;
  fs_events_in : Z;
  fs_destroys_emitted : Z;
  fs_samples_emitted : Z;
  fs_dumps : Z;
  fs_warned_no_acct : Z;
  fs_open_err : string;
  fs_table : list cpe_flow_entry;
  fs_table_used : Z;
}.
#[export] Instance eta_flow_state : Eta cpe_flow_state := fun s => {|
  fs_fd := fs_fd s; fs_dump_fd := fs_dump_fd s; fs_enabled := fs_enabled s; fs_open_ok := fs_open_ok s;
  fs_join_update := fs_join_update s; fs_emit_destroy := fs_emit_destroy s; fs_emit_new := fs_emit_new s;
  fs_emit_nat := fs_emit_nat s; fs_poll_interval_ms := fs_poll_interval_ms s;
  fs_dump_interval_ms := fs_dump_interval_ms s; fs_sample_emit_ms := fs_sample_emit_ms s;
  fs_sample_top_n := fs_sample_top_n s; fs_max_flows := fs_max_flows s;
  fs_last_dump_ms := fs_last_dump_ms s; fs_last_sample_ms := fs_last_sample_ms s;
  fs_last_tick_ms := fs_last_tick_ms s; fs_events_in := fs_events_in s;
  fs_destroys_emitted := fs_destroys_emitted s; fs_samples_emitted := fs_samples_emitted s;
  fs_dumps := fs_dumps s; fs_warned_no_acct := fs_warned_no_acct s; fs_open_err := fs_open_err s;
  fs_table := fs_table s; fs_table_used := fs_table_used s |}.

Definition cpe_flow_state_init : cpe_flow_state := {|
  fs_fd := -1; fs_dump_fd := -1; fs_enabled := 0; fs_open_ok := 0; fs_join_update := 1;
  fs_emit_destroy := 1; fs_emit_new := 0; fs_emit_nat := 0; fs_poll_interval_ms := 200;
  fs_dump_interval_ms := 200; fs_sample_emit_ms := 2000; fs_sample_top_n := 32;
  fs_max_flows := Z.of_nat CPE_FLOW_MAX; fs_last_dump_ms := 0; fs_last_sample_ms := 0;
  fs_last_tick_ms := 0; fs_events_in := 0; fs_destroys_emitted := 0; fs_samples_emitted := 0;
  fs_dumps := 0; fs_warned_no_acct := 0; fs_open_err := EmptyString;
  fs_table := replicate CPE_FLOW_MAX flow_entry_zero; fs_table_used := 0 |}.

(** ** Addresses and identifiers *)
Definition ipv4_str (host_order : Z) (n : nat) : string :=
  let s := inet_ntop4_addr (htonl host_order) in
  if strlen s <? n then s else snprintf_s n "0.0.0.0".
Definition ipv6_str (addr : list Z) (n : nat) : string :=
  let s := inet_ntop6 addr in if strlen s <? n then s else snprintf_s n "::".


(** FNV-1a from state [h]; a zero state restarts from the offset basis. *)
Definition fnv1a (data : list Z) (h : Z) : Z :=
  let h := if (h =? 0)%Z then 2166136261%Z else h in
  foldl (fun h b => u32 (Z.lxor h b * 16777619)) h data.

(** Multi-byte fields are hashed as they lie in memory, least significant byte first. *)
Definition make_flow_id (e : cpe_flow_entry) (n : nat) : string :=
  let h := fnv1a (str_bytes (fe_lan_ip e)) 0 in
  let h := fnv1a (le_bytes16 (fe_lan_port e)) h in
  let h := fnv1a (str_bytes (fe_remote_ip e)) h in
  let h := fnv1a (le_bytes16 (fe_remote_port e)) h in
  let h := fnv1a [fe_proto e] h in
  let h := if truthy (fe_has_ct_id e) then fnv1a (le_bytes32 (fe_ct_id e)) h else h in
  snprintf_s n (fmt_0x 8 h).

Definition event_name (t : nfct_event_type) : string :=
  match t with
  | NFCT_EVENT_NEW => "NEW"
  | NFCT_EVENT_UPDATE => "UPDATE"
  | NFCT_EVENT_DESTROY => "DESTROY"
  | NFCT_EVENT_OTHER => "OTHER"
  end.

Definition is_destroy_event (ev : nfct_event) : bool :=
  bool_decide (nev_type ev = NFCT_EVENT_DESTROY).

(** ** The row an event describes *)
Definition entry_from_event (ev : nfct_event) (now_ms : Z) : cpe_flow_entry :=
  let e := flow_entry_zero <| fe_used := 1%Z |>
             <| fe_alive := c_bool (negb (is_destroy_event ev)) |>
             <| fe_proto := nev_protocol ev |>
             <| fe_first_seen_ms := now_ms |> <| fe_last_seen_ms := now_ms |>
             <| fe_state := snprintf_s CPE_FLOW_STATE_MAX (event_name (nev_type ev)) |> in
  let e := if truthy (nev_has_id ev)
           then e <| fe_ct_id := nev_id ev |> <| fe_has_ct_id := 1%Z |> else e in
  let e :=
    (if truthy (nev_is_ipv6 ev) then
       e <| fe_ip_version := 6%Z |>
         <| fe_lan_ip := ipv6_str (nev_lan_src_ip6 ev) CPE_FLOW_IP_MAX |>
         <| fe_remote_ip := ipv6_str (nev_lan_dst_ip6 ev) CPE_FLOW_IP_MAX |>
         <| fe_wan_ip := ipv6_str (nev_wan_src_ip6 ev) CPE_FLOW_IP_MAX |>
     else
       e <| fe_ip_version := 4%Z |>
         <| fe_lan_ip := ipv4_str (nev_lan_src_ip ev) CPE_FLOW_IP_MAX |>
         <| fe_remote_ip := ipv4_str (nev_lan_dst_ip ev) CPE_FLOW_IP_MAX |>
         <| fe_wan_ip := ipv4_str (nev_wan_src_ip ev) CPE_FLOW_IP_MAX |>)
    <| fe_lan_port := nev_lan_src_port ev |>
    <| fe_remote_port := nev_lan_dst_port ev |>
    <| fe_wan_port := nev_wan_src_port ev |> in
  let e :=
    if truthy (nev_has_counters ev) then
      e <| fe_orig_pkts := nev_orig_packets ev |> <| fe_orig_bytes := nev_orig_bytes ev |>
        <| fe_reply_pkts := nev_reply_packets ev |> <| fe_reply_bytes := nev_reply_bytes ev |>
        <| fe_bytes_up := nev_orig_bytes ev |> <| fe_bytes_down := nev_reply_bytes ev |>
    else e in
  e <| fe_flow_id := make_flow_id e CPE_FLOW_ID_MAX |>.

(** ** Rates *)

(** The growth of a counter since the last reading; the new value after a reset. *)
Definition counter_delta (prev cur : Z) : Z := if (prev <=? cur)%Z then (cur - prev)%Z else cur.
Definition rate_bps (delta dt : Z) : double := d_div (d_mul (d_of_Z delta) (d_of_Z 8000)) (d_of_Z dt).

Definition update_rates (e : cpe_flow_entry) (prev_up prev_down prev_ms now_ms : Z) : cpe_flow_entry :=
  let dt := if (prev_ms <? now_ms)%Z then (now_ms - prev_ms)%Z else 0%Z in
  let e := e <| fe_bytes_up_delta := counter_delta prev_up (fe_bytes_up e) |>
             <| fe_bytes_down_delta := counter_delta prev_down (fe_bytes_down e) |> in
  if (0 <? dt)%Z then
    e <| fe_rate_up_bps := rate_bps (fe_bytes_up_delta e) dt |>
      <| fe_rate_down_bps := rate_bps (fe_bytes_down_delta e) dt |>
  else e.

(** ** Lines *)
Definition flow_duration (e : cpe_flow_entry) : Z :=
  if (fe_first_seen_ms e <? fe_last_seen_ms e)%Z
  then (fe_last_seen_ms e - fe_first_seen_ms e)%Z else 0%Z.

Definition flow_text (ts router_id event : string) (e : cpe_flow_entry) : string :=
  lit "{'type':'cpe_flow','ts':'" +:+ ts +:+ lit "','router_id':'" +:+ router_id +:+
  lit "','event':'" +:+ event +:+
  lit "','flow_id':'" +:+ str_dflt (fe_flow_id e) "0" +:+
  lit "','ct_id':" +:+ fmt_u (if truthy (fe_has_ct_id e) then fe_ct_id e else 0%Z) +:+
  lit ",'proto':" +:+ fmt_u (fe_proto e) +:+
  lit ",'ip_version':" +:+ fmt_u (fe_ip_version e) +:+
  lit ",'lan_ip':'" +:+ fe_lan_ip e +:+ lit "','lan_port':" +:+ fmt_u (fe_lan_port e) +:+
  lit ",'wan_ip':'" +:+ fe_wan_ip e +:+ lit "','wan_port':" +:+ fmt_u (fe_wan_port e) +:+
  lit ",'remote_ip':'" +:+ fe_remote_ip e +:+
  lit "','remote_port':" +:+ fmt_u (fe_remote_port e) +:+
  lit ",'orig_bytes':" +:+ fmt_u (fe_orig_bytes e) +:+
  lit ",'reply_bytes':" +:+ fmt_u (fe_reply_bytes e) +:+
  lit ",'orig_pkts':" +:+ fmt_u (fe_orig_pkts e) +:+
  lit ",'reply_pkts':" +:+ fmt_u (fe_reply_pkts e) +:+
  lit ",'bytes_up':" +:+ fmt_u (fe_bytes_up e) +:+
  lit ",'bytes_down':" +:+ fmt_u (fe_bytes_down e) +:+
  lit ",'bytes_up_delta':" +:+ fmt_u (fe_bytes_up_delta e) +:+
  lit ",'bytes_down_delta':" +:+ fmt_u (fe_bytes_down_delta e) +:+
  lit ",'rate_up_bps':" +:+ fmt_f 0 (fe_rate_up_bps e) +:+
  lit ",'rate_down_bps':" +:+ fmt_f 0 (fe_rate_down_bps e) +:+
  lit ",'duration_ms':" +:+ fmt_u (flow_duration e) +:+
  lit ",'state':'" +:+ str_dflt (fe_state e) "UNKNOWN" +:+ lit "','path_id':null}".

(** The result and the buffer (written as empty when untouched). *)
Definition cpe_flow_format_ndjson (router_id event : string) (e : cpe_flow_entry) (buflen : nat)
    (clk : clock) : Z * string :=
  if buflen <? 64 then ((-1)%Z, EmptyString)
  else snprintf_checked buflen (flow_text (FlowClock.iso_now clk EmptyString 40) router_id event e).

(** ** Well-formed rows *)
Record flow_entry_wf (e : cpe_flow_entry) : Prop := {
  few_flow_id : strlen (fe_flow_id e) < CPE_FLOW_ID_MAX;
  few_lan_ip : strlen (fe_lan_ip e) < CPE_FLOW_IP_MAX;
  few_wan_ip : strlen (fe_wan_ip e) < CPE_FLOW_IP_MAX;
  few_remote_ip : strlen (fe_remote_ip e) < CPE_FLOW_IP_MAX;
  few_state : strlen (fe_state e) < CPE_FLOW_STATE_MAX;
  few_ct_id : in_u32 (fe_ct_id e);
  few_proto : in_u8 (fe_proto e);
  few_ip_version : in_u8 (fe_ip_version e);
  few_lan_port : in_u16 (fe_lan_port e);
  few_wan_port : in_u16 (fe_wan_port e);
  few_remote_port : in_u16 (fe_remote_port e);
  few_orig_pkts : in_u64 (fe_orig_pkts e);
  few_orig_bytes : in_u64 (fe_orig_bytes e);
  few_reply_pkts : in_u64 (fe_reply_pkts e);
  few_reply_bytes : in_u64 (fe_reply_bytes e);
  few_bytes_up : in_u64 (fe_bytes_up e);
  few_bytes_down : in_u64 (fe_bytes_down e);
  few_up_delta : in_u64 (fe_bytes_up_delta e);
  few_down_delta : in_u64 (fe_bytes_down_delta e);
  few_first_seen : in_u64 (fe_first_seen_ms e);
  few_last_seen : in_u64 (fe_last_seen_ms e);
}.

Lemma strlen_ipv4_str a : strlen (ipv4_str a CPE_FLOW_IP_MAX) < CPE_FLOW_IP_MAX.
Proof.
  unfold ipv4_str. pose proof (strlen_ntop4_addr (htonl a)).
  destruct (Nat.ltb_spec (strlen (inet_ntop4_addr (htonl a))) CPE_FLOW_IP_MAX); [done|].
  apply snprintf_s_length. unfold CPE_FLOW_IP_MAX. lia.
Qed.
Lemma strlen_ipv6_str a : strlen (ipv6_str a CPE_FLOW_IP_MAX) < CPE_FLOW_IP_MAX.
Proof.
  unfold ipv6_str. destruct (Nat.ltb_spec (strlen (inet_ntop6 a)) CPE_FLOW_IP_MAX); [done|].
  apply snprintf_s_length. unfold CPE_FLOW_IP_MAX. lia.
Qed.
Lemma strlen_flow_id e : strlen (make_flow_id e CPE_FLOW_ID_MAX) < CPE_FLOW_ID_MAX.
Proof. apply snprintf_s_length. unfold CPE_FLOW_ID_MAX. lia. Qed.
Lemma strlen_state s : strlen (snprintf_s CPE_FLOW_STATE_MAX s) < CPE_FLOW_STATE_MAX.
Proof. apply snprintf_s_length. unfold CPE_FLOW_STATE_MAX. lia. Qed.

Lemma flow_entry_zero_wf : flow_entry_wf flow_entry_zero.
Proof.
  constructor; cbn; unfold CPE_FLOW_ID_MAX, CPE_FLOW_IP_MAX, CPE_FLOW_STATE_MAX; word_lia.
Qed.

Lemma counter_delta_range prev cur : in_u64 prev -> in_u64 cur -> in_u64 (counter_delta prev cur).
Proof. unfold counter_delta. destruct (Z.leb_spec prev cur); word_lia. Qed.

Lemma entry_from_event_wf ev now :
  nfct_event_ok ev -> in_u64 now -> flow_entry_wf (entry_from_event ev now).
Proof.
  intros Hev Hnow. destruct Hev. unfold entry_from_event.
  destruct (truthy (nev_has_id ev)), (truthy (nev_is_ipv6 ev)), (truthy (nev_has_counters ev)).
  all: constructor; cbn -[make_flow_id ipv4_str ipv6_str snprintf_s CPE_FLOW_IP_MAX CPE_FLOW_ID_MAX
    CPE_FLOW_STATE_MAX]; first [assumption | apply strlen_flow_id | apply strlen_state
      | apply strlen_ipv4_str | apply strlen_ipv6_str | word_lia].
Qed.

(** What [entry_from_event] fills in, whatever the event. *)
Lemma entry_from_event_fields ev now :
  let e := entry_from_event ev now in
  fe_used e = 1%Z /\ fe_alive e = c_bool (negb (is_destroy_event ev)) /\
  fe_proto e = nev_protocol ev /\ fe_first_seen_ms e = now /\ fe_last_seen_ms e = now /\
  fe_state e = event_name (nev_type ev) /\
  fe_has_ct_id e = c_bool (truthy (nev_has_id ev)) /\
  fe_bytes_up e = (if truthy (nev_has_counters ev) then nev_orig_bytes ev else 0%Z) /\
  fe_bytes_down e = (if truthy (nev_has_counters ev) then nev_reply_bytes ev else 0%Z) /\
  fe_rate_up_bps e = d_zero /\ fe_rate_down_bps e = d_zero.
Proof.
  cbv zeta. unfold entry_from_event.
  destruct (truthy (nev_has_id ev)), (truthy (nev_is_ipv6 ev)), (truthy (nev_has_counters ev)).
  all: cbn; split_and!; try done; by destruct (nev_type ev).
Qed.
Lemma ipv4_str_nonempty a n : 15 < n -> nonempty (ipv4_str a n) = true.
Proof.
  intros Hn. unfold ipv4_str. pose proof (strlen_ntop4_addr (htonl a)) as Hl.
  destruct (Nat.ltb_spec (strlen (inet_ntop4_addr (htonl a))) n); [|lia].
  unfold inet_ntop4_addr, inet_ntop4. match goal with |- context [fmt_u ?z +:+ _] =>
    pose proof (fmt_u_nonempty z) as Hz; destruct (fmt_u z); [simpl in Hz; lia|done] end.
Qed.

(** ** The line *)
Lemma strlen_fmt_u_digits n k : 0 < k -> (0 <= n < 10 ^ Z.of_nat k)%Z -> strlen (fmt_u n) <= k.
Proof. intros Hk Hn. destruct k as [|k]; [lia|]. by apply strlen_fmt_u. Qed.

(** Numbers of at most twelve digits. *)
Definition below_tera (n : Z) : Prop := (0 <= n < 10 ^ 12)%Z.
Lemma strlen_below_tera n : below_tera n -> strlen (fmt_u n) <= 12.
Proof. intros H. apply strlen_fmt_u_digits; [lia|exact H]. Qed.

Record modest_row (e : cpe_flow_entry) : Prop := {
  mr_ips : strlen (fe_lan_ip e) <= 39 /\ strlen (fe_wan_ip e) <= 39 /\ strlen (fe_remote_ip e) <= 39;
  mr_id : strlen (fe_flow_id e) <= 8;
  mr_state : strlen (fe_state e) <= 7;
  mr_orig : below_tera (fe_orig_pkts e) /\ below_tera (fe_orig_bytes e);
  mr_reply : below_tera (fe_reply_pkts e) /\ below_tera (fe_reply_bytes e);
  mr_bytes : below_tera (fe_bytes_up e) /\ below_tera (fe_bytes_down e);
  mr_deltas : below_tera (fe_bytes_up_delta e) /\ below_tera (fe_bytes_down_delta e);
  mr_rates : strlen (fmt_f 0 (fe_rate_up_bps e)) + strlen (fmt_f 0 (fe_rate_down_bps e)) <= 30;
  mr_seen : below_tera (fe_first_seen_ms e) /\ below_tera (fe_last_seen_ms e);
}.

Lemma strlen_flow_text ts rid event e :
  flow_entry_wf e -> modest_row e -> strlen ts <= 24 -> strlen rid < 64 -> strlen event <= 7 ->
  strlen (flow_text ts rid event e) < 768.
Proof.
  intros W M Ht Hr Hev. unfold flow_text. autorewrite with slen. cbn [strlen String.length].
  assert (H1 : strlen (str_dflt (fe_flow_id e) "0") < 9)
    by (apply strlen_str_dflt; [pose proof (mr_id _ M); lia|simpl; lia]).
  assert (H2 : strlen (str_dflt (fe_state e) "UNKNOWN") < 8)
    by (apply strlen_str_dflt; [pose proof (mr_state _ M); lia|simpl; lia]).
  assert (H3 : strlen (fmt_u (if truthy (fe_has_ct_id e) then fe_ct_id e else 0%Z)) <= 10).
  { apply strlen_fmt_u32. destruct (truthy _); [apply W|word_lia]. }
  pose proof (strlen_fmt_u8 _ (few_proto _ W)). pose proof (strlen_fmt_u8 _ (few_ip_version _ W)).
  pose proof (strlen_fmt_u16 _ (few_lan_port _ W)). pose proof (strlen_fmt_u16 _ (few_wan_port _ W)).
  pose proof (strlen_fmt_u16 _ (few_remote_port _ W)).
  destruct M as [(? & ? & ?) _ _ [Ha Hb] [Hc Hd] [He Hf] [Hg Hh] Hrates [Hi Hj]].
  assert (Hdur : strlen (fmt_u (flow_duration e)) <= 12).
  { apply strlen_below_tera. unfold flow_duration, below_tera in *.
    destruct (Z.ltb_spec (fe_first_seen_ms e) (fe_last_seen_ms e)); lia. }
  apply strlen_below_tera in Ha, Hb, Hc, Hd, He, Hf, Hg, Hh. simpl String.length. lia.
Qed.
