(* ===== verification/FlowTable.v ===== *)
(** * Flow accounting: the table (src/agent/flow_acct.c)

    [find_slot] chooses the row of an event and [apply_event] updates it, counts it and
    pushes the NEW and DESTROY lines into the spool ([LineSink]).  The invariant ties
    [table_used] to the rows in use; the theorems describe each way an event meets the
    table, the eviction of a full table and the identifier-only DESTROY included. *)

From S2P Require Import Prelude CStr Float754 Inet Clock Config Spool Events FlowEntry.

Definition UINT64_MAX : Z := 18446744073709551615.

Definition same_flow (key e : cpe_flow_entry) : bool :=
  (truthy (fe_has_ct_id key) && truthy (fe_has_ct_id e) && (fe_ct_id e =? fe_ct_id key)%Z) ||
  ((fe_proto e =? fe_proto key)%Z && (fe_lan_port e =? fe_lan_port key)%Z &&
   (fe_remote_port e =? fe_remote_port key)%Z && streq (fe_lan_ip e) (fe_lan_ip key) &&
   streq (fe_remote_ip e) (fe_remote_ip key)).

(** The scan: the first row in use that is the same flow, else the first free row,
    else the row seen longest ago. *)
Fixpoint find_go (key : cpe_flow_entry) (l : list cpe_flow_entry) (i : nat) (free_i : option nat)
    (oldest : Z) (oldest_i : option nat) : option nat :=
  match l with
  | [] => match free_i with Some f => Some f | None => oldest_i end
  | e :: l' =>
      if negb (truthy (fe_used e)) then
        find_go key l' (S i) (match free_i with None => Some i | Some f => Some f end) oldest oldest_i
      else if same_flow key e then Some i
      else if (fe_last_seen_ms e <? oldest)%Z
      then find_go key l' (S i) free_i (fe_last_seen_ms e) (Some i)
      else find_go key l' (S i) free_i oldest oldest_i
  end.

(** The rows in play: [i < max_flows && i < CPE_FLOW_MAX]. *)
Definition flow_limit (st : cpe_flow_state) : nat :=
  Z.to_nat (Z.min (fs_max_flows st) (Z.of_nat CPE_FLOW_MAX)).
Definition find_slot (st : cpe_flow_state) (key : cpe_flow_entry) : option nat :=
  find_go key (take (flow_limit st) (fs_table st)) 0 None UINT64_MAX None.

(** A row in use, updated by the row [tmp] of the event. *)
Definition merge_slot (slot tmp : cpe_flow_entry) (has_counters now_ms : Z) : cpe_flow_entry :=
  let prev_up := fe_bytes_up slot in
  let prev_down := fe_bytes_down slot in
  let prev_ms := fe_last_seen_ms slot in
  let s := if truthy (fe_first_seen_ms slot) then slot else slot <| fe_first_seen_ms := now_ms |> in
  let s := s <| fe_last_seen_ms := now_ms |> in
  let s := if truthy (fe_has_ct_id tmp)
           then s <| fe_ct_id := fe_ct_id tmp |> <| fe_has_ct_id := 1%Z |> else s in
  let s :=
    if nonempty (fe_lan_ip tmp) then
      s <| fe_lan_ip := fe_lan_ip tmp |> <| fe_lan_port := fe_lan_port tmp |>
        <| fe_remote_ip := fe_remote_ip tmp |> <| fe_remote_port := fe_remote_port tmp |>
        <| fe_wan_ip := fe_wan_ip tmp |> <| fe_wan_port := fe_wan_port tmp |>
        <| fe_proto := fe_proto tmp |> <| fe_ip_version := fe_ip_version tmp |>
    else s in
  let s :=
    if truthy has_counters then
      let s := s <| fe_orig_pkts := fe_orig_pkts tmp |> <| fe_orig_bytes := fe_orig_bytes tmp |>
                 <| fe_reply_pkts := fe_reply_pkts tmp |> <| fe_reply_bytes := fe_reply_bytes tmp |>
                 <| fe_bytes_up := fe_bytes_up tmp |> <| fe_bytes_down := fe_bytes_down tmp |> in
      update_rates s prev_up prev_down prev_ms now_ms
    else s in
  let s := s <| fe_state := snprintf_s CPE_FLOW_STATE_MAX (fe_state tmp) |> in
  if nonempty (fe_flow_id s) then s else s <| fe_flow_id := make_flow_id s CPE_FLOW_ID_MAX |>.

Section apply.
Context {Q : Type} `{!LineSink Q}.
Context (cfg : cpe_agent_config).

(** The row in the table after the event, before any line is emitted. *)
Definition place_event (st : cpe_flow_state) (idx : nat) (ev : nfct_event) (now_ms : Z) : cpe_flow_state :=
  let tmp := entry_from_event ev now_ms in
  let slot := fs_table st !!! idx in
  if negb (truthy (fe_used slot)) then
    st <| fs_table := <[idx := tmp]> (fs_table st) |> <| fs_table_used := u32 (fs_table_used st + 1) |>
  else st <| fs_table := <[idx := merge_slot slot tmp (nev_has_counters ev) now_ms]> (fs_table st) |>.

(** The one-time warning that the kernel does not account. *)
Definition warn_no_acct (st : cpe_flow_state) (ev : nfct_event) : cpe_flow_state :=
  if truthy (nev_has_lan ev) && negb (truthy (nev_has_counters ev)) &&
     negb (truthy (fs_warned_no_acct st)) &&
     (is_destroy_event ev || bool_decide (nev_type ev = NFCT_EVENT_UPDATE))
  then st <| fs_warned_no_acct := 1%Z |> else st.

(** The DESTROY line and the row's release. *)
Definition destroyed_row (slot : cpe_flow_entry) : cpe_flow_entry :=
  slot <| fe_alive := 0%Z |> <| fe_state := snprintf_s CPE_FLOW_STATE_MAX "DESTROY" |>.
Definition destroy_slot (st : cpe_flow_state) (idx : nat) (q : Q) (clk : clock) : cpe_flow_state * Q :=
  let slot := destroyed_row (fs_table st !!! idx) in
  let '(n, line) := cpe_flow_format_ndjson (router_id cfg) "destroy" slot CPE_NDJSON_LINE_MAX clk in
  let '(rc, q) := if (0 <? n)%Z then sink_push q line else ((-1)%Z, q) in
  let st := if (0 <? n)%Z && (rc =? 0)%Z
            then st <| fs_destroys_emitted := u64 (fs_destroys_emitted st + 1) |> else st in
  let st := st <| fs_table := <[idx := slot <| fe_used := 0%Z |>]> (fs_table st) |> in
  (if (0 <? fs_table_used st)%Z then st <| fs_table_used := (fs_table_used st - 1)%Z |> else st, q).

Definition apply_event (st : cpe_flow_state) (ev : nfct_event) (q : Q) (now_ms : Z) (clk : clock)
    : Z * cpe_flow_state * Q :=
  if negb (truthy (nev_has_lan ev)) && negb (truthy (nev_is_destroy ev) && truthy (nev_has_id ev))
  then (0%Z, st, q)
  else
    let st := warn_no_acct st ev in
    match find_slot st (entry_from_event ev now_ms) with
    | None => ((-1)%Z, st, q)
    | Some idx =>
        let st := place_event st idx ev now_ms in
        let st := st <| fs_events_in := u64 (fs_events_in st + 1) |> in
        if is_destroy_event ev && truthy (fs_emit_destroy st) then
          let '(st, q) := destroy_slot st idx q clk in (1%Z, st, q)
        else if bool_decide (nev_type ev = NFCT_EVENT_NEW) && truthy (fs_emit_new st) then
          let '(n, line) :=
            cpe_flow_format_ndjson (router_id cfg) "new" (fs_table st !!! idx) CPE_NDJSON_LINE_MAX clk in
          (0%Z, st, if (0 <? n)%Z then snd (sink_push q line) else q)
        else (0%Z, st, q)
    end.
End apply.

(** ** The scan *)
Definition in_use (e : cpe_flow_entry) : bool := truthy (fe_used e).
Definition hits (key e : cpe_flow_entry) : bool := in_use e && same_flow key e.

(** What the scan answers on a list of rows. *)
Inductive slot_choice (key : cpe_flow_entry) (l : list cpe_flow_entry) : option nat -> Prop :=
  | choice_hit i e : l !! i = Some e -> hits key e = true ->
      (forall j x, j < i -> l !! j = Some x -> hits key x = false) -> slot_choice key l (Some i)
  | choice_free i e : (forall j x, l !! j = Some x -> hits key x = false) ->
      l !! i = Some e -> in_use e = false ->
      (forall j x, j < i -> l !! j = Some x -> in_use x = true) -> slot_choice key l (Some i)
  | choice_oldest i e : (forall j x, l !! j = Some x -> in_use x = true /\ hits key x = false) ->
      l !! i = Some e -> (forall j x, l !! j = Some x -> fe_last_seen_ms e <= fe_last_seen_ms x)%Z ->
      slot_choice key l (Some i)
  | choice_none : l = [] -> slot_choice key l None.

(** Before the last row, the scan has seen [pre]. *)
Record scanned (key : cpe_flow_entry) (pre : list cpe_flow_entry) (free_i : option nat) (oldest : Z)
    (oldest_i : option nat) : Prop := {
  sc_miss : forall j x, pre !! j = Some x -> hits key x = false;
  sc_free : match free_i with
            | Some f => exists e, pre !! f = Some e /\ in_use e = false /\
                forall j x, j < f -> pre !! j = Some x -> in_use x = true
            | None => forall j x, pre !! j = Some x -> in_use x = true
            end;
  sc_low : forall j x, pre !! j = Some x -> in_use x = true -> (oldest <= fe_last_seen_ms x)%Z;
  sc_oldest : match oldest_i with
              | Some o => exists e, pre !! o = Some e /\ fe_last_seen_ms e = oldest
              | None => oldest = UINT64_MAX /\ forall j x, pre !! j = Some x -> in_use x = false
              end;
}.

Lemma lookup_snoc_cases {A} (pre : list A) e j x :
  (pre ++ [e]) !! j = Some x -> pre !! j = Some x \/ (j = length pre /\ x = e).
Proof.
  intros H. apply lookup_app_Some in H as [H|[Hj H]]; [by left|right].
  destruct (j - length pre) eqn:E; simpl in H; [|done]. injection H as <-. split; [lia|done].
Qed.

Lemma scanned_free key pre f o oi e :
  scanned key pre f o oi -> in_use e = false ->
  scanned key (pre ++ [e]) (match f with None => Some (length pre) | Some f => Some f end) o oi.
Proof.
  intros [Hm Hf Hl Ho] He. split.
  - intros j x [H|[-> ->]]%lookup_snoc_cases; [by eapply Hm|]. unfold hits. by rewrite He.
  - destruct f as [f|].
    + destruct Hf as (e' & Hl' & Hu & Hmin). exists e'. split; [by apply lookup_app_l_Some|].
      split; [done|]. intros j x Hj H. apply (Hmin j x Hj).
      rewrite lookup_app_l in H; [done|]. apply lookup_lt_Some in Hl'. lia.
    + exists e. split; [by rewrite list_lookup_middle|]. split; [done|].
      intros j x Hj H. apply (Hf j). rewrite lookup_app_l in H by done. done.
  - intros j x [H|[-> ->]]%lookup_snoc_cases; [by eapply Hl|]. by rewrite He.
  - destruct oi as [oi|].
    + destruct Ho as (e' & Hl' & Hv). exists e'. split; [by apply lookup_app_l_Some|done].
    + destruct Ho as [-> Ho]. split; [done|]. intros j x [H|[-> ->]]%lookup_snoc_cases; [by eapply Ho|done].
Qed.

Lemma scanned_used key pre f o oi e :
  scanned key pre f o oi -> in_use e = true -> same_flow key e = false ->
  (fe_last_seen_ms e < UINT64_MAX)%Z ->
  scanned key (pre ++ [e]) f (if (fe_last_seen_ms e <? o)%Z then fe_last_seen_ms e else o)
    (if (fe_last_seen_ms e <? o)%Z then Some (length pre) else oi).
Proof.
  intros [Hm Hf Hl Ho] He Hs Hlt. split.
  - intros j x [H|[-> ->]]%lookup_snoc_cases; [by eapply Hm|]. unfold hits. by rewrite He, Hs.
  - destruct f as [f|].
    + destruct Hf as (e' & Hl' & Hu & Hmin). exists e'. split; [by apply lookup_app_l_Some|].
      split; [done|]. intros j x Hj H. apply (Hmin j x Hj).
      rewrite lookup_app_l in H; [done|]. apply lookup_lt_Some in Hl'. lia.
    + intros j x [H|[-> ->]]%lookup_snoc_cases; [by eapply Hf|done].
  - intros j x [H|[-> ->]]%lookup_snoc_cases Hu.
    + pose proof (Hl j x H Hu). destruct (Z.ltb_spec (fe_last_seen_ms e) o); lia.
    + destruct (Z.ltb_spec (fe_last_seen_ms e) o); lia.
  - destruct (Z.ltb_spec (fe_last_seen_ms e) o).
    + exists e. split; [by rewrite list_lookup_middle|done].
    + destruct oi as [oi|].
      * destruct Ho as (e' & Hl' & Hv). exists e'. split; [by apply lookup_app_l_Some|done].
      * destruct Ho as [-> _]. lia.
Qed.

Lemma find_go_spec key l pre f o oi :
  scanned key pre f o oi -> Forall (fun e => fe_last_seen_ms e < UINT64_MAX)%Z l ->
  slot_choice key (pre ++ l) (find_go key l (length pre) f o oi).
Proof.
  revert pre f o oi. induction l as [|e l IH]; intros pre f o oi Hsc Hts; cbn [find_go].
  { rewrite app_nil_r. destruct Hsc as [Hm Hf Hl Ho]. destruct f as [f|].
    { destruct Hf as (e & He & Hu & Hmin). by eapply choice_free. }
    destruct oi as [oi|].
    { destruct Ho as (e & He & Hv). eapply choice_oldest; [|exact He|].
      - intros j x Hj. split; [by eapply Hf|by eapply Hm].
      - intros j x Hj. rewrite Hv. by eapply Hl, Hf. }
    destruct Ho as [_ Ho]. apply choice_none. destruct pre as [|x pre]; [done|].
    pose proof (Hf 0 x eq_refl). by rewrite (Ho 0 x eq_refl) in *. }
  apply Forall_cons in Hts as [He Hts].
  replace (pre ++ e :: l) with ((pre ++ [e]) ++ l) by by rewrite <- app_assoc.
  assert (HS : S (length pre) = length (pre ++ [e])) by (rewrite length_app; simpl; lia).
  change (truthy (fe_used e)) with (in_use e). destruct (in_use e) eqn:Hu; cbn [negb].
  2:{ rewrite HS. apply IH; [|done]. by apply scanned_free. }
  destruct (same_flow key e) eqn:Hs.
  { eapply choice_hit; [|by unfold hits; rewrite Hu, Hs|].
    - rewrite <- app_assoc. by apply list_lookup_middle.
    - intros j x Hj H. rewrite <- app_assoc, lookup_app_l in H by done. by eapply Hsc. }
  pose proof (scanned_used key pre f o oi e Hsc Hu Hs He) as Hn.
  destruct (fe_last_seen_ms e <? o)%Z; rewrite HS; by apply IH.
Qed.

(** The clock has not reached the last representable millisecond. *)
Definition seen_ok (st : cpe_flow_state) : Prop :=
  Forall (fun e => fe_last_seen_ms e < UINT64_MAX)%Z (fs_table st).

Lemma find_slot_spec st key :
  seen_ok st -> slot_choice key (take (flow_limit st) (fs_table st)) (find_slot st key).
Proof.
  intros Hs. apply (find_go_spec key _ []); [|by apply Forall_take].
  by split.
Qed.

Create HintDb flow_wf.

(** ** The invariant *)
Definition count_used (l : list cpe_flow_entry) : Z := zsum (fun e => c_bool (in_use e)) l.

Record flow_wf (st : cpe_flow_state) : Prop := {
  fwf_len : length (fs_table st) = CPE_FLOW_MAX;
  fwf_used : fs_table_used st = count_used (fs_table st);
  fwf_rows : Forall flow_entry_wf (fs_table st);
  fwf_seen : seen_ok st;
  fwf_events : in_u64 (fs_events_in st) /\ in_u64 (fs_destroys_emitted st);
}.

Lemma count_used_bound l : (0 <= count_used l <= Z.of_nat (length l))%Z.
Proof.
  unfold count_used. induction l as [|e l IH]; [simpl; lia|]. rewrite zsum_cons. cbn [length].
  destruct (in_use e); simpl; lia.
Qed.
Lemma count_used_insert l i e e' :
  l !! i = Some e ->
  count_used (<[i := e']> l) = (count_used l - c_bool (in_use e) + c_bool (in_use e'))%Z.
Proof. exact (zsum_insert (fun e => c_bool (in_use e)) l i e e'). Qed.

Lemma cpe_flow_state_init_wf : flow_wf cpe_flow_state_init.
Proof.
  constructor.
  - reflexivity.
  - vm_compute. reflexivity.
  - apply Forall_replicate, flow_entry_zero_wf.
  - apply Forall_replicate. simpl. unfold UINT64_MAX. lia.
  - split; simpl; word_lia.
Qed.

Lemma find_slot_lookup st key i :
  seen_ok st -> find_slot st key = Some i ->
  i < flow_limit st /\ exists e, fs_table st !! i = Some e /\ fs_table st !!! i = e.
Proof.
  intros Hs Hf. pose proof (find_slot_spec st key Hs) as Hc. rewrite Hf in Hc.
  assert (Hl : exists e, take (flow_limit st) (fs_table st) !! i = Some e)
    by (inversion Hc; subst; eauto).
  destruct Hl as [e He]. apply lookup_take_Some in He as [He Hi]. split; [done|].
  exists e. split; [done|]. by apply list_lookup_total_correct.
Qed.

Lemma update_rates_wf e pu pd pm now :
  flow_entry_wf e -> in_u64 pu -> in_u64 pd -> flow_entry_wf (update_rates e pu pd pm now).
Proof.
  intros H Hu Hd. unfold update_rates.
  pose proof (counter_delta_range _ _ Hu (few_bytes_up _ H)).
  pose proof (counter_delta_range _ _ Hd (few_bytes_down _ H)).
  destruct H. destruct (0 <? _)%Z; by constructor.
Qed.

Lemma set_state_wf e s :
  flow_entry_wf e -> flow_entry_wf (e <| fe_state := snprintf_s CPE_FLOW_STATE_MAX s |>).
Proof. intros H. pose proof (strlen_state s). destruct H. by constructor. Qed.
Lemma set_flow_id_wf e f :
  flow_entry_wf e -> flow_entry_wf (e <| fe_flow_id := make_flow_id f CPE_FLOW_ID_MAX |>).
Proof. intros H. pose proof (strlen_flow_id f). destruct H. by constructor. Qed.
Lemma set_used_wf e u : flow_entry_wf e -> flow_entry_wf (e <| fe_used := u |>).
Proof. intros H. destruct H. by constructor. Qed.
Lemma set_alive_wf e u : flow_entry_wf e -> flow_entry_wf (e <| fe_alive := u |>).
Proof. intros H. destruct H. by constructor. Qed.

Lemma set_first_seen_wf e t : flow_entry_wf e -> in_u64 t -> flow_entry_wf (e <| fe_first_seen_ms := t |>).
Proof. intros H Ht. destruct H. by constructor. Qed.
Lemma set_last_seen_wf e t : flow_entry_wf e -> in_u64 t -> flow_entry_wf (e <| fe_last_seen_ms := t |>).
Proof. intros H Ht. destruct H. by constructor. Qed.
Lemma set_ct_id_wf e i h :
  flow_entry_wf e -> in_u32 i -> flow_entry_wf (e <| fe_ct_id := i |> <| fe_has_ct_id := h |>).
Proof. intros H Ht. destruct H. by constructor. Qed.
Lemma copy_tuple_wf e t :
  flow_entry_wf e -> flow_entry_wf t ->
  flow_entry_wf (e <| fe_lan_ip := fe_lan_ip t |> <| fe_lan_port := fe_lan_port t |>
    <| fe_remote_ip := fe_remote_ip t |> <| fe_remote_port := fe_remote_port t |>
    <| fe_wan_ip := fe_wan_ip t |> <| fe_wan_port := fe_wan_port t |>
    <| fe_proto := fe_proto t |> <| fe_ip_version := fe_ip_version t |>).
Proof. intros H Ht. destruct H, Ht. by constructor. Qed.
Lemma copy_counters_wf e t :
  flow_entry_wf e -> flow_entry_wf t ->
  flow_entry_wf (e <| fe_orig_pkts := fe_orig_pkts t |> <| fe_orig_bytes := fe_orig_bytes t |>
    <| fe_reply_pkts := fe_reply_pkts t |> <| fe_reply_bytes := fe_reply_bytes t |>
    <| fe_bytes_up := fe_bytes_up t |> <| fe_bytes_down := fe_bytes_down t |>).
Proof. intros H Ht. destruct H, Ht. by constructor. Qed.
Lemma if_wf (b : bool) e e' : flow_entry_wf e -> flow_entry_wf e' -> flow_entry_wf (if b then e else e').
Proof. by destruct b. Qed.
#[local] Hint Resolve set_state_wf set_flow_id_wf set_first_seen_wf set_last_seen_wf set_ct_id_wf
  copy_tuple_wf copy_counters_wf if_wf update_rates_wf : flow_wf.

Lemma merge_slot_wf slot tmp hc now :
  flow_entry_wf slot -> flow_entry_wf tmp -> in_u64 now -> flow_entry_wf (merge_slot slot tmp hc now).
Proof.
  intros Hs Ht Hn. unfold merge_slot.
  pose proof (few_bytes_up _ Hs). pose proof (few_bytes_down _ Hs). pose proof (few_ct_id _ Ht).
  auto 20 with flow_wf.
Qed.

(** The fields a merge fixes, whatever the branches. *)
Lemma merge_slot_fields slot tmp hc now :
  let s := merge_slot slot tmp hc now in
  fe_used s = fe_used slot /\ fe_alive s = fe_alive slot /\ fe_last_seen_ms s = now /\
  fe_first_seen_ms s = (if truthy (fe_first_seen_ms slot) then fe_first_seen_ms slot else now) /\
  (nonempty (fe_flow_id slot) = true -> fe_flow_id s = fe_flow_id slot).
Proof.
  cbv zeta. unfold merge_slot, update_rates. cbv zeta.
  match goal with |- context [if nonempty (fe_flow_id ?x) then _ else _] => set (s6 := x) end.
  assert (H6 : fe_used s6 = fe_used slot /\ fe_alive s6 = fe_alive slot /\ fe_last_seen_ms s6 = now /\
    fe_first_seen_ms s6 = (if truthy (fe_first_seen_ms slot) then fe_first_seen_ms slot else now) /\
    fe_flow_id s6 = fe_flow_id slot).
  { subst s6. destruct (truthy hc); [destruct (0 <? _)%Z|]; destruct (nonempty (fe_lan_ip tmp));
      destruct (truthy (fe_has_ct_id tmp)); by destruct (truthy (fe_first_seen_ms slot)). }
  destruct H6 as (H1 & H2 & H3 & H4 & H5). rewrite H5.
  destruct (nonempty (fe_flow_id slot)); by split_and!.
Qed.

(** ** One event *)

(** An event the table takes in: one with an inside tuple, or an identifier-only
    DESTROY. *)
Definition accepted (ev : nfct_event) : bool :=
  truthy (nev_has_lan ev) || (truthy (nev_is_destroy ev) && truthy (nev_has_id ev)).
Definition time_ok (now : Z) : Prop := (0 <= now < UINT64_MAX)%Z.

Lemma place_event_wf st i e ev now :
  flow_wf st -> nfct_event_ok ev -> time_ok now -> fs_table st !! i = Some e ->
  flow_wf (place_event st i ev now).
Proof.
  intros Hwf Hev Hnow He. pose proof Hwf as [Hlen Hu Hrows Hseen Hcnt].
  assert (Hn : in_u64 now) by (unfold time_ok, UINT64_MAX in Hnow; word_lia).
  pose proof (entry_from_event_wf ev now Hev Hn) as Htmp.
  destruct (entry_from_event_fields ev now) as (Fu & _ & _ & _ & Fl & _).
  pose proof (Forall_lookup_1 _ _ _ _ Hrows He) as Hew.
  unfold place_event. rewrite (list_lookup_total_correct _ _ _ He).
  assert (Hiu : truthy (fe_used e) = in_use e) by done.
  pose proof (count_used_bound (fs_table st)) as Hb. rewrite Hlen in Hb.
  destruct (truthy (fe_used e)) eqn:Eu; cbn [negb].
  - destruct (merge_slot_fields e (entry_from_event ev now) (nev_has_counters ev) now)
      as (Gu & _ & Gl & _ & _).
    constructor; cbn.
    + by rewrite length_insert.
    + rewrite (count_used_insert _ _ _ _ He), Hu. unfold in_use. rewrite Gu, Eu. lia.
    + apply Forall_insert; [done|]. by apply merge_slot_wf.
    + apply Forall_insert; [done|]. rewrite Gl. apply Hnow.
    + done.
  - constructor; cbn.
    + by rewrite length_insert.
    + rewrite (count_used_insert _ _ _ _ He), Hu. unfold in_use. rewrite Fu, Eu.
      cbn [truthy Z.eqb negb c_bool]. rewrite u32_id; [lia|].
      assert (count_used (fs_table st) < Z.of_nat CPE_FLOW_MAX + 1)%Z by lia.
      unfold CPE_FLOW_MAX in *. word_lia.
    + by apply Forall_insert.
    + apply Forall_insert; [done|]. rewrite Fl. apply Hnow.
    + done.
Qed.

Section events.
Context {Q : Type} `{LineSinkLaws Q}.
Context (cfg : cpe_agent_config).

Lemma warn_no_acct_frame st ev :
  let st' := warn_no_acct st ev in
  fs_table st' = fs_table st /\ fs_table_used st' = fs_table_used st /\
  fs_events_in st' = fs_events_in st /\ fs_emit_destroy st' = fs_emit_destroy st /\
  fs_max_flows st' = fs_max_flows st /\ fs_destroys_emitted st' = fs_destroys_emitted st.
Proof. cbv zeta. unfold warn_no_acct. by destruct (_ && _ && _ && _). Qed.
Lemma warn_no_acct_slot st ev key : find_slot (warn_no_acct st ev) key = find_slot st key.
Proof.
  destruct (warn_no_acct_frame st ev) as (Ht & _ & _ & _ & Hm & _).
  unfold find_slot, flow_limit. by rewrite Ht, Hm.
Qed.
Lemma warn_no_acct_wf st ev : flow_wf st -> flow_wf (warn_no_acct st ev).
Proof.
  intros [H1 H2 H3 H4 H5]. destruct (warn_no_acct_frame st ev) as (E1 & E2 & E3 & _ & _ & E4).
  constructor; unfold seen_ok; rewrite ?E1, ?E2, ?E3, ?E4; done.
Qed.

Lemma place_event_frame st i ev now :
  let st' := place_event st i ev now in
  fs_emit_destroy st' = fs_emit_destroy st /\ fs_emit_new st' = fs_emit_new st /\
  fs_max_flows st' = fs_max_flows st /\ fs_events_in st' = fs_events_in st /\
  fs_destroys_emitted st' = fs_destroys_emitted st.
Proof. cbv zeta. unfold place_event. by destruct (negb _). Qed.
Lemma place_event_row st i e ev now :
  fs_table st !! i = Some e ->
  fs_table (place_event st i ev now) =
    <[i := if in_use e then merge_slot e (entry_from_event ev now) (nev_has_counters ev) now
           else entry_from_event ev now]> (fs_table st).
Proof.
  intros He. unfold place_event. rewrite (list_lookup_total_correct _ _ _ He).
  change (truthy (fe_used e)) with (in_use e). by destruct (in_use e).
Qed.
Lemma placed_in_use st i e ev now :
  fs_table st !! i = Some e ->
  exists e', fs_table (place_event st i ev now) !! i = Some e' /\ in_use e' = true.
Proof.
  intros He. rewrite (place_event_row st i e ev now He).
  rewrite list_lookup_insert_eq by by eapply lookup_lt_Some. eexists. split; [done|].
  destruct (in_use e) eqn:Eu.
  - destruct (merge_slot_fields e (entry_from_event ev now) (nev_has_counters ev) now) as (Gu & _).
    unfold in_use in *. by rewrite Gu.
  - destruct (entry_from_event_fields ev now) as (Fu & _). unfold in_use. by rewrite Fu.
Qed.

Lemma count_events_wf st : flow_wf st -> flow_wf (st <| fs_events_in := u64 (fs_events_in st + 1) |>).
Proof.
  intros [H1 H2 H3 H4 [H5 H6]]. constructor; try done. split; [apply u64_range|done].
Qed.

(** What the release of a row does. *)
Lemma destroy_slot_spec st i e (q : Q) clk :
  flow_wf st -> sink_wf q -> fs_table st !! i = Some e -> in_use e = true ->
  let row := destroyed_row e in
  let line := flow_text (FlowClock.iso_now clk EmptyString 40) (router_id cfg) "destroy" row in
  let fits := strlen line <? CPE_NDJSON_LINE_MAX in
  let '(st', q') := destroy_slot cfg st i q clk in
  flow_wf st' /\
  q' = (if fits then snd (sink_push q line) else q) /\
  fs_table st' = <[i := row <| fe_used := 0%Z |>]> (fs_table st) /\
  fs_table_used st' = (fs_table_used st - 1)%Z /\
  fs_destroys_emitted st' =
    (if fits && negb (sink_cap q =? 0) then u64 (fs_destroys_emitted st + 1) else fs_destroys_emitted st) /\
  fs_events_in st' = fs_events_in st /\ fs_max_flows st' = fs_max_flows st.
Proof.
  intros Hwf Hq He Hu. cbv zeta. unfold destroy_slot. rewrite (list_lookup_total_correct _ _ _ He).
  unfold cpe_flow_format_ndjson. change (CPE_NDJSON_LINE_MAX <? 64) with false. cbv iota.
  set (row := destroyed_row e). set (line := flow_text _ _ _ row).
  assert (Hpos : (0 < Z.of_nat (strlen line))%Z) by (subst line; unfold flow_text; autorewrite with slen; simpl String.length; lia).
  assert (Hcount : (0 < fs_table_used st)%Z).
  { rewrite (fwf_used _ Hwf). pose proof (count_used_insert _ _ _ flow_entry_zero He) as Hc.
    rewrite Hu in Hc. pose proof (count_used_bound (<[i:=flow_entry_zero]> (fs_table st))). simpl in Hc. lia. }
  assert (Hrow : flow_entry_wf (row <| fe_used := 0%Z |>)).
  { apply set_used_wf. subst row. unfold destroyed_row. apply set_state_wf, set_alive_wf.
    exact (Forall_lookup_1 _ _ _ _ (fwf_rows _ Hwf) He). }
  assert (Hnew : forall d, in_u64 d -> flow_wf (st <| fs_destroys_emitted := d |>
      <| fs_table := <[i := row <| fe_used := 0%Z |>]> (fs_table st) |>
      <| fs_table_used := (fs_table_used st - 1)%Z |>)).
  { intros d Hd. pose proof Hwf as [H1 H2 H3 H4 [H5 H6]]. constructor; cbn; try done.
    - by rewrite length_insert.
    - rewrite (count_used_insert _ _ _ _ He), Hu, H2. simpl. lia.
    - by apply Forall_insert.
    - apply Forall_insert; [done|]. exact (Forall_lookup_1 _ _ _ _ H4 He). }
  pose proof (fwf_events _ Hwf) as [_ Hde].
  pose proof (Hnew _ Hde) as Hsame. pose proof (Hnew _ (u64_range (fs_destroys_emitted st + 1))) as Hmore.
  destruct (Nat.ltb_spec (strlen line) CPE_NDJSON_LINE_MAX) as [Hlt|Hge].
  - rewrite (snprintf_checked_ok _ _ Hlt). rewrite (proj2 (Z.ltb_lt _ _) Hpos).
    pose proof (sink_push_rc q line Hq) as Hrc. destruct (sink_push q line) as [rc q1]. cbn [fst snd] in *.
    rewrite Hrc. destruct (sink_cap q =? 0); cbn [negb andb Z.eqb];
      cbn [fs_table_used set_field]; rewrite (proj2 (Z.ltb_lt _ _) Hcount); by split_and!.
  - rewrite (snprintf_checked_overflow _ _ Hge). cbn [andb Z.ltb Z.compare].
    cbn [fs_table_used set_field]. rewrite (proj2 (Z.ltb_lt _ _) Hcount). by split_and!.
Qed.

Lemma apply_event_rejected st ev (q : Q) now clk :
  accepted ev = false -> apply_event cfg st ev q now clk = (0%Z, st, q).
Proof. unfold accepted, apply_event. rewrite <- negb_orb. by intros ->. Qed.

(** The state once the event is in its row and counted, before any line. *)
Definition noted (st : cpe_flow_state) (i : nat) (ev : nfct_event) (now : Z) : cpe_flow_state :=
  let st := place_event (warn_no_acct st ev) i ev now in
  st <| fs_events_in := u64 (fs_events_in st + 1) |>.

Lemma noted_frame st i ev now :
  let st' := noted st i ev now in
  fs_emit_destroy st' = fs_emit_destroy st /\ fs_events_in st' = u64 (fs_events_in st + 1) /\
  fs_destroys_emitted st' = fs_destroys_emitted st /\ fs_max_flows st' = fs_max_flows st.
Proof.
  cbv zeta. destruct (place_event_frame (warn_no_acct st ev) i ev now) as (H1 & _ & H2 & H3 & H4).
  destruct (warn_no_acct_frame st ev) as (_ & _ & W1 & W2 & W3 & W4).
  unfold noted. cbn. by rewrite H1, H2, H3, H4, W1, W2, W3, W4.
Qed.
Lemma noted_row st i e ev now :
  fs_table st !! i = Some e ->
  fs_table (noted st i ev now) =
    <[i := if in_use e then merge_slot e (entry_from_event ev now) (nev_has_counters ev) now
           else entry_from_event ev now]> (fs_table st).
Proof.
  intros He. destruct (warn_no_acct_frame st ev) as (Ht & _). rewrite <- Ht. rewrite <- Ht in He.
  exact (place_event_row (warn_no_acct st ev) i e ev now He).
Qed.
Lemma noted_wf st i e ev now :
  flow_wf st -> nfct_event_ok ev -> time_ok now -> fs_table st !! i = Some e -> flow_wf (noted st i ev now).
Proof.
  intros Hwf Hev Hnow He. destruct (warn_no_acct_frame st ev) as (Ht & _). rewrite <- Ht in He.
  apply count_events_wf. eapply place_event_wf; [by apply warn_no_acct_wf|done|done|exact He].
Qed.

Lemma apply_event_none st ev (q : Q) now clk :
  accepted ev = true -> find_slot st (entry_from_event ev now) = None ->
  apply_event cfg st ev q now clk = ((-1)%Z, warn_no_acct st ev, q).
Proof.
  unfold accepted, apply_event. rewrite <- negb_orb. intros -> Hf. cbn [negb].
  cbv zeta. by rewrite warn_no_acct_slot, Hf.
Qed.
Lemma apply_event_some st ev (q : Q) now clk i :
  accepted ev = true -> find_slot st (entry_from_event ev now) = Some i ->
  apply_event cfg st ev q now clk =
    (let st1 := noted st i ev now in
     if is_destroy_event ev && truthy (fs_emit_destroy st1) then
       let '(st, q) := destroy_slot cfg st1 i q clk in (1%Z, st, q)
     else if bool_decide (nev_type ev = NFCT_EVENT_NEW) && truthy (fs_emit_new st1) then
       let '(n, line) :=
         cpe_flow_format_ndjson (router_id cfg) "new" (fs_table st1 !!! i) CPE_NDJSON_LINE_MAX clk in
       (0%Z, st1, if (0 <? n)%Z then snd (sink_push q line) else q)
     else (0%Z, st1, q)).
Proof.
  unfold accepted, apply_event. rewrite <- negb_orb. intros -> Hf. cbn [negb].
  cbv zeta. by rewrite warn_no_acct_slot, Hf.
Qed.

Lemma apply_event_keeps st ev (q : Q) now clk :
  flow_wf st -> nfct_event_ok ev -> time_ok now -> sink_wf q ->
  let '(rc, st', q') := apply_event cfg st ev q now clk in
  flow_wf st' /\ sink_wf q' /\ sink_cap q' = sink_cap q /\ fs_max_flows st' = fs_max_flows st /\
  (rc = (-1)%Z -> flow_limit st = 0).
Proof.
  intros Hwf Hev Hnow Hq.
  destruct (accepted ev) eqn:Ha; [|by rewrite apply_event_rejected].
  destruct (find_slot st (entry_from_event ev now)) as [i|] eqn:Hf.
  2:{ rewrite apply_event_none by done. split; [by apply warn_no_acct_wf|]. split; [done|].
      split; [done|]. split; [apply warn_no_acct_frame|]. intros _.
      pose proof (find_slot_spec st (entry_from_event ev now) (fwf_seen _ Hwf)) as Hc. rewrite Hf in Hc.
      inversion Hc as [| | |Hnil]. apply (f_equal length) in Hnil. rewrite length_take, (fwf_len _ Hwf) in Hnil.
      unfold flow_limit, CPE_FLOW_MAX in *. simpl in Hnil. lia. }
  destruct (find_slot_lookup _ _ _ (fwf_seen _ Hwf) Hf) as (_ & e & He & _).
  rewrite (apply_event_some _ _ _ _ _ _ Ha Hf). cbv zeta.
  pose proof (noted_wf st i e ev now Hwf Hev Hnow He) as Hw1.
  destruct (noted_frame st i ev now) as (_ & _ & _ & Hmax).
  destruct (is_destroy_event ev && _).
  - destruct (warn_no_acct_frame st ev) as (Ht & _). rewrite <- Ht in He.
    destruct (placed_in_use (warn_no_acct st ev) i e ev now He) as (e' & He' & Hu').
    pose proof (destroy_slot_spec (noted st i ev now) i e' q clk Hw1 Hq He' Hu') as Hd. cbv zeta in Hd.
    destruct (destroy_slot _ _ _ _ _) as [st2 q2].
    destruct Hd as (Hw2 & -> & _ & _ & _ & _ & Hm2). split; [done|]. rewrite Hm2, Hmax.
    destruct (_ <? _); split_and!; try done; first [by apply sink_push_wf|by apply sink_push_cap].
  - destruct (bool_decide _ && _); [|by split_and!].
    destruct (cpe_flow_format_ndjson _ _ _ _ _) as [n line].
    destruct (0 <? n)%Z; split_and!; try done; first [by apply sink_push_wf|by apply sink_push_cap].
Qed.

(** C24: Every event keeps the accounting table consistent: 1024 rows, [table_used]
    the number of rows in use (so the unsigned decrement on DESTROY never wraps), every
    string within its array and every counter within its type; the spool stays
    well-formed with the same capacity. *)
Theorem flow_event_keeps_table st ev (q : Q) now clk :
  flow_wf st -> nfct_event_ok ev -> time_ok now -> sink_wf q ->
  let '(rc, st', q') := apply_event cfg st ev q now clk in
  flow_wf st' /\ sink_wf q' /\ sink_cap q' = sink_cap q /\ fs_max_flows st' = fs_max_flows st /\
  (rc = (-1)%Z -> flow_limit st = 0).
Proof. exact (apply_event_keeps st ev q now clk). Qed.

(** What an event does to the table, DESTROY emission apart: it changes exactly
    one row, the one the scan chooses (the first row of the same flow; else the first
    free row; else, the table being full of other flows, the row seen longest ago),
    which becomes the event's own row if it was free and the merge of the old row with
    it otherwise; one event is counted and no DESTROY line is. *)
Theorem flow_event_places st ev (q : Q) now clk i :
  flow_wf st -> time_ok now -> accepted ev = true ->
  is_destroy_event ev && truthy (fs_emit_destroy st) = false ->
  find_slot st (entry_from_event ev now) = Some i ->
  let tmp := entry_from_event ev now in
  let '(rc, st', q') := apply_event cfg st ev q now clk in
  rc = 0%Z /\ fs_events_in st' = u64 (fs_events_in st + 1) /\
  fs_destroys_emitted st' = fs_destroys_emitted st /\
  slot_choice tmp (take (flow_limit st) (fs_table st)) (Some i) /\
  exists e, fs_table st !! i = Some e /\
    fs_table st' = <[i := if in_use e then merge_slot e tmp (nev_has_counters ev) now else tmp]>
                     (fs_table st).
Proof.
  intros Hwf Hnow Ha Hd Hf. cbv zeta.
  pose proof (find_slot_spec st (entry_from_event ev now) (fwf_seen _ Hwf)) as Hc. rewrite Hf in Hc.
  destruct (find_slot_lookup _ _ _ (fwf_seen _ Hwf) Hf) as (_ & e & He & _).
  rewrite (apply_event_some _ _ _ _ _ _ Ha Hf). cbv zeta.
  destruct (noted_frame st i ev now) as (Hem & Hev & Hde & _). rewrite Hem, Hd.
  pose proof (noted_row st i e ev now He) as Hrow.
  assert (Hgoal : fs_events_in (noted st i ev now) = u64 (fs_events_in st + 1) /\
    fs_destroys_emitted (noted st i ev now) = fs_destroys_emitted st /\
    slot_choice (entry_from_event ev now) (take (flow_limit st) (fs_table st)) (Some i) /\
    exists e, fs_table st !! i = Some e /\ fs_table (noted st i ev now) =
      <[i := if in_use e then merge_slot e (entry_from_event ev now) (nev_has_counters ev) now
             else entry_from_event ev now]> (fs_table st)) by (split_and!; eauto).
  destruct (bool_decide _ && _); [|done].
  by destruct (cpe_flow_format_ndjson _ _ _ _ _).
Qed.

(** A DESTROY that is emitted releases its row: the row is marked unused, the
    count of rows in use drops to what it was without the flow, the event is counted,
    exactly one line is pushed, the row's DESTROY line, provided it fits the 768-byte
    buffer, and the emission counter grows only when the spool took it; the result
    is 1. *)
Theorem flow_destroy_releases st ev (q : Q) now clk i e :
  flow_wf st -> nfct_event_ok ev -> time_ok now -> sink_wf q -> accepted ev = true ->
  is_destroy_event ev = true -> truthy (fs_emit_destroy st) = true ->
  find_slot st (entry_from_event ev now) = Some i -> fs_table st !! i = Some e ->
  let tmp := entry_from_event ev now in
  let row := destroyed_row (if in_use e then merge_slot e tmp (nev_has_counters ev) now else tmp) in
  let line := flow_text (FlowClock.iso_now clk EmptyString 40) (router_id cfg) "destroy" row in
  let fits := strlen line <? CPE_NDJSON_LINE_MAX in
  let '(rc, st', q') := apply_event cfg st ev q now clk in
  rc = 1%Z /\ fs_table st' = <[i := row <| fe_used := 0%Z |>]> (fs_table st) /\
  fs_table_used st' = (count_used (fs_table st) - c_bool (in_use e))%Z /\
  fs_events_in st' = u64 (fs_events_in st + 1) /\
  sink_pending q' = (if fits then lastn (sink_cap q) (sink_pending q ++ [stored line]) else sink_pending q) /\
  fs_destroys_emitted st' =
    (if fits && negb (sink_cap q =? 0) then u64 (fs_destroys_emitted st + 1) else fs_destroys_emitted st).
Proof.
  intros Hwf Hev Hnow Hq Ha Hd Hem Hf He. cbv zeta.
  rewrite (apply_event_some _ _ _ _ _ _ Ha Hf). cbv zeta.
  destruct (noted_frame st i ev now) as (Hem' & Hevn & Hde & _). rewrite Hem', Hd, Hem. cbn [andb].
  pose proof (noted_wf st i e ev now Hwf Hev Hnow He) as Hw1.
  pose proof (noted_row st i e ev now He) as Hrow.
  set (r := if in_use e then _ else _) in *.
  assert (Hlook : fs_table (noted st i ev now) !! i = Some r)
    by (rewrite Hrow; apply list_lookup_insert_eq; by eapply lookup_lt_Some).
  assert (Hu : in_use r = true).
  { destruct (warn_no_acct_frame st ev) as (Ht & _). pose proof He as He2. rewrite <- Ht in He2.
    destruct (placed_in_use (warn_no_acct st ev) i e ev now He2) as (e' & He' & Hu').
    change (fs_table (place_event (warn_no_acct st ev) i ev now)) with (fs_table (noted st i ev now)) in He'.
    rewrite Hlook in He'. by injection He' as ->. }
  pose proof (destroy_slot_spec (noted st i ev now) i r q clk Hw1 Hq Hlook Hu) as Hs. cbv zeta in Hs.
  destruct (destroy_slot _ _ _ _ _) as [st2 q2].
  destruct Hs as (_ & -> & Htab & Hused & Hdes & Hev2 & _).
  split; [done|]. split; [by rewrite Htab, Hrow, list_insert_insert_eq|].
  split; [rewrite Hused, (fwf_used _ Hw1), Hrow, (count_used_insert _ _ _ _ He), Hu; simpl; lia|].
  split; [by rewrite Hev2|]. split; [|by rewrite Hdes, Hde].
  destruct (_ <? _); [by apply sink_push_pending|done].
Qed.
End events.

(** ** Readings *)

(** What a merge does to the counters and the rates. *)
Lemma merge_slot_counters slot ev now :
  let tmp := entry_from_event ev now in
  let s := merge_slot slot tmp (nev_has_counters ev) now in
  if truthy (nev_has_counters ev) then
    fe_bytes_up s = nev_orig_bytes ev /\ fe_bytes_down s = nev_reply_bytes ev /\
    fe_bytes_up_delta s = counter_delta (fe_bytes_up slot) (nev_orig_bytes ev) /\
    fe_bytes_down_delta s = counter_delta (fe_bytes_down slot) (nev_reply_bytes ev) /\
    (if (fe_last_seen_ms slot <? now)%Z
     then fe_rate_up_bps s = rate_bps (fe_bytes_up_delta s) (now - fe_last_seen_ms slot) /\
          fe_rate_down_bps s = rate_bps (fe_bytes_down_delta s) (now - fe_last_seen_ms slot)
     else fe_rate_up_bps s = fe_rate_up_bps slot /\ fe_rate_down_bps s = fe_rate_down_bps slot)
  else
    fe_bytes_up s = fe_bytes_up slot /\ fe_bytes_down s = fe_bytes_down slot /\
    fe_bytes_up_delta s = fe_bytes_up_delta slot /\ fe_bytes_down_delta s = fe_bytes_down_delta slot /\
    fe_rate_up_bps s = fe_rate_up_bps slot /\ fe_rate_down_bps s = fe_rate_down_bps slot.
Proof.
  cbv zeta. destruct (entry_from_event_fields ev now) as (_ & _ & _ & _ & _ & _ & _ & Fu & Fd & _).
  set (tmp := entry_from_event ev now) in *. unfold merge_slot, update_rates. cbv zeta.
  destruct (truthy (nev_has_counters ev)).
  - rewrite <- Fu, <- Fd. destruct (Z.ltb_spec (fe_last_seen_ms slot) now) as [Hlt|Hge].
    + rewrite (proj2 (Z.ltb_lt 0 (now - fe_last_seen_ms slot)) ltac:(lia)).
      destruct (nonempty (fe_lan_ip tmp)), (truthy (fe_has_ct_id tmp)), (truthy (fe_first_seen_ms slot));
        match goal with |- context [nonempty (fe_flow_id ?x)] => by destruct (nonempty (fe_flow_id x)) end.
    + change (0 <? 0)%Z with false. cbv iota.
      destruct (nonempty (fe_lan_ip tmp)), (truthy (fe_has_ct_id tmp)), (truthy (fe_first_seen_ms slot));
        match goal with |- context [nonempty (fe_flow_id ?x)] => by destruct (nonempty (fe_flow_id x)) end.
  - destruct (nonempty (fe_lan_ip tmp)), (truthy (fe_has_ct_id tmp)), (truthy (fe_first_seen_ms slot));
      match goal with |- context [nonempty (fe_flow_id ?x)] => by destruct (nonempty (fe_flow_id x)) end.
Qed.

(** The events of one flow, as its row sees them. *)
Definition follow (slot : cpe_flow_entry) (evs : list (nfct_event * Z)) : cpe_flow_entry :=
  foldl (fun s '(ev, now) => merge_slot s (entry_from_event ev now) (nev_has_counters ev) now) slot evs.
Fixpoint up_deltas (slot : cpe_flow_entry) (evs : list (nfct_event * Z)) : list Z :=
  match evs with
  | [] => []
  | (ev, now) :: evs' =>
      let s := merge_slot slot (entry_from_event ev now) (nev_has_counters ev) now in
      (if truthy (nev_has_counters ev) then fe_bytes_up_delta s else 0%Z) :: up_deltas s evs'
  end.
(** Readings that never go backwards. *)
Fixpoint growing (prev : Z) (evs : list (nfct_event * Z)) : Prop :=
  match evs with
  | [] => True
  | (ev, _) :: evs' =>
      if truthy (nev_has_counters ev)
      then (prev <= nev_orig_bytes ev)%Z /\ growing (nev_orig_bytes ev) evs' else growing prev evs'
  end.

(** Over any sequence of events of one flow whose byte counter never goes
    backwards, the up deltas the samples report add up to exactly the growth of the
    flow's byte counter: nothing is counted twice or lost between readings, events
    without counters included. *)
Theorem flow_deltas_telescope slot evs :
  growing (fe_bytes_up slot) evs ->
  zsum id (up_deltas slot evs) = (fe_bytes_up (follow slot evs) - fe_bytes_up slot)%Z.
Proof.
  revert slot. induction evs as [|[ev now] evs IH]; intros slot Hg; cbn [up_deltas follow foldl].
  { simpl. lia. }
  rewrite zsum_cons. cbn [growing] in Hg.
  pose proof (merge_slot_counters slot ev now) as Hm. cbv zeta in Hm.
  set (s := merge_slot slot _ _ now) in *.
  change (foldl _ s evs) with (follow s evs).
  destruct (truthy (nev_has_counters ev)).
  - destruct Hm as (Hu & _ & Hd & _). destruct Hg as [Hle Hg]. rewrite <- Hu in Hg.
    rewrite (IH s Hg), Hd, Hu. unfold counter_delta. rewrite (proj2 (Z.leb_le _ _) Hle). simpl. lia.
  - destruct Hm as (Hu & _). rewrite <- Hu in Hg. rewrite (IH s Hg), Hu. simpl. lia.
Qed.

Section oddities.
Context {Q : Type} `{LineSinkLaws Q}.
Context (cfg : cpe_agent_config).

(** Eviction mixes two flows: when the table is full of other flows, the row
    seen longest ago is overwritten in place, so the new flow is listed under the
    evicted flow's identifier and first-seen time, and its first delta is computed
    against the evicted flow's byte counter. *)
Theorem flow_eviction_keeps_identity st ev (q : Q) now clk i e :
  flow_wf st -> time_ok now -> accepted ev = true -> is_destroy_event ev = false ->
  find_slot st (entry_from_event ev now) = Some i -> fs_table st !! i = Some e ->
  in_use e = true -> same_flow (entry_from_event ev now) e = false ->
  nonempty (fe_flow_id e) = true -> fe_first_seen_ms e <> 0%Z -> truthy (nev_has_counters ev) = true ->
  let '(_, st', _) := apply_event cfg st ev q now clk in
  exists r, fs_table st' !! i = Some r /\
    fe_flow_id r = fe_flow_id e /\ fe_first_seen_ms r = fe_first_seen_ms e /\
    fe_bytes_up r = nev_orig_bytes ev /\
    fe_bytes_up_delta r = counter_delta (fe_bytes_up e) (nev_orig_bytes ev).
Proof.
  intros Hwf Hnow Ha Hd Hf He Hu Hs Hid Hfs Hc.
  rewrite (apply_event_some cfg _ _ _ _ clk _ Ha Hf), Hd. cbv zeta. cbn [andb].
  pose proof (noted_row st i e ev now He) as Hrow. rewrite Hu in Hrow.
  pose proof (merge_slot_counters e ev now) as Hm. cbv zeta in Hm. rewrite Hc in Hm.
  destruct Hm as (Hm1 & _ & Hm2 & _).
  destruct (merge_slot_fields e (entry_from_event ev now) (nev_has_counters ev) now)
    as (_ & _ & _ & Hf1 & Hf2).
  assert (Hgoal : exists r, fs_table (noted st i ev now) !! i = Some r /\
    fe_flow_id r = fe_flow_id e /\ fe_first_seen_ms r = fe_first_seen_ms e /\
    fe_bytes_up r = nev_orig_bytes ev /\
    fe_bytes_up_delta r = counter_delta (fe_bytes_up e) (nev_orig_bytes ev)).
  { eexists. split; [rewrite Hrow; apply list_lookup_insert_eq; by eapply lookup_lt_Some|].
    split; [by apply Hf2|]. split; [|done]. rewrite Hf1. by apply truthy_spec in Hfs as ->. }
  destruct (bool_decide _ && _); [|done].
  by destruct (cpe_flow_format_ndjson _ _ _ _ _).
Qed.

(** The DESTROY line pushed for [row]. *)
Definition destroy_line (clk : clock) (row : cpe_flow_entry) : string :=
  flow_text (FlowClock.iso_now clk EmptyString 40) (router_id cfg) "destroy" row.

Lemma copied_tuple slot tmp hc now :
  nonempty (fe_lan_ip tmp) = true ->
  let s := merge_slot slot tmp hc now in
  fe_lan_ip s = fe_lan_ip tmp /\ fe_lan_port s = fe_lan_port tmp /\
  fe_remote_ip s = fe_remote_ip tmp /\ fe_remote_port s = fe_remote_port tmp.
Proof.
  intros Hne. cbv zeta. unfold merge_slot, update_rates. cbv zeta. rewrite Hne.
  destruct (truthy hc); [destruct (0 <? _)%Z|]; destruct (truthy (fe_has_ct_id tmp));
    destruct (truthy (fe_first_seen_ms slot));
    match goal with |- context [nonempty (fe_flow_id ?x)] => by destruct (nonempty (fe_flow_id x)) end.
Qed.

(** A DESTROY that carries only the conntrack identifier finds its flow, but
    overwrites the flow's addresses before the line is written: the "address present"
    guard is true for the text of the zero address, so the emitted line reports
    0.0.0.0 and port 0 for both ends. *)
Theorem flow_destroy_by_id_blanks st ev (q : Q) now clk i e :
  flow_wf st -> nfct_event_ok ev -> time_ok now -> sink_wf q ->
  ev = nfct_event_zero <| nev_type := NFCT_EVENT_DESTROY |> <| nev_is_destroy := 1%Z |>
         <| nev_has_id := 1%Z |> <| nev_id := nev_id ev |> ->
  truthy (fs_emit_destroy st) = true -> find_slot st (entry_from_event ev now) = Some i ->
  fs_table st !! i = Some e -> in_use e = true ->
  let '(_, _, q') := apply_event cfg st ev q now clk in
  exists row, fe_lan_ip row = "0.0.0.0"%string /\ fe_lan_port row = 0%Z /\
    fe_remote_ip row = "0.0.0.0"%string /\ fe_remote_port row = 0%Z /\
    (strlen (destroy_line clk row) < CPE_NDJSON_LINE_MAX ->
     sink_pending q' = lastn (sink_cap q) (sink_pending q ++ [stored (destroy_line clk row)])).
Proof.
  intros Hwf Hev Hnow Hq Heq Hem Hf He Hu.
  assert (Ha : accepted ev = true) by by rewrite Heq.
  assert (Hd : is_destroy_event ev = true) by by rewrite Heq.
  rewrite (apply_event_some cfg _ _ _ _ clk _ Ha Hf). cbv zeta.
  destruct (noted_frame st i ev now) as (Hem' & _). rewrite Hem', Hd, Hem. cbn [andb].
  pose proof (noted_wf st i e ev now Hwf Hev Hnow He) as Hw1.
  pose proof (noted_row st i e ev now He) as Hrow. rewrite Hu in Hrow.
  set (r := merge_slot e (entry_from_event ev now) _ now) in *.
  assert (Hlook : fs_table (noted st i ev now) !! i = Some r)
    by (rewrite Hrow; apply list_lookup_insert_eq; by eapply lookup_lt_Some).
  assert (Hur : in_use r = true).
  { destruct (merge_slot_fields e (entry_from_event ev now) (nev_has_counters ev) now) as (Gu & _).
    unfold in_use. subst r. by rewrite Gu. }
  assert (Hz : fe_lan_ip (entry_from_event ev now) = "0.0.0.0"%string /\
    fe_lan_port (entry_from_event ev now) = 0%Z /\
    fe_remote_ip (entry_from_event ev now) = "0.0.0.0"%string /\
    fe_remote_port (entry_from_event ev now) = 0%Z) by by rewrite Heq.
  destruct Hz as (Z1 & Z2 & Z3 & Z4).
  destruct (copied_tuple e (entry_from_event ev now) (nev_has_counters ev) now) as (C1 & C2 & C3 & C4);
    [by rewrite Z1|].
  pose proof (destroy_slot_spec cfg (noted st i ev now) i r q clk Hw1 Hq Hlook Hur) as Hs. cbv zeta in Hs.
  destruct (destroy_slot _ _ _ _ _) as [st2 q2]. destruct Hs as (_ & -> & _).
  exists (destroyed_row r). fold r in C1, C2, C3, C4. rewrite Z1 in C1. rewrite Z2 in C2.
  rewrite Z3 in C3. rewrite Z4 in C4. repeat (split; [done|]). intros Hfit.
  unfold destroy_line in *. rewrite (proj2 (Nat.ltb_lt _ _) Hfit). by apply sink_push_pending.
Qed.
End oddities.

(** ** Concrete runs *)
Definition ev_new : nfct_event :=
  nfct_event_zero <| nev_type := NFCT_EVENT_NEW |> <| nev_has_lan := 1%Z |> <| nev_has_id := 1%Z |>
    <| nev_id := 77%Z |> <| nev_protocol := 6%Z |> <| nev_has_counters := 1%Z |>
    <| nev_lan_src_ip := 3232235786%Z |> <| nev_lan_dst_ip := 134744072%Z |>
    <| nev_lan_src_port := 40000%Z |> <| nev_lan_dst_port := 443%Z |> <| nev_orig_bytes := 1000%Z |>.
Definition ev_update : nfct_event :=
  ev_new <| nev_type := NFCT_EVENT_UPDATE |> <| nev_orig_bytes := 5000%Z |>.
Definition ev_other : nfct_event :=
  ev_update <| nev_id := 78%Z |> <| nev_lan_src_port := 50000%Z |> <| nev_orig_bytes := 300%Z |>.
Definition ev_destroy_id : nfct_event :=
  nfct_event_zero <| nev_type := NFCT_EVENT_DESTROY |> <| nev_is_destroy := 1%Z |>
    <| nev_has_id := 1%Z |> <| nev_id := 77%Z |>.
Definition row_new : cpe_flow_entry := entry_from_event ev_new 1000.
(** The table after [ev_new], and the same limited to one row. *)
Definition one_flow : cpe_flow_state := place_event cpe_flow_state_init 0 ev_new 1000.
Definition one_row : cpe_flow_state := one_flow <| fs_max_flows := 1%Z |>.
Lemma time_ok_1000 : time_ok 1000.
Proof. unfold time_ok, UINT64_MAX. lia. Qed.
Lemma time_ok_3000 : time_ok 3000.
Proof. unfold time_ok, UINT64_MAX. lia. Qed.
Definition flow_clk : clock := {| clk_realtime := Some (0, 0)%Z; clk_monotonic := Some (5, 0)%Z |}.
Definition flow_cfg : cpe_agent_config := cpe_agent_config_defaults.

Lemma ev_new_ok : nfct_event_ok ev_new.
Proof. pose proof zero16_ok. constructor; first [done|cbn; word_lia]. Qed.
Lemma one_flow_wf : flow_wf one_flow.
Proof.
  apply (place_event_wf _ _ flow_entry_zero); [apply cpe_flow_state_init_wf|apply ev_new_ok|done|done].
Qed.
Lemma one_row_wf : flow_wf one_row.
Proof. destruct one_flow_wf. by constructor. Qed.

Lemma flow_event_keeps_table_witness :
  let '(rc, st', q') := apply_event flow_cfg cpe_flow_state_init ev_new spool4_ab 1000 flow_clk in
  flow_wf st' /\ sink_wf q' /\ sink_cap q' = sink_cap spool4_ab /\
  fs_max_flows st' = fs_max_flows cpe_flow_state_init /\ (rc = (-1)%Z -> flow_limit cpe_flow_state_init = 0).
Proof.
  exact (flow_event_keeps_table flow_cfg cpe_flow_state_init ev_new spool4_ab 1000 flow_clk
    cpe_flow_state_init_wf ev_new_ok time_ok_1000 spool4_ab_wf).
Defined.

Lemma one_flow_slot : find_slot one_flow (entry_from_event ev_update 3000) = Some 0.
Proof. vm_compute. reflexivity. Qed.
Lemma one_row_slot : find_slot one_row (entry_from_event ev_other 3000) = Some 0.
Proof. vm_compute. reflexivity. Qed.
Lemma one_flow_slot_id : find_slot one_flow (entry_from_event ev_destroy_id 3000) = Some 0.
Proof. vm_compute. reflexivity. Qed.
Lemma one_flow_row : fs_table one_flow !! 0 = Some row_new.
Proof. reflexivity. Qed.

Lemma flow_event_places_witness :
  let '(rc, st', q') := apply_event flow_cfg one_flow ev_update spool4_ab 3000 flow_clk in
  rc = 0%Z /\ fs_events_in st' = u64 (fs_events_in one_flow + 1) /\
  fs_destroys_emitted st' = fs_destroys_emitted one_flow /\
  slot_choice (entry_from_event ev_update 3000) (take (flow_limit one_flow) (fs_table one_flow)) (Some 0) /\
  exists e, fs_table one_flow !! 0 = Some e /\
    fs_table st' = <[0 := if in_use e then merge_slot e (entry_from_event ev_update 3000) (nev_has_counters ev_update) 3000
                          else entry_from_event ev_update 3000]> (fs_table one_flow).
Proof.
  exact (flow_event_places flow_cfg one_flow ev_update spool4_ab 3000 flow_clk 0 one_flow_wf
    time_ok_3000 eq_refl eq_refl one_flow_slot).
Defined.

Lemma ev_destroy_id_ok : nfct_event_ok ev_destroy_id.
Proof. pose proof zero16_ok. constructor; first [done|cbn; word_lia]. Qed.

Lemma flow_destroy_releases_witness :
  fs_table_used (snd (fst (apply_event flow_cfg one_flow ev_destroy_id spool4_ab 3000 flow_clk))) = 0%Z.
Proof.
  pose proof (flow_destroy_releases flow_cfg one_flow ev_destroy_id spool4_ab 3000 flow_clk 0 row_new
    one_flow_wf ev_destroy_id_ok time_ok_3000 spool4_ab_wf
    eq_refl eq_refl eq_refl one_flow_slot_id one_flow_row) as H. cbv zeta in H.
  destruct (apply_event _ _ _ _ _ _) as [[rc st'] q'].
  destruct H as (_ & _ & Hu & _). refine (eq_trans Hu _). vm_compute. reflexivity.
Defined.

Lemma flow_deltas_telescope_witness :
  zsum id (up_deltas row_new [(ev_update, 3000%Z); (ev_destroy_id, 3500%Z)]) = 4000%Z.
Proof.
  refine (eq_trans (flow_deltas_telescope row_new [(ev_update, 3000%Z); (ev_destroy_id, 3500%Z)] _) _).
  - vm_compute. split; [discriminate|exact I].
  - vm_compute. reflexivity.
Defined.

Lemma flow_eviction_keeps_identity_witness :
  let '(_, st', _) := apply_event flow_cfg one_row ev_other spool4_ab 3000 flow_clk in
  exists r, fs_table st' !! 0 = Some r /\ fe_flow_id r = fe_flow_id row_new /\
    fe_first_seen_ms r = fe_first_seen_ms row_new /\ fe_bytes_up r = nev_orig_bytes ev_other /\
    fe_bytes_up_delta r = counter_delta (fe_bytes_up row_new) (nev_orig_bytes ev_other).
Proof.
  refine (flow_eviction_keeps_identity flow_cfg one_row ev_other spool4_ab 3000 flow_clk 0 row_new
    one_row_wf time_ok_3000 eq_refl eq_refl one_row_slot one_flow_row _ _ _ _ _);
    vm_compute; reflexivity || discriminate.
Defined.

Lemma flow_destroy_by_id_blanks_witness :
  let '(_, _, q') := apply_event flow_cfg one_flow ev_destroy_id spool4_ab 3000 flow_clk in
  exists row, fe_lan_ip row = "0.0.0.0"%string /\ fe_lan_port row = 0%Z /\
    fe_remote_ip row = "0.0.0.0"%string /\ fe_remote_port row = 0%Z /\
    (strlen (destroy_line flow_cfg flow_clk row) < CPE_NDJSON_LINE_MAX ->
     sink_pending q' = lastn (sink_cap spool4_ab)
       (sink_pending spool4_ab ++ [stored (destroy_line flow_cfg flow_clk row)])).
Proof.
  exact (flow_destroy_by_id_blanks flow_cfg one_flow ev_destroy_id spool4_ab 3000 flow_clk 0 row_new
    one_flow_wf ev_destroy_id_ok time_ok_3000 spool4_ab_wf
    eq_refl eq_refl one_flow_slot_id one_flow_row eq_refl).
Defined.
