(* ===== verification/FlowAcct.v ===== *)
(** * Flow accounting: sockets, dumps and samples (src/agent/flow_acct.c)

    Splitting a netlink datagram into messages and feeding them to the library, draining
    a socket, opening and closing, the periodic dump, the emission of the busiest flows,
    and the tick that ties them together.  The library's context is any [NfctLib]; the
    answers of [poll] and [recv] are scripts ([fd_io]) that end in an idle kernel. *)

From S2P Require Import Prelude CStr Float754 Inet Clock Config Spool Events Nflog Nfct FlowEntry FlowTable.

(** The library's context: creation may fail; feeding returns a status. *)
Class NfctLib (C : Type) := {
  nfct_create : option C;
  nfct_feed_input : C -> list Z -> Z * C;
}.

(** [size_t] of [w] bits. *)
Definition size_w (w z : Z) : Z := (z mod 2 ^ w)%Z.

(** [n] bytes from [off], for a callee that reads them all. *)
Definition slice (buf : list Z) (off n : Z) : chk (list Z) :=
  if (off + n <=? Z.of_nat (length buf))%Z
  then Safe (take (Z.to_nat n) (drop (Z.to_nat off) buf)) else Oob.

(** What a descriptor delivers while it is drained: the results of the successive
    [poll] and [recv] calls (0 and EAGAIN once used up) and the clock. *)
Record fd_io := {
  io_polls : list Z;
  io_recvs : list recv_result;
  io_clk : clock;
}.

Section flow.
Context {Q : Type} `{!LineSink Q} {C : Type} `{!EventSource C nfct_event} `{!NfctLib C}.
Context (w : Z) (cfg : cpe_agent_config).

(** ** Feeding *)
Definition apply_one (now_ms : Z) (clk : clock) (acc : Z * cpe_flow_state * Q) (ev : nfct_event)
    : Z * cpe_flow_state * Q :=
  let '(applied, st, q) := acc in
  let '(rc, st, q) := apply_event cfg st ev q now_ms clk in
  (if (0 <=? rc)%Z then (applied + 1)%Z else applied, st, q).

(** One message: fed, then every event it produced applied. *)
Definition feed_message (now_ms : Z) (clk : clock) (ctx : C) (msg : list Z)
    (acc : Z * cpe_flow_state * Q) : C * (Z * cpe_flow_state * Q) :=
  let '(_, ctx) := nfct_feed_input ctx msg in
  let '(evs, ctx) := pull_all (E := nfct_event) ctx in
  (ctx, foldl (apply_one now_ms clk) acc evs).

(** Each round advances by at least sixteen bytes, so the length plus one is fuel enough;
    running out of it is an error ([feed_loop_safe64] excludes it). *)
Fixpoint feed_loop (fuel : nat) (now_ms : Z) (clk : clock) (buf : list Z) (off : Z) (ctx : C)
    (acc : Z * cpe_flow_state * Q) : chk (C * (Z * cpe_flow_state * Q)) :=
  match fuel with
  | O => Oob
  | S fuel' =>
      let len := Z.of_nat (length buf) in
      if negb (size_w w (off + 16) <=? len)%Z then mret (ctx, acc)
      else
        nl_len ← rd32 buf (Z.to_nat off);
        if (nl_len <? 16)%Z || (len <? size_w w (off + nl_len))%Z then mret (ctx, acc)
        else
          msg ← slice buf off nl_len;
          let '(ctx, acc) := feed_message now_ms clk ctx msg acc in
          let aligned := Z.land (u32 (nl_len + 3)) 4294967292 in
          if (aligned =? 0)%Z then mret (ctx, acc)
          else feed_loop fuel' now_ms clk buf (size_w w (off + aligned)) ctx acc
  end.

Definition feed_and_apply (st : cpe_flow_state) (ctx : C) (buf : list Z) (q : Q) (now_ms : Z) (clk : clock)
    : chk (C * (Z * cpe_flow_state * Q)) :=
  if length buf <? 16 then mret (ctx, (0%Z, st, q))
  else feed_loop (S (length buf)) now_ms clk buf 0 ctx (0%Z, st, q).

(** ** Draining a descriptor *)
Definition io_poll (io : fd_io) : Z * fd_io :=
  (match io_polls io with p :: _ => p | [] => 0%Z end,
   {| io_polls := tail (io_polls io); io_recvs := io_recvs io; io_clk := io_clk io |}).
Definition io_recv (io : fd_io) : recv_result * fd_io :=
  (match io_recvs io with r :: _ => r | [] => RecvAgain end,
   {| io_polls := io_polls io; io_recvs := tail (io_recvs io); io_clk := io_clk io |}).

(** Every round that is not the last uses up an answer, so the fuel is the number of
    answers plus one; running out of it is an error ([drain_loop_inv] excludes it). *)
Fixpoint drain_loop (fuel : nat) (fd : Z) (left : nat) (wait_ms : Z) (saw_data : bool) (io : fd_io)
    (now : Z) (ctx : C) (acc : Z * cpe_flow_state * Q) : chk (Z * cpe_flow_state * Q) :=
  match fuel, left with
  | O, _ => Oob
  | S _, O => mret acc
  | S fuel', S left' =>
      let '(ready, io) := if saw_data && (0 <? wait_ms)%Z then io_poll io else (1%Z, io) in
      if (ready <=? 0)%Z then mret acc
      else
        let '(r, io) := io_recv io in
        let '(rd, buf) := nfct_netlink_recv fd r (Z.to_nat 16384) in
        if (rd =? 0)%Z then
          if negb saw_data && (0 <? wait_ms)%Z then
            let '(ready, io) := io_poll io in
            if (ready <=? 0)%Z then mret acc
            else drain_loop fuel' fd left wait_ms saw_data io now ctx acc
          else mret acc
        else if (rd <? 0)%Z then mret acc
        else
          let '(applied, st, q) := acc in
          f ← feed_and_apply st ctx buf q now (io_clk io);
          let '(ctx, (more, st, q)) := f in
          drain_loop fuel' fd left' wait_ms true io now ctx ((applied + more)%Z, st, q)
  end.

Definition drain_fd (st : cpe_flow_state) (q : Q) (fd : Z) (max_msgs : nat) (wait_ms : Z) (io : fd_io)
    : chk (Z * cpe_flow_state * Q) :=
  let now := mono_ms (io_clk io) in
  if (fd <? 0)%Z then mret (0%Z, st, q)
  else match nfct_create with
  | None => mret ((-1)%Z, st, q)
  | Some ctx =>
      let '(ready, io) := if (0 <? wait_ms)%Z then io_poll io else (1%Z, io) in
      if (ready <=? 0)%Z then mret (0%Z, st, q)
      else drain_loop (S (length (io_polls io) + length (io_recvs io))) fd max_msgs wait_ms false io now ctx
             (0%Z, st, q)
  end.

(** ** Life cycle *)
Record flow_env := {
  fl_nfct : nfct_env;        (* the event socket *)
  fl_nfct_dump : nfct_env;   (* the dump socket *)
  fl_events : fd_io;
  fl_replies : fd_io;
  fl_clk : clock;
}.

Definition cpe_agent_flow_open (env : flow_env) (st : cpe_flow_state) : Z * cpe_flow_state :=
  if (0 <=? fs_fd st)%Z then (0%Z, st)
  else
    let r := nfct_netlink_open (fl_nfct env) (fs_join_update st) (Some (96, EmptyString)) in
    let st := st <| fs_fd := co_fd r |> in
    if (fs_fd st <? 0)%Z then
      ((-1)%Z, st <| fs_open_ok := 0%Z |>
                  <| fs_open_err := snprintf_s 96 (str_dflt (err_text (co_err r)) "nfct open failed") |>)
    else
      let d := nfct_netlink_open_dump (fl_nfct_dump env) (co_err r) in
      (0%Z, st <| fs_dump_fd := co_fd d |> <| fs_open_ok := 1%Z |> <| fs_open_err := EmptyString |>
               <| fs_enabled := 1%Z |>).

Definition cpe_agent_flow_close (st : cpe_flow_state) : cpe_flow_state :=
  st <| fs_fd := (-1)%Z |> <| fs_dump_fd := (-1)%Z |> <| fs_enabled := 0%Z |>.

Definition cpe_agent_flow_poll (env : flow_env) (st : cpe_flow_state) (q : Q) (max_msgs : nat)
    : chk (Z * cpe_flow_state * Q) :=
  if negb (truthy (fs_enabled st)) then mret (0%Z, st, q)
  else
    let '(rc, st) := if (fs_fd st <? 0)%Z then cpe_agent_flow_open env st else (0%Z, st) in
    if negb (rc =? 0)%Z then mret (0%Z, st, q)
    else drain_fd st q (fs_fd st) (if max_msgs =? 0 then 64 else max_msgs) 0 (fl_events env).

(** ** The periodic dump *)
Definition dump_due (st : cpe_flow_state) (now : Z) : bool :=
  (0 <=? fs_dump_fd st)%Z && negb (fs_dump_interval_ms st =? 0)%Z &&
  negb (negb (fs_last_dump_ms st =? 0)%Z && (u64 (now - fs_last_dump_ms st) <? fs_dump_interval_ms st)%Z).

Definition maybe_dump (env : flow_env) (st : cpe_flow_state) (q : Q) (now : Z)
    : chk (Z * cpe_flow_state * Q) :=
  if negb (dump_due st now) then mret (0%Z, st, q)
  else if negb (fst (nfct_netlink_dump_request (fl_nfct_dump env) (fs_dump_fd st)) =? 0)%Z
  then mret (0%Z, st, q)
  else
    let st := st <| fs_last_dump_ms := now |> <| fs_dumps := u64 (fs_dumps st + 1) |> in
    drain_fd st q (fs_dump_fd st) 512 400 (fl_replies env).

(** ** Samples *)

(** The combined rate of a row. *)
Definition row_rate (e : cpe_flow_entry) : double := d_add (fe_rate_up_bps e) (fe_rate_down_bps e).

(** Position and rate of the first strictly greatest rate: [best] and [best_r] so far,
    [j] the position of the head of [rest]. *)
Fixpoint best_scan (rate : nat -> double) (rest : list nat) (j best : nat) (best_r : double) : nat :=
  match rest with
  | [] => best
  | x :: rest' =>
      if d_ltb best_r (rate x) then best_scan rate rest' (S j) j (rate x)
      else best_scan rate rest' (S j) best best_r
  end.
(** The selection sort of the first [n] positions: the part from position [i] on, which
    is all a round reads or swaps. *)
Fixpoint select_sort (rate : nat -> double) (n : nat) (indices : list nat) : list nat :=
  match n, indices with
  | S n', x :: rest =>
      match best_scan rate rest 1 0 (rate x) with
      | O => x :: select_sort rate n' rest
      | S b => (rest !!! b) :: select_sort rate n' (<[b := x]> rest)
      end
  | _, _ => indices
  end.

Definition alive_rows (st : cpe_flow_state) : list nat :=
  filter (fun i => truthy (fe_used (fs_table st !!! i)) && truthy (fe_alive (fs_table st !!! i)) = true)
    (seq 0 (flow_limit st)).

Definition idle_row (e : cpe_flow_entry) : bool :=
  d_ltb (row_rate e) (d_of_Z 1) && (u64 (fe_bytes_up_delta e + fe_bytes_down_delta e) =? 0)%Z.

Definition emit_sample (clk : clock) (acc : Z * cpe_flow_state * Q) (i : nat) : Z * cpe_flow_state * Q :=
  let '(emitted, st, q) := acc in
  let e := fs_table st !!! i in
  if idle_row e then acc
  else
    let '(n, line) := cpe_flow_format_ndjson (router_id cfg) "sample" e CPE_NDJSON_LINE_MAX clk in
    if (0 <? n)%Z then
      let '(rc, q) := sink_push q line in
      if (rc =? 0)%Z
      then ((emitted + 1)%Z, st <| fs_samples_emitted := u64 (fs_samples_emitted st + 1) |>, q)
      else (emitted, st, q)
    else acc.

Definition sample_due (st : cpe_flow_state) (now : Z) : bool :=
  negb (fs_sample_emit_ms st =? 0)%Z &&
  negb (negb (fs_last_sample_ms st =? 0)%Z && (u64 (now - fs_last_sample_ms st) <? fs_sample_emit_ms st)%Z).

Definition emit_top_samples (st : cpe_flow_state) (q : Q) (now : Z) (clk : clock) : Z * cpe_flow_state * Q :=
  let top_n := Z.to_nat (dflt (fs_sample_top_n st) 32) in
  if negb (sample_due st now) then (0%Z, st, q)
  else
    let st := st <| fs_last_sample_ms := now |> in
    let rate i := row_rate (fs_table st !!! i) in
    foldl (emit_sample clk) (0%Z, st, q) (take top_n (select_sort rate top_n (alive_rows st))).

(** ** The tick *)
Definition cpe_agent_flow_tick (env : flow_env) (st : cpe_flow_state) (q : Q) : chk (Z * cpe_flow_state * Q) :=
  let '(go, st) :=
    if truthy (fs_enabled st) then (true, st)
    else if truthy (flow_acct_enabled cfg) then
      let '(rc, st) := cpe_agent_flow_open env st in ((rc =? 0)%Z, st)
    else (false, st) in
  if negb go then mret (0%Z, st, q)
  else
    let now := mono_ms (fl_clk env) in
    let st := st <| fs_last_tick_ms := now |> in
    p ← cpe_agent_flow_poll env st q 128;
    let '(n1, st, q) := p in
    d ← maybe_dump env st q now;
    let '(n2, st, q) := d in
    let '(n3, st, q) := emit_top_samples st q now (fl_clk env) in
    mret ((n1 + n2 + n3)%Z, st, q).

Definition cpe_agent_flow_feed_event (st : cpe_flow_state) (ev : nfct_event) (q : Q) (clk : clock)
    : Z * cpe_flow_state * Q := apply_event cfg st ev q (mono_ms clk) clk.
End flow.

(** ** Queries *)
Record cpe_flow_snapshot := {
  fsn_events_in : Z;
  fsn_destroys_emitted : Z;
  fsn_samples_emitted : Z;
  fsn_dumps : Z;
  fsn_open_ok : Z;
  fsn_open_err : string;
  fsn_ts_iso : string;
  fsn_flows : list cpe_flow_entry;   (* [flow_count] is its length *)
}.
Definition fsn_flow_count (s : cpe_flow_snapshot) : nat := length (fsn_flows s).

Definition cpe_agent_flow_snapshot (st : cpe_flow_state) (clk : clock) : cpe_flow_snapshot := {|
  fsn_events_in := fs_events_in st; fsn_destroys_emitted := fs_destroys_emitted st;
  fsn_samples_emitted := fs_samples_emitted st; fsn_dumps := fs_dumps st; fsn_open_ok := fs_open_ok st;
  fsn_open_err := snprintf_s 96 (fs_open_err st); fsn_ts_iso := FlowClock.iso_now clk EmptyString 40;
  fsn_flows := filter (fun e => truthy (fe_used e) = true) (take (flow_limit st) (fs_table st)) |}.

Definition cpe_agent_flow_last_error (st : cpe_flow_state) : option string :=
  if nonempty (fs_open_err st) then Some (fs_open_err st) else None.

(** ** Splitting datagrams *)

(** A netlink message with [payload] after its length word (type, flags, sequence and
    port first), and a datagram of such messages, each padded to four bytes. *)
Definition frame (payload : list Z) : list Z :=
  le_bytes32 (Z.of_nat (4 + length payload)) ++ payload.
Definition frames (l : list (list Z)) : list Z := mjoin ((fun p => padded (frame p)) <$> l).
Definition frame_ok (payload : list Z) : Prop := 12 <= length payload.

Lemma align_u32 n : (0 <= n < 4294967293)%Z -> Z.land (u32 (n + 3)) 4294967292 = align4 n.
Proof.
  intros Hn. unfold align4. rewrite u32_id by word_lia.
  transitivity (Z.land (Z.land (n + 3) (Z.ones 32)) (Z.lnot 3)).
  - by rewrite <- Z.land_assoc.
  - f_equal. rewrite Z.land_ones by lia. apply Z.mod_small. lia.
Qed.

Lemma length_frame p : length (frame p) = 4 + length p.
Proof. done. Qed.
Lemma length_padded_frame p : Z.of_nat (length (padded (frame p))) = align4 (Z.of_nat (4 + length p)).
Proof. by rewrite length_padded, length_frame. Qed.
Lemma size_small w z : (32 <= w)%Z -> (0 <= z < 4294967296)%Z -> size_w w z = z.
Proof.
  intros Hw Hz. unfold size_w. apply Z.mod_small. split; [lia|].
  apply Z.lt_le_trans with (2 ^ 32)%Z; [exact (proj2 Hz)|]. apply Z.pow_le_mono_r; lia.
Qed.

Section feed_spec.
Context {Q : Type} `{!LineSink Q} {C : Type} `{!EventSource C nfct_event} `{!NfctLib C}.
Context (cfg : cpe_agent_config) (now : Z) (clk : clock).

Abbreviation feed_all :=
  (foldl (fun '(ctx, acc) m => feed_message cfg now clk ctx m acc)).

Lemma feed_frames w l pre fuel (ctx : C) (acc : Z * cpe_flow_state * Q) :
  (32 <= w)%Z -> Forall frame_ok l ->
  (Z.of_nat (length (pre ++ frames l)) < 2147483648)%Z -> length l < fuel ->
  feed_loop w cfg fuel now clk (pre ++ frames l) (Z.of_nat (length pre)) ctx acc =
    Safe (feed_all (ctx, acc) (frame <$> l)).
Proof.
  intros Hw Hok. revert pre fuel ctx acc. induction Hok as [|p l Hp Hok IH];
    intros pre [|fuel] ctx acc Hlen Hf; try (simpl in Hf; lia); cbn [feed_loop].
  { change (frames []) with (@nil Z) in *. rewrite app_nil_r in *.
    rewrite size_small by lia. by rewrite (proj2 (Z.leb_gt _ _)) by lia. }
  unfold frame_ok in Hp. set (n := Z.of_nat (4 + length p)).
  assert (Hcons : pre ++ frames (p :: l) = (pre ++ padded (frame p)) ++ frames l)
    by (unfold frames; cbn [fmap list_fmap]; by rewrite <- app_assoc).
  assert (Hpf : padded (frame p) = le_bytes32 n ++ p ++ pad4 (length (frame p)))
    by (unfold padded, frame at 1; by rewrite <- app_assoc).
  pose proof (length_padded_frame p) as Hal. fold n in Hal.
  pose proof (align4_spec n ltac:(lia)) as [Hn _].
  rewrite Hcons in Hlen |- *. rewrite !length_app in Hlen.
  assert (Hsize : (Z.of_nat (length ((pre ++ padded (frame p)) ++ frames l)) =
    Z.of_nat (length pre) + align4 n + Z.of_nat (length (frames l)))%Z) by (rewrite !length_app; lia).
  rewrite Hsize. rewrite (size_small w (Z.of_nat (length pre) + 16)) by lia.
  rewrite (proj2 (Z.leb_le _ _)) by lia. cbn [negb].
  assert (Hrd : rd32 ((pre ++ padded (frame p)) ++ frames l) (Z.to_nat (Z.of_nat (length pre))) = Safe n).
  { rewrite Nat2Z.id, <- app_assoc, <- (Nat.add_0_r (length pre)), rd32_skip, Hpf, <- app_assoc.
    cbn. f_equal. apply le_bytes32_word. word_lia. }
  rewrite Hrd. chk_step. rewrite (size_small w (Z.of_nat (length pre) + n)) by lia.
  rewrite (proj2 (Z.ltb_ge _ _)) by lia. rewrite (proj2 (Z.ltb_ge _ _)) by lia. cbn [orb].
  assert (Hmsg : slice ((pre ++ padded (frame p)) ++ frames l) (Z.of_nat (length pre)) n = Safe (frame p)).
  { unfold slice. rewrite Hsize, (proj2 (Z.leb_le _ _)) by lia. do 2 f_equal.
    rewrite Nat2Z.id, <- app_assoc, drop_app_length. unfold padded. rewrite <- app_assoc.
    apply take_app_length'. rewrite length_frame. lia. }
  rewrite Hmsg. chk_step. cbn [fmap list_fmap foldl].
  destruct (feed_message cfg now clk ctx (frame p) acc) as [ctx' acc'].
  rewrite align_u32 by lia. rewrite (proj2 (Z.eqb_neq _ _)) by lia.
  rewrite (size_small w (Z.of_nat (length pre) + align4 n)) by lia.
  replace (Z.of_nat (length pre) + align4 n)%Z with (Z.of_nat (length (pre ++ padded (frame p))))
    by (rewrite length_app; lia).
  apply IH; [rewrite !length_app; lia|simpl in Hf; lia].
Qed.

Lemma frames_length l : length l <= length (frames l).
Proof.
  induction l as [|p l IH]; [done|]. change (frames (p :: l)) with (padded (frame p) ++ frames l).
  rewrite length_app. unfold padded. rewrite length_app, length_frame. simpl. lia.
Qed.

(** Splitting is faithful: a datagram of padded netlink messages, of any number
    and sizes, is fed to the library message by message, each without its padding and
    in order, and every event the library queues for a message is applied before the
    next message is fed; on 32- and 64-bit targets alike. *)
Theorem feed_splits_messages w l st (ctx : C) (q : Q) :
  (32 <= w)%Z -> Forall frame_ok l -> (Z.of_nat (length (frames l)) < 2147483648)%Z ->
  feed_and_apply w cfg st ctx (frames l) q now clk =
    Safe (feed_all (ctx, (0%Z, st, q)) (frame <$> l)).
Proof.
  intros Hw Hok Hlen. unfold feed_and_apply.
  destruct (Nat.ltb_spec (length (frames l)) 16) as [Hlt|Hge].
  { destruct Hok as [|p l Hp Hok]; [done|]. exfalso.
    change (frames (p :: l)) with (padded (frame p) ++ frames l) in Hlt.
    unfold padded, frame_ok in *. rewrite !length_app, length_frame in Hlt. lia. }
  apply (feed_frames w l []); [done|done|done|]. pose proof (frames_length l). lia.
Qed.

Lemma feed_loop_safe64 fuel buf off (ctx : C) (acc : Z * cpe_flow_state * Q) :
  bytes buf -> (Z.of_nat (length buf) < 2147483648)%Z -> (0 <= off < 8589934592)%Z ->
  Z.to_nat (Z.of_nat (length buf) - off) < fuel ->
  exists r, feed_loop 64 cfg fuel now clk buf off ctx acc = Safe r.
Proof.
  intros Hb Hlen. revert off ctx acc. induction fuel as [|fuel IH]; intros off ctx acc Hoff Hf; [lia|].
  cbn [feed_loop].
  assert (Hsz : forall z, (0 <= z < 18446744073709551616)%Z -> size_w 64 z = z)
    by (intros; by apply Z.mod_small).
  rewrite (Hsz (off + 16)%Z) by lia. destruct (Z.leb_spec (off + 16) (Z.of_nat (length buf)));
    [cbn [negb]|by eexists].
  assert (Hn : exists n, rd32 buf (Z.to_nat off) = Safe n /\ in_u32 n).
  { unfold rd32. do 4 (step_rd; [lia|]). eexists. split; [reflexivity|].
    apply le_word32_range; eapply rd_byte; eauto. }
  destruct Hn as (n & -> & Hn). chk_step.
  rewrite (Hsz (off + n)%Z) by word_lia.
  destruct (_ || _) eqn:E; [by eexists|]. apply orb_false_iff in E as [E1 E2].
  apply Z.ltb_ge in E1, E2. unfold slice. rewrite (proj2 (Z.leb_le _ _)) by lia. chk_step.
  destruct (feed_message cfg now clk ctx _ acc) as [ctx' acc'].
  rewrite align_u32 by word_lia. destruct (_ =? 0)%Z; [by eexists|].
  pose proof (align4_spec n ltac:(lia)) as [Ha _]. rewrite Hsz by word_lia. apply IH; lia.
Qed.

(** The bound check of the splitter protects the buffer only where [size_t] is
    wider than the 32-bit length: on a 64-bit target no datagram of bytes makes it hand
    the library a message that leaves the buffer, while on a 32-bit target a second
    message of length 2^32 - 16 wraps the sum and passes the check. *)
Theorem feed_bound_check st (ctx : C) (q : Q) buf hdr rest :
  bytes buf -> (Z.of_nat (length buf) < 2147483648)%Z -> length hdr = 12 -> 12 <= length rest ->
  (Z.of_nat (length rest) < 2147483648)%Z ->
  (exists r, feed_and_apply 64 cfg st ctx buf q now clk = Safe r) /\
  feed_and_apply 32 cfg st ctx (le_bytes32 16 ++ hdr ++ le_bytes32 4294967280 ++ rest) q now clk = Oob.
Proof.
  intros Hb Hlen Hh Hr Hrl. split.
  { unfold feed_and_apply. destruct (_ <? 16); [by eexists|]. apply feed_loop_safe64; [done|done|lia..]. }
  set (buf2 := _ ++ _). assert (Hl2 : length buf2 = 20 + length rest)
    by (subst buf2; rewrite !length_app, Hh; simpl; lia).
  assert (Hbuf : buf2 = frame hdr ++ le_bytes32 4294967280 ++ rest)
    by (unfold frame; rewrite Hh; subst buf2; by rewrite <- app_assoc).
  unfold feed_and_apply. rewrite Hl2. change (20 + length rest <? 16) with false. cbv iota.
  assert (Hf : exists f1, S (20 + length rest) = S f1 /\ f1 = S (19 + length rest)) by by eexists.
  destruct Hf as (f1 & -> & Hf1). cbn [feed_loop]. rewrite Hl2.
  rewrite (size_small 32 (0 + 16)) by lia. rewrite (proj2 (Z.leb_le _ _)) by lia. cbn [negb].
  assert (H1 : rd32 buf2 (Z.to_nat 0) = Safe 16%Z) by (subst buf2; reflexivity).
  rewrite H1. chk_step. rewrite (size_small 32 (0 + 16)) by lia.
  rewrite (proj2 (Z.ltb_ge (Z.of_nat _) _)) by lia. cbn [Z.ltb Z.compare Pos.compare Pos.compare_cont orb].
  unfold slice. rewrite Hl2, (proj2 (Z.leb_le _ _)) by lia. chk_step.
  destruct (feed_message cfg now clk ctx _ _) as [ctx' acc'].
  change (Z.land (u32 (16 + 3)) 4294967292) with 16%Z. change (16 =? 0)%Z with false. cbv iota.
  change (size_w 32 (0 + 16)) with 16%Z. subst f1. cbn [feed_loop]. rewrite Hl2.
  change (size_w 32 (16 + 16)) with 32%Z. rewrite (proj2 (Z.leb_le _ _)) by lia. cbn [negb].
  assert (H2 : rd32 buf2 (Z.to_nat 16) = Safe 4294967280%Z).
  { rewrite Hbuf. change (Z.to_nat 16) with (4 + 12 + 0). rewrite <- Hh, <- (length_frame hdr).
    rewrite rd32_skip. reflexivity. }
  rewrite H2. chk_step. change (size_w 32 (16 + 4294967280)) with 0%Z.
  rewrite (proj2 (Z.ltb_ge (Z.of_nat _) 0)) by lia.
  cbn [Z.ltb Z.compare Pos.compare Pos.compare_cont orb].
  unfold slice. rewrite Hl2, (proj2 (Z.leb_gt _ _)) by lia. reflexivity.
Qed.
End feed_spec.

(** ** Draining ends *)
Section drain_spec.
Context {Q : Type} `{!LineSink Q} {C : Type} `{!EventSource C nfct_event} `{!NfctLib C}.
Context (w : Z) (cfg : cpe_agent_config).

Definition io_left (io : fd_io) : nat := length (io_polls io) + length (io_recvs io).

Lemma recv_nonzero fd r rd buf :
  nfct_netlink_recv fd r (Z.to_nat 16384) = (rd, buf) -> (0 < rd)%Z -> r <> RecvAgain.
Proof.
  unfold nfct_netlink_recv. intros H Hrd ->. destruct (_ || _); injection H as <- _; lia.
Qed.

(** A wait uses up at most one answer of [poll], a message that was read one of [recv]. *)
Lemma round_poll (wait : bool) io :
  exists ready io1, (if wait then io_poll io else (1%Z, io)) = (ready, io1) /\
    io_left io1 <= io_left io /\ io_recvs io1 = io_recvs io /\ ((0 < ready)%Z -> wait = true -> io_left io1 < io_left io).
Proof.
  destruct wait; [|exists 1%Z, io; split_and!; done || lia]. eexists _, _. split; [done|]. unfold io_left. cbn.
  destruct (io_polls io); cbn; split_and!; try done; lia.
Qed.
Lemma round_recv io r io' :
  io_recv io = (r, io') ->
  io_left io' <= io_left io /\ (r <> RecvAgain -> io_left io' < io_left io) /\
  io_recvs io' = tail (io_recvs io) /\ (r = RecvAgain \/ r ∈ io_recvs io).
Proof.
  unfold io_recv, io_left. intros [= <- <-]. destruct (io_recvs io); cbn; split_and!; try done; try lia; [by left|].
  right. apply list_elem_of_here.
Qed.

(** Draining a socket always ends: each round that continues has used up one
    answer of the kernel (a message, or the readiness that announced one), so beyond
    the number of answers more rounds change nothing; the spurious-wakeup retry does
    not loop once the kernel is idle. *)
Theorem drain_ends n m fd left wait_ms saw io now (ctx : C) (acc : Z * cpe_flow_state * Q) :
  io_left io < n -> io_left io < m ->
  drain_loop w cfg n fd left wait_ms saw io now ctx acc = drain_loop w cfg m fd left wait_ms saw io now ctx acc.
Proof.
  revert m left saw io ctx acc. induction n as [|n IH]; intros [|m] left saw io ctx acc Hn Hm; [lia..|].
  cbn [drain_loop]. destruct left as [|left]; [done|].
  destruct (round_poll (saw && (0 <? wait_ms)%Z) io) as (ready & io1 & -> & Hio1 & _ & _).
  destruct (ready <=? 0)%Z; [done|].
  destruct (io_recv io1) as [r io2] eqn:Er.
  destruct (nfct_netlink_recv fd r _) as [rd buf] eqn:Erd.
  destruct (round_recv _ _ _ Er) as (Hle & Hlt & _). destruct (Z.eqb_spec rd 0) as [->|Hz].
  - destruct (_ && _); [|done]. destruct (round_poll true io2) as (p & io3 & Ep & _ & _ & Hp). cbn iota in Ep. rewrite Ep.
    destruct (Z.leb_spec p 0); [done|]. specialize (Hp ltac:(lia) eq_refl). apply IH; lia.
  - destruct (Z.ltb_spec rd 0); [done|]. destruct acc as [[applied st] q].
    pose proof (recv_nonzero _ _ _ _ Erd ltac:(lia)) as Hr. specialize (Hlt Hr).
    destruct (feed_and_apply w cfg st ctx buf q now _) as [[ctx' [[more st'] q']]|]; [|done].
    chk_step. apply IH; lia.
Qed.
End drain_spec.

(** ** Samples *)
Section selection.
Context (rate : nat -> double).

(** [x] is not below any element of [l]. *)
Definition dominates (x : nat) (l : list nat) : Prop := Forall (fun y => d_ltb (rate x) (rate y) = false) l.

Lemma num_lookup l i y :
  Forall (fun i => is_num (rate i) = true) l -> l !! i = Some y -> is_num (rate y) = true.
Proof. intros H Hy. exact (Forall_lookup_1 _ _ _ _ H Hy). Qed.

Lemma best_scan_spec rest pre best :
  Forall (fun i => is_num (rate i) = true) (pre ++ rest) -> best < length pre ->
  dominates (pre !!! best) pre ->
  let b := best_scan rate rest (length pre) best (rate (pre !!! best)) in
  b < length (pre ++ rest) /\ dominates ((pre ++ rest) !!! b) (pre ++ rest).
Proof.
  revert pre best. induction rest as [|x rest IH]; intros pre best Hnum Hb Hdom; cbn [best_scan].
  { rewrite app_nil_r. done. }
  assert (Hx : is_num (rate x) = true)
    by (eapply num_lookup; [exact Hnum|by apply list_lookup_middle]).
  assert (Hbest : is_num (rate (pre !!! best)) = true).
  { destruct (lookup_lt_is_Some_2 pre best Hb) as [y Hy]. rewrite (list_lookup_total_correct _ _ _ Hy).
    apply (num_lookup _ best y Hnum). by apply lookup_app_l_Some. }
  assert (HS : S (length pre) = length (pre ++ [x])) by (rewrite length_app; simpl; lia).
  assert (Happ : pre ++ x :: rest = (pre ++ [x]) ++ rest) by by rewrite <- app_assoc.
  rewrite Happ in Hnum |- *. rewrite HS. destruct (d_ltb (rate (pre !!! best)) (rate x)) eqn:E.
  - assert (Hlast : (pre ++ [x]) !!! length pre = x)
      by (apply list_lookup_total_correct; by apply list_lookup_middle).
    pose proof (IH (pre ++ [x]) (length pre)) as Hgo. rewrite Hlast in Hgo.
    apply Hgo; [done|rewrite length_app; simpl; lia|].
    apply Forall_app. split.
    + apply Forall_lookup. intros i y Hy.
      assert (Hy' : is_num (rate y) = true).
      { apply (num_lookup _ i y Hnum). rewrite <- app_assoc. by apply lookup_app_l_Some. }
      pose proof (Forall_lookup_1 _ _ _ _ Hdom Hy) as Hd. cbn in Hd.
      apply not_true_is_false. intros Hlt. rewrite (d_ltb_trans _ _ _ Hbest Hx Hy' E Hlt) in Hd. done.
    + repeat constructor. by apply d_ltb_irrefl.
  - assert (Hin : (pre ++ [x]) !!! best = pre !!! best) by (apply lookup_total_app_l; done).
    pose proof (IH (pre ++ [x]) best) as Hgo. rewrite Hin in Hgo.
    apply Hgo; [done|rewrite length_app; simpl; lia|].
    apply Forall_app. split; [done|]. by repeat constructor.
Qed.

Lemma swap_perm (x : nat) (rest : list nat) (b : nat) :
  b < length rest -> (rest !!! b) :: <[b := x]> rest ≡ₚ x :: rest.
Proof.
  revert b. induction rest as [|y rest IH]; intros [|b] Hb; simpl in *; try lia.
  - apply Permutation_swap.
  - change ((y :: rest) !!! S b) with (rest !!! b).
    rewrite Permutation_swap, IH by lia. apply Permutation_swap.
Qed.

Lemma select_sort_spec n indices :
  Forall (fun i => is_num (rate i) = true) indices ->
  let out := select_sort rate n indices in
  out ≡ₚ indices /\
  forall i j x y, i < n -> i < j -> out !! i = Some x -> out !! j = Some y -> d_ltb (rate x) (rate y) = false.
Proof.
  revert indices. induction n as [|n IH]; intros [|x rest] Hnum; cbn [select_sort]; try (split; [done|lia]).
  { split; [done|]. intros i j ? ? _ _ Hi. by rewrite lookup_nil in Hi. }
  pose proof (best_scan_spec rest [x] 0 Hnum ltac:(simpl; lia)) as Hb. cbn [length] in Hb.
  change ([x] !!! 0) with x in Hb. change ([x] ++ rest) with (x :: rest) in Hb.
  assert (Hself : dominates x [x])
    by (repeat constructor; apply d_ltb_irrefl; by apply Forall_cons in Hnum as [? _]).
  specialize (Hb Hself). cbv zeta in Hb. set (b := best_scan rate rest 1 0 (rate x)) in *.
  destruct Hb as [Hlt Hdom].
  assert (Hstep : exists h t, (match b with O => x :: select_sort rate n rest
      | S b' => (rest !!! b') :: select_sort rate n (<[b' := x]> rest) end) = h :: select_sort rate n t /\
    h :: t ≡ₚ x :: rest /\ dominates h (x :: rest)).
  { destruct b as [|b']; [by exists x, rest|]. exists (rest !!! b'), (<[b' := x]> rest).
    split; [done|]. split; [|done]. apply swap_perm. simpl in Hlt. lia. }
  destruct Hstep as (h & t & -> & Hp & Hh).
  assert (Hnt : Forall (fun i => is_num (rate i) = true) (h :: t)) by by rewrite Hp.
  apply Forall_cons in Hnt as [_ Hnt]. destruct (IH t Hnt) as [Hpt Hs]. cbv zeta in Hpt, Hs.
  split; [by rewrite Hpt, Hp|].
  intros [|i] [|j] y z Hi Hij Hy Hz; [lia| |lia|].
  - injection Hy as <-. assert (Hin : z ∈ x :: rest).
    { rewrite <- Hp, <- Hpt. right. by eapply list_elem_of_lookup_2. }
    by eapply (proj1 (Forall_forall _ _) Hh).
  - eapply (Hs i j); [lia|lia|done|done].
Qed.
End selection.

Section samples.
Context {Q : Type} `{LineSinkLaws Q}.
Context (cfg : cpe_agent_config).

(** The line a chosen row yields: none for an idle row or one that does not fit. *)
Definition sample_line (tab : list cpe_flow_entry) (clk : clock) (i : nat) : option string :=
  let e := tab !!! i in
  let text := flow_text (FlowClock.iso_now clk EmptyString 40) (router_id cfg) "sample" e in
  if idle_row e then None else if strlen text <? CPE_NDJSON_LINE_MAX then Some text else None.

Lemma flow_format_cases event e clk :
  let text := flow_text (FlowClock.iso_now clk EmptyString 40) (router_id cfg) event e in
  if strlen text <? CPE_NDJSON_LINE_MAX
  then cpe_flow_format_ndjson (router_id cfg) event e CPE_NDJSON_LINE_MAX clk = (Z.of_nat (strlen text), text) /\
       (0 < strlen text)
  else fst (cpe_flow_format_ndjson (router_id cfg) event e CPE_NDJSON_LINE_MAX clk) = (-1)%Z.
Proof.
  cbv zeta. unfold cpe_flow_format_ndjson. change (CPE_NDJSON_LINE_MAX <? 64) with false. cbv iota.
  set (text := flow_text _ _ _ _). destruct (Nat.ltb_spec (strlen text) CPE_NDJSON_LINE_MAX) as [Hlt|Hge].
  - split; [by apply snprintf_checked_ok|]. subst text. unfold flow_text. autorewrite with slen.
    simpl String.length. lia.
  - by rewrite snprintf_checked_overflow.
Qed.

Lemma emit_samples_spec clk ixs k st (q : Q) :
  sink_wf q -> in_u64 (fs_samples_emitted st) ->
  let lines := omap (sample_line (fs_table st) clk) ixs in
  let n := if (sink_cap q =? 0)%nat then 0%Z else Z.of_nat (length lines) in
  exists st', foldl (emit_sample cfg clk) (k, st, q) ixs = ((k + n)%Z, st', sink_push_all q lines) /\
    fs_table st' = fs_table st /\ fs_samples_emitted st' = u64 (fs_samples_emitted st + n) /\
    fs_last_sample_ms st' = fs_last_sample_ms st.
Proof.
  cbv zeta. revert k st q. induction ixs as [|i ixs IH]; intros k st q Hq Hs; cbn [foldl omap list_omap].
  { exists st. assert (Hz : (if (sink_cap q =? 0)%nat then 0%Z else Z.of_nat (length (@nil string))) = 0%Z)
      by by destruct (_ =? _). cbn in Hz |- *. rewrite Hz, !Z.add_0_r, u64_id by done. done. }
  assert (Hrow : omap (sample_line (fs_table st) clk) (i :: ixs) =
    option_list (sample_line (fs_table st) clk i) ++ omap (sample_line (fs_table st) clk) ixs)
    by (cbn; by destruct (sample_line _ _ i)).
  change (match sample_line (fs_table st) clk i with
    | Some y => y :: omap (sample_line (fs_table st) clk) ixs
    | None => omap (sample_line (fs_table st) clk) ixs end)
    with (omap (sample_line (fs_table st) clk) (i :: ixs)).
  rewrite Hrow. clear Hrow. unfold emit_sample at 2, sample_line at 1 3 5.
  pose proof (flow_format_cases "sample" (fs_table st !!! i) clk) as Hf.
  cbv zeta in Hf. set (text := flow_text _ _ _ (fs_table st !!! i)) in *.
  destruct (idle_row _); [by apply IH|].
  destruct (strlen text <? CPE_NDJSON_LINE_MAX).
  2:{ destruct (cpe_flow_format_ndjson _ _ _ _ _) as [n line]. cbn in Hf. subst n. by apply IH. }
  destruct Hf as [-> Hpos]. rewrite (proj2 (Z.ltb_lt _ _)) by lia.
  pose proof (sink_push_rc q text Hq) as Hrc. pose proof (sink_push_wf q text Hq) as Hwf.
  pose proof (sink_push_cap q text Hq) as Hcap. 
  destruct (sink_push q text) as [rc q1] eqn:Eq. cbn [fst snd] in *. rewrite Hrc.
  assert (Hpush : forall l, sink_push_all q (option_list (Some text) ++ l) = sink_push_all q1 l)
    by (intros; simpl; by rewrite Eq).
  rewrite Hpush. change (option_list (Some text) ++ ?l) with (text :: l).
  destruct (sink_cap q =? 0) eqn:E0; cbn [Z.eqb Pos.eqb].
  - destruct (IH k st q1 Hwf Hs) as (st' & Hst & H1 & H2 & H3). rewrite Hcap, E0 in Hst, H2.
    exists st'. by rewrite Hst.
  - set (st1 := st <| fs_samples_emitted := u64 (fs_samples_emitted st + 1) |>).
    assert (Hs1 : in_u64 (fs_samples_emitted st1)) by (cbn; apply u64_range).
    change (fs_table st) with (fs_table st1) in *.
    destruct (IH (k + 1)%Z st1 q1 Hwf Hs1) as (st' & Hst & H1 & H2 & H3). rewrite Hcap, E0 in Hst, H2.
    exists st'. rewrite Hst. split; [f_equal; f_equal; cbn [length]; cbn; lia|]. split; [done|]. split; [|done].
    rewrite H2. change (fs_samples_emitted st1) with (u64 (fs_samples_emitted st + 1)).
    unfold u64. rewrite Zplus_mod_idemp_l. f_equal. cbn [length]. lia.
Qed.

(** The rows an emission picks: [top] before [rest]. *)
Definition top_flows (st : cpe_flow_state) (top rest : list nat) : Prop :=
  let rate i := row_rate (fs_table st !!! i) in
  top ++ rest ≡ₚ alive_rows st /\
  length top = Nat.min (Z.to_nat (dflt (fs_sample_top_n st) 32)) (length (alive_rows st)) /\
  (forall i j x y, i < j -> top !! i = Some x -> top !! j = Some y -> d_ltb (rate x) (rate y) = false) /\
  Forall (fun x => Forall (fun y => d_ltb (rate x) (rate y) = false) rest) top.

Lemma selected_top st :
  Forall (fun i => is_num (row_rate (fs_table st !!! i)) = true) (alive_rows st) ->
  let n := Z.to_nat (dflt (fs_sample_top_n st) 32) in
  let out := select_sort (fun i => row_rate (fs_table st !!! i)) n (alive_rows st) in
  top_flows st (take n out) (drop n out).
Proof.
  intros Hnum n out. set (rate := fun i => row_rate (fs_table st !!! i)) in *.
  destruct (select_sort_spec rate n (alive_rows st) Hnum) as [Hp Hs]. cbv zeta in Hp, Hs. fold out in Hp, Hs.
  split; [by rewrite take_drop|]. split; [by rewrite length_take, Hp|]. split.
  - intros i j x y Hij Hx Hy. apply lookup_take_Some in Hx as [Hx Hi], Hy as [Hy _]. eapply (Hs i j); [lia|lia|done|done].
  - apply Forall_lookup. intros i x Hx. apply lookup_take_Some in Hx as [Hx Hi].
    apply Forall_lookup. intros j y Hy. rewrite lookup_drop in Hy. eapply (Hs i (n + j)); [lia|lia|done|done].
Qed.

(** C36: Sampling reports the busiest flows: when a sample is due, the chosen rows
    are the configured number (32 by default) of live rows, busiest first, none of the
    rows left out faster than a chosen one; exactly their lines are pushed, in that
    order, rows that are idle or whose line does not fit the 768-byte buffer excepted;
    the result and the sample counter count the lines the spool took; when none is due
    nothing happens. *)
Theorem flow_samples_top st (q : Q) now clk :
  sink_wf q -> in_u64 (fs_samples_emitted st) ->
  Forall (fun i => is_num (row_rate (fs_table st !!! i)) = true) (alive_rows st) ->
  let '(n, st', q') := emit_top_samples cfg st q now clk in
  if sample_due st now then
    exists top rest, top_flows st top rest /\
      let lines := omap (sample_line (fs_table st) clk) top in
      n = (if (sink_cap q =? 0)%nat then 0%Z else Z.of_nat (length lines)) /\
      sink_pending q' = lastn (sink_cap q) (sink_pending q ++ (stored <$> lines)) /\
      fs_table st' = fs_table st /\ fs_samples_emitted st' = u64 (fs_samples_emitted st + n) /\
      fs_last_sample_ms st' = now
  else n = 0%Z /\ st' = st /\ q' = q.
Proof.
  intros Hq Hs Hnum. unfold emit_top_samples. destruct (sample_due st now); cbn [negb]; [|done].
  set (st0 := st <| fs_last_sample_ms := now |>).
  set (n := Z.to_nat (dflt (fs_sample_top_n st) 32)).
  set (out := select_sort _ n (alive_rows st0)).
  destruct (emit_samples_spec clk (take n out) 0 st0 q Hq Hs) as (st' & -> & H1 & H2 & H3).
  exists (take n out), (drop n out).
  split; [exact (selected_top st Hnum)|]. cbv zeta.
  destruct (sink_push_all_spec q (omap (sample_line (fs_table st) clk) (take n out)) Hq) as (_ & _ & Hp).
  split; [done|]. split; [exact Hp|]. split; [done|]. split; [exact H2|done].
Qed.
End samples.

(** ** The tick is safe *)
Section tick_spec.
Context {Q : Type} `{LineSinkLaws Q} {C : Type} `{!EventSource C nfct_event} `{!NfctLib C}.
Context (cfg : cpe_agent_config).
(** The library only reports events whose fields are within their types. *)
Hypothesis event_ok : forall (c : C) e c', next_event c = (Some e, c') -> nfct_event_ok e.

(** The settings only a configuration changes. *)
Definition flow_params (st : cpe_flow_state) : Z * Z * Z * Z :=
  (fs_max_flows st, fs_dump_interval_ms st, fs_sample_emit_ms st, fs_sample_top_n st).

(** The table and the spool are consistent; the spool keeps its capacity [k.1], the state
    its settings [k.2]. *)
Definition flow_inv (k : nat * (Z * Z * Z * Z)) (acc : Z * cpe_flow_state * Q) : Prop :=
  flow_wf acc.1.2 /\ in_u64 (fs_samples_emitted acc.1.2) /\ sink_wf acc.2 /\ sink_cap acc.2 = k.1 /\
  flow_params acc.1.2 = k.2.

(** Whatever does not depend on the table, its count, the event and destroy counters and
    the warning is not changed by an event. *)
Lemma apply_event_frame {X} (f : cpe_flow_state -> X) st ev (q : Q) now clk :
  (forall s t, f (s <| fs_table := t |>) = f s) -> (forall s n, f (s <| fs_table_used := n |>) = f s) ->
  (forall s n, f (s <| fs_events_in := n |>) = f s) -> (forall s n, f (s <| fs_destroys_emitted := n |>) = f s) ->
  (forall s n, f (s <| fs_warned_no_acct := n |>) = f s) ->
  f (apply_event cfg st ev q now clk).1.2 = f st.
Proof.
  intros Ht Hu He Hde Hwn.
  assert (Hw : f (warn_no_acct st ev) = f st)
    by (unfold warn_no_acct; destruct (_ && _ && _ && _); [apply Hwn|done]).
  assert (Hp : forall s i, f (place_event s i ev now) = f s)
    by (intros; unfold place_event; destruct (negb _); by rewrite ?Hu, Ht).
  assert (Hd : forall s i, f (destroy_slot cfg s i q clk).1 = f s).
  { intros s i. unfold destroy_slot. destruct (cpe_flow_format_ndjson _ _ _ _ _) as [n line].
    destruct (0 <? n)%Z; [destruct (sink_push q line) as [rc q']; destruct (rc =? 0)%Z|];
      cbn [andb fst]; destruct (0 <? _)%Z; cbn [fst]; by rewrite ?Hu, ?Ht, ?Hde. }
  unfold apply_event. destruct (negb _ && _); [done|].
  destruct (find_slot _ _) as [i|]; [|done]. cbv zeta.
  destruct (is_destroy_event ev && _).
  - match goal with |- context [destroy_slot cfg ?s i q clk] => pose proof (Hd s i) as Hd' ;
      destruct (destroy_slot cfg s i q clk) as [st' q'] end.
    cbn [fst snd] in Hd' |- *. by rewrite Hd', He, Hp.
  - destruct (bool_decide _ && _); [|cbn [fst snd]; by rewrite He, Hp].
    destruct (cpe_flow_format_ndjson _ _ _ _ _). cbn [fst snd]. by rewrite He, Hp.
Qed.
Lemma apply_event_samples st ev (q : Q) now clk :
  fs_samples_emitted (apply_event cfg st ev q now clk).1.2 = fs_samples_emitted st.
Proof. by apply apply_event_frame. Qed.

Lemma apply_event_params st ev (q : Q) now clk :
  flow_params (apply_event cfg st ev q now clk).1.2 = flow_params st.
Proof. by apply apply_event_frame. Qed.

Lemma apply_one_inv k now clk acc ev :
  time_ok now -> nfct_event_ok ev -> flow_inv k acc -> flow_inv k (apply_one cfg now clk acc ev).
Proof.
  intros Hn He. destruct acc as [[a st] q]. intros (Hw & Hs & Hq & Hk & Hp). cbn [fst snd] in *.
  pose proof (apply_event_keeps cfg st ev q now clk Hw He Hn Hq) as Hkeep.
  pose proof (apply_event_samples st ev q now clk) as Hsam.
  pose proof (apply_event_params st ev q now clk) as Hpar.
  unfold apply_one. destruct (apply_event cfg st ev q now clk) as [[rc st'] q']. cbn [fst snd] in *.
  destruct Hkeep as (H1 & H2 & H3 & _). unfold flow_inv. cbn [fst snd]. rewrite Hsam, H3, Hpar. done.
Qed.

Lemma pull_fuel_ok n (c : C) : Forall nfct_event_ok (pull_fuel n c).1.
Proof.
  revert c. induction n as [|n IH]; intros c; cbn [pull_fuel]; [constructor|].
  destruct (next_event c) as [[e|] c'] eqn:E; [|constructor].
  pose proof (IH c') as Hi. destruct (pull_fuel n c') as [es c'']. cbn in *.
  constructor; [by eapply event_ok|done].
Qed.

Lemma feed_message_inv k now clk (ctx : C) msg acc :
  time_ok now -> flow_inv k acc -> flow_inv k (feed_message cfg now clk ctx msg acc).2.
Proof.
  intros Hn Ha. unfold feed_message. destruct (nfct_feed_input ctx msg) as [r ctx1].
  pose proof (pull_fuel_ok (S (queued ctx1)) ctx1) as Hev. unfold pull_all.
  destruct (pull_fuel _ ctx1) as [evs ctx2]. cbn in *. revert acc Ha.
  induction Hev as [|e evs He Hev IH]; intros acc Ha; [done|]. cbn [foldl]. apply IH. by apply apply_one_inv.
Qed.

Lemma feed_loop_inv k fuel now clk buf off (ctx : C) acc r :
  time_ok now -> flow_inv k acc -> feed_loop 64 cfg fuel now clk buf off ctx acc = Safe r -> flow_inv k r.2.
Proof.
  intros Hn. revert off ctx acc. induction fuel as [|fuel IH]; intros off ctx acc Ha; cbn [feed_loop];
    [done|].
  destruct (negb _); [by intros [= <-]|].
  destruct (rd32 buf _) as [n|]; chk_step; [|done]. destruct (_ || _); [by intros [= <-]|].
  destruct (slice buf off n) as [msg|]; chk_step; [|done].
  pose proof (feed_message_inv k now clk ctx msg acc Hn Ha) as Hm.
  destruct (feed_message cfg now clk ctx msg acc) as [ctx' acc']. cbn in Hm.
  destruct (_ =? 0)%Z; [by intros [= <-]|]. by apply IH.
Qed.

Definition io_ok (io : fd_io) : Prop := Forall recv_bytes (io_recvs io) /\ time_ok (mono_ms (io_clk io)).

Lemma feed_and_apply_inv k st (ctx : C) buf (q : Q) now clk :
  time_ok now -> bytes buf -> (Z.of_nat (length buf) < 2147483648)%Z -> flow_inv k (0%Z, st, q) ->
  exists ctx' acc', feed_and_apply 64 cfg st ctx buf q now clk = Safe (ctx', acc') /\ flow_inv k acc'.
Proof.
  intros Hn Hb Hl Ha. unfold feed_and_apply. destruct (_ <? 16); [by eexists _, _|].
  destruct (feed_loop_safe64 cfg now clk (S (length buf)) buf 0 ctx (0%Z, st, q) Hb Hl ltac:(lia) ltac:(lia)) as [[ctx' acc'] Hr].
  exists ctx', acc'. split; [done|]. exact (feed_loop_inv k _ _ _ _ _ _ _ _ Hn Ha Hr).
Qed.

Lemma recv_small fd r rd buf :
  recv_bytes r -> nfct_netlink_recv fd r (Z.to_nat 16384) = (rd, buf) ->
  bytes buf /\ (Z.of_nat (length buf) < 2147483648)%Z.
Proof.
  unfold nfct_netlink_recv. intros Hr. destruct (_ || _).
  { intros [= <- <-]. split; [constructor|simpl; lia]. }
  destruct r as [d| | |]; try (intros [= <- <-]; split; [constructor|simpl; lia]).
  destruct (_ =? 0); intros [= <- <-]; [split; [constructor|simpl; lia]|].
  split; [by apply Forall_take|]. rewrite length_take. lia.
Qed.

Lemma drain_loop_inv k fuel fd left wait saw io now (ctx : C) acc :
  time_ok now -> Forall recv_bytes (io_recvs io) -> io_left io < fuel -> flow_inv k acc ->
  exists acc', drain_loop 64 cfg fuel fd left wait saw io now ctx acc = Safe acc' /\ flow_inv k acc'.
Proof.
  intros Hn. revert left saw io ctx acc. induction fuel as [|fuel IH]; intros left saw io ctx acc Hio Hfuel Ha; [lia|].
  cbn [drain_loop]. destruct left as [|left]; [by eexists|].
  destruct (round_poll (saw && (0 <? wait)%Z) io) as (ready & io1 & -> & Hl1 & Hr1 & _).
  destruct (_ <=? 0)%Z; [by eexists|]. destruct (io_recv io1) as [r io2] eqn:Er.
  destruct (round_recv _ _ _ Er) as (Hl2 & Hlt & Hr2 & Hin). rewrite Hr1 in Hr2, Hin.
  assert (Hr : recv_bytes r) by (destruct Hin as [->|Hin]; [done|by apply (proj1 (Forall_forall _ _) Hio)]).
  assert (Ht : Forall recv_bytes (io_recvs io2)) by (rewrite Hr2; by apply Forall_tail).
  destruct (nfct_netlink_recv fd r _) as [rd buf] eqn:E. destruct (recv_small _ _ _ _ Hr E) as [Hb Hl].
  destruct (Z.eqb_spec rd 0).
  - destruct (_ && _); [|by eexists]. destruct (round_poll true io2) as (p & io3 & Ep & _ & Hr3 & Hp). cbn iota in Ep. rewrite Ep.
    destruct (Z.leb_spec p 0); [by eexists|]. specialize (Hp ltac:(lia) eq_refl). apply IH; [by rewrite Hr3|lia|done].
  - destruct (Z.ltb_spec rd 0); [by eexists|]. destruct acc as [[a st] q].
    specialize (Hlt (recv_nonzero _ _ _ _ E ltac:(lia))).
    destruct (feed_and_apply_inv k st ctx buf q now (io_clk io2) Hn Hb Hl Ha) as (ctx' & [[more st'] q'] & Hf & Ha').
    rewrite Hf. chk_step. apply IH; [done|lia|exact Ha'].
Qed.

Lemma drain_fd_inv k st (q : Q) fd n wait io :
  io_ok io -> flow_inv k (0%Z, st, q) ->
  exists acc', drain_fd 64 cfg st q fd n wait io = Safe acc' /\ flow_inv k acc'.
Proof.
  intros [Hr Hn] Ha. unfold drain_fd. destruct (fd <? 0)%Z; [by eexists|].
  destruct nfct_create as [ctx|]; [|by eexists].
  destruct (0 <? wait)%Z; cbn [io_poll]; destruct (_ <=? 0)%Z; try by eexists.
  all: apply drain_loop_inv; [done|done|unfold io_left; cbn; lia|exact Ha].
Qed.

(** The parts of the state the invariant reads. *)
Definition same_books (st st' : cpe_flow_state) : Prop :=
  fs_table st' = fs_table st /\ fs_table_used st' = fs_table_used st /\ fs_events_in st' = fs_events_in st /\
  fs_destroys_emitted st' = fs_destroys_emitted st /\ fs_samples_emitted st' = fs_samples_emitted st /\
  flow_params st' = flow_params st.
Lemma flow_inv_books k a a' st st' (q : Q) :
  same_books st st' -> flow_inv k (a, st, q) -> flow_inv k (a', st', q).
Proof.
  intros (E1 & E2 & E3 & E4 & E5 & E6) ([H1 H2 H3 H4 H5] & Hs & Hq). unfold flow_inv. cbn [fst snd] in *.
  rewrite E5, E6. split; [|done]. constructor; unfold seen_ok; rewrite ?E1, ?E2, ?E3, ?E4; done.
Qed.
Lemma flow_open_books env st : same_books st (cpe_agent_flow_open env st).2.
Proof.
  unfold cpe_agent_flow_open, same_books. destruct (0 <=? fs_fd st)%Z; [done|]. cbv zeta.
  by destruct (_ <? 0)%Z.
Qed.

Lemma flow_poll_inv k env st (q : Q) n :
  io_ok (fl_events env) -> flow_inv k (0%Z, st, q) ->
  exists acc', cpe_agent_flow_poll 64 cfg env st q n = Safe acc' /\ flow_inv k acc'.
Proof.
  intros Hio Ha. unfold cpe_agent_flow_poll. destruct (negb _); [by eexists|].
  pose proof (flow_open_books env st) as Hb.
  assert (Hop : exists rc st1, (if (fs_fd st <? 0)%Z then cpe_agent_flow_open env st else (0%Z, st)) = (rc, st1) /\
    same_books st st1).
  { destruct (_ <? 0)%Z; [|by eexists _, _]. destruct (cpe_agent_flow_open env st) as [rc st1]. by eexists _, _. }
  destruct Hop as (rc & st1 & -> & Hs). pose proof (flow_inv_books k 0%Z 0%Z _ _ q Hs Ha).
  destruct (negb _); [by eexists|]. by apply drain_fd_inv.
Qed.
Lemma maybe_dump_inv k env st (q : Q) now :
  io_ok (fl_replies env) -> flow_inv k (0%Z, st, q) ->
  exists acc', maybe_dump 64 cfg env st q now = Safe acc' /\ flow_inv k acc'.
Proof.
  intros Hio Ha. unfold maybe_dump. destruct (negb _); [by eexists|]. destruct (negb _); [by eexists|].
  apply drain_fd_inv; [done|]. by eapply flow_inv_books; [|exact Ha].
Qed.
Lemma emit_sample_inv k clk acc i : flow_inv k acc -> flow_inv k (emit_sample cfg clk acc i).
Proof.
  intros Ha. destruct acc as [[a st] q]. unfold emit_sample. destruct (idle_row _); [done|].
  destruct (cpe_flow_format_ndjson _ _ _ _ _) as [n line]. destruct (0 <? n)%Z; [|done].
  destruct Ha as (Hw & Hs & Hq & Hk & Hp). cbn [fst snd] in Hw, Hs, Hq, Hk, Hp.
  pose proof (sink_push_wf q line Hq) as Hwf. pose proof (sink_push_cap q line Hq) as Hcap.
  destruct (sink_push q line) as [rc q1]. cbn [snd] in *. rewrite Hk in Hcap.
  destruct (rc =? 0)%Z; (split; cbn; [|split; [|done]]); try done; [|apply u64_range].
  destruct Hw. by constructor.
Qed.
Lemma samples_inv k st (q : Q) now clk :
  flow_inv k (0%Z, st, q) -> flow_inv k (emit_top_samples cfg st q now clk).
Proof.
  intros Ha. unfold emit_top_samples. destruct (negb _); [done|].
  assert (Hgen : forall ixs acc, flow_inv k acc -> flow_inv k (foldl (emit_sample cfg clk) acc ixs)).
  { induction ixs as [|i ixs IH]; intros acc H1; [done|]. apply IH. by apply emit_sample_inv. }
  apply Hgen. by eapply flow_inv_books; [|exact Ha].
Qed.

Lemma flow_tick_inv env st (q : Q) :
  io_ok (fl_events env) -> io_ok (fl_replies env) -> time_ok (mono_ms (fl_clk env)) ->
  flow_inv (sink_cap q, flow_params st) (0%Z, st, q) ->
  exists acc', cpe_agent_flow_tick 64 cfg env st q = Safe acc' /\ flow_inv (sink_cap q, flow_params st) acc'.
Proof.
  intros He Hr Hn Ha.
  unfold cpe_agent_flow_tick.
  assert (Hgo : exists go st1, (if truthy (fs_enabled st) then (true, st)
    else if truthy (flow_acct_enabled cfg) then
      let '(rc, st) := cpe_agent_flow_open env st in ((rc =? 0)%Z, st) else (false, st)) = (go, st1) /\
    same_books st st1).
  { destruct (truthy (fs_enabled st)); [by eexists _, _|]. destruct (truthy _); [|by eexists _, _].
    pose proof (flow_open_books env st). destruct (cpe_agent_flow_open env st) as [rc st1]. by eexists _, _. }
  destruct Hgo as (go & st1 & -> & Hb). pose proof (flow_inv_books _ 0%Z 0%Z _ _ q Hb Ha) as H1.
  destruct go; cbn [negb]; [|by eexists].
  set (now := mono_ms (fl_clk env)) in *. set (st2 := st1 <| fs_last_tick_ms := now |>).
  assert (H2 : flow_inv (sink_cap q, flow_params st) (0%Z, st2, q)) by (by eapply flow_inv_books; [|exact H1]).
  destruct (flow_poll_inv _ env st2 q 128 He H2) as ([[n1 st3] q3] & -> & H3). chk_step.
  pose proof (flow_inv_books _ _ 0%Z st3 st3 q3 ltac:(done) H3) as H3'.
  destruct (maybe_dump_inv _ env st3 q3 now Hr H3') as ([[n2 st4] q4] & -> & H4). chk_step.
  pose proof (flow_inv_books _ _ 0%Z st4 st4 q4 ltac:(done) H4) as H4'.
  pose proof (samples_inv _ st4 q4 now (fl_clk env) H4') as H5.
  destruct (emit_top_samples _ _ _ _ _) as [[n3 st5] q5]. by eexists.
Qed.
(** C23: The tick is memory safe, ends and keeps its books: on a 64-bit target, whatever
    datagrams of bytes the event and dump sockets deliver and whatever events the library
    makes of them, within the ranges of their types and from a finite queue, no read leaves
    a buffer, every loop of the tick ends within its bound (running out of it would be
    [Oob]), the table invariant holds afterwards and the spool stays well-formed with its
    capacity.  The clock is assumed to be below 2^64 - 1 milliseconds. *)
Theorem flow_tick_safe env st (q : Q) :
  io_ok (fl_events env) -> io_ok (fl_replies env) -> time_ok (mono_ms (fl_clk env)) ->
  flow_wf st -> in_u64 (fs_samples_emitted st) -> sink_wf q ->
  exists n st' q', cpe_agent_flow_tick 64 cfg env st q = Safe (n, st', q') /\
    flow_wf st' /\ sink_wf q' /\ sink_cap q' = sink_cap q.
Proof.
  intros He Hr Hn Hw Hs Hq.
  destruct (flow_tick_inv env st q He Hr Hn) as ([[n st'] q'] & -> & H1 & _ & H2 & H3 & _); [by split_and!|].
  by exists n, st', q'.
Qed.
End tick_spec.

(** ** Concrete runs *)

(** A library that reports one update of the flow per message it is fed. *)
#[local] Instance toy_source : EventSource nat nfct_event := {|
  next_event := fun n => match n with O => (None, O) | S n' => (Some ev_update, n') end;
  queued := fun n => n; next_event_decreases := ltac:(runs_dry) |}.
#[local] Instance toy_lib : NfctLib nat := {| nfct_create := Some 0; nfct_feed_input := fun n _ => (0%Z, S n) |}.

Definition toy_io : fd_io := {| io_polls := [1%Z]; io_recvs := [RecvData (frames [replicate 12 0%Z])]; io_clk := flow_clk |}.
Definition two_payloads : list (list Z) := [replicate 12 0%Z; replicate 15 0%Z].

Lemma feed_splits_messages_witness :
  feed_and_apply 64 flow_cfg one_flow 0 (frames two_payloads) spool4_ab 3000 flow_clk =
    Safe (foldl (fun '(ctx, acc) m => feed_message flow_cfg 3000 flow_clk ctx m acc)
            (0, (0%Z, one_flow, spool4_ab)) (frame <$> two_payloads)).
Proof.
  apply (feed_splits_messages flow_cfg 3000 flow_clk 64 two_payloads one_flow 0 spool4_ab);
    [lia|repeat constructor|reflexivity].
Defined.
Lemma feed_bound_check_witness :
  (exists r, feed_and_apply 64 flow_cfg one_flow 0 (frames two_payloads) spool4_ab 3000 flow_clk = Safe r) /\
  feed_and_apply 32 flow_cfg one_flow 0
    (le_bytes32 16 ++ replicate 12 0%Z ++ le_bytes32 4294967280 ++ replicate 12 0%Z) spool4_ab 3000 flow_clk = Oob.
Proof.
  apply (feed_bound_check flow_cfg 3000 flow_clk one_flow 0 spool4_ab (frames two_payloads)
    (replicate 12 0%Z) (replicate 12 0%Z));
    [apply (bool_decide_unpack _); vm_compute; exact I|reflexivity|reflexivity|simpl; lia|reflexivity].
Defined.
Lemma drain_ends_witness :
  drain_loop 64 flow_cfg 3 5 10 400 false toy_io 3000 0 (0%Z, one_flow, spool4_ab) =
  drain_loop 64 flow_cfg 9 5 10 400 false toy_io 3000 0 (0%Z, one_flow, spool4_ab).
Proof. apply (drain_ends 64 flow_cfg 3 9); unfold io_left; simpl; lia. Defined.

Lemma flow_samples_top_witness :
  let '(n, st', q') := emit_top_samples flow_cfg one_flow spool4_ab 3000 flow_clk in
  if sample_due one_flow 3000 then
    exists top rest, top_flows one_flow top rest /\
      let lines := omap (sample_line flow_cfg (fs_table one_flow) flow_clk) top in
      n = (if (sink_cap spool4_ab =? 0)%nat then 0%Z else Z.of_nat (length lines)) /\
      sink_pending q' = lastn (sink_cap spool4_ab) (sink_pending spool4_ab ++ (stored <$> lines)) /\
      fs_table st' = fs_table one_flow /\ fs_samples_emitted st' = u64 (fs_samples_emitted one_flow + n) /\
      fs_last_sample_ms st' = 3000%Z
  else n = 0%Z /\ st' = one_flow /\ q' = spool4_ab.
Proof.
  refine (flow_samples_top flow_cfg one_flow spool4_ab 3000 flow_clk spool4_ab_wf _ _).
  - split; vm_compute; congruence.
  - assert (Ha : alive_rows one_flow = [0]) by (vm_compute; reflexivity).
    rewrite Ha. repeat constructor.
Defined.

Definition toy_env : flow_env := {|
  fl_nfct := ct_env_ok; fl_nfct_dump := ct_env_ok; fl_events := toy_io; fl_replies := toy_io; fl_clk := flow_clk |}.
Lemma ev_update_ok : nfct_event_ok ev_update.
Proof. pose proof zero16_ok. constructor; first [done|cbn; word_lia]. Qed.
Lemma toy_events_ok (c : nat) e c' : next_event c = (Some e, c') -> nfct_event_ok e.
Proof. destruct c; cbn; intros [= <- _]. apply ev_update_ok. Qed.
Lemma flow_tick_safe_witness :
  exists n st' q', cpe_agent_flow_tick (C := nat) 64 flow_cfg toy_env one_flow spool4_ab = Safe (n, st', q') /\
    flow_wf st' /\ sink_wf q' /\ sink_cap q' = sink_cap spool4_ab.
Proof.
  assert (Hio : io_ok toy_io).
  { split; [|vm_compute; split; congruence]. constructor; [|constructor].
    apply (bool_decide_unpack _). vm_compute. exact I. }
  apply (flow_tick_safe (C := nat) flow_cfg toy_events_ok toy_env one_flow spool4_ab);
    [exact Hio|exact Hio|vm_compute; split; congruence|exact one_flow_wf|split; vm_compute; congruence
    |exact spool4_ab_wf].
Defined.
