(* ===== verification/AgentData.v ===== *)
(** * The agent's stored results (src/include/cpe_agent.h)

    The Wi-Fi and traceroute snapshots the agent keeps for its clients, and the
    interface of the ping library as the agent uses it. *)

From S2P Require Import Prelude Float754 Events PerfSample.

Record cpe_wifi_station := {
  sta_mac : string;
  sta_signal_dbm : Z;
  sta_signal_avg_dbm : Z;
  sta_snr_db : Z;
  sta_mcs : Z;
  sta_tx_retries : Z;
  sta_tx_failed : Z;
  sta_rx_bytes : Z;
  sta_tx_bytes : Z;
  sta_freq_mhz : Z;
  sta_has_signal : Z;
  sta_has_mcs : Z;
}.
#[export] Instance eta_cpe_wifi_station : Eta cpe_wifi_station := fun s => {|
  sta_mac := sta_mac s; sta_signal_dbm := sta_signal_dbm s; sta_signal_avg_dbm := sta_signal_avg_dbm s;
  sta_snr_db := sta_snr_db s; sta_mcs := sta_mcs s; sta_tx_retries := sta_tx_retries s;
  sta_tx_failed := sta_tx_failed s; sta_rx_bytes := sta_rx_bytes s; sta_tx_bytes := sta_tx_bytes s;
  sta_freq_mhz := sta_freq_mhz s; sta_has_signal := sta_has_signal s; sta_has_mcs := sta_has_mcs s |}.
Record cpe_wifi_iface_state := {
  wif_ifname : string;
  wif_ifindex : Z;
  wif_up : Z;
  wif_running : Z;
  wif_wireless : Z;
  wif_operstate : string;
  wif_mac : string;
  wif_mtu : Z;
}.
#[export] Instance eta_cpe_wifi_iface_state : Eta cpe_wifi_iface_state := fun s => {|
  wif_ifname := wif_ifname s; wif_ifindex := wif_ifindex s; wif_up := wif_up s; wif_running := wif_running s;
  wif_wireless := wif_wireless s; wif_operstate := wif_operstate s; wif_mac := wif_mac s; wif_mtu := wif_mtu s |}.
Record cpe_wifi_snapshot := {
  wfs_iface : cpe_wifi_iface_state;
  wfs_stations : list cpe_wifi_station;   (* [station_count] is its length *)
  wfs_stations_valid : Z;
  wfs_demo : Z;
  wfs_ts_iso : string;
  wfs_err : string;
}.
#[export] Instance eta_cpe_wifi_snapshot : Eta cpe_wifi_snapshot := fun s => {|
  wfs_iface := wfs_iface s; wfs_stations := wfs_stations s; wfs_stations_valid := wfs_stations_valid s;
  wfs_demo := wfs_demo s; wfs_ts_iso := wfs_ts_iso s; wfs_err := wfs_err s |}.
Record cpe_trace_hop := {
  hop_hop : Z;
  hop_addr : string;
  hop_sent : Z;
  hop_replies : Z;
  hop_timeouts : Z;
  hop_last_rtt_ms : double;
  hop_avg_rtt_ms : double;
  hop_min_rtt_ms : double;
  hop_max_rtt_ms : double;
  hop_loss : float;
  hop_reached_dest : Z;
}.
Record cpe_trace_result := {
  trr_target : string;
  trr_ts_iso : string;
  trr_method : string;
  trr_max_ttl : Z;
  trr_probes_per_hop : Z;
  trr_reached : Z;
  trr_dest_rtt_ms : double;
  trr_hops : list cpe_trace_hop;          (* [hop_count] is its length *)
}.

(** The statistics of the ping library the agent reads. *)
Record ping_stats := {
  pg_avg_latency_ms : Z;
  pg_loss_pct : float;
  pg_replies : Z;
  pg_timeouts : Z;
}.
(** A ping context: creation, input and processing with a time stamp, statistics
    ([None] when the call fails); its events are only drained. *)
Class PingLib (P : Type) := {
  ping_create : option P;
  ping_feed_input_with_ts : P -> list Z -> Z -> Z * P;
  ping_process : P -> Z -> Z * P;
  ping_get_stats : P -> option ping_stats;
}.
