(* ===== verification/Agent.v ===== *)
(** * The agent handle (src/agent/agent_core.c)

    [struct cpe_agent] and the operations of agent_core.c that are not the queues
    themselves: life cycle, configuration, demo samples, stored results, the conntrack
    feed, the flush to stdout, file or collector, and the reload.  The ping and conntrack
    contexts are any types with the library interfaces; the outside world (allocator,
    kernel, HTTP, file system) answers through arguments. *)

From S2P Require Import Prelude CStr Float754 Inet Clock HostAlloc SpoolDir Config Spool Events.
From S2P Require Import PerfSample NfFlow Nflog TcpParse TcpStats TcpEmit Nfct FlowEntry FlowTable FlowAcct.
From S2P Require Import AgentData.

Record agent (P C : Type) := {
  ag_cfg : cpe_agent_config;
  ag_q : queues;
  ag_last : option cpe_perf_sample;          (* [has_last], [last] *)
  ag_last_wifi : option cpe_wifi_snapshot;
  ag_last_trace : option cpe_trace_result;
  ag_ping : P;
  ag_nfct : C;
  ag_nfct_obs : Z;
  ag_tcp : cpe_tcp_state;
  ag_flow : cpe_flow_state;
}.
Arguments ag_cfg {P C}. Arguments ag_q {P C}. Arguments ag_last {P C}. Arguments ag_last_wifi {P C}.
Arguments ag_last_trace {P C}. Arguments ag_ping {P C}. Arguments ag_nfct {P C}.
Arguments ag_nfct_obs {P C}. Arguments ag_tcp {P C}. Arguments ag_flow {P C}.
#[export] Instance eta_agent P C : Eta (agent P C) := fun a => {|
  ag_cfg := ag_cfg a; ag_q := ag_q a; ag_last := ag_last a; ag_last_wifi := ag_last_wifi a;
  ag_last_trace := ag_last_trace a; ag_ping := ag_ping a; ag_nfct := ag_nfct a;
  ag_nfct_obs := ag_nfct_obs a; ag_tcp := ag_tcp a; ag_flow := ag_flow a |}.

(** [cpe_agent_http_opts_t] with the URL and the body of a POST; NULL strings are [None]. *)
Record http_request := {
  hr_url : string;
  hr_body : string;
  hr_username : option string;
  hr_password : string;
  hr_ca_file : option string;
  hr_cert_file : option string;
  hr_key_file : option string;
  hr_tls_insecure : Z;
}.

(** What the kernel answers when sockets are opened. *)
Record open_env := { oe_nflog : nl_env; oe_flow : flow_env }.

(** What standard output, the spool file and the collector answer to one flush. *)
Record emit_env := {
  ee_post : http_request -> bool;            (* the POST succeeded *)
  ee_fopen : string -> bool;
  ee_fprintf : nat -> bool;
  ee_fflush : bool;
  ee_fclose : bool;
}.

(** ** Normalising and installing a configuration *)

(** The zero values [cpe_agent_apply_config] replaces before it validates. *)
Definition normalise (c : cpe_agent_config) : cpe_agent_config :=
  let c := if (spool_max_lines c =? 0)%Z then c <| spool_max_lines := CPE_CFG_SPOOL_DEFAULT |> else c in
  let c := if (sample_interval_ms c =? 0)%Z
           then c <| sample_interval_ms := dflt (demo_interval_ms c) 5000 |> else c in
  let c := if (demo_interval_ms c =? 0)%Z then c <| demo_interval_ms := sample_interval_ms c |> else c in
  if (probe_timeout_ms c =? 0)%Z then c <| probe_timeout_ms := 1000%Z |> else c.

(** NFLOG: opened again when it was off, unbound, or the group changes; otherwise
    retuned in place; closed when it is switched off. *)
Definition apply_tcp (env : nl_env) (old cfg : cpe_agent_config) (st : cpe_tcp_state) : cpe_tcp_state :=
  if truthy (tcp_stats_enabled cfg) then
    if negb (truthy (tcp_stats_enabled old)) || negb (tcp_nflog_group old =? tcp_nflog_group cfg)%Z ||
       (tcp_fd st <? 0)%Z
    then snd (cpe_agent_tcp_open env cfg (cpe_agent_tcp_close st))
    else
      let plen := dflt (tcp_prefix_len cfg) 24 in
      let s := tcp_snap st in
      st <| tcp_enabled := 1%Z |> <| st_prefix_len := plen |>
         <| st_emit_interval_ms := dflt (tcp_emit_interval_ms cfg) 10000 |>
         <| st_emit_top_n := dflt (tcp_emit_top_n cfg) 20 |>
         <| tcp_snap := s <| sn_prefix_len := plen |>
                          <| sn_nflog_group := dflt (tcp_nflog_group cfg) 5 |> |>
  else if truthy (tcp_stats_enabled old) then (cpe_agent_tcp_close st) <| tcp_enabled := 0%Z |>
  else st.

(** Conntrack accounting: the periods and limits, then the socket. *)
Definition flow_settings (cfg : cpe_agent_config) (st : cpe_flow_state) : cpe_flow_state :=
  let max := dflt (flow_max_flows cfg) (Z.of_nat CPE_FLOW_MAX) in
  st <| fs_poll_interval_ms := dflt (flow_poll_interval_ms cfg) 200 |>
     <| fs_dump_interval_ms := dflt (flow_dump_interval_ms cfg) 200 |>
     <| fs_sample_emit_ms := dflt (flow_sample_emit_ms cfg) 2000 |>
     <| fs_sample_top_n := dflt (flow_sample_top_n cfg) 32 |>
     <| fs_max_flows := if (Z.of_nat CPE_FLOW_MAX <? max)%Z then Z.of_nat CPE_FLOW_MAX else max |>
     <| fs_join_update := flow_join_update cfg |>
     <| fs_emit_destroy := flow_emit_destroy cfg |>
     <| fs_emit_new := flow_emit_new cfg |>.
Definition apply_flow (env : flow_env) (old cfg : cpe_agent_config) (st : cpe_flow_state) : cpe_flow_state :=
  let st := flow_settings cfg st in
  if truthy (flow_acct_enabled cfg) then
    if negb (truthy (flow_acct_enabled old)) || (fs_fd st <? 0)%Z
    then snd (cpe_agent_flow_open env (cpe_agent_flow_close st))
    else st <| fs_enabled := 1%Z |>
  else if truthy (flow_acct_enabled old) then (cpe_agent_flow_close st) <| fs_enabled := 0%Z |>
  else st.

Section agent.
Context {P C : Type} `{!PingLib P} {E : Type} `{!EventSource P E} `{!NfctLib C} `{!EventSource C nfct_event}
  {R : Type} `{!NfLib R}.
Local Abbreviation agent := (agent P C).

Definition push_event (a : agent) (t : cpe_agent_event_type) (reason : string) : agent :=
  a <| ag_q := snd (eq_push (ag_q a) t (Some reason) 0 0) |>.

(** ** Life cycle

    [calloc_agent] is whether the structure itself could be allocated; [calloc] answers
    the allocation gate. *)
Definition cpe_agent_create (calloc_agent : bool) (calloc : Z -> option addr) (h : alloc_stats)
    : option agent * alloc_stats :=
  if negb calloc_agent then (None, h)
  else match ping_create with
  | None => (None, h)
  | Some ping =>
      match nfct_create with
      | None => (None, h)
      | Some nfct =>
          let cfg := cpe_agent_config_defaults in
          let '(rc, q, h) := ensure_spool calloc queues_zero h (Z.to_nat (spool_max_lines cfg)) in
          if negb (rc =? 0)%Z then (None, h)
          else (Some {| ag_cfg := cfg; ag_q := q; ag_last := None; ag_last_wifi := None;
                        ag_last_trace := None; ag_ping := ping; ag_nfct := nfct; ag_nfct_obs := 0;
                        ag_tcp := cpe_tcp_state_init; ag_flow := cpe_flow_state_init |}, h)
      end
  end.

(** The descriptors closed, and the gate's counters. *)
Definition cpe_agent_destroy (a : option agent) (h : alloc_stats) : list Z * alloc_stats :=
  match a with
  | None => ([], h)
  | Some a =>
      (filter (fun fd => (0 <= fd)%Z) [tcp_fd (ag_tcp a); fs_fd (ag_flow a); fs_dump_fd (ag_flow a)],
       snd (free_spool (ag_q a) h))
  end.

Definition cpe_agent_apply_config (env : open_env) (calloc : Z -> option addr) (h : alloc_stats)
    (a : agent) (cfg : cpe_agent_config) : Z * agent * alloc_stats :=
  let shadow := normalise cfg in
  let '(rc, err) := cpe_agent_config_validate (Some shadow) (Some (128, EmptyString)) in
  if negb (rc =? 0)%Z
  then ((-1)%Z, push_event a CPE_AGENT_EVENT_CONFIG_REJECTED (err_text err), h)
  else
    let cap := Z.to_nat (spool_max_lines shadow) in
    let '(rc, q, h) := if negb (cap =? spool_cap (ag_q a)) then ensure_spool calloc (ag_q a) h cap
                       else (0%Z, ag_q a, h) in
    let a := a <| ag_q := q |> in
    if negb (rc =? 0)%Z
    then ((-1)%Z, push_event a CPE_AGENT_EVENT_CONFIG_REJECTED "spool alloc", h)
    else
      let old := ag_cfg a in
      let cfg := shadow <| generation := u64 (generation old + 1) |> in
      let a := a <| ag_cfg := cfg |>
                 <| ag_tcp := apply_tcp (oe_nflog env) old cfg (ag_tcp a) |>
                 <| ag_flow := apply_flow (oe_flow env) old cfg (ag_flow a) |> in
      (0%Z, push_event a CPE_AGENT_EVENT_CONFIG_APPLIED "ok", h).

(** ** Samples *)

(** [synth_icmp_echo_reply]; a buffer below eight bytes is left alone. *)
Definition synth_icmp_echo_reply (n : nat) (old : list Z) (seq : Z) : list Z :=
  if n <? 8 then old
  else <[7 := Z.land seq 255]> (<[6 := Z.land (Z.shiftr seq 8) 255]> (replicate n 0%Z)).

(** [ping_feed_input_with_ts], [ping_process] and the drain of the ping's events. *)
Definition ping_round (ping : P) (frame : list Z) (ts : Z) : Z * P :=
  let '(rc, ping) := ping_feed_input_with_ts ping frame (dflt ts 1) in
  if negb (rc =? 0)%Z then ((-1)%Z, ping)
  else
    let '(_, ping) := ping_process ping (if truthy ts then u64 (ts + 1) else 1%Z) in
    (0%Z, snd (pull_all (E := E) ping)).

Definition demo_sample_of (cfg : cpe_agent_config) (st : ping_stats) (clk : clock) : cpe_perf_sample := {|
  ps_probe := snprintf_s CPE_PERF_PROBE_MAX "ping";
  ps_target := snprintf_s CPE_PERF_TARGET_MAX (demo_target cfg);
  ps_rtt_ms := d_of_Z (dflt (pg_avg_latency_ms st) 5);
  ps_loss := f_div (pg_loss_pct st) (f_const 100 0);
  ps_ts_iso := AgentCoreClock.iso_now clk CPE_PERF_TS_MAX;
  ps_meta := snprintf_s CPE_PERF_META_MAX
    (lit "{'replies':" +:+ fmt_u (pg_replies st) +:+ lit ",'timeouts':" +:+ fmt_u (pg_timeouts st) +:+
     lit ",'demo':true}") |}.

(** Formatting a sample and pushing its line, as every sample producer does. *)
Definition push_perf (cfg : cpe_agent_config) (q : queues) (s : cpe_perf_sample) : Z * queues :=
  let '(n, line) := cpe_perf_format_ndjson (Some (router_id cfg)) s CPE_NDJSON_LINE_MAX in
  if (n <? 0)%Z then ((-1)%Z, q)
  else let '(rc, q) := cpe_agent_spool_push_line q line in (if negb (rc =? 0)%Z then (-1)%Z else 0%Z, q).

(** The tail of the demo tick: keep the sample, push its line, announce it. *)
Definition emit_perf (a : agent) (s : cpe_perf_sample) (reason : string) : Z * agent :=
  let a := a <| ag_last := Some s |> in
  let '(rc, q) := push_perf (ag_cfg a) (ag_q a) s in
  let a := a <| ag_q := q |> in
  if negb (rc =? 0)%Z then ((-1)%Z, a)
  else (0%Z, push_event a CPE_AGENT_EVENT_SAMPLE_READY reason).

(** [seq] is the function's static counter. *)
Definition cpe_agent_demo_ping_tick (a : agent) (seq : Z) (clk : clock) : Z * agent * Z :=
  let now_ms := mono_ms clk in
  let seq := u16 (seq + 1) in
  let '(rc, ping) := ping_round (ag_ping a) (synth_icmp_echo_reply 16 [] seq) now_ms in
  let a := a <| ag_ping := ping |> in
  if negb (rc =? 0)%Z then ((-1)%Z, a, seq)
  else match ping_get_stats ping with
  | None => ((-1)%Z, a, seq)
  | Some st =>
      let '(rc, a) := emit_perf a (demo_sample_of (ag_cfg a) st clk) "demo ping" in (rc, a, seq)
  end.

Definition cpe_agent_last_sample (a : agent) : Z * option cpe_perf_sample :=
  match ag_last a with Some s => (0%Z, Some s) | None => ((-1)%Z, None) end.
Definition cpe_agent_set_last_sample (a : agent) (s : cpe_perf_sample) : agent :=
  push_event (a <| ag_last := Some s |>) CPE_AGENT_EVENT_SAMPLE_READY "sample".
Definition cpe_agent_set_last_wifi (a : agent) (s : cpe_wifi_snapshot) : agent :=
  a <| ag_last_wifi := Some s |>.
Definition cpe_agent_last_wifi (a : agent) : Z * option cpe_wifi_snapshot :=
  match ag_last_wifi a with Some s => (0%Z, Some s) | None => ((-1)%Z, None) end.
Definition cpe_agent_set_last_trace (a : agent) (r : cpe_trace_result) : agent :=
  a <| ag_last_trace := Some r |>.
Definition cpe_agent_last_trace (a : agent) : Z * option cpe_trace_result :=
  match ag_last_trace a with Some r => (0%Z, Some r) | None => ((-1)%Z, None) end.

Definition cpe_agent_feed_icmp_echo_reply (a : agent) (icmp : list Z) (ts_ms : Z) : Z * agent :=
  if length icmp <? 8 then ((-1)%Z, a)
  else let '(rc, ping) := ping_round (ag_ping a) icmp ts_ms in (rc, a <| ag_ping := ping |>).

Definition latency_text (a : agent) (s : cpe_perf_sample) : string :=
  lit "{'available':true,'router_id':'" +:+ str_dflt (router_id (ag_cfg a)) "unknown" +:+
  lit "','probe':'" +:+ ps_probe s +:+ lit "','target':'" +:+ ps_target s +:+
  lit "','rtt_ms':" +:+ fmt_f 3 (ps_rtt_ms s) +:+ lit ",'loss':" +:+ fmt_f 4 (d_of_f (ps_loss s)) +:+
  lit ",'ts':'" +:+ ps_ts_iso s +:+ lit "'}".
Definition cpe_agent_get_local_latency_json (a : agent) (buflen : nat) : Z * string :=
  if buflen <? 16 then ((-1)%Z, EmptyString)
  else match ag_last a with
  | None => snprintf_checked buflen (lit "{'available':false}")
  | Some s => snprintf_checked buflen (latency_text a s)
  end.

(** ** The conntrack feed *)
Definition feed_obs (ts_ms : Z) (acc : Z * agent) (nev : nfct_event) : Z * agent :=
  let '(count, a) := acc in
  let '(rc, obs) := nf_obs_from_nfct (R := R) nev (Some (router_id (ag_cfg a))) ts_ms in
  if negb (rc =? 0)%Z then acc
  else
    let '(rc, line) := nf_obs_format obs CPE_NDJSON_LINE_MAX in
    if negb (rc =? 0)%Z then acc
    else
      let '(rc, q) := cpe_agent_spool_push_line (ag_q a) line in
      let a := a <| ag_q := q |> in
      if (rc =? 0)%Z then ((count + 1)%Z, a <| ag_nfct_obs := u64 (ag_nfct_obs a + 1) |>) else (count, a).

(** The result of [nfct_feed_input] is ignored. *)
Definition cpe_agent_feed_nfct (a : agent) (data : list Z) (ts_ms : Z) : Z * agent :=
  if length data =? 0 then ((-1)%Z, a)
  else
    let '(_, ctx) := nfct_feed_input (ag_nfct a) data in
    let '(evs, ctx) := pull_all (E := nfct_event) ctx in
    foldl (feed_obs ts_ms) (0%Z, a <| ag_nfct := ctx |>) evs.
Definition cpe_agent_nfct_obs_count (a : agent) : Z := ag_nfct_obs a.

(** ** Flushing *)
Definition opt_str (s : string) : option string := if nonempty s then Some s else None.
Definition http_request_of (cfg : cpe_agent_config) (body : string) : http_request := {|
  hr_url := https_url cfg; hr_body := body;
  hr_username := opt_str (egress_user cfg); hr_password := egress_password cfg;
  hr_ca_file := opt_str (tls_ca_file cfg); hr_cert_file := opt_str (tls_cert_file cfg);
  hr_key_file := opt_str (tls_key_file cfg);
  hr_tls_insecure := if truthy (egress_tls_insecure cfg) then 1 else 0 |}.

Definition flush_http (env : emit_env) (a : agent) : Z * agent :=
  if spool_cnt (ag_q a) =? 0 then (0%Z, a)
  else
    let '(body, n) := http_batch (ag_q a) in
    if n =? 0 then ((-1)%Z, a)
    else if negb (ee_post env (http_request_of (ag_cfg a) body)) then ((-1)%Z, a)
    else (Z.of_nat n, a <| ag_q := drop_sent (ag_q a) n |>).

(** The spool file: its directory, its opening in append mode, the flush, its closing. *)
Definition flush_file {FS : Type} `{!FileSystem FS} (env : emit_env) (fs : FS) (a : agent)
    : Z * agent * list string * FS :=
  if negb (nonempty (spool_path (ag_cfg a))) then ((-1)%Z, a, [], fs)
  else
    let '(_, fs) := cpe_spool_ensure_parent_dir (Some (spool_path (ag_cfg a))) fs in
    if negb (ee_fopen env (spool_path (ag_cfg a))) then ((-1)%Z, a, [], fs)
    else
      let '(n, q, out) := cpe_agent_spool_flush (ee_fprintf env) (ee_fflush env) (ag_q a) in
      (if negb (ee_fclose env) && (0 <=? n)%Z then (-1)%Z else n, a <| ag_q := q |>, out, fs).

(** The result, the agent, the lines printed (to the file or to standard output) and the
    file system. *)
Definition cpe_agent_emit_flush {FS : Type} `{!FileSystem FS} (env : emit_env) (fs : FS) (a : agent)
    : Z * agent * list string * FS :=
  if streq (emit_mode (ag_cfg a)) "https" || streq (emit_mode (ag_cfg a)) "http" then
    let '(rc, a) := flush_http env a in (rc, a, [], fs)
  else if streq (emit_mode (ag_cfg a)) "spool" then flush_file env fs a
  else
    let '(n, q, out) := cpe_agent_spool_flush (ee_fprintf env) (ee_fflush env) (ag_q a) in
    (n, a <| ag_q := q |>, out, fs).

(** ** Reloading

    [load] is [cpe_agent_config_load_yaml_path] with the library, the file system and the
    allocator it uses. *)
Section reload.
Context (load : option string -> errbuf -> Z * option cpe_agent_config * errbuf).

(** The configuration to apply, before the override: the file's, or the current one. *)
Definition reload_source (a : agent) (config_path : option string) (err : errbuf)
    : Z * cpe_agent_config * errbuf :=
  let current := (0%Z, (ag_cfg a) <| generation := 0%Z |>, err) in
  match config_path with
  | Some p =>
      if nonempty p then
        let '(rc, c, err) := load (Some p) err in (rc, default cpe_agent_config_defaults c, err)
      else current
  | None => current
  end.

Definition cpe_agent_reload_config (env : open_env) (calloc : Z -> option addr) (h : alloc_stats)
    (a : agent) (config_path router_id_override : option string) (err : errbuf)
    : Z * agent * alloc_stats * errbuf :=
  let '(rc, cfg, err) := reload_source a config_path err in
  if negb (rc =? 0)%Z then ((-1)%Z, a, h, err)
  else
    let override := match router_id_override with Some r => opt_str r | None => None end in
    if match override with Some r => CPE_CFG_ROUTER_ID_MAX <=? strlen r | None => false end
    then ((-1)%Z, a, h, err_set err "router_id too long")
    else
      let cfg := match override with
                 | Some r => cfg <| router_id := snprintf_s CPE_CFG_ROUTER_ID_MAX r |>
                 | None => cfg
                 end in
      let '(rc, a, h) := cpe_agent_apply_config env calloc h a cfg in
      if negb (rc =? 0)%Z
      then ((-1)%Z, a, h, if nonempty (err_text err) then err else err_set err "apply_config rejected")
      else (0%Z, a, h, err).
End reload.
End agent.
