(* ===== verification/AgentConfig.v ===== *)
(** * What applying and reloading a configuration does (src/agent/agent_core.c)

    The outcomes of [cpe_agent_apply_config], the settings it leaves in force, and the
    behaviour of [cpe_agent_reload_config]. *)

From S2P Require Import Prelude CStr Clock HostAlloc Config Spool Events PerfSample NfFlow Nflog.
From S2P Require Import TcpStats TcpEmit TcpInv Nfct FlowEntry FlowTable FlowAcct AgentData Agent.

(** ** Normalisation *)
Lemma normalise_intervals c :
  sample_interval_ms (normalise c) <> 0%Z /\ demo_interval_ms (normalise c) <> 0%Z /\
  probe_timeout_ms (normalise c) <> 0%Z /\ spool_max_lines (normalise c) <> 0%Z.
Proof.
  unfold normalise.
  destruct (spool_max_lines c =? 0)%Z eqn:E1; cbn; destruct (sample_interval_ms c =? 0)%Z eqn:E2; cbn;
    destruct (demo_interval_ms c =? 0)%Z eqn:E3; cbn; destruct (probe_timeout_ms c =? 0)%Z eqn:E4; cbn;
    rewrite ?Z.eqb_neq, ?Z.eqb_eq in *; unfold dflt, truthy; rewrite ?E3; cbn;
    try (rewrite (proj2 (Z.eqb_neq (demo_interval_ms c) 0)) by done; cbn); split_and!; done.
Qed.

Lemma normalise_fixed c :
  sample_interval_ms c <> 0%Z -> demo_interval_ms c <> 0%Z -> probe_timeout_ms c <> 0%Z ->
  spool_max_lines c <> 0%Z -> normalise c = c.
Proof.
  intros H1%Z.eqb_neq H2%Z.eqb_neq H3%Z.eqb_neq H4%Z.eqb_neq.
  unfold normalise. by rewrite H4, H1, H2, H3.
Qed.
Lemma normalise_idempotent c : normalise (normalise c) = normalise c.
Proof. destruct (normalise_intervals c) as (?&?&?&?). by apply normalise_fixed. Qed.

(** ** Outcomes *)
Definition logged (q q' : queues) (t : cpe_agent_event_type) (reason : string) : Prop :=
  events q' = (if CPE_EVENT_Q <=? length (events q) then events q
               else events q ++ [mk_event t (Some reason) 0 0]).

Lemma ensure_spool_events calloc q h cap :
  fst (fst (ensure_spool calloc q h cap)) = 0%Z -> events (snd (fst (ensure_spool calloc q h cap))) = events q.
Proof.
  unfold ensure_spool. destruct (_ && _); [done|]. unfold spool_alloc, free_spool.
  by destruct (cpe_host_alloc _ _ _) as [[nb|] h2].
Qed.

Section outcomes.
Context {P C : Type}.
Local Abbreviation agent := (agent P C).

Lemma push_event_spec (a : agent) t r :
  queues_wf (ag_q a) ->
  queues_wf (ag_q (push_event a t r)) /\ same_spool (ag_q a) (ag_q (push_event a t r)) /\
  logged (ag_q a) (ag_q (push_event a t r)) t r.
Proof.
  intros Hwf. pose proof (eq_push_spec (ag_q a) t (Some r) 0 0 Hwf) as H. unfold push_event. cbn.
  destruct (eq_push _ _ _ _ _) as [rc q]. by destruct H as (H1 & H2 & H3 & _).
Qed.

(** The bytes of a spool of [cap] lines. *)
Definition spool_bytes (cap : nat) : Z := u64 (Z.of_nat cap * Z.of_nat CPE_SPOOL_LINE).

(** The three ways an [apply_config] ends. *)
Inductive apply_outcome (env : open_env) (calloc : Z -> option addr) (h : alloc_stats) (a : agent) (cfg : cpe_agent_config)
    : Z -> agent -> alloc_stats -> Prop :=
  | ApplyInvalid reason :
      ~ config_valid (normalise cfg) -> reason <> EmptyString ->
      apply_outcome env calloc h a cfg (-1) (push_event a CPE_AGENT_EVENT_CONFIG_REJECTED reason) h
  | ApplyNoMemory a' h' :
      config_valid (normalise cfg) ->
      spool_cap (ag_q a) <> Z.to_nat (spool_max_lines (normalise cfg)) ->
      calloc (spool_bytes (Z.to_nat (spool_max_lines (normalise cfg)))) = None ->
      spool (ag_q a') = None -> pending (ag_q a') = [] ->
      ag_cfg a' = ag_cfg a -> ag_tcp a' = ag_tcp a -> ag_flow a' = ag_flow a ->
      apply_outcome env calloc h a cfg (-1) a' h'
  | ApplyAccepted a' h' :
      config_valid (normalise cfg) ->
      let cap := Z.to_nat (spool_max_lines (normalise cfg)) in
      let new := (normalise cfg) <| generation := u64 (generation (ag_cfg a) + 1) |> in
      ag_cfg a' = new -> spool (ag_q a') <> None -> spool_cap (ag_q a') = cap ->
      pending (ag_q a') = (if spool_cap (ag_q a) =? cap then pending (ag_q a) else []) ->
      logged (ag_q a) (ag_q a') CPE_AGENT_EVENT_CONFIG_APPLIED "ok" ->
      ag_tcp a' = apply_tcp (oe_nflog env) (ag_cfg a) new (ag_tcp a) ->
      ag_flow a' = apply_flow (oe_flow env) (ag_cfg a) new (ag_flow a) ->
      apply_outcome env calloc h a cfg 0 a' h'.

Lemma normalise_lines_nonneg c : (0 <= spool_max_lines c)%Z -> (0 <= spool_max_lines (normalise c))%Z.
Proof.
  intros H. unfold normalise. destruct (spool_max_lines c =? 0)%Z; cbn;
    destruct (sample_interval_ms c =? 0)%Z; cbn; destruct (demo_interval_ms c =? 0)%Z; cbn;
    destruct (probe_timeout_ms c =? 0)%Z; cbn; unfold CPE_CFG_SPOOL_DEFAULT; lia.
Qed.

Lemma ensure_spool_fails calloc q h cap :
  0 < cap <= Z.to_nat 1024 -> fst (fst (ensure_spool calloc q h cap)) <> 0%Z -> calloc (spool_bytes cap) = None.
Proof.
  intros Hc. unfold ensure_spool. rewrite (proj2 (Nat.eqb_neq cap 0)) by lia.
  destruct (_ && _); [done|]. unfold spool_alloc, free_spool. fold (spool_bytes cap).
  unfold cpe_host_alloc. destruct (Z.eqb_spec (spool_bytes cap) 0) as [E|_].
  - exfalso. revert E. unfold spool_bytes, CPE_SPOOL_LINE, CPE_NDJSON_LINE_MAX. word_lia.
  - by destruct (calloc (spool_bytes cap)).
Qed.

(** The spool a valid configuration gets. *)
Lemma resize_cases calloc q h cap :
  queues_wf q -> 0 < cap <= Z.to_nat 1024 ->
  let '(rc, q', _) := if negb (cap =? spool_cap q) then ensure_spool calloc q h cap else (0%Z, q, h) in
  queues_wf q' /\
  ((rc <> 0%Z /\ spool_cap q <> cap /\ calloc (spool_bytes cap) = None /\ spool q' = None /\ pending q' = []) \/
   (rc = 0%Z /\ spool q' <> None /\ spool_cap q' = cap /\
    pending q' = (if spool_cap q =? cap then pending q else []) /\ events q' = events q)).
Proof.
  intros Hwf Hcap. rewrite (Nat.eqb_sym cap). destruct (Nat.eqb_spec (spool_cap q) cap) as [E|E]; cbn [negb].
  - split; [done|]. right. split_and!; try done. intros Hn.
    pose proof (wf_spool_len _ Hwf) as Hl. unfold spool_lines in Hl. rewrite Hn in Hl. simpl in Hl. lia.
  - pose proof (ensure_spool_spec calloc q h cap Hwf) as H.
    pose proof (ensure_spool_events calloc q h cap) as He.
    pose proof (ensure_spool_fails calloc q h cap Hcap) as Hf.
    destruct (ensure_spool calloc q h cap) as [[rc q'] h']. cbn [fst snd] in He, Hf. cbn zeta in H.
    rewrite (proj2 (Nat.eqb_neq cap 0)) in H by lia. destruct H as (Hw & _ & Hrc & Hkeep).
    split; [done|]. destruct Hkeep as [(_ & ? & _)|[_ Hp]]; [done|].
    destruct Hrc as [(-> & Hs & Hc)|(-> & Hs & Hc)].
    + right. split_and!; auto. intros Hn. unfold has_spool in Hs. by rewrite Hn in Hs.
    + left. split_and!; auto. unfold has_spool in Hs. by destruct (spool q').
Qed.

Lemma apply_config_cases env calloc h (a : agent) cfg :
  queues_wf (ag_q a) -> (0 <= spool_max_lines cfg)%Z ->
  let '(rc, a', h') := cpe_agent_apply_config env calloc h a cfg in
  queues_wf (ag_q a') /\ apply_outcome env calloc h a cfg rc a' h'.
Proof.
  intros Hwf Hl. unfold cpe_agent_apply_config.
  destruct (validate_cases (normalise cfg) (Some (128, EmptyString)) (normalise_lines_nonneg _ Hl)) as [Hv Hr].
  destruct (cpe_agent_config_validate _ _) as [rc err]. cbn [fst snd] in Hv, Hr.
  destruct (Z.eqb_spec rc 0) as [->|Hrc]; cbn [negb].
  2:{ destruct (Hr Hrc) as [_ Hne]. split; [by apply push_event_spec|].
      apply ApplyInvalid; [by rewrite <- Hv|]. apply (Hne 128); [done|lia]. }
  pose proof (proj1 Hv eq_refl) as Hvalid. pose proof (valid_lines _ Hvalid) as Hlines.
  set (cap := Z.to_nat (spool_max_lines (normalise cfg))).
  pose proof (resize_cases calloc (ag_q a) h cap Hwf ltac:(unfold cap; lia)) as Hres.
  destruct (if negb _ then _ else _) as [[rc2 q] h2].
  destruct Hres as [Hw [(Hn & Hne & Hcl & Hs & Hp)|(-> & Hs & Hc & Hp & He)]].
  - rewrite (proj2 (Z.eqb_neq _ _) Hn). cbn [negb].
    match goal with |- context [push_event ?b _ _] => set (a1 := b) end.
    destruct (push_event_spec a1 CPE_AGENT_EVENT_CONFIG_REJECTED "spool alloc" Hw) as (Hw' & Hss & _).
    split; [done|]. apply ApplyNoMemory; try done.
    + destruct Hss as (-> & _). done.
    + by rewrite (same_spool_pending _ _ Hss).
  - cbn [Z.eqb negb].
    match goal with |- context [push_event ?b _ _] => set (a1 := b) end.
    destruct (push_event_spec a1 CPE_AGENT_EVENT_CONFIG_APPLIED "ok" Hw) as (Hw' & Hss & Hlog).
    split; [done|]. pose proof (same_spool_pending _ _ Hss) as Hp'.
    destruct Hss as (S1 & S2 & _).
    apply ApplyAccepted; try done.
    + by rewrite S1.
    + by rewrite S2.
    + by rewrite Hp'.
    + unfold logged in *. rewrite Hlog. change (ag_q a1) with q. by rewrite He.
Qed.

(** C20: Applying a configuration has exactly three outcomes.  An invalid one (after its
    zero fields are defaulted) changes nothing but the event queue.  A valid one is
    refused only when the spool's size changes and its memory cannot be had; the old
    configuration stays, but the old spool is gone.  Otherwise it is installed with the
    next generation number, the spool has the configured capacity (its lines kept when
    the size is unchanged, lost when it is not), the sockets follow, and the queue
    announces it. *)
Theorem apply_config_outcomes env calloc h (a : agent) cfg :
  queues_wf (ag_q a) -> (0 <= spool_max_lines cfg)%Z ->
  let '(rc, a', h') := cpe_agent_apply_config env calloc h a cfg in
  queues_wf (ag_q a') /\ apply_outcome env calloc h a cfg rc a' h'.
Proof. exact (apply_config_cases env calloc h a cfg). Qed.

(** ** The sockets and periods in force *)

(** A switched-off collector holds no socket, an NFLOG socket is bound to the configured
    group, and the flow table's limit and periods are usable. *)
Record settings_wf (cfg : cpe_agent_config) (tcp : cpe_tcp_state) (flow : cpe_flow_state) : Prop := {
  sw_tcp_off : truthy (tcp_stats_enabled cfg) = false -> (tcp_fd tcp < 0)%Z /\ tcp_enabled tcp = 0%Z;
  sw_tcp_group : group_ok cfg tcp;
  sw_flow_off : truthy (flow_acct_enabled cfg) = false ->
    (fs_fd flow < 0)%Z /\ (fs_dump_fd flow < 0)%Z /\ fs_enabled flow = 0%Z;
  sw_max_flows : (1 <= fs_max_flows flow <= 1024)%Z;
  sw_periods : fs_dump_interval_ms flow <> 0%Z /\ fs_sample_emit_ms flow <> 0%Z /\
    fs_sample_top_n flow <> 0%Z;
}.

Lemma tcp_close_fd st : (tcp_fd (cpe_agent_tcp_close st) < 0)%Z.
Proof. unfold cpe_agent_tcp_close. destruct (Z.leb_spec 0 (tcp_fd st)); cbn; lia. Qed.

Lemma apply_tcp_settings env old cfg st :
  (truthy (tcp_stats_enabled old) = false -> (tcp_fd st < 0)%Z /\ tcp_enabled st = 0%Z) ->
  ((0 <= tcp_fd st)%Z -> tcp_group st = dflt (tcp_nflog_group old) 5) ->
  let st' := apply_tcp env old cfg st in
  (truthy (tcp_stats_enabled cfg) = false -> (tcp_fd st' < 0)%Z /\ tcp_enabled st' = 0%Z) /\
  ((0 <= tcp_fd st')%Z -> tcp_group st' = dflt (tcp_nflog_group cfg) 5).
Proof.
  intros Hoff Hgrp. cbv zeta. unfold apply_tcp. pose proof (tcp_close_fd st) as Hc.
  destruct (truthy (tcp_stats_enabled cfg)).
  - split; [done|]. destruct (_ || _) eqn:E; [by apply tcp_open_group|].
    apply orb_false_iff in E as [E _]. apply orb_false_iff in E as [_ E].
    apply negb_false_iff, Z.eqb_eq in E. rewrite <- E. exact Hgrp.
  - destruct (truthy (tcp_stats_enabled old)); [split; [done|intros Hge; by destruct (Zlt_not_le _ _ Hc)]|].
    destruct (Hoff eq_refl). split; [done|lia].
Qed.

Lemma flow_open_settings env st :
  let st' := snd (cpe_agent_flow_open env st) in
  fs_max_flows st' = fs_max_flows st /\ fs_dump_interval_ms st' = fs_dump_interval_ms st /\
  fs_sample_emit_ms st' = fs_sample_emit_ms st /\ fs_sample_top_n st' = fs_sample_top_n st.
Proof.
  unfold cpe_agent_flow_open. destruct (0 <=? fs_fd st)%Z; [done|]. cbv zeta. by destruct (_ <? 0)%Z.
Qed.

(** Opening, closing and retuning leave the table and the counters alone. *)
Lemma apply_flow_table env old cfg st :
  let st' := apply_flow env old cfg st in
  fs_table st' = fs_table st /\ fs_table_used st' = fs_table_used st /\ fs_events_in st' = fs_events_in st /\
  fs_destroys_emitted st' = fs_destroys_emitted st /\ fs_samples_emitted st' = fs_samples_emitted st.
Proof.
  cbv zeta. unfold apply_flow. destruct (truthy (flow_acct_enabled cfg)).
  - destruct (_ || _); [|done].
    destruct (flow_open_books env (cpe_agent_flow_close (flow_settings cfg st))) as (E1 & E2 & E3 & E4 & E5 & _).
    rewrite E1, E2, E3, E4, E5. done.
  - by destruct (truthy _).
Qed.

Lemma apply_flow_settings env old cfg st :
  (0 <= flow_max_flows cfg)%Z ->
  (truthy (flow_acct_enabled old) = false ->
    (fs_fd st < 0)%Z /\ (fs_dump_fd st < 0)%Z /\ fs_enabled st = 0%Z) ->
  let st' := apply_flow env old cfg st in
  (truthy (flow_acct_enabled cfg) = false ->
    (fs_fd st' < 0)%Z /\ (fs_dump_fd st' < 0)%Z /\ fs_enabled st' = 0%Z) /\
  fs_max_flows st' = Z.min 1024 (dflt (flow_max_flows cfg) 1024) /\
  fs_dump_interval_ms st' = dflt (flow_dump_interval_ms cfg) 200 /\
  fs_sample_emit_ms st' = dflt (flow_sample_emit_ms cfg) 2000 /\
  fs_sample_top_n st' = dflt (flow_sample_top_n cfg) 32.
Proof.
  intros Hm Hoff. cbv zeta. unfold apply_flow.
  assert (Hs : fs_max_flows (flow_settings cfg st) = Z.min 1024 (dflt (flow_max_flows cfg) 1024)).
  { unfold flow_settings. cbn -[Z.min Z.of_nat Z.ltb CPE_FLOW_MAX].
    change (Z.of_nat CPE_FLOW_MAX) with 1024%Z. destruct (Z.ltb_spec 1024 (dflt (flow_max_flows cfg) 1024)); lia. }
  destruct (truthy (flow_acct_enabled cfg)).
  - split; [done|]. destruct (_ || _); [|done].
    destruct (flow_open_settings env (cpe_agent_flow_close (flow_settings cfg st))) as (-> & -> & -> & ->). done.
  - destruct (truthy (flow_acct_enabled old)); [done|]. destruct (Hoff eq_refl) as (? & ? & ?). done.
Qed.

(** Normalisation only touches its four fields. *)
Lemma normalise_frame {X} (f : cpe_agent_config -> X) c :
  (forall c v, f (c <| spool_max_lines := v |>) = f c) ->
  (forall c v, f (c <| sample_interval_ms := v |>) = f c) ->
  (forall c v, f (c <| demo_interval_ms := v |>) = f c) ->
  (forall c v, f (c <| probe_timeout_ms := v |>) = f c) -> f (normalise c) = f c.
Proof.
  intros H1 H2 H3 H4. unfold normalise. cbv zeta.
  repeat match goal with
         | |- context [if ?b then ?x <| probe_timeout_ms := _ |> else _] =>
             destruct b; rewrite ?H4
         | |- context [if ?b then _ else _] => destruct b; rewrite ?H1, ?H2, ?H3, ?H4
         end; done.
Qed.

Lemma apply_config_settings env calloc h (a : agent) cfg :
  queues_wf (ag_q a) -> (0 <= spool_max_lines cfg)%Z -> (0 <= flow_max_flows cfg)%Z ->
  settings_wf (ag_cfg a) (ag_tcp a) (ag_flow a) ->
  let '(rc, a', _) := cpe_agent_apply_config env calloc h a cfg in
  settings_wf (ag_cfg a') (ag_tcp a') (ag_flow a') /\
  (rc = 0%Z ->
    fs_max_flows (ag_flow a') = Z.min 1024 (dflt (flow_max_flows cfg) 1024) /\
    fs_dump_interval_ms (ag_flow a') = dflt (flow_dump_interval_ms cfg) 200 /\
    fs_sample_emit_ms (ag_flow a') = dflt (flow_sample_emit_ms cfg) 2000 /\
    fs_sample_top_n (ag_flow a') = dflt (flow_sample_top_n cfg) 32 /\
    ((0 <= tcp_fd (ag_tcp a'))%Z -> tcp_group (ag_tcp a') = dflt (tcp_nflog_group cfg) 5)).
Proof.
  intros Hwf Hl Hm Hs. pose proof (apply_config_cases env calloc h a cfg Hwf Hl) as H.
  destruct (cpe_agent_apply_config env calloc h a cfg) as [[rc a'] h']. destruct H as [_ H].
  destruct H as [reason _ _|a' h' _ _ _ _ _ -> -> ->|a' h' _ cap new -> _ _ _ _ -> ->]; try done.
  pose proof (apply_tcp_settings (oe_nflog env) (ag_cfg a) new (ag_tcp a) (sw_tcp_off _ _ _ Hs)
    (sw_tcp_group _ _ _ Hs)) as [T1 T2].
  assert (Hn : forall {X} (f : cpe_agent_config -> X), f new = f (normalise cfg) -> f (normalise cfg) = f cfg ->
    f new = f cfg) by (intros X f -> ->; done).
  assert (E : flow_max_flows new = flow_max_flows cfg /\ flow_dump_interval_ms new = flow_dump_interval_ms cfg /\
    flow_sample_emit_ms new = flow_sample_emit_ms cfg /\ flow_sample_top_n new = flow_sample_top_n cfg /\
    tcp_nflog_group new = tcp_nflog_group cfg).
  { split_and!; (apply Hn; [done|by apply normalise_frame]). }
  destruct E as (E1 & E2 & E3 & E4 & E5).
  pose proof (apply_flow_settings (oe_flow env) (ag_cfg a) new (ag_flow a) ltac:(by rewrite E1)
    (sw_flow_off _ _ _ Hs)) as (F1 & F2 & F3 & F4 & F5).
  rewrite E1 in F2. rewrite E2 in F3. rewrite E3 in F4. rewrite E4 in F5. rewrite F2, F3, F4, F5.
  split; [|intros _; rewrite <- E5; by split_and!].
  assert (D : forall x d, d <> 0%Z -> dflt x d <> 0%Z) by (intros; by apply dflt_nonzero).
  constructor; [exact T1|exact T2|exact F1| |].
  - rewrite F2. pose proof (D (flow_max_flows cfg) 1024%Z ltac:(lia)) as Hd. clear - Hd Hm. unfold dflt in *.
    destruct (truthy (flow_max_flows cfg)); lia.
  - rewrite F3, F4, F5. split_and!; by apply D.
Qed.

(** C21: After any configuration attempt the sockets and periods agree with the
    configuration in force: a collector that is off holds no socket, an NFLOG socket is
    bound to the configured group, and after an accepted one the flow table's limit is the
    configured one capped at 1024 and its periods are the configured ones.  A zero period
    counts as unset: a dump interval of 0 becomes 200 ms, it does not switch dumping
    off. *)
Theorem apply_config_in_force env calloc h (a : agent) cfg :
  queues_wf (ag_q a) -> (0 <= spool_max_lines cfg)%Z -> (0 <= flow_max_flows cfg)%Z ->
  settings_wf (ag_cfg a) (ag_tcp a) (ag_flow a) ->
  let '(rc, a', _) := cpe_agent_apply_config env calloc h a cfg in
  settings_wf (ag_cfg a') (ag_tcp a') (ag_flow a') /\
  (rc = 0%Z ->
    fs_max_flows (ag_flow a') = Z.min 1024 (dflt (flow_max_flows cfg) 1024) /\
    fs_dump_interval_ms (ag_flow a') = dflt (flow_dump_interval_ms cfg) 200 /\
    fs_sample_emit_ms (ag_flow a') = dflt (flow_sample_emit_ms cfg) 2000 /\
    fs_sample_top_n (ag_flow a') = dflt (flow_sample_top_n cfg) 32 /\
    ((0 <= tcp_fd (ag_tcp a'))%Z -> tcp_group (ag_tcp a') = dflt (tcp_nflog_group cfg) 5)).
Proof. exact (apply_config_settings env calloc h a cfg). Qed.

(** While NFLOG stays bound to the same group, a new copy range is not put into force. *)
Lemma apply_tcp_keeps_copy_range env old cfg st :
  truthy (tcp_stats_enabled old) = true -> truthy (tcp_stats_enabled cfg) = true ->
  tcp_nflog_group cfg = tcp_nflog_group old -> (0 <= tcp_fd st)%Z ->
  tcp_copy_range (apply_tcp env old cfg st) = tcp_copy_range st.
Proof.
  intros H1 H2 H3 H4. unfold apply_tcp. rewrite H1, H2, H3, Z.eqb_refl.
  rewrite (proj2 (Z.ltb_ge _ _)) by done. done.
Qed.

(** ** Reloading *)

(** The configuration in force came through [apply_config] (or the defaults): it is valid,
    normalised, and the spool was allocated for it. *)
Record config_settled (a : agent) : Prop := {
  cs_valid : config_valid (ag_cfg a);
  cs_normal : normalise (ag_cfg a) = ag_cfg a;
  cs_spool : spool_cap (ag_q a) = Z.to_nat (spool_max_lines (ag_cfg a));
}.

Lemma set_generation_normal c g : normalise c = c -> normalise (c <| generation := g |>) = c <| generation := g |>.
Proof.
  intros H. destruct (normalise_intervals c) as (H1 & H2 & H3 & H4). rewrite H in *. by apply normalise_fixed.
Qed.
Lemma set_generation_valid c g : config_valid c -> config_valid (c <| generation := g |>).
Proof. intros []. by constructor. Qed.
Lemma set_router_normal c r : normalise c = c -> normalise (c <| router_id := r |>) = c <| router_id := r |>.
Proof.
  intros H. destruct (normalise_intervals c) as (H1 & H2 & H3 & H4). rewrite H in *. by apply normalise_fixed.
Qed.
Lemma set_router_valid c r : r <> EmptyString -> config_valid c -> config_valid (c <| router_id := r |>).
Proof. intros Hr []. by constructor. Qed.

(** No file is named; the configuration such a reload applies. *)
Definition no_path (path : option string) : bool :=
  match path with Some p => negb (nonempty p) | None => true end.
Definition overridden (c : cpe_agent_config) (override : option string) : cpe_agent_config :=
  match override with
  | Some r => c <| router_id := str_dflt r (router_id c) |>
  | None => c
  end.

Lemma apply_settled env calloc h (a : agent) cfg :
  queues_wf (ag_q a) -> config_valid cfg -> normalise cfg = cfg ->
  spool_cap (ag_q a) = Z.to_nat (spool_max_lines cfg) ->
  let '(rc, a', _) := cpe_agent_apply_config env calloc h a cfg in
  rc = 0%Z /\ ag_cfg a' = cfg <| generation := u64 (generation (ag_cfg a) + 1) |> /\
  pending (ag_q a') = pending (ag_q a).
Proof.
  intros Hwf Hv Hn Hc. pose proof (valid_lines _ Hv) as Hl.
  pose proof (apply_config_cases env calloc h a cfg Hwf ltac:(lia)) as H.
  destruct (cpe_agent_apply_config env calloc h a cfg) as [[rc a'] h']. destruct H as [_ H].
  destruct H as [reason Hi _|a' h' _ Hne|a' h' _ cap new -> _ _ Hp].
  - by rewrite Hn in Hi.
  - by rewrite Hn in Hne.
  - unfold cap, new in *. rewrite Hn, <- Hc, Nat.eqb_refl in Hp. by rewrite Hn.
Qed.

(** Reloading.  A file that does not load, or a router id of 64 bytes or more, leaves
    the agent exactly as it was and reports the reason.  Without a file, a settled agent
    keeps every setting but the generation number (and the router id, when one is given)
    and every pending line. *)
Theorem reload_config_spec env calloc h load (a : agent) path override err :
  queues_wf (ag_q a) -> config_settled a ->
  let '(rc, a', h', err') := cpe_agent_reload_config load env calloc h a path override err in
  let too_long := CPE_CFG_ROUTER_ID_MAX <=? strlen (default EmptyString override) in
  (no_path path = false -> fst (fst (load path err)) <> 0%Z ->
     rc = (-1)%Z /\ a' = a /\ h' = h /\ err' = snd (load path err)) /\
  (no_path path = true -> too_long = true ->
     rc = (-1)%Z /\ a' = a /\ h' = h /\ err' = err_set err "router_id too long") /\
  (no_path path = true -> too_long = false ->
     rc = 0%Z /\ pending (ag_q a') = pending (ag_q a) /\
     ag_cfg a' = (overridden (ag_cfg a) override) <| generation := u64 (generation (ag_cfg a) + 1) |>).
Proof.
  intros Hwf [Hv Hn Hc]. unfold cpe_agent_reload_config.
  destruct (no_path path) eqn:Ep.
  2:{ assert (Hsrc : reload_source load a path err =
        (fst (fst (load path err)), default cpe_agent_config_defaults (snd (fst (load path err))), snd (load path err))).
      { unfold reload_source. destruct path as [p|]; [|done]. apply negb_false_iff in Ep. rewrite Ep.
        by destruct (load (Some p) err) as [[rc c] err1]. }
      rewrite Hsrc. destruct (Z.eqb_spec (fst (fst (load path err))) 0) as [E|Hrc]; cbn [negb]; [|by split_and!].
      match goal with |- match ?m with _ => _ end => destruct m as [[[rc a'] h'] err'] end. by split_and!. }
  set (c0 := (ag_cfg a) <| generation := 0%Z |>).
  assert (Hsrc : reload_source load a path err = (0%Z, c0, err)).
  { unfold reload_source. destruct path as [p|]; [|done]. apply negb_true_iff in Ep. by rewrite Ep. }
  rewrite Hsrc. cbn [Z.eqb negb].
  pose proof (set_generation_valid _ 0%Z Hv) as Hv0. pose proof (set_generation_normal _ 0%Z Hn) as Hn0.
  fold c0 in Hv0, Hn0.
  destruct override as [r|]; cbn [default]; cbv zeta; [change (id r) with r; unfold opt_str; destruct (nonempty r) eqn:Er|].
  - destruct (CPE_CFG_ROUTER_ID_MAX <=? strlen r) eqn:El; [by split_and!|].
    rewrite snprintf_s_fits by (by apply Nat.leb_gt).
    assert (Hr : r <> EmptyString) by by destruct r.
    pose proof (apply_settled env calloc h a _ Hwf (set_router_valid c0 r Hr Hv0) (set_router_normal c0 r Hn0) Hc) as H.
    destruct (cpe_agent_apply_config env calloc h a _) as [[rc a'] h']. destruct H as (-> & E1 & E2).
    split_and!; try done. intros _ _. unfold overridden, str_dflt. by rewrite Er, E1.
  - pose proof (apply_settled env calloc h a c0 Hwf Hv0 Hn0 Hc) as H.
    destruct (cpe_agent_apply_config env calloc h a _) as [[rc a'] h']. destruct H as (-> & E1 & E2).
    destruct r; [|done]. by split_and!.
  - pose proof (apply_settled env calloc h a c0 Hwf Hv0 Hn0 Hc) as H.
    destruct (cpe_agent_apply_config env calloc h a _) as [[rc a'] h']. destruct H as (-> & E1 & E2).
    by split_and!.
Qed.
End outcomes.

(** ** Sample lines *)

(** What [push_perf] does to the spool: a line that fits its buffer is appended (unless
    there is no spool), one that does not is refused. *)
Definition perf_pushed (cfg : cpe_agent_config) (q : queues) (s : cpe_perf_sample) (rc : Z) (q' : queues) : Prop :=
  let text := perf_text (router_name (Some (router_id cfg))) s in
  spool_cap q' = spool_cap q /\
  if (strlen text <? CPE_NDJSON_LINE_MAX) && negb (spool_cap q =? 0)
  then rc = 0%Z /\ pending q' = lastn (spool_cap q) (pending q ++ [text])
  else rc = (-1)%Z /\ pending q' = pending q.

Lemma push_perf_cases cfg q s :
  queues_wf q ->
  let '(rc, q') := push_perf cfg q s in queues_wf q' /\ perf_pushed cfg q s rc q'.
Proof.
  intros Hwf. unfold push_perf, perf_pushed, cpe_perf_format_ndjson.
  set (text := perf_text _ s). change (CPE_NDJSON_LINE_MAX <? 32) with false. cbn iota.
  destruct (Nat.ltb_spec (strlen text) CPE_NDJSON_LINE_MAX) as [Hl|Hl]; cbn [andb].
  2:{ rewrite snprintf_checked_overflow by done. by split_and!. }
  rewrite snprintf_checked_ok by done. rewrite (proj2 (Z.ltb_ge _ _)) by lia.
  pose proof (sink_push_rc q text Hwf) as Hrc. pose proof (sink_push_wf q text Hwf) as Hw.
  pose proof (sink_push_cap q text Hwf) as Hcap. pose proof (sink_push_pending q text Hwf) as Hp.
  cbn [sink_push sink_pending sink_cap sink_wf queues_sink] in *.
  destruct (cpe_agent_spool_push_line q text) as [rc q']. cbn [fst snd] in *.
  split; [done|]. split; [done|]. rewrite Hp.
  destruct (Nat.eqb_spec (spool_cap q) 0) as [E0|E0]; cbn [negb]; subst rc; (split; [done|]).
  - rewrite E0. unfold lastn. rewrite Nat.sub_0_r, drop_all.
    pose proof (pending_bound _ Hwf) as Hb. destruct (pending q); simpl in *; [done|lia].
  - by rewrite stored_short.
Qed.

(** ** Instances *)

(** An agent with a four-line spool holding two lines. *)
Definition toy_agent : agent nat nat := {|
  ag_cfg := cpe_agent_config_defaults <| spool_max_lines := 4%Z |>; ag_q := spool4_ab;
  ag_last := None; ag_last_wifi := None; ag_last_trace := None; ag_ping := 0; ag_nfct := 0;
  ag_nfct_obs := 0; ag_tcp := cpe_tcp_state_init; ag_flow := cpe_flow_state_init |}.
Definition toy_open : open_env := {| oe_nflog := env_ok; oe_flow := toy_env |}.
Definition toy_calloc (n : Z) : option addr := Some 4096%Z.

Lemma apply_config_outcomes_witness :
  let '(rc, a', h') := cpe_agent_apply_config toy_open toy_calloc cpe_host_alloc_reset_stats toy_agent
                         cpe_agent_config_defaults in
  queues_wf (ag_q a') /\
  apply_outcome toy_open toy_calloc cpe_host_alloc_reset_stats toy_agent cpe_agent_config_defaults rc a' h'.
Proof.
  exact (apply_config_outcomes toy_open toy_calloc cpe_host_alloc_reset_stats toy_agent
    cpe_agent_config_defaults spool4_ab_wf ltac:(vm_compute; discriminate)).
Defined.

Lemma toy_settings_wf : settings_wf (ag_cfg toy_agent) (ag_tcp toy_agent) (ag_flow toy_agent).
Proof. constructor; repeat split; try (vm_compute; discriminate); by vm_compute. Qed.

Definition toy_zero_dump : cpe_agent_config := cpe_agent_config_defaults <| flow_dump_interval_ms := 0%Z |>.
Lemma apply_config_in_force_witness :
  let '(rc, a', _) := cpe_agent_apply_config toy_open toy_calloc cpe_host_alloc_reset_stats toy_agent
                        toy_zero_dump in
  rc = 0%Z -> fs_dump_interval_ms (ag_flow a') = 200%Z.
Proof.
  pose proof (apply_config_in_force toy_open toy_calloc cpe_host_alloc_reset_stats toy_agent toy_zero_dump
    spool4_ab_wf ltac:(vm_compute; discriminate) ltac:(vm_compute; discriminate) toy_settings_wf) as H.
  destruct (cpe_agent_apply_config _ _ _ _ _) as [[rc a'] h'].
  intros Hrc. exact (proj1 (proj2 (proj2 H Hrc))).
Defined.

Lemma toy_settled : config_settled toy_agent.
Proof.
  constructor; [|reflexivity|vm_compute; reflexivity].
  destruct (validate_cases (ag_cfg toy_agent) None ltac:(vm_compute; discriminate)) as [H _].
  apply H. vm_compute. reflexivity.
Qed.
Lemma reload_config_spec_witness :
  let '(rc, a', _, _) := cpe_agent_reload_config (fun _ e => ((-1)%Z, None, e)) toy_open toy_calloc
    cpe_host_alloc_reset_stats toy_agent None (Some "cpe-7"%string) None in
  rc = 0%Z /\ pending (ag_q a') = pending (ag_q toy_agent) /\ router_id (ag_cfg a') = "cpe-7"%string.
Proof.
  pose proof (reload_config_spec toy_open toy_calloc cpe_host_alloc_reset_stats
    (fun _ e => ((-1)%Z, None, e)) toy_agent None (Some "cpe-7"%string) None spool4_ab_wf toy_settled) as H.
  destruct (cpe_agent_reload_config _ _ _ _ _ _ _ _) as [[[rc a'] h'] err'].
  destruct H as (_ & _ & H). destruct (H eq_refl eq_refl) as (H1 & H2 & H3).
  split; [exact H1|]. split; [exact H2|]. rewrite H3. reflexivity.
Defined.
