(* ===== verification/Icmp.v ===== *)
(** * ICMP echo packets (src/agent/live_ping.c; identical in live_trace.c)

    The Internet checksum over native 16-bit words (little endian, as everywhere in this
    development), the echo request both probes send, and the location of the ICMP message
    in a received packet.  The functions are static and textually the same in the two
    files. *)

From S2P Require Import Prelude CStr Inet Clock Nflog.

(** ** The checksum *)
Fixpoint sum_words (data : list Z) (sum : Z) : Z :=
  match data with
  | b0 :: b1 :: data' => sum_words data' (u32 (sum + le_word16 b0 b1))
  | [b] => u32 (sum + b)
  | [] => sum
  end.
(** [while (sum >> 16)]: two rounds are enough for 32 bits, the third only tests. *)
Fixpoint fold_carry (fuel : nat) (sum : Z) : Z :=
  match fuel with
  | O => sum
  | S f =>
      if truthy (Z.shiftr sum 16)
      then fold_carry f (u32 (Z.land sum 65535 + Z.shiftr sum 16)) else sum
  end.
Definition icmp_cksum (data : list Z) : Z := u16 (Z.lnot (fold_carry 3 (sum_words data 0))).

(** ** The request: type 8, identifier and sequence in network order, eight letters *)
Definition echo_payload : list Z := [99; 112; 101; 97; 103; 101; 110; 116]%Z.   (* "cpeagent" *)
Definition echo_unsummed (id seq : Z) : list Z :=
  [8; 0; 0; 0; byte_at 1 id; byte_at 0 id; byte_at 1 seq; byte_at 0 seq]%Z ++ echo_payload.
Definition echo_request (id seq : Z) : list Z :=
  put 2 (le_bytes16 (icmp_cksum (echo_unsummed id seq))) (echo_unsummed id seq).

(** ** The reply *)

(** [icmp_payload]: the ICMP message, behind the IP header on a raw socket. *)
Definition icmp_payload (buf : list Z) (is_raw : bool) : chk (option (list Z)) :=
  if length buf <? 8 then mret None
  else if negb is_raw then mret (Some buf)
  else if length buf <? 20 then mret None
  else
    b0 ← rd buf 0;
    let ihl := Z.to_nat (Z.land b0 15) * 4 in
    if (ihl <? 20) || (length buf <? ihl + 8) then mret None
    else mret (Some (drop ihl buf)).

(** The datagram socket when the kernel allows it, else the raw one: the descriptor and
    whether it is raw. *)
Definition open_icmp_socket (dgram raw : Z) : Z * bool :=
  if (0 <=? dgram)%Z then (dgram, false) else (raw, (0 <=? raw)%Z).

(** [mono_ns]: 0 on failure. *)
Definition mono_ns (clk : clock) : Z :=
  match clk_monotonic clk with
  | None => 0%Z
  | Some (sec, nsec) => u64 (u64 (u64 sec * 1000000000) + u64 nsec)%Z
  end.

(** ** The checksum verifies *)

(** The sum of the words, without wrapping. *)
Fixpoint words_total (data : list Z) : Z :=
  match data with
  | b0 :: b1 :: data' => (le_word16 b0 b1 + words_total data')%Z
  | [b] => b
  | [] => 0%Z
  end.

Lemma bytes_word b0 b1 l : bytes (b0 :: b1 :: l) -> (0 <= le_word16 b0 b1 < 65536)%Z /\ bytes l.
Proof.
  intros Hb. inversion Hb as [|? ? H1 Hb1]; subst. inversion Hb1 as [|? ? H2 Hb2]; subst.
  unfold le_word16. split; [word_lia|done].
Qed.

Lemma list_ind2 {A} (P : list A -> Prop) :
  P [] -> (forall x, P [x]) -> (forall x y l, P l -> P (x :: y :: l)) -> forall l, P l.
Proof.
  intros H0 H1 H2 l. enough (P l /\ forall x, P (x :: l)) by tauto.
  induction l as [|y l [IH1 IH2]]; split; auto.
Qed.

Lemma words_total_range l : bytes l -> (0 <= words_total l <= 65535 * Z.of_nat (length l))%Z.
Proof.
  induction l as [|b|b0 b1 l IH] using list_ind2; intros Hb; [simpl; lia| |].
  - inversion Hb as [|? ? H1 _]; subst. cbn [words_total length]. word_lia.
  - destruct (bytes_word _ _ _ Hb) as [Hw Hl]. specialize (IH Hl). cbn [words_total length] in *. lia.
Qed.

Lemma sum_words_total l sum :
  bytes l -> (0 <= sum)%Z -> (sum + words_total l < 4294967296)%Z ->
  sum_words l sum = (sum + words_total l)%Z.
Proof.
  revert sum. induction l as [|b|b0 b1 l IH] using list_ind2; intros sum Hb Hs Hlt.
  - simpl. lia.
  - inversion Hb as [|? ? H1 _]; subst. cbn [sum_words words_total] in *. rewrite u32_id; [done|word_lia].
  - destruct (bytes_word _ _ _ Hb) as [Hw Hl]. pose proof (words_total_range l Hl).
    cbn [sum_words words_total] in *. rewrite u32_id by word_lia. rewrite IH by (done || lia). lia.
Qed.

Lemma fold_step s : (0 <= s < 4294967296)%Z ->
  u32 (Z.land s 65535 + Z.shiftr s 16) = (s mod 65536 + s / 65536)%Z.
Proof.
  intros Hs. change 65535%Z with (Z.ones 16). rewrite Z.land_ones, Z.shiftr_div_pow2 by lia.
  change (2 ^ 16)%Z with 65536%Z. apply u32_id. word_lia.
Qed.

(** The folded sum is the one's-complement residue: congruent modulo 65535, and zero only
    for zero. *)
Lemma fold_carry_spec s :
  (0 <= s < 4294967296)%Z ->
  (0 <= fold_carry 3 s <= 65535)%Z /\ (fold_carry 3 s mod 65535 = s mod 65535)%Z /\
  (fold_carry 3 s = 0%Z -> s = 0%Z).
Proof.
  assert (Htest : forall x, (0 <= x < 4294967296)%Z -> truthy (Z.shiftr x 16) = negb (x <? 65536)%Z).
  { intros x Hx. rewrite Z.shiftr_div_pow2 by lia. change (2 ^ 16)%Z with 65536%Z.
    destruct (Z.ltb_spec x 65536); unfold truthy; cbn [negb].
    - by rewrite Z.div_small by lia.
    - destruct (Z.eqb_spec (x / 65536) 0); [|done]. exfalso. word_lia. }
  assert (Hcong : forall x, ((x mod 65536 + x / 65536) mod 65535 = x mod 65535)%Z).
  { intros x. rewrite (Z.div_mod x 65536) at 3 by lia.
    replace (65536 * (x / 65536) + x mod 65536)%Z
      with (x mod 65536 + x / 65536 + (x / 65536) * 65535)%Z by lia.
    by rewrite Z.mod_add. }
  intros Hs. cbn [fold_carry]. rewrite Htest by done.
  destruct (Z.ltb_spec s 65536); cbn [negb]; [split_and!; lia|].
  rewrite fold_step by done. set (s1 := (s mod 65536 + s / 65536)%Z).
  assert (H1 : (0 < s1 <= 131070)%Z) by (unfold s1; word_lia).
  rewrite Htest by lia. destruct (Z.ltb_spec s1 65536); cbn [negb].
  { split_and!; [lia..|unfold s1; apply Hcong|lia]. }
  rewrite fold_step by lia. set (s2 := (s1 mod 65536 + s1 / 65536)%Z).
  assert (H2 : (0 < s2 <= 65535)%Z) by (unfold s2; word_lia).
  rewrite Htest by lia. destruct (Z.ltb_spec s2 65536); cbn [negb]; [|lia].
  split_and!; [lia..| |lia]. unfold s2. rewrite Hcong. unfold s1. apply Hcong.
Qed.

Lemma cksum_of_fold f : (0 <= f <= 65535)%Z -> u16 (Z.lnot f) = (65535 - f)%Z.
Proof. intros Hf. unfold Z.lnot. word_lia. Qed.

(** Adding the checksum of a packet to its word sum makes the sum verify. *)
Lemma cksum_verifies data total :
  bytes data -> (Z.of_nat (length data) < 65536)%Z ->
  total = (words_total data + icmp_cksum data)%Z ->
  u16 (Z.lnot (fold_carry 3 total)) = 0%Z.
Proof.
  intros Hb Hl ->. pose proof (words_total_range data Hb) as Hr. unfold icmp_cksum.
  rewrite sum_words_total by (done || lia). rewrite Z.add_0_l.
  destruct (fold_carry_spec (words_total data) ltac:(lia)) as (F1 & F2 & _).
  set (f := fold_carry 3 (words_total data)) in *. rewrite (cksum_of_fold f F1).
  destruct (fold_carry_spec (words_total data + (65535 - f)) ltac:(lia)) as (G1 & G2 & G3).
  set (g := fold_carry 3 (words_total data + (65535 - f))) in *. rewrite (cksum_of_fold g G1).
  enough (g = 65535%Z) by lia.
  assert (Hm : (g mod 65535 = 0)%Z).
  { rewrite G2, <- Zplus_mod_idemp_l, <- F2, Zplus_mod_idemp_l.
    replace (f + (65535 - f))%Z with 65535%Z by lia. done. }
  assert (Hg : g <> 0%Z) by (intros E; apply G3 in E;
    assert (Hz : words_total data = 0%Z) by lia; assert (f = 0%Z) by (unfold f; by rewrite Hz); lia).
  clearbody g f. word_lia.
Qed.

(** A receiver's check of the request: summing it with its checksum in place gives all
    ones, whatever the identifier and sequence number. *)
Lemma echo_request_cksum id seq : icmp_cksum (echo_request id seq) = 0%Z.
Proof.
  assert (Hrange : forall x, (0 <= x < 65536)%Z -> x = le_word16 (byte_at 0 x) (byte_at 1 x)).
  { intros x Hx. unfold le_word16. rewrite byte_at_0, byte_at_1. word_lia. }
  assert (Hbytes : bytes (echo_unsummed id seq)).
  { repeat constructor; try apply byte_at_range; word_lia. }
  unfold icmp_cksum at 1. set (c := icmp_cksum (echo_unsummed id seq)).
  assert (Hc : (0 <= c < 65536)%Z) by apply u16_range.
  assert (Hreq : echo_request id seq = [8; 0; byte_at 0 c; byte_at 1 c; byte_at 1 id; byte_at 0 id;
    byte_at 1 seq; byte_at 0 seq]%Z ++ echo_payload) by reflexivity.
  assert (Hb2 : bytes (echo_request id seq)).
  { rewrite Hreq. repeat constructor; try apply byte_at_range; word_lia. }
  rewrite sum_words_total; [|done|lia|].
  2:{ pose proof (words_total_range _ Hb2) as H. rewrite Hreq in *. simpl length in H. lia. }
  apply (cksum_verifies (echo_unsummed id seq)); [done|by vm_compute|]. rewrite Hreq. fold c.
  cbn [words_total echo_unsummed echo_payload app]. rewrite <- (Hrange c Hc). unfold le_word16. lia.
Qed.

(** ** Locating the message *)

(** An ICMP message: type, code, checksum, identifier, sequence number and the rest. *)
Definition icmp_msg (type code c0 c1 i0 i1 sq : Z) (rest : list Z) : list Z :=
  [type; code; c0; c1; i0; i1; byte_at 1 sq; byte_at 0 sq] ++ rest.

(** What comes before the message: nothing, or an IPv4 header of [4 * ihl] bytes. *)
Definition ip_header (is_raw : bool) (hdr : list Z) : Prop :=
  if is_raw then 20 <= length hdr /\ length hdr = Z.to_nat (Z.land (nth 0 hdr 0%Z) 15) * 4 else hdr = [].

Lemma icmp_payload_msg is_raw hdr m :
  ip_header is_raw hdr -> 8 <= length m -> icmp_payload (hdr ++ m) is_raw = Safe (Some m).
Proof.
  intros Hh Hm. unfold icmp_payload. rewrite length_app.
  rewrite (proj2 (Nat.ltb_ge (length hdr + length m) 8)) by lia.
  destruct is_raw; cbn [negb]; [|by rewrite Hh].
  destruct Hh as [H1 H2]. rewrite (proj2 (Nat.ltb_ge _ 20)) by lia.
  destruct hdr as [|b0 hdr]; [simpl in H1; lia|]. change (rd ((b0 :: hdr) ++ m) 0) with (Safe b0).
  cbn [nth] in H2. cbn [mbind chk_bind]. rewrite <- H2.
  rewrite (proj2 (Nat.ltb_ge (length (b0 :: hdr)) 20)), (proj2 (Nat.ltb_ge _ (length (b0 :: hdr) + 8))) by lia.
  cbn [orb]. by rewrite drop_app_length.
Qed.

Lemma ip_header_short is_raw hdr : ip_header is_raw hdr -> length hdr <= 60.
Proof.
  destruct is_raw; [|by intros ->; simpl; lia]. intros [_ ->].
  assert (Hlt : (Z.land (nth 0 hdr 0) 15 < 16)%Z); [|lia].
  change 15%Z with (Z.ones 4). rewrite Z.land_ones by lia. apply Z.mod_pos_bound. lia.
Qed.

(** The part of a packet that a buffer of [n] bytes holds, when the header and the eight
    first bytes fit. *)
Lemma take_packet n is_raw hdr type code c0 c1 i0 i1 sq rest :
  ip_header is_raw hdr -> 68 <= n ->
  take n (hdr ++ icmp_msg type code c0 c1 i0 i1 sq rest) =
    hdr ++ icmp_msg type code c0 c1 i0 i1 sq (take (n - length hdr - 8) rest).
Proof.
  intros Hh Hn. pose proof (ip_header_short _ _ Hh). rewrite take_app, take_ge by lia. f_equal.
  unfold icmp_msg. rewrite take_app, take_ge by (simpl; lia). by f_equal.
Qed.

(** The message found is behind a header. *)
Lemma icmp_payload_split buf is_raw m :
  icmp_payload buf is_raw = Safe (Some m) -> exists hdr, buf = (hdr ++ m)%list /\ ip_header is_raw hdr.
Proof.
  unfold icmp_payload. destruct (_ <? 8); [done|]. destruct is_raw; cbn [negb]; [|intros [= <-]; by exists []].
  destruct (Nat.ltb_spec (length buf) 20); [done|]. destruct buf as [|b0 buf]; [simpl in *; lia|].
  change (rd (b0 :: buf) 0) with (Safe b0). cbn [mbind chk_bind]. set (ihl := Z.to_nat (Z.land b0 15) * 4).
  destruct (Nat.ltb_spec ihl 20); [done|]. destruct (Nat.ltb_spec (length (b0 :: buf)) (ihl + 8)); [done|].
  cbn [orb]. intros [= <-]. exists (take ihl (b0 :: buf)). split; [by rewrite take_drop|].
  cbn [ip_header]. rewrite length_take. destruct ihl as [|n] eqn:E; [lia|]. cbn [take nth]. lia.
Qed.

(** Safety of the location of the message, and what it returns. *)
Lemma icmp_payload_safe buf is_raw :
  safe_with (fun o => match o with Some m => 8 <= length m | None => True end) (icmp_payload buf is_raw).
Proof.
  unfold icmp_payload. destruct (Nat.ltb_spec (length buf) 8); [by apply safe_ret|].
  destruct is_raw; cbn [negb]; [|by apply safe_ret].
  destruct (Nat.ltb_spec (length buf) 20); [by apply safe_ret|].
  destruct buf as [|b0 buf]; [simpl in *; lia|]. change (rd (b0 :: buf) 0) with (Safe b0).
  cbn [mbind chk_bind].
  destruct (Nat.ltb_spec (Z.to_nat (Z.land b0 15) * 4) 20); [by apply safe_ret|].
  destruct (Nat.ltb_spec (length (b0 :: buf)) (Z.to_nat (Z.land b0 15) * 4 + 8)); cbn [orb]; [by apply safe_ret|].
  apply safe_ret. rewrite length_drop. lia.
Qed.

