(* ===== verification/LivePing.v ===== *)
(** * The live latency probe (src/agent/live_ping.c)

    One ICMP echo to the configured target per tick; the reply, if the next packet on the
    socket is one with the right sequence number, gives the round-trip time, anything else
    counts as a loss.  [cpe_agent_sample_tick] (src/agent/agent_core.c) chooses between
    this probe and the demo one. *)

From S2P Require Import Prelude CStr Float754 Inet Clock HostAlloc Config Spool Events PerfSample.
From S2P Require Import Nflog TcpParse FlowTable AgentData Agent AgentConfig Icmp.

(** What the kernel answers to one probe. *)
Record icmp_env := {
  ie_pid : Z;
  ie_dgram : Z;               (* socket(SOCK_DGRAM) *)
  ie_raw : Z;                 (* socket(SOCK_RAW) *)
  ie_sendto : Z -> list Z -> bool; (* the request was sent to the address *)
  ie_poll : Z -> bool;        (* readable before the timeout, in milliseconds *)
  ie_recv : list Z;           (* the packet received, empty when recvfrom fails *)
  ie_t0 : clock;
  ie_t1 : clock;
  ie_now : clock;
}.

(** The double between two instants, 0 when the clock went backwards. *)
Definition rtt_between (t0_ns t1_ns : Z) : double :=
  if (t0_ns <=? t1_ns)%Z then d_div (d_of_Z (t1_ns - t0_ns)) (d_of_Z 1000000) else d_zero.

(** The packet is an echo reply carrying this sequence number. *)
Definition reply_matches (icmp : list Z) (seq : Z) : chk bool :=
  if length icmp <? 8 then mret false
  else
    t ← rd icmp 0; hi ← rd icmp 6; lo ← rd icmp 7;
    mret ((t =? 0)%Z && (u16 (be_word16 hi lo) =? seq)%Z).

(** The ICMP message of the reply when it answers the request. *)
Definition await_reply (env : icmp_env) (timeout_ms : Z) (is_raw : bool) (seq : Z) : chk (option (list Z)) :=
  if negb (ie_poll env (i32 timeout_ms)) then mret None
  else
    let rbuf := take 256 (ie_recv env) in
    if length rbuf =? 0 then mret None
    else
      o ← icmp_payload rbuf is_raw;
      match o with
      | None => mret None
      | Some icmp => ok ← reply_matches icmp seq; mret (if ok : bool then Some icmp else None)
      end.

Definition live_sample (cfg : cpe_agent_config) (replied is_raw : bool) (rtt_ms : double) (clk : clock)
    : cpe_perf_sample := {|
  ps_probe := snprintf_s CPE_PERF_PROBE_MAX "ping";
  ps_target := snprintf_s CPE_PERF_TARGET_MAX (demo_target cfg);
  ps_rtt_ms := if replied then rtt_ms else d_zero;
  ps_loss := if replied then f_const 0 0 else f_const 1 0;
  ps_ts_iso := AgentCoreClock.iso_now clk CPE_PERF_TS_MAX;
  ps_meta := snprintf_s CPE_PERF_META_MAX
    (lit "{'replies':" +:+ fmt_u (c_bool replied) +:+ lit ",'timeouts':" +:+ fmt_u (c_bool (negb replied)) +:+
     lit ",'demo':false,'raw':" +:+ (if is_raw then "true" else "false") +:+ lit "}") |}.

Section live.
Context {P C : Type} `{!PingLib P} {E : Type} `{!EventSource P E}.
Local Abbreviation agent := (agent P C).

(** The tail: keep the sample and announce it, then format and push its line. *)
Definition store_and_push (a : agent) (s : cpe_perf_sample) : Z * agent :=
  let a := cpe_agent_set_last_sample a s in
  let '(rc, q) := push_perf (ag_cfg a) (ag_q a) s in (rc, a <| ag_q := q |>).

(** [seq] is the function's static counter. *)
Definition cpe_agent_live_ping_tick (env : icmp_env) (a : agent) (seq : Z) : chk (Z * agent * Z) :=
  let cfg := ag_cfg a in
  if negb (nonempty (demo_target cfg)) then mret ((-1)%Z, a, seq)
  else match inet_pton4 (demo_target cfg) with
  | None => mret ((-1)%Z, a, seq)
  | Some dst =>
      let timeout_ms := dflt (probe_timeout_ms cfg) 1000 in
      let id := Z.land (ie_pid env) 65535 in
      let '(fd, is_raw) := open_icmp_socket (ie_dgram env) (ie_raw env) in
      if (fd <? 0)%Z then mret ((-1)%Z, a, seq)
      else
        let seq := u16 (seq + 1) in
        let t0_ns := mono_ns (ie_t0 env) in
        if negb (ie_sendto env dst (echo_request id seq)) then mret ((-1)%Z, a, seq)
        else
          reply ← await_reply env timeout_ms is_raw seq;
          let t1_ns := mono_ns (ie_t1 env) in
          let rtt_ms := rtt_between t0_ns t1_ns in
          let a := match reply with
                   | Some icmp => snd (cpe_agent_feed_icmp_echo_reply (E := E) a icmp (t1_ns / 1000000)%Z)
                   | None => a
                   end in
          let replied := match reply with Some _ => true | None => false end in
          let '(rc, a) := store_and_push a (live_sample cfg replied is_raw rtt_ms (ie_now env)) in
          mret (rc, a, seq)
  end.

(** [cpe_agent_sample_tick], with the static counters of the two probes. *)
Definition cpe_agent_sample_tick (env : icmp_env) (clk : clock) (a : agent) (demo_seq live_seq : Z)
    : chk (Z * agent * (Z * Z)) :=
  if truthy (demo_mode (ag_cfg a)) then
    let '(rc, a, s) := cpe_agent_demo_ping_tick (E := E) a demo_seq clk in mret (rc, a, (s, live_seq))
  else r ← cpe_agent_live_ping_tick env a live_seq; mret (fst (fst r), snd (fst r), (demo_seq, snd r)).

End live.

(** ** What counts as a reply *)

Lemma reply_matches_msg type code c0 c1 i0 i1 sq rest seq :
  in_u16 sq -> reply_matches (icmp_msg type code c0 c1 i0 i1 sq rest) seq = Safe ((type =? 0)%Z && (sq =? seq)%Z).
Proof.
  intros Hs. unfold reply_matches, icmp_msg. change (length _ <? 8) with false. cbn iota.
  change (rd _ 0) with (Safe type). change (rd _ 6) with (Safe (byte_at 1 sq)).
  change (rd _ 7) with (Safe (byte_at 0 sq)). cbn.
  by rewrite be16_word, u16_id.
Qed.

(** The probe takes the next packet for its reply exactly when that packet, behind
    its IP header on a raw socket, is of type 0 and carries the expected sequence number:
    the code, the checksum, the identifier and the sender are not looked at, and nothing
    else is waited for.  The reply is the message cut at the buffer's 256 bytes. *)
Theorem echo_reply_accepted env timeout_ms is_raw seq hdr type code c0 c1 i0 i1 sq rest :
  let m := icmp_msg type code c0 c1 i0 i1 sq rest in
  ie_poll env (i32 timeout_ms) = true -> ie_recv env = hdr ++ m -> ip_header is_raw hdr -> in_u16 sq ->
  await_reply env timeout_ms is_raw seq =
    Safe (if (type =? 0)%Z && (sq =? seq)%Z then Some (take (256 - length hdr) m) else None).
Proof.
  cbv zeta. intros Hp Hr Hh Hs. unfold await_reply. rewrite Hp, Hr. cbn [negb].
  pose proof (ip_header_short _ _ Hh).
  assert (Hm : take (256 - length hdr) (icmp_msg type code c0 c1 i0 i1 sq rest) =
    icmp_msg type code c0 c1 i0 i1 sq (take (256 - length hdr - 8) rest)).
  { unfold icmp_msg. rewrite take_app, take_ge by (simpl; lia). by f_equal. }
  rewrite (take_packet 256 is_raw) by (done || lia). rewrite Hm. set (m := icmp_msg _ _ _ _ _ _ _ (take _ _)).
  assert (Hlm : 8 <= length m) by (unfold m; simpl; lia).
  rewrite length_app, (proj2 (Nat.eqb_neq _ 0)) by lia. rewrite icmp_payload_msg by done. cbn [mbind chk_bind].
  pose proof (reply_matches_msg type code c0 c1 i0 i1 sq (take (256 - length hdr - 8) rest) seq Hs) as Hrm.
  fold m in Hrm. rewrite Hrm. cbn [mbind chk_bind]. by destruct (_ && _).
Qed.

(** Whatever the socket delivers, no byte is read outside of it. *)
Lemma await_reply_safe env timeout_ms is_raw seq :
  safe_with (fun o => match o with Some m => 8 <= length m | None => True end)
    (await_reply env timeout_ms is_raw seq).
Proof.
  unfold await_reply. destruct (negb _); [by apply safe_ret|]. destruct (_ =? 0); [by apply safe_ret|].
  eapply safe_bind; [apply icmp_payload_safe|]. intros [icmp|] Hm; [|by apply safe_ret].
  eapply safe_bind; [|intros ok _; by apply safe_ret; destruct ok].
  unfold reply_matches. rewrite (proj2 (Nat.ltb_ge _ _)) by done.
  destruct icmp as [|x0 [|x1 [|x2 [|x3 [|x4 [|x5 [|x6 [|x7 icmp]]]]]]]]; simpl in *; try lia.
  by apply (safe_ret (fun _ => True)).
Qed.

(** The reply to a request: an echo reply with its sequence number. *)
Definition echo_reply (is_raw : bool) (seq : Z) (packet : list Z) : Prop :=
  exists hdr code c0 c1 i0 i1 rest, packet = hdr ++ icmp_msg 0 code c0 c1 i0 i1 seq rest /\ ip_header is_raw hdr.
(** It is the first thing the socket has, in time. *)
Definition echo_answered (env : icmp_env) (cfg : cpe_agent_config) (is_raw : bool) (seq : Z) : Prop :=
  ie_poll env (i32 (dflt (probe_timeout_ms cfg) 1000)) = true /\ echo_reply is_raw seq (ie_recv env).

Lemma reply_matches_form m seq :
  bytes m -> 8 <= length m -> reply_matches m seq = Safe true ->
  exists code c0 c1 i0 i1 rest, m = icmp_msg 0 code c0 c1 i0 i1 seq rest.
Proof.
  intros Hb Hl. unfold reply_matches. rewrite (proj2 (Nat.ltb_ge _ _)) by done.
  destruct m as [|t [|code [|c0 [|c1 [|i0 [|i1 [|hi [|lo rest]]]]]]]]; cbn [length] in Hl; try lia.
  change (rd _ 0) with (Safe t). change (rd _ 6) with (Safe hi). change (rd _ 7) with (Safe lo).
  cbn [mbind chk_bind]. intros [= [->%Z.eqb_eq Hs%Z.eqb_eq]%andb_prop].
  unfold bytes in Hb. rewrite !Forall_cons in Hb. destruct Hb as (_ & _ & _ & _ & _ & _ & Hhi & Hlo & _).
  exists code, c0, c1, i0, i1, rest. unfold icmp_msg. cbn [app]. subst seq.
  rewrite byte_at_0, byte_at_1. unfold be_word16, le_word16. do 6 f_equal. f_equal; [|f_equal]; word_lia.
Qed.
(** What [await_reply] decides. *)
Lemma await_reply_answered env cfg is_raw seq :
  bytes (ie_recv env) -> in_u16 seq ->
  exists reply, await_reply env (dflt (probe_timeout_ms cfg) 1000) is_raw seq = Safe reply /\
    (is_Some reply <-> echo_answered env cfg is_raw seq).
Proof.
  intros Hb Hs. destruct (await_reply_safe env (dflt (probe_timeout_ms cfg) 1000) is_raw seq) as (reply & Hr & Hlen).
  exists reply. split; [done|]. split.
  - intros [m ->]. unfold await_reply in Hr. destruct (ie_poll env _) eqn:Hp; [|done]. cbn [negb] in Hr.
    destruct (_ =? 0); [done|]. destruct (icmp_payload _ is_raw) as [[icmp|]|] eqn:Ei; [|done..].
    cbn [mbind chk_bind] in Hr. destruct (reply_matches icmp seq) as [[]|] eqn:Em; [|done..].
    injection Hr as ->. destruct (icmp_payload_split _ _ _ Ei) as (hdr & Ht & Hh). split; [done|].
    rewrite <- (take_drop 256 (ie_recv env)), Ht in Hb |- *. apply Forall_app in Hb as [[_ Hm]%Forall_app _].
    destruct (reply_matches_form m seq Hm Hlen Em) as (code & c0 & c1 & i0 & i1 & rest & ->).
    exists hdr, code, c0, c1, i0, i1, (rest ++ drop 256 (ie_recv env)). split; [|done].
    unfold icmp_msg. by rewrite <- !app_assoc.
  - intros (Hp & hdr & code & c0 & c1 & i0 & i1 & rest & Hpk & Hh).
    rewrite (echo_reply_accepted _ _ _ _ _ _ _ _ _ _ _ _ _ Hp Hpk Hh Hs), !Z.eqb_refl in Hr. injection Hr as <-. by eexists.
Qed.

(** ** The tick *)
Section tick.
Context {P C : Type} `{!PingLib P} {E : Type} `{!EventSource P E}.
Local Abbreviation agent := (agent P C).
Local Abbreviation live_tick := (cpe_agent_live_ping_tick (P := P) (C := C) (E := E)).

(** The request leaves: there is a target, a socket, and the kernel takes the packet. *)
Definition request_sent (env : icmp_env) (cfg : cpe_agent_config) (seq : Z) : bool :=
  match inet_pton4 (demo_target cfg) with
  | Some dst =>
      nonempty (demo_target cfg) && (0 <=? fst (open_icmp_socket (ie_dgram env) (ie_raw env)))%Z &&
      ie_sendto env dst (echo_request (Z.land (ie_pid env) 65535) (u16 (seq + 1)))
  | None => false
  end.

Lemma store_and_push_cases (a : agent) s :
  queues_wf (ag_q a) ->
  let '(rc, a') := store_and_push a s in
  queues_wf (ag_q a') /\ ag_last a' = Some s /\ ag_cfg a' = ag_cfg a /\ perf_pushed (ag_cfg a) (ag_q a) s rc (ag_q a').
Proof.
  intros Hwf. unfold store_and_push, cpe_agent_set_last_sample.
  set (a1 := a <| ag_last := Some s |>).
  destruct (push_event_spec a1 CPE_AGENT_EVENT_SAMPLE_READY "sample" Hwf) as (Hw & Hss & _).
  pose proof (same_spool_pending _ _ Hss) as Hp. destruct Hss as (_ & Hc & _).
  set (a2 := push_event a1 _ _) in *. change (ag_q a1) with (ag_q a) in *.
  pose proof (push_perf_cases (ag_cfg a2) (ag_q a2) s Hw) as H.
  change (ag_cfg a2) with (ag_cfg a) in *.
  destruct (push_perf (ag_cfg a) (ag_q a2) s) as [rc q]. unfold perf_pushed in *.
  rewrite <- Hc, <- Hp. destruct H as (H1 & H2 & H3). by split_and!.
Qed.

(** What the kept sample says, by whether an answer came. *)
Definition sample_says (t0 t1 : Z) (is_raw answered : bool) (s : cpe_perf_sample) : Prop :=
  let n1 := if answered then "1"%string else "0"%string in
  let n0 := if answered then "0"%string else "1"%string in
  ps_loss s = (if answered then f_const 0 0 else f_const 1 0) /\
  ps_rtt_ms s = (if answered then d_div (d_of_Z (Z.max 0 (t1 - t0))) (d_of_Z 1000000) else d_zero) /\
  ps_meta s = lit "{'replies':" +:+ n1 +:+ lit ",'timeouts':" +:+ n0 +:+
    lit ",'demo':false,'raw':" +:+ (if is_raw then "true" else "false") +:+ "}".
Lemma live_sample_says cfg replied is_raw t0 t1 clk :
  sample_says t0 t1 is_raw replied (live_sample cfg replied is_raw (rtt_between t0 t1) clk).
Proof.
  unfold sample_says. split; [done|]. split; [|by destruct replied, is_raw].
  destruct replied; [|done]. cbn [live_sample ps_rtt_ms]. unfold rtt_between.
  destruct (Z.leb_spec t0 t1); [by rewrite Z.max_r by lia|]. by rewrite Z.max_l by lia.
Qed.

Lemma ping_reports env (a : agent) seq :
  queues_wf (ag_q a) -> bytes (ie_recv env) ->
  if request_sent env (ag_cfg a) seq then
    let is_raw := snd (open_icmp_socket (ie_dgram env) (ie_raw env)) in
    exists rc a' s answered,
      live_tick env a seq = Safe (rc, a', u16 (seq + 1)) /\
      (answered = true <-> echo_answered env (ag_cfg a) is_raw (u16 (seq + 1))) /\
      ag_last a' = Some s /\ sample_says (mono_ns (ie_t0 env)) (mono_ns (ie_t1 env)) is_raw answered s /\
      ps_probe s = "ping"%string /\ ps_target s = str_take 63 (demo_target (ag_cfg a)) /\
      queues_wf (ag_q a') /\ ag_cfg a' = ag_cfg a /\ perf_pushed (ag_cfg a) (ag_q a) s rc (ag_q a')
  else exists seq', live_tick env a seq = Safe ((-1)%Z, a, seq').
Proof.
  intros Hwf Hb. unfold request_sent, cpe_agent_live_ping_tick.
  destruct (inet_pton4 (demo_target (ag_cfg a))) as [dst|].
  2:{ exists seq. by destruct (nonempty _). }
  destruct (nonempty (demo_target (ag_cfg a))); cbn [negb andb]; [|by exists seq].
  destruct (open_icmp_socket _ _) as [fd is_raw]. cbn [fst snd].
  destruct (Z.leb_spec 0 fd) as [Hfd|Hfd]; cbn [andb].
  2:{ exists seq. by rewrite (proj2 (Z.ltb_lt _ _)). }
  rewrite (proj2 (Z.ltb_ge _ _)) by done. cbv zeta.
  destruct (ie_sendto _ _ _); cbn [negb]; [|by eexists].
  destruct (await_reply_answered env (ag_cfg a) is_raw (u16 (seq + 1)) Hb (u16_range _)) as (reply & Hr & Hans).
  rewrite Hr. cbn [mbind chk_bind].
  match goal with |- context [store_and_push ?b ?s] => set (a1 := b); set (s1 := s) end.
  assert (Hsame : ag_q a1 = ag_q a /\ ag_cfg a1 = ag_cfg a).
  { unfold a1. destruct reply as [icmp|]; [|done]. unfold cpe_agent_feed_icmp_echo_reply.
    destruct (_ <? 8); [done|]. by destruct (ping_round _ _ _). }
  destruct Hsame as [E1 E2].
  pose proof (store_and_push_cases a1 s1 ltac:(by rewrite E1)) as H.
  destruct (store_and_push a1 s1) as [rc a']. rewrite E1, E2 in H. destruct H as (H1 & H2 & H3 & H4).
  exists rc, a', s1, (match reply with Some _ => true | None => false end).
  split; [done|]. split.
  { rewrite <- Hans. by destruct reply. }
  split; [done|]. split; [apply live_sample_says|]. by split_and!.
Qed.

(** C29: One live probe.  When no request can be sent (no IPv4 target, no socket, or the
    kernel refuses the packet) the agent is unchanged and the result is -1.  Otherwise,
    for any bytes received, the probe returns without reading outside the packet and keeps
    a sample of the target.  The probe is answered when the socket is readable before the
    timeout and the packet it delivers, behind its IP header on a raw socket, is an echo
    reply with the sequence number just sent: then the sample has no loss, one reply and
    the time between sending and receiving in milliseconds (0 when the clock went back);
    otherwise a loss of 1, one timeout and a time of 0.  The sample's line is appended to
    the spool, which drops its oldest line when full, with result 0; a line that does not
    fit its buffer, or an agent without a spool, gives -1 and leaves the spool as it was. *)
Theorem live_ping_reports env (a : agent) seq :
  queues_wf (ag_q a) -> bytes (ie_recv env) ->
  if request_sent env (ag_cfg a) seq then
    let is_raw := snd (open_icmp_socket (ie_dgram env) (ie_raw env)) in
    exists rc a' s answered,
      live_tick env a seq = Safe (rc, a', u16 (seq + 1)) /\
      (answered = true <-> echo_answered env (ag_cfg a) is_raw (u16 (seq + 1))) /\
      ag_last a' = Some s /\ sample_says (mono_ns (ie_t0 env)) (mono_ns (ie_t1 env)) is_raw answered s /\
      ps_probe s = "ping"%string /\ ps_target s = str_take 63 (demo_target (ag_cfg a)) /\
      queues_wf (ag_q a') /\ ag_cfg a' = ag_cfg a /\ perf_pushed (ag_cfg a) (ag_q a) s rc (ag_q a')
  else exists seq', live_tick env a seq = Safe ((-1)%Z, a, seq').
Proof. exact (ping_reports env a seq). Qed.
End tick.

(** ** Instances *)

(** A reply, from a socket of either kind, with somebody else's identifier. *)
Definition toy_icmp (dgram : Z) (packet : list Z) : icmp_env := {|
  ie_pid := 4242%Z; ie_dgram := dgram; ie_raw := 7%Z; ie_sendto := fun _ _ => true; ie_poll := fun _ => true;
  ie_recv := packet; ie_t0 := flow_clk; ie_t1 := flow_clk; ie_now := flow_clk |}.
Definition stray_reply : list Z := icmp_msg 0 0 0 0 170 187 5 [].
Definition raw_header : list Z := 69%Z :: replicate 19 0%Z.

Lemma echo_reply_accepted_witness :
  await_reply (toy_icmp (-1) (raw_header ++ stray_reply)) 1000 true 5 = Safe (Some stray_reply).
Proof.
  refine (echo_reply_accepted (toy_icmp (-1) (raw_header ++ stray_reply)) 1000 true 5 raw_header 0 0 0 0 170 187 5 []
    eq_refl eq_refl _ _).
  - split; [simpl; lia|reflexivity].
  - split; lia.
Defined.

#[local] Instance toy_ping : PingLib nat := {|
  ping_create := Some 0; ping_feed_input_with_ts := fun p _ _ => (0%Z, p); ping_process := fun p _ => (0%Z, p);
  ping_get_stats := fun _ => None |}.
#[local] Instance toy_ping_events : EventSource nat unit := {| next_event := fun c => (None, c); queued := fun _ => 0;
  next_event_decreases := ltac:(runs_dry) |}.

Definition probing_agent : agent nat nat :=
  toy_agent <| ag_cfg := (ag_cfg toy_agent) <| demo_target := "192.0.2.1"%string |> |>.
Lemma live_ping_reports_witness :
  exists rc a' s, cpe_agent_live_ping_tick (E := unit) (toy_icmp 3 stray_reply) probing_agent 4 = Safe (rc, a', 5%Z) /\
    queues_wf (ag_q a') /\ ag_last a' = Some s /\ ps_loss s = f_const 0 0 /\ ps_rtt_ms s = d_zero.
Proof.
  assert (Hb : bytes (ie_recv (toy_icmp 3 stray_reply))) by (repeat constructor; vm_compute; congruence).
  pose proof (live_ping_reports (E := unit) (toy_icmp 3 stray_reply) probing_agent 4 spool4_ab_wf Hb) as H.
  change (request_sent (toy_icmp 3 stray_reply) (ag_cfg probing_agent) 4) with true in H.
  destruct H as (rc & a' & s & answered & H1 & H2 & H3 & H4 & _ & _ & H5 & _).
  assert (Ha : answered = true).
  { apply H2. split; [reflexivity|]. by exists [], 0%Z, 0%Z, 0%Z, 170%Z, 187%Z, []. }
  subst answered. destruct H4 as (H6 & H7 & _). exists rc, a', s. split; [exact H1|]. split; [exact H5|]. split; [exact H3|].
  split; [exact H6|]. rewrite H7. reflexivity.
Defined.
