(* ===== verification/TraceProbe.v ===== *)
(** * One traceroute probe (src/agent/live_trace.c)

    The two kinds of probe: a UDP datagram whose ICMP answer arrives on the socket's error
    queue, and an ICMP echo.  A probe's result is -1 (it could not be sent), 0 (timeout),
    1 (a hop answered) or 2 (the destination answered), with the responder's address and
    the time.  The sockets answer through a record per probe; closing a descriptor leaves
    no trace in the model. *)

From S2P Require Import Prelude CStr Float754 Inet Clock PerfSample Nflog TcpParse FlowEntry Icmp.

Inductive probe_outcome := PROBE_TIMEOUT | PROBE_HOP | PROBE_DEST.

Definition SOL_IP := 0%Z.
Definition IP_RECVERR := 11%Z.
Definition AF_INET := 2%Z.
Definition SO_EE_ORIGIN_LOCAL := 1%Z.
Definition SO_EE_ORIGIN_ICMP := 2%Z.
Definition ICMP_DEST_UNREACH := 3%Z.
Definition ICMP_TIME_EXCEEDED := 11%Z.
Definition ICMP_PORT_UNREACH := 3%Z.
Definition CPE_TRACE_BASE_PORT := 33434%Z.

(** A control message: its level and type, and for [IP_RECVERR] the extended error with
    the offender's family and address. *)
Record cmsg := {
  cm_level : Z;
  cm_type : Z;
  ee_origin : Z;
  ee_type : Z;
  ee_code : Z;
  off_family : Z;
  off_addr : Z;
}.

(** [recvmsg(MSG_ERRQUEUE)]. *)
Inductive errqueue := ErrqMsg (msgs : list cmsg) | ErrqAgain | ErrqFail.

Record udp_env := {
  ud_socket : Z;
  ud_recverr : bool;                 (* setsockopt(IP_RECVERR) *)
  ud_ttl : bool;                     (* setsockopt(IP_TTL) *)
  ud_sendto : Z -> Z -> list Z -> bool;   (* address, port, payload *)
  ud_poll : Z -> bool;               (* an event within the timeout *)
  ud_pollin : bool;
  ud_errq : errqueue;
  ud_recvfrom : option Z;            (* the sender's address *)
  ud_t0 : clock;
  ud_t1 : clock;
}.

Record echo_env := {
  ec_dgram : Z;
  ec_raw : Z;
  ec_sendto : Z -> list Z -> bool;
  ec_poll : Z -> bool;               (* readable within the timeout *)
  ec_recv : list Z;                  (* empty when recvfrom fails *)
  ec_family : Z;                     (* the sender *)
  ec_from : Z;
  ec_t0 : clock;
  ec_t1 : clock;
}.

(** The elapsed time, or the old value when the clock went backwards. *)
Definition rtt_since (t0_ns t1_ns : Z) (old : double) : double :=
  if (t0_ns <=? t1_ns)%Z then d_div (d_of_Z (t1_ns - t0_ns)) (d_of_Z 1000000) else old.

(** The address of an [AF_INET] peer replaces the one in the buffer. *)
Definition peer_addr (family addr : Z) (old : string) : string :=
  if (family =? AF_INET)%Z then inet_ntop4_addr addr else old.

(** ** UDP *)

(** The loop over the control messages. *)
Fixpoint scan_cmsgs (msgs : list cmsg) (addr : string) : probe_outcome * string :=
  match msgs with
  | [] => (PROBE_HOP, addr)
  | m :: msgs' =>
      if (cm_level m =? SOL_IP)%Z && (cm_type m =? IP_RECVERR)%Z then
        let addr := peer_addr (off_family m) (off_addr m) addr in
        if (ee_origin m =? SO_EE_ORIGIN_ICMP)%Z || (ee_origin m =? SO_EE_ORIGIN_LOCAL)%Z then
          if (ee_type m =? ICMP_TIME_EXCEEDED)%Z then (PROBE_HOP, addr)
          else if (ee_type m =? ICMP_DEST_UNREACH)%Z then
            if (ee_code m =? ICMP_PORT_UNREACH)%Z then (PROBE_DEST, addr) else (PROBE_HOP, addr)
          else scan_cmsgs msgs' addr
        else scan_cmsgs msgs' addr
      else scan_cmsgs msgs' addr
  end.

(** The body of the [for (;;)] loop, which returns on every path. *)
Definition udp_wait_probe (env : udp_env) (timeout_ms : Z) (addr : string) (rtt : double) (t0_ns : Z)
    : probe_outcome * string * double :=
  let remaining := i32 timeout_ms in
  let remaining := if (remaining <? 1)%Z then 1%Z else remaining in
  if negb (ud_poll env remaining) then (PROBE_TIMEOUT, addr, rtt)
  else
    let t1_ns := mono_ns (ud_t1 env) in
    match ud_errq env with
    | ErrqAgain =>
        if ud_pollin env then
          match ud_recvfrom env with
          | Some from => (PROBE_DEST, inet_ntop4_addr from, rtt_since t0_ns t1_ns rtt)
          | None => (PROBE_TIMEOUT, addr, rtt)
          end
        else (PROBE_TIMEOUT, addr, rtt)
    | ErrqFail => (PROBE_TIMEOUT, addr, rtt)
    | ErrqMsg msgs =>
        let '(oc, addr) := scan_cmsgs msgs addr in (oc, addr, rtt_since t0_ns t1_ns rtt)
    end.

Definition udp_payload (ttl : Z) : list Z :=
  let text := str_bytes (snprintf_s 32 (lit "cpe" +:+ fmt_0d 2 ttl)) in text ++ replicate (32 - length text) 0%Z.

Definition probe_udp_once (env : udp_env) (dst ttl port timeout_ms : Z) (addr : string) (rtt : double)
    : Z * string * double :=
  if (ud_socket env <? 0)%Z then ((-1)%Z, addr, rtt)
  else if negb (ud_recverr env) then ((-1)%Z, addr, rtt)
  else if negb (ud_ttl env) then ((-1)%Z, addr, rtt)
  else
    let t0_ns := mono_ns (ud_t0 env) in
    if negb (ud_sendto env dst port (udp_payload ttl)) then ((-1)%Z, addr, rtt)
    else
      let '(oc, addr, rtt) := udp_wait_probe env timeout_ms EmptyString d_zero t0_ns in
      (match oc with PROBE_TIMEOUT => 0%Z | PROBE_DEST => 2%Z | PROBE_HOP => 1%Z end, addr, rtt).

(** ** ICMP echo *)

(** What the type of the message received says. *)
Definition classify_icmp (o : option (list Z)) : chk Z :=
  match o with
  | None => mret 1%Z
  | Some icm =>
      if length icm <? 8 then mret 1%Z
      else
        t ← rd icm 0;
        mret (if (t =? 0)%Z then 2%Z else if (t =? 11)%Z then 1%Z else if (t =? 3)%Z then 2%Z else 1%Z)
  end.

(** A failure to set the TTL is ignored. *)
Definition probe_icmp_once (env : echo_env) (dst ttl echo_id echo_seq timeout_ms : Z) (addr : string)
    (rtt : double) : chk (Z * string * double) :=
  let '(fd, is_raw) := open_icmp_socket (ec_dgram env) (ec_raw env) in
  if (fd <? 0)%Z then mret ((-1)%Z, addr, rtt)
  else
    let t0_ns := mono_ns (ec_t0 env) in
    if negb (ec_sendto env dst (echo_request echo_id echo_seq)) then mret ((-1)%Z, addr, rtt)
    else if negb (ec_poll env (i32 (dflt timeout_ms 1))) then mret (0%Z, addr, rtt)
    else
      let rbuf := take 512 (ec_recv env) in
      let t1_ns := mono_ns (ec_t1 env) in
      if length rbuf =? 0 then mret (0%Z, addr, rtt)
      else
        let addr := peer_addr (ec_family env) (ec_from env) addr in
        let rtt := rtt_since t0_ns t1_ns rtt in
        o ← icmp_payload rbuf is_raw;
        pr ← classify_icmp o;
        mret (pr, addr, rtt).

(** ** What the results mean *)

(** The results of a probe, and the address buffer that goes with them. *)
Definition probe_result_ok (r : Z * string * double) : Prop :=
  (r.1.1 = -1 \/ r.1.1 = 0 \/ r.1.1 = 1 \/ r.1.1 = 2)%Z /\ strlen r.1.2 < CPE_PERF_TARGET_MAX.

Lemma strlen_ntop4_fits a : strlen (inet_ntop4_addr a) < CPE_PERF_TARGET_MAX.
Proof. pose proof (strlen_ntop4_addr a). unfold CPE_PERF_TARGET_MAX. lia. Qed.
Lemma strlen_peer_addr family a old :
  strlen old < CPE_PERF_TARGET_MAX -> strlen (peer_addr family a old) < CPE_PERF_TARGET_MAX.
Proof. unfold peer_addr. destruct (_ =? _)%Z; [intros _; apply strlen_ntop4_fits|done]. Qed.

Lemma scan_cmsgs_addr msgs addr :
  strlen addr < CPE_PERF_TARGET_MAX -> strlen (scan_cmsgs msgs addr).2 < CPE_PERF_TARGET_MAX.
Proof.
  revert addr. induction msgs as [|m msgs IH]; intros addr Ha; [done|]. cbn [scan_cmsgs].
  destruct (_ && _); [|by apply IH].
  pose proof (strlen_peer_addr (off_family m) (off_addr m) addr Ha).
  destruct (_ || _); [|by apply IH]. destruct (_ =? _)%Z; [done|].
  destruct (_ =? _)%Z; [by destruct (_ =? _)%Z|by apply IH].
Qed.

Lemma probe_udp_ok env dst ttl port timeout_ms addr rtt :
  strlen addr < CPE_PERF_TARGET_MAX -> probe_result_ok (probe_udp_once env dst ttl port timeout_ms addr rtt).
Proof.
  intros Ha. unfold probe_udp_once.
  destruct (_ <? _)%Z; [by split; [left|]|]. destruct (negb _); [by split; [left|]|].
  destruct (negb _); [by split; [left|]|]. cbv zeta. destruct (negb _); [by split; [left|]|].
  assert (H0 : strlen EmptyString < CPE_PERF_TARGET_MAX) by (unfold CPE_PERF_TARGET_MAX; simpl; lia).
  assert (Hw : strlen (udp_wait_probe env timeout_ms EmptyString d_zero (mono_ns (ud_t0 env))).1.2 < CPE_PERF_TARGET_MAX).
  { unfold udp_wait_probe. destruct (negb _); [done|].
    destruct (ud_errq env) as [msgs| |].
    - pose proof (scan_cmsgs_addr msgs EmptyString H0). by destruct (scan_cmsgs _ _).
    - destruct (ud_pollin env); [|done]. destruct (ud_recvfrom env); [apply strlen_ntop4_fits|done].
    - done. }
  destruct (udp_wait_probe _ _ _ _ _) as [[oc a] r]. split; [|done]. destruct oc; cbn; tauto.
Qed.

Lemma classify_icmp_safe o :
  safe_with (fun pr => (pr = 1 \/ pr = 2)%Z) (classify_icmp o).
Proof.
  unfold classify_icmp. destruct o as [icm|]; [|apply safe_ret; tauto].
  destruct (Nat.ltb_spec (length icm) 8); [apply safe_ret; tauto|].
  destruct icm as [|t icm]; [simpl in *; lia|]. change (rd (t :: icm) 0) with (Safe t). cbn [mbind chk_bind].
  apply safe_ret. destruct (t =? 0)%Z; [tauto|]. destruct (t =? 11)%Z; [tauto|]. destruct (t =? 3)%Z; tauto.
Qed.

Lemma probe_icmp_ok env dst ttl echo_id echo_seq timeout_ms addr rtt :
  strlen addr < CPE_PERF_TARGET_MAX ->
  safe_with probe_result_ok (probe_icmp_once env dst ttl echo_id echo_seq timeout_ms addr rtt).
Proof.
  intros Ha. unfold probe_icmp_once. destruct (open_icmp_socket _ _) as [fd is_raw].
  destruct (_ <? _)%Z; [apply safe_ret; by split; [left|]|]. cbv zeta.
  destruct (negb _); [apply safe_ret; by split; [left|]|].
  destruct (negb _); [apply safe_ret; by split; [cbn; tauto|]|].
  destruct (_ =? 0); [apply safe_ret; by split; [cbn; tauto|]|].
  eapply safe_bind; [apply icmp_payload_safe|]. intros o _.
  eapply safe_bind; [apply classify_icmp_safe|]. intros pr Hpr.
  apply safe_ret. split; [cbn; tauto|]. by apply strlen_peer_addr.
Qed.

(** The echo probe classifies whatever ICMP packet arrives first by its type alone:
    an echo reply or a destination-unreachable means the destination was reached, any
    other type (time exceeded, but also a request or an unknown type) is a hop's answer.
    The sender's address is reported; the identifier and the sequence number, or the
    packet quoted by an error, play no part. *)
Theorem echo_probe_classifies env dst ttl echo_id echo_seq timeout_ms addr rtt hdr type code c0 c1 i0 i1 sq rest :
  let '(fd, is_raw) := open_icmp_socket (ec_dgram env) (ec_raw env) in
  (0 <= fd)%Z -> ec_sendto env dst (echo_request echo_id echo_seq) = true ->
  ec_poll env (i32 (dflt timeout_ms 1)) = true -> ec_family env = AF_INET ->
  ec_recv env = hdr ++ icmp_msg type code c0 c1 i0 i1 sq rest -> ip_header is_raw hdr ->
  probe_icmp_once env dst ttl echo_id echo_seq timeout_ms addr rtt =
    Safe (if (type =? 0)%Z || (type =? 3)%Z then 2%Z else 1%Z, inet_ntop4_addr (ec_from env),
          rtt_since (mono_ns (ec_t0 env)) (mono_ns (ec_t1 env)) rtt).
Proof.
  unfold probe_icmp_once. destruct (open_icmp_socket _ _) as [fd is_raw].
  intros Hfd Hs Hp Hf Hr Hh. rewrite (proj2 (Z.ltb_ge _ _)) by done. cbv zeta. rewrite Hs, Hp, Hr, Hf. cbn [negb].
  rewrite (take_packet 512 is_raw) by (done || lia). set (m := icmp_msg _ _ _ _ _ _ _ (take _ _)).
  assert (Hlm : 8 <= length m) by (unfold m; simpl; lia).
  rewrite length_app, (proj2 (Nat.eqb_neq _ 0)) by lia. rewrite icmp_payload_msg by done. cbn [mbind chk_bind].
  unfold classify_icmp. rewrite (proj2 (Nat.ltb_ge _ _)) by done. change (rd m 0) with (Safe type).
  cbn [mbind chk_bind mret chk_ret]. unfold peer_addr. cbn [Z.eqb].
  destruct (Z.eqb_spec type 0), (Z.eqb_spec type 11), (Z.eqb_spec type 3); try done; lia.
Qed.
