(* ===== verification/LiveTrace.v ===== *)
(** * Traceroute and mtr (src/agent/live_trace.c)

    The hop table, the run over the hops with its fallback from UDP to ICMP, the summary
    lines, and the synthetic trace.  One probe of the run is TraceProbe.v. *)

From S2P Require Import Prelude CStr Float754 Inet Clock HostAlloc Config Spool Events PerfSample FlowTable.
From S2P Require Import AgentData Agent AgentConfig Icmp LivePing TraceProbe.

Definition CPE_TRACE_HOP_MAX := 32%Z.
Definition CPE_TRACE_METHOD_MAX := 16.

#[export] Instance eta_trace_hop : Eta cpe_trace_hop := fun h => {|
  hop_hop := hop_hop h; hop_addr := hop_addr h; hop_sent := hop_sent h; hop_replies := hop_replies h;
  hop_timeouts := hop_timeouts h; hop_last_rtt_ms := hop_last_rtt_ms h; hop_avg_rtt_ms := hop_avg_rtt_ms h;
  hop_min_rtt_ms := hop_min_rtt_ms h; hop_max_rtt_ms := hop_max_rtt_ms h; hop_loss := hop_loss h;
  hop_reached_dest := hop_reached_dest h |}.
#[export] Instance eta_trace_result : Eta cpe_trace_result := fun r => {|
  trr_target := trr_target r; trr_ts_iso := trr_ts_iso r; trr_method := trr_method r;
  trr_max_ttl := trr_max_ttl r; trr_probes_per_hop := trr_probes_per_hop r; trr_reached := trr_reached r;
  trr_dest_rtt_ms := trr_dest_rtt_ms r; trr_hops := trr_hops r |}.

(** ** The hop table *)
Definition hop_init (hop : Z) : cpe_trace_hop := {|
  hop_hop := hop; hop_addr := EmptyString; hop_sent := 0; hop_replies := 0; hop_timeouts := 0;
  hop_last_rtt_ms := d_zero; hop_avg_rtt_ms := d_zero; hop_min_rtt_ms := d_zero; hop_max_rtt_ms := d_zero;
  hop_loss := f_zero; hop_reached_dest := 0 |}.

Definition hop_set_loss (h : cpe_trace_hop) : cpe_trace_hop :=
  if (0 <? hop_sent h)%Z
  then h <| hop_loss := f_div (f_const (hop_timeouts h) 0) (f_const (hop_sent h) 0) |> else h.

(** The times of a reply. *)
Definition hop_times (rtt_ms : double) (h : cpe_trace_hop) : cpe_trace_hop :=
  let h := h <| hop_last_rtt_ms := rtt_ms |> in
  if (hop_replies h =? 1)%Z then
    h <| hop_min_rtt_ms := rtt_ms |> <| hop_max_rtt_ms := rtt_ms |> <| hop_avg_rtt_ms := rtt_ms |>
  else
    let h := if d_ltb rtt_ms (hop_min_rtt_ms h) then h <| hop_min_rtt_ms := rtt_ms |> else h in
    let h := if d_ltb (hop_max_rtt_ms h) rtt_ms then h <| hop_max_rtt_ms := rtt_ms |> else h in
    h <| hop_avg_rtt_ms :=
      d_div (d_add (d_mul (hop_avg_rtt_ms h) (d_of_Z (u32 (hop_replies h - 1)))) rtt_ms) (d_of_Z (hop_replies h)) |>.

Definition hop_record (h : cpe_trace_hop) (success : bool) (addr : string) (rtt_ms : double) (reached_dest : bool)
    : cpe_trace_hop :=
  let h := h <| hop_sent := u32 (hop_sent h + 1) |> in
  if negb success then hop_set_loss (h <| hop_timeouts := u32 (hop_timeouts h + 1) |>)
  else
    let h := h <| hop_replies := u32 (hop_replies h + 1) |> in
    let h := if nonempty addr then h <| hop_addr := snprintf_s CPE_PERF_TARGET_MAX addr |> else h in
    let h := hop_times rtt_ms h in
    let h := if reached_dest then h <| hop_reached_dest := 1%Z |> else h in
    hop_set_loss h.

(** ** The run *)

(** What the sockets answer during a run: to the test of the error queue, and to the probe
    [p] at each TTL. *)
Record trace_env := {
  te_pid : Z;
  te_now : clock;
  te_udp_ok : bool;               (* the socket and its IP_RECVERR option *)
  te_udp : Z -> nat -> udp_env;
  te_icmp : Z -> nat -> echo_env;
}.

(** The locals of [run_trace] that change, with the static [port_seq]. *)
Record run_state := {
  rs_tr : cpe_trace_result;
  rs_use_udp : bool;
  rs_echo_seq : Z;
  rs_port_seq : Z;
}.
#[export] Instance eta_run_state : Eta run_state := fun s => {|
  rs_tr := rs_tr s; rs_use_udp := rs_use_udp s; rs_echo_seq := rs_echo_seq s; rs_port_seq := rs_port_seq s |}.

Section run.
Context (env : trace_env) (dst timeout_ms : Z) (target : string).

Definition use_icmp (s : run_state) : run_state :=
  s <| rs_use_udp := false |> <| rs_tr := (rs_tr s) <| trr_method := snprintf_s CPE_TRACE_METHOD_MAX "icmp" |> |>.

Definition probe_icmp (ttl : Z) (p : nat) (s : run_state) (addr : string) (rtt : double)
    : chk (Z * string * double * run_state) :=
  let s := s <| rs_echo_seq := u16 (rs_echo_seq s + 1) |> in
  r ← probe_icmp_once (te_icmp env ttl p) dst ttl (Z.land (te_pid env) 65535) (rs_echo_seq s) timeout_ms addr rtt;
  mret (r, s).

Definition probe (ttl : Z) (p : nat) (s : run_state) : chk (Z * string * double * run_state) :=
  if rs_use_udp s then
    let port := u16 (CPE_TRACE_BASE_PORT + rs_port_seq s mod 2000) in
    let s := s <| rs_port_seq := u16 (rs_port_seq s + 1) |> in
    let '(pr, addr, rtt) := probe_udp_once (te_udp env ttl p) dst ttl port timeout_ms EmptyString d_zero in
    if (pr <? 0)%Z then probe_icmp ttl p (use_icmp s) addr rtt else mret (pr, addr, rtt, s)
  else probe_icmp ttl p s EmptyString d_zero.

(** One probe recorded in its hop; the flag is [hop_reached]. *)
Definition probe_step (ttl : Z) (acc : cpe_trace_hop * bool * run_state) (p : nat)
    : chk (cpe_trace_hop * bool * run_state) :=
  let '(hop, hop_reached, s) := acc in
  r ← probe ttl p s;
  let '(pr, addr, rtt, s) := r in
  mret (if (pr <? 0)%Z then (hop_record hop false EmptyString d_zero false, hop_reached, s)
        else if (pr =? 0)%Z then (hop_record hop false EmptyString d_zero false, hop_reached, s)
        else if (pr =? 2)%Z then
          (hop_record hop true (if nonempty addr then addr else target) rtt true, true,
           s <| rs_tr := (rs_tr s) <| trr_reached := 1%Z |> <| trr_dest_rtt_ms := rtt |> |>)
        else (hop_record hop true addr rtt false, hop_reached, s)).

Fixpoint probe_loop (ttl : Z) (ps : list nat) (acc : cpe_trace_hop * bool * run_state)
    : chk (cpe_trace_hop * bool * run_state) :=
  match ps with
  | [] => mret acc
  | p :: ps' => acc ← probe_step ttl acc p; probe_loop ttl ps' acc
  end.

(** The loop over the TTLs, [fuel] of them. *)
Fixpoint hop_loop (probes_per_hop : nat) (fuel : nat) (ttl : Z) (s : run_state) : chk run_state :=
  match fuel with
  | O => mret s
  | S f =>
      r ← probe_loop ttl (seq 0 probes_per_hop) (hop_init ttl, false, s);
      let '(hop, hop_reached, s) := r in
      let s := s <| rs_tr := (rs_tr s) <| trr_hops := trr_hops (rs_tr s) ++ [hop] |> |> in
      if (hop_reached : bool) then mret s else hop_loop probes_per_hop f (ttl + 1)%Z s
  end.
End run.

(** The limits applied to the arguments. *)
Definition clamp_ttl (max_ttl : Z) : Z :=
  let m := if (max_ttl <=? 0)%Z then 30%Z else max_ttl in
  if (CPE_TRACE_HOP_MAX <? m)%Z then CPE_TRACE_HOP_MAX else m.
Definition clamp_probes (probes_per_hop : Z) : Z :=
  let p := if (probes_per_hop <=? 0)%Z then 1%Z else probes_per_hop in
  if (16 <? p)%Z then 16%Z else p.

(** The target as text and address; the buffer has [out_len] bytes. *)
Definition resolve_target (cfg : cpe_agent_config) (target_opt : option string) (out_len : nat)
    : option (string * Z) :=
  let target := match target_opt with Some t => if nonempty t then t else demo_target cfg | None => demo_target cfg end in
  if negb (nonempty target) then None
  else if out_len <=? strlen target then None
  else match inet_pton4 target with Some dst => Some (snprintf_s out_len target, dst) | None => None end.

Definition trace_start (env : trace_env) (target : string) (max_ttl probes_per_hop : Z) : cpe_trace_result := {|
  trr_target := snprintf_s CPE_PERF_TARGET_MAX target;
  trr_ts_iso := AgentCoreClock.iso_now (te_now env) CPE_PERF_TS_MAX;
  trr_method := snprintf_s CPE_TRACE_METHOD_MAX (if te_udp_ok env then "udp" else "icmp");
  trr_max_ttl := max_ttl; trr_probes_per_hop := probes_per_hop; trr_reached := 0;
  trr_dest_rtt_ms := d_zero; trr_hops := [] |}.

(** ** The summary *)
Definition summary_sample (tr : cpe_trace_result) (probe_name : string) : cpe_perf_sample :=
  let '(rtt, loss) :=
    if truthy (trr_reached tr) && d_ltb d_zero (trr_dest_rtt_ms tr) then (trr_dest_rtt_ms tr, f_const 0 0)
    else match last (trr_hops tr) with
         | Some h => (hop_last_rtt_ms h, hop_loss h)
         | None => (d_zero, f_const 1 0)
         end in {|
  ps_probe := snprintf_s CPE_PERF_PROBE_MAX probe_name;
  ps_target := snprintf_s CPE_PERF_TARGET_MAX (trr_target tr);
  ps_rtt_ms := rtt; ps_loss := loss;
  ps_ts_iso := snprintf_s CPE_PERF_TS_MAX (trr_ts_iso tr);
  ps_meta := snprintf_s CPE_PERF_META_MAX
    (lit "{'hops':" +:+ fmt_u (Z.of_nat (length (trr_hops tr))) +:+
     lit ",'reached':" +:+ (if truthy (trr_reached tr) then "true" else "false") +:+
     lit ",'method':'" +:+ trr_method tr +:+ lit "','probes':" +:+ fmt_u (trr_probes_per_hop tr) +:+
     lit ",'demo':false}") |}.

Definition hop_meta (tr : cpe_trace_result) (h : cpe_trace_hop) : string :=
  lit "{'hop':" +:+ fmt_u (hop_hop h) +:+ lit ",'sent':" +:+ fmt_u (hop_sent h) +:+
  lit ",'replies':" +:+ fmt_u (hop_replies h) +:+
  lit ",'dest':" +:+ (if truthy (hop_reached_dest h) then "true" else "false") +:+
  lit ",'path':'" +:+ trr_target tr +:+ lit "'}".
Definition hop_sample (tr : cpe_trace_result) (probe_name : string) (h : cpe_trace_hop) : cpe_perf_sample := {|
  ps_probe := snprintf_s CPE_PERF_PROBE_MAX (probe_name +:+ "_hop");
  ps_target := snprintf_s CPE_PERF_TARGET_MAX (str_dflt (hop_addr h) "*");
  ps_rtt_ms := hop_last_rtt_ms h; ps_loss := hop_loss h;
  ps_ts_iso := snprintf_s CPE_PERF_TS_MAX (trr_ts_iso tr);
  ps_meta := snprintf_s CPE_PERF_META_MAX (hop_meta tr h) |}.

Section agent.
Context {P C : Type}.
Local Abbreviation agent := (agent P C).

(** The line of one hop; failures are skipped. *)
Definition emit_hop (tr : cpe_trace_result) (probe_name : string) (a : agent) (h : cpe_trace_hop) : agent :=
  if CPE_PERF_META_MAX <=? strlen (hop_meta tr h) then a
  else a <| ag_q := snd (push_perf (ag_cfg a) (ag_q a) (hop_sample tr probe_name h)) |>.

Definition emit_summary (a : agent) (tr : cpe_trace_result) (probe_name : string) : Z * agent :=
  let '(rc, a) := store_and_push a (summary_sample tr probe_name) in
  if negb (rc =? 0)%Z then ((-1)%Z, a) else (0%Z, foldl (emit_hop tr probe_name) a (trr_hops tr)).

(** The result, the agent, [*out_opt] and the static counter. *)
Definition run_trace (env : trace_env) (a : agent) (target_opt : option string) (max_ttl probes_per_hop timeout_ms : Z)
    (probe_name : string) (port_seq : Z) : chk (Z * agent * option cpe_trace_result * Z) :=
  let max_ttl := clamp_ttl max_ttl in
  let probes_per_hop := clamp_probes probes_per_hop in
  let timeout_ms := if (timeout_ms =? 0)%Z then dflt (probe_timeout_ms (ag_cfg a)) 1000 else timeout_ms in
  match resolve_target (ag_cfg a) target_opt CPE_PERF_TARGET_MAX with
  | None => mret ((-1)%Z, a, None, port_seq)
  | Some (target, dst) =>
      s ← hop_loop env dst timeout_ms target (Z.to_nat probes_per_hop) (Z.to_nat max_ttl) 1
            {| rs_tr := trace_start env target max_ttl probes_per_hop; rs_use_udp := te_udp_ok env;
               rs_echo_seq := 0; rs_port_seq := port_seq |};
      let tr := rs_tr s in
      let a := cpe_agent_set_last_trace a tr in
      let '(rc, a) := emit_summary a tr probe_name in
      mret (if negb (rc =? 0)%Z then ((-1)%Z, a, None, rs_port_seq s) else (0%Z, a, Some tr, rs_port_seq s))
  end.

Definition cpe_agent_traceroute (env : trace_env) (a : agent) (target_opt : option string) (max_ttl timeout_ms : Z)
    (port_seq : Z) := run_trace env a target_opt max_ttl 1 timeout_ms "traceroute" port_seq.
Definition cpe_agent_mtr (env : trace_env) (a : agent) (target_opt : option string)
    (max_ttl probes_per_hop timeout_ms : Z) (port_seq : Z) :=
  run_trace env a target_opt max_ttl (if (probes_per_hop <=? 0)%Z then 3%Z else probes_per_hop) timeout_ms "mtr"
    port_seq.

(** ** The synthetic trace *)
Definition demo_hop (hops : Z) (target : string) (i : Z) : cpe_trace_hop :=
  let t := d_mul (d_of_Z 1) (d_of_Z (i + 1)) in
  let h := (hop_init (i + 1)) <| hop_sent := 1%Z |> <| hop_replies := 1%Z |> <| hop_last_rtt_ms := t |>
             <| hop_avg_rtt_ms := t |> <| hop_min_rtt_ms := t |> <| hop_max_rtt_ms := t |>
             <| hop_loss := f_const 0 0 |> in
  if (i + 1 <? hops)%Z
  then h <| hop_addr := snprintf_s CPE_PERF_TARGET_MAX ("10.0." +:+ fmt_u (i + 1) +:+ ".1") |>
  else h <| hop_addr := snprintf_s CPE_PERF_TARGET_MAX target |> <| hop_reached_dest := 1%Z |>.

Definition demo_trace (clk : clock) (target : string) (max_ttl : Z) : cpe_trace_result :=
  let max_ttl := if (max_ttl <=? 0)%Z then 5%Z else max_ttl in
  let max_ttl := if (CPE_TRACE_HOP_MAX <? max_ttl)%Z then CPE_TRACE_HOP_MAX else max_ttl in
  let hops := if (max_ttl <? 4)%Z then max_ttl else 4%Z in
  let table := demo_hop hops target <$> seqZ 0 hops in {|
  trr_target := snprintf_s CPE_PERF_TARGET_MAX target;
  trr_ts_iso := AgentCoreClock.iso_now clk CPE_PERF_TS_MAX;
  trr_method := snprintf_s CPE_TRACE_METHOD_MAX "demo";
  trr_max_ttl := max_ttl; trr_probes_per_hop := 1; trr_reached := 1;
  trr_dest_rtt_ms := match last table with Some h => hop_last_rtt_ms h | None => d_zero end;
  trr_hops := table |}.

Definition demo_trace_sample (tr : cpe_trace_result) : cpe_perf_sample := {|
  ps_probe := snprintf_s CPE_PERF_PROBE_MAX "traceroute";
  ps_target := snprintf_s CPE_PERF_TARGET_MAX (trr_target tr);
  ps_rtt_ms := trr_dest_rtt_ms tr; ps_loss := f_const 0 0;
  ps_ts_iso := snprintf_s CPE_PERF_TS_MAX (trr_ts_iso tr);
  ps_meta := snprintf_s CPE_PERF_META_MAX
    (lit "{'hops':" +:+ fmt_u (Z.of_nat (length (trr_hops tr))) +:+
     lit ",'reached':true,'method':'demo','probes':1,'demo':true}") |}.

Definition cpe_agent_demo_traceroute (clk : clock) (a : agent) (target_opt : option string) (max_ttl : Z)
    : Z * agent * option cpe_trace_result :=
  let target := match target_opt with
                | Some t => if nonempty t then t else demo_target (ag_cfg a)
                | None => demo_target (ag_cfg a)
                end in
  let target := str_dflt target "1.1.1.1" in
  let tr := demo_trace clk target max_ttl in
  let a := cpe_agent_set_last_trace a tr in
  let '(rc, a) := store_and_push a (demo_trace_sample tr) in
  if negb (rc =? 0)%Z then ((-1)%Z, a, None) else (0%Z, a, Some tr).
End agent.

(** ** The statistics of a hop *)

(** What a probe contributes: nothing, or an address, a time and whether it came from the
    destination. *)
Definition observation : Type := option (string * double * bool).
Definition record_obs (h : cpe_trace_hop) (o : observation) : cpe_trace_hop :=
  match o with
  | None => hop_record h false EmptyString d_zero false
  | Some (addr, rtt, dest) => hop_record h true addr rtt dest
  end.
Definition hop_of (ttl : Z) (obs : list observation) : cpe_trace_hop := foldl record_obs (hop_init ttl) obs.

Definition obs_time (o : observation) : option double := match o with Some (_, rtt, _) => Some rtt | None => None end.
Definition obs_dest (o : observation) : bool := match o with Some (_, _, d) => d | None => false end.
Definition times (obs : list observation) : list double := omap obs_time obs.

(** The lower and upper bound of the times seen. *)
Definition time_bounds (h : cpe_trace_hop) (ts : list double) : Prop :=
  (ts <> [] -> hop_min_rtt_ms h ∈ ts /\ hop_max_rtt_ms h ∈ ts) /\
  (Forall (fun t => is_num t = true) ts -> Forall (fun t =>
     d_ltb t (hop_min_rtt_ms h) = false /\ d_ltb (hop_max_rtt_ms h) t = false) ts).

Record hop_stats (ttl : Z) (obs : list observation) (h : cpe_trace_hop) : Prop := {
  hs_hop : hop_hop h = ttl;
  hs_sent : hop_sent h = Z.of_nat (length obs);
  hs_replies : hop_replies h = Z.of_nat (length (times obs));
  hs_timeouts : (hop_replies h + hop_timeouts h = hop_sent h)%Z;
  hs_loss : obs <> [] -> hop_loss h = f_div (f_const (hop_timeouts h) 0) (f_const (hop_sent h) 0);
  hs_last : hop_last_rtt_ms h = default d_zero (last (times obs));
  hs_bounds : time_bounds h (times obs);
  hs_reached : hop_reached_dest h = c_bool (existsb obs_dest obs);
}.

Lemma d_ltb_self x : d_ltb x x = false.
Proof.
  destruct x as [[]|[]| |s m e]; try done. by apply d_ltb_irrefl.
Qed.

(** The two bounds after one more time. *)
Lemma widen_min t m ts :
  m ∈ ts -> is_num t = true -> Forall (fun x => is_num x = true) ts -> Forall (fun x => d_ltb x m = false) ts ->
  Forall (fun x => d_ltb x (if d_ltb t m then t else m) = false) (ts ++ [t]).
Proof.
  intros Hin Hn Hall Hm. assert (Hnm : is_num m = true) by (rewrite Forall_forall in Hall; by apply Hall).
  apply Forall_app. split; [|apply Forall_singleton; destruct (d_ltb t m) eqn:E; [apply d_ltb_self|done]].
  destruct (d_ltb t m) eqn:E; [|done]. rewrite Forall_forall in *. intros x Hx.
  apply (d_nltb_trans x m t); auto. by apply d_ltb_asym.
Qed.
Lemma widen_max t m ts :
  m ∈ ts -> is_num t = true -> Forall (fun x => is_num x = true) ts -> Forall (fun x => d_ltb m x = false) ts ->
  Forall (fun x => d_ltb (if d_ltb m t then t else m) x = false) (ts ++ [t]).
Proof.
  intros Hin Hn Hall Hm. assert (Hnm : is_num m = true) by (rewrite Forall_forall in Hall; by apply Hall).
  apply Forall_app. split; [|apply Forall_singleton; destruct (d_ltb m t) eqn:E; [apply d_ltb_self|done]].
  destruct (d_ltb m t) eqn:E; [|done]. rewrite Forall_forall in *. intros x Hx.
  apply (d_nltb_trans t m x); auto. by apply d_ltb_asym.
Qed.

Lemma hop_times_bounds t h ts :
  hop_replies h = Z.of_nat (length (ts ++ [t])) -> time_bounds h ts -> time_bounds (hop_times t h) (ts ++ [t]).
Proof.
  intros Hr [Hin Hb]. unfold hop_times. cbn [hop_replies set_field]. 
  change (hop_replies (h <| hop_last_rtt_ms := t |>)) with (hop_replies h). rewrite Hr, length_app. simpl length.
  destruct ts as [|t0 ts].
  - simpl. split; [intros _; split; by left|]. intros _. apply Forall_singleton. cbn. by rewrite !d_ltb_self.
  - rewrite (proj2 (Z.eqb_neq _ 1)) by (simpl; lia).
    destruct (Hin ltac:(done)) as [Hi1 Hi2]. set (l := t0 :: ts) in *.
    set (h1 := h <| hop_last_rtt_ms := t |>).
    change (hop_min_rtt_ms h1) with (hop_min_rtt_ms h).
    set (h2 := if d_ltb t (hop_min_rtt_ms h) then _ else h1).
    assert (E1 : hop_min_rtt_ms h2 = if d_ltb t (hop_min_rtt_ms h) then t else hop_min_rtt_ms h)
      by (unfold h2; by destruct (d_ltb t _)).
    assert (E2 : hop_max_rtt_ms h2 = hop_max_rtt_ms h) by (unfold h2; by destruct (d_ltb t _)).
    rewrite E2. set (h3 := if d_ltb (hop_max_rtt_ms h) t then _ else h2).
    assert (E3 : hop_min_rtt_ms h3 = hop_min_rtt_ms h2) by (unfold h3; by destruct (d_ltb _ t)).
    assert (E4 : hop_max_rtt_ms h3 = if d_ltb (hop_max_rtt_ms h) t then t else hop_max_rtt_ms h)
      by (unfold h3; destruct (d_ltb _ t); [done|exact E2]).
    unfold time_bounds. cbn [hop_min_rtt_ms hop_max_rtt_ms set_field].
    match goal with |- context [hop_min_rtt_ms ?h4] =>
      change (hop_min_rtt_ms h4) with (hop_min_rtt_ms h3); change (hop_max_rtt_ms h4) with (hop_max_rtt_ms h3) end.
    rewrite E3, E1, E4. split.
    + intros _. rewrite !elem_of_app, !list_elem_of_singleton.
      split; [destruct (d_ltb t _)|destruct (d_ltb _ t)]; tauto.
    + intros Hn. apply Forall_app in Hn as [Hn1 Hn2]. rewrite Forall_singleton in Hn2.
      specialize (Hb Hn1). apply Forall_and in Hb as [Hb1 Hb2]. apply Forall_and. split.
      * by apply widen_min.
      * by apply widen_max.
Qed.

(** The fields of a hop after one more probe. *)
Lemma hop_times_frame t h :
  hop_hop (hop_times t h) = hop_hop h /\ hop_sent (hop_times t h) = hop_sent h /\
  hop_replies (hop_times t h) = hop_replies h /\ hop_timeouts (hop_times t h) = hop_timeouts h /\
  hop_last_rtt_ms (hop_times t h) = t /\ hop_reached_dest (hop_times t h) = hop_reached_dest h.
Proof.
  unfold hop_times. change (hop_replies (h <| hop_last_rtt_ms := t |>)) with (hop_replies h).
  destruct (_ =? _)%Z; [done|]. cbv zeta. destruct (d_ltb t _);
  match goal with |- context [d_ltb ?x t] => by destruct (d_ltb x t) end.
Qed.

Lemma time_bounds_same h h' ts :
  hop_min_rtt_ms h' = hop_min_rtt_ms h -> hop_max_rtt_ms h' = hop_max_rtt_ms h -> time_bounds h ts -> time_bounds h' ts.
Proof. unfold time_bounds. by intros -> ->. Qed.

Lemma set_loss_frame h :
  (0 < hop_sent h)%Z -> hop_set_loss h = h <| hop_loss := f_div (f_const (hop_timeouts h) 0) (f_const (hop_sent h) 0) |>.
Proof. intros Hs. unfold hop_set_loss. by rewrite (proj2 (Z.ltb_lt _ _)). Qed.

Lemma length_times obs : length (times obs) <= length obs.
Proof.
  unfold times. induction obs as [|o obs IH]; [done|].
  destruct o as [[[]]|]; cbn [omap list_omap obs_time length]; lia.
Qed.
Lemma times_snoc obs o : times (obs ++ [o]) = times obs ++ option_list (obs_time o).
Proof. unfold times. rewrite omap_app. by destruct o as [[[]]|]. Qed.
Lemma dest_snoc obs o : existsb obs_dest (obs ++ [o]) = existsb obs_dest obs || obs_dest o.
Proof. rewrite existsb_app. simpl. by rewrite orb_false_r. Qed.

Section one_more.
Context (ttl : Z) (obs : list observation) (h : cpe_trace_hop).
Hypothesis Hlen : (Z.of_nat (length obs) + 1 < 4294967296)%Z.
Hypothesis Hst : hop_stats ttl obs h.

Lemma next_sent (o : observation) : u32 (hop_sent h + 1) = Z.of_nat (length (obs ++ [o])).
Proof. rewrite (hs_sent _ _ _ Hst), length_app. simpl. rewrite u32_id; [lia|unfold in_u32; lia]. Qed.
Lemma next_replies (t : double) : u32 (hop_replies h + 1) = Z.of_nat (length (times obs ++ [t])).
Proof.
  pose proof (length_times obs). rewrite (hs_replies _ _ _ Hst), length_app. simpl.
  rewrite u32_id; [lia|unfold in_u32; lia].
Qed.

Lemma timeout_stats : hop_stats ttl (obs ++ [None]) (record_obs h None).
Proof.
  pose proof (length_times obs) as Hlt. pose proof (next_sent None) as Hsent.
  destruct Hst as [H1 H2 H3 H4 H5 H6 H7 H8].
  unfold record_obs, hop_record. cbn [negb].
  set (h1 := h <| hop_sent := _ |>). change (hop_timeouts h1) with (hop_timeouts h).
  set (h2 := h1 <| hop_timeouts := _ |>).
  rewrite set_loss_frame by (change (0 < u32 (hop_sent h + 1))%Z; rewrite Hsent, length_app; simpl; lia).
  assert (Ht : u32 (hop_timeouts h + 1) = (hop_timeouts h + 1)%Z) by (apply u32_id; unfold in_u32; lia).
  constructor; rewrite ?times_snoc, ?dest_snoc; cbn [obs_time obs_dest option_list]; rewrite ?app_nil_r, ?orb_false_r;
    try done.
  change (hop_replies h + u32 (hop_timeouts h + 1) = u32 (hop_sent h + 1))%Z.
  rewrite Ht, Hsent, length_app. simpl. lia.
Qed.

(** The hop when [hop_times] is called. *)
Definition replied_hop (addr : string) : cpe_trace_hop :=
  let h := h <| hop_sent := u32 (hop_sent h + 1) |> in
  let h := h <| hop_replies := u32 (hop_replies h + 1) |> in
  if nonempty addr then h <| hop_addr := snprintf_s CPE_PERF_TARGET_MAX addr |> else h.
Lemma replied_hop_frame addr :
  let h' := replied_hop addr in
  hop_hop h' = hop_hop h /\ hop_sent h' = u32 (hop_sent h + 1) /\ hop_replies h' = u32 (hop_replies h + 1) /\
  hop_timeouts h' = hop_timeouts h /\ hop_reached_dest h' = hop_reached_dest h /\
  hop_min_rtt_ms h' = hop_min_rtt_ms h /\ hop_max_rtt_ms h' = hop_max_rtt_ms h.
Proof. unfold replied_hop. by destruct (nonempty addr). Qed.

(** The fields [hop_record] changes after the times. *)
Lemma reply_record addr rtt dest :
  let h4 := hop_times rtt (replied_hop addr) in
  record_obs h (Some (addr, rtt, dest)) =
    h4 <| hop_reached_dest := (if dest then 1%Z else hop_reached_dest h) |>
       <| hop_loss := f_div (f_const (hop_timeouts h) 0) (f_const (u32 (hop_sent h + 1)) 0) |>.
Proof.
  cbv zeta. unfold record_obs, hop_record. cbn [negb]. fold (replied_hop addr).
  destruct (hop_times_frame rtt (replied_hop addr)) as (_ & B2 & _ & B4 & _ & B6).
  destruct (replied_hop_frame addr) as (_ & A2 & _ & A4 & A5 & _).
  set (h4 := hop_times rtt (replied_hop addr)) in *.
  set (h5 := if dest then _ else h4).
  assert (E : h5 = h4 <| hop_reached_dest := (if dest then 1%Z else hop_reached_dest h) |>).
  { unfold h5. destruct dest; [done|]. rewrite <- A5, <- B6. by destruct h4. }
  rewrite set_loss_frame.
  - rewrite E, <- A2, <- B2, <- A4, <- B4. done.
  - rewrite E. change (0 < hop_sent h4)%Z. rewrite B2, A2, (next_sent None), length_app. simpl. lia.
Qed.

Lemma reply_stats addr rtt dest : hop_stats ttl (obs ++ [Some (addr, rtt, dest)]) (record_obs h (Some (addr, rtt, dest))).
Proof.
  pose proof (reply_record addr rtt dest) as Hr. cbv zeta in Hr.
  destruct (hop_times_frame rtt (replied_hop addr)) as (B1 & B2 & B3 & B4 & B5 & B6).
  destruct (replied_hop_frame addr) as (A1 & A2 & A3 & A4 & A5 & A6 & A7).
  pose proof (next_sent (Some (addr, rtt, dest))) as Hsent. pose proof (next_replies rtt) as Hrep.
  destruct Hst as [H1 H2 H3 H4 H5 H6 H7 H8].
  pose proof (hop_times_bounds rtt (replied_hop addr) (times obs) ltac:(by rewrite A3)
    (time_bounds_same _ _ _ A6 A7 H7)) as Hb.
  set (h4 := hop_times rtt (replied_hop addr)) in *. set (h6 := record_obs _ _) in *.
  assert (E : hop_hop h6 = hop_hop h4 /\ hop_sent h6 = hop_sent h4 /\ hop_replies h6 = hop_replies h4 /\
    hop_timeouts h6 = hop_timeouts h4 /\ hop_last_rtt_ms h6 = hop_last_rtt_ms h4 /\
    hop_min_rtt_ms h6 = hop_min_rtt_ms h4 /\ hop_max_rtt_ms h6 = hop_max_rtt_ms h4 /\
    hop_reached_dest h6 = (if dest then 1%Z else hop_reached_dest h) /\
    hop_loss h6 = f_div (f_const (hop_timeouts h) 0) (f_const (u32 (hop_sent h + 1)) 0)) by by rewrite Hr.
  destruct E as (C1 & C2 & C3 & C4 & C5 & C6 & C7 & C8 & C9).
  constructor; rewrite ?times_snoc, ?dest_snoc; cbn [obs_time obs_dest option_list].
  - by rewrite C1, B1, A1.
  - by rewrite C2, B2, A2.
  - by rewrite C3, B3, A3.
  - rewrite C2, C3, C4, B2, B3, B4, A2, A3, A4, Hsent, Hrep. rewrite !length_app. simpl. lia.
  - intros _. by rewrite C9, C4, B4, A4, C2, B2, A2.
  - rewrite C5, B5. change (option_list (Some rtt)) with [rtt]. by rewrite last_snoc.
  - by apply (time_bounds_same h4).
  - rewrite C8, H8. destruct dest; [by rewrite orb_true_r|by rewrite orb_false_r].
Qed.
End one_more.

(** The statistics of a hop are those of its probes: probes sent, replies and
    timeouts that add up, the loss as their quotient, the last time, the smallest and the
    largest, and whether one of them reached the destination. *)
Theorem hop_of_stats ttl obs : (Z.of_nat (length obs) < 4294967296)%Z -> hop_stats ttl obs (hop_of ttl obs).
Proof.
  induction obs as [|o obs IH] using rev_ind; intros Hl.
  - by constructor.
  - rewrite length_app in Hl. simpl in Hl. unfold hop_of. rewrite foldl_app. cbn [foldl].
    destruct o as [[[addr rtt] dest]|]; [apply reply_stats|apply timeout_stats]; try lia; apply IH; lia.
Qed.

(** ** The run *)

(** What a run does not change in its result. *)
Definition same_run (t t' : cpe_trace_result) : Prop :=
  trr_target t' = trr_target t /\ trr_ts_iso t' = trr_ts_iso t /\
  trr_max_ttl t' = trr_max_ttl t /\ trr_probes_per_hop t' = trr_probes_per_hop t.
#[local] Instance same_run_pre : PreOrder same_run.
Proof. split; [by intros t|]. intros x y z (A1 & A2 & A3 & A4) (B1 & B2 & B3 & B4). by split_and!; etrans. Qed.

Definition obs_ok (o : observation) : Prop :=
  match o with Some (addr, _, _) => strlen addr < CPE_PERF_TARGET_MAX | None => True end.
Definition answered (obs : list observation) : bool := existsb obs_dest obs.

(** The hops of a run from a TTL on, with the probes of each. *)
Definition hop_table (ttl : Z) (obss : list (list observation)) : list cpe_trace_hop :=
  imap (fun i obs => hop_of (ttl + Z.of_nat i) obs) obss.

Lemma hop_table_cons ttl obs obss : hop_table ttl (obs :: obss) = hop_of ttl obs :: hop_table (ttl + 1) obss.
Proof.
  unfold hop_table. rewrite imap_cons. cbn. rewrite Z.add_0_r. f_equal. apply imap_ext. intros i x _. cbn.
  f_equal. lia.
Qed.

Section runs.
Context (env : trace_env) (dst timeout_ms : Z) (target : string).
Hypothesis Htarget : strlen target < CPE_PERF_TARGET_MAX.

Definition probe_frame (s : run_state) (r : Z * string * double * run_state) : Prop :=
  let '(pr, addr, rtt, s') := r in
  probe_result_ok (pr, addr, rtt) /\ same_run (rs_tr s) (rs_tr s') /\
  trr_hops (rs_tr s') = trr_hops (rs_tr s) /\ trr_reached (rs_tr s') = trr_reached (rs_tr s).

Lemma probe_icmp_frame ttl p s s0 addr rtt :
  strlen addr < CPE_PERF_TARGET_MAX -> same_run (rs_tr s0) (rs_tr s) -> trr_hops (rs_tr s) = trr_hops (rs_tr s0) ->
  trr_reached (rs_tr s) = trr_reached (rs_tr s0) ->
  safe_with (probe_frame s0) (probe_icmp env dst timeout_ms ttl p s addr rtt).
Proof.
  intros Ha Hs Hh Hr. unfold probe_icmp. eapply safe_bind; [by apply probe_icmp_ok|].
  intros [[pr addr'] rtt'] Hp. by apply safe_ret.
Qed.

Lemma probe_ok ttl p s : safe_with (probe_frame s) (probe env dst timeout_ms ttl p s).
Proof.
  assert (H0 : strlen EmptyString < CPE_PERF_TARGET_MAX) by (unfold CPE_PERF_TARGET_MAX; simpl; lia).
  unfold probe. destruct (rs_use_udp s); [|by apply probe_icmp_frame].
  set (port := u16 _). pose proof (probe_udp_ok (te_udp env ttl p) dst ttl port timeout_ms EmptyString d_zero H0) as Hu.
  destruct (probe_udp_once _ _ _ _ _ _ _) as [[pr addr] rtt].
  destruct (pr <? 0)%Z; [|by apply safe_ret]. apply probe_icmp_frame; try done. by destruct Hu.
Qed.

Definition step_frame (obs : list observation) (acc acc' : cpe_trace_hop * bool * run_state) : Prop :=
  let '(hop, hr, s) := acc in let '(hop', hr', s') := acc' in
  Forall obs_ok obs /\ hop' = foldl record_obs hop obs /\ hr' = hr || answered obs /\ same_run (rs_tr s) (rs_tr s') /\
  trr_hops (rs_tr s') = trr_hops (rs_tr s) /\
  trr_reached (rs_tr s') = (if answered obs then 1%Z else trr_reached (rs_tr s)).

Lemma probe_step_ok ttl acc p :
  safe_with (fun acc' => exists o, step_frame [o] acc acc') (probe_step env dst timeout_ms target ttl acc p).
Proof.
  destruct acc as [[hop hr] s]. unfold probe_step. eapply safe_bind; [apply probe_ok|].
  intros [[[pr addr] rtt] s'] ([Hpr Ha] & Hs & Hh & Hr). cbn [fst snd] in *. apply safe_ret. unfold step_frame.
  assert (Haddr : strlen (if nonempty addr then addr else target) < CPE_PERF_TARGET_MAX) by by destruct (nonempty addr).
  destruct Hpr as [->|[->|[->| ->]]]; cbn.
  - exists None. rewrite orb_false_r. split_and!; try done. by constructor.
  - exists None. rewrite orb_false_r. split_and!; try done. by constructor.
  - exists (Some (addr, rtt, false)). rewrite orb_false_r. split_and!; try done. by constructor.
  - exists (Some (if nonempty addr then addr else target, rtt, true)). rewrite orb_true_r.
    split_and!; try done; [by constructor|by destruct Hs..].
Qed.

Lemma probe_loop_ok ttl ps acc :
  safe_with (fun acc' => exists obs, length obs = length ps /\ step_frame obs acc acc')
    (probe_loop env dst timeout_ms target ttl ps acc).
Proof.
  revert acc. induction ps as [|p ps IH]; intros [[hop hr] s].
  - apply safe_ret. exists []. unfold step_frame. cbn. rewrite orb_false_r. by split_and!.
  - cbn [probe_loop]. eapply safe_bind; [apply probe_step_ok|]. intros [[hop1 hr1] s1] (o & H1).
    destruct (IH (hop1, hr1, s1)) as ([[hop2 hr2] s2] & Hrun & obs & Hl & H2).
    exists (hop2, hr2, s2). split; [exact Hrun|]. exists (o :: obs). split; [simpl; lia|].
    destruct H1 as (A1 & A2 & A3 & A4 & A5 & A6). destruct H2 as (B1 & B2 & B3 & B4 & B5 & B6).
    cbn in A2, A3, A6. rewrite orb_false_r in A3, A6. unfold step_frame, answered in *. cbn [existsb foldl].
    split_and!.
    + apply Forall_cons. split; [by inversion A1|done].
    + by rewrite B2, A2.
    + rewrite B3, A3. by rewrite orb_assoc.
    + by etrans.
    + by rewrite B5, A5.
    + rewrite B6, A6. by destruct (obs_dest o), (existsb obs_dest obs).
Qed.

(** The run ends with the first hop where the destination answers, or at the limit. *)
Definition run_ends (n : nat) (obss : list (list observation)) (reached : Z) : Prop :=
  (exists init obs, obss = init ++ [obs] /\ answered obs = true /\ Forall (fun o => answered o = false) init /\
     reached = 1%Z /\ length obss <= n) \/
  (length obss = n /\ Forall (fun o => answered o = false) obss /\ reached = 0%Z).

Definition run_frame (probes : nat) (n : nat) (ttl : Z) (s s' : run_state) : Prop :=
  exists obss, trr_hops (rs_tr s') = trr_hops (rs_tr s) ++ hop_table ttl obss /\
    Forall (fun obs => length obs = probes /\ Forall obs_ok obs) obss /\
    same_run (rs_tr s) (rs_tr s') /\ run_ends n obss (trr_reached (rs_tr s')).

Lemma hop_loop_ok probes n ttl s :
  trr_reached (rs_tr s) = 0%Z ->
  safe_with (run_frame probes n ttl s) (hop_loop env dst timeout_ms target probes n ttl s).
Proof.
  revert ttl s. induction n as [|n IH]; intros ttl s Hz.
  { apply safe_ret. exists []. cbn. rewrite app_nil_r. split_and!; try done. right. by split_and!. }
  cbn [hop_loop]. eapply safe_bind; [apply probe_loop_ok|].
  intros [[hop hr] s1] (obs & Hl & Hok & -> & -> & Hs & Hh & Hr). rewrite length_seq in Hl. rewrite Hz in Hr. cbn [orb].
  set (s2 := s1 <| rs_tr := _ |>).
  assert (Hs2 : same_run (rs_tr s) (rs_tr s2)) by exact Hs.
  assert (Hh2 : trr_hops (rs_tr s2) = trr_hops (rs_tr s) ++ [hop_of ttl obs]) by (cbn; by rewrite Hh).
  assert (Hr2 : trr_reached (rs_tr s2) = if answered obs then 1%Z else 0%Z) by exact Hr.
  destruct (answered obs) eqn:Ea.
  - apply safe_ret. exists [obs]. rewrite hop_table_cons. cbn [hop_table imap]. split_and!; try done.
    { by apply Forall_singleton. }
    left. exists [], obs. split_and!; try done. simpl. lia.
  - destruct (IH (ttl + 1)%Z s2 Hr2) as (s3 & Hrun & obss & H1 & H2 & H3 & H4).
    exists s3. split; [exact Hrun|]. exists (obs :: obss). rewrite hop_table_cons, H1, Hh2, <- app_assoc.
    split_and!; try done.
    { by apply Forall_cons. } { by etrans. }
    destruct H4 as [(init & o & -> & E1 & E2 & E3 & E4)|(E1 & E2 & E3)].
    + left. exists (obs :: init), o. split_and!; try done; [by constructor|simpl in *; lia].
    + right. split_and!; [simpl; lia|by constructor|done].
Qed.
End runs.

(** ** The lines of a trace *)
Section emits.
Context {P C : Type}.
Local Abbreviation agent := (agent P C).

Definition sample_fits (cfg : cpe_agent_config) (s : cpe_perf_sample) : bool :=
  strlen (perf_text (router_name (Some (router_id cfg))) s) <? CPE_NDJSON_LINE_MAX.
Definition sample_line (cfg : cpe_agent_config) (s : cpe_perf_sample) : string :=
  perf_text (router_name (Some (router_id cfg))) s.
(** The line of a hop, unless its meta text or the line does not fit. *)
Definition hop_line (cfg : cpe_agent_config) (tr : cpe_trace_result) (name : string) (h : cpe_trace_hop)
    : option string :=
  if (strlen (hop_meta tr h) <? CPE_PERF_META_MAX) && sample_fits cfg (hop_sample tr name h)
  then Some (sample_line cfg (hop_sample tr name h)) else None.

Lemma emit_hops_lines tr name hops (a : agent) :
  queues_wf (ag_q a) -> spool_cap (ag_q a) <> 0 ->
  let a' := foldl (emit_hop tr name) a hops in
  a' = a <| ag_q := ag_q a' |> /\ queues_wf (ag_q a') /\ spool_cap (ag_q a') = spool_cap (ag_q a) /\
  pending (ag_q a') = lastn (spool_cap (ag_q a)) (pending (ag_q a) ++ omap (hop_line (ag_cfg a) tr name) hops).
Proof.
  cbv zeta. revert a. induction hops as [|h hops IH]; intros a Hwf Hc.
  { cbn. split_and!; try done; [by destruct a|]. rewrite app_nil_r, lastn_all; [done|]. by apply pending_bound. }
  cbn [foldl]. set (a1 := emit_hop tr name a h).
  assert (H1 : a1 = a <| ag_q := ag_q a1 |> /\ queues_wf (ag_q a1) /\ spool_cap (ag_q a1) = spool_cap (ag_q a) /\
    pending (ag_q a1) = lastn (spool_cap (ag_q a)) (pending (ag_q a) ++ option_list (hop_line (ag_cfg a) tr name h))).
  { unfold a1, emit_hop, hop_line. rewrite Nat.leb_antisym.
    destruct (strlen (hop_meta tr h) <? CPE_PERF_META_MAX); cbn [negb andb].
    - pose proof (push_perf_cases (ag_cfg a) (ag_q a) (hop_sample tr name h) Hwf) as H.
      destruct (push_perf _ _ _) as [rc q]. destruct H as (Hw & Hcap & Hp). split; [done|]. split; [done|].
      split; [done|]. cbn [snd]. change (ag_q (a <| ag_q := q |>)) with q.
      rewrite (proj2 (Nat.eqb_neq _ 0) Hc), andb_true_r in Hp. unfold sample_fits.
      destruct (_ <? CPE_NDJSON_LINE_MAX); destruct Hp as [_ Hp]; rewrite Hp; [done|].
      cbn [option_list]. rewrite app_nil_r, lastn_all; [done|]. by apply pending_bound.
    - split; [by destruct a|]. split; [done|]. split; [done|]. cbn. rewrite app_nil_r, lastn_all; [done|].
      by apply pending_bound. }
  destruct H1 as (E1 & Hw1 & Hc1 & Hp1).
  destruct (IH a1 Hw1 ltac:(by rewrite Hc1)) as (E2 & Hw2 & Hc2 & Hp2).
  assert (Hcfg : ag_cfg a1 = ag_cfg a) by by rewrite E1.
  rewrite Hc1, Hcfg, Hp1, lastn_app_lastn, <- app_assoc in Hp2.
  split_and!; [|done|by rewrite Hc2|].
  - rewrite E2 at 1. by rewrite E1.
  - rewrite Hp2. f_equal. f_equal. cbn [omap list_omap]. by destruct (hop_line _ _ _ h).
Qed.

(** The summary of a trace and the lines of its hops. *)
Definition trace_lines (cfg : cpe_agent_config) (tr : cpe_trace_result) (name : string) : list string :=
  sample_line cfg (summary_sample tr name) :: omap (hop_line cfg tr name) (trr_hops tr).

Lemma emit_summary_lines (a : agent) tr name :
  queues_wf (ag_q a) ->
  let '(rc, a') := emit_summary a tr name in
  queues_wf (ag_q a') /\ ag_last a' = Some (summary_sample tr name) /\ ag_last_trace a' = ag_last_trace a /\
  ag_cfg a' = ag_cfg a /\ spool_cap (ag_q a') = spool_cap (ag_q a) /\
  if sample_fits (ag_cfg a) (summary_sample tr name) && negb (spool_cap (ag_q a) =? 0)
  then rc = 0%Z /\ pending (ag_q a') = lastn (spool_cap (ag_q a)) (pending (ag_q a) ++ trace_lines (ag_cfg a) tr name)
  else rc = (-1)%Z /\ pending (ag_q a') = pending (ag_q a).
Proof.
  intros Hwf. unfold emit_summary.
  pose proof (store_and_push_cases a (summary_sample tr name) Hwf) as H.
  assert (Htr : ag_last_trace (store_and_push a (summary_sample tr name)).2 = ag_last_trace a)
    by (unfold store_and_push; by destruct (push_perf _ _ _)).
  destruct (store_and_push a (summary_sample tr name)) as [rc a1]. cbn [snd] in Htr.
  destruct H as (Hw & Hl & Hcfg & Hcap & Hp). unfold sample_fits.
  destruct (_ <? CPE_NDJSON_LINE_MAX); cbn [andb] in *; [|by destruct Hp as [-> Hp]; split_and!].
  destruct (Nat.eqb_spec (spool_cap (ag_q a)) 0) as [E0|E0]; cbn [negb] in *; destruct Hp as [-> Hp]; [by split_and!|].
  change (negb (0 =? 0)%Z) with false. cbn iota.
  destruct (emit_hops_lines tr name (trr_hops tr) a1 Hw ltac:(by rewrite Hcap)) as (E1 & E2 & E3 & E4).
  set (a2 := foldl _ _ _) in *.
  assert (Hf : ag_last a2 = ag_last a1 /\ ag_last_trace a2 = ag_last_trace a1 /\ ag_cfg a2 = ag_cfg a1) by by rewrite E1.
  destruct Hf as (F1 & F2 & F3). rewrite F1, F2, F3, E3, E4, Hcap, Hcfg, Hp, lastn_app_lastn, <- app_assoc.
  by split_and!.
Qed.

(** ** A whole run *)

(** The hops are the consecutive TTLs from one on, each with the statistics of exactly
    [probes] probes. *)
Definition trace_table (tr : cpe_trace_result) (max_ttl probes : Z) : Prop :=
  exists obss, trr_hops tr = hop_table 1 obss /\
    Forall (fun obs => length obs = Z.to_nat probes /\ Forall obs_ok obs) obss /\
    run_ends (Z.to_nat max_ttl) obss (trr_reached tr).

Lemma resolve_target_fits cfg target_opt target dst :
  resolve_target cfg target_opt CPE_PERF_TARGET_MAX = Some (target, dst) ->
  strlen target < CPE_PERF_TARGET_MAX /\ inet_pton4 target = Some dst.
Proof.
  unfold resolve_target. set (t := match target_opt with Some _ => _ | None => _ end).
  destruct (negb _); [done|]. destruct (Nat.leb_spec CPE_PERF_TARGET_MAX (strlen t)); [done|].
  destruct (inet_pton4 t) as [d|] eqn:E; [|done]. intros [= <- <-]. rewrite snprintf_s_fits by done. done.
Qed.

Lemma clamp_ttl_range m : (1 <= clamp_ttl m <= CPE_TRACE_HOP_MAX)%Z.
Proof.
  unfold clamp_ttl, CPE_TRACE_HOP_MAX. destruct (Z.leb_spec m 0); [cbn; lia|].
  destruct (Z.ltb_spec 32 m); lia.
Qed.
Lemma clamp_probes_range p : (1 <= clamp_probes p <= 16)%Z.
Proof. unfold clamp_probes. destruct (Z.leb_spec p 0); [cbn; lia|]. destruct (Z.ltb_spec 16 p); lia. Qed.

(** C28: A trace.  Without a usable target nothing changes and the result is -1.
    Otherwise the run ends without reading outside a packet, whatever the sockets deliver.
    Its table has the consecutive hops from 1 on, never more than the 32 the array holds;
    each hop has the requested number of probes, and the run stops at the first hop where
    the destination answered, or at the limit.  The table is kept as the last trace, the
    summary as the last sample, and the summary's line followed by one line per hop joins
    the spool; the result is 0 unless the summary's line was refused. *)
Theorem run_trace_table env (a : agent) target_opt max_ttl probes timeout_ms name port_seq :
  queues_wf (ag_q a) ->
  match resolve_target (ag_cfg a) target_opt CPE_PERF_TARGET_MAX with
  | None => run_trace env a target_opt max_ttl probes timeout_ms name port_seq = Safe ((-1)%Z, a, None, port_seq)
  | Some (target, _) => exists rc a' tr ps,
      run_trace env a target_opt max_ttl probes timeout_ms name port_seq =
        Safe (rc, a', if (rc =? 0)%Z then Some tr else None, ps) /\
      trr_target tr = target /\ trace_table tr (clamp_ttl max_ttl) (clamp_probes probes) /\
      (1 <= Z.of_nat (length (trr_hops tr)) <= CPE_TRACE_HOP_MAX)%Z /\
      queues_wf (ag_q a') /\ ag_last_trace a' = Some tr /\ ag_last a' = Some (summary_sample tr name) /\
      if sample_fits (ag_cfg a) (summary_sample tr name) && negb (spool_cap (ag_q a) =? 0)
      then rc = 0%Z /\
        pending (ag_q a') = lastn (spool_cap (ag_q a)) (pending (ag_q a) ++ trace_lines (ag_cfg a) tr name)
      else rc = (-1)%Z /\ pending (ag_q a') = pending (ag_q a)
  end.
Proof.
  intros Hwf. unfold run_trace.
  destruct (resolve_target _ _ _) as [[target dst]|] eqn:Et; [|done].
  destruct (resolve_target_fits _ _ _ _ Et) as [Ht _].
  pose proof (clamp_ttl_range max_ttl) as Hm. cbv zeta. set (tmo := if (timeout_ms =? 0)%Z then _ else _).
  match goal with |- context [hop_loop _ _ _ _ _ _ _ ?s] => set (s0 := s) end.
  destruct (hop_loop_ok env dst tmo target Ht (Z.to_nat (clamp_probes probes)) (Z.to_nat (clamp_ttl max_ttl)) 1 s0 eq_refl)
    as (s & -> & obss & Hh & Hok & Hsame & Hends). cbn [mbind chk_bind].
  set (tr := rs_tr s) in *. set (a1 := cpe_agent_set_last_trace a tr).
  pose proof (emit_summary_lines a1 tr name Hwf) as H.
  destruct (emit_summary a1 tr name) as [rc a'].
  change (ag_cfg a1) with (ag_cfg a) in H. change (ag_q a1) with (ag_q a) in H.
  change (ag_last_trace a1) with (Some tr) in H. destruct H as (H1 & H2 & H3 & _ & _ & H4).
  exists rc, a', tr, (rs_port_seq s).
  assert (Hrc : rc = 0%Z \/ rc = (-1)%Z) by (destruct (_ && _); tauto).
  split; [by destruct Hrc as [-> | ->]|].
  split. { destruct Hsame as [-> _]. cbn. by rewrite snprintf_s_fits. }
  split; [by exists obss|]. split; [|done].
  rewrite Hh. cbn [rs_tr s0 trace_start trr_hops app]. unfold hop_table. rewrite length_imap.
  destruct Hends as [(init & o & -> & _ & _ & _ & Hl)|(Hl & _)]; rewrite ?length_app in *; simpl in *; lia.
Qed.
End emits.

(** ** Nothing can be sent *)
Section silent.
Context (env : trace_env) (dst timeout_ms : Z) (target : string).
Hypothesis Hicmp : forall ttl p, (fst (open_icmp_socket (ec_dgram (te_icmp env ttl p)) (ec_raw (te_icmp env ttl p))) < 0)%Z.

Lemma silent_probe_loop ttl ps hop hr s :
  rs_use_udp s = false ->
  exists s', probe_loop env dst timeout_ms target ttl ps (hop, hr, s) =
      Safe (foldl record_obs hop (replicate (length ps) None), hr, s') /\
    rs_use_udp s' = false /\ rs_tr s' = rs_tr s.
Proof.
  revert hop s. induction ps as [|p ps IH]; intros hop s Hu; [by exists s|].
  cbn [probe_loop probe_step]. unfold probe. rewrite Hu. unfold probe_icmp, probe_icmp_once.
  pose proof (Hicmp ttl p) as Hf. destruct (open_icmp_socket _ _) as [fd raw]. cbn [fst] in Hf.
  rewrite (proj2 (Z.ltb_lt _ _) Hf). cbn [mbind chk_bind mret chk_ret]. change ((-1 <? 0)%Z) with true. cbn iota.
  set (s1 := s <| rs_echo_seq := u16 (rs_echo_seq s + 1) |>).
  destruct (IH (record_obs hop None) s1 Hu) as (s' & Hrun & Hu' & Ht'). exists s'. by split.
Qed.

Lemma silent_hop_loop probes n ttl s :
  rs_use_udp s = false ->
  exists s', hop_loop env dst timeout_ms target probes n ttl s = Safe s' /\ trr_reached (rs_tr s') = trr_reached (rs_tr s) /\
    trr_hops (rs_tr s') = trr_hops (rs_tr s) ++ hop_table ttl (replicate n (replicate probes None)).
Proof.
  revert ttl s. induction n as [|n IH]; intros ttl s Hu.
  { exists s. cbn. by rewrite app_nil_r. }
  cbn [hop_loop]. destruct (silent_probe_loop ttl (seq 0 probes) (hop_init ttl) false s Hu) as (s1 & -> & Hu1 & Ht1).
  cbn [mbind chk_bind]. rewrite length_seq. set (s2 := s1 <| rs_tr := _ |>).
  destruct (IH (ttl + 1)%Z s2 Hu1) as (s3 & Hrun & Hr & Hh). exists s3. split; [exact Hrun|].
  split; [by rewrite Hr; cbn; rewrite Ht1|]. rewrite Hh. cbn [replicate]. rewrite hop_table_cons. cbn.
  by rewrite Ht1, <- app_assoc.
Qed.
End silent.

(** When no socket at all can be opened a trace with a usable target still reports
    success: every hop up to the limit is listed with all its probes timed out. *)
Theorem trace_without_sockets {P C : Type} env (a : agent P C) target_opt max_ttl probes timeout_ms name port_seq target dst :
  queues_wf (ag_q a) -> resolve_target (ag_cfg a) target_opt CPE_PERF_TARGET_MAX = Some (target, dst) ->
  te_udp_ok env = false ->
  (forall ttl p, fst (open_icmp_socket (ec_dgram (te_icmp env ttl p)) (ec_raw (te_icmp env ttl p))) < 0)%Z ->
  spool_cap (ag_q a) <> 0 ->
  exists a' tr ps,
    trr_hops tr = hop_table 1 (replicate (Z.to_nat (clamp_ttl max_ttl)) (replicate (Z.to_nat (clamp_probes probes)) None)) /\
    trr_reached tr = 0%Z /\
    (sample_fits (ag_cfg a) (summary_sample tr name) = true ->
     run_trace env a target_opt max_ttl probes timeout_ms name port_seq = Safe (0%Z, a', Some tr, ps) /\
     ag_last_trace a' = Some tr).
Proof.
  intros Hwf Ht Hu Hs Hc. unfold run_trace. rewrite Ht. cbv zeta. set (tmo := if (timeout_ms =? 0)%Z then _ else _).
  match goal with |- context [hop_loop _ _ _ _ _ _ _ ?s] => set (s0 := s) end.
  destruct (silent_hop_loop env dst tmo target Hs (Z.to_nat (clamp_probes probes)) (Z.to_nat (clamp_ttl max_ttl)) 1 s0 Hu)
    as (s & -> & Hr & Hh). cbn [mbind chk_bind].
  set (tr := rs_tr s) in *. set (a1 := cpe_agent_set_last_trace a tr).
  pose proof (emit_summary_lines a1 tr name Hwf) as H. destruct (emit_summary a1 tr name) as [rc a'].
  exists a', tr, (rs_port_seq s). split; [exact Hh|]. split; [exact Hr|]. intros Hfit.
  change (ag_cfg a1) with (ag_cfg a) in H. change (ag_q a1) with (ag_q a) in H.
  rewrite Hfit, (proj2 (Nat.eqb_neq _ 0) Hc) in H. destruct H as (_ & _ & H3 & _ & _ & -> & _). by split.
Qed.

(** ** The synthetic trace is a run *)
Definition demo_obs (hops : Z) (target : string) (i : Z) : observation :=
  Some (snprintf_s CPE_PERF_TARGET_MAX (if (i + 1 <? hops)%Z then "10.0." +:+ fmt_u (i + 1) +:+ ".1" else target),
        d_mul (d_of_Z 1) (d_of_Z (i + 1)), negb (i + 1 <? hops)%Z).

Lemma snprintf_s_nonempty n s : 1 < n -> nonempty s = true -> nonempty (snprintf_s n s) = true.
Proof. intros Hn. destruct s; [done|]. by destruct n as [|[|n]]; try lia. Qed.

Lemma demo_hop_of hops target i :
  nonempty target = true -> demo_hop hops target i = hop_of (i + 1) [demo_obs hops target i].
Proof.
  intros Ht. unfold hop_of, demo_obs, demo_hop. cbn [foldl record_obs]. unfold hop_record. cbn [negb].
  set (addr := if (i + 1 <? hops)%Z then _ else target).
  assert (Ha : nonempty addr = true) by (unfold addr; by destruct (i + 1 <? hops)%Z).
  rewrite snprintf_s_nonempty by (done || (unfold CPE_PERF_TARGET_MAX; lia)).
  rewrite (snprintf_s_fits _ (snprintf_s _ addr)) by (apply snprintf_s_length; unfold CPE_PERF_TARGET_MAX; lia).
  unfold hop_set_loss, hop_times. cbn. unfold addr. clear. destruct (i + 1 <? hops)%Z; reflexivity.
Qed.

Lemma demo_obs_ok hops target i : obs_ok (demo_obs hops target i).
Proof. apply snprintf_s_length. unfold CPE_PERF_TARGET_MAX. lia. Qed.

Lemma demo_table hops target :
  nonempty target = true -> (1 <= hops)%Z ->
  demo_hop hops target <$> seqZ 0 hops = hop_table 1 ((fun i => [demo_obs hops target i]) <$> seqZ 0 hops).
Proof.
  intros Ht Hh. unfold hop_table. apply list_eq. intros k.
  rewrite list_lookup_fmap, list_lookup_imap, list_lookup_fmap.
  destruct (seqZ 0 hops !! k) as [i|] eqn:E; [|done]. apply lookup_seqZ in E as [-> Hk]. cbn [option_fmap option_map fmap].
  f_equal. rewrite demo_hop_of by done.
  by replace (0 + Z.of_nat k + 1)%Z with (1 + Z.of_nat k)%Z by lia.
Qed.

(** The synthetic trace is one a real run could have produced: consecutive hops
    with the statistics of a single probe each, answered by the destination at the last
    one and only there, and the destination's time that of the last hop. *)
Theorem demo_trace_is_run clk target max_ttl :
  nonempty target = true ->
  let tr := demo_trace clk target max_ttl in
  trace_table tr (trr_max_ttl tr) (trr_probes_per_hop tr) /\ (1 <= trr_max_ttl tr <= CPE_TRACE_HOP_MAX)%Z /\
  exists h, last (trr_hops tr) = Some h /\ hop_reached_dest h = 1%Z /\ trr_dest_rtt_ms tr = hop_last_rtt_ms h.
Proof.
  intros Ht. unfold demo_trace.
  set (m0 := if (max_ttl <=? 0)%Z then 5%Z else max_ttl).
  set (m := if (CPE_TRACE_HOP_MAX <? m0)%Z then CPE_TRACE_HOP_MAX else m0).
  set (hops := if (m <? 4)%Z then m else 4%Z).
  assert (Hm0 : (1 <= m0)%Z) by (unfold m0; destruct (Z.leb_spec max_ttl 0); lia).
  assert (Hm : (1 <= m <= CPE_TRACE_HOP_MAX)%Z).
  { unfold m, CPE_TRACE_HOP_MAX in *. destruct (Z.ltb_spec 32 m0); lia. }
  assert (Hh : (1 <= hops <= m)%Z) by (unfold hops; destruct (Z.ltb_spec m 4); lia).
  assert (Hsnoc : seqZ 0 hops = seqZ 0 (hops - 1) ++ [(hops - 1)%Z]).
  { replace hops with (hops - 1 + 1)%Z at 1 by lia. by rewrite seqZ_app by lia. }
  cbv zeta. cbn [trr_max_ttl trr_probes_per_hop trr_hops trr_dest_rtt_ms trr_reached].
  split; [|split; [done|]].
  - exists ((fun i => [demo_obs hops target i]) <$> seqZ 0 hops). cbn [trr_hops trr_reached].
    split; [apply demo_table; [done|lia]|]. split.
    + apply Forall_fmap, Forall_true. intros i. split; [done|]. apply Forall_singleton, demo_obs_ok.
    + left. exists ((fun i => [demo_obs hops target i]) <$> seqZ 0 (hops - 1)), [demo_obs hops target (hops - 1)].
      split; [by rewrite Hsnoc, fmap_app|]. split.
      { cbn. replace (hops - 1 + 1 <? hops)%Z with false by (symmetry; apply Z.ltb_ge; lia). done. }
      split; [|split; [done|rewrite length_fmap, length_seqZ; lia]].
      apply Forall_fmap, Forall_forall. intros i Hi. apply elem_of_seqZ in Hi. cbn.
      replace (i + 1 <? hops)%Z with true by (symmetry; apply Z.ltb_lt; lia). done.
  - exists (demo_hop hops target (hops - 1)). rewrite Hsnoc, fmap_app. cbn [fmap list_fmap]. rewrite last_snoc.
    split; [done|]. split; [|done]. unfold demo_hop.
    replace (hops - 1 + 1 <? hops)%Z with false by (symmetry; apply Z.ltb_ge; lia). done.
Qed.

(** ** Instances *)

(** Two hops: a time-exceeded from 192.0.2.1, then an echo reply from the target. *)
Definition toy_echo (type from : Z) : echo_env := {|
  ec_dgram := (-1)%Z; ec_raw := 7%Z; ec_sendto := fun _ _ => true; ec_poll := fun _ => true;
  ec_recv := (69%Z :: replicate 19 0%Z) ++ icmp_msg type 0 0 0 0 0 9 []; ec_family := AF_INET; ec_from := from;
  ec_t0 := flow_clk; ec_t1 := flow_clk |}.
Definition toy_udp : udp_env := {|
  ud_socket := 3%Z; ud_recverr := true; ud_ttl := true; ud_sendto := fun _ _ _ => false; ud_poll := fun _ => true;
  ud_pollin := false; ud_errq := ErrqFail; ud_recvfrom := None; ud_t0 := flow_clk; ud_t1 := flow_clk |}.
Definition toy_trace : trace_env := {|
  te_pid := 4242%Z; te_now := flow_clk; te_udp_ok := true; te_udp := fun _ _ => toy_udp;
  te_icmp := fun ttl _ => if (ttl =? 1)%Z then toy_echo 11 16908480 else toy_echo 0 84017344 |}.

Lemma echo_probe_classifies_witness :
  probe_icmp_once (toy_echo 11 16908480) 0 1 1 1 1000 EmptyString d_zero =
    Safe (1%Z, "192.0.2.1"%string, rtt_since (mono_ns flow_clk) (mono_ns flow_clk) d_zero).
Proof.
  refine (echo_probe_classifies (toy_echo 11 16908480) 0 1 1 1 1000 EmptyString d_zero (69%Z :: replicate 19 0%Z) 11 0 0 0 0 0 9 []
    _ eq_refl eq_refl eq_refl eq_refl _).
  - vm_compute. discriminate.
  - split; [simpl; lia|reflexivity].
Defined.

Lemma hop_of_stats_witness : hop_sent (hop_of 3 [None; Some ("10.0.0.1"%string, d_of_Z 2, false)]) = 2%Z.
Proof. exact (hs_sent _ _ _ (hop_of_stats 3 [None; Some ("10.0.0.1"%string, d_of_Z 2, false)] ltac:(simpl; lia))). Defined.

Lemma run_trace_table_witness :
  exists rc a' tr ps, run_trace toy_trace toy_agent (Some "192.0.2.5"%string) 5 2 100 "mtr" 0 =
    Safe (rc, a', if (rc =? 0)%Z then Some tr else None, ps) /\ ag_last_trace a' = Some tr /\
    trr_target tr = "192.0.2.5"%string.
Proof.
  pose proof (run_trace_table toy_trace toy_agent (Some "192.0.2.5"%string) 5 2 100 "mtr" 0 spool4_ab_wf) as H.
  change (resolve_target (ag_cfg toy_agent) (Some "192.0.2.5"%string) CPE_PERF_TARGET_MAX)
    with (Some ("192.0.2.5"%string, 84017344%Z)) in H. cbv iota beta in H.
  destruct H as (rc & a' & tr & ps & H1 & H2 & _ & _ & _ & H3 & _).
  exists rc, a', tr, ps. split; [exact H1|]. split; [exact H3|exact H2].
Defined.

Definition no_sockets : trace_env := {|
  te_pid := 4242%Z; te_now := flow_clk; te_udp_ok := false; te_udp := fun _ _ => toy_udp;
  te_icmp := fun _ _ => {| ec_dgram := (-1)%Z; ec_raw := (-1)%Z; ec_sendto := fun _ _ => true;
    ec_poll := fun _ => true; ec_recv := []; ec_family := 0; ec_from := 0; ec_t0 := flow_clk; ec_t1 := flow_clk |} |}.
Lemma trace_without_sockets_witness :
  exists tr : cpe_trace_result, length (trr_hops tr) = 3 /\ trr_reached tr = 0%Z.
Proof.
  destruct (trace_without_sockets no_sockets toy_agent (Some "192.0.2.5"%string) 3 1 100 "traceroute" 0
    "192.0.2.5" 84017344 spool4_ab_wf eq_refl eq_refl ltac:(intros; simpl; lia) ltac:(vm_compute; discriminate))
    as (a' & tr & ps & H1 & H2 & _).
  exists tr. split; [rewrite H1; reflexivity|exact H2].
Defined.

Lemma demo_trace_is_run_witness : length (trr_hops (demo_trace flow_clk "192.0.2.5" 3)) = 3 /\
  trace_table (demo_trace flow_clk "192.0.2.5" 3) 3 1.
Proof. split; [reflexivity|exact (proj1 (demo_trace_is_run flow_clk "192.0.2.5" 3 eq_refl))]. Defined.
