(* ===== verification/AgentRun.v ===== *)
(** * Running the agent (src/agent/agent_core.c)

    What a flush, a conntrack feed and a demo sample do to the agent, and the invariant of
    every state the agent reaches from its creation through any sequence of its
    operations, the periodic TCP and flow ticks included. *)

From S2P Require Import Prelude CStr Float754 Inet Clock HostAlloc SpoolDir Config Spool Events PerfSample.
From S2P Require Import NfFlow Nflog Table TcpParse TcpStats TcpEmit TcpInv Nfct FlowEntry FlowTable.
From S2P Require Import FlowAcct AgentData Agent AgentConfig Icmp LivePing LiveTrace.

(** ** Flushing *)

Definition http_mode (c : cpe_agent_config) : bool :=
  streq (emit_mode c) "https" || streq (emit_mode c) "http".
Definition file_mode (c : cpe_agent_config) : bool := negb (http_mode c) && streq (emit_mode c) "spool".

(** The oldest [m] pending lines were printed and removed: their prints succeeded, and the
    print after them, if there was one, failed. *)
Definition printed (env : emit_env) (q q' : queues) (out : list string) (m : nat) : Prop :=
  m <= length (pending q) /\ (forall i, i < m -> ee_fprintf env i = true) /\
  (m < length (pending q) -> ee_fprintf env m = false) /\
  out = (fun l => l +:+ newline) <$> take m (pending q) /\ pending q' = drop m (pending q).

Lemma flush_printed env q :
  queues_wf q -> spool q <> None ->
  let '(rc, q', out) := cpe_agent_spool_flush (ee_fprintf env) (ee_fflush env) q in
  queues_wf q' /\ exists m, printed env q q' out m /\
    rc = (if (m =? length (pending q)) && ee_fflush env then Z.of_nat m else (-1)%Z).
Proof.
  intros Hwf Hs. unfold cpe_agent_spool_flush. destruct (spool q) as [sp|] eqn:Hsp; [|done].
  rewrite <- Hsp in Hs.
  pose proof (flush_loop_spec (ee_fprintf env) (spool_cnt q) 0 q [] Hwf Hs eq_refl) as H.
  destruct (flush_loop _ _ _ _ _) as [[r q'] out].
  destruct H as (m & Hm & Hall & Hfail & -> & Hw & _ & Hp & ->). simpl in *.
  destruct (m =? length (pending q)) eqn:E; [destruct (ee_fflush env)|];
    (split; [done|exists m; split; [by split_and!|by rewrite E]]).
Qed.

Section flush.
Context {P C FS : Type} `{!FileSystem FS}.
Local Abbreviation agent := (agent P C).

(** One POST of the oldest lines. *)
Lemma flush_http_cases env (a : agent) :
  queues_wf (ag_q a) -> spool (ag_q a) <> None ->
  let '(rc, a') := flush_http env a in
  let q := ag_q a in let q' := ag_q a' in
  queues_wf q' /\ a' = a <| ag_q := q' |> /\
  (pending q = [] -> rc = 0%Z /\ a' = a) /\
  (pending q <> [] -> exists n,
     let body := body_of (take n (pending q)) in
     1 <= n <= length (pending q) /\ strlen body < BODY_SIZE /\
     if ee_post env (http_request_of (ag_cfg a) body)
     then rc = Z.of_nat n /\ pending q' = drop n (pending q)
     else rc = (-1)%Z /\ a' = a).
Proof.
  intros Hwf Hs. assert (Hid : a = a <| ag_q := ag_q a |>) by by destruct a.
  unfold flush_http. pose proof (length_pending (ag_q a)) as Hlen.
  destruct (Nat.eqb_spec (spool_cnt (ag_q a)) 0) as [E|E].
  { split_and!; try done. rewrite E in Hlen. by destruct (pending (ag_q a)). }
  pose proof (http_batch_spec (ag_q a) Hwf Hs) as H. destruct (http_batch (ag_q a)) as [body n].
  destruct H as (-> & Hn & Hb & _ & Hpos).
  assert (Hne : pending (ag_q a) <> []) by (intros E0; rewrite E0 in Hlen; simpl in Hlen; lia).
  specialize (Hpos Hne). rewrite (proj2 (Nat.eqb_neq n 0)) by lia.
  destruct (ee_post env _) eqn:Epost; cbn [negb]; cbv zeta.
  - destruct (drop_sent_spec (ag_q a) n Hwf Hs Hn) as [Hw Hp]. split; [done|]. split; [done|].
    split; [done|]. intros _. exists n. rewrite Epost. split; [lia|done].
  - split; [done|]. split; [done|]. split; [done|]. intros _. exists n. rewrite Epost. split; [lia|done].
Qed.

(** C4: A flush never loses a line it did not hand over.  Over HTTP it posts a non-empty
    prefix of the spool, in the request that [http_request_of] makes of the configuration,
    and removes exactly those lines when the POST succeeds; on failure the agent is
    unchanged.  A spool file that cannot be opened leaves the agent unchanged.  Otherwise
    the lines removed are the lines printed, oldest first, up to the first print that
    fails; the result is their number only when all were printed, flushed and (for a file)
    closed without error. *)
Theorem emit_flush_hands_over env (fs : FS) (a : agent) :
  queues_wf (ag_q a) -> spool (ag_q a) <> None ->
  let '(rc, a', out, fs') := cpe_agent_emit_flush env fs a in
  let q := ag_q a in let q' := ag_q a' in
  queues_wf q' /\ a' = a <| ag_q := q' |> /\
  if http_mode (ag_cfg a) then
    out = [] /\
    (pending q = [] -> rc = 0%Z /\ a' = a) /\
    (pending q <> [] -> exists n,
       let body := body_of (take n (pending q)) in
       1 <= n <= length (pending q) /\ strlen body < BODY_SIZE /\
       if ee_post env (http_request_of (ag_cfg a) body)
       then rc = Z.of_nat n /\ pending q' = drop n (pending q)
       else rc = (-1)%Z /\ a' = a)
  else if file_mode (ag_cfg a) && negb (nonempty (spool_path (ag_cfg a)) && ee_fopen env (spool_path (ag_cfg a)))
  then rc = (-1)%Z /\ a' = a /\ out = []
  else exists m, printed env q q' out m /\
    rc = (if (m =? length (pending q)) && ee_fflush env && (negb (file_mode (ag_cfg a)) || ee_fclose env)
          then Z.of_nat m else (-1)%Z).
Proof.
  intros Hwf Hs. unfold cpe_agent_emit_flush, file_mode. fold (http_mode (ag_cfg a)).
  assert (Hid : a = a <| ag_q := ag_q a |>) by by destruct a.
  pose proof (flush_printed env (ag_q a) Hwf Hs) as Hfl.
  destruct (http_mode (ag_cfg a)); cbn [negb andb].
  - pose proof (flush_http_cases env a Hwf Hs) as H. destruct (flush_http env a) as [rc a'].
    destruct H as (H1 & H2 & H3). split; [done|]. split; [done|]. by split.
  - destruct (streq (emit_mode (ag_cfg a)) "spool"); cbn [negb andb orb].
    + unfold flush_file. destruct (nonempty (spool_path (ag_cfg a))); cbn [negb andb]; [|by split_and!].
      destruct (cpe_spool_ensure_parent_dir _ fs) as [r fs1].
      destruct (ee_fopen env _); cbn [negb andb]; [|by split_and!].
      destruct (cpe_agent_spool_flush _ _ _) as [[rc q'] out]. destruct Hfl as (Hw & m & Hpr & ->).
      split; [done|]. split; [done|]. exists m. split; [done|].
      destruct (_ && ee_fflush env); cbn [andb]; destruct (ee_fclose env); cbn; try done.
      by rewrite (proj2 (Z.leb_le 0 (Z.of_nat m))) by lia.
    + destruct (cpe_agent_spool_flush _ _ _) as [[rc q'] out]. destruct Hfl as (Hw & m & Hpr & ->).
      split; [done|]. split; [done|]. exists m. split; [done|]. by rewrite andb_true_r.
Qed.

(** A flush does not touch the configuration. *)
Lemma emit_flush_cfg env (fs : FS) (a : agent) : ag_cfg (cpe_agent_emit_flush env fs a).1.1.2 = ag_cfg a.
Proof.
  unfold cpe_agent_emit_flush. destruct (_ || _).
  - assert (Hh : ag_cfg (flush_http env a).2 = ag_cfg a); [|by destruct (flush_http env a)].
    unfold flush_http. destruct (_ =? 0); [done|]. destruct (http_batch (ag_q a)) as [body n].
    destruct (n =? 0); [done|]. by destruct (negb _).
  - destruct (streq _ "spool").
    + unfold flush_file. destruct (negb _); [done|]. destruct (cpe_spool_ensure_parent_dir _ fs) as [r fs1].
      destruct (negb _); [done|]. by destruct (cpe_agent_spool_flush _ _ _) as [[rc q'] out].
    + by destruct (cpe_agent_spool_flush _ _ _) as [[rc q'] out].
Qed.
End flush.

(** ** The conntrack feed *)
Section feeding.
Context {P C : Type} `{!PingLib P} {E : Type} `{!EventSource P E} `{!NfctLib C} `{!EventSource C nfct_event}
  {R : Type} `{!NfLib R}.
Local Abbreviation agent := (agent P C).

(** The line one event contributes, if it does. *)
Definition obs_line (cfg : cpe_agent_config) (ts_ms : Z) (nev : nfct_event) : option string :=
  let '(rc, obs) := nf_obs_from_nfct (R := R) nev (Some (router_id cfg)) ts_ms in
  if (rc =? 0)%Z then
    let '(rc, line) := nf_obs_format obs CPE_NDJSON_LINE_MAX in if (rc =? 0)%Z then Some line else None
  else None.

(** The agent with its spool and observation counter replaced. *)
Definition after_feed (a : agent) (q : queues) (n : Z) : agent :=
  a <| ag_q := q |> <| ag_nfct_obs := u64 (ag_nfct_obs a + n) |>.

Lemma feed_obs_line ts_ms count (a : agent) nev :
  in_u64 (ag_nfct_obs a) -> sink_wf (ag_q a) -> sink_cap (ag_q a) <> 0 ->
  feed_obs (R := R) ts_ms (count, a) nev =
    match obs_line (ag_cfg a) ts_ms nev with
    | Some line => ((count + 1)%Z, after_feed a (snd (sink_push (ag_q a) line)) 1)
    | None => (count, a)
    end.
Proof.
  intros Ho Hw Hc. unfold feed_obs, obs_line.
  destruct (nf_obs_from_nfct _ _ _) as [rc obs]. destruct (rc =? 0)%Z; cbn [negb]; [|done].
  destruct (nf_obs_format _ _) as [rc2 line]. destruct (rc2 =? 0)%Z; cbn [negb]; [|done].
  pose proof (sink_push_rc (ag_q a) line Hw) as Hrc. rewrite (proj2 (Nat.eqb_neq _ _) Hc) in Hrc.
  change (sink_push (ag_q a) line) with (cpe_agent_spool_push_line (ag_q a) line) in *.
  destruct (cpe_agent_spool_push_line _ _) as [rc3 q]. cbn [fst snd] in *. by rewrite Hrc.
Qed.

Lemma feed_obs_all ts_ms evs count (a : agent) :
  in_u64 (ag_nfct_obs a) -> sink_wf (ag_q a) -> sink_cap (ag_q a) <> 0 ->
  let lines := omap (obs_line (ag_cfg a) ts_ms) evs in
  foldl (feed_obs (R := R) ts_ms) (count, a) evs =
    ((count + Z.of_nat (length lines))%Z,
     after_feed a (sink_push_all (ag_q a) lines) (Z.of_nat (length lines))).
Proof.
  cbv zeta. revert count a. induction evs as [|e evs IH]; intros count a Ho Hw Hc.
  { simpl. unfold after_feed. rewrite !Z.add_0_r, u64_id by done. by destruct a. }
  cbn [foldl omap list_omap]. rewrite feed_obs_line by done.
  destruct (obs_line (ag_cfg a) ts_ms e) as [line|]; [|by apply IH].
  rewrite IH.
  - set (q1 := snd (sink_push (ag_q a) line)). change (ag_cfg (after_feed a q1 1)) with (ag_cfg a).
    change (ag_q (after_feed a q1 1)) with q1. unfold after_feed. cbn [length sink_push_all foldl].
    fold q1. f_equal; [lia|].
    cbn [ag_nfct_obs set_field]. rewrite Nat2Z.inj_succ.
    match goal with |- context [(_ + Z.succ ?n)%Z] =>
      replace (ag_nfct_obs a + Z.succ n)%Z with (ag_nfct_obs a + 1 + n)%Z by lia end.
    by rewrite u64_add_l.
  - apply u64_range.
  - by apply sink_push_wf.
  - cbn [ag_q]. change (sink_cap (snd (sink_push (ag_q a) line)) <> 0). by rewrite sink_push_cap.
Qed.

(** Feeding conntrack input turns every event the library reports into one line:
    the result and the growth of the observation counter are the number of events that
    have an observation, and exactly their lines join the spool, in order. *)
Theorem feed_nfct_lines (a : agent) data ts_ms :
  data <> [] -> in_u64 (ag_nfct_obs a) -> queues_wf (ag_q a) -> spool_cap (ag_q a) <> 0 ->
  let evs := fst (pull_all (E := nfct_event) (snd (nfct_feed_input (ag_nfct a) data))) in
  let lines := omap (obs_line (ag_cfg a) ts_ms) evs in
  let '(n, a') := cpe_agent_feed_nfct (R := R) a data ts_ms in
  n = Z.of_nat (length lines) /\ ag_nfct_obs a' = u64 (ag_nfct_obs a + n) /\
  queues_wf (ag_q a') /\ spool_cap (ag_q a') = spool_cap (ag_q a) /\
  pending (ag_q a') = lastn (spool_cap (ag_q a)) (pending (ag_q a) ++ (stored <$> lines)) /\
  ag_cfg a' = ag_cfg a /\ ag_tcp a' = ag_tcp a /\ ag_flow a' = ag_flow a.
Proof.
  intros Hd Ho Hw Hc. cbv zeta. unfold cpe_agent_feed_nfct.
  destruct (Nat.eqb_spec (length data) 0) as [E0|_]; [by apply length_zero_iff_nil in E0|].
  destruct (nfct_feed_input _ _) as [rc ctx]. cbn [snd].
  destruct (pull_all ctx) as [evs ctx2]. cbn [fst].
  match goal with |- context [foldl _ (_, ?b) _] => set (a1 := b) end.
  rewrite feed_obs_all by done. change (ag_cfg a1) with (ag_cfg a).
  pose proof (sink_push_all_spec (Q := queues) (ag_q a) (omap (obs_line (ag_cfg a) ts_ms) evs)) as Hs.
  destruct (Hs Hw) as (H1 & H2 & H3).
  rewrite Z.add_0_l. by split_and!.
Qed.

(** ** Samples *)
Lemma emit_perf_cases (a : agent) s reason :
  queues_wf (ag_q a) ->
  let '(rc, a') := emit_perf a s reason in
  queues_wf (ag_q a') /\ ag_last a' = Some s /\
  perf_pushed (ag_cfg a) (ag_q a) s rc (ag_q a').
Proof.
  intros Hwf. unfold emit_perf. cbn [ag_cfg ag_q].
  match goal with |- context [push_perf ?c ?q s] => change (push_perf c q s) with (push_perf (ag_cfg a) (ag_q a) s) end.
  pose proof (push_perf_cases (ag_cfg a) (ag_q a) s Hwf) as H.
  destruct (push_perf (ag_cfg a) (ag_q a) s) as [rc q]. destruct H as (Hw & Hcap & Hp). unfold perf_pushed in *.
  destruct (_ && _); destruct Hp as [-> Hp]; [|by split_and!].
  change (negb (0 =? 0)%Z) with false. cbn iota.
  match goal with |- context [push_event ?b _ _] => set (a1 := b) end.
  destruct (push_event_spec a1 CPE_AGENT_EVENT_SAMPLE_READY reason Hw) as (Hw' & Hss & _).
  pose proof (same_spool_pending _ _ Hss) as Hp'. destruct Hss as (_ & Hc2 & _).
  split_and!; try done; [by rewrite Hc2|by rewrite Hp'].
Qed.

(** A demo sample: whenever the ping library accepts the synthetic reply and has
    statistics, the sample is kept as the last one, and its line joins the spool unless it
    does not fit its buffer. *)
Theorem demo_tick_reports (a : agent) seq clk ping st :
  queues_wf (ag_q a) ->
  ping_round (E := E) (ag_ping a) (synth_icmp_echo_reply 16 [] (u16 (seq + 1))) (mono_ms clk) = (0%Z, ping) ->
  ping_get_stats ping = Some st ->
  let s := demo_sample_of (ag_cfg a) st clk in
  let '(rc, a', seq') := cpe_agent_demo_ping_tick (E := E) a seq clk in
  seq' = u16 (seq + 1) /\ queues_wf (ag_q a') /\ ag_last a' = Some s /\
  perf_pushed (ag_cfg a) (ag_q a) s rc (ag_q a').
Proof.
  intros Hwf Hping Hst. cbv zeta. unfold cpe_agent_demo_ping_tick. rewrite Hping. cbn [Z.eqb negb].
  rewrite Hst. match goal with |- context [emit_perf ?b ?s _] =>
    pose proof (emit_perf_cases b s "demo ping" Hwf) as H; destruct (emit_perf b s _) as [rc a'] end.
  by split.
Qed.
End feeding.

(** ** The reachable states *)

(** The spool as a sink whose invariant also says that no slot waits. *)
#[local] Instance inv_sink : LineSink queues := {|
  sink_push := cpe_agent_spool_push_line; sink_pending := pending; sink_cap := spool_cap;
  sink_wf := queues_inv |}.
#[local] Instance inv_sink_laws : LineSinkLaws queues.
Proof.
  destruct queues_sink_laws as [L1 L2 L3 L4 L5]. cbn in *.
  split; cbn; intros s; intros; try by (destruct H; eauto).
  destruct H. split; [by apply L1|]. unfold not_waiting. by rewrite push_line_slots.
Qed.

Section reach.
Context {P C : Type} `{!PingLib P} {E : Type} `{!EventSource P E} `{!NfctLib C} `{!EventSource C nfct_event}
  {R : Type} `{!NfLib R} `{!QSort}.
Local Abbreviation agent := (agent P C).
Local Abbreviation tcp_tick := (@cpe_agent_tcp_tick queues queues_sink _).
Local Abbreviation tcp_emit := (@cpe_agent_tcp_emit queues queues_sink _).
Local Abbreviation flow_tick := (@cpe_agent_flow_tick queues queues_sink C _ _ 64%Z).

(** A configuration whose unsigned fields are not negative. *)
Definition config_ok (c : cpe_agent_config) : Prop := (0 <= spool_max_lines c)%Z /\ (0 <= flow_max_flows c)%Z.

Record agent_inv (a : agent) : Prop := {
  ai_queues : queues_inv (ag_q a);
  ai_config : config_ok (ag_cfg a);
  ai_valid : config_valid (ag_cfg a);
  ai_normal : normalise (ag_cfg a) = ag_cfg a;
  ai_spool : spool_cap (ag_q a) = 0 \/ spool_cap (ag_q a) = Z.to_nat (spool_max_lines (ag_cfg a));
  ai_settings : settings_wf (ag_cfg a) (ag_tcp a) (ag_flow a);
  ai_tcp : tcp_wf (ag_tcp a);
  ai_flow : flow_wf (ag_flow a);
  ai_samples : in_u64 (fs_samples_emitted (ag_flow a));
}.

(** The agent with the parts a tick works on replaced. *)
Definition with_tcp (a : agent) (st : cpe_tcp_state) (q : queues) : agent := a <| ag_tcp := st |> <| ag_q := q |>.
Definition with_flow (a : agent) (st : cpe_flow_state) (q : queues) : agent := a <| ag_flow := st |> <| ag_q := q |>.

Inductive agent_step (a : agent) : agent -> Prop :=
  | as_config env calloc h cfg : config_ok cfg ->
      agent_step a (cpe_agent_apply_config env calloc h a cfg).1.2
  | as_reload load env calloc h path override err :
      (forall p e c, (load p e).1.2 = Some c -> config_ok c) ->
      agent_step a (cpe_agent_reload_config load env calloc h a path override err).1.1.2
  | as_next_event : agent_step a (a <| ag_q := (cpe_agent_next_event (ag_q a)).2 |>)
  | as_provide slot ptr len mem :
      agent_step a (a <| ag_q := (cpe_agent_provide_buffer (ag_q a) slot ptr len mem).2 |>)
  | as_push_line l : agent_step a (a <| ag_q := (cpe_agent_spool_push_line (ag_q a) l).2 |>)
  | as_flush {FS} `{!FileSystem FS} env (fs : FS) : agent_step a (cpe_agent_emit_flush env fs a).1.1.2
  | as_demo_ping seq clk : agent_step a (cpe_agent_demo_ping_tick (E := E) a seq clk).1.2
  | as_sample_tick env clk demo_seq live_seq rc a' seqs :
      cpe_agent_sample_tick (E := E) env clk a demo_seq live_seq = Safe (rc, a', seqs) -> agent_step a a'
  | as_sample s : agent_step a (cpe_agent_set_last_sample a s)
  | as_wifi s : agent_step a (cpe_agent_set_last_wifi a s)
  | as_trace r : agent_step a (cpe_agent_set_last_trace a r)
  | as_run_trace env target_opt max_ttl probes timeout_ms name port_seq rc a' out ps :
      run_trace env a target_opt max_ttl probes timeout_ms name port_seq = Safe (rc, a', out, ps) -> agent_step a a'
  | as_demo_trace clk target_opt max_ttl : agent_step a (cpe_agent_demo_traceroute clk a target_opt max_ttl).1.2
  | as_icmp icmp ts_ms : agent_step a (cpe_agent_feed_icmp_echo_reply (E := E) a icmp ts_ms).2
  | as_nfct data ts_ms : agent_step a (cpe_agent_feed_nfct (R := R) a data ts_ms).2
  | as_tcp_tick env rs clk n st q : Forall recv_ok rs ->
      tcp_tick env (ag_cfg a) (ag_tcp a) (ag_q a) rs clk = Safe (n, st, q) -> agent_step a (with_tcp a st q)
  | as_tcp_poll env rs clk max_msgs n st rs' : Forall recv_ok rs ->
      cpe_agent_tcp_poll env (ag_cfg a) (ag_tcp a) rs clk max_msgs = Safe (n, st, rs') ->
      agent_step a (with_tcp a st (ag_q a))
  | as_tcp_emit clk top_n :
      let r := tcp_emit (ag_cfg a) (ag_tcp a) (ag_q a) clk top_n in agent_step a (with_tcp a r.1.2 r.2)
  | as_tcp_feed buf clk n st : datagram_ok buf ->
      cpe_agent_tcp_feed_nflog (ag_tcp a) buf clk = Safe (n, st) -> agent_step a (with_tcp a st (ag_q a))
  | as_tcp_reset clk : agent_step a (with_tcp a (cpe_agent_tcp_reset (ag_tcp a) clk) (ag_q a))
  | as_flow_tick env n st q : io_ok (fl_events env) -> io_ok (fl_replies env) -> time_ok (mono_ms (fl_clk env)) ->
      flow_tick (ag_cfg a) env (ag_flow a) (ag_q a) = Safe (n, st, q) -> agent_step a (with_flow a st q)
  | as_flow_event ev clk : nfct_event_ok ev -> time_ok (mono_ms clk) ->
      let r := cpe_agent_flow_feed_event (ag_cfg a) (ag_flow a) ev (ag_q a) clk in
      agent_step a (with_flow a r.1.2 r.2).

(** The invariant reads four fields. *)
Lemma inv_frame a a' :
  ag_q a' = ag_q a -> ag_cfg a' = ag_cfg a -> ag_tcp a' = ag_tcp a -> ag_flow a' = ag_flow a ->
  agent_inv a -> agent_inv a'.
Proof. intros E1 E2 E3 E4 []. constructor; by rewrite ?E1, ?E2, ?E3, ?E4. Qed.
Lemma inv_queue a a' :
  ag_cfg a' = ag_cfg a -> ag_tcp a' = ag_tcp a -> ag_flow a' = ag_flow a ->
  queues_inv (ag_q a') -> spool_cap (ag_q a') = spool_cap (ag_q a) -> agent_inv a -> agent_inv a'.
Proof. intros E1 E2 E3 Hq E4 []. constructor; rewrite ?E1, ?E2, ?E3, ?E4; done. Qed.

Lemma push_event_inv a t r : agent_inv a -> agent_inv (push_event a t r).
Proof.
  intros Ha. pose proof (ai_queues _ Ha) as Hq. apply (inv_queue a); try done.
  - exact (queue_step_inv _ _ Hq (qs_event (ag_q a) t (Some r) 0 0)).
  - exact (proj1 (proj2 (eq_push_same_spool (ag_q a) t (Some r) 0 0))).
Qed.
Lemma push_line_inv a l : agent_inv a -> agent_inv (a <| ag_q := (cpe_agent_spool_push_line (ag_q a) l).2 |>).
Proof.
  intros Ha. pose proof (ai_queues _ Ha) as Hq. apply (inv_queue a); try done.
  - exact (queue_step_inv _ _ Hq (qs_push (ag_q a) l)).
  - exact (sink_push_cap (S := queues) (ag_q a) l Hq).
Qed.

Lemma apply_config_queue env calloc h (a : agent) cfg :
  queues_inv (ag_q a) -> queues_inv (ag_q (cpe_agent_apply_config env calloc h a cfg).1.2).
Proof.
  assert (Hpush : forall (b : agent) t r, queues_inv (ag_q b) -> queues_inv (ag_q (push_event b t r)))
    by (intros b t r Hb; exact (queue_step_inv _ _ Hb (qs_event (ag_q b) t (Some r) 0 0))).
  intros Hq. unfold cpe_agent_apply_config. destruct (cpe_agent_config_validate _ _) as [rc err].
  destruct (negb (rc =? 0)%Z); [by apply Hpush|]. cbv zeta.
  assert (Hres : forall cap, queues_inv (if negb (cap =? spool_cap (ag_q a)) then ensure_spool calloc (ag_q a) h cap
    else (0%Z, ag_q a, h)).1.2).
  { intros cap. destruct (negb _); [|done]. exact (queue_step_inv _ _ Hq (qs_ensure (ag_q a) calloc h cap)). }
  specialize (Hres (Z.to_nat (spool_max_lines (normalise cfg)))).
  destruct (if negb _ then _ else _) as [[rc2 q] h2]. cbn [fst snd] in Hres.
  destruct (negb (rc2 =? 0)%Z); by apply Hpush.
Qed.

Lemma apply_config_inv env calloc h a cfg :
  config_ok cfg -> agent_inv a -> agent_inv (cpe_agent_apply_config env calloc h a cfg).1.2.
Proof.
  intros [Hl Hm] Ha. pose proof Ha as [Hq Hok Hv Hn Hs Hset Ht Hf Hsam].
  pose proof (apply_config_queue env calloc h a cfg Hq) as Hq'.
  pose proof (apply_config_cases env calloc h a cfg (proj1 Hq) Hl) as Hc.
  pose proof (apply_config_settings env calloc h a cfg (proj1 Hq) Hl Hm Hset) as Hst.
  destruct (cpe_agent_apply_config env calloc h a cfg) as [[rc a'] h']. cbn [fst snd] in *.
  destruct Hc as [Hw Hc]. destruct Hst as [Hst _].
  destruct Hc as [reason _ _|a' h' _ _ _ Hnone _ E1 E2 E3|a' h' Hv' cap new E1 _ Ecap _ _ E2 E3].
  - by apply push_event_inv.
  - constructor; rewrite ?E1, ?E2, ?E3; try done. left.
    pose proof (wf_spool_len _ Hw) as Hlen. unfold spool_lines in Hlen. by rewrite Hnone in Hlen.
  - constructor; try done.
    + rewrite E1. split; [by apply normalise_lines_nonneg|].
      change (0 <= flow_max_flows (normalise cfg))%Z. by rewrite normalise_frame.
    + rewrite E1. by apply set_generation_valid.
    + rewrite E1. apply set_generation_normal, normalise_idempotent.
    + right. by rewrite Ecap, E1.
    + rewrite E2. unfold apply_tcp. destruct (truthy (tcp_stats_enabled new)).
      * destruct (_ || _); [by apply tcp_open_wf, tcp_close_wf|done].
      * destruct (truthy _); [|done]. exact (tcp_close_wf _ Ht).
    + rewrite E3. destruct (apply_flow_table (oe_flow env) (ag_cfg a) new (ag_flow a)) as (B1 & B2 & B3 & B4 & _).
      destruct Hf as [W1 W2 W3 W4 W5]. constructor; unfold seen_ok; rewrite ?B1, ?B2, ?B3, ?B4; done.
    + rewrite E3. destruct (apply_flow_table (oe_flow env) (ag_cfg a) new (ag_flow a)) as (_ & _ & _ & _ & ->). done.
Qed.

Lemma reload_source_ok load (a : agent) path err :
  (forall p e c, (load p e).1.2 = Some c -> config_ok c) -> agent_inv a ->
  config_ok (reload_source load a path err).1.2.
Proof.
  intros Hload Ha. pose proof (ai_config _ Ha) as Hok. unfold reload_source. destruct path as [p|]; [|exact Hok].
  destruct (nonempty p); [|exact Hok]. specialize (Hload (Some p) err).
  destruct (load (Some p) err) as [[rc [c|]] e]; [by apply Hload|]. split; vm_compute; discriminate.
Qed.
Lemma reload_inv load env calloc h a path override err :
  (forall p e c, (load p e).1.2 = Some c -> config_ok c) -> agent_inv a ->
  agent_inv (cpe_agent_reload_config load env calloc h a path override err).1.1.2.
Proof.
  intros Hload Ha. unfold cpe_agent_reload_config.
  pose proof (reload_source_ok load a path err Hload Ha) as Hsrc.
  destruct (reload_source load a path err) as [[rc c] e]. cbn [fst snd] in Hsrc.
  destruct (negb (rc =? 0)%Z); [done|]. cbv zeta.
  set (ov := match override with Some r => opt_str r | None => None end).
  destruct (match ov with Some r => _ | None => false end); [done|].
  set (c' := match ov with Some r => _ | None => c end).
  assert (Hc' : config_ok c') by (unfold c'; by destruct ov).
  pose proof (apply_config_inv env calloc h a c' Hc' Ha) as Hi.
  destruct (cpe_agent_apply_config env calloc h a c') as [[rc2 a'] h']. by destruct (negb _).
Qed.

Lemma flush_inv {FS} `{!FileSystem FS} env (fs : FS) a :
  agent_inv a -> agent_inv (cpe_agent_emit_flush env fs a).1.1.2.
Proof.
  intros Ha. pose proof (ai_queues _ Ha) as Hq.
  assert (Hfl : agent_inv (a <| ag_q := (cpe_agent_spool_flush (ee_fprintf env) (ee_fflush env) (ag_q a)).1.2 |>)).
  { apply (inv_queue a); try done.
    - exact (queue_step_inv _ _ Hq (qs_flush (ag_q a) (ee_fprintf env) (ee_fflush env))).
    - cbn. unfold cpe_agent_spool_flush. destruct (spool (ag_q a)) eqn:Es; [|done].
      pose proof (flush_loop_spec (ee_fprintf env) (spool_cnt (ag_q a)) 0 (ag_q a) [] (proj1 Hq) ltac:(by rewrite Es) eq_refl)
        as H2. destruct (flush_loop _ _ _ _ _) as [[[] q'] out]; destruct H2 as (m & H2);
        [destruct (ee_fflush env)|]; cbn; tauto. }
  unfold cpe_agent_emit_flush.
  destruct (_ || _).
  - assert (Hh : agent_inv (flush_http env a).2); [|by destruct (flush_http env a)].
    unfold flush_http. destruct (Nat.eqb_spec (spool_cnt (ag_q a)) 0) as [|Hcnt]; [done|].
    assert (Hs : spool (ag_q a) <> None) by (intros E0; by rewrite (wf_spool_none _ (proj1 Hq) E0) in Hcnt).
    pose proof (http_batch_spec (ag_q a) (proj1 Hq) Hs) as Hb. destruct (http_batch (ag_q a)) as [body n].
    destruct Hb as (_ & Hn & _). destruct (n =? 0); [done|]. destruct (negb _); [done|].
    apply (inv_queue a); try done. exact (queue_step_inv _ _ Hq (qs_sent (ag_q a) n Hs Hn)).
  - destruct (streq _ "spool").
    + unfold flush_file. destruct (negb _); [done|]. destruct (cpe_spool_ensure_parent_dir _ fs) as [r fs1].
      destruct (negb _); [done|]. by destruct (cpe_agent_spool_flush _ _ _) as [[rc q'] out].
    + by destruct (cpe_agent_spool_flush _ _ _) as [[rc q'] out].
Qed.

Lemma push_perf_inv a s : agent_inv a -> agent_inv (a <| ag_q := (push_perf (ag_cfg a) (ag_q a) s).2 |>).
Proof.
  intros Ha. unfold push_perf. destruct (cpe_perf_format_ndjson _ _ _) as [n line].
  destruct (n <? 0)%Z; [by apply (inv_frame a)|].
  pose proof (push_line_inv a line Ha) as Hp. by destruct (cpe_agent_spool_push_line (ag_q a) line).
Qed.

Lemma emit_perf_inv a s reason : agent_inv a -> agent_inv (emit_perf a s reason).2.
Proof.
  intros Ha. unfold emit_perf. set (a1 := a <| ag_last := Some s |>).
  assert (H1 : agent_inv a1) by by apply (inv_frame a).
  pose proof (push_perf_inv a1 s H1) as H2. destruct (push_perf (ag_cfg a1) (ag_q a1) s) as [rc q]. cbn [snd] in H2.
  destruct (negb _); [done|]. by apply push_event_inv.
Qed.

Lemma demo_inv a seq clk : agent_inv a -> agent_inv (cpe_agent_demo_ping_tick (E := E) a seq clk).1.2.
Proof.
  intros Ha. unfold cpe_agent_demo_ping_tick. destruct (ping_round _ _ _) as [rc ping].
  set (a1 := a <| ag_ping := ping |>). assert (H1 : agent_inv a1) by by apply (inv_frame a).
  destruct (negb _); [done|]. destruct (ping_get_stats ping) as [st|]; [|done].
  pose proof (emit_perf_inv a1 (demo_sample_of (ag_cfg a1) st clk) "demo ping" H1) as H2.
  by destruct (emit_perf a1 _ _).
Qed.

Lemma store_and_push_inv a s : agent_inv a -> agent_inv (store_and_push a s).2.
Proof.
  intros Ha. unfold store_and_push, cpe_agent_set_last_sample. set (a1 := push_event _ _ _).
  assert (H1 : agent_inv a1) by (apply push_event_inv; by apply (inv_frame a)).
  pose proof (push_perf_inv a1 s H1) as H2. by destruct (push_perf (ag_cfg a1) (ag_q a1) s).
Qed.

Lemma emit_summary_inv a tr name : agent_inv a -> agent_inv (emit_summary a tr name).2.
Proof.
  intros Ha. unfold emit_summary. pose proof (store_and_push_inv a (summary_sample tr name) Ha) as H1.
  destruct (store_and_push a _) as [rc a1]. destruct (negb _); [done|]. cbn [snd] in *.
  revert a1 H1. induction (trr_hops tr) as [|h hops IH]; intros a1 H1; [done|]. cbn [foldl]. apply IH.
  unfold emit_hop. destruct (_ <=? _); [done|]. by apply push_perf_inv.
Qed.
Lemma set_trace_inv a tr : agent_inv a -> agent_inv (cpe_agent_set_last_trace a tr).
Proof. by apply inv_frame. Qed.

Lemma run_trace_inv env a target_opt max_ttl probes timeout_ms name port_seq rc a' out ps :
  run_trace env a target_opt max_ttl probes timeout_ms name port_seq = Safe (rc, a', out, ps) ->
  agent_inv a -> agent_inv a'.
Proof.
  unfold run_trace. intros Hrun Ha. destruct (resolve_target _ _ _) as [[target dst]|]; [|by injection Hrun as _ <- _ _].
  destruct (hop_loop _ _ _ _ _ _ _) as [s|]; [|done]. cbn [mbind chk_bind] in Hrun. cbv zeta in Hrun.
  pose proof (emit_summary_inv _ (rs_tr s) name (set_trace_inv a (rs_tr s) Ha)) as H1.
  destruct (emit_summary _ _ _) as [rc1 a1]. destruct (negb _); injection Hrun as _ <- _ _; exact H1.
Qed.
Lemma demo_trace_inv clk a target_opt max_ttl :
  agent_inv a -> agent_inv (cpe_agent_demo_traceroute clk a target_opt max_ttl).1.2.
Proof.
  intros Ha. unfold cpe_agent_demo_traceroute. set (tr := demo_trace _ _ _).
  pose proof (store_and_push_inv _ (demo_trace_sample tr) (set_trace_inv a tr Ha)) as H1.
  destruct (store_and_push _ _) as [rc a1]. by destruct (negb _).
Qed.

(** The probe ticks are safe and keep the invariant. *)
Lemma live_ping_step env seq a :
  agent_inv a -> exists rc a' seq', cpe_agent_live_ping_tick (E := E) env a seq = Safe (rc, a', seq') /\ agent_inv a'.
Proof.
  intros Ha.
  unfold cpe_agent_live_ping_tick.
  destruct (negb _); [by eexists _, _, _|]. destruct (inet_pton4 _) as [dst|]; [|by eexists _, _, _].
  destruct (open_icmp_socket _ _) as [fd is_raw]. destruct (fd <? 0)%Z; [by eexists _, _, _|]. cbv zeta.
  destruct (negb _); [by eexists _, _, _|].
  destruct (await_reply_safe env (dflt (probe_timeout_ms (ag_cfg a)) 1000) is_raw (u16 (seq + 1)))
    as (reply & -> & _). cbn [mbind chk_bind].
  match goal with |- context [store_and_push ?b ?s] => set (a1 := b); set (s1 := s) end.
  assert (H1 : agent_inv a1).
  { unfold a1. destruct reply as [icmp|]; [|done]. unfold cpe_agent_feed_icmp_echo_reply.
    destruct (_ <? 8); [done|]. destruct (ping_round _ _ _) as [rc ping]. by apply (inv_frame a). }
  pose proof (store_and_push_inv a1 s1 H1) as H2. destruct (store_and_push a1 s1) as [rc a']. by eexists _, _, _.
Qed.

Lemma sample_tick_step env clk demo_seq live_seq a :
  agent_inv a ->
  exists rc a' seqs, cpe_agent_sample_tick (E := E) env clk a demo_seq live_seq = Safe (rc, a', seqs) /\ agent_inv a'.
Proof.
  intros Ha. unfold cpe_agent_sample_tick. destruct (truthy _).
  { pose proof (demo_inv a demo_seq clk Ha) as Hd. destruct (cpe_agent_demo_ping_tick a demo_seq clk) as [[rc a'] s].
    by eexists _, _, _. }
  destruct (live_ping_step env live_seq a Ha) as (rc & a' & seq & -> & Hi). by eexists _, _, _.
Qed.
(** So does a trace. *)
Lemma run_trace_step env a target_opt max_ttl probes timeout_ms name port_seq :
  agent_inv a ->
  safe_with (fun r => agent_inv r.1.1.2) (run_trace env a target_opt max_ttl probes timeout_ms name port_seq).
Proof.
  intros Ha. assert (exists r, run_trace env a target_opt max_ttl probes timeout_ms name port_seq = Safe r) as [[[[rc a'] o] ps] Hrun].
  { unfold run_trace. destruct (resolve_target _ _ _) as [[target dst]|] eqn:Et; [|by eexists].
    destruct (resolve_target_fits _ _ _ _ Et) as [Ht _]. cbv zeta.
    match goal with |- context [hop_loop _ _ ?tmo _ ?p ?n _ ?s] =>
      destruct (hop_loop_ok env dst tmo target Ht p n 1 s eq_refl) as (s' & -> & _) end. chk_step.
    destruct (emit_summary _ _ _) as [rc a']. by eexists. }
  exists (rc, a', o, ps). split; [exact Hrun|]. by eapply run_trace_inv.
Qed.

(** Nor do the probe ticks touch the configuration. *)
Lemma demo_tick_cfg (a : agent) seq clk : ag_cfg (cpe_agent_demo_ping_tick (E := E) a seq clk).1.2 = ag_cfg a.
Proof.
  unfold cpe_agent_demo_ping_tick. destruct (ping_round _ _ _) as [r ping]. destruct (negb _); [done|].
  destruct (ping_get_stats ping); [|done]. unfold emit_perf. destruct (push_perf _ _ _) as [r2 q]. by destruct (negb _).
Qed.
Lemma sample_tick_cfg env clk demo_seq live_seq (a : agent) rc a' seqs :
  cpe_agent_sample_tick (E := E) env clk a demo_seq live_seq = Safe (rc, a', seqs) -> ag_cfg a' = ag_cfg a.
Proof.
  assert (Hstore : forall (b : agent) s, ag_cfg (store_and_push b s).2 = ag_cfg b)
    by (intros b s; unfold store_and_push; by destruct (push_perf _ _ _)).
  unfold cpe_agent_sample_tick. destruct (truthy _).
  - pose proof (demo_tick_cfg a demo_seq clk) as Hd. destruct (cpe_agent_demo_ping_tick a demo_seq clk) as [[r a1] s1].
    by intros [= _ <- _].
  - unfold cpe_agent_live_ping_tick. destruct (negb _); [by intros [= _ <- _]|].
    destruct (inet_pton4 _) as [dst|]; [|by intros [= _ <- _]].
    destruct (open_icmp_socket _ _) as [fd is_raw]. destruct (fd <? 0)%Z; [by intros [= _ <- _]|]. cbv zeta.
    destruct (negb _); [by intros [= _ <- _]|].
    destruct (await_reply _ _ _ _) as [reply|]; [|done]. cbn [mbind chk_bind].
    match goal with |- context [store_and_push ?b ?x] =>
      pose proof (Hstore b x) as Hs; assert (Hb : ag_cfg b = ag_cfg a) end.
    { destruct reply as [icmp|]; [|done]. unfold cpe_agent_feed_icmp_echo_reply. destruct (_ <? 8); [done|].
      by destruct (ping_round _ _ _). }
    destruct (store_and_push _ _) as [r b']. intros [= _ <- _]. cbn [snd] in Hs. by rewrite Hs.
Qed.

Lemma feed_inv a data ts_ms : agent_inv a -> agent_inv (cpe_agent_feed_nfct (R := R) a data ts_ms).2.
Proof.
  intros Ha. unfold cpe_agent_feed_nfct. destruct (_ =? 0); [done|].
  destruct (nfct_feed_input _ _) as [rc ctx]. destruct (pull_all ctx) as [evs ctx2].
  assert (H1 : agent_inv (0%Z, a <| ag_nfct := ctx2 |>).2) by by apply (inv_frame a).
  revert H1. generalize (0%Z, a <| ag_nfct := ctx2 |>) as acc. induction evs as [|e evs IH]; intros acc Hacc; [done|].
  cbn [foldl]. apply IH. destruct acc as [n b]. unfold feed_obs.
  destruct (nf_obs_from_nfct _ _ _) as [r1 obs]. destruct (negb _); [done|].
  destruct (nf_obs_format _ _) as [r2 line]. destruct (negb _); [done|].
  pose proof (push_line_inv b line Hacc) as H2.
  destruct (cpe_agent_spool_push_line (ag_q b) line) as [r3 q]. cbn [snd] in H2.
  destruct (r3 =? 0)%Z; [|done]. by eapply inv_frame; [..|exact H2].
Qed.

(** The library only reports events whose fields are within their types. *)
Hypothesis event_ok : forall (c : C) e c', next_event c = (Some e, c') -> nfct_event_ok e.

Lemma flow_parts_inv a st q :
  agent_inv a -> flow_inv (Q := queues) (sink_cap (ag_q a), flow_params (ag_flow a)) (0%Z, st, q) ->
  (truthy (flow_acct_enabled (ag_cfg a)) = false ->
    (fs_fd st < 0)%Z /\ (fs_dump_fd st < 0)%Z /\ fs_enabled st = 0%Z) ->
  agent_inv (with_flow a st q).
Proof.
  intros [Hq Hok Hv Hn Hs Hset Ht Hf Hsam] (Hw & Hs' & Hq' & Hcap & Hp) Hoff. cbn in *.
  destruct Hset as [S1 S2 S3 S4 S5]. injection Hp as P1 P2 P3 P4.
  constructor; try done; cbn; [by rewrite Hcap|]. constructor; try done; cbn; rewrite ?P1, ?P2, ?P3, ?P4; done.
Qed.

Lemma flow_tick_off env cfg st q :
  truthy (flow_acct_enabled cfg) = false -> fs_enabled st = 0%Z -> flow_tick cfg env st q = Safe (0%Z, st, q).
Proof. intros Hc He. unfold cpe_agent_flow_tick. by rewrite He, Hc. Qed.

Lemma flow_tick_step env a :
  io_ok (fl_events env) -> io_ok (fl_replies env) -> time_ok (mono_ms (fl_clk env)) -> agent_inv a ->
  exists n st q, flow_tick (ag_cfg a) env (ag_flow a) (ag_q a) = Safe (n, st, q) /\ agent_inv (with_flow a st q).
Proof.
  intros He Hr Ht Ha.
  assert (Hacc : flow_inv (Q := queues) (sink_cap (ag_q a), flow_params (ag_flow a)) (0%Z, ag_flow a, ag_q a))
    by (destruct Ha; by split_and!).
  destruct (truthy (flow_acct_enabled (ag_cfg a))) eqn:Eon.
  - destruct (flow_tick_inv (Q := queues) (ag_cfg a) event_ok env (ag_flow a) (ag_q a) He Hr Ht Hacc)
      as ([[n st] q] & Hrun & Hinv).
    exists n, st, q. split; [exact Hrun|]. apply flow_parts_inv; [done|exact Hinv|by rewrite Eon].
  - destruct (sw_flow_off _ _ _ (ai_settings _ Ha) Eon) as (H1 & H2 & H3).
    exists 0%Z, (ag_flow a), (ag_q a). split; [by apply flow_tick_off|]. by apply flow_parts_inv.
Qed.

Lemma tcp_parts_inv a st q :
  agent_inv a -> tcp_wf st -> queues_inv q -> spool_cap q = spool_cap (ag_q a) ->
  (truthy (tcp_stats_enabled (ag_cfg a)) = false -> (tcp_fd st < 0)%Z /\ tcp_enabled st = 0%Z) ->
  group_ok (ag_cfg a) st -> agent_inv (with_tcp a st q).
Proof.
  intros [Hq Hok Hv Hn Hs Hset Ht Hf Hsam] H1 H2 H3 H4 H5. destruct Hset as [S1 S2 S3 S4 S5].
  constructor; try done; cbn; first [by rewrite H3|by constructor].
Qed.

Lemma tcp_tick_step env rs clk a :
  Forall recv_ok rs -> agent_inv a ->
  exists n st q, tcp_tick env (ag_cfg a) (ag_tcp a) (ag_q a) rs clk = Safe (n, st, q) /\ agent_inv (with_tcp a st q).
Proof.
  intros Hrs Ha. pose proof (ai_settings _ Ha) as Hset.
  destruct (@tcp_tick_wf queues inv_sink inv_sink_laws _ (spool_cap (ag_q a)) env (ag_cfg a) (ag_tcp a) (ag_q a) rs clk Hrs
    (ai_tcp _ Ha) (conj (ai_queues _ Ha) eq_refl)) as ([[n st] q] & Hrun & Hw & Hq & Hcap).
  cbn [fst snd] in Hw, Hq, Hcap. exists n, st, q. split; [exact Hrun|].
  pose proof (tcp_tick_group (Q := queues) _ _ _ _ _ _ _ _ _ Hrun (sw_tcp_group _ _ _ Hset)) as Hg.
  apply tcp_parts_inv; try done. intros Eoff. revert Hrun. unfold cpe_agent_tcp_tick. rewrite Eoff. cbn [negb].
  intros [= _ <- _]. exact (sw_tcp_off _ _ _ Hset Eoff).
Qed.

Lemma tcp_poll_step env rs clk k a :
  Forall recv_ok rs -> agent_inv a ->
  exists n st rs', cpe_agent_tcp_poll env (ag_cfg a) (ag_tcp a) rs clk k = Safe (n, st, rs') /\
    agent_inv (with_tcp a st (ag_q a)).
Proof.
  intros Hrs Ha. pose proof (ai_settings _ Ha) as Hset.
  destruct (tcp_poll_wf env (ag_cfg a) (ag_tcp a) rs clk k Hrs (ai_tcp _ Ha)) as ([[n st] rs'] & Hrun & Hw).
  exists n, st, rs'. split; [exact Hrun|].
  pose proof (tcp_poll_group _ _ _ _ _ _ _ _ _ Hrun (sw_tcp_group _ _ _ Hset)) as Hg.
  apply tcp_parts_inv; try done; [by destruct Ha|]. intros Eoff.
  destruct (sw_tcp_off _ _ _ Hset Eoff) as [H1 H2]. revert Hrun. unfold cpe_agent_tcp_poll. rewrite H2.
  by intros [= _ <- _].
Qed.
Lemma tcp_open_step env a : agent_inv a -> agent_inv (with_tcp a (cpe_agent_tcp_open env (ag_cfg a) (ag_tcp a)).2 (ag_q a)).
Proof.
  intros Ha. pose proof (ai_settings _ Ha) as Hset. apply tcp_parts_inv; try done; [by apply tcp_open_wf, Ha|by destruct Ha| |].
  - intros Eoff. destruct (sw_tcp_off _ _ _ Hset Eoff) as [H1 H2]. unfold cpe_agent_tcp_open.
    destruct (Z.leb_spec 0 (tcp_fd (ag_tcp a))); [lia|]. cbv zeta.
    match goal with |- context [negb (truthy ?x)] => change x with (tcp_stats_enabled (ag_cfg a)) end.
    rewrite Eoff. cbn. split; [exact H1|]. unfold truthy in Eoff. lia.
  - unfold group_ok. destruct (Z.ltb_spec (tcp_fd (ag_tcp a)) 0) as [Hf|Hf].
    + exact (tcp_open_group env (ag_cfg a) (ag_tcp a) Hf).
    + unfold cpe_agent_tcp_open. rewrite (proj2 (Z.leb_le _ _)) by done. exact (sw_tcp_group _ _ _ Hset).
Qed.
Lemma tcp_emit_step clk top_n a :
  agent_inv a -> let r := tcp_emit (ag_cfg a) (ag_tcp a) (ag_q a) clk top_n in agent_inv (with_tcp a r.1.2 r.2).
Proof.
  intros Ha. cbv zeta. pose proof (ai_settings _ Ha) as Hset.
  pose proof (@emit_ok queues inv_sink inv_sink_laws _ (spool_cap (ag_q a)) (ag_cfg a) (ag_tcp a) (ag_q a) clk top_n
    (ai_tcp _ Ha) (conj (ai_queues _ Ha) eq_refl)) as (Hw & Hq & Hcap).
  pose proof (proj2 (emit_group (ag_cfg a) (ag_cfg a) (ag_tcp a) (ag_q a) clk top_n) (sw_tcp_group _ _ _ Hset)) as Hg.
  pose proof (@emit_sock queues queues_sink _ (ag_cfg a) (ag_tcp a) (ag_q a) clk top_n) as [E1 E2].
  apply tcp_parts_inv; try done. intros Eoff. rewrite E1, E2. exact (sw_tcp_off _ _ _ Hset Eoff).
Qed.

(** The sockets do not move when packets are fed, the statistics reset or events applied. *)
Lemma tcp_same_sock_inv a st :
  agent_inv a -> tcp_wf st -> tcp_fd st = tcp_fd (ag_tcp a) -> tcp_group st = tcp_group (ag_tcp a) ->
  tcp_enabled st = tcp_enabled (ag_tcp a) -> agent_inv (with_tcp a st (ag_q a)).
Proof.
  intros Ha Hw E1 E2 E3. pose proof (ai_settings _ Ha) as [S1 S2 _ _ _].
  apply tcp_parts_inv; try done; [apply Ha|by rewrite E1, E3|unfold group_ok; by rewrite E1, E2].
Qed.

Lemma tcp_feed_step buf clk n st a :
  datagram_ok buf -> cpe_agent_tcp_feed_nflog (ag_tcp a) buf clk = Safe (n, st) -> agent_inv a ->
  agent_inv (with_tcp a st (ag_q a)).
Proof.
  unfold cpe_agent_tcp_feed_nflog. intros Hd Hrun Ha. destruct (_ =? 0).
  { injection Hrun as _ <-. by apply tcp_same_sock_inv; [|apply Ha|..]. }
  destruct (walk_into_wf (ag_tcp a) buf clk Hd (ai_tcp _ Ha)) as ([n' st'] & Hw & Hwf).
  rewrite Hrun in Hw. injection Hw as <- <-.
  pose proof (walk_into_frame (fun s => (tcp_fd s, tcp_group s, tcp_enabled s)) ltac:(done) ltac:(done) ltac:(done)
    _ _ _ _ _ Hrun) as Hf.
  injection Hf as E1 E2 E3. by apply tcp_same_sock_inv.
Qed.

Lemma flow_event_step ev clk a :
  nfct_event_ok ev -> time_ok (mono_ms clk) -> agent_inv a ->
  let r := cpe_agent_flow_feed_event (ag_cfg a) (ag_flow a) ev (ag_q a) clk in
  agent_inv (with_flow a r.1.2 r.2).
Proof.
  intros He Ht Ha. cbv zeta.
  assert (Hacc : flow_inv (Q := queues) (sink_cap (ag_q a), flow_params (ag_flow a)) (0%Z, ag_flow a, ag_q a))
    by (destruct Ha; by split_and!).
  pose proof (apply_one_inv (Q := queues) (ag_cfg a) _ (mono_ms clk) clk (0%Z, ag_flow a, ag_q a) ev Ht He Hacc) as H1.
  pose proof (apply_event_frame (Q := queues) (ag_cfg a) (fun s => (fs_fd s, fs_dump_fd s, fs_enabled s))
    (ag_flow a) ev (ag_q a) (mono_ms clk) clk ltac:(done) ltac:(done) ltac:(done) ltac:(done) ltac:(done)) as H2.
  unfold cpe_agent_flow_feed_event, apply_one in *.
  change (@apply_event queues queues_sink) with (@apply_event queues inv_sink).
  destruct (apply_event (ag_cfg a) (ag_flow a) ev (ag_q a) (mono_ms clk) clk) as [[rc st] q]. cbn [fst snd] in *.
  injection H2 as E1 E2 E3. apply flow_parts_inv; [done|exact H1|].
  rewrite E1, E2, E3. apply (sw_flow_off _ _ _ (ai_settings _ Ha)).
Qed.

Lemma agent_step_inv a a' : agent_inv a -> agent_step a a' -> agent_inv a'.
Proof.
  intros Ha Hst. pose proof (ai_queues _ Ha) as Hq. destruct Hst.
  - by apply apply_config_inv.
  - by apply reload_inv.
  - apply (inv_queue a); try done; [exact (queue_step_inv _ _ Hq (qs_next (ag_q a)))|].
    cbn. unfold cpe_agent_next_event. by destruct (_ =? 0).
  - apply (inv_queue a); try done; cbn; by rewrite provide_buffer_refused.
  - by apply push_line_inv.
  - by apply flush_inv.
  - by apply demo_inv.
  - destruct (sample_tick_step env clk demo_seq live_seq a Ha) as (rc' & a1 & seqs' & Hrun & Hi).
    match goal with Ht : _ = Safe (rc, _, seqs) |- _ => pose proof (eq_trans (eq_sym Ht) Hrun) as Heq end.
    by injection Heq as <- <- <-.
  - apply push_event_inv. by apply (inv_frame a).
  - by apply (inv_frame a).
  - by apply (inv_frame a).
  - by eapply run_trace_inv.
  - by apply demo_trace_inv.
  - unfold cpe_agent_feed_icmp_echo_reply. destruct (_ <? 8); [done|].
    destruct (ping_round _ _ _) as [rc ping]. by apply (inv_frame a).
  - by apply feed_inv.
  - destruct (tcp_tick_step env rs clk a ltac:(done) Ha) as (n' & st' & q' & Hrun & Hi).
    match goal with Ht : _ = Safe (n, st, q) |- _ => pose proof (eq_trans (eq_sym Ht) Hrun) as Heq end.
    by injection Heq as <- <- <-.
  - destruct (tcp_poll_step env rs clk max_msgs a ltac:(done) Ha) as (n' & st' & rs1 & Hrun & Hi).
    match goal with Ht : _ = Safe (n, st, rs') |- _ => pose proof (eq_trans (eq_sym Ht) Hrun) as Heq end.
    by injection Heq as <- <- <-.
  - by apply tcp_emit_step.
  - by eapply tcp_feed_step.
  - apply tcp_same_sock_inv; [done|apply tcp_reset_wf|done..].
  - destruct (flow_tick_step env a ltac:(done) ltac:(done) ltac:(done) Ha) as (n' & st' & q' & Hrun & Hi).
    match goal with Ht : _ = Safe (n, st, q) |- _ => pose proof (eq_trans (eq_sym Ht) Hrun) as Heq end.
    by injection Heq as <- <- <-.
  - by apply flow_event_step.
Qed.

Lemma create_inv calloc h a h' : cpe_agent_create true calloc h = (Some a, h') -> agent_inv a.
Proof.
  unfold cpe_agent_create. cbn [negb]. destruct ping_create as [ping|]; [|done].
  destruct nfct_create as [nfct|]; [|done]. cbv zeta.
  assert (Hz : queues_inv queues_zero) by (split; [apply queues_zero_wf|by repeat constructor]).
  pose proof (queue_step_inv _ _ Hz (qs_ensure queues_zero calloc h (Z.to_nat (spool_max_lines cpe_agent_config_defaults)))) as Hq.
  pose proof (ensure_spool_spec calloc queues_zero h (Z.to_nat (spool_max_lines cpe_agent_config_defaults))
    queues_zero_wf) as Hs.
  destruct (ensure_spool _ _ _ _) as [[rc q] h1]. cbn [fst snd] in Hq. destruct Hs as (_ & _ & Hrc & _).
  destruct Hrc as [(-> & _ & Hc)|(-> & _)]; cbn [Z.eqb negb]; [|done].
  intros [= <- <-]. constructor; cbn [ag_q ag_cfg ag_tcp ag_flow].
  - done.
  - split; vm_compute; discriminate.
  - destruct (validate_cases cpe_agent_config_defaults None ltac:(vm_compute; discriminate)) as [Hv _].
    apply Hv. reflexivity.
  - reflexivity.
  - right. exact Hc.
  - constructor; repeat split; try (vm_compute; discriminate); by vm_compute.
  - apply tcp_init_wf.
  - apply cpe_flow_state_init_wf.
  - split; vm_compute; congruence.
Qed.

(** C1: From its creation on, after any sequence of the operations of [agent_step] -
    configurations accepted or refused, reloads, events and buffers exchanged with the
    host, lines pushed and flushed, samples, conntrack and NFLOG input, ticks - the agent
    is consistent: queues and tables well-formed, the configuration in force valid, the
    spool of the configured size (or lost to a failed allocation), the sockets in step with
    the configuration.  And in every such state the three ticks (TCP statistics, flow
    accounting, latency probe) are memory safe and return.  Assumed of the input of these
    operations and ticks: NFLOG datagrams are bytes whose number is a multiple of four, as
    the kernel pads them (an unpadded control message is read past its end, lemma
    [nflog_walk_control_overrun]); conntrack datagrams are bytes and the millisecond clock
    is below 2^64 - 1; the library's events are within the ranges of their types and its
    queue is finite; configurations given or loaded have no negative sizes. *)
Theorem agent_reachable_safe calloc h a0 h0 a :
  cpe_agent_create true calloc h = (Some a0, h0) -> star agent_step a0 a ->
  agent_inv a /\
  (forall env rs clk, Forall recv_ok rs ->
     exists n st q, tcp_tick env (ag_cfg a) (ag_tcp a) (ag_q a) rs clk = Safe (n, st, q) /\
       agent_inv (with_tcp a st q)) /\
  (forall env, io_ok (fl_events env) -> io_ok (fl_replies env) -> time_ok (mono_ms (fl_clk env)) ->
     exists n st q, flow_tick (ag_cfg a) env (ag_flow a) (ag_q a) = Safe (n, st, q) /\
       agent_inv (with_flow a st q)) /\
  (forall env clk demo_seq live_seq,
     exists rc a' seqs, cpe_agent_sample_tick (E := E) env clk a demo_seq live_seq = Safe (rc, a', seqs) /\
       agent_inv a').
Proof.
  intros Hc Hst.
  assert (Ha : agent_inv a) by exact (star_invariant agent_step agent_inv agent_step_inv _ _ Hst (create_inv _ _ _ _ Hc)).
  split; [done|]. split; [by intros; apply tcp_tick_step|]. split; intros; [by apply flow_tick_step|by apply sample_tick_step].
Qed.
End reach.

(** ** Instances *)
#[local] Existing Instances toy_source toy_lib fixed_lib.

(** A ping library that accepts everything and reports nothing, and has no events. *)
#[local] Instance toy_ping : PingLib nat := {|
  ping_create := Some 0; ping_feed_input_with_ts := fun p _ _ => (0%Z, p); ping_process := fun p _ => (0%Z, p);
  ping_get_stats := fun _ => None |}.
#[local] Instance toy_ping_events : EventSource nat unit := {| next_event := fun c => (None, c); queued := fun _ => 0;
  next_event_decreases := ltac:(runs_dry) |}.

Lemma agent_reachable_safe_witness :
  exists (a0 : agent nat nat) h0,
    cpe_agent_create true toy_calloc cpe_host_alloc_reset_stats = (Some a0, h0) /\
    agent_inv (a0 <| ag_q := (cpe_agent_spool_push_line (ag_q a0) "x"%string).2 |>).
Proof.
  destruct (cpe_agent_create true toy_calloc cpe_host_alloc_reset_stats) as [[a0|] h0] eqn:Ec;
    [|vm_compute in Ec; discriminate].
  exists a0, h0. split; [reflexivity|].
  refine (proj1 (agent_reachable_safe (E := unit) (R := unit) (H := qsort_isort) toy_events_ok toy_calloc cpe_host_alloc_reset_stats a0 h0 _ Ec _)).
  eapply star_step; [apply as_push_line|apply star_refl].
Defined.

(** A collector that refuses, and an agent that posts to it. *)
Definition refusing : emit_env := {|
  ee_post := fun _ => false; ee_fopen := fun _ => true; ee_fprintf := fun _ => true; ee_fflush := true;
  ee_fclose := true |}.
Definition posting_agent : agent nat nat :=
  toy_agent <| ag_cfg := (ag_cfg toy_agent) <| emit_mode := "http"%string |> |>.
Lemma emit_flush_hands_over_witness :
  let '(rc, a', out, fs') := cpe_agent_emit_flush refusing (@nil string) posting_agent in
  rc = (-1)%Z /\ a' = posting_agent.
Proof.
  pose proof (emit_flush_hands_over refusing (@nil string) posting_agent spool4_ab_wf ltac:(done)) as H.
  destruct (cpe_agent_emit_flush refusing (@nil string) posting_agent) as [[[rc a'] out] fs'].
  cbv zeta in H. destruct H as (_ & _ & H).
  change (http_mode (ag_cfg posting_agent)) with true in H. destruct H as (_ & _ & H).
  assert (Hne : pending (ag_q posting_agent) <> []) by (vm_compute; discriminate).
  destruct (H Hne) as (n & _ & _ & H1). exact H1.
Defined.

Lemma feed_nfct_lines_witness :
  let '(n, a') := cpe_agent_feed_nfct (R := unit) toy_agent [0%Z] 1000 in
  n = ag_nfct_obs a' /\ queues_wf (ag_q a').
Proof.
  pose proof (feed_nfct_lines (R := unit) toy_agent [0%Z] 1000 ltac:(done) ltac:(split; vm_compute; congruence)
    spool4_ab_wf ltac:(vm_compute; discriminate)) as H.
  assert (Hn : (cpe_agent_feed_nfct (R := unit) toy_agent [0%Z] 1000).1 = 1%Z) by (vm_compute; reflexivity).
  destruct (cpe_agent_feed_nfct (R := unit) toy_agent [0%Z] 1000) as [n a']. cbn [fst] in Hn. subst n.
  destruct H as (_ & H1 & H2 & _). split; [symmetry; exact H1|exact H2].
Defined.
