(* ===== verification/Base64.v ===== *)
(** * Base64 (src/agent/tls_egress.c)

    The encoder behind the Basic authentication header, and its correctness: the text
    decodes back to the input. *)

From S2P Require Import Prelude CStr StrSearch.
From Stdlib Require Import Ascii.

Definition b64_tbl : string := "ABCDEFGHIJKLMNOPQRSTUVWXYZabcdefghijklmnopqrstuvwxyz0123456789+/".
(** [b64_tbl[i]] for an index below 64. *)
Definition b64_char (i : Z) : ascii := default "000"%char (String.get (Z.to_nat i) b64_tbl).
Definition b64_pad : ascii := "="%char.

(** The four characters of a group of [length group] bytes, at most three. *)
Definition b64_group (group : list Z) : string :=
  let left := length group in
  let v := Z.shiftl (nth 0 group 0%Z) 16 in
  let v := if 1 <? left then Z.lor v (Z.shiftl (nth 1 group 0%Z) 8) else v in
  let v := if 2 <? left then Z.lor v (nth 2 group 0%Z) else v in
  String (b64_char (Z.land (Z.shiftr v 18) 63))
    (String (b64_char (Z.land (Z.shiftr v 12) 63))
      (String (if 1 <? left then b64_char (Z.land (Z.shiftr v 6) 63) else b64_pad)
        (String (if 2 <? left then b64_char (Z.land v 63) else b64_pad) EmptyString))).

(** The loop: [o] characters are written; each round takes three bytes, or the rest. *)
Fixpoint b64_loop (fuel : nat) (input : list Z) (out_sz o : nat) (out : string) : option string :=
  match input with
  | [] => Some out
  | _ :: _ =>
      match fuel with
      | O => None
      | S f =>
          if out_sz <=? o + 4 then None
          else b64_loop f (drop 3 input) out_sz (o + 4) (out +:+ b64_group (take 3 input))
      end
  end.
(** [None] is the result -1. *)
Definition b64_encode (input : list Z) (out_sz : nat) : option string :=
  if out_sz =? 0 then None else b64_loop (length input) input out_sz 0 EmptyString.

(** ** Decoding, as RFC 4648 defines it *)
Fixpoint b64_index_from (c : ascii) (tbl : string) (i : Z) : option Z :=
  match tbl with
  | EmptyString => None
  | String d tbl' => if Ascii.eqb c d then Some i else b64_index_from c tbl' (i + 1)
  end.
Definition b64_index (c : ascii) : option Z := b64_index_from c b64_tbl 0.
Definition b64_quad (i0 i1 i2 i3 : Z) : Z := (i0 * 262144 + i1 * 4096 + i2 * 64 + i3)%Z.
Fixpoint b64_decode (s : string) : option (list Z) :=
  match s with
  | EmptyString => Some []
  | String c0 (String c1 (String c2 (String c3 s'))) =>
      match b64_index c0, b64_index c1 with
      | Some i0, Some i1 =>
          if Ascii.eqb c2 b64_pad then
            if Ascii.eqb c3 b64_pad && negb (nonempty s')
            then Some [(b64_quad i0 i1 0 0 / 65536)%Z] else None
          else match b64_index c2 with
          | None => None
          | Some i2 =>
              if Ascii.eqb c3 b64_pad then
                if nonempty s' then None
                else let v := b64_quad i0 i1 i2 0 in Some [(v / 65536)%Z; (v / 256 mod 256)%Z]
              else match b64_index c3, b64_decode s' with
              | Some i3, Some l =>
                  let v := b64_quad i0 i1 i2 i3 in
                  Some ((v / 65536)%Z :: (v / 256 mod 256)%Z :: (v mod 256)%Z :: l)
              | _, _ => None
              end
          end
      | _, _ => None
      end
  | _ => None
  end.

(** ** The characters *)
Lemma b64_chars : Forall (fun i => b64_index (b64_char i) = Some i /\ Ascii.eqb (b64_char i) b64_pad = false)
  (seqZ 0 64).
Proof. vm_compute. repeat constructor. Qed.
Lemma b64_char_ok i : (0 <= i < 64)%Z -> b64_index (b64_char i) = Some i /\ Ascii.eqb (b64_char i) b64_pad = false.
Proof.
  intros Hi. pose proof b64_chars as H. rewrite Forall_forall in H. apply H, elem_of_seqZ. lia.
Qed.

Lemma land63 z : Z.land z 63 = (z mod 64)%Z.
Proof. change 63%Z with (Z.ones 6). by rewrite Z.land_ones by lia. Qed.
(** A disjunction of disjoint bit fields is their sum. *)
Lemma land_disjoint a b k : (0 <= k)%Z -> (0 <= b < 2 ^ k)%Z -> Z.land (Z.shiftl a k) b = 0%Z.
Proof.
  intros Hk Hb. apply Z.bits_inj'. intros n Hn. rewrite Z.land_spec, Z.bits_0.
  destruct (Z.lt_ge_cases n k).
  - by rewrite Z.shiftl_spec_low.
  - rewrite <- (Z.mod_small b (2 ^ k)) by done. rewrite Z.mod_pow2_bits_high by lia. apply andb_false_r.
Qed.
Lemma lor_add a b k : (0 <= k)%Z -> (0 <= b < 2 ^ k)%Z -> Z.lor (Z.shiftl a k) b = (a * 2 ^ k + b)%Z.
Proof.
  intros Hk Hb. pose proof (land_disjoint a b k Hk Hb) as Hd.
  rewrite <- Z.shiftl_mul_pow2 by done. by rewrite <- Z.lxor_lor, <- Z.add_nocarry_lxor.
Qed.
Lemma lor3 a b c : in_u8 b -> in_u8 c ->
  Z.lor (Z.lor (Z.shiftl a 16) (Z.shiftl b 8)) c = (a * 65536 + b * 256 + c)%Z.
Proof.
  intros Hb Hc. unfold in_u8 in *.
  assert (E : Z.lor (Z.shiftl a 16) (Z.shiftl b 8) = Z.shiftl (a * 256 + b) 8).
  { replace (Z.shiftl a 16) with (Z.shiftl (Z.shiftl a 8) 8) by (by rewrite Z.shiftl_shiftl by lia).
    rewrite <- Z.shiftl_lor. f_equal. rewrite lor_add by (simpl; lia). done. }
  rewrite E, lor_add by (simpl; lia). change (2 ^ 8)%Z with 256%Z. lia.
Qed.
Lemma lor2 a b : in_u8 b -> Z.lor (Z.shiftl a 16) (Z.shiftl b 8) = (a * 65536 + b * 256)%Z.
Proof.
  intros Hb. rewrite <- (Z.lor_0_r (Z.lor _ _)). rewrite lor3; [lia|done|unfold in_u8; lia].
Qed.

(** The four indexes of a 24-bit value. *)
Lemma b64_indexes v : (0 <= v < 16777216)%Z ->
  exists i0 i1 i2 i3, Z.land (Z.shiftr v 18) 63 = i0 /\ Z.land (Z.shiftr v 12) 63 = i1 /\
    Z.land (Z.shiftr v 6) 63 = i2 /\ Z.land v 63 = i3 /\ (0 <= i0 < 64)%Z /\ (0 <= i1 < 64)%Z /\
    (0 <= i2 < 64)%Z /\ (0 <= i3 < 64)%Z /\ b64_quad i0 i1 i2 i3 = v.
Proof.
  intros Hv. eexists _, _, _, _. do 4 (split; [reflexivity|]).
  rewrite !land63, !Z.shiftr_div_pow2 by lia. unfold b64_quad.
  change (2 ^ 18)%Z with 262144%Z. change (2 ^ 12)%Z with 4096%Z. change (2 ^ 6)%Z with 64%Z.
  pose proof (Z.mod_pos_bound (v / 262144) 64). pose proof (Z.mod_pos_bound (v / 4096) 64).
  pose proof (Z.mod_pos_bound (v / 64) 64). pose proof (Z.mod_pos_bound v 64).
  do 4 (split; [lia|]). Z.div_mod_to_equations. lia.
Qed.

(** ** Encoding decodes back *)

Lemma str_app_quad c0 c1 c2 c3 s : String c0 (String c1 (String c2 (String c3 EmptyString))) +:+ s =
  String c0 (String c1 (String c2 (String c3 s))).
Proof. reflexivity. Qed.

Lemma decode_full b0 b1 b2 s l :
  in_u8 b0 -> in_u8 b1 -> in_u8 b2 -> b64_decode s = Some l ->
  b64_decode (b64_group [b0; b1; b2] +:+ s) = Some (b0 :: b1 :: b2 :: l).
Proof.
  intros H0 H1 H2 Hs. unfold b64_group. cbn [length nth Nat.ltb Nat.leb]. rewrite lor3 by done.
  unfold in_u8 in *. set (v := (b0 * 65536 + b1 * 256 + b2)%Z).
  destruct (b64_indexes v ltac:(unfold v; lia)) as (i0 & i1 & i2 & i3 & -> & -> & -> & -> & R0 & R1 & R2 & R3 & Hq).
  rewrite str_app_quad. cbn [b64_decode].
  destruct (b64_char_ok i0 R0) as [-> _], (b64_char_ok i1 R1) as [-> _], (b64_char_ok i2 R2) as [-> ->],
    (b64_char_ok i3 R3) as [-> ->]. rewrite Hs, Hq. unfold v. f_equal. f_equal; [|f_equal; [|f_equal]];
    Z.div_mod_to_equations; lia.
Qed.
Lemma decode_two b0 b1 : in_u8 b0 -> in_u8 b1 -> b64_decode (b64_group [b0; b1]) = Some [b0; b1].
Proof.
  intros H0 H1. unfold b64_group. cbn [length nth Nat.ltb Nat.leb]. rewrite lor2 by done.
  unfold in_u8 in *. set (v := (b0 * 65536 + b1 * 256)%Z).
  destruct (b64_indexes v ltac:(unfold v; lia)) as (i0 & i1 & i2 & i3 & -> & -> & -> & H3 & R0 & R1 & R2 & R3 & Hq).
  assert (E3 : i3 = 0%Z).
  { rewrite <- H3, land63. unfold v. Z.div_mod_to_equations. lia. }
  rewrite E3 in Hq. cbn [b64_decode].
  destruct (b64_char_ok i0 R0) as [-> _], (b64_char_ok i1 R1) as [-> _], (b64_char_ok i2 R2) as [-> ->].
  change (Ascii.eqb b64_pad b64_pad) with true. cbn [nonempty]. rewrite Hq. unfold v.
  f_equal. f_equal; [|f_equal]; Z.div_mod_to_equations; lia.
Qed.
Lemma decode_one b0 : in_u8 b0 -> b64_decode (b64_group [b0]) = Some [b0].
Proof.
  intros H0. unfold b64_group. cbn [length nth Nat.ltb Nat.leb]. rewrite Z.shiftl_mul_pow2 by lia.
  unfold in_u8 in *. set (v := (b0 * 2 ^ 16)%Z). assert (Ev : v = (b0 * 65536)%Z) by done. clearbody v.
  destruct (b64_indexes v ltac:(lia)) as (i0 & i1 & i2 & i3 & -> & -> & H2 & H3 & R0 & R1 & R2 & R3 & Hq).
  assert (E3 : i3 = 0%Z) by (rewrite <- H3, land63; Z.div_mod_to_equations; lia).
  assert (E2 : i2 = 0%Z).
  { rewrite <- H2, land63, Z.shiftr_div_pow2 by lia. change (2 ^ 6)%Z with 64%Z. Z.div_mod_to_equations. lia. }
  rewrite E2, E3 in Hq. cbn [b64_decode].
  destruct (b64_char_ok i0 R0) as [-> _], (b64_char_ok i1 R1) as [-> _].
  change (Ascii.eqb b64_pad b64_pad) with true. cbn [nonempty andb negb]. rewrite Hq.
  f_equal. f_equal. Z.div_mod_to_equations; lia.
Qed.

(** The encoding without a buffer. *)
Fixpoint b64_text (input : list Z) : string :=
  match input with
  | [] => EmptyString
  | b0 :: b1 :: b2 :: input' => b64_group [b0; b1; b2] +:+ b64_text input'
  | rest => b64_group rest
  end.

Lemma list_ind3 {A} (P : list A -> Prop) :
  P [] -> (forall x, P [x]) -> (forall x y, P [x; y]) -> (forall x y z l, P l -> P (x :: y :: z :: l)) -> forall l, P l.
Proof.
  intros H0 H1 H2 H3 l. enough (P l /\ (forall x, P (x :: l)) /\ forall x y, P (x :: y :: l)) by tauto.
  induction l as [|z l (IH1 & IH2 & IH3)]; split_and!; auto.
Qed.

Lemma strlen_b64_text l : strlen (b64_text l) = 4 * ((length l + 2) / 3).
Proof.
  induction l as [|x|x y|x y z l IH] using list_ind3; [done..|].
  cbn [b64_text]. rewrite strlen_app, IH. change (strlen (b64_group [x; y; z])) with 4.
  change (length (x :: y :: z :: l) + 2) with (3 + (length l + 2)).
  replace (3 + (length l + 2)) with (length l + 2 + 1 * 3) by lia. rewrite Nat.div_add by lia. lia.
Qed.

Lemma b64_text_decodes l : bytes l -> b64_decode (b64_text l) = Some l.
Proof.
  unfold bytes. induction l as [|x|x y|x y z l IH] using list_ind3; intros Hb; [done|..];
    rewrite ?Forall_cons in Hb; cbn [b64_text].
  - apply decode_one. tauto.
  - apply decode_two; tauto.
  - destruct Hb as (Hx & Hy & Hz & Hl). by apply decode_full; [..|apply IH].
Qed.

Lemma b64_loop_spec l fuel out_sz o out :
  length l <= fuel ->
  b64_loop fuel l out_sz o out =
    if (o + strlen (b64_text l) <? out_sz) || negb (nonempty (b64_text l)) then Some (out +:+ b64_text l) else None.
Proof.
  revert fuel o out. induction l as [|x|x y|x y z l IH] using list_ind3; intros fuel o out Hf.
  - rewrite orb_true_r. destruct fuel; cbn; by rewrite str_app_nil_r.
  - destruct fuel as [|fuel]; [simpl in Hf; lia|]. cbn [b64_loop drop take b64_text].
    change (strlen (b64_group [x])) with 4. rewrite orb_false_r, Nat.leb_antisym.
    destruct (_ <? _); [by destruct fuel|done].
  - destruct fuel as [|fuel]; [simpl in Hf; lia|]. cbn [b64_loop drop take b64_text].
    change (strlen (b64_group [x; y])) with 4. rewrite orb_false_r, Nat.leb_antisym.
    destruct (_ <? _); [by destruct fuel|done].
  - destruct fuel as [|fuel]; [simpl in Hf; lia|]. cbn [b64_loop drop take b64_text]. simpl in Hf.
    rewrite IH by lia. rewrite strlen_app. change (strlen (b64_group [x; y; z])) with 4.
    change (nonempty (b64_group [x; y; z] +:+ b64_text l)) with true. rewrite str_app_assoc, orb_false_r, Nat.leb_antisym.
    assert (Hn : nonempty (b64_text l) = false -> strlen (b64_text l) = 0) by by destruct (b64_text l).
    destruct (Nat.ltb_spec (o + 4) out_sz), (Nat.ltb_spec (o + (4 + strlen (b64_text l))) out_sz),
      (Nat.ltb_spec (o + 4 + strlen (b64_text l)) out_sz), (nonempty (b64_text l)); cbn; try done; try lia;
      specialize (Hn eq_refl); lia.
Qed.

(** Every character is one of the alphabet or the padding. *)
Lemma b64_char_free c i : b64_index c = None -> b64_char (Z.land i 63) <> c.
Proof.
  intros Hc E. rewrite land63 in E. destruct (b64_char_ok (i mod 64) ltac:(apply Z.mod_pos_bound; lia)) as [H _].
  rewrite E in H. congruence.
Qed.
Lemma b64_text_free c l : b64_index c = None -> b64_pad <> c -> free c (b64_text l).
Proof.
  intros Hc Hp.
  assert (Hg : forall g, free c (b64_group g)).
  { intros g. unfold b64_group. cbv zeta.
    destruct (1 <? length g), (2 <? length g);
      repeat (apply free_more; [first [exact Hp|exact (b64_char_free c _ Hc)]|]); done. }
  induction l as [|x|x y|x y z l IH] using list_ind3; cbn [b64_text]; [done|apply Hg..|]. by apply free_app.
Qed.

(** The base64 encoder writes the encoding of its input whole, with the terminating
    NUL, or refuses: it succeeds exactly when the 4*ceil(n/3) characters and the NUL fit
    the buffer, and then the text decodes back to the input. *)
Theorem b64_encode_spec l out_sz :
  bytes l -> 0 < out_sz ->
  b64_encode l out_sz = (if 4 * ((length l + 2) / 3) <? out_sz then Some (b64_text l) else None) /\
  b64_decode (b64_text l) = Some l.
Proof.
  intros Hb Hs. split; [|by apply b64_text_decodes]. unfold b64_encode.
  rewrite (proj2 (Nat.eqb_neq _ 0)) by lia. rewrite b64_loop_spec by done. rewrite strlen_b64_text, Nat.add_0_l.
  destruct (nonempty (b64_text l)) eqn:E; cbn [negb]; [by rewrite orb_false_r|].
  assert (Hz : strlen (b64_text l) = 0) by by destruct (b64_text l).
  rewrite strlen_b64_text in Hz. rewrite Hz, orb_true_r. by rewrite (proj2 (Nat.ltb_lt _ _)).
Qed.
Lemma b64_encode_spec_witness :
  b64_encode (str_bytes "root:pw") 440 = Some "cm9vdDpwdw=="%string /\
  b64_decode (b64_text (str_bytes "root:pw")) = Some (str_bytes "root:pw").
Proof.
  destruct (b64_encode_spec (str_bytes "root:pw") 440 (str_bytes_bytes _) ltac:(lia)) as [H1 H2].
  split; [rewrite H1; reflexivity|exact H2].
Defined.
