(* ===== verification/HttpRead.v ===== *)
(** * Reading an HTTP request as a server does

    The reference reader against which the requests that the agent (src/agent/tls_egress.c)
    and the control client (src/agent/ctl_ch_query.c) put together are judged: the lines of
    the head up to the first empty one, the value of a field, and a body of exactly the
    announced length.  It is a specification and models no source code. *)

From S2P Require Import Prelude CStr StrSearch.
From Stdlib Require Import Ascii.

Definition crlf : string := String cr (String lf EmptyString).

(** ** The reader *)

(** The lines of the head, and what follows the empty line. *)
Fixpoint read_head (fuel : nat) (s : string) : option (list string * string) :=
  match fuel with
  | O => None
  | S f =>
      match String.index 0 crlf s with
      | None => None
      | Some O => Some ([], str_drop 2 s)
      | Some i =>
          match read_head f (str_drop (i + 2) s) with
          | Some (ls, rest) => Some (str_take i s :: ls, rest)
          | None => None
          end
      end
  end.
(** The value of the first field of a name. *)
Fixpoint field_value (name : string) (fs : list string) : option string :=
  match fs with
  | [] => None
  | f :: fs' => if String.prefix (name +:+ ": ") f then Some (str_drop (strlen name + 2) f) else field_value name fs'
  end.
Definition read_decimal (s : string) : option Z :=
  match scan_digits s 0 with (n, EmptyString) => if nonempty s then Some n else None | _ => None end.

(** A request that arrived: its line, its fields, its body. *)
Record http_msg := { hm_line : string; hm_fields : list string; hm_body : string }.
(** [None] unless the body is as long as [Content-Length] says. *)
Definition read_request (s : string) : option http_msg :=
  match read_head (S (strlen s)) s with
  | Some (l :: fs, body) =>
      match field_value "Content-Length" fs with
      | Some v =>
          match read_decimal v with
          | Some n =>
              if (n =? Z.of_nat (strlen body))%Z then Some {| hm_line := l; hm_fields := fs; hm_body := body |} else None
          | None => None
          end
      | None => None
      end
  | _ => None
  end.

(** ** Heads put together from lines *)
Definition line_ok (l : string) : Prop := free cr l /\ nonempty l = true.
Fixpoint head_lines (ls : list string) (t : string) : string :=
  match ls with [] => t | l :: ls' => l +:+ crlf +:+ head_lines ls' t end.

Lemma head_lines_app ls t u : head_lines ls t +:+ u = head_lines ls (t +:+ u).
Proof. induction ls as [|l ls IH]; [done|]. cbn [head_lines]. by rewrite !str_app_assoc, IH. Qed.
Lemma head_lines_length ls t : length ls + strlen t <= strlen (head_lines ls t).
Proof. induction ls as [|l ls IH]; [done|]. cbn [head_lines length]. rewrite !strlen_app. simpl. lia. Qed.

Lemma crlf_after_line l t : free cr l -> String.index 0 crlf (l +:+ crlf +:+ t) = Some (strlen l).
Proof.
  intros Hf. unfold crlf at 1. rewrite index_free by done. change (String cr (String lf EmptyString)) with crlf.
  rewrite index_here. cbn [option_map]. by rewrite Nat.add_0_r.
Qed.
Lemma read_head_lines ls fuel rest :
  Forall line_ok ls -> length ls < fuel -> read_head fuel (head_lines ls (crlf +:+ rest)) = Some (ls, rest).
Proof.
  intros Hls. revert fuel. induction Hls as [|l ls [Hf Hn] Hls IH]; intros [|f] Hlen; cbn [length] in Hlen; try lia.
  - cbn [read_head head_lines]. by rewrite index_here.
  - cbn [read_head head_lines]. rewrite crlf_after_line by done. destruct (strlen l) as [|i] eqn:El; [by destruct l|].
    rewrite <- El. rewrite <- str_app_assoc. replace (strlen l + 2) with (strlen (l +:+ crlf)) by by rewrite strlen_app.
    rewrite str_drop_app, IH by lia. rewrite str_app_assoc. by rewrite str_take_app.
Qed.

Lemma read_printed n : (0 <= n)%Z -> read_decimal (fmt_u n) = Some n.
Proof. intros Hn. unfold read_decimal. destruct (scan_fmt_u n Hn) as [-> (c & s & -> & _)]. done. Qed.

(** A head of proper lines that announces the length of what follows it is read as it was
    written. *)
Lemma read_request_lines l fs body :
  Forall line_ok (l :: fs) -> field_value "Content-Length" fs = Some (fmt_u (Z.of_nat (strlen body))) ->
  read_request (head_lines (l :: fs) (crlf +:+ body)) = Some {| hm_line := l; hm_fields := fs; hm_body := body |}.
Proof.
  intros Hls Hlen. unfold read_request. set (text := head_lines (l :: fs) (crlf +:+ body)).
  pose proof (head_lines_length (l :: fs) (crlf +:+ body)) as Hl. fold text in Hl.
  unfold text at 2. rewrite read_head_lines by (done || lia).
  by rewrite Hlen, read_printed, Z.eqb_refl by lia.
Qed.
Lemma field_here name v fs : field_value name ((name +:+ ": " +:+ v) :: fs) = Some v.
Proof.
  cbn [field_value]. rewrite <- str_app_assoc, prefix_app.
  replace (strlen name + 2) with (strlen (name +:+ ": ")) by by rewrite strlen_app. by rewrite str_drop_app.
Qed.
