(* ===== verification/HttpPost.v ===== *)
(** * The HTTP(S) POST (src/agent/tls_egress.c)

    URL parsing, the Basic authentication header, the request, its transmission over a
    plain socket or mbedTLS, and the test of the response.  The resolver, the sockets and
    the TLS library answer through records; the bytes handed to the connection are part of
    the result. *)

From S2P Require Import Prelude CStr StrSearch Base64 HttpRead.
From Stdlib Require Import Ascii.

(** ** URLs *)

Definition url_scheme (url : string) : option (bool * string) :=
  if String.prefix "https://" url then Some (true, str_drop 8 url)
  else if String.prefix "http://" url then Some (false, str_drop 7 url) else None.

(** The host and the port: with a colon before the first slash, or the default port. *)
Definition url_authority (is_https : bool) (p : string) (slash : option nat) (host_sz port_sz : nat)
    : option (string * string) :=
  let in_authority c := match slash with Some s => c <? s | None => true end in
  let default_port :=
    let hlen := match slash with Some s => s | None => strlen p end in
    if (hlen =? 0) || (host_sz <=? hlen) then None
    else Some (str_take hlen p, snprintf_s port_sz (if is_https then "443" else "80")) in
  match chr_index ":" p with
  | Some colon =>
      if in_authority colon then
        if (colon =? 0) || (host_sz <=? colon) then None
        else
          let plen := match slash with Some s => s - colon - 1 | None => strlen (str_drop (colon + 1) p) end in
          if (plen =? 0) || (port_sz <=? plen) then None
          else Some (str_take colon p, str_take plen (str_drop (colon + 1) p))
      else default_port
  | None => default_port
  end.

(** The scheme, host, port and path; [None] is the result -1. *)
Definition parse_url (url : string) (host_sz port_sz path_sz : nat) : option (bool * string * string * string) :=
  match url_scheme url with
  | None => None
  | Some (is_https, p) =>
      let slash := chr_index "/" p in
      match url_authority is_https p slash host_sz port_sz with
      | None => None
      | Some (host, port) =>
          match slash with
          | Some s =>
              if path_sz <=? strlen (str_drop s p) then None
              else Some (is_https, host, port, snprintf_s path_sz (str_drop s p))
          | None => Some (is_https, host, port, snprintf_s path_sz "/")
          end
      end
  end.

(** ** Authentication *)
Definition AUTH_RAW_SIZE := 320.
Definition AUTH_ENC_SIZE := 440.
Definition build_basic_auth (user : string) (pass : option string) (hdr_sz : nat) : option string :=
  if negb (nonempty user) || (hdr_sz <? 16) then None
  else
    let raw := user +:+ ":" +:+ default EmptyString pass in
    if AUTH_RAW_SIZE <=? strlen raw then None
    else match b64_encode (str_bytes raw) AUTH_ENC_SIZE with
    | None => None
    | Some enc =>
        let hdr := "Authorization: Basic " +:+ enc +:+ crlf in
        if hdr_sz <=? strlen hdr then None else Some hdr
    end.

(** ** The request *)
Definition HDR_SIZE := 1536.
Definition request_header (path host : string) (body_len : nat) (auth_hdr : option string) : string :=
  "POST " +:+ path +:+ " HTTP/1.1" +:+ crlf +:+
  "Host: " +:+ host +:+ crlf +:+
  "Content-Type: application/x-ndjson" +:+ crlf +:+
  "Content-Length: " +:+ fmt_u (Z.of_nat body_len) +:+ crlf +:+
  "Connection: close" +:+ crlf +:+
  default EmptyString auth_hdr +:+ crlf.

(** [http_status_ok] on the bytes received. *)
Definition http_status_ok (resp : string) : bool :=
  if strlen resp <? 12 then false
  else
    (String.prefix "HTTP/1.1 " resp || String.prefix "HTTP/1.0 " resp) &&
    match String.get 9 resp with Some c => Ascii.eqb c "2" | None => false end.

(** Sending a buffer piece by piece; [send k len] is what the [k]-th call returns when asked
    to send [len] bytes.  The result: whether all went, the next call, what was handed over. *)
Fixpoint send_loop (send : nat -> nat -> Z) (fuel k : nat) (rest : string) : bool * nat * string :=
  match rest with
  | EmptyString => (true, k, EmptyString)
  | String _ _ =>
      match fuel with
      | O => (false, k, EmptyString)
      | S f =>
          let w := send k (strlen rest) in
          if (w <=? 0)%Z then (false, S k, EmptyString)
          else
            let '(ok, k', out) := send_loop send f (S k) (str_drop (Z.to_nat w) rest) in
            (ok, k', str_take (Z.to_nat w) rest +:+ out)
      end
  end.
Definition send_all (send : nat -> nat -> Z) (k : nat) (buf : string) : bool * nat * string :=
  send_loop send (strlen buf) k buf.

(** ** The plain connection *)
Record http_env := {
  he_getaddrinfo : bool -> string -> string -> Z * list nat;   (* numeric only?; the addresses *)
  he_gai_strerror : Z -> string;
  he_socket : nat -> Z;
  he_connect : nat -> bool;
  he_strerror : string;
  he_send : nat -> nat -> Z;
  he_poll : bool;
  he_recv : string;                  (* empty when recv fails *)
}.

Fixpoint connect_loop (env : http_env) (res : list nat) (fd : Z) : Z :=
  match res with
  | [] => fd
  | rp :: res' =>
      let fd := he_socket env rp in
      if (fd <? 0)%Z then connect_loop env res' fd
      else if he_connect env rp then fd else connect_loop env res' (-1)%Z
  end.
Definition tcp_connect (env : http_env) (host port : string) (err : errbuf) : Z * errbuf :=
  let '(rc, res) :=
    let '(rc, res) := he_getaddrinfo env true host port in
    if negb (rc =? 0)%Z then he_getaddrinfo env false host port else (rc, res) in
  if negb (rc =? 0)%Z then ((-1)%Z, err_set err ("getaddrinfo: " +:+ he_gai_strerror env rc))
  else
    let fd := connect_loop env res (-1)%Z in
    (fd, if (fd <? 0)%Z then err_set err ("connect failed: " +:+ he_strerror env) else err).

(** The body of a response: after the first blank line. *)
Definition response_body (resp : string) : option string :=
  match String.index 0 (crlf +:+ crlf) resp with
  | Some i => Some (str_drop (i + 4) resp)
  | None =>
      match String.index 0 (String lf (String lf EmptyString)) resp with
      | Some i => Some (str_drop (i + 2) resp)
      | None => None
      end
  end.

(** The message for a response that is not a success, in a buffer of [n] bytes. *)
Definition status_message (n : nat) (resp : string) : string :=
  let line := str_take (n - 1) (one_line resp) in
  let out :=
    match response_body (cstr resp) with
    | Some bp =>
        if nonempty bp && (strlen line + 3 <? n)
        then line +:+ " | " +:+ str_take (n - 1 - (strlen line + 3)) (one_line bp) else line
    | None => line
    end in
  if strlen out =? 0 then snprintf_s n "http non-2xx" else cstr out.

(** The result, the error text and the bytes sent. *)
Definition plain_http_post (env : http_env) (host port path body : string) (auth_hdr : option string) (err : errbuf)
    : Z * errbuf * string :=
  let '(fd, err) := tcp_connect env host port err in
  if (fd <? 0)%Z then ((-1)%Z, err, EmptyString)
  else
    let hdr := request_header path host (strlen body) auth_hdr in
    if HDR_SIZE <=? strlen hdr then ((-1)%Z, err_set err "hdr overflow", EmptyString)
    else
      let '(ok, k, out1) := send_all (he_send env) 0 hdr in
      if negb ok then ((-1)%Z, err_set err "send hdr failed", out1)
      else
        let '(ok, _, out2) := send_all (he_send env) k body in
        let out := out1 +:+ out2 in
        if negb ok then ((-1)%Z, err_set err "send body failed", out)
        else if negb (he_poll env) then ((-1)%Z, err_set err "response timeout", out)
        else
          let resp := str_take 511 (he_recv env) in
          if strlen resp =? 0 then ((-1)%Z, err_set err "no response", out)
          else if negb (http_status_ok resp)
          then ((-1)%Z, match err with Some (n, _) => Some (n, status_message n resp) | None => None end, out)
          else (0%Z, err, out).

(** ** The TLS connection *)

(** [cpe_agent_http_opts_t]; NULL pointers are [None]. *)
Record http_opts := {
  ho_username : option string;
  ho_password : option string;
  ho_ca_file : option string;
  ho_cert_file : option string;
  ho_key_file : option string;
  ho_tls_insecure : Z;
}.
(** [p && p[0]] *)
Definition given (s : option string) : bool := match s with Some x => nonempty x | None => false end.

Inductive authmode := VERIFY_NONE | VERIFY_OPTIONAL | VERIFY_REQUIRED.
(** How the library is configured before the handshake. *)
Record tls_conf := {
  tc_authmode : authmode;
  tc_ca : option string;
  tc_own_cert : option (string * string);
  tc_hostname : string;
}.
(** The answers of mbedTLS, and its two "call again" codes. *)
Record tls_env := {
  tl_seed : Z;
  tl_ca : string -> bool;
  tl_cert : string -> bool;
  tl_key : string -> bool;
  tl_connect : string -> string -> Z;
  tl_defaults : Z;
  tl_own_cert : bool;
  tl_setup : bool;
  tl_set_hostname : string -> bool;
  tl_want_read : Z;
  tl_want_write : Z;
  tl_handshake : tls_conf -> nat -> Z;
  tl_write : nat -> nat -> Z;
  tl_read : Z;
  tl_resp : string;
}.

(** The peer is verified when there is a CA file, and the result counts unless [insecure]. *)
Definition authmode_of (ca_file : option string) (insecure : Z) : authmode :=
  if given ca_file && negb (truthy insecure) then VERIFY_REQUIRED
  else if given ca_file then VERIFY_OPTIONAL else VERIFY_NONE.
Definition tls_conf_of (host : string) (opts : option http_opts) : tls_conf :=
  let ca_file := match opts with Some o => ho_ca_file o | None => None end in
  let cert_file := match opts with Some o => ho_cert_file o | None => None end in
  let key_file := match opts with Some o => ho_key_file o | None => None end in
  let insecure := match opts with Some o => ho_tls_insecure o | None => 1%Z end in {|
  tc_authmode := authmode_of ca_file insecure;
  tc_ca := if given ca_file then ca_file else None;
  tc_own_cert := if given cert_file && given key_file
                 then Some (default EmptyString cert_file, default EmptyString key_file) else None;
  tc_hostname := host |}.

(** The steps up to the handshake: the message of the first that fails. *)
Definition tls_prepare (env : tls_env) (host port : string) (conf : tls_conf) : option string :=
  if negb (tl_seed env =? 0)%Z then Some ("ctr_drbg_seed " +:+ fmt_d (tl_seed env))
  else if match tc_ca conf with Some f => negb (tl_ca env f) | None => false end then Some "parse ca_file"%string
  else if match tc_own_cert conf with Some (c, _) => negb (tl_cert env c) | None => false end
  then Some "parse cert_file"%string
  else if match tc_own_cert conf with Some (_, k) => negb (tl_key env k) | None => false end
  then Some "parse key_file"%string
  else if negb (tl_connect env host port =? 0)%Z then Some ("connect " +:+ fmt_d (tl_connect env host port))
  else if negb (tl_defaults env =? 0)%Z then Some ("ssl_config_defaults " +:+ fmt_d (tl_defaults env))
  else if match tc_own_cert conf with Some _ => negb (tl_own_cert env) | None => false end
  then Some "own_cert"%string
  else if negb (tl_setup env) then Some "ssl_setup"%string
  else if negb (tl_set_hostname env host) then Some "set_hostname"%string
  else None.

(** The handshake is repeated while the library asks for it: the last result, or [None]
    when it still asks after [fuel] calls. *)
Fixpoint handshake_loop (env : tls_env) (conf : tls_conf) (fuel k : nat) : option Z :=
  match fuel with
  | O => None
  | S f =>
      let ret := tl_handshake env conf k in
      if (ret =? 0)%Z then Some 0%Z
      else if negb (ret =? tl_want_read env)%Z && negb (ret =? tl_want_write env)%Z then Some ret
      else handshake_loop env conf f (S k)
  end.

(** The request over the established connection. *)
Definition tls_exchange (env : tls_env) (host path body : string) (auth_hdr : option string) (err : errbuf)
    : Z * errbuf * string :=
  let hdr := request_header path host (strlen body) auth_hdr in
  if HDR_SIZE <=? strlen hdr then ((-1)%Z, err_set err "hdr overflow", EmptyString)
  else
    let '(ok, k, out1) := send_all (tl_write env) 0 hdr in
    if negb ok then ((-1)%Z, err_set err ("write hdr " +:+ fmt_d (tl_write env (k - 1) (strlen hdr - strlen out1))), out1)
    else
      let '(ok, k, out2) := send_all (tl_write env) k body in
      let out := out1 +:+ out2 in
      if negb ok
      then ((-1)%Z, err_set err ("write body " +:+ fmt_d (tl_write env (k - 1) (strlen body - strlen out2))), out)
      else if (tl_read env <=? 0)%Z then ((-1)%Z, err_set err ("read " +:+ fmt_d (tl_read env)), out)
      else if http_status_ok (str_take (Z.to_nat (tl_read env)) (tl_resp env)) then (0%Z, err, out)
      else ((-1)%Z, err_set err "http non-2xx", out).

Definition mbedtls_https_post (env : tls_env) (fuel : nat) (host port path body : string) (auth_hdr : option string)
    (opts : option http_opts) (err : errbuf) : option (Z * errbuf * string) :=
  let conf := tls_conf_of host opts in
  match tls_prepare env host port conf with
  | Some msg => Some ((-1)%Z, err_set err msg, EmptyString)
  | None =>
      match handshake_loop env conf fuel 0 with
      | None => None
      | Some ret =>
          if negb (ret =? 0)%Z then Some ((-1)%Z, err_set err ("handshake " +:+ fmt_d ret), EmptyString)
          else Some (tls_exchange env host path body auth_hdr err)
      end
  end.

(** ** [cpe_agent_http_post] *)

(** [tls] is [None] in a build without mbedTLS. *)
Definition cpe_agent_tls_available (tls : option tls_env) : Z := match tls with Some _ => 1%Z | None => 0%Z end.
Definition https_post (tls : option tls_env) (fuel : nat) (host port path body : string) (auth_hdr : option string)
    (opts : option http_opts) (err : errbuf) : option (Z * errbuf * string) :=
  match tls with
  | Some env => mbedtls_https_post env fuel host port path body auth_hdr opts err
  | None => Some ((-1)%Z, err_set err "HTTPS requires mbedTLS (CPE_AGENT_WITH_MBEDTLS)", EmptyString)
  end.

Record post_env := { pe_plain : http_env; pe_tls : option tls_env; pe_fuel : nat }.

(** The Authorization header of the options, if there is a user: [None] when it cannot be
    built. *)
Definition auth_of (opts : option http_opts) : option (option string) :=
  match opts with
  | Some o =>
      match ho_username o with
      | Some u => if nonempty u then option_map Some (build_basic_auth u (ho_password o) 512) else Some None
      | None => Some None
      end
  | None => Some None
  end.

Definition cpe_agent_http_post (env : post_env) (url body : option string) (opts : option http_opts) (err : errbuf)
    : option (Z * errbuf * string) :=
  let err := match err with Some (n, _) => Some (n, EmptyString) | None => None end in
  match url, body with
  | Some url, Some body =>
      match parse_url url 256 16 512 with
      | None => Some ((-1)%Z, err_set err "bad url (need http:// or https://)", EmptyString)
      | Some (is_https, host, port, path) =>
          match auth_of opts with
          | None => Some ((-1)%Z, err_set err "basic auth encode failed", EmptyString)
          | Some auth_hdr =>
              if (is_https : bool)
              then https_post (pe_tls env) (pe_fuel env) host port path body auth_hdr opts err
              else Some (plain_http_post (pe_plain env) host port path body auth_hdr err)
          end
      end
  | _, _ => Some ((-1)%Z, err_set err "null args", EmptyString)
  end.

(** [cpe_agent_tls_post]. *)
Definition tls_post_opts (ca_file cert_file key_file : option string) : http_opts := {|
  ho_username := None; ho_password := None; ho_ca_file := ca_file; ho_cert_file := cert_file;
  ho_key_file := key_file; ho_tls_insecure := if given ca_file then 0%Z else 1%Z |}.
Definition cpe_agent_tls_post (env : post_env) (url body ca_file cert_file key_file : option string) (err : errbuf)
    : option (Z * errbuf * string) :=
  cpe_agent_http_post env url body (Some (tls_post_opts ca_file cert_file key_file)) err.

(** ** Parsing a printed URL *)

Definition scheme_text (is_https : bool) : string := if is_https then "https://" else "http://".
Definition print_url (is_https : bool) (host : string) (port : option string) (path : string) : string :=
  scheme_text is_https +:+ host +:+ (match port with Some p => ":" +:+ p | None => EmptyString end) +:+ path.
Definition default_port (is_https : bool) : string := if is_https then "443" else "80".

Lemma url_scheme_print is_https t : url_scheme (scheme_text is_https +:+ t) = Some (is_https, t).
Proof.
  unfold url_scheme, scheme_text. destruct is_https; [by rewrite prefix_app|].
  change (String.prefix "https://" ("http://" +:+ t)) with false. by rewrite prefix_app.
Qed.

(** The path is empty or starts at the slash. *)
Definition path_ok (path : string) : Prop := path = EmptyString \/ exists t, path = String "/" t.

Section authority.
Context (is_https : bool) (host path : string) (host_sz port_sz : nat).
Hypothesis Hhost : 0 < strlen host < host_sz.
Hypothesis Hcolon : free ":" host.
Hypothesis Hslash : free "/" host.
Hypothesis Hpath : path_ok path.

Lemma authority_port port :
  0 < strlen port < port_sz -> free "/" port ->
  let p := host +:+ String ":" (port +:+ path) in
  url_authority is_https p (chr_index "/" p) host_sz port_sz = Some (host, port) /\
  chr_index "/" p = (if nonempty path then Some (strlen host + S (strlen port)) else None) /\
  str_drop (strlen host + S (strlen port)) p = path.
Proof.
  intros Hp Hf p.
  assert (Hs : chr_index "/" p = if nonempty path then Some (strlen host + S (strlen port)) else None).
  { unfold p. rewrite chr_index_app_none by done. cbn.
    change (String.append port path) with (port +:+ path). rewrite chr_index_app_none by done.
    destruct Hpath as [->|[t ->]]; cbn; [done|]. f_equal. lia. }
  split; [|split; [done|]].
  - unfold url_authority. rewrite Hs. unfold p. rewrite chr_index_app by done.
    rewrite (proj2 (Nat.eqb_neq _ 0)), (proj2 (Nat.leb_gt host_sz _)), str_take_app, str_drop_app_S by lia. cbn [orb].
    destruct Hpath as [->|[t ->]]; cbn [nonempty].
    + rewrite str_app_nil_r. rewrite (proj2 (Nat.eqb_neq _ 0)), (proj2 (Nat.leb_gt port_sz _)) by lia. cbn [orb].
      by rewrite str_take_all.
    + rewrite (proj2 (Nat.ltb_lt (strlen host) _)) by lia.
      replace (strlen host + S (strlen port) - strlen host - 1) with (strlen port) by lia.
      rewrite (proj2 (Nat.eqb_neq _ 0)), (proj2 (Nat.leb_gt port_sz _)) by lia. cbn [orb]. by rewrite str_take_app.
  - unfold p. change (String ":" (port +:+ path)) with (String ":" port +:+ path).
    rewrite <- str_app_assoc. replace (strlen host + S (strlen port)) with (strlen (host +:+ String ":" port))
      by (rewrite strlen_app; simpl; lia). apply str_drop_app.
Qed.

Lemma authority_default :
  3 < port_sz ->
  let p := host +:+ path in
  url_authority is_https p (chr_index "/" p) host_sz port_sz = Some (host, default_port is_https) /\
  chr_index "/" p = (if nonempty path then Some (strlen host) else None) /\
  str_drop (strlen host) p = path.
Proof.
  intros Hps p.
  assert (Hs : chr_index "/" p = if nonempty path then Some (strlen host) else None).
  { unfold p. destruct Hpath as [->|[t ->]]; [|by rewrite chr_index_app]. by rewrite str_app_nil_r. }
  split; [|split; [done|apply str_drop_app]].
  assert (Hport : snprintf_s port_sz (if is_https then "443" else "80") = default_port is_https).
  { rewrite snprintf_s_fits; [by destruct is_https|]. destruct is_https; simpl; lia. }
  unfold url_authority. rewrite Hs, Hport. unfold p.
  destruct Hpath as [->|[t ->]]; cbn [nonempty].
  - rewrite str_app_nil_r, Hcolon. rewrite (proj2 (Nat.eqb_neq _ 0)), (proj2 (Nat.leb_gt host_sz _)) by lia. cbn [orb].
    by rewrite str_take_all.
  - rewrite (proj2 (Nat.eqb_neq _ 0)), (proj2 (Nat.leb_gt host_sz _)) by lia. cbn [orb]. rewrite str_take_app.
    destruct (chr_index ":" (host +:+ String "/" t)) as [c|] eqn:E; [|done].
    rewrite chr_index_app_none in E by done. destruct (chr_index ":" (String "/" t)) as [i|]; [|done].
    injection E as <-. by rewrite (proj2 (Nat.ltb_ge _ _)) by lia.
Qed.
End authority.

(** A URL in the supported form parses into its parts: printing a scheme, a host
    without colon or slash, an optional port and a path, and parsing the text with buffers
    that hold them, gives the same parts, with the scheme's default port and the root path
    where none was given. *)
Theorem parse_url_print is_https host port path host_sz port_sz path_sz :
  0 < strlen host < host_sz -> free ":" host -> free "/" host -> path_ok path -> strlen path < path_sz -> 1 < path_sz ->
  3 < port_sz -> match port with Some p => 0 < strlen p < port_sz /\ free "/" p | None => True end ->
  parse_url (print_url is_https host port path) host_sz port_sz path_sz =
    Some (is_https, host, default (default_port is_https) port, str_dflt path "/").
Proof.
  intros Hh Hc Hs Hp Hpl Hp1 Hps Hport. unfold parse_url, print_url. rewrite url_scheme_print.
  assert (Hroot : snprintf_s path_sz "/" = "/"%string) by (apply snprintf_s_fits; simpl; lia).
  destruct port as [p|].
  - destruct Hport as [Hlp Hfp].
    change ((":" +:+ p) +:+ path) with (String ":" (p +:+ path)).
    destruct (authority_port is_https host path host_sz port_sz Hh Hc Hs Hp p Hlp Hfp) as (-> & -> & Hd).
    destruct Hp as [->|[t ->]]; cbn [nonempty]; [by rewrite Hroot|].
    rewrite Hd, (proj2 (Nat.leb_gt path_sz _)), snprintf_s_fits by done. done.
  - change (EmptyString +:+ path) with path.
    destruct (authority_default is_https host path host_sz port_sz Hh Hc Hs Hp Hps) as (-> & -> & Hd).
    destruct Hp as [->|[t ->]]; cbn [nonempty]; [by rewrite Hroot|].
    rewrite Hd, (proj2 (Nat.leb_gt path_sz _)), snprintf_s_fits by done. done.
Qed.

(** ** The authentication header *)

(** The Basic authentication header is refused exactly when there is no user or the
    user and password together with their colon reach 320 bytes; otherwise it is complete,
    and what it carries decodes to [user:password]. *)
Theorem basic_auth_spec user pass :
  let raw := user +:+ ":" +:+ default EmptyString pass in
  build_basic_auth user pass 512 =
    (if negb (nonempty user) || (AUTH_RAW_SIZE <=? strlen raw) then None
     else Some ("Authorization: Basic " +:+ b64_text (str_bytes raw) +:+ crlf)) /\
  b64_decode (b64_text (str_bytes raw)) = Some (str_bytes raw).
Proof.
  cbv zeta. set (raw := user +:+ ":" +:+ default EmptyString pass).
  destruct (b64_encode_spec (str_bytes raw) AUTH_ENC_SIZE (str_bytes_bytes raw) ltac:(unfold AUTH_ENC_SIZE; lia))
    as [He Hd]. split; [|exact Hd].
  unfold build_basic_auth. fold raw. change (512 <? 16) with false. rewrite orb_false_r.
  destruct (nonempty user); cbn [negb orb]; [|done].
  destruct (Nat.leb_spec AUTH_RAW_SIZE (strlen raw)) as [|Hl]; [done|].
  rewrite He, length_str_bytes.
  assert (Hn : (strlen raw + 2) / 3 <= 107).
  { change 107 with (321 / 3). apply Nat.Div0.div_le_mono. unfold AUTH_RAW_SIZE in Hl. lia. }
  rewrite (proj2 (Nat.ltb_lt (4 * _) _)) by (unfold AUTH_ENC_SIZE; lia).
  rewrite (proj2 (Nat.leb_gt 512 _)); [done|].
  rewrite !strlen_app, strlen_b64_text, length_str_bytes. simpl String.length. lia.
Qed.

(** ** What is sent *)

(** [send] never takes more than it was given, as POSIX and mbedTLS document. *)
Definition send_ok (send : nat -> nat -> Z) : Prop := forall k n, (send k n <= Z.of_nat n)%Z.
(** [out] is the beginning of [text]. *)
Definition str_prefix_of (out text : string) : Prop := exists rest, text = out +:+ rest.

Lemma str_prefix_refl s : str_prefix_of s s.
Proof. exists EmptyString. by rewrite str_app_nil_r. Qed.
Lemma str_prefix_app a b c : str_prefix_of b c -> str_prefix_of (a +:+ b) (a +:+ c).
Proof. intros [r ->]. exists r. by rewrite str_app_assoc. Qed.
Lemma str_prefix_more a b c : str_prefix_of a b -> str_prefix_of a (b +:+ c).
Proof. intros [r ->]. exists (r +:+ c). by rewrite str_app_assoc. Qed.

Lemma send_loop_spec send fuel k rest :
  send_ok send -> strlen rest <= fuel ->
  let '(ok, k', out) := send_loop send fuel k rest in
  str_prefix_of out rest /\ (ok = true -> out = rest) /\
  (ok = false -> exists j n, 0 < n /\ (send j n <= 0)%Z /\ k <= j).
Proof.
  intros Hs. revert k rest. induction fuel as [|fuel IH]; intros k rest Hl.
  { destruct rest as [|c rest]; [|simpl in Hl; lia]. split_and!; try done. apply str_prefix_refl. }
  destruct rest as [|c rest].
  { split_and!; try done. apply str_prefix_refl. }
  cbn [send_loop]. set (r := String c rest) in *. destruct (Z.leb_spec (send k (strlen r)) 0) as [Hw|Hw].
  { split_and!; [by exists r|done|]. intros _. exists k, (strlen r). split_and!; [unfold r; cbn [String.length]; lia|done..]. }
  set (w := Z.to_nat (send k (strlen r))).
  pose proof (IH (S k) (str_drop w r)) as H. rewrite strlen_drop in H.
  specialize (H ltac:(pose proof (Hs k (strlen r)); lia)).
  destruct (send_loop send fuel (S k) (str_drop w r)) as [[ok k'] out]. destruct H as (H1 & H2 & H3).
  split_and!.
  - rewrite (str_take_drop w r) at 2. by apply str_prefix_app.
  - intros Hok. by rewrite (H2 Hok), <- str_take_drop.
  - intros Hok. destruct (H3 Hok) as (j & n & Hn & Hj & Hk). exists j, n. split_and!; [done|done|lia].
Qed.

(** The request as it goes over the wire. *)
Definition request_text (path host body : string) (auth_hdr : option string) : string :=
  request_header path host (strlen body) auth_hdr +:+ body.

(** ** What a server reads *)

(** The fields of the request. *)
Definition header_fields (host : string) (body_len : nat) (auth : option string) : list string :=
  ["Host: " +:+ host; "Content-Type: application/x-ndjson"%string; "Content-Length: " +:+ fmt_u (Z.of_nat body_len);
   "Connection: close"%string] ++ match auth with Some a => [a] | None => [] end.
Lemma request_header_fields path host n auth :
  request_header path host n (option_map (fun a => a +:+ crlf) auth) =
  head_lines (("POST " +:+ path +:+ " HTTP/1.1") :: header_fields host n auth) crlf.
Proof.
  unfold request_header, header_fields. destruct auth; cbn [app head_lines default option_map from_option id];
    rewrite !str_app_assoc; reflexivity.
Qed.

(** The user and the password in the options. *)
Definition credentials_of (user : option string) (pass : string) : option (string * string) :=
  match user with Some u => if nonempty u then Some (u, pass) else None | None => None end.
Definition opts_credentials (opts : option http_opts) : option (string * string) :=
  match opts with Some o => credentials_of (ho_username o) (default EmptyString (ho_password o)) | None => None end.
(** The fields carry them in the Basic scheme, or no credentials at all. *)
Definition carries (cred : option (string * string)) (fs : list string) : Prop :=
  match cred with
  | Some (u, p) =>
      exists e, field_value "Authorization" fs = Some ("Basic " +:+ e) /\
        b64_decode e = Some (str_bytes (u +:+ ":" +:+ p))
  | None => field_value "Authorization" fs = None
  end.
(** The request that was read is the POST of the body. *)
Definition is_post (path host body : string) (cred : option (string * string)) (m : http_msg) : Prop :=
  hm_line m = "POST " +:+ path +:+ " HTTP/1.1" /\ field_value "Host" (hm_fields m) = Some host /\
  carries cred (hm_fields m) /\ hm_body m = body.

(** The Authorization line, without its end. *)
Lemma auth_of_line opts auth_hdr :
  auth_of opts = Some auth_hdr ->
  exists auth, auth_hdr = option_map (fun a => a +:+ crlf) auth /\
    (forall a, auth = Some a -> line_ok a /\ String.prefix "Content-Length: " a = false) /\
    forall host n, carries (opts_credentials opts) (header_fields host n auth).
Proof.
  unfold auth_of, opts_credentials, credentials_of.
  assert (Hnone : exists auth, @None string = option_map (fun a => a +:+ crlf) auth /\
    (forall a, auth = Some a -> line_ok a /\ String.prefix "Content-Length: " a = false) /\
    forall host n, carries None (header_fields host n auth)) by by exists None.
  destruct opts as [o|]; [|by intros [= <-]]. destruct (ho_username o) as [u|]; [|by intros [= <-]].
  destruct (nonempty u) eqn:Eu; [|by intros [= <-]].
  destruct (basic_auth_spec u (ho_password o)) as [He Hd]. set (raw := u +:+ ":" +:+ _) in *. rewrite He, Eu. cbn [negb orb].
  destruct (_ <=? _); [done|]. intros [= <-]. exists (Some ("Authorization: Basic " +:+ b64_text (str_bytes raw))).
  split; [cbn [option_map]; by rewrite str_app_assoc|]. split.
  - intros a [= <-]. split; [|done]. split; [|done]. apply free_app; [done|]. by apply b64_text_free.
  - intros host n. exists (b64_text (str_bytes raw)). by split.
Qed.

Lemma request_read path host body opts auth_hdr :
  free cr path -> free cr host -> auth_of opts = Some auth_hdr ->
  exists m, read_request (request_text path host body auth_hdr) = Some m /\
    is_post path host body (opts_credentials opts) m.
Proof.
  intros Hp Hh Ha. destruct (auth_of_line _ _ Ha) as (auth & -> & Hauth & Hc).
  unfold request_text. rewrite request_header_fields, head_lines_app.
  assert (Hls : Forall line_ok (("POST " +:+ path +:+ " HTTP/1.1") :: header_fields host (strlen body) auth)).
  { apply Forall_cons. split; [by split; [repeat first [apply free_app|done]|]|]. unfold header_fields. apply Forall_app. split.
    - repeat first [apply Forall_cons_2|apply Forall_nil_2]; (split; [|done]); repeat first [apply free_app|done].
      apply free_fmt_u. vm_compute. lia.
    - destruct auth as [a|]; [|done]. apply Forall_cons. split; [by apply Hauth|done]. }
  eexists. split; [apply read_request_lines; [exact Hls|]|].
  - unfold header_fields. cbn [app field_value]. change (String.prefix ("Content-Length" +:+ ": ") ("Host: " +:+ host)) with false.
    change (String.prefix ("Content-Length" +:+ ": ") "Content-Type: application/x-ndjson") with false. cbn iota.
    exact (field_here "Content-Length" (fmt_u (Z.of_nat (strlen body))) _).
  - split_and!; [done|exact (field_here "Host" host _)|apply Hc|done].
Qed.

(** Parsing keeps a URL without line ends free of them. *)
Lemma parse_url_free c url a b p is_https host port path :
  c <> "/"%char -> parse_url url a b p = Some (is_https, host, port, path) -> free c url -> free c host /\ free c path.
Proof.
  intros Hc Hp Hf. unfold parse_url in Hp. destruct (url_scheme url) as [[s q]|] eqn:Es; [|done].
  assert (Hq : free c q).
  { unfold url_scheme in Es. destruct (String.prefix "https://" url); [replace q with (str_drop 8 url) by congruence; by apply free_drop|].
    destruct (String.prefix "http://" url); [|done]. replace q with (str_drop 7 url) by congruence. by apply free_drop. }
  destruct (url_authority _ _ _ _ _) as [[h po]|] eqn:Ea; [|done].
  assert (Hh : free c h).
  { unfold url_authority in Ea. repeat (case_match; try done); injection Ea as <- <-; by apply free_take. }
  destruct (chr_index "/" q) as [i|].
  - destruct (_ <=? _); [done|]. injection Hp as <- <- <- <-. split; [done|]. by apply free_take, free_drop.
  - injection Hp as <- <- <- <-. split; [done|]. apply free_take, free_more; [congruence|done].
Qed.

(** The error text fits its buffer. *)
Definition err_fits (e : errbuf) : Prop := match e with Some (n, t) => 0 < n -> strlen t < n | None => True end.
Lemma err_set_fits e t : err_fits (err_set e t).
Proof. destruct e as [[n old]|]; [|done]. intros Hn. by apply snprintf_s_length. Qed.

Lemma status_message_fits n resp : 0 < n -> strlen (status_message n resp) < n.
Proof.
  intros Hn. unfold status_message. set (line := str_take (n - 1) (one_line resp)).
  assert (Hline : strlen line <= n - 1) by (unfold line; rewrite strlen_take; lia).
  set (out := match response_body (cstr resp) with Some _ => _ | None => _ end).
  assert (Hout : strlen out <= n - 1).
  { unfold out. destruct (response_body (cstr resp)) as [bp|]; [|done].
    destruct (Nat.ltb_spec (strlen line + 3) n); [|by rewrite andb_false_r].
    destruct (nonempty bp); [|done]. cbn [andb]. rewrite !strlen_app, strlen_take. simpl String.length. lia. }
  destruct (_ =? 0); [by apply snprintf_s_length|].
  pose proof (strlen_until (fun c => Ascii.eqb c "000") out). unfold cstr. lia.
Qed.

(** What any of the two transports does with a request: the result is 0 or -1, what was
    sent is the beginning of the request, a success sent all of it and was answered with a
    2xx status, and the error text fits its buffer. *)
Definition transport_ok (resp : string) (text : string) (r : Z * errbuf * string) : Prop :=
  (r.1.1 = 0%Z \/ r.1.1 = (-1)%Z) /\ str_prefix_of r.2 text /\
  (r.1.1 = 0%Z -> r.2 = text /\ http_status_ok resp = true) /\ err_fits r.1.2.

Lemma transport_fail resp text err out :
  str_prefix_of out text -> err_fits err -> transport_ok resp text ((-1)%Z, err, out).
Proof. intros Hp He. split; [by right|]. split; [done|]. by split. Qed.
Lemma transport_done resp text err : http_status_ok resp = true -> err_fits err -> transport_ok resp text (0%Z, err, text).
Proof. intros Hr He. split; [by left|]. split; [apply str_prefix_refl|]. by split. Qed.
Lemma empty_prefix text : str_prefix_of EmptyString text.
Proof. by exists text. Qed.

(** The header, then the body. *)
Lemma request_sent send hdr body :
  send_ok send ->
  let '(ok1, k, out1) := send_all send 0 hdr in
  if ok1 then
    let '(ok2, _, out2) := send_all send k body in
    str_prefix_of (out1 +:+ out2) (hdr +:+ body) /\ (ok2 = true -> out1 +:+ out2 = hdr +:+ body)
  else str_prefix_of out1 (hdr +:+ body).
Proof.
  intros Hs. unfold send_all. pose proof (send_loop_spec send (strlen hdr) 0 hdr Hs ltac:(done)) as H1.
  destruct (send_loop send (strlen hdr) 0 hdr) as [[ok1 k] out1]. destruct H1 as (P1 & E1 & _).
  destruct ok1; [|by apply str_prefix_more]. specialize (E1 eq_refl). subst out1.
  pose proof (send_loop_spec send (strlen body) k body Hs ltac:(done)) as H2.
  destruct (send_loop send (strlen body) k body) as [[ok2 k2] out2]. destruct H2 as (P2 & E2 & _).
  split; [by apply str_prefix_app|]. intros Hok. by rewrite E2.
Qed.

Lemma plain_post_ok env host port path body auth_hdr err :
  send_ok (he_send env) -> err_fits err ->
  transport_ok (str_take 511 (he_recv env)) (request_text path host body auth_hdr)
    (plain_http_post env host port path body auth_hdr err).
Proof.
  intros Hs He. unfold plain_http_post, request_text.
  assert (Hce : err_fits (tcp_connect env host port err).2).
  { unfold tcp_connect. destruct (let '(rc, res) := he_getaddrinfo env true host port in _) as [rc res].
    destruct (negb _); [apply err_set_fits|]. cbn [snd]. destruct (_ <? 0)%Z; [apply err_set_fits|done]. }
  destruct (tcp_connect env host port err) as [fd err']. cbn [snd] in Hce.
  destruct (fd <? 0)%Z; [by apply transport_fail; [apply empty_prefix|]|].
  set (hdr := request_header path host (strlen body) auth_hdr).
  destruct (HDR_SIZE <=? strlen hdr); [apply transport_fail; [apply empty_prefix|apply err_set_fits]|].
  pose proof (request_sent (he_send env) hdr body Hs) as H.
  destruct (send_all (he_send env) 0 hdr) as [[ok1 k] out1].
  destruct ok1; cbn [negb]; [|by apply transport_fail; [|apply err_set_fits]].
  destruct (send_all (he_send env) k body) as [[ok2 k2] out2]. destruct H as [P E].
  destruct ok2; cbn [negb]; [|by apply transport_fail; [|apply err_set_fits]]. rewrite (E eq_refl).
  destruct (he_poll env); cbn [negb]; [|apply transport_fail; [apply str_prefix_refl|apply err_set_fits]].
  destruct (_ =? 0); [apply transport_fail; [apply str_prefix_refl|apply err_set_fits]|].
  destruct (http_status_ok _) eqn:Est; cbn [negb]; [by apply transport_done|].
  apply transport_fail; [apply str_prefix_refl|]. destruct err' as [[n t]|]; [|done]. intros Hn.
  by apply status_message_fits.
Qed.

Lemma tls_exchange_ok env host path body auth_hdr err :
  send_ok (tl_write env) -> err_fits err ->
  transport_ok (str_take (Z.to_nat (tl_read env)) (tl_resp env)) (request_text path host body auth_hdr)
    (tls_exchange env host path body auth_hdr err).
Proof.
  intros Hs He. unfold tls_exchange, request_text.
  set (hdr := request_header path host (strlen body) auth_hdr).
  destruct (HDR_SIZE <=? strlen hdr); [apply transport_fail; [apply empty_prefix|apply err_set_fits]|].
  pose proof (request_sent (tl_write env) hdr body Hs) as H.
  destruct (send_all (tl_write env) 0 hdr) as [[ok1 k] out1].
  destruct ok1; cbn [negb]; [|by apply transport_fail; [|apply err_set_fits]].
  destruct (send_all (tl_write env) k body) as [[ok2 k2] out2]. destruct H as [P E].
  destruct ok2; cbn [negb]; [|by apply transport_fail; [|apply err_set_fits]]. rewrite (E eq_refl).
  destruct (_ <=? 0)%Z; [apply transport_fail; [apply str_prefix_refl|apply err_set_fits]|].
  destruct (http_status_ok _) eqn:Est; [by apply transport_done|].
  apply transport_fail; [apply str_prefix_refl|apply err_set_fits].
Qed.

(** ** The handshake ends *)
Definition wants_more (env : tls_env) (ret : Z) : Prop :=
  ret <> 0%Z /\ (ret = tl_want_read env \/ ret = tl_want_write env).
Lemma handshake_loop_spec env conf fuel k :
  match handshake_loop env conf fuel k with
  | Some ret => exists j, k <= j < k + fuel /\ ret = tl_handshake env conf j /\ ~ wants_more env ret
  | None => forall j, k <= j < k + fuel -> wants_more env (tl_handshake env conf j)
  end.
Proof.
  revert k. induction fuel as [|fuel IH]; intros k; cbn [handshake_loop]; [intros; lia|].
  destruct (Z.eqb_spec (tl_handshake env conf k) 0) as [E|E].
  { exists k. split; [lia|]. split; [done|]. by intros [H _]. }
  destruct (negb _ && negb _) eqn:W.
  - apply andb_prop in W as [W1 W2]. apply negb_true_iff, Z.eqb_neq in W1, W2.
    exists k. split; [lia|]. split; [done|]. intros [_ [|]]; done.
  - assert (Hw : wants_more env (tl_handshake env conf k)).
    { split; [done|]. apply andb_false_iff in W as [W|W]; apply negb_false_iff, Z.eqb_eq in W; tauto. }
    specialize (IH (S k)). destruct (handshake_loop env conf fuel (S k)) as [ret|].
    + destruct IH as (j & Hj & Hr). exists j. split; [lia|done].
    + intros j Hj. destruct (Nat.eq_dec j k) as [->|]; [done|]. apply IH. lia.
Qed.

(** ** The whole POST *)

(** The connection of a POST: what the collector answered. *)
Definition response_of (env : post_env) (is_https : bool) : string :=
  if is_https then match pe_tls env with Some t => str_take (Z.to_nat (tl_read t)) (tl_resp t) | None => EmptyString end
  else str_take 511 (he_recv (pe_plain env)).
Definition env_ok (env : post_env) : Prop :=
  send_ok (he_send (pe_plain env)) /\ forall t, pe_tls env = Some t -> send_ok (tl_write t).
(** The handshake of this POST ends within the fuel. *)
Definition handshake_ends (env : post_env) (host : string) (opts : option http_opts) : Prop :=
  forall t, pe_tls env = Some t -> exists j, j < pe_fuel env /\ ~ wants_more t (tl_handshake t (tls_conf_of host opts) j).

Lemma https_post_ok env host port path body auth_hdr opts err :
  env_ok env -> err_fits err -> handshake_ends env host opts ->
  exists r, https_post (pe_tls env) (pe_fuel env) host port path body auth_hdr opts err = Some r /\
    transport_ok (response_of env true) (request_text path host body auth_hdr) r.
Proof.
  intros [_ Hok] He Hend. unfold https_post, response_of. destruct (pe_tls env) as [t|] eqn:Et.
  2:{ eexists. split; [done|]. apply transport_fail; [apply empty_prefix|apply err_set_fits]. }
  unfold mbedtls_https_post. destruct (tls_prepare _ _ _ _).
  { eexists. split; [done|]. apply transport_fail; [apply empty_prefix|apply err_set_fits]. }
  pose proof (handshake_loop_spec t (tls_conf_of host opts) (pe_fuel env) 0) as Hh.
  destruct (handshake_loop _ _ _ _) as [ret|].
  - destruct (negb _).
    + eexists. split; [done|]. apply transport_fail; [apply empty_prefix|apply err_set_fits].
    + eexists. split; [done|]. by apply tls_exchange_ok; [apply Hok|].
  - destruct (Hend t Et) as (j & Hj & Hn). exfalso. apply Hn, Hh. lia.
Qed.

Lemma post_total env url body opts err :
  env_ok env -> (forall host, handshake_ends env host opts) ->
  exists rc err' out, cpe_agent_http_post env (Some url) (Some body) opts err = Some (rc, err', out) /\
    (rc = 0%Z \/ rc = (-1)%Z) /\ err_fits err' /\
    match parse_url url 256 16 512, auth_of opts with
    | Some (is_https, host, port, path), Some auth_hdr =>
        (free cr url -> exists m, read_request (request_text path host body auth_hdr) = Some m /\
           is_post path host body (opts_credentials opts) m) /\
        str_prefix_of out (request_text path host body auth_hdr) /\
        (rc = 0%Z -> out = request_text path host body auth_hdr /\ http_status_ok (response_of env is_https) = true)
    | _, _ => rc = (-1)%Z /\ out = EmptyString
    end.
Proof.
  intros Hok Hend. unfold cpe_agent_http_post.
  set (err0 := match err with Some (n, _) => _ | None => None end).
  assert (He : err_fits err0) by (unfold err0; destruct err as [[n t]|]; [by intros ?|done]).
  destruct (parse_url url 256 16 512) as [[[[is_https host] port] path]|] eqn:Eu.
  2:{ eexists _, _, _. split; [done|]. split; [by right|]. split; [apply err_set_fits|done]. }
  destruct (auth_of opts) as [auth_hdr|] eqn:Ea.
  2:{ eexists _, _, _. split; [done|]. split; [by right|]. split; [apply err_set_fits|done]. }
  assert (H : exists r, (if is_https then https_post (pe_tls env) (pe_fuel env) host port path body auth_hdr opts err0
      else Some (plain_http_post (pe_plain env) host port path body auth_hdr err0)) = Some r /\
    transport_ok (response_of env is_https) (request_text path host body auth_hdr) r).
  { destruct is_https; [by apply https_post_ok|]. eexists. split; [done|]. by apply plain_post_ok; [apply Hok|]. }
  destruct H as ([[rc err'] out] & -> & H1 & H2 & H3 & H4). eexists _, _, _. split; [done|]. split_and!; [done..| |done|done].
  intros Hcr. destruct (parse_url_free cr _ _ _ _ _ _ _ _ ltac:(done) Eu Hcr). by apply request_read.
Qed.

(** C30: A POST that succeeds has delivered everything.  Assumed of the environment: a
    call that sends takes no more bytes than it is given, and the TLS handshake ends (within
    the fuel of its loop, which C does not bound).  Then, whatever else the resolver, the
    sockets and the TLS library answer, [cpe_agent_http_post] returns 0 or -1 with an error
    text that fits its buffer, and 0 only when the URL was parsed, the credentials encoded,
    and the complete request was handed to the connection and answered with a 2xx status.
    For a URL without carriage returns an independent reader of HTTP recovers from that
    request the POST line with the path, the host, the credentials of the options (none
    when there is no user) and, by the announced length, exactly the body.  A URL or
    credentials it cannot use send nothing. *)
Theorem http_post_delivers env url body opts err :
  env_ok env -> (forall host, handshake_ends env host opts) ->
  exists rc err' out, cpe_agent_http_post env (Some url) (Some body) opts err = Some (rc, err', out) /\
    (rc = 0%Z \/ rc = (-1)%Z) /\ err_fits err' /\
    match parse_url url 256 16 512, auth_of opts with
    | Some (is_https, host, port, path), Some auth_hdr =>
        (free cr url -> exists m, read_request (request_text path host body auth_hdr) = Some m /\
           is_post path host body (opts_credentials opts) m) /\
        str_prefix_of out (request_text path host body auth_hdr) /\
        (rc = 0%Z -> out = request_text path host body auth_hdr /\ http_status_ok (response_of env is_https) = true)
    | _, _ => rc = (-1)%Z /\ out = EmptyString
    end.
Proof. exact (post_total env url body opts err). Qed.

(** An https POST verifies its peer exactly when a CA file is given and
    [tls_insecure] is 0: then, with a library that fails the handshake with an untrusted
    peer under required verification, nothing is sent to such a peer.  Without a CA file
    verification is off whatever [tls_insecure] says. *)
Theorem https_verifies_peer env host port path body auth_hdr o err :
  let conf := tls_conf_of host (Some o) in
  (tc_authmode conf = VERIFY_REQUIRED <-> given (ho_ca_file o) = true /\ ho_tls_insecure o = 0%Z) /\
  (given (ho_ca_file o) = false -> tc_authmode conf = VERIFY_NONE) /\
  (forall t, pe_tls env = Some t ->
    (forall c k, tc_authmode c = VERIFY_REQUIRED -> tl_handshake t c k <> 0%Z) ->
    given (ho_ca_file o) = true -> ho_tls_insecure o = 0%Z ->
    forall r, https_post (pe_tls env) (pe_fuel env) host port path body auth_hdr (Some o) err = Some r ->
      r.1.1 = (-1)%Z /\ r.2 = EmptyString).
Proof.
  cbv zeta. unfold tls_conf_of. cbn [tc_authmode].
  assert (Hi : ho_tls_insecure o = 0%Z <-> truthy (ho_tls_insecure o) = false).
  { unfold truthy. rewrite negb_false_iff. symmetry. apply Z.eqb_eq. }
  split; [|split].
  - rewrite Hi. unfold authmode_of. destruct (given (ho_ca_file o)), (truthy _); cbn; split; try done;
      by intros [? ?].
  - unfold authmode_of. by intros ->.
  - intros t Ht Huntrusted Hca Hins r Hr. rewrite Ht in Hr. cbn [https_post] in Hr. unfold mbedtls_https_post in Hr.
    set (conf := tls_conf_of host (Some o)) in *.
    assert (Hreq : tc_authmode conf = VERIFY_REQUIRED).
    { unfold conf, tls_conf_of, authmode_of. cbn [tc_authmode]. apply Hi in Hins. by rewrite Hca, Hins. }
    destruct (tls_prepare t host port conf); [by injection Hr as <-|].
    pose proof (handshake_loop_spec t conf (pe_fuel env) 0) as Hh.
    destruct (handshake_loop t conf (pe_fuel env) 0) as [ret|]; [|done].
    destruct Hh as (j & _ & -> & _). rewrite (proj2 (Z.eqb_neq _ 0) (Huntrusted conf j Hreq)) in Hr.
    by injection Hr as <-.
Qed.

(** ** Instances *)

(** A collector that takes seven bytes at a time and answers 204. *)
Definition toy_http : http_env := {|
  he_getaddrinfo := fun _ _ _ => (0%Z, [1]); he_gai_strerror := fun _ => EmptyString; he_socket := fun _ => 4%Z;
  he_connect := fun _ => true; he_strerror := EmptyString; he_send := fun _ n => Z.min 7 (Z.of_nat n);
  he_poll := true; he_recv := "HTTP/1.1 204 No Content" |}.
(** A TLS library whose handshake needs one more round, and fails with required
    verification. *)
Definition toy_tls : tls_env := {|
  tl_seed := 0; tl_ca := fun _ => true; tl_cert := fun _ => true; tl_key := fun _ => true;
  tl_connect := fun _ _ => 0%Z; tl_defaults := 0; tl_own_cert := true; tl_setup := true;
  tl_set_hostname := fun _ => true; tl_want_read := (-26880)%Z; tl_want_write := (-26752)%Z;
  tl_handshake := fun c k => match tc_authmode c with
                             | VERIFY_REQUIRED => (-9984)%Z
                             | _ => match k with O => (-26880)%Z | _ => 0%Z end
                             end;
  tl_write := fun _ n => Z.of_nat n; tl_read := 20; tl_resp := "HTTP/1.1 200 OK" |}.
Definition toy_post : post_env := {| pe_plain := toy_http; pe_tls := Some toy_tls; pe_fuel := 4 |}.
Lemma toy_post_ok : env_ok toy_post.
Proof. split; [intros k n; simpl; lia|]. intros t [= <-] k n. simpl. lia. Qed.
Lemma toy_post_ends host opts : handshake_ends toy_post host opts.
Proof.
  intros t [= <-]. exists 1. split; [simpl; lia|]. intros [H1 H2]. revert H1 H2. simpl.
  destruct (authmode_of _ _); lia.
Qed.

Lemma http_post_delivers_witness :
  exists rc err' out, cpe_agent_http_post toy_post (Some "http://192.0.2.9:8686/cpe"%string) (Some "{}"%string) None
      (Some (160, EmptyString)) = Some (rc, err', out) /\ rc = 0%Z /\
    out = request_text "/cpe" "192.0.2.9" "{}" None /\
    exists m, read_request out = Some m /\ is_post "/cpe" "192.0.2.9" "{}" None m.
Proof.
  destruct (http_post_delivers toy_post "http://192.0.2.9:8686/cpe" "{}" None (Some (160, EmptyString))
    toy_post_ok (fun h => toy_post_ends h None)) as (rc & err' & out & H1 & _ & _ & H2).
  exists rc, err', out. split; [exact H1|].
  assert (Hrc : rc = 0%Z) by (vm_compute in H1; injection H1; auto).
  split; [exact Hrc|].
  change (parse_url "http://192.0.2.9:8686/cpe" 256 16 512)
    with (Some (false, "192.0.2.9", "8686", "/cpe")%string) in H2. cbv iota beta in H2.
  destruct H2 as (Hread & _ & Hdone). destruct (Hdone Hrc) as [-> _]. split; [reflexivity|]. exact (Hread eq_refl).
Defined.

Lemma https_verifies_peer_witness :
  match https_post (Some toy_tls) 4 "h" "443" "/" "{}" None (Some (tls_post_opts (Some "ca.pem"%string) None None)) None with
  | Some r => r.2 = EmptyString
  | None => False
  end.
Proof.
  destruct (https_post _ _ _ _ _ _ _ _ _) as [r|] eqn:Hr; [|vm_compute in Hr; discriminate].
  refine (proj2 (proj2 (proj2 (https_verifies_peer toy_post "h" "443" "/" "{}" None
    (tls_post_opts (Some "ca.pem"%string) None None) None)) toy_tls eq_refl _ eq_refl eq_refl r Hr)).
  intros c k Hc. simpl. rewrite Hc. discriminate.
Defined.

Lemma parse_url_print_witness :
  parse_url "https://cpe.example:8443/ingest" 256 16 512 = Some (true, "cpe.example", "8443", "/ingest")%string.
Proof.
  refine (parse_url_print true "cpe.example" (Some "8443"%string) "/ingest" 256 16 512 _ eq_refl eq_refl _ _ _ _ _).
  - simpl; lia.
  - right. by exists "ingest"%string.
  - simpl; lia.
  - lia.
  - lia.
  - split; [simpl; lia|reflexivity].
Defined.
