(* ===== verification/AgentEgress.v ===== *)
(** * The agent's HTTP egress (src/agent/agent_core.c, src/agent/tls_egress.c)

    The flush of the agent with the POST it really makes: what leaves the spool has been
    delivered. *)

From S2P Require Import Prelude CStr CStr SpoolDir Config Spool HttpRead HttpPost Agent AgentConfig AgentRun.

(** The options of the agent's request. *)
Definition opts_of (r : http_request) : http_opts := {|
  ho_username := hr_username r; ho_password := Some (hr_password r); ho_ca_file := hr_ca_file r;
  ho_cert_file := hr_cert_file r; ho_key_file := hr_key_file r; ho_tls_insecure := hr_tls_insecure r |}.
(** The call in [cpe_agent_emit_flush], with its error buffer of 160 bytes. *)
Definition post_request (env : post_env) (r : http_request) : option (Z * errbuf * string) :=
  cpe_agent_http_post env (Some (hr_url r)) (Some (hr_body r)) (Some (opts_of r)) (Some (160, EmptyString)).
(** The environment of a flush whose POSTs go through [env]. *)
Definition post_flush (env : post_env) : emit_env := {|
  ee_post := fun r => match post_request env r with Some (rc, _, _) => (rc =? 0)%Z | None => false end;
  ee_fopen := fun _ => false; ee_fprintf := fun _ => false; ee_fflush := false; ee_fclose := false |}.

(** The credentials of a configuration: none without a user. *)
Definition configured_credentials (c : cpe_agent_config) : option (string * string) :=
  if nonempty (egress_user c) then Some (egress_user c, egress_password c) else None.
Lemma sent_credentials c body :
  opts_credentials (Some (opts_of (http_request_of c body))) = configured_credentials c.
Proof. unfold configured_credentials. cbn. unfold opt_str. by destruct (egress_user c). Qed.

Section egress.
Context {P C FS : Type} `{!FileSystem FS}.
Local Abbreviation agent := (agent P C).

(** C3: End to end, lines leave the spool only after their delivery: in http and https
    mode a flush posts a non-empty run of the oldest lines; when it reports them sent,
    the complete request was handed to the connection and answered with a 2xx status, and
    these lines alone are removed; otherwise the result is -1 and the agent is unchanged,
    so the lines are sent again.  When the configured URL has no carriage return, a server
    reads in that request the path of the URL, the user and password of the configuration
    in the Basic scheme (or no credentials, when no user is configured) and exactly these
    lines as the body.  Assumed of the environment: a call that sends takes no more bytes
    than it is given, and the TLS handshake ends. *)
Theorem http_flush_delivers env (fs : FS) (a : agent) :
  env_ok env -> (forall host opts, handshake_ends env host opts) ->
  queues_wf (ag_q a) -> spool (ag_q a) <> None -> pending (ag_q a) <> [] -> http_mode (ag_cfg a) = true ->
  exists n, 1 <= n <= length (pending (ag_q a)) /\
    let body := body_of (take n (pending (ag_q a))) in
    let '(rc, a', out, _) := cpe_agent_emit_flush (post_flush env) fs a in
    out = [] /\
    ((rc = (-1)%Z /\ a' = a) \/
     (rc = Z.of_nat n /\ pending (ag_q a') = drop n (pending (ag_q a)) /\
      exists is_https host port path auth_hdr err,
        parse_url (https_url (ag_cfg a)) 256 16 512 = Some (is_https, host, port, path) /\
        auth_of (Some (opts_of (http_request_of (ag_cfg a) body))) = Some auth_hdr /\
        post_request env (http_request_of (ag_cfg a) body) =
          Some (0%Z, err, request_text path host body auth_hdr) /\
        (free cr (https_url (ag_cfg a)) -> exists m,
           read_request (request_text path host body auth_hdr) = Some m /\
           is_post path host body (configured_credentials (ag_cfg a)) m) /\
        http_status_ok (response_of env is_https) = true)).
Proof.
  intros Hok Hend Hwf Hs Hne Hmode. unfold cpe_agent_emit_flush. fold (http_mode (ag_cfg a)). rewrite Hmode.
  pose proof (flush_http_cases (post_flush env) a Hwf Hs) as H.
  destruct (flush_http (post_flush env) a) as [rc a']. destruct H as (_ & _ & _ & H).
  destruct (H Hne) as (n & Hn & _ & Hpost). exists n. split; [done|]. cbv zeta. split; [done|].
  set (body := body_of (take n (pending (ag_q a)))) in *. set (r := http_request_of (ag_cfg a) body) in *.
  cbn [ee_post post_flush] in Hpost.
  destruct (post_total env (hr_url r) (hr_body r) (Some (opts_of r)) (Some (160, EmptyString)) Hok
    (fun h => Hend h (Some (opts_of r)))) as (rc' & err' & out & Hrun & _ & _ & Hres).
  change (cpe_agent_http_post _ _ _ _ _) with (post_request env r) in Hrun. rewrite Hrun in Hpost.
  destruct (Z.eqb_spec rc' 0) as [E|E]; [|by left]. right. subst rc'.
  destruct Hpost as [-> Hp]. split; [done|]. split; [done|].
  change (hr_url r) with (https_url (ag_cfg a)) in Hres. change (hr_body r) with body in Hres.
  destruct (parse_url _ 256 16 512) as [[[[is_https host] port] path]|]; [|by destruct Hres].
  destruct (auth_of _) as [auth_hdr|]; [|by destruct Hres]. destruct Hres as (Hread & _ & Hres).
  destruct (Hres eq_refl) as [-> Hst]. exists is_https, host, port, path, auth_hdr, err'. split_and!; [done..| |done].
  by rewrite <- (sent_credentials (ag_cfg a) body).
Qed.
End egress.

(** ** Instances *)
Definition sending_agent : Agent.agent nat nat :=
  toy_agent <| ag_cfg := (ag_cfg toy_agent) <| emit_mode := "http"%string |>
                                            <| https_url := "http://192.0.2.9:8686/cpe"%string |>
                                            <| egress_user := "root"%string |> <| egress_password := "pw"%string |> |>.
Lemma http_flush_delivers_witness :
  (exists a', cpe_agent_emit_flush (post_flush toy_post) (@nil string) sending_agent = (2%Z, a', [], []) /\
    pending (ag_q a') = []) /\
  exists path host body auth_hdr m, read_request (request_text path host body auth_hdr) = Some m /\
    is_post path host body (Some ("root"%string, "pw"%string)) m.
Proof.
  destruct (http_flush_delivers toy_post (@nil string) sending_agent toy_post_ok toy_post_ends spool4_ab_wf
    ltac:(done) ltac:(vm_compute; discriminate) eq_refl) as (n & Hn & H).
  assert (Hr : (cpe_agent_emit_flush (post_flush toy_post) (@nil string) sending_agent).1.1.1 = 2%Z) by reflexivity.
  assert (Hf : (cpe_agent_emit_flush (post_flush toy_post) (@nil string) sending_agent).2 = []) by reflexivity.
  cbv zeta in H.
  destruct (cpe_agent_emit_flush (post_flush toy_post) (@nil string) sending_agent) as [[[rc a'] out] fs'].
  cbn [fst snd] in Hr, Hf. subst rc fs'. destruct H as [-> [[H _]|(H1 & H2 & H3)]]; [discriminate H|]. split.
  - exists a'. split; [reflexivity|]. rewrite H2. assert (En : n = 2) by lia. rewrite En. reflexivity.
  - destruct H3 as (is_https & host & port & path & auth_hdr & err & _ & _ & _ & Hread & _).
    destruct (Hread eq_refl) as (m & Hm). by exists path, host, (body_of (take n (pending (ag_q sending_agent)))), auth_hdr, m.
Defined.
