(* ===== verification/IpcRequest.v ===== *)
(** * Control requests (src/agent/ipc_server.c)

    The extraction of fields from a request line and [cpe_ipc_handle_request]: one
    definition per operation, composed by the dispatch on ["op"].  A response is [Some]
    text for the result 0, [None] for -1; a write behind the end of the response buffer is
    [Oob].  What the operations ask of the outside world is answered by a [req_env]. *)

From S2P Require Import Prelude CStr Float754 Clock HostAlloc Config SpoolDir Spool Events PerfSample Nflog TcpStats.
From S2P Require Import NfFlow TcpParse TcpEmit TcpInv Nfct FlowEntry FlowTable FlowAcct AgentData Agent AgentConfig AgentRun.
From Stdlib Require Import Ascii.

Definition CPE_IPC_SOCK_DEFAULT : string := "/var/run/netforensics/cpe_agent.sock".
Definition CPE_IPC_LINE_MAX := 8 * 1024.
Definition IPC_OP_MAX := 48.

(** ** Fields of the request *)
Definition is_blank (c : ascii) : bool := Ascii.eqb c " " || Ascii.eqb c (ascii_of_nat 9).
Fixpoint skip_blank (s : string) : string :=
  match s with String c s' => if is_blank c then skip_blank s' else s | EmptyString => EmptyString end.

Definition key_pattern (key : string) : string := String quote (key +:+ String quote EmptyString).
(** The text after the first occurrence of the quoted key, a colon and blanks. *)
Definition json_value (json key : string) : option string :=
  let pat := key_pattern key in
  if 64 <=? strlen pat then None
  else match String.index 0 pat json with
  | None => None
  | Some i =>
      match skip_blank (str_drop (i + strlen pat) json) with
      | String c rest => if Ascii.eqb c ":" then Some (skip_blank rest) else None
      | EmptyString => None
      end
  end.

(** The copy loop: at most [room] characters, up to a quote, a backslash taking the next
    character as it is. *)
Fixpoint json_copy (room : nat) (p : string) : string :=
  match room, p with
  | S room', String c p' =>
      if Ascii.eqb c quote then EmptyString
      else if Ascii.eqb c "\" then
        match p' with
        | String d p'' => String d (json_copy room' p'')
        | EmptyString => String c EmptyString
        end
      else String c (json_copy room' p')
  | _, _ => EmptyString
  end.
(** The result and [out]; [out] is emptied first. *)
Definition json_get_str (json key : string) (out_sz : nat) : Z * string :=
  match json_value json key with
  | Some (String c p) => if Ascii.eqb c quote then (0%Z, json_copy (out_sz - 1) p) else ((-1)%Z, EmptyString)
  | _ => ((-1)%Z, EmptyString)
  end.
(** [*out] is left alone on failure. *)
Definition json_get_u32 (json key : string) (out : Z) : Z * Z :=
  match json_value json key with
  | Some p => match strtoul 64 p with (v, Some _) => (0%Z, u32 v) | (_, None) => ((-1)%Z, out) end
  | None => ((-1)%Z, out)
  end.

(** ** Responses *)

(** [n = snprintf(out, out_sz, ...); return (n < 0 || n >= out_sz) ? -1 : 0]. *)
Definition respond (out_sz : nat) (text : string) : option string :=
  if out_sz <=? strlen text then None else Some text.
Definition respond_err (out_sz : nat) (op msg : string) : option string :=
  respond out_sz (lit "{'ok':false,'op':'" +:+ str_dflt op "unknown" +:+ lit "','error':'" +:+
                  str_dflt msg "error" +:+ lit "'}").
Definition ok_head (op : string) : string := lit "{'ok':true,'op':'" +:+ op +:+ lit "','data':".

Definition remote_json (r : cpe_tcp_remote) : string :=
  lit "{'remote_ip':'" +:+ tr_remote_ip r +:+ lit "','local_ip':'" +:+ tr_local_ip r +:+
  lit "','remote_port':" +:+ fmt_u (tr_remote_port r) +:+ lit ",'local_port':" +:+ fmt_u (tr_local_port r) +:+
  lit ",'syn':" +:+ fmt_u (tr_syn_count r) +:+ lit ",'fin':" +:+ fmt_u (tr_fin_count r) +:+
  lit ",'rst':" +:+ fmt_u (tr_rst_count r) +:+ lit ",'syn_retrans':" +:+ fmt_u (tr_syn_retrans r) +:+
  lit ",'pkts':" +:+ fmt_u (tr_pkt_count r) +:+ lit ",'bytes':" +:+ fmt_u (tr_bytes_est r) +:+
  lit ",'loss_hint':" +:+
  fmt_f 4 (d_of_f (cpe_tcp_loss_hint (tr_syn_count r) (tr_fin_count r) (tr_rst_count r) (tr_syn_retrans r))) +:+
  lit "}".
Definition prefix_json (p : cpe_tcp_prefix) : string :=
  lit "{'prefix':'" +:+ tx_prefix p +:+ lit "','remotes':" +:+ fmt_u (tx_remote_count p) +:+
  lit ",'syn':" +:+ fmt_u (tx_syn_count p) +:+ lit ",'fin':" +:+ fmt_u (tx_fin_count p) +:+
  lit ",'rst':" +:+ fmt_u (tx_rst_count p) +:+ lit ",'syn_retrans':" +:+ fmt_u (tx_syn_retrans p) +:+
  lit ",'pkts':" +:+ fmt_u (tx_pkt_count p) +:+ lit ",'bytes':" +:+ fmt_u (tx_bytes_est p) +:+
  lit ",'loss_hint':" +:+
  fmt_f 4 (d_of_f (cpe_tcp_loss_hint (tx_syn_count p) (tx_fin_count p) (tx_rst_count p) (tx_syn_retrans p))) +:+
  lit "}".

(** [append_remote_json] and [append_prefix_json] on a buffer of [cap] bytes whose text so
    far is [buf]: when [*off] is past the end, [cap - *off] wraps and [snprintf] writes
    behind the buffer. *)
Definition append_json (cap : nat) (buf text : string) : chk (option string) :=
  if cap <? strlen buf then Oob
  else mret (if cap - strlen buf <=? strlen text then None else Some (buf +:+ text)).

(** The loop over the rows, with the comma between them. *)
Fixpoint append_rows (cap : nat) (buf : string) (rows : list string) (first : bool) : chk (option string) :=
  match rows with
  | [] => mret (Some buf)
  | row :: rows' =>
      let sep := if first then Some buf else if cap <=? strlen buf + 1 then None else Some (buf +:+ ",") in
      match sep with
      | None => mret None
      | Some buf =>
          o ← append_json cap buf row;
          match o with None => mret None | Some buf => append_rows cap buf rows' false end
      end
  end.
(** The end of an answer: [tail] written when it and its terminator fit. *)
Definition close_json (cap : nat) (o : option string) (tail : string) : option string :=
  match o with
  | Some buf => if cap <=? strlen buf + strlen tail + 1 then None else Some (buf +:+ tail)
  | None => None
  end.
(** A list of rows: the printing of the head is not checked for room. *)
Definition respond_list (out_sz : nat) (op : string) (rows : list string) : chk (option string) :=
  o ← append_rows out_sz (ok_head op +:+ "[") rows true;
  mret (close_json out_sz o "]}").
(** A single row. *)
Definition respond_row (out_sz : nat) (op : string) (row : string) : chk (option string) :=
  match respond out_sz (ok_head op) with
  | None => mret None
  | Some head => o ← append_json out_sz head row; mret (close_json out_sz o "}")
  end.
Definition respond_null (out_sz : nat) (op : string) : option string :=
  respond out_sz (ok_head op +:+ "null}").

(** The rows of [flow_list]: each is printed with its comma into what is left. *)
Definition flow_json (i : nat) (e : cpe_flow_entry) : string :=
  (if i =? 0 then EmptyString else ",") +:+
  lit "{'flow_id':'" +:+ fe_flow_id e +:+ lit "','proto':" +:+ fmt_u (fe_proto e) +:+
  lit ",'lan':'" +:+ fe_lan_ip e +:+ ":" +:+ fmt_u (fe_lan_port e) +:+
  lit "','remote':'" +:+ fe_remote_ip e +:+ ":" +:+ fmt_u (fe_remote_port e) +:+
  lit "','wan':'" +:+ fe_wan_ip e +:+ ":" +:+ fmt_u (fe_wan_port e) +:+
  lit "','bytes_up':" +:+ fmt_u (fe_bytes_up e) +:+ lit ",'bytes_down':" +:+ fmt_u (fe_bytes_down e) +:+
  lit ",'rate_up_bps':" +:+ fmt_f 0 (fe_rate_up_bps e) +:+
  lit ",'rate_down_bps':" +:+ fmt_f 0 (fe_rate_down_bps e) +:+
  lit ",'state':'" +:+ fe_state e +:+ lit "'}".
Fixpoint flow_rows (cap : nat) (buf : string) (i : nat) (flows : list cpe_flow_entry) : option string :=
  match flows with
  | [] => Some buf
  | e :: flows' =>
      let row := flow_json i e in
      if cap - strlen buf <=? strlen row then None else flow_rows cap (buf +:+ row) (S i) flows'
  end.

(** ** The operations *)

(** What the outside world answers while one request is handled. *)
Record ipc_env := {
  qe_emit : emit_env;
  qe_nflog : nl_env;
  qe_recvs : list recv_result;   (* the NFLOG socket *)
  qe_flow : flow_env;
  qe_clk : clock;
}.

(** What a request works on: the agent, the file system and the lines a flush printed. *)
Record served (P C FS : Type) := { sv_agent : agent P C; sv_fs : FS; sv_out : list string }.
Arguments sv_agent {P C FS}. Arguments sv_fs {P C FS}. Arguments sv_out {P C FS}.
#[export] Instance eta_served P C FS : Eta (served P C FS) := fun s =>
  {| sv_agent := sv_agent s; sv_fs := sv_fs s; sv_out := sv_out s |}.

Section ops.
Context {P C FS : Type} `{!NfctLib C} `{!EventSource C nfct_event} `{!QSort} `{!FileSystem FS}.
Local Abbreviation agent := (agent P C).
Local Abbreviation served := (served P C FS).
Local Abbreviation flow_tick := (@cpe_agent_flow_tick queues queues_sink C _ _ 64%Z).
Context (env : ipc_env) (out_sz : nat).

Definition op_ping : option string := respond out_sz (lit "{'ok':true,'op':'ping','data':'pong'}").
Definition op_help : option string := respond out_sz (
  lit "{'ok':true,'op':'help','data':['ping','status','config','last_sample','latency','spool'," +:+
  lit "'emit','tcp_poll','tcp_stats','tcp_by_ip','tcp_by_prefix','tcp_emit','tcp_reset'," +:+
  lit "'flow_tick','flow_stats','flow_list']}").
Definition op_status (a : agent) : option string :=
  let cfg := ag_cfg a in respond out_sz (
  lit "{'ok':true,'op':'status','data':{'router_id':'" +:+ router_id cfg +:+
  lit "','emit_mode':'" +:+ emit_mode cfg +:+ lit "','egress_url':'" +:+ https_url cfg +:+
  lit "','openai_proxy_url':'" +:+ openai_proxy_url cfg +:+ lit "','demo':" +:+ json_bool (demo_mode cfg) +:+
  lit ",'tcp_stats':" +:+ json_bool (tcp_stats_enabled cfg) +:+
  lit ",'tcp_nflog_group':" +:+ fmt_u (tcp_nflog_group cfg) +:+
  lit ",'flow_acct':" +:+ json_bool (flow_acct_enabled cfg) +:+
  lit ",'spool_depth':" +:+ fmt_u (Z.of_nat (cpe_agent_spool_depth (ag_q a))) +:+
  lit ",'spool_drops':" +:+ fmt_u (cpe_agent_spool_drops (ag_q a)) +:+
  lit ",'generation':" +:+ fmt_u (generation cfg) +:+ lit "}}").
Definition op_config (a : agent) : option string :=
  let cfg := ag_cfg a in respond out_sz (
  lit "{'ok':true,'op':'config','data':{'router_id':'" +:+ router_id cfg +:+
  lit "','emit_mode':'" +:+ emit_mode cfg +:+ lit "','target':'" +:+ demo_target cfg +:+
  lit "','interval_ms':" +:+ fmt_u (demo_interval_ms cfg) +:+
  lit ",'timeout_ms':" +:+ fmt_u (probe_timeout_ms cfg) +:+ lit ",'demo':" +:+ json_bool (demo_mode cfg) +:+
  lit ",'tcp_stats':" +:+ json_bool (tcp_stats_enabled cfg) +:+
  lit ",'tcp_nflog_group':" +:+ fmt_u (tcp_nflog_group cfg) +:+
  lit ",'tcp_prefix_len':" +:+ fmt_u (tcp_prefix_len cfg) +:+ lit ",'egress_url':'" +:+ https_url cfg +:+
  lit "','openai_proxy_url':'" +:+ openai_proxy_url cfg +:+
  lit "','ipc_socket':'" +:+ str_dflt (ipc_socket cfg) CPE_IPC_SOCK_DEFAULT +:+ lit "'}}").
Definition op_last_sample (a : agent) : option string :=
  match cpe_agent_last_sample a with
  | (_, None) => respond_null out_sz "last_sample"
  | (_, Some s) => respond out_sz (
      ok_head "last_sample" +:+ lit "{'probe':'" +:+ ps_probe s +:+ lit "','target':'" +:+ ps_target s +:+
      lit "','rtt_ms':" +:+ fmt_f 3 (ps_rtt_ms s) +:+ lit ",'loss':" +:+ fmt_f 4 (d_of_f (ps_loss s)) +:+
      lit ",'ts':'" +:+ ps_ts_iso s +:+ lit "','meta':" +:+ str_dflt (ps_meta s) "{}" +:+ "}}")
  end.
Definition op_latency (a : agent) : option string :=
  let '(n, j) := cpe_agent_get_local_latency_json a 256 in
  if (n <? 0)%Z then respond_err out_sz "latency" "latency failed"
  else respond out_sz (ok_head "latency" +:+ j +:+ "}").
Definition op_spool (a : agent) : option string := respond out_sz (
  ok_head "spool" +:+ lit "{'depth':" +:+ fmt_u (Z.of_nat (cpe_agent_spool_depth (ag_q a))) +:+
  lit ",'drops':" +:+ fmt_u (cpe_agent_spool_drops (ag_q a)) +:+ "}}").

(** Answers that are a count: ["lines"], ["pkts"], ["work"]. *)
Definition respond_count (op field msg : string) (n : Z) : option string :=
  if (n <? 0)%Z then respond_err out_sz op msg
  else respond out_sz (ok_head op +:+ lit "{'" +:+ field +:+ lit "':" +:+ fmt_d n +:+ "}}").

Definition op_emit (s : served) : option string * served :=
  let '(lines, a, out, fs) := cpe_agent_emit_flush (qe_emit env) (sv_fs s) (sv_agent s) in
  (respond_count "emit" "lines" "emit_flush failed" lines,
   {| sv_agent := a; sv_fs := fs; sv_out := sv_out s ++ out |}).

Definition set_tcp (a : agent) (st : cpe_tcp_state) : agent := a <| ag_tcp := st |>.
Definition op_tcp_poll (a : agent) (req : string) : chk (option string * agent) :=
  let '(_, maxm) := json_get_u32 req "max" 64 in
  r ← cpe_agent_tcp_poll (qe_nflog env) (ag_cfg a) (ag_tcp a) (qe_recvs env) (qe_clk env) (Z.to_nat maxm);
  let '(pkts, st, _) := r in
  mret (respond_count "tcp_poll" "pkts" "tcp_poll failed" pkts, set_tcp a st).
Definition op_tcp_stats (a : agent) : option string :=
  let snap := cpe_agent_tcp_snapshot (ag_tcp a) in
  let loss := cpe_tcp_loss_hint (sn_syn_total snap) (sn_fin_total snap) (sn_rst_total snap)
                (sn_syn_retrans_total snap) in
  respond out_sz (
  ok_head "tcp_stats" +:+ lit "{'nflog_group':" +:+ fmt_u (sn_nflog_group snap) +:+
  lit ",'syn':" +:+ fmt_u (sn_syn_total snap) +:+ lit ",'fin':" +:+ fmt_u (sn_fin_total snap) +:+
  lit ",'rst':" +:+ fmt_u (sn_rst_total snap) +:+ lit ",'syn_retrans':" +:+ fmt_u (sn_syn_retrans_total snap) +:+
  lit ",'pkts':" +:+ fmt_u (sn_pkt_total snap) +:+ lit ",'bytes':" +:+ fmt_u (sn_bytes_total snap) +:+
  lit ",'remotes':" +:+ fmt_u (Z.of_nat (length (sn_remotes snap))) +:+
  lit ",'prefixes':" +:+ fmt_u (Z.of_nat (length (sn_prefixes snap))) +:+
  lit ",'prefix_len':" +:+ fmt_u (sn_prefix_len snap) +:+ lit ",'loss_hint':" +:+ fmt_f 4 (d_of_f loss) +:+
  lit ",'ts':'" +:+ sn_ts_iso snap +:+ lit "','pkts_parsed':" +:+ fmt_u (sn_pkts_parsed snap) +:+ "}}").
Definition op_tcp_by_ip (a : agent) (req : string) : chk (option string) :=
  let '(_, ip) := json_get_str req "ip" CPE_TCP_IP_MAX in
  if nonempty ip then
    match cpe_agent_tcp_remote (ag_tcp a) ip with
    | None => mret (respond_null out_sz "tcp_by_ip")
    | Some r => respond_row out_sz "tcp_by_ip" (remote_json r)
    end
  else respond_list out_sz "tcp_by_ip"
         (remote_json <$> take 64 (sn_remotes (cpe_agent_tcp_snapshot (ag_tcp a)))).
Definition op_tcp_by_prefix (a : agent) (req : string) : chk (option string) :=
  let '(_, pfx) := json_get_str req "prefix" CPE_TCP_PREFIX_STR_MAX in
  if nonempty pfx then
    match cpe_agent_tcp_prefix (ag_tcp a) pfx with
    | None => mret (respond_null out_sz "tcp_by_prefix")
    | Some p => respond_row out_sz "tcp_by_prefix" (prefix_json p)
    end
  else respond_list out_sz "tcp_by_prefix"
         (prefix_json <$> take 64 (sn_prefixes (cpe_agent_tcp_snapshot (ag_tcp a)))).
Definition op_tcp_emit (a : agent) (req : string) : option string * agent :=
  let '(_, top) := json_get_u32 req "top_n" 0 in
  let '(lines, st, q) := @cpe_agent_tcp_emit queues queues_sink _ (ag_cfg a) (ag_tcp a) (ag_q a) (qe_clk env) top in
  (respond_count "tcp_emit" "lines" "tcp_emit failed" lines, a <| ag_tcp := st |> <| ag_q := q |>).
Definition op_tcp_reset (a : agent) : option string * agent :=
  (respond out_sz (ok_head "tcp_reset" +:+ "true}"), set_tcp a (cpe_agent_tcp_reset (ag_tcp a) (qe_clk env))).

(** The accounting tick each flow operation runs first. *)
Definition flow_refresh (a : agent) : chk (Z * agent) :=
  r ← flow_tick (ag_cfg a) (qe_flow env) (ag_flow a) (ag_q a);
  let '(work, st, q) := r in mret (work, a <| ag_flow := st |> <| ag_q := q |>).
Definition op_flow_tick (a : agent) : chk (option string * agent) :=
  r ← flow_refresh a;
  let '(work, a) := r in mret (respond_count "flow_tick" "work" "flow_tick failed" work, a).
Definition op_flow_stats (a : agent) : chk (option string * agent) :=
  r ← flow_refresh a;
  let '(_, a) := r in
  let snap := cpe_agent_flow_snapshot (ag_flow a) (fl_clk (qe_flow env)) in
  let err := fsn_open_err snap in
  let q := if nonempty err then String quote EmptyString else EmptyString in
  mret (respond out_sz (
  ok_head "flow_stats" +:+ lit "{'enabled':" +:+ json_bool (flow_acct_enabled (ag_cfg a)) +:+
  lit ",'flow_count':" +:+ fmt_u (Z.of_nat (fsn_flow_count snap)) +:+
  lit ",'events_in':" +:+ fmt_u (fsn_events_in snap) +:+
  lit ",'destroys_emitted':" +:+ fmt_u (fsn_destroys_emitted snap) +:+
  lit ",'samples_emitted':" +:+ fmt_u (fsn_samples_emitted snap) +:+ lit ",'dumps':" +:+ fmt_u (fsn_dumps snap) +:+
  lit ",'open_ok':" +:+ json_bool (fsn_open_ok snap) +:+
  lit ",'open_err':" +:+ (if nonempty err then q +:+ err +:+ q else "null") +:+
  lit ",'event_fd':" +:+ fmt_d (fs_fd (ag_flow a)) +:+ lit ",'dump_fd':" +:+ fmt_d (fs_dump_fd (ag_flow a)) +:+
  lit ",'ts':'" +:+ fsn_ts_iso snap +:+ lit "'}}"), a).

Definition flow_limit (limit : Z) : nat :=
  if (limit =? 0)%Z || (64 <? limit)%Z then 32 else Z.to_nat limit.
Definition flow_hint (hint : string) : option string :=
  respond out_sz (ok_head "flow_list" +:+ lit "{'flows':[],'count':0,'hint':'" +:+ hint +:+ lit "'}}").
Definition op_flow_list (a : agent) (req : string) : chk (option string * agent) :=
  let '(_, limit) := json_get_u32 req "limit" 32 in
  r ← flow_refresh a;
  let '(_, a) := r in
  let snap := cpe_agent_flow_snapshot (ag_flow a) (fl_clk (qe_flow env)) in
  mret (
    (if negb (truthy (flow_acct_enabled (ag_cfg a)))
     then flow_hint "flow_acct.enabled is false in cpe_agent.yaml — set true and restart"
     else if negb (truthy (fsn_open_ok snap))
     then flow_hint ("conntrack netlink open failed: " +:+ str_dflt (fsn_open_err snap) "unknown" +:+
                     " (need CAP_NET_ADMIN / root)")
     else match respond out_sz (ok_head "flow_list" +:+ lit "{'flows':[") with
          | None => None
          | Some head =>
              match flow_rows out_sz head 0 (take (flow_limit limit) (fsn_flows snap)) with
              | None => None
              | Some buf =>
                  respond out_sz (buf +:+ lit "],'count':" +:+ fmt_u (Z.of_nat (fsn_flow_count snap)) +:+ "}}")
              end
          end), a).

(** ** The dispatch *)
Definition with_agent (s : served) (r : option string * agent) : option string * served :=
  (r.1, s <| sv_agent := r.2 |>).
Definition cpe_ipc_handle_request (s : served) (req_json : string) : chk (option string * served) :=
  let a := sv_agent s in
  if out_sz <? 32 then mret (None, s)
  else
    let '(_, op) := json_get_str req_json "op" IPC_OP_MAX in
    if negb (nonempty op) then mret (respond_err out_sz "unknown" "missing op", s)
    else if streq op "ping" then mret (op_ping, s)
    else if streq op "help" then mret (op_help, s)
    else if streq op "status" then mret (op_status a, s)
    else if streq op "config" then mret (op_config a, s)
    else if streq op "last_sample" then mret (op_last_sample a, s)
    else if streq op "latency" then mret (op_latency a, s)
    else if streq op "spool" then mret (op_spool a, s)
    else if streq op "emit" then mret (op_emit s)
    else if streq op "tcp_poll" then (r ← op_tcp_poll a req_json; mret (with_agent s r))
    else if streq op "tcp_stats" then mret (op_tcp_stats a, s)
    else if streq op "flow_tick" then (r ← op_flow_tick a; mret (with_agent s r))
    else if streq op "flow_stats" then (r ← op_flow_stats a; mret (with_agent s r))
    else if streq op "flow_list" then (r ← op_flow_list a req_json; mret (with_agent s r))
    else if streq op "tcp_by_ip" then (r ← op_tcp_by_ip a req_json; mret (r, s))
    else if streq op "tcp_by_prefix" then (r ← op_tcp_by_prefix a req_json; mret (r, s))
    else if streq op "tcp_emit" then mret (with_agent s (op_tcp_emit a req_json))
    else if streq op "tcp_reset" then mret (with_agent s (op_tcp_reset a))
    else mret (respond_err out_sz op "unknown op", s).
End ops.


(** ** Fields, read back *)

(** How a client writes a value: quotes and backslashes behind a backslash. *)
Fixpoint json_escape (v : string) : string :=
  match v with
  | EmptyString => EmptyString
  | String c v' =>
      if Ascii.eqb c quote || Ascii.eqb c "\" then String "\" (String c (json_escape v'))
      else String c (json_escape v')
  end.
Fixpoint blanks (s : string) : bool :=
  match s with EmptyString => true | String c s' => is_blank c && blanks s' end.

Lemma json_copy_escape room v rest : json_copy room (json_escape v +:+ String quote rest) = str_take room v.
Proof.
  revert room. induction v as [|c v IH]; intros [|room]; cbn [json_escape]; try done.
  assert (Hq : Ascii.eqb "\" quote = false) by done.
  destruct (Ascii.eqb c quote || Ascii.eqb c "\") eqn:E; rewrite !str_app_cons; cbn [json_copy str_take].
  { rewrite Hq, Ascii.eqb_refl. by rewrite IH. }
  apply orb_false_iff in E as [E1 E2]. by rewrite E1, E2, IH.
Qed.

Lemma skip_blanks b c rest : blanks b = true -> is_blank c = false -> skip_blank (b +:+ String c rest) = String c rest.
Proof.
  intros Hb Hc. induction b as [|d b IH].
  { change (EmptyString +:+ String c rest) with (String c rest). cbn [skip_blank]. by rewrite Hc. }
  cbn [blanks] in Hb. apply andb_true_iff in Hb as [Hd Hb]. rewrite str_app_cons. cbn [skip_blank]. rewrite Hd. by apply IH.
Qed.

Lemma strlen_pattern key : strlen (key_pattern key) = strlen key + 2.
Proof. unfold key_pattern. cbn. rewrite strlen_app. cbn. lia. Qed.

(** A string value written with its quotes and backslashes escaped, behind the first
    occurrence of its quoted key, a colon and any blanks, is read back unchanged, cut to
    the room of the buffer. *)
Theorem json_get_str_escaped pre key b1 b2 v post out_sz :
  let json := pre +:+ key_pattern key +:+ b1 +:+ String ":" (b2 +:+ String quote (json_escape v +:+ String quote post)) in
  strlen key < 62 -> String.index 0 (key_pattern key) json = Some (strlen pre) ->
  blanks b1 = true -> blanks b2 = true ->
  json_get_str json key out_sz = (0%Z, str_take (out_sz - 1) v).
Proof.
  cbv zeta. intros Hk Hi H1 H2. unfold json_get_str, json_value. rewrite Hi.
  rewrite (proj2 (Nat.leb_gt 64 _)) by (rewrite strlen_pattern; lia).
  rewrite <- strlen_app, <- str_app_assoc, str_drop_app, skip_blanks by done.
  change (Ascii.eqb ":" ":") with true. cbn iota. rewrite skip_blanks by done.
  by rewrite Ascii.eqb_refl, json_copy_escape.
Qed.

(** ** Lists of rows *)
Definition commas (rows : list string) : string := foldr (fun r t => "," +:+ r +:+ t) EmptyString rows.
Definition joined (rows : list string) : string :=
  match rows with [] => EmptyString | r :: rows' => r +:+ commas rows' end.

Lemma append_rows_spec cap buf rows first :
  strlen buf <= cap ->
  append_rows cap buf rows first =
    let t := buf +:+ (if first then joined rows else commas rows) in
    Safe (if (length rows =? 0) || (strlen t <? cap) then Some t else None).
Proof.
  revert buf first. induction rows as [|row rows IH]; intros buf first Hb; cbv zeta.
  { destruct first; cbn; by rewrite str_app_nil_r. }
  set (t := if first then joined (row :: rows) else commas (row :: rows)).
  assert (Ht : t = (if first then EmptyString else ",") +:+ row +:+ commas rows) by (subst t; by destruct first).
  cbn [append_rows length Nat.eqb orb].
  set (buf1 := if first then buf else buf +:+ ",").
  assert (Hb1 : buf +:+ t = buf1 +:+ row +:+ commas rows)
    by (rewrite Ht; subst buf1; destruct first; [done|by rewrite str_app_assoc]).
  assert (Hsep : (if first then Some buf else if cap <=? strlen buf + 1 then None else Some (buf +:+ ",")) =
    if cap <? strlen buf1 + (if first then 0 else 1) then None else Some buf1).
  { subst buf1. destruct first.
    - rewrite (proj2 (Nat.ltb_ge _ _)) by lia. done.
    - rewrite strlen_app. cbn [String.length].
      destruct (Nat.leb_spec cap (strlen buf + 1)), (Nat.ltb_spec cap (strlen buf + 1 + 1)); done || lia. }
  rewrite Hsep, Hb1. clear Hsep. rewrite !strlen_app.
  destruct (Nat.ltb_spec cap (strlen buf1 + (if first then 0 else 1))) as [Hlt|Hge].
  { rewrite (proj2 (Nat.ltb_ge _ _)); [done|]. destruct first; [|lia]. subst buf1; lia. }
  unfold append_json. rewrite (proj2 (Nat.ltb_ge _ _)) by lia. chk_step.
  destruct (Nat.leb_spec (cap - strlen buf1) (strlen row)) as [Hfull|Hroom].
  { rewrite (proj2 (Nat.ltb_ge _ _)); [done|lia]. }
  rewrite IH by (rewrite strlen_app; lia). cbv zeta. rewrite str_app_assoc, !strlen_app.
  destruct (Nat.ltb_spec (strlen buf1 + (strlen row + strlen (commas rows))) cap); [by rewrite orb_true_r|].
  rewrite orb_false_r. destruct rows; [|done]. cbn in *. lia.
Qed.

(** The longest head of a list, of [tcp_by_prefix], has 40 characters. *)
Lemma head_length op n : strlen op + 27 <= n -> strlen (ok_head op +:+ "[") <= n.
Proof. unfold ok_head. rewrite !strlen_app, !strlen_lit. cbn [String.length]. lia. Qed.

(** A list answer: everything, or nothing when it does not fit. *)
Lemma respond_list_spec out_sz op rows :
  strlen (ok_head op +:+ "[") <= out_sz ->
  let t := ok_head op +:+ "[" +:+ joined rows +:+ "]}" in
  respond_list out_sz op rows = Safe (if strlen t + 1 <? out_sz then Some t else None).
Proof.
  intros Hh. cbv zeta. unfold respond_list. rewrite append_rows_spec by done. cbv zeta. chk_step. f_equal.
  rewrite <- (str_app_assoc (ok_head op) "["). rewrite <- (str_app_assoc (_ +:+ "[") (joined rows)).
  set (t := (ok_head op +:+ "[") +:+ joined rows). rewrite (strlen_app t). cbn [String.length].
  unfold close_json. cbn [String.length].
  destruct ((length rows =? 0) || (strlen t <? out_sz)) eqn:E.
  - destruct (Nat.leb_spec out_sz (strlen t + 2 + 1)), (Nat.ltb_spec (strlen t + 2 + 1) out_sz); done || lia.
  - apply orb_false_iff in E as [_ E]. apply Nat.ltb_ge in E. rewrite (proj2 (Nat.ltb_ge _ _)); [done|lia].
Qed.

Lemma strlen_commas k rows : Forall (fun r => k <= strlen r) rows -> length rows * S k <= strlen (commas rows).
Proof.
  induction 1 as [|r rows Hr _ IH]; [done|]. change (commas (r :: rows)) with ("," +:+ r +:+ commas rows).
  rewrite !strlen_app. cbn [String.length length Nat.mul]. lia.
Qed.

(** A row takes at least 133 characters. *)
Lemma remote_json_length r : 133 <= strlen (remote_json r).
Proof.
  unfold remote_json. rewrite !strlen_app, !strlen_lit. cbn [String.length].
  pose proof (fmt_u_nonempty (tr_remote_port r)). pose proof (fmt_u_nonempty (tr_local_port r)).
  pose proof (fmt_u_nonempty (tr_syn_count r)). pose proof (fmt_u_nonempty (tr_fin_count r)).
  pose proof (fmt_u_nonempty (tr_rst_count r)). pose proof (fmt_u_nonempty (tr_syn_retrans r)).
  pose proof (fmt_u_nonempty (tr_pkt_count r)). pose proof (fmt_u_nonempty (tr_bytes_est r)). lia.
Qed.

(** ** Answers fit the buffer *)
Definition fits (out_sz : nat) (o : option string) : Prop := forall t, o = Some t -> strlen t < out_sz.

Lemma respond_fits out_sz t : fits out_sz (respond out_sz t).
Proof. intros t'. unfold respond. destruct (Nat.leb_spec out_sz (strlen t)); [done|]. by intros [= <-]. Qed.
Lemma respond_err_fits out_sz op msg : fits out_sz (respond_err out_sz op msg).
Proof. apply respond_fits. Qed.
Lemma respond_count_fits out_sz op field msg n : fits out_sz (respond_count out_sz op field msg n).
Proof. unfold respond_count. destruct (n <? 0)%Z; apply respond_fits. Qed.
Lemma close_json_fits out_sz o tail : fits out_sz (close_json out_sz o tail).
Proof.
  intros t. unfold close_json. destruct o as [buf|]; [|done].
  destruct (Nat.leb_spec out_sz (strlen buf + strlen tail + 1)); [done|]. intros [= <-]. rewrite strlen_app. lia.
Qed.
Lemma none_fits out_sz : fits out_sz None.
Proof. done. Qed.
#[local] Hint Resolve respond_fits respond_err_fits respond_count_fits close_json_fits none_fits : nf.

Lemma respond_row_fits out_sz op row : safe_with (fits out_sz) (respond_row out_sz op row).
Proof.
  unfold respond_row. destruct (respond out_sz (ok_head op)) as [head|] eqn:E; [|apply safe_ret; auto with nf].
  pose proof (respond_fits _ _ _ E) as Hlt. unfold append_json.
  rewrite (proj2 (Nat.ltb_ge _ _)) by lia. chk_step. apply safe_ret. auto with nf.
Qed.
Lemma respond_list_fits out_sz op rows :
  strlen (ok_head op +:+ "[") <= out_sz -> safe_with (fits out_sz) (respond_list out_sz op rows).
Proof.
  intros Hh. unfold respond_list. rewrite append_rows_spec by done. chk_step. apply safe_ret. auto with nf.
Qed.

(** ** Serving a request *)
Section serve.
Context {P C FS : Type} `{!PingLib P} {E : Type} `{!EventSource P E} `{!NfctLib C} `{!EventSource C nfct_event}
  `{!QSort} `{!FileSystem FS}.
Local Abbreviation served := (served P C FS).
Local Abbreviation handle := (@cpe_ipc_handle_request P C FS _ _ _ _).

(** What the sockets and clocks may answer. *)
Definition ipc_env_ok (env : ipc_env) : Prop :=
  Forall recv_ok (qe_recvs env) /\ io_ok (fl_events (qe_flow env)) /\ io_ok (fl_replies (qe_flow env)) /\
  time_ok (mono_ms (fl_clk (qe_flow env))).
(** The library only reports events whose fields are within their types. *)
Hypothesis event_ok : forall (c : C) e c', next_event c = (Some e, c') -> nfct_event_ok e.

(** The agent keeps its invariant and its configuration. *)
Definition agent_ready (c : cpe_agent_config) (a : agent P C) : Prop := agent_inv a /\ ag_cfg a = c.
(** The result of an operation on the agent. *)
Definition served_ok (out_sz : nat) (c : cpe_agent_config) (r : option string * agent P C) : Prop :=
  fits out_sz r.1 /\ agent_ready c r.2.
Definition request_ok (out_sz : nat) (c : cpe_agent_config) (r : option string * served) : Prop :=
  fits out_sz r.1 /\ agent_ready c (sv_agent r.2).

Lemma flow_refresh_ok env c (a : agent P C) :
  ipc_env_ok env -> agent_ready c a -> safe_with (fun r => agent_ready c r.2) (flow_refresh env a).
Proof.
  intros (_ & He & Hr & Ht) [Ha Hc]. unfold flow_refresh.
  destruct (flow_tick_step event_ok (qe_flow env) a He Hr Ht Ha) as (n & st & q & Hrun & Hi).
  rewrite Hrun. by apply safe_ret.
Qed.

Lemma op_flow_tick_ok env out_sz c a :
  ipc_env_ok env -> agent_ready c a -> safe_with (served_ok out_sz c) (op_flow_tick (P := P) (C := C) env out_sz a).
Proof.
  intros Henv Ha. unfold op_flow_tick. eapply safe_bind; [by apply flow_refresh_ok|].
  intros [work b] Hb. apply safe_ret. split; [apply respond_count_fits|done].
Qed.
Lemma op_flow_stats_ok env out_sz c a :
  ipc_env_ok env -> agent_ready c a -> safe_with (served_ok out_sz c) (op_flow_stats (P := P) (C := C) env out_sz a).
Proof.
  intros Henv Ha. unfold op_flow_stats. eapply safe_bind; [by apply flow_refresh_ok|].
  intros [work b] Hb. apply safe_ret. split; [apply respond_fits|done].
Qed.
Lemma op_flow_list_ok env out_sz c a req :
  ipc_env_ok env -> agent_ready c a -> safe_with (served_ok out_sz c) (op_flow_list (P := P) (C := C) env out_sz a req).
Proof.
  intros Henv Ha. unfold op_flow_list. destruct (json_get_u32 _ _ _) as [rc limit].
  eapply safe_bind; [by apply flow_refresh_ok|].
  intros [work b] Hb. apply safe_ret. split; [|done]. cbn [fst].
  destruct (negb _); [apply respond_fits|]. destruct (negb _); [apply respond_fits|].
  destruct (respond _ _); [|done]. destruct (flow_rows _ _ _ _); [apply respond_fits|done].
Qed.
Lemma op_tcp_poll_ok env out_sz c a req :
  ipc_env_ok env -> agent_ready c a -> safe_with (served_ok out_sz c) (op_tcp_poll (P := P) (C := C) env out_sz a req).
Proof.
  intros (Hr & _) [Ha Hc]. unfold op_tcp_poll. destruct (json_get_u32 _ _ _) as [rc maxm].
  destruct (tcp_poll_step (qe_nflog env) (qe_recvs env) (qe_clk env) (Z.to_nat maxm) a Hr Ha)
    as (n & st & rs' & Hrun & Hi).
  rewrite Hrun. chk_step. apply safe_ret. split; [apply respond_count_fits|].
  split; [by eapply inv_frame; [..|exact Hi]|done].
Qed.
Lemma op_tcp_emit_ok env out_sz c a req :
  agent_ready c a -> served_ok out_sz c (op_tcp_emit (P := P) (C := C) env out_sz a req).
Proof.
  intros [Ha Hc]. unfold op_tcp_emit. destruct (json_get_u32 _ _ _) as [rc top].
  pose proof (tcp_emit_step (qe_clk env) top a Ha) as Hi. cbv zeta in Hi.
  destruct (cpe_agent_tcp_emit _ _ _ _ _) as [[n st] q]. by split; [apply respond_count_fits|split].
Qed.
Lemma op_tcp_reset_ok env out_sz c a :
  agent_ready c a -> served_ok out_sz c (op_tcp_reset (P := P) (C := C) env out_sz a).
Proof.
  intros [Ha Hc]. split; [apply respond_fits|]. split; [|done].
  apply (inv_frame (with_tcp a (cpe_agent_tcp_reset (ag_tcp a) (qe_clk env)) (ag_q a))); try done.
  apply tcp_same_sock_inv; [done|apply tcp_reset_wf|done..].
Qed.
Lemma op_emit_ok env out_sz c (s : served) : agent_ready c (sv_agent s) -> request_ok out_sz c (op_emit env out_sz s).
Proof.
  intros [Ha Hc]. unfold op_emit. pose proof (emit_flush_cfg (qe_emit env) (sv_fs s) (sv_agent s)) as Hk.
  pose proof (flush_inv (qe_emit env) (sv_fs s) (sv_agent s) Ha) as Hi.
  destruct (cpe_agent_emit_flush _ _ _) as [[[lines a] out] fs].
  split; [apply respond_count_fits|]. split; [exact Hi|]. cbn in *. by rewrite Hk.
Qed.

Lemma request_safe env out_sz c (s : served) req :
  ipc_env_ok env -> 40 <= out_sz -> agent_ready c (sv_agent s) ->
  safe_with (request_ok out_sz c) (handle env out_sz s req).
Proof.
  intros Henv Hsz Ha. unfold cpe_ipc_handle_request. rewrite (proj2 (Nat.ltb_ge _ _)) by lia. cbv zeta.
  destruct (json_get_str req "op" IPC_OP_MAX) as [rc op].
  assert (Hret : forall o : option string, fits out_sz o -> safe_with (request_ok out_sz c) (mret (o, s)))
    by (intros o Ho; by apply safe_ret).
  assert (Hwith : forall m, safe_with (served_ok out_sz c) m ->
    safe_with (request_ok out_sz c) (r ← m; mret (with_agent s r))).
  { intros m Hm. eapply safe_bind; [exact Hm|]. intros r Hr. by apply safe_ret. }
  assert (Hread : forall m, safe_with (fits out_sz) m -> safe_with (request_ok out_sz c) (r ← m; mret (r, s))).
  { intros m Hm. eapply safe_bind; [exact Hm|]. intros r Hr. by apply safe_ret. }
  repeat match goal with
  | |- safe_with _ (if ?b then _ else _) => destruct b
  end; try (apply Hret; apply respond_fits).
  - apply Hret. unfold op_last_sample. destruct (cpe_agent_last_sample _) as [r [|]]; apply respond_fits.
  - apply Hret. unfold op_latency. destruct (cpe_agent_get_local_latency_json _ _) as [n j].
    destruct (n <? 0)%Z; apply respond_fits.
  - apply safe_ret. by apply op_emit_ok.
  - apply Hwith. by apply op_tcp_poll_ok.
  - apply Hwith. by apply op_flow_tick_ok.
  - apply Hwith. by apply op_flow_stats_ok.
  - apply Hwith. by apply op_flow_list_ok.
  - apply Hread. unfold op_tcp_by_ip. destruct (json_get_str req "ip" _) as [r ip].
    destruct (nonempty ip); [|apply respond_list_fits, head_length; cbn; lia].
    destruct (cpe_agent_tcp_remote _ _); [apply respond_row_fits|apply safe_ret, respond_fits].
  - apply Hread. unfold op_tcp_by_prefix. destruct (json_get_str req "prefix" _) as [r pfx].
    destruct (nonempty pfx); [|apply respond_list_fits, head_length; cbn; lia].
    destruct (cpe_agent_tcp_prefix _ _); [apply respond_row_fits|apply safe_ret, respond_fits].
  - apply safe_ret. by apply op_tcp_emit_ok.
  - apply safe_ret. by apply op_tcp_reset_ok.
Qed.

(** C31: Every request is answered within memory bounds, whatever its text, in a buffer of
    at least 40 bytes (the code accepts 32, and then overruns, Example
    [small_buffer_overruns]): the response, when there is one, fits its buffer, and the
    agent keeps its invariant and its configuration.  Assumed of the sockets and clocks
    read while it is served: NFLOG datagrams are bytes whose number is a multiple of four
    (an unpadded control message is read past its end, lemma [nflog_walk_control_overrun]),
    conntrack datagrams are bytes, the millisecond clock is below 2^64 - 1, and the
    library's events are within the ranges of their types and its queue is finite. *)
Theorem ipc_request_safe env out_sz (s : served) req :
  ipc_env_ok env -> 40 <= out_sz -> agent_inv (sv_agent s) ->
  safe_with (request_ok out_sz (ag_cfg (sv_agent s))) (handle env out_sz s req).
Proof. intros Henv Hsz Ha. by apply request_safe. Qed.

(** The operations that work on the agent. *)
Definition agent_ops : list string :=
  ["emit"; "tcp_poll"; "flow_tick"; "flow_stats"; "flow_list"; "tcp_emit"; "tcp_reset"]%string.

(** Every other request only reads: the agent, the file system and the output are as
    before, whether it is answered or not. *)
Theorem ipc_queries_read_only env out_sz (s : served) req r s' :
  (json_get_str req "op" IPC_OP_MAX).2 ∉ agent_ops ->
  handle env out_sz s req = Safe (r, s') -> s' = s.
Proof.
  unfold cpe_ipc_handle_request. destruct (out_sz <? 32); [by intros _ [= _ <-]|].
  destruct (json_get_str req "op" IPC_OP_MAX) as [rc op]. cbn [snd]. intros Hop.
  assert (Hne : forall o, o ∈ agent_ops -> streq op o = false)
    by (intros o Ho; apply streq_false; intros ->; by apply Hop).
  rewrite !(Hne "emit"%string), !(Hne "tcp_poll"%string), !(Hne "flow_tick"%string), !(Hne "flow_stats"%string),
    !(Hne "flow_list"%string), !(Hne "tcp_emit"%string), !(Hne "tcp_reset"%string) by (unfold agent_ops; repeat first [apply list_elem_of_here|apply list_elem_of_further]).
  repeat match goal with
  | |- context [if ?b then _ else _] => destruct b; try (by intros [= _ <-])
  end.
  - destruct (op_tcp_by_ip _ _ _); [|done]. by intros [= _ <-].
  - destruct (op_tcp_by_prefix _ _ _); [|done]. by intros [= _ <-].
Qed.

(** C40: Asking for all remotes answers one row per remote, the first sixty-four in table
    order, when the text, its terminator and one spare byte fit the buffer, and nothing when
    they do not; with sixty-four remotes known it never fits the server's 8192-byte line, so
    the full list cannot be asked for any more. *)
Theorem ipc_remotes_list env out_sz (s : served) req :
  (json_get_str req "op" IPC_OP_MAX).2 = "tcp_by_ip"%string -> (json_get_str req "ip" CPE_TCP_IP_MAX).2 = EmptyString ->
  40 <= out_sz ->
  let remotes := sn_remotes (tcp_snap (ag_tcp (sv_agent s))) in
  let text := ok_head "tcp_by_ip" +:+ "[" +:+ joined (remote_json <$> take 64 remotes) +:+ "]}" in
  handle env out_sz s req = Safe (if strlen text + 1 <? out_sz then Some text else None, s) /\
  (64 <= length remotes -> CPE_IPC_LINE_MAX <= strlen text).
Proof.
  intros Hop Hip Hsz. cbv zeta. set (remotes := sn_remotes _). split.
  - unfold cpe_ipc_handle_request. rewrite (proj2 (Nat.ltb_ge _ _)) by lia. cbv zeta.
    destruct (json_get_str req "op" IPC_OP_MAX) as [rc op]. cbn [snd] in Hop. subst op.
    unfold op_tcp_by_ip. destruct (json_get_str req "ip" _) as [rc2 ip]. cbn [snd] in Hip. subst ip.
    rewrite respond_list_spec; [done|]. apply head_length; cbn; lia.
  - intros Hlen. rewrite !strlen_app.
    assert (Hrows : Forall (fun r => 133 <= strlen r) (remote_json <$> take 64 remotes)).
    { apply Forall_fmap, Forall_true. intros r. apply remote_json_length. }
    assert (Hn : length (remote_json <$> take 64 remotes) = 64) by (rewrite length_fmap, length_take; lia).
    destruct (remote_json <$> take 64 remotes) as [|row rows]; [done|]. cbn [joined].
    apply Forall_cons in Hrows as [Hrow Hrows]. pose proof (strlen_commas 133 rows Hrows) as Hc.
    rewrite strlen_app. cbn [length] in Hn. injection Hn as Hn. rewrite Hn in Hc.
    change (strlen (ok_head "tcp_by_ip")) with 35. unfold CPE_IPC_LINE_MAX. cbn [String.length]. lia.
Qed.
End serve.

(** ** Instances *)
#[local] Existing Instances toy_source toy_lib fixed_lib toy_ping toy_ping_events qsort_isort.

Lemma json_get_str_escaped_witness :
  json_get_str (lit "{'op' : 'a" +:+ String "\" (String quote (lit "b'}"))) "op" 48 = (0%Z, lit "a'b").
Proof.
  exact (json_get_str_escaped "{" "op" " " " " (lit "a'b") "}" 48 ltac:(cbn; lia) ltac:(vm_compute; reflexivity)
    eq_refl eq_refl).
Defined.

Definition toy_ipc : ipc_env := {|
  qe_emit := refusing; qe_nflog := env_ok; qe_recvs := [RecvAgain]; qe_flow := toy_env; qe_clk := flow_clk |}.
Lemma toy_ipc_ok : ipc_env_ok toy_ipc.
Proof.
  assert (Hio : io_ok toy_io).
  { split; [|vm_compute; split; congruence]. constructor; [|constructor].
    apply (bool_decide_unpack _). vm_compute. exact I. }
  refine (conj _ (conj Hio (conj Hio _))); [by repeat constructor|vm_compute; split; congruence].
Qed.

(** An agent as it is created, and one that knows [n] remotes. *)
Definition new_agent : option (agent nat nat) := (cpe_agent_create true toy_calloc cpe_host_alloc_reset_stats).1.
Definition serving (a : agent nat nat) : served nat nat (list string) := {| sv_agent := a; sv_fs := []; sv_out := [] |}.
Lemma ipc_request_safe_witness :
  exists a, new_agent = Some a /\
    safe_with (request_ok CPE_IPC_LINE_MAX (ag_cfg a)) (cpe_ipc_handle_request toy_ipc CPE_IPC_LINE_MAX (serving a) (lit "{'op':'flow_stats'}")).
Proof.
  unfold new_agent. destruct (cpe_agent_create true toy_calloc cpe_host_alloc_reset_stats) as [[a|] h] eqn:Ec;
    [|vm_compute in Ec; discriminate].
  exists a. split; [reflexivity|]. apply (ipc_request_safe toy_events_ok).
  - exact toy_ipc_ok.
  - apply Nat.leb_le. vm_compute. reflexivity.
  - exact (create_inv _ _ _ _ Ec).
Defined.

Lemma ipc_queries_read_only_witness :
  exists r s', cpe_ipc_handle_request toy_ipc 100 (serving toy_agent) (lit "{'op':'ping'}") = Safe (r, s') /\
    s' = serving toy_agent.
Proof.
  destruct (cpe_ipc_handle_request toy_ipc 100 (serving toy_agent) (lit "{'op':'ping'}")) as [[r s']|] eqn:Er;
    [|vm_compute in Er; discriminate].
  exists r, s'. split; [reflexivity|].
  refine (ipc_queries_read_only toy_ipc 100 (serving toy_agent) (lit "{'op':'ping'}") r s' _ Er).
  apply (bool_decide_unpack _). vm_compute. exact I.
Defined.

Definition crowded : agent nat nat :=
  let st := ag_tcp toy_agent in
  toy_agent <| ag_tcp := st <| tcp_snap := (tcp_snap st) <| sn_remotes := replicate 64 remote_zero |> |> |>.
Lemma ipc_remotes_list_witness :
  cpe_ipc_handle_request toy_ipc CPE_IPC_LINE_MAX (serving crowded) (lit "{'op':'tcp_by_ip'}") = Safe (None, serving crowded).
Proof.
  destruct (ipc_remotes_list toy_ipc CPE_IPC_LINE_MAX (serving crowded) (lit "{'op':'tcp_by_ip'}")
    ltac:(vm_compute; reflexivity) ltac:(vm_compute; reflexivity) ltac:(apply Nat.leb_le; vm_compute; reflexivity)) as [H1 H2].
  rewrite H1. specialize (H2 ltac:(apply Nat.leb_le; vm_compute; reflexivity)).
  rewrite (proj2 (Nat.ltb_ge _ _)); [reflexivity|lia].
Defined.

(** The first occurrence of the key decides: a value that reads like the key hides it. *)
Example value_hides_key : (json_get_str (lit "{'x':'op','op':'ping'}") "op" 48).1 = (-1)%Z.
Proof. reflexivity. Qed.
(** The name of an unknown operation is echoed without escaping, so that the answer is
    not JSON any more. *)
Example unknown_op_unescaped :
  respond_err 100 (json_get_str (lit "{'op':'a" +:+ String "\" (String quote (lit "b'}"))) "op" 48).2 "unknown op" =
  Some (lit "{'ok':false,'op':'a'b','error':'unknown op'}").
Proof. reflexivity. Qed.
(** A buffer of 32 bytes is accepted, but the head of a list is longer. *)
Example small_buffer_overruns :
  cpe_ipc_handle_request toy_ipc 32 (serving crowded) (lit "{'op':'tcp_by_ip'}") = Oob.
Proof. vm_compute. reflexivity. Qed.
