(* ===== verification/IpcServer.v ===== *)
(** * The control socket (src/agent/ipc_server.c)

    Creation and destruction of the server, the client slots, the line buffers and
    [cpe_ipc_server_poll].  Requests go to a handler behind an interface; the requests of
    [IpcRequest] are its instance.  The bytes each client receives are the result. *)

From S2P Require Import Prelude CStr HostAlloc SpoolDir Config Spool Events PerfSample NfFlow TcpEmit Nfct FlowEntry.
From S2P Require Import FlowTable FlowAcct Agent AgentConfig AgentRun IpcRequest.
From Stdlib Require Import Ascii.

Definition CPE_IPC_CLIENTS_MAX := 8.
(** [sizeof(sa.sun_path)] *)
Definition SUN_PATH_MAX := 108.

(** What a request handler promises: it takes a line and answers with at most
    [CPE_IPC_LINE_MAX - 1] characters, or not. *)
Class LineHandler (S : Type) := handle_line : string -> S -> chk (option string * S).
Class LineHandlerSafe (S : Type) `{!LineHandler S} (I : S -> Prop) :=
  handle_line_safe l s : I s -> safe_with (fun r => fits CPE_IPC_LINE_MAX r.1 /\ I r.2) (handle_line l s).

(** A slot: the descriptor (negative when free) and the [rlen] bytes buffered. *)
Record ipc_client := { cl_fd : Z; cl_buf : string }.
Definition client_free : ipc_client := {| cl_fd := -1; cl_buf := EmptyString |}.
Record cpe_ipc_server := { is_listen_fd : Z; is_clients : list ipc_client; is_path : string }.
#[export] Instance eta_ipc_server : Eta cpe_ipc_server := fun s =>
  {| is_listen_fd := is_listen_fd s; is_clients := is_clients s; is_path := is_path s |}.

Inductive sys_call :=
  | SysUnlink (path : string)
  | SysBind (path : string)
  | SysChmod (path : string)
  | SysClose (fd : Z).

(** ** Creation and destruction *)
Section create.
Context {FS : Type} `{!FileSystem FS}.

Definition mkdir_p_parent (path : string) (fs : FS) : Z * FS :=
  if negb (nonempty path) then ((-1)%Z, fs)
  else if CPE_CFG_PATH_MAX <=? strlen path then ((-1)%Z, fs)
  else match last_slash path 0 with
  | None | Some 0 => (0%Z, fs)
  | Some k =>
      let dir := str_take k path in
      match fs_mkdir dir fs with
      | (MkError, fs) =>
          match last_slash dir 0 with
          | None | Some 0 => ((-1)%Z, fs)
          | Some j =>
              match fs_mkdir (str_take j dir) fs with
              | (MkError, fs) => ((-1)%Z, fs)
              | (_, fs) =>
                  match fs_mkdir dir fs with
                  | (MkError, fs) => ((-1)%Z, fs)
                  | (_, fs) => (0%Z, fs)
                  end
              end
          end
      | (_, fs) => (0%Z, fs)
      end
  end.

(** What the kernel answers: a descriptor or an error text. *)
Record server_env := {
  se_calloc : bool;
  se_socket : Z;
  se_socket_err : string;
  se_bind_err : option string;
  se_listen_err : option string;
}.

Definition cpe_ipc_server_create (env : server_env) (has_agent : bool) (path : option string) (fs : FS)
    (err : errbuf) : option cpe_ipc_server * errbuf * FS * list sys_call :=
  if negb has_agent then (None, err_set err "null agent", fs, [])
  else if negb (se_calloc env) then (None, err_set err "oom", fs, [])
  else
    let path := snprintf_s CPE_CFG_PATH_MAX (str_dflt (default EmptyString path) CPE_IPC_SOCK_DEFAULT) in
    let '(_, fs) := mkdir_p_parent path fs in
    let fd := se_socket env in
    if (fd <? 0)%Z then (None, err_set err ("socket: " +:+ se_socket_err env), fs, [SysUnlink path])
    else if SUN_PATH_MAX <=? strlen path
    then (None, err_set err "socket path too long", fs, [SysUnlink path; SysClose fd])
    else match se_bind_err env with
    | Some e => (None, err_set err ("bind " +:+ path +:+ ": " +:+ e), fs, [SysUnlink path; SysClose fd])
    | None =>
        match se_listen_err env with
        | Some e => (None, err_set err ("listen: " +:+ e), fs,
            [SysUnlink path; SysBind path; SysChmod path; SysClose fd; SysUnlink path])
        | None =>
            (Some {| is_listen_fd := fd; is_clients := replicate CPE_IPC_CLIENTS_MAX client_free; is_path := path |},
             err, fs, [SysUnlink path; SysBind path; SysChmod path])
        end
    end.
End create.

Definition open_fds (srv : cpe_ipc_server) : list Z :=
  filter (fun fd => (0 <= fd)%Z) ((cl_fd <$> is_clients srv) ++ [is_listen_fd srv]).
Definition cpe_ipc_server_destroy (srv : option cpe_ipc_server) : list sys_call :=
  match srv with
  | None => []
  | Some srv => (SysClose <$> open_fds srv) ++ (if nonempty (is_path srv) then [SysUnlink (is_path srv)] else [])
  end.
Definition cpe_ipc_server_fd (srv : option cpe_ipc_server) : Z :=
  match srv with Some srv => is_listen_fd srv | None => (-1)%Z end.
Definition cpe_ipc_server_path (srv : option cpe_ipc_server) : string :=
  match srv with Some srv => is_path srv | None => EmptyString end.

(** ** Clients *)

(** The slot emptied; the descriptor closed, if it was open. *)
Definition close_client (srv : cpe_ipc_server) (idx : nat) : cpe_ipc_server * list Z :=
  match is_clients srv !! idx with
  | None => (srv, [])
  | Some c =>
      (srv <| is_clients := <[idx := {| cl_fd := if (0 <=? cl_fd c)%Z then (-1)%Z else cl_fd c; cl_buf := EmptyString |}]>
                (is_clients srv) |>,
       if (0 <=? cl_fd c)%Z then [cl_fd c] else [])
  end.

(** The loop over [accept]: [fds] are its successive answers, an error once used up. *)
Fixpoint accept_clients (srv : cpe_ipc_server) (fds : list Z) : Z * cpe_ipc_server * list Z :=
  match fds with
  | [] => (0%Z, srv, [])
  | cfd :: fds' =>
      if (cfd <? 0)%Z then (0%Z, srv, [])
      else match find_index (fun c => (cl_fd c <? 0)%Z) (is_clients srv) with
      | None => let '(n, srv, closed) := accept_clients srv fds' in (n, srv, cfd :: closed)
      | Some slot =>
          let srv := srv <| is_clients := <[slot := {| cl_fd := cfd; cl_buf := EmptyString |}]> (is_clients srv) |> in
          let '(n, srv, closed) := accept_clients srv fds' in ((n + 1)%Z, srv, closed)
      end
  end.

(** What [recv] answers on a client's socket. *)
Inductive client_recv :=
  | ClData (d : string)   (* what has arrived; [recv] takes what there is room for *)
  | ClAgain
  | ClFailed
  | ClEof.

(** ** Lines *)

(** A complete line as the handler sees it: a carriage return cut, a C string. *)
Fixpoint strip_cr (line : string) : string :=
  match line with
  | EmptyString => EmptyString
  | String c EmptyString => if Ascii.eqb c cr then EmptyString else line
  | String c line' => String c (strip_cr line')
  end.
Definition line_text (line : string) : string := cstr (strip_cr line).

Definition handler_failed : string := lit "{'ok':false,'op':'unknown','error':'handler'}".
(** The bytes sent for a response: its newline is added when there is room for it. *)
Definition reply_bytes (o : option string) : string :=
  let resp := default handler_failed o in
  if strlen resp + 1 <? CPE_IPC_LINE_MAX then resp +:+ String lf EmptyString else resp.

Section serve.
Context {St : Type} `{!LineHandler St}.

(** The state of one client's service: the handler's, the buffer ([None]: closed), what
    [send] will answer (everything taken once used up), the bytes taken, the count. *)
Record service := { sg_state : St; sg_buf : option string; sg_sent : string; sg_handled : Z }.

(** Every round consumes at least the newline. *)
Fixpoint service_lines (fuel : nat) (s : St) (buf : string) (sends : list Z) (sent : string) (handled : Z) : chk service :=
  match fuel with
  | O => Oob
  | S fuel' =>
      match chr_index lf buf with
      | None =>
          mret {| sg_state := s; sg_buf := if CPE_IPC_LINE_MAX - 1 <=? strlen buf then None else Some buf;
                  sg_sent := sent; sg_handled := handled |}
      | Some linelen =>
          r ← handle_line (line_text (str_take linelen buf)) s;
          let '(o, s) := r in
          let bytes := reply_bytes o in
          let n := match sends with n :: _ => n | [] => Z.of_nat (strlen bytes) end in
          if (n <? 0)%Z then mret {| sg_state := s; sg_buf := None; sg_sent := sent; sg_handled := handled |}
          else service_lines fuel' s (str_drop (linelen + 1) buf) (tail sends)
                 (sent +:+ str_take (Z.to_nat n) bytes) (handled + 1)
      end
  end.

Definition service_client (s : St) (srv : cpe_ipc_server) (idx : nat) (r : client_recv) (sends : list Z)
    : chk (Z * St * cpe_ipc_server * string * list Z) :=
  match is_clients srv !! idx with
  | None => mret (0%Z, s, srv, EmptyString, [])
  | Some c =>
      let closed := let '(srv, fds) := close_client srv idx in mret (0%Z, s, srv, EmptyString, fds) in
      if (cl_fd c <? 0)%Z then mret (0%Z, s, srv, EmptyString, [])
      else match r with
      | ClAgain => mret (0%Z, s, srv, EmptyString, [])
      | ClFailed | ClEof => closed
      | ClData d =>
          let got := str_take (CPE_IPC_LINE_MAX - strlen (cl_buf c) - 1) d in
          if strlen got =? 0 then closed
          else
            let buf := cl_buf c +:+ got in
            g ← service_lines (strlen buf + 1) s buf sends EmptyString 0;
            match sg_buf g with
            | Some buf =>
                mret (sg_handled g, sg_state g,
                      srv <| is_clients := <[idx := {| cl_fd := cl_fd c; cl_buf := buf |}]> (is_clients srv) |>,
                      sg_sent g, [])
            | None =>
                let '(srv, fds) := close_client srv idx in mret (sg_handled g, sg_state g, srv, sg_sent g, fds)
            end
      end
  end.

(** What the sockets answer during one poll. *)
Record poll_env := { pe_accepts : list Z; pe_recv : nat -> client_recv; pe_sends : nat -> list Z }.

(** The loop over the slots; [sent] is what each served client received. *)
Fixpoint service_all (env : poll_env) (s : St) (srv : cpe_ipc_server) (idxs : list nat)
    : chk (Z * St * cpe_ipc_server * list (Z * string) * list Z) :=
  match idxs with
  | [] => mret (0%Z, s, srv, [], [])
  | i :: idxs' =>
      let fd := match is_clients srv !! i with Some c => cl_fd c | None => (-1)%Z end in
      if (fd <? 0)%Z then service_all env s srv idxs'
      else
        r ← service_client s srv i (pe_recv env i) (pe_sends env i);
        let '(n, s, srv, bytes, closed) := r in
        r ← service_all env s srv idxs';
        let '(n', s, srv, sent, closed') := r in
        mret ((n + n')%Z, s, srv, (fd, bytes) :: sent, closed ++ closed')
  end.

Definition cpe_ipc_server_poll (env : poll_env) (s : St) (srv : cpe_ipc_server)
    : chk (Z * St * cpe_ipc_server * list (Z * string) * list Z) :=
  if (is_listen_fd srv <? 0)%Z then mret (0%Z, s, srv, [], [])
  else
    let '(_, srv, refused) := accept_clients srv (pe_accepts env) in
    r ← service_all env s srv (seq 0 CPE_IPC_CLIENTS_MAX);
    let '(n, s, srv, sent, closed) := r in mret (n, s, srv, sent, refused ++ closed).
End serve.

(** ** Lines of a stream *)

(** The complete lines, and what follows the last newline. *)
Fixpoint lines_of (s : string) : list string * string :=
  match s with
  | EmptyString => ([], EmptyString)
  | String c s' =>
      let '(ls, rest) := lines_of s' in
      if Ascii.eqb c lf then (EmptyString :: ls, rest)
      else match ls with [] => ([], String c rest) | l :: ls' => (String c l :: ls', rest) end
  end.

Lemma lines_of_none s : chr_index lf s = None -> lines_of s = ([], s).
Proof.
  induction s as [|c s IH]; [done|]. cbn [chr_index lines_of]. destruct (Ascii.eqb c lf); [done|].
  destruct (chr_index lf s); [done|]. intros _. by rewrite IH.
Qed.
Lemma lines_of_some s n :
  chr_index lf s = Some n ->
  lines_of s = (str_take n s :: (lines_of (str_drop (n + 1) s)).1, (lines_of (str_drop (n + 1) s)).2).
Proof.
  revert n. induction s as [|c s IH]; intros n; [done|]. cbn [chr_index lines_of]. destruct (Ascii.eqb c lf).
  - intros [= <-]. change (str_drop (0 + 1) (String c s)) with s. by destruct (lines_of s).
  - destruct (chr_index lf s) as [k|]; [|done]. intros [= <-]. rewrite (IH k eq_refl). done.
Qed.
Lemma lines_of_app a b :
  lines_of (a +:+ b) =
    ((lines_of a).1 ++ (lines_of ((lines_of a).2 +:+ b)).1, (lines_of ((lines_of a).2 +:+ b)).2).
Proof.
  induction a as [|c a IH]; [cbn [lines_of fst snd app]; change (EmptyString +:+ b) with b; by destruct (lines_of b)|].
  rewrite str_app_cons. cbn [lines_of]. rewrite IH. destruct (lines_of a) as [ls rest]. cbn [fst snd] in *.
  destruct (Ascii.eqb c lf) eqn:E; [done|]. destruct ls as [|l ls]; [|done]. cbn [fst snd app].
  rewrite str_app_cons. cbn [lines_of]. rewrite E.
  destruct (lines_of (rest +:+ b)) as [[|l2 ls2] r2]; done.
Qed.
Lemma lines_of_rest_length s : strlen (lines_of s).2 <= strlen s.
Proof.
  induction s as [|c s IH]; [done|]. cbn [lines_of String.length]. destruct (lines_of s) as [ls rest]. cbn [snd] in IH.
  destruct (Ascii.eqb c lf); [cbn; lia|]. destruct ls; cbn; lia.
Qed.
Lemma lines_of_rest s : lines_of (lines_of s).2 = ([], (lines_of s).2).
Proof.
  induction s as [|c s IH]; [done|]. cbn [lines_of]. destruct (lines_of s) as [ls rest]. cbn [snd] in IH.
  destruct (Ascii.eqb c lf) eqn:E; [done|]. destruct ls; [|done]. cbn [snd lines_of]. by rewrite IH, E.
Qed.

(** ** Serving a stream *)
Section framing.
Context {St : Type} `{!LineHandler St}.

(** The lines handled one after the other, and the bytes of the answers. *)
Fixpoint answer_all (s : St) (ls : list string) : chk (St * string) :=
  match ls with
  | [] => mret (s, EmptyString)
  | l :: ls' =>
      r ← handle_line (line_text l) s;
      let '(o, s) := r in
      r ← answer_all s ls';
      mret (r.1, reply_bytes o +:+ r.2)
  end.

Lemma answer_all_app s ls ls' :
  answer_all s (ls ++ ls') =
    (r ← answer_all s ls; let '(s, b) := r in r ← answer_all s ls'; mret (r.1, b +:+ r.2)).
Proof.
  revert s. induction ls as [|l ls IH]; intros s; cbn [answer_all app].
  { chk_step. destruct (answer_all s ls') as [[s' b]|]; done. }
  destruct (handle_line _ _) as [[o s1]|]; [|done]. chk_step. rewrite IH.
  destruct (answer_all s1 ls) as [[s2 b]|]; [|done]. chk_step. cbn [fst snd].
  destruct (answer_all s2 ls') as [[s3 b']|]; [|done]. chk_step. cbn [fst snd]. by rewrite str_app_assoc.
Qed.

(** The buffer left by a service, unless the line has outgrown it. *)
Definition kept (rest : string) : option string := if CPE_IPC_LINE_MAX - 1 <=? strlen rest then None else Some rest.

Lemma service_lines_spec fuel s buf sent handled :
  strlen buf < fuel ->
  service_lines fuel s buf [] sent handled =
    (r ← answer_all s (lines_of buf).1;
     mret {| sg_state := r.1; sg_buf := kept (lines_of buf).2; sg_sent := sent +:+ r.2;
             sg_handled := (handled + Z.of_nat (length (lines_of buf).1))%Z |}).
Proof.
  revert s buf sent handled. induction fuel as [|fuel IH]; intros s buf sent handled Hf; [lia|].
  cbn [service_lines]. destruct (chr_index lf buf) as [n|] eqn:E.
  - rewrite (lines_of_some _ _ E). cbn [fst snd answer_all tail length].
    destruct (handle_line _ _) as [[o s1]|]; [|done]. chk_step.
    rewrite (proj2 (Z.ltb_ge _ 0)) by lia. rewrite IH.
    + destruct (answer_all s1 _) as [[s2 b]|]; [|done]. chk_step. cbn [fst snd]. f_equal. f_equal.
      * rewrite Nat2Z.id, str_take_all by lia. by rewrite str_app_assoc.
      * lia.
    + rewrite strlen_drop. assert (0 < strlen buf) by (destruct buf; [done|cbn; lia]). lia.
  - rewrite (lines_of_none _ E). cbn [fst snd answer_all]. chk_step. cbn [fst snd length].
    by rewrite str_app_nil_r, Z.add_0_r.
Qed.

(** A connection served once per chunk that arrives, every answer taken by the socket. *)
Fixpoint session (s : St) (srv : cpe_ipc_server) (idx : nat) (chunks : list string)
    : chk (Z * St * cpe_ipc_server * string) :=
  match chunks with
  | [] => mret (0%Z, s, srv, EmptyString)
  | d :: chunks' =>
      r ← service_client s srv idx (ClData d) [];
      let '(n, s, srv, b, _) := r in
      r ← session s srv idx chunks';
      let '(n', s, srv, b') := r in mret ((n + n')%Z, s, srv, b +:+ b')
  end.
Definition cat (chunks : list string) : string := foldr (fun d t => d +:+ t) EmptyString chunks.

(** No chunk is empty or larger than the room [recv] was given, and no line outgrows the
    buffer. *)
Fixpoint chunks_fit (buf : string) (chunks : list string) : Prop :=
  match chunks with
  | [] => True
  | d :: chunks' =>
      0 < strlen d /\ strlen buf + strlen d < CPE_IPC_LINE_MAX /\
      strlen (lines_of (buf +:+ d)).2 < CPE_IPC_LINE_MAX - 1 /\ chunks_fit (lines_of (buf +:+ d)).2 chunks'
  end.

Definition set_client (srv : cpe_ipc_server) (idx : nat) (c : ipc_client) : cpe_ipc_server :=
  srv <| is_clients := <[idx := c]> (is_clients srv) |>.

Lemma service_client_data s srv idx fd buf d :
  is_clients srv !! idx = Some {| cl_fd := fd; cl_buf := buf |} -> (0 <= fd)%Z ->
  0 < strlen d -> strlen buf + strlen d < CPE_IPC_LINE_MAX ->
  strlen (lines_of (buf +:+ d)).2 < CPE_IPC_LINE_MAX - 1 ->
  service_client s srv idx (ClData d) [] =
    (r ← answer_all s (lines_of (buf +:+ d)).1;
     mret (Z.of_nat (length (lines_of (buf +:+ d)).1), r.1,
           set_client srv idx {| cl_fd := fd; cl_buf := (lines_of (buf +:+ d)).2 |}, r.2, [])).
Proof.
  intros Hc Hfd Hd Hroom Hrest. unfold service_client. rewrite Hc. cbn [cl_fd cl_buf].
  rewrite (proj2 (Z.ltb_ge fd 0)) by done. rewrite str_take_all by lia.
  rewrite (proj2 (Nat.eqb_neq _ 0)) by lia. rewrite service_lines_spec by lia.
  destruct (answer_all s _) as [[s' b]|]; [|done]. chk_step. cbn [fst snd sg_buf sg_handled sg_state sg_sent].
  unfold kept. rewrite (proj2 (Nat.leb_gt _ _)) by done. done.
Qed.

Lemma ipc_stream s srv idx fd buf chunks :
  is_clients srv !! idx = Some {| cl_fd := fd; cl_buf := buf |} -> (0 <= fd)%Z -> free lf buf ->
  chunks_fit buf chunks ->
  let lines := (lines_of (buf +:+ cat chunks)).1 in
  session s srv idx chunks =
    (r ← answer_all s lines;
     mret (Z.of_nat (length lines), r.1,
           set_client srv idx {| cl_fd := fd; cl_buf := (lines_of (buf +:+ cat chunks)).2 |}, r.2)).
Proof.
  cbv zeta. intros Hc Hfd Hfree Hfit. assert (Hbuf : lines_of buf = ([], buf)) by by apply lines_of_none.
  clear Hfree. revert s srv buf Hc Hbuf Hfit.
  induction chunks as [|d chunks IH]; intros s srv buf Hc Hbuf Hfit.
  { cbn [session cat foldr]. rewrite str_app_nil_r, Hbuf. cbn [fst snd answer_all]. chk_step. cbn [fst snd length].
    unfold set_client. rewrite list_insert_id by done. by destruct srv. }
  destruct Hfit as (Hd & Hroom & Hrest & Hfit). cbn [session].
  rewrite (service_client_data s srv idx fd buf d) by done.
  change (cat (d :: chunks)) with (d +:+ cat chunks). rewrite <- str_app_assoc, (lines_of_app (buf +:+ d)). cbn [fst snd].
  rewrite answer_all_app. set (rest := (lines_of (buf +:+ d)).2) in *.
  destruct (answer_all s (lines_of (buf +:+ d)).1) as [[s1 b1]|]; [|done]. chk_step. cbn [fst snd].
  rewrite (IH s1 _ rest).
  - destruct (answer_all s1 _) as [[s2 b2]|]; [|done]. chk_step. cbn [fst snd]. rewrite length_app, Nat2Z.inj_add.
    unfold set_client. cbn [is_clients set_field]. by rewrite list_insert_insert_eq.
  - unfold set_client. cbn [is_clients set_field]. apply list_lookup_insert_eq. by eapply lookup_lt_Some.
  - apply lines_of_rest.
  - done.
Qed.
(** What a connection is answered depends on the bytes received, not on how they
    arrive: however the stream is cut into chunks, the requests handled are its complete
    lines in order (carriage returns cut), each answered by one response, and what follows
    the last newline waits in the buffer. *)
Theorem ipc_framing s srv idx fd buf chunks :
  is_clients srv !! idx = Some {| cl_fd := fd; cl_buf := buf |} -> (0 <= fd)%Z -> free lf buf ->
  chunks_fit buf chunks ->
  let lines := (lines_of (buf +:+ cat chunks)).1 in
  session s srv idx chunks =
    (r ← answer_all s lines;
     mret (Z.of_nat (length lines), r.1,
           set_client srv idx {| cl_fd := fd; cl_buf := (lines_of (buf +:+ cat chunks)).2 |}, r.2)).
Proof. exact (ipc_stream s srv idx fd buf chunks). Qed.
End framing.

(** ** Descriptors *)
Definition client_fds (cs : list ipc_client) : list Z := filter (fun fd => (0 <= fd)%Z) (cl_fd <$> cs).
Definition slot_fds (c : ipc_client) : list Z := client_fds [c].

Lemma client_fds_app cs ds : client_fds (cs ++ ds) = client_fds cs ++ client_fds ds.
Proof. unfold client_fds. by rewrite fmap_app, filter_app. Qed.
Lemma client_fds_insert cs i c c' :
  cs !! i = Some c -> client_fds (<[i := c']> cs) ++ slot_fds c ≡ₚ client_fds cs ++ slot_fds c'.
Proof.
  intros Hi. rewrite <- (take_drop_middle cs i c Hi) at 2.
  rewrite (insert_take_drop cs i c') by by eapply lookup_lt_Some.
  change (c' :: drop (S i) cs) with ([c'] ++ drop (S i) cs). change (c :: drop (S i) cs) with ([c] ++ drop (S i) cs).
  rewrite !client_fds_app. unfold slot_fds. solve_Permutation.
Qed.
Lemma slot_fds_open c : (0 <= cl_fd c)%Z -> slot_fds c = [cl_fd c].
Proof. intros H. unfold slot_fds, client_fds. cbn. by rewrite decide_True. Qed.
Lemma slot_fds_free c : (cl_fd c < 0)%Z -> slot_fds c = [].
Proof. intros H. unfold slot_fds, client_fds. cbn. by rewrite decide_False by lia. Qed.

(** The slots: eight, each with room left in its buffer; a free one holds nothing. *)
Definition client_wf (c : ipc_client) : Prop :=
  strlen (cl_buf c) < CPE_IPC_LINE_MAX - 1 /\ ((cl_fd c < 0)%Z -> cl_buf c = EmptyString).
Definition server_wf (srv : cpe_ipc_server) : Prop :=
  length (is_clients srv) = CPE_IPC_CLIENTS_MAX /\ Forall client_wf (is_clients srv).

Lemma set_client_wf srv i c : server_wf srv -> client_wf c -> server_wf (set_client srv i c).
Proof.
  intros [Hl Hf] Hc. split; unfold set_client; cbn [is_clients set_field]; [by rewrite length_insert|].
  by apply Forall_insert.
Qed.
Lemma client_wf_empty fd : client_wf {| cl_fd := fd; cl_buf := EmptyString |}.
Proof. split; [unfold CPE_IPC_LINE_MAX; cbn; lia|done]. Qed.

(** What an operation does with the descriptors: those open before and the new ones are
    afterwards in a slot or were closed, each once. *)
Definition keeps_fds (srv : cpe_ipc_server) (new : list Z) (srv' : cpe_ipc_server) (closed : list Z) : Prop :=
  client_fds (is_clients srv') ++ closed ≡ₚ client_fds (is_clients srv) ++ new.
(** Everything an operation leaves in place. *)
Definition server_step (srv : cpe_ipc_server) (new : list Z) (srv' : cpe_ipc_server) (closed : list Z) : Prop :=
  server_wf srv' /\ keeps_fds srv new srv' closed /\
  is_listen_fd srv' = is_listen_fd srv /\ is_path srv' = is_path srv.

Lemma server_step_refl srv new : server_wf srv -> server_step srv new srv new.
Proof. intros Hw. refine (conj Hw (conj _ (conj eq_refl eq_refl))). by unfold keeps_fds. Qed.
Lemma server_step_trans srv1 n1 srv2 c1 n2 srv3 c2 :
  server_step srv1 n1 srv2 c1 -> server_step srv2 n2 srv3 c2 -> server_step srv1 (n1 ++ n2) srv3 (c1 ++ c2).
Proof.
  intros (_ & K1 & E1 & E2) (W & K2 & E3 & E4). refine (conj W (conj _ (conj _ _))); [|congruence..].
  unfold keeps_fds in *. rewrite (Permutation_app_comm c1 c2), app_assoc, K2, <- app_assoc,
    (Permutation_app_comm n2 c1), app_assoc, K1. by rewrite app_assoc.
Qed.

Lemma close_client_step srv i : server_wf srv ->
  let '(srv', fds) := close_client srv i in server_step srv [] srv' fds.
Proof.
  intros Hw. unfold close_client. destruct (is_clients srv !! i) as [c|] eqn:Ei; [|by apply server_step_refl].
  set (c' := {| cl_fd := _; cl_buf := _ |}).
  refine (conj (set_client_wf srv i c' Hw (client_wf_empty _)) (conj _ (conj eq_refl eq_refl))).
  pose proof (client_fds_insert _ i c c' Ei) as Hp. unfold keeps_fds, set_client in *. cbn [is_clients set_field] in *.
  subst c'. destruct (Z.leb_spec 0 (cl_fd c)).
  - rewrite (slot_fds_open c) in Hp by done. by rewrite Hp.
  - rewrite (slot_fds_free c) in Hp by done. rewrite Hp. by rewrite slot_fds_free.
Qed.

(** The descriptors the loop was given. *)
Fixpoint accepted (fds : list Z) : list Z :=
  match fds with [] => [] | fd :: fds' => if (fd <? 0)%Z then [] else fd :: accepted fds' end.

Lemma accept_clients_step srv fds : server_wf srv ->
  let '(n, srv', closed) := accept_clients srv fds in
  server_step srv (accepted fds) srv' closed /\
  (n + Z.of_nat (length closed))%Z = Z.of_nat (length (accepted fds)).
Proof.
  revert srv. induction fds as [|fd fds IH]; intros srv Hw; [by split; [apply server_step_refl|]|].
  cbn [accept_clients accepted]. destruct (Z.ltb_spec fd 0) as [|Hfd]; [by split; [apply server_step_refl|]|].
  destruct (find_index _ _) as [slot|] eqn:Ef.
  - apply find_index_Some in Ef as (c & Hc & Hfree & _). apply Z.ltb_lt in Hfree.
    set (srv1 := srv <| is_clients := _ |>).
    assert (H1 : server_step srv [fd] srv1 []).
    { refine (conj (set_client_wf srv slot _ Hw (client_wf_empty fd)) (conj _ (conj eq_refl eq_refl))).
      pose proof (client_fds_insert _ slot c {| cl_fd := fd; cl_buf := EmptyString |} Hc) as Hp.
      rewrite (slot_fds_free c), (slot_fds_open {| cl_fd := fd; cl_buf := EmptyString |}) in Hp by done. exact Hp. }
    specialize (IH srv1 (proj1 H1)). destruct (accept_clients srv1 fds) as [[n srv2] closed].
    destruct IH as [H2 Hn]. split; [exact (server_step_trans _ _ _ _ _ _ _ H1 H2)|].
    cbn [length]. lia.
  - assert (H1 : server_step srv [fd] srv [fd]) by by apply server_step_refl.
    specialize (IH srv Hw). destruct (accept_clients srv fds) as [[n srv2] closed].
    destruct IH as [H2 Hn]. split; [exact (server_step_trans _ _ _ _ _ _ _ H1 H2)|].
    cbn [length]. lia.
Qed.

(** ** Polling *)
Section polling.
Context {St : Type} `{!LineHandler St} (I : St -> Prop) `{!LineHandlerSafe St I}.

Lemma service_lines_safe fuel s buf sends sent handled :
  strlen buf < fuel -> I s ->
  safe_with (fun g => I (sg_state g) /\ forall b, sg_buf g = Some b -> strlen b < CPE_IPC_LINE_MAX - 1)
    (service_lines fuel s buf sends sent handled).
Proof.
  revert s buf sends sent handled. induction fuel as [|fuel IH]; intros s buf sends sent handled Hf Hs; [lia|].
  cbn [service_lines]. destruct (chr_index lf buf) as [n|] eqn:E.
  - eapply safe_bind; [by apply handle_line_safe|]. intros [o s1] [_ H1].
    destruct (_ <? 0)%Z; [by apply safe_ret|]. apply IH; [|exact H1].
    rewrite strlen_drop. assert (0 < strlen buf) by (destruct buf; [done|cbn; lia]). lia.
  - apply safe_ret. split; [exact Hs|]. intros b. cbn [sg_buf].
    destruct (Nat.leb_spec (CPE_IPC_LINE_MAX - 1) (strlen buf)); [done|]. by intros [= <-].
Qed.

Lemma service_client_safe s srv i r sends :
  server_wf srv -> I s ->
  safe_with (fun '(_, s', srv', _, closed) => I s' /\ server_step srv [] srv' closed)
    (service_client s srv i r sends).
Proof.
  intros Hw Hs. unfold service_client. destruct (is_clients srv !! i) as [c|] eqn:Ei;
    [|by apply safe_ret; split; [|apply server_step_refl]].
  assert (Hclosed : safe_with (fun '(_, s', srv', _, closed) => I s' /\ server_step srv [] srv' closed)
    (let '(srv', fds) := close_client srv i in mret (0%Z, s, srv', EmptyString, fds))).
  { pose proof (close_client_step srv i Hw). destruct (close_client srv i). by apply safe_ret. }
  destruct (Z.ltb_spec (cl_fd c) 0) as [|Hfd]; [by apply safe_ret; split; [|apply server_step_refl]|].
  destruct r as [d| | |]; [|by apply safe_ret; split; [|apply server_step_refl]|exact Hclosed|exact Hclosed].
  destruct (_ =? 0); [exact Hclosed|]. cbv zeta.
  eapply safe_bind; [apply service_lines_safe; [lia|exact Hs]|]. intros g [Hg Hbuf].
  destruct (sg_buf g) as [b|].
  - apply safe_ret. split; [exact Hg|].
    set (c' := {| cl_fd := cl_fd c; cl_buf := b |}).
    assert (Hc' : client_wf c') by (split; [by apply Hbuf|cbn; lia]).
    refine (conj (set_client_wf srv i c' Hw Hc') (conj _ (conj eq_refl eq_refl))).
    pose proof (client_fds_insert _ i c c' Ei) as Hp. unfold keeps_fds. rewrite !app_nil_r.
    apply (Permutation_app_inv_r (slot_fds c)). exact Hp.
  - pose proof (close_client_step srv i Hw). destruct (close_client srv i). by apply safe_ret.
Qed.

Lemma service_all_safe env s srv idxs :
  server_wf srv -> I s ->
  safe_with (fun '(_, s', srv', _, closed) => I s' /\ server_step srv [] srv' closed) (service_all env s srv idxs).
Proof.
  revert s srv. induction idxs as [|i idxs IH]; intros s srv Hw Hs; cbn [service_all].
  { apply safe_ret. by split; [|apply server_step_refl]. }
  cbv zeta. destruct (_ <? 0)%Z; [by apply IH|].
  eapply safe_bind; [by apply service_client_safe|]. intros [[[[n s1] srv1] b] closed] [H1 H2].
  eapply safe_bind; [apply IH; [exact (proj1 H2)|exact H1]|]. intros [[[[n' s2] srv2] sent] closed'] [H3 H4].
  apply safe_ret. split; [exact H3|]. exact (server_step_trans _ _ _ _ _ _ _ H2 H4).
Qed.

Lemma poll_safe env s srv :
  server_wf srv -> I s ->
  safe_with (fun '(_, s', srv', _, closed) => I s' /\
    server_step srv (if (is_listen_fd srv <? 0)%Z then [] else accepted (pe_accepts env)) srv' closed)
    (cpe_ipc_server_poll env s srv).
Proof.
  intros Hw Hs. unfold cpe_ipc_server_poll. destruct (_ <? 0)%Z;
    [by apply safe_ret; split; [|apply server_step_refl]|].
  pose proof (accept_clients_step srv (pe_accepts env) Hw) as H1.
  destruct (accept_clients srv (pe_accepts env)) as [[k srv1] refused]. destruct H1 as [H1 _].
  eapply safe_bind; [apply service_all_safe; [exact (proj1 H1)|exact Hs]|].
  intros [[[[n s2] srv2] sent] closed] [H2 H3]. apply safe_ret. split; [exact H2|].
  pose proof (server_step_trans _ _ _ _ _ _ _ H1 H3) as H4. by rewrite app_nil_r in H4.
Qed.
(** C19: A poll of the control socket is memory safe and returns, whatever the clients send
    and however much of the answers the sockets take: the handler's invariant holds after
    it, every buffer keeps room for another byte, and each descriptor that was open or
    was accepted is afterwards either in a slot or closed, exactly once. *)
Theorem ipc_poll_safe env s srv :
  server_wf srv -> I s ->
  safe_with (fun '(_, s', srv', _, closed) => I s' /\
    server_step srv (if (is_listen_fd srv <? 0)%Z then [] else accepted (pe_accepts env)) srv' closed)
    (cpe_ipc_server_poll env s srv).
Proof. exact (poll_safe env s srv). Qed.
End polling.

(** ** Creation *)

(** The descriptors closed by a sequence of calls. *)
Definition closed_by (calls : list sys_call) : list Z :=
  omap (fun c => match c with SysClose fd => Some fd | _ => None end) calls.

Lemma create_clean {FS} `{!FileSystem FS} env has_agent path (fs : FS) err :
  let '(o, _, _, calls) := cpe_ipc_server_create env has_agent path fs err in
  let given := if has_agent && se_calloc env && (0 <=? se_socket env)%Z then [se_socket env] else [] in
  match o with
  | Some srv =>
      open_fds srv = given /\ closed_by calls = [] /\ server_wf srv /\ client_fds (is_clients srv) = [] /\
      0 < strlen (is_path srv) < SUN_PATH_MAX /\ last calls = Some (SysChmod (is_path srv)) /\
      cpe_ipc_server_destroy (Some srv) = (SysClose <$> given) ++ [SysUnlink (is_path srv)]
  | None => closed_by calls = given /\ forall p, SysBind p ∈ calls -> last calls = Some (SysUnlink p)
  end.
Proof.
  assert (Hunlink : forall q p c, (SysBind q ∉ [SysUnlink p]) /\ (SysBind q ∉ [SysUnlink p; SysClose c]))
    by (intros q p c; split; intros H; rewrite !elem_of_cons, elem_of_nil in H; by destruct_or! H).
  unfold cpe_ipc_server_create. destruct has_agent; cbn [negb andb]; [|by split; [|intros q Hq%elem_of_nil]].
  destruct (se_calloc env); cbn [negb andb]; [|by split; [|intros q Hq%elem_of_nil]].
  set (p := snprintf_s _ _).
  assert (Hp : 0 < strlen p).
  { subst p. unfold snprintf_s. rewrite strlen_take.
    assert (0 < strlen (str_dflt (default EmptyString path) CPE_IPC_SOCK_DEFAULT)).
    { unfold str_dflt. destruct (default EmptyString path); cbn; lia. }
    unfold CPE_CFG_PATH_MAX. lia. }
  destruct (mkdir_p_parent p fs) as [rc fs1]. destruct (Z.ltb_spec (se_socket env) 0) as [Hneg|Hpos].
  { rewrite (proj2 (Z.leb_gt 0 _)) by done. split; [done|]. intros q Hq. by destruct (Hunlink q p 0%Z). }
  rewrite (proj2 (Z.leb_le 0 _)) by done. destruct (Nat.leb_spec SUN_PATH_MAX (strlen p)) as [|Hlt].
  { split; [done|]. intros q Hq. by destruct (Hunlink q p (se_socket env)). }
  destruct (se_bind_err env) as [e|].
  { split; [done|]. intros q Hq. by destruct (Hunlink q p (se_socket env)). }
  destruct (se_listen_err env) as [e|].
  { split; [done|]. intros q Hq. rewrite !elem_of_cons, elem_of_nil in Hq. destruct_or! Hq; by simplify_eq. }
  set (srv := {| is_listen_fd := _; is_clients := _; is_path := _ |}).
  assert (Hopen : open_fds srv = [se_socket env]).
  { unfold open_fds. rewrite filter_app. change (filter _ (cl_fd <$> is_clients srv)) with (@nil Z).
    cbn [app is_listen_fd srv]. by rewrite filter_cons_True. }
  refine (conj Hopen (conj eq_refl (conj _ (conj eq_refl (conj (conj Hp Hlt) (conj eq_refl _)))))).
  - split; [done|]. apply Forall_replicate, client_wf_empty.
  - unfold cpe_ipc_server_destroy. rewrite Hopen. change (is_path srv) with p.
    by rewrite (proj2 (nonempty_spec p)) by (intros E; rewrite E in Hp; cbn in Hp; lia).
Qed.

(** Creating the server leaks nothing: a descriptor the kernel gave is owned by the
    server returned, or closed when none is returned, and a path that was bound is unlinked
    on failure.  A server that is returned has eight free slots and a path a socket address
    can hold; destroying it closes its descriptors and unlinks its path. *)
Theorem ipc_create_clean {FS} `{!FileSystem FS} env has_agent path (fs : FS) err :
  let '(o, _, _, calls) := cpe_ipc_server_create env has_agent path fs err in
  let given := if has_agent && se_calloc env && (0 <=? se_socket env)%Z then [se_socket env] else [] in
  match o with
  | Some srv =>
      open_fds srv = given /\ closed_by calls = [] /\ server_wf srv /\ client_fds (is_clients srv) = [] /\
      0 < strlen (is_path srv) < SUN_PATH_MAX /\ last calls = Some (SysChmod (is_path srv)) /\
      cpe_ipc_server_destroy (Some srv) = (SysClose <$> given) ++ [SysUnlink (is_path srv)]
  | None => closed_by calls = given /\ forall p, SysBind p ∈ calls -> last calls = Some (SysUnlink p)
  end.
Proof. exact (create_clean env has_agent path fs err). Qed.

(** ** The agent's requests behind the socket *)
Section requests.
Context {P C FS : Type} `{!PingLib P} {E : Type} `{!EventSource P E} `{!NfctLib C} `{!EventSource C nfct_event}
  `{!QSort} `{!FileSystem FS}.
Context (envs : nat -> ipc_env).

(** The requests so far are counted, so that each is answered in its own environment. *)
Definition request_handler : LineHandler (nat * served P C FS) := fun l st =>
  r ← cpe_ipc_handle_request (envs st.1) CPE_IPC_LINE_MAX st.2 l; mret (r.1, (S st.1, r.2)).

Hypothesis event_ok : forall (c : C) e c', next_event c = (Some e, c') -> nfct_event_ok e.
Hypothesis envs_ok : forall n, ipc_env_ok (envs n).

#[local] Existing Instance request_handler.
Lemma request_handler_safe c : LineHandlerSafe (nat * served P C FS) (fun st => agent_ready c (sv_agent st.2)).
Proof.
  intros l [n s] Hs. unfold handle_line, request_handler.
  eapply safe_bind.
  - apply (request_safe event_ok (envs n) CPE_IPC_LINE_MAX c s l); [done|unfold CPE_IPC_LINE_MAX; lia|exact Hs].
  - intros [o s'] [H1 H2]. by apply safe_ret.
Qed.
End requests.

(** ** Instances *)
#[local] Existing Instances toy_source toy_lib toy_ping toy_ping_events qsort_isort.

(** A handler that echoes its line and counts. *)
Definition echo_handler : LineHandler nat := fun l n => Safe (Some l, S n).
Definition one_client : cpe_ipc_server :=
  {| is_listen_fd := 3; is_clients := {| cl_fd := 7; cl_buf := EmptyString |} :: replicate 7 client_free;
     is_path := "/run/s" |}.
Lemma one_client_wf : server_wf one_client.
Proof.
  split; [done|]. apply (proj2 (Forall_cons _ _ _)). split; [apply client_wf_empty|]. apply Forall_replicate, client_wf_empty.
Qed.

Definition chunk_a : string := "pi".
Definition chunk_b : string := "ng" +:+ String cr (String lf "x").
Lemma ipc_framing_witness :
  session (LineHandler0 := echo_handler) 0 one_client 0 [chunk_a; chunk_b] =
  Safe (1%Z, 1, set_client one_client 0 {| cl_fd := 7; cl_buf := "x" |}, "ping" +:+ String lf EmptyString).
Proof.
  rewrite (@ipc_framing nat echo_handler 0 one_client 0 7 EmptyString [chunk_a; chunk_b]).
  - vm_compute. reflexivity.
  - reflexivity.
  - lia.
  - reflexivity.
  - repeat split; apply Nat.ltb_lt; vm_compute; reflexivity.
Defined.

Lemma ipc_poll_safe_witness :
  exists a, new_agent = Some a /\
    safe_with (fun '(_, s', _, _, _) => agent_inv (sv_agent s'.2))
      (cpe_ipc_server_poll (LineHandler0 := request_handler (fun _ => toy_ipc))
         {| pe_accepts := [9%Z]; pe_recv := fun _ => ClData (lit "{'op':'emit'}" +:+ String lf EmptyString);
            pe_sends := fun _ => [] |} (0, serving a) one_client).
Proof.
  unfold new_agent. destruct (cpe_agent_create true toy_calloc cpe_host_alloc_reset_stats) as [[a|] h] eqn:Ec;
    [|vm_compute in Ec; discriminate].
  exists a. split; [reflexivity|].
  destruct (@ipc_poll_safe _ _ _
    (request_handler_safe (FS := list string) (fun _ => toy_ipc) toy_events_ok (fun _ => toy_ipc_ok) (ag_cfg a))
    {| pe_accepts := [9%Z]; pe_recv := fun _ => ClData (lit "{'op':'emit'}" +:+ String lf EmptyString);
       pe_sends := fun _ => [] |} (0, serving a) one_client one_client_wf (conj (create_inv _ _ _ _ Ec) eq_refl))
    as ([[[[n s'] srv'] sent] closed] & Hrun & Hi & _).
  exists (n, s', srv', sent, closed). split; [exact Hrun|exact (proj1 Hi)].
Defined.

(** A response of exactly [CPE_IPC_LINE_MAX - 1] characters is sent without its newline,
    and a client waiting for the line waits on. *)
Example reply_without_newline :
  let resp := String.concat EmptyString (replicate (CPE_IPC_LINE_MAX - 1) "x"%string) in
  (strlen (reply_bytes (Some resp)) =? strlen resp) = true.
Proof. vm_compute. reflexivity. Qed.
