(* ===== verification/IpcClient.v ===== *)
(** * The control client (src/agent/ipc_client.c)

    [cpe_ipc_client_request]: one request line sent to the daemon's socket, one response
    line read back; and what a client and the server of [IpcServer] achieve together. *)

From S2P Require Import Prelude CStr IpcRequest IpcServer.
From Stdlib Require Import Ascii.

(** What the kernel answers; [recv]'s answers in order, the end of the stream once they
    are used up. *)
Record client_env := {
  ce_socket : Z;
  ce_socket_err : string;
  ce_connect_err : option string;
  ce_send_err : option string;
  ce_recvs : list client_recv;
  ce_recv_err : string;
}.
#[export] Instance eta_client_env : Eta client_env := fun e => {|
  ce_socket := ce_socket e; ce_socket_err := ce_socket_err e; ce_connect_err := ce_connect_err e;
  ce_send_err := ce_send_err e; ce_recvs := ce_recvs e; ce_recv_err := ce_recv_err e |}.

Definition ends_lf (s : string) : bool :=
  match String.get (strlen s - 1) s with Some c => Ascii.eqb c lf | None => false end.
(** The line sent. *)
Definition request_line (req : string) : string := if ends_lf req then req else req +:+ String lf EmptyString.
Definition has_lf (s : string) : bool := match chr_index lf s with Some _ => true | None => false end.

(** The receive loop: the bytes collected, or [None] on an error. *)
Fixpoint recv_reply (rs : list client_recv) (resp_sz : nat) (got : string) : option string :=
  if resp_sz <=? strlen got + 1 then Some got
  else match rs with
  | [] | ClEof :: _ => Some got
  | ClFailed :: _ | ClAgain :: _ => None
  | ClData d :: rs' =>
      let d := str_take (resp_sz - strlen got - 1) d in
      if strlen d =? 0 then Some got
      else
        let got := got +:+ d in
        if has_lf got then Some got else recv_reply rs' resp_sz got
  end.

(** The newlines and carriage returns at the end cut off. *)
Fixpoint strip_eol (s : string) : string :=
  match s with
  | EmptyString => EmptyString
  | String c s' =>
      match strip_eol s' with
      | EmptyString => if Ascii.eqb c lf || Ascii.eqb c cr then EmptyString else String c EmptyString
      | t => String c t
      end
  end.

(** The result, the response (for the result 0), the error text, the bytes sent (the socket
    blocks until it has taken them) and the descriptors closed. *)
Definition cpe_ipc_client_request (env : client_env) (sock_path : option string) (req : string) (resp_sz : nat)
    (err : errbuf) : Z * string * errbuf * string * list Z :=
  let path := str_dflt (default EmptyString sock_path) CPE_IPC_SOCK_DEFAULT in
  let fail msg closed := ((-1)%Z, EmptyString, err_set err msg, EmptyString, closed) in
  let fd := ce_socket env in
  if resp_sz <? 8 then fail "bad args"%string []
  else if (fd <? 0)%Z then fail ("socket: " +:+ ce_socket_err env) []
  else if SUN_PATH_MAX <=? strlen path then fail "socket path too long"%string [fd]
  else match ce_connect_err env with
  | Some e => fail ("connect " +:+ path +:+ ": " +:+ e +:+ " (is cpe_agent running?)") [fd]
  | None =>
      if CPE_IPC_LINE_MAX <? strlen req + 2 then fail "request too long"%string [fd]
      else match ce_send_err env with
      | Some e => fail ("send: " +:+ e) [fd]
      | None =>
          let line := request_line req in
          match recv_reply (ce_recvs env) resp_sz EmptyString with
          | None => ((-1)%Z, EmptyString, err_set err ("recv: " +:+ ce_recv_err env), line, [fd])
          | Some got =>
              let resp := strip_eol got in
              if strlen resp =? 0 then ((-1)%Z, EmptyString, err_set err "empty response", line, [fd])
              else (0%Z, resp, err, line, [fd])
          end
      end
  end.

(** ** Receiving a line *)
Lemma strip_eol_line t : strip_eol (t +:+ String lf EmptyString) = strip_eol t.
Proof. induction t as [|c t IH]; [done|]. rewrite str_app_cons. cbn [strip_eol]. by rewrite IH. Qed.

Lemma free_cons c d s : free c (String d s) <-> Ascii.eqb d c = false /\ free c s.
Proof.
  unfold free. cbn [chr_index]. destruct (Ascii.eqb d c); [by split; [|intros []]|].
  destruct (chr_index c s); split; try done. by intros [].
Qed.
Lemma has_lf_spec s : has_lf s = false <-> free lf s.
Proof. unfold has_lf, free. by destruct (chr_index lf s). Qed.

(** A prefix of a line either has no newline or is the line. *)
Lemma line_prefix a b t :
  a +:+ b = t +:+ String lf EmptyString -> free lf t -> free lf a \/ (a = t +:+ String lf EmptyString /\ b = EmptyString).
Proof.
  revert t. induction a as [|c a IH]; intros t H Hf; [by left|]. rewrite str_app_cons in H. destruct t as [|d t].
  - change (EmptyString +:+ String lf EmptyString) with (String lf EmptyString) in *. injection H as -> H.
    destruct a, b; done || by right.
  - rewrite str_app_cons in *. injection H as -> H. apply free_cons in Hf as [Hd Hf].
    destruct (IH t H Hf) as [H1|[-> ->]]; [left; by apply free_cons|by right].
Qed.

Lemma recv_reply_line t resp_sz chunks got :
  free lf t -> strlen t + 2 <= resp_sz -> Forall (fun d => 0 < strlen d) chunks -> free lf got ->
  got +:+ cat chunks = t +:+ String lf EmptyString ->
  recv_reply (ClData <$> chunks) resp_sz got = Some (t +:+ String lf EmptyString).
Proof.
  intros Ht Hsz Hne. revert got. induction Hne as [|d chunks Hd Hne IH]; intros got Hgot Heq.
  { exfalso. change (cat []) with EmptyString in Heq. rewrite str_app_nil_r in Heq. subst got.
    unfold free in Hgot. by rewrite chr_index_app in Hgot. }
  assert (Hlen : strlen got + strlen d + strlen (cat chunks) = strlen t + 1).
  { apply (f_equal strlen) in Heq. change (cat (d :: chunks)) with (d +:+ cat chunks) in Heq.
    rewrite !strlen_app in Heq. cbn [String.length] in Heq. lia. }
  cbn [fmap list_fmap recv_reply]. rewrite (proj2 (Nat.leb_gt _ _)) by lia.
  rewrite str_take_all by lia. rewrite (proj2 (Nat.eqb_neq _ 0)) by lia. cbv zeta.
  change (cat (d :: chunks)) with (d +:+ cat chunks) in Heq. rewrite <- str_app_assoc in Heq.
  destruct (line_prefix _ _ _ Heq Ht) as [Hfree|[-> _]].
  - rewrite (proj2 (has_lf_spec _)) by done. by apply IH.
  - unfold has_lf. by rewrite chr_index_app.
Qed.

(** ** Client and server together *)
Lemma request_line_spec req : free lf req -> request_line req = req +:+ String lf EmptyString.
Proof.
  intros Hf. unfold request_line, ends_lf. destruct (String.get (strlen req - 1) req) as [c|] eqn:E; [|done].
  destruct (Ascii.eqb_spec c lf) as [->|]; [|done]. exfalso. revert Hf E. generalize (strlen req - 1) as n.
  induction req as [|d req IH]; intros n Hf E; [done|]. apply free_cons in Hf as [Hd Hf]. destruct n as [|n].
  - injection E as ->. by rewrite Ascii.eqb_refl in Hd.
  - by apply (IH n Hf).
Qed.
Lemma lines_of_line l : free lf l -> lines_of (l +:+ String lf EmptyString) = ([l], EmptyString).
Proof.
  intros Hf. rewrite (lines_of_some _ (strlen l)) by by apply chr_index_app.
  by rewrite str_take_app, str_drop_app_S.
Qed.

(** The client's side: the line it sends, and the response that arrives in pieces. *)
Definition delivers_line (env : client_env) (outs : list string) (text : string) : Prop :=
  (0 <= ce_socket env)%Z /\ ce_connect_err env = None /\ ce_send_err env = None /\
  ce_recvs env = ClData <$> outs /\ Forall (fun d => 0 < strlen d) outs /\ cat outs = text +:+ String lf EmptyString.
Lemma client_receives env sock req text outs resp_sz err :
  delivers_line env outs text -> strlen req + 2 <= CPE_IPC_LINE_MAX ->
  free lf text -> text <> EmptyString -> strip_eol text = text ->
  strlen (str_dflt (default EmptyString sock) CPE_IPC_SOCK_DEFAULT) < SUN_PATH_MAX ->
  8 <= resp_sz -> strlen text + 2 <= resp_sz ->
  cpe_ipc_client_request env sock req resp_sz err = (0%Z, text, err, request_line req, [ce_socket env]).
Proof.
  intros (Hsock & Hconn & Hsend & Hrecv & Houts & Hcat) Hlen Hft Hne Heol Hpath H8 Hresp.
  unfold cpe_ipc_client_request. rewrite (proj2 (Nat.ltb_ge _ _)) by done. rewrite (proj2 (Z.ltb_ge _ _)) by done.
  rewrite (proj2 (Nat.leb_gt SUN_PATH_MAX _)) by done. rewrite Hconn, (proj2 (Nat.ltb_ge _ _)), Hsend, Hrecv by done.
  rewrite (recv_reply_line text) by (done || by rewrite Hcat). rewrite strip_eol_line, Heol. by destruct text.
Qed.

(** C5: One request, one response: a client's request that is a line reaches the handler
    as it was written, however the stream is cut on its way, and when the handler answers
    with a line that fits the server's and the client's buffers, the client gets exactly
    that text, however it is cut on its way back; the connection is ready for the next
    request. *)
Theorem ipc_exchange {St} `{!LineHandler St} (s s' : St) srv idx fd req text ins outs env sock resp_sz err :
  is_clients srv !! idx = Some {| cl_fd := fd; cl_buf := EmptyString |} -> (0 <= fd)%Z ->
  free lf req -> line_text req = req -> strlen req + 2 <= CPE_IPC_LINE_MAX ->
  cat ins = request_line req -> chunks_fit EmptyString ins ->
  handle_line req s = Safe (Some text, s') ->
  free lf text -> text <> EmptyString -> strip_eol text = text -> strlen text + 1 < CPE_IPC_LINE_MAX ->
  (0 <= ce_socket env)%Z -> ce_connect_err env = None -> ce_send_err env = None ->
  ce_recvs env = ClData <$> outs -> Forall (fun d => 0 < strlen d) outs ->
  cat outs = text +:+ String lf EmptyString ->
  strlen (str_dflt (default EmptyString sock) CPE_IPC_SOCK_DEFAULT) < SUN_PATH_MAX ->
  8 <= resp_sz -> strlen text + 2 <= resp_sz ->
  session s srv idx ins = Safe (1%Z, s', srv, cat outs) /\
  cpe_ipc_client_request env sock req resp_sz err = (0%Z, text, err, cat ins, [ce_socket env]).
Proof.
  intros Hc Hfd Hreq Htext Hlen Hins Hfit Hh Hft Hne Heol Hsz Hsock Hconn Hsend Hrecv Houts Hcat Hpath H8 Hresp.
  split.
  - rewrite (ipc_stream s srv idx fd EmptyString ins) by done. change (EmptyString +:+ cat ins) with (cat ins).
    rewrite Hins, request_line_spec, lines_of_line by done. cbn [fst snd answer_all]. rewrite Htext, Hh. chk_step.
    cbn [fst snd length]. unfold set_client. rewrite list_insert_id by done. unfold reply_bytes. cbn [default].
    rewrite (proj2 (Nat.ltb_lt _ _)) by done. rewrite str_app_nil_r, Hcat. by destruct srv.
  - rewrite Hins. by apply (client_receives env sock req text outs).
Qed.

(** ** Instances *)
Definition nl : string := String lf EmptyString.
Definition toy_client : client_env := {|
  ce_socket := 5; ce_socket_err := EmptyString; ce_connect_err := None; ce_send_err := None;
  ce_recvs := ClData <$> ["pi"%string; "ng" +:+ nl]; ce_recv_err := EmptyString |}.
Lemma ipc_exchange_witness :
  session (LineHandler0 := echo_handler) 0 one_client 0 ["p"%string; "ing" +:+ nl] =
    Safe (1%Z, 1, one_client, "ping" +:+ nl) /\
  cpe_ipc_client_request toy_client None "ping" 100 None = (0%Z, "ping"%string, None, "ping" +:+ nl, [5%Z]).
Proof.
  apply (@ipc_exchange nat echo_handler 0 1 one_client 0 7 "ping" "ping" ["p"%string; "ing" +:+ nl]
    ["pi"%string; "ng" +:+ nl] toy_client None 100 None); try reflexivity; try lia; try discriminate.
  - apply Nat.leb_le. vm_compute. reflexivity.
  - repeat split; apply Nat.ltb_lt; vm_compute; reflexivity.
  - apply Nat.ltb_lt. vm_compute. reflexivity.
  - repeat constructor.
  - apply Nat.ltb_lt. vm_compute. reflexivity.
  - cbn. lia.
Defined.

(** A response that does not fit the caller's buffer is cut, and the result is still 0. *)
Example cut_response_is_ok :
  cpe_ipc_client_request (toy_client <| ce_recvs := [ClData (lit "{'ok':true,'op':'ping'}" +:+ nl)] |>) None "x" 12 None =
  (0%Z, lit "{'ok':true,", None, "x" +:+ nl, [5%Z]).
Proof. vm_compute. reflexivity. Qed.
