(* ===== verification/AgentLoop.v ===== *)
(** * The portable event loop (src/agent/agent_loop_poll.c)

    [cpe_agent_run_uv] without libuv: the signal flags, the reload on SIGHUP, the sample
    iteration and the 200 ms slices between samples in which the control socket and flow
    accounting are served.  The loop runs against a stream of environments, one for each
    iteration and each slice; a signal is seen at the start of the iteration or slice in
    which it arrives, which is where the code looks at the flags. *)

From S2P Require Import Prelude CStr HostAlloc SpoolDir Config Spool Events PerfSample Nflog TcpStats TcpEmit TcpInv.
From S2P Require Import Nfct FlowEntry FlowTable FlowAcct Clock AgentData Agent AgentConfig LivePing LiveTrace AgentRun.
From S2P Require Import IpcRequest IpcServer.

Record cpe_agent_run_opts := {
  ro_max_ticks : Z;
  ro_config_path : option string;
  ro_router_id_override : option string;
  ro_ipc_socket_override : option string;
  ro_ipc_disable : Z;
}.

(** What the outside world does during one iteration or slice. *)
Record loop_env := {
  le_hup : bool;              (* SIGHUP arrived *)
  le_stop : bool;             (* SIGINT or SIGTERM arrived *)
  le_load : option string -> errbuf -> Z * option cpe_agent_config * errbuf;
  le_open : open_env;
  le_calloc : Z -> option addr;
  le_icmp : icmp_env;
  le_clk : clock;
  le_emit : emit_env;         (* the flush after the sample, or after the flow tick *)
  le_emit_tcp : emit_env;     (* the flush after the TCP tick *)
  le_nflog : nl_env;
  le_recvs : list recv_result;
  le_flow : flow_env;
  le_poll : poll_env;         (* the control socket *)
  le_ipc : nat -> ipc_env;    (* the requests served in one poll *)
}.

Record loop_state (P C FS : Type) := {
  lp_sv : served P C FS;
  lp_ipc : option cpe_ipc_server;
  lp_seqs : Z * Z;                (* the static sequence numbers of the probes *)
  lp_heap : alloc_stats;
  lp_sent : list (Z * string);    (* what control clients received *)
  lp_hup : bool;
  lp_stop : bool;
  lp_ticks : Z;
  lp_slept : Z;                   (* milliseconds *)
  lp_phase : nat;                 (* iterations and slices begun *)
}.
Arguments lp_sv {P C FS}. Arguments lp_ipc {P C FS}. Arguments lp_seqs {P C FS}. Arguments lp_heap {P C FS}.
Arguments lp_sent {P C FS}. Arguments lp_hup {P C FS}. Arguments lp_stop {P C FS}. Arguments lp_ticks {P C FS}.
Arguments lp_slept {P C FS}. Arguments lp_phase {P C FS}.
#[export] Instance eta_loop_state P C FS : Eta (loop_state P C FS) := fun s => {|
  lp_sv := lp_sv s; lp_ipc := lp_ipc s; lp_seqs := lp_seqs s; lp_heap := lp_heap s; lp_sent := lp_sent s;
  lp_hup := lp_hup s; lp_stop := lp_stop s; lp_ticks := lp_ticks s; lp_slept := lp_slept s; lp_phase := lp_phase s |}.

(** [while (cpe_agent_next_event(a, &ev) == 1)]: one round per queued event. *)
Fixpoint drain_queue (fuel : nat) (q : queues) : queues :=
  match fuel with
  | O => q
  | S fuel' =>
      let '(rc, _, q') := cpe_agent_next_event q in
      if (rc =? 1)%Z then drain_queue fuel' q' else q'
  end.

(** The path of the control socket, if one is to be opened. *)
Definition ipc_path (opts : cpe_agent_run_opts) (cfg : cpe_agent_config) : option string :=
  if truthy (ro_ipc_disable opts) then None
  else
    let ipath := str_dflt (default EmptyString (ro_ipc_socket_override opts)) (ipc_socket cfg) in
    if nonempty ipath && negb (streq ipath "off") && negb (streq ipath "none") then Some ipath else None.

Section loop.
Context {P C FS : Type} `{!PingLib P} {E : Type} `{!EventSource P E} `{!NfctLib C} `{!EventSource C nfct_event}
  `{!QSort} `{!FileSystem FS}.
Local Abbreviation agent := (agent P C).
Local Abbreviation loop_state := (loop_state P C FS).
Local Abbreviation tcp_tick := (@cpe_agent_tcp_tick queues queues_sink _).
Local Abbreviation flow_tick := (@cpe_agent_flow_tick queues queues_sink C _ _ 64%Z).
Context (envs : nat -> loop_env) (opts : cpe_agent_run_opts).

Definition lp_agent (s : loop_state) : agent := sv_agent (lp_sv s).
Definition set_agent (s : loop_state) (a : agent) : loop_state := let sv := lp_sv s in s <| lp_sv := sv <| sv_agent := a |> |>.
Definition drain_events (s : loop_state) : loop_state :=
  let a := lp_agent s in let q := ag_q a in set_agent s (a <| ag_q := drain_queue (eq_cnt q + 1) q |>).

(** The next iteration or slice: its environment, the flags its signals set. *)
Definition next_phase (s : loop_state) : loop_env * loop_state :=
  let env := envs (lp_phase s) in
  (env, s <| lp_hup := lp_hup s || le_hup env |> <| lp_stop := lp_stop s || le_stop env |>
          <| lp_phase := lp_phase s + 1 |>).

Definition handle_hup (env : loop_env) (s : loop_state) : loop_state :=
  if negb (lp_hup s) then s
  else
    let '(_, a, h, _) := cpe_agent_reload_config (le_load env) (le_open env) (le_calloc env) (lp_heap s) (lp_agent s)
                           (ro_config_path opts) (ro_router_id_override opts) (Some (160, EmptyString)) in
    drain_events (set_agent (s <| lp_hup := false |> <| lp_heap := h |>) a).

(** A flush; its failure is only reported. *)
Definition flush (env : emit_env) (s : loop_state) : loop_state :=
  let sv := lp_sv s in
  let '(_, a, out, fs) := cpe_agent_emit_flush env (sv_fs sv) (sv_agent sv) in
  s <| lp_sv := {| sv_agent := a; sv_fs := fs; sv_out := sv_out sv ++ out |} |>.

Definition sample_part (env : loop_env) (s : loop_state) : chk loop_state :=
  r ← cpe_agent_sample_tick (E := E) (le_icmp env) (le_clk env) (lp_agent s) (lp_seqs s).1 (lp_seqs s).2;
  let '(rc, a, seqs) := r in
  let s := set_agent (s <| lp_seqs := seqs |>) a in
  mret (if (rc =? 0)%Z then flush (le_emit env) s else s).
Definition tcp_part (env : loop_env) (s : loop_state) : chk loop_state :=
  let a := lp_agent s in
  if negb (truthy (tcp_stats_enabled (ag_cfg a))) then mret s
  else
    r ← tcp_tick (le_nflog env) (ag_cfg a) (ag_tcp a) (ag_q a) (le_recvs env) (le_clk env);
    let '(n, st, q) := r in
    let s := set_agent s (a <| ag_tcp := st |> <| ag_q := q |>) in
    mret (if (0 <? n)%Z then flush (le_emit_tcp env) s else s).
Definition ipc_part (env : loop_env) (s : loop_state) : chk loop_state :=
  match lp_ipc s with
  | None => mret s
  | Some srv =>
      r ← cpe_ipc_server_poll (LineHandler0 := request_handler (le_ipc env)) (le_poll env) (0, lp_sv s) srv;
      let '(_, (_, sv), srv, sent, _) := r in
      mret (s <| lp_sv := sv |> <| lp_ipc := Some srv |> <| lp_sent := lp_sent s ++ sent |>)
  end.
Definition flow_part (env : loop_env) (s : loop_state) : chk loop_state :=
  let a := lp_agent s in
  if negb (truthy (flow_acct_enabled (ag_cfg a))) then mret s
  else
    r ← flow_tick (ag_cfg a) (le_flow env) (ag_flow a) (ag_q a);
    let '(n, st, q) := r in
    let s := set_agent s (a <| ag_flow := st |> <| ag_q := q |>) in
    mret (if (0 <? n)%Z then flush (le_emit env) s else s).

(** The body of the main loop up to the test of [max_ticks], and the interval it read. *)
Definition sample_phase (s : loop_state) : chk (loop_state * Z) :=
  let '(env, s) := next_phase s in
  let s := handle_hup env s in
  let interval := dflt (demo_interval_ms (ag_cfg (lp_agent s))) 5000 in
  s ← sample_part env s;
  s ← tcp_part env s;
  s ← ipc_part env s;
  let s := drain_events s in
  mret (s <| lp_ticks := u32 (lp_ticks s + 1) |>, interval).

Definition IPC_SLICE : Z := 200.
Definition slices (interval : Z) : nat := Z.to_nat ((interval + IPC_SLICE - 1) / IPC_SLICE).
(** The fuel is one more than the slices of [left]; running out of it is an error. *)
Fixpoint run_slices (fuel : nat) (left : Z) (s : loop_state) : chk loop_state :=
  match fuel with
  | O => Oob
  | S fuel' =>
      if (left <=? 0)%Z || lp_stop s then mret s
      else
        let step := if (IPC_SLICE <? left)%Z then IPC_SLICE else left in
        let '(env, s) := next_phase (s <| lp_slept := (lp_slept s + step)%Z |>) in
        s ← ipc_part env s;
        s ← flow_part env s;
        run_slices fuel' (left - step)%Z s
  end.

(** [fuel] bounds the iterations; the flag says that the loop was left. *)
Fixpoint run_loop (fuel : nat) (s : loop_state) : chk (loop_state * bool) :=
  match fuel with
  | O => mret (s, false)
  | S fuel' =>
      if lp_stop s then mret (s, true)
      else
        r ← sample_phase s;
        let '(s, interval) := r in
        if (0 <? ro_max_ticks opts)%Z && (ro_max_ticks opts <=? lp_ticks s)%Z then mret (s, true)
        else s ← run_slices (S (slices interval)) interval s; run_loop fuel' s
  end.

(** The entry: flags reset, the control socket opened unless it is switched off, the first
    sample after 10 ms. *)
Definition loop_start (srv_env : server_env) (sv : served P C FS) (seqs : Z * Z) (h : alloc_stats) : loop_state * list sys_call :=
  let '(ipc, fs, calls) :=
    match ipc_path opts (ag_cfg (sv_agent sv)) with
    | None => (None, sv_fs sv, [])
    | Some p =>
        let '(srv, _, fs, calls) := cpe_ipc_server_create srv_env true (Some p) (sv_fs sv) (Some (160, EmptyString)) in
        (srv, fs, calls)
    end in
  ({| lp_sv := sv <| sv_fs := fs |>; lp_ipc := ipc; lp_seqs := seqs; lp_heap := h; lp_sent := []; lp_hup := false;
      lp_stop := false; lp_ticks := 0; lp_slept := 10; lp_phase := 0 |}, calls).
Definition cpe_agent_run_uv (fuel : nat) (srv_env : server_env) (sv : served P C FS) (seqs : Z * Z) (h : alloc_stats)
    : chk (loop_state * bool * list sys_call) :=
  let '(s, calls) := loop_start srv_env sv seqs h in
  r ← run_loop fuel s;
  let '(s, ended) := r in
  mret (s, ended, calls ++ (if (ended : bool) then cpe_ipc_server_destroy (lp_ipc s) else [])).
End loop.

(** ** Draining the events *)
Lemma drain_queue_spec fuel q :
  queues_inv q -> eq_cnt q < fuel ->
  let q' := drain_queue fuel q in queues_inv q' /\ events q' = [] /\ same_spool q q'.
Proof.
  cbv zeta. revert q. induction fuel as [|fuel IH]; intros q Hq Hf; [lia|]. cbn [drain_queue].
  pose proof (queue_step_inv _ _ Hq (qs_next q)) as Hq'. unfold cpe_agent_next_event in *.
  destruct (Nat.eqb_spec (eq_cnt q) 0) as [E|E]; cbn [Z.eqb Pos.eqb snd] in *.
  - split; [done|]. split; [|apply same_spool_refl]. apply length_zero_iff_nil. by rewrite length_events.
  - destruct (IH _ Hq') as (H1 & H2 & H3); [cbn; lia|]. done.
Qed.
(** An agent whose events are drained is still consistent, its lines untouched. *)
Lemma drained_inv {P C : Type} (a : agent P C) :
  agent_inv a ->
  let q := drain_queue (eq_cnt (ag_q a) + 1) (ag_q a) in agent_inv (a <| ag_q := q |>) /\ same_spool (ag_q a) q.
Proof.
  intros Ha. destruct (drain_queue_spec (eq_cnt (ag_q a) + 1) (ag_q a) (ai_queues _ Ha) ltac:(lia)) as (H1 & _ & H2).
  split; [|exact H2]. apply (inv_queue a); try done. exact (proj1 (proj2 H2)).
Qed.

Section loop_spec.
Context {P C FS : Type} `{!PingLib P} {E : Type} `{!EventSource P E} `{!NfctLib C} `{!EventSource C nfct_event}
  `{!QSort} `{!FileSystem FS}.
Local Abbreviation loop_state := (loop_state P C FS).
Context (envs : nat -> loop_env) (opts : cpe_agent_run_opts).

(** What the kernel, the library and the files may answer. *)
Definition loop_env_ok (env : loop_env) : Prop :=
  Forall recv_ok (le_recvs env) /\ io_ok (fl_events (le_flow env)) /\ io_ok (fl_replies (le_flow env)) /\
  time_ok (mono_ms (fl_clk (le_flow env))) /\ (forall n, ipc_env_ok (le_ipc env n)) /\
  (forall p e c, (le_load env p e).1.2 = Some c -> config_ok c).
Hypothesis event_ok : forall (c : C) e c', next_event c = (Some e, c') -> nfct_event_ok e.
Hypothesis envs_ok : forall n, loop_env_ok (envs n).

Definition loop_inv (s : loop_state) : Prop :=
  agent_inv (lp_agent s) /\ forall srv, lp_ipc s = Some srv -> server_wf srv.
(** What the loop itself keeps: the flags, the counters. *)
Definition ctl (s : loop_state) := (lp_stop s, lp_ticks s, lp_slept s, lp_phase s).
Definition kept_by (s s' : loop_state) : Prop :=
  loop_inv s' /\ ctl s' = ctl s /\ ag_cfg (lp_agent s') = ag_cfg (lp_agent s).

Lemma kept_trans s1 s2 s3 : kept_by s1 s2 -> (loop_inv s2 -> kept_by s2 s3) -> kept_by s1 s3.
Proof.
  intros (H1 & E1 & F1) Hs. destruct (Hs H1) as (H2 & E2 & F2).
  split; [exact H2|]. by rewrite E2, F2.
Qed.
Lemma set_agent_inv s a : loop_inv s -> agent_inv a -> ag_cfg a = ag_cfg (lp_agent s) -> kept_by s (set_agent s a).
Proof. intros [_ Hsrv] Ha Hc. by split; [split|]. Qed.

Lemma drain_events_inv s : loop_inv s -> kept_by s (drain_events s).
Proof.
  intros [Ha Hsrv]. unfold drain_events. apply set_agent_inv; [by split|by apply drained_inv|done].
Qed.

Lemma flush_inv_loop env s : loop_inv s -> kept_by s (flush env s).
Proof.
  intros [Ha Hsrv]. unfold flush. pose proof (emit_flush_cfg env (sv_fs (lp_sv s)) (sv_agent (lp_sv s))) as Hc.
  pose proof (flush_inv env (sv_fs (lp_sv s)) (sv_agent (lp_sv s)) Ha) as Hf.
  destruct (cpe_agent_emit_flush _ _ _) as [[[n a] out] fs]. by split; [split|].
Qed.

Lemma handle_hup_inv env s : loop_env_ok env -> loop_inv s ->
  loop_inv (handle_hup opts env s) /\ ctl (handle_hup opts env s) = ctl s /\ lp_hup (handle_hup opts env s) = false.
Proof.
  intros (_ & _ & _ & _ & _ & Hload) [Ha Hsrv]. unfold handle_hup. destruct (lp_hup s) eqn:Eh; cbn [negb]; [|done].
  pose proof (reload_inv (le_load env) (le_open env) (le_calloc env) (lp_heap s) (lp_agent s) (ro_config_path opts)
    (ro_router_id_override opts) (Some (160, EmptyString)) Hload Ha) as Hr.
  destruct (cpe_agent_reload_config _ _ _ _ _ _ _ _) as [[[rc a] h] err]. cbn [fst snd] in Hr.
  match goal with |- loop_inv (drain_events ?x) /\ _ => destruct (drain_events_inv x) as (H1 & H2 & _); [by split|] end.
  by split.
Qed.

Lemma sample_part_inv env s : loop_inv s -> safe_with (kept_by s) (sample_part (E := E) env s).
Proof.
  intros Hi. unfold sample_part.
  destruct (sample_tick_step (le_icmp env) (le_clk env) (lp_seqs s).1 (lp_seqs s).2 (lp_agent s) (proj1 Hi))
    as (rc & a & seqs & Hrun & Ha).
  pose proof (sample_tick_cfg _ _ _ _ _ _ _ _ Hrun) as Hc. rewrite Hrun. chk_step. apply safe_ret.
  set (s1 := set_agent _ a). assert (H1 : kept_by s s1) by (destruct Hi; by split; [split|]).
  destruct (rc =? 0)%Z; [|exact H1]. eapply kept_trans; [exact H1|apply flush_inv_loop].
Qed.
Lemma tcp_part_inv env s : loop_env_ok env -> loop_inv s -> safe_with (kept_by s) (tcp_part env s).
Proof.
  intros (Hr & _) Hi. unfold tcp_part. destruct (negb _); [by apply safe_ret|].
  destruct (tcp_tick_step (le_nflog env) (le_recvs env) (le_clk env) (lp_agent s) Hr (proj1 Hi))
    as (n & st & q & Hrun & Ha).
  rewrite Hrun. chk_step. apply safe_ret.
  set (s1 := set_agent s _). assert (H1 : kept_by s s1) by by apply set_agent_inv.
  destruct (0 <? n)%Z; [|exact H1]. eapply kept_trans; [exact H1|apply flush_inv_loop].
Qed.
Lemma flow_part_inv env s : loop_env_ok env -> loop_inv s -> safe_with (kept_by s) (flow_part env s).
Proof.
  intros (_ & He & Hr & Ht & _) Hi. unfold flow_part. destruct (negb _); [by apply safe_ret|].
  destruct (flow_tick_step event_ok (le_flow env) (lp_agent s) He Hr Ht (proj1 Hi)) as (n & st & q & Hrun & Ha).
  rewrite Hrun. chk_step. apply safe_ret.
  set (s1 := set_agent s _). assert (H1 : kept_by s s1) by by apply set_agent_inv.
  destruct (0 <? n)%Z; [|exact H1]. eapply kept_trans; [exact H1|apply flush_inv_loop].
Qed.
Lemma ipc_part_inv env s : loop_env_ok env -> loop_inv s -> safe_with (kept_by s) (ipc_part env s).
Proof.
  intros (_ & _ & _ & _ & Hipc & _) [Ha Hsrv]. unfold ipc_part. destruct (lp_ipc s) as [srv|] eqn:Es;
    [|apply safe_ret; split; [split; [done|by rewrite Es]|done]].
  eapply safe_bind.
  - apply (poll_safe _ (LineHandlerSafe0 := request_handler_safe (le_ipc env) event_ok Hipc (ag_cfg (lp_agent s))));
      [by apply Hsrv|by split].
  - intros [[[[n [k sv]] srv'] sent] closed] [[H1 Hc] H2]. apply safe_ret. split; [|done].
    split; [exact H1|]. intros srv2 [= <-]. apply H2.
Qed.

(** Begun with [s], an iteration or a slice ends in [s']. *)
Definition phase_from (s s' : loop_state) : Prop :=
  loop_inv s' /\ lp_phase s' = lp_phase s + 1 /\ lp_stop s' = lp_stop s || le_stop (envs (lp_phase s)).

Lemma sample_phase_spec s :
  loop_inv s ->
  safe_with (fun r => phase_from s r.1 /\ lp_ticks r.1 = u32 (lp_ticks s + 1) /\ lp_slept r.1 = lp_slept s /\
      r.2 = dflt (demo_interval_ms (ag_cfg (lp_agent r.1))) 5000)
    (sample_phase (E := E) envs opts s).
Proof.
  intros Hi. unfold sample_phase, next_phase. set (env := envs (lp_phase s)).
  match goal with |- context [handle_hup opts env ?x] => set (s0 := x) end.
  assert (H0 : loop_inv s0) by exact Hi.
  destruct (handle_hup_inv env s0 (envs_ok _) H0) as (H1 & E1 & _). set (s1 := handle_hup opts env s0) in *.
  eapply safe_bind; [by apply sample_part_inv|]. intros s2 (H2 & E2 & F2).
  eapply safe_bind; [apply tcp_part_inv; [apply envs_ok|exact H2]|]. intros s3 (H3 & E3 & F3).
  eapply safe_bind; [apply ipc_part_inv; [apply envs_ok|exact H3]|]. intros s4 (H4 & E4 & F4).
  destruct (drain_events_inv s4 H4) as (H5 & E5 & F5). apply safe_ret. cbn [fst snd].
  assert (Hcfg : ag_cfg (lp_agent (drain_events s4)) = ag_cfg (lp_agent s1)) by by rewrite F5, F4, F3, F2.
  pose proof (eq_trans E5 (eq_trans E4 (eq_trans E3 (eq_trans E2 E1)))) as Ec. unfold ctl in Ec. clear E1 E2 E3 E4 E5.
  injection Ec as Es Et El Ep. split; [|split; [by rewrite <- Et|split; [by rewrite <- El|by rewrite <- Hcfg]]].
  split; [exact H5|]. cbn. by rewrite Es, Ep.
Qed.

Lemma slices_step left : (0 < left)%Z -> exists n, slices left = S n /\
  slices (left - (if IPC_SLICE <? left then IPC_SLICE else left))%Z = n.
Proof.
  intros Hl. unfold slices, IPC_SLICE. destruct (Z.ltb_spec 200 left).
  - exists (Z.to_nat ((left - 200 + 200 - 1) / 200)). split; [|done].
    rewrite <- Z2Nat.inj_succ by (apply Z.div_pos; lia). f_equal.
    replace (left + 200 - 1)%Z with (left - 200 + 200 - 1 + 1 * 200)%Z by lia. rewrite Z.div_add by lia. lia.
  - exists 0. replace ((left + 200 - 1) / 200)%Z with 1%Z by (Z.div_mod_to_equations; lia).
    by rewrite Z.sub_diag.
Qed.

(** Past stop signals have been seen, and nothing was begun after one. *)
Definition prompt (s : loop_state) : Prop :=
  forall j, j < lp_phase s -> le_stop (envs j) = true -> lp_phase s = S j /\ lp_stop s = true.

Lemma phase_prompt s s' : lp_stop s = false -> prompt s -> phase_from s s' -> prompt s'.
Proof.
  intros Hs Hp (_ & E1 & E2) j Hj Hstop. rewrite E1, E2 in *.
  destruct (decide (j = lp_phase s)) as [->|Hne].
  - rewrite Hstop, orb_true_r. by rewrite Nat.add_1_r.
  - destruct (Hp j ltac:(lia) Hstop) as [_ Ht]. by rewrite Hs in Ht.
Qed.

Lemma run_slices_spec fuel left s :
  slices left < fuel -> loop_inv s -> prompt s ->
  safe_with (fun s' => loop_inv s' /\ prompt s' /\ lp_ticks s' = lp_ticks s /\ lp_phase s <= lp_phase s' /\
      (lp_stop s' = false ->
         lp_slept s' = (lp_slept s + Z.max 0 left)%Z /\ lp_phase s' = lp_phase s + slices left))
    (run_slices envs fuel left s).
Proof.
  revert left s. induction fuel as [|fuel IH]; intros left s Hf Hi Hp; [lia|]. cbn [run_slices].
  destruct (Z.leb_spec left 0) as [Hl|Hl]; cbn [orb].
  { assert (slices left = 0) by (unfold slices, IPC_SLICE; Z.div_mod_to_equations; lia).
    apply safe_ret. split; [done|]. split; [done|]. split; [done|]. split; [done|]. intros _. split; lia. }
  destruct (lp_stop s) eqn:Es.
  { apply safe_ret. split; [done|]. split; [done|]. split; [done|]. split; [done|]. by rewrite Es. }
  destruct (slices_step left Hl) as (n & En & En'). set (step := if (IPC_SLICE <? left)%Z then IPC_SLICE else left) in *.
  assert (Hstep : (0 < step <= left)%Z) by (subst step; unfold IPC_SLICE; destruct (Z.ltb_spec 200 left); lia).
  unfold next_phase. set (env := envs _). set (s0 := set_field (proj := lp_phase) _ _).
  assert (H0 : loop_inv s0) by exact Hi.
  eapply safe_bind; [by apply ipc_part_inv; [apply envs_ok|exact H0]|]. intros s1 (H1 & E1 & _).
  eapply safe_bind; [by apply flow_part_inv; [apply envs_ok|exact H1]|]. intros s2 (H2 & E2 & _).
  pose proof (eq_trans E2 E1) as Ec. unfold ctl in Ec. clear E1 E2. injection Ec as F1 F2 F3 F4. cbn in F1, F2, F3, F4.
  assert (Hph : phase_from s s2) by (split; [exact H2|split; [exact F4|by rewrite F1]]).
  destruct (IH (left - step)%Z s2) as (s' & Hrun & Hi' & Hp' & Ht' & Hph' & Hend);
    [lia|exact H2|by eapply phase_prompt|].
  exists s'. split; [exact Hrun|]. split; [exact Hi'|]. split; [exact Hp'|]. split; [by rewrite Ht'|].
  split; [lia|]. intros Hns. destruct (Hend Hns) as [G1 G2]. split; [rewrite G1, F3; lia|rewrite G2, F4, En'; lia].
Qed.

(** The main loop: how many rounds it makes and when it ends. *)
Lemma run_loop_spec fuel s :
  loop_inv s -> prompt s -> (0 <= lp_ticks s)%Z -> (ro_max_ticks opts < 4294967296)%Z ->
  ((0 < ro_max_ticks opts)%Z -> (lp_ticks s < ro_max_ticks opts)%Z) ->
  safe_with (fun '(s', ended) => loop_inv s' /\ prompt s' /\
      (ended = false -> lp_phase s + fuel <= lp_phase s') /\
      ((0 < ro_max_ticks opts)%Z -> (lp_ticks s' <= ro_max_ticks opts)%Z /\
         (ended = false -> (lp_ticks s' = lp_ticks s + Z.of_nat fuel)%Z /\ (lp_ticks s' < ro_max_ticks opts)%Z)))
    (run_loop (E := E) envs opts fuel s).
Proof.
  revert s. induction fuel as [|fuel IH]; intros s Hi Hp Ht0 Hmax Ht; cbn [run_loop].
  { apply safe_ret. split; [done|]. split; [done|]. split; [lia|].
    intros Hm. specialize (Ht Hm). split; [lia|]. intros _. split; lia. }
  destruct (lp_stop s) eqn:Es.
  { apply safe_ret. split; [done|]. split; [done|]. split; [done|].
    intros Hm. specialize (Ht Hm). split; [lia|done]. }
  eapply safe_bind; [by apply sample_phase_spec|]. intros [s1 interval] (Hph & Htk & Hsl & _). cbn [fst] in *.
  assert (Hp1 : prompt s1) by by eapply phase_prompt.
  assert (Htk' : (0 < ro_max_ticks opts)%Z -> lp_ticks s1 = (lp_ticks s + 1)%Z).
  { intros Hm. specialize (Ht Hm). rewrite Htk. apply u32_id. split; lia. }
  destruct Hph as (Hi1 & Hph & _).
  destruct ((0 <? ro_max_ticks opts)%Z && (ro_max_ticks opts <=? lp_ticks s1)%Z) eqn:Em.
  { apply andb_true_iff in Em as [Em1 Em2]. apply Z.ltb_lt in Em1. apply Z.leb_le in Em2.
    apply safe_ret. split; [done|]. split; [done|]. split; [done|].
    intros Hm. rewrite (Htk' Hm) in *. specialize (Ht Hm). split; [lia|done]. }
  eapply safe_bind; [apply run_slices_spec; [lia|done..]|]. intros s2 (Hi2 & Hp2 & Ht2 & Hph2 & _).
  assert (Hlt : (0 < ro_max_ticks opts)%Z -> (lp_ticks s2 < ro_max_ticks opts)%Z).
  { intros Hm. rewrite Ht2. rewrite (proj2 (Z.ltb_lt _ _) Hm) in Em. cbn [andb] in Em. by apply Z.leb_gt in Em. }
  assert (Hge : (0 <= lp_ticks s2)%Z) by (rewrite Ht2, Htk; apply u32_range).
  destruct (IH s2 Hi2 Hp2 Hge Hmax Hlt) as ([s' ended] & Hrun & Hi' & Hp' & Hph' & Ht').
  exists (s', ended). split; [exact Hrun|]. split; [exact Hi'|]. split; [exact Hp'|].
  split; [intros He; specialize (Hph' He); lia|]. intros Hm. destruct (Ht' Hm) as [T1 T2]. split; [exact T1|].
  intros He. destruct (T2 He) as [T3 T4]. split; [|exact T4]. rewrite T3, Ht2, (Htk' Hm). lia.
Qed.

Lemma loop_start_inv srv_env (sv : served P C FS) seqs h :
  agent_inv (sv_agent sv) ->
  let s := (loop_start opts srv_env sv seqs h).1 in
  loop_inv s /\ lp_phase s = 0 /\ lp_ticks s = 0%Z /\ lp_hup s = false /\ lp_stop s = false.
Proof.
  intros Ha. unfold loop_start. destruct (ipc_path opts _) as [p|].
  - pose proof (create_clean srv_env true (Some p) (sv_fs sv) (Some (160, EmptyString))) as Hc.
    destruct (cpe_ipc_server_create _ _ _ _ _) as [[[o err] fs] calls]. cbv zeta in *. split; [|done].
    split; [exact Ha|]. cbn. intros srv ->. by destruct Hc as (_ & _ & Hw & _).
  - split; [|done]. by split.
Qed.

(** What every run of the loop gives. *)
Lemma loop_runs_safe fuel srv_env (sv : served P C FS) seqs h :
  agent_inv (sv_agent sv) -> (ro_max_ticks opts < 4294967296)%Z ->
  safe_with (fun '(s', ended, _) =>
      agent_inv (lp_agent s') /\
      (forall k, le_stop (envs k) = true -> lp_phase s' <= S k /\ (S k < fuel -> ended = true)) /\
      ((0 < ro_max_ticks opts)%Z -> (lp_ticks s' <= ro_max_ticks opts)%Z /\
         ((ro_max_ticks opts <= Z.of_nat fuel)%Z -> ended = true)))
    (cpe_agent_run_uv (E := E) envs opts fuel srv_env sv seqs h).
Proof.
  intros Ha Hmax. unfold cpe_agent_run_uv. pose proof (loop_start_inv srv_env sv seqs h Ha) as Hs.
  destruct (loop_start opts srv_env sv seqs h) as [s calls]. cbn [fst] in Hs. cbv zeta in Hs.
  destruct Hs as (Hi & Hph & Htk & _).
  assert (Hp : prompt s) by (intros j Hj; lia).
  eapply safe_bind; [apply run_loop_spec; [exact Hi|exact Hp|lia|exact Hmax|lia]|].
  intros [s' ended] ([Hi' _] & Hp' & Hph' & Htk'). apply safe_ret. split; [exact Hi'|]. split.
  - intros k Hk. split.
    + destruct (decide (k < lp_phase s')) as [Hlt|]; [|lia]. destruct (Hp' k Hlt Hk) as [Heq _]. lia.
    + intros Hf. destruct ended; [done|]. specialize (Hph' eq_refl).
      destruct (Hp' k ltac:(lia) Hk) as [Heq _]. lia.
  - intros Hm. destruct (Htk' Hm) as [T1 T2]. split; [exact T1|]. intros Hf. destruct ended; [done|].
    destruct (T2 eq_refl) as [T3 T4]. lia.
Qed.

(** C2: The daemon's main loop, run from any consistent agent, is memory safe and keeps
    the agent's invariant through reloads, samples, flushes, control requests and flow
    ticks.  A stop signal ends it: nothing is begun after the iteration or slice in which
    the signal arrived.  With a limit on the ticks (below 2^32) it never samples more often
    than that, and returns.  The sockets, files and signals answer as they like, within
    what is assumed in every round: NFLOG datagrams are bytes whose number is a multiple of
    four (an unpadded control message is read past its end, lemma
    [nflog_walk_control_overrun]), conntrack datagrams are bytes, the millisecond clock is
    below 2^64 - 1, the library's events are within the ranges of their types and its queue
    is finite, and a file that loads gives a configuration without negative sizes. *)
Theorem agent_loop_runs fuel srv_env (sv : served P C FS) seqs h :
  agent_inv (sv_agent sv) -> (ro_max_ticks opts < 4294967296)%Z ->
  safe_with (fun '(s', ended, _) =>
      agent_inv (lp_agent s') /\
      (forall k, le_stop (envs k) = true -> lp_phase s' <= S k /\ (S k < fuel -> ended = true)) /\
      ((0 < ro_max_ticks opts)%Z -> (lp_ticks s' <= ro_max_ticks opts)%Z /\
         ((ro_max_ticks opts <= Z.of_nat fuel)%Z -> ended = true)))
    (cpe_agent_run_uv (E := E) envs opts fuel srv_env sv seqs h).
Proof. exact (loop_runs_safe fuel srv_env sv seqs h). Qed.

(** Between two samples the loop sleeps exactly the interval of the configuration in
    force, a reload just made included, in slices of at most 200 ms that each serve the
    control socket and flow accounting, unless a stop signal cuts it short. *)
Theorem loop_paces_samples (s : loop_state) :
  loop_inv s -> prompt s -> lp_stop s = false ->
  safe_with (fun '(s', interval) =>
      interval = dflt (demo_interval_ms (ag_cfg (lp_agent s'))) 5000 /\
      safe_with (fun s2 => lp_stop s2 = false -> lp_slept s2 = (lp_slept s + Z.max 0 interval)%Z /\
                   lp_phase s2 = lp_phase s + 1 + Z.to_nat ((interval + 199) / 200) /\ lp_ticks s2 = u32 (lp_ticks s + 1))
        (run_slices envs (S (slices interval)) interval s'))
    (sample_phase (E := E) envs opts s).
Proof.
  intros Hi Hp Es.
  destruct (sample_phase_spec s Hi) as ([s1 interval] & Hrun & Hfrom & Htk & Hsl & Hint). exists (s1, interval).
  split; [exact Hrun|]. split; [exact Hint|]. cbn [fst] in *.
  destruct (run_slices_spec (S (slices interval)) interval s1 ltac:(lia) (proj1 Hfrom) ltac:(by eapply phase_prompt))
    as (s2 & Hrun2 & _ & _ & Ht2 & _ & Hend).
  exists s2. split; [exact Hrun2|]. intros Hns. destruct (Hend Hns) as [G1 G2].
  split; [by rewrite G1, Hsl|]. split; [|by rewrite Ht2]. rewrite G2, (proj1 (proj2 Hfrom)). unfold slices, IPC_SLICE.
  by replace (interval + 200 - 1)%Z with (interval + 199)%Z by lia.
Qed.
End loop_spec.

(** ** Instances *)
#[local] Existing Instances toy_source toy_lib toy_ping toy_ping_events qsort_isort.

(** Nothing arrives, nothing can be opened; the third iteration or slice brings SIGTERM. *)
Definition quiet (k : nat) : loop_env := {|
  le_hup := k =? 1; le_stop := k =? 2; le_load := fun _ e => ((-1)%Z, None, e);
  le_open := toy_open; le_calloc := toy_calloc;
  le_icmp := toy_icmp (-1) []; le_clk := flow_clk; le_emit := refusing; le_emit_tcp := refusing;
  le_nflog := env_ok; le_recvs := []; le_flow := toy_env;
  le_poll := {| pe_accepts := []; pe_recv := fun _ => ClAgain; pe_sends := fun _ => [] |};
  le_ipc := fun _ => toy_ipc |}.
Lemma quiet_ok k : loop_env_ok (quiet k).
Proof.
  destruct toy_ipc_ok as (_ & He & Hr & Ht).
  refine (conj _ (conj He (conj Hr (conj Ht (conj (fun _ => toy_ipc_ok) _))))); [by constructor|done].
Qed.
Definition no_opts : cpe_agent_run_opts := {|
  ro_max_ticks := 0; ro_config_path := None; ro_router_id_override := None; ro_ipc_socket_override := None;
  ro_ipc_disable := 1 |}.
Definition no_server : server_env :=
  {| se_calloc := false; se_socket := -1; se_socket_err := EmptyString; se_bind_err := None; se_listen_err := None |}.

Lemma agent_loop_runs_witness :
  exists a, new_agent = Some a /\
    safe_with (fun '(s', ended, _) => ended = true /\ lp_phase s' <= 3)
      (cpe_agent_run_uv (E := unit) quiet no_opts 4 no_server (serving a) (0%Z, 0%Z) cpe_host_alloc_reset_stats).
Proof.
  unfold new_agent. destruct (cpe_agent_create true toy_calloc cpe_host_alloc_reset_stats) as [[a|] h] eqn:Ec;
    [|vm_compute in Ec; discriminate].
  exists a. split; [reflexivity|].
  destruct (agent_loop_runs (E := unit) quiet no_opts toy_events_ok quiet_ok 4 no_server (serving a) (0%Z, 0%Z)
    cpe_host_alloc_reset_stats (create_inv _ _ _ _ Ec) ltac:(done)) as ([[s' ended] calls] & Hrun & _ & Hstop & _).
  exists (s', ended, calls). split; [exact Hrun|]. destruct (Hstop 2 eq_refl) as [H1 H2]. split; [apply H2; lia|exact H1].
Defined.
Lemma loop_paces_samples_witness :
  exists a, new_agent = Some a /\
    let s := (loop_start no_opts no_server (serving a) (0%Z, 0%Z) cpe_host_alloc_reset_stats).1 in
    safe_with (fun '(s', interval) => safe_with
        (fun s2 => lp_stop s2 = false -> lp_slept s2 = (lp_slept s + Z.max 0 interval)%Z)
        (run_slices quiet (S (slices interval)) interval s'))
      (sample_phase (E := unit) quiet no_opts s).
Proof.
  unfold new_agent. destruct (cpe_agent_create true toy_calloc cpe_host_alloc_reset_stats) as [[a|] h] eqn:Ec;
    [|vm_compute in Ec; discriminate].
  exists a. split; [reflexivity|]. cbv zeta.
  destruct (loop_start_inv no_opts no_server (serving a) (0%Z, 0%Z) cpe_host_alloc_reset_stats (create_inv _ _ _ _ Ec))
    as (Hi & Hph & _ & _ & Hs).
  destruct (loop_paces_samples (E := unit) quiet no_opts toy_events_ok quiet_ok _ Hi ltac:(intros j Hj; lia) Hs)
    as ([s' interval] & Hrun & _ & s2 & Hrun2 & Hend).
  exists (s', interval). split; [exact Hrun|]. exists s2. split; [exact Hrun2|]. intros Hns. exact (proj1 (Hend Hns)).
Defined.
