(* ===== verification/AgentLoopUv.v ===== *)
(** * The libuv event loop (src/agent/agent_loop.c)

    The two timer callbacks, the signal callbacks, the setup and the end of
    [cpe_agent_run_uv].  The order in which libuv runs the callbacks is not known: the loop is
    a step relation that allows any order, and the theorems hold of every context it reaches. *)

From S2P Require Import Prelude CStr HostAlloc SpoolDir Config Spool Events PerfSample Nflog TcpStats TcpEmit TcpInv.
From S2P Require Import Nfct FlowEntry FlowTable FlowAcct Clock AgentData Agent AgentConfig LivePing LiveTrace AgentRun.
From S2P Require Import IpcRequest IpcServer AgentLoop.

(** [cpe_uv_ctx_t], the flags and the state the callbacks share with the other loop in
    [uc_loop].  The sample timer fires next after [uc_due], then every [uc_repeat]
    milliseconds. *)
Record uv_ctx (P C FS : Type) := {
  uc_loop : loop_state P C FS;
  uc_due : Z;
  uc_repeat : Z;
  uc_last_interval : Z;
  uc_ipc_timer : bool;   (* the 200 ms timer runs *)
  uc_stopped : bool;     (* [uv_stop] was called *)
}.
Arguments uc_loop {P C FS}. Arguments uc_due {P C FS}. Arguments uc_repeat {P C FS}.
Arguments uc_last_interval {P C FS}. Arguments uc_ipc_timer {P C FS}. Arguments uc_stopped {P C FS}.
#[export] Instance eta_uv_ctx P C FS : Eta (uv_ctx P C FS) := fun c => {|
  uc_loop := uc_loop c; uc_due := uc_due c; uc_repeat := uc_repeat c; uc_last_interval := uc_last_interval c;
  uc_ipc_timer := uc_ipc_timer c; uc_stopped := uc_stopped c |}.

(** What libuv answers during the setup. *)
Record uv_env := {
  uv_default_loop : bool;
  uv_timer_init : Z;
  uv_timer_start : Z;
  uv_ipc_timer_init : Z;
}.

Section uv.
Context {P C FS : Type} `{!PingLib P} {E : Type} `{!EventSource P E} `{!NfctLib C} `{!EventSource C nfct_event}
  `{!QSort} `{!FileSystem FS}.
Local Abbreviation ctx := (uv_ctx P C FS).
Context (opts : cpe_agent_run_opts).

(** The interval of the configuration in force. *)
Definition interval_of (s : loop_state P C FS) : Z := dflt (demo_interval_ms (ag_cfg (lp_agent s))) 5000.
Definition set_loop (c : ctx) (s : loop_state P C FS) : ctx := c <| uc_loop := s |>.

(** A changed interval restarts the timer, to fire at once and then periodically. *)
Definition rearm_timer (c : ctx) : ctx :=
  let interval := interval_of (uc_loop c) in
  if (interval =? uc_last_interval c)%Z then c
  else c <| uc_last_interval := interval |> <| uc_due := 0%Z |> <| uc_repeat := interval |>.

(** The request to reload, taken once. *)
Definition cpe_agent_hup_take (s : loop_state P C FS) : bool * loop_state P C FS :=
  if lp_hup s then (true, s <| lp_hup := false |>) else (false, s).
Definition handle_hup (env : loop_env) (c : ctx) : ctx :=
  let '(taken, s) := cpe_agent_hup_take (uc_loop c) in
  if negb taken then c
  else
    let '(rc, a, h, _) := cpe_agent_reload_config (le_load env) (le_open env) (le_calloc env) (lp_heap s) (lp_agent s)
                            (ro_config_path opts) (ro_router_id_override opts) (Some (160, EmptyString)) in
    let c := set_loop c (drain_events (set_agent (s <| lp_heap := h |>) a)) in
    if negb (rc =? 0)%Z then c else rearm_timer c.

(** The handlers of a signal, a hang-up or another: libuv's and the one that
    [cpe_agent_hup_install] puts in its place for the hang-up. *)
Definition on_signal_uv (hup : bool) (c : ctx) : ctx :=
  let s := uc_loop c in set_loop c (if hup then s <| lp_hup := true |> else s <| lp_stop := true |>).
Definition hup_handler (hup : bool) (s : loop_state P C FS) : loop_state P C FS :=
  if hup then s <| lp_hup := true |> else s <| lp_stop := true |>.

Definition on_timer (env : loop_env) (c : ctx) : chk ctx :=
  if lp_stop (uc_loop c) then mret (c <| uc_stopped := true |>)
  else
    let c := handle_hup env c in
    s ← sample_part (E := E) env (uc_loop c);
    s ← tcp_part env s;
    let s := drain_events s in
    let s := s <| lp_ticks := u32 (lp_ticks s + 1) |> in
    let c := set_loop c s in
    mret (if (0 <? ro_max_ticks opts)%Z && (ro_max_ticks opts <=? lp_ticks s)%Z then c <| uc_stopped := true |> else c).

Definition on_ipc_timer (env : loop_env) (c : ctx) : chk ctx :=
  if lp_stop (uc_loop c) then mret (c <| uc_stopped := true |>)
  else
    s ← ipc_part env (uc_loop c);
    s ← flow_part env s;
    mret (set_loop c s).

(** The setup: the context the loop starts with, or none ([return 1]), and the calls made. *)
Definition run_uv_setup (uv : uv_env) (srv_env : server_env) (sv : served P C FS) (seqs : Z * Z) (h : alloc_stats)
    : option ctx * list sys_call :=
  let '(s, calls) := loop_start opts srv_env sv seqs h in
  let failed := (None, calls ++ cpe_ipc_server_destroy (lp_ipc s)) in
  if negb (uv_default_loop uv) then failed
  else if negb (uv_timer_init uv =? 0)%Z then failed
  else if negb (uv_timer_start uv =? 0)%Z then failed
  else (Some {| uc_loop := s; uc_due := 10; uc_repeat := interval_of s; uc_last_interval := interval_of s;
                uc_ipc_timer := (uv_ipc_timer_init uv =? 0)%Z; uc_stopped := false |}, calls).

(** libuv re-arms a repeating timer before it calls its callback. *)
Definition fired (c : ctx) : ctx := c <| uc_due := uc_repeat c |>.

(** One callback, in whatever order libuv finds the handles ready.  [uv_stop] ends the loop
    only after its current iteration, so a callback may still follow it. *)
Inductive uv_step (c : ctx) : ctx -> Prop :=
  | uv_signal hup : uv_step c (on_signal_uv hup c)
  | uv_hangup : uv_step c (set_loop c (hup_handler true (uc_loop c)))
  | uv_sample env c' : loop_env_ok env -> on_timer env (fired c) = Safe c' -> uv_step c c'
  | uv_slice env c' : uc_ipc_timer c = true -> loop_env_ok env -> on_ipc_timer env c = Safe c' -> uv_step c c'.

(** A whole run, without an agent, with a setup that failed, or until the loop was stopped:
    what it returns, the context it ends in and the calls on the control socket. *)
Inductive cpe_agent_run_uv (uv : uv_env) (srv_env : server_env) (seqs : Z * Z) (h : alloc_stats) :
    option (served P C FS) -> Z -> option ctx -> list sys_call -> Prop :=
  | run_no_agent : cpe_agent_run_uv uv srv_env seqs h None 1 None []
  | run_not_set_up sv calls :
      run_uv_setup uv srv_env sv seqs h = (None, calls) -> cpe_agent_run_uv uv srv_env seqs h (Some sv) 1 None calls
  | run_stopped sv c0 calls c :
      run_uv_setup uv srv_env sv seqs h = (Some c0, calls) -> star uv_step c0 c -> uc_stopped c = true ->
      cpe_agent_run_uv uv srv_env seqs h (Some sv) 0 (Some c) (calls ++ cpe_ipc_server_destroy (lp_ipc (uc_loop c))).

(** ** What every context satisfies *)
Hypothesis event_ok : forall (c : C) e c', next_event c = (Some e, c') -> nfct_event_ok e.

Record uv_inv (c : ctx) : Prop := {
  ui_loop : loop_inv (uc_loop c);
  ui_repeat : uc_repeat c = interval_of (uc_loop c);
  ui_last : uc_last_interval c = interval_of (uc_loop c);
}.

Lemma reload_failed_cfg load env calloc h (a : agent P C) path override err :
  let '(rc, a', _, _) := cpe_agent_reload_config load env calloc h a path override err in
  rc <> 0%Z -> ag_cfg a' = ag_cfg a.
Proof.
  unfold cpe_agent_reload_config. destruct (reload_source load a path err) as [[rc cfg] e].
  destruct (negb (rc =? 0)%Z); [done|]. cbv zeta. destruct (match _ with Some r => _ <=? _ | None => false end); [done|].
  match goal with |- context [cpe_agent_apply_config env calloc h a ?c] => set (cfg1 := c) end.
  assert (Hc : let '(r, a', _) := cpe_agent_apply_config env calloc h a cfg1 in r <> 0%Z -> ag_cfg a' = ag_cfg a).
  { unfold cpe_agent_apply_config. destruct (cpe_agent_config_validate _ _) as [rv ev]. destruct (negb _); [done|].
    cbv zeta. destruct (if negb _ then _ else _) as [[r2 q] h2]. by destruct (negb _). }
  destruct (cpe_agent_apply_config env calloc h a cfg1) as [[r a'] h'].
  destruct (Z.eqb_spec r 0); cbn [negb]; [done|]. intros _. by apply Hc.
Qed.

Lemma rearm_timer_inv c : loop_inv (uc_loop c) -> uc_repeat c = uc_last_interval c -> uv_inv (rearm_timer c).
Proof.
  intros Hi He. unfold rearm_timer. destruct (Z.eqb_spec (interval_of (uc_loop c)) (uc_last_interval c)) as [Heq|].
  - constructor; [done|by rewrite He|done].
  - by constructor.
Qed.

Lemma handle_hup_uv_inv env c : loop_env_ok env -> uv_inv c -> uv_inv (handle_hup env c).
Proof.
  intros (_ & _ & _ & _ & _ & Hload) [[Ha Hsrv] Hr Hl]. unfold handle_hup, cpe_agent_hup_take.
  destruct (lp_hup (uc_loop c)); cbn [negb]; [|done]. cbv zeta.
  pose proof (reload_inv (le_load env) (le_open env) (le_calloc env) (lp_heap (uc_loop c)) (lp_agent (uc_loop c))
    (ro_config_path opts) (ro_router_id_override opts) (Some (160, EmptyString)) Hload Ha) as Hinv.
  pose proof (reload_failed_cfg (le_load env) (le_open env) (le_calloc env) (lp_heap (uc_loop c)) (lp_agent (uc_loop c))
    (ro_config_path opts) (ro_router_id_override opts) (Some (160, EmptyString))) as Hfail.
  destruct (cpe_agent_reload_config _ _ _ _ _ _ _ _) as [[[rc a] h] err]. cbn [fst snd] in Hinv.
  match goal with |- context [drain_events ?x] => destruct (drain_events_inv x) as (H1 & _ & H2); [by split|] end.
  destruct (Z.eqb_spec rc 0) as [->|Hne]; cbn [negb].
  - apply rearm_timer_inv; [exact H1|]. cbn. by rewrite Hr, Hl.
  - constructor; [exact H1|..]; unfold interval_of, set_loop; cbn [uc_loop uc_repeat uc_last_interval set_field];
      rewrite H2; cbn; rewrite (Hfail Hne); assumption.
Qed.

Lemma set_loop_inv c s s' :
  uv_inv c -> uc_loop c = s -> kept_by s s' -> uv_inv (set_loop c s').
Proof.
  intros [Hi Hr Hl] <- (H1 & _ & H2). constructor; [exact H1|..]; unfold interval_of, set_loop; cbn; rewrite H2; done.
Qed.

Lemma on_timer_inv env c : loop_env_ok env -> uv_inv c -> safe_with uv_inv (on_timer env c).
Proof.
  intros He Hc. unfold on_timer. destruct (lp_stop (uc_loop c)); [apply safe_ret; by destruct Hc|].
  pose proof (handle_hup_uv_inv env c He Hc) as H1. set (c1 := handle_hup env c) in *. cbv zeta.
  eapply safe_bind; [by apply sample_part_inv, ui_loop|]. intros s2 K2.
  eapply safe_bind; [apply tcp_part_inv; [exact He|apply K2]|]. intros s3 K3.
  pose proof (kept_trans _ _ _ K2 (fun _ => kept_trans _ _ _ K3 (fun Hi => drain_events_inv s3 Hi))) as K.
  pose proof (set_loop_inv c1 _ _ H1 eq_refl K) as H2. apply safe_ret.
  assert (H3 : uv_inv (set_loop c1 ((drain_events s3) <| lp_ticks := u32 (lp_ticks (drain_events s3) + 1) |>)))
    by by destruct H2.
  destruct (_ && _); [by destruct H3|done].
Qed.
Lemma on_ipc_timer_inv env c : loop_env_ok env -> uv_inv c -> safe_with uv_inv (on_ipc_timer env c).
Proof.
  intros He Hc. unfold on_ipc_timer. destruct (lp_stop (uc_loop c)); [apply safe_ret; by destruct Hc|].
  eapply safe_bind; [by apply ipc_part_inv; [..|apply ui_loop]|]. intros s2 K2.
  eapply safe_bind; [apply flow_part_inv; [exact event_ok|exact He|apply K2]|]. intros s3 K3. apply safe_ret.
  exact (set_loop_inv c _ _ Hc eq_refl (kept_trans _ _ _ K2 (fun _ => K3))).
Qed.

Lemma uv_step_inv c c' : uv_inv c -> uv_step c c' -> uv_inv c'.
Proof.
  intros Hc Hst. destruct Hst as [hup| |env c' He Hrun|env c' _ He Hrun].
  - destruct Hc. by destruct hup.
  - by destruct Hc.
  - destruct (on_timer_inv env (fired c) He) as (c2 & Hrun2 & H2); [by destruct Hc|].
    rewrite Hrun in Hrun2. by injection Hrun2 as ->.
  - destruct (on_ipc_timer_inv env c He Hc) as (c2 & Hrun2 & H2). rewrite Hrun in Hrun2. by injection Hrun2 as ->.
Qed.

Lemma run_uv_setup_inv uv srv_env sv seqs h c calls :
  agent_inv (sv_agent sv) -> run_uv_setup uv srv_env sv seqs h = (Some c, calls) -> uv_inv c.
Proof.
  intros Ha. unfold run_uv_setup. pose proof (loop_start_inv opts srv_env sv seqs h Ha) as Hs.
  destruct (loop_start opts srv_env sv seqs h) as [s calls0]. cbn [fst] in Hs. cbv zeta in Hs. destruct Hs as (Hi & _).
  destruct (negb _); [done|]. destruct (negb _); [done|]. destruct (negb _); [done|]. intros [= <- _]. by constructor.
Qed.

(** C10: Under libuv too, whatever the order in which timers and signals are served: in
    every context the daemon reaches the agent is consistent, and the sample timer repeats
    at the interval of the configuration in force, so no reload that succeeds leaves it at
    the old interval and none that fails changes it.  There both timer callbacks are memory
    safe and return, for any answers in which NFLOG datagrams are bytes whose number is a
    multiple of four (an unpadded control message is read past its end, lemma
    [nflog_walk_control_overrun]), conntrack datagrams are bytes, the millisecond clock is
    below 2^64 - 1, the library's events are within the ranges of their types and its queue
    is finite, and a file that loads gives a configuration without negative sizes; the
    contexts are those reached with such answers.  Once a stop signal was seen, a callback
    does nothing but stop the loop. *)
Theorem uv_loop_runs uv srv_env sv seqs h c0 calls c :
  agent_inv (sv_agent sv) -> run_uv_setup uv srv_env sv seqs h = (Some c0, calls) -> star uv_step c0 c ->
  agent_inv (lp_agent (uc_loop c)) /\ uc_repeat c = interval_of (uc_loop c) /\
  (forall env, loop_env_ok env ->
     safe_with uv_inv (on_timer env (fired c)) /\ safe_with uv_inv (on_ipc_timer env c)) /\
  (lp_stop (uc_loop c) = true -> forall env,
     on_timer env (fired c) = Safe ((fired c) <| uc_stopped := true |>) /\
     on_ipc_timer env c = Safe (c <| uc_stopped := true |>)).
Proof.
  intros Ha Hset Hst.
  assert (Hc : uv_inv c) by exact (star_invariant uv_step uv_inv uv_step_inv _ _ Hst (run_uv_setup_inv _ _ _ _ _ _ _ Ha Hset)).
  split; [apply Hc|]. split; [apply Hc|]. split.
  - intros env He. split; [apply on_timer_inv; [exact He|by destruct Hc]|by apply on_ipc_timer_inv].
  - intros Hs env. unfold on_timer, on_ipc_timer. change (uc_loop (fired c)) with (uc_loop c). by rewrite Hs.
Qed.

(** A whole run returns 0 with a consistent agent once the loop was stopped, and 1 when it did
    not start. *)
Lemma uv_run_ends uv srv_env seqs h osv rc r calls :
  (forall sv, osv = Some sv -> agent_inv (sv_agent sv)) -> cpe_agent_run_uv uv srv_env seqs h osv rc r calls ->
  match r with Some c => rc = 0%Z /\ uv_inv c /\ uc_stopped c = true | None => rc = 1%Z end.
Proof.
  intros Ha. destruct 1 as [|sv calls Hset|sv c0 calls c Hset Hst Hend]; [done|done|]. split; [done|]. split; [|exact Hend].
  eapply (star_invariant uv_step uv_inv uv_step_inv); [exact Hst|]. eapply run_uv_setup_inv; [|exact Hset]. by apply Ha.
Qed.
End uv.

(** ** Instances *)
#[local] Existing Instances toy_source toy_lib toy_ping toy_ping_events qsort_isort.
Definition toy_uv : uv_env := {| uv_default_loop := true; uv_timer_init := 0; uv_timer_start := 0; uv_ipc_timer_init := 0 |}.
Lemma uv_loop_runs_witness :
  exists a c0, new_agent = Some a /\
    (run_uv_setup no_opts toy_uv no_server (serving a) (0%Z, 0%Z) cpe_host_alloc_reset_stats).1 = Some c0 /\
    on_ipc_timer (quiet 0) (on_signal_uv false c0) = Safe ((on_signal_uv false c0) <| uc_stopped := true |>).
Proof.
  unfold new_agent. destruct (cpe_agent_create true toy_calloc cpe_host_alloc_reset_stats) as [[a|] h] eqn:Ec;
    [|vm_compute in Ec; discriminate].
  destruct (run_uv_setup no_opts toy_uv no_server (serving a) (0%Z, 0%Z) cpe_host_alloc_reset_stats) as [[c0|] calls] eqn:Es;
    [|revert Es; unfold run_uv_setup; destruct (loop_start _ _ _ _ _); discriminate].
  exists a, c0. split; [reflexivity|]. split; [rewrite Es; reflexivity|].
  destruct (uv_loop_runs (E := unit) no_opts toy_events_ok toy_uv no_server (serving a) (0%Z, 0%Z)
    cpe_host_alloc_reset_stats c0 calls (on_signal_uv false c0) (create_inv _ _ _ _ Ec) Es
    (star_step _ _ _ _ (uv_signal no_opts c0 false) (star_refl _ _))) as (_ & _ & _ & Hstop).
  exact (proj2 (Hstop eq_refl (quiet 0))).
Defined.
