(* ===== verification/AgentMain.v ===== *)
(** * The process entry (src/agent/main.c)

    The command line, the start-up sequence and the three ways the process runs: one sample
    ([--once]), Lua, and the daemon with the portable event loop.  What a build does with the
    Lua options is a parameter: [lua_unavailable] here, [LuaMain.run_lua] in a build with the
    interpreter.  [getopt_long] is the sequence of its results: the option letter and its
    argument. *)

From Stdlib Require Import Ascii.
From S2P Require Import Prelude CStr Float754 HostAlloc SpoolDir Config Spool Events PerfSample Nflog TcpStats TcpEmit TcpInv.
From S2P Require Import Nfct FlowEntry FlowTable FlowAcct Clock AgentData Agent AgentConfig LivePing LiveTrace AgentRun.
From S2P Require Import IpcRequest IpcServer AgentLoop.

(** The local variables of [main] that the options set. *)
Record cli := {
  cl_config_path : option string;
  cl_router_override : option string;
  cl_history_path : option string;
  cl_lua_eval : option string;
  cl_lua_file : option string;
  cl_ipc_socket : option string;
  cl_force_demo : Z;
  cl_once : Z;
  cl_lua_repl : Z;
  cl_no_ipc : Z;
}.
#[export] Instance eta_cli : Eta cli := fun c => {|
  cl_config_path := cl_config_path c; cl_router_override := cl_router_override c; cl_history_path := cl_history_path c;
  cl_lua_eval := cl_lua_eval c; cl_lua_file := cl_lua_file c; cl_ipc_socket := cl_ipc_socket c;
  cl_force_demo := cl_force_demo c; cl_once := cl_once c; cl_lua_repl := cl_lua_repl c; cl_no_ipc := cl_no_ipc c |}.
Definition no_cli : cli := {|
  cl_config_path := None; cl_router_override := None; cl_history_path := None; cl_lua_eval := None; cl_lua_file := None;
  cl_ipc_socket := None; cl_force_demo := 0; cl_once := 0; cl_lua_repl := 0; cl_no_ipc := 0 |}.

(** One option: the variables, or the exit code after the usage text. *)
Definition parse_opt (opt : ascii) (optarg : string) (c : cli) : cli + Z :=
  (match opt with
   | "c" => inl (c <| cl_config_path := Some optarg |>)
   | "r" => inl (c <| cl_router_override := Some optarg |>)
   | "d" => inl (c <| cl_force_demo := 1%Z |>)
   | "1" => inl (c <| cl_once := 1%Z |>)
   | "i" => inl (c <| cl_lua_repl := 1%Z |>)
   | "e" => inl (c <| cl_lua_eval := Some optarg |>)
   | "f" => inl (c <| cl_lua_file := Some optarg |>)
   | "H" => inl (c <| cl_history_path := Some optarg |>)
   | "S" => inl (c <| cl_ipc_socket := Some optarg |>)
   | "N" => inl (c <| cl_no_ipc := 1%Z |>)
   | "h" => inr 0%Z
   | _ => inr 1%Z
   end)%char.
Fixpoint parse_opts (opts : list (ascii * string)) (c : cli) : cli + Z :=
  match opts with
  | [] => inl c
  | (o, arg) :: rest => match parse_opt o arg c with inl c => parse_opts rest c | inr rc => inr rc end
  end.

(** What the outside world answers before the event loop runs. *)
Record main_env := {
  me_calloc_agent : bool;
  me_calloc : Z -> option addr;
  me_load : option string -> errbuf -> Z * option cpe_agent_config * errbuf;
  me_open : open_env;        (* the reload *)
  me_open_demo : open_env;   (* forcing the demo mode *)
  me_clk : clock;
  me_emit : emit_env;
  me_srv : server_env;
}.

(** How the process ended: its exit code (none while the loop still runs), what it printed,
    the descriptors [cpe_agent_destroy] closed and the control socket's calls. *)
Record main_result (FS : Type) := {
  mr_exit : option Z;
  mr_out : list string;
  mr_fs : FS;
  mr_closed : list Z;
  mr_calls : list sys_call;
  mr_heap : alloc_stats;
}.
Arguments mr_exit {FS}. Arguments mr_out {FS}. Arguments mr_fs {FS}. Arguments mr_closed {FS}. Arguments mr_calls {FS}.
Arguments mr_heap {FS}.

Section main.
Context {P C FS : Type} `{!PingLib P} {E : Type} `{!EventSource P E} `{!NfctLib C} `{!EventSource C nfct_event}
  `{!QSort} `{!FileSystem FS}.
Local Abbreviation agent := (agent P C).
Context (envs : nat -> loop_env) (env : main_env).

(** [cpe_agent_destroy] and the return. *)
Definition leave (rc : Z) (a : option agent) (out : list string) (fs : FS) (calls : list sys_call) (h : alloc_stats)
    : main_result FS :=
  let '(closed, h) := cpe_agent_destroy a h in
  {| mr_exit := Some rc; mr_out := out; mr_fs := fs; mr_closed := closed; mr_calls := calls; mr_heap := h |}.

Definition drained (a : agent) : agent := a <| ag_q := drain_queue (eq_cnt (ag_q a) + 1) (ag_q a) |>.

(** The configured agent, or the agent to destroy on the way to [return 1]. *)
Definition start_agent (c : cli) (h : alloc_stats) : (agent + option agent) * alloc_stats :=
  match cpe_agent_create (me_calloc_agent env) (me_calloc env) h with
  | (None, h) => (inr None, h)
  | (Some a, h) =>
      let '(rc, a, h, _) := cpe_agent_reload_config (me_load env) (me_open env) (me_calloc env) h a
                              (cl_config_path c) (cl_router_override c) (Some (256, EmptyString)) in
      if negb (rc =? 0)%Z then (inr (Some (drained a)), h)
      else if truthy (cl_force_demo c) || truthy (cl_once c) then
        let '(rc, a, h) := cpe_agent_apply_config (me_open_demo env) (me_calloc env) h a
                             ((ag_cfg a) <| demo_mode := 1%Z |>) in
        if negb (rc =? 0)%Z then (inr (Some a), h) else (inl (drained a), h)
      else (inl (drained a), h)
  end.

(** [--once]: one demo sample, flushed. *)
Definition run_once (a : agent) (fs : FS) (h : alloc_stats) (seq : Z) : main_result FS :=
  let '(rc, a, _) := cpe_agent_demo_ping_tick (E := E) a seq (me_clk env) in
  if negb (rc =? 0)%Z then leave 1 (Some a) [] fs [] h
  else
    let '(n, a, out, fs) := cpe_agent_emit_flush (me_emit env) fs a in
    if (n <? 0)%Z then leave 1 (Some a) out fs [] h else leave 0 (Some (drained a)) out fs [] h.

Definition wants_lua (c : cli) : bool :=
  truthy (cl_lua_repl c) || negb (match cl_lua_eval c, cl_lua_file c with None, None => true | _, _ => false end).
Definition run_opts_of (c : cli) : cpe_agent_run_opts := {|
  ro_max_ticks := 0; ro_config_path := cl_config_path c; ro_router_id_override := cl_router_override c;
  ro_ipc_socket_override := cl_ipc_socket c; ro_ipc_disable := cl_no_ipc c |}.

(** The daemon; the event loop's result is zero once it was left. *)
Definition run_daemon (fuel : nat) (c : cli) (a : agent) (fs : FS) (h : alloc_stats) (seqs : Z * Z)
    : chk (main_result FS) :=
  r ← cpe_agent_run_uv (E := E) envs (run_opts_of c) fuel (me_srv env) {| sv_agent := a; sv_fs := fs; sv_out := [] |} seqs h;
  let '(s, ended, calls) := r in
  mret (if (ended : bool) then leave 0 (Some (lp_agent s)) (sv_out (lp_sv s)) (sv_fs (lp_sv s)) calls (lp_heap s)
        else {| mr_exit := None; mr_out := sv_out (lp_sv s); mr_fs := sv_fs (lp_sv s); mr_closed := [];
                mr_calls := calls; mr_heap := lp_heap s |}).

(** [main]: the options, the agent, and the way to run; [run_lua] is what a build does with
    the Lua options.  [seqs] are the static sequence numbers the probes start from. *)
Definition main_with (run_lua : cli -> agent -> FS -> alloc_stats -> Z * Z -> chk (main_result FS))
    (fuel : nat) (opts : list (ascii * string)) (fs : FS) (h : alloc_stats) (seqs : Z * Z) : chk (main_result FS) :=
  match parse_opts opts no_cli with
  | inr rc => mret (leave rc None [] fs [] h)
  | inl c =>
      match start_agent c h with
      | (inr a, h) => mret (leave 1 a [] fs [] h)
      | (inl a, h) =>
          if truthy (cl_once c) then mret (run_once a fs h seqs.1)
          else if wants_lua c then run_lua c a fs h seqs
          else run_daemon fuel c a fs h seqs
      end
  end.
(** The build without Lua, where [cpe_lua_create] returns [NULL]. *)
Definition lua_unavailable (c : cli) (a : agent) (fs : FS) (h : alloc_stats) (seqs : Z * Z) : chk (main_result FS) :=
  mret (leave 1 (Some a) [] fs [] h).
Definition cpe_agent_main := main_with lua_unavailable.
End main.

(** ** Starting up *)

Lemma parse_opts_exit opts c rc : parse_opts opts c = inr rc -> rc = 0%Z \/ rc = 1%Z.
Proof.
  revert c. induction opts as [|[o arg] opts IH]; intros c; [done|]. cbn [parse_opts].
  destruct (parse_opt o arg c) as [c1|rc1] eqn:Eo; [apply IH|]. intros [= <-]. revert Eo.
  unfold parse_opt. repeat case_match; intros [= <-]; auto.
Qed.

Section spec.
Context {P C FS : Type} `{!PingLib P} {E : Type} `{!EventSource P E} `{!NfctLib C} `{!EventSource C nfct_event}
  `{!QSort} `{!FileSystem FS}.
Local Abbreviation agent := (agent P C).
Context (envs : nat -> loop_env) (env : main_env).
Hypothesis event_ok : forall (c : C) e c', next_event c = (Some e, c') -> nfct_event_ok e.
Hypothesis envs_ok : forall n, loop_env_ok (envs n).
Hypothesis load_ok : forall p e c, (me_load env p e).1.2 = Some c -> config_ok c.

(** A consistent agent whose spool is allocated and empty. *)
Definition fresh (a : agent) : Prop := agent_inv a /\ pending (ag_q a) = [] /\ spool_cap (ag_q a) <> 0.

Lemma drained_fresh a : fresh a -> fresh (drained a).
Proof.
  intros (Ha & Hp & Hc).
  destruct (drained_inv a Ha) as (H1 & H2).
  pose proof (same_spool_pending _ _ H2) as Hp2. destruct H2 as (_ & S2 & _).
  split; [exact H1|]. split; cbn; [by rewrite Hp2|by rewrite S2].
Qed.

(** A configuration accepted by an agent without pending lines leaves it fresh. *)
Lemma apply_fresh oe calloc h (a : agent) cfg :
  agent_inv a -> pending (ag_q a) = [] -> config_ok cfg ->
  let '(rc, a', _) := cpe_agent_apply_config oe calloc h a cfg in
  rc = 0%Z -> fresh a' /\ config_valid (normalise cfg) /\
    ag_cfg a' = (normalise cfg) <| generation := u64 (generation (ag_cfg a) + 1) |>.
Proof.
  intros Ha Hp Hok. pose proof (apply_config_inv oe calloc h a cfg Hok Ha) as Hi.
  pose proof (apply_config_cases oe calloc h a cfg (proj1 (ai_queues _ Ha)) (proj1 Hok)) as Hc.
  destruct (cpe_agent_apply_config oe calloc h a cfg) as [[rc a'] h']. cbn [fst snd] in Hi. destruct Hc as [_ Hc].
  intros ->. inversion Hc as [| |? ? Hv cap new Hcfg _ Hcap Hpend]; subst. split; [|by split].
  split; [exact Hi|]. split; [rewrite Hpend, Hp; by destruct (_ =? _)|]. rewrite Hcap. subst cap.
  pose proof (valid_lines _ Hv). lia.
Qed.

(** The configuration a successful reload applies. *)
Lemma reload_fresh load oe calloc h (a : agent) path override err :
  (forall p e c, (load p e).1.2 = Some c -> config_ok c) -> agent_inv a -> pending (ag_q a) = [] ->
  let '(rc, a', _, _) := cpe_agent_reload_config load oe calloc h a path override err in
  rc = 0%Z -> fresh a' /\ (forall r, override = Some r -> r <> EmptyString -> router_id (ag_cfg a') = r).
Proof.
  intros Hload Ha Hp. pose proof (reload_source_ok load a path err Hload Ha) as Hsrc.
  unfold cpe_agent_reload_config. destruct (reload_source load a path err) as [[rc c] e]. cbn [fst snd] in Hsrc.
  destruct (negb (rc =? 0)%Z) eqn:Erc; [done|]. cbv zeta.
  set (ov := match override with Some r => opt_str r | None => None end).
  destruct (match ov with Some r => CPE_CFG_ROUTER_ID_MAX <=? strlen r | None => false end) eqn:El; [done|].
  set (c' := match ov with Some r => _ | None => c end).
  assert (Hc' : config_ok c') by (unfold c'; by destruct ov).
  pose proof (apply_fresh oe calloc h a c' Ha Hp Hc') as Hf.
  destruct (cpe_agent_apply_config oe calloc h a c') as [[rc2 a'] h'].
  destruct (Z.eqb_spec rc2 0) as [E2|E2]; cbn [negb]; [|done]. intros _. destruct (Hf E2) as (H1 & _ & H2).
  split; [exact H1|]. intros r -> Hr. subst ov c'. unfold opt_str in *. destruct r as [|ch r]; [done|].
  cbn [nonempty] in *. rewrite H2. set (c1 := c <| router_id := _ |>).
  transitivity (router_id (normalise c1)); [done|]. rewrite (normalise_frame router_id) by done.
  change (router_id c1) with (snprintf_s CPE_CFG_ROUTER_ID_MAX (String ch r)). apply snprintf_s_fits. by apply Nat.leb_gt.
Qed.

Lemma create_empty b calloc h (a : agent) h' :
  cpe_agent_create b calloc h = (Some a, h') -> agent_inv a /\ pending (ag_q a) = [].
Proof.
  destruct b; [|done]. intros Hc. split; [by eapply create_inv|]. revert Hc.
  unfold cpe_agent_create. cbn [negb]. destruct ping_create as [ping|]; [|done].
  destruct nfct_create as [nfct|]; [|done]. cbv zeta.
  pose proof (ensure_spool_spec calloc queues_zero h (Z.to_nat (spool_max_lines cpe_agent_config_defaults))
    queues_zero_wf) as Hs.
  destruct (ensure_spool _ _ _ _) as [[rc q] h1]. destruct Hs as (_ & _ & _ & [(Hbad & _)|[_ Hp]]); [done|].
  destruct (negb _); [done|]. by intros [= <- _].
Qed.

Lemma create_config b calloc h (a : agent) h' :
  cpe_agent_create b calloc h = (Some a, h') -> ag_cfg a = cpe_agent_config_defaults.
Proof.
  unfold cpe_agent_create. destruct (negb b); [done|]. destruct ping_create as [ping|]; [|done].
  destruct nfct_create as [nfct|]; [|done]. cbv zeta. destruct (ensure_spool _ _ _ _) as [[rc q] h1].
  destruct (negb _); [done|]. by intros [= <- _].
Qed.

(** What starting up gives when it does not fail. *)
Lemma start_agent_fresh c h a h' :
  start_agent (P := P) (C := C) env c h = (inl a, h') ->
  fresh a /\ (truthy (cl_force_demo c) || truthy (cl_once c) = true -> demo_mode (ag_cfg a) = 1%Z) /\
  (forall r, cl_router_override c = Some r -> r <> EmptyString -> router_id (ag_cfg a) = r).
Proof.
  unfold start_agent. destruct (cpe_agent_create _ _ h) as [[a0|] h0] eqn:Ec; [|done].
  destruct (create_empty _ _ _ _ _ Ec) as [Ha0 Hp0].
  pose proof (reload_fresh (me_load env) (me_open env) (me_calloc env) h0 a0 (cl_config_path c) (cl_router_override c)
    (Some (256, EmptyString)) load_ok Ha0 Hp0) as Hr.
  destruct (cpe_agent_reload_config _ _ _ _ _ _ _ _) as [[[rc a1] h1] err].
  destruct (Z.eqb_spec rc 0) as [->|Hne]; cbn [negb]; [|done]. destruct (Hr eq_refl) as [Hf1 Hid].
  destruct (truthy (cl_force_demo c) || truthy (cl_once c)) eqn:Ed.
  2:{ intros [= <- _]. split; [by apply drained_fresh|]. by split. }
  pose proof Hf1 as (Ha1 & Hp1 & _). set (cfg := (ag_cfg a1) <| demo_mode := 1%Z |>).
  assert (Hcfg : config_ok cfg) by exact (ai_config _ Ha1).
  pose proof (apply_fresh (me_open_demo env) (me_calloc env) h1 a1 cfg Ha1 Hp1 Hcfg) as Hap.
  destruct (cpe_agent_apply_config _ _ _ _ _) as [[rc2 a2] h2].
  destruct (Z.eqb_spec rc2 0) as [->|Hne]; cbn [negb]; [|done]. destruct (Hap eq_refl) as (Hf2 & _ & Hc2).
  intros [= <- _]. split; [by apply drained_fresh|].
  change (ag_cfg (drained a2)) with (ag_cfg a2). split.
  - intros _. transitivity (demo_mode (normalise cfg)); [by rewrite Hc2|]. by rewrite (normalise_frame demo_mode).
  - intros r Er Hr1. rewrite <- (Hid r Er Hr1). transitivity (router_id (normalise cfg)); [by rewrite Hc2|].
    by rewrite (normalise_frame router_id).
Qed.

Lemma run_once_exit (a : agent) (fs : FS) h seq :
  mr_exit (run_once (E := E) env a fs h seq) = Some 0%Z \/ mr_exit (run_once (E := E) env a fs h seq) = Some 1%Z.
Proof.
  unfold run_once. destruct (cpe_agent_demo_ping_tick _ _ _) as [[rc a1] seq1]. destruct (negb _); [by right|].
  destruct (cpe_agent_emit_flush _ _ _) as [[[n a2] out] fs1]. destruct (n <? 0)%Z; [by right|by left].
Qed.

(** Whatever is done with the Lua options, as long as it is safe and exits with 0 or 1. *)
Lemma main_with_exits run_lua fuel opts (fs : FS) h seqs :
  (forall c (a : agent) fs h seqs, agent_inv a ->
     safe_with (fun r : main_result FS => mr_exit r = Some 0%Z \/ mr_exit r = Some 1%Z) (run_lua c a fs h seqs)) ->
  safe_with (fun r =>
      (forall rc, mr_exit r = Some rc -> rc = 0%Z \/ rc = 1%Z) /\
      (mr_exit r = None -> exists c, parse_opts opts no_cli = inl c /\ truthy (cl_once c) = false /\ wants_lua c = false) /\
      (forall k, le_stop (envs k) = true -> S k < fuel -> mr_exit r <> None))
    (main_with (P := P) (C := C) (E := E) envs env run_lua fuel opts fs h seqs).
Proof.
  intros Hlua.
  assert (Hleft : forall r : main_result FS, mr_exit r = Some 0%Z \/ mr_exit r = Some 1%Z ->
    (forall rc, mr_exit r = Some rc -> rc = 0%Z \/ rc = 1%Z) /\
    (mr_exit r = None -> exists c, parse_opts opts no_cli = inl c /\ truthy (cl_once c) = false /\ wants_lua c = false) /\
    (forall k, le_stop (envs k) = true -> S k < fuel -> mr_exit r <> None)).
  { intros r [E0|E0]; rewrite E0; (split; [|by split]); intros rc [= <-]; auto. }
  unfold main_with. destruct (parse_opts opts no_cli) as [c|rc] eqn:Eo.
  2:{ apply safe_ret, Hleft. cbn. destruct (parse_opts_exit opts no_cli rc Eo) as [-> | ->]; auto. }
  destruct (start_agent env c h) as [[a|oa] h1] eqn:Es.
  2:{ apply safe_ret, Hleft. right. unfold leave. by destruct (cpe_agent_destroy oa h1). }
  destruct (truthy (cl_once c)) eqn:E1; [apply safe_ret, Hleft, run_once_exit|].
  destruct (start_agent_fresh _ _ _ _ Es) as [(Ha & _) _].
  destruct (wants_lua c) eqn:E2.
  { destruct (Hlua c a fs h1 seqs Ha) as (r & Hrun & Hr). exists r. split; [exact Hrun|]. by apply Hleft. }
  unfold run_daemon.
  eapply safe_bind; [by apply loop_runs_safe|]. intros [[s ended] calls] (_ & Hstop & _).
  apply safe_ret. destruct ended; [apply Hleft; by left|]. split; [done|]. split; [by exists c|].
  intros k Hk Hf. destruct (Hstop k Hk) as [_ Hend]. by specialize (Hend Hf).
Qed.

(** The process, whatever its command line, files, sockets and signals, is memory
    safe and exits with 0 or 1.  Only the daemon can keep running, and a SIGINT or SIGTERM
    ends it: after the iteration or slice in which the signal arrives it exits. *)
Theorem main_exits fuel opts (fs : FS) h seqs :
  safe_with (fun r =>
      (forall rc, mr_exit r = Some rc -> rc = 0%Z \/ rc = 1%Z) /\
      (mr_exit r = None -> exists c, parse_opts opts no_cli = inl c /\ truthy (cl_once c) = false /\ wants_lua c = false) /\
      (forall k, le_stop (envs k) = true -> S k < fuel -> mr_exit r <> None))
    (cpe_agent_main (P := P) (C := C) (E := E) envs env fuel opts fs h seqs).
Proof. apply main_with_exits. intros c a fs1 h1 seqs1 _. apply safe_ret. by right. Qed.

(** A flush to standard output of a spool that holds one line. *)
Lemma flush_one_line ee (fs : FS) (a : agent) l :
  queues_wf (ag_q a) -> spool (ag_q a) <> None -> http_mode (ag_cfg a) = false -> file_mode (ag_cfg a) = false ->
  pending (ag_q a) = [l] ->
  let '(n, a', out, fs') := cpe_agent_emit_flush ee fs a in
  fs' = fs /\ out = (if ee_fprintf ee 0 then [l +:+ newline] else []) /\
  n = (if ee_fprintf ee 0 && ee_fflush ee then 1%Z else (-1)%Z).
Proof.
  intros Hw Hs Hh Hfm Hp. unfold cpe_agent_emit_flush. fold (http_mode (ag_cfg a)). rewrite Hh.
  unfold file_mode in Hfm. rewrite Hh in Hfm. cbn [negb andb] in Hfm. rewrite Hfm.
  pose proof (flush_printed ee (ag_q a) Hw Hs) as Hfl.
  destruct (cpe_agent_spool_flush _ _ _) as [[n q] out]. destruct Hfl as (_ & m & (Hm & Hok & Hstop & -> & _) & ->).
  split; [done|]. rewrite Hp in *. cbn [length] in *. destruct m as [|[|m]]; [..|lia].
  - by rewrite (Hstop ltac:(lia)).
  - by rewrite (Hok 0 ltac:(lia)).
Qed.

Lemma has_spool_cap q : queues_wf q -> spool_cap q <> 0 -> spool q <> None.
Proof. intros Hw Hc Hn. pose proof (wf_spool_len _ Hw) as Hl. unfold spool_lines in Hl. by rewrite Hn in Hl. Qed.

(** [cpe_agent --once] with output to standard output: when the ping library
    accepts the synthetic reply, the process prints exactly one line, the sample's, under
    the router id given on the command line if there is one, and exits with 0; it exits
    with 1 when the line does not fit its buffer or cannot be printed or flushed. *)
Theorem once_reports fuel opts (fs : FS) h seqs c (a : agent) h1 ping st :
  parse_opts opts no_cli = inl c -> truthy (cl_once c) = true -> start_agent env c h = (inl a, h1) ->
  http_mode (ag_cfg a) = false -> file_mode (ag_cfg a) = false ->
  ping_round (E := E) (ag_ping a) (synth_icmp_echo_reply 16 [] (u16 (seqs.1 + 1))) (mono_ms (me_clk env)) = (0%Z, ping) ->
  ping_get_stats ping = Some st ->
  let router := router_id (ag_cfg a) in
  let text := perf_text (router_name (Some router)) (demo_sample_of (ag_cfg a) st (me_clk env)) in
  let ee := me_emit env in
  (forall r, cl_router_override c = Some r -> r <> EmptyString -> router = r) /\
  safe_with (fun r =>
      mr_out r = (if (strlen text <? CPE_NDJSON_LINE_MAX) && ee_fprintf ee 0 then [text +:+ newline] else []) /\
      mr_exit r = Some (if (strlen text <? CPE_NDJSON_LINE_MAX) && ee_fprintf ee 0 && ee_fflush ee then 0%Z else 1%Z))
    (cpe_agent_main (P := P) (C := C) (E := E) envs env fuel opts fs h seqs).
Proof.
  intros Eo E1 Es Hh Hf Hping Hst. cbv zeta. destruct (start_agent_fresh _ _ _ _ Es) as (Hfresh & _ & Hid).
  split; [exact Hid|]. destruct Hfresh as (Ha & Hp & Hc). pose proof (proj1 (ai_queues _ Ha)) as Hw.
  unfold cpe_agent_main, main_with. rewrite Eo, Es, E1. apply safe_ret. unfold run_once.
  pose proof (demo_tick_reports (E := E) a (seqs.1) (me_clk env) ping st Hw Hping Hst) as Hd.
  pose proof (demo_tick_cfg (E := E) a (seqs.1) (me_clk env)) as Hcfg.
  destruct (cpe_agent_demo_ping_tick a _ _) as [[rc a1] seq1]. cbn [fst snd] in Hcfg.
  destruct Hd as (_ & Hw1 & _ & Hcap & Hpush). unfold perf_pushed in Hpush.
  rewrite (proj2 (Nat.eqb_neq _ _) Hc), andb_true_r, Hp in Hpush.
  destruct (strlen _ <? CPE_NDJSON_LINE_MAX); destruct Hpush as [-> Hp1]; cbn [Z.eqb negb andb]; [|by split].
  rewrite app_nil_l, lastn_all in Hp1 by (cbn; lia).
  pose proof (flush_one_line (me_emit env) fs a1 _ Hw1 (has_spool_cap _ Hw1 ltac:(by rewrite Hcap))
    ltac:(by rewrite Hcfg) ltac:(by rewrite Hcfg) Hp1) as Hfl.
  destruct (cpe_agent_emit_flush _ _ _) as [[[n a2] out] fs2]. destruct Hfl as (_ & -> & ->).
  destruct (ee_fprintf (me_emit env) 0), (ee_fflush (me_emit env)); by split.
Qed.
End spec.

(** ** Instances *)
#[local] Existing Instances toy_source toy_lib toy_ping_events qsort_isort.

(** A ping library that accepts every reply and reports 5 ms. *)
Definition five_ms : ping_stats := {| pg_replies := 1; pg_timeouts := 0; pg_avg_latency_ms := 5; pg_loss_pct := f_const 0 0 |}.
#[local] Instance answering_ping : PingLib nat := {|
  ping_create := Some 0; ping_feed_input_with_ts := fun p _ _ => (0%Z, p); ping_process := fun p _ => (0%Z, p);
  ping_get_stats := fun _ => Some five_ms |}.

Definition toy_main : main_env := {|
  me_calloc_agent := true; me_calloc := toy_calloc; me_load := fun _ e => ((-1)%Z, None, e); me_open := toy_open;
  me_open_demo := toy_open; me_clk := flow_clk; me_emit := refusing; me_srv := no_server |}.
Definition run_toy (opts : list (ascii * string)) : chk (main_result (list string)) :=
  cpe_agent_main (P := nat) (C := nat) (E := unit) quiet toy_main 4 opts [] cpe_host_alloc_reset_stats (0%Z, 0%Z).

Lemma main_exits_witness :
  safe_with (fun r => mr_exit r = Some 0%Z \/ mr_exit r = Some 1%Z) (run_toy [("r"%char, "cpe-7"%string); ("N"%char, EmptyString)]).
Proof.
  destruct (main_exits (P := nat) (C := nat) (FS := list string) (E := unit) quiet toy_main toy_events_ok quiet_ok
    ltac:(done) 4 [("r"%char, "cpe-7"%string); ("N"%char, EmptyString)] [] cpe_host_alloc_reset_stats (0%Z, 0%Z))
    as (r & Hrun & Hex & _ & Hstop).
  exists r. split; [exact Hrun|]. specialize (Hstop 2 eq_refl ltac:(lia)).
  clear Hrun. destruct (mr_exit r) as [rc|]; [|exfalso; exact (Hstop eq_refl)].
  destruct (Hex rc eq_refl) as [-> | ->]; [left; reflexivity|right; reflexivity].
Defined.

Lemma once_reports_witness :
  safe_with (fun r => mr_exit r = Some 0%Z /\ exists line, mr_out r = [line]) (run_toy [("1"%char, EmptyString); ("r"%char, "cpe-7"%string)]).
Proof.
  set (opts := [("1"%char, EmptyString); ("r"%char, "cpe-7"%string)]).
  destruct (parse_opts opts no_cli) as [c|] eqn:Eo; [|vm_compute in Eo; discriminate].
  destruct (start_agent (P := nat) (C := nat) toy_main c cpe_host_alloc_reset_stats) as [[a|] h1] eqn:Es;
    [|injection Eo as <-; vm_compute in Es; discriminate].
  assert (Ha : ag_cfg a = (ag_cfg a) <| emit_mode := emit_mode cpe_agent_config_defaults |>
               /\ strlen (perf_text (router_name (Some (router_id (ag_cfg a)))) (demo_sample_of (ag_cfg a) five_ms flow_clk))
                  < CPE_NDJSON_LINE_MAX).
  { injection Eo as <-. vm_compute in Es. injection Es as <- _. split; [reflexivity|]. vm_compute. apply Nat.ltb_lt. reflexivity. }
  destruct Ha as [Hm Hlen].
  destruct (once_reports (P := nat) (C := nat) (FS := list string) (E := unit) quiet toy_main ltac:(done) 4 opts []
    cpe_host_alloc_reset_stats (0%Z, 0%Z) c a h1 (ag_ping a) five_ms) as (_ & r & Hrun & Hout & Hexit);
    [exact Eo|injection Eo as <-; reflexivity|exact Es|rewrite Hm; reflexivity|rewrite Hm; reflexivity|reflexivity|reflexivity|].
  exists r. split; [exact Hrun|].
  change (me_clk toy_main) with flow_clk in *. rewrite (proj2 (Nat.ltb_lt _ _) Hlen) in Hout, Hexit.
  split; [exact Hexit|]. eexists; exact Hout.
Defined.

(** [--demo] is forced once, after the first load: a later reload of the file undoes it,
    while it keeps the router id of the command line. *)
Definition quiet_file : option string -> errbuf -> Z * option cpe_agent_config * errbuf :=
  fun _ e => (0%Z, Some (cpe_agent_config_defaults <| demo_mode := 0%Z |>), e).
Example reload_drops_demo :
  let env := {| me_calloc_agent := true; me_calloc := toy_calloc; me_load := quiet_file; me_open := toy_open;
    me_open_demo := toy_open; me_clk := flow_clk; me_emit := refusing; me_srv := no_server |} in
  match parse_opts [("c"%char, "f"%string); ("d"%char, EmptyString); ("r"%char, "cpe-7"%string)] no_cli with
  | inl c =>
      match start_agent (P := nat) (C := nat) env c cpe_host_alloc_reset_stats with
      | (inl a, h) =>
          let '(rc, a', _, _) := cpe_agent_reload_config quiet_file toy_open toy_calloc h a (cl_config_path c)
                                   (cl_router_override c) (Some (160, EmptyString)) in
          (demo_mode (ag_cfg a), rc, demo_mode (ag_cfg a'), router_id (ag_cfg a')) = (1%Z, 0%Z, 0%Z, "cpe-7"%string)
      | _ => False
      end
  | _ => False
  end.
Proof. vm_compute. reflexivity. Qed.
