(* ===== verification/Genl.v ===== *)
(** * Generic netlink for nl80211 (src/src/nl80211_netlink.c)

    Resolving the family id, the station dump request, and receiving.  As in [Nflog], reads
    of a received buffer are checked: the buffer is the bytes received, and a read past them
    is [Oob].  Header fields are in host order, little-endian on the targets. *)

From S2P Require Import Prelude CStr Inet Nflog.

Definition NL80211_CMD_GET_STATION : Z := 17.
Definition NL80211_ATTR_IFINDEX : Z := 3.
Definition GENL_HDRLEN := 4.
Definition GENL_ID_CTRL : Z := 16.
Definition CTRL_CMD_GETFAMILY : Z := 3.
Definition CTRL_ATTR_FAMILY_ID : Z := 1.
Definition CTRL_ATTR_FAMILY_NAME : Z := 2.
Definition NLM_F_ACK : Z := 4.
Definition NLM_F_DUMP : Z := 768.

Definition wr16_le (p : nat) (v : Z) (buf : list Z) : list Z := put p (le_bytes16 v) buf.
Definition wr32_le (p : nat) (v : Z) (buf : list Z) : list Z := put p (le_bytes32 v) buf.
Definition rd16_le := rd16.
Definition rd32_le := rd32.

(** The kernel's answers: what each call returns, the message of a failure, the interface
    indexes. *)
Record genl_env := {
  ge_socket : Z;
  ge_bind : Z;
  ge_strerror : string;
  ge_send_family : Z;             (* [send] of the family request *)
  ge_family : recv_result;        (* its reply *)
  ge_send_dump : Z;               (* [send] of the dump request *)
  ge_getfl : Z;
  ge_setfl : Z;
  ge_if_nametoindex : string -> Z;
}.

Definition nf_if_nametoindex (env : genl_env) (ifname : option string) : Z :=
  match ifname with
  | None => -1
  | Some s => if negb (nonempty s) then (-1)%Z
              else let idx := ge_if_nametoindex env s in if truthy idx then i32 idx else (-1)%Z
  end.

(** The request: [req] is 128 bytes, which the name must fit. *)
Definition getfamily_msg (name : string) : chk (list Z) :=
  let name_len := strlen name + 1 in
  let nla_len := 4 + name_len in
  let nla_total := Z.to_nat (align4 (Z.of_nat nla_len)) in
  let msg_len := NLMSG_HDRLEN + GENL_HDRLEN + nla_total in
  let req := replicate 128 0%Z in
  let req := put 0 (le_bytes32 (Z.of_nat msg_len)) req in
  let req := put 4 (le_bytes16 GENL_ID_CTRL) req in
  let req := put 6 (le_bytes16 (Z.lor NLM_F_REQUEST NLM_F_ACK)) req in
  let req := put 8 (le_bytes32 1) req in
  let req := put 12 (le_bytes32 0) req in
  let req := put NLMSG_HDRLEN [CTRL_CMD_GETFAMILY] req in
  let req := put (NLMSG_HDRLEN + 1) [1%Z] req in
  let nla := NLMSG_HDRLEN + GENL_HDRLEN in
  let req := wr16_le nla (Z.of_nat nla_len) req in
  let req := wr16_le (nla + 2) CTRL_ATTR_FAMILY_NAME req in
  if 128 <? nla + nla_len then Oob
  else
    let req := put (nla + 4) (str_bytes name ++ [0%Z]) req in
    if 128 <? msg_len then Oob else mret (take msg_len req).

(** The attributes of one message.  Every attribute takes at least four bytes and every
    message sixteen, so a fuel above the length of the buffer is never used up. *)
Fixpoint find_attr (fuel : nat) (resp : list Z) (aoff aend : nat) : chk (option Z) :=
  match fuel with
  | O => Oob
  | S fuel' =>
      if aoff + 4 <=? aend then
        alen ← rd16_le resp aoff;
        t ← rd16_le resp (aoff + 2);
        let atype := Z.land t 16383 in
        if (alen <? 4)%Z || (Z.of_nat aend <? Z.of_nat aoff + alen)%Z then mret None
        else if (atype =? CTRL_ATTR_FAMILY_ID)%Z && (6 <=? alen)%Z then
          id ← rd16_le resp (aoff + 4); mret (Some id)
        else find_attr fuel' resp (aoff + Z.to_nat (align4 alen)) aend
      else mret None
  end.

(** The messages of the reply. *)
Fixpoint find_family (fuel : nat) (resp : list Z) (off : nat) : chk (option Z) :=
  match fuel with
  | O => Oob
  | S fuel' =>
      let n := length resp in
      if off + NLMSG_HDRLEN <=? n then
        len ← rd32_le resp off;
        type ← rd16_le resp (off + 4);
        if (len <? Z.of_nat NLMSG_HDRLEN)%Z || (Z.of_nat n <? Z.of_nat off + len)%Z then mret None
        else
          found ← (if (type =? GENL_ID_CTRL)%Z && (Z.of_nat (NLMSG_HDRLEN + GENL_HDRLEN) <=? len)%Z
                   then find_attr (S n) resp (off + NLMSG_HDRLEN + GENL_HDRLEN) (off + Z.to_nat len)
                   else mret None);
          match found with
          | Some id => mret (Some id)
          | None => find_family fuel' resp (off + Z.to_nat (u32 (align4 len)))
          end
      else mret None
  end.

(** The result, the family id, the error buffer and the message sent. *)
Definition ctrl_resolve_family (env : genl_env) (name : string) (err : errbuf)
    : chk (Z * Z * errbuf * list (list Z)) :=
  req ← getfamily_msg name;
  if (ge_send_family env <? 0)%Z
  then mret ((-1)%Z, 0%Z, err_set err ("genl GETFAMILY send: " +:+ ge_strerror env), [req])
  else
    let fail s := mret ((-1)%Z, 0%Z, err_set err ("genl GETFAMILY recv: " +:+ s), [req]) in
    match ge_family env with
    | RecvAgain | RecvFailed => fail (ge_strerror env)
    | RecvEof => fail "short"%string
    | RecvData d =>
        let resp := take 512 d in
        if length resp <? NLMSG_HDRLEN then fail "short"%string
        else
          found ← find_family (S (length resp)) resp 0;
          match found with
          | Some id => mret (0%Z, id, err, [req])
          | None => mret ((-1)%Z, 0%Z, err_set err "nl80211 family id not found", [req])
          end
    end.

(** The descriptor or -1, the family id, the error buffer, the messages sent and the
    descriptors closed. *)
Definition nl80211_netlink_open (env : genl_env) (err : errbuf) : chk (Z * Z * errbuf * list (list Z) * list Z) :=
  let fd := ge_socket env in
  if (fd <? 0)%Z then mret ((-1)%Z, 0%Z, err_set err ("socket NETLINK_GENERIC: " +:+ ge_strerror env), [], [])
  else if negb (ge_bind env =? 0)%Z then mret ((-1)%Z, 0%Z, err_set err ("bind genl: " +:+ ge_strerror env), [], [fd])
  else
    r ← ctrl_resolve_family env "nl80211" err;
    let '(rc, family, err, sent) := r in
    mret (if negb (rc =? 0)%Z then ((-1)%Z, 0%Z, err, sent, [fd]) else (fd, family, err, sent, [])).

Definition nl80211_netlink_close (fd : Z) : list Z := if (0 <=? fd)%Z then [fd] else [].

Definition dump_stations_msg (family_id ifindex : Z) : list Z :=
  let ifi := u32 ifindex in
  let msg_len := NLMSG_HDRLEN + GENL_HDRLEN + 8 in
  let req := replicate 64 0%Z in
  let req := put 0 (le_bytes32 (Z.of_nat msg_len)) req in
  let req := put 4 (le_bytes16 family_id) req in
  let req := put 6 (le_bytes16 (Z.lor NLM_F_REQUEST NLM_F_DUMP)) req in
  let req := put 8 (le_bytes32 2) req in
  let req := put NLMSG_HDRLEN [NL80211_CMD_GET_STATION] req in
  let req := put (NLMSG_HDRLEN + 1) [0%Z] req in
  let nla := NLMSG_HDRLEN + GENL_HDRLEN in
  let req := wr16_le nla 8 req in
  let req := wr16_le (nla + 2) NL80211_ATTR_IFINDEX req in
  let req := wr32_le (nla + 4) ifi req in
  take msg_len req.
Definition nl80211_netlink_dump_stations (env : genl_env) (fd family_id ifindex : Z) (err : errbuf)
    : Z * errbuf * list (list Z) :=
  if (fd <? 0)%Z || (family_id <=? 0)%Z || (ifindex <=? 0)%Z
  then ((-1)%Z, err_set err "bad args for dump_stations", [])
  else
    let req := dump_stations_msg family_id ifindex in
    if (ge_send_dump env <? 0)%Z then ((-1)%Z, err_set err ("dump stations send: " +:+ ge_strerror env), [req])
    else (0%Z, err, [req]).

(** The bytes received and their number, 0 when there is nothing (or an empty datagram). *)
Definition nl80211_netlink_recv (fd : Z) (r : recv_result) (buflen : nat) : Z * list Z :=
  if (fd <? 0)%Z || (buflen =? 0) then ((-1)%Z, [])
  else match r with
  | RecvData d => (Z.of_nat (length (take buflen d)), take buflen d)
  | RecvAgain | RecvEof => (0%Z, [])
  | RecvFailed => ((-1)%Z, [])
  end.

Definition nl80211_netlink_set_nonblock (env : genl_env) (fd : Z) : Z :=
  if (fd <? 0)%Z then (-1)%Z
  else if (ge_getfl env <? 0)%Z then (-1)%Z else ge_setfl env.

(** ** Memory safety *)
Lemma find_attr_safe fuel resp aoff aend :
  aend <= length resp -> aend < fuel + aoff -> 0 < fuel -> exists r, find_attr fuel resp aoff aend = Safe r.
Proof.
  revert aoff. induction fuel as [|fuel IH]; intros aoff Hr Hf Hp; [lia|]. cbn [find_attr].
  destruct (Nat.leb_spec (aoff + 4) aend); [|by eexists].
  destruct (rd16_ok resp aoff) as [alen Hal]; [lia|]. unfold rd16_le. rewrite Hal. chk_step.
  destruct (rd16_ok resp (aoff + 2)) as [t ->]; [lia|]. chk_step.
  destruct (Z.ltb_spec alen 4), (Z.ltb_spec (Z.of_nat aend) (Z.of_nat aoff + alen)); cbn [orb]; try by eexists.
  destruct ((Z.land t 16383 =? CTRL_ATTR_FAMILY_ID)%Z && (6 <=? alen)%Z) eqn:Eid.
  - apply andb_true_iff in Eid as [_ E6%Z.leb_le]. destruct (rd16_ok resp (aoff + 4)) as [id ->]; [lia|]. by eexists.
  - pose proof (align4_spec alen ltac:(lia)). apply IH; lia.
Qed.

Lemma find_family_safe fuel resp off :
  (Z.of_nat (length resp) < 2147483648)%Z -> length resp < fuel + off -> 0 < fuel ->
  exists r, find_family fuel resp off = Safe r.
Proof.
  intros Hmax. revert off. induction fuel as [|fuel IH]; intros off Hf Hp; [lia|]. cbn [find_family].
  unfold NLMSG_HDRLEN, GENL_HDRLEN in *. destruct (Nat.leb_spec (off + 16) (length resp)); [|by eexists].
  destruct (rd32_ok resp off) as [len Hl]; [lia|]. unfold rd32_le, rd16_le. rewrite Hl. chk_step.
  destruct (rd16_ok resp (off + 4)) as [type ->]; [lia|]. chk_step.
  destruct (Z.ltb_spec len (Z.of_nat 16)), (Z.ltb_spec (Z.of_nat (length resp)) (Z.of_nat off + len)); cbn [orb]; try by eexists.
  assert (Hfound : exists r, (if (type =? GENL_ID_CTRL)%Z && (Z.of_nat (16 + 4) <=? len)%Z
    then find_attr (S (length resp)) resp (off + 16 + 4) (off + Z.to_nat len) else mret None) = Safe r).
  { destruct (_ && _); [|by eexists]. apply find_attr_safe; lia. }
  destruct Hfound as [r ->]. chk_step. destruct r as [id|]; [by eexists|].
  pose proof (align4_spec len ltac:(lia)). rewrite u32_id by (unfold in_u32; lia). apply IH; lia.
Qed.

(** ** Replies as the kernel builds them *)

(** A reply of the controller, with its generic netlink header and attributes, or any
    other message (the acknowledgement). *)
Inductive genl_msg :=
  | GFamily (hdr genl : list Z) (attrs : list (Z * list Z))
  | GOther (type : Z) (hdr body : list Z).
Definition enc_genl (m : genl_msg) : list Z :=
  match m with
  | GFamily hdr genl attrs => enc_raw GENL_ID_CTRL hdr (genl ++ enc_attrs attrs)
  | GOther type hdr body => enc_raw type hdr body
  end.
Definition enc_reply (l : list genl_msg) : list Z := mjoin (enc_genl <$> l).
Definition genl_ok (m : genl_msg) : Prop :=
  match m with
  | GFamily hdr genl attrs => length hdr = 10 /\ length genl = 4 /\ Forall attr_ok attrs
  | GOther type hdr body => in_u16 type /\ type <> GENL_ID_CTRL /\ length hdr = 10
  end.

(** The family id of a list of attributes, of a reply: the first there is. *)
Fixpoint attrs_family (l : list (Z * list Z)) : option Z :=
  match l with
  | [] => None
  | (t, d) :: l =>
      if (t =? CTRL_ATTR_FAMILY_ID)%Z && (2 <=? length d) then Some (le_word16 (d !!! 0) (d !!! 1)) else attrs_family l
  end.
Fixpoint reply_family (l : list genl_msg) : option Z :=
  match l with
  | [] => None
  | GFamily _ _ attrs :: l => match attrs_family attrs with Some id => Some id | None => reply_family l end
  | GOther _ _ _ :: l => reply_family l
  end.

Lemma find_attr_enc fuel pre l rest :
  Forall attr_ok l -> length (enc_attrs l) < fuel ->
  find_attr fuel (pre ++ enc_attrs l ++ rest) (length pre) (length pre + length (enc_attrs l)) = Safe (attrs_family l).
Proof.
  revert fuel pre. induction l as [|[type d] l IH]; intros [|f] pre Hok Hf; [lia| |lia|]; cbn [find_attr].
  { change (length (enc_attrs [])) with 0. by destruct (Nat.leb_spec (length pre + 4) (length pre + 0)); [lia|]. }
  apply Forall_cons in Hok as [(Ht & Hd & Hn) Hok]. simpl in Ht, Hd, Hn. rewrite enc_attrs_cons in *.
  set (n := Z.of_nat (4 + length d)).
  assert (He : enc_attr (type, d) = attr_hdr n type ++ d ++ pad4 (4 + length d)).
  { unfold enc_attr, padded, attr_hdr. cbn [snd fst]. rewrite !length_app. rewrite <- !app_assoc. done. }
  pose proof (length_enc_attr (type, d)) as Hlen. cbn [snd] in Hlen. fold n in Hlen.
  pose proof (align4_spec n ltac:(lia)) as [Hal _]. rewrite length_app in *.
  set (tl := pad4 (4 + length d) ++ enc_attrs l ++ rest).
  assert (Hbuf : pre ++ (enc_attr (type, d) ++ enc_attrs l) ++ rest = pre ++ attr_hdr n type ++ d ++ tl).
  { unfold tl. rewrite He. by rewrite <- !app_assoc. }
  assert (Hnext : pre ++ (enc_attr (type, d) ++ enc_attrs l) ++ rest = (pre ++ enc_attr (type, d)) ++ enc_attrs l ++ rest)
    by (by rewrite <- !app_assoc).
  assert (H0 : rd16 (pre ++ attr_hdr n type ++ d ++ tl) (length pre) = Safe n).
  { rewrite <- (Nat.add_0_r (length pre)), rd16_skip. unfold attr_hdr. rewrite <- app_assoc. apply Nflog.rd16_le. unfold in_u16. lia. }
  assert (H2 : rd16 (pre ++ attr_hdr n type ++ d ++ tl) (length pre + 2) = Safe type).
  { rewrite rd16_skip. unfold attr_hdr. rewrite <- app_assoc. refine (eq_trans (rd16_skip (le_bytes16 n) _ 0) _).
    apply Nflog.rd16_le. unfold in_u16. lia. }
  assert (H4 : rd16 (pre ++ attr_hdr n type ++ d ++ tl) (length pre + 4) = rd16 (d ++ tl) 0).
  { rewrite rd16_skip. exact (rd16_skip (attr_hdr n type) _ 0). }
  destruct (Nat.leb_spec (length pre + 4) (length pre + (length (enc_attr (type, d)) + length (enc_attrs l)))); [|lia].
  rewrite Hbuf. unfold rd16_le. rewrite H0. chk_step. rewrite H2. chk_step.
  destruct (Z.ltb_spec n 4), (Z.ltb_spec (Z.of_nat (length pre + (length (enc_attr (type, d)) + length (enc_attrs l))))
    (Z.of_nat (length pre) + n)); try lia. cbn [orb].
  assert (Z.land type 16383 = type) as ->.
  { change 16383%Z with (Z.ones 14). rewrite Z.land_ones by lia. apply Z.mod_small. lia. }
  cbn [attrs_family]. destruct (type =? CTRL_ATTR_FAMILY_ID)%Z; cbn [andb].
  1: destruct (Nat.leb_spec 2 (length d)), (Z.leb_spec 6 n); try lia.
  1: rewrite H4; do 2 uncons_bytes d; done.
  all: rewrite <- Hbuf, Hnext;
    replace (length pre + Z.to_nat (align4 n)) with (length (pre ++ enc_attr (type, d))) by (rewrite length_app; lia);
    replace (length pre + (length (enc_attr (type, d)) + length (enc_attrs l)))
      with (length (pre ++ enc_attr (type, d)) + length (enc_attrs l)) by (rewrite length_app; lia);
    apply IH; [done|lia].
Qed.

Definition gm_type (m : genl_msg) : Z := match m with GFamily _ _ _ => GENL_ID_CTRL | GOther t _ _ => t end.
Definition gm_hdr (m : genl_msg) : list Z := match m with GFamily h _ _ | GOther _ h _ => h end.
Definition gm_body (m : genl_msg) : list Z :=
  match m with GFamily _ g attrs => g ++ enc_attrs attrs | GOther _ _ body => body end.
Definition msg_family (m : genl_msg) : option Z := match m with GFamily _ _ attrs => attrs_family attrs | _ => None end.

Lemma reply_family_cons m l :
  reply_family (m :: l) = match msg_family m with Some id => Some id | None => reply_family l end.
Proof. by destruct m. Qed.

(** What is looked for in one message, given the buffer around it. *)
Lemma find_msg_enc pre m rest :
  genl_ok m ->
  let len := Z.of_nat (16 + length (gm_body m)) in
  let resp := pre ++ enc_genl m ++ rest in
  (if (gm_type m =? GENL_ID_CTRL)%Z && (Z.of_nat (NLMSG_HDRLEN + GENL_HDRLEN) <=? len)%Z
   then find_attr (S (length resp)) resp (length pre + NLMSG_HDRLEN + GENL_HDRLEN) (length pre + Z.to_nat len)
   else mret None) = Safe (msg_family m).
Proof.
  intros Hm len resp. destruct m as [hdr genl attrs|type hdr body]; cbn [gm_type gm_body] in *.
  2:{ destruct Hm as (_ & Hne & _). by destruct (Z.eqb_spec type GENL_ID_CTRL). }
  destruct Hm as (Hh & Hg & Hattrs). unfold NLMSG_HDRLEN, GENL_HDRLEN, len. rewrite length_app, Hg.
  change (GENL_ID_CTRL =? GENL_ID_CTRL)%Z with true. cbn [andb].
  destruct (Z.leb_spec (Z.of_nat (16 + 4)) (Z.of_nat (16 + (4 + length (enc_attrs attrs))))); [|lia].
  rewrite Nat2Z.id.
  set (front := le_bytes32 (Z.of_nat (16 + length (genl ++ enc_attrs attrs))) ++ le_bytes16 GENL_ID_CTRL ++ hdr ++ genl).
  assert (Hresp : exists tl, resp = (pre ++ front) ++ enc_attrs attrs ++ tl).
  { unfold resp, enc_genl, enc_raw, padded, front. eexists. by rewrite <- !app_assoc. }
  assert (Hfl : length (pre ++ front) = length pre + 20) by (unfold front; rewrite !length_app, Hh, Hg; cbn; lia).
  destruct Hresp as [tl Hr].
  replace (length pre + 16 + 4) with (length (pre ++ front)) by lia.
  replace (length pre + (16 + (4 + length (enc_attrs attrs)))) with (length (pre ++ front) + length (enc_attrs attrs)) by lia.
  assert (length (enc_attrs attrs) < S (length resp)) by (rewrite Hr, !length_app; lia).
  rewrite Hr in *. by apply find_attr_enc.
Qed.

Lemma find_family_enc fuel pre l :
  Forall genl_ok l -> (Z.of_nat (length (pre ++ enc_reply l)) < 2147483648)%Z -> length (enc_reply l) < fuel ->
  find_family fuel (pre ++ enc_reply l) (length pre) = Safe (reply_family l).
Proof.
  revert fuel pre. induction l as [|m l IH]; intros [|f] pre Hok Hmax Hf; [lia| |lia|]; cbn [find_family].
  { change (enc_reply []) with (@nil Z) in *. rewrite app_nil_r.
    by destruct (Nat.leb_spec (length pre + NLMSG_HDRLEN) (length pre)) as [Hbad|]; [unfold NLMSG_HDRLEN in Hbad; lia|]. }
  apply Forall_cons in Hok as [Hm Hok]. change (enc_reply (m :: l)) with (enc_genl m ++ enc_reply l) in *.
  assert (Htype : in_u16 (gm_type m)) by (destruct m; [by vm_compute|apply Hm]).
  assert (Hhdr : length (gm_hdr m) = 10) by (destruct m; apply Hm).
  assert (He : enc_genl m = enc_raw (gm_type m) (gm_hdr m) (gm_body m)) by by destruct m.
  assert (Hb : length (gm_body m) <= length (enc_genl m)).
  { rewrite He. unfold enc_raw, padded. rewrite !length_app. lia. }
  rewrite !length_app in *.
  destruct (enc_raw_reads (gm_type m) (gm_hdr m) (gm_body m) (enc_reply l) Htype Hhdr ltac:(lia)) as (R1 & R2 & _ & Hlen & _).
  rewrite <- He in R1, R2, Hlen. set (n := Z.of_nat (16 + length (gm_body m))) in *.
  pose proof (align4_spec n ltac:(lia)) as [Hal _].
  pose proof (find_msg_enc pre m (enc_reply l) Hm) as Hfind. cbv zeta in Hfind. fold n in Hfind.
  unfold NLMSG_HDRLEN in *.
  destruct (Nat.leb_spec (length pre + 16) (length pre + (length (enc_genl m) + length (enc_reply l)))); [|lia].
  unfold rd32_le, rd16_le. rewrite <- (Nat.add_0_r (length pre)) at 1. rewrite rd32_skip, R1. chk_step.
  rewrite rd16_skip, R2. chk_step.
  destruct (Z.ltb_spec n (Z.of_nat 16)), (Z.ltb_spec (Z.of_nat (length pre + (length (enc_genl m) + length (enc_reply l))))
    (Z.of_nat (length pre) + n)); try lia. cbn [orb].
  rewrite !length_app in Hfind. rewrite Hfind. chk_step. rewrite reply_family_cons.
  destruct (msg_family m) as [id|]; [done|]. rewrite u32_id by (unfold in_u32; lia).
  rewrite app_assoc. replace (length pre + Z.to_nat (align4 n)) with (length (pre ++ enc_genl m)) by (rewrite length_app; lia).
  apply IH; [done|rewrite !length_app; lia|lia].
Qed.

(** The request: one name attribute, addressed to the controller. *)
Definition family_request (name : string) : list Z :=
  enc_raw GENL_ID_CTRL [5; 0; 1; 0; 0; 0; 0; 0; 0; 0]%Z
    ([CTRL_CMD_GETFAMILY; 1; 0; 0]%Z ++ enc_attrs [(CTRL_ATTR_FAMILY_NAME, str_bytes name ++ [0%Z])]).
Definition station_request (family ifindex : Z) : list Z :=
  enc_raw family [1; 3; 2; 0; 0; 0; 0; 0; 0; 0]%Z
    ([NL80211_CMD_GET_STATION; 0; 0; 0]%Z ++ enc_attrs [(NL80211_ATTR_IFINDEX, le_bytes32 ifindex)]).
Lemma getfamily_nl80211 : getfamily_msg "nl80211" = Safe (family_request "nl80211").
Proof. vm_compute. reflexivity. Qed.
Lemma dump_msg_request family ifindex : in_u32 ifindex -> dump_stations_msg family ifindex = station_request family ifindex.
Proof. intros Hi. unfold dump_stations_msg. rewrite u32_id by done. reflexivity. Qed.

(** Opening never reads outside the reply and either yields the socket or has closed it. *)
Lemma open_safe env err :
  safe_with (fun '(fd, family, _, _, closed) =>
      (fd = ge_socket env /\ (0 <= fd)%Z /\ closed = []) \/
      (fd = (-1)%Z /\ family = 0%Z /\ closed = (if (ge_socket env <? 0)%Z then [] else [ge_socket env])))
    (nl80211_netlink_open env err).
Proof.
  unfold nl80211_netlink_open. destruct (Z.ltb_spec (ge_socket env) 0); [apply safe_ret; by right|].
  destruct (negb _); [apply safe_ret; by right|].
  apply (safe_bind _ _ (fun _ => True)).
  - unfold ctrl_resolve_family. rewrite getfamily_nl80211. chk_step.
    destruct (ge_send_family env <? 0)%Z; [by apply safe_ret|].
    destruct (ge_family env) as [d| | |]; try by apply safe_ret.
    destruct (length (take 512 d) <? NLMSG_HDRLEN); [by apply safe_ret|].
    pose proof (length_take d 512) as Hl.
    destruct (find_family_safe (S (length (take 512 d))) (take 512 d) 0) as [r ->]; [|lia|lia|].
    + rewrite Hl. apply (Z.le_lt_trans _ (Z.of_nat 512)); [lia|reflexivity].
    + destruct r; by apply safe_ret.
  - intros [[[rc family] err1] sent] _. destruct (negb _); apply safe_ret; [by right|by left].
Qed.

(** C13: Opening the nl80211 socket asks the controller for the family by name, in one
    well-formed request.  A reply built as the kernel builds it - the controller's message
    among others, the id among other attributes, all padded - yields exactly the id it
    carries; without one the socket is closed again and the reason reported.  The station
    dump sent on that socket is addressed to the family and names the interface.  Whatever
    the kernel answers instead, nothing is read outside the reply. *)
Theorem nl80211_open_resolves env l err :
  (0 <= ge_socket env)%Z -> ge_bind env = 0%Z -> (0 <= ge_send_family env)%Z ->
  ge_family env = RecvData (enc_reply l) -> Forall genl_ok l -> 16 <= length (enc_reply l) <= 512 ->
  nl80211_netlink_open env err =
    Safe (match reply_family l with
          | Some id => (ge_socket env, id, err, [family_request "nl80211"], [])
          | None => ((-1)%Z, 0%Z, err_set err "nl80211 family id not found", [family_request "nl80211"], [ge_socket env])
          end) /\
  (forall id ifindex, reply_family l = Some id -> (0 < id)%Z -> (0 < ifindex < 2147483648)%Z -> (0 <= ge_send_dump env)%Z ->
     nl80211_netlink_dump_stations env (ge_socket env) id ifindex err = (0%Z, err, [station_request id ifindex])) /\
  (forall env', exists r, nl80211_netlink_open env' err = Safe r).
Proof.
  intros Hs Hb Hsend Hrecv Hok Hlen. split; [|split].
  - unfold nl80211_netlink_open. destruct (Z.ltb_spec (ge_socket env) 0); [lia|]. rewrite Hb. cbn [Z.eqb negb].
    unfold ctrl_resolve_family. rewrite getfamily_nl80211. chk_step.
    destruct (Z.ltb_spec (ge_send_family env) 0); [lia|]. rewrite Hrecv, take_ge by lia.
    destruct (Nat.ltb_spec (length (enc_reply l)) NLMSG_HDRLEN); [unfold NLMSG_HDRLEN in *; lia|].
    pose proof (find_family_enc (S (length (enc_reply l))) [] l Hok) as Hfind. cbn [app length] in Hfind.
    rewrite Hfind; [|apply (Z.le_lt_trans _ (Z.of_nat 512)); [lia|reflexivity]|lia]. chk_step.
    by destruct (reply_family l).
  - intros id ifindex _ Hid Hifi Hsd. unfold nl80211_netlink_dump_stations.
    destruct (Z.ltb_spec (ge_socket env) 0), (Z.leb_spec id 0), (Z.leb_spec ifindex 0); try lia. cbn [orb].
    destruct (Z.ltb_spec (ge_send_dump env) 0); [lia|]. rewrite dump_msg_request by (unfold in_u32; lia). done.
  - intros env'. destruct (open_safe env' err) as (r & Hr & _). by exists r.
Qed.

(** The kernel's reply: the family with two attributes, then the acknowledgement. *)
Definition kernel_reply : list genl_msg :=
  [GOther 2 (replicate 10 0%Z) (replicate 20 0%Z);
   GFamily (replicate 10 0%Z) [1; 2; 0; 0]%Z [(2, str_bytes "nl80211" ++ [0]); (1, [28; 0])]%Z].
Definition genl_answers (l : list genl_msg) : genl_env := {|
  ge_socket := 7; ge_bind := 0; ge_strerror := "EPERM"; ge_send_family := 32; ge_family := RecvData (enc_reply l);
  ge_send_dump := 28; ge_getfl := 0; ge_setfl := 0; ge_if_nametoindex := fun _ => 3%Z |}.
Lemma kernel_reply_ok : Forall genl_ok kernel_reply.
Proof.
  repeat constructor; cbn; try done; try lia; apply (Forall_app_2 in_u8 (str_bytes _)) || idtac; repeat constructor; done.
Qed.
Lemma nl80211_open_resolves_witness :
  nl80211_netlink_open (genl_answers kernel_reply) None = Safe (7%Z, 28%Z, None, [family_request "nl80211"], []).
Proof.
  refine (proj1 (nl80211_open_resolves (genl_answers kernel_reply) kernel_reply None _ _ _ _ kernel_reply_ok _));
    [vm_compute; discriminate|reflexivity|vm_compute; discriminate|reflexivity|vm_compute; lia].
Defined.
