(* ===== verification/WifiStats.v ===== *)
(** * Wi-Fi statistics (src/agent/wifi_stats.c)

    The interface state from sysfs and ioctls, the station table from an nl80211 dump, the
    snapshot kept for clients and its lines.  The parser of nl80211 messages is a library
    that is not in the sources ([WifiLib]); sysfs, the sockets and the clock are an
    environment. *)

From Stdlib Require Import Ascii.
From S2P Require Import Prelude CStr Float754 Inet Clock HostAlloc SpoolDir Config Spool Events PerfSample Nflog TcpStats.
From S2P Require Import TcpEmit TcpInv Nfct FlowEntry FlowTable FlowAcct AgentData Agent AgentConfig LivePing LiveTrace.
From S2P Require Import AgentRun Genl.

Definition CPE_WIFI_STA_MAX := 32.
Definition CPE_WIFI_IFNAME_MAX := 32.
Definition CPE_WIFI_MAC_MAX := 18.
Definition IFF_UP : Z := 1.
Definition IFF_RUNNING : Z := 64.

(** A station event of the library, in the fields that are read. *)
Record nl80211_event := {
  nle_is_station : bool;        (* [type == NL80211_EVENT_STATION] *)
  nle_has_mac : Z;
  nle_client_mac : list Z;      (* 6 bytes *)
  nle_signal_dbm : Z;
  nle_signal_avg_dbm : Z;
  nle_snr_db : Z;
  nle_has_mcs : Z;
  nle_mcs_index : Z;
  nle_tx_retries : Z;
  nle_tx_failed : Z;
  nle_rx_bytes : Z;
  nle_tx_bytes : Z;
  nle_frequency_mhz : Z;
  nle_has_signal : Z;
}.
(** A parser context: creation and input; its events are an [EventSource]. *)
Class WifiLib (W : Type) := {
  nl80211_parse_create : option W;
  nl80211_parse_feed_input : W -> list Z -> Z * W;
}.

Record wifi_env := {
  we_access : string -> bool;              (* [access(path, F_OK) == 0] *)
  we_net_dir : option (list string);       (* the entries of /sys/class/net *)
  we_file : string -> option string;       (* what [fopen] and reading yield *)
  we_if_nametoindex : string -> Z;
  we_socket : Z;
  we_flags : string -> option Z;           (* the three ioctls, by [ifr_name] *)
  we_hwaddr : string -> option (list Z);
  we_mtu : string -> option Z;
  we_genl : genl_env;
  we_recvs : list recv_result;
  we_clk : clock;
}.

(** [iso_now] is the agent core's, copied. *)
Definition iso_now (clk : clock) (n : nat) : string := AgentCoreClock.iso_now clk n.
Definition mac_fmt (n : nat) (mac : list Z) : string := snprintf_s n (mac_text mac).

(** ** Interfaces *)
Section ifaces.
Context (env : wifi_env).

Definition path_exists (path : string) : bool := we_access env path.
Definition has_prefix (p s : string) : bool := streq (str_take (strlen p) s) p.
Definition is_wireless_name (ifname : string) : bool :=
  if negb (nonempty ifname) then false
  else if path_exists (snprintf_s 160 (lit "/sys/class/net/" +:+ ifname +:+ lit "/wireless")) then true
  else if path_exists (snprintf_s 160 (lit "/sys/class/net/" +:+ ifname +:+ lit "/phy80211")) then true
  else has_prefix "wlan" ifname || has_prefix "ath" ifname || has_prefix "rai" ifname ||
       has_prefix "rax" ifname || has_prefix "wl" ifname.

(** The loop over the directory, [names] so far. *)
Fixpoint list_ifaces_loop (entries : list string) (max_names : nat) (names : list string) : list string :=
  match entries with
  | [] => names
  | d_name :: rest =>
      if negb (length names <? max_names) then names
      else if has_prefix "." d_name then list_ifaces_loop rest max_names names
      else if negb (is_wireless_name d_name) then list_ifaces_loop rest max_names names
      else if CPE_WIFI_IFNAME_MAX <=? strlen d_name then list_ifaces_loop rest max_names names
      else list_ifaces_loop rest max_names (names ++ [d_name])
  end.
Definition cpe_agent_wifi_list_ifaces (max_names : nat) : Z * list string :=
  if max_names =? 0 then ((-1)%Z, [])
  else match we_net_dir env with
  | None => (0%Z, [])
  | Some entries => let names := list_ifaces_loop entries max_names [] in (Z.of_nat (length names), names)
  end.

Definition pick_wifi_if (cfg : cpe_agent_config) (ifname_opt : option string) (out_sz : nat) : Z * string :=
  if out_sz <? 2 then ((-1)%Z, EmptyString)
  else
    let name := default EmptyString ifname_opt in
    if nonempty name then (0%Z, snprintf_s out_sz name)
    else if nonempty (wifi_if cfg) then (0%Z, snprintf_s out_sz (wifi_if cfg))
    else
      let '(n, names) := cpe_agent_wifi_list_ifaces CPE_WIFI_STA_MAX in
      if (0 <? n)%Z then (0%Z, snprintf_s out_sz (names !!! 0)) else (0%Z, snprintf_s out_sz "wlan0").

(** [fgets] of the first line into [n] bytes. *)
Fixpoint line_of (s : string) : string :=
  match s with
  | EmptyString => EmptyString
  | String c s' => if Ascii.eqb c "010" then String c EmptyString else String c (line_of s')
  end.
Fixpoint rtrim (s : string) : string :=
  match s with
  | EmptyString => EmptyString
  | String c s' =>
      let r := rtrim s' in
      if negb (nonempty r) && (Ascii.eqb c "010" || Ascii.eqb c "013" || Ascii.eqb c " ") then EmptyString
      else String c r
  end.
Definition read_sysfs_str (path : string) (out_sz : nat) : Z * string :=
  if out_sz =? 0 then ((-1)%Z, EmptyString)
  else match we_file env path with
  | None => ((-1)%Z, EmptyString)
  | Some content =>
      let got := str_take (out_sz - 1) (line_of content) in
      if negb (nonempty got) then ((-1)%Z, EmptyString) else (0%Z, rtrim got)
  end.

Definition iface_zero : cpe_wifi_iface_state := {|
  wif_ifname := EmptyString; wif_ifindex := 0; wif_up := 0; wif_running := 0; wif_wireless := 0;
  wif_operstate := EmptyString; wif_mac := EmptyString; wif_mtu := 0 |}.

(** The flags, the address and the MTU of the interface, as far as the ioctls succeed. *)
Definition read_ifreq (name : string) (out : cpe_wifi_iface_state) : cpe_wifi_iface_state :=
  let ifr_name := str_take 15 name in
  let out := match we_flags env ifr_name with
             | Some f => out <| wif_up := (if truthy (Z.land f IFF_UP) then 1 else 0)%Z |>
                             <| wif_running := (if truthy (Z.land f IFF_RUNNING) then 1 else 0)%Z |>
             | None => out
             end in
  let out := match we_hwaddr env ifr_name with
             | Some mac => out <| wif_mac := mac_fmt CPE_WIFI_MAC_MAX mac |>
             | None => out
             end in
  match we_mtu env ifr_name with Some m => out <| wif_mtu := u32 m |> | None => out end.

Definition cpe_agent_wifi_iface_state (cfg : cpe_agent_config) (ifname_opt : option string)
    : Z * cpe_wifi_iface_state :=
  let '(rc, ifname) := pick_wifi_if cfg ifname_opt CPE_WIFI_IFNAME_MAX in
  if negb (rc =? 0)%Z then ((-1)%Z, iface_zero)
  else
    let out := iface_zero <| wif_ifname := snprintf_s CPE_WIFI_IFNAME_MAX ifname |> in
    let idx := we_if_nametoindex env ifname in
    if (idx =? 0)%Z then ((-1)%Z, out)
    else
      let out := out <| wif_ifindex := i32 idx |> <| wif_wireless := (if is_wireless_name ifname then 1 else 0)%Z |> in
      let '(rc, oper) := read_sysfs_str (snprintf_s 192 (lit "/sys/class/net/" +:+ ifname +:+ lit "/operstate")) 16 in
      let out := out <| wif_operstate := (if negb (rc =? 0)%Z then snprintf_s 16 "unknown" else oper) |> in
      if (we_socket env <? 0)%Z then (0%Z, out) else (0%Z, read_ifreq ifname out).
End ifaces.

(** ** Stations *)
Definition i8 (z : Z) : Z := ((z + 128) mod 256 - 128)%Z.
Definition station_zero : cpe_wifi_station := {|
  sta_mac := EmptyString; sta_signal_dbm := 0; sta_signal_avg_dbm := 0; sta_snr_db := 0; sta_mcs := 0;
  sta_tx_retries := 0; sta_tx_failed := 0; sta_rx_bytes := 0; sta_tx_bytes := 0; sta_freq_mhz := 0;
  sta_has_signal := 0; sta_has_mcs := 0 |}.
Definition station_from_event (ev : nl80211_event) : cpe_wifi_station := {|
  sta_mac := if truthy (nle_has_mac ev) then mac_fmt CPE_WIFI_MAC_MAX (nle_client_mac ev) else EmptyString;
  sta_signal_dbm := i32 (nle_signal_dbm ev);
  sta_signal_avg_dbm := i32 (nle_signal_avg_dbm ev);
  sta_snr_db := i8 (nle_snr_db ev);
  sta_mcs := u8 (if truthy (nle_has_mcs ev) then nle_mcs_index ev else 255);
  sta_tx_retries := u32 (nle_tx_retries ev);
  sta_tx_failed := u32 (nle_tx_failed ev);
  sta_rx_bytes := u32 (nle_rx_bytes ev);
  sta_tx_bytes := u32 (nle_tx_bytes ev);
  sta_freq_mhz := u32 (nle_frequency_mhz ev);
  sta_has_signal := i32 (nle_has_signal ev);
  sta_has_mcs := i32 (nle_has_mcs ev) |}.

(** The body of the event loops: a station with an address joins the table while there is
    room; [fix_up] is what the demo does to it. *)
Definition add_station (fix_up : cpe_wifi_station -> cpe_wifi_station) (stations : list cpe_wifi_station)
    (ev : nl80211_event) : list cpe_wifi_station :=
  if nle_is_station ev && truthy (nle_has_mac ev) && (length stations <? CPE_WIFI_STA_MAX)
  then stations ++ [fix_up (station_from_event ev)] else stations.

(** ** Lines *)
Definition iface_text (router : string) (snap : cpe_wifi_snapshot) : string :=
  let i := wfs_iface snap in
  lit "{'type':'cpe_wifi','subtype':'iface','ts':'" +:+ wfs_ts_iso snap +:+ lit "','router_id':'" +:+
  str_dflt router "unknown" +:+ lit "','if':'" +:+ wif_ifname i +:+ lit "','ifindex':" +:+ fmt_d (wif_ifindex i) +:+
  lit ",'up':" +:+ json_bool (wif_up i) +:+ lit ",'running':" +:+ json_bool (wif_running i) +:+
  lit ",'operstate':'" +:+ wif_operstate i +:+ lit "','wireless':" +:+ json_bool (wif_wireless i) +:+
  lit ",'mac':'" +:+ wif_mac i +:+ lit "','mtu':" +:+ fmt_u (wif_mtu i) +:+ lit ",'stations':" +:+
  fmt_u (Z.of_nat (length (wfs_stations snap))) +:+ lit ",'demo':" +:+ json_bool (wfs_demo snap) +:+ lit "}".
Definition station_text (router : string) (snap : cpe_wifi_snapshot) (s : cpe_wifi_station) : string :=
  lit "{'type':'cpe_wifi','subtype':'station','ts':'" +:+ wfs_ts_iso snap +:+ lit "','router_id':'" +:+
  str_dflt router "unknown" +:+ lit "','if':'" +:+ wif_ifname (wfs_iface snap) +:+ lit "','client_mac':'" +:+ sta_mac s +:+
  lit "','rssi':" +:+ fmt_d (sta_signal_dbm s) +:+ lit ",'rssi_avg':" +:+ fmt_d (sta_signal_avg_dbm s) +:+
  lit ",'snr':" +:+ fmt_d (sta_snr_db s) +:+ lit ",'mcs':" +:+ fmt_u (sta_mcs s) +:+
  lit ",'tx_retries':" +:+ fmt_u (sta_tx_retries s) +:+ lit ",'tx_failed':" +:+ fmt_u (sta_tx_failed s) +:+
  lit ",'rx_bytes':" +:+ fmt_u (sta_rx_bytes s) +:+ lit ",'tx_bytes':" +:+ fmt_u (sta_tx_bytes s) +:+
  lit ",'freq_mhz':" +:+ fmt_u (sta_freq_mhz s) +:+ lit ",'demo':" +:+ json_bool (wfs_demo snap) +:+ lit "}".

Section dump.
Context {P C FS : Type} `{!FileSystem FS} {W : Type} `{!WifiLib W} `{!EventSource W nl80211_event}.
Local Abbreviation agent := (agent P C).

(** Push a formatted line unless it was cut. *)
Definition push_fitting (q : queues) (text : string) : queues :=
  let '(n, line) := snprintf CPE_NDJSON_LINE_MAX text in
  if (0 <? n)%Z && (n <? Z.of_nat CPE_NDJSON_LINE_MAX)%Z then (cpe_agent_spool_push_line q line).2 else q.
Definition emit_wifi_ndjson (a : agent) (snap : cpe_wifi_snapshot) : agent :=
  let router := router_id (ag_cfg a) in
  let q := push_fitting (ag_q a) (iface_text router snap) in
  let q := foldl (fun q s => push_fitting q (station_text router snap s)) q (wfs_stations snap) in
  a <| ag_q := q |>.

(** The receive loop: [rounds] counts up to 64; the error buffer records a failed [recv].
    With nothing to read at first it waits 20 ms and tries again. *)
Fixpoint drain_rounds (fuel rounds : nat) (fd : Z) (strerror : string) (recvs : list recv_result) (w : W)
    (stations : list cpe_wifi_station) (err : errbuf) : list cpe_wifi_station * errbuf :=
  match fuel with
  | O => (stations, err)
  | S fuel' =>
      let '(n, buf) := nl80211_netlink_recv fd (default RecvAgain (head recvs)) (8 * 1024) in
      let recvs := tail recvs in
      if (n <? 0)%Z then (stations, err_set err ("nl80211 recv: " +:+ strerror))
      else if (n =? 0)%Z then
        if rounds =? 0 then drain_rounds fuel' (rounds + 1) fd strerror recvs w stations err else (stations, err)
      else
        let '(_, w) := nl80211_parse_feed_input w buf in
        let '(evs, w) := pull_all (E := nl80211_event) w in
        drain_rounds fuel' (rounds + 1) fd strerror recvs w (foldl (add_station id) stations evs) err
  end.

(** The result, the stations, their validity, the error buffer, the messages sent and the
    descriptors closed. *)
Definition dump_stations_live (env : wifi_env) (ifindex : Z) (err : errbuf)
    : chk (Z * list cpe_wifi_station * Z * errbuf * list (list Z) * list Z) :=
  r ← nl80211_netlink_open (we_genl env) err;
  let '(fd, family, err, sent, closed) := r in
  if (fd <? 0)%Z then mret ((-1)%Z, [], 0%Z, err, sent, closed)
  else
    let '(rc, err, sent2) := nl80211_netlink_dump_stations (we_genl env) fd family ifindex err in
    if negb (rc =? 0)%Z then mret ((-1)%Z, [], 0%Z, err, sent ++ sent2, closed ++ nl80211_netlink_close fd)
    else match nl80211_parse_create with
    | None => mret ((-1)%Z, [], 0%Z, err_set err "nl80211_parse_create failed", sent ++ sent2, closed ++ nl80211_netlink_close fd)
    | Some w =>
        let '(stations, err) := drain_rounds 64 0 fd (ge_strerror (we_genl env)) (we_recvs env) w [] err in
        mret (0%Z, stations, 1%Z, err, sent ++ sent2, closed ++ nl80211_netlink_close fd)
    end.

Definition snap_zero : cpe_wifi_snapshot := {|
  wfs_iface := iface_zero; wfs_stations := []; wfs_stations_valid := 0; wfs_demo := 0; wfs_ts_iso := EmptyString;
  wfs_err := EmptyString |}.

(** Keep the snapshot; with [emit_ndjson], push its lines and flush. *)
Definition publish (ee : emit_env) (fs : FS) (a : agent) (snap : cpe_wifi_snapshot) (emit_ndjson : Z)
    : agent * list string * FS :=
  let a := cpe_agent_set_last_wifi a snap in
  if truthy emit_ndjson then
    let '(_, a, out, fs) := cpe_agent_emit_flush ee fs (emit_wifi_ndjson a snap) in (a, out, fs)
  else (a, [], fs).

(** The result, the agent, the caller's snapshot, what the flush printed, the file system. *)
Definition cpe_agent_wifi_dump (env : wifi_env) (ee : emit_env) (fs : FS) (a : agent) (ifname_opt : option string)
    (emit_ndjson : Z) : chk (Z * agent * cpe_wifi_snapshot * list string * FS) :=
  let ts := iso_now (we_clk env) CPE_PERF_TS_MAX in
  let '(rc, iface) := cpe_agent_wifi_iface_state env (ag_cfg a) ifname_opt in
  if negb (rc =? 0)%Z
  then mret ((-1)%Z, a, snap_zero <| wfs_err := snprintf_s 96 "wifi iface not found" |>, [], fs)
  else
    r ← dump_stations_live env (wif_ifindex iface) (Some (96, EmptyString));
    let '(rc, stations, valid, err, _, _) := r in
    let snap := {| wfs_iface := iface; wfs_stations := stations; wfs_stations_valid := valid; wfs_demo := 0;
                   wfs_ts_iso := ts; wfs_err := EmptyString |} in
    let snap := if negb (rc =? 0)%Z
                then snap <| wfs_err := snprintf_s 96 (str_dflt (err_text err) "nl80211 dump failed") |>
                          <| wfs_stations_valid := 0%Z |> <| wfs_stations := [] |>
                else snap in
    let '(a, out, fs) := publish ee fs a snap emit_ndjson in
    mret (0%Z, a, snap, out, fs).

(** ** The demonstration *)
Definition demo_iface : cpe_wifi_iface_state := {|
  wif_ifname := snprintf_s CPE_WIFI_IFNAME_MAX "wlan0"; wif_ifindex := 0; wif_up := 1; wif_running := 1; wif_wireless := 1;
  wif_operstate := snprintf_s 16 "up"; wif_mac := snprintf_s CPE_WIFI_MAC_MAX "02:00:00:00:00:10"; wif_mtu := 1500 |}.
Definition wsynth : list Z :=
  let rssi := u32 (-65) in
  let b := replicate 20 0%Z in
  let b := put 0 [56; 50; 49; 49]%Z b in
  let b := put 4 [170; 187; 204; 221; 238; 255]%Z b in
  let b := put 10 [byte_at 3 rssi; byte_at 2 rssi; byte_at 1 rssi; byte_at 0 rssi] b in
  let b := put 14 [25; 7]%Z b in
  put 16 [0; 0; 0; 3]%Z b.
Definition demo_freq (s : cpe_wifi_station) : cpe_wifi_station :=
  if (sta_freq_mhz s =? 0)%Z then s <| sta_freq_mhz := 2437%Z |> else s.

(** The caller's snapshot is written on success only. *)
Definition cpe_agent_demo_wifi_dump (env : wifi_env) (ee : emit_env) (fs : FS) (a : agent) (emit_ndjson : Z)
    : Z * agent * option cpe_wifi_snapshot * list string * FS :=
  let cfg := ag_cfg a in
  let ts := iso_now (we_clk env) CPE_PERF_TS_MAX in
  let '(rc, iface) := cpe_agent_wifi_iface_state env cfg (opt_str (wifi_if cfg)) in
  let iface := if negb (rc =? 0)%Z then demo_iface else iface in
  match nl80211_parse_create with
  | None => ((-1)%Z, a, None, [], fs)
  | Some w =>
      let '(_, w) := nl80211_parse_feed_input w wsynth in
      let '(evs, _) := pull_all (E := nl80211_event) w in
      let snap := {| wfs_iface := iface; wfs_stations := foldl (add_station demo_freq) [] evs; wfs_stations_valid := 1;
                     wfs_demo := 1; wfs_ts_iso := ts; wfs_err := EmptyString |} in
      let '(a, out, fs) := publish ee fs a snap emit_ndjson in
      (0%Z, a, Some snap, out, fs)
  end.
End dump.

(** ** What a dump collects *)
Section collect.
Context {P C FS : Type} `{!FileSystem FS} {W : Type} `{!WifiLib W} `{!EventSource W nl80211_event}.
Local Abbreviation agent := (agent P C).

(** The bytes of a receive that delivers any, up to the 8192 of the buffer. *)
Definition datagram (r : recv_result) : option (list Z) :=
  match r with
  | RecvData d => match take (8 * 1024) d with [] => None | d' => Some d' end
  | _ => None
  end.
Definition idle (r : recv_result) : bool :=
  match r with RecvFailed => false | _ => match datagram r with Some _ => false | None => true end end.

(** The datagrams of [n] rounds, up to the first round without one; a first idle round is
    forgiven. *)
Fixpoint delivered_in (n : nat) (recvs : list recv_result) : list (list Z) :=
  match n, recvs with
  | S n', r :: recvs' => match datagram r with Some d => d :: delivered_in n' recvs' | None => [] end
  | _, _ => []
  end.
Definition heard_in (n : nat) (recvs : list recv_result) : list (list Z) :=
  match recvs with
  | [] => []
  | r :: rest => if idle r then delivered_in n rest else delivered_in (S n) recvs
  end.
Definition heard (recvs : list recv_result) : list (list Z) := heard_in 63 recvs.

(** The events of a series of datagrams. *)
Fixpoint events_of (w : W) (ds : list (list Z)) : list nl80211_event :=
  match ds with
  | [] => []
  | d :: ds' =>
      let '(evs, w') := pull_all (E := nl80211_event) (nl80211_parse_feed_input w d).2 in evs ++ events_of w' ds'
  end.
Definition is_client (ev : nl80211_event) : bool := nle_is_station ev && truthy (nle_has_mac ev).
Definition clients (evs : list nl80211_event) : list cpe_wifi_station :=
  station_from_event <$> filter (fun ev => is_client ev = true) evs.

Lemma add_stations_spec fix_up evs l :
  length l <= CPE_WIFI_STA_MAX ->
  foldl (add_station fix_up) l evs = take CPE_WIFI_STA_MAX (l ++ (fix_up <$> clients evs)).
Proof.
  revert l. induction evs as [|ev evs IH]; intros l Hl; cbn [foldl].
  { rewrite app_nil_r. by rewrite take_ge. }
  unfold clients. rewrite filter_cons. unfold add_station at 2. fold (is_client ev).
  destruct (is_client ev) eqn:E; cbn [andb].
  - rewrite decide_True by done. cbn [fmap list_fmap].
    destruct (Nat.ltb_spec (length l) CPE_WIFI_STA_MAX).
    + rewrite IH by (rewrite length_app; cbn; lia). by rewrite <- app_assoc.
    + rewrite IH by lia. by rewrite !take_app_le by lia.
  - rewrite decide_False by done. by apply IH.
Qed.

Lemma add_stations_bound fix_up evs l :
  length l <= CPE_WIFI_STA_MAX -> length (foldl (add_station fix_up) l evs) <= CPE_WIFI_STA_MAX.
Proof. intros Hl. rewrite add_stations_spec, length_take by done. lia. Qed.

Lemma recv_cases fd r :
  (0 <= fd)%Z ->
  let '(n, buf) := nl80211_netlink_recv fd r (8 * 1024) in
  match datagram r with
  | Some d => (0 < n)%Z /\ buf = d
  | None => if idle r then n = 0%Z else n = (-1)%Z
  end.
Proof.
  intros Hfd. unfold nl80211_netlink_recv. destruct (Z.ltb_spec fd 0); [lia|]. cbn [orb].
  change (8 * 1024 =? 0) with false. cbn iota. unfold idle. destruct r as [d| | |]; cbn [datagram]; try done.
  set (got := take (8 * 1024) d). destruct got as [|b got]; [done|]. split; [cbn; lia|done].
Qed.

Lemma drain_rounds_spec fuel rounds fd serr recvs w l err :
  (0 <= fd)%Z -> length l <= CPE_WIFI_STA_MAX -> 0 < rounds ->
  (drain_rounds fuel rounds fd serr recvs w l err).1 =
    take CPE_WIFI_STA_MAX (l ++ clients (events_of w (delivered_in fuel recvs))).
Proof.
  intros Hfd. revert rounds recvs w l err. induction fuel as [|fuel IH]; intros rounds recvs w l err Hl Hr;
    cbn [drain_rounds delivered_in events_of].
  { cbn. rewrite app_nil_r. by rewrite take_ge. }
  destruct recvs as [|r recvs]; cbn [head default tail delivered_in].
  { pose proof (recv_cases fd RecvAgain Hfd) as Hc. destruct (nl80211_netlink_recv fd RecvAgain (8 * 1024)) as [n buf].
    cbn in Hc. subst n. cbn. rewrite (proj2 (Nat.eqb_neq _ _)) by lia. cbn. rewrite app_nil_r. by rewrite take_ge. }
  change (id r) with r.
  pose proof (recv_cases fd r Hfd) as Hc. destruct (nl80211_netlink_recv fd r (8 * 1024)) as [n buf].
  destruct (datagram r) as [d|].
  - destruct Hc as [Hn ->]. destruct (Z.ltb_spec n 0), (Z.eqb_spec n 0); try lia.
    cbn [events_of]. destruct (nl80211_parse_feed_input w d) as [rc w1]. cbn [snd].
    destruct (pull_all w1) as [evs w2]. rewrite add_stations_spec, list_fmap_id by done.
    rewrite IH by (rewrite ?length_take; lia). unfold clients. rewrite filter_app, fmap_app, app_assoc.
    set (x := l ++ _). set (y := fmap _ _). destruct (Nat.le_ge_cases (length x) CPE_WIFI_STA_MAX).
    + by rewrite (take_ge x) by done.
    + rewrite !take_app_le by (rewrite ?length_take; lia). by rewrite take_take, Nat.min_id.
  - destruct (idle r); subst n; cbn; rewrite ?(proj2 (Nat.eqb_neq rounds 0)) by lia; cbn; rewrite app_nil_r;
      by rewrite take_ge.
Qed.

Lemma drain_first m fd serr recvs w err :
  (0 <= fd)%Z ->
  (drain_rounds (S m) 0 fd serr recvs w [] err).1 = take CPE_WIFI_STA_MAX (clients (events_of w (heard_in m recvs))).
Proof.
  intros Hfd. cbn [drain_rounds]. destruct recvs as [|r recvs]; cbn [head default tail].
  { pose proof (recv_cases fd RecvAgain Hfd) as Hc. destruct (nl80211_netlink_recv fd RecvAgain (8 * 1024)) as [n buf].
    cbn in Hc. subst n. cbn [Z.ltb Z.eqb Z.compare Nat.eqb Nat.add]. rewrite drain_rounds_spec by (cbn; lia). by destruct m. }
  change (id r) with r. unfold heard_in.
  pose proof (recv_cases fd r Hfd) as Hc. destruct (nl80211_netlink_recv fd r (8 * 1024)) as [n buf].
  destruct (datagram r) as [d|] eqn:Ed.
  - assert (Ei : idle r = false) by (unfold idle; rewrite Ed; by destruct r). rewrite Ei.
    destruct Hc as [Hn ->]. destruct (Z.ltb_spec n 0), (Z.eqb_spec n 0); try lia.
    cbn [delivered_in]. rewrite Ed. cbn [events_of].
    destruct (nl80211_parse_feed_input w d) as [rc w1]. cbn [snd]. destruct (pull_all w1) as [evs w2].
    pose proof (add_stations_bound id evs [] ltac:(cbn; lia)).
    rewrite drain_rounds_spec by (done || lia).
    rewrite add_stations_spec, list_fmap_id by (cbn; lia). unfold clients. rewrite filter_app, fmap_app. cbn [app].
    set (x := fmap _ _). set (y := fmap _ _). destruct (Nat.le_ge_cases (length x) CPE_WIFI_STA_MAX).
    + by rewrite (take_ge x) by done.
    + rewrite !take_app_le by (rewrite ?length_take; lia). by rewrite take_take, Nat.min_id.
  - destruct (idle r) eqn:Ei; subst n.
    + cbn [Z.ltb Z.eqb Z.compare Nat.eqb Nat.add]. by rewrite drain_rounds_spec by (cbn; lia).
    + cbn [Z.ltb Z.compare delivered_in]. by rewrite Ed.
Qed.

(** ** What a dump publishes *)
Definition line_fits (t : string) : bool := strlen t <? CPE_NDJSON_LINE_MAX.
Definition snap_texts (router : string) (snap : cpe_wifi_snapshot) : list string :=
  iface_text router snap :: (station_text router snap <$> wfs_stations snap).

Lemma push_fitting_sink q t :
  t <> EmptyString -> push_fitting q t = sink_push_all q (filter (fun t => line_fits t = true) [t]).
Proof.
  intros Ht. unfold push_fitting, snprintf, line_fits. rewrite filter_cons, filter_nil.
  destruct (Z.ltb_spec 0 (Z.of_nat (strlen t))) as [_|H0]; [|destruct t; [done|cbn in H0; lia]]. cbn [andb].
  destruct (Nat.ltb_spec (strlen t) CPE_NDJSON_LINE_MAX), (Z.ltb_spec (Z.of_nat (strlen t)) (Z.of_nat CPE_NDJSON_LINE_MAX));
    try lia; [|done].
  rewrite str_take_all by lia. done.
Qed.

Lemma push_all_fitting q ts :
  Forall (fun t => t <> EmptyString) ts ->
  foldl push_fitting q ts = sink_push_all q (filter (fun t => line_fits t = true) ts).
Proof.
  revert q. induction ts as [|t ts IH]; intros q Hts; [done|]. apply Forall_cons in Hts as [Ht Hts]. cbn [foldl].
  rewrite IH, push_fitting_sink by done. change (t :: ts) with ([t] ++ ts).
  by rewrite filter_app, sink_push_all_app.
Qed.

Lemma emit_queue (a : agent) snap :
  emit_wifi_ndjson a snap =
    a <| ag_q := sink_push_all (ag_q a) (filter (fun t => line_fits t = true) (snap_texts (router_id (ag_cfg a)) snap)) |>.
Proof.
  assert (Hf : forall l q, foldl (fun q s => push_fitting q (station_text (router_id (ag_cfg a)) snap s)) q l
                        = foldl push_fitting q (station_text (router_id (ag_cfg a)) snap <$> l)).
  { induction l as [|s l IH]; intros q; [done|]. cbn. apply IH. }
  unfold emit_wifi_ndjson. rewrite Hf, <- push_all_fitting; [done|].
  unfold snap_texts. constructor; [done|]. apply Forall_fmap, Forall_true. intros s. done.
Qed.

(** The snapshot's lines, those that fit a line buffer, join the spool in order. *)
Lemma emit_wifi_lines (a : agent) snap :
  queues_wf (ag_q a) ->
  let a' := emit_wifi_ndjson a snap in
  queues_wf (ag_q a') /\ spool_cap (ag_q a') = spool_cap (ag_q a) /\
  pending (ag_q a') = lastn (spool_cap (ag_q a))
    (pending (ag_q a) ++ filter (fun t => line_fits t = true) (snap_texts (router_id (ag_cfg a)) snap)).
Proof.
  intros Hw. cbv zeta. rewrite emit_queue. cbn [ag_q set_field].
  set (ts := filter _ _). pose proof (sink_push_all_spec (Q := queues) (ag_q a) ts) as Hs. destruct (Hs Hw) as (H1 & H2 & H3).
  split; [exact H1|]. split; [exact H2|]. refine (eq_trans H3 _). f_equal. f_equal.
  rewrite <- (list_fmap_id ts) at 2. apply list_fmap_ext. intros i t Ht. apply list_elem_of_lookup_2 in Ht.
  apply list_elem_of_filter in Ht as [Ht _]. apply stored_short. apply Nat.ltb_lt in Ht. exact Ht.
Qed.
End collect.

(** ** Invariants *)
Section safe.
Context {P C FS : Type} `{!PingLib P} `{!NfctLib C} `{!FileSystem FS} {W : Type} `{!WifiLib W} `{!EventSource W nl80211_event}.
Local Abbreviation agent := (agent P C).

Lemma push_all_inv (a : agent) ts : agent_inv a -> agent_inv (a <| ag_q := sink_push_all (ag_q a) ts |>).
Proof.
  revert a. induction ts as [|t ts IH]; intros a Ha; [by destruct a|].
  exact (IH (a <| ag_q := (cpe_agent_spool_push_line (ag_q a) t).2 |>) (push_line_inv a t Ha)).
Qed.
Lemma emit_flush_last_wifi ee (fs : FS) (a : agent) :
  ag_last_wifi (cpe_agent_emit_flush ee fs a).1.1.2 = ag_last_wifi a.
Proof.
  unfold cpe_agent_emit_flush. destruct (_ || _).
  - assert (Hh : ag_last_wifi (flush_http ee a).2 = ag_last_wifi a); [|by destruct (flush_http ee a)].
    unfold flush_http. destruct (_ =? 0); [done|]. destruct (http_batch (ag_q a)) as [body n].
    destruct (n =? 0); [done|]. by destruct (negb _).
  - destruct (streq _ "spool").
    + unfold flush_file. destruct (negb _); [done|]. destruct (cpe_spool_ensure_parent_dir _ fs) as [r fs1].
      destruct (negb _); [done|]. by destruct (cpe_agent_spool_flush _ _ _) as [[rc q'] out].
    + by destruct (cpe_agent_spool_flush _ _ _) as [[rc q'] out].
Qed.

Lemma publish_spec ee (fs : FS) (a : agent) snap emit :
  agent_inv a ->
  let '(a', out, fs') := publish ee fs a snap emit in
  agent_inv a' /\ ag_cfg a' = ag_cfg a /\ ag_last_wifi a' = Some snap.
Proof.
  intros Ha. unfold publish. set (a1 := cpe_agent_set_last_wifi a snap).
  assert (H1 : agent_inv a1) by by apply (inv_frame a).
  destruct (truthy emit); [|by split].
  assert (H2 : agent_inv (emit_wifi_ndjson a1 snap)) by (rewrite emit_queue; by apply push_all_inv).
  pose proof (flush_inv ee fs _ H2) as H3. pose proof (emit_flush_cfg ee fs (emit_wifi_ndjson a1 snap)) as H4.
  pose proof (emit_flush_last_wifi ee fs (emit_wifi_ndjson a1 snap)) as H5.
  destruct (cpe_agent_emit_flush _ _ _) as [[[n a'] out] fs']. by split.
Qed.

(** The socket of a dump is closed whatever happens, and the table is bounded. *)
Lemma dump_stations_safe env ifindex err :
  safe_with (fun '(rc, stations, valid, _, _, closed) =>
      length stations <= CPE_WIFI_STA_MAX /\ (rc = 0%Z /\ valid = 1%Z \/ rc = (-1)%Z /\ valid = 0%Z /\ stations = []) /\
      closed = (if (ge_socket (we_genl env) <? 0)%Z then [] else [ge_socket (we_genl env)]))
    (dump_stations_live (W := W) env ifindex err).
Proof.
  unfold dump_stations_live. eapply safe_bind; [apply open_safe|].
  intros [[[[fd family] err1] sent] closed] Hopen.
  destruct (Z.ltb_spec fd 0) as [Hneg|Hpos].
  { apply safe_ret. split; [cbn; lia|]. split; [by right|]. destruct Hopen as [(_ & Hfd & _)|(_ & _ & Hc)]; [lia|exact Hc]. }
  assert (Hclosed : closed ++ nl80211_netlink_close fd =
    (if (ge_socket (we_genl env) <? 0)%Z then [] else [ge_socket (we_genl env)])).
  { destruct Hopen as [(Hfd & _ & ->)|(Hfd & _)]; [|lia]. rewrite <- Hfd. unfold nl80211_netlink_close.
    destruct (Z.leb_spec 0 fd), (Z.ltb_spec fd 0); try lia. done. }
  destruct (nl80211_netlink_dump_stations _ _ _ _ _) as [[rc err2] sent2].
  destruct (negb (rc =? 0)%Z); [apply safe_ret; split; [cbn; lia|split; [by right|exact Hclosed]]|].
  destruct nl80211_parse_create as [w|]; [|apply safe_ret; split; [cbn; lia|split; [by right|exact Hclosed]]].
  pose proof (drain_first 63 fd (ge_strerror (we_genl env)) (we_recvs env) w err2 Hpos) as Hd.
  change (S 63) with 64 in Hd. destruct (drain_rounds 64 0 _ _ _ _ _ _) as [stations err3]. cbn [fst] in Hd.
  apply safe_ret. split; [rewrite Hd, length_take; lia|]. split; [by left|exact Hclosed].
Qed.

Lemma wifi_dump_ok env ee (fs : FS) (a : agent) ifname_opt emit :
  agent_inv a ->
  safe_with (fun '(rc, a', snap, _, _) =>
      agent_inv a' /\ ag_cfg a' = ag_cfg a /\ length (wfs_stations snap) <= CPE_WIFI_STA_MAX /\
      (wfs_stations_valid snap = 0%Z -> wfs_stations snap = []) /\
      (rc = (cpe_agent_wifi_iface_state env (ag_cfg a) ifname_opt).1) /\
      (rc = 0%Z -> ag_last_wifi a' = Some snap) /\ (rc <> 0%Z -> a' = a))
    (cpe_agent_wifi_dump (W := W) env ee fs a ifname_opt emit).
Proof.
  intros Ha. unfold cpe_agent_wifi_dump.
  assert (Hrc : (cpe_agent_wifi_iface_state env (ag_cfg a) ifname_opt).1 = 0%Z \/
                (cpe_agent_wifi_iface_state env (ag_cfg a) ifname_opt).1 = (-1)%Z).
  { unfold cpe_agent_wifi_iface_state. destruct (pick_wifi_if _ _ _ _) as [r name]. destruct (negb _); [by right|].
    destruct (_ =? 0)%Z; [by right|]. destruct (read_sysfs_str _ _ _) as [r2 oper]. destruct (_ <? 0)%Z; by left. }
  destruct (cpe_agent_wifi_iface_state env (ag_cfg a) ifname_opt) as [rc iface]. cbn [fst] in *.
  destruct Hrc as [-> | ->]; cbn [Z.eqb negb].
  2:{ apply safe_ret. split; [exact Ha|]. split; [done|]. split; [cbn; lia|]. by split_and!. }
  eapply safe_bind; [apply dump_stations_safe|]. intros [[[[[rc stations] valid] err] sent] closed] (Hlen & Hcases & _).
  set (snap := if negb (rc =? 0)%Z then _ else _).
  pose proof (publish_spec ee fs a snap emit Ha) as Hp. destruct (publish ee fs a snap emit) as [[a' out] fs'].
  destruct Hp as (H1 & H2 & H3). apply safe_ret. split; [exact H1|]. split; [exact H2|].
  destruct Hcases as [[-> ->]|(-> & -> & ->)]; subst snap; cbn; (split; [exact Hlen || lia|]); by split_and!.
Qed.

(** A Wi-Fi dump, whatever sysfs, the kernel, the parser and the file system answer,
    is memory safe and keeps the agent consistent under the same configuration.  It fails
    only for an interface that does not exist, and then leaves the agent untouched; otherwise
    the snapshot returned is the one the agent keeps, has at most 32 stations, and none
    unless its table is marked valid. *)
Theorem wifi_dump_safe env ee (fs : FS) (a : agent) ifname_opt emit :
  agent_inv a ->
  safe_with (fun '(rc, a', snap, _, _) =>
      agent_inv a' /\ ag_cfg a' = ag_cfg a /\ length (wfs_stations snap) <= CPE_WIFI_STA_MAX /\
      (wfs_stations_valid snap = 0%Z -> wfs_stations snap = []) /\
      (rc = (cpe_agent_wifi_iface_state env (ag_cfg a) ifname_opt).1) /\
      (rc = 0%Z -> ag_last_wifi a' = Some snap) /\ (rc <> 0%Z -> a' = a))
    (cpe_agent_wifi_dump (W := W) env ee fs a ifname_opt emit).
Proof. exact (wifi_dump_ok env ee fs a ifname_opt emit). Qed.

(** C11: When the interface exists and the kernel accepts the dump, the snapshot lists
    exactly the stations with an address that the parser reports for the datagrams received,
    oldest first, up to 32; one idle receive at the start is waited out.  When the caller
    asks to emit, its lines, the interface's and one for each station, join the spool in
    that order, except a line of 4096 bytes or more, and are flushed; otherwise only the
    snapshot is kept. *)
Theorem wifi_dump_reports env ee (fs : FS) (a : agent) ifname_opt emit iface fd family err sent w :
  agent_inv a ->
  cpe_agent_wifi_iface_state env (ag_cfg a) ifname_opt = (0%Z, iface) -> (0 < wif_ifindex iface)%Z ->
  nl80211_netlink_open (we_genl env) (Some (96, EmptyString)) = Safe (fd, family, err, sent, []) ->
  (0 <= fd)%Z -> (0 < family)%Z -> (0 <= ge_send_dump (we_genl env))%Z -> nl80211_parse_create = Some w ->
  let snap := {| wfs_iface := iface;
                 wfs_stations := take CPE_WIFI_STA_MAX (clients (events_of w (heard (we_recvs env))));
                 wfs_stations_valid := 1; wfs_demo := 0; wfs_ts_iso := iso_now (we_clk env) CPE_PERF_TS_MAX;
                 wfs_err := EmptyString |} in
  let a1 := cpe_agent_set_last_wifi a snap in
  let a2 := emit_wifi_ndjson a1 snap in
  let '(a', out, fs') := publish ee fs a snap emit in
  cpe_agent_wifi_dump (W := W) env ee fs a ifname_opt emit = Safe (0%Z, a', snap, out, fs') /\
  pending (ag_q a2) = lastn (spool_cap (ag_q a))
    (pending (ag_q a) ++ filter (fun t => line_fits t = true) (snap_texts (router_id (ag_cfg a)) snap)) /\
  (a', out, fs') = (if truthy emit then let '(_, a', out, fs') := cpe_agent_emit_flush ee fs a2 in (a', out, fs') else (a1, [], fs)).
Proof.
  intros Ha Hif Hidx Hopen Hfd Hfam Hsend Hw snap a1 a2.
  destruct (publish ee fs a snap emit) as [[a' out] fs'] eqn:Ep. split; [|split].
  - unfold cpe_agent_wifi_dump. rewrite Hif. cbn [Z.eqb negb]. unfold dump_stations_live. rewrite Hopen. chk_step.
    destruct (Z.ltb_spec fd 0); [lia|]. unfold nl80211_netlink_dump_stations.
    destruct (Z.ltb_spec fd 0), (Z.leb_spec family 0), (Z.leb_spec (wif_ifindex iface) 0); try lia. cbn [orb].
    destruct (Z.ltb_spec (ge_send_dump (we_genl env)) 0); [lia|]. cbn [Z.eqb negb]. rewrite Hw.
    pose proof (drain_first 63 fd (ge_strerror (we_genl env)) (we_recvs env) w err Hfd) as Hd.
    change (S 63) with 64 in Hd. destruct (drain_rounds 64 0 _ _ _ _ _ _) as [stations err3]. cbn [fst] in Hd.
    chk_step. cbn [Z.eqb negb]. subst stations. fold (heard (we_recvs env)). fold snap. rewrite Ep. done.
  - destruct (emit_wifi_lines a1 snap (proj1 (ai_queues _ Ha))) as (_ & _ & H3). exact H3.
  - rewrite <- Ep. unfold publish. fold a1. fold a2. destruct (truthy emit); [|done].
    by destruct (cpe_agent_emit_flush ee fs a2) as [[[n a''] out''] fs''].
Qed.

(** A failed receive goes unseen: the dump reports what was heard before it as a complete,
    valid table. *)
Theorem recv_failure_unseen env ee (fs : FS) (a : agent) ifname_opt emit :
  cpe_agent_wifi_dump (W := W) {| we_access := we_access env; we_net_dir := we_net_dir env; we_file := we_file env;
      we_if_nametoindex := we_if_nametoindex env; we_socket := we_socket env; we_flags := we_flags env;
      we_hwaddr := we_hwaddr env; we_mtu := we_mtu env; we_genl := we_genl env;
      we_recvs := we_recvs env ++ [RecvFailed]; we_clk := we_clk env |} ee fs a ifname_opt emit =
  cpe_agent_wifi_dump env ee fs a ifname_opt emit.
Proof.
  assert (Hdel : forall n rs, delivered_in n (rs ++ [RecvFailed]) = delivered_in n rs).
  { induction n as [|n IH]; intros [|r rs]; [done..|]. cbn [app delivered_in]. destruct (datagram r); [by rewrite IH|done]. }
  assert (Hheard : forall n rs, heard_in n (rs ++ [RecvFailed]) = heard_in n rs).
  { intros n [|r rs]; [done|]. cbn [app heard_in]. change (r :: rs ++ [RecvFailed]) with ((r :: rs) ++ [RecvFailed]).
    by rewrite !Hdel. }
  unfold cpe_agent_wifi_dump. match goal with |- context [cpe_agent_wifi_iface_state ?e _ _] => set (env1 := e) end.
  change (cpe_agent_wifi_iface_state env1) with (cpe_agent_wifi_iface_state env).
  change (we_clk env1) with (we_clk env).
  destruct (cpe_agent_wifi_iface_state env (ag_cfg a) ifname_opt) as [rc iface]. destruct (negb (rc =? 0)%Z); [reflexivity|].
  unfold dump_stations_live. change (we_genl env1) with (we_genl env). change (we_recvs env1) with (we_recvs env ++ [RecvFailed]).
  destruct (nl80211_netlink_open _ _) as [[[[[fd family] err1] sent] closed]|]; [|chk_step; reflexivity]. chk_step.
  destruct (Z.ltb_spec fd 0) as [|Hfd]; [chk_step; reflexivity|].
  destruct (nl80211_netlink_dump_stations _ _ _ _ _) as [[rc1 err2] sent2]. destruct (negb (rc1 =? 0)%Z); [chk_step; reflexivity|].
  destruct nl80211_parse_create as [w|]; [|chk_step; reflexivity].
  pose proof (drain_first 63 fd (ge_strerror (we_genl env)) (we_recvs env) w err2 Hfd) as H1.
  pose proof (drain_first 63 fd (ge_strerror (we_genl env)) (we_recvs env ++ [RecvFailed]) w err2 Hfd) as H2.
  change (S 63) with 64 in H1, H2. rewrite Hheard, <- H1 in H2.
  destruct (drain_rounds 64 0 fd _ (we_recvs env) _ _ _) as [st3 err3].
  destruct (drain_rounds 64 0 fd _ (we_recvs env ++ _) _ _ _) as [st4 err4]. cbn [fst] in H1, H2. subst st4. chk_step. reflexivity.
Qed.
End safe.

(** ** Instances *)
#[local] Existing Instances toy_source toy_lib toy_ping toy_ping_events.

(** A parser that reports one station for each datagram, its address the first bytes. *)
#[local] Instance toy_wifi : WifiLib (list nl80211_event) := {|
  nl80211_parse_create := Some [];
  nl80211_parse_feed_input := fun w buf => (0%Z, w ++ [{|
    nle_is_station := true; nle_has_mac := 1; nle_client_mac := take 6 buf; nle_signal_dbm := -60; nle_signal_avg_dbm := -61;
    nle_snr_db := 30; nle_has_mcs := 0; nle_mcs_index := 0; nle_tx_retries := 0; nle_tx_failed := 0; nle_rx_bytes := 0;
    nle_tx_bytes := 0; nle_frequency_mhz := 5180; nle_has_signal := 1 |}]) |}.
#[local] Instance toy_wifi_events : EventSource (list nl80211_event) nl80211_event := {|
  next_event := fun w => match w with [] => (None, []) | e :: w' => (Some e, w') end; queued := length;
  next_event_decreases := ltac:(runs_dry) |}.

(** An access point with one wireless interface and one client. *)
Definition toy_ap : wifi_env := {|
  we_access := fun p => streq p "/sys/class/net/ap0/wireless"; we_net_dir := Some ["."; "lo"; "ap0"]%string;
  we_file := fun _ => Some ("up" +:+ newline)%string; we_if_nametoindex := fun n => if streq n "ap0" then 3%Z else 0%Z;
  we_socket := 5; we_flags := fun _ => Some 65%Z; we_hwaddr := fun _ => Some [2; 0; 0; 0; 0; 9]%Z;
  we_mtu := fun _ => Some 1500%Z; we_genl := genl_answers kernel_reply;
  we_recvs := [RecvAgain; RecvData [170; 187; 204; 221; 238; 255]%Z]; we_clk := flow_clk |}.
Definition new_ap_agent : option (agent nat nat) := (cpe_agent_create true toy_calloc cpe_host_alloc_reset_stats).1.

Example toy_iface : cpe_agent_wifi_iface_state toy_ap cpe_agent_config_defaults None =
  (0%Z, {| wif_ifname := "ap0"; wif_ifindex := 3; wif_up := 1; wif_running := 1; wif_wireless := 1; wif_operstate := "up";
           wif_mac := "02:00:00:00:00:09"; wif_mtu := 1500 |}).
Proof. vm_compute. reflexivity. Qed.
Example toy_client : sta_mac <$> clients (events_of (W := list nl80211_event) [] (heard (we_recvs toy_ap))) = ["aa:bb:cc:dd:ee:ff"%string].
Proof. vm_compute. reflexivity. Qed.

Lemma wifi_dump_safe_witness :
  exists a, new_ap_agent = Some a /\
    safe_with (fun '(rc, a', snap, _, _) => agent_inv a' /\ ag_last_wifi a' = Some snap)
      (cpe_agent_wifi_dump (W := list nl80211_event) toy_ap refusing (@nil string) a None 1).
Proof.
  unfold new_ap_agent. destruct (cpe_agent_create true toy_calloc cpe_host_alloc_reset_stats) as [[a|] h] eqn:Ec;
    [|vm_compute in Ec; discriminate].
  exists a. split; [reflexivity|].
  assert (Hi : (cpe_agent_wifi_iface_state toy_ap (ag_cfg a) None).1 = 0%Z)
    by (vm_compute in Ec; injection Ec as <- _; vm_compute; reflexivity).
  destruct (wifi_dump_safe (W := list nl80211_event) toy_ap refusing (@nil string) a None 1 (create_inv _ _ _ _ Ec))
    as ([[[[rc a'] snap] out] fs] & Hrun & H1 & _ & _ & _ & Hrc & H2 & _).
  exists (rc, a', snap, out, fs). split; [exact Hrun|]. split; [exact H1|]. apply H2. rewrite Hrc. exact Hi.
Defined.

Lemma wifi_dump_reports_witness :
  exists a iface, new_ap_agent = Some a /\
    let snap := {| wfs_iface := iface; wfs_stations := take CPE_WIFI_STA_MAX
                     (clients (events_of (W := list nl80211_event) [] (heard (we_recvs toy_ap))));
                   wfs_stations_valid := 1; wfs_demo := 0; wfs_ts_iso := iso_now (we_clk toy_ap) CPE_PERF_TS_MAX;
                   wfs_err := EmptyString |} in
    cpe_agent_wifi_dump (W := list nl80211_event) toy_ap refusing (@nil string) a None 0 =
      Safe (0%Z, cpe_agent_set_last_wifi a snap, snap, [], []).
Proof.
  unfold new_ap_agent. destruct (cpe_agent_create true toy_calloc cpe_host_alloc_reset_stats) as [[a|] h] eqn:Ec;
    [|vm_compute in Ec; discriminate].
  destruct (cpe_agent_wifi_iface_state toy_ap (ag_cfg a) None) as [rc iface] eqn:Ei.
  assert (Hi : rc = 0%Z /\ wif_ifindex iface = 3%Z).
  { vm_compute in Ec. injection Ec as <- _. vm_compute in Ei. injection Ei as <- <-. by split. }
  destruct Hi as [-> Hidx]. exists a, iface. split; [reflexivity|].
  pose proof (wifi_dump_reports (W := list nl80211_event) toy_ap refusing (@nil string) a None 0 iface 7 28
    (Some (96, EmptyString)) [family_request "nl80211"] [] (create_inv _ _ _ _ Ec) Ei ltac:(rewrite Hidx; reflexivity)
    ltac:(vm_compute; reflexivity) ltac:(vm_compute; discriminate) ltac:(reflexivity) ltac:(vm_compute; discriminate) eq_refl) as Hd.
  cbv zeta in Hd |- *. change (publish refusing (@nil string) a ?s 0) with (cpe_agent_set_last_wifi a s, @nil string, @nil string) in Hd.
  exact (proj1 Hd).
Defined.
