(* ===== verification/LiveArping.v ===== *)
(** * The ARP probe (src/agent/live_arping.c)

    One ARP request to the target; the first reply for it within the timeout gives the
    round-trip time and the peer's address, other packets are skipped.  The statistics
    library of the demonstration is [ArpLib]; sockets, ioctls, the routing table and the
    clocks are an environment. *)

From Stdlib Require Import Ascii.
From S2P Require Import Prelude CStr Float754 Inet Clock HostAlloc SpoolDir Config Spool Events PerfSample Nflog TcpStats.
From S2P Require Import TcpEmit TcpInv Nfct FlowEntry FlowTable FlowAcct AgentData Agent AgentConfig Icmp LivePing LiveTrace.
From S2P Require Import AgentRun.

(** [struct cpe_eth_arp], 42 bytes; the fields in network order. *)
Record cpe_eth_arp := {
  ea_eth_dst : list Z;
  ea_eth_src : list Z;
  ea_eth_type : Z;
  ea_htype : Z;
  ea_ptype : Z;
  ea_hlen : Z;
  ea_plen : Z;
  ea_oper : Z;
  ea_sha : list Z;
  ea_spa : list Z;
  ea_tha : list Z;
  ea_tpa : list Z;
}.
Definition SIZEOF_ETH_ARP := 42.
Definition arp_bytes (p : cpe_eth_arp) : list Z :=
  ea_eth_dst p ++ ea_eth_src p ++ be16 (ea_eth_type p) ++ be16 (ea_htype p) ++ be16 (ea_ptype p) ++
  [ea_hlen p; ea_plen p] ++ be16 (ea_oper p) ++ ea_sha p ++ ea_spa p ++ ea_tha p ++ ea_tpa p.

Definition iso_now (clk : clock) (n : nat) : string := AgentCoreClock.iso_now clk n.
Definition mac_fmt (n : nat) (mac : list Z) : string := snprintf_s n (mac_text mac).

(** One round of the receive loop: the clock before, what [poll] returns, whether POLLIN is
    set, the packet (empty when [recvfrom] fails), the clocks after. *)
Record arp_round := {
  ar_before : clock;
  ar_waited : Z;
  ar_pollin : bool;
  ar_recv : list Z;
  ar_t1 : clock;
  ar_after : clock;
}.
Record arp_env := {
  ae_route : option string;                (* /proc/net/route *)
  ae_if_nametoindex : string -> Z;
  ae_dgram : Z;                            (* socket(AF_INET) *)
  ae_ifindex : string -> option Z;         (* the three ioctls *)
  ae_hwaddr : string -> option (list Z);
  ae_ifaddr : string -> option (list Z);
  ae_packet : Z;                           (* socket(AF_PACKET) *)
  ae_bind : Z -> Z;
  ae_sendto : Z -> list Z -> Z;            (* interface, frame *)
  ae_t0 : clock;
  ae_rounds : nat -> arp_round;
  ae_now : clock;
}.

(** ** The interface *)

(** Reading lines with [fgets] into [n] bytes. *)
Fixpoint split_lines (n room : nat) (s : string) : list string :=
  match s with
  | EmptyString => []
  | String c s' =>
      if Ascii.eqb c "010" || (room <=? 1) then String c EmptyString :: split_lines n (n - 1) s'
      else match split_lines n (room - 1) s' with [] => [String c EmptyString] | l :: ls => String c l :: ls end
  end.
Definition fgets_lines (n : nat) (s : string) : list string := split_lines n (n - 1) s.

(** The parts of [sscanf] for "%15s" and "%x", which reads with [strtoul] and stores an
    [unsigned]. *)
Fixpoint scan_word (n : nat) (s : string) : string * string :=
  match n, s with
  | S n', String c s' => if is_space c then (EmptyString, s) else let '(w, r) := scan_word n' s' in (String c w, r)
  | _, _ => (EmptyString, s)
  end.
Definition scan_x (s : string) : option (Z * string) :=
  match strtoul16 64 s with (v, Some r) => Some (u32 v, r) | (_, None) => None end.

(** One line: the name of an interface with a default route that is up. *)
Definition route_iface (line : string) : option string :=
  let '(ifname, r) := scan_word 15 (skip_space line) in
  if negb (nonempty ifname) then None
  else
    '(dest, r) ← scan_x r; '(gateway, r) ← scan_x r; '(flags, _) ← scan_x r;
    if (dest =? 0)%Z && truthy (Z.land flags 1) && negb (streq ifname "lo") then Some ifname else None.

Fixpoint first_some {A B} (f : A -> option B) (l : list A) : option B :=
  match l with [] => None | x :: l => match f x with Some y => Some y | None => first_some f l end end.
Definition candidates : list string := ["br-lan"; "br0"; "lan"; "eth0"; "eth1"]%string.

Section probe.
Context (env : arp_env).

Definition pick_iface (out_sz : nat) : Z * string :=
  if out_sz <? 2 then ((-1)%Z, EmptyString)
  else
    match match ae_route env with Some text => first_some route_iface (tail (fgets_lines 256 text)) | None => None end with
    | Some ifname => (0%Z, snprintf_s out_sz ifname)
    | None =>
        match first_some (fun c => if (ae_if_nametoindex env c =? 0)%Z then None else Some c) candidates with
        | Some c => (0%Z, snprintf_s out_sz c)
        | None => (0%Z, snprintf_s out_sz "eth0")
        end
    end.

(** The result, the index, the hardware and the IPv4 address (zeros where an ioctl fails). *)
Definition iface_addrs (ifname : string) : Z * Z * list Z * list Z :=
  let mac0 := replicate 6 0%Z in
  let ip0 := replicate 4 0%Z in
  if (ae_dgram env <? 0)%Z then ((-1)%Z, 0%Z, mac0, ip0)
  else
    let ifr_name := str_take 15 ifname in
    match ae_ifindex env ifr_name with
    | None => ((-1)%Z, 0%Z, mac0, ip0)
    | Some ifindex =>
        (if (0 <? ifindex)%Z then 0%Z else (-1)%Z, ifindex,
         default mac0 (ae_hwaddr env ifr_name), default ip0 (ae_ifaddr env ifr_name))
    end.

Definition arp_request (src_mac src_ip dst_ip : list Z) : cpe_eth_arp := {|
  ea_eth_dst := replicate 6 255%Z; ea_eth_src := src_mac; ea_eth_type := 2054; ea_htype := 1; ea_ptype := 2048;
  ea_hlen := 6; ea_plen := 4; ea_oper := 1; ea_sha := src_mac; ea_spa := src_ip; ea_tha := replicate 6 0%Z;
  ea_tpa := dst_ip |}.

(** The responder's hardware address, when the frame is an ARP reply for [tpa]. *)
Definition is_arp_reply_for (frame : list Z) (tpa : list Z) : chk (option (list Z)) :=
  if length frame <? SIZEOF_ETH_ARP then mret None
  else
    eth_type ← rd16 frame 12;
    if negb (ntohs eth_type =? 2054)%Z then mret None
    else
      htype ← rd16 frame 14;
      ptype ← rd16 frame 16;
      if negb (ntohs htype =? 1)%Z || negb (ntohs ptype =? 2048)%Z then mret None
      else
        hlen ← rd frame 18;
        plen ← rd frame 19;
        if negb (hlen =? 6)%Z || negb (plen =? 4)%Z then mret None
        else
          oper ← rd16 frame 20;
          if negb (ntohs oper =? 2)%Z then mret None
          else
            spa ← rd_slice frame 28 4;
            if negb (bool_decide (spa = tpa)) then mret None
            else sha ← rd_slice frame 22 6; mret (Some sha).

(** Milliseconds spent in a round, at least one. *)
Definition elapsed (r : arp_round) : Z :=
  let before := mono_ns (ar_before r) in
  let after := mono_ns (ar_after r) in
  let ms := i32 ((if (before <? after)%Z then u64 (after - before) else 0) / 1000000) in
  if (ms <? 1)%Z then 1%Z else ms.

(** The peer's address and the round-trip time, if a reply comes before the deadline.  A
    round takes at least a millisecond, so [fuel] the milliseconds left is enough. *)
Fixpoint await_arp (fuel k : nat) (deadline_left : Z) (dst_ip : list Z) (t0_ns : Z) : chk (option (list Z * double)) :=
  if (deadline_left <=? 0)%Z then mret None
  else match fuel with
  | O => Oob
  | S fuel' =>
      let r := ae_rounds env k in
      if (ar_waited r <=? 0)%Z then mret None
      else if negb (ar_pollin r) then mret None
      else
        let rbuf := take 256 (ar_recv r) in
        let t1_ns := mono_ns (ar_t1 r) in
        reply ← (if 0 <? length rbuf then is_arp_reply_for rbuf dst_ip else mret None);
        match reply with
        | Some mac => mret (Some (mac, rtt_between t0_ns t1_ns))
        | None => await_arp fuel' (k + 1) (deadline_left - elapsed r) dst_ip t0_ns
        end
  end.
End probe.

(** ** Samples *)
Definition arping_meta (replied demo : bool) (mac_str ifname : string) : string :=
  let head := lit "{'replies':" +:+ fmt_d (c_bool replied) +:+ lit ",'timeouts':" +:+ fmt_d (c_bool (negb replied)) in
  if demo then head +:+ lit ",'demo':true,'mac':'" +:+ str_dflt mac_str "00:00:00:00:00:00" +:+ lit "'}"
  else head +:+ lit ",'demo':false,'mac':'" +:+ mac_str +:+ lit "','if':'" +:+ ifname +:+ lit "'}".
Definition arping_sample (target : string) (rtt_ms : double) (loss : float) (replied demo : bool) (mac_str ifname : string)
    (clk : clock) : cpe_perf_sample := {|
  ps_probe := snprintf_s CPE_PERF_PROBE_MAX "arping";
  ps_target := snprintf_s CPE_PERF_TARGET_MAX target;
  ps_rtt_ms := if replied then rtt_ms else d_zero;
  ps_loss := loss;
  ps_ts_iso := iso_now clk CPE_PERF_TS_MAX;
  ps_meta := snprintf_s CPE_PERF_META_MAX (snprintf_s CPE_PERF_META_MAX (arping_meta replied demo mac_str ifname)) |}.

(** The statistics library of the demonstration; statistics that are not filled in leave
    the caller's structure as it was. *)
Class ArpLib (A : Type) := {
  arping_create : option A;
  arping_feed_input_with_ts : A -> list Z -> Z -> Z * A;
  arping_process : A -> Z -> Z * A;
  arping_get_stats : A -> option Z;   (* [avg_latency_ms] *)
}.

Section arping.
Context {P C : Type} {A : Type} `{!ArpLib A} {E : Type} `{!EventSource A E}.
Local Abbreviation agent := (agent P C).

Definition emit_arping_sample (a : agent) (target : string) (rtt_ms : double) (loss : float) (replied demo : bool)
    (mac_str ifname : string) (clk : clock) : Z * agent :=
  store_and_push a (arping_sample target rtt_ms loss replied demo mac_str ifname clk).

Definition target_of (a : agent) (ipv4_opt : option string) : string :=
  str_dflt (default EmptyString ipv4_opt) (demo_target (ag_cfg a)).

Definition fake_reply : list Z :=
  put 22 [2; 0; 0; 0; 0; 1]%Z (put 21 [2%Z] (put 12 [8; 6]%Z (replicate 42 0%Z))).
Definition demo_mac : list Z := [2; 0; 0; 0; 0; 1]%Z.
(** [stack] is what the uninitialised structure holds. *)
Definition cpe_agent_demo_arping (a : agent) (ipv4_opt : option string) (clk_mono clk : clock) (stack : Z) : Z * agent :=
  let target := target_of a ipv4_opt in
  if negb (nonempty target) then ((-1)%Z, a)
  else match arping_create with
  | None => ((-1)%Z, a)
  | Some ap =>
      let now_ms := (mono_ns clk_mono / 1000000)%Z in
      let '(_, ap) := arping_feed_input_with_ts ap fake_reply (u64 (now_ms + 1)) in
      let '(_, ap) := arping_process ap (u64 (now_ms + 2)) in
      let '(_, ap) := pull_all (E := E) ap in
      let avg := default stack (arping_get_stats ap) in
      let rtt := if truthy avg then d_of_Z avg else d_of_Z 1 in
      emit_arping_sample a target rtt (f_const 0 0) true true (mac_fmt 24 demo_mac) EmptyString clk
  end.
Definition cpe_agent_demo_arping_tick (a : agent) (clk_mono clk : clock) (stack : Z) : Z * agent :=
  cpe_agent_demo_arping a None clk_mono clk stack.

(** The addresses a probe works with, when there is a target, an interface and a socket. *)
Definition arping_setup (env : arp_env) (a : agent) (ipv4_opt ifname_opt : option string)
    : option (string * string * Z * list Z) :=
  let cfg := ag_cfg a in
  let target := target_of a ipv4_opt in
  if negb (nonempty target) then None
  else match inet_pton4 target with
  | None => None
  | Some ina =>
      let dst_ip := le_bytes32 ina in
      let ifopt := default EmptyString ifname_opt in
      let '(rc, ifname) :=
        if nonempty ifopt then (0%Z, snprintf_s CPE_CFG_IFACE_MAX ifopt)
        else if nonempty (arping_if cfg) then (0%Z, snprintf_s CPE_CFG_IFACE_MAX (arping_if cfg))
        else pick_iface env CPE_CFG_IFACE_MAX in
      if negb (rc =? 0)%Z then None
      else
        let '(rc, ifindex, src_mac, src_ip) := iface_addrs env ifname in
        if negb (rc =? 0)%Z then None
        else if (ae_packet env <? 0)%Z then None
        else if negb (ae_bind env ifindex =? 0)%Z then None
        else if (ae_sendto env ifindex (arp_bytes (arp_request src_mac src_ip dst_ip)) <? 0)%Z then None
        else Some (target, ifname, ifindex, dst_ip)
  end.

Definition cpe_agent_arping (env : arp_env) (a : agent) (ipv4_opt ifname_opt : option string) : chk (Z * agent) :=
  match arping_setup env a ipv4_opt ifname_opt with
  | None => mret ((-1)%Z, a)
  | Some (target, ifname, _, dst_ip) =>
      let timeout_ms := dflt (probe_timeout_ms (ag_cfg a)) 1000 in
      let t0_ns := mono_ns (ae_t0 env) in
      let deadline := i32 timeout_ms in
      reply ← await_arp env (Z.to_nat deadline) 0 deadline dst_ip t0_ns;
      mret (match reply with
            | Some (mac, rtt_ms) =>
                emit_arping_sample a target rtt_ms (f_const 0 0) true false (mac_fmt 24 mac) ifname (ae_now env)
            | None => emit_arping_sample a target d_zero (f_const 1 0) false false EmptyString ifname (ae_now env)
            end)
  end.
Definition cpe_agent_live_arping_tick (env : arp_env) (a : agent) : chk (Z * agent) := cpe_agent_arping env a None None.
End arping.

(** ** Which frames are replies *)
Definition frame_ok (p : cpe_eth_arp) : Prop :=
  length (ea_eth_dst p) = 6 /\ length (ea_eth_src p) = 6 /\ length (ea_sha p) = 6 /\ length (ea_spa p) = 4 /\
  length (ea_tha p) = 6 /\ length (ea_tpa p) = 4 /\
  in_u16 (ea_eth_type p) /\ in_u16 (ea_htype p) /\ in_u16 (ea_ptype p) /\ in_u16 (ea_oper p).
Definition is_reply (p : cpe_eth_arp) (ip : list Z) : bool :=
  (ea_eth_type p =? 2054)%Z && (ea_htype p =? 1)%Z && (ea_ptype p =? 2048)%Z && (ea_hlen p =? 6)%Z &&
  (ea_plen p =? 4)%Z && (ea_oper p =? 2)%Z && bool_decide (ea_spa p = ip).

Lemma rd16_be16 z rest : in_u16 z -> exists v, rd16 (be16 z ++ rest) 0 = Safe v /\ ntohs v = z.
Proof.
  intros Hz. eexists. split; [reflexivity|]. rewrite ntohs_le by apply byte_at_range.
  rewrite byte_at_0, byte_at_1. word_lia.
Qed.

Lemma list6 {X} (l : list X) : length l = 6 -> exists a b c d e f, l = [a; b; c; d; e; f].
Proof. destruct l as [|a [|b [|c [|d [|e [|f [|]]]]]]]; try done. intros _. by exists a, b, c, d, e, f. Qed.
Lemma list4 {X} (l : list X) : length l = 4 -> exists a b c d, l = [a; b; c; d].
Proof. destruct l as [|a [|b [|c [|d [|]]]]]; try done. intros _. by exists a, b, c, d. Qed.

(** The probe accepts a frame exactly when it is an Ethernet/IPv4 ARP reply whose sender
    protocol address is the target, whatever follows it; it takes the sender's hardware
    address.  The destination addresses are not looked at. *)
Lemma arp_reply_spec p rest ip :
  frame_ok p ->
  is_arp_reply_for (arp_bytes p ++ rest) ip = Safe (if is_reply p ip then Some (ea_sha p) else None).
Proof.
  intros (Hd & Hs & Hsha & Hspa & Htha & Htpa & H1 & H2 & H3 & H4).
  destruct p as [ed es et ht pt hl pl op sha spa tha tpa]. cbn [ea_eth_dst ea_eth_src ea_eth_type ea_htype ea_ptype ea_hlen
    ea_plen ea_oper ea_sha ea_spa ea_tha ea_tpa] in *.
  apply list6 in Hd as (d0 & d1 & d2 & d3 & d4 & d5 & ->). apply list6 in Hs as (s0 & s1 & s2 & s3 & s4 & s5 & ->).
  apply list6 in Hsha as (a0 & a1 & a2 & a3 & a4 & a5 & ->). apply list4 in Hspa as (p0 & p1 & p2 & p3 & ->).
  apply list6 in Htha as (t0 & t1 & t2 & t3 & t4 & t5 & ->). apply list4 in Htpa as (q0 & q1 & q2 & q3 & ->).
  assert (Hn : forall z, in_u16 z -> ntohs (le_word16 (byte_at 1 z) (byte_at 0 z)) = z).
  { intros z Hz. rewrite ntohs_le by apply byte_at_range. rewrite byte_at_0, byte_at_1. word_lia. }
  unfold is_arp_reply_for, is_reply, arp_bytes, be16. cbn [ea_eth_dst ea_eth_src ea_eth_type ea_htype ea_ptype ea_hlen
    ea_plen ea_oper ea_sha ea_spa ea_tha ea_tpa app].
  set (f := d0 :: _). change (length f <? SIZEOF_ETH_ARP) with false. cbn iota.
  change (rd16 f 12) with (Safe (le_word16 (byte_at 1 et) (byte_at 0 et))).
  change (rd16 f 14) with (Safe (le_word16 (byte_at 1 ht) (byte_at 0 ht))).
  change (rd16 f 16) with (Safe (le_word16 (byte_at 1 pt) (byte_at 0 pt))).
  change (rd f 18) with (Safe hl). change (rd f 19) with (Safe pl).
  change (rd16 f 20) with (Safe (le_word16 (byte_at 1 op) (byte_at 0 op))).
  change (rd_slice f 28 4) with (Safe [p0; p1; p2; p3]). change (rd_slice f 22 6) with (Safe [a0; a1; a2; a3; a4; a5]).
  chk_step. rewrite !Hn by done.
  destruct (et =? 2054)%Z; cbn [negb andb orb]; [|done].
  destruct (ht =? 1)%Z, (pt =? 2048)%Z; cbn [negb andb orb]; try done.
  destruct (hl =? 6)%Z, (pl =? 4)%Z; cbn [negb andb orb]; try done.
  destruct (op =? 2)%Z; cbn [negb andb]; [|done]. by destruct (bool_decide _).
Qed.

Lemma arp_reply_safe frame ip : exists o, is_arp_reply_for frame ip = Safe o.
Proof.
  unfold is_arp_reply_for, SIZEOF_ETH_ARP. destruct (Nat.ltb_spec (length frame) 42); [by eexists|].
  destruct (rd16_ok frame 12) as [v1 ->]; [lia|]. destruct (rd16_ok frame 14) as [v2 ->]; [lia|].
  destruct (rd16_ok frame 16) as [v3 ->]; [lia|]. destruct (rd_safe frame 18) as (x1 & -> & _); [lia|].
  destruct (rd_safe frame 19) as (x2 & -> & _); [lia|]. destruct (rd16_ok frame 20) as [v4 ->]; [lia|].
  rewrite !rd_slice_ok by lia. chk_step. repeat case_match; by eexists.
Qed.

(** ** The receive loop *)
Section await.
Context (env : arp_env) (dst_ip : list Z) (t0_ns : Z).

(** What round [k] finds; a round is skipped when a packet came that is no reply. *)
Definition answer (k : nat) : option (list Z) :=
  let rbuf := take 256 (ar_recv (ae_rounds env k)) in
  if 0 <? length rbuf then match is_arp_reply_for rbuf dst_ip with Safe o => o | Oob => None end else None.
Definition readable (k : nat) : bool := (0 <? ar_waited (ae_rounds env k))%Z && ar_pollin (ae_rounds env k).
Definition spent (k n : nat) : Z := zsum (fun i => elapsed (ae_rounds env i)) (seq k n).

Lemma elapsed_pos r : (1 <= elapsed r)%Z.
Proof. unfold elapsed. cbv zeta. destruct (_ <? 1)%Z eqn:E; [lia|]. apply Z.ltb_ge in E. lia. Qed.

(** The loop ends; it ends with the first readable reply before the deadline, or when the
    deadline has passed or the socket is not readable after packets that were no replies. *)
Lemma await_arp_spec fuel k left :
  (left <= Z.of_nat fuel)%Z ->
  exists n, (forall i, i < n -> readable (k + i) = true /\ answer (k + i) = None /\ (spent k i < left)%Z) /\
    match await_arp env fuel k left dst_ip t0_ns with
    | Oob => False
    | Safe (Some (mac, rtt)) =>
        readable (k + n) = true /\ answer (k + n) = Some mac /\ (spent k n < left)%Z /\
        rtt = rtt_between t0_ns (mono_ns (ar_t1 (ae_rounds env (k + n))))
    | Safe None => (left <= spent k n)%Z \/ readable (k + n) = false
    end.
Proof.
  revert k left. induction fuel as [|fuel IH]; intros k left Hf; cbn [await_arp].
  { destruct (Z.leb_spec left 0); [|lia]. exists 0. split; [lia|]. left. unfold spent. cbn. lia. }
  destruct (Z.leb_spec left 0); [exists 0; split; [lia|left; unfold spent; cbn; lia]|].
  assert (Hready : readable k = negb (ar_waited (ae_rounds env k) <=? 0)%Z && negb (negb (ar_pollin (ae_rounds env k)))).
  { unfold readable. by rewrite negb_involutive, Z.ltb_antisym. }
  destruct (ar_waited (ae_rounds env k) <=? 0)%Z.
  { exists 0. split; [lia|]. right. by rewrite Nat.add_0_r, Hready. }
  destruct (negb (ar_pollin (ae_rounds env k))).
  { exists 0. split; [lia|]. right. by rewrite Nat.add_0_r, Hready. }
  cbn in Hready. set (rbuf := take 256 (ar_recv (ae_rounds env k))).
  assert (Ha : (if 0 <? length rbuf then is_arp_reply_for rbuf dst_ip else mret None) = Safe (answer k)).
  { unfold answer. fold rbuf. destruct (0 <? length rbuf); [|done].
    by destruct (arp_reply_safe rbuf dst_ip) as [o ->]. }
  rewrite Ha. chk_step. destruct (answer k) as [mac|] eqn:Eans.
  { exists 0. split; [lia|]. rewrite Nat.add_0_r. split; [done|]. split; [done|]. split; [unfold spent; cbn; lia|done]. }
  pose proof (elapsed_pos (ae_rounds env k)) as He.
  assert (Hsp : forall i, spent k (S i) = (elapsed (ae_rounds env k) + spent (k + 1) i)%Z).
  { intros i. unfold spent. rewrite Nat.add_1_r. done. }
  destruct (IH (k + 1) (left - elapsed (ae_rounds env k))%Z ltac:(lia)) as (n & Hn & Hres).
  exists (S n). split.
  - intros [|i] Hi; [rewrite Nat.add_0_r; split; [done|split; [done|unfold spent; cbn; lia]]|].
    destruct (Hn i ltac:(lia)) as (G1 & G2 & G3). replace (k + S i) with (k + 1 + i) by lia. rewrite Hsp.
    split; [done|]. split; [done|lia].
  - replace (k + S n) with (k + 1 + n) by lia. rewrite Hsp.
    destruct (await_arp _ _ _ _ _ _) as [[[mac rtt]|]|]; [|destruct Hres; [left; lia|by right]|done].
    destruct Hres as (G1 & G2 & G3 & G4). split; [done|]. split; [done|]. split; [lia|done].
Qed.
End await.

(** ** The probe *)
Section probe_spec.
Context {P C : Type} `{!PingLib P} `{!NfctLib C}.
Local Abbreviation agent := (agent P C).

(** The reply a probe counts: the first round, all before it readable and no replies, that
    is readable before the deadline and answers. *)
Definition first_answer (env : arp_env) (dst_ip : list Z) (deadline : Z) (n : nat) (mac : list Z) : Prop :=
  (forall i, i < n -> readable env i = true /\ answer env dst_ip i = None) /\
  readable env n = true /\ answer env dst_ip n = Some mac /\ (spent env 0 n < deadline)%Z.
Definition no_answer (env : arp_env) (dst_ip : list Z) (deadline : Z) : Prop :=
  exists n, (forall i, i < n -> readable env i = true /\ answer env dst_ip i = None) /\
    ((deadline <= spent env 0 n)%Z \/ readable env n = false).

(** C12: One ARP probe.  When it cannot be set up or sent, the agent is unchanged and the
    result is -1.  Otherwise it ends within its timeout, reading nothing outside a packet,
    and its sample is the last one and in the spool: loss 0, the peer's address and the
    time to the first packet that is a reply from the target, or loss 1 when there is none
    before the deadline.  A frame is such a reply exactly when it is an Ethernet/IPv4 ARP
    reply whose sender address is the target. *)
Theorem arping_reports env (a : agent) ipv4_opt ifname_opt :
  queues_wf (ag_q a) ->
  (forall p rest ip, frame_ok p -> is_arp_reply_for (arp_bytes p ++ rest) ip = Safe (if is_reply p ip then Some (ea_sha p) else None)) /\
  match arping_setup env a ipv4_opt ifname_opt with
  | None => cpe_agent_arping env a ipv4_opt ifname_opt = Safe ((-1)%Z, a)
  | Some (target, ifname, _, dst_ip) =>
      let deadline := i32 (dflt (probe_timeout_ms (ag_cfg a)) 1000) in
      exists rc a' s, cpe_agent_arping env a ipv4_opt ifname_opt = Safe (rc, a') /\
        queues_wf (ag_q a') /\ ag_last a' = Some s /\ ag_cfg a' = ag_cfg a /\ perf_pushed (ag_cfg a) (ag_q a) s rc (ag_q a') /\
        ((exists n mac, first_answer env dst_ip deadline n mac /\
            s = arping_sample target (rtt_between (mono_ns (ae_t0 env)) (mono_ns (ar_t1 (ae_rounds env n)))) (f_const 0 0)
                  true false (mac_fmt 24 mac) ifname (ae_now env)) \/
         (no_answer env dst_ip deadline /\
            s = arping_sample target d_zero (f_const 1 0) false false EmptyString ifname (ae_now env)))
  end.
Proof.
  intros Hw. split; [exact arp_reply_spec|]. unfold cpe_agent_arping.
  destruct (arping_setup env a ipv4_opt ifname_opt) as [[[[target ifname] ifindex] dst_ip]|]; [|done]. cbv zeta.
  set (deadline := i32 _). set (t0 := mono_ns (ae_t0 env)).
  destruct (await_arp_spec env dst_ip t0 (Z.to_nat deadline) 0 deadline ltac:(lia)) as (n & Hn & Hres).
  assert (Hbefore : forall i, i < n -> readable env i = true /\ answer env dst_ip i = None).
  { intros i Hi. destruct (Hn i Hi) as (G1 & G2 & _). by split. }
  destruct (await_arp env (Z.to_nat deadline) 0 deadline dst_ip t0) as [[[mac rtt]|]|]; [| |done]; chk_step.
  - destruct Hres as (G1 & G2 & G3 & ->). unfold emit_arping_sample.
    match goal with |- context [store_and_push a ?x] => pose proof (store_and_push_cases a x Hw) as Hs; set (s := x) in * end.
    destruct (store_and_push a s) as [rc a']. destruct Hs as (S1 & S2 & S3 & S4). exists rc, a', s.
    repeat (split; [done|]). left. by exists n, mac.
  - unfold emit_arping_sample.
    match goal with |- context [store_and_push a ?x] => pose proof (store_and_push_cases a x Hw) as Hs; set (s := x) in * end.
    destruct (store_and_push a s) as [rc a']. destruct Hs as (S1 & S2 & S3 & S4). exists rc, a', s.
    repeat (split; [done|]). right. split; [|done]. by exists n.
Qed.

(** Both probes keep the agent's invariant. *)
Lemma arping_inv env (a : agent) ipv4_opt ifname_opt :
  agent_inv a -> safe_with (fun r => agent_inv r.2) (cpe_agent_arping env a ipv4_opt ifname_opt).
Proof.
  intros Ha. unfold cpe_agent_arping.
  destruct (arping_setup env a ipv4_opt ifname_opt) as [[[[target ifname] ifindex] dst_ip]|]; [|by apply safe_ret].
  destruct (await_arp_spec env dst_ip (mono_ns (ae_t0 env)) (Z.to_nat (i32 (dflt (probe_timeout_ms (ag_cfg a)) 1000))) 0
    (i32 (dflt (probe_timeout_ms (ag_cfg a)) 1000)) ltac:(lia)) as (n & _ & Hres).
  destruct (await_arp _ _ _ _ _ _) as [[[mac rtt]|]|]; [| |done]; chk_step; eexists; (split; [reflexivity|]);
    by apply store_and_push_inv.
Qed.
Lemma demo_arping_inv {A} `{!ArpLib A} {E} `{!EventSource A E} (a : agent) ipv4_opt clk_mono clk stack :
  agent_inv a -> agent_inv (cpe_agent_demo_arping (A := A) (E := E) a ipv4_opt clk_mono clk stack).2.
Proof.
  intros Ha. unfold cpe_agent_demo_arping. destruct (negb _); [done|]. destruct arping_create as [ap|]; [|done].
  destruct (arping_feed_input_with_ts ap _ _) as [r1 ap1]. destruct (arping_process ap1 _) as [r2 ap2].
  destruct (pull_all ap2) as [evs ap3]. by apply store_and_push_inv.
Qed.
End probe_spec.

(** ** Instances *)

(** A LAN with one host: our own request is seen first, then the answer. *)
Definition lan_mac : list Z := [2; 0; 0; 0; 0; 7]%Z.
Definition host_mac : list Z := [2; 0; 0; 0; 0; 9]%Z.
Definition lan_ip : list Z := [192; 0; 2; 7]%Z.
Definition host_ip : list Z := [192; 0; 2; 1]%Z.
Definition host_reply : cpe_eth_arp := {|
  ea_eth_dst := lan_mac; ea_eth_src := host_mac; ea_eth_type := 2054; ea_htype := 1; ea_ptype := 2048; ea_hlen := 6;
  ea_plen := 4; ea_oper := 2; ea_sha := host_mac; ea_spa := host_ip; ea_tha := lan_mac; ea_tpa := lan_ip |}.
Definition toy_lan : arp_env := {|
  ae_route := Some ("Iface Destination Gateway Flags" +:+ newline +:+ "eth1 00000000 010200C0 0003" +:+ newline)%string;
  ae_if_nametoindex := fun _ => 0%Z; ae_dgram := 3; ae_ifindex := fun n => if streq n "eth1" then Some 4%Z else None;
  ae_hwaddr := fun _ => Some lan_mac; ae_ifaddr := fun _ => Some lan_ip; ae_packet := 5; ae_bind := fun _ => 0%Z;
  ae_sendto := fun _ _ => 42%Z; ae_t0 := flow_clk;
  ae_rounds := fun k => {| ar_before := flow_clk; ar_waited := 1; ar_pollin := true;
    ar_recv := if k =? 0 then arp_bytes (arp_request lan_mac lan_ip host_ip) else arp_bytes host_reply;
    ar_t1 := flow_clk; ar_after := flow_clk |};
  ae_now := flow_clk |}.

Example lan_setup : arping_setup toy_lan probing_agent None None = Some ("192.0.2.1"%string, "eth1"%string, 4%Z, host_ip).
Proof. vm_compute. reflexivity. Qed.

Lemma arping_reports_witness :
  exists rc a', cpe_agent_arping toy_lan probing_agent None None = Safe (rc, a') /\ queues_wf (ag_q a').
Proof.
  pose proof (arping_reports toy_lan probing_agent None None spool4_ab_wf) as [_ H]. rewrite lan_setup in H.
  cbv zeta in H. destruct H as (rc & a' & s & H1 & H2 & _). exists rc, a'. split; [exact H1|exact H2].
Defined.
Example lan_answers : option_map ps_loss (match cpe_agent_arping toy_lan probing_agent None None with Safe (_, a) => ag_last a | Oob => None end) = Some (f_const 0 0).
Proof. vm_compute. reflexivity. Qed.

(** The demonstration ignores the result of [arping_get_stats]: when the library has no
    statistics it reports a time read from an uninitialised structure. *)
#[local] Instance silent_arp : ArpLib nat := {|
  arping_create := Some 0; arping_feed_input_with_ts := fun p _ _ => (0%Z, p); arping_process := fun p _ => (0%Z, p);
  arping_get_stats := fun _ => None |}.
#[local] Instance silent_arp_events : EventSource nat unit := {| next_event := fun c => (None, c); queued := fun _ => 0;
  next_event_decreases := ltac:(runs_dry) |}.
Lemma demo_arping_reads_stack (stack : Z) :
  stack <> 0%Z -> option_map ps_rtt_ms (ag_last (cpe_agent_demo_arping (A := nat) (E := unit) probing_agent None flow_clk flow_clk stack).2) =
    Some (d_of_Z stack).
Proof.
  intros Hs. unfold cpe_agent_demo_arping. change (negb (nonempty (target_of probing_agent None))) with false.
  cbn iota. cbn [arping_create silent_arp]. cbn [arping_feed_input_with_ts arping_process arping_get_stats silent_arp].
  unfold pull_all, pull_fuel. cbn [queued silent_arp_events next_event default].
  unfold truthy. rewrite (proj2 (Z.eqb_neq _ _) Hs). cbn [negb]. unfold emit_arping_sample.
  match goal with |- context [store_and_push ?b ?s] => pose proof (store_and_push_cases b s spool4_ab_wf) as Hc end.
  destruct (store_and_push _ _) as [rc a']. destruct Hc as (_ & Hl & _). cbn [snd]. rewrite Hl. reflexivity.
Qed.
