(* ===== verification/ChQuery.v ===== *)
(** * Flow history from ClickHouse (src/agent/ctl_ch_query.c)

    The control client's HTTP query: the base URL, the SQL text, the request, the
    collection of the response, the removal of the chunked transfer coding, and the table
    printed from the JSON rows.  The bytes received are a string that may hold NULs; a
    pointer into them is the text from there on, and a read past them is [Oob]. *)

From Stdlib Require Import Ascii.
From S2P Require Import Prelude CStr StrSearch Base64 HttpRead HttpPost.

(** ** The URL *)

(** Host and port, or the result code. *)
Definition parse_base_url (url : string) (host_sz port_sz : nat) : (string * string) + Z :=
  if String.prefix "https://" url then inr (-2)%Z
  else
    let p := if String.prefix "http://" url then str_drop 7 url else url in
    let slash := chr_index "/" p in
    let default_port :=
      let hlen := match slash with Some s => s | None => strlen p end in
      if (hlen =? 0) || (host_sz <=? hlen) then inr (-1)%Z
      else inl (str_take hlen p, snprintf_s port_sz "8123") in
    match chr_index ":" p with
    | Some colon =>
        if match slash with Some s => colon <? s | None => true end then
          if (colon =? 0) || (host_sz <=? colon) then inr (-1)%Z
          else
            let pe := match slash with Some s => s | None => strlen p end in
            let plen := pe - (colon + 1) in
            if (plen =? 0) || (port_sz <=? plen) then inr (-1)%Z
            else inl (str_take colon p, str_take plen (str_drop (colon + 1) p))
        else default_port
    | None => default_port
    end.

(** ** Identifiers *)
Definition ident_char (c : ascii) : bool :=
  let n := nat_of_ascii c in
  ((97 <=? n) && (n <=? 122)) || ((65 <=? n) && (n <=? 90)) || ((48 <=? n) && (n <=? 57)) ||
  Ascii.eqb c "_" || Ascii.eqb c "." || Ascii.eqb c "-".
Definition sql_ident_ok (s : string) : bool := nonempty s && str_forall ident_char s.

(** The characters of the router id that are kept, at most [room]. *)
Fixpoint ident_filter (room : nat) (s : string) : string :=
  match room, s with
  | S m, String c s' => if ident_char c then String c (ident_filter m s') else ident_filter room s'
  | _, _ => EmptyString
  end.

(** ** The statement *)
Definition SQL_SIZE := 768.
Definition RID_SIZE := 96.
Definition sql_columns : string :=
  "SELECT router_id, ts, event, flow_id, proto, lan_ip, lan_port, " +:+
  "wan_ip, wan_port, remote_ip, remote_port, bytes_up, bytes_down, " +:+
  "rate_up_bps, rate_down_bps, duration_ms, state ".
Definition flows_sql (table rid : string) (limit : Z) : string :=
  if nonempty rid
  then sql_columns +:+ "FROM " +:+ table +:+ " WHERE router_id = '" +:+ rid +:+ "' ORDER BY ts DESC LIMIT " +:+ fmt_u limit
  else sql_columns +:+ "FROM " +:+ table +:+ " ORDER BY ts DESC LIMIT " +:+ fmt_u limit.

(** ** The connection *)

(** [ce_bits]: the width of [unsigned long] and [size_t]; [ce_poll k] and [ce_recv k] are
    the answers of the [k]-th round (no bytes: closed, or an error). *)
Record ch_env := {
  ce_bits : Z;
  ce_net : http_env;
  ce_malloc : bool;
  ce_poll : nat -> Z;
  ce_recv : nat -> string;
}.

Definition tcp_connect (env : http_env) (host port : string) (err : errbuf) : Z * errbuf :=
  let '(rc, res) :=
    let '(rc, res) := he_getaddrinfo env true host port in
    if negb (rc =? 0)%Z then he_getaddrinfo env false host port else (rc, res) in
  if negb (rc =? 0)%Z then ((-1)%Z, err_set err ("getaddrinfo: " +:+ he_gai_strerror env rc))
  else
    let fd := connect_loop env res (-1)%Z in
    (fd, if (fd <? 0)%Z then err_set err ("connect " +:+ host +:+ ":" +:+ port +:+ " failed") else err).

(** The request is put together piece by piece in [req_cap] bytes; [None] when one does
    not fit. *)
Definition add_piece (cap : nat) (req : option string) (piece : string) : option string :=
  match req with
  | Some r => if cap - strlen r <=? strlen piece then None else Some (r +:+ piece)
  | None => None
  end.
Definition sql_header (host : string) (len : nat) : string :=
  "POST /?default_format=JSONEachRow HTTP/1.1" +:+ crlf +:+
  "Host: " +:+ host +:+ crlf +:+
  "Content-Type: text/plain; charset=utf-8" +:+ crlf +:+
  "Content-Length: " +:+ fmt_u (Z.of_nat len) +:+ crlf +:+
  "Connection: close" +:+ crlf.
Definition user_header (user : option string) : string :=
  if given user then "X-ClickHouse-User: " +:+ default EmptyString user +:+ crlf else EmptyString.
Definition key_header (password : option string) : string :=
  if given password then "X-ClickHouse-Key: " +:+ default EmptyString password +:+ crlf else EmptyString.
Definition sql_request (host : string) (user password : option string) (sql : string) : option string :=
  let req_cap := strlen sql + 768 in
  let req := add_piece req_cap (Some EmptyString) (sql_header host (strlen sql)) in
  let req := if given user then add_piece req_cap req (user_header user) else req in
  let req := if given password then add_piece req_cap req (key_header password) else req in
  add_piece req_cap req (crlf +:+ sql).

(** The response is collected until a silence, the end or a full buffer; [None] is not
    reached with [cap] rounds. *)
Fixpoint recv_loop (env : ch_env) (cap fuel k : nat) (resp : string) : option string :=
  match fuel with
  | O => None
  | S f =>
      if (ce_poll env k <=? 0)%Z then Some resp
      else if cap <=? strlen resp + 1 then Some resp
      else
        let piece := str_take (cap - strlen resp - 1) (ce_recv env k) in
        if strlen piece =? 0 then Some resp else recv_loop env cap f (S k) (resp +:+ piece)
  end.

(** ** The response *)

Definition http_status (w : Z) (resp : string) : Z :=
  if String.prefix "HTTP/" (cstr resp) then
    match chr_index " " (cstr resp) with
    | Some sp => atoi w (str_drop (sp + 1) (cstr resp))
    | None => 0%Z
    end
  else 0%Z.

(** Where the body starts: after the first blank line, or the whole text. *)
Definition body_offset (resp : string) : nat :=
  match String.index 0 (crlf +:+ crlf) (cstr resp) with
  | Some i => i + 4
  | None =>
      match String.index 0 (String lf (String lf EmptyString)) (cstr resp) with
      | Some i => i + 2
      | None => 0
      end
  end.

(** [strncasecmp(a, b, n) == 0] *)
Definition lower (c : ascii) : ascii :=
  let n := nat_of_ascii c in if (65 <=? n) && (n <=? 90) then ascii_of_nat (n + 32) else c.
Fixpoint strncaseeq (n : nat) (a b : string) : bool :=
  match n, a, b with
  | O, _, _ => true
  | S _, EmptyString, EmptyString => true
  | S m, String c a', String d b' => Ascii.eqb (lower c) (lower d) && strncaseeq m a' b'
  | S _, _, _ => false
  end.
Fixpoint skip_blanks (s : string) : string :=
  match s with
  | String c s' => if Ascii.eqb c " " || Ascii.eqb c "009" then skip_blanks s' else s
  | EmptyString => s
  end.

(** The header lines up to [hdr_end]: whether one announces the chunked coding.  The scan
    moves at least two characters per round. *)
Fixpoint header_chunked (fuel : nat) (resp : string) (h hdr_end : nat) : bool :=
  match fuel with
  | O => false
  | S f =>
      if h + 17 <? hdr_end then
        if strncaseeq 17 (cstr (str_drop h resp)) "Transfer-Encoding:"
        then strncaseeq 7 (skip_blanks (cstr (str_drop (h + 17) resp))) "chunked"
        else
          match String.index 0 crlf (cstr (str_drop h resp)) with
          | Some nl => if hdr_end <=? h + nl then false else header_chunked f resp (h + nl + 2) hdr_end
          | None => false
          end
      else false
  end.

(** The guess from the body: a hexadecimal size on a line of its own, then an object. *)
Definition looks_chunked (w : Z) (body : string) : bool :=
  match strtoul16 w (cstr body) with
  | (csz, Some (String c (String d e))) =>
      (0 <? csz)%Z &&
      ((Ascii.eqb c cr && Ascii.eqb d lf && match e with String b _ => Ascii.eqb b "{" | _ => false end) ||
       (Ascii.eqb c lf && Ascii.eqb d "{"))
  | _ => false
  end.

Definition skip_char (c : ascii) (s : string) : string :=
  match s with String d s' => if Ascii.eqb d c then s' else s | EmptyString => s end.
Definition skip_eol (s : string) : string := skip_char lf (skip_char cr s).

(** The chunks, copied to [out] of [out_sz] bytes.  A round reads at least one digit, so
    that more rounds than characters are never needed (lemma [dechunk_cases]); [Oob] stands
    for a loop that goes on, and for a copy outside the two buffers. *)
Fixpoint dechunk (w : Z) (out_sz fuel : nat) (p out : string) : chk string :=
  match fuel with
  | O => Oob
  | S f =>
      let o := strlen out in
      if negb (nonempty (cstr p)) || (out_sz <=? o + 1) then Safe out
      else
        match strtoul16 w (cstr p) with
        | (_, None) => Safe out
        | (chunk, Some rest) =>
            let p := skip_eol (str_drop (strlen (cstr p) - strlen rest) p) in
            if (chunk =? 0)%Z then Safe out
            else
              let chunk :=
                if (Z.of_nat out_sz <=? (Z.of_nat o + chunk) mod 2 ^ w)%Z
                then Z.of_nat (out_sz - o - 1) else chunk in
              if (Z.of_nat (strlen p) <? chunk)%Z || (Z.of_nat out_sz <=? Z.of_nat o + chunk)%Z then Oob
              else
                let n := Z.to_nat chunk in
                dechunk w out_sz f (skip_eol (str_drop n p)) (out +:+ str_take n p)
        end
  end.

(** What goes to [out] for a response with status 200. *)
Definition response_rows (w : Z) (out_sz : nat) (resp : string) : chk string :=
  let off := body_offset resp in
  let body := str_drop off resp in
  if header_chunked (strlen resp) resp 0 off || (nonempty (cstr body) && looks_chunked w body)
  then dechunk w out_sz (S (strlen body)) body EmptyString
  else Safe (str_take (out_sz - 1) (cstr body)).

(** The result: the code, [out] when it is written, the error text, and the bytes sent. *)
Definition ch_result : Type := Z * option string * errbuf * string.
Definition ch_fail (err : errbuf) (sent : string) : ch_result := ((-1)%Z, None, err, sent).

(** The loops end within the rounds given them (see [recv_loop_ends]), so that the [None] of
    [recv_loop] stands for no run. *)
Definition http_post_sql (env : ch_env) (host port : string) (user password : option string) (sql : string)
    (out_sz : nat) (err : errbuf) : chk ch_result :=
  if out_sz <? 8 then Safe (ch_fail err EmptyString)
  else
    let '(fd, err) := tcp_connect (ce_net env) host port err in
    if (fd <? 0)%Z then Safe (ch_fail err EmptyString)
    else if negb (ce_malloc env) then Safe (ch_fail (err_set err "oom") EmptyString)
    else
      match sql_request host user password sql with
      | None => Safe (ch_fail err EmptyString)
      | Some req =>
          let '(ok, _, sent) := send_all (he_send (ce_net env)) 0 req in
          if negb ok then Safe (ch_fail (err_set err "send failed") sent)
          else
            let resp_cap := out_sz + 8 * 1024 in
            match recv_loop env resp_cap resp_cap 0 EmptyString with
            | None => Oob
            | Some resp =>
                let status := http_status (ce_bits env) resp in
                if negb (status =? 200)%Z
                then Safe (ch_fail (err_set err ("HTTP " +:+ fmt_d status +:+ ": " +:+
                                     str_take 160 (cstr (str_drop (body_offset resp) resp)))) sent)
                else
                  rows ← response_rows (ce_bits env) out_sz resp;
                  mret (0%Z, Some rows, err, sent)
            end
      end.

(** ** [cpe_ctl_ch_query_flows] *)
Record cpe_ctl_ch_opts := {
  cho_url : option string;
  cho_user : option string;
  cho_password : option string;
  cho_table : option string;
  cho_router_id : option string;
  cho_limit : Z;
}.
Definition given_or (s : option string) (d : string) : string :=
  match s with Some x => if nonempty x then x else d | None => d end.
Definition query_limit (limit : Z) : Z := let l := dflt limit 50 in if (500 <? l)%Z then 500%Z else l.

Definition cpe_ctl_ch_query_flows (env : ch_env) (opt : option cpe_ctl_ch_opts) (out_sz : nat) (err : errbuf)
    : chk ch_result :=
  let err := match err with Some (n, _) => Some (n, EmptyString) | None => None end in
  match opt with
  | None => Safe (ch_fail (err_set err "bad args") EmptyString)
  | Some o =>
      if out_sz <? 16 then Safe (ch_fail (err_set err "bad args") EmptyString)
      else
        let url := given_or (cho_url o) "http://127.0.0.1:8123" in
        let user := given_or (cho_user o) "default" in
        let table := given_or (cho_table o) "edgehost.cpe_flows" in
        let limit := query_limit (cho_limit o) in
        if negb (sql_ident_ok table) then Safe (ch_fail (err_set err "invalid table name") EmptyString)
        else
          match parse_base_url url 256 16 with
          | inr prc =>
              Safe (ch_fail (err_set err (if (prc =? -2)%Z then "https CH URL not supported in cpe_ctl; use http://"
                                          else "bad --ch-url")) EmptyString)
          | inl (host, port) =>
              let rid := ident_filter (RID_SIZE - 1) (default EmptyString (cho_router_id o)) in
              let sql := flows_sql table rid limit in
              if SQL_SIZE <=? strlen sql then Safe (ch_fail (err_set err "sql overflow") EmptyString)
              else http_post_sql env host port (Some user) (cho_password o) sql out_sz err
          end
  end.

(** ** The rows *)

(** The text of a JSON string value, unescaped one backslash at a time. *)
Fixpoint json_str_body (room : nat) (p : string) : string :=
  match room with
  | O => EmptyString
  | S m =>
      match p with
      | EmptyString => EmptyString
      | String c p' =>
          if Ascii.eqb c quote then EmptyString
          else if Ascii.eqb c "\" then
            match p' with
            | String d p'' => String d (json_str_body m p'')
            | EmptyString => String c EmptyString
            end
          else String c (json_str_body m p')
      end
  end.
Fixpoint skip_sp (s : string) : string :=
  match s with String c s' => if Ascii.eqb c " " then skip_sp s' else s | EmptyString => s end.
(** The text up to a comma or a closing brace, at most [room] characters. *)
Definition json_num_body (room : nat) (p : string) : string :=
  str_take room (until (fun c => Ascii.eqb c "," || Ascii.eqb c "}") p).

Definition PAT_SIZE := 64.
Definition key_text (key : string) : string := String quote (key +:+ String quote ":").
(** The result and [out], which held [out0]. *)
Definition json_get_str (line key out0 : string) (n : nat) : Z * string :=
  let pat := key_text key +:+ String quote EmptyString in
  if (PAT_SIZE <=? strlen pat) || (n =? 0) then ((-1)%Z, out0)
  else
    match String.index 0 pat line with
    | None => ((-1)%Z, EmptyString)
    | Some i => (0%Z, json_str_body (n - 1) (str_drop (i + strlen pat) line))
    end.
Definition json_get_num (line key out0 : string) (n : nat) : Z * string :=
  let pat := key_text key in
  if (PAT_SIZE <=? strlen pat) || (n =? 0) then ((-1)%Z, out0)
  else
    match String.index 0 pat line with
    | None => ((-1)%Z, EmptyString)
    | Some i => (0%Z, json_num_body (n - 1) (skip_sp (str_drop (i + strlen pat) line)))
    end.

(** [%-ws] and [%ws] *)
Fixpoint blanks (n : nat) : string := match n with O => EmptyString | S m => String " " (blanks m) end.
Definition padr (w : nat) (s : string) : string := s +:+ blanks (w - strlen s).
Definition padl (w : nat) (s : string) : string := blanks (w - strlen s) +:+ s.
Definition row_format (router event proto lan remote bup bdn ts : string) : string :=
  padr 12 router +:+ " " +:+ padr 10 event +:+ " " +:+ padr 5 proto +:+ " " +:+ padr 22 lan +:+ " " +:+
  padr 22 remote +:+ " " +:+ padl 12 bup +:+ " " +:+ padl 12 bdn +:+ " " +:+ padr 20 ts +:+ String lf EmptyString.
Definition table_head : string :=
  row_format "router_id" "event" "proto" "lan" "remote" "bytes_up" "bytes_down" "ts" +:+
  row_format "------------" "----------" "-----" "----------------------" "----------------------"
    "------------" "------------" "--------------------".

(** Without the carriage returns and spaces at the end. *)
Fixpoint rtrim (s : string) : string :=
  match s with
  | EmptyString => EmptyString
  | String c s' =>
      match rtrim s' with
      | EmptyString => if Ascii.eqb c cr || Ascii.eqb c " " then EmptyString else String c EmptyString
      | t => String c t
      end
  end.
Definition LINE_SIZE := 8 * 256.
Definition flow_row (line : string) : string :=
  let str key n := (json_get_str line key EmptyString n).2 in
  let num key n := (json_get_num line key EmptyString n).2 in
  row_format (str "router_id" 64) (str "event" 24) (num "proto" 12)
    (snprintf_s 80 (str "lan_ip" 64 +:+ ":" +:+ num "lan_port" 16))
    (snprintf_s 80 (str "remote_ip" 64 +:+ ":" +:+ num "remote_port" 16))
    (num "bytes_up" 24) (num "bytes_down" 24) (str "ts" 40).
(** The rows printed and their text; every round but the last passes a line feed. *)
Fixpoint print_rows (fuel : nat) (p : string) : Z * string :=
  match fuel with
  | O => (0%Z, EmptyString)
  | S f =>
      if negb (nonempty p) then (0%Z, EmptyString)
      else
        let eol := chr_index lf p in
        let llen := match eol with Some e => e | None => strlen p end in
        let line := rtrim (str_take (if LINE_SIZE <=? llen then LINE_SIZE - 1 else llen) p) in
        let '(rows, text) :=
          match eol with Some e => print_rows f (str_drop (e + 1) p) | None => (0%Z, EmptyString) end in
        if match line with String c _ => Ascii.eqb c "{" | EmptyString => false end
        then ((rows + 1)%Z, flow_row line +:+ text) else (rows, text)
  end.
(** The result and what is printed. *)
Definition cpe_ctl_ch_print_flows (json_each_row : option string) : Z * string :=
  match json_each_row with
  | None => (0%Z, EmptyString)
  | Some p =>
      let '(rows, text) := print_rows (strlen p) p in
      (rows, table_head +:+ text +:+ (if (rows =? 0)%Z then "(no rows)" +:+ String lf EmptyString else EmptyString))
  end.

(** ** Hexadecimal sizes *)
Definition is_hex (c : ascii) : bool := match hex_val c with Some _ => true | None => false end.

Lemma digit_char_hex d : (0 <= d < 16)%Z -> hex_val (digit_char d) = Some d.
Proof.
  intros Hd.
  assert (Forall (fun k => hex_val (digit_char (Z.of_nat k)) = Some (Z.of_nat k)) (seq 0 16)) as Hall
    by (cbn [seq]; repeat constructor).
  rewrite Forall_forall in Hall. rewrite <- (Z2Nat.id d) by lia. apply Hall, elem_of_seq. lia.
Qed.
Lemma hex_digits fuel n acc :
  (0 <= n < 2 ^ Z.of_nat (S fuel))%Z ->
  scan_hex (digits_acc 16 (S fuel) n acc) 0 = scan_hex acc n /\
  (str_forall is_hex acc = true -> str_forall is_hex (digits_acc 16 (S fuel) n acc) = true) /\
  exists c s, digits_acc 16 (S fuel) n acc = String c s /\ hex_val c <> None /\ (0 < n -> hex_val c <> Some 0)%Z.
Proof.
  revert n acc. induction fuel as [|f IH]; intros n acc Hn.
  - assert (n = 0 \/ n = 1)%Z as [->| ->] by (simpl in Hn; lia);
      (split_and!; [reflexivity|intros Ha; exact Ha|eexists _, _; split_and!; [done|done|by vm_compute]]).
  - assert (Hd : hex_val (digit_char (n mod 16)) = Some (n mod 16)%Z).
    { apply digit_char_hex. apply Z.mod_pos_bound. lia. }
    pose proof (Z.div_mod n 16 ltac:(done)) as Hdm.
    cbn [digits_acc]. destruct (n / 16 =? 0)%Z eqn:E.
    + apply Z.eqb_eq in E. split_and!.
      * cbn [scan_hex]. rewrite Hd. f_equal. lia.
      * intros Ha. cbn [str_forall]. unfold is_hex. by rewrite Hd.
      * eexists _, _. rewrite Hd. split_and!; [done|done|]. intros ? [=]. lia.
    + apply Z.eqb_neq in E.
      assert (0 <= n / 16 < 2 ^ Z.of_nat (S f))%Z as Hq.
      { split; [apply Z.div_pos; lia|]. apply Z.div_lt_upper_bound; [lia|].
        replace (Z.of_nat (S (S f))) with (Z.succ (Z.of_nat (S f))) in Hn by lia.
        rewrite Z.pow_succ_r in Hn by lia. lia. }
      destruct (IH (n / 16)%Z (String (digit_char (n mod 16)) acc) Hq) as (IH1 & IH2 & c & s & Hc & Hx & Hz).
      split_and!.
      * etrans; [exact IH1|]. cbn [scan_hex]. rewrite Hd. f_equal. lia.
      * intros Ha. apply IH2. cbn [str_forall]. unfold is_hex. by rewrite Hd.
      * exists c, s. split_and!; [exact Hc|done|]. intros _. apply Hz. lia.
Qed.

(** Reading a printed size that ends a line. *)
Lemma strtoul16_size w n t :
  (0 <= n < 2 ^ w)%Z -> strtoul16 w (fmt_x n +:+ String cr t) = (n, Some (String cr t)).
Proof.
  intros Hn. pose proof (digit_fuel_enough n ltac:(lia)) as Hf.
  unfold fmt_x, digit_fuel. rewrite digits_acc_app.
  destruct (hex_digits _ n (EmptyString +:+ String cr t) Hf) as (Hs & _ & c & s & Hc & Hx & Hz).
  destruct (decide (n = 0)%Z) as [->|Hnz].
  { change (digits_acc _ _ _ _) with ("0" +:+ String cr t).
    assert (strtoul16 w ("0" +:+ String cr t) =
      ((if 2 ^ w - 1 <? 0 then 2 ^ w - 1 else 0)%Z, Some (String cr t))) as -> by by destruct t.
    destruct (Z.ltb_spec (2 ^ w - 1) 0); [lia|done]. }
  specialize (Hz ltac:(lia)). rewrite Hc in *. unfold strtoul16.
  assert (skip_space (String c s) = String c s /\ scan_sign (String c s) = (false, String c s) /\
    skip_0x (String c s) = String c s) as (H1 & H2 & H3).
  { destruct c as [[] [] [] [] [] [] [] []]; try (exfalso; apply Hx; reflexivity);
      try (exfalso; apply Hz; reflexivity); split_and!; reflexivity. }
  rewrite H1, H2, H3. destruct (hex_val c) eqn:Ehv; [|done]. rewrite Hs.
  change (scan_hex (EmptyString +:+ String cr t) n) with (n, String cr t). cbn iota beta.
  destruct (Z.ltb_spec (2 ^ w - 1) n); [lia|done].
Qed.
Lemma fmt_x_hex n : (0 <= n)%Z -> str_forall is_hex (fmt_x n) = true.
Proof.
  intros Hn. pose proof (digit_fuel_enough n ltac:(lia)) as Hf.
  destruct (hex_digits _ n EmptyString Hf) as (_ & Ha & _). by apply Ha.
Qed.
Lemma fmt_x_pos n : (0 <= n)%Z -> 0 < strlen (fmt_x n).
Proof.
  intros Hn. pose proof (digit_fuel_enough n ltac:(lia)) as Hf.
  destruct (hex_digits _ n EmptyString Hf) as (_ & _ & c & s & Hc & _).
  unfold fmt_x, digit_fuel. rewrite Hc. cbn [String.length]. lia.
Qed.
Lemma cstr_hex h t : str_forall is_hex h = true -> cstr (h +:+ t) = h +:+ cstr t.
Proof.
  induction h as [|c h IH]; [done|]. cbn [str_forall]. intros [Hc Hh]%andb_true_iff.
  rewrite !str_app_cons. unfold cstr in *. cbn [until]. rewrite IH by done.
  destruct (Ascii.eqb_spec c "000"); [by subst|done].
Qed.

(** ** The chunked coding *)
Fixpoint encode_chunks (cs : list string) : string :=
  match cs with
  | [] => "0" +:+ crlf +:+ crlf
  | c :: cs' => fmt_x (Z.of_nat (strlen c)) +:+ crlf +:+ c +:+ crlf +:+ encode_chunks cs'
  end.
Definition chunk_ok (w : Z) (out_sz : nat) (c : string) : Prop :=
  0 < strlen c /\ (Z.of_nat out_sz + Z.of_nat (strlen c) <= 2 ^ w)%Z.

Lemma cstr_size n t : (0 <= n)%Z -> cstr (fmt_x n +:+ crlf +:+ t) = fmt_x n +:+ String cr (String lf (cstr t)).
Proof. intros Hn. by rewrite cstr_hex by by apply fmt_x_hex. Qed.
Lemma skip_eol_crlf t : skip_eol (crlf +:+ t) = t.
Proof. reflexivity. Qed.

(** One round on a well-formed chunk line. *)
Lemma dechunk_round w out_sz f n t out :
  (0 < n)%Z -> (n < 2 ^ w)%Z -> strlen out + 1 < out_sz ->
  dechunk w out_sz (S f) (fmt_x n +:+ crlf +:+ t) out =
  let chunk := if (Z.of_nat out_sz <=? (Z.of_nat (strlen out) + n) mod 2 ^ w)%Z
               then Z.of_nat (out_sz - strlen out - 1) else n in
  if (Z.of_nat (strlen t) <? chunk)%Z || (Z.of_nat out_sz <=? Z.of_nat (strlen out) + chunk)%Z then Oob
  else dechunk w out_sz f (skip_eol (str_drop (Z.to_nat chunk) t)) (out +:+ str_take (Z.to_nat chunk) t).
Proof.
  intros Hn Hw Ho. cbn [dechunk]. rewrite cstr_size by lia.
  replace (out_sz <=? strlen out + 1) with false by (symmetry; apply Nat.leb_gt; lia).
  pose proof (fmt_x_pos n ltac:(lia)) as Hp.
  assert (nonempty (fmt_x n +:+ String cr (String lf (cstr t))) = true) as ->.
  { destruct (fmt_x n); [simpl in Hp; lia|done]. }
  cbn [negb orb]. rewrite strtoul16_size by lia.
  replace (strlen (fmt_x n +:+ String cr (String lf (cstr t))) - strlen (String cr (String lf (cstr t))))
    with (strlen (fmt_x n)) by (rewrite strlen_app; lia).
  rewrite str_drop_app, skip_eol_crlf.
  destruct (Z.eqb_spec n 0); [lia|]. reflexivity.
Qed.
Lemma dechunk_full w out_sz fuel p out :
  out_sz <= strlen out + 1 -> 0 < fuel -> dechunk w out_sz fuel p out = Safe out.
Proof.
  intros Ho Hf. destruct fuel as [|f]; [lia|]. cbn [dechunk].
  replace (out_sz <=? strlen out + 1) with true by (symmetry; apply Nat.leb_le; lia). by rewrite orb_true_r.
Qed.

Lemma dechunk_encode w out_sz cs fuel out :
  (4 < w)%Z -> Forall (chunk_ok w out_sz) cs -> strlen out < out_sz -> length cs < fuel ->
  dechunk w out_sz fuel (encode_chunks cs) out = Safe (str_take (out_sz - 1) (out +:+ concat_str cs)).
Proof.
  intros Hw4 Hcs. revert fuel out. induction Hcs as [|c cs [Hc Hw] _ IH]; intros fuel out Ho Hf.
  - cbn [encode_chunks concat_str]. rewrite str_app_nil_r, str_take_all by lia.
    destruct fuel as [|f]; [simpl in Hf; lia|]. cbn [dechunk]. destruct (_ || _); [done|].
    change (cstr ("0" +:+ crlf +:+ crlf)) with ("0" +:+ crlf +:+ crlf).
    change ("0" +:+ crlf +:+ crlf) with (fmt_x 0 +:+ String cr (String lf crlf)) at 1.
    rewrite strtoul16_size; [done|]. split; [done|]. apply Z.pow_pos_nonneg; lia.
  - destruct (Nat.leb_spec out_sz (strlen out + 1)) as [Hfull|Hroom].
    { rewrite dechunk_full by (simpl in Hf; lia). replace (out_sz - 1) with (strlen out) by lia. by rewrite str_take_app. }
    cbn [length] in Hf. destruct fuel as [|f]; [lia|]. cbn [encode_chunks concat_str].
    rewrite dechunk_round by lia. cbv zeta. rewrite strlen_app.
    rewrite (Z.mod_small (_ + _)) by lia.
    destruct (Z.leb_spec (Z.of_nat out_sz) (Z.of_nat (strlen out) + Z.of_nat (strlen c))) as [Hcut|Hfit].
    + destruct (_ || _) eqn:E; [exfalso; apply orb_true_iff in E; rewrite Z.ltb_lt, Z.leb_le in E; lia|]. rewrite Nat2Z.id.
      rewrite dechunk_full by (rewrite ?strlen_app, ?strlen_take, ?strlen_app; lia).
      replace (out_sz - 1) with (strlen out + (out_sz - strlen out - 1)) by lia.
      rewrite str_take_app_plus. do 2 f_equal. by rewrite !str_take_app_le by lia.
    + destruct (_ || _) eqn:E; [exfalso; apply orb_true_iff in E; rewrite Z.ltb_lt, Z.leb_le in E; lia|]. rewrite Nat2Z.id.
      rewrite str_take_app, str_drop_app, skip_eol_crlf, IH by (rewrite ?strlen_app; lia).
      by rewrite str_app_assoc.
Qed.

(** A size that promises more than was received is copied all the same, and so is one that
    makes the sum wrap around. *)
Lemma chunk_size_overread w out_sz f n t out :
  (0 < n)%Z -> (Z.of_nat (strlen out) + n < Z.of_nat out_sz)%Z -> (Z.of_nat out_sz <= 2 ^ w)%Z ->
  (Z.of_nat (strlen t) < n)%Z ->
  dechunk w out_sz (S f) (fmt_x n +:+ crlf +:+ t) out = Oob.
Proof.
  intros Hn Ho Hw Ht. rewrite dechunk_round by lia. cbv zeta. rewrite Z.mod_small by lia.
  destruct (Z.leb_spec (Z.of_nat out_sz) (Z.of_nat (strlen out) + n)); [lia|].
  by rewrite (proj2 (Z.ltb_lt _ _)).
Qed.
Lemma chunk_size_wraps w out_sz f t out :
  0 < strlen out -> strlen out + 1 < out_sz -> (Z.of_nat out_sz + Z.of_nat (strlen t) <= 2 ^ w)%Z ->
  dechunk w out_sz (S f) (fmt_x (2 ^ w - Z.of_nat (strlen out)) +:+ crlf +:+ t) out = Oob.
Proof.
  intros Ho Hroom Hw. rewrite dechunk_round by lia. cbv zeta.
  replace (Z.of_nat (strlen out) + (2 ^ w - Z.of_nat (strlen out)))%Z with (2 ^ w)%Z by lia.
  rewrite Z_mod_same_full. destruct (Z.leb_spec (Z.of_nat out_sz) 0); [lia|].
  by rewrite (proj2 (Z.ltb_lt _ _)) by lia.
Qed.
(** The header is not recognised: the seventeen characters compared end before the colon. *)
Lemma header_line_missed f resp h hdr_end v :
  str_drop h resp = "Transfer-Encoding:" +:+ v -> header_chunked (S f) resp h hdr_end = false.
Proof.
  intros Hh. cbn [header_chunked]. destruct (_ <? _); [|done]. rewrite Hh.
  assert (Hd : str_drop (h + 17) resp = String ":" v).
  { clear f. revert h Hh. induction resp as [|c resp IH]; intros [|h] Hh; [done|done| |by apply IH].
    cbn [str_drop] in Hh. rewrite Hh. reflexivity. }
  rewrite Hd. reflexivity.
Qed.

(** The rounds given to the scan of the head are enough: more change nothing. *)
Lemma header_chunked_rounds f resp h hdr_end :
  hdr_end <= h + f -> header_chunked (S f) resp h hdr_end = header_chunked f resp h hdr_end.
Proof.
  revert h. induction f as [|f IH]; intros h Hf.
  - cbn [header_chunked]. by rewrite (proj2 (Nat.ltb_ge _ _)) by lia.
  - remember (S f) as g eqn:Eg. cbn [header_chunked]. rewrite Eg at 1. cbn [header_chunked].
    destruct (_ <? _); [|done]. destruct (strncaseeq _ _ _); [done|].
    destruct (String.index _ _ _) as [nl|]; [|done]. destruct (_ <=? _); [done|]. subst g. apply IH. lia.
Qed.

(** ** Collecting the response *)
Lemma recv_loop_ends env cap fuel k resp :
  strlen resp < cap -> cap - strlen resp <= fuel ->
  exists r, recv_loop env cap fuel k resp = Some r /\ strlen r < cap.
Proof.
  revert k resp. induction fuel as [|f IH]; intros k resp Hc Hf; [lia|]. cbn [recv_loop].
  destruct (_ <=? _)%Z; [by exists resp|]. destruct (Nat.leb_spec cap (strlen resp + 1)); [by exists resp|].
  pose proof (strlen_take (cap - strlen resp - 1) (ce_recv env k)) as Hl.
  destruct (Nat.eqb_spec (strlen (str_take (cap - strlen resp - 1) (ce_recv env k))) 0); [by exists resp|].
  apply IH; rewrite strlen_app; lia.
Qed.

(** From round [k], the pieces arrive one by one and then the stream ends. *)
Fixpoint delivers (env : ch_env) (k : nat) (pieces : list string) : Prop :=
  match pieces with
  | [] => (ce_poll env k <= 0)%Z \/ ce_recv env k = EmptyString
  | p :: ps => (0 < ce_poll env k)%Z /\ ce_recv env k = p /\ p <> EmptyString /\ delivers env (S k) ps
  end.
Lemma recv_loop_delivered env cap fuel k pieces resp :
  delivers env k pieces -> strlen resp + strlen (concat_str pieces) + 1 < cap -> length pieces < fuel ->
  recv_loop env cap fuel k resp = Some (resp +:+ concat_str pieces).
Proof.
  revert fuel k resp. induction pieces as [|p ps IH]; intros [|f] k resp Hd Hc Hf; cbn [length] in Hf; [lia| |lia|].
  - cbn [recv_loop concat_str]. rewrite str_app_nil_r. destruct (Z.leb_spec (ce_poll env k) 0); [done|].
    destruct (_ <=? _); [done|]. destruct Hd as [|Hd]; [lia|]. rewrite Hd. by destruct (cap - strlen resp - 1).
  - destruct Hd as (Hp & Hr & Hne & Hd). cbn [concat_str] in *. rewrite strlen_app in Hc. cbn [recv_loop].
    destruct (Z.leb_spec (ce_poll env k) 0); [lia|]. destruct (Nat.leb_spec cap (strlen resp + 1)); [lia|].
    rewrite Hr, str_take_all by lia. destruct (Nat.eqb_spec (strlen p) 0); [by destruct p|].
    rewrite IH; [by rewrite str_app_assoc|done| |lia]. rewrite strlen_app. lia.
Qed.
Lemma length_pieces env k pieces : delivers env k pieces -> length pieces <= strlen (concat_str pieces).
Proof.
  revert k. induction pieces as [|p ps IH]; intros k Hd; [done|]. destruct Hd as (_ & _ & Hne & Hd).
  cbn [concat_str length]. rewrite strlen_app. specialize (IH _ Hd). destruct p; [done|]. cbn [String.length]. lia.
Qed.

(** ** What is sent *)
Definition sql_text (host : string) (user password : option string) (sql : string) : string :=
  sql_header host (strlen sql) +:+ user_header user +:+ key_header password +:+ crlf +:+ sql.

Lemma add_piece_some cap req piece r :
  add_piece cap req piece = Some r -> exists q, req = Some q /\ r = q +:+ piece.
Proof.
  unfold add_piece. destruct req as [q|]; [|done]. destruct (_ <=? _); [done|]. intros [= <-]. by exists q.
Qed.
Lemma sql_request_text host user password sql req :
  sql_request host user password sql = Some req -> req = sql_text host user password sql.
Proof.
  unfold sql_request, sql_text. intros (r3 & E3 & ->)%add_piece_some.
  assert (exists r2, (if given user
      then add_piece (strlen sql + 768) (add_piece (strlen sql + 768) (Some EmptyString) (sql_header host (strlen sql))) (user_header user)
      else add_piece (strlen sql + 768) (Some EmptyString) (sql_header host (strlen sql))) = Some r2 /\
      r3 = r2 +:+ key_header password) as (r2 & E2 & ->).
  { destruct (given password) eqn:Ep.
    - apply add_piece_some in E3 as (q & ? & ->). by exists q.
    - exists r3. unfold key_header. rewrite Ep, str_app_nil_r. done. }
  assert (r2 = sql_header host (strlen sql) +:+ user_header user) as ->.
  { destruct (given user) eqn:Eu.
    - apply add_piece_some in E2 as (q & (q0 & [= <-] & ->)%add_piece_some & ->). done.
    - apply add_piece_some in E2 as (q & [= <-] & ->). unfold user_header. by rewrite Eu, str_app_nil_r. }
  by rewrite !str_app_assoc.
Qed.

Lemma dechunk_fits w out_sz fuel p out r :
  strlen out < out_sz -> dechunk w out_sz fuel p out = Safe r -> strlen r < out_sz.
Proof.
  revert p out. induction fuel as [|f IH]; intros p out Ho; cbn [dechunk]; [done|].
  destruct (_ || _); [by intros [= <-]|]. destruct (strtoul16 w (cstr p)) as [chunk [rest|]]; [|by intros [= <-]].
  destruct (chunk =? 0)%Z; [by intros [= <-]|]. cbv zeta.
  set (q := skip_eol _). set (n := if (Z.of_nat out_sz <=? _)%Z then _ else chunk).
  destruct (_ || _) eqn:E; [done|]. apply orb_false_iff in E as [_ E%Z.leb_gt]. apply IH.
  rewrite strlen_app, strlen_take. lia.
Qed.
(** *** What makes the copy run over *)

(** [q] is the end of [p]. *)
Definition str_suffix_of (q p : string) : Prop := exists pre, p = pre +:+ q.
Lemma suffix_drop n p : str_suffix_of (str_drop n p) p.
Proof. exists (str_take n p). apply str_take_drop. Qed.
Lemma suffix_trans a b c : str_suffix_of a b -> str_suffix_of b c -> str_suffix_of a c.
Proof. intros [x ->] [y ->]. exists (y +:+ x). by rewrite str_app_assoc. Qed.
Lemma suffix_skip_eol p : str_suffix_of (skip_eol p) p.
Proof.
  assert (H : forall c s, str_suffix_of (skip_char c s) s).
  { intros c [|d s]; [by exists EmptyString|]. cbn [skip_char].
    destruct (Ascii.eqb d c); [by exists (String d EmptyString)|by exists EmptyString]. }
  unfold skip_eol. eapply suffix_trans; apply H.
Qed.
Lemma suffix_length q p : str_suffix_of q p -> strlen q <= strlen p.
Proof. intros [x ->]. rewrite strlen_app. lia. Qed.

(** The answer from here on begins with a chunk size that is larger than the number of
    bytes behind its line. *)
Definition promises_more (w : Z) (p : string) : Prop :=
  exists chunk rest, strtoul16 w (cstr p) = (chunk, Some rest) /\
    (Z.of_nat (strlen (skip_eol (str_drop (strlen (cstr p) - strlen rest) p))) < chunk)%Z.

(** Removing the coding ends, and goes wrong for no other reason. *)
Lemma dechunk_cases w out_sz fuel p out :
  (0 <= w)%Z -> strlen p < fuel -> strlen out < out_sz -> (Z.of_nat out_sz + Z.of_nat (strlen p) <= 2 ^ w)%Z ->
  (exists r, dechunk w out_sz fuel p out = Safe r) \/
  (dechunk w out_sz fuel p out = Oob /\ exists q, str_suffix_of q p /\ promises_more w q).
Proof.
  intros Hw. revert p out. induction fuel as [|f IH]; intros p out Hf Ho Hsz; [lia|]. cbn [dechunk].
  destruct (negb (nonempty (cstr p)) || _) eqn:E0; [left; by eexists|].
  apply orb_false_iff in E0 as [_ Hroom%Nat.leb_gt].
  destruct (strtoul16 w (cstr p)) as [chunk [rest|]] eqn:Ep; [|left; by eexists].
  destruct (strtoul16_takes _ _ _ _ Hw Ep) as [Hrest Hrange].
  destruct (Z.eqb_spec chunk 0) as [|Hnz]; [left; by eexists|]. cbv zeta. set (q := skip_eol (str_drop _ p)).
  assert (Hq : str_suffix_of q p) by (eapply suffix_trans; [apply suffix_skip_eol|apply suffix_drop]).
  assert (Hlq : strlen q < strlen p).
  { pose proof (strlen_until (fun c => Ascii.eqb c "000") p) as Hc. fold (cstr p) in Hc.
    pose proof (suffix_length _ _ (suffix_skip_eol (str_drop (strlen (cstr p) - strlen rest) p))) as Hl. fold q in Hl.
    rewrite strlen_drop in Hl. lia. }
  set (n := if (Z.of_nat out_sz <=? _)%Z then _ else chunk).
  assert (Hn : (n <= chunk)%Z /\ (Z.of_nat (strlen q) < chunk \/ 0 <= n /\ Z.of_nat (strlen out) + n < Z.of_nat out_sz)%Z).
  { unfold n. destruct (Z.leb_spec (Z.of_nat out_sz) ((Z.of_nat (strlen out) + chunk) mod 2 ^ w)) as [Hm|Hm].
    - pose proof (Z.mod_le (Z.of_nat (strlen out) + chunk) (2 ^ w) ltac:(lia) ltac:(lia)). lia.
    - split; [lia|]. destruct (Z.ltb_spec (Z.of_nat (strlen out) + chunk) (2 ^ w)); [rewrite Z.mod_small in Hm by lia|]; lia. }
  destruct (_ || _) eqn:E.
  - right. split; [done|]. exists p. split; [by exists EmptyString|]. exists chunk, rest. split; [done|]. fold q.
    apply orb_true_iff in E. rewrite Z.ltb_lt, Z.leb_le in E. lia.
  - apply orb_false_iff in E as [_ E%Z.leb_gt].
    assert (Hs : str_suffix_of (skip_eol (str_drop (Z.to_nat n) q)) q)
      by (eapply suffix_trans; [apply suffix_skip_eol|apply suffix_drop]).
    pose proof (suffix_length _ _ Hs).
    destruct (IH (skip_eol (str_drop (Z.to_nat n) q)) (out +:+ str_take (Z.to_nat n) q)) as [H1|(H1 & x & Hx & Hpm)];
      [lia|rewrite strlen_app, strlen_take; lia|lia|by left|].
    right. split; [done|]. exists x. split; [|done]. exact (suffix_trans _ _ _ Hx (suffix_trans _ _ _ Hs Hq)).
Qed.
Lemma response_rows_fit w out_sz resp r : 0 < out_sz -> response_rows w out_sz resp = Safe r -> strlen r < out_sz.
Proof.
  intros Ho. unfold response_rows. destruct (_ || _); [by apply dechunk_fits|].
  intros [= <-]. rewrite strlen_take. lia.
Qed.

(** What one exchange did: a piece of the request at most, and on success all of it. *)
Definition exchange_ok (text : string) (out_sz : nat) (r : ch_result) : Prop :=
  let '(rc, out, _, sent) := r in
  str_prefix_of sent text /\ (rc = 0 \/ rc = -1)%Z /\
  (rc = 0%Z -> sent = text /\ exists rows, out = Some rows /\ strlen rows < out_sz) /\
  (rc = (-1)%Z -> out = None).

Lemma exchange_fail text out_sz err sent : str_prefix_of sent text -> exchange_ok text out_sz (ch_fail err sent).
Proof. intros Hp. split_and!; [done|by right|done|done]. Qed.

(** The answer collected holds a chunk size that promises more than what follows it. *)
Definition answer_overruns (env : ch_env) (out_sz : nat) : Prop :=
  exists resp q, recv_loop env (out_sz + 8 * 1024) (out_sz + 8 * 1024) 0 EmptyString = Some resp /\
    str_suffix_of q resp /\ promises_more (ce_bits env) q.
Lemma response_rows_cases w out_sz resp :
  (0 <= w)%Z -> 0 < out_sz -> (Z.of_nat out_sz + Z.of_nat (strlen resp) <= 2 ^ w)%Z ->
  (exists r, response_rows w out_sz resp = Safe r) \/
  (response_rows w out_sz resp = Oob /\ exists q, str_suffix_of q resp /\ promises_more w q).
Proof.
  intros Hw Ho Hsz. unfold response_rows. cbv zeta. set (body := str_drop _ resp).
  pose proof (suffix_drop (body_offset resp) resp : str_suffix_of body resp) as Hb.
  pose proof (suffix_length _ _ Hb). destruct (_ || _); [|left; by eexists].
  destruct (dechunk_cases w out_sz (S (strlen body)) body EmptyString) as [H1|(H1 & q & Hq & Hp)];
    [done|lia|done|lia|by left|].
  right. split; [done|]. exists q. split; [exact (suffix_trans _ _ _ Hq Hb)|done].
Qed.

(** The exchange ends, with what it did; or the request went out whole and the answer
    makes the client copy more than it has. *)
Lemma http_post_sql_cases env host port user password sql out_sz err :
  send_ok (he_send (ce_net env)) -> (0 <= ce_bits env)%Z -> (Z.of_nat (2 * out_sz + 8 * 1024) <= 2 ^ ce_bits env)%Z ->
  let run := http_post_sql env host port user password sql out_sz err in
  let text := sql_text host user password sql in
  safe_with (exchange_ok text out_sz) run \/
  (run = Oob /\ (send_all (he_send (ce_net env)) 0 text).1.1 = true /\ answer_overruns env out_sz).
Proof.
  intros Hs Hw Hb run text. subst run. unfold http_post_sql.
  assert (Hfail : forall e sent, str_prefix_of sent text -> safe_with (exchange_ok text out_sz) (Safe (ch_fail e sent)))
    by (intros; by apply safe_ret, exchange_fail).
  assert (Hnone : str_prefix_of EmptyString text) by by eexists.
  destruct (Nat.ltb_spec out_sz 8) as [|Hsz]; [by left; apply Hfail|].
  destruct (tcp_connect _ _ _ _) as [fd e]. destruct (fd <? 0)%Z; [by left; apply Hfail|].
  destruct (negb (ce_malloc env)); [by left; apply Hfail|].
  destruct (sql_request host user password sql) as [req|] eqn:Er; [|by left; apply Hfail].
  apply sql_request_text in Er as ->. fold text. unfold send_all.
  pose proof (send_loop_spec _ (strlen text) 0 text Hs ltac:(done)) as Hsend.
  destruct (send_loop _ (strlen text) 0 text) as [[ok k] sent]. destruct Hsend as (Hp & Hall & _).
  destruct ok; [|by left; apply Hfail]. specialize (Hall eq_refl). subst sent. cbn [negb].
  destruct (recv_loop_ends env (out_sz + 8 * 1024) (out_sz + 8 * 1024) 0 EmptyString) as (resp & Hresp & Hlen);
    [simpl; lia|simpl; lia|]. rewrite Hresp. cbv zeta.
  destruct (negb _); [left; apply Hfail, str_prefix_refl|].
  destruct (response_rows_cases (ce_bits env) out_sz resp Hw ltac:(lia) ltac:(lia)) as [[rows Hrows]|(Hrows & q & Hq & Hpm)];
    rewrite Hrows.
  - left. apply safe_ret. split_and!; [apply str_prefix_refl|by left| |done].
    intros _. split; [done|]. exists rows. split; [done|]. by eapply response_rows_fit; [|exact Hrows]; lia.
  - right. split; [done|]. split; [done|]. by exists resp, q.
Qed.




Lemma query_flows_posts env o host port out_sz err n :
  let table := given_or (cho_table o) "edgehost.cpe_flows" in
  let sql := flows_sql table (ident_filter (RID_SIZE - 1) (default EmptyString (cho_router_id o))) (query_limit (cho_limit o)) in
  16 <= out_sz -> sql_ident_ok table = true ->
  parse_base_url (given_or (cho_url o) "http://127.0.0.1:8123") 256 16 = inl (host, port) ->
  strlen sql < SQL_SIZE -> err = Some (n, EmptyString) ->
  cpe_ctl_ch_query_flows env (Some o) out_sz err =
  http_post_sql env host port (Some (given_or (cho_user o) "default")) (cho_password o) sql out_sz err.
Proof.
  cbv zeta. intros Hsz Ht Hu Hsql ->. unfold cpe_ctl_ch_query_flows. cbv zeta.
  rewrite (proj2 (Nat.ltb_ge _ _)), Ht, Hu by done. cbn [negb]. by rewrite (proj2 (Nat.leb_gt _ _)).
Qed.

(** A query ends, or its answer overruns. *)
Lemma query_ends env o out_sz err :
  send_ok (he_send (ce_net env)) -> (0 <= ce_bits env)%Z -> (Z.of_nat (2 * out_sz + 8 * 1024) <= 2 ^ ce_bits env)%Z ->
  let run := cpe_ctl_ch_query_flows env o out_sz err in
  safe_with (fun _ => True) run \/ (run = Oob /\ answer_overruns env out_sz).
Proof.
  intros Hs Hw Hb run. subst run. unfold cpe_ctl_ch_query_flows. cbv zeta.
  assert (Hend : forall r, safe_with (fun _ => True) (Safe r : chk ch_result)) by (intros; by apply safe_ret).
  destruct o as [o|]; [|by left]. destruct (out_sz <? 16); [by left|]. destruct (negb _); [by left|].
  destruct (parse_base_url _ _ _) as [[host port]|prc]; [|by left]. destruct (_ <=? _); [by left|].
  match goal with |- context [http_post_sql env ?h ?p ?u ?pw ?q out_sz ?e] =>
    destruct (http_post_sql_cases env h p u pw q out_sz e Hs Hw Hb) as [(x & -> & _)|(-> & _ & Ha)] end; [by left|by right].
Qed.



(** Nor do more rounds change the table. *)
Lemma print_rows_rounds f p : strlen p <= f -> print_rows (S f) p = print_rows f p.
Proof.
  revert p. induction f as [|f IH]; intros p Hf; [by destruct p; [|simpl in Hf; lia]|].
  remember (S f) as g eqn:Eg. cbn [print_rows]. rewrite Eg at 1. cbn [print_rows].
  destruct (nonempty p) eqn:En; [|done]. cbn [negb]. cbv zeta.
  destruct (chr_index lf p) as [e|]; [|done]. subst g. rewrite IH; [done|].
  rewrite strlen_drop. assert (0 < strlen p) by (destruct p; [done|simpl; lia]). lia.
Qed.

(** ** A chunked answer *)
Lemma http_status_200 w t : (16 <= w)%Z -> http_status w ("HTTP/1.1 200 " +:+ t) = 200%Z.
Proof.
  intros Hw. unfold http_status. rewrite cstr_app_nonul by done.
  change (String.prefix "HTTP/" _) with true. cbn iota.
  change (chr_index " " _) with (Some 8). cbn iota.
  change (str_drop (8 + 1) _) with ("200 " +:+ cstr t).
  assert (2 ^ 15 <= 2 ^ (w - 1))%Z by (apply Z.pow_le_mono_r; lia).
  change (atoi w _) with (to_int (Z.min 200 (2 ^ (w - 1) - 1))). rewrite Z.min_l by lia. done.
Qed.
Lemma length_encode cs : length cs < strlen (encode_chunks cs).
Proof. induction cs as [|c cs IH]; [simpl; lia|]. cbn [encode_chunks length]. rewrite !strlen_app. simpl. lia. Qed.
Lemma looks_chunked_encode w c cs :
  (0 < Z.of_nat (strlen (String "{" c)) < 2 ^ w)%Z -> looks_chunked w (encode_chunks (String "{" c :: cs)) = true.
Proof.
  intros Hc. unfold looks_chunked. cbn [encode_chunks].
  rewrite cstr_size, strtoul16_size by lia. rewrite str_app_cons.
  rewrite (proj2 (Z.ltb_lt _ _)) by lia. reflexivity.
Qed.

(** The response: a status line with 200, headers, a blank line, and the chunks. *)
Definition chunked_response (head : string) (cs : list string) : string :=
  "HTTP/1.1 200 " +:+ head +:+ crlf +:+ crlf +:+ encode_chunks cs.
(** The head has no blank line of its own. *)
Definition head_ok (head : string) (cs : list string) : Prop :=
  String.index 0 (crlf +:+ crlf) (cstr (chunked_response head cs)) = Some (13 + strlen head).

Lemma response_rows_chunked w out_sz head c cs :
  (4 < w)%Z -> 0 < out_sz -> head_ok head (String "{" c :: cs) ->
  Forall (chunk_ok w out_sz) (String "{" c :: cs) ->
  response_rows w out_sz (chunked_response head (String "{" c :: cs)) =
  Safe (str_take (out_sz - 1) (concat_str (String "{" c :: cs))).
Proof.
  intros Hw Ho Hh Hcs. set (all := String "{" c :: cs) in *. unfold response_rows. cbv zeta.
  assert (body_offset (chunked_response head all) = 13 + strlen head + 4) as -> by (unfold body_offset; by rewrite Hh).
  assert (str_drop (13 + strlen head + 4) (chunked_response head all) = encode_chunks all) as ->.
  { unfold chunked_response. replace (13 + strlen head + 4) with
      (strlen ("HTTP/1.1 200 " +:+ head +:+ crlf +:+ crlf)) by (rewrite !strlen_app; simpl; lia).
    replace ("HTTP/1.1 200 " +:+ head +:+ crlf +:+ crlf +:+ encode_chunks all)
      with (("HTTP/1.1 200 " +:+ head +:+ crlf +:+ crlf) +:+ encode_chunks all) by by rewrite !str_app_assoc.
    apply str_drop_app. }
  assert (Hc1 : chunk_ok w out_sz (String "{" c)) by by inversion Hcs.
  assert (nonempty (cstr (encode_chunks all)) = true) as ->.
  { unfold all. cbn [encode_chunks]. rewrite cstr_size by lia.
    pose proof (fmt_x_pos (Z.of_nat (strlen (String "{" c))) ltac:(lia)). by destruct (fmt_x _); [simpl in *; lia|]. }
  assert (looks_chunked w (encode_chunks all) = true) as ->
    by (apply looks_chunked_encode; destruct Hc1; lia).
  rewrite orb_true_r.
  rewrite dechunk_encode; [done|done|done|done|]. pose proof (length_encode all). lia.
Qed.

(** The exchange goes through: connected, memory for the buffers, and every send progresses. *)
Record exchange_env (env : ch_env) (host port : string) (err : errbuf) : Prop := {
  xe_bits : (16 <= ce_bits env)%Z;
  xe_connected : (0 <= (tcp_connect (ce_net env) host port err).1)%Z;
  xe_malloc : ce_malloc env = true;
  xe_send : send_ok (he_send (ce_net env));
  xe_progress : forall k n, 0 < n -> (0 < he_send (ce_net env) k n)%Z;
}.
Lemma connected_err env host port err :
  (0 <= (tcp_connect env host port err).1)%Z -> (tcp_connect env host port err).2 = err.
Proof.
  unfold tcp_connect. destruct (let '(rc, res) := he_getaddrinfo env true host port in _) as [rc res].
  destruct (negb _); [simpl; lia|]. cbn [fst snd]. intros Hfd. by rewrite (proj2 (Z.ltb_ge _ _)).
Qed.

Lemma post_sql_rows env host port user password sql req out_sz err pieces head c cs :
  exchange_env env host port err -> 8 <= out_sz ->
  sql_request host user password sql = Some req ->
  delivers env 0 pieces -> concat_str pieces = chunked_response head (String "{" c :: cs) ->
  strlen (concat_str pieces) + 1 < out_sz + 8 * 1024 ->
  head_ok head (String "{" c :: cs) -> Forall (chunk_ok (ce_bits env) out_sz) (String "{" c :: cs) ->
  http_post_sql env host port user password sql out_sz err =
  Safe (0%Z, Some (str_take (out_sz - 1) (concat_str (String "{" c :: cs))), err, req).
Proof.
  intros [Hb Hfd Hm Hs Hpr] Hsz Hreq Hd Hresp Hlen Hh Hcs. unfold http_post_sql.
  rewrite (proj2 (Nat.ltb_ge _ _)) by lia. pose proof (connected_err _ _ _ _ Hfd) as He.
  destruct (tcp_connect _ _ _ _) as [fd e]. simpl in Hfd, He. subst e.
  rewrite (proj2 (Z.ltb_ge _ _)), Hm, Hreq by lia. cbn [negb]. unfold send_all.
  pose proof (send_loop_spec _ (strlen req) 0 req Hs ltac:(done)) as Hsend.
  destruct (send_loop _ (strlen req) 0 req) as [[ok k] sent]. destruct Hsend as (_ & Hall & Hbad).
  destruct ok; [|destruct (Hbad eq_refl) as (j & n & ? & ? & _); specialize (Hpr j n); lia].
  specialize (Hall eq_refl). subst sent. cbn [negb].
  pose proof (length_pieces _ _ _ Hd) as Hn.
  rewrite (recv_loop_delivered env _ _ 0 pieces EmptyString Hd) by (cbn [String.length]; lia).
  change (EmptyString +:+ concat_str pieces) with (concat_str pieces). rewrite Hresp. cbv zeta.
  unfold chunked_response at 1. rewrite http_status_200 by done. cbn [negb Z.eqb Pos.eqb].
  rewrite response_rows_chunked; [done|lia|lia|done|done].
Qed.

(** when the server answers 200 with rows in the chunked coding, in whatever pieces the
    bytes arrive, the query succeeds and the buffer holds exactly the rows, the chunk sizes
    and line ends removed, cut to the buffer's size; the request was sent whole. *)
Theorem query_returns_rows env host port user password sql req out_sz err pieces head c cs :
  exchange_env env host port err -> 8 <= out_sz ->
  sql_request host user password sql = Some req ->
  delivers env 0 pieces -> concat_str pieces = chunked_response head (String "{" c :: cs) ->
  strlen (concat_str pieces) + 1 < out_sz + 8 * 1024 ->
  head_ok head (String "{" c :: cs) -> Forall (chunk_ok (ce_bits env) out_sz) (String "{" c :: cs) ->
  http_post_sql env host port user password sql out_sz err =
  Safe (0%Z, Some (str_take (out_sz - 1) (concat_str (String "{" c :: cs))), err, req).
Proof. exact (post_sql_rows env host port user password sql req out_sz err pieces head c cs). Qed.

(** ** Rows printed *)
Inductive jval := JStr (s : string) | JNum (s : string).
Definition val_text (v : jval) : string :=
  match v with JStr s => String quote (s +:+ String quote EmptyString) | JNum s => s end.
Definition field_text (f : string * jval) : string := key_text f.1 +:+ val_text f.2.
(** The fields with what ends them: commas, and a brace after the last. *)
Fixpoint fields_text (fs : list (string * jval)) : string :=
  match fs with
  | [] => EmptyString
  | [f] => field_text f +:+ "}"
  | f :: fs' => field_text f +:+ "," +:+ fields_text fs'
  end.
Definition object_text (fs : list (string * jval)) : string := String "{" (fields_text fs).

(** Values without quotes, backslashes, line ends and NULs; numbers without the separators. *)
Definition plain_char (c : ascii) : bool := negb (Ascii.eqb c quote || Ascii.eqb c "\" || Ascii.eqb c cr || Ascii.eqb c lf || Ascii.eqb c "000").
Definition num_char (c : ascii) : bool :=
  plain_char c && negb (Ascii.eqb c "," || Ascii.eqb c "}" || Ascii.eqb c " ").
Definition val_ok (v : jval) : bool :=
  match v with JStr s => str_forall plain_char s | JNum s => str_forall num_char s end.
Definition field_ok (f : string * jval) : bool := sql_ident_ok f.1 && val_ok f.2.

(** The value under a key, the first one. *)
Fixpoint field (key : string) (fs : list (string * jval)) : option jval :=
  match fs with [] => None | (k, v) :: fs' => if String.eqb k key then Some v else field key fs' end.
Definition str_field (fs : list (string * jval)) (key : string) (n : nat) : string :=
  match field key fs with Some (JStr s) => str_take (n - 1) s | _ => EmptyString end.
Definition num_field (fs : list (string * jval)) (key : string) (n : nat) : string :=
  match field key fs with Some v => json_num_body (n - 1) (val_text v) | _ => EmptyString end.

Lemma ident_plain c : ident_char c = true -> plain_char c = true.
Proof. by destruct c as [[] [] [] [] [] [] [] []]. Qed.
Lemma num_plain c : num_char c = true -> plain_char c = true.
Proof. unfold num_char. by intros [? _]%andb_true_iff. Qed.

(** *** Searching for a key *)

Lemma key_search key x : key_text key +:+ x = String quote (key +:+ String quote (String ":" x)).
Proof. unfold key_text. by rewrite str_app_cons, str_app_assoc. Qed.

(** What ends a field is no key character. *)
Definition sep_char (c : ascii) : bool := Ascii.eqb c "," || Ascii.eqb c "}".
Lemma quote_not_key key x c s :
  sql_ident_ok key = true -> ident_char c = false ->
  String.prefix (String quote (key +:+ x)) (String quote (String c s)) = false.
Proof.
  unfold sql_ident_ok. destruct key as [|d key]; [done|]. cbn [str_forall nonempty andb]. intros [Hd _]%andb_true_iff Hc.
  rewrite str_app_cons. cbn [String.prefix]. destruct (ascii_dec quote quote); [|done].
  by destruct (ascii_dec d c); [congruence|].
Qed.

Lemma index_past_field key x k v sep rest :
  sql_ident_ok key = true -> field_ok (k, v) = true -> sep_char sep = true ->
  String.prefix (key_text key +:+ x) (field_text (k, v) +:+ String sep rest) = false ->
  String.index 0 (key_text key +:+ x) (field_text (k, v) +:+ String sep rest) =
  option_map (Nat.add (strlen (field_text (k, v)) + 1)) (String.index 0 (key_text key +:+ x) rest).
Proof.
  intros Hkey [Hk Hv]%andb_true_iff Hsep Hp. cbn [fst snd] in *. rewrite key_search in *.
  assert (Hsepi : ident_char sep = false /\ quote <> sep /\ sep <> ":"%char).
  { apply orb_true_iff in Hsep as [->%Ascii.eqb_eq| ->%Ascii.eqb_eq]; by split_and!. }
  destruct Hsepi as (Hsi & Hsq & Hsc).
  assert (Hkf : free quote k).
  { apply andb_true_iff in Hk as [_ Hk]. by eapply str_forall_free; [|exact Hk]. }
  assert (Hkeyf : free quote key).
  { apply andb_true_iff in Hkey as [_ Hkey]. by eapply str_forall_free; [|exact Hkey]. }
  unfold field_text, key_text in *. cbn [fst snd] in *. revert Hp.
  rewrite !str_app_cons, !str_app_assoc. intros Hp. rewrite index_step1 by done.
  rewrite !str_app_cons. rewrite index_free, index_step1, index_step1 by (first [done|by apply quote_not_key|by apply prefix_other]).
  change (EmptyString +:+ ?t) with t.
  assert (Htail : String.index 0 (String quote (key +:+ String quote (String ":" x))) (val_text v +:+ String sep rest) =
    option_map (Nat.add (strlen (val_text v) + 1)) (String.index 0 (String quote (key +:+ String quote (String ":" x))) rest)).
  { destruct v as [s|s]; cbn [val_text val_ok] in *.
    - assert (Hsf : free quote s) by by eapply str_forall_free; [|exact Hv].
      rewrite str_app_cons, str_app_assoc, index_step1.
      2: { apply not_true_iff_false. intros Hpre.
           change (String.prefix (String quote ?a) (String quote ?b)) with (if ascii_dec quote quote then String.prefix a b else false) in Hpre.
           destruct (ascii_dec quote quote); [|done].
           apply prefix_until in Hpre as [_ Hpre]; [|done|done]. cbn [String.prefix] in Hpre. by destruct (ascii_dec ":" sep). }
      rewrite !str_app_cons. change (EmptyString +:+ ?t) with t.
      rewrite index_free, index_step1, index_step1 by (first [done|by apply quote_not_key|by apply prefix_other]).
      rewrite !add_add. cbn [String.length]. rewrite strlen_app. cbn [String.length].
      do 2 f_equal; lia.
    - assert (Hsf : free quote s) by (eapply str_forall_free; [|exact Hv]; reflexivity).
      rewrite index_free, index_step1 by (first [done|by apply prefix_other]). by rewrite add_add. }
  rewrite Htail, !add_add. cbn [String.length]. rewrite !strlen_app. cbn [String.length]. do 2 f_equal. lia.
Qed.

(** The first character after the key, of a value and of a search text. *)
Definition misses (key x : string) (f : string * jval) : Prop :=
  f.1 <> key \/ (exists s, f.2 = JNum s) /\ x = String quote EmptyString.

Lemma ident_free c k : ident_char c = false -> sql_ident_ok k = true -> free c k.
Proof. intros Hc [_ Hk]%andb_true_iff. by eapply str_forall_free; [|exact Hk]. Qed.
Lemma misses_prefix key x f sep rest :
  sql_ident_ok key = true -> field_ok f = true -> sep_char sep = true -> misses key x f ->
  String.prefix (key_text key +:+ x) (field_text f +:+ String sep rest) = false.
Proof.
  intros Hkey [Hk Hv]%andb_true_iff Hsep Hm. apply not_true_iff_false. destruct f as [k v]. cbn [fst snd] in *.
  unfold field_text. cbn [fst snd]. rewrite key_search, str_app_assoc.
  rewrite (key_search k (val_text v +:+ String sep rest)).
  change (String.prefix (String quote ?a) (String quote ?b)) with (if ascii_dec quote quote then String.prefix a b else false).
  destruct (ascii_dec quote quote); [|done]. intros [-> Hp]%prefix_until; [|by apply ident_free..].
  destruct Hm as [|[[s Hs] ->]]; [done|]. cbn [snd] in Hs. subst v. cbn [val_text val_ok] in *.
  change (String.prefix (String quote EmptyString) (s +:+ String sep rest) = true) in Hp.
  destruct s as [|c s].
  - change (EmptyString +:+ ?t) with t in Hp. rewrite prefix_other in Hp; [done|].
    by apply orb_true_iff in Hsep as [->%Ascii.eqb_eq| ->%Ascii.eqb_eq].
  - rewrite str_app_cons, prefix_other in Hp; [done|]. cbn [str_forall] in Hv. intros <-. done.
Qed.

Lemma fields_cons f fs :
  exists sep rest, sep_char sep = true /\ fields_text (f :: fs) = field_text f +:+ String sep rest /\
    (rest = fields_text fs).
Proof. destruct fs as [|g fs]; [exists "}"%char, EmptyString|exists ","%char, (fields_text (g :: fs))]; done. Qed.
Lemma index_missing key x fs :
  sql_ident_ok key = true -> Forall (fun f => field_ok f = true) fs -> Forall (misses key x) fs ->
  String.index 0 (key_text key +:+ x) (fields_text fs) = None.
Proof.
  intros Hkey Hok Hm. induction Hok as [|[k v] fs Hf _ IH]; [by rewrite key_search|].
  apply Forall_cons in Hm as [Hm Hms]. destruct (fields_cons (k, v) fs) as (sep & rest & Hsep & -> & ->).
  rewrite index_past_field by (first [done|by apply misses_prefix]). by rewrite IH.
Qed.
Lemma index_found key x fs v :
  sql_ident_ok key = true -> Forall (fun f => field_ok f = true) fs ->
  field key fs = Some v -> (exists t, val_text v = x +:+ t) ->
  exists pre sep rest, sep_char sep = true /\
    String.index 0 (key_text key +:+ x) (fields_text fs) = Some (strlen pre) /\
    fields_text fs = pre +:+ key_text key +:+ val_text v +:+ String sep rest.
Proof.
  intros Hkey Hok Hf [t Ht]. induction Hok as [|[k v'] fs Hf1 _ IH]; [done|]. cbn [field] in Hf.
  destruct (fields_cons (k, v') fs) as (sep & rest & Hsep & -> & Hrest).
  destruct (String.eqb_spec k key) as [->|Hk].
  - injection Hf as ->. exists EmptyString, sep, rest. unfold field_text. cbn [fst snd String.length].
    split_and!; [done| |by rewrite str_app_assoc].
    rewrite Ht, str_app_assoc, str_app_assoc, <- (str_app_assoc (key_text key)). apply index_here.
  - destruct (IH Hf) as (pre & sep' & rest' & Hsep' & Hi & He).
    exists (field_text (k, v') +:+ String sep pre), sep', rest'. split_and!; [done| |].
    + rewrite index_past_field by (first [done|by apply misses_prefix; [..|left]]).
      subst rest. rewrite Hi. cbn [option_map]. rewrite strlen_app. cbn [String.length]. f_equal. lia.
    + subst rest. rewrite He, str_app_assoc, str_app_cons. done.
Qed.

Lemma index_object key x fs :
  String.index 0 (key_text key +:+ x) (object_text fs) = option_map S (String.index 0 (key_text key +:+ x) (fields_text fs)).
Proof. unfold object_text. apply index_step. by rewrite key_search. Qed.

(** *** Reading a value *)
Lemma json_str_body_plain room s t :
  str_forall plain_char s = true -> json_str_body room (s +:+ String quote t) = str_take room s.
Proof.
  revert room. induction s as [|c s IH]; intros [|m]; [done..|]. cbn [str_forall]. intros [Hc Hs]%andb_true_iff.
  rewrite str_app_cons. cbn [json_str_body str_take].
  unfold plain_char in Hc. apply negb_true_iff in Hc. destruct (Ascii.eqb c quote); [done|].
  destruct (Ascii.eqb c "\"); [done|]. by rewrite IH.
Qed.
Lemma until_app_stop p s c t : p c = true -> until p (s +:+ String c t) = until p s.
Proof.
  intros Hc. induction s as [|d s IH]; [|rewrite str_app_cons; cbn [until]; by rewrite IH].
  change (EmptyString +:+ String c t) with (String c t). cbn [until]. by rewrite Hc.
Qed.
Lemma skip_sp_val v sep t : val_ok v = true -> sep_char sep = true -> skip_sp (val_text v +:+ String sep t) = val_text v +:+ String sep t.
Proof.
  intros Hv Hsep. destruct v as [s|[|c s]]; cbn [val_text val_ok] in *; [done| |].
  - by apply orb_true_iff in Hsep as [->%Ascii.eqb_eq| ->%Ascii.eqb_eq].
  - cbn [str_forall] in Hv. rewrite str_app_cons. cbn [skip_sp]. destruct (Ascii.eqb_spec c " "); [by subst|done].
Qed.

Definition row_ok (fs : list (string * jval)) : Prop :=
  Forall (fun f => field_ok f = true) fs /\ NoDup fs.*1 /\ fs <> [] /\ strlen (object_text fs) < LINE_SIZE.

Lemma missing_key key x fs : field key fs = None -> Forall (misses key x) fs.
Proof.
  induction fs as [|[k v] fs IH]; [done|]. cbn [field]. destruct (String.eqb_spec k key); [done|].
  intros Hf. apply Forall_cons. split; [by left|by apply IH].
Qed.
Lemma field_absent key fs : key ∉ fs.*1 -> field key fs = None.
Proof.
  induction fs as [|[k v] fs IH]; [done|]. rewrite fmap_cons, not_elem_of_cons. intros [Hk Hfs].
  cbn [field]. destruct (String.eqb_spec k key); [by subst|]. by apply IH.
Qed.
Lemma num_key_misses key s fs :
  NoDup fs.*1 -> field key fs = Some (JNum s) -> Forall (misses key (String quote EmptyString)) fs.
Proof.
  induction fs as [|[k v] fs IH]; [done|]. rewrite fmap_cons. intros [Hk Hnd]%NoDup_cons. cbn [field fst] in *.
  destruct (String.eqb_spec k key) as [->|Hne]; intros Hf; apply Forall_cons; split.
  - injection Hf as ->. right. split; [by exists s|done].
  - by apply missing_key, field_absent.
  - by left.
  - by apply IH.
Qed.

Lemma drop_found i pat pre (t : string) : i = strlen pre -> str_drop (i + strlen pat) (pre +:+ pat +:+ t) = t.
Proof. intros ->. rewrite <- strlen_app, <- str_app_assoc. apply str_drop_app. Qed.
Lemma field_val_ok key fs v : Forall (fun f => field_ok f = true) fs -> field key fs = Some v -> val_ok v = true.
Proof.
  induction 1 as [|[k v'] fs [_ Hv]%andb_true_iff _ IH]; [done|]. cbn [field].
  destruct (String.eqb k key); [|done]. by intros [= <-].
Qed.

Lemma json_get_str_object key n fs :
  row_ok fs -> sql_ident_ok key = true -> strlen key < 59 -> 0 < n ->
  (json_get_str (object_text fs) key EmptyString n).2 = str_field fs key n.
Proof.
  intros (Hok & Hnd & _) Hkey Hlen Hn. unfold json_get_str, str_field. cbv zeta.
  destruct (_ || _) eqn:E.
  { exfalso. unfold key_text in E. rewrite strlen_app in E. cbn [String.length] in E. rewrite strlen_app in E.
    cbn [String.length] in E. apply orb_true_iff in E. rewrite Nat.leb_le, Nat.eqb_eq in E. unfold PAT_SIZE in E. lia. }
  rewrite index_object. destruct (field key fs) as [[s|s]|] eqn:Ef.
  - destruct (index_found key (String quote EmptyString) fs (JStr s)) as (pre & sep & rest & _ & -> & He);
      [done|done|done|by eexists|].
    cbn [option_map snd]. unfold object_text. rewrite He. cbn [str_drop Nat.add].
    replace (key_text key +:+ val_text (JStr s) +:+ String sep rest)
      with ((key_text key +:+ String quote EmptyString) +:+ s +:+ String quote (String sep rest))
      by (cbn [val_text]; rewrite !str_app_cons, !str_app_assoc; done).
    rewrite drop_found by done. apply json_str_body_plain. exact (field_val_ok key fs (JStr s) Hok Ef).
  - rewrite index_missing; [done|done|done|by eapply num_key_misses].
  - rewrite index_missing; [done|done|done|by apply missing_key].
Qed.
Lemma json_get_num_object key n fs :
  row_ok fs -> sql_ident_ok key = true -> strlen key < 60 -> 0 < n ->
  (json_get_num (object_text fs) key EmptyString n).2 = num_field fs key n.
Proof.
  intros (Hok & Hnd & _) Hkey Hlen Hn. unfold json_get_num, num_field. cbv zeta.
  destruct (_ || _) eqn:E.
  { exfalso. unfold key_text in E. cbn [String.length] in E. rewrite strlen_app in E.
    cbn [String.length] in E. apply orb_true_iff in E. rewrite Nat.leb_le, Nat.eqb_eq in E. unfold PAT_SIZE in E. lia. }
  rewrite <- (str_app_nil_r (key_text key)), index_object. destruct (field key fs) as [v|] eqn:Ef.
  - destruct (index_found key EmptyString fs v) as (pre & sep & rest & Hsep & -> & He); [done|done|done|by eexists|].
    cbn [option_map snd]. unfold object_text. rewrite He, str_app_nil_r. cbn [str_drop Nat.add].
    rewrite drop_found by done. rewrite skip_sp_val; [|by eapply field_val_ok|done].
    unfold json_num_body. by rewrite until_app_stop.
  - rewrite index_missing; [done|done|done|by apply missing_key].
Qed.

(** The row of an object: its fields, cut to the columns' buffers. *)
Definition row_text (fs : list (string * jval)) : string :=
  row_format (str_field fs "router_id" 64) (str_field fs "event" 24) (num_field fs "proto" 12)
    (snprintf_s 80 (str_field fs "lan_ip" 64 +:+ ":" +:+ num_field fs "lan_port" 16))
    (snprintf_s 80 (str_field fs "remote_ip" 64 +:+ ":" +:+ num_field fs "remote_port" 16))
    (num_field fs "bytes_up" 24) (num_field fs "bytes_down" 24) (str_field fs "ts" 40).
Lemma flow_row_object fs : row_ok fs -> flow_row (object_text fs) = row_text fs.
Proof.
  intros Hr. unfold flow_row, row_text. cbv zeta.
  rewrite !(json_get_str_object _ _ fs Hr) by (first [done|simpl; lia]).
  by rewrite !(json_get_num_object _ _ fs Hr) by (first [done|simpl; lia]).
Qed.

(** A character that no key, value or separator holds. *)
Definition foreign (c : ascii) : Prop :=
  ident_char c = false /\ plain_char c = false /\ c ∉ [quote; ":"; "{"; ","; "}"]%char.
Lemma field_free c f : foreign c -> field_ok f = true -> free c (field_text f).
Proof.
  intros (Hi & Hp & Hc). rewrite !not_elem_of_cons in Hc. destruct Hc as (Hq & Hcol & _).
  destruct f as [k v]. intros [Hk Hv]%andb_true_iff. cbn [fst snd] in *. unfold field_text, key_text. cbn [fst snd].
  apply free_app; [apply free_more; [done|]; apply free_app; [by apply ident_free|]|].
  { apply free_more; [done|]. by apply free_more. }
  destruct v as [s|s]; cbn [val_text val_ok] in *.
  - apply free_more; [done|]. apply free_app; [by eapply str_forall_free; [|exact Hv]|by apply free_more].
  - eapply str_forall_free; [|exact Hv]. unfold num_char. by rewrite Hp.
Qed.
Lemma object_free c fs : foreign c -> Forall (fun f => field_ok f = true) fs -> free c (object_text fs).
Proof.
  intros Hc Hok. pose proof Hc as (_ & _ & Hin). rewrite !not_elem_of_cons in Hin.
  destruct Hin as (_ & _ & Hb & Hcm & Hcb & _).
  apply free_more; [done|]. induction Hok as [|f fs Hf _ IH]; [done|].
  destruct (fields_cons f fs) as (sep & rest & Hsep & -> & ->).
  apply free_app; [by apply field_free|]. apply free_more; [|done].
  by apply orb_true_iff in Hsep as [->%Ascii.eqb_eq| ->%Ascii.eqb_eq].
Qed.
Ltac foreign_char := split_and!; [done|done|]; rewrite !not_elem_of_cons; split_and!; try done; apply not_elem_of_nil.
Lemma foreign_lf : foreign lf.
Proof. foreign_char. Qed.
Lemma foreign_nul : foreign "000".
Proof. foreign_char. Qed.
Lemma rtrim_brace s : rtrim (s +:+ "}") = s +:+ "}".
Proof.
  induction s as [|c s IH]; [done|]. rewrite str_app_cons. cbn [rtrim]. rewrite IH. by destruct s.
Qed.
Lemma object_brace fs : fs <> [] -> exists s, object_text fs = s +:+ "}".
Proof.
  intros Hne. assert (exists s, fields_text fs = s +:+ "}") as [s Hs].
  { induction fs as [|f [|g fs] IH]; [done|by eexists|]. destruct IH as [s Hs]; [done|].
    exists (field_text f +:+ "," +:+ s). cbn [fields_text] in *. rewrite Hs. by rewrite !str_app_assoc. }
  exists (String "{" s). unfold object_text. by rewrite Hs.
Qed.

Fixpoint rows_json (rows : list (list (string * jval))) : string :=
  match rows with [] => EmptyString | r :: rs => object_text r +:+ String lf (rows_json rs) end.
Fixpoint rows_text (rows : list (list (string * jval))) : string :=
  match rows with [] => EmptyString | r :: rs => row_text r +:+ rows_text rs end.

(** The text has no NUL: a C string as it is. *)
Lemma cstr_rows rows : Forall row_ok rows -> cstr (rows_json rows) = rows_json rows.
Proof.
  intros Hrows. rewrite <- (str_app_nil_r (rows_json rows)) at 1. rewrite cstr_app_nonul; [apply str_app_nil_r|].
  induction Hrows as [|r rows (Hr & _) _ IH]; [done|]. cbn [rows_json].
  apply free_app; [by apply object_free; [apply foreign_nul|]|]. by apply free_more.
Qed.
Lemma print_rows_object rows fuel :
  Forall row_ok rows -> strlen (rows_json rows) <= fuel ->
  print_rows fuel (rows_json rows) = (Z.of_nat (length rows), rows_text rows).
Proof.
  intros Hrows. revert fuel. induction Hrows as [|fs rows Hr _ IH]; intros fuel Hf; [by destruct fuel|].
  cbn [rows_json] in *. destruct fuel as [|f]; [unfold object_text in Hf; simpl in Hf; lia|].
  pose proof Hr as (Hok & _ & Hne & Hlen). pose proof (object_free _ _ foreign_lf Hok) as Hlf.
  rewrite strlen_app in Hf. cbn [print_rows String.length] in *.
  rewrite chr_index_app by done. cbv zeta. rewrite (proj2 (Nat.leb_gt _ _)) by done.
  rewrite str_take_app, str_drop_app_S.
  assert (rtrim (object_text fs) = object_text fs) as ->.
  { destruct (object_brace fs Hne) as [s ->]. apply rtrim_brace. }
  assert (nonempty (object_text fs +:+ String lf (rows_json rows)) = true) as -> by done.
  rewrite IH by lia. unfold object_text at 1. rewrite Ascii.eqb_refl. cbn [negb length rows_text].
  rewrite flow_row_object by done. f_equal. lia.
Qed.

Lemma print_flows_rows rows :
  Forall row_ok rows ->
  cpe_ctl_ch_print_flows (Some (rows_json rows)) =
  (Z.of_nat (length rows),
   table_head +:+ rows_text rows +:+ match rows with [] => "(no rows)" +:+ String lf EmptyString | _ => EmptyString end).
Proof.
  intros Hrows. unfold cpe_ctl_ch_print_flows. rewrite print_rows_object by done.
  f_equal. destruct rows as [|r rows]; [done|]. by destruct (Z.eqb_spec (Z.of_nat (length (r :: rows))) 0).
Qed.

(** printing the rows a query returned (one JSON object per line, any fields in any
    order): as many rows as objects, each line showing that object's router id, event,
    protocol, addresses with ports, byte counts and time, cut to the columns' buffers,
    under the heading; "(no rows)" when there is none. *)
Theorem print_flows_shows rows :
  Forall row_ok rows ->
  cpe_ctl_ch_print_flows (Some (rows_json rows)) =
  (Z.of_nat (length rows),
   table_head +:+ rows_text rows +:+ match rows with [] => "(no rows)" +:+ String lf EmptyString | _ => EmptyString end).
Proof. exact (print_flows_rows rows). Qed.

(** ** Examples *)
Definition demo_row : list (string * jval) :=
  [("router_id", JStr "cpe-1"); ("ts", JStr "2025-01-01 00:00:00"); ("event", JStr "delta"); ("proto", JNum "6");
   ("lan_ip", JStr "192.168.1.2"); ("lan_port", JNum "40000"); ("remote_ip", JStr "1.1.1.1"); ("remote_port", JNum "443");
   ("bytes_up", JStr "10"); ("bytes_down", JNum "20")]%string.
Definition demo_net : http_env := {|
  he_getaddrinfo := fun _ _ _ => (0%Z, [0]); he_gai_strerror := fun _ => EmptyString; he_socket := fun _ => 3%Z;
  he_connect := fun _ => true; he_strerror := EmptyString; he_send := fun _ n => Z.of_nat n; he_poll := true;
  he_recv := EmptyString |}.
(** The answer split inside the head and inside a chunk. *)
Definition demo_head : string := ("OK" +:+ crlf +:+ "Transfer-Encoding: chunked")%string.
Definition demo_chunk : string := fields_text demo_row +:+ String lf EmptyString.
Definition demo_answer : string := chunked_response demo_head [String "{" demo_chunk; String "{" demo_chunk].
Definition demo_pieces : list string := [str_take 20 demo_answer; str_take 90 (str_drop 20 demo_answer); str_drop 110 demo_answer].
Definition demo_ch : ch_env := {|
  ce_bits := 64; ce_net := demo_net; ce_malloc := true; ce_poll := fun k => if (k <? 4) then 1%Z else 0%Z;
  ce_recv := fun k => default EmptyString (demo_pieces !! k) |}.
Definition demo_sql : string := flows_sql "edgehost.cpe_flows" "cpe-1" 50.
Definition demo_req : string := sql_text "127.0.0.1" (Some "default"%string) None demo_sql.

Lemma demo_row_ok : row_ok demo_row.
Proof.
  split_and!; [by repeat constructor| |done|unfold LINE_SIZE; by apply Nat.ltb_lt].
  by apply (bool_decide_eq_true_1 _), (eq_refl true).
Qed.
Lemma demo_rows_ok : Forall row_ok [demo_row; demo_row].
Proof. apply Forall_cons. split; [exact demo_row_ok|]. apply Forall_cons. split; [exact demo_row_ok|done]. Qed.
Lemma demo_send_ok : send_ok (he_send demo_net).
Proof. intros k n. done. Qed.
Example header_not_seen : header_chunked (strlen demo_answer) demo_answer 0 (body_offset demo_answer) = false.
Proof. vm_compute. reflexivity. Qed.

(** A chunk of size 2^64 - 2 after one of two bytes. *)
Definition demo_wrap : string :=
  ("HTTP/1.1 200 OK" +:+ crlf +:+ crlf +:+ "2" +:+ crlf +:+ "{}" +:+ crlf +:+ "fffffffffffffffe" +:+ crlf)%string.
Definition answers (text : string) : ch_env := {|
  ce_bits := 64; ce_net := demo_net; ce_malloc := true; ce_poll := fun _ => 1%Z;
  ce_recv := fun k => match k with O => text | _ => EmptyString end |}.
Definition demo_opts : cpe_ctl_ch_opts := {|
  cho_url := None; cho_user := None; cho_password := None; cho_table := None;
  cho_router_id := Some "x' OR '1'='1"%string; cho_limit := 0 |}.
Example demo_wrap_oob : cpe_ctl_ch_query_flows (answers demo_wrap) (Some demo_opts) 64 None = Oob.
Proof. vm_compute. reflexivity. Qed.

(** A user name with line ends finishes the head: what the server takes for the body
    begins with a statement of the user's. *)
Definition injecting_user : string := ("x" +:+ crlf +:+ crlf +:+ "DROP TABLE edgehost.cpe_flows -- ")%string.
Example user_ends_head :
  match read_head 100 (sql_text "127.0.0.1" (Some injecting_user) None demo_sql) with
  | Some (_, body) => String.prefix "DROP TABLE edgehost.cpe_flows -- " body = true
  | None => False
  end.
Proof. vm_compute. reflexivity. Qed.

Lemma query_returns_rows_witness :
  http_post_sql demo_ch "127.0.0.1" "8123" (Some "default"%string) None demo_sql 800 None =
  Safe (0%Z, Some (rows_json [demo_row; demo_row]), None, demo_req).
Proof.
  rewrite (query_returns_rows demo_ch "127.0.0.1" "8123" (Some "default"%string) None demo_sql demo_req 800 None demo_pieces
    demo_head demo_chunk [String "{" demo_chunk]).
  - vm_compute. reflexivity.
  - split; [done|done|done|exact demo_send_ok|intros k n Hn; cbn; lia].
  - lia.
  - vm_compute. reflexivity.
  - unfold demo_pieces. cbn [delivers].
    split_and!; first [reflexivity|vm_compute; discriminate|right; reflexivity].
  - vm_compute. reflexivity.
  - assert (strlen (concat_str demo_pieces) <= 500) by (apply Nat.leb_le; vm_compute; reflexivity). lia.
  - vm_compute. reflexivity.
  - repeat constructor; vm_compute; first [lia|discriminate].
Defined.
Lemma print_flows_shows_witness :
  Forall row_ok [demo_row; demo_row] /\
  cpe_ctl_ch_print_flows (Some (rows_json [demo_row; demo_row])) = (2%Z, table_head +:+ rows_text [demo_row; demo_row] +:+ EmptyString).
Proof.
  split; [exact demo_rows_ok|]. exact (print_flows_shows [demo_row; demo_row] demo_rows_ok).
Defined.
