(* ===== verification/CtlMain.v ===== *)
(** * The control client's command line (src/agent/ctl_main.c)

    The options, the one-shot requests to the daemon, the historical flow listing and the
    exit codes.  [getopt_long] is the sequence of its results and the operands left.  What a
    build does with Lua is a parameter: here the stubs of src/agent/ctl_lua.c, in
    [CtlLuaMain] the interpreter. *)

From Stdlib Require Import Ascii.
From S2P Require Import Prelude CStr StrSearch Base64 HttpPost IpcRequest IpcServer IpcClient ChQuery.

(** ** The Lua stubs *)
Inductive cpe_ctl_lua := LuaDummy.
Definition cpe_ctl_lua_create (sock_path : string) : option cpe_ctl_lua := None.
Definition cpe_ctl_lua_dostring (L : cpe_ctl_lua) (src : string) (err : errbuf) : Z * errbuf :=
  ((-1)%Z, err_set err "Lua not built").
Definition cpe_ctl_lua_dofile (L : cpe_ctl_lua) (path : string) (err : errbuf) : Z * errbuf :=
  ((-1)%Z, err_set err "Lua not built").
Definition cpe_ctl_lua_repl (L : cpe_ctl_lua) (history_path : option string) : Z := 1%Z.

(** ** The options *)

(** [ctl_opts_t] and the local variables of [main] that the options set. *)
Record ctl_opts := {
  co_sock : string;
  co_ch_url : option string;
  co_ch_user : option string;
  co_ch_password : option string;
  co_ch_table : option string;
  co_router_id : option string;
  co_limit : Z;
  co_history : Z;
  co_raw : Z;
  co_history_file : option string;
  co_lua_eval : option string;
  co_lua_file : option string;
  co_lua_repl : Z;
}.
#[export] Instance eta_ctl_opts : Eta ctl_opts := fun o => {|
  co_sock := co_sock o; co_ch_url := co_ch_url o; co_ch_user := co_ch_user o; co_ch_password := co_ch_password o;
  co_ch_table := co_ch_table o; co_router_id := co_router_id o; co_limit := co_limit o; co_history := co_history o;
  co_raw := co_raw o; co_history_file := co_history_file o; co_lua_eval := co_lua_eval o; co_lua_file := co_lua_file o;
  co_lua_repl := co_lua_repl o |}.
Definition no_opts : ctl_opts := {|
  co_sock := CPE_IPC_SOCK_DEFAULT; co_ch_url := None; co_ch_user := None; co_ch_password := None; co_ch_table := None;
  co_router_id := None; co_limit := 0; co_history := 0; co_raw := 0; co_history_file := None; co_lua_eval := None;
  co_lua_file := None; co_lua_repl := 0 |}.

(** One option: the variables, or the exit code after the usage text. *)
Definition ctl_opt (w : Z) (opt : ascii) (optarg : string) (o : ctl_opts) : ctl_opts + Z :=
  (match opt with
   | "s" => inl (o <| co_sock := optarg |>)
   | "y" => inl (o <| co_history := 1%Z |>)
   | "U" => inl (o <| co_ch_url := Some optarg |>)
   | "u" => inl (o <| co_ch_user := Some optarg |>)
   | "P" => inl (o <| co_ch_password := Some optarg |>)
   | "T" => inl (o <| co_ch_table := Some optarg |>)
   | "r" => inl (o <| co_router_id := Some optarg |>)
   | "n" => inl (o <| co_limit := u32 (atoi w optarg) |>)
   | "R" => inl (o <| co_raw := 1%Z |>)
   | "i" => inl (o <| co_lua_repl := 1%Z |>)
   | "e" => inl (o <| co_lua_eval := Some optarg |>)
   | "f" => inl (o <| co_lua_file := Some optarg |>)
   | "H" => inl (o <| co_history_file := Some optarg |>)
   | "h" => inr 0%Z
   | _ => inr 1%Z
   end)%char.
Fixpoint ctl_parse (w : Z) (opts : list (ascii * string)) (o : ctl_opts) : ctl_opts + Z :=
  match opts with
  | [] => inl o
  | (c, arg) :: rest => match ctl_opt w c arg o with inl o => ctl_parse w rest o | inr rc => inr rc end
  end.

(** ** Requests to the daemon *)

Definition line (s : string) : string := s +:+ String lf EmptyString.
(** Exit code, standard output and error, and the bytes sent. *)
Record ctl_result := { cr_exit : Z; cr_out : string; cr_err : string; cr_sent : string }.

Definition plain_ops : list string :=
  ["status"; "config"; "ping"; "help"; "last_sample"; "latency"; "spool"; "emit"; "tcp_stats"; "tcp_reset";
   "flow_stats"; "flow_tick"]%string.
Definition CTL_REQ_SIZE := 256.
(** The request of an operation; [None] for an unknown one. *)
Definition op_request (op : string) (arg : option string) (limit : Z) : option string :=
  let put s := Some s in
  let a := default EmptyString arg in
  if existsb (streq op) plain_ops then put (lit "{'op':'" +:+ op +:+ lit "'}")
  else if streq op "flow_list" || streq op "flows" then
    if given arg then put (lit "{'op':'flow_list','limit':" +:+ a +:+ "}")
    else put (lit "{'op':'flow_list','limit':" +:+ fmt_u (dflt limit 32) +:+ "}")
  else if streq op "tcp_by_ip" then
    if given arg then put (lit "{'op':'tcp_by_ip','ip':'" +:+ a +:+ lit "'}") else put (lit "{'op':'tcp_by_ip'}")
  else if streq op "tcp_by_prefix" then
    if given arg then put (lit "{'op':'tcp_by_prefix','prefix':'" +:+ a +:+ lit "'}") else put (lit "{'op':'tcp_by_prefix'}")
  else if streq op "tcp_poll" then put (lit "{'op':'tcp_poll','max':" +:+ (if given arg then a else "64") +:+ "}")
  else if streq op "tcp_emit" then put (lit "{'op':'tcp_emit','top_n':" +:+ (if given arg then a else "20") +:+ "}")
  else None.

(** As it is left in [req[256]]. *)
Definition daemon_request (op : string) (arg : option string) (limit : Z) : option string :=
  option_map (snprintf_s CTL_REQ_SIZE) (op_request op arg limit).

(** One request and the printing of its answer; [fallback] stands for an empty error text. *)
Definition ask_daemon (env : client_env) (sock req fallback hint : string) : ctl_result :=
  let '(rc, resp, err, sent, _) := cpe_ipc_client_request env (Some sock) req CPE_IPC_LINE_MAX (Some (160, EmptyString)) in
  if negb (rc =? 0)%Z
  then {| cr_exit := 1; cr_out := EmptyString;
          cr_err := line ("cpe_ctl: " +:+ str_dflt (err_text err) fallback) +:+ hint; cr_sent := sent |}
  else {| cr_exit := 0; cr_out := line resp; cr_err := EmptyString; cr_sent := sent |}.
Definition oneshot_daemon (env : client_env) (sock op : string) (arg : option string) (limit : Z) : ctl_result :=
  match daemon_request op arg limit with
  | None => {| cr_exit := 1; cr_out := EmptyString; cr_err := line ("unknown op: " +:+ op); cr_sent := EmptyString |}
  | Some req => ask_daemon env sock req "request failed" EmptyString
  end.

(** ** Historical flows *)

(** [bits]: of [long]; the two connections; [malloc] of the result buffer. *)
Record ctl_env := {
  cn_getenv : string -> option string;
  cn_ipc : client_env;
  cn_ch : ch_env;
  cn_malloc : bool;
}.
(** [opt ? opt : (env && env[0] ? env : NULL)] *)
Definition opt_or_env (opt env : option string) : option string :=
  match opt with Some _ => opt | None => if given env then env else None end.
Definition history_limit (w : Z) (o : ctl_opts) (arg : option string) : Z :=
  if given arg then dflt (u32 (atoi w (default EmptyString arg))) 50 else dflt (co_limit o) 50.
Definition history_opts (env : ctl_env) (o : ctl_opts) (arg : option string) : cpe_ctl_ch_opts := {|
  cho_url := opt_or_env (co_ch_url o) (cn_getenv env "CPE_CH_URL");
  cho_user := opt_or_env (co_ch_user o) (cn_getenv env "CPE_CH_USER");
  cho_password := opt_or_env (co_ch_password o) (cn_getenv env "CPE_CH_PASSWORD");
  cho_table := co_ch_table o;
  cho_router_id := co_router_id o;
  cho_limit := history_limit (ce_bits (cn_ch env)) o arg |}.
(** 512 * 1024 *)
Definition HISTORY_SIZE : nat := 512 * 1024.
Definition history_hint : string :=
  line "Hint: set --ch-url/--ch-password or CPE_CH_URL / CPE_CH_PASSWORD" +:+
  line "  e.g. cpe_ctl flow_list --history --ch-password passw0rd".
(** The raw listing ends with a line feed. *)
Definition raw_text (body : string) : string :=
  if nonempty body && negb (ends_lf body) then line body else body.
Definition oneshot_history (env : ctl_env) (o : ctl_opts) (arg : option string) : chk ctl_result :=
  if negb (cn_malloc env)
  then Safe {| cr_exit := 1; cr_out := EmptyString; cr_err := line "cpe_ctl: oom"; cr_sent := EmptyString |}
  else
    r ← cpe_ctl_ch_query_flows (cn_ch env) (Some (history_opts env o arg)) HISTORY_SIZE (Some (256, EmptyString));
    let '(rc, body, err, sent) := r in
    mret (if negb (rc =? 0)%Z
          then {| cr_exit := 1; cr_out := EmptyString;
                  cr_err := line ("cpe_ctl: ClickHouse query failed: " +:+ str_dflt (err_text err) "error") +:+ history_hint;
                  cr_sent := sent |}
          else
            let body := cstr (default EmptyString body) in
            {| cr_exit := 0;
               cr_out := if truthy (co_raw o) then raw_text body else (cpe_ctl_ch_print_flows (Some body)).2;
               cr_err := EmptyString; cr_sent := sent |}).

(** ** [main] *)
Definition usage (argv0 : string) : string :=
  line ("Usage: " +:+ argv0 +:+ " [options] [op] [arg]") +:+ line "" +:+
  line "Client for the cpe_agent daemon (Unix socket) and optional" +:+
  line "ClickHouse historical flow queries (ops/lab hosts)." +:+ line "" +:+
  line "Options:" +:+
  line ("  --socket PATH        daemon UDS (default " +:+ CPE_IPC_SOCK_DEFAULT +:+ ")") +:+
  line "  --history            list historical flows from ClickHouse" +:+
  line "  --ch-url URL         ClickHouse HTTP base (default $CPE_CH_URL or" +:+
  line "                       http://127.0.0.1:8123)" +:+
  line "  --ch-user USER       CH user (default $CPE_CH_USER or default)" +:+
  line "  --ch-password PASS   CH password (default $CPE_CH_PASSWORD)" +:+
  line "  --ch-table TABLE     flows table (default edgehost.cpe_flows)" +:+
  line "  --router-id ID       filter flows by CPE router_id" +:+
  line "  --limit N            max rows (default 50 history / 32 live)" +:+
  line "  --raw                print raw JSONEachRow (history only)" +:+
  line "  --lua / --repl       interactive Lua REPL (daemon)" +:+
  line "  --lua-eval SRC       run one Lua chunk" +:+
  line "  --lua-file PATH      run a Lua script" +:+
  line "  --history-file PATH  REPL history (default /tmp/cpe_ctl_history)" +:+
  line "  --help" +:+ line "" +:+
  line "One-shot ops (daemon UDS unless --history):" +:+
  line "  status | config | tcp_stats | tcp_by_ip [IP] | tcp_by_prefix [CIDR]" +:+
  line "  flow_stats | flow_list [limit] | flow_tick | flows" +:+
  line "  last_sample | spool | emit | ping | help" +:+ line "" +:+
  line "Flow listing:" +:+
  line ("  " +:+ argv0 +:+ " flow_list                  live table from cpe_agent") +:+
  line ("  " +:+ argv0 +:+ " flow_list --history        historical rows from ClickHouse") +:+
  line ("  " +:+ argv0 +:+ " flows --history --router-id cpe-42 --limit 20") +:+ line "" +:+
  line "Examples:" +:+
  line ("  " +:+ argv0 +:+ " status") +:+ line ("  " +:+ argv0 +:+ " tcp_stats") +:+
  line ("  " +:+ argv0 +:+ " flow_list") +:+
  line ("  " +:+ argv0 +:+ " flow_list --history --ch-password passw0rd") +:+
  line ("  CPE_CH_PASSWORD=passw0rd " +:+ argv0 +:+ " flows --history --router-id lab-cpe-1") +:+
  line ("  " +:+ argv0 +:+ " --lua").
Definition start_hint (argv0 : string) : string :=
  line "Start the daemon first, e.g.:" +:+
  line "  cpe_agent --config /etc/cpe_agent/cpe_agent.yaml" +:+
  line "Or list historical flows without the daemon:" +:+
  line ("  " +:+ argv0 +:+ " flow_list --history --ch-password …").

Definition failed (msg : string) : ctl_result :=
  {| cr_exit := 1; cr_out := EmptyString; cr_err := line msg; cr_sent := EmptyString |}.

(** The Lua modes: a file, a chunk, then the REPL, each only when nothing failed before. *)
Definition lua_step (r : Z * string) (run : option (Z * errbuf)) (fallback : string) : Z * string :=
  match run with
  | Some (rc, err) =>
      if (r.1 =? 0)%Z && negb (rc =? 0)%Z
      then (1%Z, r.2 +:+ line ("cpe_ctl: " +:+ str_dflt (err_text err) fallback)) else r
  | None => r
  end.
Definition lua_modes (L : cpe_ctl_lua) (o : ctl_opts) : ctl_result :=
  let err : errbuf := Some (256, EmptyString) in
  let r := lua_step (0%Z, EmptyString) (option_map (fun f => cpe_ctl_lua_dofile L f err) (co_lua_file o)) "dofile" in
  let r := lua_step r (option_map (fun s => cpe_ctl_lua_dostring L s err) (co_lua_eval o)) "eval" in
  let rc := if (r.1 =? 0)%Z && truthy (co_lua_repl o) then cpe_ctl_lua_repl L (co_history_file o) else r.1 in
  {| cr_exit := rc; cr_out := EmptyString; cr_err := r.2; cr_sent := EmptyString |}.
Definition wants_lua (o : ctl_opts) : bool :=
  truthy (co_lua_repl o) || match co_lua_eval o, co_lua_file o with None, None => false | _, _ => true end.

(** An operand: the operation and its argument. *)
Definition run_op (env : ctl_env) (o : ctl_opts) (op : string) (arg : option string) : chk ctl_result :=
  if streq op "flow_list" || streq op "flows" || streq op "flow_history" then
    if truthy (co_history o) || streq op "flow_history" then oneshot_history env o arg
    else Safe (oneshot_daemon (cn_ipc env) (co_sock o) "flow_list" arg (co_limit o))
  else if truthy (co_history o) then Safe (failed "cpe_ctl: --history only applies to flow_list / flows")
  else Safe (oneshot_daemon (cn_ipc env) (co_sock o) op arg (co_limit o)).

(** Without an operand: the daemon's status, then the REPL where there is one. *)
Definition run_status (then_prompt : ctl_opts -> ctl_result -> chk ctl_result) (env : ctl_env) (argv0 : string) (o : ctl_opts)
    : chk ctl_result :=
  let r := ask_daemon (cn_ipc env) (co_sock o) (lit "{'op':'status'}") "connect failed" (start_hint argv0) in
  if negb (cr_exit r =? 0)%Z then Safe r else then_prompt o r.

(** [run_lua] and [then_prompt] are what a build does with the Lua options, and after the
    status. *)
Definition ctl_main_with (run_lua : ctl_opts -> chk ctl_result) (then_prompt : ctl_opts -> ctl_result -> chk ctl_result)
    (env : ctl_env) (argv0 : string) (opts : list (ascii * string)) (operands : list string) : chk ctl_result :=
  match ctl_parse (ce_bits (cn_ch env)) opts no_opts with
  | inr rc => Safe {| cr_exit := rc; cr_out := EmptyString; cr_err := usage argv0; cr_sent := EmptyString |}
  | inl o =>
      if wants_lua o then run_lua o
      else
        match operands with
        | op :: rest => run_op env o op (head rest)
        | [] =>
            if truthy (co_history o) then oneshot_history env o None
            else run_status then_prompt env argv0 o
        end
  end.
Definition lua_unavailable : string := "cpe_ctl: Lua unavailable (rebuild with -DCPE_AGENT_WITH_LUA=ON)".
(** The build without Lua. *)
Definition stub_lua (o : ctl_opts) : chk ctl_result :=
  match cpe_ctl_lua_create (co_sock o) with
  | None => Safe (failed lua_unavailable)
  | Some L => Safe (lua_modes L o)
  end.
Definition stub_prompt (o : ctl_opts) (r : ctl_result) : chk ctl_result :=
  match cpe_ctl_lua_create (co_sock o) with
  | None => Safe r
  | Some L => Safe {| cr_exit := cpe_ctl_lua_repl L (co_history_file o); cr_out := cr_out r; cr_err := cr_err r; cr_sent := cr_sent r |}
  end.
Definition cpe_ctl_main := ctl_main_with stub_lua stub_prompt.

(** ** Errors are reported *)

(** The exit code is 0 or 1; a 1 says why on the error output, a 0 says nothing there but
    the usage text asked for. *)
Definition reported (argv0 : string) (r : ctl_result) : Prop :=
  (cr_exit r = 0%Z /\ (cr_err r = EmptyString \/ cr_err r = usage argv0)) \/
  (cr_exit r = 1%Z /\ cr_err r <> EmptyString).

Lemma nonempty_app s t : t <> EmptyString -> s +:+ t <> EmptyString.
Proof. by destruct s. Qed.
Lemma line_nonempty s : line s <> EmptyString.
Proof. by apply nonempty_app. Qed.
Lemma nonempty_app_l s t : s <> EmptyString -> s +:+ t <> EmptyString.
Proof. by destruct s. Qed.
#[local] Hint Resolve line_nonempty nonempty_app_l : nf.

Lemma client_rc env sock req n err :
  let '(rc, _, _, _, _) := cpe_ipc_client_request env sock req n err in (rc = 0 \/ rc = -1)%Z.
Proof.
  unfold cpe_ipc_client_request. destruct (n <? 8); [by right|]. destruct (_ <? 0)%Z; [by right|].
  destruct (_ <=? _); [by right|]. destruct (ce_connect_err env); [by right|]. destruct (_ <? _); [by right|].
  destruct (ce_send_err env); [by right|]. destruct (recv_reply _ _ _); [|by right].
  destruct (_ =? _); [by right|by left].
Qed.
Lemma ask_daemon_reported argv0 env sock req fallback hint : reported argv0 (ask_daemon env sock req fallback hint).
Proof.
  unfold ask_daemon. destruct (cpe_ipc_client_request _ _ _ _ _) as [[[[rc resp] err] sent] closed].
  destruct (negb _); [right|left]; (split; [done|]); [auto with nf|by left].
Qed.
Lemma oneshot_daemon_reported argv0 env sock op arg limit : reported argv0 (oneshot_daemon env sock op arg limit).
Proof.
  unfold oneshot_daemon. destruct (daemon_request op arg limit); [apply ask_daemon_reported|].
  right. split; [done|]. apply line_nonempty.
Qed.
(** The database side of the environment: [long] and [size_t] have at least 32 bits, and a
    send takes no more than it is given. *)
Definition ch_env_ok (env : ch_env) : Prop := (32 <= ce_bits env)%Z /\ send_ok (he_send (ce_net env)).
(** The command ends with a result in [P], or the answer of the database overran. *)
Definition ends_with (P : ctl_result -> Prop) (env : ctl_env) (run : chk ctl_result) : Prop :=
  safe_with P run \/ (run = Oob /\ answer_overruns (cn_ch env) HISTORY_SIZE).
Lemma history_reported argv0 env o arg :
  ch_env_ok (cn_ch env) -> ends_with (reported argv0) env (oneshot_history env o arg).
Proof.
  intros [Hw Hs]. unfold oneshot_history.
  destruct (negb _); [left; apply safe_ret; right; split; [done|apply line_nonempty]|].
  assert (Hb : (Z.of_nat (2 * HISTORY_SIZE + 8 * 1024) <= 2 ^ ce_bits (cn_ch env))%Z).
  { apply (Z.le_trans _ (2 ^ 32)); [unfold HISTORY_SIZE; lia|apply Z.pow_le_mono_r; lia]. }
  destruct (query_ends (cn_ch env) (Some (history_opts env o arg)) HISTORY_SIZE (Some (256, EmptyString)) Hs ltac:(lia) Hb)
    as [([[[rc body] err] sent] & -> & _)|(-> & Ha)]; [|by right].
  chk_step. left. apply safe_ret.
  destruct (negb _); [right|left]; (split; [done|]); [apply nonempty_app_l, line_nonempty|by left].
Qed.
Lemma ctl_parse_code w opts o rc : ctl_parse w opts o = inr rc -> rc = 0%Z \/ rc = 1%Z.
Proof.
  revert o. induction opts as [|[c arg] opts IH]; intros o; [done|]. cbn [ctl_parse].
  destruct (ctl_opt w c arg o) as [o'|rc'] eqn:E; [apply IH|]. intros [= <-].
  destruct c as [[] [] [] [] [] [] [] []]; cbn in E; try done; injection E as <-; auto.
Qed.
Lemma usage_nonempty argv0 : usage argv0 <> EmptyString.
Proof. apply nonempty_app_l, line_nonempty. Qed.

(** The listing of historical flows is asked for. *)
Definition lists_history (w : Z) (opts : list (ascii * string)) (operands : list string) : Prop :=
  exists o, ctl_parse w opts no_opts = inl o /\
    (truthy (co_history o) = true \/ head operands = Some "flow_history"%string).

(** C18: The command ends with exit code 0 or 1 whatever the options, the operands, the
    answers of the daemon and those of the database, with one exception: in a listing of
    historical flows, an answer with a chunk size that exceeds the bytes behind it makes
    the client copy out of bounds.  A 1 comes with a message on the error output, and a 0
    leaves the error output empty, but for the usage text of [--help].  Assumed: words of
    at least 32 bits, and a send that takes no more than it is given. *)
Theorem ctl_errors_reported env argv0 opts operands :
  ch_env_ok (cn_ch env) ->
  let run := cpe_ctl_main env argv0 opts operands in
  safe_with (reported argv0) run \/
  (run = Oob /\ lists_history (ce_bits (cn_ch env)) opts operands /\ answer_overruns (cn_ch env) HISTORY_SIZE).
Proof.
  intros Henv run. subst run. unfold cpe_ctl_main, ctl_main_with. destruct (ctl_parse _ opts no_opts) as [o|rc] eqn:Ep.
  2: { left. apply safe_ret. destruct (ctl_parse_code _ _ _ _ Ep) as [-> | ->]; [left|right]; (split; [done|]); [by right|].
       apply usage_nonempty. }
  assert (Hf : forall m, safe_with (reported argv0) (Safe (failed m)))
    by (intros; apply safe_ret; right; split; [done|apply line_nonempty]).
  assert (Hd : forall op arg n, safe_with (reported argv0) (Safe (oneshot_daemon (cn_ipc env) (co_sock o) op arg n)))
    by (intros; apply safe_ret, oneshot_daemon_reported).
  assert (Hh : forall arg, truthy (co_history o) = true \/ head operands = Some "flow_history"%string ->
    safe_with (reported argv0) (oneshot_history env o arg) \/
    (oneshot_history env o arg = Oob /\ lists_history (ce_bits (cn_ch env)) opts operands /\
      answer_overruns (cn_ch env) HISTORY_SIZE)).
  { intros arg Hl. destruct (history_reported argv0 env o arg Henv) as [H|[H1 H2]]; [by left|]. right. split; [done|].
    split; [by exists o|done]. }
  destruct (wants_lua o); [left; apply Hf|]. destruct operands as [|op rest].
  - destruct (truthy (co_history o)); [by apply Hh; left|]. left. unfold run_status, stub_prompt. cbn [cpe_ctl_lua_create].
    cbv zeta. destruct (negb _); apply safe_ret, ask_daemon_reported.
  - unfold run_op. destruct (_ || _).
    + destruct (truthy (co_history o)) eqn:Eh; [by apply Hh; left|]. cbn [orb].
      destruct (streq op "flow_history") eqn:Eo; [|left; apply Hd].
      apply streq_true in Eo as ->. by apply Hh; right.
    + destruct (truthy _); left; [apply Hf|apply Hd].
Qed.

(** ** The daemon reads what the client wrote *)

(** The operation on the wire. *)
Definition wire_op (op : string) : string := if streq op "flows" then "flow_list" else op.
Definition client_ops : list string := plain_ops ++ ["flow_list"; "flows"; "tcp_by_ip"; "tcp_by_prefix"; "tcp_poll"; "tcp_emit"]%string.

Lemma request_known op arg limit text : op_request op arg limit = Some text -> op ∈ client_ops.
Proof.
  unfold op_request. cbv zeta. unfold client_ops. rewrite elem_of_app. destruct (existsb (streq op) plain_ops) eqn:E.
  { intros _. left. apply existsb_exists in E as (x & Hx & Hs). apply streq_true in Hs as ->. by apply list_elem_of_In. }
  intros Hr. right. repeat match type of Hr with
  | context [streq op ?s] =>
      let Hs := fresh in destruct (streq op s) eqn:Hs;
      [apply streq_true in Hs as ->; apply list_elem_of_In; simpl; auto 10|]; cbn [orb] in Hr
  end. done.
Qed.
(** Every request begins with the operation. *)
Lemma request_head op arg limit text :
  op_request op arg limit = Some text -> exists t, text = lit "{'op':'" +:+ wire_op op +:+ String quote t.
Proof.
  intros Hr. pose proof (request_known _ _ _ _ Hr) as Hop. unfold client_ops, plain_ops in Hop. cbn [app] in Hop.
  repeat (apply elem_of_cons in Hop as [->|Hop];
    [unfold op_request in Hr; cbn [existsb streq plain_ops] in Hr; cbv zeta in Hr;
     try (destruct (given arg) in Hr); injection Hr as <-; by eexists|]).
  by apply elem_of_nil in Hop.
Qed.

Lemma op_read op arg limit req :
  daemon_request op arg limit = Some req -> IpcRequest.json_get_str req "op" IPC_OP_MAX = (0%Z, wire_op op).
Proof.
  unfold daemon_request. destruct (op_request op arg limit) as [text|] eqn:Er; [|done]. intros [= <-].
  destruct (request_head _ _ _ _ Er) as [t ->]. pose proof (request_known _ _ _ _ Er) as Hop. clear Er.
  unfold client_ops, plain_ops in Hop. cbn [app] in Hop.
  repeat (apply elem_of_cons in Hop as [->|Hop]; [reflexivity|]). by apply elem_of_nil in Hop.
Qed.

(** *** Arguments *)
Lemma plain_escape s : str_forall plain_char s = true -> json_escape s = s.
Proof.
  induction s as [|c s IH]; [done|]. cbn [str_forall json_escape]. intros [Hc Hs]%andb_true_iff.
  unfold plain_char in Hc. destruct (Ascii.eqb c quote); [done|]. destruct (Ascii.eqb c "\"); [done|]. cbn [orb].
  by rewrite IH.
Qed.
Lemma str_arg_read pre key a out_sz :
  str_forall plain_char a = true -> strlen key < 62 ->
  let json := pre +:+ key_pattern key +:+ String ":" (String quote (a +:+ lit "'}")) in
  String.index 0 (key_pattern key) json = Some (strlen pre) ->
  IpcRequest.json_get_str json key out_sz = (0%Z, str_take (out_sz - 1) a).
Proof.
  intros Ha Hk json Hi. subst json. pose proof (plain_escape a Ha) as He. rewrite <- He at 1.
  apply (json_get_str_escaped pre key EmptyString EmptyString a "}" out_sz); [done| |done|done].
  rewrite He. exact Hi.
Qed.

Lemma fmt_u_digit n t : (0 <= n)%Z ->
  scan_digits (fmt_u n +:+ t) 0 = scan_digits t n /\
  exists c s, fmt_u n +:+ t = String c s /\ digit_val c <> None.
Proof.
  intros Hn. unfold fmt_u, digit_fuel. rewrite digits_acc_app. by apply scan_digits_acc, digit_fuel_enough.
Qed.
Lemma num_arg_read pre key n d :
  in_u32 n -> strlen key < 62 ->
  let json := pre +:+ key_pattern key +:+ String ":" (fmt_u n +:+ "}") in
  String.index 0 (key_pattern key) json = Some (strlen pre) ->
  json_get_u32 json key d = (0%Z, n).
Proof.
  intros Hn Hk json Hi. unfold json_get_u32, json_value. rewrite Hi.
  rewrite (proj2 (Nat.leb_gt 64 _)) by (rewrite strlen_pattern; lia). subst json.
  rewrite <- strlen_app, <- str_app_assoc, str_drop_app.
  change (skip_blank (String ":" ?t)) with (String ":" t). cbn iota. rewrite Ascii.eqb_refl.
  destruct (fmt_u_digit n "}") as [Hs (c & s & Hc & Hd)]; [by destruct Hn|]. rewrite Hc in *.
  assert (skip_blank (String c s) = String c s /\ skip_space (String c s) = String c s /\
    scan_sign (String c s) = (false, String c s)) as (H1 & H2 & H3).
  { destruct c as [[] [] [] [] [] [] [] []]; try (exfalso; apply Hd; reflexivity); split_and!; reflexivity. }
  rewrite H1. unfold strtoul. rewrite H2, H3. destruct (digit_val c); [|done]. rewrite Hs.
  change (scan_digits "}" n) with (n, "}"%string). cbn beta iota. rewrite (proj2 (Z.ltb_ge _ _)).
  - f_equal. by apply u32_id.
  - unfold in_u32 in Hn. lia.
Qed.

(** The key of a number, the key of a text. *)
Definition num_key (op : string) : option string :=
  if streq op "flow_list" || streq op "flows" then Some "limit"%string
  else if streq op "tcp_poll" then Some "max"%string
  else if streq op "tcp_emit" then Some "top_n"%string else None.
Definition text_key (op : string) : option string :=
  if streq op "tcp_by_ip" then Some "ip"%string else if streq op "tcp_by_prefix" then Some "prefix"%string else None.

Lemma num_arg op n limit req key d :
  in_u32 n -> num_key op = Some key -> daemon_request op (Some (fmt_u n)) limit = Some req ->
  json_get_u32 req key d = (0%Z, n).
Proof.
  intros Hn Hk Hr. assert (Hlen : strlen (fmt_u n) <= 10) by by apply strlen_fmt_u32.
  assert (Hg : given (Some (fmt_u n)) = true) by (pose proof (fmt_u_nonempty n); cbn; by destruct (fmt_u n); [simpl in *; lia|]).
  unfold daemon_request in Hr. destruct (op_request op (Some (fmt_u n)) limit) as [text|] eqn:Er; [|done].
  assert (Htext : exists pre, strlen pre < 40 /\ strlen key < 8 /\
    text = pre +:+ key_pattern key +:+ String ":" (fmt_u n +:+ "}") /\
    String.index 0 (key_pattern key) text = Some (strlen pre)).
  { unfold num_key in Hk.
    repeat match type of Hk with
    | context [streq op ?s] => let Hs := fresh in destruct (streq op s) eqn:Hs;
        [apply streq_true in Hs as ->|]; cbn [orb] in Hk
    end; try done; injection Hk as <-; cbn [op_request existsb streq plain_ops] in Er; unfold op_request in Er;
    cbv zeta in Er; rewrite Hg in Er; injection Er as <-.
    - exists (lit "{'op':'flow_list',"). split_and!; [simpl; lia..|reflexivity|reflexivity].
    - exists (lit "{'op':'flow_list',"). split_and!; [simpl; lia..|reflexivity|reflexivity].
    - exists (lit "{'op':'tcp_poll',"). split_and!; [simpl; lia..|reflexivity|reflexivity].
    - exists (lit "{'op':'tcp_emit',"). split_and!; [simpl; lia..|reflexivity|reflexivity]. }
  destruct Htext as (pre & Hpre & Hkl & Ht & Hi). cbn [option_map] in Hr. injection Hr as <-.
  rewrite snprintf_s_fits.
  - subst text. apply num_arg_read; [done|lia|done].
  - subst text. rewrite !strlen_app, strlen_pattern. cbn [String.length]. rewrite strlen_app. cbn [String.length].
    unfold CTL_REQ_SIZE. lia.
Qed.
Lemma text_arg op a limit req key out_sz :
  str_forall plain_char a = true -> nonempty a = true -> strlen a < 200 -> text_key op = Some key ->
  daemon_request op (Some a) limit = Some req -> IpcRequest.json_get_str req key out_sz = (0%Z, str_take (out_sz - 1) a).
Proof.
  intros Ha Hg Hlen Hk Hr. change (nonempty a) with (given (Some a)) in Hg.
  unfold daemon_request in Hr. destruct (op_request op (Some a) limit) as [text|] eqn:Er; [|done].
  assert (Htext : exists pre, strlen pre < 40 /\ strlen key < 8 /\
    text = pre +:+ key_pattern key +:+ String ":" (String quote (a +:+ lit "'}")) /\
    String.index 0 (key_pattern key) text = Some (strlen pre)).
  { unfold text_key in Hk.
    repeat match type of Hk with
    | context [streq op ?s] => let Hs := fresh in destruct (streq op s) eqn:Hs;
        [apply streq_true in Hs as ->|]; cbn [orb] in Hk
    end; try done; injection Hk as <-; unfold op_request in Er;
    cbv zeta in Er; rewrite Hg in Er; injection Er as <-.
    - exists (lit "{'op':'tcp_by_ip',"). split_and!; [simpl; lia..|reflexivity|reflexivity].
    - exists (lit "{'op':'tcp_by_prefix',"). split_and!; [simpl; lia..|reflexivity|reflexivity]. }
  destruct Htext as (pre & Hpre & Hkl & Ht & Hi). cbn [option_map] in Hr. injection Hr as <-.
  rewrite snprintf_s_fits.
  - subst text. apply str_arg_read; [done|lia|done].
  - subst text. rewrite !strlen_app, strlen_pattern. cbn [String.length]. rewrite strlen_app. cbn [String.length].
    unfold CTL_REQ_SIZE. simpl. lia.
Qed.

(** C17: the daemon reads a one-shot request as the client meant it: for every operation the
    client knows, the request line it sends (even one that its 256-byte buffer cut) parses
    to that operation; a numeric argument parses to that number, and a textual one without
    quotes and backslashes, shorter than 200 characters, to that text, cut to the buffer
    that the daemon reads it into. *)
Theorem ctl_request_read op arg limit req :
  daemon_request op arg limit = Some req ->
  IpcRequest.json_get_str req "op" IPC_OP_MAX = (0%Z, wire_op op) /\
  (forall n key d, arg = Some (fmt_u n) -> in_u32 n -> num_key op = Some key -> json_get_u32 req key d = (0%Z, n)) /\
  (forall a key sz, arg = Some a -> str_forall plain_char a = true -> nonempty a = true -> strlen a < 200 ->
     text_key op = Some key -> IpcRequest.json_get_str req key sz = (0%Z, str_take (sz - 1) a)).
Proof.
  intros Hr. split_and!; [by eapply op_read| |].
  - intros n key d -> Hn Hk. by eapply num_arg.
  - intros a key sz -> Ha Hg Hl Hk. by eapply text_arg.
Qed.

(** ** Historical rows, from the database to the terminal *)
Section history.
Context (env : ctl_env) (o : ctl_opts) (arg : option string) (host port : string).
Local Abbreviation opts := (history_opts env o arg).
Local Abbreviation err := (Some (256, EmptyString)).
Definition history_sql : string :=
  flows_sql (given_or (cho_table opts) "edgehost.cpe_flows")
    (ident_filter (RID_SIZE - 1) (default EmptyString (cho_router_id opts))) (query_limit (cho_limit opts)).

(** The options pass the client's checks. *)
Record history_opts_ok : Prop := {
  ho_table : sql_ident_ok (given_or (cho_table opts) "edgehost.cpe_flows") = true;
  ho_url : parse_base_url (given_or (cho_url opts) "http://127.0.0.1:8123") 256 16 = inl (host, port);
  ho_sql : strlen history_sql < SQL_SIZE;
}.

(** C14: from the database to the terminal: when the server answers the client's query with
    JSON rows in the chunked coding, cut into chunks and network pieces anyhow, the listing
    of the historical flows succeeds and shows one line per row with that row's fields under
    the heading, nothing goes to the error output, and the bytes sent are the request. *)
Theorem history_shows_rows rows req pieces head c cs :
  history_opts_ok -> cn_malloc env = true -> co_raw o = 0%Z ->
  exchange_env (cn_ch env) host port err ->
  sql_request host (Some (given_or (cho_user opts) "default")) (cho_password opts) history_sql = Some req ->
  delivers (cn_ch env) 0 pieces -> concat_str pieces = chunked_response head (String "{" c :: cs) ->
  strlen (concat_str pieces) < HISTORY_SIZE ->
  head_ok head (String "{" c :: cs) -> Forall (chunk_ok (ce_bits (cn_ch env)) HISTORY_SIZE) (String "{" c :: cs) ->
  concat_str (String "{" c :: cs) = rows_json rows -> Forall row_ok rows -> strlen (rows_json rows) < HISTORY_SIZE ->
  oneshot_history env o arg =
  Safe {| cr_exit := 0; cr_out := table_head +:+ rows_text rows; cr_err := EmptyString; cr_sent := req |}.
Proof.
  intros [Ht Hu Hsql] Hm Hraw Henv Hreq Hd Hresp Hlen Hh Hcs Hrows Hok Hfit. unfold oneshot_history. rewrite Hm. cbn [negb].
  assert (H16 : 16 <= HISTORY_SIZE) by (unfold HISTORY_SIZE; lia).
  generalize dependent HISTORY_SIZE. intros size Hlen Hcs Hfit H16.
  rewrite (query_flows_posts _ _ host port size _ 256 H16 Ht Hu Hsql eq_refl). fold history_sql.
  rewrite (post_sql_rows _ _ _ _ _ _ req _ _ pieces head c cs Henv) by (done || lia).
  rewrite Hrows, str_take_all by lia. chk_step. cbn [negb Z.eqb default from_option id]. rewrite Hraw. cbn [truthy negb Z.eqb].
  rewrite cstr_rows, print_flows_rows by done. cbn [snd]. do 2 f_equal.
  destruct rows as [|r rows]; [done|]. by rewrite str_app_nil_r.
Qed.
End history.

(** ** Instances *)
Definition demo_ctl : ctl_env := {| cn_getenv := fun _ => None; cn_ipc := toy_client; cn_ch := demo_ch; cn_malloc := true |}.
Definition demo_ctl_opts : ctl_opts := no_opts <| co_router_id := Some "cpe-1"%string |>.

Example help_is_usage :
  cpe_ctl_main demo_ctl "cpe_ctl" [("h"%char, EmptyString)] [] =
  Safe {| cr_exit := 0; cr_out := EmptyString; cr_err := usage "cpe_ctl"; cr_sent := EmptyString |}.
Proof. reflexivity. Qed.
(** A limit given before an operand that is no number is lost: the operand decides. *)
Example operand_overrides_limit :
  history_limit 64 (no_opts <| co_limit := 20%Z |>) (Some "abc"%string) = 50%Z.
Proof. reflexivity. Qed.
(** An argument longer than the buffer goes out cut, without the closing brace. *)
Example long_argument_cut :
  match daemon_request "tcp_by_ip" (Some (fmt_u (10 ^ 300))) 0 with
  | Some req => strlen req = 255 /\ chr_index "}" req = None
  | None => False
  end.
Proof. vm_compute. by split. Qed.

Lemma ctl_errors_reported_witness :
  exists r, cpe_ctl_main demo_ctl "cpe_ctl" [] ["ping"%string] = Safe r /\ reported "cpe_ctl" r.
Proof.
  destruct (ctl_errors_reported demo_ctl "cpe_ctl" [] ["ping"%string]) as [H|(H & _)].
  - split; [simpl; lia|exact demo_send_ok].
  - exact H.
  - exfalso. vm_compute in H. discriminate H.
Defined.
Lemma ctl_request_read_witness :
  exists req, daemon_request "tcp_by_prefix" (Some "10.0.0.0/8"%string) 0 = Some req /\
    IpcRequest.json_get_str req "prefix" 64 = (0%Z, "10.0.0.0/8"%string).
Proof.
  eexists. split; [reflexivity|].
  refine (proj2 (proj2 (ctl_request_read "tcp_by_prefix" (Some "10.0.0.0/8"%string) 0 _ _)) _ "prefix" 64 eq_refl _ _ _ _);
    [reflexivity..|apply Nat.ltb_lt; reflexivity|reflexivity].
Defined.
Lemma history_shows_rows_witness :
  oneshot_history demo_ctl demo_ctl_opts None =
  Safe {| cr_exit := 0; cr_out := table_head +:+ rows_text [demo_row; demo_row]; cr_err := EmptyString; cr_sent := demo_req |}.
Proof.
  assert (Hsmall : strlen (concat_str demo_pieces) <= 800) by (apply Nat.leb_le; vm_compute; reflexivity).
  assert (Hrows : strlen (rows_json [demo_row; demo_row]) <= 800) by (apply Nat.leb_le; vm_compute; reflexivity).
  apply (history_shows_rows demo_ctl demo_ctl_opts None "127.0.0.1" "8123" [demo_row; demo_row] demo_req demo_pieces demo_head
    demo_chunk [String "{" demo_chunk]); try reflexivity.
  - split; [reflexivity|reflexivity|apply Nat.ltb_lt; vm_compute; reflexivity].
  - split; [done|done|done|exact demo_send_ok|intros k n Hn; cbn; lia].
  - unfold demo_pieces. cbn [delivers].
    split_and!; first [reflexivity|vm_compute; discriminate|right; reflexivity].
  - unfold HISTORY_SIZE. lia.
  - assert (strlen (String "{" demo_chunk) <= 400) as Hc by (apply Nat.leb_le; vm_compute; reflexivity).
    assert (chunk_ok (ce_bits (cn_ch demo_ctl)) HISTORY_SIZE (String "{" demo_chunk)) as Hok.
    { split; [cbn; lia|]. change (2 ^ ce_bits (cn_ch demo_ctl))%Z with 18446744073709551616%Z. unfold HISTORY_SIZE. lia. }
    exact (Forall_cons_2 _ _ _ Hok (Forall_cons_2 _ _ _ Hok (Forall_nil_2 _))).
  - exact demo_rows_ok.
  - unfold HISTORY_SIZE. lia.
Defined.
