(* ===== verification/Forensicsd.v ===== *)
(** * The forensics daemon (src/cpe/forensicsd.c)

    The stand-alone daemon over the collector libraries: the demonstration, the conntrack
    event loop with its periodic Wi-Fi station dump, and the command line.  The libraries
    are the classes of the earlier files; what the kernel answers in a round of the event
    loop is an [fd_round]. *)

From Stdlib Require Import Ascii.
From S2P Require Import Prelude CStr Float754 Inet Clock Config Events NfFlow Nflog Nfct FlowAcct AgentData Genl WifiStats.

(** ** Lines *)

(** The libraries' own descriptions of their events, into a buffer of that size. *)
Class EventText := {
  nfct_event_to_string : nfct_event -> nat -> string;
  nl80211_event_to_string : nl80211_event -> nat -> string;
}.

Definition now_ms (clk : clock) : Z :=
  match clk_realtime clk with
  | None => 0%Z
  | Some (sec, nsec) => u64 (u64 (u64 sec * 1000) + u64 nsec / 1000000)
  end.

Section forensicsd.
Context {C : Type} `{!NfctLib C} `{!EventSource C nfct_event} {W : Type} `{!WifiLib W} `{!EventSource W nl80211_event}
  {R : Type} `{!NfLib R} `{!EventText}.
Context (w : Z).   (* the width of [size_t] *)

(** The line of an event the library could not decode to a flow. *)
Definition raw_text (router : string) (ts : Z) (ev : nfct_event) : string :=
  let detail := nfct_event_to_string ev 256 in
  lit "{'type':'cpe_nat_raw','router':'" +:+ router +:+ lit "','ts':" +:+ fmt_u ts +:+
  (if truthy (nev_has_id ev)
   then lit ",'event':'" +:+ (if truthy (nev_is_destroy ev) then "DESTROY" else "PARTIAL") +:+
        lit "','ct_id':" +:+ fmt_u (nev_id ev)
   else EmptyString) +:+
  lit ",'detail':'" +:+ detail +:+ lit "'}".
Definition nfct_line (router : string) (ts : Z) (ev : nfct_event) : option string :=
  let '(rc, obs) := nf_obs_from_nfct ev (Some router) ts in
  if (rc =? 0)%Z then
    let '(rc, line) := nf_obs_format obs 768 in if (rc =? 0)%Z then Some line else None
  else Some (raw_text router ts ev).
Definition emit_nfct_events (c : C) (router : string) (ts : Z) : list string * C :=
  let '(evs, c) := pull_all (E := nfct_event) c in (omap (nfct_line router ts) evs, c).

Definition is_station (ev : nl80211_event) : bool := nle_is_station ev && truthy (nle_has_mac ev).
Definition wifi_text (router : string) (ts : Z) (ev : nl80211_event) : string :=
  lit "{'type':'cpe_wifi','router':'" +:+ router +:+ lit "','ts':" +:+ fmt_u ts +:+
  lit ",'client_mac':'" +:+ mac_text (nle_client_mac ev) +:+ lit "','rssi':" +:+ fmt_d (i32 (nle_signal_dbm ev)) +:+
  lit ",'snr':" +:+ fmt_d (i32 (nle_snr_db ev)) +:+ lit ",'mcs':" +:+ fmt_u (u32 (nle_mcs_index ev)) +:+
  lit ",'tx_retries':" +:+ fmt_u (u32 (nle_tx_retries ev)) +:+ lit ",'freq_mhz':" +:+ fmt_u (u32 (nle_frequency_mhz ev)) +:+ "}".
Definition emit_wifi_events (wifi : W) (router : string) (ts : Z) : list string * W :=
  let '(evs, wifi) := pull_all (E := nl80211_event) wifi in
  (wifi_text router ts <$> filter (fun ev => is_station ev = true) evs, wifi).

(** ** The demonstration *)
Definition wr32_be (p : nat) (v : Z) (buf : list Z) : list Z := put p [byte_at 3 v; byte_at 2 v; byte_at 1 v; byte_at 0 v] buf.
Definition wr16_be (p : nat) (v : Z) (buf : list Z) : list Z := put p [byte_at 1 v; byte_at 0 v] buf.
Definition demo_nfct : list Z :=
  let b := replicate 32 0%Z in
  let b := wr32_be 0 1313227604 b in
  let b := put 4 [1; 6]%Z b in
  let b := wr32_be 8 3232235826 b in
  let b := wr16_be 12 12345 b in
  let b := wr32_be 14 134744072 b in
  let b := wr16_be 18 53 b in
  let b := wr32_be 20 3405803785 b in
  let b := wr16_be 24 54321 b in
  let b := wr32_be 26 134744072 b in
  wr16_be 30 53 b.
Definition demo_wifi : list Z :=
  let b := replicate 20 0%Z in
  let b := wr32_be 0 942813489 b in
  let b := put 4 [170; 187; 204; 221; 238; 255]%Z b in
  let b := wr32_be 10 (u32 (-65)) b in
  let b := put 14 [25; 7]%Z b in
  wr32_be 16 3 b.
Definition demo_wifi_line (router : string) (ts : Z) (ev : nl80211_event) : string :=
  if is_station ev then wifi_text router ts ev
  else lit "{'type':'cpe_wifi','router':'" +:+ router +:+ lit "','detail':'" +:+ nl80211_event_to_string ev 256 +:+ lit "'}".

(** Exit code (none while it runs), the lines of both outputs, the sockets that were opened
    and the ones closed. *)
Record fsd_result := { fr_exit : option Z; fr_out : list string; fr_err : list string; fr_opened : list Z; fr_closed : list Z }.

(** [clks k] is the clock when the [k]-th Wi-Fi event is printed. *)
Definition run_demo (clks : nat -> clock) (router : string) : fsd_result :=
  match nfct_create, nl80211_parse_create with
  | Some c, Some wifi =>
      let '(_, c) := nfct_feed_input c demo_nfct in
      let '(nat_lines, _) := emit_nfct_events c router 1700000000000 in
      let '(_, wifi) := nl80211_parse_feed_input wifi demo_wifi in
      let '(evs, _) := pull_all (E := nl80211_event) wifi in
      {| fr_exit := Some 0%Z;
         fr_out := ["# forensicsd demo mode router_id=" +:+ router] ++ nat_lines ++
                   imap (fun k ev => demo_wifi_line router (now_ms (clks k)) ev) evs;
         fr_err := []; fr_opened := []; fr_closed := [] |}
  | _, _ => {| fr_exit := Some 1%Z; fr_out := []; fr_err := ["forensicsd: create failed"%string]; fr_opened := []; fr_closed := [] |}
  end.

(** ** The station dump *)

(** Whether a datagram of [n] bytes holds the end of the dump.  [None]: [fuel] messages were
    passed and the scan goes on. *)
Fixpoint done_scan (fuel : nat) (buf : list Z) (off : Z) (done : bool) : chk (option bool) :=
  match fuel with
  | O => Safe None
  | S f =>
      if (size_w w (off + 16) <=? Z.of_nat (length buf))%Z then
        len ← rd32 buf (Z.to_nat off);
        type ← rd16 buf (Z.to_nat off + 4);
        if (len <? 16)%Z || (Z.of_nat (length buf) <? size_w w (off + len))%Z then Safe (Some done)
        else done_scan f buf (size_w w (off + Z.land (u32 (len + 3)) 4294967292)) (done || (type =? 3)%Z)
      else Safe (Some done)
  end.

(** The rounds of a dump over the answers of [recv] ([RecvAgain] when they are used up): the
    lines, the parser, the answers left; [clks k] is the clock of the [k]-th round. *)
Definition WBUF_SIZE := 8 * 1024.
Fixpoint dump_rounds (clks : nat -> clock) (k : nat) (wfd : Z) (router : string) (recvs : list recv_result) (wifi : W)
    : chk (option (list string * W * list recv_result)) :=
  match recvs with
  | [] => mret (Some ([], wifi, []))
  | r :: rest =>
      let '(n, buf) := nl80211_netlink_recv wfd r WBUF_SIZE in
      if (n <=? 0)%Z then mret (Some ([], wifi, rest))
      else
        let '(_, wifi) := nl80211_parse_feed_input wifi buf in
        let '(lines, wifi) := emit_wifi_events wifi router (now_ms (clks k)) in
        done ← done_scan (S (length buf)) buf 0 false;
        match done with
        | None => mret None
        | Some true => mret (Some (lines, wifi, rest))
        | Some false =>
            more ← dump_rounds clks (S k) wfd router rest wifi;
            mret (option_map (fun '(ls, wifi, rest) => (lines ++ ls, wifi, rest)) more)
        end
  end.

(** The state of the daemon: the parsers, the time of the last dump, the stop flag, the two
    outputs, and what the two sockets have not been read of. *)
Record fsd_state := {
  fs_nfct : C;
  fs_wifi : option W;
  fs_last : Z;
  fs_stop : bool;
  fs_out : list string;
  fs_err : list string;
  fs_queue : list recv_result;
  fs_wqueue : list recv_result;
}.
Definition complain (s : fsd_state) (msg : string) : fsd_state :=
  {| fs_nfct := fs_nfct s; fs_wifi := fs_wifi s; fs_last := fs_last s; fs_stop := fs_stop s; fs_out := fs_out s;
     fs_err := fs_err s ++ [msg]; fs_queue := fs_queue s; fs_wqueue := fs_wqueue s |}.

(** The descriptors and settings of a run. *)
Record fsd_setup := {
  fu_fd : Z;
  fu_wfd : Z;
  fu_family : Z;
  fu_ifindex : Z;
  fu_interval : Z;
  fu_router : string;
}.

Definition wifi_dump_once (env : genl_env) (clks : nat -> clock) (u : fsd_setup) (s : fsd_state) : chk (option fsd_state) :=
  match fs_wifi s with
  | None => mret (Some s)
  | Some wifi =>
      if (fu_wfd u <? 0)%Z || (fu_family u <=? 0)%Z || (fu_ifindex u <=? 0)%Z then mret (Some s)
      else
        let '(rc, err, _) := nl80211_netlink_dump_stations env (fu_wfd u) (fu_family u) (fu_ifindex u) (Some (128, EmptyString)) in
        if negb (rc =? 0)%Z then mret (Some (complain s ("forensicsd: wifi dump: " +:+ err_text err)))
        else
          d ← dump_rounds clks 0 (fu_wfd u) (fu_router u) (fs_wqueue s) wifi;
          mret (option_map (fun '(lines, wifi, rest) =>
            {| fs_nfct := fs_nfct s; fs_wifi := Some wifi; fs_last := fs_last s; fs_stop := fs_stop s;
               fs_out := fs_out s ++ lines; fs_err := fs_err s; fs_queue := fs_queue s; fs_wqueue := rest |}) d)
  end.

(** ** The event loop *)
Inductive poll_answer := PollEintr | PollFailed | PollTimeout | PollReady (errhup pollin : bool).
(** One round: whether a signal has come before it, the clocks (before and after [poll], the
    station dump's, the conntrack loop's), [poll]'s answer, what arrives on the two sockets
    meanwhile, and [errno]'s text. *)
Record fd_round := {
  rd_stop : bool;
  rd_clk0 : clock;
  rd_poll : Z -> poll_answer;
  rd_clk1 : clock;
  rd_wclks : nat -> clock;
  rd_clks : nat -> clock;
  rd_recvs : list recv_result;
  rd_wrecvs : list recv_result;
  rd_strerror : string;
}.

Definition poll_timeout (u : fsd_setup) (s : fsd_state) (now : Z) : Z :=
  if (0 <=? fu_wfd u)%Z && (0 <? fu_interval u)%Z then
    let elapsed := u64 (now - fs_last s) in
    if (u64 (fu_interval u) <=? elapsed)%Z then 0%Z
    else let t := i32 (u64 (u64 (fu_interval u) - elapsed)) in if (1000 <? t)%Z then 1000%Z else t
  else 1000%Z.
Definition wifi_due (u : fsd_setup) (s : fsd_state) (now : Z) : bool :=
  (0 <=? fu_wfd u)%Z && (u64 (fu_interval u) <=? u64 (now - fs_last s))%Z.

(** Reading the conntrack socket until it has nothing more or fails. *)
Fixpoint recv_rounds (clks : nat -> clock) (strerror : string) (u : fsd_setup) (k : nat) (recvs : list recv_result)
    (s : fsd_state) : fsd_state :=
  let left rest s :=
    {| fs_nfct := fs_nfct s; fs_wifi := fs_wifi s; fs_last := fs_last s; fs_stop := fs_stop s; fs_out := fs_out s;
       fs_err := fs_err s; fs_queue := rest; fs_wqueue := fs_wqueue s |} in
  match recvs with
  | [] => left [] s
  | r :: rest =>
      let '(n, buf) := nfct_netlink_recv (fu_fd u) r WBUF_SIZE in
      if (n =? 0)%Z then left rest s
      else if (n <? 0)%Z then
        let s := complain (left rest s) ("forensicsd: recv: " +:+ strerror) in
        {| fs_nfct := fs_nfct s; fs_wifi := fs_wifi s; fs_last := fs_last s; fs_stop := true; fs_out := fs_out s;
           fs_err := fs_err s; fs_queue := fs_queue s; fs_wqueue := fs_wqueue s |}
      else
        let '(rc, c) := nfct_feed_input (fs_nfct s) buf in
        let s := if negb (rc =? 0)%Z then complain s "forensicsd: nfct_feed_input error" else s in
        let '(lines, c) := emit_nfct_events c (fu_router u) (now_ms (clks k)) in
        recv_rounds clks strerror u (S k) rest
          {| fs_nfct := c; fs_wifi := fs_wifi s; fs_last := fs_last s; fs_stop := fs_stop s; fs_out := fs_out s ++ lines;
             fs_err := fs_err s; fs_queue := fs_queue s; fs_wqueue := fs_wqueue s |}
  end.

(** The station dump when it is due, and its time. *)
Definition dump_phase (env : genl_env) (u : fsd_setup) (rd : fd_round) (s : fsd_state) : chk (option fsd_state) :=
  let now := now_ms (rd_clk1 rd) in
  if wifi_due u s now && match fs_wifi s with Some _ => true | None => false end then
    d ← wifi_dump_once env (rd_wclks rd) u s;
    mret (option_map (fun s =>
      {| fs_nfct := fs_nfct s; fs_wifi := fs_wifi s; fs_last := now; fs_stop := fs_stop s; fs_out := fs_out s;
         fs_err := fs_err s; fs_queue := fs_queue s; fs_wqueue := fs_wqueue s |}) d)
  else mret (Some s).
(** What [poll] reported on the conntrack socket; the flag is whether the loop is left. *)
Definition serve_nfct (u : fsd_setup) (rd : fd_round) (pr : poll_answer) (s : fsd_state) : fsd_state * bool :=
  match pr with
  | PollReady errhup pollin =>
      if errhup then (complain s "forensicsd: netlink hangup/error", true)
      else (if pollin then recv_rounds (rd_clks rd) (rd_strerror rd) u 0 (fs_queue s) s else s, false)
  | _ => (s, false)
  end.

(** One round after the test of the stop flag: the state, and whether the loop is left.
    [None] when the station dump does not end. *)
Definition run_round (env : genl_env) (u : fsd_setup) (rd : fd_round) (s : fsd_state) : chk (option (fsd_state * bool)) :=
  let s := {| fs_nfct := fs_nfct s; fs_wifi := fs_wifi s; fs_last := fs_last s; fs_stop := fs_stop s; fs_out := fs_out s;
              fs_err := fs_err s; fs_queue := fs_queue s ++ rd_recvs rd; fs_wqueue := fs_wqueue s ++ rd_wrecvs rd |} in
  let pr := rd_poll rd (poll_timeout u s (now_ms (rd_clk0 rd))) in
  match pr with
  | PollEintr => mret (Some (s, false))
  | PollFailed => mret (Some (complain s ("forensicsd: poll: " +:+ rd_strerror rd), true))
  | _ => d ← dump_phase env u rd s; mret (option_map (serve_nfct u rd pr) d)
  end.

(** The rounds, as long as nothing stops the loop; the flag is whether it was left. *)
Fixpoint netlink_loop (env : genl_env) (u : fsd_setup) (rounds : list fd_round) (s : fsd_state)
    : chk (option (fsd_state * bool)) :=
  match rounds with
  | [] => mret (Some (s, false))
  | rd :: rest =>
      if fs_stop s || rd_stop rd then mret (Some (s, true))
      else
        r ← run_round env u rd s;
        match r with
        | None => mret None
        | Some (s, true) => mret (Some (s, true))
        | Some (s, false) => netlink_loop env u rest s
        end
  end.

(** ** [run_netlink] *)
Record fsd_env := {
  fe_nfct : nfct_env;
  fe_getfl : Z;
  fe_setfl : Z;
  fe_genl : genl_env;
  fe_strerror : string;
  fe_clk : clock;
}.

(** The Wi-Fi part of the start: the setup, the parser, the messages, the sockets opened and
    closed. *)
Definition open_wifi (env : fsd_env) (u : fsd_setup) (err : errbuf) (wifi_if : option string) (interval : Z)
    : chk (fsd_setup * option W * list string * list Z * list Z) :=
  let off := mret (u, None, [], [], []) in
  match wifi_if with
  | None => off
  | Some name =>
      if negb (nonempty name) then off
      else
        let ifindex := nf_if_nametoindex (fe_genl env) wifi_if in
        if (ifindex <? 0)%Z then mret (u, None, ["forensicsd: wifi if " +:+ name +:+ " not found (continuing without)"], [], [])
        else
          let opened := if (0 <=? ge_socket (fe_genl env))%Z then [ge_socket (fe_genl env)] else [] in
          r ← nl80211_netlink_open (fe_genl env) err;
          let '(wfd, family, err, _, closed) := r in
          if (wfd <? 0)%Z
          then mret (u, None, ["forensicsd: nl80211 open: " +:+ err_text err +:+ " (continuing without)"], opened, closed)
          else
            match nl80211_parse_create with
            | None => mret (u, None, [], opened, closed ++ nl80211_netlink_close wfd)
            | Some wifi =>
                let interval := if (interval <=? 0)%Z then 5000%Z else interval in
                mret ({| fu_fd := fu_fd u; fu_wfd := wfd; fu_family := family; fu_ifindex := ifindex;
                         fu_interval := interval; fu_router := fu_router u |}, Some wifi,
                      ["forensicsd: wifi station dump if=" +:+ name +:+ " ifindex=" +:+ fmt_d ifindex +:+
                       " interval_ms=" +:+ fmt_d interval], opened, closed)
            end
  end.

(** The result, or [None] when a station dump never ends. *)
Definition run_netlink (env : fsd_env) (rounds : list fd_round) (router : string) (join_update : Z)
    (wifi_if : option string) (interval : Z) : chk (option fsd_result) :=
  match nfct_create with
  | None => mret (Some {| fr_exit := Some 1%Z; fr_out := []; fr_err := ["forensicsd: nfct_create failed"%string];
                          fr_opened := []; fr_closed := [] |})
  | Some c =>
      let o := nfct_netlink_open (fe_nfct env) join_update (Some (256, EmptyString)) in
      let opened := if (0 <=? ct_socket (fe_nfct env))%Z then [ct_socket (fe_nfct env)] else [] in
      let closed := if co_closed o then [ct_socket (fe_nfct env)] else [] in
      let fd := co_fd o in
      if (fd <? 0)%Z then
        mret (Some {| fr_exit := Some 1%Z; fr_out := [];
                      fr_err := ["forensicsd: netlink open failed: " +:+ err_text (co_err o);
                                 "hint: run as root or with CAP_NET_ADMIN; ensure nf_conntrack_events=1"%string];
                      fr_opened := opened; fr_closed := closed |})
      else if negb (nfct_netlink_set_nonblock (fe_getfl env) (fe_setfl env) fd =? 0)%Z then
        mret (Some {| fr_exit := Some 1%Z; fr_out := []; fr_err := ["forensicsd: set nonblock: " +:+ fe_strerror env];
                      fr_opened := opened; fr_closed := closed ++ nfct_netlink_close fd |})
      else
        let u := {| fu_fd := fd; fu_wfd := (-1)%Z; fu_family := 0; fu_ifindex := (-1)%Z; fu_interval := interval;
                    fu_router := router |} in
        ow ← open_wifi env u (co_err o) wifi_if interval;
        let '(u, wifi, msgs, wopened, wclosed) := ow in
        let s := {| fs_nfct := c; fs_wifi := wifi; fs_last := now_ms (fe_clk env); fs_stop := false; fs_out := [];
                    fs_err := msgs ++ ["forensicsd: netlink conntrack listening (router_id=" +:+ router +:+ " groups=NEW" +:+
                              (if truthy join_update then ",UPDATE," else ",") +:+ "DESTROY)"];
                    fs_queue := []; fs_wqueue := [] |} in
        r ← netlink_loop (fe_genl env) u rounds s;
        mret (option_map (fun '(s, ended) =>
          if (ended : bool) then
            {| fr_exit := Some 0%Z; fr_out := fs_out s; fr_err := fs_err s ++ ["forensicsd: netlink shutdown"%string];
               fr_opened := opened ++ wopened;
               fr_closed := closed ++ wclosed ++ nl80211_netlink_close (fu_wfd u) ++ nfct_netlink_close fd |}
          else {| fr_exit := None; fr_out := fs_out s; fr_err := fs_err s; fr_opened := opened ++ wopened;
                  fr_closed := closed ++ wclosed |}) r)
  end.

(** ** The command line *)
Record fsd_args := { fa_router : string; fa_wifi_if : option string; fa_netlink : bool; fa_update : Z; fa_interval : Z }.
Definition fsd_defaults : fsd_args := {|
  fa_router := "cpe-demo-001"; fa_wifi_if := None; fa_netlink := false; fa_update := 0; fa_interval := 5000 |}.
Definition usage (argv0 : string) : list string :=
  ["Usage: " +:+ argv0 +:+ " [--demo|--netlink] [--router-id ID] [--update]";
   "          [--wifi-if IFACE] [--wifi-interval-ms N]";
   "  --demo        synthetic frames to stdout (default)";
   "  --netlink     live NETLINK_NETFILTER conntrack events";
   "  --router-id   CPE identifier string (default cpe-demo-001)";
   "  --update      also join NFNLGRP_CONNTRACK_UPDATE";
   "  --wifi-if     periodic nl80211 station dump on IFACE";
   "  --wifi-interval-ms  dump period (default 5000)"]%string.

(** The options, or the exit code and what is printed before it. *)
Fixpoint parse_args (argv0 : string) (argv : list string) (a : fsd_args) : fsd_args + Z * list string :=
  match argv with
  | [] => inl a
  | x :: rest =>
      if streq x "--help" || streq x "-h" then inr (0%Z, usage argv0)
      else if streq x "--demo" then
        parse_args argv0 rest {| fa_router := fa_router a; fa_wifi_if := fa_wifi_if a; fa_netlink := false;
                                 fa_update := fa_update a; fa_interval := fa_interval a |}
      else if streq x "--netlink" then
        parse_args argv0 rest {| fa_router := fa_router a; fa_wifi_if := fa_wifi_if a; fa_netlink := true;
                                 fa_update := fa_update a; fa_interval := fa_interval a |}
      else if streq x "--update" then
        parse_args argv0 rest {| fa_router := fa_router a; fa_wifi_if := fa_wifi_if a; fa_netlink := fa_netlink a;
                                 fa_update := 1; fa_interval := fa_interval a |}
      else
        let unknown := inr (2%Z, ("unknown arg: " +:+ x) :: usage argv0) in
        match rest with
        | v :: rest' =>
            if streq x "--router-id" then
              parse_args argv0 rest' {| fa_router := v; fa_wifi_if := fa_wifi_if a; fa_netlink := fa_netlink a;
                                        fa_update := fa_update a; fa_interval := fa_interval a |}
            else if streq x "--wifi-if" then
              parse_args argv0 rest' {| fa_router := fa_router a; fa_wifi_if := Some v; fa_netlink := fa_netlink a;
                                        fa_update := fa_update a; fa_interval := fa_interval a |}
            else if streq x "--wifi-interval-ms" then
              parse_args argv0 rest' {| fa_router := fa_router a; fa_wifi_if := fa_wifi_if a; fa_netlink := fa_netlink a;
                                        fa_update := fa_update a; fa_interval := atoi w v |}
            else unknown
        | [] => unknown
        end
  end.

Definition forensicsd_main (env : fsd_env) (clks : nat -> clock) (rounds : list fd_round) (argv0 : string) (argv : list string)
    : chk (option fsd_result) :=
  match parse_args argv0 argv fsd_defaults with
  | inr (rc, msgs) => mret (Some {| fr_exit := Some rc; fr_out := []; fr_err := msgs; fr_opened := []; fr_closed := [] |})
  | inl a =>
      if fa_netlink a then run_netlink env rounds (fa_router a) (fa_update a) (fa_wifi_if a) (fa_interval a)
      else mret (Some (run_demo clks (fa_router a)))
  end.
End forensicsd.

(** ** The end of a station dump *)
Section scan.
Context (w : Z).

(** A message of type [NLMSG_DONE]; the payload starts with the type. *)
Definition is_done (p : list Z) : bool :=
  match p with b0 :: b1 :: _ => (le_word16 b0 b1 =? 3)%Z | _ => false end.

Lemma done_scan_frames l pre fuel done :
  (32 <= w)%Z -> Forall frame_ok l -> (Z.of_nat (length (pre ++ frames l)) < 2147483648)%Z -> length l < fuel ->
  done_scan w fuel (pre ++ frames l) (Z.of_nat (length pre)) done = Safe (Some (done || existsb is_done l)).
Proof.
  intros Hw Hok. revert pre fuel done. induction Hok as [|p l Hp Hok IH];
    intros pre [|fuel] done Hlen Hf; try (simpl in Hf; lia); cbn [done_scan].
  { change (frames []) with (@nil Z) in *. rewrite app_nil_r in *.
    rewrite size_small by lia. rewrite (proj2 (Z.leb_gt _ _)) by lia. by rewrite orb_false_r. }
  unfold frame_ok in Hp. set (n := Z.of_nat (4 + length p)).
  assert (Hcons : pre ++ frames (p :: l) = (pre ++ padded (frame p)) ++ frames l)
    by (unfold frames; cbn [fmap list_fmap]; by rewrite <- app_assoc).
  assert (Hpf : padded (frame p) = le_bytes32 n ++ p ++ pad4 (length (frame p)))
    by (unfold padded, frame at 1; by rewrite <- app_assoc).
  pose proof (length_padded_frame p) as Hal. fold n in Hal.
  pose proof (align4_spec n ltac:(lia)) as [Hn _].
  rewrite Hcons in Hlen |- *. rewrite !length_app in Hlen.
  assert (Hsize : (Z.of_nat (length ((pre ++ padded (frame p)) ++ frames l)) =
    Z.of_nat (length pre) + align4 n + Z.of_nat (length (frames l)))%Z) by (rewrite !length_app; lia).
  rewrite Hsize. rewrite (size_small w (Z.of_nat (length pre) + 16)) by lia.
  rewrite (proj2 (Z.leb_le _ _)) by lia.
  assert (Hrd : rd32 ((pre ++ padded (frame p)) ++ frames l) (Z.to_nat (Z.of_nat (length pre))) = Safe n).
  { rewrite Nat2Z.id, <- app_assoc, <- (Nat.add_0_r (length pre)), rd32_skip, Hpf, <- app_assoc.
    cbn. f_equal. apply le_bytes32_word. word_lia. }
  destruct p as [|b0 [|b1 p]]; [simpl in Hp; lia..|].
  assert (Hty : rd16 ((pre ++ padded (frame (b0 :: b1 :: p))) ++ frames l) (Z.to_nat (Z.of_nat (length pre)) + 4) =
    Safe (le_word16 b0 b1)).
  { rewrite Nat2Z.id, <- app_assoc, rd16_skip, Hpf, <- app_assoc. reflexivity. }
  rewrite Hrd. chk_step. rewrite Hty. chk_step. rewrite (size_small w (Z.of_nat (length pre) + n)) by lia.
  rewrite (proj2 (Z.ltb_ge _ _)) by lia. rewrite (proj2 (Z.ltb_ge _ _)) by lia. cbn [orb].
  rewrite align_u32 by lia. rewrite (size_small w (Z.of_nat (length pre) + align4 n)) by lia.
  replace (Z.of_nat (length pre) + align4 n)%Z with (Z.of_nat (length (pre ++ padded (frame (b0 :: b1 :: p)))))
    by (rewrite length_app; lia).
  rewrite IH; [|rewrite !length_app; lia|simpl in Hf; lia]. cbn [existsb is_done]. by rewrite orb_assoc.
Qed.

(** On a target where [size_t] is wider than the length field the scan of any datagram ends,
    and within it. *)
Lemma done_scan_ends fuel buf off done :
  (33 <= w)%Z -> bytes buf -> (Z.of_nat (length buf) < 2147483648)%Z -> (0 <= off < 4294967296)%Z ->
  (Z.of_nat (length buf) < Z.of_nat fuel + off)%Z -> 0 < fuel ->
  exists b, done_scan w fuel buf off done = Safe (Some b).
Proof.
  intros Hw Hb Hlen. revert off done. induction fuel as [|fuel IH]; intros off done Hoff Hf Hp; [lia|]. cbn [done_scan].
  assert (Hsz : forall z, (0 <= z < 8589934592)%Z -> size_w w z = z).
  { intros z Hz. apply Z.mod_small. split; [lia|]. apply Z.lt_le_trans with (2 ^ 33)%Z; [exact (proj2 Hz)|].
    apply Z.pow_le_mono_r; lia. }
  rewrite Hsz by lia. destruct (Z.leb_spec (off + 16) (Z.of_nat (length buf))); [|by eexists].
  assert (Hn : exists n, rd32 buf (Z.to_nat off) = Safe n /\ in_u32 n).
  { unfold rd32. do 4 (step_rd; [lia|]). eexists. split; [reflexivity|].
    apply le_word32_range; eapply rd_byte; eauto. }
  destruct Hn as (n & -> & Hn). chk_step. destruct (rd16_ok buf (Z.to_nat off + 4)) as [ty ->]; [lia|]. chk_step.
  unfold in_u32 in Hn. rewrite Hsz by lia. destruct (_ || _) eqn:E; [by eexists|]. apply orb_false_iff in E as [E1 E2].
  apply Z.ltb_ge in E1, E2. rewrite align_u32 by lia. pose proof (align4_spec n ltac:(lia)) as [Ha _].
  rewrite Hsz by lia. apply IH; lia.
Qed.
End scan.

(** On a 32-bit target a second message of length 2^32 - 16 sends the scan back to the first
    one, for ever. *)
Lemma done_scan_spins fuel hdr rest seen :
  length hdr = 12 -> 12 <= length rest -> (Z.of_nat (length rest) < 2147483648)%Z ->
  let buf := le_bytes32 16 ++ hdr ++ le_bytes32 4294967280 ++ rest in
  done_scan 32 fuel buf 0 seen = Safe None /\ done_scan 32 fuel buf 16 seen = Safe None.
Proof.
  intros Hh Hr Hrl buf. assert (Hl : length buf = 20 + length rest)
    by (subst buf; rewrite !length_app, Hh; simpl; lia).
  assert (Hbuf : buf = frame hdr ++ le_bytes32 4294967280 ++ rest)
    by (unfold frame; rewrite Hh; subst buf; by rewrite <- app_assoc).
  revert seen. induction fuel as [|fuel IH]; intros seen; [done|]. cbn [done_scan]. rewrite Hl.
  change (size_w 32 (0 + 16)) with 16%Z. change (size_w 32 (16 + 16)) with 32%Z.
  rewrite !(proj2 (Z.leb_le _ _)) by lia. split.
  - assert (H1 : rd32 buf (Z.to_nat 0) = Safe 16%Z) by (subst buf; reflexivity). rewrite H1. chk_step.
    destruct (rd16_ok buf (Z.to_nat 0 + 4)) as [ty ->]; [rewrite Hl; simpl; lia|]. chk_step.
    change (size_w 32 (0 + 16)) with 16%Z. rewrite (proj2 (Z.ltb_ge (Z.of_nat _) _)) by lia.
    change (16 <? 16)%Z with false. cbn [orb]. apply IH.
  - assert (H2 : rd32 buf (Z.to_nat 16) = Safe 4294967280%Z).
    { rewrite Hbuf. change (Z.to_nat 16) with (4 + 12 + 0). rewrite <- Hh, <- (length_frame hdr).
      rewrite rd32_skip. reflexivity. }
    rewrite H2. chk_step. destruct (rd16_ok buf (Z.to_nat 16 + 4)) as [ty ->]; [rewrite Hl; simpl; lia|]. chk_step.
    change (size_w 32 (16 + 4294967280)) with 0%Z. rewrite (proj2 (Z.ltb_ge (Z.of_nat _) 0)) by lia.
    change (4294967280 <? 16)%Z with false. cbn [orb]. apply IH.
Qed.

(** ** The daemon *)
Section daemon.
Context {C : Type} `{!NfctLib C} `{!EventSource C nfct_event} {W : Type} `{!WifiLib W} `{!EventSource W nl80211_event}
  {R : Type} `{!NfLib R} `{!EventText}.
Local Abbreviation state := (fsd_state (C := C) (W := W)).

(** The lines for datagrams fed one after the other. *)
Fixpoint report_stations (clks : nat -> clock) (k : nat) (router : string) (ds : list (list Z)) (wifi : W) : list string * W :=
  match ds with
  | [] => ([], wifi)
  | d :: ds =>
      let '(_, wifi) := nl80211_parse_feed_input wifi d in
      let '(lines, wifi) := emit_wifi_events wifi router (now_ms (clks k)) in
      let '(more, wifi) := report_stations clks (S k) router ds wifi in (lines ++ more, wifi)
  end.

(** A datagram of messages as the kernel pads them, that the buffer holds. *)
Definition datagram_of (l : list (list Z)) : Prop := Forall frame_ok l /\ l <> [] /\ length (frames l) <= WBUF_SIZE.

Lemma recv_frames wfd l : (0 <= wfd)%Z -> datagram_of l ->
  nl80211_netlink_recv wfd (RecvData (frames l)) WBUF_SIZE = (Z.of_nat (length (frames l)), frames l) /\ 0 < length (frames l).
Proof.
  intros Hfd (_ & Hne & Hlen). unfold nl80211_netlink_recv. rewrite (proj2 (Z.ltb_ge _ _)) by done.
  pose proof (frames_length l). assert (0 < length l) by (destruct l; [done|simpl; lia]).
  assert ((WBUF_SIZE =? 0) = false) as -> by (apply Nat.eqb_neq; lia). cbn [orb]. rewrite take_ge by done. split; [done|lia].
Qed.
Lemma scan_frames w l : (32 <= w)%Z -> datagram_of l ->
  done_scan w (S (length (frames l))) (frames l) 0 false = Safe (Some (existsb is_done l)).
Proof.
  intros Hw (Hok & _ & Hlen). pose proof (frames_length l).
  apply (done_scan_frames w l [] _ false); [done|done| |lia]. cbn [app].
  assert (Z.of_nat WBUF_SIZE < 2147483648)%Z by reflexivity. lia.
Qed.

(** a station dump reads the datagrams of its reply up to and including the first that
    holds an end-of-dump message, feeds each to the parser whole and in order, and prints the
    lines of all the stations they report before it stops; what arrives behind it stays in
    the socket.  On 32- and 64-bit targets alike. *)
Theorem wifi_dump_reads_to_end w clks wfd router ls last rest wifi k :
  (32 <= w)%Z -> (0 <= wfd)%Z ->
  Forall (fun l => datagram_of l /\ existsb is_done l = false) ls -> datagram_of last -> existsb is_done last = true ->
  dump_rounds w clks k wfd router (((fun l => RecvData (frames l)) <$> ls) ++ RecvData (frames last) :: rest) wifi =
  Safe (Some (let '(lines, wifi) := report_stations clks k router (frames <$> (ls ++ [last])) wifi in (lines, wifi, rest))).
Proof.
  intros Hw Hfd Hls Hlast Hdone. revert k wifi. induction Hls as [|l ls [Hl Hnd] _ IH]; intros k wifi.
  - cbn [fmap list_fmap app dump_rounds report_stations]. destruct (recv_frames wfd last Hfd Hlast) as [-> Hpos].
    rewrite (proj2 (Z.leb_gt _ _)) by lia. destruct (nl80211_parse_feed_input wifi (frames last)) as [rc wifi1].
    destruct (emit_wifi_events wifi1 router (now_ms (clks k))) as [lines wifi2].
    rewrite scan_frames, Hdone by done. chk_step. by rewrite app_nil_r.
  - change (frames <$> ((l :: ls) ++ [last])) with (frames l :: (frames <$> (ls ++ [last]))).
    rewrite fmap_cons, <- app_comm_cons. cbn [dump_rounds report_stations].
    destruct (recv_frames wfd l Hfd Hl) as [-> Hpos].
    rewrite (proj2 (Z.leb_gt _ _)) by lia. destruct (nl80211_parse_feed_input wifi (frames l)) as [rc wifi1].
    destruct (emit_wifi_events wifi1 router (now_ms (clks k))) as [lines wifi2].
    rewrite scan_frames, Hnd by done. chk_step. rewrite IH. chk_step.
    by destruct (report_stations clks (S k) router (frames <$> (ls ++ [last])) wifi2) as [more wifi3].
Qed.

(** ** Running *)
Lemma dump_rounds_end w clks k wfd router recvs wifi :
  (33 <= w)%Z -> Forall recv_bytes recvs ->
  exists lines wifi' rest, dump_rounds w clks k wfd router recvs wifi = Safe (Some (lines, wifi', rest)) /\ Forall recv_bytes rest.
Proof.
  intros Hw Hr. revert k wifi. induction Hr as [|r rest Hr Hrest IH]; intros k wifi; [by eexists _, _, _|].
  cbn [dump_rounds]. destruct (nl80211_netlink_recv wfd r WBUF_SIZE) as [n buf] eqn:En.
  destruct (Z.leb_spec n 0); [by eexists _, _, _|].
  assert (Hbuf : bytes buf /\ length buf <= WBUF_SIZE).
  { unfold nl80211_netlink_recv in En. destruct (_ || _); [injection En as <- <-; lia|].
    destruct r; injection En as <- <-; try lia. rewrite length_take. split; [by apply Forall_take|lia]. }
  destruct Hbuf as [Hb Hl]. destruct (nl80211_parse_feed_input wifi buf) as [rc wifi1].
  destruct (emit_wifi_events wifi1 router (now_ms (clks k))) as [lines wifi2].
  assert (Z.of_nat WBUF_SIZE < 2147483648)%Z by reflexivity.
  destruct (done_scan_ends w (S (length buf)) buf 0 false Hw Hb) as [b ->]; [lia..|]. chk_step.
  destruct b; [by eexists _, _, _|]. destruct (IH (S k) wifi2) as (l2 & w2 & r2 & -> & H2). chk_step. by eexists _, _, _.
Qed.

Definition round_ok (rd : fd_round) : Prop := Forall recv_bytes (rd_wrecvs rd).
Definition state_ok (s : state) : Prop := Forall recv_bytes (fs_wqueue s).

(** The two outcomes of opening the event socket. *)
Lemma nfct_open_cases env join_update err :
  let o := nfct_netlink_open env join_update err in
  (co_fd o = ct_socket env /\ (0 <= ct_socket env)%Z /\ co_closed o = false) \/
  (co_fd o = (-1)%Z /\ co_closed o = (0 <=? ct_socket env)%Z).
Proof.
  cbv zeta. unfold nfct_netlink_open. destruct (Z.ltb_spec (ct_socket env) 0), (Z.leb_spec 0 (ct_socket env)); try lia; [by right|].
  destruct (negb _); [by right|]. destruct (join_groups _ _); [by right|by left].
Qed.
Lemma recv_rounds_wqueue clks strerror u k recvs (s : state) : fs_wqueue (recv_rounds clks strerror u k recvs s) = fs_wqueue s.
Proof.
  revert k s. induction recvs as [|r rest IH]; intros k s; [done|]. cbn [recv_rounds]. cbv zeta.
  destruct (nfct_netlink_recv _ _ _) as [n buf]. destruct (n =? 0)%Z; [done|]. destruct (n <? 0)%Z; [done|].
  destruct (nfct_feed_input _ _) as [rc c]. destruct (emit_nfct_events _ _ _) as [lines c']. rewrite IH. by destruct (negb _).
Qed.
Lemma dump_phase_ends w env u rd (s : state) :
  (33 <= w)%Z -> state_ok s -> exists s', dump_phase w env u rd s = Safe (Some s') /\ state_ok s'.
Proof.
  intros Hw Hs. unfold dump_phase, wifi_dump_once. destruct (_ && _); [|by eexists].
  destruct (fs_wifi s) as [wifi|]; [|by eexists]. destruct (_ || _); [by eexists|].
  destruct (nl80211_netlink_dump_stations _ _ _ _ _) as [[rc err] sent]. destruct (negb _); [by eexists|].
  destruct (dump_rounds_end w (rd_wclks rd) 0 (fu_wfd u) (fu_router u) (fs_wqueue s) wifi Hw Hs)
    as (lines & wifi' & rest & -> & Hrest). chk_step. by eexists.
Qed.
Lemma serve_nfct_ok u rd pr (s : state) : state_ok s -> state_ok (serve_nfct u rd pr s).1.
Proof.
  intros Hs. unfold serve_nfct. destruct pr as [| | |[] []]; try exact Hs. unfold state_ok. cbn [fst]. by rewrite recv_rounds_wqueue.
Qed.
Lemma run_round_ends w env u rd (s : state) :
  (33 <= w)%Z -> round_ok rd -> state_ok s ->
  exists s' b, run_round w env u rd s = Safe (Some (s', b)) /\ state_ok s'.
Proof.
  intros Hw Hrd Hs. unfold run_round. set (s1 := {| fs_nfct := fs_nfct s |}). cbv zeta.
  assert (Hs1 : state_ok s1) by (apply Forall_app; by split).
  destruct (dump_phase_ends w env u rd s1 Hw Hs1) as (s2 & Hd & Hs2).
  set (pr := rd_poll rd _). pose proof (serve_nfct_ok u rd pr s2 Hs2) as H3.
  destruct (serve_nfct u rd pr s2) as [s3 b] eqn:E3.
  destruct pr as [| | |e i]; [by exists s1, false|eexists _, true; by split|..];
    rewrite Hd; chk_step; cbn [option_map]; rewrite E3; by exists s3, b.
Qed.
Lemma netlink_loop_ends w env u rounds (s : state) :
  (33 <= w)%Z -> Forall round_ok rounds -> state_ok s -> exists s' b, netlink_loop w env u rounds s = Safe (Some (s', b)).
Proof.
  intros Hw Hr. revert s. induction Hr as [|rd rounds Hrd _ IH]; intros s Hs; cbn [netlink_loop]; [by eexists _, _|].
  destruct (_ || _); [by eexists _, _|]. destruct (run_round_ends w env u rd s Hw Hrd Hs) as (s' & b & -> & Hs'). chk_step.
  destruct b; [by eexists _, _|]. by apply IH.
Qed.

(** Between two dumps nothing is read from the Wi-Fi socket, although it is polled: what has
    arrived there (the acknowledgement of the family request at first) stays. *)
Lemma wifi_socket_unread w env u rd s s' b :
  wifi_due u s (now_ms (rd_clk1 rd)) = false -> run_round w env u rd s = Safe (Some (s', b)) ->
  fs_wqueue s' = fs_wqueue s ++ rd_wrecvs rd.
Proof.
  unfold run_round, dump_phase. intros Hdue. set (s1 := {| fs_nfct := fs_nfct s |}). cbv zeta.
  change (wifi_due u s1 (now_ms (rd_clk1 rd))) with (wifi_due u s (now_ms (rd_clk1 rd))). rewrite Hdue. cbn [andb].
  set (pr := rd_poll rd _).
  assert (Hserve : serve_nfct u rd pr s1 = (s', b) -> fs_wqueue s' = fs_wqueue s ++ rd_wrecvs rd).
  { unfold serve_nfct. destruct pr as [| | |[] []]; intros [= <- _]; try done. by rewrite recv_rounds_wqueue. }
  assert (Hinj : forall x y : state * bool, Safe (Some x) = Safe (Some y) -> x = y).
  { intros x y Hxy. by injection Hxy. }
  destruct pr as [| | |e i]; chk_step; cbn [option_map]; intros Hr; [by injection Hr as <- _|by injection Hr as <- _|..];
    apply Hserve, Hinj, Hr.
Qed.

(** The wait never passes the next dump, nor a second. *)
Lemma poll_timeout_bound u (s : state) now :
  (fu_interval u < 2147483648)%Z ->
  (0 <= poll_timeout u s now <= 1000)%Z /\
  ((0 <= fu_wfd u)%Z -> (0 < fu_interval u)%Z ->
     wifi_due u s now = true /\ poll_timeout u s now = 0%Z \/
     (u64 (now - fs_last s) + poll_timeout u s now <= fu_interval u)%Z).
Proof.
  intros Hi. unfold poll_timeout, wifi_due. destruct (Z.leb_spec 0 (fu_wfd u)); cbn [andb]; [|split; [lia|lia]].
  destruct (Z.ltb_spec 0 (fu_interval u)); [|split; [lia|lia]].
  pose proof (u64_range (now - fs_last s)) as He. unfold in_u64 in He. rewrite u64_id by (unfold in_u64; lia).
  destruct (Z.leb_spec (fu_interval u) (u64 (now - fs_last s))); [split; [lia|]; by left|].
  rewrite u64_id by (unfold in_u64; lia). assert (Hid : forall z, (0 <= z < 2147483648)%Z -> i32 z = z)
    by (intros z Hz; unfold i32; rewrite Z.mod_small; lia).
  rewrite Hid by lia. destruct (Z.ltb_spec 1000 (fu_interval u - u64 (now - fs_last s))); split; lia.
Qed.

(** The start of the Wi-Fi part: the sockets it has opened and not closed are the setup's. *)
Definition wifi_opened (u : fsd_setup) (r : fsd_setup * option W * list string * list Z * list Z) : Prop :=
  let '(u', _, _, opened, closed) := r in fu_fd u' = fu_fd u /\ closed ++ nl80211_netlink_close (fu_wfd u') = opened.
Lemma open_wifi_ok env u err wifi_if interval :
  fu_wfd u = (-1)%Z -> safe_with (wifi_opened u) (open_wifi env u err wifi_if interval).
Proof.
  intros Hu. unfold open_wifi. cbv zeta.
  assert (Hoff : forall msgs, safe_with (wifi_opened u) (mret (u, None, msgs, [], []))).
  { intros msgs. apply safe_ret. unfold wifi_opened. rewrite Hu. by split. }
  destruct wifi_if as [name|]; [|apply Hoff]. destruct (negb _); [apply Hoff|]. destruct (_ <? 0)%Z; [apply Hoff|].
  pose proof (open_safe (fe_genl env) err) as Hopen. eapply safe_bind; [exact Hopen|].
  intros [[[[wfd family] err1] sent] closed] [(-> & Hpos & ->)|(-> & -> & ->)].
  - rewrite (proj2 (Z.ltb_ge _ _) Hpos), (proj2 (Z.leb_le _ _) Hpos).
    assert (Hclose : nl80211_netlink_close (ge_socket (fe_genl env)) = [ge_socket (fe_genl env)])
      by (unfold nl80211_netlink_close; by rewrite (proj2 (Z.leb_le _ _))).
    destruct nl80211_parse_create; apply safe_ret; unfold wifi_opened; cbn [fu_fd fu_wfd]; rewrite ?Hu, Hclose; by split.
  - change (-1 <? 0)%Z with true. apply safe_ret. unfold wifi_opened. rewrite Hu. split; [done|].
    change (nl80211_netlink_close (-1)) with (@nil Z). rewrite app_nil_r.
    destruct (Z.ltb_spec (ge_socket (fe_genl env)) 0), (Z.leb_spec 0 (ge_socket (fe_genl env))); (done || lia).
Qed.

(** C16: the daemon, whatever the kernel, the libraries and the clock answer on a 64-bit
    target: every round ends, nothing is read outside a received datagram, and when it
    exits - with 0 after the event loop, with 1 when it could not start - every socket it
    opened has been closed exactly once. *)
Theorem forensicsd_closes w env rounds router join_update wifi_if interval :
  (33 <= w)%Z -> Forall round_ok rounds ->
  exists r, run_netlink (C := C) (W := W) w env rounds router join_update wifi_if interval = Safe (Some r) /\
    (forall rc, fr_exit r = Some rc -> (rc = 0 \/ rc = 1)%Z /\ fr_closed r ≡ₚ fr_opened r).
Proof.
  intros Hw Hr. unfold run_netlink. destruct nfct_create as [c|]; [|eexists; split; [done|]; intros rc [= <-]; auto].
  cbv zeta. pose proof (nfct_open_cases (fe_nfct env) join_update (Some (256, EmptyString))) as Hopen.
  set (o := nfct_netlink_open _ _ _) in *.
  destruct Hopen as [(Hfd & Hpos & Hc)|(Hfd & Hc)].
  - rewrite Hc, Hfd, (proj2 (Z.ltb_ge _ _) Hpos), (proj2 (Z.leb_le _ _) Hpos).
    assert (Hclose : nfct_netlink_close (ct_socket (fe_nfct env)) = [ct_socket (fe_nfct env)])
      by (unfold nfct_netlink_close; by rewrite (proj2 (Z.leb_le _ _))).
    rewrite Hclose. destruct (negb _); [eexists; split; [done|]; intros rc [= <-]; auto|].
    set (u0 := {| fu_fd := _; fu_wfd := (-1)%Z; fu_family := _ |}).
    destruct (open_wifi_ok env u0 (co_err o) wifi_if interval eq_refl)
      as ([[[[u wifi] msgs] wopened] wclosed] & -> & Hu & Hw2). chk_step.
    set (s0 := {| fs_nfct := c; fs_wifi := wifi |}).
    destruct (netlink_loop_ends w (fe_genl env) u rounds s0 Hw Hr ltac:(apply Forall_nil_2)) as (s' & b & ->).
    chk_step. cbn [option_map]. destruct b; (eexists; split; [done|]); [|done]. intros rc [= <-]. split; [by left|].
    cbn [fr_opened fr_closed]. rewrite <- Hw2. cbn [app]. rewrite app_assoc, Permutation_app_comm. done.
  - rewrite Hc, Hfd. change (-1 <? 0)%Z with true. cbv iota. eexists. split; [done|]. intros rc [= <-].
    split; [by right|]. cbn [fr_opened fr_closed]. by destruct (0 <=? _)%Z.
Qed.
End daemon.

(** ** Instances *)
#[local] Existing Instances toy_source toy_lib fixed_lib toy_wifi toy_wifi_events.
#[local] Instance toy_text : EventText := {|
  nfct_event_to_string := fun _ _ => "event"%string; nl80211_event_to_string := fun _ _ => "event"%string |}.
Local Abbreviation wifi_parser := (list nl80211_event).

Definition station_msg : list Z := [28; 0; 2; 0]%Z ++ replicate 12 7%Z.
Definition done_msg : list Z := [3; 0; 2; 0]%Z ++ replicate 12 0%Z.
Definition at_ms (ms : Z) : clock := {| clk_realtime := Some (ms / 1000, ms mod 1000 * 1000000)%Z; clk_monotonic := None |}.

Lemma wifi_dump_reads_to_end_witness :
  dump_rounds (W := wifi_parser) 64 (fun _ => at_ms 7000) 0 5 "cpe-1"
    [RecvData (frames [station_msg]); RecvData (frames [station_msg; done_msg]); RecvAgain] [] =
  Safe (Some (let '(lines, wifi) := report_stations (fun _ => at_ms 7000) 0 "cpe-1"
                (frames <$> [[station_msg]; [station_msg; done_msg]]) [] in (lines, wifi, [RecvAgain]))).
Proof.
  apply (wifi_dump_reads_to_end 64 (fun _ => at_ms 7000) 5 "cpe-1" [[station_msg]] [station_msg; done_msg] [RecvAgain] [] 0);
    [lia|lia| | |reflexivity].
  - apply Forall_cons. split; [|by apply Forall_nil]. split; [|reflexivity].
    split_and!; [apply Forall_cons; split; [unfold frame_ok; simpl; lia|by apply Forall_nil]|done|unfold WBUF_SIZE; simpl; lia].
  - split_and!; [|done|unfold WBUF_SIZE; simpl; lia].
    apply Forall_cons. split; [unfold frame_ok; simpl; lia|]. apply Forall_cons. split; [unfold frame_ok; simpl; lia|by apply Forall_nil].
Defined.

(** A start with Wi-Fi, a dump that is due in the first round, a signal before the second. *)
Definition demo_fsd : fsd_env := {|
  fe_nfct := ct_env_ok; fe_getfl := 2; fe_setfl := 0; fe_genl := genl_answers kernel_reply; fe_strerror := EmptyString;
  fe_clk := at_ms 0 |}.
Definition demo_round (stop : bool) : fd_round := {|
  rd_stop := stop; rd_clk0 := at_ms 6000; rd_poll := fun _ => PollReady false true; rd_clk1 := at_ms 6001;
  rd_wclks := fun _ => at_ms 6002; rd_clks := fun _ => at_ms 6003; rd_recvs := [RecvData [1; 2]%Z; RecvAgain];
  rd_wrecvs := [RecvData (frames [station_msg; done_msg])]; rd_strerror := EmptyString |}.
Definition demo_rounds : list fd_round := [demo_round false; demo_round true].
Lemma demo_rounds_ok : Forall round_ok demo_rounds.
Proof.
  assert (bytes (frames [station_msg; done_msg])) as Hb by (repeat constructor; done).
  unfold demo_rounds. apply Forall_cons; split; [|apply Forall_cons; split; [|by apply Forall_nil]];
    apply Forall_cons; (split; [exact Hb|by apply Forall_nil]).
Qed.

Lemma forensicsd_closes_witness :
  exists r, run_netlink (C := nat) (W := wifi_parser) 64 demo_fsd demo_rounds "cpe-1" 0 (Some "ap0"%string) 5000 = Safe (Some r) /\
    fr_exit r = Some 0%Z /\ fr_opened r = [7; 7]%Z /\ fr_closed r ≡ₚ [7; 7]%Z.
Proof.
  destruct (forensicsd_closes (C := nat) (W := wifi_parser) 64 demo_fsd demo_rounds "cpe-1" 0 (Some "ap0"%string) 5000)
    as (r & Hrun & Hr); [lia|exact demo_rounds_ok|].
  assert (Hv : fr_exit r = Some 0%Z /\ fr_opened r = [7; 7]%Z) by (vm_compute in Hrun; injection Hrun as <-; by split).
  destruct Hv as [He Ho]. exists r. split; [exact Hrun|]. split; [exact He|]. split; [exact Ho|].
  rewrite <- Ho. exact (proj2 (Hr 0%Z He)).
Defined.
Example demo_fsd_lines :
  match run_netlink (C := nat) (W := wifi_parser) 64 demo_fsd demo_rounds "cpe-1" 0 (Some "ap0"%string) 5000 with
  | Safe (Some r) => length (fr_out r) = 2 /\ length (fr_err r) = 3
  | _ => False
  end.
Proof. vm_compute. by split. Qed.
