(* ===== verification/Ingest.v ===== *)
(** * Ingest at the core (src/src/bmp_ingest.c, src/src/ipfix_ingest.c)

    A BMP or IPFIX message is fed to its library and the events that come out become
    observations in the caller's array, lines for the BMP ones included; with the
    demonstration program src/src/bmp_ingest_main.c.  The libraries are not in the sources:
    a context is an [EventSource] that is fed. *)

From S2P Require Import Prelude CStr Inet Events NfFlow Nflog.

(** ** BMP observations *)
Inductive bmp_event_type :=
  | BMP_EVENT_INITIATION | BMP_EVENT_TERMINATION | BMP_EVENT_PEER_UP | BMP_EVENT_PEER_DOWN
  | BMP_EVENT_ROUTE_MONITORING | BMP_EVENT_STATISTICS | BMP_EVENT_QUEUE_OVERFLOW | BMP_EVENT_ERROR
  | BMP_EVENT_OTHER.
(** The fields of the library's structures that are read. *)
Record bmp_peer_header := {
  ph_is_ipv6 : Z;
  ph_peer_address : list Z;   (* 16 bytes *)
  ph_peer_as : Z;
  ph_peer_bgp_id : Z;
  ph_timestamp_sec : Z;
  ph_timestamp_usec : Z;
}.
Record bmp_event := {
  bev_type : bmp_event_type;
  bev_peer : bmp_peer_header;
  bev_payload_len : Z;
  bev_payload_truncated : Z;
}.

Record nf_bmp_obs := {
  bo_router_id : string;
  bo_event : string;
  bo_ts_ms : Z;
  bo_peer_as : Z;
  bo_peer_bgp_id : Z;
  bo_peer_addr : list Z;
  bo_peer_is_ipv6 : Z;
  bo_has_peer : Z;
  bo_payload_len : Z;
  bo_payload_truncated : Z;
  bo_peer_addr_str : string;
}.
#[export] Instance eta_bmp_obs : Eta nf_bmp_obs := fun o => {|
  bo_router_id := bo_router_id o; bo_event := bo_event o; bo_ts_ms := bo_ts_ms o; bo_peer_as := bo_peer_as o;
  bo_peer_bgp_id := bo_peer_bgp_id o; bo_peer_addr := bo_peer_addr o; bo_peer_is_ipv6 := bo_peer_is_ipv6 o;
  bo_has_peer := bo_has_peer o; bo_payload_len := bo_payload_len o; bo_payload_truncated := bo_payload_truncated o;
  bo_peer_addr_str := bo_peer_addr_str o |}.
Definition bmp_obs_zero : nf_bmp_obs := {|
  bo_router_id := EmptyString; bo_event := EmptyString; bo_ts_ms := 0; bo_peer_as := 0; bo_peer_bgp_id := 0;
  bo_peer_addr := zero16; bo_peer_is_ipv6 := 0; bo_has_peer := 0; bo_payload_len := 0; bo_payload_truncated := 0;
  bo_peer_addr_str := EmptyString |}.

Definition format_peer_addr (ph : bmp_peer_header) (out_len : nat) : string :=
  let a := ph_peer_address ph in
  let h i := fmt_0x 2 (a !!! i) in
  if truthy (ph_is_ipv6 ph) then
    snprintf_s out_len
      (h 0 +:+ h 1 +:+ ":" +:+ h 2 +:+ h 3 +:+ ":" +:+ h 4 +:+ h 5 +:+ ":" +:+ h 6 +:+ h 7 +:+ ":" +:+
       h 8 +:+ h 9 +:+ ":" +:+ h 10 +:+ h 11 +:+ ":" +:+ h 12 +:+ h 13 +:+ ":" +:+ h 14 +:+ h 15)
  else snprintf_s out_len (fmt_u (a !!! 12) +:+ "." +:+ fmt_u (a !!! 13) +:+ "." +:+ fmt_u (a !!! 14) +:+ "." +:+ fmt_u (a !!! 15)).

(** The name of an event and whether it is about a peer; the others are skipped. *)
Definition bmp_event_name (t : bmp_event_type) : option (string * bool) :=
  match t with
  | BMP_EVENT_INITIATION => Some ("initiation", false)
  | BMP_EVENT_TERMINATION => Some ("termination", false)
  | BMP_EVENT_PEER_UP => Some ("peer_up", true)
  | BMP_EVENT_PEER_DOWN => Some ("peer_down", true)
  | BMP_EVENT_ROUTE_MONITORING => Some ("route", true)
  | BMP_EVENT_STATISTICS => Some ("stats", true)
  | BMP_EVENT_QUEUE_OVERFLOW => Some ("queue_overflow", false)
  | BMP_EVENT_ERROR => Some ("error", false)
  | BMP_EVENT_OTHER => None
  end%string.
Definition nf_obs_from_bmp (ev : bmp_event) (router_id : option string) : Z * nf_bmp_obs :=
  let out := bmp_obs_zero <| bo_router_id := str_take 63 (default EmptyString router_id) |> in
  match bmp_event_name (bev_type ev) with
  | None => ((-1)%Z, out)
  | Some (name, has_peer) =>
      let out := out <| bo_event := name |> in
      let ph := bev_peer ev in
      let out :=
        if (has_peer : bool) then
          out <| bo_has_peer := 1%Z |> <| bo_peer_as := ph_peer_as ph |> <| bo_peer_bgp_id := ph_peer_bgp_id ph |>
              <| bo_peer_is_ipv6 := ph_is_ipv6 ph |> <| bo_peer_addr := ph_peer_address ph |>
              <| bo_ts_ms := u64 (ph_timestamp_sec ph * 1000 + ph_timestamp_usec ph / 1000) |>
              <| bo_peer_addr_str := format_peer_addr ph 48 |>
        else out in
      (0%Z, out <| bo_payload_len := bev_payload_len ev |> <| bo_payload_truncated := bev_payload_truncated ev |>)
  end.

Definition bmp_obs_text (obs : nf_bmp_obs) : string :=
  let tail := lit ",'payload_len':" +:+ fmt_u (bo_payload_len obs) +:+
              (if truthy (bo_payload_truncated obs) then lit ",'payload_truncated':true" else EmptyString) +:+ "}" in
  let id := bo_peer_bgp_id obs in
  if truthy (bo_has_peer obs) then
    lit "{'type':'bmp','router':'" +:+ bo_router_id obs +:+ lit "','event':'" +:+ bo_event obs +:+ lit "','ts':" +:+
    fmt_u (bo_ts_ms obs) +:+ lit ",'peer_as':" +:+ fmt_u (bo_peer_as obs) +:+ lit ",'peer_bgp_id':'" +:+
    fmt_u (byte_at 3 id) +:+ "." +:+ fmt_u (byte_at 2 id) +:+ "." +:+ fmt_u (byte_at 1 id) +:+ "." +:+ fmt_u (byte_at 0 id) +:+
    lit "','peer_addr':'" +:+ bo_peer_addr_str obs +:+ lit "'" +:+ tail
  else
    lit "{'type':'bmp','router':'" +:+ bo_router_id obs +:+ lit "','event':'" +:+ bo_event obs +:+ lit "'" +:+ tail.
Definition nf_bmp_obs_format (obs : nf_bmp_obs) (buflen : nat) : Z * string :=
  if buflen <? 32 then ((-1)%Z, EmptyString) else (0%Z, snprintf_s buflen (bmp_obs_text obs)).

(** ** Collecting *)
Class BmpLib (B : Type) := {
  bmp_create : option B;
  bmp_feed_message : B -> list Z -> Z * B;
  bmp_feed_input : B -> list Z -> Z * B;
}.
(** An IPFIX event: a data record with its message's export time, or another kind. *)
Record ipfix_event (R : Type) := { iev_record : option R; iev_export_time : Z }.
Arguments iev_record {R}. Arguments iev_export_time {R}.
Class IpfixLib (I R : Type) := { ipfix_feed_message : I -> list Z -> Z * I }.

Section bmp.
Context {B : Type} `{!BmpLib B} `{!EventSource B bmp_event}.

(** The observations so far are [out]; the loop ends within the events queued. *)
Fixpoint drain_loop (fuel : nat) (ctx : B) (router_id : option string) (out : list nf_bmp_obs) (max_out : nat)
    : list nf_bmp_obs * B :=
  match fuel with
  | O => (out, ctx)
  | S f =>
      if length out <? max_out then
        match next_event ctx with
        | (None, ctx) => (out, ctx)
        | (Some ev, ctx) =>
            let '(rc, obs) := nf_obs_from_bmp ev router_id in
            drain_loop f ctx router_id (if (rc =? 0)%Z then out ++ [obs] else out) max_out
        end
      else (out, ctx)
  end.
Definition drain_obs (ctx : B) (router_id : option string) (out : list nf_bmp_obs) (max_out : nat) : list nf_bmp_obs * B :=
  drain_loop (S (queued ctx)) ctx router_id out max_out.

(** The result, the array's new part, the context. *)
Definition nf_bmp_collect (ctx : B) (msg : list Z) (router_id : option string) (max_out : nat) : Z * list nf_bmp_obs * B :=
  if max_out =? 0 then ((-1)%Z, [], ctx)
  else
    let '(_, ctx) := bmp_feed_message ctx msg in
    let '(out, ctx) := drain_obs ctx router_id [] max_out in
    (i32 (Z.of_nat (length out)), out, ctx).
Definition nf_bmp_collect_stream (ctx : B) (data : list Z) (router_id : option string) (max_out : nat)
    : Z * list nf_bmp_obs * B :=
  if max_out =? 0 then ((-1)%Z, [], ctx)
  else
    let '(_, ctx) := bmp_feed_input ctx data in
    let '(out, ctx) := drain_obs ctx router_id [] max_out in
    (i32 (Z.of_nat (length out)), out, ctx).

(** src/ipfix_ingest_main.c: the exit code and the lines printed. *)
Definition ipfix_ingest_demo : Z * list string :=
  (0%Z, ["netforensics ipfix_ingest_demo 0.1.0"; "Feed IPFIX datagrams via nf_ipfix_collect_flows() (see tests)."]%string).

(** [main] of bmp_ingest_main.c: one PEER UP message. *)
Definition wr32_be (p : nat) (v : Z) (buf : list Z) : list Z := put p [byte_at 3 v; byte_at 2 v; byte_at 1 v; byte_at 0 v] buf.
Definition demo_message (peer_up : Z) : list Z :=
  let msg := replicate 48 0%Z in
  let msg := put 0 [3%Z] msg in
  let msg := wr32_be 1 48 msg in
  let msg := put 5 [peer_up] msg in
  let msg := wr32_be 32 64512 msg in
  let msg := wr32_be 36 167772161 msg in
  put 28 [203; 0; 113; 50]%Z msg.
(** The exit code and the lines; [peer_up] is the library's [BMP_MSG_PEER_UP]. *)
Definition bmp_ingest_demo (peer_up : Z) : Z * list string :=
  let hello := "netforensics bmp_ingest_demo 0.1.0 (libbmp)"%string in
  match bmp_create with
  | None => (1%Z, [hello])
  | Some ctx =>
      let '(n, obs, _) := nf_bmp_collect ctx (demo_message peer_up) (Some "rr-core-1"%string) 4 in
      let first :=
        match obs with
        | o :: _ => if (0 <? n)%Z then let '(rc, line) := nf_bmp_obs_format o 512 in if (rc =? 0)%Z then [line] else [] else []
        | [] => []
        end in
      (0%Z, [hello; "collected " +:+ fmt_d n +:+ " observation(s)"] ++ first)
  end.
End bmp.

Section ipfix.
Context {I R : Type} `{!IpfixLib I R} `{!EventSource I (ipfix_event R)} `{!NfLib R}.

Fixpoint flows_loop (fuel : nat) (ctx : I) (router_id : option string) (out : list nf_flow_obs) (max_out : nat)
    : list nf_flow_obs * I :=
  match fuel with
  | O => (out, ctx)
  | S f =>
      match next_event ctx with
      | (None, ctx) => (out, ctx)
      | (Some ev, ctx) =>
          match iev_record ev with
          | None => flows_loop f ctx router_id out max_out
          | Some rec =>
              if max_out <=? length out then (out, ctx)
              else
                let '(rc, obs) := nf_obs_from_ipfix rec router_id (u64 (iev_export_time ev * 1000)) in
                flows_loop f ctx router_id (if (rc =? 0)%Z then out ++ [obs] else out) max_out
          end
      end
  end.
Definition nf_ipfix_collect_flows (ctx : I) (msg : list Z) (router_id : option string) (max_out : nat)
    : Z * list nf_flow_obs * I :=
  if max_out =? 0 then ((-1)%Z, [], ctx)
  else
    let '(rc, ctx) := ipfix_feed_message (R := R) ctx msg in
    if negb (rc =? 0)%Z then ((-1)%Z, [], ctx)
    else
      let '(out, ctx) := flows_loop (S (queued ctx)) ctx router_id [] max_out in
      (i32 (Z.of_nat (length out)), out, ctx).
End ipfix.

(** ** No event is lost *)
Section bmp_spec.
Context {B : Type} `{!BmpLib B} `{!EventSource B bmp_event}.

Definition bmp_obs_of (router_id : option string) (ev : bmp_event) : option nf_bmp_obs :=
  let '(rc, obs) := nf_obs_from_bmp ev router_id in if (rc =? 0)%Z then Some obs else None.

Lemma pull_step (ctx ctx' : B) ev :
  next_event ctx = (Some ev, ctx') -> (pull_all (E := bmp_event) ctx).1 = ev :: (pull_all (E := bmp_event) ctx').1.
Proof.
  intros Hn. unfold pull_all at 1. cbn [pull_fuel]. rewrite Hn. pose proof (next_event_decreases _ _ _ Hn).
  rewrite (pull_fuel_enough ctx' (queued ctx) (S (queued ctx'))) by lia. fold (pull_all (E := bmp_event) ctx').
  by destruct (pull_all ctx').
Qed.
Lemma pull_none (ctx ctx' : B) : next_event ctx = (None, ctx') -> (pull_all (E := bmp_event) ctx).1 = [].
Proof. intros Hn. unfold pull_all. cbn [pull_fuel]. by rewrite Hn. Qed.

(** What a drain leaves of the events: none, or, with the array full, those still queued. *)
Definition drained_to (ctx' : B) (max_out : nat) (out : list nf_bmp_obs) (rest : list bmp_event) : Prop :=
  rest = [] \/ (rest = (pull_all (E := bmp_event) ctx').1 /\ max_out <= length out).

Lemma drain_loop_spec fuel ctx router_id out max_out :
  queued ctx < fuel ->
  let '(out', ctx') := drain_loop fuel ctx router_id out max_out in
  exists pulled rest,
    (pull_all (E := bmp_event) ctx).1 = pulled ++ rest /\ out' = out ++ omap (bmp_obs_of router_id) pulled /\
    drained_to ctx' max_out out' rest /\ (length out <= max_out -> length out' <= max_out).
Proof.
  revert ctx out. induction fuel as [|f IH]; intros ctx out Hf; [lia|]. cbn [drain_loop].
  destruct (Nat.ltb_spec (length out) max_out) as [Hroom|Hfull].
  2: { exists [], (pull_all (E := bmp_event) ctx).1. split_and!; [done|by rewrite app_nil_r|by right|done]. }
  destruct (next_event ctx) as [[ev|] ctx1] eqn:Hn.
  2: { exists [], []. split_and!; [by eapply pull_none|by rewrite app_nil_r|by left|lia]. }
  pose proof (next_event_decreases _ _ _ Hn). rewrite (pull_step _ _ _ Hn).
  destruct (nf_obs_from_bmp ev router_id) as [rc obs] eqn:Eo.
  set (out1 := if (rc =? 0)%Z then out ++ [obs] else out).
  assert (Hlen1 : length out1 <= max_out) by (subst out1; destruct (rc =? 0)%Z; rewrite ?length_app; simpl; lia).
  specialize (IH ctx1 out1 ltac:(lia)).
  destruct (drain_loop f ctx1 router_id out1 max_out) as [out' ctx']. destruct IH as (pulled & rest & He & Ho & Hd & Hl).
  exists (ev :: pulled), rest. split_and!; [by rewrite He| |done|by intros _; apply Hl].
  rewrite Ho. subst out1. cbn [omap list_omap]. unfold bmp_obs_of at 2. rewrite Eo.
  destruct (rc =? 0)%Z; [by rewrite <- app_assoc|done].
Qed.

(** collecting from a BMP message or a chunk of the stream loses nothing: the
    observations are those of the first events the library has queued, in order and cut to
    the array; events that found no room stay queued for the next call, so that a second
    collection goes on where the first stopped. *)
Theorem bmp_collect_keeps ctx data router_id max_out :
  0 < max_out ->
  let ctx1 := (bmp_feed_input ctx data).2 in
  let '(rc, out, ctx') := nf_bmp_collect_stream ctx data router_id max_out in
  exists pulled rest,
    (pull_all (E := bmp_event) ctx1).1 = pulled ++ rest /\ out = omap (bmp_obs_of router_id) pulled /\
    drained_to ctx' max_out out rest /\ length out <= max_out /\ rc = i32 (Z.of_nat (length out)).
Proof.
  intros Hm. cbv zeta. unfold nf_bmp_collect_stream. rewrite (proj2 (Nat.eqb_neq _ _)) by lia.
  destruct (bmp_feed_input ctx data) as [frc ctx1]. cbn [snd]. unfold drain_obs.
  pose proof (drain_loop_spec (S (queued ctx1)) ctx1 router_id [] max_out ltac:(lia)) as Hs.
  destruct (drain_loop _ ctx1 router_id [] max_out) as [out ctx']. destruct Hs as (pulled & rest & He & Ho & Hd & Hl).
  exists pulled, rest. split_and!; [done|done|done|apply Hl; simpl; lia|done].
Qed.
End bmp_spec.

(** Every field within its C type. *)
Record bmp_event_ok (ev : bmp_event) : Prop := {
  bok_len : in_u64 (bev_payload_len ev);
  bok_as : in_u32 (ph_peer_as (bev_peer ev));
}.
Lemma bmp_event_name_length t name p : bmp_event_name t = Some (name, p) -> strlen name <= 14.
Proof. destruct t; intros [= <- <-]; simpl; lia. Qed.
(** the line of any BMP event, whatever the router's name, has fewer than 512
    characters: the buffer of the demonstration program holds it whole. *)
Theorem bmp_line_fits ev router_id obs :
  bmp_event_ok ev -> nf_obs_from_bmp ev router_id = (0%Z, obs) ->
  nf_bmp_obs_format obs 512 = (0%Z, bmp_obs_text obs).
Proof.
  intros [Hlen Has] Ho. unfold nf_bmp_obs_format. change (512 <? 32) with false. cbn iota. f_equal.
  apply snprintf_s_fits. unfold nf_obs_from_bmp in Ho.
  destruct (bmp_event_name (bev_type ev)) as [[name p]|] eqn:En; [|done].
  pose proof (bmp_event_name_length _ _ _ En) as Hname.
  assert (Hr : strlen (str_take 63 (default EmptyString router_id)) <= 63) by (rewrite strlen_take; lia).
  pose proof (strlen_fmt_u64 _ Hlen) as Hl. pose proof (strlen_fmt_u32 _ Has) as Ha.
  assert (Hbyte : forall i z, strlen (fmt_u (byte_at i z)) <= 3) by (intros; apply strlen_fmt_u8, byte_at_range).
  pose proof (strlen_fmt_u64 _ (u64_range (ph_timestamp_sec (bev_peer ev) * 1000 + ph_timestamp_usec (bev_peer ev) / 1000))) as Hts.
  assert (Hadr : strlen (format_peer_addr (bev_peer ev) 48) <= 47)
    by (unfold format_peer_addr; destruct (truthy _); rewrite <- Nat.lt_succ_r; apply snprintf_s_length; lia).
  assert (Htr : forall z, strlen (if truthy z then lit ",'payload_truncated':true" else EmptyString) <= 25)
    by (intros z; destruct (truthy z); simpl; lia).
  unfold bmp_obs_text. destruct p; injection Ho as <-; cbn -[fmt_u byte_at u64 str_take lit strlen format_peer_addr];
    autorewrite with slen; cbn [String.length];
    pose proof (Htr (bev_payload_truncated ev)); pose proof (Hbyte 3%Z (ph_peer_bgp_id (bev_peer ev)));
    pose proof (Hbyte 2%Z (ph_peer_bgp_id (bev_peer ev))); pose proof (Hbyte 1%Z (ph_peer_bgp_id (bev_peer ev)));
    pose proof (Hbyte 0%Z (ph_peer_bgp_id (bev_peer ev))); lia.
Qed.

Section ipfix_spec.
Context {I R : Type} `{!IpfixLib I R} `{!EventSource I (ipfix_event R)} `{!NfLib R}.
Local Abbreviation event := (ipfix_event R).

Definition flow_obs_of (router_id : option string) (ev : event) : option nf_flow_obs :=
  match iev_record ev with
  | None => None
  | Some rec => let '(rc, obs) := nf_obs_from_ipfix rec router_id (u64 (iev_export_time ev * 1000)) in
                if (rc =? 0)%Z then Some obs else None
  end.

Lemma flow_pull_step (ctx ctx' : I) ev :
  next_event ctx = (Some ev, ctx') -> (pull_all (E := event) ctx).1 = ev :: (pull_all (E := event) ctx').1.
Proof.
  intros Hn. unfold pull_all at 1. cbn [pull_fuel]. rewrite Hn. pose proof (next_event_decreases _ _ _ Hn).
  rewrite (pull_fuel_enough ctx' (queued ctx) (S (queued ctx'))) by lia. fold (pull_all (E := event) ctx').
  by destruct (pull_all ctx').
Qed.

(** How a collection ends: with every event used, or at a data record that found the array
    full, which is gone, while what follows it is still queued. *)
Definition collected_to (ctx' : I) (max_out : nat) (out : list nf_flow_obs) (lost rest : list event) : Prop :=
  (lost = [] /\ rest = []) \/
  (exists ev rec, lost = [ev] /\ iev_record ev = Some rec /\ length out = max_out /\ rest = (pull_all (E := event) ctx').1).

Lemma flows_loop_spec fuel ctx router_id out max_out :
  queued ctx < fuel -> length out <= max_out ->
  let '(out', ctx') := flows_loop fuel ctx router_id out max_out in
  exists used lost rest,
    (pull_all (E := event) ctx).1 = used ++ lost ++ rest /\ out' = out ++ omap (flow_obs_of router_id) used /\
    collected_to ctx' max_out out' lost rest /\ length out' <= max_out.
Proof.
  revert ctx out. induction fuel as [|f IH]; intros ctx out Hf Hout; [lia|]. cbn [flows_loop].
  destruct (next_event ctx) as [[ev|] ctx1] eqn:Hn.
  2: { exists [], [], []. split_and!; [|by rewrite app_nil_r|by left|done].
       unfold pull_all. cbn [pull_fuel]. by rewrite Hn. }
  pose proof (next_event_decreases _ _ _ Hn). rewrite (flow_pull_step _ _ _ Hn).
  destruct (iev_record ev) as [rec|] eqn:Er.
  - destruct (Nat.leb_spec max_out (length out)) as [Hfull|Hroom].
    { exists [], [ev], (pull_all (E := event) ctx1).1. split_and!; [done|by rewrite app_nil_r| |done].
      right. exists ev, rec. split_and!; [done|done|lia|done]. }
    destruct (nf_obs_from_ipfix rec router_id (u64 (iev_export_time ev * 1000))) as [rc obs] eqn:Eo.
    set (out1 := if (rc =? 0)%Z then out ++ [obs] else out).
    assert (Hlen1 : length out1 <= max_out) by (subst out1; destruct (rc =? 0)%Z; rewrite ?length_app; simpl; lia).
    specialize (IH ctx1 out1 ltac:(lia) Hlen1).
    destruct (flows_loop f ctx1 router_id out1 max_out) as [out' ctx']. destruct IH as (used & lost & rest & He & Ho & Hd & Hl).
    exists (ev :: used), lost, rest. split_and!; [by rewrite He| |done|done].
    rewrite Ho. subst out1. cbn [omap list_omap]. unfold flow_obs_of at 2. rewrite Er, Eo.
    destruct (rc =? 0)%Z; [by rewrite <- app_assoc|done].
  - specialize (IH ctx1 out ltac:(lia) Hout).
    destruct (flows_loop f ctx1 router_id out max_out) as [out' ctx']. destruct IH as (used & lost & rest & He & Ho & Hd & Hl).
    exists (ev :: used), lost, rest. split_and!; [by rewrite He| |done|done].
    rewrite Ho. cbn [omap list_omap]. unfold flow_obs_of at 2. by rewrite Er.
Qed.

(** C39: collecting the flows of an IPFIX message accounts for every event: the observations
    are those of the events before the end, in order, never more than the array holds; the
    rest stays queued - except for one data record, the one that found the array full, which
    has been taken from the library and is in neither. *)
Theorem ipfix_collect_accounts ctx msg router_id max_out :
  0 < max_out -> (ipfix_feed_message (R := R) ctx msg).1 = 0%Z ->
  let ctx1 := (ipfix_feed_message (R := R) ctx msg).2 in
  let '(rc, out, ctx') := nf_ipfix_collect_flows ctx msg router_id max_out in
  exists used lost rest,
    (pull_all (E := event) ctx1).1 = used ++ lost ++ rest /\ out = omap (flow_obs_of router_id) used /\
    collected_to ctx' max_out out lost rest /\ length out <= max_out /\ rc = i32 (Z.of_nat (length out)).
Proof.
  intros Hm Hrc. cbv zeta. unfold nf_ipfix_collect_flows. rewrite (proj2 (Nat.eqb_neq _ _)) by lia.
  destruct (ipfix_feed_message ctx msg) as [frc ctx1]. cbn [fst snd] in *. subst frc. cbn [negb Z.eqb].
  pose proof (flows_loop_spec (S (queued ctx1)) ctx1 router_id [] max_out ltac:(lia) ltac:(simpl; lia)) as Hs.
  destruct (flows_loop _ ctx1 router_id [] max_out) as [out ctx']. destruct Hs as (used & lost & rest & He & Ho & Hd & Hl).
  by exists used, lost, rest.
Qed.
End ipfix_spec.

(** ** Instances *)

(** A library whose context is the events still queued; a message adds one PEER UP. *)
Definition peer_a : bmp_peer_header := {|
  ph_is_ipv6 := 0; ph_peer_address := replicate 12 0%Z ++ [203; 0; 113; 50]%Z; ph_peer_as := 64512;
  ph_peer_bgp_id := 167772161; ph_timestamp_sec := 1700000000; ph_timestamp_usec := 500000 |}.
Definition bmp_up : bmp_event := {|
  bev_type := BMP_EVENT_PEER_UP; bev_peer := peer_a; bev_payload_len := 20; bev_payload_truncated := 0 |}.
#[local] Instance list_bmp : BmpLib (list bmp_event) := {|
  bmp_create := Some []; bmp_feed_message := fun l _ => (0%Z, l ++ [bmp_up]); bmp_feed_input := fun l _ => (0%Z, l ++ [bmp_up]) |}.
#[local] Instance list_source {E} : EventSource (list E) E := {|
  next_event := fun l => match l with [] => (None, []) | e :: l' => (Some e, l') end; queued := length;
  next_event_decreases := ltac:(runs_dry) |}.
#[local] Instance list_ipfix : IpfixLib (list (ipfix_event unit)) unit := {|
  ipfix_feed_message := fun l _ => (0%Z, l ++ replicate 3 {| iev_record := Some tt; iev_export_time := 5 |}) |}.
#[local] Existing Instance fixed_lib.

Example bmp_demo_lines : bmp_ingest_demo (B := list bmp_event) 3 =
  (0%Z, ["netforensics bmp_ingest_demo 0.1.0 (libbmp)"; "collected 1 observation(s)";
         lit "{'type':'bmp','router':'rr-core-1','event':'peer_up','ts':1700000000500,'peer_as':64512,'peer_bgp_id':'10.0.0.1','peer_addr':'203.0.113.50','payload_len':20}"]%string).
Proof. vm_compute. reflexivity. Qed.
(** Three records, room for one: the second is lost, the third is found by the next call. *)
Example ipfix_record_lost :
  let '(rc, out, ctx) := nf_ipfix_collect_flows (R := unit) ([] : list (ipfix_event unit)) [] None 1 in
  rc = 1%Z /\ length out = 1 /\ length ctx = 1.
Proof. vm_compute. by split_and!. Qed.

Lemma bmp_collect_keeps_witness :
  exists pulled rest,
    (pull_all (E := bmp_event) [bmp_up; bmp_up]).1 = pulled ++ rest /\
    (nf_bmp_collect_stream [bmp_up] [] None 1).1.2 = omap (bmp_obs_of None) pulled.
Proof.
  destruct (bmp_collect_keeps [bmp_up] [] None 1 ltac:(lia)) as (pulled & rest & He & Ho & _).
  exists pulled, rest. split; [exact He|exact Ho].
Defined.
Lemma bmp_line_fits_witness :
  exists obs, nf_obs_from_bmp bmp_up (Some "rr-core-1"%string) = (0%Z, obs) /\ nf_bmp_obs_format obs 512 = (0%Z, bmp_obs_text obs).
Proof.
  eexists. split; [reflexivity|].
  apply (bmp_line_fits bmp_up (Some "rr-core-1"%string)); [split; cbn; unfold in_u64, in_u32; lia|reflexivity].
Defined.
Lemma ipfix_collect_accounts_witness :
  exists used lost rest,
    (pull_all (E := ipfix_event unit) (replicate 3 {| iev_record := Some tt; iev_export_time := 5 |})).1 = used ++ lost ++ rest /\
    (nf_ipfix_collect_flows (R := unit) ([] : list (ipfix_event unit)) [] None 1).1.2 = omap (flow_obs_of None) used.
Proof.
  destruct (ipfix_collect_accounts (R := unit) ([] : list (ipfix_event unit)) [] None 1 ltac:(lia) eq_refl)
    as (used & lost & rest & He & Ho & _).
  exists used, lost, rest. split; [exact He|exact Ho].
Defined.
