(* ===== verification/GatewayStub.v ===== *)
(** * The gateway stub (src/src/gateway_stub_main.c)

    A lab sink for the agents' HTTP flushes: the listening address, the set-up of the socket,
    and the service of each connection, which is read once.  The calls of the system answer
    through [stub_env]; the connections are a list. *)

From Stdlib Require Import Ascii.
From S2P Require Import Prelude CStr StrSearch HttpRead HttpPost.

Definition BUF_SIZE : nat := 8192.

(** ** The listening address *)

(** [host] and [port] as they are left, and the result. *)
Definition parse_listen (w : Z) (s : string) (hsz : nat) (host : string) (port : Z) : Z * string * Z :=
  match chr_rindex ":" s with
  | None => ((-1)%Z, host, port)
  | Some hlen =>
      if (hlen =? 0) || (hsz <=? hlen) then ((-1)%Z, host, port)
      else
        let port := atoi w (str_drop (hlen + 1) s) in
        (if (0 <? port)%Z && (port <? 65536)%Z then 0%Z else (-1)%Z, str_take hlen s, port)
  end.

Definition usage (a0 : string) : list string :=
  ["Usage: " +:+ a0 +:+ " [--listen HOST:PORT]"; "Lab-only NDJSON HTTP sink stub; production uses Vector."%string].

(** The address to listen on, or the exit code and what is printed before it. *)
Fixpoint parse_args (w : Z) (a0 : string) (argv : list string) (host : string) (port : Z) : string * Z + Z * list string :=
  match argv with
  | [] => inl (host, port)
  | x :: rest =>
      if streq x "--help" || streq x "-h" then inr (0%Z, usage a0)
      else
        match rest with
        | v :: rest' =>
            if streq x "--listen" then
              let '(rc, host, port) := parse_listen w v 64 host port in
              if negb (rc =? 0)%Z then inr (1%Z, ["bad --listen"%string]) else parse_args w a0 rest' host port
            else inr (1%Z, usage a0)
        | [] => inr (1%Z, usage a0)
        end
  end.

(** ** One connection *)

(** [accept] fails, or gives a socket on which [recv] fails or finds these bytes. *)
Inductive incoming :=
  | NoClient
  | Client (cli : Z) (input : option string).
(** What goes to standard output, what [send] reads from the reply, the sockets closed. *)
Record served := { sv_out : string; sv_sent : option (chk (list Z)); sv_closed : list Z }.

(** The reply, with its terminator: the array [send] reads from. *)
Definition reply_text : string := "HTTP/1.1 204 No Content" +:+ crlf +:+ "Connection: close" +:+ crlf +:+ crlf.
Definition reply_array : list Z := str_bytes reply_text ++ [0%Z].
Definition read_array (b : list Z) (n : nat) : chk (list Z) := mapM (rd b) (seq 0 n).

(** The text after the first blank line. *)
Definition body_of (buf : string) : option string :=
  option_map (fun i => str_drop (i + 4) buf) (String.index 0 (crlf +:+ crlf) buf).
(** The body as it is printed, with a newline at its end. *)
Definition print_body (body : string) : string :=
  body +:+ (if nonempty body && negb (streq (str_drop (strlen body - 1) body) (String lf EmptyString))
            then String lf EmptyString else EmptyString).

Definition serve (c : incoming) : served :=
  match c with
  | NoClient => {| sv_out := EmptyString; sv_sent := None; sv_closed := [] |}
  | Client cli None => {| sv_out := EmptyString; sv_sent := None; sv_closed := [cli] |}
  | Client cli (Some input) =>
      let buf := str_take (BUF_SIZE - 1) input in
      if nonempty buf then
        {| sv_out := match body_of (cstr buf) with Some body => print_body body | None => EmptyString end;
           sv_sent := Some (read_array reply_array 48); sv_closed := [cli] |}
      else {| sv_out := EmptyString; sv_sent := None; sv_closed := [cli] |}
  end.

(** ** The program *)
Record stub_env := {
  ge_socket : Z;
  ge_inet_pton : string -> bool;
  ge_bind : string -> Z -> bool;
  ge_listen : bool;
  ge_error : string -> string;   (* the line [perror] prints *)
}.
(** The exit code, none while it serves; the connections served; the sockets closed. *)
Record stub_result := { gr_exit : option Z; gr_err : list string; gr_served : list served; gr_closed : list Z }.

Definition gateway_stub_main (w : Z) (env : stub_env) (conns : list incoming) (a0 : string) (argv : list string) : stub_result :=
  let fails rc msgs closed := {| gr_exit := Some rc; gr_err := msgs; gr_served := []; gr_closed := closed |} in
  match parse_args w a0 argv "0.0.0.0" 8787 with
  | inr (rc, msgs) => fails rc msgs []
  | inl (host, port) =>
      let srv := ge_socket env in
      if (srv <? 0)%Z then fails 1%Z [ge_error env "socket"] []
      else if negb (ge_inet_pton env host) then fails 1%Z ["bad host"%string] [srv]
      else if negb (ge_bind env host (u16 port)) then fails 1%Z [ge_error env "bind"] [srv]
      else if negb (ge_listen env) then fails 1%Z [ge_error env "listen"] [srv]
      else {| gr_exit := None;
              gr_err := ["gateway_stub listening on " +:+ host +:+ ":" +:+ fmt_d port +:+ " (lab only)"];
              gr_served := serve <$> conns; gr_closed := [] |}
  end.

(** ** Header lines *)
Lemma line_not_crlf l t : line_ok l -> String.prefix crlf (l +:+ t) = false.
Proof.
  intros [Hf Hn]. destruct l as [|c l]; [done|]. rewrite str_app_cons. apply prefix_other. intros <-.
  unfold free in Hf. cbn [chr_index] in Hf. by rewrite Ascii.eqb_refl in Hf.
Qed.
Lemma prefix_crlf_take n t : String.prefix crlf t = false -> String.prefix crlf (str_take n t) = false.
Proof.
  destruct n as [|[|n]], t as [|c [|d t]]; cbn [str_take String.prefix crlf]; try done;
    repeat match goal with |- context [ascii_dec ?a ?b] => destruct (ascii_dec a b) end; try done. by destruct t.
Qed.

(** Going past a line that is not the last of the head. *)
Lemma index_line l t :
  line_ok l -> String.prefix crlf t = false ->
  String.index 0 (crlf +:+ crlf) (l +:+ crlf +:+ t) = option_map (Nat.add (strlen l + 2)) (String.index 0 (crlf +:+ crlf) t).
Proof.
  intros [Hf _] Ht. change (crlf +:+ crlf) with (String cr (String lf crlf)). rewrite index_free by done.
  change (crlf +:+ t) with (String cr (String lf t)). rewrite (index_step1 _ cr) by exact Ht.
  rewrite (index_step1 _ lf) by by apply prefix_other. by rewrite (add_add 1 1), add_add.
Qed.
Lemma body_found ls l body :
  Forall line_ok ls -> line_ok l -> body_of (head_lines ls (l +:+ crlf +:+ crlf +:+ body)) = Some body.
Proof.
  intros Hls Hl. unfold body_of.
  assert (String.index 0 (crlf +:+ crlf) (head_lines ls (l +:+ crlf +:+ crlf +:+ body)) = Some (strlen (head_lines ls l))) as ->.
  { induction Hls as [|l1 ls H1 Hls IH]; cbn [head_lines].
    - rewrite (index_free cr (String lf crlf)) by apply Hl. rewrite <- (str_app_assoc crlf crlf), index_here.
      cbn [option_map]. by rewrite Nat.add_0_r.
    - rewrite index_line, IH; [|done|by destruct Hls; cbn [head_lines]; apply line_not_crlf].
      cbn [option_map]. f_equal. rewrite !strlen_app. simpl. lia. }
  cbn [option_map]. f_equal. rewrite <- (head_lines_app ls l).
  rewrite <- (str_app_assoc crlf crlf), <- str_app_assoc.
  replace (strlen (head_lines ls l) + 4) with (strlen (head_lines ls l +:+ crlf +:+ crlf)) by (rewrite !strlen_app; simpl; lia).
  apply str_drop_app.
Qed.

(** A text that ends before the head does has no body. *)
Lemma index_short_line l n :
  free cr l -> n <= strlen l + 3 -> String.index 0 (crlf +:+ crlf) (str_take n (l +:+ crlf +:+ crlf)) = None.
Proof.
  intros Hf Hn. destruct (le_lt_dec n (strlen l)) as [Hle|Hlt].
  - rewrite str_take_app_le by done. rewrite <- (str_app_nil_r (str_take n l)).
    change (crlf +:+ crlf) with (String cr (String lf crlf)). by rewrite index_free by by apply free_take.
  - replace n with (strlen l + (n - strlen l)) by lia. rewrite str_take_app_plus.
    change (crlf +:+ crlf) with (String cr (String lf crlf)) at 1. rewrite index_free by done.
    assert (n - strlen l = 1 \/ n - strlen l = 2 \/ n - strlen l = 3) as [-> |[-> | ->]] by lia; reflexivity.
Qed.
Lemma no_body_yet ls l n :
  Forall line_ok ls -> line_ok l -> n < strlen (head_lines ls (l +:+ crlf +:+ crlf)) ->
  body_of (str_take n (head_lines ls (l +:+ crlf +:+ crlf))) = None.
Proof.
  intros Hls Hl. unfold body_of. revert n.
  assert (H : forall n, n < strlen (head_lines ls (l +:+ crlf +:+ crlf)) ->
    String.index 0 (crlf +:+ crlf) (str_take n (head_lines ls (l +:+ crlf +:+ crlf))) = None).
  2: { intros n Hn. by rewrite H. }
  induction Hls as [|l1 ls H1 Hls IH]; cbn [head_lines]; intros n Hn.
  - rewrite !strlen_app in Hn. apply index_short_line; [apply Hl|]. simpl in Hn. lia.
  - rewrite !strlen_app in Hn. change (strlen crlf) with 2 in Hn.
    set (t := head_lines ls (l +:+ crlf +:+ crlf)) in *.
    assert (Ht : String.prefix crlf t = false) by (subst t; destruct Hls; cbn [head_lines]; by apply line_not_crlf).
    destruct (le_lt_dec n (strlen l1 + 2)) as [Hle|Hlt].
    + replace (str_take n (l1 +:+ crlf +:+ t)) with (str_take n (l1 +:+ crlf +:+ crlf)).
      { apply index_short_line; [apply H1|lia]. }
      rewrite <- !(str_app_assoc l1), !(str_take_app_le n (l1 +:+ crlf)); [done|rewrite strlen_app; simpl; lia..].
    + replace n with (strlen (l1 +:+ crlf) + (n - strlen l1 - 2)) by (rewrite strlen_app; simpl; lia).
      rewrite <- str_app_assoc, str_take_app_plus, str_app_assoc, index_line; [|done|by apply prefix_crlf_take].
      rewrite IH; [done|lia].
Qed.

(** ** What an agent's flush becomes *)

(** The head of the request, cut into its lines. *)
Definition request_lines (path host : string) (body_len : nat) (auth : option string) : list string :=
  ["POST " +:+ path +:+ " HTTP/1.1"; "Host: " +:+ host; "Content-Type: application/x-ndjson"%string;
   "Content-Length: " +:+ fmt_u (Z.of_nat body_len)] ++ match auth with Some _ => ["Connection: close"%string] | None => [] end.
Definition last_line (auth : option string) : string := default "Connection: close"%string auth.
Definition auth_line (auth : option string) : option string := option_map (fun a => a +:+ crlf) auth.

Lemma request_header_lines path host n auth :
  request_header path host n (auth_line auth) = head_lines (request_lines path host n auth) (last_line auth +:+ crlf +:+ crlf).
Proof.
  unfold request_header, request_lines, last_line, auth_line. destruct auth; cbn [app head_lines default option_map from_option id];
    rewrite !str_app_assoc; reflexivity.
Qed.

(** A text without line ends and terminators. *)
Definition plain_text (s : string) : Prop := free cr s /\ free "000" s.

Section request.
Context (path host body : string) (auth : option string).
Hypothesis Hpath : plain_text path.
Hypothesis Hhost : plain_text host.
Hypothesis Hauth : match auth with Some a => plain_text a /\ nonempty a = true | None => True end.
Hypothesis Hbody : free "000" body.
Local Abbreviation header := (request_header path host (strlen body) (auth_line auth)).

Lemma request_lines_ok : Forall line_ok (request_lines path host (strlen body) auth) /\ line_ok (last_line auth).
Proof.
  destruct Hpath as [Hp _], Hhost as [Hh _]. split.
  - unfold request_lines. apply Forall_app. split.
    + repeat first [apply Forall_cons_2 | apply Forall_nil_2]; (unfold line_ok; split; [|by destruct path]); try done;
        repeat first [apply free_app | done]. apply free_fmt_u. vm_compute. lia.
    + destruct auth; [|done]. by apply Forall_cons.
  - unfold last_line. destruct auth as [a|]; [|done]. by destruct Hauth as [[??]?].
Qed.
Lemma request_no_nul : free "000" (request_text path host body (auth_line auth)).
Proof.
  destruct Hpath as [_ Hp], Hhost as [_ Hh]. unfold request_text, request_header, auth_line.
  assert (free "000" (default EmptyString (option_map (fun a => a +:+ crlf) auth))).
  { destruct auth as [a|]; [|done]. destruct Hauth as [[_ Ha] _]. by apply free_app. }
  repeat first [apply free_app | assumption | apply free_fmt_u; vm_compute; lia | reflexivity].
Qed.

Lemma request_body_of n :
  body_of (str_take n (request_text path host body (auth_line auth))) =
  if strlen header <=? n then Some (str_take (n - strlen header) body) else None.
Proof.
  unfold request_text. destruct request_lines_ok as [Hls Hl].
  destruct (Nat.leb_spec (strlen header) n) as [Hle|Hlt].
  - replace n with (strlen header + (n - strlen header)) at 1 by lia. rewrite str_take_app_plus.
    rewrite request_header_lines, head_lines_app, !str_app_assoc. by apply body_found.
  - rewrite str_take_app_le by lia. rewrite request_header_lines in *. by apply no_body_yet.
Qed.
Lemma print_nothing : print_body EmptyString = EmptyString.
Proof. reflexivity. Qed.

Lemma serve_request cli n :
  0 < n ->
  serve (Client cli (Some (str_take n (request_text path host body (auth_line auth))))) =
    {| sv_out := print_body (str_take (Nat.min n (BUF_SIZE - 1) - strlen header) body);
       sv_sent := Some Oob; sv_closed := [cli] |}.
Proof.
  intros Hn. unfold serve. rewrite str_take_take.
  replace (Nat.min (BUF_SIZE - 1) n) with (Nat.min n (BUF_SIZE - 1)) by lia.
  assert (Hb : 0 < Nat.min n (BUF_SIZE - 1)) by (assert (0 < BUF_SIZE - 1) by (by apply Nat.ltb_lt); lia). revert Hb.
  generalize (Nat.min n (BUF_SIZE - 1)). intros k Hk.
  assert (nonempty (str_take k (request_text path host body (auth_line auth))) = true) as -> by (destruct k; [lia|done]).
  rewrite cstr_free by apply free_take, request_no_nul. rewrite request_body_of.
  assert (read_array reply_array 48 = Oob) as -> by reflexivity.
  destruct (Nat.leb_spec (strlen header) k) as [Hle|Hlt]; [done|].
  replace (k - strlen header) with 0 by lia. by destruct body.
Qed.
End request.

(** C37: The stub prints of an agent's request exactly the part of the body that the first
    receive holds - a whole body that came with the head at once is printed byte for byte, with
    a newline if it had none; a receive that ended with the head, or before, prints nothing -
    and then closes the connection after one send.  That send is asked for 48 bytes of a
    reply of 46 characters and its terminator, one more than the array has. *)
Theorem stub_prints_first_piece path host body auth cli n :
  plain_text path -> plain_text host -> match auth with Some a => plain_text a /\ nonempty a = true | None => True end ->
  free "000" body -> 0 < n ->
  serve (Client cli (Some (str_take n (request_text path host body (auth_line auth))))) =
    {| sv_out := print_body (str_take (Nat.min n (BUF_SIZE - 1) - strlen (request_header path host (strlen body) (auth_line auth))) body);
       sv_sent := Some Oob; sv_closed := [cli] |}.
Proof. intros Hp Hh Ha Hb Hn. by apply serve_request. Qed.
Lemma stub_prints_first_piece_witness :
  serve (Client 5 (Some (str_take 500 (request_text "/ingest" "gw:8787" (lit "{'a':1}") (auth_line None))))) =
    {| sv_out := lit "{'a':1}" +:+ String lf EmptyString; sv_sent := Some Oob; sv_closed := [5%Z] |}.
Proof.
  rewrite (stub_prints_first_piece "/ingest" "gw:8787" (lit "{'a':1}") None 5 500); [|done..|lia]. vm_compute. reflexivity.
Defined.

(** The agent sends head and body apart: when they arrive apart, the lines are acknowledged and
    gone. *)
Example body_apart_lost :
  sv_out (serve (Client 5 (Some (request_header "/ingest" "gw:8787" 7 None)))) = EmptyString /\
  sv_sent (serve (Client 5 (Some (request_header "/ingest" "gw:8787" 7 None)))) = Some Oob.
Proof. by vm_compute. Qed.

(** A program that ends has closed its socket. *)
Lemma stub_exits w env conns a0 argv rc :
  let r := gateway_stub_main w env conns a0 argv in
  gr_exit r = Some rc ->
  (rc = 0 \/ rc = 1)%Z /\ gr_served r = [] /\
  (gr_closed r = [] \/ (gr_closed r = [ge_socket env] /\ (0 <= ge_socket env)%Z)).
Proof.
  assert (Hargs : forall argv host port rc msgs, parse_args w a0 argv host port = inr (rc, msgs) -> (rc = 0 \/ rc = 1)%Z).
  { fix IH 1. intros [|x [|v rest]] host port rc0 msgs; cbn [parse_args]; [done| |];
      (destruct (streq x "--help" || streq x "-h"); [intros [= <- _]; by left|]); [intros [= <- _]; by right|].
    destruct (streq x "--listen"); [|intros [= <- _]; by right].
    destruct (parse_listen w v 64 host port) as [[rc1 h1] p1].
    destruct (negb _); [intros [= <- _]; by right|]. apply IH. }
  cbv zeta. unfold gateway_stub_main. destruct (parse_args w a0 argv "0.0.0.0" 8787) as [[host port]|[rc0 msgs]] eqn:E.
  2: { cbn. intros [= <-]. split_and!; [by eapply Hargs|done|by left]. }
  destruct (Z.ltb_spec (ge_socket env) 0); [cbn; intros [= <-]; split_and!; auto|].
  repeat (destruct (negb _); [cbn; intros [= <-]; split_and!; auto|]). done.
Qed.

(** The address that is read is the one written. *)
Lemma parse_listen_host w h p host port :
  free ":" p -> 0 < strlen h < 64 ->
  let '(rc, host', port') := parse_listen w (h +:+ String ":" p) 64 host port in
  host' = h /\ port' = atoi w p /\ (rc = 0%Z <-> (0 < port' < 65536)%Z).
Proof.
  intros Hp Hh. unfold parse_listen. rewrite chr_rindex_app by done.
  rewrite (proj2 (Nat.eqb_neq _ 0)), (proj2 (Nat.leb_gt 64 _)) by lia. cbn [orb].
  rewrite str_drop_app_S, str_take_app.
  split_and!; [done|done|]. destruct (Z.ltb_spec 0 (atoi w p)), (Z.ltb_spec (atoi w p) 65536); cbn [andb]; split; (done || lia).
Qed.
