(* ===== verification/Strtod.v ===== *)
(** * Reading floating-point numbers

    [strtod] of the C library: decimal and hexadecimal numbers, infinities and NaN, rounded to
    nearest even. *)

From Stdlib Require Import Ascii SpecFloat.
From S2P Require Import Prelude CStr StrSearch Float754.

(** The double nearest to [num / den], [den > 0]: 66 bits of the quotient and a sticky bit
    decide. *)
Definition round_ratio (num den : Z) : double :=
  if (den =? 1)%Z then d_of_Z num
  else
    let k := Z.max 0 (66 + Z.log2 den - Z.log2 num) in
    let n := (num * 2 ^ k)%Z in
    binary_normalize 53 1024 (2 * (n / den) + (if (n mod den =? 0)%Z then 0 else 1)) (- k - 1) false.

(** The digits of a prefix, with their number. *)
Fixpoint scan_base (digit : ascii -> option Z) (base : Z) (s : string) (acc : Z) (n : nat) : Z * nat * string :=
  match s with
  | String c s' => match digit c with Some d => scan_base digit base s' (acc * base + d)%Z (S n) | None => (acc, n, s) end
  | EmptyString => (acc, n, s)
  end.
(** A signed exponent after its letter: its value and the rest, if there are digits. *)
Definition scan_exponent (lower upper : ascii) (s : string) : Z * string :=
  match s with
  | String c s' =>
      if Ascii.eqb c lower || Ascii.eqb c upper then
        let '(neg, s2) := scan_sign s' in
        let '(v, n, rest) := scan_base digit_val 10 s2 0 0 in
        if n =? 0 then (0%Z, s) else ((if (neg : bool) then - v else v)%Z, rest)
      else (0%Z, s)
  | EmptyString => (0%Z, s)
  end.
(** Digits with an optional point: the mantissa, the digits behind the point, the rest. *)
Definition scan_mantissa (digit : ascii -> option Z) (base : Z) (s : string) : option (Z * nat * string) :=
  let '(m, n, rest) := scan_base digit base s 0 0 in
  match rest with
  | String "." rest' =>
      let '(m2, n2, rest2) := scan_base digit base rest' m 0 in
      if n + n2 =? 0 then None else Some (m2, n2, rest2)
  | _ => if n =? 0 then None else Some (m, 0, rest)
  end.

(** [m * 10^e]; far outside the range of a double the power is not computed. *)
Definition decimal_value (m e : Z) : double :=
  if (m =? 0)%Z then d_zero
  else if (310 <? e + 3 * Z.log2 m / 10)%Z then S754_infinity false
  else if (e + (Z.log2 m + 1) / 3 <? -331)%Z then d_zero
  else if (0 <=? e)%Z then round_ratio (m * 10 ^ e) 1 else round_ratio m (10 ^ (- e)).

Definition lower_char (c : ascii) : ascii :=
  let n := nat_of_ascii c in if (65 <=? n) && (n <=? 90) then ascii_of_nat (n + 32) else c.
Fixpoint prefix_nocase (p s : string) : bool :=
  match p, s with
  | EmptyString, _ => true
  | String c p', String d s' => Ascii.eqb c (lower_char d) && prefix_nocase p' s'
  | _, EmptyString => false
  end.

(** The unsigned number at the start and the rest. *)
Definition scan_number (s : string) : option (double * string) :=
  if prefix_nocase "infinity" s then Some (S754_infinity false, str_drop 8 s)
  else if prefix_nocase "inf" s then Some (S754_infinity false, str_drop 3 s)
  else if prefix_nocase "nan" s then Some (S754_nan, str_drop 3 s)
  else
    let hex := if prefix_nocase "0x" s then scan_mantissa hex_val 16 (str_drop 2 s) else None in
    match hex with
    | Some (m, n, rest) =>
        let '(e, rest) := scan_exponent "p" "P" rest in
        Some (binary_normalize 53 1024 m (Z.max (-100000) (Z.min 100000 (e - 4 * Z.of_nat n))) false, rest)
    | None =>
        match scan_mantissa digit_val 10 s with
        | Some (m, n, rest) =>
            let '(e, rest) := scan_exponent "e" "E" rest in Some (decimal_value m (e - Z.of_nat n), rest)
        | None => None
        end
    end.
(** The value and [*end]; without a number, zero and the start. *)
Definition strtod (s : string) : double * string :=
  let '(neg, s2) := scan_sign (skip_space s) in
  match scan_number s2 with
  | Some (x, rest) => (if (neg : bool) then SFopp x else x, rest)
  | None => (d_zero, s)
  end.

Example strtod_samples :
  [strtod "12.5,"; strtod "-3}"; strtod "0.1"; strtod "1e3x"; strtod "."; strtod "0x10 "; strtod "5e"; strtod "1e999"; strtod "1e-999"; strtod "2e-3"; strtod "10000000000000000000000000000000000e-34"] =
  [(d_const 25 (-1), ","); (d_of_Z (-3), "}"); (d_div (d_of_Z 1) (d_of_Z 10), EmptyString); (d_of_Z 1000, "x"); (d_zero, ".");
   (d_of_Z 16, " "); (d_of_Z 5, "e"); (S754_infinity false, EmptyString); (d_zero, EmptyString); (d_div (d_of_Z 2) (d_of_Z 1000), EmptyString); (d_of_Z 1, EmptyString)]%string.
Proof. vm_compute. reflexivity. Qed.

(** ** Decimal numerals *)
Definition is_digit (c : ascii) : bool := match digit_val c with Some _ => true | None => false end.
Definition digits (s : string) : Prop := str_forall is_digit s = true.
(** What may follow a numeral: the end, or a character that does not continue it. *)
Definition ends_number (r : string) : Prop :=
  match r with EmptyString => True | String c _ => In c [","; "}"; "]"; " "]%char end.
Definition fraction (fp : option string) : string := match fp with Some f => "." +:+ f | None => EmptyString end.
(** A sign, digits, perhaps a point and digits. *)
Definition decimal (t : string) : Prop :=
  exists s ip fp, t = fmt_sign s +:+ ip +:+ fraction fp /\ digits ip /\ 0 < strlen ip /\ digits (default EmptyString fp).

Lemma scan_base_digits s r acc n :
  digits s -> scan_base digit_val 10 (s +:+ r) acc n = scan_base digit_val 10 r (scan_digits s acc).1 (n + strlen s).
Proof.
  unfold digits. revert acc n. induction s as [|c s IH]; intros acc n; [intros _; cbn; by rewrite Nat.add_0_r|].
  cbn [str_forall]. unfold is_digit at 1. rewrite str_app_cons. cbn [scan_base scan_digits].
  destruct (digit_val c); [|done]. intros Hs. rewrite IH by done. cbn [String.length]. f_equal. lia.
Qed.
Lemma scan_base_ends r acc n : ends_number r -> scan_base digit_val 10 r acc n = (acc, n, r).
Proof. destruct r as [|c r]; [done|]. intros H. by repeat (destruct H as [<-|H]; [done|]). Qed.
Lemma scan_exponent_ends r : ends_number r -> scan_exponent "e" "E" r = (0%Z, r).
Proof. destruct r as [|c r]; [done|]. intros H. by repeat (destruct H as [<-|H]; [done|]). Qed.

Lemma scan_mantissa_decimal ip fp r :
  digits ip -> 0 < strlen ip -> digits (default EmptyString fp) -> ends_number r ->
  scan_mantissa digit_val 10 (ip +:+ fraction fp +:+ r) =
  Some ((scan_digits (default EmptyString fp) (scan_digits ip 0).1).1, strlen (default EmptyString fp), r).
Proof.
  intros Hi Hl Hf Hr. unfold scan_mantissa. rewrite scan_base_digits by done. cbn [Nat.add].
  destruct fp as [f|]; cbn [fraction default].
  - change (("." +:+ f) +:+ r) with (String "." (f +:+ r)). cbn [scan_base]. change (digit_val ".") with (@None Z). cbv iota beta.
    rewrite scan_base_digits, scan_base_ends by done. by rewrite (proj2 (Nat.eqb_neq _ 0)) by lia.
  - change (EmptyString +:+ r) with r. rewrite scan_base_ends by done. rewrite (proj2 (Nat.eqb_neq _ 0)) by lia.
    destruct r as [|c r]; [done|]. by repeat (destruct Hr as [<-|Hr]; [done|]).
Qed.

(** A numeral starts with a digit and is not hexadecimal. *)
Lemma decimal_starts ip fp r :
  digits ip -> 0 < strlen ip -> ends_number r ->
  exists c t, ip +:+ fraction fp +:+ r = String c t /\ is_digit c = true /\ prefix_nocase "x" t = false.
Proof.
  destruct ip as [|c ip]; [intros ?; cbn; lia|]. unfold digits. cbn [str_forall]. intros [Hc Hs]%andb_true_iff _ Hr.
  exists c, (ip +:+ fraction fp +:+ r). rewrite str_app_cons. split_and!; [done..|].
  destruct ip as [|d ip].
  - change (EmptyString +:+ ?t) with t. destruct fp as [f|]; [done|]. change (fraction None +:+ r) with r.
    destruct r as [|e r]; [done|]. by repeat (destruct Hr as [<-|Hr]; [done|]).
  - cbn [str_forall] in Hs. apply andb_true_iff in Hs as [Hd _]. rewrite str_app_cons. clear -Hd.
    by destruct d as [[] [] [] [] [] [] [] []].
Qed.
Lemma digit_starts c t :
  is_digit c = true -> prefix_nocase "x" t = false ->
  prefix_nocase "infinity" (String c t) = false /\ prefix_nocase "inf" (String c t) = false /\
  prefix_nocase "nan" (String c t) = false /\ prefix_nocase "0x" (String c t) = false /\
  skip_space (String c t) = String c t /\ scan_sign (String c t) = (false, String c t).
Proof.
  intros Hc Ht. change (prefix_nocase "0x" (String c t)) with (Ascii.eqb "0" (lower_char c) && prefix_nocase "x" t).
  rewrite Ht, andb_false_r. by destruct c as [[] [] [] [] [] [] [] []].
Qed.

Lemma scan_number_decimal ip fp r :
  digits ip -> 0 < strlen ip -> digits (default EmptyString fp) -> ends_number r ->
  scan_number (ip +:+ fraction fp +:+ r) =
  Some (decimal_value (scan_digits (default EmptyString fp) (scan_digits ip 0).1).1 (- Z.of_nat (strlen (default EmptyString fp))), r).
Proof.
  intros Hi Hl Hf Hr. destruct (decimal_starts ip fp r Hi Hl Hr) as (c & t & He & Hc & Ht).
  destruct (digit_starts c t Hc Ht) as (H1 & H2 & H3 & H4 & _). unfold scan_number. rewrite scan_mantissa_decimal by done.
  rewrite He, H1, H2, H3, H4. by rewrite scan_exponent_ends by done.
Qed.
Lemma strtod_signed s ip fp r :
  digits ip -> 0 < strlen ip -> digits (default EmptyString fp) -> ends_number r ->
  strtod (fmt_sign s +:+ ip +:+ fraction fp +:+ r) =
  (let x := decimal_value (scan_digits (default EmptyString fp) (scan_digits ip 0).1).1 (- Z.of_nat (strlen (default EmptyString fp))) in
   if s then SFopp x else x, r).
Proof.
  intros Hi Hl Hf Hr. unfold strtod. pose proof (scan_number_decimal ip fp r Hi Hl Hf Hr) as Hn.
  destruct s; cbn [fmt_sign].
  - change ("-" +:+ ?t) with (String "-" t). cbn [skip_space]. change (is_space "-") with false. cbv iota.
    cbn [scan_sign]. cbv iota beta. by rewrite Hn.
  - change (EmptyString +:+ ?t) with t. destruct (decimal_starts ip fp r Hi Hl Hr) as (c & t & He & Hc & Ht).
    destruct (digit_starts c t Hc Ht) as (_ & _ & _ & _ & Hsp & Hs). rewrite He in *. by rewrite Hsp, Hs, Hn.
Qed.
(** A numeral is read to its end. *)
Lemma strtod_decimal t r : decimal t -> ends_number r -> strtod (t +:+ r) = ((strtod t).1, r).
Proof.
  intros (s & ip & fp & -> & Hi & Hl & Hf) Hr. rewrite !str_app_assoc.
  pose proof (strtod_signed s ip fp EmptyString Hi Hl Hf I) as He. rewrite str_app_nil_r in He. rewrite He.
  by rewrite strtod_signed.
Qed.

(** *** Printed numbers *)
Lemma digits_acc_digits fuel n acc : (0 <= n)%Z -> digits acc -> digits (digits_acc 10 fuel n acc).
Proof.
  unfold digits. revert n acc. induction fuel as [|f IH]; intros n acc Hn Ha; [done|]. cbn [digits_acc].
  assert (Hd : str_forall is_digit (String (digit_char (n mod 10)) acc) = true).
  { cbn [str_forall]. unfold is_digit. rewrite digit_char_val by (apply Z.mod_pos_bound; lia). done. }
  destruct (n / 10 =? 0)%Z; [done|]. apply IH; [apply Z.div_pos; lia|done].
Qed.
Lemma fmt_u_digits n : (0 <= n)%Z -> digits (fmt_u n).
Proof. intros Hn. by apply digits_acc_digits. Qed.
Lemma zeros_digits n t : digits t -> digits (zeros n +:+ t).
Proof. unfold digits. induction n as [|n IH]; [done|]. intros Ht. cbn [zeros]. rewrite str_app_cons. cbn [str_forall]. by rewrite IH. Qed.
Lemma fmt_u_decimal n : (0 <= n)%Z -> decimal (fmt_u n).
Proof.
  intros Hn. exists false, (fmt_u n), None. cbn [fmt_sign fraction]. rewrite str_app_nil_r.
  split_and!; [done|by apply fmt_u_digits|apply fmt_u_nonempty|done].
Qed.
Lemma scaled_nonneg p m e : (0 <= scaled p m e)%Z.
Proof.
  unfold scaled. destruct (0 <=? e)%Z eqn:E; [apply Z.mul_nonneg_nonneg; lia|]. unfold round_half_even.
  assert (0 <= Z.pos m * 10 ^ Z.of_nat p / 2 ^ (- e))%Z by (apply Z.div_pos; [lia|apply Z.pow_pos_nonneg; lia]).
  repeat case_match; lia.
Qed.
Lemma fmt_fixed_decimal s p k : (0 <= k)%Z -> decimal (fmt_sign s +:+ fmt_fixed p k).
Proof.
  intros Hk. pose proof (Z.pow_pos_nonneg 10 (Z.of_nat p)) as Hp.
  exists s, (fmt_u (k / 10 ^ Z.of_nat p)), (if p =? 0 then None else Some (pad0 p (fmt_u (k mod 10 ^ Z.of_nat p)))).
  split_and!; [by unfold fmt_fixed; destruct (p =? 0)|apply fmt_u_digits, Z.div_pos; lia|apply fmt_u_nonempty|].
  destruct (p =? 0); [done|]. apply zeros_digits, fmt_u_digits, Z.mod_pos_bound. lia.
Qed.
Definition finite (x : double) : Prop := match x with S754_zero _ | S754_finite _ _ _ => True | _ => False end.
Lemma fmt_f_decimal p x : finite x -> decimal (fmt_f p x).
Proof. destruct x as [s|s| |s m e]; try done; intros _; apply fmt_fixed_decimal; [done|apply scaled_nonneg]. Qed.
(** [%u] and [%llu] are read back to the nearest double. *)
Lemma strtod_fmt_u n : in_u64 n -> (strtod (fmt_u n)).1 = d_of_Z n.
Proof.
  intros Hn. unfold in_u64 in Hn.
  replace (fmt_u n) with (fmt_sign false +:+ fmt_u n +:+ fraction None +:+ EmptyString) at 1
    by (cbn [fraction fmt_sign]; rewrite !str_app_nil_r; done).
  rewrite strtod_signed; [|apply fmt_u_digits; lia|apply fmt_u_nonempty|done..]. cbn [fst default String.length scan_digits].
  destruct (scan_fmt_u n ltac:(lia)) as [Hs _]. rewrite Hs. cbn [fst].
  change (scan_digits EmptyString n).1 with n. change (- Z.of_nat 0)%Z with 0%Z. unfold decimal_value. destruct (n =? 0)%Z eqn:E; [by apply Z.eqb_eq in E as ->|].
  assert (Z.log2 n < 64)%Z by (apply Z.log2_lt_pow2; lia).
  pose proof (Z.log2_nonneg n). assert (3 * Z.log2 n / 10 <= 192 / 10)%Z by (apply Z.div_le_mono; lia). change (192 / 10)%Z with 19%Z in *.
  rewrite (proj2 (Z.ltb_ge _ _)) by lia.
  rewrite (proj2 (Z.ltb_ge _ _)) by (assert (0 <= (Z.log2 n + 1) / 3)%Z by (apply Z.div_pos; lia); lia).
  unfold round_ratio. cbn [Z.leb Z.compare Z.eqb Pos.eqb]. by rewrite Z.mul_1_r.
Qed.
