(* ===== verification/LuaApi.v ===== *)
(** * The Lua interface

    The vendored interpreter is not modelled; this file says what the bindings see of it:
    values, the auxiliary library's argument checks, C functions that return values or raise
    an error, and chunks.  A chunk is the tree of the C functions it calls, each continuing
    with the function's results or with its error; whatever else a chunk does is its own.
    What the interpreter decides (number conversions, messages, the order of a table) is the
    class [LuaLib], loading is [LuaLoad]. *)

From S2P Require Import Prelude CStr StrSearch Float754 Strtod.

(** ** Values *)
Inductive lval :=
  | LNil
  | LBool (b : bool)
  | LInt (z : Z)
  | LNum (d : double)
  | LStr (s : string)
  | LTable (fields : list (lval * lval))
  | LOther (typename : string).

Definition type_name (v : lval) : string :=
  match v with
  | LNil => "nil" | LBool _ => "boolean" | LInt _ | LNum _ => "number" | LStr _ => "string" | LTable _ => "table"
  | LOther t => t
  end%string.
Definition is_nil (v : lval) : bool := match v with LNil => true | _ => false end.
Definition is_string (v : lval) : bool := match v with LStr _ => true | _ => false end.
Definition to_boolean (v : lval) : bool := match v with LNil | LBool false => false | _ => true end.

(** [lua_createtable] and a sequence of [lua_setfield] or [lua_rawseti]. *)
Definition fields_table (fs : list (string * lval)) : lval := LTable ((fun '(k, v) => (LStr k, v)) <$> fs).
Definition array_table (vs : list lval) : lval := LTable (imap (fun i v => (LInt (Z.of_nat i + 1), v)) vs).
(** [lua_getfield] of a table made so. *)
Definition get_field (v : lval) (k : string) : lval :=
  match v with
  | LTable fs => match find (fun '(k', _) => match k' with LStr s => streq s k | _ => false end) fs with
                 | Some (_, v) => v
                 | None => LNil
                 end
  | _ => LNil
  end.

(** [lua_Integer] of an unsigned 64-bit number. *)
Definition i64 (z : Z) : Z := ((z + 9223372036854775808) mod 18446744073709551616 - 9223372036854775808)%Z.
Definition push_integer (z : Z) : lval := LInt (i64 z).
Definition push_boolean (z : Z) : lval := LBool (truthy z).
Definition push_float (x : float) : lval := LNum (d_of_f x).

Class LuaLib := {
  number_text : double -> string;          (* the text of a float *)
  number_integer : double -> option Z;     (* a float with an integral value *)
  string_integer : string -> option Z;     (* a numeral *)
  string_number : string -> option double;
  bad_argument : nat -> string -> option lval -> string;
  table_order : list (lval * lval) -> list (lval * lval);   (* as [lua_next] goes through it *)
  table_order_perm : forall l, table_order l ≡ₚ l;
}.

Section conversions.
Context `{!LuaLib}.

(** [lua_tostring], and [lua_tointegerx] (of 64 bits). *)
Definition to_lstring (v : lval) : option string :=
  match v with LStr s => Some s | LInt z => Some (fmt_d z) | LNum d => Some (number_text d) | _ => None end.
Definition to_integer (v : lval) : option Z :=
  match v with LInt z => Some z | LNum d => number_integer d | LStr s => string_integer s | _ => None end.
(** [lua_tonumberx]. *)
Definition to_number (v : lval) : option double :=
  match v with LInt z => Some (d_of_Z z) | LNum d => Some d | LStr s => string_number s | _ => None end.
(** The text of an error object that the C side reads, [NULL] for other values. *)
Definition error_text (v : lval) : option string := option_map cstr (to_lstring v).
End conversions.

(** ** C functions

    A C function runs on the embedding program's state [S]: it returns its results or
    raises an error with a message ([luaL_error], which does not return; the position it
    puts in front is the chunk's); the state keeps what was done before.  [Oob] is a read outside a buffer. *)
Definition cfun (S A : Type) : Type := S -> chk ((A + string) * S).
#[export] Instance cfun_ret S : MRet (cfun S) := fun A x s => Safe (inl x, s).
#[export] Instance cfun_bind S : MBind (cfun S) := fun A B k m s =>
  match m s with
  | Safe (inl x, s) => k x s
  | Safe (inr e, s) => Safe (inr e, s)
  | Oob => Oob
  end.
Definition lua_error {S A} (msg : string) : cfun S A := fun s => Safe (inr msg, s).
Definition get_state {S} : cfun S S := fun s => Safe (inl s, s).
Definition set_state {S} (s' : S) : cfun S unit := fun _ => Safe (inl tt, s').
Definition checked {S A} (m : chk A) : cfun S A := fun s => x ← m; Safe (inl x, s).

Section args.
Context `{!LuaLib} {S : Type}.

(** [luaL_checkstring] (the text up to a NUL) and [luaL_checkinteger] of the argument [i],
    counted from 1. *)
Definition check_string (args : list lval) (i : nat) : cfun S string :=
  match args !! (i - 1) with
  | Some v => match to_lstring v with Some s => mret (cstr s) | None => lua_error (bad_argument i "string" (Some v)) end
  | None => lua_error (bad_argument i "string" None)
  end.
Definition check_integer (args : list lval) (i : nat) : cfun S Z :=
  match args !! (i - 1) with
  | Some v => match to_integer v with Some z => mret z | None => lua_error (bad_argument i "number" (Some v)) end
  | None => lua_error (bad_argument i "number" None)
  end.
(** [lua_gettop(L) >= i && !lua_isnil(L, i)] *)
Definition given_arg (args : list lval) (i : nat) : bool :=
  match args !! (i - 1) with Some v => negb (is_nil v) | None => false end.
Definition opt_string (args : list lval) (i : nat) : cfun S (option string) :=
  if given_arg args i then s ← check_string args i; mret (Some s) else mret None.
Definition opt_integer (args : list lval) (i : nat) : cfun S (option Z) :=
  if given_arg args i then z ← check_integer args i; mret (Some z) else mret None.
End args.

(** ** Chunks *)
Inductive chunk :=
  | Return (vs : list lval)
  | Raise (err : lval)
  | CallC (f : string) (args : list lval) (k : list lval + lval -> chunk).

(** [luaL_loadstring] and [luaL_loadfile]: the compiled chunk, or the message. *)
Class LuaLoad := {
  load_string : string -> chunk + lval;
  load_file : string -> chunk + lval;
}.

(** [lua_pcall] of a chunk; [call] runs a C function of the global table by its name. *)
Fixpoint run_chunk {S} (call : string -> list lval -> cfun S (list lval)) (c : chunk) (s : S)
    : chk ((list lval + lval) * S) :=
  match c with
  | Return vs => mret (inl vs, s)
  | Raise e => mret (inr e, s)
  | CallC f args k =>
      r ← call f args s;
      let '(x, s) := r in
      run_chunk call (k (match x with inl vs => inl vs | inr msg => inr (LStr msg) end)) s
  end.

(** What was loaded is run; the result code and the message that the C side reads. *)
Definition run_loaded {S} (call : string -> list lval -> cfun S (list lval)) (loaded : chunk + lval) (s : S)
    : chk ((list lval + lval) * S) :=
  match loaded with
  | inl c => run_chunk call c s
  | inr e => mret (inr e, s)
  end.
Definition script_error `{!LuaLib} (r : list lval + lval) (err : errbuf) : Z * errbuf :=
  match r with
  | inl _ => (0%Z, err)
  | inr e => ((-1)%Z, err_set err (default "lua error"%string (error_text e)))
  end.

(** What the prompts ask of linenoise's history. *)
Inductive history_call := HistoryLoad (path : string) | HistoryAdd (line : string) | HistorySave (path : string).

(** ** Reasoning *)

(** A function that keeps [P] of the state, whatever it returns. *)
Definition keeps {S A} (P : S -> Prop) (m : cfun S A) : Prop :=
  forall s, P s -> safe_with (fun r => P r.2) (m s).

Section keeps.
Context {S : Type} (P : S -> Prop).

Lemma keeps_ret {A} (x : A) : keeps P (mret x).
Proof. intros s Hs. by eexists. Qed.
Lemma keeps_error {A} msg : keeps P (lua_error (A := A) msg).
Proof. intros s Hs. by eexists. Qed.
Lemma keeps_bind {A B} (m : cfun S A) (k : A -> cfun S B) : keeps P m -> (forall x, keeps P (k x)) -> keeps P (m ≫= k).
Proof.
  intros Hm Hk s Hs. destruct (Hm s Hs) as ([[x|e] s1] & Hrun & H1); unfold mbind, cfun_bind; rewrite Hrun; cbn [snd] in *.
  - by apply Hk.
  - by eexists.
Qed.
Lemma keeps_if {A} (b : bool) (m1 m2 : cfun S A) : keeps P m1 -> keeps P m2 -> keeps P (if b then m1 else m2).
Proof. by destruct b. Qed.
Lemma keeps_get {A} (k : S -> cfun S A) : (forall s, P s -> safe_with (fun r => P r.2) (k s s)) -> keeps P (get_state ≫= k).
Proof. intros Hk s Hs. exact (Hk s Hs). Qed.

Lemma keeps_check_string `{!LuaLib} args i : keeps P (check_string args i).
Proof. unfold check_string. destruct (args !! _) as [v|]; [destruct (to_lstring v)|]; auto using keeps_ret, keeps_error. Qed.
Lemma keeps_check_integer `{!LuaLib} args i : keeps P (check_integer args i).
Proof. unfold check_integer. destruct (args !! _) as [v|]; [destruct (to_integer v)|]; auto using keeps_ret, keeps_error. Qed.
Lemma keeps_opt_string `{!LuaLib} args i : keeps P (opt_string args i).
Proof. unfold opt_string. apply keeps_if; [|apply keeps_ret]. apply keeps_bind; auto using keeps_check_string, keeps_ret. Qed.
Lemma keeps_opt_integer `{!LuaLib} args i : keeps P (opt_integer args i).
Proof. unfold opt_integer. apply keeps_if; [|apply keeps_ret]. apply keeps_bind; auto using keeps_check_integer, keeps_ret. Qed.

(** Chunks keep what their functions keep. *)
Lemma run_chunk_keeps call c :
  (forall f args, keeps P (call f args)) -> forall s, P s -> safe_with (fun r => P r.2) (run_chunk call c s).
Proof.
  intros Hcall. induction c as [vs|e|f args k IH]; intros s Hs; cbn [run_chunk].
  - by apply safe_ret.
  - by apply safe_ret.
  - destruct (Hcall f args s Hs) as ([x s1] & Hrun & H1). rewrite Hrun. cbn [mbind chk_bind]. by apply IH.
Qed.
End keeps.
Create HintDb lua.
#[export] Hint Resolve keeps_ret keeps_error keeps_check_string keeps_check_integer keeps_opt_string keeps_opt_integer : lua.

(** Conversions of a small interpreter. *)
Definition toy_lua : LuaLib.
Proof.
  refine {| number_text := fmt_f 1; number_integer := fun _ => None; string_integer := fun _ => None;
            bad_argument := fun i t _ => "bad argument #" +:+ fmt_u (Z.of_nat i) +:+ " (" +:+ t +:+ " expected)";
            string_number := fun s => if str_forall is_digit s && nonempty s then Some (strtod s).1 else None;
            table_order := fun l => l |}. done.
Defined.
