(* ===== verification/LuaBind.v ===== *)
(** * The agent's Lua functions (src/agent/lua_bind.c)

    The functions of the global table [cpe] that a Lua script uses to drive the agent, their
    registration, and the running of scripts.  A function is a [cfun] on the state of the
    process; what the outside world answers during the [n]-th call is [envs n]. *)

From S2P Require Import Prelude CStr Float754 Clock HostAlloc Config SpoolDir Spool Events PerfSample Nflog TcpStats.
From S2P Require Import TcpEmit TcpInv Nfct FlowEntry FlowTable FlowAcct AgentData Agent AgentConfig Icmp LivePing.
From S2P Require Import TraceProbe LiveTrace AgentRun AgentLoop WifiStats LiveArping LuaApi.
From S2P Require Import StrSearch.

(** ** Tables of results *)
Definition push_sample (s : cpe_perf_sample) : lval := fields_table [
  ("probe", LStr (ps_probe s)); ("target", LStr (ps_target s)); ("rtt_ms", LNum (ps_rtt_ms s));
  ("loss", push_float (ps_loss s)); ("ts", LStr (ps_ts_iso s)); ("meta", LStr (ps_meta s))]%string.

Definition config_table (c : cpe_agent_config) : lval := fields_table [
  ("router_id", LStr (router_id c)); ("emit_mode", LStr (emit_mode c)); ("spool_path", LStr (spool_path c));
  ("target", LStr (demo_target c)); ("iface", LStr (arping_if c)); ("wifi_if", LStr (wifi_if c));
  ("demo", push_boolean (demo_mode c)); ("interval_ms", push_integer (demo_interval_ms c));
  ("timeout_ms", push_integer (probe_timeout_ms c)); ("spool_max_lines", push_integer (spool_max_lines c));
  ("generation", push_integer (generation c)); ("tcp_stats", push_boolean (tcp_stats_enabled c));
  ("tcp_nflog_group", push_integer (tcp_nflog_group c)); ("tcp_prefix_len", push_integer (tcp_prefix_len c))]%string.

Definition push_wifi_iface (i : cpe_wifi_iface_state) : lval := fields_table [
  ("ifname", LStr (wif_ifname i)); ("ifindex", push_integer (wif_ifindex i)); ("up", push_boolean (wif_up i));
  ("running", push_boolean (wif_running i)); ("wireless", push_boolean (wif_wireless i));
  ("operstate", LStr (wif_operstate i)); ("mac", LStr (wif_mac i)); ("mtu", push_integer (wif_mtu i))]%string.
Definition push_wifi_station (s : cpe_wifi_station) : lval := fields_table [
  ("mac", LStr (sta_mac s)); ("rssi", push_integer (sta_signal_dbm s)); ("rssi_avg", push_integer (sta_signal_avg_dbm s));
  ("snr", push_integer (sta_snr_db s)); ("mcs", push_integer (sta_mcs s)); ("tx_retries", push_integer (sta_tx_retries s));
  ("tx_failed", push_integer (sta_tx_failed s)); ("rx_bytes", push_integer (sta_rx_bytes s));
  ("tx_bytes", push_integer (sta_tx_bytes s)); ("freq_mhz", push_integer (sta_freq_mhz s));
  ("has_signal", push_boolean (sta_has_signal s)); ("has_mcs", push_boolean (sta_has_mcs s))]%string.
Definition push_wifi_snapshot (snap : cpe_wifi_snapshot) : lval := fields_table ([
  ("iface", push_wifi_iface (wfs_iface snap)); ("stations", array_table (push_wifi_station <$> wfs_stations snap));
  ("station_count", push_integer (Z.of_nat (length (wfs_stations snap))));
  ("stations_valid", push_boolean (wfs_stations_valid snap)); ("demo", push_boolean (wfs_demo snap));
  ("ts", LStr (wfs_ts_iso snap))]%string ++ (if nonempty (wfs_err snap) then [("err"%string, LStr (wfs_err snap))] else [])).

Definition push_trace_hop (h : cpe_trace_hop) : lval := fields_table [
  ("hop", push_integer (hop_hop h)); ("addr", LStr (hop_addr h)); ("sent", push_integer (hop_sent h));
  ("replies", push_integer (hop_replies h)); ("timeouts", push_integer (hop_timeouts h));
  ("rtt_ms", LNum (hop_last_rtt_ms h)); ("avg_rtt_ms", LNum (hop_avg_rtt_ms h)); ("min_rtt_ms", LNum (hop_min_rtt_ms h));
  ("max_rtt_ms", LNum (hop_max_rtt_ms h)); ("loss", push_float (hop_loss h)); ("reached_dest", push_boolean (hop_reached_dest h))]%string.
Definition push_trace_result (tr : cpe_trace_result) : lval := fields_table [
  ("target", LStr (trr_target tr)); ("ts", LStr (trr_ts_iso tr)); ("method", LStr (trr_method tr));
  ("max_ttl", push_integer (trr_max_ttl tr)); ("probes", push_integer (trr_probes_per_hop tr));
  ("hop_count", push_integer (Z.of_nat (length (trr_hops tr)))); ("reached", push_boolean (trr_reached tr));
  ("dest_rtt_ms", LNum (trr_dest_rtt_ms tr)); ("hops", array_table (push_trace_hop <$> trr_hops tr))]%string.

Definition push_tcp_remote (r : cpe_tcp_remote) : lval := fields_table [
  ("remote_ip", LStr (tr_remote_ip r)); ("local_ip", LStr (tr_local_ip r)); ("remote_port", push_integer (tr_remote_port r));
  ("local_port", push_integer (tr_local_port r)); ("syn", push_integer (tr_syn_count r)); ("fin", push_integer (tr_fin_count r));
  ("rst", push_integer (tr_rst_count r)); ("syn_retrans", push_integer (tr_syn_retrans r)); ("pkts", push_integer (tr_pkt_count r));
  ("bytes", push_integer (tr_bytes_est r));
  ("loss_hint", push_float (cpe_tcp_loss_hint (tr_syn_count r) (tr_fin_count r) (tr_rst_count r) (tr_syn_retrans r)))]%string.
Definition push_tcp_prefix (p : cpe_tcp_prefix) : lval := fields_table [
  ("prefix", LStr (tx_prefix p)); ("remotes", push_integer (tx_remote_count p)); ("syn", push_integer (tx_syn_count p));
  ("fin", push_integer (tx_fin_count p)); ("rst", push_integer (tx_rst_count p)); ("syn_retrans", push_integer (tx_syn_retrans p));
  ("pkts", push_integer (tx_pkt_count p)); ("bytes", push_integer (tx_bytes_est p));
  ("loss_hint", push_float (cpe_tcp_loss_hint (tx_syn_count p) (tx_fin_count p) (tx_rst_count p) (tx_syn_retrans p)))]%string.
Definition tcp_table (snap : cpe_tcp_snapshot) : lval := fields_table [
  ("nflog_group", push_integer (sn_nflog_group snap)); ("syn", push_integer (sn_syn_total snap));
  ("fin", push_integer (sn_fin_total snap)); ("rst", push_integer (sn_rst_total snap));
  ("syn_retrans", push_integer (sn_syn_retrans_total snap)); ("pkts", push_integer (sn_pkt_total snap));
  ("bytes", push_integer (sn_bytes_total snap)); ("remotes", push_integer (Z.of_nat (length (sn_remotes snap))));
  ("prefixes", push_integer (Z.of_nat (length (sn_prefixes snap)))); ("prefix_len", push_integer (sn_prefix_len snap));
  ("loss_hint", push_float (cpe_tcp_loss_hint (sn_syn_total snap) (sn_fin_total snap) (sn_rst_total snap) (sn_syn_retrans_total snap)));
  ("ts", LStr (sn_ts_iso snap)); ("pkts_parsed", push_integer (sn_pkts_parsed snap))]%string.

(** ** The process *)

(** What the outside world answers during a call. *)
Record lua_env := {
  lue_open : open_env;
  lue_calloc : Z -> option addr;
  lue_load : option string -> errbuf -> Z * option cpe_agent_config * errbuf;
  lue_icmp : icmp_env;
  lue_arp : arp_env;
  lue_trace : trace_env;
  lue_wifi : wifi_env;
  lue_emit : emit_env;
  lue_nflog : nl_env;
  lue_recvs : list recv_result;
  lue_clk : clock;
}.
Record lua_state (P C FS : Type) := {
  lu_agent : agent P C;
  lu_bound : bool;            (* the registry holds the agent's pointer *)
  lu_heap : alloc_stats;
  lu_fs : FS;
  lu_out : list string;       (* standard output and the spool file *)
  lu_err : list string;
  lu_seq : Z;                 (* the static counters of the probes *)
  lu_port_seq : Z;
  lu_calls : nat;
}.
Arguments lu_agent {P C FS}. Arguments lu_bound {P C FS}. Arguments lu_heap {P C FS}. Arguments lu_fs {P C FS}.
Arguments lu_out {P C FS}. Arguments lu_err {P C FS}. Arguments lu_seq {P C FS}. Arguments lu_port_seq {P C FS}.
Arguments lu_calls {P C FS}.
#[export] Instance eta_lua_state P C FS : Eta (lua_state P C FS) := fun s => {|
  lu_agent := lu_agent s; lu_bound := lu_bound s; lu_heap := lu_heap s; lu_fs := lu_fs s; lu_out := lu_out s;
  lu_err := lu_err s; lu_seq := lu_seq s; lu_port_seq := lu_port_seq s; lu_calls := lu_calls s |}.

(** [cpe_lua_print_help] *)
Definition help_text : list string := [
  "cpe_agent Lua tools (global table `cpe`):";
  "  cpe.help()                 -- this text";
  "  cpe.config()               -- current config table";
  "  cpe.set_target(ip)         -- probe destination (ping/arping)";
  "  cpe.set_router_id(id)";
  "  cpe.set_interval(ms)";
  "  cpe.set_iface(name)        -- L2 interface for arping";
  "  cpe.set_wifi_if(name)      -- Wi-Fi iface for nl80211 stats";
  "  cpe.live_ping([ip])        -- live ICMP sample → table + emit";
  "  cpe.arping([ip],[iface])   -- live ARP (CAP_NET_RAW) → table";
  "  cpe.traceroute([ip],[max_ttl],[timeout_ms]) -- hop path → table";
  "  cpe.mtr([ip],[probes],[max_ttl],[timeout_ms]) -- multi-probe hops";
  "  cpe.last_trace()           -- last traceroute/mtr result or nil";
  "  cpe.wifi_list()            -- wireless-looking ifaces";
  "  cpe.wifi_state([iface])    -- operstate/up/mac/mtu table";
  "  cpe.wifi_stats([iface],[emit]) -- iface + station dump (nl80211)";
  "  cpe.last_wifi()            -- last Wi-Fi snapshot or nil";
  "  cpe.sample()               -- one live ICMP tick → table + emit";
  "  cpe.last_sample()          -- last sample table or nil";
  "  cpe.latency()              -- JSON string (get_local_latency)";
  "  cpe.ndjson()               -- last sample as cpe_perf line";
  "  cpe.emit()                 -- flush spool per emit.mode";
  "  cpe.spool_depth() / cpe.spool_drops()";
  "  cpe.reload([path])         -- re-read YAML";
  "  cpe.dofile(path)           -- run a tool script";
  "  cpe.tcp_open([group])      -- enable + bind NFLOG (default group 5)";
  "  cpe.tcp_poll([max])        -- drain NFLOG; return packet count";
  "  cpe.tcp_stats()            -- summary SYN/FIN/RST/bytes/loss_hint";
  "  cpe.tcp_by_ip([ip])        -- one remote or array of remotes";
  "  cpe.tcp_by_prefix([cidr])  -- one prefix or array (e.g. Netflix CDN)";
  "  cpe.tcp_emit([top_n])      -- push cpe_tcp NDJSON to spool";
  "  cpe.tcp_reset()            -- clear TCP counters";
  EmptyString;
  "Note: synthetic demo probes are not exposed to Lua (C fuzz / dialectic only).";
  "TCP stats need host iptables NFLOG rules + CAP_NET_ADMIN (or tcp_feed tests).";
  "REPL: quit | exit | Ctrl-D to leave. Up-arrow recalls history.";
  "AI harness: register tool scripts that call cpe.* and return tables."]%string.


Section bind.
Context {P C FS : Type} `{!PingLib P} {E : Type} `{!EventSource P E} `{!QSort} `{!FileSystem FS}
  {W : Type} `{!WifiLib W} `{!EventSource W nl80211_event} `{!LuaLib} `{!LuaLoad}.
Local Abbreviation agent := (agent P C).
Local Abbreviation state := (lua_state P C FS).
Local Abbreviation lua := (cfun (lua_state P C FS)).
Local Abbreviation tcp_emit := (@cpe_agent_tcp_emit queues queues_sink _).
Context (envs : nat -> lua_env).

Definition the_env : lua lua_env := s ← get_state; mret (envs (lu_calls s)).
(** [l_agent] and the guard every function begins with. *)
Definition l_agent : lua agent := s ← get_state; if lu_bound s then mret (lu_agent s) else lua_error "no agent".
Definition put_agent (a : agent) : lua unit := s ← get_state; set_state (s <| lu_agent := a |>).
Definition print_out (lines : list string) : lua unit := s ← get_state; set_state (s <| lu_out := lu_out s ++ lines |>).
Definition print_err (line : string) : lua unit := s ← get_state; set_state (s <| lu_err := lu_err s ++ [line] |>).

Definition drain_events : lua unit :=
  s ← get_state;
  let a := lu_agent s in let q := ag_q a in
  put_agent (a <| ag_q := drain_queue (eq_cnt q + 1) q |>).
(** [if (cpe_agent_apply_config(a, &cfg) != 0) { drain_events(a); return luaL_error(L, msg); }
    drain_events(a);] *)
Definition apply_or (cfg : cpe_agent_config) (msg : string) : lua unit :=
  env ← the_env; s ← get_state;
  let '(rc, a, h) := cpe_agent_apply_config (lue_open env) (lue_calloc env) (lu_heap s) (lu_agent s) cfg in
  set_state (s <| lu_agent := a |> <| lu_heap := h |>) ;;
  drain_events ;;
  if negb (rc =? 0)%Z then lua_error msg else mret tt.
Definition emit_flush : lua Z :=
  env ← the_env; s ← get_state;
  let '(n, a, out, fs) := cpe_agent_emit_flush (lue_emit env) (lu_fs s) (lu_agent s) in
  set_state (s <| lu_agent := a |> <| lu_out := lu_out s ++ out |> <| lu_fs := fs |>) ;;
  mret n.
(** The tail of the probes. *)
Definition last_sample : lua (list lval) :=
  a ← l_agent;
  mret (match cpe_agent_last_sample a with (0%Z, Some s) => [push_sample s] | _ => [LNil] end).
Definition flush_and_report : lua (list lval) := emit_flush ;; drain_events ;; last_sample.
Definition live_ping_tick : lua Z :=
  env ← the_env; s ← get_state;
  r ← checked (cpe_agent_live_ping_tick (E := E) (lue_icmp env) (lu_agent s) (lu_seq s));
  let '(rc, a, seq) := r in
  set_state (s <| lu_agent := a |> <| lu_seq := seq |>) ;;
  mret rc.

(** A string argument shorter than [max]. *)
Definition check_short (args : list lval) (i max : nat) (msg : string) : lua string :=
  t ← check_string args i; if max <=? strlen t then lua_error msg else mret t.
Definition opt_short (args : list lval) (i max : nat) (msg : string) : lua (option string) :=
  o ← opt_string args i;
  match o with Some t => if max <=? strlen t then lua_error msg else mret (Some t) | None => mret None end.

(** ** Configuration *)
Definition l_help (args : list lval) : lua (list lval) := print_out help_text ;; mret [].
Definition l_config (args : list lval) : lua (list lval) := a ← l_agent; mret [config_table (ag_cfg a)].

Definition l_set_target (args : list lval) : lua (list lval) :=
  a ← l_agent;
  target ← check_short args 1 CPE_CFG_TARGET_MAX "target too long";
  apply_or ((ag_cfg a) <| demo_target := snprintf_s CPE_CFG_TARGET_MAX target |>) "apply_config failed for target" ;;
  mret [LBool true].
Definition l_set_router_id (args : list lval) : lua (list lval) :=
  a ← l_agent;
  rid ← check_short args 1 CPE_CFG_ROUTER_ID_MAX "router_id too long";
  apply_or ((ag_cfg a) <| router_id := snprintf_s CPE_CFG_ROUTER_ID_MAX rid |>) "apply_config failed for router_id" ;;
  mret [LBool true].
Definition l_set_interval (args : list lval) : lua (list lval) :=
  a ← l_agent;
  ms ← check_integer args 1;
  if (ms <? 1)%Z || (3600000 <? ms)%Z then lua_error "interval_ms out of range"
  else
    apply_or ((ag_cfg a) <| demo_interval_ms := u32 ms |> <| sample_interval_ms := u32 ms |>)
      "apply_config failed for interval" ;;
    mret [LBool true].
Definition l_set_iface (args : list lval) : lua (list lval) :=
  a ← l_agent;
  iface ← check_short args 1 CPE_CFG_IFACE_MAX "iface too long";
  apply_or ((ag_cfg a) <| arping_if := snprintf_s CPE_CFG_IFACE_MAX iface |>) "apply_config failed for iface" ;;
  mret [LBool true].
Definition l_set_wifi_if (args : list lval) : lua (list lval) :=
  a ← l_agent;
  iface ← check_short args 1 CPE_CFG_IFACE_MAX "wifi iface too long";
  apply_or ((ag_cfg a) <| wifi_if := snprintf_s CPE_CFG_IFACE_MAX iface |>) "apply_config failed for wifi_if" ;;
  mret [LBool true].

Definition l_reload (args : list lval) : lua (list lval) :=
  _ ← l_agent;
  path ← opt_string args 1;
  env ← the_env; s ← get_state;
  let '(rc, a, h, err) := cpe_agent_reload_config (lue_load env) (lue_open env) (lue_calloc env) (lu_heap s) (lu_agent s)
                            path None (Some (160, EmptyString)) in
  set_state (s <| lu_agent := a |> <| lu_heap := h |>) ;;
  drain_events ;;
  if negb (rc =? 0)%Z then lua_error ("reload failed: " +:+ str_dflt (err_text err) "unknown") else mret [LBool true].

(** ** Probes *)
Definition l_live_ping (args : list lval) : lua (list lval) :=
  a ← l_agent;
  target ← opt_short args 1 CPE_CFG_TARGET_MAX "target too long";
  let cfg := ag_cfg a in
  match target with
  | Some t => apply_or (cfg <| demo_target := snprintf_s CPE_CFG_TARGET_MAX t |> <| demo_mode := 0%Z |>) "apply_config failed"
  | None => if truthy (demo_mode cfg) then apply_or (cfg <| demo_mode := 0%Z |>) "cannot disable demo for live_ping" else mret tt
  end ;;
  rc ← live_ping_tick;
  if negb (rc =? 0)%Z then lua_error "live_ping failed (ICMP socket / capability?)" else flush_and_report.
Definition l_sample (args : list lval) : lua (list lval) :=
  a ← l_agent;
  let cfg := ag_cfg a in
  (if truthy (demo_mode cfg) then apply_or (cfg <| demo_mode := 0%Z |>) "cannot disable demo for sample" else mret tt) ;;
  rc ← live_ping_tick;
  if negb (rc =? 0)%Z then lua_error "sample failed (ICMP socket / capability?)" else flush_and_report.
Definition l_arping (args : list lval) : lua (list lval) :=
  a ← l_agent;
  target ← opt_short args 1 CPE_CFG_TARGET_MAX "target too long";
  iface ← opt_short args 2 CPE_CFG_IFACE_MAX "iface too long";
  env ← the_env;
  r ← checked (cpe_agent_arping (lue_arp env) a target iface);
  put_agent r.2 ;;
  if negb (r.1 =? 0)%Z then lua_error "arping failed (AF_PACKET / CAP_NET_RAW / bad iface or IP?)" else flush_and_report.

(** [timeout_ms], when the argument is given. *)
Definition opt_timeout (args : list lval) (i : nat) : lua Z :=
  t ← opt_integer args i;
  match t with
  | Some t => if (t <? 0)%Z || (60000 <? t)%Z then lua_error "timeout_ms out of range" else mret (u32 t)
  | None => mret 0%Z
  end.
Definition opt_int (args : list lval) (i : nat) : lua Z := z ← opt_integer args i; mret (default 0%Z (option_map i32 z)).
Definition trace_and_report (r : Z * agent * option cpe_trace_result * Z) (msg : string) : lua (list lval) :=
  let '(rc, a, tr, ps) := r in
  s ← get_state;
  set_state (s <| lu_agent := a |> <| lu_port_seq := ps |>) ;;
  match tr with
  | Some tr => if negb (rc =? 0)%Z then lua_error msg else emit_flush ;; drain_events ;; mret [push_trace_result tr]
  | None => lua_error msg
  end.
Definition l_traceroute (args : list lval) : lua (list lval) :=
  a ← l_agent;
  target ← opt_short args 1 CPE_CFG_TARGET_MAX "target too long";
  max_ttl ← opt_int args 2;
  timeout_ms ← opt_timeout args 3;
  env ← the_env; s ← get_state;
  r ← checked (cpe_agent_traceroute (lue_trace env) a target max_ttl timeout_ms (lu_port_seq s));
  trace_and_report r "traceroute failed (socket / target / privileges?)".
Definition l_mtr (args : list lval) : lua (list lval) :=
  a ← l_agent;
  target ← opt_short args 1 CPE_CFG_TARGET_MAX "target too long";
  probes ← opt_int args 2;
  max_ttl ← opt_int args 3;
  timeout_ms ← opt_timeout args 4;
  env ← the_env; s ← get_state;
  r ← checked (cpe_agent_mtr (lue_trace env) a target max_ttl probes timeout_ms (lu_port_seq s));
  trace_and_report r "mtr failed (socket / target / privileges?)".
Definition l_last_trace (args : list lval) : lua (list lval) :=
  a ← l_agent;
  mret (match cpe_agent_last_trace a with (0%Z, Some tr) => [push_trace_result tr] | _ => [LNil] end).
Definition l_last_sample (args : list lval) : lua (list lval) := last_sample.

(** ** Wi-Fi *)
Definition l_wifi_state (args : list lval) : lua (list lval) :=
  a ← l_agent;
  iface ← opt_string args 1;
  env ← the_env;
  let '(rc, st) := cpe_agent_wifi_iface_state (lue_wifi env) (ag_cfg a) iface in
  if negb (rc =? 0)%Z then lua_error "wifi iface not found" else mret [push_wifi_iface st].
Definition l_wifi_stats (args : list lval) : lua (list lval) :=
  _ ← l_agent;
  iface ← opt_string args 1;
  let emit := match args !! 1 with Some v => to_boolean v | None => false end in
  env ← the_env; s ← get_state;
  r ← checked (cpe_agent_wifi_dump (W := W) (lue_wifi env) (lue_emit env) (lu_fs s) (lu_agent s) iface (if emit then 1 else 0)%Z);
  let '(rc, a, snap, out, fs) := r in
  set_state (s <| lu_agent := a |> <| lu_out := lu_out s ++ out |> <| lu_fs := fs |>) ;;
  if negb (rc =? 0)%Z then lua_error "wifi dump failed (iface missing?)"
  else drain_events ;; mret [push_wifi_snapshot snap].
Definition wifi_list_note : string :=
  "cpe: note: wifi_list() takes no args; forwarding to wifi_stats(iface, emit)".
Definition l_wifi_list (args : list lval) : lua (list lval) :=
  if match args with v :: _ => is_string v | [] => false end then print_err wifi_list_note ;; l_wifi_stats args
  else
    env ← the_env;
    let '(n, names) := cpe_agent_wifi_list_ifaces (lue_wifi env) CPE_WIFI_STA_MAX in
    mret [array_table (LStr <$> take (Z.to_nat n) names)].
Definition l_last_wifi (args : list lval) : lua (list lval) :=
  a ← l_agent;
  mret (match cpe_agent_last_wifi a with (0%Z, Some s) => [push_wifi_snapshot s] | _ => [LNil] end).

(** ** The spool *)
Definition l_latency (args : list lval) : lua (list lval) :=
  a ← l_agent;
  let '(n, buf) := cpe_agent_get_local_latency_json a 512 in
  if (n <? 0)%Z then lua_error "latency json failed" else mret [LStr (str_take (Z.to_nat n) buf)].
Definition l_ndjson (args : list lval) : lua (list lval) :=
  a ← l_agent;
  match cpe_agent_last_sample a with
  | (0%Z, Some s) =>
      let '(n, line) := cpe_perf_format_ndjson (Some (router_id (ag_cfg a))) s CPE_NDJSON_LINE_MAX in
      if (n <? 0)%Z then lua_error "format failed" else mret [LStr (str_take (Z.to_nat n) line)]
  | _ => mret [LNil]
  end.
Definition l_emit (args : list lval) : lua (list lval) :=
  _ ← l_agent;
  n ← emit_flush;
  if (n <? 0)%Z then lua_error "emit_flush failed" else mret [push_integer n].
Definition l_spool_depth (args : list lval) : lua (list lval) :=
  a ← l_agent; mret [push_integer (Z.of_nat (cpe_agent_spool_depth (ag_q a)))].
Definition l_spool_drops (args : list lval) : lua (list lval) :=
  a ← l_agent; mret [push_integer (cpe_agent_spool_drops (ag_q a))].

(** ** TCP statistics *)
Definition l_tcp_open (args : list lval) : lua (list lval) :=
  a ← l_agent;
  group ← opt_integer args 1;
  let cfg := (ag_cfg a) <| tcp_stats_enabled := 1%Z |> in
  let cfg := match group with Some g => cfg <| tcp_nflog_group := u16 g |> | None => cfg end in
  apply_or cfg "enable tcp_stats failed" ;;
  env ← the_env; s ← get_state;
  let a := lu_agent s in
  let '(rc, st) := cpe_agent_tcp_open (lue_nflog env) (ag_cfg a) (ag_tcp a) in
  put_agent (a <| ag_tcp := st |>) ;;
  mret (if negb (rc =? 0)%Z then [LBool false; LStr (default "nflog open failed"%string (cpe_agent_tcp_last_error st))]
        else [LBool true]).
Definition l_tcp_poll (args : list lval) : lua (list lval) :=
  a ← l_agent;
  z ← opt_integer args 1;
  let maxm := default 64%Z (option_map u32 z) in
  env ← the_env;
  r ← checked (cpe_agent_tcp_poll (lue_nflog env) (ag_cfg a) (ag_tcp a) (lue_recvs env) (lue_clk env) (Z.to_nat maxm));
  let '(n, st, _) := r in
  put_agent (a <| ag_tcp := st |>) ;;
  if (n <? 0)%Z then lua_error "tcp_poll failed" else mret [push_integer n].
Definition l_tcp_stats (args : list lval) : lua (list lval) :=
  a ← l_agent; mret [tcp_table (cpe_agent_tcp_snapshot (ag_tcp a))].
Definition l_tcp_by_ip (args : list lval) : lua (list lval) :=
  a ← l_agent;
  ip ← opt_string args 1;
  let snap := cpe_agent_tcp_snapshot (ag_tcp a) in
  mret (match ip with
        | Some ip => match cpe_agent_tcp_remote (ag_tcp a) ip with Some r => [push_tcp_remote r] | None => [LNil] end
        | None => [array_table (push_tcp_remote <$> sn_remotes snap)]
        end).
Definition l_tcp_by_prefix (args : list lval) : lua (list lval) :=
  a ← l_agent;
  pfx ← opt_string args 1;
  let snap := cpe_agent_tcp_snapshot (ag_tcp a) in
  mret (match pfx with
        | Some pfx => match cpe_agent_tcp_prefix (ag_tcp a) pfx with Some p => [push_tcp_prefix p] | None => [LNil] end
        | None => [array_table (push_tcp_prefix <$> sn_prefixes snap)]
        end).
Definition l_tcp_emit (args : list lval) : lua (list lval) :=
  a ← l_agent;
  z ← opt_integer args 1;
  let top_n := default 0%Z (option_map u32 z) in
  env ← the_env;
  let '(n, st, q) := tcp_emit (ag_cfg a) (ag_tcp a) (ag_q a) (lue_clk env) top_n in
  put_agent (a <| ag_tcp := st |> <| ag_q := q |>) ;;
  if (n <? 0)%Z then lua_error "tcp_emit failed" else mret [push_integer n].
Definition l_tcp_reset (args : list lval) : lua (list lval) :=
  a ← l_agent; env ← the_env;
  put_agent (a <| ag_tcp := cpe_agent_tcp_reset (ag_tcp a) (lue_clk env) |>) ;;
  mret [LBool true].

(** ** Running scripts *)

(** [l_dofile_tool]: the script runs with the same functions. *)
Definition l_dofile_tool (call : string -> list lval -> lua (list lval)) (args : list lval) : lua (list lval) :=
  path ← check_string args 1;
  s ← get_state;
  if negb (lu_bound s) then lua_error "no lua wrap"
  else
    r ← checked (run_loaded call (load_file path) s);
    set_state r.2 ;;
    let '(rc, err) := script_error r.1 (Some (256, EmptyString)) in
    if negb (rc =? 0)%Z then lua_error (str_dflt (err_text err) "dofile failed") else mret [].

(** [cpe_funcs], but for [dofile]. *)
Definition cpe_funcs : list (string * (list lval -> lua (list lval))) := [
  ("help", l_help); ("config", l_config); ("set_target", l_set_target); ("set_router_id", l_set_router_id);
  ("set_interval", l_set_interval); ("set_iface", l_set_iface); ("set_wifi_if", l_set_wifi_if);
  ("live_ping", l_live_ping); ("arping", l_arping); ("traceroute", l_traceroute); ("mtr", l_mtr);
  ("last_trace", l_last_trace); ("wifi_list", l_wifi_list); ("wifi_state", l_wifi_state); ("wifi_stats", l_wifi_stats);
  ("last_wifi", l_last_wifi); ("sample", l_sample); ("last_sample", l_last_sample); ("latency", l_latency);
  ("emit", l_emit); ("spool_depth", l_spool_depth); ("spool_drops", l_spool_drops); ("reload", l_reload);
  ("ndjson", l_ndjson); ("tcp_open", l_tcp_open); ("tcp_poll", l_tcp_poll); ("tcp_stats", l_tcp_stats);
  ("tcp_by_ip", l_tcp_by_ip); ("tcp_by_prefix", l_tcp_by_prefix); ("tcp_emit", l_tcp_emit); ("tcp_reset", l_tcp_reset)]%string.

(** A call of a function of the table; [depth] is how deep scripts may run scripts (the
    interpreter bounds nested C calls and raises this error). *)
Definition count_call : lua unit := s ← get_state; set_state (s <| lu_calls := S (lu_calls s) |>).
Fixpoint cpe_call (depth : nat) (f : string) (args : list lval) : lua (list lval) :=
  count_call ;;
  if streq f "dofile" then
    match depth with
    | O => lua_error "C stack overflow"
    | S d => l_dofile_tool (cpe_call d) args
    end
  else match find (fun '(name, _) => streq name f) cpe_funcs with
  | Some (_, fn) => fn args
  | None => lua_error "attempt to call a nil value"
  end.

(** The results a chunk leaves on the stack are the first component. *)
Definition cpe_lua_dostring (depth : nat) (L : option state) (src : option string) (err : errbuf)
    : chk (Z * list lval * errbuf * option state) :=
  match L, src with
  | Some s, Some src =>
      r ← run_loaded (cpe_call depth) (load_string src) s;
      let '(rc, err) := script_error r.1 err in
      mret (rc, match r.1 with inl vs => vs | inr _ => [] end, err, Some r.2)
  | _, _ => mret ((-1)%Z, [], err_set err "bad args", L)
  end.
Definition cpe_lua_dofile (depth : nat) (L : option state) (path : option string) (err : errbuf)
    : chk (Z * list lval * errbuf * option state) :=
  match L, path with
  | Some s, Some path =>
      r ← run_loaded (cpe_call depth) (load_file path) s;
      let '(rc, err) := script_error r.1 err in
      mret (rc, match r.1 with inl vs => vs | inr _ => [] end, err, Some r.2)
  | _, _ => mret ((-1)%Z, [], err_set err "bad args", L)
  end.

(** [cpe_lua_create]: the two allocations, then the registration. *)
Definition cpe_lua_create (calloc_wrap newstate : bool) (a : option agent) (h : alloc_stats) (fs : FS) (seq port_seq : Z)
    : option state :=
  match a with
  | None => None
  | Some a =>
      if negb calloc_wrap then None
      else if negb newstate then None
      else Some {| lu_agent := a; lu_bound := true; lu_heap := h; lu_fs := fs; lu_out := []; lu_err := [];
                   lu_seq := seq; lu_port_seq := port_seq; lu_calls := 0 |}
  end.
End bind.

(** ** The build without Lua *)
Module NoLua.
Definition cpe_lua_print_help : string := "cpe_agent: Lua support not built (CPE_AGENT_WITH_LUA=OFF)".
Definition cpe_lua_dostring (err : errbuf) : Z * errbuf := ((-1)%Z, err_set err "Lua not built in").
Definition cpe_lua_dofile (err : errbuf) : Z * errbuf := ((-1)%Z, err_set err "Lua not built in").
Definition cpe_lua_repl : Z * string :=
  (1%Z, "cpe_agent: Lua REPL not available (build with -DCPE_AGENT_WITH_LUA=ON)"%string).
End NoLua.

(** ** No script breaks the agent *)
Section safety.
Context {P C FS : Type} `{!PingLib P} {E : Type} `{!EventSource P E} `{!QSort} `{!FileSystem FS}
  {W : Type} `{!WifiLib W} `{!EventSource W nl80211_event} `{!LuaLib} `{!LuaLoad}.
Local Abbreviation agent := (agent P C).
Local Abbreviation state := (lua_state P C FS).
Local Abbreviation lua := (cfun (lua_state P C FS)).
Context (envs : nat -> lua_env).

(** What the kernel and the files may answer. *)
Definition lua_env_ok (env : lua_env) : Prop :=
  Forall recv_ok (lue_recvs env) /\ (forall p e c, (lue_load env p e).1.2 = Some c -> config_ok c).
Hypothesis envs_ok : forall n, lua_env_ok (envs n).

Definition lua_inv (s : state) : Prop := agent_inv (lu_agent s).
Local Abbreviation ok m := (keeps lua_inv m).

Lemma state_keeps {A} (k : state -> lua A) :
  (forall s, lua_inv s -> safe_with (fun r => lua_inv r.2) (k s s)) -> ok (get_state ≫= k).
Proof. exact (keeps_get lua_inv k). Qed.
(** Putting a state with a consistent agent, then going on. *)
Lemma set_keeps {A} s' (k : unit -> lua A) s :
  lua_inv s' -> ok (k tt) -> safe_with (fun r => lua_inv r.2) ((set_state s' ≫= k) s).
Proof. intros H' Hk. exact (Hk s' H'). Qed.
Lemma the_env_keeps : ok (the_env envs).
Proof. intros s Hs. by eexists. Qed.
Lemma l_agent_keeps : ok l_agent.
Proof. intros s Hs. unfold l_agent, mbind, cfun_bind, get_state. destruct (lu_bound s); by eexists. Qed.
Lemma put_agent_keeps a : agent_inv a -> ok (put_agent (FS := FS) a).
Proof. intros Ha s Hs. by eexists. Qed.
Lemma print_out_keeps ls : ok (print_out ls).
Proof. intros s Hs. by eexists. Qed.
Lemma print_err_keeps l : ok (print_err l).
Proof. intros s Hs. by eexists. Qed.

Lemma drain_events_keeps : ok drain_events.
Proof.
  intros s Ha. unfold drain_events. eexists. split; [reflexivity|]. cbn [snd]. unfold lua_inv.
  exact (proj1 (drained_inv _ Ha)).
Qed.
Lemma apply_or_keeps cfg msg : config_ok cfg -> ok (apply_or envs cfg msg).
Proof.
  intros Hc. unfold apply_or. apply keeps_bind; [apply the_env_keeps|]. intros env. apply state_keeps. intros s Ha.
  pose proof (apply_config_inv (lue_open env) (lue_calloc env) (lu_heap s) (lu_agent s) cfg Hc Ha) as Ha1.
  destruct (cpe_agent_apply_config _ _ _ _ _) as [[rc a] h]. apply set_keeps; [exact Ha1|].
  apply keeps_bind; [apply drain_events_keeps|]. intros _. apply keeps_if; auto with lua.
Qed.
Lemma emit_flush_keeps : ok (emit_flush envs).
Proof.
  unfold emit_flush. apply keeps_bind; [apply the_env_keeps|]. intros env. apply state_keeps. intros s Ha.
  pose proof (flush_inv (lue_emit env) (lu_fs s) (lu_agent s) Ha) as Ha1.
  destruct (cpe_agent_emit_flush _ _ _) as [[[n a] out] fs]. apply set_keeps; [exact Ha1|]. auto with lua.
Qed.
Lemma live_ping_tick_keeps : ok (live_ping_tick (E := E) envs).
Proof.
  unfold live_ping_tick. apply keeps_bind; [apply the_env_keeps|]. intros env. apply state_keeps. intros s Ha.
  destruct (live_ping_step (E := E) (lue_icmp env) (lu_seq s) (lu_agent s) Ha) as (rc & a & seq & Hrun & Ha1).
  unfold mbind at 1, cfun_bind at 1, checked. rewrite Hrun. cbn [mbind chk_bind]. apply set_keeps; [exact Ha1|]. auto with lua.
Qed.
Hint Resolve the_env_keeps l_agent_keeps put_agent_keeps print_out_keeps print_err_keeps drain_events_keeps
  emit_flush_keeps live_ping_tick_keeps : lua.

Lemma last_sample_keeps : ok (last_sample (FS := FS)).
Proof. unfold last_sample. apply keeps_bind; auto with lua. Qed.
Hint Resolve last_sample_keeps : lua.
Lemma flush_and_report_keeps : ok (flush_and_report envs).
Proof. unfold flush_and_report. repeat (apply keeps_bind; [auto with lua|intros ?]). auto with lua. Qed.
Lemma check_short_keeps args i max msg : ok (check_short args i max msg).
Proof. unfold check_short. apply keeps_bind; [auto with lua|]. intros t. apply keeps_if; auto with lua. Qed.
Lemma opt_short_keeps args i max msg : ok (opt_short args i max msg).
Proof. unfold opt_short. apply keeps_bind; [auto with lua|]. intros [t|]; [apply keeps_if|]; auto with lua. Qed.
Lemma opt_timeout_keeps args i : ok (opt_timeout args i).
Proof. unfold opt_timeout. apply keeps_bind; [auto with lua|]. intros [t|]; [apply keeps_if|]; auto with lua. Qed.
Lemma opt_int_keeps args i : ok (opt_int args i).
Proof. unfold opt_int. apply keeps_bind; auto with lua. Qed.
Hint Resolve flush_and_report_keeps check_short_keeps opt_short_keeps opt_timeout_keeps opt_int_keeps : lua.

Lemma with_agent_keeps {A} (k : agent -> lua A) : (forall a, agent_inv a -> ok (k a)) -> ok (l_agent ≫= k).
Proof.
  intros Hk s Hs. unfold l_agent, mbind, cfun_bind, get_state. destruct (lu_bound s); [by apply Hk|by eexists].
Qed.
Lemma config_ok_of (a : agent) : agent_inv a -> config_ok (ag_cfg a).
Proof. by intros []. Qed.
Hint Resolve with_agent_keeps config_ok_of : lua.

(** Going through a function's body, step by step. *)
Ltac lua_step :=
  match goal with
  | |- keeps _ (l_agent ≫= _) => apply with_agent_keeps; intros ?a ?Ha
  | |- keeps _ (apply_or _ _ _ ≫= _) => apply keeps_bind; [apply apply_or_keeps; first [assumption | by apply config_ok_of]|intros ?]
  | |- keeps _ (apply_or _ _ _) => apply apply_or_keeps; first [assumption | by apply config_ok_of]
  | |- keeps _ (let '_ := ?r in _) => destruct r
  | |- keeps _ (if _ then _ else _) => apply keeps_if
  | |- keeps _ (match ?o with _ => _ end) => destruct o
  | |- keeps _ (_ ≫= _) => apply keeps_bind; [|intros ?]
  | |- keeps _ _ => solve [auto with lua]
  end.
Ltac lua_keeps := cbv zeta; repeat lua_step.

Lemma set_fields_keeps args : Forall (fun f => ok (f args)) [l_set_target envs; l_set_router_id envs; l_set_interval envs;
  l_set_iface envs; l_set_wifi_if envs].
Proof.
  repeat apply Forall_cons_2; [..|apply Forall_nil_2];
    unfold l_set_target, l_set_router_id, l_set_interval, l_set_iface, l_set_wifi_if; lua_keeps.
Qed.
Lemma queries_keep args : Forall (fun f => ok (f args)) [l_help; l_config; l_last_trace; l_last_wifi; l_latency; l_ndjson;
  l_spool_depth; l_spool_drops; l_tcp_stats; l_tcp_by_ip; l_tcp_by_prefix; l_last_sample; l_wifi_state envs].
Proof.
  repeat apply Forall_cons_2; [..|apply Forall_nil_2];
    unfold l_help, l_config, l_last_trace, l_last_wifi, l_latency, l_ndjson, l_spool_depth, l_spool_drops, l_tcp_stats,
      l_tcp_by_ip, l_tcp_by_prefix, l_last_sample, l_wifi_state; lua_keeps.
Qed.
Lemma pings_keep args : Forall (fun f => ok (f args)) [l_live_ping (E := E) envs; l_sample (E := E) envs; l_emit envs].
Proof. repeat apply Forall_cons_2; [..|apply Forall_nil_2]; unfold l_live_ping, l_sample, l_emit; lua_keeps. Qed.

Lemma checked_keeps {A B} (Q : A -> Prop) (m : chk A) (k : A -> lua B) :
  safe_with Q m -> (forall x, Q x -> ok (k x)) -> ok (checked m ≫= k).
Proof. intros (x & Hrun & Hq) Hk s Hs. unfold mbind at 1, cfun_bind at 1, checked. rewrite Hrun. by apply Hk. Qed.
Lemma env_keeps {A} (k : lua_env -> lua A) : (forall n, ok (k (envs n))) -> ok (the_env envs ≫= k).
Proof. intros Hk s Hs. exact (Hk (lu_calls s) s Hs). Qed.

Lemma reload_keeps args : ok (l_reload envs args).
Proof.
  unfold l_reload. do 2 lua_step; [lua_keeps|]. apply env_keeps. intros n. apply state_keeps. intros s Has.
  destruct (envs_ok n) as [_ Hload].
  match goal with |- context [cpe_agent_reload_config ?l ?o ?c ?h ?b ?p ?r ?e] =>
    pose proof (reload_inv l o c h b p r e Hload Has) as Hr; destruct (cpe_agent_reload_config l o c h b p r e) as [[[rc a1] h1] err] end.
  apply set_keeps; [exact Hr|]. lua_keeps.
Qed.
Lemma arping_keeps args : ok (l_arping envs args).
Proof.
  unfold l_arping. lua_step. do 2 (lua_step; [lua_keeps|]). apply env_keeps. intros n.
  eapply checked_keeps; [by apply arping_inv|]. intros r Hr. apply keeps_bind; [by apply put_agent_keeps|]. intros _. lua_keeps.
Qed.
Lemma trace_and_report_keeps r msg : agent_inv r.1.1.2 -> ok (trace_and_report envs r msg).
Proof.
  destruct r as [[[rc a] tr] ps]. cbn. intros Ha. unfold trace_and_report. apply state_keeps. intros s Has.
  apply set_keeps; [exact Ha|]. lua_keeps.
Qed.
Lemma traceroute_keeps args : ok (l_traceroute envs args).
Proof.
  unfold l_traceroute. lua_step. do 3 (lua_step; [lua_keeps|]). apply env_keeps. intros n. apply state_keeps. intros s Has.
  refine (checked_keeps _ _ _ _ _ s Has); [by apply run_trace_step|]. intros r Hr. by apply trace_and_report_keeps.
Qed.
Lemma mtr_keeps args : ok (l_mtr envs args).
Proof.
  unfold l_mtr. lua_step. do 4 (lua_step; [lua_keeps|]). apply env_keeps. intros n. apply state_keeps. intros s Has.
  refine (checked_keeps _ _ _ _ _ s Has); [by apply run_trace_step|]. intros r Hr. by apply trace_and_report_keeps.
Qed.
Lemma wifi_stats_keeps args : ok (l_wifi_stats (W := W) envs args).
Proof.
  unfold l_wifi_stats. lua_step. lua_step; [lua_keeps|]. apply env_keeps. intros n. apply state_keeps. intros s Has.
  refine (checked_keeps _ _ _ (wifi_dump_ok _ _ _ _ _ _ Has) _ s Has).
  intros [[[[rc a1] snap] out] fs] (Ha1 & _). intros s' _. apply set_keeps; [exact Ha1|]. lua_keeps.
Qed.
Lemma wifi_list_keeps args : ok (l_wifi_list (W := W) envs args).
Proof.
  unfold l_wifi_list. apply keeps_if; [|lua_keeps]. apply keeps_bind; [auto with lua|]. intros _. apply wifi_stats_keeps.
Qed.

Lemma tcp_open_keeps args : ok (l_tcp_open envs args).
Proof.
  unfold l_tcp_open. lua_step. lua_step; [lua_keeps|]. cbv zeta.
  apply keeps_bind; [apply apply_or_keeps; destruct x; by apply config_ok_of|]. intros _. apply env_keeps. intros n.
  apply state_keeps. intros s Has. pose proof (tcp_open_step (lue_nflog (envs n)) _ Has) as Hr.
  destruct (cpe_agent_tcp_open _ _ _) as [rc st].
  refine (keeps_bind _ _ _ (put_agent_keeps _ _) _ s Has); [|auto with lua].
  by eapply inv_frame; [..|exact Hr].
Qed.
Lemma tcp_poll_keeps args : ok (l_tcp_poll envs args).
Proof.
  unfold l_tcp_poll. lua_step. lua_step; [lua_keeps|]. cbv zeta. apply env_keeps. intros n. destruct (envs_ok n) as [Hrecv _].
  match goal with |- context [cpe_agent_tcp_poll ?e _ _ ?rs ?c ?m] =>
    destruct (tcp_poll_step e rs c m a Hrecv Ha) as (n1 & st & rs1 & Hrun & Hr); rewrite Hrun end.
  eapply (checked_keeps (fun r => r = (n1, st, rs1))); [by eexists|]. intros ? ->.
  apply keeps_bind; [apply put_agent_keeps; by eapply inv_frame; [..|exact Hr]|]. intros _. lua_keeps.
Qed.
Lemma tcp_emit_keeps args : ok (l_tcp_emit envs args).
Proof.
  unfold l_tcp_emit. lua_step. lua_step; [lua_keeps|]. cbv zeta. apply env_keeps. intros n.
  pose proof (tcp_emit_step (lue_clk (envs n)) (default 0%Z (option_map u32 x)) a Ha) as Hr. cbv zeta in Hr.
  destruct (cpe_agent_tcp_emit _ _ _ _ _) as [[n1 st] q]. apply keeps_bind; [by apply put_agent_keeps|]. intros _. lua_keeps.
Qed.
Lemma tcp_reset_keeps args : ok (l_tcp_reset envs args).
Proof.
  unfold l_tcp_reset. lua_step. apply env_keeps. intros n. apply keeps_bind; [|intros _; lua_keeps].
  apply put_agent_keeps. eapply inv_frame; [..|apply (tcp_same_sock_inv a (cpe_agent_tcp_reset (ag_tcp a) (lue_clk (envs n))) Ha)];
    try done. apply tcp_reset_wf.
Qed.

Lemma run_loaded_keeps call loaded s :
  (forall f args, ok (call f args)) -> lua_inv s -> safe_with (fun r => lua_inv r.2) (run_loaded call loaded s).
Proof. intros Hcall Hs. destruct loaded; [by apply run_chunk_keeps|by apply safe_ret]. Qed.
Lemma dofile_keeps call args : (forall f args, ok (call f args)) -> ok (l_dofile_tool call args).
Proof.
  intros Hcall. unfold l_dofile_tool. lua_step; [lua_keeps|]. apply state_keeps. intros s Has.
  destruct (negb _); [by eexists|].
  refine (checked_keeps _ _ _ (run_loaded_keeps call _ s Hcall Has) _ s Has). intros [r s1] Hr s2 _.
  apply set_keeps; [exact Hr|]. lua_keeps.
Qed.
Lemma cpe_funcs_keep args : Forall (fun f => ok (f.2 args)) (cpe_funcs (E := E) (W := W) envs).
Proof.
  pose proof (set_fields_keeps args) as Hset. pose proof (queries_keep args) as Hq. pose proof (pings_keep args) as Hp.
  repeat match goal with Hf : Forall _ (_ :: _) |- _ => apply Forall_cons in Hf as [? Hf] end.
  unfold cpe_funcs. repeat apply Forall_cons_2; [..|apply Forall_nil_2]; cbn [snd];
    auto using reload_keeps, arping_keeps, traceroute_keeps, mtr_keeps, wifi_stats_keeps, wifi_list_keeps, tcp_open_keeps,
      tcp_poll_keeps, tcp_emit_keeps, tcp_reset_keeps.
Qed.
Lemma cpe_call_keeps depth f args : ok (cpe_call (E := E) (W := W) envs depth f args).
Proof.
  revert f args. induction depth as [|d IH]; intros f args; cbn [cpe_call];
    (apply keeps_bind; [intros s Hs; by eexists|]; intros _).
  all: destruct (streq f "dofile"); [auto with lua|]; try by apply dofile_keeps.
  all: destruct (find _ _) as [[name fn]|] eqn:Ef; [|auto with lua];
    apply find_some in Ef as [Hin _]; pose proof (cpe_funcs_keep args) as Hall; rewrite Forall_forall in Hall;
    apply (Hall (name, fn)); by apply list_elem_of_In.
Qed.
End safety.

(** ** Settings *)
Inductive setting := SetTarget | SetRouterId | SetIface | SetWifiIf.
Definition setting_name (x : setting) : string :=
  match x with SetTarget => "set_target" | SetRouterId => "set_router_id" | SetIface => "set_iface" | SetWifiIf => "set_wifi_if" end.
(** Its name in the table of [cpe.config()], its size, whether it may not be empty. *)
Definition setting_key (x : setting) : string :=
  match x with SetTarget => "target" | SetRouterId => "router_id" | SetIface => "iface" | SetWifiIf => "wifi_if" end.
Definition setting_max (x : setting) : nat :=
  match x with SetTarget => CPE_CFG_TARGET_MAX | SetRouterId => CPE_CFG_ROUTER_ID_MAX | _ => CPE_CFG_IFACE_MAX end.
Definition setting_required (x : setting) : bool := match x with SetTarget | SetRouterId => true | _ => false end.
Definition with_setting (x : setting) (t : string) (c : cpe_agent_config) : cpe_agent_config :=
  match x with
  | SetTarget => c <| demo_target := t |> | SetRouterId => c <| router_id := t |>
  | SetIface => c <| arping_if := t |> | SetWifiIf => c <| wifi_if := t |>
  end.
Definition setting_ok (x : setting) (t : string) : bool :=
  (strlen t <? setting_max x) && (nonempty t || negb (setting_required x)).

Lemma with_setting_normal x t c : normalise c = c -> normalise (with_setting x t c) = with_setting x t c.
Proof.
  intros Hn. destruct (normalise_intervals c) as (H1 & H2 & H3 & H4). rewrite Hn in *. destruct x; by apply normalise_fixed.
Qed.
Lemma with_setting_valid x t c :
  config_valid c -> config_valid (with_setting x t c) <-> (nonempty t || negb (setting_required x) = true).
Proof.
  intros [Hr Hm Hs Hu Hl Hi Ht]. split.
  - intros [Hr' _ _ _ _ _ Ht']. by destruct x, t.
  - intros Hok. destruct x; constructor; try done; by destruct t.
Qed.
Lemma config_field x c : get_field (config_table c) (setting_key x) =
  LStr (match x with SetTarget => demo_target c | SetRouterId => router_id c | SetIface => arping_if c | SetWifiIf => wifi_if c end).
Proof. by destruct x. Qed.

Section settings.
Context {P C FS : Type} `{!PingLib P} {E : Type} `{!EventSource P E} `{!QSort} `{!FileSystem FS}
  {W : Type} `{!WifiLib W} `{!EventSource W nl80211_event} `{!LuaLib} `{!LuaLoad}.
Local Abbreviation state := (lua_state P C FS).
Local Abbreviation call := (cpe_call (P := P) (C := C) (FS := FS) (E := E) (W := W)).
Context (envs : nat -> lua_env).

(** Every one of them is the same function of its setting. *)
Definition set_string (x : setting) (too_long failed : string) (args : list lval) : cfun state (list lval) :=
  a ← l_agent;
  t ← check_short args 1 (setting_max x) too_long;
  apply_or envs (with_setting x (snprintf_s (setting_max x) t) (ag_cfg a)) failed ;;
  mret [LBool true].
Definition setter (x : setting) : list lval -> cfun state (list lval) :=
  match x with
  | SetTarget => l_set_target envs | SetRouterId => l_set_router_id envs | SetIface => l_set_iface envs | SetWifiIf => l_set_wifi_if envs
  end.
Lemma call_setter depth x args : call envs depth (setting_name x) args = (count_call ;; setter x args).
Proof. destruct depth, x; with_strategy opaque [l_set_target l_set_router_id l_set_iface l_set_wifi_if] reflexivity. Qed.
Definition too_long_text (x : setting) : string :=
  match x with
  | SetTarget => "target too long" | SetRouterId => "router_id too long" | SetIface => "iface too long" | SetWifiIf => "wifi iface too long"
  end.
Definition failed_text (x : setting) : string :=
  match x with
  | SetTarget => "apply_config failed for target" | SetRouterId => "apply_config failed for router_id"
  | SetIface => "apply_config failed for iface" | SetWifiIf => "apply_config failed for wifi_if"
  end.
Lemma setter_string x args : setter x args = set_string x (too_long_text x) (failed_text x) args.
Proof. destruct x; with_strategy opaque [apply_or check_short snprintf_s] reflexivity. Qed.
Lemma call_setting depth x args :
  exists too_long failed, call envs depth (setting_name x) args = (count_call ;; set_string x too_long failed args).
Proof. eexists _, _. by rewrite call_setter, setter_string. Qed.

Lemma set_string_run x too_long failed t (s : state) :
  lu_bound s = true ->
  set_string x too_long failed [LStr t] s =
    if setting_max x <=? strlen (cstr t) then Safe (inr too_long, s)
    else (apply_or envs (with_setting x (snprintf_s (setting_max x) (cstr t)) (ag_cfg (lu_agent s))) failed ;;
          mret [LBool true]) s.
Proof.
  intros Hb. unfold set_string, l_agent, mbind, cfun_bind, get_state. rewrite Hb.
  unfold mret at 1, cfun_ret at 1. cbn beta iota.
  unfold check_short, mbind, cfun_bind. change (check_string [LStr t] 1 s) with (Safe (A := (string + string) * state) (inl (cstr t), s)).
  cbn iota. by destruct (setting_max x <=? strlen (cstr t)).
Qed.
Lemma config_run depth (s : state) :
  lu_bound s = true ->
  call envs depth "config" [] s = Safe (inl [config_table (ag_cfg (lu_agent s))], s <| lu_calls := S (lu_calls s) |>).
Proof.
  intros Hb. assert (call envs depth "config" [] = (count_call ;; l_config [])) as -> by by destruct depth.
  set (s1 := s <| lu_calls := S (lu_calls s) |>). change ((count_call ;; l_config []) s) with (l_config [] s1).
  unfold l_config, l_agent, mbind, cfun_bind, get_state. change (lu_bound s1) with (lu_bound s). by rewrite Hb.
Qed.
Lemma drained_agent (a : agent P C) :
  agent_inv a -> pending (drain_queue (eq_cnt (ag_q a) + 1) (ag_q a)) = pending (ag_q a).
Proof.
  intros Ha. destruct (drained_inv a Ha) as [_ Hs].
  by apply same_spool_pending.
Qed.

(** Installing a changed configuration on a settled agent. *)
Lemma apply_or_settled cfg msg (s : state) :
  agent_inv (lu_agent s) -> config_settled (lu_agent s) -> normalise cfg = cfg -> config_ok cfg ->
  spool_max_lines cfg = spool_max_lines (ag_cfg (lu_agent s)) ->
  exists r s', apply_or envs cfg msg s = Safe (r, s') /\ lu_bound s' = lu_bound s /\
    pending (ag_q (lu_agent s')) = pending (ag_q (lu_agent s)) /\
    (config_valid cfg -> r = inl tt /\ ag_cfg (lu_agent s') = cfg <| generation := u64 (generation (ag_cfg (lu_agent s)) + 1) |>) /\
    (~ config_valid cfg -> r = inr msg /\ ag_cfg (lu_agent s') = ag_cfg (lu_agent s)).
Proof.
  intros Ha [Hv Hn Hc] Hnc Hco Hsp. pose proof (valid_lines _ Hv) as Hl. pose proof (proj1 (ai_queues _ Ha)) as Hwf.
  set (env := envs (lu_calls s)).
  pose proof (apply_config_inv (lue_open env) (lue_calloc env) (lu_heap s) (lu_agent s) cfg Hco Ha) as Hinv.
  pose proof (apply_config_cases (lue_open env) (lue_calloc env) (lu_heap s) (lu_agent s) cfg Hwf ltac:(lia)) as Hout.
  unfold apply_or, the_env, mbind, cfun_bind, get_state. cbn [mret cfun_ret]. fold env.
  destruct (cpe_agent_apply_config (lue_open env) _ _ _ _) as [[rc a1] h1]. cbn [fst snd] in *. destruct Hout as [_ Hout].
  assert (Hpend : spool_cap (ag_q (lu_agent s)) = Z.to_nat (spool_max_lines cfg)) by by rewrite Hsp.
  assert (Hcfg : rc = 0%Z /\ config_valid cfg /\ ag_cfg a1 = cfg <| generation := u64 (generation (ag_cfg (lu_agent s)) + 1) |> /\
      pending (ag_q a1) = pending (ag_q (lu_agent s)) \/
    rc = (-1)%Z /\ ~ config_valid cfg /\ ag_cfg a1 = ag_cfg (lu_agent s) /\ pending (ag_q a1) = pending (ag_q (lu_agent s))).
  { destruct Hout as [reason Hi _|a' h' _ Hne|a' h' Hv' cap new -> _ _ Hp].
    - right. rewrite Hnc in Hi. split_and!; try done.
      destruct (push_event_spec (lu_agent s) CPE_AGENT_EVENT_CONFIG_REJECTED reason Hwf) as (_ & Hss & _).
      by apply same_spool_pending.
    - by rewrite Hnc in Hne.
    - left. subst cap new. rewrite Hnc in *. split_and!; try done. by rewrite Hp, Hpend, Nat.eqb_refl. }
  destruct Hcfg as [(-> & Hcv & Hcf & Hp)|(-> & Hcv & Hcf & Hp)]; eexists _, _;
    (split; [reflexivity|]); (split; [reflexivity|]);
    cbn [lu_agent]; (split; [etrans; [by apply drained_agent|exact Hp]|]); by split.
Qed.

(** C9: a string setting made from Lua is exact.  On an agent whose configuration is
    settled, [set_target], [set_router_id], [set_iface] and [set_wifi_if] either return true -
    for a text that fits, and that is not empty where one is required - and then exactly that
    field changes, under the next generation number, and [cpe.config()] shows the text; or
    they raise an error and the configuration stays.  No pending line is lost either way. *)
Theorem lua_setting_reads_back depth x t (s : state) :
  agent_inv (lu_agent s) -> config_settled (lu_agent s) -> lu_bound s = true -> free (Ascii.ascii_of_nat 0) t ->
  exists r s', call envs depth (setting_name x) [LStr t] s = Safe (r, s') /\
    pending (ag_q (lu_agent s')) = pending (ag_q (lu_agent s)) /\
    if setting_ok x t
    then r = inl [LBool true] /\
      ag_cfg (lu_agent s') = (with_setting x t (ag_cfg (lu_agent s))) <| generation := u64 (generation (ag_cfg (lu_agent s)) + 1) |> /\
      exists table s2, call envs depth "config" [] s' = Safe (inl [table], s2) /\ get_field table (setting_key x) = LStr t
    else (exists msg, r = inr msg) /\ ag_cfg (lu_agent s') = ag_cfg (lu_agent s).
Proof.
  intros Ha Hset Hb Hf. destruct (call_setting depth x [LStr t]) as (too_long & failed & ->).
  set (s1 := s <| lu_calls := S (lu_calls s) |>).
  change ((count_call ;; set_string x too_long failed [LStr t]) s) with (set_string x too_long failed [LStr t] s1).
  rewrite set_string_run by done. rewrite cstr_free by done.
  unfold setting_ok. destruct (Nat.leb_spec (setting_max x) (strlen t)) as [Hlong|Hfit].
  { rewrite (proj2 (Nat.ltb_ge _ _)) by done. cbn [andb]. eexists _, s1. split; [reflexivity|]. split; [done|]. by split; [eexists|]. }
  rewrite (proj2 (Nat.ltb_lt _ _)) by done. cbn [andb]. rewrite snprintf_s_fits by done.
  change (lu_agent s1) with (lu_agent s).
  pose proof Hset as [Hv Hn Hc]. destruct (config_ok_of _ Ha) as [Hco1 Hco2].
  destruct (apply_or_settled (with_setting x t (ag_cfg (lu_agent s))) failed s1 Ha Hset
    (with_setting_normal x t _ Hn)) as (r & s2 & Hrun & Hb2 & Hp & Hok & Hbad).
  { by destruct x. } { by destruct x. }
  unfold mbind, cfun_bind. rewrite Hrun. destruct (with_setting_valid x t _ Hv) as [Hv1 Hv2].
  destruct (nonempty t || negb (setting_required x)).
  - destruct (Hok (Hv2 eq_refl)) as [-> Hcf]. eexists _, s2. split; [reflexivity|]. split; [exact Hp|].
    split; [done|]. split; [exact Hcf|].
    eexists _, _. split.
    + apply config_run. rewrite Hb2. exact Hb.
    + rewrite config_field. cbn [lu_agent]. rewrite Hcf. by destruct x.
  - destruct (Hbad) as [-> Hcf]. { intros Hcv. by apply Hv1 in Hcv. }
    eexists _, s2. split; [reflexivity|]. split; [exact Hp|]. split; [by eexists|exact Hcf].
Qed.
End settings.

(** C7: No Lua script can break the agent.  Whatever a script does with the functions of
    the table [cpe] - any functions, any arguments of any type, any number of calls, errors
    caught or not, scripts run by scripts - running it reads no buffer out of bounds and
    ends with an agent that satisfies the invariant; the result is 0, or -1 with an error
    text that fits its buffer.  A script is taken as the finite tree of its calls into C:
    one that runs for ever is not considered.  Assumed of the answers to its calls: the NFLOG datagrams
    that [cpe.tcp_poll] receives are bytes whose number is a multiple of four (an unpadded
    control message is read past its end, lemma [nflog_walk_control_overrun]), and a file
    that [cpe.reload] loads gives a configuration without negative sizes; everything else
    that the network, the kernel and the files answer is arbitrary. *)
Theorem lua_scripts_safe {P C FS : Type} `{!PingLib P} {E : Type} `{!EventSource P E} `{!QSort} `{!FileSystem FS}
    {W : Type} `{!WifiLib W} `{!EventSource W nl80211_event} `{!LuaLib} `{!LuaLoad} (envs : nat -> lua_env) depth
    (s : lua_state P C FS) src err :
  (forall n, lua_env_ok (envs n)) -> agent_inv (lu_agent s) ->
  exists rc vs err' s', cpe_lua_dostring (E := E) (W := W) envs depth (Some s) (Some src) err = Safe (rc, vs, err', Some s') /\
    agent_inv (lu_agent s') /\ (rc = 0%Z /\ err' = err \/ rc = (-1)%Z /\ vs = [] /\ exists msg, err' = err_set err msg).
Proof.
  intros Hok Ha. unfold cpe_lua_dostring.
  destruct (run_loaded_keeps (cpe_call (E := E) (W := W) envs depth) (load_string src) s
    (fun f args => cpe_call_keeps envs Hok depth f args) Ha) as ([r s'] & Hrun & Hinv).
  rewrite Hrun. chk_step. destruct r as [vs|e]; cbn [script_error fst snd]; eexists _, _, _, s'; (split; [reflexivity|]);
    (split; [exact Hinv|]); [by left|]. right. split_and!; eauto.
Qed.

(** ** Instances *)
#[local] Existing Instances toy_source toy_lib toy_ping toy_ping_events qsort_isort toy_wifi toy_wifi_events.

(** Two scripts by name. *)
#[local] Existing Instance toy_lua.
Definition pass (r : list lval + lval) : chunk := match r with inl vs => Return vs | inr e => Raise e end.
#[local] Instance toy_load : LuaLoad := {|
  load_string := fun src =>
    if streq src "scan" then
      inl (CallC "set_wifi_if" [LStr "ap0"] (fun _ => CallC "wifi_stats" [LNil; LBool true] (fun _ => CallC "last_wifi" [] pass)))
    else if streq src "loop" then inl (CallC "dofile" [LStr "loop"] pass)
    else inr (LStr "syntax error");
  load_file := fun _ => inl (CallC "dofile" [LStr "loop"] pass) |}.
Definition toy_lua_env (_ : nat) : lua_env := {|
  lue_open := toy_open; lue_calloc := toy_calloc; lue_load := fun _ e => ((-1)%Z, None, e); lue_icmp := toy_icmp (-1) [];
  lue_arp := toy_lan; lue_trace := no_sockets; lue_wifi := toy_ap; lue_emit := refusing; lue_nflog := env_ok;
  lue_recvs := []; lue_clk := flow_clk |}.
Definition toy_lua_state : option (lua_state nat nat (list string)) :=
  cpe_lua_create true true new_ap_agent cpe_host_alloc_reset_stats [] 0 0.
Definition run_script (src : string) : option (chk (Z * list lval * errbuf * option (lua_state nat nat (list string)))) :=
  option_map (fun s => cpe_lua_dostring (E := unit) (W := list nl80211_event) toy_lua_env 4 (Some s) (Some src) (Some (256, EmptyString)))
    toy_lua_state.

(** A scan from Lua sees the client; a script that runs itself is stopped. *)
Example scan_sees_client :
  match run_script "scan" with
  | Some (Safe (rc, [v], _, _)) =>
      rc = 0%Z /\ get_field v "station_count" = LInt 1 /\
      match get_field v "stations" with LTable [(LInt 1, sta)] => get_field sta "mac" = LStr "aa:bb:cc:dd:ee:ff" | _ => False end
  | _ => False
  end.
Proof. vm_compute. by split_and!. Qed.
Example loop_stopped :
  match run_script "loop" with Some (Safe (rc, _, err, _)) => rc = (-1)%Z /\ err_text err = "C stack overflow"%string | _ => False end.
Proof. vm_compute. by split. Qed.

Lemma toy_lua_inv s : toy_lua_state = Some s -> agent_inv (lu_agent s).
Proof.
  unfold toy_lua_state, new_ap_agent.
  destruct (cpe_agent_create true toy_calloc cpe_host_alloc_reset_stats) as [[a|] h] eqn:Ec; [|done].
  intros [= <-]. by eapply create_inv.
Qed.
Lemma toy_lua_env_ok n : lua_env_ok (toy_lua_env n).
Proof. split; [by constructor|done]. Qed.

Lemma lua_scripts_safe_witness :
  exists s rc vs err' s', toy_lua_state = Some s /\
    cpe_lua_dostring (E := unit) (W := list nl80211_event) toy_lua_env 4 (Some s) (Some "scan"%string) None = Safe (rc, vs, err', Some s') /\
    agent_inv (lu_agent s').
Proof.
  destruct toy_lua_state as [s|] eqn:Es; [|vm_compute in Es; discriminate].
  destruct (lua_scripts_safe (E := unit) (W := list nl80211_event) toy_lua_env 4 s "scan" None toy_lua_env_ok (toy_lua_inv s Es))
    as (rc & vs & err' & s' & Hrun & Hi & _).
  exists s, rc, vs, err', s'. split; [reflexivity|]. split; [exact Hrun|exact Hi].
Defined.
Lemma lua_setting_reads_back_witness :
  exists s r s', toy_lua_state = Some s /\
    cpe_call (E := unit) (W := list nl80211_event) toy_lua_env 4 "set_target" [LStr "192.0.2.7"] s = Safe (r, s') /\
    demo_target (ag_cfg (lu_agent s')) = "192.0.2.7"%string.
Proof.
  destruct toy_lua_state as [s|] eqn:Es; [|vm_compute in Es; discriminate].
  assert (Hset : config_settled (lu_agent s) /\ lu_bound s = true).
  { pose proof (toy_lua_inv s Es) as Ha. vm_compute in Es. injection Es as <-.
    split; [split; [exact (ai_valid _ Ha)|exact (ai_normal _ Ha)|vm_compute; reflexivity]|reflexivity]. }
  destruct Hset as [Hset Hb].
  destruct (lua_setting_reads_back (E := unit) (W := list nl80211_event) toy_lua_env 4 SetTarget "192.0.2.7" s
    (toy_lua_inv s Es) Hset Hb eq_refl) as (r & s' & Hrun & _ & Hok).
  exists s, r, s'. split; [reflexivity|]. split; [exact Hrun|]. destruct Hok as (_ & Hcf & _). rewrite Hcf. reflexivity.
Defined.
