(* ===== verification/LuaRepl.v ===== *)
(** * The agent's Lua prompt (src/agent/lua_repl.c)

    The exit words, the evaluation of a line, the printing of its values, and the loop over
    the lines that linenoise delivers; the calls to its history are part of the result. *)

From Stdlib Require Import Ascii.
From S2P Require Import Prelude CStr Float754 HostAlloc SpoolDir Config Spool Events TcpEmit WifiStats AgentData Agent.
From S2P Require Import AgentConfig LivePing AgentRun AgentLoop LiveArping LiveTrace LuaApi LuaBind StrSearch.

(** ** The exit words *)
Definition tolower (c : ascii) : ascii :=
  let n := nat_of_ascii c in if (65 <=? n) && (n <=? 90) then ascii_of_nat (n + 32) else c.
Fixpoint lower (s : string) : string :=
  match s with EmptyString => EmptyString | String c s' => String (tolower c) (lower s') end.
Definition EXIT_BUF_SIZE := 32.
Definition is_exit_cmd (line : string) : bool :=
  let buf := lower (str_take (EXIT_BUF_SIZE - 1) (until is_space (skip_space line))) in
  streq buf "quit" || streq buf "exit" || streq buf ".quit" || streq buf ".exit".

(** ** Printing values *)
Section print.
Context `{!LuaLib}.

Definition bool_text (b : bool) : string := if b then "true" else "false".
(** A key and a value of a table. *)
Definition key_part (k : lval) : string :=
  match k with LStr s => cstr s +:+ "=" | _ => "[" +:+ type_name k +:+ "]=" end.
Definition value_part (v : lval) : string :=
  match v with
  | LStr s => cstr s
  | LInt z => fmt_d z
  | LNum d => fmt_f 3 d
  | LBool b => bool_text b
  | _ => "<" +:+ type_name v +:+ ">"
  end.
Fixpoint table_body (fs : list (lval * lval)) (first : bool) : string :=
  match fs with
  | [] => EmptyString
  | (k, v) :: fs' => (if first then EmptyString else ", ") +:+ key_part k +:+ value_part v +:+ table_body fs' false
  end.
(** The line [print_stack_top] prints, without its end. *)
Definition print_stack_top (v : lval) : string :=
  match v with
  | LNil => "nil"
  | LBool b => bool_text b
  | LInt z => fmt_d z
  | LNum d => fmt_g 6 d
  | LStr s => cstr s
  | LTable fs => "{" +:+ table_body (table_order fs) true +:+ "}"
  | LOther t => "<" +:+ t +:+ ">"
  end.
End print.

(** ** Lines *)
Definition EXPR_SIZE : nat := 4 * 1024.

Section repl.
Context {P C FS : Type} `{!PingLib P} {E : Type} `{!EventSource P E} `{!QSort} `{!FileSystem FS}
  {W : Type} `{!WifiLib W} `{!EventSource W nl80211_event} `{!LuaLib} `{!LuaLoad}.
Local Abbreviation state := (lua_state P C FS).
Context (envs : nat -> lua_env) (depth : nat).
Local Abbreviation call := (cpe_call (P := P) (C := C) (FS := FS) (E := E) (W := W) envs depth).

(** The chunk of a line: as an expression when that compiles. *)
Definition load_line (line : string) : chunk + lval :=
  if strlen line + 16 <? EXPR_SIZE then
    match load_string (snprintf_s EXPR_SIZE ("return " +:+ line)) with
    | inl c => inl c
    | inr _ => load_string line
    end
  else load_string line.

Definition say_error (e : lval) (fallback : string) (s : state) : state :=
  s <| lu_err := lu_err s ++ ["error: " +:+ default fallback (error_text e)] |>.
Definition eval_line (line : string) (s : state) : chk (Z * state) :=
  if negb (nonempty line) then mret (0%Z, s)
  else match load_line line with
  | inr e => mret ((-1)%Z, say_error e "load failed" s)
  | inl c =>
      r ← run_chunk call c s;
      let '(res, s) := r in
      mret (match res with
            | inr e => ((-1)%Z, say_error e "runtime error" s)
            | inl vs => (0%Z, s <| lu_out := lu_out s ++ (print_stack_top <$> vs) |>)
            end)
  end.

(** [while ((line = linenoise("cpe> ")) != NULL)] *)
Fixpoint repl_loop (hist : string) (lines : list string) (s : state) : chk (state * list history_call) :=
  match lines with
  | [] => mret (s, [])
  | line :: rest =>
      if nonempty line then
        if is_exit_cmd line then mret (s, [HistoryAdd line; HistorySave hist])
        else
          r ← eval_line line s;
          r2 ← repl_loop hist rest r.2;
          mret (r2.1, [HistoryAdd line; HistorySave hist] ++ r2.2)
      else repl_loop hist rest s
  end.

Definition history_file (home history_path : option string) : string :=
  let h := default EmptyString history_path in
  let d := default EmptyString home in
  if nonempty h then h
  else snprintf_s 512 (if nonempty d then d +:+ "/.cpe_agent_history" else "/tmp/cpe_agent_history").
Definition greeting : list string :=
  ["cpe_agent Lua REPL  (type cpe.help()  ·  quit/exit/Ctrl-D to leave)"%string] ++ help_text ++ [EmptyString].

(** The result, the line for standard error without a state, the state and the history calls;
    [lines] is what linenoise returns before it returns [NULL]. *)
Definition cpe_lua_repl (L : option state) (home history_path : option string) (lines : list string)
    : chk (Z * option string * option state * list history_call) :=
  match L with
  | None => mret (1%Z, Some "cpe_agent: no Lua state for REPL"%string, None, [])
  | Some s =>
      let hist := history_file home history_path in
      r ← repl_loop hist lines (s <| lu_out := lu_out s ++ greeting |>);
      let '(s, calls) := r in
      mret (0%Z, None, Some (s <| lu_out := lu_out s ++ [EmptyString] |>), [HistoryLoad hist] ++ calls ++ [HistorySave hist])
  end.

(** ** What a session does *)

(** The lines that count: those with text before the first exit word. *)
Fixpoint session (lines : list string) : list string :=
  match lines with
  | [] => []
  | line :: rest => if nonempty line then if is_exit_cmd line then [] else line :: session rest else session rest
  end.
(** They are evaluated in order, once each. *)
Fixpoint eval_all (lines : list string) (s : state) : chk state :=
  match lines with [] => mret s | line :: rest => r ← eval_line line s; eval_all rest r.2 end.

Lemma repl_loop_session hist lines s :
  eval_all (session lines) s = (r ← repl_loop hist lines s; mret r.1).
Proof.
  revert s. induction lines as [|line rest IH]; intros s; cbn [repl_loop session]; [done|].
  destruct (nonempty line); [|apply IH]. destruct (is_exit_cmd line); [done|]. cbn [eval_all].
  destruct (eval_line line s) as [[rc s1]|]; [|done]. cbn [mbind chk_bind snd]. rewrite IH.
  by destruct (repl_loop hist rest s1) as [[s2 calls]|].
Qed.
End repl.

Section session_spec.
Context {P C FS : Type} `{!PingLib P} {E : Type} `{!EventSource P E} `{!QSort} `{!FileSystem FS}
  {W : Type} `{!WifiLib W} `{!EventSource W nl80211_event} `{!LuaLib} `{!LuaLoad}.
Local Abbreviation state := (lua_state P C FS).
Context (envs : nat -> lua_env) (depth : nat).
Hypothesis envs_ok : forall n, lua_env_ok (envs n).

Lemma eval_line_safe line (s : state) :
  agent_inv (lu_agent s) -> safe_with (fun r => agent_inv (lu_agent r.2)) (eval_line (E := E) (W := W) envs depth line s).
Proof.
  intros Ha. unfold eval_line. destruct (negb _); [by apply safe_ret|]. destruct (load_line line) as [c|e]; [|by apply safe_ret].
  eapply safe_bind; [eapply (run_chunk_keeps lua_inv); [|exact Ha]; intros f args; by apply cpe_call_keeps|].
  intros [[vs|e] s1] Hs1; by apply safe_ret.
Qed.
Lemma eval_all_safe lines (s : state) :
  agent_inv (lu_agent s) -> safe_with (fun s' => agent_inv (lu_agent s')) (eval_all (E := E) (W := W) envs depth lines s).
Proof.
  revert s. induction lines as [|line rest IH]; intros s Ha; cbn [eval_all]; [by apply safe_ret|].
  eapply safe_bind; [by apply eval_line_safe|]. intros r Hr. by apply IH.
Qed.

Lemma repl_session_runs home history_path lines (s : state) :
  agent_inv (lu_agent s) ->
  exists s1 calls, cpe_lua_repl (E := E) (W := W) envs depth (Some s) home history_path lines =
      Safe (0%Z, None, Some (s1 <| lu_out := lu_out s1 ++ [EmptyString] |>), calls) /\
    eval_all (E := E) (W := W) envs depth (session lines) (s <| lu_out := lu_out s ++ greeting |>) = Safe s1 /\
    agent_inv (lu_agent s1).
Proof.
  intros Ha. unfold cpe_lua_repl. set (s0 := s <| lu_out := lu_out s ++ greeting |>).
  destruct (eval_all_safe (session lines) s0 Ha) as (s1 & Hrun & Hi).
  pose proof (repl_loop_session (E := E) (W := W) envs depth (history_file home history_path) lines s0) as Hl. rewrite Hrun in Hl.
  destruct (repl_loop _ _ _ _ s0) as [[s2 calls]|]; [|done]. injection Hl as ->. chk_step.
  by eexists s2, _.
Qed.
(** A session of the prompt, whatever is typed: it ends with 0 after the lines before the
    first exit word have been evaluated in order, each once, on a consistent agent. *)
Theorem repl_session home history_path lines (s : state) :
  agent_inv (lu_agent s) ->
  exists s1 calls, cpe_lua_repl (E := E) (W := W) envs depth (Some s) home history_path lines =
      Safe (0%Z, None, Some (s1 <| lu_out := lu_out s1 ++ [EmptyString] |>), calls) /\
    eval_all (E := E) (W := W) envs depth (session lines) (s <| lu_out := lu_out s ++ greeting |>) = Safe s1 /\
    agent_inv (lu_agent s1).
Proof. exact (repl_session_runs home history_path lines s). Qed.
End session_spec.

(** ** Instances *)
Example exit_words : filter (fun l => is_exit_cmd l = true)
  ["quit"; "  EXIT now"; ".quit"; "exit = 1"; "quit()"; "return 1"; EmptyString]%string = ["quit"; "  EXIT now"; ".quit"; "exit = 1"]%string.
Proof. vm_compute. reflexivity. Qed.

#[local] Existing Instances toy_ping toy_ping_events qsort_isort toy_wifi toy_wifi_events toy_lua.
(** An interpreter of two lines. *)
#[local] Instance two_lines : LuaLoad := {|
  load_string := fun src =>
    if streq src "return cpe.spool_depth(), 2.5" then
      inl (CallC "spool_depth" [] (fun r => match r with inl vs => Return (vs ++ [LNum (d_const 5 (-1))]) | inr e => Raise e end))
    else if streq src "cpe.set_target()" then inl (CallC "set_target" [] pass)
    else inr (LStr "syntax error");
  load_file := fun _ => inr LNil |}.
Example toy_session :
  match toy_lua_state with
  | Some s =>
      match cpe_lua_repl (E := unit) (W := list nl80211_event) toy_lua_env 4 (Some s) None None
              ["cpe.spool_depth(), 2.5"; EmptyString; "cpe.set_target()"; "cpe("; "exit"; "cpe.set_target()"]%string with
      | Safe (rc, _, Some s, calls) =>
          rc = 0%Z /\ drop (length greeting) (lu_out s) = ["0"; "2.5"; EmptyString]%string /\
          lu_err s = ["error: bad argument #1 (string expected)"; "error: syntax error"]%string /\ length calls = 10
      | _ => False
      end
  | None => False
  end.
Proof. vm_compute. by split_and!. Qed.
