(* ===== verification/LuaMain.v ===== *)
(** * The agent process with Lua (src/agent/main.c)

    The branch of [main] that runs a script, a chunk and the prompt, in the build with Lua:
    [AgentMain.main_with] over [LuaBind] and [LuaRepl]. *)

From S2P Require Import Prelude CStr HostAlloc SpoolDir Config Spool Events Nflog TcpStats TcpEmit TcpInv Nfct FlowEntry FlowTable.
From S2P Require Import FlowAcct AgentData Agent AgentConfig LivePing LiveTrace AgentRun IpcRequest IpcServer AgentLoop AgentMain.
From S2P Require Import WifiStats LiveArping LuaApi LuaBind LuaRepl.

(** The two allocations of [cpe_lua_create], HOME, and the lines typed. *)
Record lua_main_env := {
  lm_calloc : bool;
  lm_newstate : bool;
  lm_home : option string;
  lm_lines : list string;
}.

Section main.
Context {P C FS : Type} `{!PingLib P} {E : Type} `{!EventSource P E} `{!NfctLib C} `{!EventSource C nfct_event}
  `{!QSort} `{!FileSystem FS} {W : Type} `{!WifiLib W} `{!EventSource W nl80211_event} `{!LuaLib} `{!LuaLoad}.
Local Abbreviation agent := (agent P C).
Local Abbreviation state := (lua_state P C FS).
Context (envs : nat -> loop_env) (env : main_env) (lua_envs : nat -> lua_env) (depth : nat) (lm : lua_main_env).

(** [if (rc == 0 && arg) rc = step(arg)]: a failed step is the exit code 1. *)
Definition lua_step {A} (arg : option A) (step : A -> state -> chk (Z * state)) (r : Z * state) : chk (Z * state) :=
  match arg with
  | Some x => if (r.1 =? 0)%Z then step x r.2 else mret r
  | None => mret r
  end.
Definition script_step (m : chk (Z * list lval * errbuf * option state)) (s : state) : chk (Z * state) :=
  r ← m;
  let '(rc, _, _, L) := r in
  mret ((if negb (rc =? 0)%Z then 1 else 0)%Z, default s L).
Definition lua_file_step (path : string) (s : state) : chk (Z * state) :=
  script_step (cpe_lua_dofile (E := E) (W := W) lua_envs depth (Some s) (Some path) (Some (256, EmptyString))) s.
Definition lua_eval_step (src : string) (s : state) : chk (Z * state) :=
  script_step (cpe_lua_dostring (E := E) (W := W) lua_envs depth (Some s) (Some src) (Some (256, EmptyString))) s.
Definition lua_repl_step (hist : option string) (s : state) : chk (Z * state) :=
  r ← cpe_lua_repl (E := E) (W := W) lua_envs depth (Some s) (lm_home lm) hist (lm_lines lm);
  let '(rc, _, L, _) := r in mret (rc, default s L).

Definition run_lua (c : cli) (a : agent) (fs : FS) (h : alloc_stats) (seqs : Z * Z) : chk (main_result FS) :=
  match cpe_lua_create (lm_calloc lm) (lm_newstate lm) (Some a) h fs seqs.2 0 with
  | None => mret (leave 1 (Some a) [] fs [] h)
  | Some s =>
      r ← lua_step (cl_lua_file c) lua_file_step (0%Z, s);
      r ← lua_step (cl_lua_eval c) lua_eval_step r;
      r ← lua_step (if truthy (cl_lua_repl c) then Some (cl_history_path c) else None) lua_repl_step r;
      let '(rc, s) := r in
      mret (leave rc (Some (lu_agent s)) (lu_out s) (lu_fs s) [] (lu_heap s))
  end.
Definition cpe_agent_main_lua := main_with (E := E) envs env run_lua.
End main.

Section spec.
Context {P C FS : Type} `{!PingLib P} {E : Type} `{!EventSource P E} `{!NfctLib C} `{!EventSource C nfct_event}
  `{!QSort} `{!FileSystem FS} {W : Type} `{!WifiLib W} `{!EventSource W nl80211_event} `{!LuaLib} `{!LuaLoad}.
Local Abbreviation state := (lua_state P C FS).
Context (envs : nat -> loop_env) (env : main_env) (lua_envs : nat -> lua_env) (depth : nat) (lm : lua_main_env).
Hypothesis event_ok : forall (c : C) e c', next_event c = (Some e, c') -> nfct_event_ok e.
Hypothesis envs_ok : forall n, loop_env_ok (envs n).
Hypothesis load_ok : forall p e c, (me_load env p e).1.2 = Some c -> config_ok c.
Hypothesis lua_envs_ok : forall n, lua_env_ok (lua_envs n).

(** An exit code, and a consistent agent. *)
Definition step_ok (r : Z * state) : Prop := (r.1 = 0%Z \/ r.1 = 1%Z) /\ agent_inv (lu_agent r.2).

Lemma lua_step_ok {A} (arg : option A) step r :
  (forall x s, agent_inv (lu_agent s) -> safe_with step_ok (step x s)) -> step_ok r -> safe_with step_ok (lua_step arg step r).
Proof.
  intros Hstep Hr. unfold lua_step. destruct arg as [x|]; [|by apply safe_ret].
  destruct (r.1 =? 0)%Z; [apply Hstep, Hr|by apply safe_ret].
Qed.
Lemma script_step_ok loaded s :
  agent_inv (lu_agent s) ->
  safe_with step_ok (script_step (r ← run_loaded (cpe_call (E := E) (W := W) lua_envs depth) loaded s;
    let '(rc, err) := script_error r.1 (Some (256, EmptyString)) in
    mret (rc, match r.1 with inl vs => vs | inr _ => [] end, err, Some r.2)) s).
Proof.
  intros Ha. unfold script_step.
  destruct (run_loaded_keeps (cpe_call (E := E) (W := W) lua_envs depth) loaded s
    (fun f args => cpe_call_keeps lua_envs lua_envs_ok depth f args) Ha) as ([r s'] & -> & Hi).
  chk_step. destruct r as [vs|e]; chk_step; eexists; (split; [reflexivity|]); split; cbn; auto.
Qed.
Lemma repl_step_ok hist s : agent_inv (lu_agent s) -> safe_with step_ok (lua_repl_step (E := E) (W := W) lua_envs depth lm hist s).
Proof.
  intros Ha. unfold lua_repl_step.
  destruct (repl_session_runs (E := E) (W := W) lua_envs depth lua_envs_ok (lm_home lm) hist (lm_lines lm) s Ha)
    as (s1 & calls & -> & _ & Hi). chk_step. eexists. split; [reflexivity|]. split; [by left|exact Hi].
Qed.

(** The branch of the Lua options closes exactly the sockets the agent then holds. *)
Lemma run_lua_exits c (a : agent P C) (fs : FS) h seqs :
  agent_inv a ->
  safe_with (fun r => exists a', agent_inv a' /\ (mr_exit r = Some 0%Z \/ mr_exit r = Some 1%Z) /\
      mr_closed r = (cpe_agent_destroy (Some a') h).1 /\
      (lm_calloc lm && lm_newstate lm = false -> mr_exit r = Some 1%Z /\ a' = a))
    (run_lua (E := E) (W := W) lua_envs depth lm c a fs h seqs).
Proof.
  intros Ha. unfold run_lua, cpe_lua_create.
  destruct (lm_calloc lm); cbn [negb]; [|apply safe_ret; exists a; split_and!; auto].
  destruct (lm_newstate lm); cbn [negb andb]; [|apply safe_ret; exists a; split_and!; auto].
  set (s := {| lu_agent := a |}).
  eapply safe_bind; [apply (lua_step_ok _ _ (0%Z, s)); [intros path s1 Hs1; by apply script_step_ok|by split; [left|]]|]. intros r1 Hr1.
  eapply safe_bind; [apply lua_step_ok; [intros src s1 Hs1; by apply script_step_ok|exact Hr1]|]. intros r2 Hr2.
  eapply safe_bind; [apply lua_step_ok; [intros hist s1 Hs1; by apply repl_step_ok|exact Hr2]|]. intros [rc s3] [Hr3 Hr4].
  apply safe_ret. exists (lu_agent s3). cbn in *. split_and!; [exact Hr4|by destruct Hr3 as [-> | ->]; auto|done|done].
Qed.

(** C6: The process of the build with Lua, whatever its command line, the scripts it runs
    and the lines typed at its prompt, is memory safe and exits with 0 or 1; only the daemon
    can keep running, and a SIGINT or SIGTERM ends it.  The files, sockets and signals
    answer as they like, within what is assumed of the loop and of the scripts' calls:
    NFLOG datagrams are bytes whose number is a multiple of four (an unpadded control
    message is read past its end, lemma [nflog_walk_control_overrun]), conntrack datagrams
    are bytes, the millisecond clock is below 2^64 - 1, the library's events are within the
    ranges of their types and its queues are finite, and a file that loads gives a
    configuration without negative sizes. *)
Theorem lua_main_exits fuel opts (fs : FS) h seqs :
  safe_with (fun r =>
      (forall rc, mr_exit r = Some rc -> rc = 0%Z \/ rc = 1%Z) /\
      (mr_exit r = None -> exists c, parse_opts opts no_cli = inl c /\ truthy (cl_once c) = false /\ wants_lua c = false) /\
      (forall k, le_stop (envs k) = true -> S k < fuel -> mr_exit r <> None))
    (cpe_agent_main_lua (P := P) (C := C) (E := E) (W := W) envs env lua_envs depth lm fuel opts fs h seqs).
Proof.
  unfold cpe_agent_main_lua. apply main_with_exits; [done..|]. intros c a fs1 h1 seqs1 Ha.
  destruct (run_lua_exits c a fs1 h1 seqs1 Ha) as (r & Hrun & a' & _ & Hr & _). by exists r.
Qed.
End spec.

(** ** Instances *)
#[local] Existing Instances toy_source toy_lib toy_ping toy_ping_events qsort_isort toy_wifi toy_wifi_events toy_lua toy_load.
Definition toy_lua_main : lua_main_env := {| lm_calloc := true; lm_newstate := true; lm_home := None; lm_lines := ["scan"]%string |}.
Definition lua_cli : cli := no_cli <| cl_lua_eval := Some "loop"%string |> <| cl_lua_repl := 1%Z |>.
Lemma lua_main_exits_witness :
  safe_with (fun r => forall rc, mr_exit r = Some rc -> rc = 0%Z \/ rc = 1%Z)
    (cpe_agent_main_lua (P := nat) (C := nat) (E := unit) (W := list nl80211_event) quiet toy_main toy_lua_env 4 toy_lua_main 4
       [] (@nil string) cpe_host_alloc_reset_stats (0, 0)%Z).
Proof.
  destruct (lua_main_exits (P := nat) (C := nat) (E := unit) (W := list nl80211_event) quiet toy_main toy_lua_env 4 toy_lua_main
    toy_events_ok quiet_ok ltac:(done) toy_lua_env_ok 4 [] (@nil string) cpe_host_alloc_reset_stats (0, 0)%Z) as (r & Hrun & Hr & _).
  exists r. split; [exact Hrun|exact Hr].
Defined.
(** A chunk that fails ends the process with 1; the prompt is not reached. *)
Example eval_fails :
  match new_ap_agent with
  | Some a =>
      match run_lua (E := unit) (W := list nl80211_event) toy_lua_env 4 toy_lua_main lua_cli a (@nil string) cpe_host_alloc_reset_stats (0, 0)%Z with
      | Safe r => mr_exit r = Some 1%Z /\ mr_out r = []
      | Oob => False
      end
  | None => False
  end.
Proof. vm_compute. by split. Qed.
