(* ===== verification/CtlLua.v ===== *)
(** * The control client's Lua tools (src/agent/ctl_lua.c)

    One request to the daemon per call, the reading of its response into a Lua value, the
    functions of the table [cpe], scripts and the prompt.  Each call has its own answers of
    the kernel and of [malloc]; the sockets are those of [IpcClient]. *)

From Stdlib Require Import Ascii.
From S2P Require Import Prelude CStr StrSearch Float754 Config Spool TcpStats TcpEmit AgentData Agent AgentConfig IpcRequest IpcServer.
From S2P Require Import IpcClient Strtod LuaApi ChQuery.

(** ** Reading the response *)

(** A loop that moves [q] past the characters with [p]. *)
Fixpoint skip_while (p : ascii -> bool) (s : string) : string :=
  match s with String c s' => if p c then skip_while p s' else s | EmptyString => s end.
(** The characters up to one that stops, at most [room] of them, and the rest. *)
Fixpoint take_until (room : nat) (stop : ascii -> bool) (s : string) : string * string :=
  match room, s with
  | S m, String c s' => if stop c then (EmptyString, s) else let '(t, r) := take_until m stop s' in (String c t, r)
  | _, _ => (EmptyString, s)
  end.
(** Quoted text with backslashes taken out. *)
Fixpoint take_text (room : nat) (s : string) : string * string :=
  match room, s with
  | S m, String c s' =>
      if Ascii.eqb c quote then (EmptyString, s)
      else match (if Ascii.eqb c "\" then s' else EmptyString) with
      | String d s2 => let '(t, r) := take_text m s2 in (String d t, r)
      | EmptyString => let '(t, r) := take_text m s' in (String c t, r)
      end
  | _, _ => (EmptyString, s)
  end.
(** One character [c], if it is there. *)
Definition skip_one (c : ascii) (s : string) : string :=
  match s with String d s' => if Ascii.eqb d c then s' else s | EmptyString => s end.
Definition chr (c d : ascii) : bool := Ascii.eqb d c.
Definition blank (c : ascii) : bool := chr " " c || chr (ascii_of_nat 9) c.
Definition opens (c : ascii) : bool := chr "{" c || chr "[" c.
Definition closes (c : ascii) : bool := chr "}" c || chr "]" c.
Definition first_char (s : string) : ascii := match s with String c _ => c | EmptyString => "000" end.
Definition contains (pat s : string) : bool := match String.index 0 pat s with Some _ => true | None => false end.

(** The text of ["error"], [char emsg[128]]. *)
Definition error_field (resp : string) : string :=
  match String.index 0 (lit "'error'") resp with
  | None => EmptyString
  | Some i =>
      let p := str_drop i resp in
      match chr_index ":" p with
      | None => EmptyString
      | Some j => (take_until 127 (chr quote) (skip_while (fun c => chr " " c || chr quote c) (str_drop (S j) p))).1
      end
  end.

(** The length of the value at the start, by its brackets. *)
Fixpoint value_end (s : string) (depth : Z) (i : nat) : option nat :=
  match s with
  | EmptyString => None
  | String c s' =>
      if opens c then value_end s' (depth + 1) (S i)
      else if closes c then if (depth - 1 =? 0)%Z then Some (S i) else value_end s' (depth - 1) (S i)
      else value_end s' depth (S i)
  end.
Definition trim_value (s : string) : string := match value_end s 0 0 with Some n => str_take n s | None => s end.

(** [lua_setfield] of a table made in C. *)
Fixpoint set_field (fs : list (string * lval)) (k : string) (v : lval) : list (string * lval) :=
  match fs with
  | [] => [(k, v)]
  | (k', v') :: fs' => if streq k' k then (k, v) :: fs' else (k', v') :: set_field fs' k v
  end.

Definition KEY_SIZE := 64.
Definition VAL_SIZE := 256.
(** The rest behind a nested value. *)
Fixpoint skip_nested (s : string) (depth : Z) : string :=
  match s with
  | EmptyString => EmptyString
  | String c s' =>
      let depth := if opens c then (depth + 1)%Z else if closes c then (depth - 1)%Z else depth in
      if (0 <? depth)%Z then skip_nested s' depth else s'
  end.
(** The value at the start: to be stored if it is not nested, and the rest; [None] for one that
    ends the scan. *)
Definition scan_value (q : string) : option (option lval * string) :=
  let c := first_char q in
  if chr quote c then
    let '(val, q) := take_text (VAL_SIZE - 1) (skip_one quote q) in Some (Some (LStr val), skip_one quote q)
  else if chr "t" c || chr "f" c then
    Some (Some (LBool (chr "t" c)), skip_while (fun c => negb (chr "," c || chr "}" c)) q)
  else if is_digit c || chr "-" c || chr "." c then
    let '(num, rest) := strtod q in Some (Some (LNum num), rest)
  else if opens c then Some (None, skip_nested q 0)
  else None.
(** One field: [inl] when the scan ends with the table. *)
Definition scan_field (q : string) (fs : list (string * lval)) : list (string * lval) + string * list (string * lval) :=
  let q := skip_while (fun c => negb (chr quote c)) q in
  if negb (nonempty q) then inl fs
  else
    let '(key, q) := take_until (KEY_SIZE - 1) (chr quote) (skip_one quote q) in
    let q := skip_while blank (skip_one ":" (skip_while (fun c => negb (chr ":" c)) (skip_one quote q))) in
    match scan_value q with
    | None => inl fs
    | Some (v, q) =>
        let fs := match v with Some v => set_field fs key v | None => fs end in
        let q := skip_while (fun c => blank c || chr "," c) q in
        if chr "}" (first_char q) then inl fs else inr (q, fs)
    end.
Fixpoint scan_fields (fuel : nat) (q : string) (fs : list (string * lval)) : list (string * lval) :=
  match fuel with
  | O => fs
  | S f =>
      if nonempty q then match scan_field q fs with inl fs => fs | inr (q, fs) => scan_fields f q fs end else fs
  end.
(** The table: the text itself under [_json], and the flat fields. *)
Definition decode_table (copy : string) : lval :=
  let q := skip_one "{" copy in
  fields_table (scan_fields (S (strlen q)) q [("_json"%string, LStr copy)]).

Definition ends_brace (s : string) : bool :=
  match String.get (strlen s - 1) s with Some c => chr "}" c | None => false end.
(** What [ipc_call] makes of a response: a value or the message it raises. *)
Definition read_response (malloc_ok : bool) (resp : string) : lval + string :=
  if contains (lit "'ok':false") resp || contains (lit "'ok': false") resp then inr (str_dflt (error_field resp) resp)
  else inl
    match String.index 0 (lit "'data':") resp with
    | None => LStr resp
    | Some i =>
        let data := skip_while blank (str_drop (i + 7) resp) in
        let c := first_char data in
        if String.prefix "null" data then LNil
        else if String.prefix "true" data then LBool true
        else if String.prefix "false" data then LBool false
        else if opens c then if ends_brace data && malloc_ok then decode_table (trim_value data) else LStr data
        else if is_digit c || chr "-" c then LNum (strtod data).1
        else if chr quote c then LStr (take_until 511 (chr quote) (skip_one quote data)).1
        else LStr resp
    end.

(** ** Calls *)

(** [cs_stack]: what scripts leave on the Lua stack, the top last; [cs_sent]: the bytes sent
    by each request; lines of standard output and error. *)
Record ctl_lua := {
  cs_sock : string;
  cs_stack : list lval;
  cs_out : list string;
  cs_err : list string;
  cs_calls : nat;
  cs_sent : list string;
}.
#[export] Instance eta_ctl_lua : Eta ctl_lua := fun s => {|
  cs_sock := cs_sock s; cs_stack := cs_stack s; cs_out := cs_out s; cs_err := cs_err s; cs_calls := cs_calls s; cs_sent := cs_sent s |}.
(** The answers to one request. *)
Record ctl_call_env := { cc_ipc : client_env; cc_malloc : bool }.

Definition help_text : list string := [
  "cpe_ctl Lua tools (query cpe_agent daemon over Unix socket):";
  "  cpe.help() / cpe.ping() / cpe.status() / cpe.config()";
  "  cpe.last_sample() / cpe.latency() / cpe.spool() / cpe.emit()";
  "  cpe.tcp_poll([max]) / cpe.tcp_stats()";
  "  cpe.tcp_by_ip([ip]) / cpe.tcp_by_prefix([cidr])";
  "  cpe.tcp_emit([top_n]) / cpe.tcp_reset()";
  "  cpe.raw('{" +:+ lit "'op':'status'" +:+ "}')  -- advanced";
  EmptyString;
  "Daemon collects samples + TCP NFLOG stats and POSTs NDJSON to";
  "edgehost telemetry (→ ClickHouse). This client only queries.";
  "Tables include flat fields plus raw JSON in ._json.";
  "REPL: quit | exit | Ctrl-D"]%string.

Section ctl.
Context `{!LuaLib} `{!LuaLoad} (envs : nat -> ctl_call_env).
Local Abbreviation lua := (cfun ctl_lua).

Definition ipc_call (req : string) : lua (list lval) :=
  s ← get_state;
  let env := envs (cs_calls s) in
  let '(rc, resp, err, sent, _) :=
    cpe_ipc_client_request (cc_ipc env) (Some (cs_sock s)) req CPE_IPC_LINE_MAX (Some (160, EmptyString)) in
  set_state (s <| cs_calls := S (cs_calls s) |> <| cs_sent := cs_sent s ++ [sent] |>) ;;
  if negb (rc =? 0)%Z then lua_error (str_dflt (err_text err) "ipc failed")
  else match read_response (cc_malloc env) (cstr resp) with inl v => mret [v] | inr msg => lua_error msg end.

Definition print_lines (ls : list string) : lua unit := s ← get_state; set_state (s <| cs_out := cs_out s ++ ls |>).
Definition l_help (args : list lval) : lua (list lval) := print_lines help_text ;; mret [].
Definition op_text (op : string) : string := lit "{'op':'" +:+ op +:+ lit "'}".
Definition l_status (args : list lval) : lua (list lval) := ipc_call (op_text "status").
Definition l_config (args : list lval) : lua (list lval) := ipc_call (op_text "config").
Definition l_last_sample (args : list lval) : lua (list lval) := ipc_call (op_text "last_sample").
Definition l_latency (args : list lval) : lua (list lval) := ipc_call (op_text "latency").
Definition l_spool (args : list lval) : lua (list lval) := ipc_call (op_text "spool").
Definition l_emit (args : list lval) : lua (list lval) := ipc_call (op_text "emit").
Definition l_tcp_poll (args : list lval) : lua (list lval) :=
  m ← opt_integer args 1;
  ipc_call (snprintf_s 80 (lit "{'op':'tcp_poll','max':" +:+ fmt_u (default 64%Z (option_map u32 m)) +:+ "}")).
Definition l_tcp_stats (args : list lval) : lua (list lval) := ipc_call (op_text "tcp_stats").
Definition l_tcp_by_ip (args : list lval) : lua (list lval) :=
  ip ← opt_string args 1;
  ipc_call match ip with
           | Some ip => snprintf_s 160 (lit "{'op':'tcp_by_ip','ip':'" +:+ ip +:+ lit "'}")
           | None => op_text "tcp_by_ip"
           end.
Definition l_tcp_by_prefix (args : list lval) : lua (list lval) :=
  p ← opt_string args 1;
  ipc_call match p with
           | Some p => snprintf_s 200 (lit "{'op':'tcp_by_prefix','prefix':'" +:+ p +:+ lit "'}")
           | None => op_text "tcp_by_prefix"
           end.
Definition l_tcp_emit (args : list lval) : lua (list lval) :=
  top ← opt_integer args 1;
  ipc_call (snprintf_s 80 (lit "{'op':'tcp_emit','top_n':" +:+ fmt_u (default 0%Z (option_map u32 top)) +:+ "}")).
Definition l_tcp_reset (args : list lval) : lua (list lval) := ipc_call (op_text "tcp_reset").
Definition l_ping (args : list lval) : lua (list lval) := ipc_call (op_text "ping").
Definition l_raw (args : list lval) : lua (list lval) := req ← check_string args 1; ipc_call req.

Definition cpe_funcs : list (string * (list lval -> lua (list lval))) := [
  ("help", l_help); ("ping", l_ping); ("status", l_status); ("config", l_config); ("last_sample", l_last_sample);
  ("latency", l_latency); ("spool", l_spool); ("emit", l_emit); ("tcp_poll", l_tcp_poll); ("tcp_stats", l_tcp_stats);
  ("tcp_by_ip", l_tcp_by_ip); ("tcp_by_prefix", l_tcp_by_prefix); ("tcp_emit", l_tcp_emit); ("tcp_reset", l_tcp_reset);
  ("raw", l_raw)]%string.
(** A call of a function of the table. *)
Definition ctl_call (f : string) (args : list lval) : lua (list lval) :=
  match find (fun '(name, _) => streq name f) cpe_funcs with
  | Some (_, fn) => fn args
  | None => lua_error "attempt to call a nil value"
  end.

(** ** Scripts *)

(** [calloc] and [luaL_newstate]: whether they answer. *)
Definition cpe_ctl_lua_create (calloc_ok newstate_ok : bool) (sock_path : option string) : option ctl_lua :=
  let path := str_dflt (default EmptyString sock_path) CPE_IPC_SOCK_DEFAULT in
  if negb calloc_ok then None
  else
    let sock := snprintf_s CPE_CFG_PATH_MAX path in
    if negb newstate_ok then None
    else Some {| cs_sock := sock; cs_stack := []; cs_out := []; cs_err := []; cs_calls := 0; cs_sent := [] |}.

(** The results of a chunk stay on the stack. *)
Definition left_on_stack (r : list lval + lval) (s : ctl_lua) : ctl_lua :=
  s <| cs_stack := cs_stack s ++ match r with inl vs => vs | inr _ => [] end |>.
Definition run_script (loaded : chunk + lval) (s : ctl_lua) (err : errbuf) : chk (Z * errbuf * ctl_lua) :=
  r ← run_loaded ctl_call loaded s;
  let '(rc, err) := script_error r.1 err in
  mret (rc, err, left_on_stack r.1 r.2).
Definition cpe_ctl_lua_dostring (L : option ctl_lua) (src : option string) (err : errbuf) : chk (Z * errbuf * option ctl_lua) :=
  match L, src with
  | Some s, Some src => r ← run_script (load_string src) s err; mret (r.1, Some r.2)
  | _, _ => mret ((-1)%Z, err_set err "bad args", L)
  end.
Definition cpe_ctl_lua_dofile (L : option ctl_lua) (path : option string) (err : errbuf) : chk (Z * errbuf * option ctl_lua) :=
  match L, path with
  | Some s, Some path => r ← run_script (load_file path) s err; mret (r.1, Some r.2)
  | _, _ => mret ((-1)%Z, err_set err "bad args", L)
  end.

(** ** The prompt *)

(** A key and a value of a printed table. *)
Definition key_part (k : lval) : string := match k with LStr s => cstr s +:+ "=" | _ => EmptyString end.
Definition bool_text (b : bool) : string := if b then "true" else "false".
Definition value_part (v : lval) : string :=
  match v, to_number v with
  | LStr s, None => cstr s
  | LBool b, _ => bool_text b
  | _, Some d => fmt_g 6 d
  | _, None => type_name v
  end.
Fixpoint table_body (fs : list (lval * lval)) (first : bool) : string :=
  match fs with
  | [] => EmptyString
  | (k, v) :: fs' => (if first then EmptyString else ", ") +:+ key_part k +:+ value_part v +:+ table_body fs' false
  end.
(** The line printed for the value on top of the stack, if it has one. *)
Definition print_top (v : lval) : list string :=
  match v, error_text v with
  | LTable fs, _ => ["{" +:+ table_body (table_order fs) true +:+ "}"]
  | LBool b, _ => [bool_text b]
  | _, Some t => [t]
  | _, None => []
  end.

Definition CHUNK_SIZE : nat := 4 * 1024.
Definition statement_words : list string := ["for "; "if "; "while "; "local "; "function "; "do "]%string.
Definition is_statement (line : string) : bool :=
  String.prefix "return " line || contains "=" line || existsb (fun w => String.prefix w line) statement_words.
Definition line_chunk (line : string) : string :=
  snprintf_s CHUNK_SIZE (if is_statement line then line else "return " +:+ line).

Definition LINE_ERR : errbuf := Some (256, EmptyString).
(** A line that is neither empty nor an exit word: its chunk, and the line itself when that
    fails, whatever the reason. *)
Definition eval_line (line : string) (s : ctl_lua) : chk ctl_lua :=
  r ← run_script (load_string (line_chunk line)) s LINE_ERR;
  let '(rc, _, s) := r in
  if negb (rc =? 0)%Z then
    r ← run_script (load_string line) s LINE_ERR;
    let '(rc, err, s) := r in
    mret (if negb (rc =? 0)%Z then s <| cs_err := cs_err s ++ ["error: " +:+ str_dflt (err_text err) "lua"] |> else s)
  else
    mret match last (cs_stack s) with
         | Some v => s <| cs_out := cs_out s ++ print_top v |> <| cs_stack := [] |>
         | None => s
         end.

(** [while ((line = linenoise("cpe_ctl> ")) != NULL)] *)
Fixpoint repl_loop (lines : list string) (s : ctl_lua) : chk (ctl_lua * list history_call) :=
  match lines with
  | [] => mret (s, [])
  | line :: rest =>
      if negb (nonempty line) then repl_loop rest s
      else if streq line "quit" || streq line "exit" then mret (s, [])
      else
        s ← eval_line line s;
        r ← repl_loop rest s;
        mret (r.1, HistoryAdd line :: r.2)
  end.
Definition history_file (history_path : option string) : string :=
  str_dflt (default EmptyString history_path) "/tmp/cpe_ctl_history".
Definition cpe_ctl_lua_repl (L : option ctl_lua) (history_path : option string) (lines : list string)
    : chk (Z * option ctl_lua * list history_call) :=
  let hist := history_file history_path in
  match L with
  | None => mret (1%Z, None, [])
  | Some s =>
      r ← repl_loop lines (s <| cs_out := cs_out s ++
        ["cpe_ctl connected to " +:+ cs_sock s +:+ " — cpe.help() for API, quit to exit"] |>);
      mret (0%Z, Some r.1, [HistoryLoad hist] ++ r.2 ++ [HistorySave hist])
  end.
End ctl.

(** ** Flat objects are read *)

Definition plain_text (s : string) : Prop := str_forall (fun c => negb (opens c || closes c)) s = true.
Definition flat_val (v : jval) : Prop :=
  match v with
  | JStr s => str_forall plain_char s = true /\ plain_text s /\ strlen s < VAL_SIZE
  | JNum t => t = "true"%string \/ t = "false"%string \/ decimal t
  end.
Definition flat_field (f : string * jval) : Prop :=
  sql_ident_ok f.1 = true /\ f.1 <> "ok"%string /\ strlen f.1 < KEY_SIZE /\ flat_val f.2.
(** An object of strings, numbers and booleans under different names. *)
Definition flat (fs : list (string * jval)) : Prop :=
  Forall flat_field fs /\ NoDup ("_json"%string :: fs.*1) /\ fs <> [].
Definition lua_value (v : jval) : lval :=
  match v with
  | JStr s => LStr s
  | JNum t => if streq t "true" then LBool true else if streq t "false" then LBool false else LNum (strtod t).1
  end.
Definition lua_field (f : string * jval) : string * lval := (f.1, lua_value f.2).

Lemma digits_num s : digits s -> str_forall num_char s = true.
Proof. apply str_forall_weaken. intros c. by destruct c as [[] [] [] [] [] [] [] []]. Qed.
Lemma decimal_num t : decimal t -> str_forall num_char t = true.
Proof.
  intros (s & ip & fp & -> & Hi & _ & Hf). rewrite !str_forall_app, (digits_num ip) by done.
  destruct fp as [f|]; cbn [fraction default] in *; [rewrite str_forall_app, (digits_num f) by done|]; by destruct s.
Qed.
Lemma decimal_first t :
  decimal t -> exists c t', t = String c t' /\ (is_digit c || chr "-" c = true).
Proof.
  intros (s & ip & fp & -> & Hi & Hl & _). destruct s; [by eexists _, _|].
  destruct ip as [|c ip]; [cbn in Hl; lia|]. unfold digits in Hi. cbn [str_forall] in Hi. apply andb_true_iff in Hi as [Hc _].
  exists c, (ip +:+ fraction fp). by rewrite Hc.
Qed.
Lemma num_plain_text t : str_forall num_char t = true -> decimal t -> plain_text t.
Proof.
  intros _ (s & ip & fp & -> & Hi & _ & Hf). unfold plain_text.
  assert (Hd : forall u, digits u -> plain_text u).
  { intros u. apply str_forall_weaken. intros c. by destruct c as [[] [] [] [] [] [] [] []]. }
  rewrite !str_forall_app, (Hd ip) by done. destruct fp as [f|]; cbn [fraction default] in *; [rewrite str_forall_app, (Hd f) by done|]; by destruct s.
Qed.
Lemma flat_val_ok v : flat_val v -> val_ok v = true /\ plain_text (val_text v).
Proof.
  destruct v as [s|t]; cbn [flat_val val_ok val_text].
  - intros (Hs & Hp & _). split; [done|]. unfold plain_text. cbn [str_forall]. rewrite str_forall_app. unfold plain_text in Hp. by rewrite Hp.
  - intros [->|[->|Hd]]; [done..|]. pose proof (decimal_num t Hd). split; [done|by apply num_plain_text].
Qed.
Lemma flat_field_ok f : flat_field f -> field_ok f = true /\ plain_text (field_text f).
Proof.
  intros (Hk & _ & _ & Hv). apply flat_val_ok in Hv as [Hv Hp]. unfold field_ok, plain_text, field_text, key_text in *.
  rewrite Hk, Hv. split; [done|]. cbn [str_forall]. rewrite str_app_cons. cbn [str_forall]. rewrite !str_forall_app, Hp.
  apply andb_true_iff in Hk as [_ Hk]. erewrite str_forall_weaken; [done| |exact Hk].
  intros c. by destruct c as [[] [] [] [] [] [] [] []].
Qed.
Lemma flat_fields_ok fs : Forall flat_field fs -> Forall (fun f => field_ok f = true) fs.
Proof. intros Hfs. eapply Forall_impl; [exact Hfs|]. intros f Hf. by apply flat_field_ok. Qed.

(** *** The value's end *)
Lemma value_end_plain s r d i : plain_text s -> value_end (s +:+ r) d i = value_end r d (i + strlen s).
Proof.
  unfold plain_text. revert i. induction s as [|c s IH]; intros i; [by rewrite Nat.add_0_r|]. cbn [str_forall].
  intros [Hc Hs]%andb_true_iff. apply negb_true_iff, orb_false_iff in Hc as [Ho Hc].
  rewrite str_app_cons. cbn [value_end String.length]. rewrite Ho, Hc, IH by done. f_equal. lia.
Qed.
Lemma value_end_fields fs r i :
  Forall flat_field fs -> fs <> [] -> value_end (fields_text fs +:+ r) 1 i = Some (i + strlen (fields_text fs)).
Proof.
  intros Hfs. revert i. induction Hfs as [|f fs Hf Hfs IH]; intros i Hne; [done|].
  destruct (flat_field_ok f Hf) as [_ Hp]. destruct fs as [|g fs].
  - change (fields_text [f]) with (field_text f +:+ "}"). rewrite str_app_assoc, value_end_plain, strlen_app by done.
    change ("}" +:+ r) with (String "}" r). cbn [value_end opens closes chr Ascii.eqb Bool.eqb orb andb]. simpl. f_equal. lia.
  - change (fields_text (f :: g :: fs)) with (field_text f +:+ "," +:+ fields_text (g :: fs)).
    rewrite !str_app_assoc, value_end_plain, !strlen_app by done.
    change ("," +:+ ?t) with (String "," t). change (value_end (String "," ?t) 1 ?j) with (value_end t 1 (S j)).
    rewrite IH by done. simpl (strlen ","). f_equal. lia.
Qed.
Lemma trim_object fs : Forall flat_field fs -> fs <> [] -> trim_value (object_text fs +:+ "}") = object_text fs.
Proof.
  intros Hfs Hne. unfold trim_value, object_text. rewrite str_app_cons.
  change (value_end (String "{" ?t) 0 0) with (value_end t 1 1). rewrite value_end_fields by done.
  change (String "{" (fields_text fs +:+ "}")) with (String "{" (fields_text fs) +:+ "}"). apply (str_take_app (String "{" (fields_text fs))).
Qed.
Lemma ends_brace_app s : ends_brace (s +:+ "}") = true.
Proof.
  unfold ends_brace. rewrite strlen_app. cbn [String.length]. rewrite Nat.add_sub.
  induction s as [|c s IH]; [done|]. rewrite str_app_cons. exact IH.
Qed.

(** *** The scan *)
Lemma take_until_quote room s t :
  free quote s -> strlen s <= room -> take_until room (chr quote) (s +:+ String quote t) = (s, String quote t).
Proof.
  revert room. unfold free. induction s as [|d s IH]; intros [|m] Hs Hl; cbn [String.length] in Hl; try lia; [done..|].
  cbn [chr_index] in Hs. rewrite str_app_cons. cbn [take_until]. change (chr quote d) with (Ascii.eqb quote d). rewrite Ascii.eqb_sym.
  destruct (Ascii.eqb d quote); [done|]. destruct (chr_index quote s) eqn:E; [done|]. by rewrite IH by (done || lia).
Qed.
Lemma take_text_plain room s t :
  str_forall plain_char s = true -> strlen s <= room -> take_text room (s +:+ String quote t) = (s, String quote t).
Proof.
  revert room. induction s as [|c s IH]; intros [|m] Hs Hl; cbn [String.length] in Hl; try lia; [done..|].
  cbn [str_forall] in Hs. apply andb_true_iff in Hs as [Hc Hs]. rewrite str_app_cons. cbn [take_text].
  unfold plain_char in Hc. apply negb_true_iff in Hc.
  destruct (Ascii.eqb c quote); [done|]. destruct (Ascii.eqb c "\"); [done|]. by rewrite IH by (done || lia).
Qed.

Lemma sep_cases sep : sep_char sep = true -> sep = ","%char \/ sep = "}"%char.
Proof. by intros [->%Ascii.eqb_eq| ->%Ascii.eqb_eq]%orb_true_iff; auto. Qed.
Lemma scan_value_flat v sep t :
  flat_val v -> sep_char sep = true ->
  scan_value (val_text v +:+ String sep t) = Some (Some (lua_value v), String sep t).
Proof.
  intros Hv Hsep. apply sep_cases in Hsep. destruct v as [s|u]; cbn [flat_val val_text lua_value] in *.
  - destruct Hv as (Hs & _ & Hl). rewrite str_app_cons, str_app_assoc. change (String quote EmptyString +:+ ?t) with (String quote t).
    unfold scan_value. cbn [first_char skip_one]. rewrite Ascii.eqb_refl. change (chr quote quote) with true. cbv iota.
    rewrite take_text_plain by (first [done|unfold VAL_SIZE in *; lia]). done.
  - destruct Hv as [->|[->|Hd]]; [by destruct Hsep as [->| ->]..|].
    assert (Hend : ends_number (String sep t)) by (destruct Hsep as [->| ->]; cbn; auto).
    pose proof (strtod_decimal u (String sep t) Hd Hend) as Hs.
    destruct (decimal_first u Hd) as (c & u' & -> & Hc). unfold scan_value. rewrite Hs. rewrite str_app_cons. cbn [first_char].
    clear Hs. assert (He : streq (String c u') "true" = false /\ streq (String c u') "false" = false /\ chr quote c = false /\
      chr "t" c = false /\ chr "f" c = false) by by destruct c as [[] [] [] [] [] [] [] []].
    destruct He as (-> & -> & -> & -> & ->). cbn [orb]. apply orb_true_iff in Hc as [-> | ->]; by rewrite ?orb_true_r.
Qed.

Lemma val_first v sep t : flat_val v -> sep_char sep = true -> skip_while blank (val_text v +:+ String sep t) = val_text v +:+ String sep t.
Proof.
  intros Hv Hsep. destruct v as [s|u]; [done|]. cbn [flat_val val_text] in *. destruct Hv as [->|[->|Hd]]; [done..|].
  destruct (decimal_first u Hd) as (c & u' & -> & Hc). rewrite str_app_cons. cbn [skip_while].
  by destruct c as [[] [] [] [] [] [] [] []].
Qed.
Lemma scan_field_flat f sep t fs :
  flat_field f -> sep_char sep = true ->
  scan_field (field_text f +:+ String sep t) fs =
  let fs := set_field fs f.1 (lua_value f.2) in
  let q := skip_while (fun c => blank c || chr "," c) (String sep t) in
  if chr "}" (first_char q) then inl fs else inr (q, fs).
Proof.
  destruct f as [k v]. intros (Hk & _ & Hl & Hv) Hsep. cbn [fst snd] in *. unfold field_text. cbn [fst snd].
  rewrite str_app_assoc, key_search. unfold scan_field. change (skip_while ?p (String quote ?t)) with (String quote t).
  cbn [nonempty negb skip_one]. change (Ascii.eqb quote quote) with true. cbv iota.
  rewrite take_until_quote by (first [by apply ident_free|unfold KEY_SIZE in *; lia]).
  cbn [skip_one]. change (Ascii.eqb quote quote) with true. cbv iota.
  change (skip_while ?p (String ":" ?t)) with (String ":" t). cbn [skip_one]. change (Ascii.eqb ":" ":") with true. cbv iota.
  rewrite val_first, scan_value_flat by done. done.
Qed.

Lemma set_field_new fs k v : k ∉ fs.*1 -> set_field fs k v = fs ++ [(k, v)].
Proof.
  induction fs as [|[k' v'] fs IH]; [done|]. rewrite fmap_cons, not_elem_of_cons. intros [Hk Hfs]. cbn [set_field].
  unfold streq. destruct (String.eqb_spec k' k); [by subst|]. by rewrite IH.
Qed.
(** The fields are collected in their order; one round per field is enough. *)
Lemma scan_fields_flat fs fuel acc :
  Forall flat_field fs -> NoDup (acc.*1 ++ fs.*1) -> length fs <= fuel ->
  scan_fields fuel (fields_text fs) acc = acc ++ (lua_field <$> fs).
Proof.
  revert fuel acc. induction fs as [|f fs IH]; intros fuel acc Hfs Hnd Hfuel.
  { rewrite app_nil_r. by destruct fuel. }
  destruct fuel as [|fuel]; [cbn in Hfuel; lia|]. apply Forall_cons in Hfs as [Hf Hfs].
  assert (Hne : forall t, nonempty (field_text f +:+ t) = true) by (intros; unfold field_text, key_text; by rewrite !str_app_cons).
  assert (Hset : set_field acc f.1 (lua_value f.2) = acc ++ [lua_field f]).
  { apply set_field_new. intros Hin. apply NoDup_app in Hnd as (_ & Hd & _). apply (Hd f.1 Hin). by left. }
  destruct fs as [|g fs]; cbn [scan_fields].
  - change (fields_text [f]) with (field_text f +:+ String "}" EmptyString). rewrite Hne, scan_field_flat by done.
    cbv zeta. rewrite Hset. done.
  - change (fields_text (f :: g :: fs)) with (field_text f +:+ String "," (fields_text (g :: fs))).
    rewrite Hne, scan_field_flat by done. cbv zeta. rewrite Hset.
    assert (Hq : exists t, fields_text (g :: fs) = String quote t).
    { destruct fs as [|h fs]; unfold fields_text, field_text, key_text; rewrite !str_app_cons; by eexists. }
    destruct Hq as [t Hq]. rewrite Hq.
    change (skip_while _ (String "," (String quote t))) with (String quote t). cbn [first_char].
    change (chr "}" quote) with false. cbv iota. rewrite <- Hq. rewrite IH; [by rewrite <- app_assoc|done| |cbn in *; lia].
    rewrite fmap_app, <- app_assoc. done.
Qed.
Lemma length_fields fs : length fs <= strlen (fields_text fs).
Proof.
  induction fs as [|f [|g fs] IH]; [done| |].
  - change (fields_text [f]) with (field_text f +:+ "}"). rewrite strlen_app. cbn. lia.
  - change (fields_text (f :: g :: fs)) with (field_text f +:+ "," +:+ fields_text (g :: fs)). rewrite !strlen_app.
    cbn [length] in *. cbn [String.length]. lia.
Qed.
Lemma decode_object fs :
  flat fs -> decode_table (object_text fs) = fields_table (("_json"%string, LStr (object_text fs)) :: (lua_field <$> fs)).
Proof.
  intros (Hfs & Hnd & _). unfold decode_table. change (skip_one "{" (object_text fs)) with (fields_text fs).
  rewrite scan_fields_flat; [done|done|done|]. pose proof (length_fields fs). lia.
Qed.

(** *** The envelope *)
Lemma ok_head_fields op rest :
  ok_head op +:+ rest =
  String "{" (field_text ("ok"%string, JNum "true") +:+ String "," (field_text ("op"%string, JStr op) +:+ String "," (key_text "data" +:+ rest))).
Proof. unfold ok_head, field_text. cbn [fst snd val_text]. rewrite !str_app_assoc, ?str_app_cons, ?str_app_assoc. reflexivity. Qed.

Lemma index_missing_then key x fs t :
  sql_ident_ok key = true -> Forall (fun f => field_ok f = true) fs -> Forall (fun f => f.1 <> key) fs -> fs <> [] ->
  String.index 0 (key_text key +:+ x) (fields_text fs +:+ t) =
  option_map (Nat.add (strlen (fields_text fs))) (String.index 0 (key_text key +:+ x) t).
Proof.
  intros Hkey Hok Hm. induction Hok as [|[k v] fs Hf _ IH]; intros Hne; [done|].
  apply Forall_cons in Hm as [Hm Hms]. destruct fs as [|g fs].
  - change (fields_text [(k, v)]) with (field_text (k, v) +:+ String "}" EmptyString). rewrite str_app_assoc.
    change (String "}" EmptyString +:+ t) with (String "}" t).
    rewrite index_past_field by (first [done|by apply misses_prefix; [..|left]]). by rewrite strlen_app.
  - change (fields_text ((k, v) :: g :: fs)) with (field_text (k, v) +:+ String "," (fields_text (g :: fs))).
    rewrite str_app_assoc, (str_app_cons ","). rewrite index_past_field by (first [done|by apply misses_prefix; [..|left]]).
    rewrite IH, add_add by done. rewrite strlen_app. cbn [String.length]. do 2 f_equal. lia.
Qed.

Section envelope.
Context (op : string) (fs : list (string * jval)).
Hypothesis op_plain : str_forall plain_char op = true.
Hypothesis fs_flat : flat fs.
Local Abbreviation resp := (ok_head op +:+ object_text fs +:+ "}").

Lemma not_refused x : In x ["false"; " false"]%string -> contains (key_text "ok" +:+ x) resp = false.
Proof.
  intros Hx. destruct fs_flat as (Hfs & _ & Hne). unfold contains.
  enough (String.index 0 (key_text "ok" +:+ x) resp = None) as -> by done.
  rewrite ok_head_fields, index_step by done.
  rewrite index_past_field by (first [done|repeat (destruct Hx as [<-|Hx]; [done|]); done]).
  rewrite index_past_field; [|done|exact op_plain|done|by apply misses_prefix; [..|left]].
  change (key_text "data" +:+ object_text fs +:+ "}") with
    (String quote (String "d" (String "a" (String "t" (String "a" (String quote (String ":" (String "{" (fields_text fs +:+ "}"))))))))).
  repeat (rewrite index_step1 by (repeat (destruct Hx as [<-|Hx]; [done|]); done)).
  rewrite index_missing_then; [|done|by apply flat_fields_ok| |done].
  2: { eapply Forall_impl; [exact Hfs|]. by intros f (_ & Hf & _). }
  by repeat (destruct Hx as [<-|Hx]; [done|]).
Qed.
Lemma data_at : exists i, String.index 0 (lit "'data':") resp = Some i /\ str_drop (i + 7) resp = object_text fs +:+ "}".
Proof.
  change (lit "'data':") with (key_text "data" +:+ EmptyString). rewrite ok_head_fields, index_step by done.
  rewrite index_past_field; [|done..|by apply misses_prefix; [..|left]].
  rewrite index_past_field; [|done|exact op_plain|done|by apply misses_prefix; [..|left]].
  rewrite str_app_nil_r, index_here. cbn [option_map]. eexists. split; [reflexivity|].
  rewrite <- ok_head_fields. set (pre := lit "{'ok':true,'op':'" +:+ op +:+ lit "',").
  replace (ok_head op +:+ object_text fs +:+ "}") with (pre +:+ key_text "data" +:+ (object_text fs +:+ "}")).
  2: { unfold ok_head, pre. rewrite !str_app_assoc. reflexivity. }
  change 7 with (strlen (key_text "data")). apply drop_found. unfold pre, field_text. cbn [fst snd val_text].
  rewrite !strlen_app. simpl. rewrite !strlen_app. simpl. lia.
Qed.

(** A response whose data is a flat object is read as the table of its fields. *)
Lemma read_object : read_response true resp = inl (fields_table (("_json"%string, LStr (object_text fs)) :: (lua_field <$> fs))).
Proof.
  unfold read_response. change (lit "'ok':false") with (key_text "ok" +:+ "false"). change (lit "'ok': false") with (key_text "ok" +:+ " false").
  rewrite !not_refused by (cbn; auto). cbn [orb]. destruct data_at as (i & -> & ->).
  change (skip_while blank (object_text fs +:+ "}")) with (object_text fs +:+ "}"). cbv zeta.
  change (first_char (object_text fs +:+ "}")) with "{"%char. rewrite ends_brace_app.
  change (String.prefix "null" (object_text fs +:+ "}")) with false. change (String.prefix "true" (object_text fs +:+ "}")) with false.
  change (String.prefix "false" (object_text fs +:+ "}")) with false. cbv iota. change (opens "{" ) with true. cbn [andb].
  rewrite trim_object, decode_object by apply fs_flat || done. done.
Qed.
End envelope.

(** ** A call, from the script to the daemon's numbers and back *)
Lemma strip_eol_brace s : strip_eol (s +:+ "}") = s +:+ "}".
Proof. induction s as [|c s IH]; [done|]. rewrite str_app_cons. cbn [strip_eol]. rewrite IH. by destruct s. Qed.
Lemma envelope_line op fs :
  str_forall plain_char op = true -> flat fs ->
  let text := ok_head op +:+ object_text fs +:+ "}" in
  free lf text /\ cstr text = text /\ text <> EmptyString /\ strip_eol text = text.
Proof.
  intros Hop (Hfs & _). cbv zeta. pose proof (flat_fields_ok fs Hfs) as Hok.
  assert (H : forall c, foreign c -> c <> "["%char -> free c (ok_head op +:+ object_text fs +:+ "}")).
  { intros c Hc _. pose proof Hc as (_ & Hp & Hin). rewrite !not_elem_of_cons in Hin. destruct Hin as (_ & _ & Hb & Hcm & Hcb & _).
    rewrite ok_head_fields. apply free_more; [done|].
    apply free_app; [by apply field_free|]. apply free_more; [done|].
    apply free_app; [apply field_free; [done|exact Hop]|]. apply free_more; [done|].
    apply free_app; [|apply free_app; [by apply object_free|by apply free_more]].
    pose proof (field_free c ("data"%string, JNum EmptyString) Hc eq_refl) as Hd. unfold field_text in Hd. cbn [fst snd val_text] in Hd.
    by rewrite str_app_nil_r in Hd. }
  pose proof (H _ foreign_nul ltac:(done)) as Hn. split_and!.
  - by apply H; [apply foreign_lf|].
  - by apply cstr_free.
  - by rewrite ok_head_fields.
  - rewrite <- str_app_assoc. apply strip_eol_brace.
Qed.

Section calls.
Context `{!LuaLib} (envs : nat -> ctl_call_env) (s : ctl_lua).
Local Abbreviation env := (envs (cs_calls s)).
Definition asked (req : string) : ctl_lua := s <| cs_calls := S (cs_calls s) |> <| cs_sent := cs_sent s ++ [request_line req] |>.

(** A request that is answered with an object gives the table of its fields. *)
Lemma ipc_call_object req op fs outs :
  let text := ok_head op +:+ object_text fs +:+ "}" in
  str_forall plain_char op = true -> flat fs ->
  delivers_line (cc_ipc env) outs text -> cc_malloc env = true ->
  strlen req + 2 <= CPE_IPC_LINE_MAX -> strlen text + 2 <= CPE_IPC_LINE_MAX ->
  strlen (str_dflt (cs_sock s) CPE_IPC_SOCK_DEFAULT) < SUN_PATH_MAX ->
  ipc_call envs req s =
  Safe (inl [fields_table (("_json"%string, LStr (object_text fs)) :: (lua_field <$> fs))], asked req).
Proof.
  cbv zeta. intros Hop Hfs Hd Hm Hreq Htext Hpath.
  destruct (envelope_line op fs Hop Hfs) as (Hlf & Hc & Hne & Heol).
  unfold ipc_call, mbind, cfun_bind, get_state. cbv beta iota zeta.
  rewrite (client_receives _ _ _ _ outs) by (done || unfold CPE_IPC_LINE_MAX in *; lia).
  unfold set_state. cbv beta iota zeta. change (negb (0 =? 0)%Z) with false. cbv iota.
  rewrite Hc, Hm, read_object by done. done.
Qed.
End calls.

(** The object that [tcp_stats] answers with. *)
Definition stats_fields (snap : cpe_tcp_snapshot) : list (string * jval) :=
  let loss := cpe_tcp_loss_hint (sn_syn_total snap) (sn_fin_total snap) (sn_rst_total snap) (sn_syn_retrans_total snap) in
  [("nflog_group", JNum (fmt_u (sn_nflog_group snap))); ("syn", JNum (fmt_u (sn_syn_total snap)));
   ("fin", JNum (fmt_u (sn_fin_total snap))); ("rst", JNum (fmt_u (sn_rst_total snap)));
   ("syn_retrans", JNum (fmt_u (sn_syn_retrans_total snap))); ("pkts", JNum (fmt_u (sn_pkt_total snap)));
   ("bytes", JNum (fmt_u (sn_bytes_total snap))); ("remotes", JNum (fmt_u (Z.of_nat (length (sn_remotes snap)))));
   ("prefixes", JNum (fmt_u (Z.of_nat (length (sn_prefixes snap))))); ("prefix_len", JNum (fmt_u (sn_prefix_len snap)));
   ("loss_hint", JNum (fmt_f 4 (d_of_f loss))); ("ts", JStr (sn_ts_iso snap)); ("pkts_parsed", JNum (fmt_u (sn_pkts_parsed snap)))]%string.
Lemma tcp_stats_text {P C} out_sz (a : agent P C) :
  op_tcp_stats out_sz a = respond out_sz (ok_head "tcp_stats" +:+ object_text (stats_fields (tcp_snap (ag_tcp a))) +:+ "}").
Proof.
  unfold op_tcp_stats. cbv zeta. f_equal. unfold object_text, stats_fields, cpe_agent_tcp_snapshot. cbn [fields_text].
  unfold field_text, key_text, val_text. cbn [fst snd]. repeat first [rewrite str_app_cons|rewrite str_app_assoc]. reflexivity.
Qed.
(** The daemon's numbers as they can be printed. *)
Record stats_ok (snap : cpe_tcp_snapshot) : Prop := {
  so_totals : totals_wf snap;
  so_group : in_u32 (sn_nflog_group snap);
  so_prefix_len : in_u32 (sn_prefix_len snap);
  so_parsed : in_u64 (sn_pkts_parsed snap);
  so_loss : finite (d_of_f (cpe_tcp_loss_hint (sn_syn_total snap) (sn_fin_total snap) (sn_rst_total snap) (sn_syn_retrans_total snap)));
  so_ts : flat_val (JStr (sn_ts_iso snap));
}.
Lemma stats_flat snap : stats_ok snap -> flat (stats_fields snap).
Proof.
  intros [(H1 & H2 & H3 & H4 & H5 & H6) H7 H8 H9 H10 H11]. unfold in_u32, in_u64 in *. split_and!; [|by apply (bool_decide_unpack _); vm_compute|done].
  assert (Hd : forall k n, sql_ident_ok k = true -> k <> "ok"%string -> strlen k < KEY_SIZE -> (0 <= n)%Z -> flat_field (k, JNum (fmt_u n))).
  { intros k n Hk Ho Hl Hn. split_and!; [done..|]. right. right. by apply fmt_u_decimal. }
  unfold stats_fields. cbv zeta. unfold KEY_SIZE in Hd.
  repeat (apply Forall_cons; split; [first
    [ apply Hd; [done|done|cbn; lia|lia]
    | split_and!; [done|done|cbn; unfold KEY_SIZE; lia|]; first [exact H11|right; right; by apply fmt_f_decimal] ]|]).
  by apply Forall_nil.
Qed.

Section stats.
Context `{!LuaLib} {P C : Type} (envs : nat -> ctl_call_env) (s : ctl_lua) (a : agent P C).
Local Abbreviation env := (envs (cs_calls s)).
Local Abbreviation snap := (tcp_snap (ag_tcp a)).

(** C8: [cpe.tcp_stats()] of the control client: when the daemon's answer to the request
    arrives, in whatever pieces, the script gets a table whose fields are the daemon's counters
    (as the nearest floating-point numbers) and its time stamp, with the daemon's object
    verbatim under [_json]; the client sent one request line, which the daemon reads as
    that operation, and nothing else of the client's state changed. *)
Theorem script_reads_stats text outs :
  stats_ok snap -> op_tcp_stats CPE_IPC_LINE_MAX a = Some text -> strlen text + 2 <= CPE_IPC_LINE_MAX ->
  delivers_line (cc_ipc env) outs text -> cc_malloc env = true ->
  strlen (str_dflt (cs_sock s) CPE_IPC_SOCK_DEFAULT) < SUN_PATH_MAX ->
  exists t, ctl_call envs "tcp_stats" [] s =
      Safe (inl [t], s <| cs_calls := S (cs_calls s) |> <| cs_sent := cs_sent s ++ [request_line (op_text "tcp_stats")] |>) /\
    IpcRequest.json_get_str (op_text "tcp_stats") "op" IPC_OP_MAX = (0%Z, "tcp_stats"%string) /\
    text = ok_head "tcp_stats" +:+ object_text (stats_fields snap) +:+ "}" /\
    get_field t "_json" = LStr (object_text (stats_fields snap)) /\
    get_field t "syn" = LNum (d_of_Z (sn_syn_total snap)) /\ get_field t "fin" = LNum (d_of_Z (sn_fin_total snap)) /\
    get_field t "rst" = LNum (d_of_Z (sn_rst_total snap)) /\
    get_field t "syn_retrans" = LNum (d_of_Z (sn_syn_retrans_total snap)) /\
    get_field t "pkts" = LNum (d_of_Z (sn_pkt_total snap)) /\ get_field t "bytes" = LNum (d_of_Z (sn_bytes_total snap)) /\
    get_field t "pkts_parsed" = LNum (d_of_Z (sn_pkts_parsed snap)) /\ get_field t "ts" = LStr (sn_ts_iso snap).
Proof.
  intros Hok Ht Hl Hd Hm Hp. pose proof (stats_flat snap Hok) as Hflat.
  rewrite tcp_stats_text in Ht. unfold respond in Ht. destruct (_ <=? _); [done|]. injection Ht as <-.
  eexists. split; [apply (ipc_call_object envs s (op_text "tcp_stats") "tcp_stats" (stats_fields snap) outs); try done; apply Nat.leb_le; vm_compute; reflexivity|].
  destruct Hok as [(H1 & H2 & H3 & H4 & H5 & H6) _ _ H9 _ _].
  assert (Hu : forall n, in_u64 n -> lua_value (JNum (fmt_u n)) = LNum (d_of_Z n)).
  { intros n Hn. cbn [lua_value]. unfold in_u64 in Hn. destruct (decimal_first _ (fmt_u_decimal n ltac:(lia))) as (c & t & He & Hc).
    rewrite <- (strtod_fmt_u n Hn), He. by destruct c as [[] [] [] [] [] [] [] []]. }
  assert (H64 : forall n, in_u32 n -> in_u64 n) by (unfold in_u32, in_u64; lia).
  rewrite <- !Hu by auto. by split_and!.
Qed.
End stats.

(** ** The prompt *)
Section prompt.
Context `{!LuaLib} `{!LuaLoad} (envs : nat -> ctl_call_env).

(** Requests never leave the model, so neither do scripts; the socket's name stays. *)
Lemma ipc_call_keeps sock req : keeps (fun s => cs_sock s = sock) (ipc_call envs req).
Proof.
  apply keeps_get. intros s Hs. cbv beta zeta. destruct (cpe_ipc_client_request _ _ _ _ _) as [[[[rc resp] err] sent] closed].
  apply (keeps_bind (fun s => cs_sock s = sock)); [|intros _| exact Hs].
  - intros s1 _. by eexists.
  - destruct (negb _); [apply keeps_error|]. destruct (read_response _ _); auto with lua.
Qed.
Lemma ctl_call_keeps sock f args : keeps (fun s => cs_sock s = sock) (ctl_call envs f args).
Proof.
  pose proof (ipc_call_keeps sock) as Hi. unfold ctl_call. destruct (find _ _) as [[name fn]|] eqn:E; [|apply keeps_error].
  apply find_some in E as [E _]. unfold cpe_funcs in E.
  repeat (destruct E as [[= <- <-]|E]; [first
    [ apply Hi
    | apply keeps_bind; [auto with lua|intros; apply Hi]
    | apply keeps_bind; [apply keeps_get; intros s Hs; by eexists|auto with lua] ]|]). done.
Qed.
Lemma run_script_keeps loaded s err :
  safe_with (fun r => (r.1.1 = 0 \/ r.1.1 = -1)%Z /\ cs_sock r.2 = cs_sock s) (run_script envs loaded s err).
Proof.
  unfold run_script. destruct loaded as [c|e]; cbn [run_loaded].
  - destruct (run_chunk_keeps _ (ctl_call envs) c (fun f args => ctl_call_keeps (cs_sock s) f args) s eq_refl) as ([r s1] & -> & Hs).
    chk_step. destruct r as [vs|e]; apply safe_ret; cbn in *; auto.
  - chk_step. apply safe_ret. cbn. auto.
Qed.
Lemma eval_line_keeps line s : safe_with (fun s' => cs_sock s' = cs_sock s) (eval_line envs line s).
Proof.
  unfold eval_line. eapply safe_bind; [apply run_script_keeps|]. intros [[rc e] s1] [_ H1]. cbn in H1. destruct (negb _).
  - eapply safe_bind; [apply run_script_keeps|]. intros [[rc2 e2] s2] [_ H2]. cbn in H2. apply safe_ret. destruct (negb _); cbn; congruence.
  - apply safe_ret. by destruct (last _).
Qed.

(** The lines evaluated: those with text before the first exit word. *)
Fixpoint session (lines : list string) : list string :=
  match lines with
  | [] => []
  | line :: rest =>
      if negb (nonempty line) then session rest
      else if streq line "quit" || streq line "exit" then [] else line :: session rest
  end.
Fixpoint eval_all (lines : list string) (s : ctl_lua) : chk ctl_lua :=
  match lines with [] => mret s | line :: rest => s ← eval_line envs line s; eval_all rest s end.
Lemma ctl_repl_session lines s :
  repl_loop envs lines s = (s' ← eval_all (session lines) s; mret (s', HistoryAdd <$> session lines)).
Proof.
  revert s. induction lines as [|line rest IH]; intros s; [done|]. cbn [repl_loop session].
  destruct (negb (nonempty line)); [done|]. destruct (_ || _); [done|]. cbn [eval_all].
  destruct (eval_line envs line s) as [s1|]; [|done]. cbn [mbind chk_bind]. rewrite IH. by destruct (eval_all _ _).
Qed.
Lemma eval_all_keeps lines s : safe_with (fun s' => cs_sock s' = cs_sock s) (eval_all lines s).
Proof.
  revert s. induction lines as [|line rest IH]; intros s; [by apply safe_ret|]. cbn [eval_all].
  eapply safe_bind; [apply eval_line_keeps|]. intros s1 H1. cbn in H1. rewrite <- H1. apply IH.
Qed.
(** The prompt ends with 0, whatever is typed and answered: it evaluates the lines of the
    session in their order and hands exactly these to the history. *)
Lemma repl_ends s history_path lines :
  exists s0 s', eval_all (session lines) s0 = Safe s' /\ cs_stack s0 = cs_stack s /\ cs_sock s' = cs_sock s /\
    cpe_ctl_lua_repl envs (Some s) history_path lines =
    Safe (0%Z, Some s', [HistoryLoad (history_file history_path)] ++ (HistoryAdd <$> session lines) ++ [HistorySave (history_file history_path)]).
Proof.
  unfold cpe_ctl_lua_repl. set (s0 := s <| cs_out := _ |>). destruct (eval_all_keeps (session lines) s0) as (s' & Hrun & Hs').
  exists s0, s'. split_and!; [done..|]. rewrite ctl_repl_session, Hrun. done.
Qed.
End prompt.

(** ** Instances *)
#[local] Existing Instance toy_lua.
Definition pass (r : list lval + lval) : chunk := match r with inl vs => Return vs | inr e => Raise e end.
Definition poll_and_fail : chunk := CallC "tcp_poll" [] (fun _ => Raise (LStr "attempt to compare")).
#[local] Instance toy_load : LuaLoad := {|
  load_string := fun src =>
    if streq src "return cpe.tcp_poll() < 1" || streq src "cpe.tcp_poll() < 1" then inl poll_and_fail
    else if streq src "return cpe.emit()" then inl (CallC "emit" [] pass)
    else if streq src " return 5" then inl (Return [LInt 5])
    else if streq src "local x = 1" then inl (Return [])
    else inr (LStr "syntax error");
  load_file := fun _ => inr (LStr "cannot open") |}.
Definition answers (text : string) (_ : nat) : ctl_call_env := {|
  cc_ipc := {| ce_socket := 5; ce_socket_err := EmptyString; ce_connect_err := None; ce_send_err := None;
               ce_recvs := [ClData (str_take 9 text); ClData (str_drop 9 text +:+ String lf EmptyString)]; ce_recv_err := EmptyString |};
  cc_malloc := true |}.
Definition toy_ctl : option ctl_lua := cpe_ctl_lua_create true true None.
Definition typed (text : string) (lines : list string) : chk (option (list string * list string * list string * list lval)) :=
  r ← cpe_ctl_lua_repl (answers text) toy_ctl None lines;
  mret (option_map (fun s => (tail (cs_out s), cs_err s, cs_sent s, cs_stack s)) r.1.2).

(** A table is printed with its raw text; an unknown value ends the reading of the fields. *)
Example emit_printed :
  typed (lit "{'ok':true,'op':'emit','data':{'lines':12,'skip':null,'x':1}}") ["cpe.emit()"; "quit"; "cpe.emit()"]%string =
  Safe (Some (["{_json=" +:+ lit "{'lines':12,'skip':null,'x':1}" +:+ ", lines=12}"], [], [lit "{'op':'emit'}" +:+ String lf EmptyString], [])).
Proof. vm_compute. reflexivity. Qed.
(** A line that fails while it runs is run again: its requests are sent twice. *)
Example failing_line_runs_twice :
  typed (lit "{'ok':true,'op':'tcp_poll','data':{'pkts':3}}") ["cpe.tcp_poll() < 1"]%string =
  Safe (Some ([], ["error: attempt to compare"]%string,
    [lit "{'op':'tcp_poll','max':64}" +:+ String lf EmptyString; lit "{'op':'tcp_poll','max':64}" +:+ String lf EmptyString], [])).
Proof. vm_compute. reflexivity. Qed.
(** What a line leaves when only its second form compiles is printed by the next one. *)
Example late_result :
  typed EmptyString [" return 5"]%string = Safe (Some ([], [], [], [LInt 5])) /\
  typed EmptyString [" return 5"; "local x = 1"]%string = Safe (Some (["5"]%string, [], [], [])).
Proof. vm_compute. by split. Qed.
(** A quoted value cut at the buffer's size: its rest is taken for keys. *)
Example long_value_misread :
  match read_response true (lit "{'ok':true,'data':{'a':'" +:+ pad0 260 "z" +:+ lit "','b':7}}") with
  | inl t => get_field t "b" = LNil /\ get_field t "a" = LStr (pad0 255 EmptyString)
  | inr _ => False
  end.
Proof. vm_compute. by split. Qed.

Definition counted : cpe_tcp_snapshot := snapshot_zero <| sn_syn_total := 7%Z |> <| sn_pkt_total := 4294967295%Z |>
  <| sn_rst_total := 1%Z |> <| sn_ts_iso := "2026-01-02T03:04:05.000Z"%string |>.
Definition counting (a : agent nat nat) : agent nat nat := a <| ag_tcp := (ag_tcp a) <| tcp_snap := counted |> |>.
Definition stats_agent : agent nat nat := counting toy_agent.
Definition stats_answer : string := ok_head "tcp_stats" +:+ object_text (stats_fields counted) +:+ "}".
Definition connected : ctl_lua :=
  {| cs_sock := CPE_IPC_SOCK_DEFAULT; cs_stack := []; cs_out := []; cs_err := []; cs_calls := 0; cs_sent := [] |}.
Lemma counted_ok : stats_ok counted.
Proof.
  split; [repeat split; cbn; lia|split; cbn; lia|split; cbn; lia|split; cbn; lia|vm_compute; exact I|].
  split_and!; [reflexivity|reflexivity|apply Nat.ltb_lt; vm_compute; reflexivity].
Qed.
Lemma script_reads_stats_witness :
  exists t, ctl_call (answers stats_answer) "tcp_stats" [] connected =
      Safe (inl [t], connected <| cs_calls := 1 |> <| cs_sent := [request_line (op_text "tcp_stats")] |>) /\
    get_field t "syn" = LNum (d_of_Z 7) /\ get_field t "pkts" = LNum (d_of_Z 4294967295).
Proof.
  destruct (script_reads_stats (answers stats_answer) connected stats_agent stats_answer
    [str_take 9 stats_answer; str_drop 9 stats_answer +:+ String lf EmptyString] counted_ok) as (t & Hrun & _ & _ & _ & Hsyn & _ & _ & _ & Hpk & _).
  - vm_compute. reflexivity.
  - apply Nat.leb_le. vm_compute. reflexivity.
  - split_and!; [done..| |vm_compute; reflexivity]. apply Forall_cons. split; [apply Nat.ltb_lt; vm_compute; reflexivity|].
    apply Forall_singleton, Nat.ltb_lt. vm_compute. reflexivity.
  - reflexivity.
  - apply Nat.ltb_lt. vm_compute. reflexivity.
  - exists t. split; [exact Hrun|]. split; [exact Hsyn|exact Hpk].
Defined.
