(* ===== verification/CtlLuaMain.v ===== *)
(** * The control client of a build with Lua (src/agent/ctl_main.c)

    The command line of [CtlMain] with the interpreter of [CtlLua]: a script file, a chunk
    and the prompt, each only when nothing failed before, and the prompt after the status. *)

From Stdlib Require Import Ascii.
From S2P Require Import Prelude CStr StrSearch HttpPost IpcServer IpcClient LuaApi ChQuery CtlMain CtlLua.

Section main.
Context `{!LuaLib} `{!LuaLoad} (envs : nat -> ctl_call_env).
(** The allocations of [cpe_ctl_lua_create], and what linenoise returns before [NULL]. *)
Context (calloc_ok newstate_ok : bool) (lines : list string).
Local Abbreviation create sock := (cpe_ctl_lua_create calloc_ok newstate_ok (Some sock)).

Definition out_text (ls : list string) : string := concat_str (line <$> ls).
(** What the process leaves: [before] is what was printed and sent without Lua. *)
Definition leave (before : ctl_result) (rc : Z) (s : ctl_lua) : ctl_result := {|
  cr_exit := rc; cr_out := cr_out before +:+ out_text (cs_out s); cr_err := cr_err before +:+ out_text (cs_err s);
  cr_sent := cr_sent before +:+ concat_str (cs_sent s) |}.
Definition nothing_yet : ctl_result := {| cr_exit := 0; cr_out := EmptyString; cr_err := EmptyString; cr_sent := EmptyString |}.

Definition ERR : errbuf := Some (256, EmptyString).
(** A script by the option that names it, when [rc] is still 0. *)
Definition script_step (arg : option string) (run : option ctl_lua -> option string -> errbuf -> chk (Z * errbuf * option ctl_lua))
    (fallback : string) (st : Z * ctl_lua) : chk (Z * ctl_lua) :=
  let '(rc, s) := st in
  match arg with
  | Some src =>
      if (rc =? 0)%Z then
        r ← run (Some s) (Some src) ERR;
        let '(rc2, err, L) := r in
        let s := default s L in
        mret (if negb (rc2 =? 0)%Z
              then (1%Z, s <| cs_err := cs_err s ++ ["cpe_ctl: " +:+ str_dflt (err_text err) fallback] |>) else (rc, s))
      else mret st
  | None => mret st
  end.
Definition prompt (s : ctl_lua) (o : ctl_opts) : chk (Z * ctl_lua) :=
  r ← cpe_ctl_lua_repl envs (Some s) (co_history_file o) lines; mret (r.1.1, default s r.1.2).
Definition prompt_step (o : ctl_opts) (st : Z * ctl_lua) : chk (Z * ctl_lua) :=
  if (st.1 =? 0)%Z && truthy (co_lua_repl o) then prompt st.2 o else mret st.
Definition run_lua (o : ctl_opts) : chk ctl_result :=
  match create (co_sock o) with
  | None => mret (failed lua_unavailable)
  | Some s =>
      st ← script_step (co_lua_file o) (cpe_ctl_lua_dofile envs) "dofile" (0%Z, s);
      st ← script_step (co_lua_eval o) (cpe_ctl_lua_dostring envs) "eval" st;
      st ← prompt_step o st;
      mret (leave nothing_yet st.1 st.2)
  end.
Definition then_prompt (o : ctl_opts) (r : ctl_result) : chk ctl_result :=
  match create (co_sock o) with
  | None => mret r
  | Some s => st ← prompt s o; mret (leave r st.1 st.2)
  end.
Definition cpe_ctl_main_lua := ctl_main_with run_lua then_prompt.

(** ** Exit codes *)
Definition code_ok {A} (st : Z * A) : Prop := st.1 = 0%Z \/ st.1 = 1%Z.
Lemma script_step_code arg run fallback st :
  (forall s src err, safe_with (fun _ => True) (run (Some s) (Some src) err)) -> code_ok st -> safe_with code_ok (script_step arg run fallback st).
Proof.
  intros Hrun Hst. unfold script_step. destruct st as [rc s]. destruct arg as [src|]; [|by apply safe_ret].
  destruct (rc =? 0)%Z; [|by apply safe_ret].
  eapply safe_bind; [apply Hrun|]. intros [[rc2 err] L] _. apply safe_ret. destruct (negb _); [by right|done].
Qed.
Lemma dostring_runs s src err : safe_with (fun _ => True) (cpe_ctl_lua_dostring envs (Some s) (Some src) err).
Proof. unfold cpe_ctl_lua_dostring. eapply safe_bind; [apply run_script_keeps|]. intros r _. by apply safe_ret. Qed.
Lemma dofile_runs s path err : safe_with (fun _ => True) (cpe_ctl_lua_dofile envs (Some s) (Some path) err).
Proof. unfold cpe_ctl_lua_dofile. eapply safe_bind; [apply run_script_keeps|]. intros r _. by apply safe_ret. Qed.
Lemma prompt_code s o : safe_with code_ok (prompt s o).
Proof.
  unfold prompt. destruct (repl_ends envs s (co_history_file o) lines) as (s0 & s' & _ & _ & _ & ->). apply safe_ret. by left.
Qed.
Lemma run_lua_code o : safe_with (fun r => cr_exit r = 0%Z \/ cr_exit r = 1%Z) (run_lua o).
Proof.
  unfold run_lua. destruct (create (co_sock o)) as [s|]; [|apply safe_ret; by right].
  eapply safe_bind; [apply script_step_code; [apply dofile_runs|by left]|]. intros st1 H1.
  eapply safe_bind; [apply script_step_code; [apply dostring_runs|exact H1]|]. intros st2 H2.
  eapply (safe_bind _ _ code_ok).
  - unfold prompt_step. destruct (_ && _); [apply prompt_code|by apply safe_ret].
  - intros st3 H3. by apply safe_ret.
Qed.

(** The command of a build with Lua ends with exit code 0 or 1 whatever the options, the
    scripts, the lines typed and the answers, like the build without, and with the same
    exception. *)
Theorem ctl_lua_exits env argv0 opts operands :
  ch_env_ok (cn_ch env) ->
  ends_with (fun r => cr_exit r = 0%Z \/ cr_exit r = 1%Z) env (cpe_ctl_main_lua env argv0 opts operands).
Proof.
  intros Henv.
  assert (Hrep : forall r, reported argv0 r -> cr_exit r = 0%Z \/ cr_exit r = 1%Z) by (intros ? [[-> _]|[-> _]]; auto).
  assert (Hend : forall r, cr_exit r = 0%Z \/ cr_exit r = 1%Z -> ends_with (fun r => cr_exit r = 0%Z \/ cr_exit r = 1%Z) env (Safe r))
    by (intros; left; by apply safe_ret).
  assert (Hhist : forall o arg, ends_with (fun r => cr_exit r = 0%Z \/ cr_exit r = 1%Z) env (oneshot_history env o arg)).
  { intros o arg. destruct (history_reported argv0 env o arg Henv) as [(x & -> & Hx)|Hov]; [|by right]. apply Hend. by apply Hrep. }
  unfold cpe_ctl_main_lua, ctl_main_with. destruct (ctl_parse _ opts no_opts) as [o|rc] eqn:Ep.
  2: { apply Hend. exact (ctl_parse_code _ _ _ _ Ep). }
  destruct (wants_lua o); [left; apply run_lua_code|].
  destruct operands as [|op rest].
  - destruct (truthy (co_history o)); [apply Hhist|]. unfold run_status. cbv zeta.
    pose proof (Hrep _ (ask_daemon_reported argv0 (cn_ipc env) (co_sock o) (lit "{'op':'status'}") "connect failed" (start_hint argv0))) as Hask.
    destruct (negb _); [by apply Hend|]. unfold then_prompt. destruct (create (co_sock o)) as [s|]; [|by apply Hend].
    destruct (prompt_code s o) as (st & -> & Hst). by apply Hend.
  - unfold run_op. destruct (_ || _).
    + destruct (_ || _); [apply Hhist|]. eapply Hend, Hrep, oneshot_daemon_reported.
    + destruct (truthy _); apply Hend; [by right|eapply Hrep, oneshot_daemon_reported].
Qed.
End main.

(** ** Instances *)
#[local] Existing Instances toy_lua toy_load.
(** A chunk that fails ends the command with 1 and its message, and the prompt is not
    reached. *)
Example ctl_eval_fails :
  match cpe_ctl_main_lua (answers EmptyString) true true ["cpe.emit()"]%string demo_ctl "cpe_ctl"
          [("e"%char, "bad"%string); ("i"%char, EmptyString)] [] with
  | Safe r => cr_exit r = 1%Z /\ cr_err r = line "cpe_ctl: syntax error" /\ cr_out r = EmptyString /\ cr_sent r = EmptyString
  | Oob => False
  end.
Proof. vm_compute. by split_and!. Qed.
