(* ===== verification/Harness.v ===== *)
(** * Harnesses of the agent (src/agent/agent_fuzz.c, src/agent/agent_sim.c,
    src/agent/harness_driver.c, src/fuzz/fuzz_cpe_agent.c)

    The fuzzer's entry, the drive by virtual time and the local tool.  The fuzzer's bytes are
    a [string], read through [rd] of its bytes.  The virtual clock with its timers is the
    class [SimLib], the tool registry a function. *)

From S2P Require Import Prelude CStr Float754 HostAlloc SpoolDir Config Spool Events PerfSample NfFlow Nflog TcpStats.
From S2P Require Import TcpEmit TcpInv Nfct FlowEntry FlowTable FlowAcct Clock AgentData Agent AgentConfig AgentRun AgentLoop.

(** A virtual clock with its timers: [sim_timer_schedule_after] in nanoseconds,
    [sim_clock_advance_ms]; an event says whether a timer fired. *)
Class SimLib (T : Type) := {
  sim_clock_create : bool;
  sim_timer_create : option T;
  sim_timer_schedule_after : T -> Z -> T;
  sim_clock_advance_ms : T -> Z -> T;
}.
Record harness_env := {
  he_lw : Z;                        (* bits of [unsigned long] *)
  he_yaml : string -> yaml_parse;
  he_calloc_agent : bool;
  he_calloc : Z -> option addr;
  he_open : open_env;
  he_clk : nat -> clock;            (* of the ticks *)
}.

Section harness.
Context {P C : Type} `{!PingLib P} {E : Type} `{!EventSource P E} `{!NfctLib C} `{!EventSource C nfct_event}
  {T : Type} `{!SimLib T} `{!EventSource T bool}.
Local Abbreviation agent := (agent P C).
Context (env : harness_env).

Definition drain_events (a : agent) : agent := a <| ag_q := drain_queue (eq_cnt (ag_q a) + 1) (ag_q a) |>.

(** ** agent_fuzz.c *)

(** [size > i ? data[i] : d] *)
Definition byte_or (data : list Z) (i : nat) (d : Z) : chk Z := if i <? length data then rd data i else mret d.
(** The sample made of the leading bytes. *)
Definition fuzz_sample (data : list Z) : chk cpe_perf_sample :=
  let s := perf_sample_zero <| ps_probe := snprintf_s CPE_PERF_PROBE_MAX "ping" |> in
  s ← (if 0 <? length data then
         b0 ← rd data 0; b1 ← byte_or data 1 0; b2 ← byte_or data 2 0; b3 ← byte_or data 3 1;
         mret (s <| ps_target := snprintf_s CPE_PERF_TARGET_MAX
                      (fmt_u (b0 mod 223 + 1) +:+ "." +:+ fmt_u b1 +:+ "." +:+ fmt_u b2 +:+ "." +:+ fmt_u b3) |>
                 <| ps_rtt_ms := d_of_Z b0 |>
                 <| ps_loss := if 1 <? length data then f_div (f_const b1 0) (f_const 255 0) else f_zero |>)
       else mret (s <| ps_target := "0.0.0.0"%string |>));
  mret (s <| ps_ts_iso := "1970-01-01T00:00:00.000Z"%string |> <| ps_meta := "{}"%string |>).

(** The agent as it is destroyed, the allocator's counters and the tick's static counter. *)
Definition run_end : Type := option agent * alloc_stats * Z.
Definition finish (a : agent) (h : alloc_stats) (seq : Z) : run_end := (Some a, (cpe_agent_destroy (Some a) h).2, seq).
(** The configuration may be invalid, and the line is pushed as it is; validation and the
    latency text are called for themselves. *)
Definition cpe_agent_fuzz_config_and_ndjson (input : string) (h : alloc_stats) (seq : Z) : chk run_end :=
  let data := str_bytes input in
  let '(_, cfg, _) := cpe_agent_config_load_yaml_buf (he_lw env) (he_yaml env) (Some input) (Some (64, EmptyString)) in
  match cpe_agent_create (he_calloc_agent env) (he_calloc env) h with
  | (None, h) => mret (None, h, seq)
  | (Some a, h) =>
      let '(_, a, h) := cpe_agent_apply_config (he_open env) (he_calloc env) h a cfg in
      let a := drain_events a in
      s ← fuzz_sample data;
      let '(_, line) := cpe_perf_format_ndjson (Some (str_dflt (router_id cfg) "fuzz")) s CPE_NDJSON_LINE_MAX in
      let '(_, q) := cpe_agent_spool_push_line (ag_q a) line in
      let a := a <| ag_q := q |> in
      flag ← byte_or data 4 0;
      let '(a, seq) := if truthy (Z.land flag 1)
                       then let '(_, a, seq) := cpe_agent_demo_ping_tick (E := E) a seq (he_clk env 0) in (a, seq) else (a, seq) in
      mret (finish a h seq)
  end.

(** ** agent_sim.c *)

(** One demo tick per fired timer; [seq] is the tick's static counter, [n] counts the ticks. *)
Definition on_timer_event (st : agent * Z * nat) (fired : bool) : agent * Z * nat :=
  let '(a, seq, n) := st in
  if fired then let '(_, a, seq) := cpe_agent_demo_ping_tick (E := E) a seq (he_clk env n) in (a, seq, S n) else st.
(** The delay of a tick, and the position behind it. *)
Definition delay_at (data : list Z) (pos : nat) : chk (Z * nat) :=
  if pos + 2 <=? length data then
    lo ← rd data pos; hi ← rd data (pos + 1);
    let d := Z.lor lo (Z.shiftl hi 8) in
    let d := dflt d 1 in
    mret ((if (60000 <? d)%Z then 60000 else d)%Z, pos + 2)
  else mret (10%Z, pos).
Fixpoint tick_loop (ticks : nat) (data : list Z) (pos : nat) (tm : T) (st : agent * Z * nat) : chk (agent * Z * nat) :=
  match ticks with
  | O => mret st
  | S ticks =>
      d ← delay_at data pos;
      let '(delay_ms, pos) := d in
      let tm := sim_timer_schedule_after tm (u64 (delay_ms * 1000000)) in
      let tm := sim_clock_advance_ms tm delay_ms in
      let '(evs, tm) := pull_all tm in
      tick_loop ticks data pos tm (foldl on_timer_event st evs)
  end.
(** The agent, the static counter and the number of ticks. *)
Definition cpe_agent_sim_drive (a : agent) (data : list Z) (seq : Z) : chk (agent * Z * nat) :=
  if negb sim_clock_create then mret (a, seq, 0)
  else match sim_timer_create with
  | None => mret (a, seq, 0)
  | Some tm =>
      r ← (if 0 <? length data then b ← rd data 0; mret (Z.to_nat (b mod 8 + 1), 1) else mret (1, 0));
      let '(ticks, pos) := r in
      tick_loop ticks data pos tm (a, seq, 0)
  end.
Definition cpe_agent_sim_drive_standalone (data : list Z) (h : alloc_stats) (seq : Z) : chk run_end :=
  match cpe_agent_create (he_calloc_agent env) (he_calloc env) h with
  | (None, h) => mret (None, h, seq)
  | (Some a, h) =>
      let '(_, a, h) := cpe_agent_apply_config (he_open env) (he_calloc env) h a
                          (cpe_agent_config_defaults <| demo_mode := 1%Z |>) in
      r ← cpe_agent_sim_drive (drain_events a) data seq;
      let '(a, seq, _) := r in
      mret (finish a h seq)
  end.

(** ** harness_driver.c *)
Record harness_tool := { ht_name : string; ht_description : string; ht_parameters_json : string }.
Definition CPE_TOOL_GET_LOCAL_LATENCY : string := "get_local_latency".
Definition latency_tool : harness_tool := {|
  ht_name := CPE_TOOL_GET_LOCAL_LATENCY;
  ht_description := "Return the last CPE performance sample (rtt_ms, loss, probe, target). Local only; no network.";
  ht_parameters_json := lit "{'type':'object','properties':{}}" |}.
(** [register]: [harness_tool_register] of the context, [None] for a NULL one. *)
Definition cpe_harness_register_tools {H : Type} (register : H -> harness_tool -> Z * H) (h : option H) : Z * option H :=
  match h with
  | None => ((-1)%Z, None)
  | Some h => let '(rc, h) := register h latency_tool in (if negb (rc =? 0)%Z then (-1)%Z else 0%Z, Some h)
  end.
Definition cpe_harness_invoke_local (a : option agent) (name : option string) (out_cap : nat) : Z * string :=
  match a, name with
  | Some a, Some name =>
      if out_cap <? 8 then ((-1)%Z, EmptyString)
      else if negb (streq name CPE_TOOL_GET_LOCAL_LATENCY) then ((-1)%Z, EmptyString)
      else let '(n, out) := cpe_agent_get_local_latency_json a out_cap in (if (n <? 0)%Z then (-1)%Z else 0%Z, out)
  | _, _ => ((-1)%Z, EmptyString)
  end.
End harness.

(** ** fuzz_cpe_agent.c *)
Section fuzzer.
Context {P C : Type} `{!PingLib P} {E : Type} `{!EventSource P E} `{!NfctLib C} `{!EventSource C nfct_event}
  {T : Type} `{!SimLib T} `{!EventSource T bool}.
(** The result and how each part ended; [have_libsim] is the build's choice. *)
Definition LLVMFuzzerTestOneInput (env1 env2 : harness_env) (have_libsim : bool) (input : string) (h : alloc_stats) (seq : Z)
    : chk (Z * list (run_end (P := P) (C := C))) :=
  r ← cpe_agent_fuzz_config_and_ndjson (E := E) env1 input h seq;
  if have_libsim then
    let '(_, h, seq) := r in
    r2 ← cpe_agent_sim_drive_standalone (E := E) (T := T) env2 (str_bytes input) h seq;
    mret (0%Z, [r; r2])
  else mret (0%Z, [r]).
End fuzzer.

(** ** The fuzzer's sample *)
Lemma all_bytes (f : Z -> nat) (k : nat) z :
  forallb (fun n => f (Z.of_nat n) <=? k) (seq 0 256) = true -> in_u8 z -> f z <= k.
Proof.
  intros Hp Hz. rewrite forallb_forall in Hp. specialize (Hp (Z.to_nat z) ltac:(apply in_seq; unfold in_u8 in Hz; lia)).
  apply Nat.leb_le in Hp. rewrite Z2Nat.id in Hp by (unfold in_u8 in Hz; lia). exact Hp.
Qed.
Lemma short_rtt z : in_u8 z -> strlen (fmt_f 3 (d_of_Z z)) <= 8.
Proof. apply (all_bytes (fun z => strlen (fmt_f 3 (d_of_Z z)))). vm_compute. reflexivity. Qed.
Lemma short_loss z : in_u8 z -> strlen (fmt_f 4 (d_of_f (f_div (f_const z 0) (f_const 255 0)))) <= 8.
Proof. apply (all_bytes (fun z => strlen (fmt_f 4 (d_of_f (f_div (f_const z 0) (f_const 255 0)))))). vm_compute. reflexivity. Qed.

Lemma rd_in data i : bytes data -> i < length data -> safe_with in_u8 (rd data i).
Proof. intros Hb Hi. destruct (rd_safe data i Hi) as (x & E & _). exists x. split; [exact E|]. by eapply rd_byte. Qed.
Lemma byte_or_safe data i d : bytes data -> in_u8 d -> safe_with in_u8 (byte_or data i d).
Proof.
  intros Hb Hd. unfold byte_or. destruct (Nat.ltb_spec i (length data)); [by apply rd_in|by apply safe_ret].
Qed.

(** Every sample fits its arrays and prints short numbers. *)
Definition sample_fits (s : cpe_perf_sample) : Prop :=
  perf_sample_wf s /\ strlen (fmt_f 3 (ps_rtt_ms s)) + strlen (fmt_f 4 (d_of_f (ps_loss s))) <= 300.
Lemma fuzz_sample_fits data : bytes data -> safe_with sample_fits (fuzz_sample data).
Proof.
  intros Hb. unfold fuzz_sample. destruct (Nat.ltb_spec 0 (length data)) as [Hl|Hl].
  - destruct (rd_in data 0 Hb Hl) as (b0 & -> & H0). chk_step.
    destruct (byte_or_safe data 1 0 Hb ltac:(done)) as (b1 & -> & H1). chk_step.
    destruct (byte_or_safe data 2 0 Hb ltac:(done)) as (b2 & -> & H2). chk_step.
    destruct (byte_or_safe data 3 1 Hb ltac:(done)) as (b3 & -> & H3). chk_step.
    apply safe_ret. pose proof (short_rtt b0 H0). pose proof (short_loss b1 H1).
    match goal with |- sample_fits ?x =>
      assert (E1 : ps_rtt_ms x = d_of_Z b0) by reflexivity;
      assert (E2 : ps_loss x = if 1 <? length data then f_div (f_const b1 0) (f_const 255 0) else f_zero) by reflexivity end.
    split; [constructor; first [by apply Nat.ltb_lt|apply snprintf_s_length; unfold CPE_PERF_TARGET_MAX; lia]|].
    rewrite E1, E2. destruct (1 <? length data); [lia|]. change (strlen (fmt_f 4 (d_of_f f_zero))) with 6. lia.
  - chk_step. apply safe_ret. split; [constructor; by apply Nat.ltb_lt|]. apply Nat.leb_le. vm_compute. reflexivity.
Qed.
(** So its line is never cut. *)
Lemma fuzz_line_whole rid s :
  sample_fits s -> strlen rid < 64 ->
  cpe_perf_format_ndjson (Some (str_dflt rid "fuzz")) s CPE_NDJSON_LINE_MAX =
  (Z.of_nat (strlen (perf_text (str_dflt rid "fuzz") s)), perf_text (str_dflt rid "fuzz") s).
Proof.
  intros [Hwf Hn] Hr.
  assert (Hname : router_name (Some (str_dflt rid "fuzz")) = str_dflt rid "fuzz") by by destruct rid.
  destruct (perf_format_whole (Some (str_dflt rid "fuzz")) s CPE_NDJSON_LINE_MAX) as [Hrun Hlen];
    [apply Nat.leb_le; vm_compute; reflexivity|].
  rewrite Hname in *. specialize (Hlen Hwf ltac:(by destruct rid; cbn in *; lia) Hn ltac:(apply Nat.leb_le; vm_compute; reflexivity)).
  rewrite Hrun in *. destruct (_ <? _); [done|]. cbn [fst] in Hlen. lia.
Qed.

(** ** The runs keep the agent's invariant *)
Section runs.
Context {P C : Type} `{!PingLib P} {E : Type} `{!EventSource P E} `{!NfctLib C} `{!EventSource C nfct_event}
  {T : Type} `{!SimLib T} `{!EventSource T bool}.
Local Abbreviation agent := (agent P C).
Local Abbreviation run_end := (run_end (P := P) (C := C)).

Lemma wf_config_ok c : config_wf c -> config_ok c.
Proof. intros Hc. pose proof (wf_spool_max_lines _ Hc) as H1. pose proof (wf_flow_sizes _ Hc) as [_ H2]. unfold in_u64, in_u32 in *. split; lia. Qed.

(** A run ended: without an agent, or with one that satisfies [Q]. *)
Definition ended (Q : agent -> Prop) (r : run_end) : Prop := match r.1.1 with Some a => Q a | None => True end.

Lemma fuzz_run_inv env input h seq :
  (0 < he_lw env <= 64)%Z ->
  safe_with (ended agent_inv) (cpe_agent_fuzz_config_and_ndjson (E := E) env input h seq).
Proof.
  intros Hlw. unfold cpe_agent_fuzz_config_and_ndjson. cbv zeta.
  destruct (cpe_agent_config_load_yaml_buf _ _ _ _) as [[rc cfg] err] eqn:Ey. pose proof (load_buf_wf _ _ _ _ _ _ _ Hlw Ey) as Hcfg.
  destruct (cpe_agent_create _ _ _) as [[a|] h1] eqn:Ec; [|by apply safe_ret].
  assert (Ha : agent_inv a).
  { destruct (he_calloc_agent env); [|done]. by eapply create_inv. }
  pose proof (apply_config_inv (he_open env) (he_calloc env) h1 a cfg (wf_config_ok _ Hcfg) Ha) as Ha1.
  destruct (cpe_agent_apply_config _ _ _ _ _) as [[rc1 a1] h2]. cbn [fst snd] in Ha1.
  eapply safe_bind; [apply fuzz_sample_fits, str_bytes_bytes|]. intros s _.
  destruct (cpe_perf_format_ndjson _ _ _) as [n line].
  pose proof (push_line_inv (drain_events a1) line (proj1 (drained_inv a1 Ha1))) as Ha2.
  destruct (cpe_agent_spool_push_line _ _) as [rc2 q]. cbn [snd] in Ha2.
  eapply safe_bind; [by apply byte_or_safe; [apply str_bytes_bytes|]|]. intros flag _.
  destruct (truthy _); [|apply safe_ret; exact Ha2].
  pose proof (demo_inv (E := E) _ seq (he_clk env 0) Ha2) as Hd.
  destruct (cpe_agent_demo_ping_tick _ _ _) as [[rc3 a3] seq3]. apply safe_ret. exact Hd.
Qed.

(** The ticks of one round. *)
Definition fired_count (evs : list bool) : nat := length (filter (fun b : bool => b = true) evs).
Lemma events_inv env evs (st : agent * Z * nat) :
  agent_inv st.1.1 ->
  let st' := foldl (on_timer_event (E := E) env) st evs in agent_inv st'.1.1 /\ st'.2 = st.2 + fired_count evs.
Proof.
  cbv zeta. revert st. induction evs as [|b evs IH]; intros st Ha; cbn [foldl]; [by rewrite Nat.add_0_r|].
  assert (H1 : agent_inv (on_timer_event (E := E) env st b).1.1 /\
    (on_timer_event (E := E) env st b).2 = st.2 + (if b then 1 else 0)).
  { destruct st as [[a seq] n]. unfold on_timer_event. destruct b; [|by rewrite Nat.add_0_r].
    pose proof (demo_inv (E := E) a seq (he_clk env n) Ha) as Hd.
    destruct (cpe_agent_demo_ping_tick _ _ _) as [[rc a1] s1]. split; [exact Hd|]. cbn. lia. }
  destruct H1 as [H1 H2]. destruct (IH _ H1) as [H3 H4]. split; [exact H3|]. rewrite H4, H2.
  unfold fired_count. destruct b; [rewrite filter_cons_True by done|rewrite filter_cons_False by done]; cbn; lia.
Qed.

(** A delay is within its bounds and its bytes are read inside the buffer. *)
Lemma delay_at_safe data pos :
  bytes data -> pos <= length data ->
  safe_with (fun r => (1 <= r.1 <= 60000)%Z /\ pos <= r.2 <= length data) (delay_at data pos).
Proof.
  intros Hb Hp. unfold delay_at. destruct (Nat.leb_spec (pos + 2) (length data)) as [Hl|Hl]; [|apply safe_ret; cbn; lia].
  destruct (rd_in data pos Hb ltac:(lia)) as (lo & -> & Hlo). chk_step.
  destruct (rd_in data (pos + 1) Hb ltac:(lia)) as (hi & -> & Hhi). chk_step. apply safe_ret. cbn [fst snd]. split; [|lia].
  assert (0 <= Z.lor lo (Z.shiftl hi 8))%Z.
  { apply Z.lor_nonneg. unfold in_u8 in *. split; [lia|]. apply Z.shiftl_nonneg. lia. }
  unfold dflt, truthy. repeat case_match; lia.
Qed.

(** A timer whose time has come fires once, and then the clock has no other: [idle] are the
    clocks without a scheduled timer. *)
Context (idle : T -> Prop).
Hypothesis create_idle : forall tm, sim_timer_create = Some tm -> idle tm.
Hypothesis fires_once : forall tm d, idle tm -> (1 <= d <= 60000)%Z ->
  let '(evs, tm') := pull_all (sim_clock_advance_ms (sim_timer_schedule_after tm (d * 1000000)) d) in
  fired_count evs = 1 /\ idle tm'.

Lemma tick_loop_counts env ticks data pos tm (st : agent * Z * nat) :
  bytes data -> pos <= length data -> agent_inv st.1.1 -> idle tm ->
  safe_with (fun r => agent_inv r.1.1 /\ r.2 = st.2 + ticks) (tick_loop (E := E) env ticks data pos tm st).
Proof.
  intros Hb. revert pos tm st. induction ticks as [|ticks IH]; intros pos tm st Hp Ha Hi; cbn [tick_loop].
  { apply safe_ret. by rewrite Nat.add_0_r. }
  eapply safe_bind; [by apply delay_at_safe|]. intros [d pos'] [Hd Hp']. cbn [fst snd] in *.
  rewrite u64_id by (unfold in_u64; lia). pose proof (fires_once tm d Hi Hd) as Hf.
  destruct (pull_all _) as [evs tm']. destruct Hf as [Hf Hi'].
  destruct (events_inv env evs st Ha) as [H1 H2].
  destruct (IH pos' tm' _ ltac:(lia) H1 Hi') as (r & Hrun & Hr & Hn).
  exists r. split; [exact Hrun|]. split; [exact Hr|]. rewrite Hn, H2, Hf. lia.
Qed.

Lemma sim_drive_run env (a : agent) data seq :
  bytes data -> agent_inv a ->
  safe_with (fun r => agent_inv r.1.1 /\
      r.2 = if (sim_clock_create (T := T)) && (match sim_timer_create (T := T) with Some _ => true | None => false end)
            then match data with b :: _ => Z.to_nat (b mod 8 + 1) | [] => 1 end else 0)
    (cpe_agent_sim_drive (E := E) (T := T) env a data seq).
Proof.
  intros Hb Ha. unfold cpe_agent_sim_drive. destruct (sim_clock_create (T := T)); cbn [negb andb]; [|by apply safe_ret].
  destruct sim_timer_create as [tm|] eqn:Et; [|by apply safe_ret].
  destruct data as [|b data].
  - cbn [length Nat.ltb Nat.leb]. chk_step. apply (tick_loop_counts env 1 [] 0 tm (a, seq, 0)); [done|done|done|by apply create_idle].
  - change (0 <? length (b :: data)) with true. cbv iota. change (rd (b :: data) 0) with (Safe b). chk_step.
    apply (tick_loop_counts env _ (b :: data) 1 tm (a, seq, 0)); [done|cbn; lia|done|by apply create_idle].
Qed.

(** the drive by virtual time: on every byte string, also the empty one, it reads
    inside the string, keeps the agent's invariant, and runs exactly the number of ticks that
    the first byte asks for - one to eight, one for the empty string - or none when a clock
    cannot be created. *)
Theorem sim_drive_ticks env (a : agent) data seq :
  bytes data -> agent_inv a ->
  safe_with (fun r => agent_inv r.1.1 /\
      r.2 = if (sim_clock_create (T := T)) && (match sim_timer_create (T := T) with Some _ => true | None => false end)
            then match data with b :: _ => Z.to_nat (b mod 8 + 1) | [] => 1 end else 0)
    (cpe_agent_sim_drive (E := E) (T := T) env a data seq).
Proof. exact (sim_drive_run env a data seq). Qed.

Lemma standalone_inv env data h seq :
  bytes data -> safe_with (ended agent_inv) (cpe_agent_sim_drive_standalone (E := E) (T := T) env data h seq).
Proof.
  intros Hb. unfold cpe_agent_sim_drive_standalone.
  destruct (cpe_agent_create _ _ _) as [[a|] h1] eqn:Ec; [|by apply safe_ret].
  assert (Ha : agent_inv a) by (destruct (he_calloc_agent env); [by eapply create_inv|done]).
  pose proof (apply_config_inv (he_open env) (he_calloc env) h1 a (cpe_agent_config_defaults <| demo_mode := 1%Z |>)
    (wf_config_ok _ defaults_wf) Ha) as Ha1.
  destruct (cpe_agent_apply_config _ _ _ _ _) as [[rc1 a1] h2]. cbn [fst snd] in Ha1.
  eapply safe_bind; [apply (sim_drive_run env (drain_events a1) data seq Hb (proj1 (drained_inv a1 Ha1)))|].
  intros [[a2 seq2] n] [Ha2 _]. apply safe_ret. exact Ha2.
Qed.

(** No input of the fuzzer reaches an error of the model: whatever its bytes, the YAML
    library, the allocator and the clocks, both parts read inside the input and end with an
    agent that satisfies the invariant, and the entry returns 0. *)
Theorem fuzz_input_safe env1 env2 have_libsim input h seq :
  (0 < he_lw env1 <= 64)%Z ->
  safe_with (fun r => r.1 = 0%Z /\ Forall (ended agent_inv) r.2)
    (LLVMFuzzerTestOneInput (E := E) (T := T) env1 env2 have_libsim input h seq).
Proof.
  intros Hlw. unfold LLVMFuzzerTestOneInput. eapply safe_bind; [by apply fuzz_run_inv|]. intros r Hr.
  destruct have_libsim; [|apply safe_ret; by repeat constructor]. destruct r as [[o h1] seq1].
  eapply safe_bind; [apply standalone_inv, str_bytes_bytes|]. intros r2 Hr2. apply safe_ret. by repeat constructor.
Qed.
End runs.

(** ** The local tool *)

(** The tool answers with the whole latency text or fails: only the known name is answered,
    and never with a text that was cut. *)
Lemma local_tool_answers {P C} (a : agent P C) name out_cap :
  cpe_harness_invoke_local (Some a) (Some name) out_cap =
  if streq name CPE_TOOL_GET_LOCAL_LATENCY && (16 <=? out_cap) then
    let text := match ag_last a with Some s => latency_text a s | None => lit "{'available':false}" end in
    if strlen text <? out_cap then (0%Z, text) else ((-1)%Z, str_take (out_cap - 1) text)
  else ((-1)%Z, EmptyString).
Proof.
  unfold cpe_harness_invoke_local. destruct (streq name _); cbn [negb andb].
  2: by destruct (out_cap <? 8).
  unfold cpe_agent_get_local_latency_json. destruct (Nat.ltb_spec out_cap 8) as [H8|H8].
  { by rewrite (proj2 (Nat.leb_gt _ _)) by lia. }
  destruct (Nat.ltb_spec out_cap 16) as [H16|H16]; [by rewrite (proj2 (Nat.leb_gt _ _)) by lia|].
  rewrite (proj2 (Nat.leb_le _ _)) by lia. cbv zeta.
  assert (Hc : forall t, (let '(n, out) := snprintf_checked out_cap t in ((if (n <? 0)%Z then -1 else 0)%Z, out)) =
    if strlen t <? out_cap then (0%Z, t) else ((-1)%Z, str_take (out_cap - 1) t)).
  { intros t. destruct (Nat.ltb_spec (strlen t) out_cap); [rewrite snprintf_checked_ok by done|by rewrite snprintf_checked_overflow].
    by rewrite (proj2 (Z.ltb_ge _ _)) by lia. }
  destruct (ag_last a); apply Hc.
Qed.

(** ** Instances *)
#[local] Existing Instances toy_source toy_lib toy_ping toy_ping_events.
(** Timers that are due as soon as the clock moves. *)
#[local] Instance toy_sim : SimLib nat := {|
  sim_clock_create := true; sim_timer_create := Some 0; sim_timer_schedule_after := fun n _ => S n; sim_clock_advance_ms := fun n _ => n |}.
#[local] Instance toy_timers : EventSource nat bool := {|
  next_event := fun n => match n with O => (None, 0) | S m => (Some true, m) end; queued := fun n => n;
  next_event_decreases := ltac:(runs_dry) |}.
Definition toy_harness : harness_env := {|
  he_lw := 64; he_yaml := fun _ => sample_yaml []; he_calloc_agent := true; he_calloc := fun _ => Some 4096%Z;
  he_open := toy_open; he_clk := fun _ => clock0 |}.
Lemma toy_created_idle (tm : nat) : sim_timer_create = Some tm -> tm = 0.
Proof. intros H. by injection H. Qed.
Lemma toy_fires_once (tm : nat) d : tm = 0 -> (1 <= d <= 60000)%Z ->
  let '(evs, tm') := pull_all (sim_clock_advance_ms (sim_timer_schedule_after tm (d * 1000000)) d) in fired_count evs = 1 /\ tm' = 0.
Proof. intros -> _. by vm_compute. Qed.
Lemma sim_drive_ticks_witness :
  exists a, (cpe_agent_create (P := nat) (C := nat) true (fun _ => Some 4096%Z) cpe_host_alloc_reset_stats).1 = Some a /\
    safe_with (fun r => r.2 = 3) (cpe_agent_sim_drive (E := unit) (T := nat) toy_harness a [10; 0; 0; 255; 255]%Z 0).
Proof.
  destruct (cpe_agent_create (P := nat) (C := nat) true (fun _ => Some 4096%Z) cpe_host_alloc_reset_stats) as [[a|] h] eqn:Ec;
    [|vm_compute in Ec; discriminate].
  exists a. split; [reflexivity|].
  destruct (sim_drive_ticks (E := unit) (T := nat) (fun tm => tm = 0) toy_created_idle toy_fires_once toy_harness
    a [10; 0; 0; 255; 255]%Z 0 ltac:(repeat constructor; unfold in_u8; lia) (create_inv _ _ _ _ Ec)) as (r & Hrun & _ & Hn).
  exists r. split; [exact Hrun|exact Hn].
Defined.
Lemma fuzz_input_safe_witness :
  safe_with (fun r => r.1 = 0%Z)
    (LLVMFuzzerTestOneInput (P := nat) (C := nat) (E := unit) (T := nat) toy_harness toy_harness true "target: x" cpe_host_alloc_reset_stats 0).
Proof.
  destruct (fuzz_input_safe (P := nat) (C := nat) (E := unit) (T := nat) (fun tm => tm = 0) toy_created_idle toy_fires_once
    toy_harness toy_harness true "target: x" cpe_host_alloc_reset_stats 0 ltac:(cbn; lia)) as (r & Hrun & Hr & _).
  exists r. by split.
Defined.
